(* ===== verification/_CoqProject ===== *)
-Q . S2P
Prelude.v
Bytes.v
Float32.v
PressureRing.v
PumpManager.v
PumpSafety.v
CoTypes.v
CoOd.v
CoPdo.v
CoSdo.v
CoNode.v
CoInv.v
CoSafety.v
CoSim.v
CoTransfer.v
CoProps.v
LogRing.v
LogCore.v
LogFlash.v
Watchdog.v
TaskManager.v
Float64.v
DpCatalog.v
Datapoints.v
DpProps.v
FpAuth.v
FpSession.v
Messages.v
Hal.v
PumpTask.v
PumpTaskProps.v
NetworkConfig.v
NetworkConfigProps.v
Command.v
TaskCom.v
TaskComProps.v
CanOpenTask.v
CanOpenSecrecy.v
CanOpenWrite.v
CanOpenProps.v
LocalServer.v
LocalProtocol.v
LocalMailbox.v
LocalServerProps.v
LocalReplay.v
LocalProtocolProps.v
EventManager.v
EventManagerProps.v
Am2302.v
FloatBounds.v
LinkQuality.v
LinkQualityProps.v
PowerMgmt.v
OtaTask.v
FpWs.v
FpTask.v
WlanCom.v
LoggingBridge.v
FactoryConfig.v
StatusLed.v
DataStore.v
MeasureTask.v
Monitor.v
