(* ===== verification/Prelude.v ===== *)
(** * Fountainer: a verification library of the well-pump controller's firmware

    The firmware (ESP-IDF, C, under src/src) drives a well pump from a pressure
    sensor, keeps its configuration in flash, and is operated over a cloud
    WebSocket, a local WebSocket server and a CAN bus.  This library models its
    components as executable definitions and proves what they promise.  Each file
    opens with what it models; this is the plan of the whole.

    ** The program

    Every 200 ms the pump task reads the pressure (hal.c), lets the pure state
    machine (pump_manager.c) decide, switches the relay and mirrors its state into
    the datapoints (datapoints.c), an image described by one catalogue
    (dp_list.def).  Datapoints are the common language of the interfaces: the
    protocol session (fp_session.c, cloud and local), the CANopen slave (co_core.c
    under canopen_task.c) and the network configuration read and write them, and
    they are what NVS keeps.  Control messages are authenticated (fp_auth.c).  The
    WLAN, the link supervision, power management, the firmware update and the LEDs
    communicate through the event manager; the task manager starts and stops the
    tasks, the watchdog supervises them, and the log keeps records in RAM and in
    flash.  main.c wires all this together.

    ** Files and sources (paths under src/src)

    Shared:
    - Prelude: machine integers, results, record setters, lists; Bytes: byte
      buffers; Float32, Float64, FloatBounds: IEEE arithmetic and conversions.
    Pump:
    - PumpManager, PumpSafety: device/pump_manager; Hal: device/hal;
    - PressureRing: components/pressure_history; PumpTask, PumpTaskProps:
      device/pump_task; Command: device/command and the commands of
      network/task_com;
    - Am2302, MeasureTask: device/onewire_am2302, device/task_measure and
      main/task_table; StatusLed: device/status_led.
    Datapoints and configuration:
    - DpCatalog, Datapoints, DpProps: components/datapoints;
    - NetworkConfig, NetworkConfigProps: network/network_config;
    - FactoryConfig: components/factory_config, and the configuration of the
      protocol in network/task_com; DataStore: core/data_store, core/debug.
    CANopen:
    - CoTypes, CoOd, CoPdo, CoSdo, CoNode: components/canopen by section of
      co_core.c; CoInv, CoSafety, CoSim, CoTransfer, CoProps: its theory;
    - CanOpenTask, CanOpenWrite, CanOpenSecrecy, CanOpenProps: device/canopen_task.
    Protocol (components/clientside_protocol, network):
    - FpAuth: fp_auth.c; FpSession: fp_session.c, fp_envelope.c; Messages:
      fountain_msgs.c; FpWs: fp_ws.c; FpTask: fp_task.c;
    - TaskCom, TaskComProps: the callbacks of network/task_com;
    - LocalServer, LocalProtocol, LocalMailbox, LocalReplay, LocalServerProps,
      LocalProtocolProps: network/local_server;
    - WlanCom: network/wlan_com, net_utils and the start of the protocol;
      LinkQuality, LinkQualityProps: link_score, link_quality; OtaTask: ota_task.
    System:
    - LogRing, LogCore, LogFlash, LoggingBridge: components/logging;
    - Watchdog: components/watchdog with main/watchdog_table; TaskManager:
      components/task_manager; EventManager, EventManagerProps:
      components/event_manager;
    - PowerMgmt: core/power_mgmt; Monitor: main/main.c, core/system.

    ** How code becomes definitions

    A C function is one definition of the same name; a long body is cut at its
    comments.  A struct is a record, an enumeration an inductive type.  Integers are
    [Z] with the wrap of their width written out; [float] and [double] are the
    Standard Library's [SpecFloat].  An array access is checked: outside the array
    the result is [OutOfBounds], as for the other undefined behaviour the definitions
    can reach, so a theorem that a result is [Ok] says the C code stays inside its
    arrays.  Where a [float] too large for its integer type occurs in a computation
    that goes on, its conversion is an arbitrary value (class [FloatCvt]).
    [size_t] has 32 bits.

    What is called but not part of the repository is an argument: the heap, cJSON's
    text form, SHA-256, HMAC and base64, NVS (class [NvsApi] with its laws), the
    flash partition (class [Partition]), the drivers and FreeRTOS by what they
    answer.  Classes of the library's own are the callbacks of the CANopen core
    ([CoApp], [CoAppLaws], discharged in CanOpenTask and CanOpenProps) and the
    protocol behind the local server ([LocalProto], discharged in LocalProtocol);
    [NvsBytes] and [PartitionReads] say that stored keys and log entries read back
    are bytes, with an instance in memory each.  Allocations fail where the heap is
    an argument; those of fp_auth.c and fp_ws.c that are taken to succeed are named
    in those files and theorems.

    Where tasks interleave, what runs under a lock (or in one event) is one step,
    and a run is any sequence of steps: TaskManager, EventManager, LocalServer,
    PowerMgmt, FpTask, WlanCom, StatusLed.  Elsewhere the code has one caller or
    holds a mutex for the whole call.

    ** What the theorems show

    - Pump: relay, state and fault agree; faults latch; no update leaves the pump
      running past its limit; starts are limited per rolling hour; the controller
      refines its documented state graph; a broken sensor ends with the relay off,
      through the whole task (PumpSafety, PumpTaskProps).
    - Stores: the pressure ring is a window of the last samples, the log ring a
      drop-oldest queue, records survive in flash until acknowledged, a batch of
      datapoints is all or nothing, every reachable store keeps its types (a
      legacy configuration blob that is adopted must: [legacy_ok]), a saved
      configuration comes back, and a rollback survives power loss at any point
      (PressureRing, LogRing, LogCore, LogFlash, DpProps, NetworkConfigProps).
    - Protocols: the canonical text is the reference one, what is signed verifies,
      every message struct goes through JSON unchanged, frames are reassembled
      whole, and control and the reading of logs and history come only from fresh
      messages that verify under the nonces of their own connection, over the cloud
      and the local server, under every interleaving; datapoint reads need no
      authentication, and the firmware asks for none (FpAuth, Messages, FpWs,
      FpTask, LocalProtocolProps).  The local server loses no session, frame or
      buffer, and everything once it is stopped (LocalServerProps).
    - CANopen: neither the core nor the task's callbacks ever leave their arrays,
      transfers arrive whole, and the stored passwords do not reach the bus, by
      noninterference (CoProps, CanOpenProps, CanOpenWrite, CanOpenSecrecy).
    - System: events are delivered once and in order and become log records, the
      reboot brake holds, power modes stay coherent under any interleaving, the
      link score counts every event, reconnecting never stops, an update activates
      only an attested image, the unit's identity is from one source, the monitor's
      utilization is a percentage (EventManagerProps, LoggingBridge, Watchdog,
      PowerMgmt, LinkQualityProps, WlanCom, OtaTask, FactoryConfig, Monitor).

    Examples at the end of the files fix behaviour on concrete inputs, among them
    the places where the code does something else than it or its documents say.

    ** Fuel and bounds

    A loop without structural measure runs on fuel, and the theorems show the fuel
    is enough: the buffer doublings of [sb_grow] (34, for 32-bit sizes; sizes beyond
    2^31 diverge in C, which [sb_putn_terminates] states), one unit per held record
    in [push_room], [read_since_loop] and [read_previous_loop], one per counted event
    in [ring_fold], one per mapped object in [rpdo_write_loop], the estimate of the
    decimal exponent in [dec_exponent].  Loops over answers of the environment
    (frames received, chunks downloaded) recurse on the list of the answers; that
    list running out is [OutOfFuel], and the theorems ask for one that is long
    enough.

    ** Not modelled

    Build files, the Python tools, the host tests, and data the build embeds
    (versions, default networks, certificates), which are arguments.  The set-up
    calls of drivers whose only effect is inside ESP-IDF (I2C, LEDC, temperature
    sensor, TLS configuration), the diagnostic I2C scan, and the bit timing of the
    WS2812, which busy-waits on the cycle counter.  Log lines, except where they
    become records.  Memory ordering below the steps named above: an access to one
    word, or to a 64-bit time, is taken as one. *)

From stdpp Require Export base numbers list relations strings.
From Stdlib Require Export ZArith Lia.

#[global] Open Scope Z_scope.

(** ** Machine integers

    A C unsigned integer of width [w] is a [Z] in [0, 2^w); every operation
    whose result may leave the range is wrapped explicitly by [u8] .. [u64],
    every conversion to a signed type by [i8] .. [i32]. *)

Definition u8 (z : Z) : Z := z mod 256.
Definition u16 (z : Z) : Z := z mod 65536.
Definition u32 (z : Z) : Z := z mod 4294967296.
Definition u64 (z : Z) : Z := z mod 18446744073709551616.

Definition signed_of (m z : Z) : Z :=
  let r := z mod m in if r <? m / 2 then r else r - m.

Definition i8 (z : Z) : Z := signed_of 256 z.
Definition i16 (z : Z) : Z := signed_of 65536 z.
Definition i32 (z : Z) : Z := signed_of 4294967296 z.

Definition is_u8 (z : Z) : Prop := 0 <= z < 256.
Definition is_u16 (z : Z) : Prop := 0 <= z < 65536.
Definition is_u32 (z : Z) : Prop := 0 <= z < 4294967296.
Definition is_u64 (z : Z) : Prop := 0 <= z < 18446744073709551616.

Create HintDb cint.

Lemma u8_range z : is_u8 (u8 z).
Proof. apply Z.mod_pos_bound; lia. Qed.
Lemma u16_range z : is_u16 (u16 z).
Proof. apply Z.mod_pos_bound; lia. Qed.
Lemma u32_range z : is_u32 (u32 z).
Proof. apply Z.mod_pos_bound; lia. Qed.
Lemma u64_range z : is_u64 (u64 z).
Proof. apply Z.mod_pos_bound; lia. Qed.

Lemma u8_id z : is_u8 z → u8 z = z.
Proof. apply Z.mod_small. Qed.
Lemma u16_id z : is_u16 z → u16 z = z.
Proof. apply Z.mod_small. Qed.
Lemma u32_id z : is_u32 z → u32 z = z.
Proof. apply Z.mod_small. Qed.
Lemma u64_id z : is_u64 z → u64 z = z.
Proof. apply Z.mod_small. Qed.

Lemma u32_u32_add a b : u32 (u32 a + b) = u32 (a + b).
Proof. unfold u32. by rewrite Z.add_mod_idemp_l. Qed.

#[export] Hint Resolve u8_range u16_range u32_range u64_range : cint.

(** [cint] closes arithmetic goals about machine integers: it exposes the
    ranges and the wrap-around and leaves the rest to [lia]. *)
Ltac cint_unfold :=
  unfold is_u8, is_u16, is_u32, is_u64, u8, u16, u32, u64 in *.
Ltac cint := cint_unfold; Z.to_euclidean_division_equations; lia.

(** ** Outcomes of executable definitions

    [Ok] is a normal result; [OutOfBounds] an access outside an array (undefined
    behaviour in C); [OutOfFuel] a loop that used up the fuel of the model. *)

Inductive res (A : Type) : Type :=
  | Ok (a : A)
  | OutOfBounds
  | OutOfFuel.
Arguments Ok {A} a.
Arguments OutOfBounds {A}.
Arguments OutOfFuel {A}.

#[export] Instance res_ret : MRet res := λ A a, Ok a.
#[export] Instance res_bind : MBind res := λ A B f m,
  match m with
  | Ok a => f a
  | OutOfBounds => OutOfBounds
  | OutOfFuel => OutOfFuel
  end.

Definition of_option {A} (o : option A) : res A :=
  match o with Some a => Ok a | None => OutOfBounds end.

(** Array read and array write, both checked. *)
Definition array_get {A} (l : list A) (i : Z) : res A :=
  if decide (0 <= i) then of_option (l !! Z.to_nat i) else OutOfBounds.

Definition array_set {A} (l : list A) (i : Z) (x : A) : res (list A) :=
  if decide (0 <= i < Z.of_nat (length l)) then Ok (<[Z.to_nat i := x]> l)
  else OutOfBounds.

(** [memcpy] into an array at an offset, checked. *)
Definition array_write {A} (l : list A) (i : Z) (xs : list A) : res (list A) :=
  if decide (0 <= i /\ i + Z.of_nat (length xs) <= Z.of_nat (length l))
  then Ok (list_inserts (Z.to_nat i) xs l) else OutOfBounds.

(** [memcpy] out of an array: [n] cells from offset [i], checked. *)
Definition array_read {A} (l : list A) (i n : Z) : res (list A) :=
  if decide (0 <= i /\ 0 <= n /\ i + n <= Z.of_nat (length l))
  then Ok (take (Z.to_nat n) (drop (Z.to_nat i) l)) else OutOfBounds.

Lemma array_get_ok {A} (l : list A) (i : Z) x :
  0 <= i → l !! Z.to_nat i = Some x → array_get l i = Ok x.
Proof. intros ? H. unfold array_get. by rewrite decide_True, H. Qed.

Lemma array_set_ok {A} (l : list A) (i : Z) x :
  0 <= i < Z.of_nat (length l) → array_set l i x = Ok (<[Z.to_nat i := x]> l).
Proof. intros. unfold array_set. by rewrite decide_True. Qed.

Lemma array_write_ok {A} (l : list A) (i : Z) xs :
  0 <= i → i + Z.of_nat (length xs) <= Z.of_nat (length l) →
  array_write l i xs = Ok (list_inserts (Z.to_nat i) xs l).
Proof. intros. unfold array_write. by rewrite decide_True. Qed.

Lemma array_read_ok {A} (l : list A) (i n : Z) :
  0 <= i → 0 <= n → i + n <= Z.of_nat (length l) →
  array_read l i n = Ok (take (Z.to_nat n) (drop (Z.to_nat i) l)).
Proof. intros. unfold array_read. by rewrite decide_True. Qed.

(** ** Safety of a computation

    [safe m Q]: the computation [m] ends normally and its result satisfies [Q];
    it neither leaves an array nor runs out of fuel. *)

Definition safe {A} (m : res A) (Q : A → Prop) : Prop :=
  match m with Ok a => Q a | _ => False end.

Lemma safe_ok {A} (m : res A) Q : safe m Q ↔ ∃ a, m = Ok a ∧ Q a.
Proof. destruct m; cbn; naive_solver. Qed.

Lemma safe_bind {A B} (m : res A) (k : A → res B) (P : A → Prop) Q :
  safe m P → (∀ a, P a → safe (k a) Q) → safe (m ≫= k) Q.
Proof. destruct m; cbn; auto. Qed.

Lemma safe_mono {A} (m : res A) (P Q : A → Prop) : safe m P → (∀ a, P a → Q a) → safe m Q.
Proof. destruct m; cbn; auto. Qed.

Lemma safe_array_get {A} (l : list A) (i : Z) :
  0 <= i < Z.of_nat (length l) → safe (array_get l i) (λ x, l !! Z.to_nat i = Some x).
Proof.
  intros Hi. destruct (lookup_lt_is_Some_2 l (Z.to_nat i) ltac:(lia)) as [x Hx].
  by rewrite (array_get_ok l i x) by (lia || done).
Qed.

Lemma safe_array_set {A} (l : list A) (i : Z) x :
  0 <= i < Z.of_nat (length l) → safe (array_set l i x) (λ l', l' = <[Z.to_nat i := x]> l).
Proof. intros. by rewrite array_set_ok. Qed.

Lemma safe_array_read {A} (l : list A) (i n : Z) :
  0 <= i → 0 <= n → i + n <= Z.of_nat (length l) →
  safe (array_read l i n)
    (λ r, r = take (Z.to_nat n) (drop (Z.to_nat i) l) ∧ Z.of_nat (length r) = n).
Proof.
  intros. rewrite array_read_ok by done. cbn. split; [done|].
  rewrite length_take, length_drop. lia.
Qed.

Lemma safe_array_write {A} (l : list A) (i : Z) xs :
  0 <= i → i + Z.of_nat (length xs) <= Z.of_nat (length l) →
  safe (array_write l i xs)
    (λ r, r = list_inserts (Z.to_nat i) xs l ∧ length r = length l).
Proof. intros. rewrite array_write_ok by done. cbn. by rewrite length_inserts. Qed.

(** ** Error codes of the ESP-IDF that the components return *)

Inductive esp_err :=
  | ESP_OK | ESP_FAIL | ESP_ERR_NO_MEM | ESP_ERR_INVALID_ARG | ESP_ERR_INVALID_STATE
  | ESP_ERR_INVALID_SIZE | ESP_ERR_NOT_FOUND | ESP_ERR_TIMEOUT.

#[export] Instance esp_err_eq_dec : EqDecision esp_err.
Proof. solve_decision. Defined.

(** ** Lists *)

(** The last [n] elements of a list, oldest first. *)
Definition lastn {A} (n : nat) (l : list A) : list A := drop (length l - n) l.

Lemma length_lastn {A} n (l : list A) : length (lastn n l) = Nat.min n (length l).
Proof. unfold lastn. rewrite length_drop. lia. Qed.

Lemma lookup_lastn {A} n (l : list A) i :
  lastn n l !! i = l !! (length l - n + i)%nat.
Proof. unfold lastn. by rewrite lookup_drop. Qed.

(** Pushing past the window drops exactly its oldest element. *)
Lemma lastn_snoc_full {A} n (l : list A) x o :
  (0 < n <= length l)%nat → l !! (length l - n)%nat = Some o →
  o :: lastn n (l ++ [x]) = lastn n l ++ [x].
Proof.
  intros Hn Ho. unfold lastn. rewrite length_app. cbn.
  rewrite drop_app_le by lia.
  rewrite (drop_S l o (length l - n) Ho). cbn. do 3 f_equal. lia.
Qed.

Lemma lastn_all {A} n (l : list A) : (length l <= n)%nat → lastn n l = l.
Proof. intros. unfold lastn. by replace (length l - n)%nat with 0%nat by lia. Qed.

(** Writing a chunk right behind a prefix extends the prefix by the chunk. *)
Lemma take_inserts {A} (l : list A) i xs :
  (i + length xs <= length l)%nat →
  take (i + length xs) (list_inserts i xs l) = take i l ++ xs.
Proof.
  intros Hl. apply list_eq. intros j.
  destruct (decide (j < i + length xs)%nat) as [Hj|Hj].
  - rewrite lookup_take_lt by lia. destruct (decide (j < i)%nat).
    + rewrite list_lookup_inserts_lt, lookup_app_l, lookup_take_lt; [done|lia|..].
      all: rewrite ?length_take; lia.
    + rewrite list_lookup_inserts by lia.
      rewrite lookup_app_r by (rewrite length_take; lia). f_equal. rewrite length_take. lia.
  - rewrite lookup_take_ge by lia. symmetry. apply lookup_ge_None_2.
    rewrite length_app, length_take. lia.
Qed.

(** Case split on the first [if] over a boolean comparison of the goal. *)
Ltac case_bool :=
  match goal with
  | |- context [Z.ltb ?a ?b] => destruct (Z.ltb_spec a b)
  | |- context [Z.leb ?a ?b] => destruct (Z.leb_spec a b)
  | |- context [Z.eqb ?a ?b] => destruct (Z.eqb_spec a b)
  end.

(** ** Circular arrays

    Several components keep the last [cap] items in an array written round
    robin.  [ring_slots d slots hist] says that [slots] is such an array after
    the items [hist] were written, starting from cells holding [d]. *)

Lemma mod_range n a : 0 < n → 0 <= a mod n < n.
Proof. intros. by apply Z.mod_pos_bound. Qed.

Lemma mod_succ_idemp a n : 0 < n → (a mod n + 1) mod n = (a + 1) mod n.
Proof. intros. by rewrite Z.add_mod_idemp_l by lia. Qed.

(** Two indices less than one lap apart occupy different slots. *)
Lemma mod_window_neq n a b : 0 < n → 0 < a - b < n → a mod n ≠ b mod n.
Proof.
  intros Hn Hab Heq.
  assert ((a - b) mod n = 0) as H0.
  { rewrite Zminus_mod, Heq, Z.sub_diag. by apply Z.mod_0_l; lia. }
  rewrite Z.mod_small in H0; lia.
Qed.

(** The slot of history position [i] in an array of [cap] cells. *)
Definition slot_of (cap : nat) (i : nat) : nat :=
  Z.to_nat (Z.of_nat i mod Z.of_nat cap).

Lemma slot_of_lt cap i : (0 < cap)%nat → (slot_of cap i < cap)%nat.
Proof.
  intros. pose proof (mod_range (Z.of_nat cap) (Z.of_nat i) ltac:(lia)).
  unfold slot_of. lia.
Qed.

Lemma slot_of_neq cap i j :
  (0 < cap)%nat → (j < i < j + cap)%nat → slot_of cap i ≠ slot_of cap j.
Proof.
  intros Hc Hij.
  pose proof (mod_window_neq (Z.of_nat cap) (Z.of_nat i) (Z.of_nat j)
    ltac:(lia) ltac:(lia)).
  pose proof (mod_range (Z.of_nat cap) (Z.of_nat i) ltac:(lia)).
  pose proof (mod_range (Z.of_nat cap) (Z.of_nat j) ltac:(lia)).
  unfold slot_of. lia.
Qed.

Lemma slot_of_small cap i : (i < cap)%nat → slot_of cap i = i.
Proof. intros. unfold slot_of. rewrite Z.mod_small by lia. lia. Qed.

Lemma slot_of_sub cap i : (0 < cap <= i)%nat → slot_of cap (i - cap) = slot_of cap i.
Proof.
  intros. unfold slot_of. f_equal.
  replace (Z.of_nat (i - cap)) with (Z.of_nat i + (-1) * Z.of_nat cap) by lia.
  by rewrite Z.mod_add by lia.
Qed.

Record ring_live {A} (slots hist : list A) : Prop := {
  rl_pos : (0 < length slots)%nat;
  rl_live : ∀ i, (i < length hist)%nat → (length hist <= i + length slots)%nat →
    slots !! slot_of (length slots) i = hist !! i
}.

Record ring_slots {A} (d : A) (slots hist : list A) : Prop := {
  rs_live : ring_live slots hist;
  rs_fresh : ∀ i, (length hist <= i < length slots)%nat → slots !! i = Some d;
  rs_perm : slots ≡ₚ lastn (length slots) hist
                    ++ replicate (length slots - length hist) d
}.

Lemma ring_live_push {A} (slots hist : list A) x :
  ring_live slots hist →
  ring_live (<[slot_of (length slots) (length hist) := x]> slots) (hist ++ [x]).
Proof.
  intros [Hpos Hl]. pose proof (slot_of_lt (length slots) (length hist) Hpos).
  split; rewrite length_insert; [done|]. rewrite length_app. cbn [length].
  intros i Hi Hw. destruct (decide (i = length hist)) as [->|].
  - rewrite list_lookup_insert_eq by lia. by rewrite list_lookup_middle.
  - rewrite list_lookup_insert_ne by (apply slot_of_neq; lia).
    rewrite lookup_app_l by lia. apply Hl; lia.
Qed.

Lemma ring_slots_init {A} (d : A) n :
  (0 < n)%nat → ring_slots d (replicate n d) [].
Proof.
  intros Hn. split; [split| |]; rewrite ?length_replicate; cbn; try lia.
  - intros i Hi. apply lookup_replicate_2. lia.
  - by rewrite Nat.sub_0_r.
Qed.

Lemma ring_slots_victim {A} (d : A) slots hist :
  ring_slots d slots hist →
  slots !! slot_of (length slots) (length hist)
  = if decide (length slots <= length hist)%nat
    then hist !! (length hist - length slots)%nat else Some d.
Proof.
  intros [[Hp Hl] Hf _]. case_decide as H.
  - rewrite <- slot_of_sub by lia. apply Hl; lia.
  - rewrite slot_of_small by lia. apply Hf. lia.
Qed.

Lemma insert_perm {A} (l : list A) i o x :
  l !! i = Some o → o :: <[i:=x]> l ≡ₚ x :: l.
Proof.
  intros H. pose proof (lookup_lt_Some _ _ _ H).
  rewrite insert_take_drop by done.
  rewrite <- (take_drop_middle l i o H) at 3.
  rewrite <- !Permutation_middle. apply Permutation_swap.
Qed.

(** The permutation part of [ring_slots_push]. *)
Lemma ring_slots_push_perm {A} (d : A) slots hist x :
  ring_slots d slots hist →
  <[slot_of (length slots) (length hist) := x]> slots
  ≡ₚ lastn (length slots) (hist ++ [x])
     ++ replicate (length slots - length (hist ++ [x])) d.
Proof.
  intros Hr. pose proof (rl_pos _ _ (rs_live _ _ _ Hr)) as Hpos.
  pose proof (ring_slots_victim _ _ _ Hr) as Hv. rewrite length_app. cbn [length].
  case_decide as Hfull.
  - destruct (lookup_lt_is_Some_2 hist (length hist - length slots)%nat ltac:(lia))
      as [o Ho].
    rewrite Ho in Hv. apply (Permutation_cons_inv (a := o)).
    rewrite (insert_perm _ _ _ x Hv), app_comm_cons, (lastn_snoc_full _ _ _ o) by (lia || done).
    rewrite (rs_perm _ _ _ Hr) at 1.
    replace (length slots - length hist)%nat with 0%nat by lia.
    replace (length slots - (length hist + 1))%nat with 0%nat by lia.
    cbn. rewrite !app_nil_r. apply Permutation_cons_append.
  - apply (Permutation_cons_inv (a := d)). rewrite (insert_perm _ _ _ x Hv).
    rewrite (rs_perm _ _ _ Hr) at 1. rewrite !lastn_all by (rewrite ?length_app; cbn; lia).
    replace (length slots - length hist)%nat
      with (S (length slots - (length hist + 1))) by lia.
    cbn. rewrite <- Permutation_middle, <- app_assoc. cbn.
    rewrite <- Permutation_middle. apply Permutation_swap.
Qed.

Lemma ring_slots_push {A} (d : A) slots hist x :
  ring_slots d slots hist →
  ring_slots d (<[slot_of (length slots) (length hist) := x]> slots) (hist ++ [x]).
Proof.
  intros Hr. pose proof (rl_pos _ _ (rs_live _ _ _ Hr)) as Hpos.
  pose proof (slot_of_lt (length slots) (length hist) Hpos).
  split; [by apply ring_live_push, Hr| |rewrite length_insert; by apply ring_slots_push_perm].
  rewrite length_insert, length_app. cbn [length].
  intros i Hi. rewrite list_lookup_insert_ne; [apply (rs_fresh _ _ _ Hr); lia|].
  rewrite slot_of_small by lia. lia.
Qed.

(** ** Record update

    [r <| f := v |>] is the C assignment [r.f = v].  A record declares its eta
    expansion once ([Eta]); [mk_setter] then derives the setter of each field. *)

Class Eta (R : Type) := eta : R → R.
Class Setter {R T : Type} (proj : R → T) := put_field : T → R → R.

Notation "r <| f := v |>" := (put_field (proj := f) v r)
  (at level 1, left associativity, f at level 99, v at level 99,
   format "r  <|  f  :=  v  |>").

Ltac mk_setter :=
  lazymatch goal with
  | |- @Setter ?R ?T ?proj =>
      unfold Setter; let v := fresh "v" in let r := fresh "r" in intros v r;
      let e := eval hnf in (@eta R _ r) in
      lazymatch eval pattern (proj r) in e with
      | ?F _ => let t := eval cbv beta in (F v) in exact t
      end
  end.
