(* ===== verification/Bytes.v ===== *)
(** * Byte buffers: little-endian integers and segments of an array

    Facts shared by the components that serialise into byte arrays (CANopen,
    the log ring, the flash log): an integer comes back from its little-endian
    bytes, and a checked access inside one segment of a concatenation is an
    access to that segment. *)

From S2P Require Import Prelude.

(** ** Bits of a byte *)

Lemma testbit_u8 z i : 0 <= i → Z.testbit (u8 z) i = if i <? 8 then Z.testbit z i else false.
Proof.
  intros Hi. unfold u8. change 256 with (2 ^ 8). case_bool.
  - by rewrite Z.mod_pow2_bits_low.
  - by rewrite Z.mod_pow2_bits_high.
Qed.

(** A byte shifted into place, bit by bit. *)
Lemma testbit_placed z s i :
  0 <= s → 0 <= i →
  Z.testbit (Z.shiftl (u8 (Z.shiftr z s)) s) i
  = (s <=? i) && (i <? s + 8) && Z.testbit z i.
Proof.
  intros Hs Hi. rewrite Z.shiftl_spec by done.
  destruct (Z.leb_spec s i), (Z.ltb_spec i (s + 8)); cbn; try lia.
  - rewrite testbit_u8 by lia. case_bool; [|lia]. rewrite Z.shiftr_spec by lia. f_equal. lia.
  - rewrite testbit_u8 by lia. by case_bool; [lia|].
  - apply Z.testbit_neg_r. lia.
Qed.

Lemma testbit_small z n i : 0 <= z < 2 ^ n → 0 <= n <= i → Z.testbit z i = false.
Proof.
  intros Hz Hi. rewrite <- (Z.mod_small z (2 ^ n)) by done.
  apply Z.mod_pow2_bits_high. lia.
Qed.

(** ** Little-endian integers *)

Lemma le_bytes_u32 v :
  is_u32 v →
  Z.lor (Z.lor (Z.lor (u8 v) (Z.shiftl (u8 (Z.shiftr v 8)) 8))
               (Z.shiftl (u8 (Z.shiftr v 16)) 16)) (Z.shiftl (u8 (Z.shiftr v 24)) 24) = v.
Proof.
  intros Hv. apply Z.bits_inj'. intros i Hi. rewrite !Z.lor_spec.
  pose proof (testbit_placed v 0 i ltac:(lia) Hi) as H0. rewrite Z.shiftl_0_r, Z.shiftr_0_r in H0.
  rewrite H0, !testbit_placed by lia.
  destruct (decide (32 <= i)).
  - rewrite (testbit_small v 32) by (unfold is_u32 in Hv; lia). by rewrite !andb_false_r.
  - destruct (Z.testbit v i); [|by rewrite !andb_false_r]. rewrite !andb_true_r.
    repeat case_bool; cbn; try done; lia.
Qed.

Lemma le_bytes_u16 v : is_u16 v → Z.lor (u8 v) (Z.shiftl (u8 (Z.shiftr v 8)) 8) = v.
Proof.
  intros Hv. apply Z.bits_inj'. intros i Hi. rewrite !Z.lor_spec.
  pose proof (testbit_placed v 0 i ltac:(lia) Hi) as H0. rewrite Z.shiftl_0_r, Z.shiftr_0_r in H0.
  rewrite H0, !testbit_placed by lia.
  destruct (decide (16 <= i)).
  - rewrite (testbit_small v 16) by (unfold is_u16 in Hv; lia). by rewrite !andb_false_r.
  - destruct (Z.testbit v i); [|by rewrite !andb_false_r]. rewrite !andb_true_r.
    repeat case_bool; cbn; try done; lia.
Qed.

(** A signed 32-bit value survives the conversion to unsigned and back. *)
Definition is_i32 (z : Z) : Prop := -2147483648 <= z < 2147483648.

Lemma i32_u32 z : is_i32 z → i32 (u32 z) = z.
Proof.
  unfold is_i32, i32, signed_of, u32. intros Hz. rewrite Z.mod_mod by lia.
  change (4294967296 / 2) with 2147483648. case_bool; Z.to_euclidean_division_equations; lia.
Qed.

(** ** Segments *)

Create Rewrite HintDb zlen.

Definition zlen {A} (l : list A) : Z := Z.of_nat (length l).

Lemma zlen_app {A} (l k : list A) : zlen (l ++ k) = zlen l + zlen k.
Proof. unfold zlen. rewrite length_app. lia. Qed.
Lemma zlen_nil {A} : zlen (@nil A) = 0.
Proof. done. Qed.
Lemma zlen_cons {A} (x : A) l : zlen (x :: l) = 1 + zlen l.
Proof. unfold zlen. cbn [length]. lia. Qed.
Lemma zlen_nonneg {A} (l : list A) : 0 <= zlen l.
Proof. unfold zlen. lia. Qed.
#[export] Hint Rewrite @zlen_app @zlen_nil @zlen_cons : zlen.

(** Reading a segment of a concatenation, and an element of the segment. *)
Lemma array_read_app {A} (pre seg post : list A) i n :
  i = zlen pre → n = zlen seg → array_read (pre ++ seg ++ post) i n = Ok seg.
Proof.
  intros -> ->. unfold zlen. rewrite array_read_ok by (rewrite ?length_app; lia).
  rewrite !Nat2Z.id, drop_app_length, take_app_length. done.
Qed.

Lemma array_get_app {A} (pre : list A) x post i :
  i = zlen pre → array_get (pre ++ x :: post) i = Ok x.
Proof.
  intros ->. unfold zlen. apply array_get_ok; [lia|]. by rewrite Nat2Z.id, list_lookup_middle.
Qed.

Lemma array_get_seg {A} (pre seg post : list A) n x i :
  seg !! n = Some x → i = zlen pre + Z.of_nat n → array_get (pre ++ seg ++ post) i = Ok x.
Proof.
  intros Hx ->. unfold zlen. apply array_get_ok; [lia|].
  replace (Z.to_nat (Z.of_nat (length pre) + Z.of_nat n)) with (length pre + n)%nat by lia.
  rewrite lookup_app_r by lia. replace (length pre + n - length pre)%nat with n by lia.
  by apply lookup_app_l_Some.
Qed.

(** Overwriting a segment by one of the same length. *)
Lemma array_write_app {A} (pre old new post : list A) i :
  i = zlen pre → zlen new = zlen old →
  array_write (pre ++ old ++ post) i new = Ok (pre ++ new ++ post).
Proof.
  intros -> Hl. unfold zlen in *.
  rewrite array_write_ok by (rewrite ?length_app; lia). f_equal. rewrite Nat2Z.id.
  rewrite <- (app_nil_r new) at 1.
  apply list_eq. intros j. destruct (decide (j < length pre)%nat).
  { rewrite list_lookup_inserts_lt by lia. by rewrite !lookup_app_l by lia. }
  rewrite (lookup_app_r _ (new ++ post)) by lia.
  destruct (decide (j < length pre + length new)%nat).
  - rewrite list_lookup_inserts by (rewrite ?length_app, ?app_nil_r; cbn; lia).
    rewrite app_nil_r, lookup_app_l by lia. done.
  - rewrite list_lookup_inserts_ge by (rewrite ?app_nil_r; lia).
    rewrite !lookup_app_r by lia. f_equal. lia.
Qed.

Lemma array_set_write {A} (l : list A) i x : array_set l i x = array_write l i [x].
Proof.
  unfold array_set, array_write. cbn [length].
  destruct (decide (0 <= i < _)), (decide (0 <= i /\ _)); try lia; done.
Qed.

Lemma inserts_app {A} (xs ys : list A) : ∀ i l,
  list_inserts i (xs ++ ys) l = list_inserts i xs (list_inserts (i + length xs) ys l).
Proof.
  induction xs as [|x xs IH]; intros i l; cbn; [by rewrite Nat.add_0_r|].
  rewrite IH. do 3 f_equal. lia.
Qed.

Lemma inserts_comm {A} (xs ys : list A) i l :
  list_inserts (i + length xs) ys (list_inserts i xs l)
  = list_inserts i xs (list_inserts (i + length xs) ys l).
Proof.
  apply list_eq. intros j.
  destruct (decide (j < i)%nat).
  { by rewrite !list_lookup_inserts_lt by lia. }
  destruct (decide (j < length l)%nat); cycle 1.
  { rewrite !lookup_ge_None_2; rewrite ?length_inserts; done || lia. }
  destruct (decide (j < i + length xs)%nat).
  { rewrite list_lookup_inserts_lt by lia. rewrite !list_lookup_inserts by (rewrite ?length_inserts; lia).
    done. }
  rewrite (list_lookup_inserts_ge _ i) by lia.
  destruct (decide (j < i + length xs + length ys)%nat).
  - by rewrite !list_lookup_inserts by (rewrite ?length_inserts; lia).
  - by rewrite !list_lookup_inserts_ge by lia.
Qed.

(** Two writes in a row are one write. *)
Lemma array_write_step {A} (l : list A) i j xs ys l1 :
  array_write l i xs = Ok l1 → j = i + zlen xs → j + zlen ys <= zlen l →
  ∃ l2, array_write l1 j ys = Ok l2 ∧ array_write l i (xs ++ ys) = Ok l2.
Proof.
  intros H -> Hb. unfold array_write, zlen in *. rewrite length_app. case_decide; [|done].
  injection H as <-. rewrite length_inserts. rewrite !decide_True by lia.
  eexists. split; [reflexivity|]. f_equal.
  replace (Z.to_nat (i + Z.of_nat (length xs))) with (Z.to_nat i + length xs)%nat by lia.
  by rewrite inserts_comm, inserts_app.
Qed.

Lemma array_write_nil {A} (l : list A) i : 0 <= i <= zlen l → array_write l i [] = Ok l.
Proof. intros. unfold array_write, zlen in *. by rewrite decide_True by (cbn; lia). Qed.

(** ** C strings *)

(** The characters at a pointer up to the terminating NUL; running off the
    array is an error. *)
Fixpoint c_string (l : list Z) : res (list Z) :=
  match l with
  | [] => OutOfBounds
  | c :: l' => if c =? 0 then Ok [] else s ← c_string l'; Ok (c :: s)
  end.

Lemma c_string_app s post : Forall (λ c, c ≠ 0) s → c_string (s ++ 0 :: post) = Ok s.
Proof.
  induction 1 as [|c s Hc Hs IH]; cbn; [done|].
  rewrite (proj2 (Z.eqb_neq c 0)) by done. by rewrite IH.
Qed.

(** [strlcpy]: what the destination of [n] bytes holds afterwards. *)
Definition strlcpy (n : nat) (src : list Z) : res (list Z) :=
  s ← c_string src; Ok (take (n - 1) s).

(** The characters of a fixed-size field up to a NUL, or all of them. *)
Fixpoint chars_to_nul (l : list Z) : list Z :=
  match l with
  | [] => []
  | c :: l' => if c =? 0 then [] else c :: chars_to_nul l'
  end.

Lemma chars_to_nul_app s post : Forall (λ c, c ≠ 0) s → chars_to_nul (s ++ 0 :: post) = s.
Proof.
  induction 1 as [|c s Hc Hs IH]; cbn; [done|].
  rewrite (proj2 (Z.eqb_neq c 0)) by done. by rewrite IH.
Qed.

(** Four bytes read as an integer and written again. *)
Lemma u8_bits z b s :
  is_u8 b → 0 <= s → (∀ i, 0 <= i < 8 → Z.testbit z (s + i) = Z.testbit b i) →
  u8 (Z.shiftr z s) = b.
Proof.
  intros Hb Hs Hz. apply Z.bits_inj'. intros i Hi. rewrite testbit_u8 by done. case_bool.
  - rewrite Z.shiftr_spec by done. rewrite <- Hz by lia. f_equal. lia.
  - symmetry. apply (testbit_small b 8); [exact Hb|lia].
Qed.

Lemma le_u32_bytes b0 b1 b2 b3 :
  is_u8 b0 → is_u8 b1 → is_u8 b2 → is_u8 b3 →
  let v := Z.lor (Z.lor (Z.lor b0 (Z.shiftl b1 8)) (Z.shiftl b2 16)) (Z.shiftl b3 24) in
  u8 v = b0 ∧ u8 (Z.shiftr v 8) = b1 ∧ u8 (Z.shiftr v 16) = b2 ∧ u8 (Z.shiftr v 24) = b3.
Proof.
  intros H0 H1 H2 H3 v.
  assert (∀ b k i, is_u8 b → 0 <= i → 0 <= k → (i < k ∨ k + 8 <= i) →
    Z.testbit (Z.shiftl b k) i = false) as Hout.
  { intros b k i Hb Hi Hk Hik. rewrite Z.shiftl_spec by done.
    destruct (decide (i < k)); [apply Z.testbit_neg_r; lia|].
    apply (testbit_small b 8); [exact Hb|lia]. }
  assert (∀ k i, 0 <= i → 0 <= k → Z.testbit (Z.shiftl b0 0) i = Z.testbit b0 i) as Hb0
    by (intros; by rewrite Z.shiftl_0_r).
  rewrite <- (Z.shiftr_0_r v) at 1.
  split_and!; (apply u8_bits; [done|lia|]); intros i Hi; subst v;
    rewrite !Z.lor_spec; rewrite <- (Hb0 0 (_ + i)) by lia.
  - rewrite (Hout b1), (Hout b2), (Hout b3) by (done || lia).
    rewrite !orb_false_r, Z.shiftl_0_r. done.
  - rewrite (Hout b0), (Hout b2), (Hout b3) by (done || lia).
    rewrite Z.shiftl_spec by lia. rewrite orb_false_l, !orb_false_r. f_equal. lia.
  - rewrite (Hout b0), (Hout b1), (Hout b3) by (done || lia).
    rewrite Z.shiftl_spec by lia. rewrite orb_false_l, !orb_false_r. f_equal. lia.
  - rewrite (Hout b0), (Hout b1), (Hout b2) by (done || lia).
    rewrite Z.shiftl_spec by lia. rewrite orb_false_l. f_equal. lia.
Qed.

Lemma le_u32_range b0 b1 b2 b3 :
  is_u8 b0 → is_u8 b1 → is_u8 b2 → is_u8 b3 →
  is_u32 (Z.lor (Z.lor (Z.lor b0 (Z.shiftl b1 8)) (Z.shiftl b2 16)) (Z.shiftl b3 24)).
Proof.
  intros H0 H1 H2 H3. unfold is_u8, is_u32 in *.
  assert (∀ a b n, 0 <= n → 0 <= a < 2 ^ n → 0 <= b < 2 ^ n → 0 <= Z.lor a b < 2 ^ n) as Hlor.
  { intros a b n Hn Ha Hb. split; [apply Z.lor_nonneg; lia|].
    destruct (decide (Z.lor a b = 0)) as [->|Hnz]; [lia|].
    apply Z.log2_lt_pow2; [pose proof (proj2 (Z.lor_nonneg a b)); lia|].
    rewrite Z.log2_lor by lia. apply Z.max_lub_lt.
    - destruct (decide (a = 0)) as [->|]; [cbn|apply Z.log2_lt_pow2; lia].
      destruct (decide (n = 0)) as [->|]; [|lia]. exfalso. apply Hnz.
      assert (b = 0) as -> by lia. done.
    - destruct (decide (b = 0)) as [->|]; [cbn|apply Z.log2_lt_pow2; lia].
      destruct (decide (n = 0)) as [->|]; [|lia]. exfalso. apply Hnz.
      assert (a = 0) as -> by lia. done. }
  assert (∀ b k, 0 <= b < 256 → 0 <= k <= 24 → 0 <= Z.shiftl b k < 2 ^ 32) as Hsh.
  { intros b k Hb Hk. rewrite Z.shiftl_mul_pow2 by lia.
    pose proof (Z.pow_pos_nonneg 2 k ltac:(lia) ltac:(lia)).
    pose proof (Z.pow_le_mono_r 2 k 24 ltac:(lia) ltac:(lia)). nia. }
  change 4294967296 with (2 ^ 32). repeat apply Hlor; try lia; try apply Hsh; lia.
Qed.
