(* ===== verification/Float32.v ===== *)
(** * IEEE-754 binary32 arithmetic

    The firmware computes pressures in C [float].  The Standard Library's
    axiom-free specification of IEEE arithmetic ([SpecFloat]) is instantiated
    with the precision (24 bits) and the exponent range (128) of binary32:
    every operation rounds its exact result once, to nearest even, and
    comparisons with a NaN are false, as in C.  Fused multiply-add contraction
    by a compiler is not modelled. *)

From Stdlib Require Import SpecFloat.
From S2P Require Import Prelude.

Definition f32 : Type := spec_float.

Definition f32_add (a b : f32) : f32 := SFadd 24 128 a b.
Definition f32_sub (a b : f32) : f32 := SFsub 24 128 a b.
Definition f32_mul (a b : f32) : f32 := SFmul 24 128 a b.
Definition f32_div (a b : f32) : f32 := SFdiv 24 128 a b.
Definition f32_sqrt (a : f32) : f32 := SFsqrt 24 128 a.
Definition f32_abs (a : f32) : f32 := SFabs a.

(** [a < b], [a <= b], and the mirrored operators of C. *)
Definition f32_lt (a b : f32) : bool := SFltb a b.
Definition f32_le (a b : f32) : bool := SFleb a b.
Definition f32_gt (a b : f32) : bool := f32_lt b a.
Definition f32_ge (a b : f32) : bool := f32_le b a.

(** Conversion of an integer, [(float)z]. *)
Definition f32_of_Z (z : Z) : f32 := binary_normalize 24 128 z 0 false.

(** The literal [n/d] with [n] and [d] exactly representable: the division
    rounds once, so this is the binary32 number nearest to the decimal. *)
Definition f32_lit (n d : Z) : f32 := f32_div (f32_of_Z n) (f32_of_Z d).

Definition f32_zero : f32 := S754_zero false.

(** Proofs treat the arithmetic as opaque symbols. *)
Arguments f32_add : simpl never.
Arguments f32_sub : simpl never.
Arguments f32_mul : simpl never.
Arguments f32_div : simpl never.
Arguments f32_sqrt : simpl never.
Arguments f32_abs : simpl never.
Arguments f32_lt : simpl never.
Arguments f32_le : simpl never.
Arguments f32_gt : simpl never.
Arguments f32_ge : simpl never.
Arguments f32_of_Z : simpl never.
Arguments f32_lit : simpl never.

(** Conversion to an integer truncates towards zero; [None] for NaN and the
    infinities, where C leaves the result undefined. *)
Definition f32_trunc (a : f32) : option Z :=
  match a with
  | S754_zero _ => Some 0
  | S754_finite s m e =>
      let mag := if 0 <=? e then Zpos m * 2 ^ e else Zpos m / 2 ^ (- e) in
      Some (if s then - mag else mag)
  | _ => None
  end.

#[export] Instance spec_float_eq_dec : EqDecision spec_float.
Proof. solve_decision. Defined.

(** ** Order *)

Lemma pos_compare_cont_antisym p q :
  Pos.compare_cont Eq q p = CompOpp (Pos.compare_cont Eq p q).
Proof. exact (Pos.compare_antisym p q). Qed.

Lemma SFcompare_antisym a b :
  SFcompare b a = match SFcompare a b with
                  | Some c => Some (CompOpp c)
                  | None => None
                  end.
Proof.
  destruct a as [[]|[]| |[] ma ea], b as [[]|[]| |[] mb eb]; try done; cbn;
    rewrite (Z.compare_antisym eb ea); destruct (Z.compare eb ea); cbn;
    try done; rewrite (pos_compare_cont_antisym mb ma);
    by destruct (Pos.compare_cont Eq mb ma).
Qed.

Lemma f32_lt_ge a b : f32_lt a b = true → f32_ge a b = false.
Proof.
  unfold f32_lt, f32_ge, f32_le, SFltb, SFleb. rewrite (SFcompare_antisym a b).
  by destruct (SFcompare a b) as [[]|].
Qed.

Lemma f32_ge_lt a b : f32_ge a b = true → f32_lt a b = false.
Proof. intros H. destruct (f32_lt a b) eqn:E; [|done]. apply f32_lt_ge in E. congruence. Qed.

Lemma f32_lt_le a b : f32_lt a b = true → f32_le a b = true.
Proof. unfold f32_lt, f32_le, SFltb, SFleb. by destruct (SFcompare a b) as [[]|]. Qed.

(** The constants of the code are the expected bit patterns
    (0x3F666666, 0x3DCCCCCD). *)
Example f32_lit_09 : f32_lit 9 10 = S754_finite false 15099494 (-24).
Proof. vm_compute. reflexivity. Qed.
Example f32_lit_01 : f32_lit 1 10 = S754_finite false 13421773 (-27).
Proof. vm_compute. reflexivity. Qed.
