(* ===== verification/PressureRing.v ===== *)
(** * The 1 Hz pressure history: [pressure_ring] and [pressure_history]

    Models src/components/pressure_history (the pure ring and its locked
    firmware binding).  The ring is a fixed array that evicts its oldest sample;
    the abstract specification is the list of all samples ever pushed, of which
    the ring holds the last [capacity] ones ([ring_repr]). *)

From S2P Require Import Prelude.

(** ** Data *)

Record pressure_sample_t := mk_sample {
  ps_sequence : Z;       (* uint32_t *)
  ps_timestamp_ms : Z;   (* uint32_t *)
  ps_pressure_mbar : Z;  (* uint16_t *)
  ps_status : Z          (* uint16_t *)
}.

Record pressure_ring_t := mk_ring {
  pr_samples : list pressure_sample_t;
  pr_capacity : Z;        (* uint16_t *)
  pr_head : Z;            (* uint16_t *)
  pr_count : Z;           (* uint16_t *)
  pr_next_seq : Z;        (* uint32_t *)
  pr_overwritten : Z;     (* uint32_t *)
  pr_high_watermark : Z   (* uint32_t *)
}.

(** ** Operations of pressure_ring.c *)

Definition pressure_ring_init (storage : list pressure_sample_t) (capacity : Z)
    : pressure_ring_t :=
  mk_ring storage capacity 0 0 1 0 0.

Definition pressure_ring_push (r : pressure_ring_t)
    (pressure_mbar status timestamp_ms : Z) : res (pressure_ring_t * Z) :=
  let seq := pr_next_seq r in
  samples ← array_set (pr_samples r) (pr_head r)
              (mk_sample seq timestamp_ms pressure_mbar status);
  let head := u16 (u32 (pr_head r + 1) mod pr_capacity r) in
  let next_seq := u32 (seq + 1) in
  if pr_count r <? pr_capacity r then
    let count := u16 (pr_count r + 1) in
    let hw := if pr_high_watermark r <? count then count else pr_high_watermark r in
    Ok (mk_ring samples (pr_capacity r) head count next_seq (pr_overwritten r) hw, seq)
  else
    Ok (mk_ring samples (pr_capacity r) head (pr_count r) next_seq
          (u32 (pr_overwritten r + 1)) (pr_high_watermark r), seq).

(** The copy loop of [pressure_ring_read_since]: [n] samples from index [idx]. *)
Fixpoint read_loop (r : pressure_ring_t) (n : nat) (idx : Z)
    : res (list pressure_sample_t) :=
  match n with
  | O => Ok []
  | S n' =>
      s ← array_get (pr_samples r) idx;
      rest ← read_loop r n' (u32 (idx + 1) mod pr_capacity r);
      Ok (s :: rest)
  end.

(** [out_ok] is [out != NULL]; the result is what [out[0..n)] receives. *)
Definition pressure_ring_read_since (r : pressure_ring_t) (since_seq : Z)
    (out_ok : bool) (max : Z) : res (list pressure_sample_t) :=
  if negb out_ok || (max =? 0) || (pr_count r =? 0) then Ok []
  else
    let first := u32 (pr_next_seq r - pr_count r) in
    let from := if first <? u32 (since_seq + 1) then u32 (since_seq + 1) else first in
    if pr_next_seq r <=? from then Ok []
    else
      let avail := u32 (pr_next_seq r - from) in
      let n := if avail <? max then avail else max in
      let oldest_idx :=
        u32 (pr_head r + pr_capacity r - pr_count r) mod pr_capacity r in
      let idx := u32 (oldest_idx + u32 (from - first)) mod pr_capacity r in
      read_loop r (Z.to_nat n) idx.

Definition pressure_ring_count (r : pressure_ring_t) : Z := pr_count r.
Definition pressure_ring_next_seq (r : pressure_ring_t) : Z := pr_next_seq r.
Definition pressure_ring_first_seq (r : pressure_ring_t) : Z :=
  u32 (pr_next_seq r - pr_count r).
Definition pressure_ring_overwritten (r : pressure_ring_t) : Z := pr_overwritten r.
Definition pressure_ring_high_watermark (r : pressure_ring_t) : Z :=
  pr_high_watermark r.

(** ** The firmware binding of pressure_history.c

    The port spin lock makes each operation atomic; the clock
    ([esp_timer_get_time], microseconds) is an argument. *)

Definition PRESSURE_HISTORY_CAPACITY : Z := 100.

Record pressure_history_stats_t := mk_stats {
  st_next_seq : Z;
  st_first_seq_available : Z;
  st_overwritten : Z;
  st_high_watermark : Z;
  st_count : Z
}.

Definition zero_sample : pressure_sample_t := mk_sample 0 0 0 0.

Definition pressure_history_init : pressure_ring_t :=
  pressure_ring_init
    (replicate (Z.to_nat PRESSURE_HISTORY_CAPACITY) zero_sample)
    PRESSURE_HISTORY_CAPACITY.

Definition pressure_history_add (r : pressure_ring_t) (usMbar usStatus now_us : Z)
    : res pressure_ring_t :=
  let ulNowMs := u32 (now_us / 1000) in
  '(r', _) ← pressure_ring_push r usMbar usStatus ulNowMs;
  Ok r'.

Definition stats_fill_locked (r : pressure_ring_t) : pressure_history_stats_t :=
  mk_stats (pressure_ring_next_seq r) (pressure_ring_first_seq r)
    (pressure_ring_overwritten r) (pressure_ring_high_watermark r)
    (pressure_ring_count r).

Definition pressure_history_read_since (r : pressure_ring_t) (ulSinceSeq : Z)
    (out_ok : bool) (szMax : Z)
    : res (list pressure_sample_t * pressure_history_stats_t) :=
  out ← pressure_ring_read_since r ulSinceSeq out_ok szMax;
  Ok (out, stats_fill_locked r).

(** ** Abstract specification

    [hist] is the list of all samples pushed since [init]; the ring of capacity
    [cap] is the window of its last [cap] samples. *)

Definition ring_window (cap : Z) (hist : list pressure_sample_t)
    : list pressure_sample_t := lastn (Z.to_nat cap) hist.

Definition ring_read_spec (cap : Z) (hist : list pressure_sample_t)
    (since max : Z) : list pressure_sample_t :=
  take (Z.to_nat max)
    (filter (λ s, since < ps_sequence s) (ring_window cap hist)).

(** One push as data, the history it produces and the run of the ring. *)
Record push_args := mk_push { pa_mbar : Z; pa_status : Z; pa_ts : Z }.

Fixpoint hist_from (seq : Z) (ps : list push_args) : list pressure_sample_t :=
  match ps with
  | [] => []
  | p :: ps' =>
      mk_sample seq (pa_ts p) (pa_mbar p) (pa_status p) :: hist_from (u32 (seq + 1)) ps'
  end.

Fixpoint run_pushes (r : pressure_ring_t) (ps : list push_args)
    : res pressure_ring_t :=
  match ps with
  | [] => Ok r
  | p :: ps' =>
      '(r', _) ← pressure_ring_push r (pa_mbar p) (pa_status p) (pa_ts p);
      run_pushes r' ps'
  end.

Record ring_repr (r : pressure_ring_t) (hist : list pressure_sample_t) : Prop := {
  rr_cap : 0 < pr_capacity r < 65536;
  rr_len : Z.of_nat (length (pr_samples r)) = pr_capacity r;
  rr_head : pr_head r = Z.of_nat (length hist) mod pr_capacity r;
  rr_count : pr_count r = Z.min (Z.of_nat (length hist)) (pr_capacity r);
  rr_next : pr_next_seq r = u32 (1 + Z.of_nat (length hist));
  rr_over : pr_overwritten r = u32 (Z.of_nat (length hist) - pr_count r);
  rr_hw : pr_high_watermark r = pr_count r;
  rr_slots : ring_live (pr_samples r) hist;
  rr_seqs : ∀ (i : nat) s, hist !! i = Some s → ps_sequence s = u32 (1 + Z.of_nat i)
}.

(** ** Arithmetic of the circular index *)

(** The C code's "oldest index" is the history position reduced to a slot. *)
Lemma mod_oldest n len cnt : 0 < n → (len mod n + n - cnt) mod n = (len - cnt) mod n.
Proof.
  intros. replace (len mod n + n - cnt) with (len mod n + (- cnt) + 1 * n) by lia.
  rewrite Z.mod_add, Z.add_mod_idemp_l by lia. f_equal; lia.
Qed.

Lemma slot_Z cap k : 0 < cap → Z.of_nat (slot_of (Z.to_nat cap) k) = Z.of_nat k mod cap.
Proof.
  intros. unfold slot_of. pose proof (mod_range cap (Z.of_nat k) ltac:(lia)).
  rewrite (Z2Nat.id cap), Z2Nat.id by lia. done.
Qed.

(** ** [push] implements appending to the history *)

Lemma ring_repr_init storage cap :
  0 < cap < 65536 → Z.of_nat (length storage) = cap →
  ring_repr (pressure_ring_init storage cap) [].
Proof.
  intros Hc Hl. split; cbn [pr_capacity pr_samples pr_head pr_count pr_next_seq
    pr_overwritten pr_high_watermark pressure_ring_init length]; try done.
  - cbn. lia.
  - split; cbn; lia.
Qed.

Lemma ring_repr_history_init : ring_repr pressure_history_init [].
Proof. apply ring_repr_init; [done|reflexivity]. Qed.

Lemma pressure_ring_push_refines r hist mbar status ts :
  ring_repr r hist →
  ∃ r', pressure_ring_push r mbar status ts = Ok (r', pr_next_seq r) ∧
        ring_repr r' (hist ++ [mk_sample (pr_next_seq r) ts mbar status]) ∧
        pr_capacity r' = pr_capacity r.
Proof.
  intros [Hcap Hlen Hhead Hcount Hnext Hover Hhw Hslots Hseqs].
  set (s := mk_sample (pr_next_seq r) ts mbar status).
  pose proof (mod_range (pr_capacity r) (Z.of_nat (length hist)) ltac:(lia)).
  unfold pressure_ring_push. fold s.
  rewrite array_set_ok by (rewrite Hhead; lia). cbn [mbind res_bind].
  assert (Hh : u16 (u32 (pr_head r + 1) mod pr_capacity r)
               = Z.of_nat (length (hist ++ [s])) mod pr_capacity r).
  { rewrite Hhead, u32_id by (unfold is_u32; lia).
    rewrite mod_succ_idemp, length_app, Nat2Z.inj_add by lia. cbn [length].
    apply u16_id. pose proof (mod_range (pr_capacity r)
      (Z.of_nat (length hist) + 1) ltac:(lia)). unfold is_u16; lia. }
  assert (Hn : u32 (pr_next_seq r + 1) = u32 (1 + Z.of_nat (length (hist ++ [s])))).
  { rewrite Hnext, u32_u32_add, length_app. f_equal. cbn. lia. }
  assert (Hq : ∀ (i : nat) x, (hist ++ [s]) !! i = Some x →
                 ps_sequence x = u32 (1 + Z.of_nat i)).
  { intros i x [Hx|[Hge Hx]]%lookup_app_Some; [by apply Hseqs|].
    apply list_lookup_singleton_Some in Hx as [Hi <-]. cbn.
    rewrite Hnext. do 2 f_equal. lia. }
  pose proof (ring_live_push _ _ s Hslots) as Hsl.
  assert (Hi : slot_of (length (pr_samples r)) (length hist) = Z.to_nat (pr_head r)).
  { rewrite Hhead, <- slot_Z by lia. rewrite <- Hlen. by rewrite !Nat2Z.id. }
  rewrite Hi in Hsl.
  assert (Hl : Z.of_nat (length (hist ++ [s])) = Z.of_nat (length hist) + 1)
    by (rewrite length_app; cbn; lia).
  destruct (Z.ltb_spec (pr_count r) (pr_capacity r)) as [Hlt|Hge];
    eexists; (split; [reflexivity|]); (split; [|done]); split; cbn;
    rewrite ?length_insert; try done; try lia.
  - rewrite u16_id by (unfold is_u16; lia). lia.
  - rewrite Hl. rewrite u16_id by (unfold is_u16; lia). rewrite Hover. f_equal. lia.
  - rewrite u16_id by (unfold is_u16; lia). rewrite Hhw.
    destruct (Z.ltb_spec (pr_count r) (pr_count r + 1)); lia.
  - rewrite Hover, u32_u32_add, Hl. f_equal. lia.
Qed.

Lemma run_pushes_refines ps : ∀ r hist,
  ring_repr r hist →
  ∃ r', run_pushes r ps = Ok r' ∧
        ring_repr r' (hist ++ hist_from (pr_next_seq r) ps) ∧
        pr_capacity r' = pr_capacity r.
Proof.
  induction ps as [|p ps IH]; intros r hist Hr; cbn [run_pushes hist_from].
  - exists r. by rewrite app_nil_r.
  - destruct (pressure_ring_push_refines r hist (pa_mbar p) (pa_status p) (pa_ts p) Hr)
      as (r1 & -> & Hr1 & Hc1). cbn [mbind res_bind].
    destruct (IH r1 _ Hr1) as (r2 & Hrun & Hr2 & Hc2).
    exists r2. split; [done|]. split; [|congruence].
    rewrite (rr_next _ _ Hr). rewrite <- app_assoc in Hr2. cbn in Hr2.
    rewrite (rr_next _ _ Hr1), (rr_next _ _ Hr), length_app in Hr2. cbn in Hr2.
    rewrite u32_u32_add.
    by replace (1 + Z.of_nat (length hist) + 1)
      with (1 + Z.of_nat (length hist + 1)) by lia.
Qed.

Lemma length_hist_from ps : ∀ seq, length (hist_from seq ps) = length ps.
Proof. induction ps; intros; cbn; auto. Qed.

(** ** [read_since] implements the filtered window *)

(** In a gapless list, dropping up to a sequence number is filtering by it. *)
Lemma filter_seq_drop since (l : list pressure_sample_t) : ∀ base,
  (∀ (i : nat) s, l !! i = Some s → ps_sequence s = base + Z.of_nat i) →
  filter (λ s, since < ps_sequence s) l = drop (Z.to_nat (since + 1 - base)) l.
Proof.
  induction l as [|x l IH]; intros base H; [by rewrite drop_nil|].
  assert (Hx : ps_sequence x = base) by (rewrite (H 0%nat x); [lia|done]).
  assert (IH' := IH (base + 1)
    ltac:(intros i s Hs; rewrite (H (S i) s Hs); lia)).
  rewrite filter_cons. destruct (decide (since < ps_sequence x)).
  - rewrite IH'. replace (Z.to_nat (since + 1 - (base + 1))) with 0%nat by lia.
    by replace (Z.to_nat (since + 1 - base)) with 0%nat by lia.
  - rewrite IH'.
    by replace (Z.to_nat (since + 1 - base))
      with (S (Z.to_nat (since + 1 - (base + 1)))) by lia.
Qed.

Lemma read_loop_window r hist : ring_repr r hist →
  ∀ (n : nat) (k : nat), (k + n <= length hist)%nat →
    Z.of_nat (length hist) - pr_capacity r <= Z.of_nat k →
    read_loop r n (Z.of_nat k mod pr_capacity r) = Ok (take n (drop k hist)).
Proof.
  intros Hr n. pose proof (rr_cap _ _ Hr) as Hcap.
  induction n as [|n IH]; intros k Hk Hw; cbn [read_loop]; [done|].
  pose proof (mod_range (pr_capacity r) (Z.of_nat k) ltac:(lia)).
  pose proof (rr_len _ _ Hr) as Hlen.
  destruct (lookup_lt_is_Some_2 hist k ltac:(lia)) as [s Hs].
  rewrite (array_get_ok _ _ s); [|lia|].
  2:{ rewrite <- slot_Z, Nat2Z.id, <- Hlen, Nat2Z.id by lia.
      rewrite (rl_live _ _ (rr_slots _ _ Hr)) by lia. done. }
  cbn [mbind res_bind]. rewrite u32_id by (unfold is_u32; lia).
  rewrite mod_succ_idemp by lia.
  replace (Z.of_nat k + 1) with (Z.of_nat (S k)) by lia.
  rewrite IH by lia. cbn [mbind res_bind].
  by rewrite (drop_S hist s k Hs).
Qed.

Section read.
  Context (r : pressure_ring_t) (hist : list pressure_sample_t).
  Hypothesis Hr : ring_repr r hist.
  Hypothesis Hfit : 1 + Z.of_nat (length hist) < 4294967296.

  (** The window of the abstract history, from sequence [since + 1] on. *)
Lemma ring_read_spec_drop since max : 0 <= since →
    ring_read_spec (pr_capacity r) hist since max
    = take (Z.to_nat max)
        (drop (Nat.max (Z.to_nat since)
                       (length hist - Z.to_nat (pr_capacity r))) hist).
  Proof using Hr Hfit.
    intros Hs. unfold ring_read_spec, ring_window, lastn. f_equal.
    pose proof (rr_cap _ _ Hr).
    set (d := (length hist - Z.to_nat (pr_capacity r))%nat).
    rewrite (filter_seq_drop since _ (1 + Z.of_nat d)).
    - rewrite drop_drop. f_equal. lia.
    - intros i s Hi. rewrite lookup_drop in Hi.
      apply lookup_lt_Some in Hi as Hlt.
      rewrite (rr_seqs _ _ Hr _ _ Hi), u32_id; unfold is_u32; lia.
  Qed.

Lemma read_since_refines since max :
    0 <= since < 4294967295 → 0 <= max →
    pressure_ring_read_since r since true max
    = Ok (ring_read_spec (pr_capacity r) hist since max).
  Proof using Hr Hfit.
    intros Hs Hm. rewrite ring_read_spec_drop by lia.
    pose proof Hr as [Hcap Hlen Hhead Hcount Hnext _ _ _ _].
    unfold pressure_ring_read_since. cbn [negb orb].
    destruct (Z.eqb_spec max 0) as [->|]; [done|].
    destruct (Z.eqb_spec (pr_count r) 0); cbn [orb].
    { assert (length hist = 0%nat) as ->%length_zero_iff_nil by lia.
      by rewrite drop_nil, take_nil. }
    rewrite Hnext, (u32_id (1 + _)) by (unfold is_u32; lia).
    rewrite (u32_id (1 + Z.of_nat (length hist) - _)) by (unfold is_u32; lia).
    rewrite (u32_id (since + 1)) by (unfold is_u32; lia).
    set (len := Z.of_nat (length hist)) in *.
    set (from := if 1 + len - pr_count r <? since + 1 then since + 1 else _).
    assert (Hfrom : from = Z.max (since + 1) (1 + len - pr_count r)).
    { unfold from. case_bool; lia. }
    clearbody from. destruct (Z.leb_spec (1 + len) from) as [Hle|Hlt].
    { rewrite drop_ge by lia. by rewrite take_nil. }
    rewrite (u32_id (1 + len - from)), (u32_id (from - _)) by (unfold is_u32; lia).
    pose proof (mod_range (pr_capacity r) len ltac:(lia)).
    rewrite Hhead, (u32_id (len mod _ + _ - _)) by (unfold is_u32; lia).
    rewrite mod_oldest by lia.
    pose proof (mod_range (pr_capacity r) (len - pr_count r) ltac:(lia)).
    rewrite u32_id by (unfold is_u32; lia).
    rewrite Z.add_mod_idemp_l by lia.
    replace (len - pr_count r + (from - (1 + len - pr_count r)))
      with (Z.of_nat (Z.to_nat (from - 1))) by lia.
    rewrite (read_loop_window _ _ Hr); [|case_bool; lia|lia].
    replace (Nat.max (Z.to_nat since) _) with (Z.to_nat (from - 1)) by lia.
    f_equal. case_bool; [|done].
    rewrite (take_ge _ (Z.to_nat max)) by (rewrite length_drop; lia).
    by rewrite take_ge by (rewrite length_drop; lia).
  Qed.
End read.

(** With the all-ones cursor the increment [since_seq + 1u] wraps to 0 and the
    cursor acts like 0. *)
Lemma read_since_all_ones r max :
  pressure_ring_read_since r 4294967295 true max
  = pressure_ring_read_since r 0 true max ∨
  pressure_ring_first_seq r < 1.
Proof.
  destruct (Z.lt_ge_cases (pressure_ring_first_seq r) 1) as [|H]; [by right|left].
  unfold pressure_ring_read_since, pressure_ring_first_seq in *.
  replace (u32 (4294967295 + 1)) with 0 by done.
  replace (u32 (0 + 1)) with 1 by done.
  destruct (Z.ltb_spec (u32 (pr_next_seq r - pr_count r)) 0); [lia|].
  by destruct (Z.ltb_spec (u32 (pr_next_seq r - pr_count r)) 1); [lia|].
Qed.

(** ** Properties *)

(** C7: The ring is the sliding window of its history: after any sequence of
    pushes into a freshly initialised ring (short of 2^32 - 1 of them) a reader
    with cursor [since] gets exactly the samples newer than [since] that are
    still in the window, oldest first, at most [max] of them, and no slot outside the
    storage is touched (the result is [Ok]). *)
Theorem pressure_ring_refines_window storage cap ps since max :
  0 < cap < 65536 → Z.of_nat (length storage) = cap →
  1 + Z.of_nat (length ps) < 4294967296 →
  0 <= since < 4294967295 → 0 <= max →
  ∃ r, run_pushes (pressure_ring_init storage cap) ps = Ok r ∧
       pressure_ring_read_since r since true max
       = Ok (ring_read_spec cap (hist_from 1 ps) since max).
Proof.
  intros Hc Hl Hn Hs Hm.
  destruct (run_pushes_refines ps _ [] (ring_repr_init storage cap Hc Hl))
    as (r & Hrun & Hr & Hcap). cbn in Hcap.
  exists r. split; [done|].
  rewrite (read_since_refines r _ Hr); try done; [by rewrite Hcap|].
  cbn. rewrite length_hist_from. lia.
Qed.

Definition ring_demo_pushes : list push_args :=
  [mk_push 1000 1 10; mk_push 1100 1 1010; mk_push 1200 1 2010; mk_push 1300 2 3010].

Lemma pressure_ring_refines_window_witness :
  ∃ r, run_pushes (pressure_ring_init (replicate 3 zero_sample) 3) ring_demo_pushes = Ok r ∧
       pressure_ring_read_since r 2 true 10
       = Ok [mk_sample 3 2010 1200 1; mk_sample 4 3010 1300 2].
Proof.
  apply (pressure_ring_refines_window (replicate 3 zero_sample) 3 ring_demo_pushes 2 10);
    cbn; lia.
Defined.

(** Loss is never silent: the statistics a reader gets account for every
    sample ever pushed: sequence numbers are assigned without gaps from 1, the
    oldest readable sample is [overwritten + 1], and what is buffered plus what
    was evicted is everything. *)
Theorem pressure_history_accounting ps :
  1 + Z.of_nat (length ps) < 4294967296 →
  ∃ r, run_pushes pressure_history_init ps = Ok r ∧
    let n := Z.of_nat (length ps) in
    let kept := Z.min n PRESSURE_HISTORY_CAPACITY in
    stats_fill_locked r = mk_stats (n + 1) (n - kept + 1) (n - kept) kept kept.
Proof.
  intros Hn.
  destruct (run_pushes_refines ps pressure_history_init [] ring_repr_history_init) as (r & Hrun & Hr & Hcap).
  exists r. split; [done|]. cbn in Hr, Hcap.
  pose proof (rr_count _ _ Hr) as Hcount. pose proof (rr_next _ _ Hr) as Hnext.
  pose proof (rr_over _ _ Hr) as Hover. pose proof (rr_hw _ _ Hr) as Hhw.
  rewrite length_hist_from, ?Hcap in *.
  unfold stats_fill_locked, pressure_ring_next_seq, pressure_ring_first_seq,
    pressure_ring_overwritten, pressure_ring_high_watermark, pressure_ring_count.
  rewrite Hhw, Hover, Hnext, Hcount. unfold PRESSURE_HISTORY_CAPACITY in *.
  rewrite !u32_id by (unfold is_u32; rewrite ?u32_id by (unfold is_u32; lia); lia).
  f_equal; lia.
Qed.

Lemma pressure_history_accounting_witness :
  ∃ r, run_pushes pressure_history_init ring_demo_pushes = Ok r ∧
       stats_fill_locked r = mk_stats 5 1 0 4 4.
Proof. apply (pressure_history_accounting ring_demo_pushes). cbn. lia. Defined.

(** The all-ones cursor wraps: a reader that passes [since_seq =
    0xFFFFFFFF] ("newer than everything") receives the same samples as a
    reader that starts from the beginning, not the empty answer. *)
Theorem pressure_ring_cursor_wraps storage cap ps max :
  0 < cap < 65536 → Z.of_nat (length storage) = cap →
  1 + Z.of_nat (length ps) < 4294967296 → 0 <= max →
  ∃ r, run_pushes (pressure_ring_init storage cap) ps = Ok r ∧
       pressure_ring_read_since r 4294967295 true max
       = Ok (ring_read_spec cap (hist_from 1 ps) 0 max).
Proof.
  intros Hc Hl Hn Hm.
  destruct (run_pushes_refines ps _ [] (ring_repr_init storage cap Hc Hl))
    as (r & Hrun & Hr & Hcap). cbn in Hcap.
  exists r. split; [done|].
  destruct (read_since_all_ones r max) as [->|Hlt].
  - rewrite (read_since_refines r _ Hr); try done; [by rewrite Hcap|].
    cbn. rewrite length_hist_from. lia.
  - exfalso. unfold pressure_ring_first_seq in Hlt.
    rewrite (rr_next _ _ Hr), (rr_count _ _ Hr) in Hlt. cbn in Hlt.
    rewrite length_hist_from in Hlt.
    rewrite !u32_id in Hlt by (unfold is_u32; rewrite ?u32_id by (unfold is_u32; lia); lia).
    lia.
Qed.

Lemma pressure_ring_cursor_wraps_witness :
  ∃ r, run_pushes (pressure_ring_init (replicate 3 zero_sample) 3) ring_demo_pushes = Ok r ∧
       pressure_ring_read_since r 4294967295 true 2
       = Ok [mk_sample 2 1010 1100 1; mk_sample 3 2010 1200 1].
Proof.
  apply (pressure_ring_cursor_wraps (replicate 3 zero_sample) 3 ring_demo_pushes 2);
    cbn; lia.
Defined.
