(* ===== verification/PumpManager.v ===== *)
(** * The pump state machine: src/device/pump_manager.{h,c}

    The pure pressure-based controller: filters, event tracking, global
    protections, the eight-state machine and the remote requests, each C
    function one definition ([pm_update] is split at the comments of the C
    body).  Pressures are binary32 ([Float32]), times are milliseconds in
    [uint64_t].  [pm_op] and [pm_run] put the public API into traces. *)

From S2P Require Import Prelude Float32.

(** ** Data *)

Inductive pm_state_t :=
  | PM_STATE_INIT | PM_STATE_IDLE | PM_STATE_PRESSURE_DROP | PM_STATE_STARTING
  | PM_STATE_RUNNING | PM_STATE_RECOVERING | PM_STATE_LOCKOUT | PM_STATE_FAULT.

Inductive pm_mode_t := PM_MODE_MANUAL | PM_MODE_AUTO.

Inductive pm_demand_t :=
  | PM_DEMAND_NONE | PM_DEMAND_UNKNOWN | PM_DEMAND_HAND | PM_DEMAND_TANK
  | PM_DEMAND_LEAK_SUSPECT | PM_DEMAND_PIPE_BREAK | PM_DEMAND_SENSOR_FAULT.

Inductive pm_fault_t :=
  | PM_FAULT_NONE | PM_FAULT_SENSOR | PM_FAULT_CRITICAL_LOW | PM_FAULT_MAX_RUNTIME
  | PM_FAULT_DRY_RUN | PM_FAULT_TOO_MANY_STARTS.

#[export] Instance pm_state_t_eq_dec : EqDecision pm_state_t.
Proof. solve_decision. Defined.
#[export] Instance pm_mode_t_eq_dec : EqDecision pm_mode_t.
Proof. solve_decision. Defined.
#[export] Instance pm_demand_t_eq_dec : EqDecision pm_demand_t.
Proof. solve_decision. Defined.
#[export] Instance pm_fault_t_eq_dec : EqDecision pm_fault_t.
Proof. solve_decision. Defined.

Definition PM_START_HISTORY : Z := 16.
Definition PM_MANUAL_MAX_ON_S : Z := 900.

Record pm_config_t := mk_pm_config {
  c_on_bar : f32;
  c_off_bar : f32;
  c_critical_bar : f32;
  c_hand_min_bar : f32;
  c_hand_max_bar : f32;
  c_tank_min_bar : f32;
  c_tank_max_bar : f32;
  c_filter_alpha : f32;
  c_stable_slope_bar_s : f32;
  c_dry_min_rise_bar : f32;
  c_flow_k_hand : f32;
  c_flow_k_tank : f32;
  c_drop_confirm_ms : Z;
  c_min_on_ms : Z;
  c_min_off_ms : Z;
  c_max_on_ms : Z;
  c_dry_detect_ms : Z;
  c_recovery_timeout_ms : Z;
  c_hand_max_ms : Z;
  c_tank_max_ms : Z;
  c_unknown_max_ms : Z;
  c_max_starts_per_hour : Z
}.

Record pm_metrics_t := mk_pm_metrics {
  m_pressure_bar : f32;
  m_pressure_filtered_bar : f32;
  m_pressure_slope_bar_s : f32;
  m_plateau_bar : f32;
  m_demand : pm_demand_t;
  m_anomaly_score : Z;
  m_event_duration_ms : Z;
  m_event_start_bar : f32;
  m_event_min_bar : f32;
  m_event_max_bar : f32;
  m_est_flow_l_min : f32;
  m_est_volume_l_event : f32;
  m_est_volume_l_total : f32;
  m_run_time_s : Z;
  m_remaining_s : Z;
  m_cycles_total : Z;
  m_starts_last_hour : Z
}.

Record pm_t := mk_pm {
  pm_cfg : pm_config_t;
  pm_state : pm_state_t;
  pm_mode : pm_mode_t;
  pm_fault : pm_fault_t;
  pm_relay_on : bool;
  pm_state_enter_ms : Z;
  pm_last_update_ms : Z;
  pm_pump_start_ms : Z;
  pm_pump_stop_ms : Z;
  pm_event_start_ms : Z;
  pm_manual_until_ms : Z;
  pm_start_bar : f32;
  pm_last_filtered_bar : f32;
  pm_starts_ms : list Z;
  pm_starts_idx : Z;
  pm_m : pm_metrics_t
}.

#[export] Instance eta_pm_metrics_t : Eta pm_metrics_t := λ r, mk_pm_metrics
      (m_pressure_bar r) (m_pressure_filtered_bar r) (m_pressure_slope_bar_s r)
      (m_plateau_bar r) (m_demand r) (m_anomaly_score r) (m_event_duration_ms r)
      (m_event_start_bar r) (m_event_min_bar r) (m_event_max_bar r)
      (m_est_flow_l_min r) (m_est_volume_l_event r) (m_est_volume_l_total r)
      (m_run_time_s r) (m_remaining_s r) (m_cycles_total r) (m_starts_last_hour r).
#[export] Instance set_m_pressure_bar : Setter m_pressure_bar. Proof. mk_setter. Defined.
#[export] Instance set_m_pressure_filtered_bar : Setter m_pressure_filtered_bar. Proof. mk_setter. Defined.
#[export] Instance set_m_pressure_slope_bar_s : Setter m_pressure_slope_bar_s. Proof. mk_setter. Defined.
#[export] Instance set_m_plateau_bar : Setter m_plateau_bar. Proof. mk_setter. Defined.
#[export] Instance set_m_demand : Setter m_demand. Proof. mk_setter. Defined.
#[export] Instance set_m_anomaly_score : Setter m_anomaly_score. Proof. mk_setter. Defined.
#[export] Instance set_m_event_duration_ms : Setter m_event_duration_ms. Proof. mk_setter. Defined.
#[export] Instance set_m_event_start_bar : Setter m_event_start_bar. Proof. mk_setter. Defined.
#[export] Instance set_m_event_min_bar : Setter m_event_min_bar. Proof. mk_setter. Defined.
#[export] Instance set_m_event_max_bar : Setter m_event_max_bar. Proof. mk_setter. Defined.
#[export] Instance set_m_est_flow_l_min : Setter m_est_flow_l_min. Proof. mk_setter. Defined.
#[export] Instance set_m_est_volume_l_event : Setter m_est_volume_l_event. Proof. mk_setter. Defined.
#[export] Instance set_m_est_volume_l_total : Setter m_est_volume_l_total. Proof. mk_setter. Defined.
#[export] Instance set_m_run_time_s : Setter m_run_time_s. Proof. mk_setter. Defined.
#[export] Instance set_m_remaining_s : Setter m_remaining_s. Proof. mk_setter. Defined.
#[export] Instance set_m_cycles_total : Setter m_cycles_total. Proof. mk_setter. Defined.
#[export] Instance set_m_starts_last_hour : Setter m_starts_last_hour. Proof. mk_setter. Defined.

#[export] Instance eta_pm_t : Eta pm_t := λ r, mk_pm (pm_cfg r) (pm_state r)
      (pm_mode r) (pm_fault r) (pm_relay_on r) (pm_state_enter_ms r)
      (pm_last_update_ms r) (pm_pump_start_ms r) (pm_pump_stop_ms r)
      (pm_event_start_ms r) (pm_manual_until_ms r) (pm_start_bar r)
      (pm_last_filtered_bar r) (pm_starts_ms r) (pm_starts_idx r) (pm_m r).
#[export] Instance set_pm_cfg : Setter pm_cfg. Proof. mk_setter. Defined.
#[export] Instance set_pm_state : Setter pm_state. Proof. mk_setter. Defined.
#[export] Instance set_pm_mode : Setter pm_mode. Proof. mk_setter. Defined.
#[export] Instance set_pm_fault : Setter pm_fault. Proof. mk_setter. Defined.
#[export] Instance set_pm_relay_on : Setter pm_relay_on. Proof. mk_setter. Defined.
#[export] Instance set_pm_state_enter_ms : Setter pm_state_enter_ms. Proof. mk_setter. Defined.
#[export] Instance set_pm_last_update_ms : Setter pm_last_update_ms. Proof. mk_setter. Defined.
#[export] Instance set_pm_pump_start_ms : Setter pm_pump_start_ms. Proof. mk_setter. Defined.
#[export] Instance set_pm_pump_stop_ms : Setter pm_pump_stop_ms. Proof. mk_setter. Defined.
#[export] Instance set_pm_event_start_ms : Setter pm_event_start_ms. Proof. mk_setter. Defined.
#[export] Instance set_pm_manual_until_ms : Setter pm_manual_until_ms. Proof. mk_setter. Defined.
#[export] Instance set_pm_start_bar : Setter pm_start_bar. Proof. mk_setter. Defined.
#[export] Instance set_pm_last_filtered_bar : Setter pm_last_filtered_bar. Proof. mk_setter. Defined.
#[export] Instance set_pm_starts_ms : Setter pm_starts_ms. Proof. mk_setter. Defined.
#[export] Instance set_pm_starts_idx : Setter pm_starts_idx. Proof. mk_setter. Defined.
#[export] Instance set_pm_m : Setter pm_m. Proof. mk_setter. Defined.

(** ** Helpers *)

Definition enter_state (pm : pm_t) (eNew : pm_state_t) (now : Z) : pm_t :=
  if decide (pm_state pm = eNew) then pm
  else pm <| pm_state := eNew |> <| pm_state_enter_ms := now |>.

Definition latch_fault (pm : pm_t) (eFault : pm_fault_t) (now : Z) : pm_t :=
  let bWasOn := pm_relay_on pm in
  let pm := pm <| pm_fault := eFault |> <| pm_relay_on := false |> in
  let pm := if bWasOn || (pm_pump_stop_ms pm <? pm_pump_start_ms pm)
            then pm <| pm_pump_stop_ms := now |> else pm in
  enter_state pm PM_STATE_FAULT now.

Definition pump_on (pm : pm_t) (now : Z) : pm_t :=
  let m := pm_m pm in
  pm <| pm_relay_on := true |>
     <| pm_pump_start_ms := now |>
     <| pm_start_bar := m_pressure_filtered_bar m |>
     <| pm_m := m <| m_cycles_total := u32 (m_cycles_total m + 1) |> |>
     <| pm_starts_ms := <[Z.to_nat (pm_starts_idx pm) := now]> (pm_starts_ms pm) |>
     <| pm_starts_idx := (pm_starts_idx pm + 1) mod PM_START_HISTORY |>.

Definition pump_off (pm : pm_t) (now : Z) : pm_t :=
  pm <| pm_relay_on := false |> <| pm_pump_stop_ms := now |> <| pm_manual_until_ms := 0 |>.

Definition run_ms (pm : pm_t) (now : Z) : Z :=
  if pm_pump_start_ms pm <? now then u64 (now - pm_pump_start_ms pm) else 0.

(** A recorded start that lies in the last hour (0 marks an empty cell). *)
Definition start_in_hour (now s : Z) : bool :=
  negb (s =? 0) && (u64 (now - s) <=? 3600000).

Definition starts_in_last_hour (pm : pm_t) (now : Z) : Z :=
  u8 (Z.of_nat (length (filter (λ s, start_in_hour now s = true) (pm_starts_ms pm)))).

Definition event_begin (pm : pm_t) (now : Z) : pm_t :=
  let m := pm_m pm in
  let f := m_pressure_filtered_bar m in
  pm <| pm_event_start_ms := now |>
     <| pm_m := m <| m_event_duration_ms := 0 |> <| m_event_start_bar := f |>
                  <| m_event_min_bar := f |> <| m_event_max_bar := f |>
                  <| m_plateau_bar := f |> <| m_est_volume_l_event := f32_zero |> |>.

Definition event_end (pm : pm_t) : pm_t :=
  pm <| pm_event_start_ms := 0 |>
     <| pm_m := (pm_m pm) <| m_event_duration_ms := 0 |> <| m_demand := PM_DEMAND_NONE |>
                          <| m_est_flow_l_min := f32_zero |> |>.

Definition classify_demand (pm : pm_t) : pm_demand_t :=
  let c := pm_cfg pm in
  let p := m_plateau_bar (pm_m pm) in
  if f32_lt (m_pressure_filtered_bar (pm_m pm)) (c_critical_bar c) then PM_DEMAND_PIPE_BREAK
  else if f32_ge p (c_hand_min_bar c) && f32_le p (c_hand_max_bar c) then PM_DEMAND_HAND
  else if f32_ge p (c_tank_min_bar c) && f32_le p (c_tank_max_bar c) then PM_DEMAND_TANK
  else PM_DEMAND_UNKNOWN.

Definition anomaly_score (pm : pm_t) : Z :=
  let c := pm_cfg pm in
  let m := pm_m pm in
  let add (b : bool) (n s : Z) := if b then u16 (s + n) else s in
  add (bool_decide (m_demand m = PM_DEMAND_LEAK_SUSPECT)) 30
  (add (c_max_starts_per_hour c <? m_starts_last_hour m) 30
  (add (pm_relay_on pm && (c_max_on_ms c / 2 <? u64 (m_run_time_s m * 1000))) 20
  (add (u32 (2 * c_unknown_max_ms c) <? m_event_duration_ms m) 40
  (add (c_unknown_max_ms c <? m_event_duration_ms m) 20
  (add (f32_lt (m_pressure_filtered_bar m) (c_critical_bar c)) 50
  (add (f32_lt (m_pressure_filtered_bar m) (c_on_bar c)) 5 0)))))).

Definition flow_estimate (pm : pm_t) : f32 :=
  let est (flK : f32) :=
    let flDp := f32_sub (c_off_bar (pm_cfg pm)) (m_plateau_bar (pm_m pm)) in
    if f32_le flK f32_zero || f32_le flDp f32_zero then f32_zero
    else f32_mul flK (f32_sqrt flDp) in
  match m_demand (pm_m pm) with
  | PM_DEMAND_HAND => est (c_flow_k_hand (pm_cfg pm))
  | PM_DEMAND_TANK => est (c_flow_k_tank (pm_cfg pm))
  | _ => f32_zero
  end.

(** ** Filtering *)

Definition filters_update (pm : pm_t) (flBar : f32) (now : Z) : pm_t :=
  let pm := pm <| pm_m := (pm_m pm) <| m_pressure_bar := flBar |> |> in
  if pm_last_update_ms pm =? 0 then
    pm <| pm_m := (pm_m pm) <| m_pressure_filtered_bar := flBar |>
                            <| m_pressure_slope_bar_s := f32_zero |> |>
       <| pm_last_filtered_bar := flBar |>
  else
    let flA := c_filter_alpha (pm_cfg pm) in
    let filt := f32_add (f32_mul flA flBar)
                  (f32_mul (f32_sub (f32_of_Z 1) flA) (m_pressure_filtered_bar (pm_m pm))) in
    let flDtS := f32_div (f32_of_Z (u64 (now - pm_last_update_ms pm))) (f32_of_Z 1000) in
    let slope := if f32_gt flDtS (f32_lit 1 1000)
                 then f32_div (f32_sub filt (pm_last_filtered_bar pm)) flDtS
                 else m_pressure_slope_bar_s (pm_m pm) in
    let plateau :=
      if negb (pm_event_start_ms pm =? 0)
         && f32_lt (f32_abs slope) (c_stable_slope_bar_s (pm_cfg pm))
      then f32_add (f32_mul (f32_lit 9 10) (m_plateau_bar (pm_m pm)))
                   (f32_mul (f32_lit 1 10) filt)
      else m_plateau_bar (pm_m pm) in
    pm <| pm_m := (pm_m pm) <| m_pressure_filtered_bar := filt |>
                            <| m_pressure_slope_bar_s := slope |>
                            <| m_plateau_bar := plateau |> |>
       <| pm_last_filtered_bar := filt |>.

Definition event_update (pm : pm_t) (now : Z) : pm_t :=
  if pm_event_start_ms pm =? 0 then pm
  else
    let m := pm_m pm in
    let p := m_pressure_filtered_bar m in
    let m := m <| m_event_duration_ms := u32 (now - pm_event_start_ms pm) |> in
    let m := if f32_lt p (m_event_min_bar m) then m <| m_event_min_bar := p |> else m in
    let m := if f32_gt p (m_event_max_bar m) then m <| m_event_max_bar := p |> else m in
    let flow := flow_estimate (pm <| pm_m := m |>) in
    let m := m <| m_est_flow_l_min := flow |> in
    if pm_relay_on pm && f32_gt flow f32_zero && negb (pm_last_update_ms pm =? 0) then
      let flDl := f32_div (f32_mul flow (f32_of_Z (u64 (now - pm_last_update_ms pm))))
                          (f32_of_Z 60000) in
      pm <| pm_m := m <| m_est_volume_l_event := f32_add (m_est_volume_l_event m) flDl |>
                      <| m_est_volume_l_total := f32_add (m_est_volume_l_total m) flDl |> |>
    else pm <| pm_m := m |>.

(** ** pm_update *)

(** The [ullMaxRunMs] of the protections: the manual ceiling while a timed-on
    is active, else the configured maximum. *)
Definition max_run_ms (pm : pm_t) : Z :=
  if bool_decide (pm_mode pm = PM_MODE_MANUAL) && negb (pm_manual_until_ms pm =? 0)
  then u64 (PM_MANUAL_MAX_ON_S * 1000) else c_max_on_ms (pm_cfg pm).

(** The three protections of a running pump, in the order of the code. *)
Definition crit_low (pm : pm_t) : bool :=
  f32_lt (m_pressure_filtered_bar (pm_m pm)) (c_critical_bar (pm_cfg pm))
  && f32_ge (m_event_start_bar (pm_m pm)) (c_critical_bar (pm_cfg pm)).

Definition dry_run (pm : pm_t) (now : Z) : bool :=
  (c_dry_detect_ms (pm_cfg pm) <=? run_ms pm now)
  && f32_lt (f32_sub (m_pressure_filtered_bar (pm_m pm)) (pm_start_bar pm))
            (c_dry_min_rise_bar (pm_cfg pm)).

Definition demand_set (pm : pm_t) (d : pm_demand_t) : pm_t :=
  pm <| pm_m := (pm_m pm) <| m_demand := d |> |>.

Definition protections (pm : pm_t) (bSensorOk : bool) (now : Z) : pm_t :=
  if decide (pm_state pm = PM_STATE_FAULT) then pm
  else if negb bSensorOk then
    latch_fault (demand_set pm PM_DEMAND_SENSOR_FAULT) PM_FAULT_SENSOR now
  else if pm_relay_on pm then
    if crit_low pm then
      latch_fault (demand_set pm PM_DEMAND_PIPE_BREAK) PM_FAULT_CRITICAL_LOW now
    else if max_run_ms pm <=? run_ms pm now then latch_fault pm PM_FAULT_MAX_RUNTIME now
    else if dry_run pm now then latch_fault pm PM_FAULT_DRY_RUN now
    else pm
  else pm.

Definition relay_off (pm : pm_t) : pm_t := pm <| pm_relay_on := false |>.

Definition min_off_elapsed (pm : pm_t) (now : Z) : bool :=
  (pm_pump_stop_ms pm =? 0)
  || (c_min_off_ms (pm_cfg pm) <=? u64 (now - pm_pump_stop_ms pm)).

Definition case_pressure_drop (pm : pm_t) (now : Z) : pm_t :=
  let pm := relay_off pm in
  if decide (pm_mode pm ≠ PM_MODE_AUTO) then enter_state (event_end pm) PM_STATE_IDLE now
  else if f32_ge (m_pressure_filtered_bar (pm_m pm)) (c_on_bar (pm_cfg pm)) then
    enter_state (event_end pm) PM_STATE_IDLE now
  else if c_drop_confirm_ms (pm_cfg pm) <=? u64 (now - pm_state_enter_ms pm) then
    let pm := demand_set pm (classify_demand pm) in
    if bool_decide (m_demand (pm_m pm) = PM_DEMAND_PIPE_BREAK)
       && f32_ge (m_event_start_bar (pm_m pm)) (c_critical_bar (pm_cfg pm))
    then latch_fault pm PM_FAULT_CRITICAL_LOW now
    else enter_state pm PM_STATE_STARTING now
  else pm.

Definition case_starting (pm : pm_t) (now : Z) : pm_t :=
  if c_max_starts_per_hour (pm_cfg pm) <=? starts_in_last_hour pm now then
    latch_fault pm PM_FAULT_TOO_MANY_STARTS now
  else if min_off_elapsed pm now then enter_state (pump_on pm now) PM_STATE_RUNNING now
  else enter_state pm PM_STATE_LOCKOUT now.

(** The limit after which a demand counts as a suspected leak. *)
Definition demand_limit_ms (pm : pm_t) : Z :=
  match m_demand (pm_m pm) with
  | PM_DEMAND_HAND => c_hand_max_ms (pm_cfg pm)
  | PM_DEMAND_TANK => c_tank_max_ms (pm_cfg pm)
  | _ => c_unknown_max_ms (pm_cfg pm)
  end.

Definition case_running (pm : pm_t) (now : Z) : pm_t :=
  let pm := pm <| pm_relay_on := true |> in
  let ullRun := run_ms pm now in
  if decide (pm_mode pm = PM_MODE_AUTO) then
    let pm := demand_set pm (classify_demand pm) in
    let pm := if demand_limit_ms pm <? m_event_duration_ms (pm_m pm)
              then demand_set pm PM_DEMAND_LEAK_SUSPECT else pm in
    if f32_ge (m_pressure_filtered_bar (pm_m pm)) (c_off_bar (pm_cfg pm))
       && (c_min_on_ms (pm_cfg pm) <=? ullRun)
    then enter_state (pump_off pm now) PM_STATE_RECOVERING now else pm
  else
    if negb (pm_manual_until_ms pm =? 0) && (pm_manual_until_ms pm <=? now)
       && (c_min_on_ms (pm_cfg pm) <=? ullRun)
    then enter_state (pump_off pm now) PM_STATE_RECOVERING now else pm.

Definition case_recovering (pm : pm_t) (now : Z) : pm_t :=
  let pm := relay_off pm in
  if (f32_ge (m_pressure_filtered_bar (pm_m pm)) (c_on_bar (pm_cfg pm))
      && f32_lt (f32_abs (m_pressure_slope_bar_s (pm_m pm)))
                (c_stable_slope_bar_s (pm_cfg pm)))
     || (c_recovery_timeout_ms (pm_cfg pm) <=? u64 (now - pm_state_enter_ms pm))
  then enter_state (event_end pm) PM_STATE_LOCKOUT now else pm.

(** The [switch (pm->state)]. *)
Definition state_switch (pm : pm_t) (bSensorOk : bool) (now : Z) : pm_t :=
  match pm_state pm with
  | PM_STATE_INIT =>
      let pm := relay_off pm in
      if bSensorOk then enter_state pm PM_STATE_IDLE now else pm
  | PM_STATE_IDLE =>
      let pm := relay_off pm in
      if bool_decide (pm_mode pm = PM_MODE_AUTO)
         && f32_lt (m_pressure_filtered_bar (pm_m pm)) (c_on_bar (pm_cfg pm))
      then enter_state (event_begin pm now) PM_STATE_PRESSURE_DROP now else pm
  | PM_STATE_PRESSURE_DROP => case_pressure_drop pm now
  | PM_STATE_STARTING => case_starting pm now
  | PM_STATE_RUNNING => case_running pm now
  | PM_STATE_RECOVERING => case_recovering pm now
  | PM_STATE_LOCKOUT =>
      let pm := relay_off pm in
      if min_off_elapsed pm now then enter_state pm PM_STATE_IDLE now else pm
  | PM_STATE_FAULT => relay_off pm
  end.

Definition metrics_epilogue (pm : pm_t) (now : Z) : pm_t :=
  let pm := pm <| pm_m := (pm_m pm) <| m_starts_last_hour := starts_in_last_hour pm now |> |> in
  let pm := pm <| pm_m := (pm_m pm) <| m_anomaly_score := anomaly_score pm |> |> in
  let pm :=
    if pm_relay_on pm then
      let ulRunS := u32 (run_ms pm now / 1000) in
      let ullCapMs :=
        if bool_decide (pm_mode pm = PM_MODE_MANUAL)
           && (pm_pump_start_ms pm <? pm_manual_until_ms pm)
        then u64 (pm_manual_until_ms pm - pm_pump_start_ms pm)
        else c_max_on_ms (pm_cfg pm) in
      let ulCapS := u32 (ullCapMs / 1000) in
      pm <| pm_m := (pm_m pm) <| m_run_time_s := ulRunS |>
            <| m_remaining_s := if ulRunS <? ulCapS then u32 (ulCapS - ulRunS) else 0 |> |>
    else pm <| pm_m := (pm_m pm) <| m_run_time_s := 0 |> <| m_remaining_s := 0 |> |> in
  pm <| pm_last_update_ms := now |>.

(** The measurement part of [pm_update], before any decision. *)
Definition sensed (pm : pm_t) (flBar : f32) (now : Z) : pm_t :=
  event_update (filters_update pm flBar now) now.

Definition pm_update (pm : pm_t) (flBar : f32) (bSensorOk : bool) (now : Z) : pm_t :=
  let pm := sensed pm flBar now in
  metrics_epilogue (state_switch (protections pm bSensorOk now) bSensorOk now) now.

(** ** Construction and remote requests *)

Definition pm_metrics_zero : pm_metrics_t :=
  mk_pm_metrics f32_zero f32_zero f32_zero f32_zero PM_DEMAND_NONE 0 0 f32_zero
    f32_zero f32_zero f32_zero f32_zero f32_zero 0 0 0 0.

Definition pm_init (cfg : pm_config_t) : pm_t :=
  mk_pm cfg PM_STATE_INIT PM_MODE_MANUAL PM_FAULT_NONE false 0 0 0 0 0 0 f32_zero f32_zero
    (replicate (Z.to_nat PM_START_HISTORY) 0) 0 pm_metrics_zero.

Definition pm_config_set (pm : pm_t) (cfg : pm_config_t) : pm_t := pm <| pm_cfg := cfg |>.

(** The four refusals of [pm_request_on], in the order of the code. *)
Definition request_on_refused (pm : pm_t) (now : Z) : bool :=
  bool_decide (pm_state pm = PM_STATE_FAULT ∨ pm_state pm = PM_STATE_INIT)
  || f32_ge (m_pressure_filtered_bar (pm_m pm)) (c_off_bar (pm_cfg pm))
  || (negb (pm_pump_stop_ms pm =? 0)
      && (u64 (now - pm_pump_stop_ms pm) <? c_min_off_ms (pm_cfg pm)))
  || (c_max_starts_per_hour (pm_cfg pm) <=? starts_in_last_hour pm now).

Definition pm_request_on (pm : pm_t) (ulDurationS : Z) (now : Z) : bool * pm_t :=
  if request_on_refused pm now then (false, pm)
  else
    let ulDurationS := if PM_MANUAL_MAX_ON_S <? ulDurationS then PM_MANUAL_MAX_ON_S
                       else ulDurationS in
    let pm := pm <| pm_mode := PM_MODE_MANUAL |>
                 <| pm_manual_until_ms :=
                      if ulDurationS =? 0 then 0 else u64 (now + ulDurationS * 1000) |> in
    let pm := if pm_event_start_ms pm =? 0 then event_begin pm now else pm in
    let pm := if pm_relay_on pm then pm else pump_on pm now in
    (true, enter_state pm PM_STATE_RUNNING now).

Definition pm_request_off (pm : pm_t) (now : Z) : bool * pm_t :=
  let pm := pm <| pm_mode := PM_MODE_MANUAL |> in
  if decide (pm_state pm = PM_STATE_FAULT) then (true, pm)
  else if pm_relay_on pm then
    let ullMinOffAt := u64 (pm_pump_start_ms pm + c_min_on_ms (pm_cfg pm)) in
    (true, pm <| pm_manual_until_ms := if ullMinOffAt <? now then now else ullMinOffAt |>)
  else (true, enter_state pm PM_STATE_IDLE now).

Definition pm_request_restart (pm : pm_t) (now : Z) : bool * pm_t :=
  if decide (pm_state pm = PM_STATE_FAULT) then (false, pm)
  else if pm_relay_on pm then (true, enter_state (pump_off pm now) PM_STATE_RECOVERING now)
  else (true, pm).

Definition pm_mode_set (pm : pm_t) (eMode : pm_mode_t) (now : Z) : bool * pm_t :=
  let pm := pm <| pm_mode := eMode |> in
  if bool_decide (pm_state pm ≠ PM_STATE_FAULT) && bool_decide (eMode = PM_MODE_MANUAL)
     && pm_relay_on pm
  then (true, pm <| pm_manual_until_ms := 0 |>) else (true, pm).

Definition pm_fault_ack (pm : pm_t) (bSensorOk : bool) (now : Z) : bool * pm_t :=
  if decide (pm_state pm ≠ PM_STATE_FAULT) then (false, pm)
  else if negb bSensorOk then (false, pm)
  else
    let pm := event_end (pm <| pm_fault := PM_FAULT_NONE |>) in
    (true, enter_state (demand_set pm PM_DEMAND_NONE) PM_STATE_IDLE now).

(** ** Outputs *)

Definition pm_relay_get (pm : pm_t) : bool := pm_relay_on pm.

Definition PM_DP_INIT : Z := 0.
Definition PM_DP_OFF : Z := 1.
Definition PM_DP_ON : Z := 2.
Definition PM_DP_AUTO : Z := 3.
Definition PM_DP_MANUAL : Z := 4.
Definition PM_DP_FAULT : Z := 5.

Definition dp_mode_value (m : pm_mode_t) : Z :=
  match m with PM_MODE_AUTO => PM_DP_AUTO | PM_MODE_MANUAL => PM_DP_OFF end.

Definition pm_dp_state_get (pm : pm_t) : Z :=
  match pm_state pm with
  | PM_STATE_INIT => PM_DP_INIT
  | PM_STATE_FAULT => PM_DP_FAULT
  | PM_STATE_STARTING | PM_STATE_RUNNING =>
      if pm_relay_on pm then PM_DP_ON else dp_mode_value (pm_mode pm)
  | _ => dp_mode_value (pm_mode pm)
  end.

Definition pm_idle_get (pm : pm_t) : bool :=
  negb (pm_relay_on pm)
  && bool_decide (pm_state pm = PM_STATE_IDLE ∨ pm_state pm = PM_STATE_LOCKOUT
                  ∨ pm_state pm = PM_STATE_FAULT).

(** ** Traces of the public API *)

Inductive pm_op :=
  | OpUpdate (flBar : f32) (bSensorOk : bool) (now : Z)
  | OpConfig (cfg : pm_config_t) (now : Z)
  | OpOn (ulDurationS : Z) (now : Z)
  | OpOff (now : Z)
  | OpRestart (now : Z)
  | OpMode (eMode : pm_mode_t) (now : Z)
  | OpAck (bSensorOk : bool) (now : Z).

Definition op_time (op : pm_op) : Z :=
  match op with
  | OpUpdate _ _ now | OpConfig _ now | OpOn _ now | OpOff now | OpRestart now
  | OpMode _ now | OpAck _ now => now
  end.

Definition pm_step (pm : pm_t) (op : pm_op) : pm_t :=
  match op with
  | OpUpdate flBar bSensorOk now => pm_update pm flBar bSensorOk now
  | OpConfig cfg _ => pm_config_set pm cfg
  | OpOn ulDurationS now => (pm_request_on pm ulDurationS now).2
  | OpOff now => (pm_request_off pm now).2
  | OpRestart now => (pm_request_restart pm now).2
  | OpMode eMode now => (pm_mode_set pm eMode now).2
  | OpAck bSensorOk now => (pm_fault_ack pm bSensorOk now).2
  end.

Definition pm_run (pm : pm_t) (ops : list pm_op) : pm_t := foldl pm_step pm ops.

(** A start and a stop of the pump as the relay output shows them. *)
Definition starts_now (pm : pm_t) (op : pm_op) : bool :=
  negb (pm_relay_on pm) && pm_relay_on (pm_step pm op).
Definition stops_now (pm : pm_t) (op : pm_op) : bool :=
  pm_relay_on pm && negb (pm_relay_on (pm_step pm op)).

(** The manager with the full history of its starts and stops. *)
Record pm_ghost := mk_ghost { g_pm : pm_t; g_starts : list Z; g_stops : list Z }.

Definition ghost_step (g : pm_ghost) (op : pm_op) : pm_ghost :=
  mk_ghost (pm_step (g_pm g) op)
    (if starts_now (g_pm g) op then g_starts g ++ [op_time op] else g_starts g)
    (if stops_now (g_pm g) op then g_stops g ++ [op_time op] else g_stops g).

Definition ghost_run (cfg : pm_config_t) (ops : list pm_op) : pm_ghost :=
  foldl ghost_step (mk_ghost (pm_init cfg) [] []) ops.

(** The calls of a trace happen at non-decreasing, positive 64-bit times. *)
Fixpoint times_from (t : Z) (ops : list pm_op) : Prop :=
  match ops with
  | [] => True
  | op :: ops => t <= op_time op /\ is_u64 (op_time op) /\ times_from (op_time op) ops
  end.

(** ** Frames: what the measuring parts leave alone *)

Lemma filters_update_ctl pm flBar now :
  ∃ m x, filters_update pm flBar now = pm <| pm_m := m |> <| pm_last_filtered_bar := x |>.
Proof. unfold filters_update. cbn. case_match; eauto. Qed.

Lemma event_update_ctl pm now : ∃ m, event_update pm now = pm <| pm_m := m |>.
Proof.
  unfold event_update. cbn zeta. case_match; [by exists (pm_m pm); destruct pm|].
  case_match; eauto.
Qed.

Lemma sensed_ctl pm flBar now :
  ∃ m x, sensed pm flBar now = pm <| pm_m := m |> <| pm_last_filtered_bar := x |>.
Proof.
  unfold sensed. destruct (filters_update_ctl pm flBar now) as (m & x & ->).
  destruct (event_update_ctl (pm <| pm_m := m |> <| pm_last_filtered_bar := x |>) now)
    as (m' & ->). by exists m', x.
Qed.

Lemma metrics_epilogue_ctl pm now :
  ∃ m, metrics_epilogue pm now = pm <| pm_m := m |> <| pm_last_update_ms := now |>.
Proof. unfold metrics_epilogue. cbn zeta. case_match; eexists; reflexivity. Qed.

(** [pm_update] up to the metrics: a measurement, then the decisions. *)
Lemma pm_update_ctl pm flBar bOk now :
  ∃ m, pm_update pm flBar bOk now
       = (state_switch (protections (sensed pm flBar now) bOk now) bOk now)
           <| pm_m := m |> <| pm_last_update_ms := now |>.
Proof. apply metrics_epilogue_ctl. Qed.

(** [pm_split] unfolds the decisions of one call and splits on its guards. *)
Ltac pm_unfold :=
  unfold protections, state_switch, case_pressure_drop, case_starting, case_running,
    case_recovering, latch_fault, enter_state, pump_on, pump_off, relay_off, demand_set,
    event_begin, event_end in *.

Ltac pm_split :=
  repeat (cbn -[Z.modulo Z.eqb Z.ltb Z.leb u64 u8] in *;
          try case_decide; try case_match; try discriminate; simplify_eq).

(** ** The invariant *)

(** The relay output is on exactly in RUNNING; a fault code is held exactly in
    FAULT; the start history is a ring of 16 cells. *)
Record pm_inv (pm : pm_t) : Prop := {
  pi_relay : pm_relay_on pm = bool_decide (pm_state pm = PM_STATE_RUNNING);
  pi_fault : bool_decide (pm_fault pm = PM_FAULT_NONE)
             = negb (bool_decide (pm_state pm = PM_STATE_FAULT));
  pi_len : length (pm_starts_ms pm) = Z.to_nat PM_START_HISTORY;
  pi_idx : 0 <= pm_starts_idx pm < PM_START_HISTORY
}.

Lemma pm_inv_frame pm m t :
  pm_inv pm → pm_inv (pm <| pm_m := m |> <| pm_last_update_ms := t |>).
Proof. by destruct 1; split. Qed.

Lemma pm_inv_sensed pm flBar now : pm_inv pm → pm_inv (sensed pm flBar now).
Proof.
  destruct (sensed_ctl pm flBar now) as (m & x & ->). by destruct 1; split.
Qed.

(** Every call changes the relay, the state, the fault and the start history
    consistently. *)
Lemma starts_idx_next i : 0 <= (i + 1) mod PM_START_HISTORY < PM_START_HISTORY.
Proof. apply Z.mod_pos_bound. done. Qed.

Definition starts_ok (pm : pm_t) : Prop :=
  length (pm_starts_ms pm) = Z.to_nat PM_START_HISTORY
  /\ 0 <= pm_starts_idx pm < PM_START_HISTORY.

Lemma pm_inv_latch pm f now :
  starts_ok pm → f ≠ PM_FAULT_NONE → pm_inv (latch_fault pm f now).
Proof.
  intros [? ?] ?. unfold latch_fault, enter_state. cbn.
  destruct (_ || _); cbn; case_decide as Hs; split; cbn; try done;
    rewrite ?Hs; by rewrite bool_decide_false.
Qed.

Lemma pm_inv_enter pm s now :
  starts_ok pm → pm_fault pm = PM_FAULT_NONE → s ≠ PM_STATE_FAULT →
  pm_relay_on pm = bool_decide (s = PM_STATE_RUNNING) → pm_inv (enter_state pm s now).
Proof.
  intros [? ?] Hf Hs Hr. unfold enter_state.
  destruct (decide (pm_state pm = s)) as [Hst|Hst]; split; cbn; rewrite ?Hst; auto;
    by rewrite Hf, (bool_decide_false (s = _)).
Qed.

Lemma starts_ok_pump_on pm now : starts_ok pm → starts_ok (pump_on pm now).
Proof. intros [? ?]. split; cbn; [by rewrite length_insert|apply starts_idx_next]. Qed.

(** Unless the pump stands in FAULT, no fault is held. *)
Lemma pm_inv_cases pm :
  pm_inv pm → starts_ok pm ∧
  (pm_fault pm = PM_FAULT_NONE ∧ pm_state pm ≠ PM_STATE_FAULT
   ∨ pm_fault pm ≠ PM_FAULT_NONE ∧ pm_state pm = PM_STATE_FAULT).
Proof.
  intros [Hr Hf ? ?]. split; [done|]. do 2 case_bool_decide; cbn in Hf; try done; auto.
Qed.

Arguments enter_state : simpl never.
Arguments latch_fault : simpl never.
Arguments pump_on : simpl never.
Arguments classify_demand : simpl never.
Arguments demand_limit_ms : simpl never.
Arguments starts_in_last_hour : simpl never.
Arguments run_ms : simpl never.
Arguments u64 : simpl never.

(** [split_ifs] splits on the conditionals of the goal. *)
Ltac split_ifs :=
  repeat match goal with
    | |- context [if ?b then _ else _] => let E := fresh "E" in destruct b eqn:E
    end.

(** [pm_inv_solve] closes the invariant of one exit of a call. *)
Ltac pm_inv_solve :=
  first [ apply pm_inv_latch | apply pm_inv_enter | split ]; cbn;
  try match goal with |- starts_ok (pump_on _ _) => apply starts_ok_pump_on end;
  try match goal with |- starts_ok _ => split; cbn end;
  rewrite ?bool_decide_true, ?bool_decide_false by done; auto; try done.

Lemma pm_inv_protections pm bOk now : pm_inv pm → pm_inv (protections pm bOk now).
Proof.
  intros H. pose proof (pm_inv_cases pm H) as [? _]. unfold protections, demand_set.
  split_ifs; auto; by apply pm_inv_latch.
Qed.

Lemma pm_inv_switch pm bOk now : pm_inv pm → pm_inv (state_switch pm bOk now).
Proof.
  intros H. destruct (pm_inv_cases pm H) as [[? ?] [[Hf ?]|[Hf ?]]];
    destruct H as [Hr _ _ _]; destruct pm as [? []]; cbn in *; try done; subst;
    unfold case_pressure_drop, case_starting, case_running, case_recovering,
      relay_off, demand_set, event_begin, event_end, pump_off;
    split_ifs; pm_inv_solve.
Qed.

Lemma pm_inv_update pm flBar bOk now : pm_inv pm → pm_inv (pm_update pm flBar bOk now).
Proof.
  intros H. destruct (pm_update_ctl pm flBar bOk now) as (m & ->).
  by apply pm_inv_frame, pm_inv_switch, pm_inv_protections, pm_inv_sensed.
Qed.

Lemma pm_inv_request_on pm d now : pm_inv pm → pm_inv (pm_request_on pm d now).2.
Proof.
  intros H. destruct (pm_inv_cases pm H) as [[? ?] Hc]. unfold pm_request_on.
  destruct (request_on_refused pm now) eqn:Href; [done|].
  assert (pm_fault pm = PM_FAULT_NONE) as Hf.
  { destruct Hc as [[? ?]|[? Hs]]; [done|]. unfold request_on_refused in Href.
    by rewrite Hs in Href. }
  cbn [snd]. unfold event_begin. split_ifs; pm_inv_solve.
Qed.

Lemma pm_inv_step pm op : pm_inv pm → pm_inv (pm_step pm op).
Proof.
  intros H. pose proof (pm_inv_cases pm H) as [[? ?] Hc].
  destruct op; cbn [pm_step];
    [by apply pm_inv_update|by destruct H; constructor|by apply pm_inv_request_on|..];
    unfold pm_request_off, pm_request_restart, pm_mode_set, pm_fault_ack, event_end,
      pump_off, demand_set;
    destruct H as [Hr _ _ _]; destruct pm as [? []]; cbn in *;
    destruct Hc as [[Hf ?]|[Hf ?]]; try done; subst; split_ifs; cbn; pm_inv_solve.
Qed.

Lemma pm_inv_init cfg : pm_inv (pm_init cfg).
Proof. by split. Qed.

Lemma pm_inv_run pm ops : pm_inv pm → pm_inv (pm_run pm ops).
Proof. revert pm. induction ops; cbn; auto using pm_inv_step. Qed.

(** ** Starting the pump *)

(** The guards every start passes, on the state before the call. *)
Record start_guards (pm : pm_t) (now : Z) : Prop := {
  sg_state : pm_state pm ≠ PM_STATE_FAULT ∧ pm_state pm ≠ PM_STATE_INIT;
  sg_rate : starts_in_last_hour pm now < c_max_starts_per_hour (pm_cfg pm);
  sg_pause : min_off_elapsed pm now = true
}.

(** What a start records. *)
Record start_effect (pm pm' : pm_t) (now : Z) : Prop := {
  se_start : pm_pump_start_ms pm' = now;
  se_stop : pm_pump_stop_ms pm' = pm_pump_stop_ms pm;
  se_hist : pm_starts_ms pm' = <[Z.to_nat (pm_starts_idx pm) := now]> (pm_starts_ms pm);
  se_idx : pm_starts_idx pm' = (pm_starts_idx pm + 1) mod PM_START_HISTORY
}.

(** A call that is not a start leaves the start history alone; it leaves the
    stop time alone or sets it to its own time. *)
Record no_start (pm pm' : pm_t) (now : Z) : Prop := {
  ns_hist : pm_starts_ms pm' = pm_starts_ms pm;
  ns_idx : pm_starts_idx pm' = pm_starts_idx pm;
  ns_stop : pm_pump_stop_ms pm' = pm_pump_stop_ms pm ∨ pm_pump_stop_ms pm' = now
}.

(** The fields the relay is decided by are those of another state. *)
Record same_pump (pm pm' : pm_t) : Prop := {
  sp_relay : pm_relay_on pm' = pm_relay_on pm;
  sp_hist : pm_starts_ms pm' = pm_starts_ms pm;
  sp_idx : pm_starts_idx pm' = pm_starts_idx pm;
  sp_stop : pm_pump_stop_ms pm' = pm_pump_stop_ms pm
}.

Lemma enter_same_pump pm s now : same_pump pm (enter_state pm s now).
Proof. unfold enter_state. by case_decide; split. Qed.

Lemma relay_latch pm f now : pm_relay_on (latch_fault pm f now) = false.
Proof. unfold latch_fault. rewrite (sp_relay _ _ (enter_same_pump _ _ _)). by case_match. Qed.

Lemma latch_stop pm f now :
  pm_relay_on pm = true → pm_pump_stop_ms (latch_fault pm f now) = now.
Proof. intros H. unfold latch_fault, enter_state. rewrite H. cbn. by case_decide. Qed.

Lemma state_latch pm f now : pm_state (latch_fault pm f now) = PM_STATE_FAULT.
Proof. unfold latch_fault, enter_state. by case_decide. Qed.

Lemma latch_no_start pm f now : no_start pm (latch_fault pm f now) now.
Proof.
  unfold latch_fault, enter_state. cbn zeta.
  case_decide; destruct (_ || _); split; cbn; auto.
Qed.

(** The outcome of a call: a guarded start, or no start; a stop is stamped
    with the time of the call. *)
Definition step_outcome (pm pm' : pm_t) (now : Z) : Prop :=
  (pm_relay_on pm = false ∧ pm_relay_on pm' = true ∧
   start_guards pm now ∧ start_effect pm pm' now)
  ∨ ((pm_relay_on pm' = true → pm_relay_on pm = true) ∧ no_start pm pm' now ∧
     (pm_relay_on pm = true → pm_relay_on pm' = false → pm_pump_stop_ms pm' = now)).

Lemma outcome_same pm pm' now : same_pump pm pm' → step_outcome pm pm' now.
Proof. intros []. right. split_and!; [congruence|split; auto|congruence]. Qed.

Lemma outcome_off pm pm' now :
  pm_relay_on pm' = false → pm_pump_stop_ms pm' = now → pm_starts_ms pm' = pm_starts_ms pm →
  pm_starts_idx pm' = pm_starts_idx pm → step_outcome pm pm' now.
Proof. intros. right. split_and!; [congruence|split; auto|congruence]. Qed.

(** Entering a state does not touch the pump. *)
Lemma outcome_enter pm pm' s now :
  step_outcome pm pm' now → pm_pump_start_ms (enter_state pm' s now) = pm_pump_start_ms pm' →
  step_outcome pm (enter_state pm' s now) now.
Proof.
  intros H Hst. destruct (enter_same_pump pm' s now) as [Hr Hh Hi Hs].
  unfold step_outcome. rewrite Hr, Hs.
  destruct H as [(?&?&?&[])|(?&[? ? ?]&?)]; [left|right]; split_and!; try done;
    split; congruence.
Qed.

Lemma start_enter pm s now : pm_pump_start_ms (enter_state pm s now) = pm_pump_start_ms pm.
Proof. unfold enter_state. by case_decide. Qed.

Lemma outcome_latch pm pm' f now :
  same_pump pm pm' → step_outcome pm (latch_fault pm' f now) now.
Proof.
  intros [Hr ? ? ?]. right. rewrite relay_latch. destruct (latch_no_start pm' f now).
  split_and!; [done|split; congruence|]. intros. apply latch_stop. congruence.
Qed.

(** [outcome_solve] closes the outcome of an exit of a call that starts nothing. *)
Ltac outcome_solve :=
  try match goal with
    | |- step_outcome _ (enter_state _ _ _) _ => apply outcome_enter; [|apply start_enter]
    end;
  first [ lazymatch goal with
          | |- step_outcome _ (latch_fault _ _ _) _ => apply outcome_latch; split; cbn; congruence
          end
        | apply outcome_same; split; cbn; congruence
        | apply outcome_off; cbn; congruence ].

(** The protections let a call pass unchanged, or latch a fault. *)
Lemma protections_cases pm bOk now :
  (protections pm bOk now = pm ∧
   (pm_state pm = PM_STATE_FAULT ∨
    bOk = true ∧ (pm_relay_on pm = true →
      crit_low pm = false ∧ run_ms pm now < max_run_ms pm ∧ dry_run pm now = false)))
  ∨ (∃ d f, pm_state pm ≠ PM_STATE_FAULT ∧ f ≠ PM_FAULT_NONE ∧
       (bOk = false → f = PM_FAULT_SENSOR) ∧
       protections pm bOk now = latch_fault (demand_set pm d) f now).
Proof.
  assert (∀ pm, demand_set pm (m_demand (pm_m pm)) = pm) as Hsame by (by intros [? ? ? ? ? ? ? ? ? ? ? ? ? ? ? []]).
  unfold protections. destruct (decide (pm_state pm = PM_STATE_FAULT)); [by auto|].
  destruct bOk; cbn; [|right; by exists PM_DEMAND_SENSOR_FAULT, PM_FAULT_SENSOR].
  destruct (pm_relay_on pm) eqn:Hr; [|left; naive_solver].
  destruct (crit_low pm) eqn:Hc; 
    [right; by exists PM_DEMAND_PIPE_BREAK, PM_FAULT_CRITICAL_LOW|].
  case_bool.
  { right. exists (m_demand (pm_m pm)), PM_FAULT_MAX_RUNTIME. by rewrite Hsame. }
  destruct (dry_run pm now) eqn:Hd; 
    [|left; split; [done|]; by right].
  right. exists (m_demand (pm_m pm)), PM_FAULT_DRY_RUN. by rewrite Hsame.
Qed.

Lemma switch_fault pm bOk now :
  pm_state pm = PM_STATE_FAULT → state_switch pm bOk now = relay_off pm.
Proof. unfold state_switch. by intros ->. Qed.

Lemma outcome_pump_on pm pm' now :
  pm_relay_on pm = false → start_guards pm now → same_pump pm pm' →
  step_outcome pm (pump_on pm' now) now.
Proof.
  intros ? ? []. left. split_and!; try done.
  split; unfold pump_on; cbn; congruence.
Qed.

Lemma outcome_starting pm now :
  pm_relay_on pm = false → pm_state pm = PM_STATE_STARTING →
  step_outcome pm (case_starting pm now) now.
Proof.
  intros Hr Hs. unfold case_starting. case_bool; [outcome_solve|].
  destruct (min_off_elapsed pm now) eqn:Hm; [|outcome_solve].
  apply outcome_enter, start_enter. apply outcome_pump_on; [done| |done].
  split; [by rewrite Hs|lia|done].
Qed.

Lemma outcome_switch pm bOk now :
  pm_inv pm → step_outcome pm (state_switch pm bOk now) now.
Proof.
  intros [Hr _ _ _]. unfold state_switch.
  destruct (pm_state pm) eqn:Hs;
    rewrite ?bool_decide_true, ?bool_decide_false in Hr by done; try (by apply outcome_starting);
    unfold case_pressure_drop, case_recovering, case_running, relay_off, event_begin,
      event_end, demand_set, pump_off;
    cbn zeta; split_ifs; outcome_solve.
Qed.

(** ** Every public call *)

Lemma outcome_compose pm pm1 pm2 now :
  same_pump pm pm1 → pm_cfg pm1 = pm_cfg pm → pm_state pm1 = pm_state pm →
  step_outcome pm1 pm2 now → step_outcome pm pm2 now.
Proof.
  intros [Hr Hh Hi Hs] Hc Hst. unfold step_outcome. rewrite <- Hr.
  intros [(?&?&[? ? ?]&[])|(?&[]&?)]; [left|right]; split_and!; try done;
    split; rewrite <- ?Hst; unfold starts_in_last_hour, min_off_elapsed in *;
    rewrite <- ?Hc, <- ?Hh, <- ?Hs, <- ?Hi; done.
Qed.

Lemma sensed_same_pump pm flBar now : same_pump pm (sensed pm flBar now).
Proof. destruct (sensed_ctl pm flBar now) as (m & x & ->). by split. Qed.

Lemma outcome_frame pm pm' m t now :
  step_outcome pm pm' now → step_outcome pm (pm' <| pm_m := m |> <| pm_last_update_ms := t |>) now.
Proof.
  intros [(?&?&?&[])|(?&[]&?)]; [left|right]; split_and!; try done; by split.
Qed.

Lemma outcome_update pm flBar bOk now :
  pm_inv pm → step_outcome pm (pm_update pm flBar bOk now) now.
Proof.
  intros H. destruct (pm_update_ctl pm flBar bOk now) as (m & ->). apply outcome_frame.
  apply (outcome_compose _ (sensed pm flBar now)); [apply sensed_same_pump|..].
  1,2: by destruct (sensed_ctl pm flBar now) as (? & ? & ->).
  apply (pm_inv_sensed _ flBar now) in H. revert H. generalize (sensed pm flBar now). clear.
  intros pm H. destruct (protections_cases pm bOk now) as [[-> _]|(d & f & _ & _ & _ & ->)];
    [by apply outcome_switch|].
  rewrite switch_fault by apply state_latch.
  assert (relay_off (latch_fault (demand_set pm d) f now) = latch_fault (demand_set pm d) f now)
    as ->; [|by outcome_solve].
  unfold relay_off. pose proof (relay_latch (demand_set pm d) f now) as Hr.
  destruct (latch_fault _ _ _). cbn in *. by subst.
Qed.

Lemma refused_guards pm now : request_on_refused pm now = false → start_guards pm now.
Proof.
  unfold request_on_refused. rewrite !orb_false_iff. intros [[[Hs _] Hm] Hr].
  apply bool_decide_eq_false in Hs. split; [naive_solver|lia|].
  unfold min_off_elapsed. apply andb_false_iff in Hm as [Hm|Hm]; [|lia].
  by destruct (pm_pump_stop_ms pm =? 0).
Qed.

Lemma outcome_request_on pm d now :
  pm_inv pm → step_outcome pm (pm_request_on pm d now).2 now.
Proof.
  intros _. unfold pm_request_on. destruct (request_on_refused pm now) eqn:Href.
  - by apply outcome_same.
  - apply refused_guards in Href. cbn [snd].
    apply outcome_enter; [|apply start_enter].
    set (pm1 := pm <| pm_mode := _ |> <| pm_manual_until_ms := _ |>).
    set (pm2 := if pm_event_start_ms pm1 =? 0 then _ else _).
    assert (same_pump pm pm2) as Hsame by (subst pm2; by case_match).
    destruct (pm_relay_on pm2) eqn:Hr; [by apply outcome_same|].
    apply outcome_pump_on; [|done..]. by rewrite <- (sp_relay _ _ Hsame).
Qed.

Lemma outcome_step pm op : pm_inv pm → step_outcome pm (pm_step pm op) (op_time op).
Proof.
  intros H. destruct op; cbn [pm_step op_time];
    [by apply outcome_update|by apply outcome_same|by apply outcome_request_on|..];
    unfold pm_request_off, pm_request_restart, pm_mode_set, pm_fault_ack, event_end,
      pump_off, demand_set;
    split_ifs; cbn [snd]; outcome_solve.
Qed.

(** ** The start history *)

(** What the ghost history of starts and stops says about the manager. *)
Record ghost_inv (g : pm_ghost) (t : Z) : Prop := {
  gi_pm : pm_inv (g_pm g);
  gi_ring : ring_slots 0 (pm_starts_ms (g_pm g)) (g_starts g);
  gi_idx : Z.to_nat (pm_starts_idx (g_pm g)) = slot_of 16 (length (g_starts g));
  gi_sorted : ∀ i j s s', (i <= j)%nat → g_starts g !! i = Some s →
    g_starts g !! j = Some s' → 0 < s <= s' ∧ s' <= t;
  gi_stop : 0 <= pm_pump_stop_ms (g_pm g) <= t;
  gi_last_stop : ∀ s, last (g_stops g) = Some s → 0 < s <= pm_pump_stop_ms (g_pm g)
}.

Lemma ghost_inv_init cfg : ghost_inv (mk_ghost (pm_init cfg) [] []) 1.
Proof.
  split; [apply pm_inv_init|apply (ring_slots_init 0 16); lia|..]; done.
Qed.

Lemma slot_of_succ i n :
  0 <= i < PM_START_HISTORY → Z.to_nat i = slot_of 16 n →
  Z.to_nat ((i + 1) mod PM_START_HISTORY) = slot_of 16 (n + 1).
Proof.
  unfold slot_of, PM_START_HISTORY. intros Hi Hs.
  pose proof (Z.mod_pos_bound (Z.of_nat n) 16 ltac:(lia)).
  replace i with (Z.of_nat n mod 16) by lia.
  rewrite mod_succ_idemp by lia. do 2 f_equal. lia.
Qed.

(** Appending a start at a later time keeps the history sorted. *)
Lemma sorted_snoc (l : list Z) t now :
  0 < now → t <= now →
  (∀ i j s s', (i <= j)%nat → l !! i = Some s → l !! j = Some s' → 0 < s <= s' ∧ s' <= t) →
  ∀ i j s s', (i <= j)%nat → (l ++ [now]) !! i = Some s → (l ++ [now]) !! j = Some s' →
    0 < s <= s' ∧ s' <= now.
Proof.
  intros ? ? Hl i j s s' Hij Hi Hj.
  apply lookup_app_Some in Hi as [Hi|[? Hi]]; apply lookup_app_Some in Hj as [Hj|[? Hj]].
  - specialize (Hl i j s s' Hij Hi Hj). lia.
  - apply list_lookup_singleton_Some in Hj as [_ <-]. specialize (Hl i i s s ltac:(lia) Hi Hi). lia.
  - apply lookup_lt_Some in Hj. lia.
  - apply list_lookup_singleton_Some in Hj as [_ <-].
    apply list_lookup_singleton_Some in Hi as [_ <-]. lia.
Qed.

Lemma ghost_inv_step g t op :
  ghost_inv g t → 0 < t → t <= op_time op → ghost_inv (ghost_step g op) (op_time op).
Proof.
  intros [Hpm Hring Hidx Hs Hst Hls] Ht Hle. destruct g as [pm starts stops]; cbn in *.
  pose proof (pm_inv_step pm op Hpm) as Hpm'.
  assert (∀ i j s s', (i <= j)%nat → starts !! i = Some s → starts !! j = Some s' →
    0 < s <= s' ∧ s' <= op_time op) as Hs' by (intros i j s s' ???; edestruct (Hs i j); eauto; lia).
  unfold ghost_step, starts_now, stops_now; cbn.
  destruct (outcome_step pm op Hpm) as [(Hr & Hr' & _ & [_ E2 E3 E4])|(Hr & [E2 E3 E4] & Hoff)].
  - rewrite Hr, Hr'. cbn. split; cbn; try done.
    + rewrite E3, Hidx. change 16%nat with (Z.to_nat PM_START_HISTORY).
      rewrite <- (pi_len _ Hpm). by apply ring_slots_push.
    + rewrite E4, length_app. apply slot_of_succ; [apply Hpm|done].
    + by apply (sorted_snoc _ t); [lia|..].
    + rewrite E2. lia.
    + intros s Hl. rewrite E2. auto.
  - replace (negb (pm_relay_on pm) && pm_relay_on (pm_step pm op)) with false
      by (destruct (pm_relay_on pm), (pm_relay_on (pm_step pm op)); naive_solver).
    split; cbn; try done; try congruence; [lia|]. intros s.
    destruct (pm_relay_on pm), (pm_relay_on (pm_step pm op)); cbn;
      try rewrite last_snoc; intros Hl; try (specialize (Hls s Hl); lia).
    specialize (Hoff eq_refl eq_refl). simplify_eq. lia.
Qed.

(** The history before the last call of a trace. *)
Lemma ghost_inv_run g t ops op :
  ghost_inv g t → 0 < t → times_from t (ops ++ [op]) →
  ∃ t', t <= t' <= op_time op ∧ ghost_inv (foldl ghost_step g ops) t' ∧ is_u64 (op_time op).
Proof.
  revert g t. induction ops as [|o ops IH]; intros g t Hg Ht (Hle & Hu & Hts); cbn [foldl].
  - by exists t.
  - destruct (IH _ _ (ghost_inv_step _ _ _ Hg Ht Hle) ltac:(lia) Hts) as (t' & ? & ?).
    exists t'. split; [lia|done].
Qed.

Lemma ghost_inv_last cfg ops op :
  times_from 1 (ops ++ [op]) →
  ∃ t', 1 <= t' <= op_time op ∧ ghost_inv (ghost_run cfg ops) t' ∧ is_u64 (op_time op).
Proof. apply ghost_inv_run; [apply ghost_inv_init|lia]. Qed.

(** Only [pm_config_set] changes the configuration. *)
Definition op_cfg (op : pm_op) (c : pm_config_t) : pm_config_t :=
  match op with OpConfig cfg _ => cfg | _ => c end.

Lemma cfg_enter pm s now : pm_cfg (enter_state pm s now) = pm_cfg pm.
Proof. unfold enter_state. by case_decide. Qed.

Lemma cfg_latch pm f now : pm_cfg (latch_fault pm f now) = pm_cfg pm.
Proof. unfold latch_fault. rewrite cfg_enter. by case_match. Qed.

Lemma cfg_protections pm bOk now : pm_cfg (protections pm bOk now) = pm_cfg pm.
Proof. unfold protections. split_ifs; by rewrite ?cfg_latch. Qed.

Lemma cfg_switch pm bOk now : pm_cfg (state_switch pm bOk now) = pm_cfg pm.
Proof.
  unfold state_switch, case_pressure_drop, case_starting, case_running, case_recovering.
  destruct (pm_state pm); cbn zeta; split_ifs; by rewrite ?cfg_latch, ?cfg_enter.
Qed.

Lemma cfg_frame pm m t : pm_cfg (pm <| pm_m := m |> <| pm_last_update_ms := t |>) = pm_cfg pm.
Proof. done. Qed.

Lemma cfg_update pm flBar bOk now : pm_cfg (pm_update pm flBar bOk now) = pm_cfg pm.
Proof.
  destruct (pm_update_ctl pm flBar bOk now) as (m & ->).
  rewrite cfg_frame, cfg_switch, cfg_protections. by destruct (sensed_ctl pm flBar now) as (? & ? & ->).
Qed.

Lemma cfg_step pm op : pm_cfg (pm_step pm op) = op_cfg op (pm_cfg pm).
Proof.
  destruct op; cbn [pm_step op_cfg]; try done; [apply cfg_update|..];
    unfold pm_request_on, pm_request_off, pm_request_restart, pm_mode_set, pm_fault_ack;
    cbn zeta; split_ifs; cbn [snd]; by rewrite ?cfg_enter.
Qed.

Lemma length_filter_suffix {A} (P : A → Prop) `{∀ x, Decision (P x)} (l : list A) n :
  (n <= length l)%nat →
  (∀ i x, (length l - n <= i)%nat → l !! i = Some x → P x) →
  (n <= length (filter P l))%nat.
Proof.
  intros Hn HP. rewrite <- (take_drop (length l - n) l) at 1.
  rewrite filter_app, length_app.
  assert (Forall P (drop (length l - n) l)) as Hall.
  { apply Forall_lookup. intros i x. rewrite lookup_drop. intros. by eapply HP, H0; lia. }
  assert (∀ k, Forall P k → filter P k = k) as Hfil.
  { intros k Hk. induction Hk; [done|]. rewrite filter_cons_True by done. by f_equal. }
  rewrite (Hfil _ Hall), length_drop. lia.
Qed.

(** A start within the last hour whose [N] successors are the newest starts
    makes the counter reach [N]. *)
Lemma starts_count_ge g t now N s :
  ghost_inv g t → t <= now → is_u64 now → (N <= 16)%nat →
  (N <= length (g_starts g))%nat → g_starts g !! (length (g_starts g) - N)%nat = Some s →
  now - s <= 3600000 → Z.of_nat N <= starts_in_last_hour (g_pm g) now.
Proof.
  intros [Hpm Hring _ Hs _ _] Ht Hnow HN Hlen Hlook Hhour. unfold starts_in_last_hour.
  pose proof (pi_len _ Hpm) as H16. change (Z.to_nat PM_START_HISTORY) with 16%nat in H16.
  pose proof (length_filter (λ s, start_in_hour now s = true) (pm_starts_ms (g_pm g))) as Hle.
  rewrite u8_id by (unfold is_u8; lia). apply inj_le.
  rewrite (rs_perm _ _ _ Hring), filter_app, length_app, H16.
  enough (N <= length (filter (λ s, start_in_hour now s = true) (lastn 16 (g_starts g))))%nat by lia.
  apply length_filter_suffix; rewrite length_lastn; [lia|].
  intros i x Hi. rewrite lookup_lastn. intros Hx.
  pose proof (Hs (length (g_starts g) - N)%nat (length (g_starts g) - 16 + i)%nat s x
    ltac:(lia) Hlook Hx) as [? ?].
  unfold start_in_hour, is_u64 in *. rewrite u64_id by (unfold is_u64; lia).
  apply andb_true_iff. split; [|lia]. apply negb_true_iff. lia.
Qed.
