(* ===== verification/PumpSafety.v ===== *)
(** * Safety of the pump state machine

    The properties of [PumpManager] over arbitrary traces of the public API:
    consistency of relay, state and fault; the sensor and running protections;
    fault latching; the guards and the rate limit of starts; the switch-off of
    timed-on and off requests; the bound on every run; the state graph. *)

From S2P Require Import Prelude Float32 PumpManager.

Definition reached (cfg : pm_config_t) (ops : list pm_op) : pm_t := pm_run (pm_init cfg) ops.

Lemma reached_inv cfg ops : pm_inv (reached cfg ops).
Proof. apply pm_inv_run, pm_inv_init. Qed.

Lemma inv_relay_iff pm : pm_inv pm → pm_relay_on pm = true ↔ pm_state pm = PM_STATE_RUNNING.
Proof. intros [-> _ _ _]. apply bool_decide_eq_true. Qed.

Lemma inv_fault_iff pm : pm_inv pm → pm_fault pm ≠ PM_FAULT_NONE ↔ pm_state pm = PM_STATE_FAULT.
Proof. intros H. destruct (pm_inv_cases pm H) as [_ [[? ?]|[? ?]]]; naive_solver. Qed.

(** The states that are not RUNNING report no running pump. *)
Lemma dp_state_on pm : pm_inv pm → pm_dp_state_get pm = PM_DP_ON ↔ pm_relay_on pm = true.
Proof.
  intros H. rewrite (inv_relay_iff pm H). destruct H as [Hr _ _ _].
  unfold pm_dp_state_get, dp_mode_value. rewrite Hr.
  destruct (pm_state pm), (pm_mode pm); done.
Qed.

Lemma dp_state_fault pm : pm_dp_state_get pm = PM_DP_FAULT ↔ pm_state pm = PM_STATE_FAULT.
Proof.
  unfold pm_dp_state_get, dp_mode_value.
  destruct (pm_state pm), (pm_mode pm), (pm_relay_on pm); done.
Qed.

(** C1: after any sequence of public calls the relay output is on exactly in
    RUNNING, a fault code is held exactly in FAULT, the reported data-point
    state is "on" exactly with the relay and "fault" exactly in FAULT, and the
    start history index stays inside its array of 16 cells. *)
Theorem pm_outputs_consistent cfg ops :
  let pm := reached cfg ops in
  (pm_relay_get pm = true ↔ pm_state pm = PM_STATE_RUNNING) ∧
  (pm_fault pm ≠ PM_FAULT_NONE ↔ pm_state pm = PM_STATE_FAULT) ∧
  (pm_dp_state_get pm = PM_DP_ON ↔ pm_relay_get pm = true) ∧
  (pm_dp_state_get pm = PM_DP_FAULT ↔ pm_state pm = PM_STATE_FAULT) ∧
  length (pm_starts_ms pm) = 16%nat ∧ 0 <= pm_starts_idx pm < 16.
Proof.
  intros pm. pose proof (reached_inv cfg ops) as H. fold pm in H. split_and!.
  1: by apply inv_relay_iff. 1: by apply inv_fault_iff. 1: by apply dp_state_on.
  1: apply dp_state_fault. all: apply H.
Qed.

(** ** Protections *)

(** The decisions of [pm_update] seen by its control outputs. *)
Lemma update_decides pm flBar bOk now :
  let pm' := state_switch (protections (sensed pm flBar now) bOk now) bOk now in
  pm_state (pm_update pm flBar bOk now) = pm_state pm'
  ∧ pm_fault (pm_update pm flBar bOk now) = pm_fault pm'
  ∧ pm_relay_on (pm_update pm flBar bOk now) = pm_relay_on pm'.
Proof.
  destruct (pm_update_ctl pm flBar bOk now) as (m & ->).
  by generalize (state_switch (protections (sensed pm flBar now) bOk now) bOk now).
Qed.

Lemma sensed_fields pm flBar now :
  let s := sensed pm flBar now in
  pm_state s = pm_state pm ∧ pm_fault s = pm_fault pm ∧ pm_relay_on s = pm_relay_on pm
  ∧ pm_mode s = pm_mode pm ∧ pm_cfg s = pm_cfg pm ∧ pm_pump_start_ms s = pm_pump_start_ms pm
  ∧ pm_manual_until_ms s = pm_manual_until_ms pm ∧ pm_start_bar s = pm_start_bar pm.
Proof. intros s. subst s. by destruct (sensed_ctl pm flBar now) as (m & x & ->). Qed.

Lemma fault_latch pm f now : pm_fault (latch_fault pm f now) = f.
Proof. unfold latch_fault, enter_state. cbn zeta. case_decide; by destruct (_ || _). Qed.

(** A fault latched by the protections stands at the end of the update. *)
Lemma update_latched pm flBar bOk now d f :
  protections (sensed pm flBar now) bOk now = latch_fault d f now →
  pm_state (pm_update pm flBar bOk now) = PM_STATE_FAULT
  ∧ pm_fault (pm_update pm flBar bOk now) = f ∧ pm_relay_on (pm_update pm flBar bOk now) = false.
Proof.
  intros E. destruct (update_decides pm flBar bOk now) as (-> & -> & ->). rewrite E.
  rewrite switch_fault by apply state_latch. unfold relay_off. cbn.
  rewrite state_latch. by rewrite fault_latch.
Qed.

(** In FAULT an update changes neither state nor fault. *)
Lemma update_in_fault pm flBar bOk now :
  pm_state pm = PM_STATE_FAULT →
  pm_state (pm_update pm flBar bOk now) = PM_STATE_FAULT
  ∧ pm_fault (pm_update pm flBar bOk now) = pm_fault pm
  ∧ pm_relay_on (pm_update pm flBar bOk now) = false.
Proof.
  intros Hs. destruct (update_decides pm flBar bOk now) as (-> & -> & ->).
  destruct (sensed_fields pm flBar now) as (Hs' & Hf' & _). rewrite Hs in Hs'.
  destruct (protections_cases (sensed pm flBar now) bOk now) as [[-> _]|(d & f & Hn & _)]; [|done].
  rewrite switch_fault by done. unfold relay_off. cbn. by rewrite Hs', Hf'.
Qed.

(** an update with a failed pressure sensor always ends with the relay off
    and in FAULT: the sensor fault is latched, or the fault already held is
    kept. *)
Theorem sensor_failure_stops_pump cfg ops flBar now :
  let pm := reached cfg ops in
  let pm' := pm_update pm flBar false now in
  pm_relay_get pm' = false ∧ pm_state pm' = PM_STATE_FAULT ∧
  pm_fault pm' = (if decide (pm_state pm = PM_STATE_FAULT) then pm_fault pm
                  else PM_FAULT_SENSOR).
Proof.
  intros pm pm'. subst pm'. unfold pm_relay_get. case_decide as Hs.
  - by destruct (update_in_fault pm flBar false now Hs) as (-> & -> & ->).
  - destruct (protections_cases (sensed pm flBar now) false now)
      as [[_ [Hf|[? _]]]|(d & f & _ & _ & Hsens & E)]; [|done|].
    + by destruct (sensed_fields pm flBar now) as (? & _); congruence.
    + destruct (update_latched _ _ _ _ _ _ E) as (-> & -> & ->). auto.
Qed.

(** A call that is not an acknowledgement with a healthy sensor. *)
Definition not_ack (op : pm_op) : Prop := ∀ now, op ≠ OpAck true now.

Lemma fault_step pm op :
  pm_state pm = PM_STATE_FAULT → not_ack op →
  pm_state (pm_step pm op) = PM_STATE_FAULT ∧ pm_fault (pm_step pm op) = pm_fault pm.
Proof.
  intros Hs Hop. destruct op as [flBar bOk now|cfg now|d now|now|now|m now|bOk now];
    cbn [pm_step]; try done.
  - destruct (update_in_fault pm flBar bOk now Hs) as (-> & -> & _). done.
  - unfold pm_request_on, request_on_refused. by rewrite bool_decide_true by auto.
  - unfold pm_request_off. cbn. by rewrite decide_True.
  - unfold pm_request_restart. by rewrite decide_True.
  - unfold pm_mode_set. cbn. by rewrite bool_decide_false by auto.
  - unfold pm_fault_ack. rewrite decide_False by auto. destruct bOk; [by destruct (Hop now)|done].
Qed.

(** C2: a latched fault survives every sequence of calls that contains no
    acknowledgement with a healthy sensor: the state stays FAULT, the fault code
    stays the one latched and the relay stays off (requests only pre-select the
    mode). *)
Theorem fault_latched_until_ack cfg ops ops' :
  pm_state (reached cfg ops) = PM_STATE_FAULT → Forall not_ack ops' →
  let pm' := pm_run (reached cfg ops) ops' in
  pm_state pm' = PM_STATE_FAULT ∧ pm_fault pm' = pm_fault (reached cfg ops) ∧
  pm_relay_get pm' = false.
Proof.
  intros Hs Hops pm'.
  assert (pm_state pm' = PM_STATE_FAULT ∧ pm_fault pm' = pm_fault (reached cfg ops)) as [Hs' ?].
  { subst pm'. revert Hs. generalize (reached cfg ops). induction Hops as [|op ops' Hop _ IH];
      intros pm Hs; [done|]. cbn. destruct (fault_step pm op Hs Hop) as [H1 H2].
    rewrite <- H2. by apply IH. }
  split_and!; try done. unfold pm_relay_get.
  by rewrite (pi_relay pm' (pm_inv_run _ ops' (reached_inv cfg ops))), Hs'.
Qed.

(** The fault an update leaves behind on a running pump. *)
Lemma running_fault pm flBar now :
  pm_inv pm → pm_relay_on pm = true →
  let s := sensed pm flBar now in
  pm_fault (pm_update pm flBar true now)
  = if crit_low s then PM_FAULT_CRITICAL_LOW
    else if max_run_ms s <=? run_ms s now then PM_FAULT_MAX_RUNTIME
    else if dry_run s now then PM_FAULT_DRY_RUN else PM_FAULT_NONE.
Proof.
  intros Hi Hr s. pose proof (proj1 (inv_relay_iff pm Hi) Hr) as Hs.
  destruct (sensed_fields pm flBar now) as (Es & Ef & Er & _).
  fold s in Es, Ef, Er. rewrite Hr in Er.
  assert (protections s true now = if crit_low s then
      latch_fault (demand_set s PM_DEMAND_PIPE_BREAK) PM_FAULT_CRITICAL_LOW now
    else if max_run_ms s <=? run_ms s now then latch_fault s PM_FAULT_MAX_RUNTIME now
    else if dry_run s now then latch_fault s PM_FAULT_DRY_RUN now else s) as Ep.
  { unfold protections. rewrite decide_False by congruence. cbn [negb]. by rewrite Er. }
  destruct (crit_low s); [by apply (update_latched pm flBar true now _ _ Ep)|].
  destruct (_ <=? _); [by apply (update_latched pm flBar true now _ _ Ep)|].
  destruct (dry_run s now); [by apply (update_latched pm flBar true now _ _ Ep)|].
  destruct (update_decides pm flBar true now) as (_ & -> & _). fold s. rewrite Ep.
  unfold state_switch. rewrite Es, Hs.
  assert (pm_fault s = PM_FAULT_NONE) as En.
  { rewrite Ef. destruct (pm_inv_cases pm Hi) as [_ [[? _]|[_ ?]]]; congruence. }
  revert En. generalize s. clear. intros s En. unfold case_running, enter_state. cbn zeta.
  split_ifs; done.
Qed.

(** what an update decides for a running pump with a healthy sensor: the
    first of the three protections that fires (pressure below critical after a
    pressurised start, the maximum run time, no pressure rise after the dry-run
    delay) latches its fault and switches the relay off; only when none fires
    is there no fault. *)
Theorem running_protections cfg ops flBar now :
  let pm := reached cfg ops in
  pm_relay_get pm = true →
  let s := sensed pm flBar now in
  let pm' := pm_update pm flBar true now in
  pm_fault pm' = (if crit_low s then PM_FAULT_CRITICAL_LOW
                  else if max_run_ms s <=? run_ms s now then PM_FAULT_MAX_RUNTIME
                  else if dry_run s now then PM_FAULT_DRY_RUN
                  else PM_FAULT_NONE)
  ∧ (pm_fault pm' ≠ PM_FAULT_NONE → pm_relay_get pm' = false ∧ pm_state pm' = PM_STATE_FAULT).
Proof.
  intros pm Hr s pm'. pose proof (reached_inv cfg ops) as Hi. fold pm in Hi.
  assert (pm_inv pm') as Hi' by by apply pm_inv_update.
  split; [by apply running_fault|].
  intros Hf. apply (inv_fault_iff pm' Hi') in Hf. unfold pm_relay_get.
  by rewrite (pi_relay pm' Hi'), Hf.
Qed.

(** ** Starts *)

Lemma min_off_elapsed_spec pm now :
  min_off_elapsed pm now = true →
  pm_pump_stop_ms pm = 0 ∨ c_min_off_ms (pm_cfg pm) <= u64 (now - pm_pump_stop_ms pm).
Proof. unfold min_off_elapsed. intros [H|H]%orb_true_iff; lia. Qed.

(** C4: every call that switches the pump on, an automatic start or a remote
    request, does so only when the manager was neither in FAULT nor in INIT,
    fewer than the configured number of starts lie in the last hour, and the
    minimum pause since the last stop is over; the start is recorded. *)
Theorem start_only_when_allowed cfg ops op :
  let pm := reached cfg ops in
  let now := op_time op in
  starts_now pm op = true →
  pm_state pm ≠ PM_STATE_FAULT ∧ pm_state pm ≠ PM_STATE_INIT ∧
  starts_in_last_hour pm now < c_max_starts_per_hour (pm_cfg pm) ∧
  (pm_pump_stop_ms pm = 0 ∨ c_min_off_ms (pm_cfg pm) <= u64 (now - pm_pump_stop_ms pm)) ∧
  pm_pump_start_ms (pm_step pm op) = now.
Proof.
  intros pm now Hst. unfold starts_now in Hst. apply andb_true_iff in Hst as [Hoff Hon].
  apply negb_true_iff in Hoff.
  destruct (outcome_step pm op (reached_inv cfg ops))
    as [(_ & _ & [[? ?] ? Hp] & [? _ _ _])|(Hr & _)]; [|rewrite Hr in Hoff; done].
  apply min_off_elapsed_spec in Hp. by split_and!.
Qed.

(** Any [n]+1 consecutive starts span more than an hour. *)
Definition spaced (n : nat) (l : list Z) : Prop :=
  ∀ i s s', l !! i = Some s → l !! (i + n)%nat = Some s' → 3600000 < s' - s.

Lemma spaced_step g t op n :
  ghost_inv g t → 0 < t → t <= op_time op → is_u64 (op_time op) → (1 <= n <= 16)%nat →
  c_max_starts_per_hour (pm_cfg (g_pm g)) <= Z.of_nat n →
  spaced n (g_starts g) → spaced n (g_starts (ghost_step g op)).
Proof.
  intros Hg Ht Hle Hu Hn Hmax Hsp. unfold ghost_step. cbn.
  destruct (starts_now (g_pm g) op) eqn:Hst; [|done].
  apply andb_true_iff in Hst as [Hoff%negb_true_iff Hon].
  destruct (outcome_step (g_pm g) op (gi_pm _ _ Hg)) as [(_ & _ & [_ Hrate _] & _)|(Hr & _)];
    [|rewrite Hr in Hoff; done].
  intros i s s' Hi Hi'.
  apply lookup_app_Some in Hi' as [Hi'|[Hlen Hi']].
  - apply (Hsp i s s'); [|done]. apply lookup_lt_Some in Hi'.
    by rewrite lookup_app_l in Hi by lia.
  - apply list_lookup_singleton_Some in Hi' as [Hz <-].
    rewrite lookup_app_l in Hi by lia.
    destruct (decide (op_time op - s <= 3600000)); [|lia].
    pose proof (starts_count_ge g t (op_time op) n s Hg Hle Hu ltac:(lia) ltac:(lia)) as Hc.
    replace (length (g_starts g) - n)%nat with i in Hc by lia. specialize (Hc Hi l). lia.
Qed.

(** Every configuration of a trace allows at most [N] starts per hour. *)
Definition max_starts_le (N : Z) (op : pm_op) : Prop :=
  match op with OpConfig cfg _ => c_max_starts_per_hour cfg <= N | _ => True end.

Lemma spaced_run g t ops n :
  ghost_inv g t → 0 < t → times_from t ops → (1 <= n <= 16)%nat →
  c_max_starts_per_hour (pm_cfg (g_pm g)) <= Z.of_nat n →
  Forall (max_starts_le (Z.of_nat n)) ops → spaced n (g_starts g) →
  spaced n (g_starts (foldl ghost_step g ops)).
Proof.
  revert g t. induction ops as [|op ops IH]; intros g t Hg Ht Hts Hn Hc Hops Hsp; [done|].
  destruct Hts as (? & ? & Hts). apply Forall_cons in Hops as [Hop Hops]. cbn [foldl].
  apply (IH _ (op_time op)); try done; [by apply (ghost_inv_step _ t)|lia| |by apply (spaced_step _ t)].
  cbn. rewrite cfg_step. by destruct op.
Qed.

(** C5: over every trace at non-decreasing times whose configurations allow at
    most N starts per hour (N up to the 16 cells of the history), the relay is
    switched on at most N times in any window of one hour: any start and the
    N-th start after it are more than an hour apart. *)
Theorem starts_per_rolling_hour cfg ops N :
  times_from 1 ops → 1 <= N <= 16 → c_max_starts_per_hour cfg <= N →
  Forall (max_starts_le N) ops →
  ∀ i s s', g_starts (ghost_run cfg ops) !! i = Some s →
    g_starts (ghost_run cfg ops) !! (i + Z.to_nat N)%nat = Some s' → 3600000 < s' - s.
Proof.
  intros Hts HN Hc Hops. replace N with (Z.of_nat (Z.to_nat N)) in Hc, Hops by lia.
  by apply (spaced_run _ 1); try done; [apply ghost_inv_init|lia].
Qed.

Lemma ghost_run_reached cfg ops : g_pm (ghost_run cfg ops) = reached cfg ops.
Proof.
  unfold ghost_run, reached, pm_run.
  assert (∀ g, g_pm (foldl ghost_step g ops) = foldl pm_step (g_pm g) ops) as H; [|apply H].
  induction ops as [|op ops IH]; intros g; cbn; [done|]. by rewrite IH.
Qed.

(** over every trace at non-decreasing times, a start happens at least the
    configured minimum pause after the last time the relay was switched off,
    by whatever path that was. *)
Theorem pause_before_start cfg ops op t :
  times_from 1 (ops ++ [op]) →
  starts_now (reached cfg ops) op = true →
  last (g_stops (ghost_run cfg ops)) = Some t →
  c_min_off_ms (pm_cfg (reached cfg ops)) <= op_time op - t.
Proof.
  intros Hts Hst Hl. rewrite <- ghost_run_reached in *.
  destruct (ghost_inv_last cfg ops op Hts) as (t' & Ht' & Hg & Hu).
  apply andb_true_iff in Hst as [Hoff%negb_true_iff Hon].
  destruct (outcome_step _ op (gi_pm _ _ Hg)) as [(_ & _ & [_ _ Hp] & _)|(Hr & _)];
    [|rewrite Hr in Hoff; done].
  pose proof (gi_last_stop _ _ Hg _ Hl). pose proof (gi_stop _ _ Hg).
  apply min_off_elapsed_spec in Hp. unfold is_u64 in Hu.
  rewrite u64_id in Hp; [lia|unfold is_u64; lia].
Qed.

(** ** The run time *)

Lemma run_ms_eq pm now : pm_pump_start_ms pm <= now → 0 <= pm_pump_start_ms pm → is_u64 now →
  run_ms pm now = now - pm_pump_start_ms pm.
Proof.
  unfold is_u64, run_ms. intros. case_bool; [|lia]. rewrite u64_id; [done|unfold is_u64; lia].
Qed.

Lemma start_latch pm f now : pm_pump_start_ms (latch_fault pm f now) = pm_pump_start_ms pm.
Proof. unfold latch_fault, enter_state. cbn zeta. by repeat case_match. Qed.

(** Only a call that switches the relay on touches the start time. *)
Lemma start_switch pm bOk now :
  pm_inv pm → pm_relay_on (state_switch pm bOk now) = false ∨ pm_relay_on pm = true →
  pm_pump_start_ms (state_switch pm bOk now) = pm_pump_start_ms pm.
Proof.
  intros [Hr _ _ _]. unfold state_switch.
  destruct (pm_state pm) eqn:Hs; rewrite ?bool_decide_true, ?bool_decide_false in Hr by done;
    unfold case_pressure_drop, case_starting, case_recovering, case_running, relay_off, event_begin, event_end,
      demand_set, pump_off, enter_state; rewrite Hr; cbn zeta; intros Ho; split_ifs;
    rewrite ?start_latch; try done; by destruct Ho.
Qed.

Lemma start_update pm flBar bOk now :
  pm_inv pm → pm_relay_on (pm_update pm flBar bOk now) = false ∨ pm_relay_on pm = true →
  pm_pump_start_ms (pm_update pm flBar bOk now) = pm_pump_start_ms pm.
Proof.
  intros Hi. destruct (sensed_fields pm flBar now) as (_ & _ & <- & _ & _ & <- & _).
  apply (pm_inv_sensed _ flBar now) in Hi. destruct (pm_update_ctl pm flBar bOk now) as (m & ->). cbn.
  revert Hi. generalize (sensed pm flBar now). clear. intros s Hi.
  destruct (protections_cases s bOk now) as [[-> _]|(d & f & _ & _ & _ & ->)]; [by apply start_switch|].
  intros _. rewrite switch_fault by apply state_latch. cbn. by rewrite start_latch.
Qed.

Lemma start_step pm op :
  pm_inv pm → starts_now pm op = false → pm_pump_start_ms (pm_step pm op) = pm_pump_start_ms pm.
Proof.
  unfold starts_now. intros Hi Hn.
  assert (pm_relay_on (pm_step pm op) = false ∨ pm_relay_on pm = true) as Ho
    by (destruct (pm_relay_on pm), (pm_relay_on (pm_step pm op)); auto; done).
  clear Hn. destruct op; cbn [pm_step] in *; [by apply start_update|done|..];
    unfold pm_request_on, pm_request_off, pm_request_restart, pm_mode_set, pm_fault_ack, event_begin, event_end,
      pump_off, pump_on, demand_set, enter_state in *; cbn zeta in *; split_ifs; cbn in *; try done; destruct Ho; congruence.
Qed.

(** While the pump runs, the start that the manager remembers is the last one. *)
Lemma runs_since_last_start cfg ops :
  pm_relay_on (reached cfg ops) = true →
  last (g_starts (ghost_run cfg ops)) = Some (pm_pump_start_ms (reached cfg ops)).
Proof.
  rewrite <- ghost_run_reached.
  induction ops as [|op ops IH] using rev_ind; [done|]. unfold ghost_run in *. rewrite foldl_snoc.
  set (g := foldl ghost_step _ ops) in *. cbn [ghost_step g_pm g_starts]. intros Hr.
  assert (pm_inv (g_pm g)) as Hi by (subst g; fold (ghost_run cfg ops); rewrite ghost_run_reached; apply reached_inv).
  destruct (starts_now (g_pm g) op) eqn:Hst.
  - rewrite last_snoc. f_equal. apply andb_true_iff in Hst as [Hoff%negb_true_iff _].
    destruct (outcome_step (g_pm g) op Hi) as [(_ & _ & _ & [-> _ _ _])|(Hk & _)]; [done|].
    rewrite (Hk Hr) in Hoff. done.
  - rewrite (start_step _ _ Hi Hst). apply IH. unfold starts_now in Hst. rewrite Hr, andb_true_r in Hst.
    by apply negb_false_iff in Hst.
Qed.

(** C3: The pump never runs on past its limit.  Over every trace of public calls at
    non-decreasing times, whatever the pressures, the sensor, the remote requests and
    the configurations set meanwhile: when an update leaves the relay on, the relay
    was last switched on less than the larger of the configured maximum run time and
    900 seconds ago; in automatic mode, less than the configured maximum ago unless
    this very update switched it on.  (The limit acts with the updates: between two
    of them nothing switches the pump off.) *)
Theorem run_time_is_bounded cfg ops flBar bOk now :
  let pm := reached cfg ops in
  let ops' := ops ++ [OpUpdate flBar bOk now] in
  times_from 1 ops' → pm_relay_get (reached cfg ops') = true →
  ∃ t0, last (g_starts (ghost_run cfg ops')) = Some t0 ∧
    0 <= now - t0 < Z.max (c_max_on_ms (pm_cfg pm)) 900000 ∧
    (pm_mode pm = PM_MODE_AUTO → t0 = now ∨ now - t0 < c_max_on_ms (pm_cfg pm)).
Proof.
  intros pm ops' Hts Hr. exists (pm_pump_start_ms (reached cfg ops')). split; [by apply runs_since_last_start|].
  destruct (ghost_inv_last cfg ops _ Hts) as (t & Ht & Hg & Hu). cbn [op_time] in *.
  assert (reached cfg ops' = pm_update pm flBar bOk now) as E by (subst ops' pm; unfold reached, pm_run; by rewrite foldl_snoc).
  unfold pm_relay_get in Hr. rewrite E in *. clear E ops' Hts. pose proof (reached_inv cfg ops) as Hi. fold pm in Hi.
  destruct (outcome_update pm flBar bOk now Hi) as [(_ & _ & _ & [-> _ _ _])|(Hk & _)]; [split; [lia|by left]|].
  specialize (Hk Hr). rewrite start_update by auto.
  pose proof (runs_since_last_start cfg ops Hk) as Hl. fold pm in Hl.
  assert (0 < pm_pump_start_ms pm <= t) as Hs.
  { rewrite last_lookup in Hl. pose proof (gi_sorted _ _ Hg _ _ _ _ (le_n _) Hl Hl). lia. }
  destruct (sensed_fields pm flBar now) as (Es & _ & Er & Em & Ec & Est & _).
  pose proof (proj1 (inv_relay_iff pm Hi) Hk) as Hrun.
  assert (run_ms (sensed pm flBar now) now < max_run_ms (sensed pm flBar now)) as Hlt.
  { destruct (protections_cases (sensed pm flBar now) bOk now) as [[_ [Hf|[_ H]]]|(d & f & _ & _ & _ & E)]; [congruence|by apply H; rewrite Er|].
    destruct (update_latched _ _ _ _ _ _ E) as (_ & _ & H). congruence. }
  rewrite run_ms_eq in Hlt by (rewrite ?Est; done || lia). rewrite Est in Hlt.
  unfold max_run_ms in Hlt. rewrite Em, Ec in Hlt. change (u64 (PM_MANUAL_MAX_ON_S * 1000)) with 900000 in Hlt.
  split; [destruct (_ && _); lia|]. intros Ha. right. by rewrite Ha in Hlt.
Qed.

(** ** Switching off *)

(** A running pump under a timed-on request. *)
Record timed_on (pm : pm_t) (t0 until : Z) : Prop := {
  to_state : pm_state pm = PM_STATE_RUNNING;
  to_mode : pm_mode pm = PM_MODE_MANUAL;
  to_relay : pm_relay_on pm = true;
  to_start : pm_pump_start_ms pm = t0;
  to_until : pm_manual_until_ms pm = until
}.

Lemma timed_on_frame pm m t t0 until :
  timed_on pm t0 until → timed_on (pm <| pm_m := m |> <| pm_last_update_ms := t |>) t0 until.
Proof. by intros []; split. Qed.

Lemma timed_on_sensed pm flBar now t0 until :
  timed_on pm t0 until → timed_on (sensed pm flBar now) t0 until.
Proof. destruct (sensed_ctl pm flBar now) as (m & x & ->). by intros []; split. Qed.

(** Before the deadline an update keeps the request or latches a fault. *)
Lemma timed_on_update pm flBar bOk now t0 until :
  timed_on pm t0 until → now < until →
  timed_on (pm_update pm flBar bOk now) t0 until
  ∨ pm_state (pm_update pm flBar bOk now) = PM_STATE_FAULT.
Proof.
  intros H Hlt. apply (timed_on_sensed _ flBar now) in H.
  destruct (protections_cases (sensed pm flBar now) bOk now) as [[E _]|(d & f & _ & _ & _ & E)].
  - left. destruct (pm_update_ctl pm flBar bOk now) as (m & ->). apply timed_on_frame.
    rewrite E. destruct H as [Hs Hm Hr Hst Hu]. unfold state_switch. rewrite Hs.
    unfold case_running. cbn. rewrite decide_False by congruence.
    destruct (_ && _) eqn:Hc; [|by split]. apply andb_true_iff in Hc as [[_ Hc]%andb_true_iff _].
    lia.
  - right. by apply (update_latched _ _ _ _ _ _ E).
Qed.

Definition updates (ups : list (f32 * bool * Z)) : list pm_op :=
  map (λ u, OpUpdate u.1.1 u.1.2 u.2) ups.

Lemma timed_on_updates pm ups t0 until :
  timed_on pm t0 until → Forall (λ u, u.2 < until) ups →
  timed_on (pm_run pm (updates ups)) t0 until
  ∨ pm_state (pm_run pm (updates ups)) = PM_STATE_FAULT.
Proof.
  intros H Hups. assert (timed_on pm t0 until ∨ pm_state pm = PM_STATE_FAULT) as H' by auto.
  clear H. revert pm H'. induction Hups as [|[[flBar bOk] now] ups Hu _ IH]; intros pm H; [done|].
  apply IH. destruct H as [H|H]; [by apply timed_on_update|right].
  by apply update_in_fault.
Qed.

(** An accepted timed request of a stopped pump. *)
Lemma timed_on_request pm d t0 :
  (pm_request_on pm d t0).1 = true → pm_relay_on pm = false → 0 < d →
  is_u64 (t0 + 900000) → 0 < t0 →
  timed_on (pm_request_on pm d t0).2 t0 (t0 + Z.min d 900 * 1000).
Proof.
  unfold pm_request_on. destruct (request_on_refused pm t0); [done|]. intros _ Hr Hd Hu Ht.
  cbn [snd]. set (pm1 := pm <| pm_mode := _ |> <| pm_manual_until_ms := _ |>).
  assert (pm_manual_until_ms pm1 = t0 + Z.min d 900 * 1000) as Hm.
  { subst pm1. unfold PM_MANUAL_MAX_ON_S, is_u64 in *. cbn -[Z.mul u64].
    repeat case_bool; rewrite ?u64_id by (unfold is_u64; lia); lia. }
  assert (∀ pm2, pm_mode pm2 = PM_MODE_MANUAL → pm_manual_until_ms pm2 = t0 + Z.min d 900 * 1000 →
    timed_on (enter_state (pump_on pm2 t0) PM_STATE_RUNNING t0) t0 (t0 + Z.min d 900 * 1000)) as Hgen.
  { intros pm2 ? ?. unfold enter_state. case_decide; by split. }
  assert (pm_relay_on pm1 = false) as Hr1 by done.
  destruct (pm_event_start_ms pm1 =? 0); cbn [event_begin pm_relay_on];
    [|rewrite Hr1; by apply Hgen].
  replace (pm_relay_on (event_begin pm1 t0)) with false by done. by apply Hgen.
Qed.

Lemma timed_max_run s t0 until : timed_on s t0 until → until ≠ 0 → max_run_ms s = 900000.
Proof.
  intros [_ Hm _ _ Hu] Hn. unfold max_run_ms. rewrite Hm, Hu.
  rewrite bool_decide_true by done. by destruct (Z.eqb_spec until 0).
Qed.

(** At the deadline, with the protections quiet and the minimum run time over,
    the update ends the run without a fault. *)
Lemma timed_on_deadline pm flBar now t0 until :
  pm_inv pm → timed_on pm t0 until → 0 < t0 → t0 < until <= now → now < t0 + 900000 →
  is_u64 now → c_min_on_ms (pm_cfg pm) <= now - t0 →
  crit_low (sensed pm flBar now) = false → dry_run (sensed pm flBar now) now = false →
  let pm' := pm_update pm flBar true now in
  pm_state pm' = PM_STATE_RECOVERING ∧ pm_relay_on pm' = false ∧ pm_fault pm' = PM_FAULT_NONE.
Proof.
  intros Hi H Ht0 Hu Hlt Hnow Hmin Hc Hd pm'.
  destruct (sensed_fields pm flBar now) as (_ & _ & _ & _ & Hcfg & _).
  apply (pm_inv_sensed _ flBar now) in Hi. apply (timed_on_sensed _ flBar now) in H.
  subst pm'. destruct (update_decides pm flBar true now) as (-> & -> & ->).
  revert Hi H Hcfg Hc Hd. generalize (sensed pm flBar now). intros s Hi H Hcfg Hc Hd.
  pose proof (timed_max_run s t0 until H ltac:(lia)) as Hmax.
  destruct H as [Hs Hm Hr Hst Hun].
  assert (run_ms s now = now - t0) as Hrun by (rewrite run_ms_eq; lia || done).
  assert (protections s true now = s) as ->.
  { unfold protections. rewrite decide_False by congruence. cbn [negb].
    rewrite Hr, Hc, Hmax, Hrun, Hd. by case_bool; [lia|]. }
  assert (pm_fault s = PM_FAULT_NONE) as Hf.
  { destruct (pm_inv_cases s Hi) as [_ [[? _]|[_ ?]]]; congruence. }
  unfold state_switch. rewrite Hs. unfold case_running. cbn.
  rewrite decide_False by congruence. unfold run_ms in *. cbn in *. rewrite Hrun, Hun, Hcfg.
  rewrite (proj2 (Z.eqb_neq until 0)), (proj2 (Z.leb_le until now)), (proj2 (Z.leb_le _ _) Hmin) by lia.
  cbn. unfold enter_state. cbn. case_decide; [congruence|done].
Qed.

(** a timed-on request shorter than the 900 s ceiling ends cleanly: after
    any updates before its deadline that latched no fault, the first update at
    or after the deadline (and the minimum run time) with quiet protections
    switches the relay off into RECOVERING with no fault, even when the
    duration exceeds the configured maximum run time. *)
Theorem timed_on_ends_cleanly cfg ops d t0 ups flBar now :
  let pm := reached cfg ops in
  let pm1 := (pm_request_on pm d t0).2 in
  let pm2 := pm_run pm1 (updates ups) in
  (pm_request_on pm d t0).1 = true → pm_relay_get pm = false →
  0 < d < 900 → 0 < t0 → is_u64 (t0 + 900000) →
  Forall (λ u, u.2 < t0 + d * 1000) ups → pm_state pm2 ≠ PM_STATE_FAULT →
  t0 + d * 1000 <= now < t0 + 900000 → c_min_on_ms (pm_cfg pm2) <= now - t0 →
  crit_low (sensed pm2 flBar now) = false → dry_run (sensed pm2 flBar now) now = false →
  let pm' := pm_update pm2 flBar true now in
  pm_state pm' = PM_STATE_RECOVERING ∧ pm_relay_get pm' = false ∧ pm_fault pm' = PM_FAULT_NONE.
Proof.
  intros pm pm1 pm2 Hreq Hr Hd Ht0 Hu Hups Hnf Hnow Hmin Hc Hdry.
  pose proof (timed_on_request pm d t0 Hreq Hr ltac:(lia) Hu Ht0) as H1.
  rewrite Z.min_l in H1 by lia.
  destruct (timed_on_updates _ ups _ _ H1 Hups) as [H2|?]; [|done].
  apply (timed_on_deadline _ _ _ t0 (t0 + d * 1000)); try done; try lia.
  - apply pm_inv_run, (pm_inv_step pm (OpOn d t0)), reached_inv.
  - unfold is_u64 in *. lia.
Qed.

(** a timed-on request of 900 s or more (clamped to 900 s) can never end
    cleanly: whatever the updates before its deadline did, the first update at
    or after the deadline ends in FAULT, and it is the maximum-runtime fault
    when the request was still running with a healthy sensor and no critical
    pressure. *)
Theorem timed_on_ceiling_ends_in_fault cfg ops d t0 ups flBar bOk now :
  let pm := reached cfg ops in
  let pm1 := (pm_request_on pm d t0).2 in
  let pm2 := pm_run pm1 (updates ups) in
  (pm_request_on pm d t0).1 = true → pm_relay_get pm = false →
  900 <= d → 0 < t0 → is_u64 now →
  Forall (λ u, u.2 < t0 + 900000) ups → t0 + 900000 <= now →
  let pm' := pm_update pm2 flBar bOk now in
  pm_state pm' = PM_STATE_FAULT ∧
  (pm_state pm2 ≠ PM_STATE_FAULT → bOk = true → crit_low (sensed pm2 flBar now) = false →
   pm_fault pm' = PM_FAULT_MAX_RUNTIME).
Proof.
  intros pm pm1 pm2 Hreq Hr Hd Ht0 Hu Hups Hnow pm'.
  pose proof (timed_on_request pm d t0 Hreq Hr ltac:(lia)) as H1.
  rewrite Z.min_r in H1 by lia.
  specialize (H1 ltac:(unfold is_u64 in *; lia) Ht0).
  destruct (timed_on_updates _ ups _ _ H1 Hups) as [H2|H2].
  2: { fold pm1 pm2 in H2. by destruct (update_in_fault pm2 flBar bOk now H2). }
  fold pm1 pm2 in H2. apply (timed_on_sensed _ flBar now) in H2.
  pose proof (timed_max_run _ _ _ H2 ltac:(lia)) as Hmax.
  assert (run_ms (sensed pm2 flBar now) now = now - t0) as Hrun
    by (destruct H2; rewrite run_ms_eq; lia || done).
  destruct (protections_cases (sensed pm2 flBar now) bOk now) as [[_ [Hs|[_ Hp]]]|(e & f & _ & _ & _ & E)].
  - destruct H2; congruence.
  - destruct (Hp (to_relay _ _ _ H2)) as (_ & ? & _). lia.
  - split; [by apply (update_latched _ _ _ _ _ _ E)|]. intros _ -> Hc.
    assert (protections (sensed pm2 flBar now) true now
            = latch_fault (sensed pm2 flBar now) PM_FAULT_MAX_RUNTIME now) as E'.
    { unfold protections. destruct H2 as [Hs _ Hr2 _ _].
      rewrite decide_False by congruence. cbn [negb]. rewrite Hr2, Hc, Hmax, Hrun.
      by case_bool; [|lia]. }
    by apply (update_latched _ _ _ _ _ _ E').
Qed.

(** A running pump whose deadline and minimum run time are over is off after
    the next update, whatever else the update sees. *)
Lemma deadline_off pm flBar bOk now t0 until :
  timed_on pm t0 until → until ≠ 0 → 0 <= t0 → is_u64 now →
  t0 + c_min_on_ms (pm_cfg pm) <= until <= now → 0 <= c_min_on_ms (pm_cfg pm) →
  pm_relay_on (pm_update pm flBar bOk now) = false.
Proof.
  intros H Hu Ht0 Hnow Hle Hmin.
  destruct (sensed_fields pm flBar now) as (_ & _ & _ & _ & Hcfg & _).
  apply (timed_on_sensed _ flBar now) in H.
  destruct (protections_cases (sensed pm flBar now) bOk now) as [[E _]|(d & f & _ & _ & _ & E)];
    [|by apply (update_latched _ _ _ _ _ _ E)].
  destruct (update_decides pm flBar bOk now) as (_ & _ & ->). rewrite E.
  revert H Hcfg. clear E. generalize (sensed pm flBar now). intros s [Hs Hm Hr Hst Hun] Hcfg.
  assert (run_ms s now = now - t0) as Hrun by (rewrite run_ms_eq; lia || done).
  unfold state_switch. rewrite Hs. unfold case_running. cbn.
  rewrite decide_False by congruence. unfold run_ms in *. cbn in *. rewrite Hrun, Hun, Hcfg.
  rewrite (proj2 (Z.eqb_neq until 0)), (proj2 (Z.leb_le until now)),
    (proj2 (Z.leb_le (c_min_on_ms (pm_cfg pm)) (now - t0))) by lia.
  cbn. by rewrite (sp_relay _ _ (enter_same_pump _ _ _)).
Qed.

(** an off request to a running pump is always carried out: the first
    update at or after both the request and the end of the minimum run time
    leaves the relay off; until then an update keeps it on only for the
    minimum run time. *)
Theorem off_request_stops_pump cfg ops t ups flBar bOk now :
  let pm := reached cfg ops in
  let stop := Z.max t (pm_pump_start_ms pm + c_min_on_ms (pm_cfg pm)) in
  let pm2 := pm_run (pm_request_off pm t).2 (updates ups) in
  pm_relay_get pm = true → 0 < t → 0 <= pm_pump_start_ms pm →
  0 <= c_min_on_ms (pm_cfg pm) → is_u64 now →
  Forall (λ u, u.2 < stop) ups → stop <= now →
  pm_relay_get (pm_update pm2 flBar bOk now) = false.
Proof.
  intros pm stop pm2 Hr Ht Hs0 Hmin Hu Hups Hnow. unfold pm_relay_get in *.
  pose proof (proj1 (inv_relay_iff pm (reached_inv cfg ops)) Hr) as Hs.
  assert (timed_on (pm_request_off pm t).2 (pm_pump_start_ms pm) stop) as H1.
  { unfold pm_request_off. rewrite decide_False by (cbn; congruence).
    change (pm_relay_on (pm <| pm_mode := PM_MODE_MANUAL |>)) with (pm_relay_on pm).
    rewrite Hr. split; cbn; try done. unfold is_u64 in Hu. subst stop.
    rewrite u64_id by (unfold is_u64; lia). case_bool; lia. }
  assert (pm_cfg pm2 = pm_cfg pm) as Hcfg.
  { subst pm2. replace (pm_cfg pm) with (pm_cfg (pm_request_off pm t).2)
      by (apply (cfg_step pm (OpOff t))).
    generalize (pm_request_off pm t).2. clear. unfold updates, pm_run.
    induction ups as [|u ups IH]; intros pm; [done|]. cbn [map foldl]. rewrite IH. apply cfg_update. }
  destruct (timed_on_updates _ ups _ _ H1 Hups) as [H2|H2].
  - apply (deadline_off _ _ _ _ (pm_pump_start_ms pm) stop); rewrite ?Hcfg; try done; lia.
  - by apply update_in_fault.
Qed.

(** an update computed with a time not after the recorded pump start (a
    remote request can carry a newer time than the running cycle) counts a run
    time of zero: with a healthy sensor, no critical pressure and non-zero
    limits it latches no fault and keeps the relay on in MANUAL mode. *)
Theorem stale_update_keeps_running cfg ops flBar now :
  let pm := reached cfg ops in
  pm_relay_get pm = true → pm_mode pm = PM_MODE_MANUAL → now <= pm_pump_start_ms pm →
  now < pm_manual_until_ms pm ∨ pm_manual_until_ms pm = 0 →
  0 < c_max_on_ms (pm_cfg pm) → 0 < c_dry_detect_ms (pm_cfg pm) →
  crit_low (sensed pm flBar now) = false →
  let pm' := pm_update pm flBar true now in
  pm_relay_get pm' = true ∧ pm_fault pm' = PM_FAULT_NONE.
Proof.
  intros pm Hr Hm Hle Hun Hmax Hdry Hc pm'. pose proof (reached_inv cfg ops) as Hi. fold pm in Hi.
  pose proof (running_fault pm flBar now Hi Hr) as Hf.
  destruct (sensed_fields pm flBar now) as (Es & _ & Er & Em & Ec & Est & Eu & _).
  assert (run_ms (sensed pm flBar now) now = 0) as Hrun
    by (unfold run_ms; rewrite Est; by case_bool; [lia|]).
  assert (pm_fault pm' = PM_FAULT_NONE) as Hnone.
  { subst pm'. rewrite Hf, Hc, Hrun. unfold dry_run, max_run_ms. rewrite Hrun, Ec.
    change (u64 (PM_MANUAL_MAX_ON_S * 1000)) with 900000. destruct (_ && negb _).
    all: repeat (case_bool; [lia|]); done. }
  split; [|done]. subst pm'. unfold pm_relay_get in *.
  pose proof (proj1 (inv_relay_iff pm Hi) Hr) as Hs.
  destruct (update_decides pm flBar true now) as (_ & Ef & ->).
  destruct (protections_cases (sensed pm flBar now) true now) as [[E _]|(d & f & _ & Hfn & _ & E)].
  - rewrite E. unfold state_switch. rewrite Es, Hs. unfold case_running. cbn.
    rewrite Em, Hm, decide_False by done. rewrite Eu.
    destruct (negb _ && _) eqn:Hx; [|done].
    apply andb_true_iff in Hx as [Hx1%negb_true_iff Hx2]. lia.
  - by destruct (update_latched _ _ _ _ _ _ E) as (_ & ? & _); congruence.
Qed.

(** ** The state graph *)

(** The transitions the controller is documented to make, by the kind of call. *)
Inductive pm_edge : pm_op → pm_state_t → pm_state_t → Prop :=
  | edge_stay op s : pm_edge op s s
  | edge_ready b now : pm_edge (OpUpdate b true now) PM_STATE_INIT PM_STATE_IDLE
  | edge_drop b now : pm_edge (OpUpdate b true now) PM_STATE_IDLE PM_STATE_PRESSURE_DROP
  | edge_dip b now : pm_edge (OpUpdate b true now) PM_STATE_PRESSURE_DROP PM_STATE_IDLE
  | edge_confirm b now : pm_edge (OpUpdate b true now) PM_STATE_PRESSURE_DROP PM_STATE_STARTING
  | edge_start b now : pm_edge (OpUpdate b true now) PM_STATE_STARTING PM_STATE_RUNNING
  | edge_wait b now : pm_edge (OpUpdate b true now) PM_STATE_STARTING PM_STATE_LOCKOUT
  | edge_stop b now : pm_edge (OpUpdate b true now) PM_STATE_RUNNING PM_STATE_RECOVERING
  | edge_recovered b now : pm_edge (OpUpdate b true now) PM_STATE_RECOVERING PM_STATE_LOCKOUT
  | edge_rearm b now : pm_edge (OpUpdate b true now) PM_STATE_LOCKOUT PM_STATE_IDLE
  | edge_fault b ok now s : s ≠ PM_STATE_FAULT → pm_edge (OpUpdate b ok now) s PM_STATE_FAULT
  | edge_on d now s : s ≠ PM_STATE_FAULT → s ≠ PM_STATE_INIT →
      pm_edge (OpOn d now) s PM_STATE_RUNNING
  | edge_off now s : s ≠ PM_STATE_FAULT → s ≠ PM_STATE_RUNNING →
      pm_edge (OpOff now) s PM_STATE_IDLE
  | edge_restart now : pm_edge (OpRestart now) PM_STATE_RUNNING PM_STATE_RECOVERING
  | edge_ack now : pm_edge (OpAck true now) PM_STATE_FAULT PM_STATE_IDLE.

#[local] Hint Constructors pm_edge : core.

Lemma state_enter pm s now : pm_state (enter_state pm s now) = s.
Proof. unfold enter_state. by case_decide. Qed.

Lemma edge_switch s flBar now :
  pm_edge (OpUpdate flBar true now) (pm_state s) (pm_state (state_switch s true now)).
Proof.
  unfold state_switch, case_pressure_drop, case_starting, case_running, case_recovering.
  destruct (pm_state s) eqn:Hs; cbn zeta; split_ifs; rewrite ?state_enter, ?state_latch; cbn;
    rewrite ?Hs; try done; auto.
Qed.

Lemma edge_update pm flBar bOk now :
  pm_edge (OpUpdate flBar bOk now) (pm_state pm) (pm_state (pm_update pm flBar bOk now)).
Proof.
  destruct (sensed_fields pm flBar now) as (Es & _).
  destruct (protections_cases (sensed pm flBar now) bOk now)
    as [[E [Hf|[-> _]]]|(d & f & Hs & _ & _ & E)].
  - rewrite Es in Hf. destruct (update_in_fault pm flBar bOk now Hf) as (-> & _). by rewrite Hf.
  - destruct (update_decides pm flBar true now) as (-> & _). rewrite E, <- Es. apply edge_switch.
  - destruct (update_latched _ _ _ _ _ _ E) as (-> & _). constructor. congruence.
Qed.

(** C6: every public call in every reachable state moves the controller along
    an edge of its documented state graph; in particular FAULT is left only to
    IDLE and only by an acknowledgement with a healthy sensor, and no request
    starts the pump from INIT or FAULT. *)
Theorem pm_refines_state_graph cfg ops op :
  pm_edge op (pm_state (reached cfg ops)) (pm_state (pm_step (reached cfg ops) op)).
Proof.
  pose proof (reached_inv cfg ops) as Hi. revert Hi. generalize (reached cfg ops). intros pm Hi.
  destruct op as [flBar bOk now|c now|d now|now|now|m now|bOk now]; cbn [pm_step]; auto.
  - apply edge_update.
  - unfold pm_request_on. destruct (request_on_refused pm now) eqn:Hr; [auto|].
    apply refused_guards in Hr as [[? ?] _ _]. cbn [snd]. rewrite state_enter. auto.
  - pose proof (inv_relay_iff pm Hi) as Hrel. unfold pm_request_off. cbn.
    destruct (decide _); [auto|]. destruct (pm_relay_on pm); cbn; [auto|].
    rewrite state_enter. constructor; naive_solver.
  - pose proof (inv_relay_iff pm Hi) as Hrel. unfold pm_request_restart.
    destruct (decide _); [auto|]. destruct (pm_relay_on pm); [|auto]. cbn. rewrite state_enter.
    rewrite (proj1 Hrel eq_refl). auto.
  - unfold pm_mode_set. case_match; auto.
  - unfold pm_fault_ack. destruct (decide _); [auto|]. destruct bOk; [|auto].
    cbn [snd negb]. rewrite state_enter. assert (pm_state pm = PM_STATE_FAULT) as ->; [|auto].
    destruct (decide (pm_state pm = PM_STATE_FAULT)); [done|by destruct n].
Qed.

(** ** Witnesses *)

(** The factory values of the pump data points. *)
Definition demo_cfg : pm_config_t :=
  mk_pm_config (f32_of_Z 2) (f32_lit 7 2) (f32_lit 3 10) (f32_lit 17 10) (f32_of_Z 2)
    (f32_lit 12 10) (f32_lit 16 10) (f32_lit 1 10) (f32_lit 2 100) (f32_lit 1 10) f32_zero f32_zero
    500 30000 30000 300000 30000 10000 1200000 720000 600000 10.

(** Pressurised and idle at 1 s; then running on request since 2 s. *)
Definition demo_idle : list pm_op := [OpUpdate (f32_of_Z 2) true 1000].
Definition demo_on : list pm_op := demo_idle ++ [OpOn 0 2000].
Definition demo_fault : list pm_op := demo_on ++ [OpUpdate (f32_of_Z 2) false 2100].

Lemma fault_latched_until_ack_witness :
  pm_relay_get (pm_run (reached demo_cfg demo_fault) [OpOn 10 99000; OpAck false 99100]) = false.
Proof.
  apply (fault_latched_until_ack demo_cfg demo_fault [OpOn 10 99000; OpAck false 99100]);
    [by vm_compute|repeat constructor; by intros ? ?].
Defined.

Lemma running_protections_witness :
  pm_fault (pm_update (reached demo_cfg demo_on) (f32_of_Z 3) true 302000) = PM_FAULT_MAX_RUNTIME.
Proof.
  destruct (running_protections demo_cfg demo_on (f32_of_Z 3) 302000) as [-> _]; by vm_compute.
Defined.

(** The factory values: on since 2 s, still on at 301 s, off at 302 s. *)
Definition demo_rise : list pm_op :=
  demo_on ++ [OpUpdate (f32_of_Z 3) true 2500; OpUpdate (f32_of_Z 3) true 3000].

Lemma run_time_is_bounded_witness :
  301000 - 2000 < Z.max 300000 900000 ∧
  pm_relay_get (reached demo_cfg (demo_rise ++ [OpUpdate (f32_of_Z 3) true 301000])) = true ∧
  pm_relay_get (reached demo_cfg (demo_rise ++ [OpUpdate (f32_of_Z 3) true 302000])) = false.
Proof.
  split; [|split; by vm_compute].
  destruct (run_time_is_bounded demo_cfg demo_rise (f32_of_Z 3) true 301000) as (t0 & Ht & [_ Hb] & _);
    [cbn; unfold is_u64; lia|by vm_compute|].
  vm_compute in Ht. injection Ht as <-. exact Hb.
Defined.

Lemma start_only_when_allowed_witness :
  starts_in_last_hour (reached demo_cfg demo_idle) 2000 < 10.
Proof.
  apply (start_only_when_allowed demo_cfg demo_idle (OpOn 0 2000)). by vm_compute.
Defined.

(** One start per hour allowed: the second start waits for the hour to end. *)
Definition one_start_cfg : pm_config_t :=
  mk_pm_config (f32_of_Z 2) (f32_lit 7 2) (f32_lit 3 10) (f32_lit 17 10) (f32_of_Z 2)
    (f32_lit 12 10) (f32_lit 16 10) (f32_lit 1 10) (f32_lit 2 100) (f32_lit 1 10) f32_zero f32_zero
    500 0 0 300000 30000 10000 1200000 720000 600000 1.

Definition two_starts : list pm_op :=
  [OpUpdate (f32_of_Z 2) true 1000; OpOn 0 2000; OpRestart 3000; OpOn 0 4000; OpOn 0 3603000].

Lemma starts_per_rolling_hour_witness :
  g_starts (ghost_run one_start_cfg two_starts) = [2000; 3603000] ∧ 3600000 < 3603000 - 2000.
Proof.
  split; [by vm_compute|].
  apply (starts_per_rolling_hour one_start_cfg two_starts 1) with (i := 0%nat);
    [|lia|by vm_compute|repeat constructor; by vm_compute|by vm_compute|by vm_compute].
  cbn. unfold is_u64. lia.
Defined.

Lemma pause_before_start_witness :
  c_min_off_ms (pm_cfg (reached demo_cfg (demo_on ++ [OpRestart 3000]))) <= 40000 - 3000.
Proof.
  apply (pause_before_start demo_cfg (demo_on ++ [OpRestart 3000]) (OpOn 0 40000) 3000);
    [|by vm_compute|by vm_compute].
  cbn. unfold is_u64. lia.
Defined.

(** A ten-minute timed-on, longer than the five minutes of [c_max_on_ms]. *)
Definition rise (t : Z) : f32 * bool * Z := (f32_of_Z 3, true, t).

Lemma timed_on_ends_cleanly_witness :
  pm_state (pm_update (pm_run (pm_request_on (reached demo_cfg demo_idle) 600 2000).2
    (updates [rise 3000; rise 301000])) (f32_of_Z 3) true 602000) = PM_STATE_RECOVERING.
Proof.
  destruct (timed_on_ends_cleanly demo_cfg demo_idle 600 2000 [rise 3000; rise 301000]
    (f32_of_Z 3) 602000) as [Hst _]; [by vm_compute|by vm_compute|lia|lia|by vm_compute; split
    |repeat constructor|by vm_compute|lia|by vm_compute|by vm_compute|by vm_compute|exact Hst].
Defined.

Lemma timed_on_ceiling_ends_in_fault_witness :
  pm_fault (pm_update (pm_run (pm_request_on (reached demo_cfg demo_idle) 900 2000).2
    (updates [rise 3000; rise 301000])) (f32_of_Z 3) true 902000) = PM_FAULT_MAX_RUNTIME.
Proof.
  destruct (timed_on_ceiling_ends_in_fault demo_cfg demo_idle 900 2000
    [rise 3000; rise 301000] (f32_of_Z 3) true 902000) as [_ Hmax];
    [by vm_compute|by vm_compute|lia|lia|by vm_compute; split|repeat constructor|lia|].
  apply Hmax; [by vm_compute|done|by vm_compute].
Defined.

Lemma off_request_stops_pump_witness :
  pm_relay_get (pm_update (pm_run (pm_request_off (reached demo_cfg demo_on) 3000).2
    (updates [rise 4000])) (f32_of_Z 3) true 32000) = false.
Proof.
  apply (off_request_stops_pump demo_cfg demo_on 3000 [rise 4000] (f32_of_Z 3) true 32000);
    try (by vm_compute); try (by vm_compute; split).
  repeat constructor.
Defined.

Lemma stale_update_keeps_running_witness :
  pm_relay_get (pm_update (reached demo_cfg demo_on) (f32_of_Z 2) true 1950) = true.
Proof.
  apply (stale_update_keeps_running demo_cfg demo_on (f32_of_Z 2) 1950);
    try (by vm_compute). by right; vm_compute.
Defined.
