(* ===== verification/CoTypes.v ===== *)
(** * CANopen slave: data model of canopen/include/co_core.h

    Frames, the node with its SDO server and PDO parameter sets, the
    application callbacks as a class, and the two lowest helpers of co_core.c
    ([tx], [nmt_set]).  The five C callbacks are the operations of the class
    [CoApp]: they act on an application state of their own; what the core
    relies on is in [CoAppLaws].  [world] is the node, the application state
    and the log of the frames handed to the driver. *)

From S2P Require Import Prelude.

(** ** Constants *)

Definition CO_TPDO_COUNT : Z := 4.
Definition CO_RPDO_COUNT : Z := 2.
Definition CO_PDO_MAP_MAX : Z := 8.
Definition CO_SDO_BUF_SIZE : Z := 128.
Definition CO_STR_MAX : Z := 32.
Definition CO_SDO_TIMEOUT_MS : Z := 1000.

Inductive co_nmt_state_t :=
  | CO_NMT_INITIALISING | CO_NMT_STOPPED | CO_NMT_OPERATIONAL | CO_NMT_PREOPERATIONAL.

#[export] Instance co_nmt_state_t_eq_dec : EqDecision co_nmt_state_t.
Proof. solve_decision. Defined.

(** The heartbeat encoding of a state. *)
Definition nmt_code (s : co_nmt_state_t) : Z :=
  match s with
  | CO_NMT_INITIALISING => 0 | CO_NMT_STOPPED => 4
  | CO_NMT_OPERATIONAL => 5 | CO_NMT_PREOPERATIONAL => 127
  end.

Inductive sdo_state_t := SDO_IDLE | SDO_UPLOAD_SEG | SDO_DOWNLOAD_SEG.

#[export] Instance sdo_state_t_eq_dec : EqDecision sdo_state_t.
Proof. solve_decision. Defined.

Definition CO_ABORT_TOGGLE : Z := 0x05030000.
Definition CO_ABORT_TIMEOUT : Z := 0x05040000.
Definition CO_ABORT_CMD : Z := 0x05040001.
Definition CO_ABORT_OUT_OF_MEMORY : Z := 0x05040005.
Definition CO_ABORT_UNSUPPORTED : Z := 0x06010000.
Definition CO_ABORT_READ_ONLY : Z := 0x06010002.
Definition CO_ABORT_NO_OBJECT : Z := 0x06020000.
Definition CO_ABORT_PDO_MAP : Z := 0x06040041.
Definition CO_ABORT_PDO_LENGTH : Z := 0x06040042.
Definition CO_ABORT_PARAM_INCOMPAT : Z := 0x06040043.
Definition CO_ABORT_TYPE_MISMATCH : Z := 0x06070010.
Definition CO_ABORT_NO_SUBINDEX : Z := 0x06090011.
Definition CO_ABORT_VALUE_RANGE : Z := 0x06090030.

Definition CO_EMCY_NO_ERROR : Z := 0.
Definition CO_ERR_GENERIC : Z := 1.

Definition COB_NMT : Z := 0x000.
Definition COB_SYNC : Z := 0x080.
Definition COB_EMCY_BASE : Z := 0x080.
Definition COB_TPDO1_BASE : Z := 0x180.
Definition COB_RPDO1_BASE : Z := 0x200.
Definition COB_SDO_TX_BASE : Z := 0x580.
Definition COB_SDO_RX_BASE : Z := 0x600.
Definition COB_HB_BASE : Z := 0x700.
Definition COB_ID_INVALID : Z := 0x80000000.

Definition NMT_CMD_START : Z := 0x01.
Definition NMT_CMD_STOP : Z := 0x02.
Definition NMT_CMD_PREOP : Z := 0x80.
Definition NMT_CMD_RESET_NODE : Z := 0x81.
Definition NMT_CMD_RESET_COMM : Z := 0x82.

(** ** Little-endian helpers *)

Definition co_put_u16 (v : Z) : list Z := [u8 v; u8 (Z.shiftr v 8)].
Definition co_put_u32 (v : Z) : list Z :=
  [u8 v; u8 (Z.shiftr v 8); u8 (Z.shiftr v 16); u8 (Z.shiftr v 24)].

(** The byte [p[i]] of a buffer. *)
Definition byte_at (p : list Z) (i : nat) : Z := default 0 (p !! i).

Definition co_get_u16 (p : list Z) : Z :=
  u16 (Z.lor (byte_at p 0) (Z.shiftl (byte_at p 1) 8)).
Definition co_get_u32 (p : list Z) : Z :=
  Z.lor (Z.lor (Z.lor (byte_at p 0) (Z.shiftl (byte_at p 1) 8))
               (Z.shiftl (byte_at p 2) 16)) (Z.shiftl (byte_at p 3) 24).

(** ** Data *)

Record co_frame_t := mk_frame {
  f_id : Z;
  f_dlc : Z;
  f_rtr : bool;
  f_data : list Z
}.

Record co_config_t := mk_co_config {
  cc_node_id : Z;
  cc_heartbeat_ms : Z;
  cc_device_type : Z;
  cc_vendor_id : Z;
  cc_product_code : Z;
  cc_revision : Z;
  cc_serial : Z;
  cc_device_name : list Z;
  cc_hw_version : list Z;
  cc_sw_version : list Z;
  cc_on_reset : bool
}.

Record co_tpdo_t := mk_tpdo {
  t_cob_id : Z;
  t_trans_type : Z;
  t_inhibit_100us : Z;
  t_event_ms : Z;
  t_map_count : Z;
  t_map : list Z;
  t_last_tx_ms : Z;
  t_have_last : bool;
  t_last_len : Z;
  t_last_data : list Z;
  t_sync_count : Z
}.

Record co_rpdo_t := mk_rpdo {
  r_cob_id : Z;
  r_trans_type : Z;
  r_map_count : Z;
  r_map : list Z;
  r_pending : bool;
  r_len : Z;
  r_data : list Z
}.

Record co_stats_t := mk_co_stats {
  st_rx_frames : Z;
  st_tx_frames : Z;
  st_tx_failed : Z;
  st_sdo_requests : Z;
  st_sdo_aborts : Z;
  st_pdo_tx : Z;
  st_pdo_rx : Z;
  st_emcy_tx : Z
}.

Record co_sdo_t := mk_sdo {
  sdo_state : sdo_state_t;
  sdo_index : Z;
  sdo_sub : Z;
  sdo_toggle : Z;
  sdo_len : Z;
  sdo_pos : Z;
  sdo_buf : list Z;
  sdo_last_ms : Z
}.

Record co_node_t := mk_node {
  n_cfg : co_config_t;
  n_nmt : co_nmt_state_t;
  n_error_register : Z;
  n_now_ms : Z;
  n_hb_last_ms : Z;
  n_bootup_pending : bool;
  n_sdo : co_sdo_t;
  n_tpdo : list co_tpdo_t;
  n_rpdo : list co_rpdo_t;
  n_stats : co_stats_t;
  n_last_emcy : Z;
  n_master_seen : bool;
  n_last_master_ms : Z
}.

#[export] Instance eta_co_config_t : Eta co_config_t := λ r, mk_co_config
      (cc_node_id r) (cc_heartbeat_ms r) (cc_device_type r) (cc_vendor_id r)
      (cc_product_code r) (cc_revision r) (cc_serial r) (cc_device_name r)
      (cc_hw_version r) (cc_sw_version r) (cc_on_reset r).
#[export] Instance set_cc_node_id : Setter cc_node_id. Proof. mk_setter. Defined.
#[export] Instance set_cc_heartbeat_ms : Setter cc_heartbeat_ms. Proof. mk_setter. Defined.
#[export] Instance set_cc_on_reset : Setter cc_on_reset. Proof. mk_setter. Defined.

#[export] Instance eta_co_tpdo_t : Eta co_tpdo_t := λ r, mk_tpdo (t_cob_id r)
      (t_trans_type r) (t_inhibit_100us r) (t_event_ms r) (t_map_count r) (t_map r)
      (t_last_tx_ms r) (t_have_last r) (t_last_len r) (t_last_data r) (t_sync_count r).
#[export] Instance set_t_cob_id : Setter t_cob_id. Proof. mk_setter. Defined.
#[export] Instance set_t_trans_type : Setter t_trans_type. Proof. mk_setter. Defined.
#[export] Instance set_t_inhibit_100us : Setter t_inhibit_100us. Proof. mk_setter. Defined.
#[export] Instance set_t_event_ms : Setter t_event_ms. Proof. mk_setter. Defined.
#[export] Instance set_t_map_count : Setter t_map_count. Proof. mk_setter. Defined.
#[export] Instance set_t_map : Setter t_map. Proof. mk_setter. Defined.
#[export] Instance set_t_last_tx_ms : Setter t_last_tx_ms. Proof. mk_setter. Defined.
#[export] Instance set_t_have_last : Setter t_have_last. Proof. mk_setter. Defined.
#[export] Instance set_t_last_len : Setter t_last_len. Proof. mk_setter. Defined.
#[export] Instance set_t_last_data : Setter t_last_data. Proof. mk_setter. Defined.
#[export] Instance set_t_sync_count : Setter t_sync_count. Proof. mk_setter. Defined.

#[export] Instance eta_co_rpdo_t : Eta co_rpdo_t := λ r, mk_rpdo (r_cob_id r)
      (r_trans_type r) (r_map_count r) (r_map r) (r_pending r) (r_len r) (r_data r).
#[export] Instance set_r_cob_id : Setter r_cob_id. Proof. mk_setter. Defined.
#[export] Instance set_r_trans_type : Setter r_trans_type. Proof. mk_setter. Defined.
#[export] Instance set_r_map_count : Setter r_map_count. Proof. mk_setter. Defined.
#[export] Instance set_r_map : Setter r_map. Proof. mk_setter. Defined.
#[export] Instance set_r_pending : Setter r_pending. Proof. mk_setter. Defined.
#[export] Instance set_r_len : Setter r_len. Proof. mk_setter. Defined.
#[export] Instance set_r_data : Setter r_data. Proof. mk_setter. Defined.

#[export] Instance eta_co_stats_t : Eta co_stats_t := λ r, mk_co_stats
      (st_rx_frames r) (st_tx_frames r) (st_tx_failed r) (st_sdo_requests r)
      (st_sdo_aborts r) (st_pdo_tx r) (st_pdo_rx r) (st_emcy_tx r).
#[export] Instance set_st_rx_frames : Setter st_rx_frames. Proof. mk_setter. Defined.
#[export] Instance set_st_tx_frames : Setter st_tx_frames. Proof. mk_setter. Defined.
#[export] Instance set_st_tx_failed : Setter st_tx_failed. Proof. mk_setter. Defined.
#[export] Instance set_st_sdo_requests : Setter st_sdo_requests. Proof. mk_setter. Defined.
#[export] Instance set_st_sdo_aborts : Setter st_sdo_aborts. Proof. mk_setter. Defined.
#[export] Instance set_st_pdo_tx : Setter st_pdo_tx. Proof. mk_setter. Defined.
#[export] Instance set_st_pdo_rx : Setter st_pdo_rx. Proof. mk_setter. Defined.
#[export] Instance set_st_emcy_tx : Setter st_emcy_tx. Proof. mk_setter. Defined.

#[export] Instance eta_co_sdo_t : Eta co_sdo_t := λ r, mk_sdo (sdo_state r)
      (sdo_index r) (sdo_sub r) (sdo_toggle r) (sdo_len r) (sdo_pos r) (sdo_buf r)
      (sdo_last_ms r).
#[export] Instance set_sdo_state : Setter sdo_state. Proof. mk_setter. Defined.
#[export] Instance set_sdo_index : Setter sdo_index. Proof. mk_setter. Defined.
#[export] Instance set_sdo_sub : Setter sdo_sub. Proof. mk_setter. Defined.
#[export] Instance set_sdo_toggle : Setter sdo_toggle. Proof. mk_setter. Defined.
#[export] Instance set_sdo_len : Setter sdo_len. Proof. mk_setter. Defined.
#[export] Instance set_sdo_pos : Setter sdo_pos. Proof. mk_setter. Defined.
#[export] Instance set_sdo_buf : Setter sdo_buf. Proof. mk_setter. Defined.
#[export] Instance set_sdo_last_ms : Setter sdo_last_ms. Proof. mk_setter. Defined.

#[export] Instance eta_co_node_t : Eta co_node_t := λ r, mk_node (n_cfg r) (n_nmt r)
      (n_error_register r) (n_now_ms r) (n_hb_last_ms r) (n_bootup_pending r)
      (n_sdo r) (n_tpdo r) (n_rpdo r) (n_stats r) (n_last_emcy r) (n_master_seen r)
      (n_last_master_ms r).
#[export] Instance set_n_cfg : Setter n_cfg. Proof. mk_setter. Defined.
#[export] Instance set_n_nmt : Setter n_nmt. Proof. mk_setter. Defined.
#[export] Instance set_n_error_register : Setter n_error_register. Proof. mk_setter. Defined.
#[export] Instance set_n_now_ms : Setter n_now_ms. Proof. mk_setter. Defined.
#[export] Instance set_n_hb_last_ms : Setter n_hb_last_ms. Proof. mk_setter. Defined.
#[export] Instance set_n_bootup_pending : Setter n_bootup_pending. Proof. mk_setter. Defined.
#[export] Instance set_n_sdo : Setter n_sdo. Proof. mk_setter. Defined.
#[export] Instance set_n_tpdo : Setter n_tpdo. Proof. mk_setter. Defined.
#[export] Instance set_n_rpdo : Setter n_rpdo. Proof. mk_setter. Defined.
#[export] Instance set_n_stats : Setter n_stats. Proof. mk_setter. Defined.
#[export] Instance set_n_last_emcy : Setter n_last_emcy. Proof. mk_setter. Defined.
#[export] Instance set_n_master_seen : Setter n_master_seen. Proof. mk_setter. Defined.
#[export] Instance set_n_last_master_ms : Setter n_last_master_ms. Proof. mk_setter. Defined.

(** What the owner does to the node from its reset callback: a PDO configuration
    call, or bits set in the error register. *)
Inductive co_conf :=
  | ConfTpdo (n cob_id trans_type inhibit_ms event_ms : Z) (map : list Z)
  | ConfRpdo (n cob_id trans_type : Z) (map : list Z)
  | ConfError (err_bits : Z).

(** ** The application *)

(** The callbacks of [co_config_t]; [None] is a null pointer.  [app_od_read a
    index sub cap] returns the abort code (0 on success) and the bytes stored;
    [app_on_reset] returns what the owner does to the node. *)
Class CoApp (A : Type) := {
  app_send : option (A → co_frame_t → A * bool);
  app_od_read : option (A → Z → Z → Z → A * (Z * list Z));
  app_od_write : option (A → Z → Z → list Z → A * Z);
  app_on_reset : option (A → bool → A * list co_conf);
  app_on_nmt_changed : option (A → co_nmt_state_t → co_nmt_state_t → A)
}.

(** What the header asks of the callbacks: a read stores at most [cap] bytes,
    and the owner passes PDO numbers as unsigned bytes. *)
Class CoAppLaws (A : Type) `{CoApp A} := {
  app_read_cap : ∀ rd a index sub cap a' code bytes,
    app_od_read = Some rd → 0 <= cap → rd a index sub cap = (a', (code, bytes)) →
    Z.of_nat (length bytes) <= cap;
  app_reset_args : ∀ cb a b a' cs, app_on_reset = Some cb → cb a b = (a', cs) →
    Forall (λ c, match c with
                 | ConfTpdo n _ _ _ _ _ | ConfRpdo n _ _ _ => is_u8 n
                 | ConfError _ => True
                 end) cs
}.

Record world (A : Type) := mk_world {
  w_node : co_node_t;
  w_app : A;
  w_wire : list (co_frame_t * bool)
}.
Arguments mk_world {A} w_node w_app w_wire.
Arguments w_node {A} w.
Arguments w_app {A} w.
Arguments w_wire {A} w.

#[export] Instance eta_world A : Eta (world A) := λ r, mk_world (w_node r) (w_app r) (w_wire r).
#[export] Instance set_w_node A : Setter (@w_node A). Proof. mk_setter. Defined.
#[export] Instance set_w_app A : Setter (@w_app A). Proof. mk_setter. Defined.
#[export] Instance set_w_wire A : Setter (@w_wire A). Proof. mk_setter. Defined.

(** ** Frame helpers *)

Section helpers.
Context {A : Type} `{CoApp A}.

(** Bumps a statistics counter. *)
Definition stat (proj : co_stats_t → Z) `{!Setter proj} (w : world A) : world A :=
  let s := n_stats (w_node w) in
  w <| w_node := (w_node w) <| n_stats := s <| proj := u32 (proj s + 1) |> |> |>.

(** [tx(node, id, data, dlc)] for [dlc] bytes of [data]; the frame is zero padded. *)
Definition tx (w : world A) (id : Z) (data : list Z) : bool * world A :=
  let payload := take 8 data in
  let f := mk_frame (Z.land (u16 id) 0x7FF) (Z.of_nat (length payload)) false
             (payload ++ replicate (8 - length payload) 0) in
  match app_send with
  | Some send =>
      let '(a, ok) := send (w_app w) f in
      let w := w <| w_app := a |> <| w_wire := w_wire w ++ [(f, ok)] |> in
      (ok, if ok then stat st_tx_frames w else stat st_tx_failed w)
  | None => (false, stat st_tx_failed w)
  end.

Definition nmt_set (w : world A) (eNew : co_nmt_state_t) : world A :=
  let eOld := n_nmt (w_node w) in
  if decide (eOld = eNew) then w
  else
    let w := w <| w_node := (w_node w) <| n_nmt := eNew |> |> in
    match app_on_nmt_changed with
    | Some cb => w <| w_app := cb (w_app w) eOld eNew |>
    | None => w
    end.

End helpers.

Definition str_len_capped (s : list Z) : Z :=
  let n := Z.of_nat (length s) in
  if CO_STR_MAX - 1 <? n then CO_STR_MAX - 1 else n.
