(* ===== verification/CoOd.v ===== *)
(** * CANopen object dictionary: sections 2 and 3 of co_core.c

    The communication-profile objects the core serves itself (0x1000 to
    0x1FFF) and the dispatch to the application for the rest, with
    [map_validate], which the mapping objects need. *)

From S2P Require Import Prelude CoTypes.

(** ** Readers: the abort code (0 on success) and the bytes stored *)

Definition rd_u8 (cap v : Z) : Z * list Z :=
  if cap <? 1 then (CO_ABORT_OUT_OF_MEMORY, []) else (0, [u8 v]).
Definition rd_u16 (cap v : Z) : Z * list Z :=
  if cap <? 2 then (CO_ABORT_OUT_OF_MEMORY, []) else (0, co_put_u16 (u16 v)).
Definition rd_u32 (cap v : Z) : Z * list Z :=
  if cap <? 4 then (CO_ABORT_OUT_OF_MEMORY, []) else (0, co_put_u32 (u32 v)).
Definition rd_str (cap : Z) (s : list Z) : Z * list Z :=
  let n := str_len_capped s in
  if cap <? n then (CO_ABORT_OUT_OF_MEMORY, []) else (0, take (Z.to_nat n) s).

Definition no_sub : Z * list Z := (CO_ABORT_NO_SUBINDEX, []).

Definition is_internal_index (index : Z) : bool := (0x1000 <=? index) && (index <? 0x2000).

(** [base <= index < base + count]. *)
Definition in_block (base count index : Z) : bool := (base <=? index) && (index <? base + count).

Definition rpdo_comm_read (p : co_rpdo_t) (sub cap : Z) : Z * list Z :=
  if sub =? 0 then rd_u8 cap 2
  else if sub =? 1 then rd_u32 cap (r_cob_id p)
  else if sub =? 2 then rd_u8 cap (r_trans_type p)
  else no_sub.

Definition tpdo_comm_read (p : co_tpdo_t) (sub cap : Z) : Z * list Z :=
  if sub =? 0 then rd_u8 cap 5
  else if sub =? 1 then rd_u32 cap (t_cob_id p)
  else if sub =? 2 then rd_u8 cap (t_trans_type p)
  else if sub =? 3 then rd_u16 cap (t_inhibit_100us p)
  else if sub =? 4 then rd_u8 cap 0
  else if sub =? 5 then rd_u16 cap (t_event_ms p)
  else no_sub.

(** Sub-indices of a mapping object: the count, then the entries. *)
Definition map_read (count : Z) (map : list Z) (sub cap : Z) : res (Z * list Z) :=
  if sub =? 0 then Ok (rd_u8 cap count)
  else if sub <=? CO_PDO_MAP_MAX then
    v ← array_get map (sub - 1); Ok (rd_u32 cap v)
  else Ok no_sub.

(** A scalar object: sub-index 0 only. *)
Definition scalar (sub : Z) (r : Z * list Z) : Z * list Z := if sub =? 0 then r else no_sub.

(** The objects of the leading [switch]; [None] when the index is not there. *)
Definition od_profile_read (node : co_node_t) (index sub cap : Z) : option (Z * list Z) :=
  let c := n_cfg node in
  if index =? 0x1000 then Some (scalar sub (rd_u32 cap (cc_device_type c)))
  else if index =? 0x1001 then Some (scalar sub (rd_u8 cap (n_error_register node)))
  else if index =? 0x1005 then Some (scalar sub (rd_u32 cap COB_SYNC))
  else if index =? 0x1008 then Some (scalar sub (rd_str cap (cc_device_name c)))
  else if index =? 0x1009 then Some (scalar sub (rd_str cap (cc_hw_version c)))
  else if index =? 0x100A then Some (scalar sub (rd_str cap (cc_sw_version c)))
  else if index =? 0x1014 then Some (scalar sub (rd_u32 cap (COB_EMCY_BASE + cc_node_id c)))
  else if index =? 0x1017 then Some (scalar sub (rd_u16 cap (cc_heartbeat_ms c)))
  else if index =? 0x1018 then
    Some (if sub =? 0 then rd_u8 cap 4
          else if sub =? 1 then rd_u32 cap (cc_vendor_id c)
          else if sub =? 2 then rd_u32 cap (cc_product_code c)
          else if sub =? 3 then rd_u32 cap (cc_revision c)
          else if sub =? 4 then rd_u32 cap (cc_serial c)
          else no_sub)
  else if index =? 0x1200 then
    Some (if sub =? 0 then rd_u8 cap 2
          else if sub =? 1 then rd_u32 cap (COB_SDO_RX_BASE + cc_node_id c)
          else if sub =? 2 then rd_u32 cap (COB_SDO_TX_BASE + cc_node_id c)
          else no_sub)
  else None.

Definition od_internal_read (node : co_node_t) (index sub cap : Z) : res (Z * list Z) :=
  match od_profile_read node index sub cap with
  | Some r => Ok r
  | None =>
      if in_block 0x1400 CO_RPDO_COUNT index then
        p ← array_get (n_rpdo node) (index - 0x1400); Ok (rpdo_comm_read p sub cap)
      else if in_block 0x1600 CO_RPDO_COUNT index then
        p ← array_get (n_rpdo node) (index - 0x1600); map_read (r_map_count p) (r_map p) sub cap
      else if in_block 0x1800 CO_TPDO_COUNT index then
        p ← array_get (n_tpdo node) (index - 0x1800); Ok (tpdo_comm_read p sub cap)
      else if in_block 0x1A00 CO_TPDO_COUNT index then
        p ← array_get (n_tpdo node) (index - 0x1A00); map_read (t_map_count p) (t_map p) sub cap
      else Ok (CO_ABORT_NO_OBJECT, [])
  end.

Section od.
Context {A : Type} `{CoApp A}.

Definition od_read (w : world A) (index sub cap : Z) : res (world A * (Z * list Z)) :=
  if is_internal_index index then
    r ← od_internal_read (w_node w) index sub cap; Ok (w, r)
  else
    match app_od_read with
    | None => Ok (w, (CO_ABORT_NO_OBJECT, []))
    | Some rd => let '(a, r) := rd (w_app w) index sub cap in Ok (w <| w_app := a |>, r)
    end.

(** The fields of a mapping entry [(index << 16) | (sub << 8) | bits]. *)
Definition map_index (e : Z) : Z := u16 (Z.shiftr e 16).
Definition map_sub (e : Z) : Z := u8 (Z.shiftr e 8).
Definition map_bits (e : Z) : Z := u8 e.

(** The loop of [map_validate]: [n] entries from entry [i] on. *)
Fixpoint map_validate_loop (w : world A) (map : list Z) (bForTx : bool) (n : nat)
    (i bits_total : Z) : res (world A * Z) :=
  match n with
  | O => Ok (w, 0)
  | S n' =>
      e ← array_get map i;
      let bits := map_bits e in
      if negb ((bits =? 8) || (bits =? 16) || (bits =? 32) || (bits =? 64)) then
        Ok (w, CO_ABORT_PDO_MAP)
      else
        let bits_total := u32 (bits_total + bits) in
        if 64 <? bits_total then Ok (w, CO_ABORT_PDO_LENGTH)
        else
          wr ← od_read w (map_index e) (map_sub e) CO_SDO_BUF_SIZE;
          let '(w, (abort, bytes)) := wr in
          if negb (abort =? 0) then Ok (w, CO_ABORT_PDO_MAP)
          else if bForTx && negb (Z.of_nat (length bytes) =? bits / 8) then Ok (w, CO_ABORT_PDO_MAP)
          else if negb bForTx && (map_index e <? 0x2000) then Ok (w, CO_ABORT_PDO_MAP)
          else map_validate_loop w map bForTx n' (i + 1) bits_total
  end.

Definition map_validate (w : world A) (map : list Z) (count : Z) (bForTx : bool)
    : res (world A * Z) :=
  map_validate_loop w map bForTx (Z.to_nat count) 0 0.

(** ** Writers *)

Definition rpdo_put (w : world A) (n : Z) (p : co_rpdo_t) : res (world A) :=
  l ← array_set (n_rpdo (w_node w)) n p; Ok (w <| w_node := (w_node w) <| n_rpdo := l |> |>).
Definition tpdo_put (w : world A) (n : Z) (p : co_tpdo_t) : res (world A) :=
  l ← array_set (n_tpdo (w_node w)) n p; Ok (w <| w_node := (w_node w) <| n_tpdo := l |> |>).

(** The check on a new COB-ID (sub-index 1 of a communication object): the
    abort code, 0 when it may be stored. *)
Definition cob_id_check (old v : Z) : Z :=
  let bOldValid := Z.land old COB_ID_INVALID =? 0 in
  let bNewValid := Z.land v COB_ID_INVALID =? 0 in
  if bOldValid && bNewValid && negb (Z.land (Z.lxor v old) 0x7FF =? 0)
  then CO_ABORT_PARAM_INCOMPAT
  else if Z.land v 0x7FF =? 0 then CO_ABORT_VALUE_RANGE
  else 0.

Definition cob_id_mask (v : Z) : Z := Z.land v (Z.lor COB_ID_INVALID 0x7FF).

(** A write gets the bytes [buf] and their number [len = length buf]. *)
Definition rpdo_comm_write (w : world A) (n sub : Z) (buf : list Z) : res (world A * Z) :=
  let len := Z.of_nat (length buf) in
  p ← array_get (n_rpdo (w_node w)) n;
  if sub =? 0 then Ok (w, CO_ABORT_READ_ONLY)
  else if sub =? 1 then
    if negb (len =? 4) then Ok (w, CO_ABORT_TYPE_MISMATCH)
    else
      let v := co_get_u32 buf in
      let abort := cob_id_check (r_cob_id p) v in
      if negb (abort =? 0) then Ok (w, abort)
      else
        w ← rpdo_put w n (p <| r_cob_id := cob_id_mask v |> <| r_pending := false |>); Ok (w, 0)
  else if sub =? 2 then
    if negb (len =? 1) then Ok (w, CO_ABORT_TYPE_MISMATCH)
    else if (240 <? byte_at buf 0) && (byte_at buf 0 <? 254) then Ok (w, CO_ABORT_VALUE_RANGE)
    else
      w ← rpdo_put w n (p <| r_trans_type := byte_at buf 0 |> <| r_pending := false |>); Ok (w, 0)
  else Ok (w, CO_ABORT_NO_SUBINDEX).

Definition rpdo_map_write (w : world A) (n sub : Z) (buf : list Z) : res (world A * Z) :=
  let len := Z.of_nat (length buf) in
  p ← array_get (n_rpdo (w_node w)) n;
  if sub =? 0 then
    if negb (len =? 1) then Ok (w, CO_ABORT_TYPE_MISMATCH)
    else if CO_PDO_MAP_MAX <? byte_at buf 0 then Ok (w, CO_ABORT_VALUE_RANGE)
    else
      wa ← map_validate w (r_map p) (byte_at buf 0) false;
      let '(w, abort) := wa in
      if negb (abort =? 0) then Ok (w, abort)
      else w ← rpdo_put w n (p <| r_map_count := byte_at buf 0 |>); Ok (w, 0)
  else if CO_PDO_MAP_MAX <? sub then Ok (w, CO_ABORT_NO_SUBINDEX)
  else if negb (len =? 4) then Ok (w, CO_ABORT_TYPE_MISMATCH)
  else if negb (r_map_count p =? 0) then Ok (w, CO_ABORT_UNSUPPORTED)
  else
    map ← array_set (r_map p) (sub - 1) (co_get_u32 buf);
    w ← rpdo_put w n (p <| r_map := map |>); Ok (w, 0).

Definition tpdo_comm_write (w : world A) (n sub : Z) (buf : list Z) : res (world A * Z) :=
  let len := Z.of_nat (length buf) in
  p ← array_get (n_tpdo (w_node w)) n;
  if sub =? 0 then Ok (w, CO_ABORT_READ_ONLY)
  else if sub =? 1 then
    if negb (len =? 4) then Ok (w, CO_ABORT_TYPE_MISMATCH)
    else
      let v := co_get_u32 buf in
      let abort := cob_id_check (t_cob_id p) v in
      if negb (abort =? 0) then Ok (w, abort)
      else
        w ← tpdo_put w n (p <| t_cob_id := cob_id_mask v |> <| t_have_last := false |>); Ok (w, 0)
  else if sub =? 2 then
    if negb (len =? 1) then Ok (w, CO_ABORT_TYPE_MISMATCH)
    else if (240 <? byte_at buf 0) && (byte_at buf 0 <? 252) then Ok (w, CO_ABORT_VALUE_RANGE)
    else
      w ← tpdo_put w n (p <| t_trans_type := byte_at buf 0 |> <| t_sync_count := 0 |>); Ok (w, 0)
  else if sub =? 3 then
    if negb (len =? 2) then Ok (w, CO_ABORT_TYPE_MISMATCH)
    else w ← tpdo_put w n (p <| t_inhibit_100us := co_get_u16 buf |>); Ok (w, 0)
  else if sub =? 4 then Ok (w, CO_ABORT_READ_ONLY)
  else if sub =? 5 then
    if negb (len =? 2) then Ok (w, CO_ABORT_TYPE_MISMATCH)
    else w ← tpdo_put w n (p <| t_event_ms := co_get_u16 buf |>); Ok (w, 0)
  else Ok (w, CO_ABORT_NO_SUBINDEX).

Definition tpdo_map_write (w : world A) (n sub : Z) (buf : list Z) : res (world A * Z) :=
  let len := Z.of_nat (length buf) in
  p ← array_get (n_tpdo (w_node w)) n;
  if sub =? 0 then
    if negb (len =? 1) then Ok (w, CO_ABORT_TYPE_MISMATCH)
    else if CO_PDO_MAP_MAX <? byte_at buf 0 then Ok (w, CO_ABORT_VALUE_RANGE)
    else
      wa ← map_validate w (t_map p) (byte_at buf 0) true;
      let '(w, abort) := wa in
      if negb (abort =? 0) then Ok (w, abort)
      else
        w ← tpdo_put w n (p <| t_map_count := byte_at buf 0 |> <| t_have_last := false |>); Ok (w, 0)
  else if CO_PDO_MAP_MAX <? sub then Ok (w, CO_ABORT_NO_SUBINDEX)
  else if negb (len =? 4) then Ok (w, CO_ABORT_TYPE_MISMATCH)
  else if negb (t_map_count p =? 0) then Ok (w, CO_ABORT_UNSUPPORTED)
  else
    map ← array_set (t_map p) (sub - 1) (co_get_u32 buf);
    w ← tpdo_put w n (p <| t_map := map |>); Ok (w, 0).

Definition read_only_index (index : Z) : bool :=
  (index =? 0x1000) || (index =? 0x1001) || (index =? 0x1005) || (index =? 0x1008)
  || (index =? 0x1009) || (index =? 0x100A) || (index =? 0x1014) || (index =? 0x1018)
  || (index =? 0x1200).

Definition od_internal_write (w : world A) (index sub : Z) (buf : list Z) : res (world A * Z) :=
  if index =? 0x1017 then
    if negb (sub =? 0) then Ok (w, CO_ABORT_NO_SUBINDEX)
    else if negb (Z.of_nat (length buf) =? 2) then Ok (w, CO_ABORT_TYPE_MISMATCH)
    else
      let node := w_node w in
      Ok (w <| w_node := node <| n_cfg := (n_cfg node) <| cc_heartbeat_ms := co_get_u16 buf |> |>
                              <| n_hb_last_ms := n_now_ms node |> |>, 0)
  else if read_only_index index then Ok (w, CO_ABORT_READ_ONLY)
  else if in_block 0x1400 CO_RPDO_COUNT index then rpdo_comm_write w (index - 0x1400) sub buf
  else if in_block 0x1600 CO_RPDO_COUNT index then rpdo_map_write w (index - 0x1600) sub buf
  else if in_block 0x1800 CO_TPDO_COUNT index then tpdo_comm_write w (index - 0x1800) sub buf
  else if in_block 0x1A00 CO_TPDO_COUNT index then tpdo_map_write w (index - 0x1A00) sub buf
  else Ok (w, CO_ABORT_NO_OBJECT).

Definition od_write (w : world A) (index sub : Z) (buf : list Z) : res (world A * Z) :=
  if is_internal_index index then od_internal_write w index sub buf
  else
    match app_od_write with
    | None => Ok (w, CO_ABORT_NO_OBJECT)
    | Some wr => let '(a, code) := wr (w_app w) index sub buf in Ok (w <| w_app := a |>, code)
    end.

End od.
