(* ===== verification/CoPdo.v ===== *)
(** * CANopen PDO engine: section 4 of co_core.c, and [co_emcy]

    Building, change detection and transmission of the TPDOs, the application
    of received RPDOs, SYNC and remote requests. *)

From S2P Require Import Prelude CoTypes CoOd.

Section pdo.
Context {A : Type} `{CoApp A}.

Definition node_id (w : world A) : Z := cc_node_id (n_cfg (w_node w)).

(** [mfr] is [None] for a null pointer. *)
Definition co_emcy (w : world A) (code err_bits : Z) (mfr : option (list Z)) : world A :=
  let node := w_node w in
  let err := if code =? CO_EMCY_NO_ERROR
             then u8 (Z.land (n_error_register node) (u8 (Z.lnot err_bits)))
             else u8 (Z.lor (n_error_register node) err_bits) in
  let w := w <| w_node := node <| n_error_register := err |> |> in
  if decide (n_nmt node = CO_NMT_STOPPED ∨ n_nmt node = CO_NMT_INITIALISING) then w
  else
    let d := co_put_u16 code ++ [err] ++ default (replicate 5 0) mfr in
    let '(ok, w) := tx w (COB_EMCY_BASE + node_id w) d in
    let w := if ok then stat st_emcy_tx w else w in
    w <| w_node := (w_node w) <| n_last_emcy := code |> |>.

(** The loop of [tpdo_build] from entry [i] on; [data] is what is built so far. *)
Fixpoint tpdo_build_loop (w : world A) (p : co_tpdo_t) (n : nat) (i : Z) (data : list Z)
    : res (world A * option (list Z)) :=
  match n with
  | O => Ok (w, Some data)
  | S n' =>
      e ← array_get (t_map p) i;
      let cnt := map_bits e / 8 in
      wr ← od_read w (map_index e) (map_sub e) CO_SDO_BUF_SIZE;
      let '(w, (abort, bytes)) := wr in
      if negb (abort =? 0) || negb (Z.of_nat (length bytes) =? cnt)
         || (8 <? Z.of_nat (length data) + cnt)
      then Ok (w, None)
      else tpdo_build_loop w p n' (i + 1) (data ++ bytes)
  end.

(** [None] is the result -1. *)
Definition tpdo_build (w : world A) (p : co_tpdo_t) : res (world A * option (list Z)) :=
  tpdo_build_loop w p (Z.to_nat (t_map_count p)) 0 [].

Definition tpdo_send (w : world A) (n : Z) : res (world A) :=
  p ← array_get (n_tpdo (w_node w)) n;
  wd ← tpdo_build w p;
  match wd with
  | (w, None) => Ok w
  | (w, Some data) =>
      let '(ok, w) := tx w (Z.land (t_cob_id p) 0x7FF) data in
      if ok then
        let w := stat st_pdo_tx w in
        last ← array_write (t_last_data p) 0 data;
        tpdo_put w n (p <| t_last_tx_ms := n_now_ms (w_node w) |> <| t_have_last := true |>
                        <| t_last_len := u8 (Z.of_nat (length data)) |>
                        <| t_last_data := last |> <| t_sync_count := 0 |>)
      else Ok w
  end.

Definition tpdo_enabled (p : co_tpdo_t) : bool :=
  (Z.land (t_cob_id p) COB_ID_INVALID =? 0) && (0 <? t_map_count p).

Definition tpdo_changed (w : world A) (n : Z) : res (world A * bool) :=
  p ← array_get (n_tpdo (w_node w)) n;
  wd ← tpdo_build w p;
  match wd with
  | (w, None) => Ok (w, false)
  | (w, Some data) =>
      let len := Z.of_nat (length data) in
      if negb (t_have_last p) || negb (t_last_len p =? u8 len) then Ok (w, true)
      else
        last ← array_read (t_last_data p) 0 len;
        Ok (w, bool_decide (last ≠ data))
  end.

Definition tpdo_tick_one (w : world A) (n : Z) : res (world A) :=
  p ← array_get (n_tpdo (w_node w)) n;
  if negb (tpdo_enabled p) || (t_trans_type p <? 254) then Ok w
  else
    let since := u32 (n_now_ms (w_node w) - t_last_tx_ms p) in
    let inhibit_ms := (t_inhibit_100us p + 9) / 10 in
    if t_have_last p && (since <? inhibit_ms) then Ok w
    else
      let bTimer := negb (t_event_ms p =? 0)
                    && (negb (t_have_last p) || (t_event_ms p <=? since)) in
      if bTimer then tpdo_send w n
      else
        wc ← tpdo_changed w n;
        let '(w, changed) := wc in
        if changed : bool then tpdo_send w n else Ok w.

(** [for (i = 0; i < count; i++)] over a step. *)
Fixpoint for_each (step : world A → Z → res (world A)) (n : nat) (i : Z) (w : world A)
    : res (world A) :=
  match n with
  | O => Ok w
  | S n' => w ← step w i; for_each step n' (i + 1) w
  end.

Definition tpdo_tick (w : world A) : res (world A) :=
  if decide (n_nmt (w_node w) = CO_NMT_OPERATIONAL)
  then for_each tpdo_tick_one (Z.to_nat CO_TPDO_COUNT) 0 w else Ok w.

(** The bytes a mapping needs. *)
Fixpoint rpdo_need (map : list Z) (n : nat) (i : Z) : res Z :=
  match n with
  | O => Ok 0
  | S n' =>
      e ← array_get map i;
      rest ← rpdo_need map n' (i + 1);
      Ok (map_bits e / 8 + rest)
  end.

(** The write loop of [rpdo_apply]; [p] is read through its pointer each time. *)
Fixpoint rpdo_write_loop (w : world A) (n : Z) (data : list Z) (fuel : nat) (i pos : Z)
    : res (world A) :=
  p ← array_get (n_rpdo (w_node w)) n;
  if i <? r_map_count p then
    match fuel with
    | O => OutOfFuel
    | S fuel' =>
        e ← array_get (r_map p) i;
        let cnt := map_bits e / 8 in
        chunk ← array_read data pos cnt;
        wc ← od_write w (map_index e) (map_sub e) chunk;
        rpdo_write_loop wc.1 n data fuel' (i + 1) (pos + cnt)
    end
  else Ok w.

(** At most 8 entries are mapped, so 8 rounds suffice. *)
Definition rpdo_apply (w : world A) (n : Z) (data : list Z) (len : Z) : res (world A) :=
  p ← array_get (n_rpdo (w_node w)) n;
  need ← rpdo_need (r_map p) (Z.to_nat (r_map_count p)) 0;
  if len <? need then Ok (co_emcy w 0x8210 CO_ERR_GENERIC (Some (replicate 5 0)))
  else
    w ← rpdo_write_loop w n data (Z.to_nat CO_PDO_MAP_MAX) 0 0;
    Ok (stat st_pdo_rx w).

Definition sync_tpdo_one (w : world A) (n : Z) : res (world A) :=
  p ← array_get (n_tpdo (w_node w)) n;
  if negb (tpdo_enabled p) || (240 <? t_trans_type p) then Ok w
  else if t_trans_type p =? 0 then
    wc ← tpdo_changed w n;
    let '(w, changed) := wc in
    if changed : bool then tpdo_send w n else Ok w
  else
    let cnt := u8 (t_sync_count p + 1) in
    w ← tpdo_put w n (p <| t_sync_count := cnt |>);
    if t_trans_type p <=? cnt then tpdo_send w n else Ok w.

Definition sync_rpdo_one (w : world A) (n : Z) : res (world A) :=
  p ← array_get (n_rpdo (w_node w)) n;
  if r_pending p then
    w ← rpdo_put w n (p <| r_pending := false |>);
    rpdo_apply w n (r_data p) (r_len p)
  else Ok w.

Definition sync_rx (w : world A) : res (world A) :=
  if decide (n_nmt (w_node w) = CO_NMT_OPERATIONAL) then
    w ← for_each sync_tpdo_one (Z.to_nat CO_TPDO_COUNT) 0 w;
    for_each sync_rpdo_one (Z.to_nat CO_RPDO_COUNT) 0 w
  else Ok w.

(** The two searches of [pdo_rx]: the result says whether the frame was ours. *)
Fixpoint rtr_loop (w : world A) (f : co_frame_t) (n : nat) (i : Z) : res (world A * bool) :=
  match n with
  | O => Ok (w, false)
  | S n' =>
      p ← array_get (n_tpdo (w_node w)) i;
      if tpdo_enabled p && (Z.land (t_cob_id p) 0x7FF =? f_id f) then
        if decide (n_nmt (w_node w) = CO_NMT_OPERATIONAL) then
          w ← tpdo_send w i; Ok (w, true)
        else Ok (w, true)
      else rtr_loop w f n' (i + 1)
  end.

Fixpoint rpdo_loop (w : world A) (f : co_frame_t) (n : nat) (i : Z) : res (world A * bool) :=
  match n with
  | O => Ok (w, false)
  | S n' =>
      p ← array_get (n_rpdo (w_node w)) i;
      if negb (Z.land (r_cob_id p) COB_ID_INVALID =? 0) || (r_map_count p =? 0)
         || negb (Z.land (r_cob_id p) 0x7FF =? f_id f)
      then rpdo_loop w f n' (i + 1)
      else if decide (n_nmt (w_node w) ≠ CO_NMT_OPERATIONAL) then Ok (w, true)
      else if r_trans_type p <=? 240 then
        data ← array_read (f_data f) 0 8;
        w ← rpdo_put w i (p <| r_pending := true |> <| r_len := f_dlc f |> <| r_data := data |>);
        Ok (w, true)
      else
        w ← rpdo_apply w i (f_data f) (f_dlc f); Ok (w, true)
  end.

Definition pdo_rx (w : world A) (f : co_frame_t) : res (world A * bool) :=
  if f_rtr f then rtr_loop w f (Z.to_nat CO_TPDO_COUNT) 0
  else rpdo_loop w f (Z.to_nat CO_RPDO_COUNT) 0.

End pdo.
