(* ===== verification/CoSdo.v ===== *)
(** * CANopen SDO server: section 5 of co_core.c

    Expedited and segmented upload and download, one transfer at a time. *)

From S2P Require Import Prelude CoTypes CoOd CoPdo.

Section sdo.
Context {A : Type} `{CoApp A}.

Definition sdo (w : world A) : co_sdo_t := n_sdo (w_node w).
Definition sdo_put (w : world A) (s : co_sdo_t) : world A :=
  w <| w_node := (w_node w) <| n_sdo := s |> |>.

Definition sdo_reply (w : world A) (d : list Z) : world A :=
  (tx w (COB_SDO_TX_BASE + node_id w) d).2.

Definition sdo_abort (w : world A) (index sub code : Z) : world A :=
  let w := sdo_reply w ([0x80] ++ co_put_u16 index ++ [sub] ++ co_put_u32 code) in
  let w := stat st_sdo_aborts w in
  sdo_put w ((sdo w) <| sdo_state := SDO_IDLE |>).

(** A transfer is opened: common to segmented upload and download. *)
Definition sdo_open (s : co_sdo_t) (st : sdo_state_t) (index sub len now : Z) : co_sdo_t :=
  s <| sdo_state := st |> <| sdo_index := index |> <| sdo_sub := sub |> <| sdo_len := len |>
    <| sdo_pos := 0 |> <| sdo_toggle := 0 |> <| sdo_last_ms := now |>.

Definition sdo_upload_initiate (w : world A) (index sub : Z) : res (world A) :=
  wr ← od_read w index sub CO_SDO_BUF_SIZE;
  let '(w, (abort, bytes)) := wr in
  buf ← array_write (sdo_buf (sdo w)) 0 bytes;
  let w := sdo_put w ((sdo w) <| sdo_buf := buf |>) in
  if negb (abort =? 0) then Ok (sdo_abort w index sub abort)
  else
    let len := Z.of_nat (length bytes) in
    if len <=? 4 then
      data ← array_read buf 0 len;
      let d := [u8 (Z.lor 0x43 (Z.shiftl (4 - len) 2))] ++ co_put_u16 index ++ [sub]
               ++ data ++ replicate (Z.to_nat (4 - len)) 0 in
      Ok (sdo_reply (sdo_put w ((sdo w) <| sdo_state := SDO_IDLE |>)) d)
    else
      let d := [0x41] ++ co_put_u16 index ++ [sub] ++ co_put_u32 (u32 len) in
      Ok (sdo_reply (sdo_put w (sdo_open (sdo w) SDO_UPLOAD_SEG index sub len
                                  (n_now_ms (w_node w)))) d).

Definition sdo_upload_segment (w : world A) (cmd : Z) : res (world A) :=
  let s := sdo w in
  if decide (sdo_state s ≠ SDO_UPLOAD_SEG) then Ok (sdo_abort w 0 0 CO_ABORT_CMD)
  else
    let toggle := Z.land (Z.shiftr cmd 4) 1 in
    if negb (toggle =? sdo_toggle s) then
      Ok (sdo_abort w (sdo_index s) (sdo_sub s) CO_ABORT_TOGGLE)
    else
      let remain := u32 (sdo_len s - sdo_pos s) in
      let n := if 7 <? remain then 7 else remain in
      let bLast := n =? remain in
      data ← array_read (sdo_buf s) (sdo_pos s) n;
      let d := [u8 (Z.lor (Z.lor (Z.shiftl toggle 4) (Z.shiftl (7 - n) 1)) (if bLast then 1 else 0))]
               ++ data ++ replicate (Z.to_nat (7 - n)) 0 in
      let s := s <| sdo_pos := sdo_pos s + n |> <| sdo_toggle := Z.lxor (sdo_toggle s) 1 |>
                 <| sdo_last_ms := n_now_ms (w_node w) |> in
      let s := if bLast then s <| sdo_state := SDO_IDLE |> else s in
      Ok (sdo_reply (sdo_put w s) d).

Definition sdo_ack_initiate (index sub : Z) : list Z :=
  [0x60] ++ co_put_u16 index ++ [sub] ++ [0; 0; 0; 0].

Definition sdo_download_initiate (w : world A) (cmd index sub : Z) (payload : list Z)
    : res (world A) :=
  let e := negb (Z.land cmd 0x02 =? 0) in
  let s := negb (Z.land cmd 0x01 =? 0) in
  if e then
    let len := if s then 4 - Z.land (Z.shiftr cmd 2) 3 else 4 in
    data ← array_read payload 0 len;
    wa ← od_write w index sub data;
    let '(w, abort) := wa in
    if negb (abort =? 0) then Ok (sdo_abort w index sub abort)
    else
      Ok (sdo_reply (sdo_put w ((sdo w) <| sdo_state := SDO_IDLE |>)) (sdo_ack_initiate index sub))
  else
    let expected := if s then co_get_u32 payload else 0 in
    if CO_SDO_BUF_SIZE <? expected then Ok (sdo_abort w index sub CO_ABORT_OUT_OF_MEMORY)
    else
      Ok (sdo_reply (sdo_put w (sdo_open (sdo w) SDO_DOWNLOAD_SEG index sub expected
                                  (n_now_ms (w_node w)))) (sdo_ack_initiate index sub)).

Definition sdo_download_segment (w : world A) (cmd : Z) (payload : list Z) : res (world A) :=
  let s := sdo w in
  if decide (sdo_state s ≠ SDO_DOWNLOAD_SEG) then Ok (sdo_abort w 0 0 CO_ABORT_CMD)
  else
    let toggle := Z.land (Z.shiftr cmd 4) 1 in
    if negb (toggle =? sdo_toggle s) then
      Ok (sdo_abort w (sdo_index s) (sdo_sub s) CO_ABORT_TOGGLE)
    else
      let n := 7 - Z.land (Z.shiftr cmd 1) 7 in
      let bLast := negb (Z.land cmd 1 =? 0) in
      if CO_SDO_BUF_SIZE <? sdo_pos s + n then
        Ok (sdo_abort w (sdo_index s) (sdo_sub s) CO_ABORT_OUT_OF_MEMORY)
      else
        chunk ← array_read payload 0 n;
        buf ← array_write (sdo_buf s) (sdo_pos s) chunk;
        let s := s <| sdo_buf := buf |> <| sdo_pos := sdo_pos s + n |>
                   <| sdo_last_ms := n_now_ms (w_node w) |>
                   <| sdo_toggle := Z.lxor (sdo_toggle s) 1 |> in
        let w := sdo_put w s in
        let d := [u8 (Z.lor 0x20 (Z.shiftl toggle 4))] ++ replicate 7 0 in
        if bLast then
          if negb (sdo_len s =? 0) && negb (sdo_pos s =? sdo_len s) then
            Ok (sdo_abort w (sdo_index s) (sdo_sub s) CO_ABORT_TYPE_MISMATCH)
          else
            data ← array_read (sdo_buf s) 0 (sdo_pos s);
            wa ← od_write w (sdo_index s) (sdo_sub s) data;
            let '(w, abort) := wa in
            let w := sdo_put w ((sdo w) <| sdo_state := SDO_IDLE |>) in
            if negb (abort =? 0) then Ok (sdo_abort w (sdo_index s) (sdo_sub s) abort)
            else Ok (sdo_reply w d)
        else Ok (sdo_reply w d).

Definition sdo_rx (w : world A) (f : co_frame_t) : res (world A) :=
  if (f_dlc f <? 8) || f_rtr f then Ok w
  else
    let w := stat st_sdo_requests w in
    cmd ← array_get (f_data f) 0;
    let ccs := Z.shiftr cmd 5 in
    ibytes ← array_read (f_data f) 1 2;
    let index := co_get_u16 ibytes in
    sub ← array_get (f_data f) 3;
    if ccs =? 0 then p ← array_read (f_data f) 1 7; sdo_download_segment w cmd p
    else if ccs =? 1 then p ← array_read (f_data f) 4 4; sdo_download_initiate w cmd index sub p
    else if ccs =? 2 then sdo_upload_initiate w index sub
    else if ccs =? 3 then sdo_upload_segment w cmd
    else if ccs =? 4 then Ok (sdo_put w ((sdo w) <| sdo_state := SDO_IDLE |>))
    else Ok (sdo_abort w index sub CO_ABORT_CMD).

End sdo.
