(* ===== verification/CoNode.v ===== *)
(** * CANopen node: sections 6 and 7 of co_core.c

    NMT, heartbeat, reset and the public API. *)

From S2P Require Import Prelude CoTypes CoOd CoPdo CoSdo.

(** The PDO parameter sets after [memset] and the defaults of [node_reset]. *)
Definition tpdo_default (node_id n : Z) : co_tpdo_t :=
  mk_tpdo (Z.lor COB_ID_INVALID (COB_TPDO1_BASE + 0x100 * n + node_id)) 255 0 0 0
    (replicate 8 0) 0 false 0 (replicate 8 0) 0.
Definition rpdo_default (node_id n : Z) : co_rpdo_t :=
  mk_rpdo (Z.lor COB_ID_INVALID (COB_RPDO1_BASE + 0x100 * n + node_id)) 255 0
    (replicate 8 0) false 0 (replicate 8 0).

Section node.
Context {A : Type} `{CoApp A}.

(** ** PDO configuration *)

Definition co_tpdo_configure (w : world A) (n cob_id trans_type inhibit_ms event_ms : Z)
    (map : list Z) : res (world A * bool) :=
  let count := Z.of_nat (length map) in
  if (CO_TPDO_COUNT <=? n) || (CO_PDO_MAP_MAX <? count) then Ok (w, false)
  else
    wa ← map_validate w map count true;
    let '(w, abort) := wa in
    if negb (abort =? 0) then Ok (w, false)
    else
      p ← array_get (n_tpdo (w_node w)) n;
      m ← array_write (t_map p) 0 map;
      let cob := if cob_id =? 0 then COB_TPDO1_BASE + 0x100 * n + node_id w
                 else Z.land cob_id 0x7FF in
      w ← tpdo_put w n (p <| t_cob_id := cob |> <| t_trans_type := trans_type |>
                          <| t_inhibit_100us := u16 (inhibit_ms * 10) |>
                          <| t_event_ms := event_ms |> <| t_map_count := count |> <| t_map := m |>
                          <| t_have_last := false |> <| t_sync_count := 0 |>);
      Ok (w, true).

Definition co_rpdo_configure (w : world A) (n cob_id trans_type : Z) (map : list Z)
    : res (world A * bool) :=
  let count := Z.of_nat (length map) in
  if (CO_RPDO_COUNT <=? n) || (CO_PDO_MAP_MAX <? count) then Ok (w, false)
  else
    wa ← map_validate w map count false;
    let '(w, abort) := wa in
    if negb (abort =? 0) then Ok (w, false)
    else
      p ← array_get (n_rpdo (w_node w)) n;
      m ← array_write (r_map p) 0 map;
      let cob := if cob_id =? 0 then COB_RPDO1_BASE + 0x100 * n + node_id w
                 else Z.land cob_id 0x7FF in
      w ← rpdo_put w n (p <| r_cob_id := cob |> <| r_trans_type := trans_type |>
                          <| r_map_count := count |> <| r_map := m |> <| r_pending := false |>);
      Ok (w, true).

Definition error_set (w : world A) (bits : Z) : world A :=
  w <| w_node := (w_node w) <| n_error_register := u8 (Z.lor (n_error_register (w_node w)) bits) |> |>.

(** What the owner does from [on_reset], in order. *)
Fixpoint apply_conf (w : world A) (cs : list co_conf) : res (world A) :=
  match cs with
  | [] => Ok w
  | ConfTpdo n cob ty inh ev map :: cs =>
      r ← co_tpdo_configure w n cob ty inh ev map; apply_conf r.1 cs
  | ConfRpdo n cob ty map :: cs =>
      r ← co_rpdo_configure w n cob ty map; apply_conf r.1 cs
  | ConfError bits :: cs => apply_conf (error_set w bits) cs
  end.

(** ** NMT, heartbeat *)

Definition node_reset (w : world A) (bResetNode : bool) : res (world A) :=
  let node := w_node w in
  let nid := cc_node_id (n_cfg node) in
  let node := node <| n_sdo := (n_sdo node) <| sdo_state := SDO_IDLE |> |>
                   <| n_tpdo := map (tpdo_default nid) [0; 1; 2; 3] |>
                   <| n_rpdo := map (rpdo_default nid) [0; 1] |>
                   <| n_error_register := if bResetNode then 0 else n_error_register node |>
                   <| n_nmt := CO_NMT_INITIALISING |> in
  let w := w <| w_node := node |> in
  w ← match app_on_reset with
      | Some cb =>
          if cc_on_reset (n_cfg node) then
            let '(a, cs) := cb (w_app w) bResetNode in apply_conf (w <| w_app := a |>) cs
          else Ok w
      | None => Ok w
      end;
  let node := w_node w in
  Ok (nmt_set (w <| w_node := node <| n_bootup_pending := true |>
                                   <| n_hb_last_ms := n_now_ms node |> |>) CO_NMT_PREOPERATIONAL).

Definition clear_have_last (p : co_tpdo_t) : co_tpdo_t := p <| t_have_last := false |>.

Definition nmt_rx (w : world A) (f : co_frame_t) : res (world A) :=
  if f_dlc f <? 2 then Ok w
  else
    cmd ← array_get (f_data f) 0;
    target ← array_get (f_data f) 1;
    if negb (target =? 0) && negb (target =? node_id w) then Ok w
    else if cmd =? NMT_CMD_START then
      let w := nmt_set w CO_NMT_OPERATIONAL in
      Ok (w <| w_node := (w_node w) <| n_tpdo := map clear_have_last (n_tpdo (w_node w)) |> |>)
    else if cmd =? NMT_CMD_STOP then
      let w := nmt_set w CO_NMT_STOPPED in
      Ok (sdo_put w ((sdo w) <| sdo_state := SDO_IDLE |>))
    else if cmd =? NMT_CMD_PREOP then Ok (nmt_set w CO_NMT_PREOPERATIONAL)
    else if cmd =? NMT_CMD_RESET_NODE then node_reset w true
    else if cmd =? NMT_CMD_RESET_COMM then node_reset w false
    else Ok w.

Definition heartbeat_tick (w : world A) : world A :=
  let node := w_node w in
  if n_bootup_pending node then
    let '(ok, w) := tx w (COB_HB_BASE + node_id w) [0] in
    if ok then
      w <| w_node := (w_node w) <| n_bootup_pending := false |>
                                <| n_hb_last_ms := n_now_ms (w_node w) |> |>
    else w
  else if cc_heartbeat_ms (n_cfg node) =? 0 then w
  else if cc_heartbeat_ms (n_cfg node) <=? u32 (n_now_ms node - n_hb_last_ms node) then
    let w := (tx w (COB_HB_BASE + node_id w) [nmt_code (n_nmt node)]).2 in
    w <| w_node := (w_node w) <| n_hb_last_ms := n_now_ms (w_node w) |> |>
  else w.

(** ** Public API *)

Definition node_zero (cfg : co_config_t) : co_node_t :=
  mk_node cfg CO_NMT_INITIALISING 0 0 0 false
    (mk_sdo SDO_IDLE 0 0 0 0 0 (replicate (Z.to_nat CO_SDO_BUF_SIZE) 0) 0)
    (replicate 4 (mk_tpdo 0 0 0 0 0 (replicate 8 0) 0 false 0 (replicate 8 0) 0))
    (replicate 2 (mk_rpdo 0 0 0 (replicate 8 0) false 0 (replicate 8 0)))
    (mk_co_stats 0 0 0 0 0 0 0 0) 0 false 0.

Definition co_init (a : A) (cfg : co_config_t) (now_ms : Z) : res (world A) :=
  let nid := cc_node_id cfg in
  let saved := cc_on_reset cfg in
  let cfg := cfg <| cc_node_id := if (nid =? 0) || (127 <? nid) then 127 else nid |>
                 <| cc_on_reset := false |> in
  w ← node_reset (mk_world ((node_zero cfg) <| n_now_ms := now_ms |>) a []) true;
  let node := w_node w in
  Ok (w <| w_node := node <| n_cfg := (n_cfg node) <| cc_on_reset := saved |> |> |>).

Definition master_note (w : world A) : world A :=
  w <| w_node := (w_node w) <| n_master_seen := true |>
                            <| n_last_master_ms := n_now_ms (w_node w) |> |>.

Definition co_rx (w : world A) (f : co_frame_t) (now_ms : Z) : res (world A) :=
  let w := w <| w_node := (w_node w) <| n_now_ms := now_ms |> |> in
  let w := stat st_rx_frames w in
  let nmt := n_nmt (w_node w) in
  if f_id f =? COB_NMT then
    if 2 <=? f_dlc f then
      target ← array_get (f_data f) 1;
      nmt_rx (if (target =? 0) || (target =? node_id w) then master_note w else w) f
    else nmt_rx w f
  else if decide (nmt = CO_NMT_INITIALISING) then Ok w
  else if (f_id f =? COB_SYNC) && negb (f_rtr f) then sync_rx (master_note w)
  else if decide (nmt = CO_NMT_STOPPED) then Ok w
  else if f_id f =? u16 (COB_SDO_RX_BASE + node_id w) then sdo_rx (master_note w) f
  else
    wb ← pdo_rx w f;
    let '(w, ours) := wb in
    Ok (if ours : bool then master_note w else w).

Definition co_master_active (node : co_node_t) (now_ms timeout_ms : Z) : bool :=
  n_master_seen node && (u32 (now_ms - n_last_master_ms node) <=? timeout_ms).

Definition co_tick (w : world A) (now_ms : Z) : res (world A) :=
  let w := w <| w_node := (w_node w) <| n_now_ms := now_ms |> |> in
  let w := heartbeat_tick w in
  let s := sdo w in
  let w := if bool_decide (sdo_state s ≠ SDO_IDLE)
              && (CO_SDO_TIMEOUT_MS <? u32 (now_ms - sdo_last_ms s))
           then sdo_abort w (sdo_index s) (sdo_sub s) CO_ABORT_TIMEOUT else w in
  tpdo_tick w.

Definition co_tpdo_request (w : world A) (n : Z) : res (world A) :=
  if n <? CO_TPDO_COUNT then
    p ← array_get (n_tpdo (w_node w)) n; tpdo_put w n (clear_have_last p)
  else Ok w.

Definition co_nmt_state (node : co_node_t) : co_nmt_state_t := n_nmt node.

Definition co_heartbeat_set (w : world A) (ms : Z) : world A :=
  let node := w_node w in
  w <| w_node := node <| n_cfg := (n_cfg node) <| cc_heartbeat_ms := ms |> |>
                      <| n_hb_last_ms := n_now_ms node |> |>.

End node.

(** ** Traces of the public API *)

Inductive co_event :=
  | EvRx (f : co_frame_t) (now_ms : Z)
  | EvTick (now_ms : Z)
  | EvEmcy (code err_bits : Z) (mfr : option (list Z))
  | EvTpdoConfigure (n cob_id trans_type inhibit_ms event_ms : Z) (map : list Z)
  | EvRpdoConfigure (n cob_id trans_type : Z) (map : list Z)
  | EvTpdoRequest (n : Z)
  | EvHeartbeatSet (ms : Z).

Definition co_step {A} `{CoApp A} (w : world A) (e : co_event) : res (world A) :=
  match e with
  | EvRx f now => co_rx w f now
  | EvTick now => co_tick w now
  | EvEmcy code bits mfr => Ok (co_emcy w code bits mfr)
  | EvTpdoConfigure n cob ty inh ev map => r ← co_tpdo_configure w n cob ty inh ev map; Ok r.1
  | EvRpdoConfigure n cob ty map => r ← co_rpdo_configure w n cob ty map; Ok r.1
  | EvTpdoRequest n => co_tpdo_request w n
  | EvHeartbeatSet ms => Ok (co_heartbeat_set w ms)
  end.

Fixpoint co_run {A} `{CoApp A} (w : world A) (es : list co_event) : res (world A) :=
  match es with
  | [] => Ok w
  | e :: es => w ← co_step w e; co_run w es
  end.
