(* ===== verification/CoInv.v ===== *)
(** * CANopen node: the invariant

    Array lengths, the SDO transfer window, the mapping limits of the PDOs;
    every operation of the core keeps them and stays inside its arrays. *)

From S2P Require Import Prelude CoTypes CoOd CoPdo CoSdo CoNode.

(** The bits the first [n] entries of a mapping ask for. *)
Fixpoint map_total (map : list Z) (n : nat) : Z :=
  match n, map with
  | S n', e :: map' => map_bits e + map_total map' n'
  | _, _ => 0
  end.

(** A mapping of [count] entries is admissible: at most eight entries of 8, 16,
    32 or 64 bits, 64 bits together. *)
Record map_ok (map : list Z) (count : Z) : Prop := {
  mo_len : length map = 8%nat;
  mo_count : 0 <= count <= 8;
  mo_bits : ∀ i e, (i < Z.to_nat count)%nat → map !! i = Some e →
    map_bits e = 8 ∨ map_bits e = 16 ∨ map_bits e = 32 ∨ map_bits e = 64;
  mo_total : map_total map (Z.to_nat count) <= 64
}.

Record tpdo_wf (p : co_tpdo_t) : Prop := {
  tw_map : map_ok (t_map p) (t_map_count p);
  tw_last : length (t_last_data p) = 8%nat
}.

(** An RPDO only maps application objects. *)
Record rpdo_wf (p : co_rpdo_t) : Prop := {
  rw_map : map_ok (r_map p) (r_map_count p);
  rw_app : ∀ i e, (i < Z.to_nat (r_map_count p))%nat → r_map p !! i = Some e → 0x2000 <= map_index e;
  rw_data : length (r_data p) = 8%nat;
  rw_len : 0 <= r_len p <= 8
}.

Record sdo_wf (s : co_sdo_t) : Prop := {
  sw_buf : length (sdo_buf s) = 128%nat;
  sw_up : sdo_state s = SDO_UPLOAD_SEG → 0 <= sdo_pos s <= sdo_len s ∧ sdo_len s <= 128;
  sw_down : sdo_state s = SDO_DOWNLOAD_SEG →
    0 <= sdo_pos s <= 128 ∧ 0 <= sdo_len s <= 128 ∧ 0 <= sdo_sub s
    ∧ Forall is_u8 (take (Z.to_nat (sdo_pos s)) (sdo_buf s))
}.

Record node_wf (node : co_node_t) : Prop := {
  nw_tpdo : length (n_tpdo node) = 4%nat ∧ Forall tpdo_wf (n_tpdo node);
  nw_rpdo : length (n_rpdo node) = 2%nat ∧ Forall rpdo_wf (n_rpdo node);
  nw_sdo : sdo_wf (n_sdo node)
}.

Record frame_wf (f : co_frame_t) : Prop := {
  fw_dlc : 0 <= f_dlc f <= 8;
  fw_data : length (f_data f) = 8%nat;
  fw_bytes : Forall is_u8 (f_data f)
}.

(** The parts of the node the wire and the callbacks do not touch. *)
Definition core_of (node : co_node_t) :=
  (n_cfg node, n_nmt node, n_now_ms node, n_sdo node, n_tpdo node, n_rpdo node).

Lemma node_wf_core n1 n2 : core_of n1 = core_of n2 → node_wf n1 → node_wf n2.
Proof. unfold core_of. intros [=]. intros []. split; congruence. Qed.

Lemma core_nmt n1 n2 : core_of n1 = core_of n2 → n_nmt n1 = n_nmt n2.
Proof. unfold core_of. congruence. Qed.

Lemma core_sdo n1 n2 : core_of n1 = core_of n2 → n_sdo n1 = n_sdo n2.
Proof. unfold core_of. congruence. Qed.

Lemma core_cfg n1 n2 : core_of n1 = core_of n2 → n_cfg n1 = n_cfg n2.
Proof. unfold core_of. congruence. Qed.

Lemma core_pdo n1 n2 :
  core_of n1 = core_of n2 → n_tpdo n1 = n_tpdo n2 ∧ n_rpdo n1 = n_rpdo n2.
Proof. unfold core_of. intros [=]. by split. Qed.

Section inv.
Context {A : Type} `{HA : CoApp A} `{!CoAppLaws A}.
Implicit Types w : world A.

Definition wf w : Prop := node_wf (w_node w).

Lemma wf_core w1 w2 : core_of (w_node w1) = core_of (w_node w2) → wf w1 → wf w2.
Proof. apply node_wf_core. Qed.

(** ** Sending keeps the core of the node *)

Lemma stat_core p `{!Setter p} w : core_of (w_node (stat p w)) = core_of (w_node w).
Proof. done. Qed.

Lemma tx_core w id d : core_of (w_node (tx w id d).2) = core_of (w_node w).
Proof.
  unfold tx. destruct app_send as [send|]; [|done].
  destruct (send _ _) as [a []]; done.
Qed.

Lemma co_emcy_core w code bits mfr : core_of (w_node (co_emcy w code bits mfr)) = core_of (w_node w).
Proof.
  unfold co_emcy. case_decide; [done|].
  set (w1 := w <| w_node := _ |>).
  pose proof (tx_core w1 (COB_EMCY_BASE + node_id w1)
    (co_put_u16 code ++ [n_error_register (w_node w1)] ++ default (replicate 5 0) mfr)) as Hc.
  cbn in Hc. cbn. destruct (tx _ _ _) as [ok w2]. cbn in Hc. by destruct ok.
Qed.

(** What reads, writes and PDO traffic leave alone. *)
Record keeps w1 w2 : Prop := {
  kp_nmt : n_nmt (w_node w2) = n_nmt (w_node w1);
  kp_now : n_now_ms (w_node w2) = n_now_ms (w_node w1);
  kp_sdo : n_sdo (w_node w2) = n_sdo (w_node w1);
  kp_id : node_id w2 = node_id w1
}.

#[export] Instance keeps_preorder : PreOrder keeps.
Proof. split; [by split|]. intros ? ? ? [] []. split; congruence. Qed.

Lemma core_keeps w1 w2 : core_of (w_node w2) = core_of (w_node w1) → keeps w1 w2.
Proof. unfold core_of. intros [=]. split; unfold node_id; congruence. Qed.

(** ** Reading the object dictionary *)

Lemma rd_str_len cap s : Z.of_nat (length (rd_str cap s).2) <= Z.max 0 cap.
Proof.
  unfold rd_str, str_len_capped, CO_STR_MAX. repeat case_bool; cbn; try lia;
    rewrite length_take; lia.
Qed.

Lemma rd_len cap v :
  Z.of_nat (length (rd_u8 cap v).2) <= Z.max 0 cap ∧ Z.of_nat (length (rd_u16 cap v).2) <= Z.max 0 cap
  ∧ Z.of_nat (length (rd_u32 cap v).2) <= Z.max 0 cap.
Proof. unfold rd_u8, rd_u16, rd_u32. repeat case_bool; cbn; lia. Qed.

#[local] Ltac rd_solve :=
  repeat case_bool; cbn;
  first [ apply rd_str_len | apply rd_len | lia ].

Lemma od_profile_read_len node index sub cap r :
  od_profile_read node index sub cap = Some r → Z.of_nat (length r.2) <= Z.max 0 cap.
Proof.
  unfold od_profile_read, scalar, no_sub. intros Hr.
  repeat (destruct (index =? _); [simplify_eq; rd_solve|]). done.
Qed.

Lemma map_read_safe count map sub cap :
  length map = 8%nat → 0 <= sub →
  safe (map_read count map sub cap) (λ r, Z.of_nat (length r.2) <= Z.max 0 cap).
Proof.
  intros Hl Hs. unfold map_read, CO_PDO_MAP_MAX, no_sub.
  destruct (Z.eqb_spec sub 0); [apply rd_len|]. case_bool; [|cbn; lia].
  eapply safe_bind; [apply safe_array_get; lia|]. intros e _. apply rd_len.
Qed.

Lemma safe_tpdo_get node n :
  node_wf node → 0 <= n < 4 → safe (array_get (n_tpdo node) n)
    (λ p, n_tpdo node !! Z.to_nat n = Some p ∧ tpdo_wf p).
Proof.
  intros [[Hl Hf] _ _] Hn. eapply safe_mono; [apply safe_array_get; lia|]. cbn.
  intros p Hp. split; [done|]. by eapply Forall_lookup_1.
Qed.

Lemma safe_rpdo_get node n :
  node_wf node → 0 <= n < 2 → safe (array_get (n_rpdo node) n)
    (λ p, n_rpdo node !! Z.to_nat n = Some p ∧ rpdo_wf p).
Proof.
  intros [_ [Hl Hf] _] Hn. eapply safe_mono; [apply safe_array_get; lia|]. cbn.
  intros p Hp. split; [done|]. by eapply Forall_lookup_1.
Qed.

Lemma in_block_spec base count index :
  in_block base count index = true → 0 <= index - base < count.
Proof. unfold in_block. intros [? ?]%andb_true_iff. lia. Qed.

Lemma od_internal_read_safe node index sub cap :
  node_wf node → 0 <= sub →
  safe (od_internal_read node index sub cap) (λ r, Z.of_nat (length r.2) <= Z.max 0 cap).
Proof.
  intros Hw Hs. unfold od_internal_read.
  destruct (od_profile_read _ _ _ _) eqn:E; [by eapply od_profile_read_len|].
  destruct (in_block 0x1400 _ _) eqn:E1; [|destruct (in_block 0x1600 _ _) eqn:E2;
    [|destruct (in_block 0x1800 _ _) eqn:E3; [|destruct (in_block 0x1A00 _ _) eqn:E4; [|cbn; lia]]]].
  - eapply safe_bind; [apply safe_rpdo_get; [done|by apply in_block_spec in E1]|].
    intros p _. unfold rpdo_comm_read, no_sub. cbn. rd_solve.
  - eapply safe_bind; [apply safe_rpdo_get; [done|by apply in_block_spec in E2]|].
    intros p [_ Hp]. apply map_read_safe; [apply Hp|done].
  - eapply safe_bind; [apply safe_tpdo_get; [done|by apply in_block_spec in E3]|].
    intros p _. unfold tpdo_comm_read, no_sub. cbn. rd_solve.
  - eapply safe_bind; [apply safe_tpdo_get; [done|by apply in_block_spec in E4]|].
    intros p [_ Hp]. apply map_read_safe; [apply Hp|done].
Qed.

(** A read leaves the node and the wire alone and fits its buffer. *)
Definition read_post w (r : world A * (Z * list Z)) : Prop :=
  w_node r.1 = w_node w ∧ w_wire r.1 = w_wire w ∧ Z.of_nat (length r.2.2) <= 128.

Lemma od_read_safe w index sub :
  wf w → 0 <= sub → safe (od_read w index sub CO_SDO_BUF_SIZE) (read_post w).
Proof.
  intros Hw Hs. unfold od_read. destruct (is_internal_index index).
  - eapply safe_bind; [by apply od_internal_read_safe|]. intros r Hr.
    unfold CO_SDO_BUF_SIZE in Hr. by split_and!; cbn.
  - destruct app_od_read as [rd|] eqn:Erd; [|by split_and!].
    destruct (rd _ _ _ _) as [a [code bytes]] eqn:E. split_and!; try done. cbn.
    by apply (app_read_cap rd) in E.
Qed.

(** ** Validating a mapping *)

Definition bits_ok (b : Z) : Prop := b = 8 ∨ b = 16 ∨ b = 32 ∨ b = 64.

Lemma map_total_nonneg map n : 0 <= map_total map n.
Proof.
  revert map. induction n as [|n IH]; intros [|e map]; cbn; try lia.
  specialize (IH map). pose proof (u8_range e). unfold map_bits, is_u8 in *. lia.
Qed.

(** The entries [l] were accepted. *)
Definition entries_ok (bForTx : bool) (l : list Z) (n : nat) : Prop :=
  ∀ j e, (j < n)%nat → l !! j = Some e →
    bits_ok (map_bits e) ∧ (bForTx = false → 0x2000 <= map_index e).

Definition validate_post w (bForTx : bool) (l : list Z) (n : nat) (total : Z)
    (r : world A * Z) : Prop :=
  w_node r.1 = w_node w ∧ w_wire r.1 = w_wire w ∧
  (r.2 = 0 → total + map_total l n <= 64 ∧ entries_ok bForTx l n).

Lemma bits_test b :
  negb ((b =? 8) || (b =? 16) || (b =? 32) || (b =? 64)) = false → bits_ok b.
Proof. unfold bits_ok. destruct (b =? 8) eqn:?, (b =? 16) eqn:?, (b =? 32) eqn:?, (b =? 64) eqn:?; cbn; lia. Qed.

Lemma map_validate_loop_safe w map bForTx n i total :
  wf w → 0 <= i → (Z.to_nat i + n <= length map)%nat → 0 <= total <= 64 →
  safe (map_validate_loop w map bForTx n i total)
    (validate_post w bForTx (drop (Z.to_nat i) map) n total).
Proof.
  revert w i total. induction n as [|n IH]; intros w i total Hw Hi Hn Ht.
  { split_and!; try done. intros _. split; [destruct (drop _ _); cbn; lia|]. intros j e ?. lia. }
  cbn [map_validate_loop].
  eapply safe_bind; [apply safe_array_get; lia|]. intros e He. cbn beta in He.
  destruct (negb (_ || _)) eqn:Hb; [by split_and!|]. apply bits_test in Hb.
  assert (u32 (total + map_bits e) = total + map_bits e) as ->
    by (apply u32_id; unfold is_u32, bits_ok in *; lia).
  case_bool; [by split_and!|].
  eapply safe_bind; [apply od_read_safe; [done|apply u8_range]|].
  intros [w1 [abort bytes]] (Hn1 & Hw1 & _). cbn in Hn1, Hw1.
  destruct (negb (abort =? 0)); [by split_and!|].
  destruct (bForTx && _); [by split_and!|].
  destruct (negb bForTx && _) eqn:Hx; [by split_and!|].
  eapply safe_mono; [apply IH; [unfold wf; by rewrite Hn1|lia|lia|unfold bits_ok in *; lia]|].
  intros r (Hr1 & Hr2 & Hr3). split_and!; [congruence|congruence|]. intros Hc.
  destruct (Hr3 Hc) as [Htot Hent].
  replace (Z.to_nat (i + 1)) with (S (Z.to_nat i)) in Htot, Hent by lia.
  rewrite (drop_S _ _ _ He). split; [cbn; lia|].
  intros [|j] e' Hj Hl; cbn in Hl; [|apply (Hent j e'); [lia|done]]. simplify_eq.
  split; [done|]. intros ->. cbn in Hx. lia.
Qed.

Lemma map_validate_safe w map count bForTx :
  wf w → 0 <= count → (Z.to_nat count <= length map)%nat →
  safe (map_validate w map count bForTx) (validate_post w bForTx map (Z.to_nat count) 0).
Proof. intros. by apply (map_validate_loop_safe w map bForTx _ 0 0); cbn; try lia. Qed.

Lemma map_ok_of_entries bForTx map count :
  length map = 8%nat → 0 <= count <= 8 → map_total map (Z.to_nat count) <= 64 →
  entries_ok bForTx map (Z.to_nat count) → map_ok map count.
Proof. intros ? ? ? He. split; try done. intros i e ? ?. by apply (He i e). Qed.

Lemma map_ok_zero map : length map = 8%nat → map_ok map 0.
Proof. intros. split; [done|lia|cbn; intros; lia|by destruct map]. Qed.

(** ** Writing the object dictionary *)

Definition write_post w (r : world A * Z) : Prop :=
  wf r.1 ∧ keeps w r.1 ∧ w_wire r.1 = w_wire w.

Lemma write_refused w code : wf w → write_post w (w, code).
Proof. intros. split; [done|]. by split. Qed.

Lemma tpdo_put_safe w n p :
  wf w → 0 <= n < 4 → tpdo_wf p →
  safe (tpdo_put w n p) (λ w', wf w' ∧ keeps w w' ∧ w_wire w' = w_wire w ∧ w_app w' = w_app w
    ∧ n_tpdo (w_node w') = <[Z.to_nat n := p]> (n_tpdo (w_node w))
    ∧ n_rpdo (w_node w') = n_rpdo (w_node w)).
Proof.
  intros [[Hl Hf] Hr Hs] Hn Hp. unfold tpdo_put.
  eapply safe_bind; [apply safe_array_set; lia|]. intros l ->. split_and!; try done.
  split; cbn; [|done..]. split; [by rewrite length_insert|by apply Forall_insert].
Qed.

Lemma rpdo_put_safe w n p :
  wf w → 0 <= n < 2 → rpdo_wf p →
  safe (rpdo_put w n p) (λ w', wf w' ∧ keeps w w' ∧ w_wire w' = w_wire w ∧ w_app w' = w_app w
    ∧ n_rpdo (w_node w') = <[Z.to_nat n := p]> (n_rpdo (w_node w))
    ∧ n_tpdo (w_node w') = n_tpdo (w_node w)).
Proof.
  intros [Ht [Hl Hf] Hs] Hn Hp. unfold rpdo_put.
  eapply safe_bind; [apply safe_array_set; lia|]. intros l ->. split_and!; try done.
  split; cbn; [done| |done]. split; [by rewrite length_insert|by apply Forall_insert].
Qed.

(** A parameter set stored after a successful write. *)
Lemma tpdo_store w0 w n p :
  wf w → keeps w0 w → w_wire w = w_wire w0 → 0 <= n < 4 → tpdo_wf p →
  safe (w' ← tpdo_put w n p; Ok (w', 0)) (write_post w0).
Proof.
  intros Hw Hk Hwi Hn Hp. eapply safe_bind; [by apply tpdo_put_safe|].
  intros w' (? & ? & ? & _). split_and!; cbn; [done|by etrans|congruence].
Qed.

Lemma rpdo_store w0 w n p :
  wf w → keeps w0 w → w_wire w = w_wire w0 → 0 <= n < 2 → rpdo_wf p →
  safe (w' ← rpdo_put w n p; Ok (w', 0)) (write_post w0).
Proof.
  intros Hw Hk Hwi Hn Hp. eapply safe_bind; [by apply rpdo_put_safe|].
  intros w' (? & ? & ? & _). split_and!; cbn; [done|by etrans|congruence].
Qed.

Lemma keeps_node w1 w2 : w_node w2 = w_node w1 → keeps w1 w2.
Proof. intros E. apply core_keeps. by rewrite E. Qed.

Lemma rpdo_comm_write_safe w n sub buf :
  wf w → 0 <= n < 2 → safe (rpdo_comm_write w n sub buf) (write_post w).
Proof.
  intros Hw Hn. unfold rpdo_comm_write.
  eapply safe_bind; [by apply safe_rpdo_get|]. intros p [_ Hp].
  repeat (case_match; try (by apply write_refused)); cbn zeta;
    repeat (case_match; try (by apply write_refused));
    by apply rpdo_store; try done; destruct Hp; split.
Qed.

Lemma tpdo_comm_write_safe w n sub buf :
  wf w → 0 <= n < 4 → safe (tpdo_comm_write w n sub buf) (write_post w).
Proof.
  intros Hw Hn. unfold tpdo_comm_write.
  eapply safe_bind; [by apply safe_tpdo_get|]. intros p [_ Hp].
  repeat (case_match; try (by apply write_refused)); cbn zeta;
    repeat (case_match; try (by apply write_refused));
    by apply tpdo_store; try done; destruct Hp; split.
Qed.

Lemma byte_at_u8 buf i : Forall is_u8 buf → is_u8 (byte_at buf i).
Proof.
  intros Hf. unfold byte_at. destruct (buf !! i) eqn:E; cbn; [|done].
  by apply (Forall_lookup_1 _ _ _ _ Hf E).
Qed.

Lemma rpdo_map_write_safe w n sub buf :
  wf w → 0 <= n < 2 → 0 <= sub → Forall is_u8 buf →
  safe (rpdo_map_write w n sub buf) (write_post w).
Proof.
  intros Hw Hn Hs Hb. unfold rpdo_map_write, CO_PDO_MAP_MAX.
  pose proof (byte_at_u8 buf 0 Hb) as Hu. unfold is_u8 in Hu.
  eapply safe_bind; [by apply safe_rpdo_get|]. intros p [_ Hp].
  destruct (Z.eqb_spec sub 0).
  - destruct (negb _); [by apply write_refused|]. case_bool; [by apply write_refused|].
    pose proof (mo_len _ _ (rw_map _ Hp)) as Hlen.
    eapply safe_bind; [apply map_validate_safe; [done|lia|lia]|].
    intros [w1 code] (H1 & H2 & H3). cbn in H1, H2, H3.
    assert (wf w1) as Hw1 by (unfold wf; by rewrite H1).
    destruct (Z.eqb_spec code 0) as [->|]; cbn; [|split_and!; [done|by apply keeps_node|done]].
    destruct (H3 eq_refl) as [Ht He].
    apply rpdo_store; [done|by apply keeps_node|done|done|].
    split; cbn; [by apply (map_ok_of_entries false); [..|lia| |]|
      intros i x ? ?; by apply (He i x)|apply Hp..].
  - case_bool; [by apply write_refused|]. destruct (negb _); [by apply write_refused|].
    destruct (Z.eqb_spec (r_map_count p) 0) as [Hz|]; cbn; [|by apply write_refused].
    pose proof (mo_len _ _ (rw_map _ Hp)) as Hlen.
    eapply safe_bind; [apply safe_array_set; lia|]. intros m ->.
    apply rpdo_store; try done. split; cbn; rewrite ?Hz; try apply Hp.
    + apply map_ok_zero. by rewrite length_insert.
    + cbn. intros. lia.
Qed.

Lemma tpdo_map_write_safe w n sub buf :
  wf w → 0 <= n < 4 → 0 <= sub → Forall is_u8 buf →
  safe (tpdo_map_write w n sub buf) (write_post w).
Proof.
  intros Hw Hn Hs Hb. unfold tpdo_map_write, CO_PDO_MAP_MAX.
  pose proof (byte_at_u8 buf 0 Hb) as Hu. unfold is_u8 in Hu.
  eapply safe_bind; [by apply safe_tpdo_get|]. intros p [_ Hp].
  destruct (Z.eqb_spec sub 0).
  - destruct (negb _); [by apply write_refused|]. case_bool; [by apply write_refused|].
    pose proof (mo_len _ _ (tw_map _ Hp)) as Hlen.
    eapply safe_bind; [apply map_validate_safe; [done|lia|lia]|].
    intros [w1 code] (H1 & H2 & H3). cbn in H1, H2, H3.
    assert (wf w1) as Hw1 by (unfold wf; by rewrite H1).
    destruct (Z.eqb_spec code 0) as [->|]; cbn; [|split_and!; [done|by apply keeps_node|done]].
    destruct (H3 eq_refl) as [Ht He].
    apply tpdo_store; [done|by apply keeps_node|done|done|].
    split; cbn; [by apply (map_ok_of_entries true); [..|lia| |]|apply Hp].
  - case_bool; [by apply write_refused|]. destruct (negb _); [by apply write_refused|].
    destruct (Z.eqb_spec (t_map_count p) 0) as [Hz|]; cbn; [|by apply write_refused].
    pose proof (mo_len _ _ (tw_map _ Hp)) as Hlen.
    eapply safe_bind; [apply safe_array_set; lia|]. intros m ->.
    apply tpdo_store; try done. split; cbn; rewrite ?Hz; try apply Hp.
    apply map_ok_zero. by rewrite length_insert.
Qed.

Lemma od_internal_write_safe w index sub buf :
  wf w → 0 <= sub → Forall is_u8 buf →
  safe (od_internal_write w index sub buf) (write_post w).
Proof.
  intros Hw Hs Hb. unfold od_internal_write.
  destruct (index =? 0x1017).
  { repeat (case_match; try (by apply write_refused)). split_and!; try done. by destruct Hw; split. }
  destruct (read_only_index index); [by apply write_refused|].
  destruct (in_block 0x1400 _ _) eqn:E1; [apply in_block_spec in E1; by apply rpdo_comm_write_safe|].
  destruct (in_block 0x1600 _ _) eqn:E2; [apply in_block_spec in E2; by apply rpdo_map_write_safe|].
  destruct (in_block 0x1800 _ _) eqn:E3; [apply in_block_spec in E3; by apply tpdo_comm_write_safe|].
  destruct (in_block 0x1A00 _ _) eqn:E4; [apply in_block_spec in E4; by apply tpdo_map_write_safe|].
  by apply write_refused.
Qed.

(** A write to an application object does not touch the node. *)
Lemma od_write_app w index sub buf :
  is_internal_index index = false →
  safe (od_write w index sub buf) (λ r, w_node r.1 = w_node w ∧ w_wire r.1 = w_wire w).
Proof.
  intros Hi. unfold od_write. rewrite Hi. destruct app_od_write as [wr|]; [|done].
  by destruct (wr _ _ _ _).
Qed.

Lemma od_write_safe w index sub buf :
  wf w → 0 <= sub → Forall is_u8 buf → safe (od_write w index sub buf) (write_post w).
Proof.
  intros Hw Hs Hb. destruct (is_internal_index index) eqn:Hi.
  - unfold od_write. rewrite Hi. by apply od_internal_write_safe.
  - eapply safe_mono; [by apply od_write_app|]. intros r [Hn Hwi].
    split_and!; [unfold wf; by rewrite Hn|by apply keeps_node|done].
Qed.

End inv.
