(* ===== verification/CoSafety.v ===== *)
(** * CANopen node: every operation is safe

    Memory safety and preservation of the invariant for the PDO engine, the
    SDO server and the public API, the functional behaviour of an RPDO, and
    NMT gating. *)

From S2P Require Import Prelude CoTypes CoOd CoPdo CoSdo CoNode CoInv.

Section safety.
Context {A : Type} `{HA : CoApp A} `{!CoAppLaws A}.
Implicit Types w : world A.

(** ** TPDOs *)

Definition build_post w (r : world A * option (list Z)) : Prop :=
  w_node r.1 = w_node w ∧ w_wire r.1 = w_wire w
  ∧ ∀ d, r.2 = Some d → Z.of_nat (length d) <= 8.

Lemma tpdo_build_loop_safe w p n i data :
  wf w → 0 <= i → (Z.to_nat i + n <= length (t_map p))%nat → Z.of_nat (length data) <= 8 →
  safe (tpdo_build_loop w p n i data) (build_post w).
Proof.
  revert w i data. induction n as [|n IH]; intros w i data Hw Hi Hn Hd.
  { split_and!; try done. cbn. by intros d [= <-]. }
  cbn [tpdo_build_loop]. eapply safe_bind; [apply safe_array_get; lia|]. intros e _.
  eapply safe_bind; [apply od_read_safe; [done|apply u8_range]|].
  intros [w1 [abort bytes]] (H1 & H2 & _). cbn in H1, H2.
  destruct (_ || _) eqn:E; [by split_and!|].
  apply orb_false_iff in E as [[_ E1%negb_false_iff]%orb_false_iff E2].
  eapply safe_mono; [apply IH; [unfold wf; by rewrite H1|lia|lia|rewrite length_app; lia]|].
  intros r (? & ? & ?). split_and!; congruence || done.
Qed.

Lemma tpdo_build_safe w p : wf w → tpdo_wf p → safe (tpdo_build w p) (build_post w).
Proof.
  intros Hw [[Hl Hc _ _] _]. apply tpdo_build_loop_safe; [done|lia| |cbn; lia]. lia.
Qed.

Definition pdo_post w w' : Prop := wf w' ∧ keeps w w'.

Lemma pdo_post_refl w : wf w → pdo_post w w.
Proof. by split. Qed.

Lemma pdo_post_trans w1 w2 w3 : pdo_post w1 w2 → pdo_post w2 w3 → pdo_post w1 w3.
Proof. intros [_ ?] [? ?]. split; [done|by etrans]. Qed.

Lemma pdo_post_core w1 w2 : wf w1 → core_of (w_node w2) = core_of (w_node w1) → pdo_post w1 w2.
Proof. intros Hw Hc. split; [by eapply wf_core|by apply core_keeps]. Qed.

Lemma pdo_post_node w1 w2 : wf w1 → w_node w2 = w_node w1 → pdo_post w1 w2.
Proof. intros Hw Hc. apply pdo_post_core; [done|by rewrite Hc]. Qed.

Lemma tpdo_send_safe w n : wf w → 0 <= n < 4 → safe (tpdo_send w n) (pdo_post w).
Proof.
  intros Hw Hn. unfold tpdo_send.
  eapply safe_bind; [by apply safe_tpdo_get|]. intros p [_ Hp].
  eapply safe_bind; [by apply tpdo_build_safe|]. intros [w1 o] (H1 & _ & Ho). cbn in H1, Ho.
  destruct o as [d|]; [|by apply pdo_post_node].
  specialize (Ho d eq_refl).
  pose proof (tx_core w1 (Z.land (t_cob_id p) 0x7FF) d) as Hc.
  destruct (tx _ _ _) as [ok w2]; cbn in Hc. rewrite H1 in Hc.
  destruct ok; [|by apply pdo_post_core].
  assert (pdo_post w (stat st_pdo_tx w2)) as Hst
    by (apply pdo_post_core; [done|by rewrite <- Hc; apply stat_core]).
  destruct Hp as [Hmap Hlast].
  eapply safe_bind; [apply safe_array_write; lia|]. intros l [_ Hl].
  eapply safe_mono; [apply (tpdo_put_safe (stat st_pdo_tx w2)); [apply Hst|done|]|].
  - split; cbn; [done|lia].
  - intros w' (? & ? & _). by eapply pdo_post_trans, conj.
Qed.

Lemma tpdo_changed_safe w n :
  wf w → 0 <= n < 4 → safe (tpdo_changed w n) (λ r, w_node r.1 = w_node w).
Proof.
  intros Hw Hn. unfold tpdo_changed.
  eapply safe_bind; [by apply safe_tpdo_get|]. intros p [_ Hp].
  eapply safe_bind; [by apply tpdo_build_safe|]. intros [w1 o] (H1 & _ & Ho). cbn in H1, Ho.
  destruct o as [d|]; [|done]. specialize (Ho d eq_refl).
  destruct (_ || _); [done|]. destruct Hp as [_ Hlast].
  eapply safe_bind; [apply safe_array_read; lia|]. done.
Qed.

Lemma tpdo_on_change_safe w n :
  wf w → 0 <= n < 4 →
  safe (wc ← tpdo_changed w n; let '(w', c) := wc in if c : bool then tpdo_send w' n else Ok w')
    (pdo_post w).
Proof.
  intros Hw Hn. eapply safe_bind; [by apply tpdo_changed_safe|].
  intros [w1 c] H1. cbn in H1. pose proof (pdo_post_node w w1 Hw H1) as Hp.
  destruct c; [|done]. eapply safe_mono; [apply tpdo_send_safe; [apply Hp|done]|].
  intros. by eapply pdo_post_trans.
Qed.

Lemma for_each_safe step n i w :
  (∀ w j, wf w → i <= j < i + Z.of_nat n → safe (step w j) (pdo_post w)) →
  wf w → safe (for_each step n i w) (pdo_post w).
Proof.
  revert i w. induction n as [|n IH]; intros i w Hs Hw; [by apply pdo_post_refl|].
  cbn [for_each]. eapply safe_bind; [apply Hs; [done|lia]|]. intros w1 H1.
  eapply safe_mono; [apply IH; [intros; apply Hs; [done|lia]|apply H1]|].
  intros. by eapply pdo_post_trans.
Qed.

Lemma tpdo_tick_safe w : wf w → safe (tpdo_tick w) (pdo_post w).
Proof.
  intros Hw. unfold tpdo_tick. case_decide; [|by apply pdo_post_refl].
  apply for_each_safe; [|done]. intros w1 j Hw1 Hj. unfold CO_TPDO_COUNT in Hj.
  unfold tpdo_tick_one. eapply safe_bind; [apply safe_tpdo_get; [done|lia]|]. intros p _.
  destruct (negb _ || _); [by apply pdo_post_refl|].
  destruct (t_have_last p && _); [by apply pdo_post_refl|].
  destruct (_ && _); [apply tpdo_send_safe|apply tpdo_on_change_safe]; done || lia.
Qed.

(** ** RPDOs *)

(** The bytes the first [n] entries of a mapping take. *)
Fixpoint need_bytes (map : list Z) (n : nat) : Z :=
  match n, map with
  | S n', e :: map' => map_bits e / 8 + need_bytes map' n'
  | _, _ => 0
  end.

Lemma map_bytes_range e : 0 <= map_bits e / 8 < 32.
Proof. pose proof (u8_range e). unfold map_bits. cint. Qed.

Lemma need_bytes_nonneg map n : 0 <= need_bytes map n.
Proof.
  revert map. induction n as [|n IH]; intros [|e map]; cbn [need_bytes]; try lia.
  pose proof (map_bytes_range e). specialize (IH map). lia.
Qed.

Lemma rpdo_need_eq map n i :
  0 <= i → (Z.to_nat i + n <= length map)%nat →
  rpdo_need map n i = Ok (need_bytes (drop (Z.to_nat i) map) n).
Proof.
  revert i. induction n as [|n IH]; intros i Hi Hn.
  { by destruct (drop _ _). }
  cbn [rpdo_need]. destruct (lookup_lt_is_Some_2 map (Z.to_nat i) ltac:(lia)) as [e He].
  rewrite (array_get_ok _ _ e) by done. cbn. rewrite IH by lia. cbn.
  rewrite (drop_S _ _ _ He). cbn. by replace (Z.to_nat (i + 1)) with (S (Z.to_nat i)) by lia.
Qed.

(** One write to an application object, and the writes of a whole RPDO. *)
Definition app_write (a : A) (index sub : Z) (bytes : list Z) : A :=
  match app_od_write with Some wr => (wr a index sub bytes).1 | None => a end.

Fixpoint rpdo_writes (map : list Z) (n : nat) (data : list Z) (a : A) {struct n} : A :=
  match n, map with
  | S n', e :: map' =>
      let cnt := Z.to_nat (map_bits e / 8) in
      rpdo_writes map' n' (drop cnt data)
        (app_write a (map_index e) (map_sub e) (take cnt data))
  | _, _ => a
  end.

Lemma od_write_app_eq w index sub buf :
  0x2000 <= index →
  ∃ code, od_write w index sub buf
          = Ok (w <| w_app := app_write (w_app w) index sub buf |>, code).
Proof.
  intros Hi. unfold od_write, app_write, is_internal_index.
  replace (index <? 0x2000) with false by lia. rewrite andb_false_r.
  destruct app_od_write as [wr|]; [|exists CO_ABORT_NO_OBJECT; by destruct w].
  destruct (wr _ _ _ _) as [a code]. by exists code.
Qed.

Lemma rpdo_write_loop_eq w n p data fuel i pos :
  n_rpdo (w_node w) !! Z.to_nat n = Some p → 0 <= n → rpdo_wf p →
  0 <= i <= r_map_count p → (Z.to_nat (r_map_count p - i) <= fuel)%nat → 0 <= pos →
  pos + need_bytes (drop (Z.to_nat i) (r_map p)) (Z.to_nat (r_map_count p - i))
    <= Z.of_nat (length data) →
  rpdo_write_loop w n data fuel i pos
  = Ok (w <| w_app := rpdo_writes (drop (Z.to_nat i) (r_map p)) (Z.to_nat (r_map_count p - i))
                        (drop (Z.to_nat pos) data) (w_app w) |>).
Proof.
  revert w i pos. induction fuel as [|fuel IH]; intros w i pos Hl Hn Hp Hi Hf Hpos Hlen;
    cbn [rpdo_write_loop]; rewrite (array_get_ok _ _ p) by done; cbn [mbind res_bind];
    destruct (Z.ltb_spec i (r_map_count p)) as [Hlt|Hge].
  1: lia.
  1,3: replace (Z.to_nat (r_map_count p - i)) with 0%nat by lia; by destruct w.
  destruct (lookup_lt_is_Some_2 (r_map p) (Z.to_nat i)) as [e He];
    [rewrite (mo_len _ _ (rw_map _ Hp)); pose proof (mo_count _ _ (rw_map _ Hp)); lia|].
  replace (Z.to_nat (r_map_count p - i)) with (S (Z.to_nat (r_map_count p - (i + 1)))) in * by lia.
  rewrite (drop_S _ _ _ He) in *. cbn [need_bytes] in Hlen.
  replace (S (Z.to_nat i)) with (Z.to_nat (i + 1)) in * by lia.
  pose proof (map_bytes_range e) as Hb.
  pose proof (need_bytes_nonneg (drop (Z.to_nat (i + 1)) (r_map p)) (Z.to_nat (r_map_count p - (i + 1)))).
  rewrite (array_get_ok _ _ e) by (lia || done). cbn [mbind res_bind].
  rewrite array_read_ok by lia. cbn [mbind res_bind].
  destruct (od_write_app_eq w (map_index e) (map_sub e)
    (take (Z.to_nat (map_bits e / 8)) (drop (Z.to_nat pos) data))) as [code ->];
    [apply (rw_app _ Hp (Z.to_nat i)); [lia|done]|].
  cbn [mbind res_bind fst]. rewrite IH; try done; try lia. cbn [rpdo_writes].
  rewrite drop_drop.
  by replace (Z.to_nat pos + Z.to_nat (map_bits e / 8))%nat
    with (Z.to_nat (pos + map_bits e / 8)) by lia.
Qed.

Lemma rpdo_apply_eq w n p data len :
  wf w → n_rpdo (w_node w) !! Z.to_nat n = Some p → 0 <= n → rpdo_wf p →
  length data = 8%nat → 0 <= len <= 8 →
  rpdo_apply w n data len
  = Ok (if len <? need_bytes (r_map p) (Z.to_nat (r_map_count p))
        then co_emcy w 0x8210 CO_ERR_GENERIC (Some (replicate 5 0))
        else stat st_pdo_rx
          (w <| w_app := rpdo_writes (r_map p) (Z.to_nat (r_map_count p)) data (w_app w) |>)).
Proof.
  intros Hw Hl Hn Hp Hd Hlen. unfold rpdo_apply. rewrite (array_get_ok _ _ p) by done.
  cbn [mbind res_bind].
  pose proof (mo_count _ _ (rw_map _ Hp)). pose proof (mo_len _ _ (rw_map _ Hp)).
  rewrite rpdo_need_eq by lia. cbn [mbind res_bind].
  change (drop (Z.to_nat 0) (r_map p)) with (r_map p). case_bool; [done|].
  rewrite (rpdo_write_loop_eq w n p); rewrite ?Z.sub_0_r; try done; try lia;
    [unfold CO_PDO_MAP_MAX; lia|]. change (drop (Z.to_nat 0) (r_map p)) with (r_map p). lia.
Qed.

Lemma rpdo_apply_safe w n data len :
  wf w → 0 <= n < 2 → length data = 8%nat → 0 <= len <= 8 →
  safe (rpdo_apply w n data len) (pdo_post w).
Proof.
  intros Hw Hn Hd Hlen.
  pose proof (safe_rpdo_get (w_node w) n Hw Hn) as (p & _ & Hl & Hp)%safe_ok.
  rewrite (rpdo_apply_eq w n p) by (done || lia). cbn [safe]. case_bool.
  - apply pdo_post_core; [done|apply co_emcy_core].
  - by apply pdo_post_core.
Qed.

(** ** SYNC and received PDOs *)

Lemma sync_rx_safe w : wf w → safe (sync_rx w) (pdo_post w).
Proof.
  intros Hw. unfold sync_rx. case_decide; [|by apply pdo_post_refl].
  eapply safe_bind.
  { apply for_each_safe; [|done]. intros w1 j Hw1 Hj. unfold CO_TPDO_COUNT in Hj.
    unfold sync_tpdo_one. eapply safe_bind; [apply safe_tpdo_get; [done|lia]|]. intros p [_ Hp].
    destruct (negb _ || _); [by apply pdo_post_refl|].
    destruct (_ =? 0); [apply tpdo_on_change_safe; done || lia|].
    eapply safe_bind; [apply tpdo_put_safe; [done|lia|by destruct Hp; split]|].
    intros w2 (Hw2 & Hk & _). case_match; [|by split].
    eapply safe_mono; [apply tpdo_send_safe; [done|lia]|].
    intros w3. by apply pdo_post_trans. }
  intros w1 H1. apply (safe_mono _ (pdo_post w1)); [|intros w4; by apply pdo_post_trans].
  apply for_each_safe; [|apply H1]. intros w2 j Hw2 Hj. unfold CO_RPDO_COUNT in Hj.
  unfold sync_rpdo_one. eapply safe_bind; [apply safe_rpdo_get; [done|lia]|]. intros p [_ Hp].
  destruct (r_pending p); [|by apply pdo_post_refl].
  eapply safe_bind; [apply rpdo_put_safe; [done|lia|by destruct Hp; split]|].
  intros w3 (? & ? & _). eapply safe_mono; [apply rpdo_apply_safe; [done|lia|apply Hp..]|].
  intros w4. by apply pdo_post_trans.
Qed.

Lemma rtr_loop_safe w f n i :
  wf w → 0 <= i → i + Z.of_nat n <= 4 → safe (rtr_loop w f n i) (λ r, pdo_post w r.1).
Proof.
  revert i. induction n as [|n IH]; intros i Hw Hi Hn; [by apply pdo_post_refl|].
  cbn [rtr_loop]. eapply safe_bind; [apply safe_tpdo_get; [done|lia]|]. intros p _.
  destruct (_ && _); [|apply IH; done || lia].
  case_decide; [|by apply pdo_post_refl].
  eapply safe_bind; [apply tpdo_send_safe; [done|lia]|]. done.
Qed.

Lemma rpdo_loop_safe w f n i :
  wf w → frame_wf f → 0 <= i → i + Z.of_nat n <= 2 →
  safe (rpdo_loop w f n i) (λ r, pdo_post w r.1).
Proof.
  intros Hw [Hdlc Hdata _]. revert i. induction n as [|n IH]; intros i Hi Hn; [by apply pdo_post_refl|].
  cbn [rpdo_loop]. eapply safe_bind; [apply safe_rpdo_get; [done|lia]|]. intros p [_ Hp].
  destruct (_ || _); [apply IH; lia|]. case_decide; [by apply pdo_post_refl|].
  destruct (_ <=? 240).
  - eapply safe_bind; [apply safe_array_read; lia|]. intros d [_ Hd].
    eapply safe_bind; [apply rpdo_put_safe; [done|lia|]|].
    + destruct Hp. split; cbn; [done|done|lia|lia].
    + intros w1 (? & ? & _). by split.
  - eapply safe_bind; [apply rpdo_apply_safe; [done|lia|done|done]|]. done.
Qed.

Lemma pdo_rx_safe w f : wf w → frame_wf f → safe (pdo_rx w f) (λ r, pdo_post w r.1).
Proof.
  intros Hw Hf. unfold pdo_rx.
  destruct (f_rtr f); [apply rtr_loop_safe|apply rpdo_loop_safe]; done.
Qed.

(** ** SDO server *)

Definition sdo_post w w' : Prop := wf w' ∧ n_nmt (w_node w') = n_nmt (w_node w).

Lemma sdo_put_wf w s : wf w → sdo_wf s → wf (sdo_put w s).
Proof. by intros [] ?; split. Qed.

Lemma sdo_reply_core w d : core_of (w_node (sdo_reply w d)) = core_of (w_node w).
Proof. apply tx_core. Qed.

Lemma sdo_reply_post w0 w d : sdo_post w0 w → sdo_post w0 (sdo_reply w d).
Proof.
  intros [Hw Hn]. pose proof (sdo_reply_core w d) as Hc.
  split; [by apply (wf_core w)|]. unfold core_of in Hc. congruence.
Qed.

Lemma sdo_idle_wf s : sdo_wf s → sdo_wf (s <| sdo_state := SDO_IDLE |>).
Proof. intros []. by split. Qed.

(** An abort closes the transfer, whatever was going on. *)
Lemma sdo_abort_core w index sub code :
  core_of (w_node (sdo_abort w index sub code))
  = core_of (w_node (sdo_put w ((sdo w) <| sdo_state := SDO_IDLE |>))).
Proof.
  unfold sdo_abort.
  pose proof (sdo_reply_core w ([0x80] ++ co_put_u16 index ++ [sub] ++ co_put_u32 code)) as Hc.
  revert Hc. generalize (sdo_reply w ([0x80] ++ co_put_u16 index ++ [sub] ++ co_put_u32 code)).
  intros w1. unfold core_of, sdo. cbn. intros [= E1 E2 E3 E4 E5 E6].
  by rewrite E1, E2, E3, E4, E5, E6.
Qed.

Lemma sdo_abort_closes w0 w index sub code :
  wf (sdo_put w ((sdo w) <| sdo_state := SDO_IDLE |>)) →
  n_nmt (w_node w) = n_nmt (w_node w0) → sdo_post w0 (sdo_abort w index sub code).
Proof.
  intros Hw Hn. pose proof (sdo_abort_core w index sub code) as Hc.
  split; [by apply (wf_core (sdo_put w ((sdo w) <| sdo_state := SDO_IDLE |>)))|].
  by rewrite (core_nmt _ _ Hc).
Qed.

Lemma sdo_abort_post w0 w index sub code : sdo_post w0 w → sdo_post w0 (sdo_abort w index sub code).
Proof.
  intros [Hw Hn]. apply sdo_abort_closes; [|done]. apply sdo_put_wf; [done|apply sdo_idle_wf, Hw].
Qed.

Lemma sdo_post_put w s : wf w → sdo_wf s → sdo_post w (sdo_put w s).
Proof. intros. split; [by apply sdo_put_wf|done]. Qed.

Lemma sdo_post_node w w' : wf w → w_node w' = w_node w → sdo_post w w'.
Proof. intros Hw E. split; [unfold wf; by rewrite E|by rewrite E]. Qed.

Lemma sdo_upload_initiate_safe w index sub :
  wf w → 0 <= sub → safe (sdo_upload_initiate w index sub) (sdo_post w).
Proof.
  intros Hw Hs. unfold sdo_upload_initiate.
  eapply safe_bind; [by apply od_read_safe|]. intros [w1 [abort bytes]] (H1 & _ & Hlen).
  cbn in H1, Hlen. assert (wf w1) as Hw1 by (unfold wf; by rewrite H1).
  pose proof (nw_sdo _ Hw1) as [Hbuf Hup Hdn]. unfold sdo.
  eapply safe_bind; [apply safe_array_write; lia|]. intros buf [_ Hb].
  assert (sdo_wf ((n_sdo (w_node w1)) <| sdo_buf := buf |> <| sdo_state := SDO_IDLE |>)) as Hs1
    by (split; cbn; [lia|done..]).
  destruct (negb (abort =? 0)).
  { apply sdo_abort_closes; [by apply (sdo_put_wf w1)|cbn; by rewrite H1]. }
  case_bool.
  - eapply safe_bind; [apply safe_array_read; lia|]. intros d _. apply sdo_reply_post.
    split; [|cbn; by rewrite H1]. by apply (sdo_put_wf w1).
  - apply sdo_reply_post. split; [|cbn; by rewrite H1]. apply (sdo_put_wf w1); [done|].
    split; cbn; [lia|intros _; lia|done].
Qed.

Lemma sdo_upload_segment_safe w cmd : wf w → safe (sdo_upload_segment w cmd) (sdo_post w).
Proof.
  intros Hw. unfold sdo_upload_segment.
  assert (∀ i s c, sdo_post w (sdo_abort w i s c)) as Hab by (intros; by apply sdo_abort_post).
  destruct (decide (sdo_state (sdo w) ≠ SDO_UPLOAD_SEG)) as [|Hst]; [apply Hab|].
  destruct (negb _); [apply Hab|].
  apply dec_stable in Hst. pose proof (nw_sdo _ Hw) as [Hbuf Hup Hdn]. fold (sdo w) in *.
  destruct (Hup Hst) as [Hpos Hlen].
  assert (u32 (sdo_len (sdo w) - sdo_pos (sdo w)) = sdo_len (sdo w) - sdo_pos (sdo w)) as ->
    by (apply u32_id; unfold is_u32; lia).
  set (n := if 7 <? _ then 7 else _).
  assert (0 <= n <= 7 ∧ sdo_pos (sdo w) + n <= sdo_len (sdo w)) as Hn by (subst n; case_bool; lia).
  eapply safe_bind; [apply safe_array_read; lia|]. intros d _. apply sdo_reply_post.
  apply sdo_post_put; [done|]. case_match; split; cbn; try done; intros; lia || congruence.
Qed.

Lemma land_3_range z : 0 <= Z.land z 3 <= 3.
Proof. change 3 with (Z.ones 2) at 1 2. rewrite Z.land_ones by lia. cint. Qed.

Lemma land_7_range z : 0 <= Z.land z 7 <= 7.
Proof. change 7 with (Z.ones 3) at 1 2. rewrite Z.land_ones by lia. cint. Qed.

Lemma Forall_take_drop {B} (P : B → Prop) l i n : Forall P l → Forall P (take n (drop i l)).
Proof. intros. by apply Forall_take, Forall_drop. Qed.

Lemma co_get_u32_nonneg p : Forall is_u8 p → 0 <= co_get_u32 p.
Proof.
  intros Hf. unfold co_get_u32.
  pose proof (byte_at_u8 p 0 Hf). pose proof (byte_at_u8 p 1 Hf).
  pose proof (byte_at_u8 p 2 Hf). pose proof (byte_at_u8 p 3 Hf). unfold is_u8 in *.
  rewrite !Z.lor_nonneg. rewrite !Z.shiftl_nonneg. lia.
Qed.

Lemma sdo_download_initiate_safe w cmd index sub payload :
  wf w → 0 <= sub → length payload = 4%nat → Forall is_u8 payload →
  safe (sdo_download_initiate w cmd index sub payload) (sdo_post w).
Proof.
  intros Hw Hs Hl Hf. unfold sdo_download_initiate. destruct (negb (Z.land cmd 2 =? 0)).
  - set (len := if negb _ then _ else _).
    assert (0 <= len <= 4) as Hlen
      by (subst len; pose proof (land_3_range (Z.shiftr cmd 2)); case_match; lia).
    eapply safe_bind; [apply safe_array_read; lia|]. intros d [-> _].
    eapply safe_bind; [apply od_write_safe; [done|done|by apply Forall_take_drop]|].
    intros [w1 abort] (Hw1 & Hk & _). cbn in Hw1, Hk.
    assert (sdo_post w w1) as Hp by (split; [done|apply Hk]).
    destruct (negb (abort =? 0)); [by apply sdo_abort_post|].
    apply sdo_reply_post. split; [|apply Hp]. apply sdo_put_wf; [done|apply sdo_idle_wf, Hw1].
  - set (expected := if negb _ then _ else _).
    assert (0 <= expected) by (subst expected; pose proof (co_get_u32_nonneg payload Hf); case_match; lia).
    unfold CO_SDO_BUF_SIZE. case_bool; [by apply sdo_abort_post|].
    apply sdo_reply_post, sdo_post_put; [done|]. pose proof (nw_sdo _ Hw) as [].
    split; cbn; [done|done|intros _; split_and!; try lia; try done; constructor].
Qed.

Lemma sdo_download_segment_safe w cmd payload :
  wf w → length payload = 7%nat → Forall is_u8 payload →
  safe (sdo_download_segment w cmd payload) (sdo_post w).
Proof.
  intros Hw Hl Hf. unfold sdo_download_segment.
  assert (∀ i s c, sdo_post w (sdo_abort w i s c)) as Hab by (intros; by apply sdo_abort_post).
  destruct (decide (sdo_state (sdo w) ≠ SDO_DOWNLOAD_SEG)) as [|Hst]; [apply Hab|].
  destruct (negb _); [apply Hab|]. apply dec_stable in Hst.
  pose proof (nw_sdo _ Hw) as [Hbuf Hup Hdn]. fold (sdo w) in *.
  destruct (Hdn Hst) as (Hpos & Hlen & Hsub & Hby).
  pose proof (land_7_range (Z.shiftr cmd 1)) as Hn.
  unfold CO_SDO_BUF_SIZE. case_bool; [apply Hab|].
  eapply safe_bind; [apply safe_array_read; lia|]. intros c [Ec Hc].
  assert (Forall is_u8 c) as Hfc by (rewrite Ec; by apply Forall_take_drop). clear Ec.
  eapply safe_bind; [apply safe_array_write; lia|]. intros buf [Eb Hb].
  set (n := 7 - Z.land (Z.shiftr cmd 1) 7) in *.
  assert (Forall is_u8 (take (Z.to_nat (sdo_pos (sdo w) + n)) buf)) as Hfb.
  { replace (Z.to_nat (sdo_pos (sdo w) + n)) with (Z.to_nat (sdo_pos (sdo w)) + length c)%nat by lia.
    rewrite Eb, take_inserts by lia. by apply Forall_app. }
  set (s := (sdo w) <| sdo_buf := buf |> <| sdo_pos := _ |> <| sdo_last_ms := _ |> <| sdo_toggle := _ |>).
  assert (sdo_post w (sdo_put w s)) as Hp.
  { apply sdo_post_put; [done|]. split; cbn; [lia|congruence|]. intros _. split_and!; try done; lia. }
  destruct (negb (Z.land cmd 1 =? 0)); [|by apply sdo_reply_post].
  destruct (_ && _); [by apply sdo_abort_post|].
  eapply safe_bind; [apply safe_array_read; subst s; cbn; lia|]. intros d [-> _].
  eapply safe_bind; [apply od_write_safe; [apply Hp|done|done]|].
  intros [w1 abort] (Hw1 & Hk & _). cbn in Hw1, Hk.
  assert (sdo_post w (sdo_put w1 ((sdo w1) <| sdo_state := SDO_IDLE |>))) as Hp1.
  { split; [apply sdo_put_wf; [done|apply sdo_idle_wf, Hw1]|apply Hk]. }
  destruct (negb (abort =? 0)); [by apply sdo_abort_post|by apply sdo_reply_post].
Qed.

Lemma frame_byte f i : frame_wf f → 0 <= i < 8 → safe (array_get (f_data f) i) is_u8.
Proof.
  intros [_ Hl Hb] Hi. eapply safe_mono; [apply safe_array_get; lia|].
  intros x Hx. by apply (Forall_lookup_1 _ _ _ _ Hb Hx).
Qed.

Lemma frame_bytes f i n :
  frame_wf f → 0 <= i → 0 <= n → i + n <= 8 →
  safe (array_read (f_data f) i n) (λ r, Z.of_nat (length r) = n ∧ Forall is_u8 r).
Proof.
  intros [_ Hl Hb] Hi Hn Hin. eapply safe_mono; [apply safe_array_read; lia|].
  intros r [-> ?]. split; [done|by apply Forall_take_drop].
Qed.

Lemma sdo_rx_safe w f : wf w → frame_wf f → safe (sdo_rx w f) (sdo_post w).
Proof.
  intros Hw Hf. unfold sdo_rx. destruct (_ || _); [by split|].
  assert (wf (stat st_sdo_requests w)) as Hw1 by (by apply (wf_core w)).
  assert (∀ m, safe m (sdo_post (stat st_sdo_requests w)) → safe m (sdo_post w)) as Hm
    by (intros m ?; eapply safe_mono; [done|]; by intros ? []).
  eapply safe_bind; [apply frame_byte; [done|lia]|]. intros cmd Hcmd.
  eapply safe_bind; [apply frame_bytes; done || lia|]. intros ib [Hib1 Hib2].
  eapply safe_bind; [apply frame_byte; [done|lia]|]. intros sub Hsub. unfold is_u8 in Hsub.
  destruct (_ =? 0).
  { eapply safe_bind; [apply (frame_bytes f 1 7); done || lia|]. intros p [? ?].
    apply Hm, sdo_download_segment_safe; done || lia. }
  destruct (_ =? 1).
  { eapply safe_bind; [apply (frame_bytes f 4 4); done || lia|]. intros p [? ?].
    apply Hm, sdo_download_initiate_safe; done || lia. }
  destruct (_ =? 2); [apply Hm, sdo_upload_initiate_safe; done || lia|].
  destruct (_ =? 3); [by apply Hm, sdo_upload_segment_safe|].
  destruct (_ =? 4).
  - split; [|done]. apply sdo_put_wf; [done|apply sdo_idle_wf, Hw1].
  - by apply sdo_abort_post.
Qed.

(** ** NMT and the public API *)

Lemma array_write_prefix (l m : list Z) :
  (length m <= length l)%nat → safe (array_write l 0 m)
    (λ r, length r = length l ∧ take (length m) r = m).
Proof.
  intros Hl. eapply safe_mono; [apply safe_array_write; lia|]. cbn. intros r [-> ?].
  split; [done|]. change (length m) with (0 + length m)%nat. rewrite take_inserts by lia. done.
Qed.

Lemma map_total_take m n : map_total m n = map_total (take n m) n.
Proof. revert m. induction n as [|n IH]; intros [|e m]; cbn; [done..|]. by rewrite <- IH. Qed.

(** A validated list of entries is admissible once copied into the 8 cells. *)
Lemma map_ok_copied bForTx m r :
  length r = 8%nat → take (length m) r = m → (length m <= 8)%nat →
  map_total m (Z.to_nat (Z.of_nat (length m))) <= 64 →
  entries_ok bForTx m (Z.to_nat (Z.of_nat (length m))) →
  map_ok r (Z.of_nat (length m)) ∧ entries_ok bForTx r (Z.to_nat (Z.of_nat (length m))).
Proof.
  intros Hr Hm Hlen. rewrite Nat2Z.id. intros Ht He.
  assert (entries_ok bForTx r (length m)) as Her.
  { intros j e Hj Hl. apply (He j e Hj). rewrite <- Hm, lookup_take_lt by lia. done. }
  split; [|done]. split; [done|lia|..]; rewrite ?Nat2Z.id.
  - intros i e ? ?. by apply (Her i e).
  - rewrite map_total_take, Hm. done.
Qed.

Lemma tpdo_configure_safe w n cob ty inh ev map :
  wf w → is_u8 n → safe (co_tpdo_configure w n cob ty inh ev map) (λ r, pdo_post w r.1).
Proof.
  intros Hw Hn. unfold co_tpdo_configure, CO_TPDO_COUNT, CO_PDO_MAP_MAX, is_u8 in *.
  destruct (_ || _) eqn:E; [by apply pdo_post_refl|]. apply orb_false_iff in E as [E1 E2].
  eapply safe_bind; [apply map_validate_safe; [done|lia|lia]|].
  intros [w1 abort] (H1 & _ & H3). cbn in H1, H3.
  assert (wf w1) as Hw1 by (unfold wf; by rewrite H1).
  destruct (Z.eqb_spec abort 0); cbn; [|by apply pdo_post_node].
  destruct (H3 e) as [Ht He].
  eapply safe_bind; [apply safe_tpdo_get; [done|lia]|]. intros p [_ Hp].
  pose proof (mo_len _ _ (tw_map _ Hp)).
  eapply safe_bind; [apply array_write_prefix; lia|]. intros m [Hm1 Hm2].
  eapply safe_bind; [apply tpdo_put_safe; [done|lia|]|].
  - destruct Hp. split; cbn; [|done]. apply (map_ok_copied true); done || lia.
  - intros w2 (? & Hk & _). split; [done|]. etrans; [by apply keeps_node|done].
Qed.

Lemma rpdo_configure_safe w n cob ty map :
  wf w → is_u8 n → safe (co_rpdo_configure w n cob ty map) (λ r, pdo_post w r.1).
Proof.
  intros Hw Hn. unfold co_rpdo_configure, CO_RPDO_COUNT, CO_PDO_MAP_MAX, is_u8 in *.
  destruct (_ || _) eqn:E; [by apply pdo_post_refl|]. apply orb_false_iff in E as [E1 E2].
  eapply safe_bind; [apply map_validate_safe; [done|lia|lia]|].
  intros [w1 abort] (H1 & _ & H3). cbn in H1, H3.
  assert (wf w1) as Hw1 by (unfold wf; by rewrite H1).
  destruct (Z.eqb_spec abort 0); cbn; [|by apply pdo_post_node].
  destruct (H3 e) as [Ht He].
  eapply safe_bind; [apply safe_rpdo_get; [done|lia]|]. intros p [_ Hp].
  pose proof (mo_len _ _ (rw_map _ Hp)).
  eapply safe_bind; [apply array_write_prefix; lia|]. intros m [Hm1 Hm2].
  destruct (map_ok_copied false map m) as [Hok Hent]; try done; try lia.
  eapply safe_bind; [apply rpdo_put_safe; [done|lia|]|].
  - destruct Hp. split; cbn; try done. intros i x ? ?. by apply (Hent i x).
  - intros w2 (? & Hk & _). split; [done|]. etrans; [by apply keeps_node|done].
Qed.

Definition conf_ok (c : co_conf) : Prop :=
  match c with ConfTpdo n _ _ _ _ _ | ConfRpdo n _ _ _ => is_u8 n | ConfError _ => True end.

Lemma error_set_post w bits : wf w → pdo_post w (error_set w bits).
Proof. intros Hw. split; [by destruct Hw; split|]. by split. Qed.

Lemma apply_conf_safe w cs : wf w → Forall conf_ok cs → safe (apply_conf w cs) (pdo_post w).
Proof.
  intros Hw Hcs. revert w Hw. induction Hcs as [|c cs Hc _ IH]; intros w Hw; [by apply pdo_post_refl|].
  destruct c; cbn [apply_conf].
  - eapply safe_bind; [by apply tpdo_configure_safe|]. intros r Hr.
    eapply safe_mono; [apply IH, Hr|]. intros w3. by apply pdo_post_trans.
  - eapply safe_bind; [by apply rpdo_configure_safe|]. intros r Hr.
    eapply safe_mono; [apply IH, Hr|]. intros w3. by apply pdo_post_trans.
  - pose proof (error_set_post w err_bits Hw) as He.
    eapply safe_mono; [apply IH, He|]. intros w3. by apply pdo_post_trans.
Qed.

Lemma tpdo_default_wf nid n : tpdo_wf (tpdo_default nid n).
Proof. split; [by apply map_ok_zero|done]. Qed.

Lemma rpdo_default_wf nid n : rpdo_wf (rpdo_default nid n).
Proof. split; [by apply map_ok_zero|cbn; intros; lia|done|cbn; lia]. Qed.

Lemma nmt_set_wf w s : wf w → wf (nmt_set w s).
Proof.
  intros Hw. unfold nmt_set. case_decide; [done|].
  destruct app_on_nmt_changed; by destruct Hw; split.
Qed.

(** Only the SDO buffer length is needed of the node before a reset. *)
Lemma node_reset_safe w b :
  length (sdo_buf (sdo w)) = 128%nat →
  safe (node_reset w b) (λ w', wf w' ∧ n_nmt (w_node w') = CO_NMT_PREOPERATIONAL
                              ∧ n_bootup_pending (w_node w') = true).
Proof.
  intros Hb. unfold node_reset. set (w1 := w <| w_node := _ |>).
  assert (wf w1) as Hw1.
  { split; cbn; [split; [done|]|split; [done|]|by split].
    - repeat apply Forall_cons_2; apply tpdo_default_wf || done.
    - repeat apply Forall_cons_2; apply rpdo_default_wf || done. }
  assert (∀ w2, pdo_post w1 w2 → wf (nmt_set (w2 <| w_node := (w_node w2)
      <| n_bootup_pending := true |> <| n_hb_last_ms := n_now_ms (w_node w2) |> |>) CO_NMT_PREOPERATIONAL)
    ∧ n_nmt (w_node (nmt_set (w2 <| w_node := (w_node w2) <| n_bootup_pending := true |>
      <| n_hb_last_ms := n_now_ms (w_node w2) |> |>) CO_NMT_PREOPERATIONAL)) = CO_NMT_PREOPERATIONAL
    ∧ n_bootup_pending (w_node (nmt_set (w2 <| w_node := (w_node w2) <| n_bootup_pending := true |>
      <| n_hb_last_ms := n_now_ms (w_node w2) |> |>) CO_NMT_PREOPERATIONAL)) = true) as Hend.
  { intros w2 [Hw2 _]. split; [apply nmt_set_wf; by destruct Hw2; split|].
    unfold nmt_set. case_decide; [done|]. by destruct app_on_nmt_changed. }
  destruct app_on_reset as [cb|] eqn:Ecb; [|by apply Hend, pdo_post_refl].
  destruct (cc_on_reset _); [|by apply Hend, pdo_post_refl].
  destruct (cb (w_app w1) b) as [a cs] eqn:E.
  eapply safe_bind; [|exact Hend].
  eapply safe_mono; [apply apply_conf_safe; [by destruct Hw1; split|by apply (app_reset_args cb) in E]|].
  intros w3 [? []]. split; [done|]. by split.
Qed.

Lemma nmt_rx_safe w f : wf w → frame_wf f → safe (nmt_rx w f) wf.
Proof.
  intros Hw Hf. unfold nmt_rx. destruct (_ <? 2); [done|].
  eapply safe_bind; [apply frame_byte; [done|lia]|]. intros cmd _.
  eapply safe_bind; [apply frame_byte; [done|lia]|]. intros target _.
  destruct (_ && _); [done|].
  destruct (cmd =? NMT_CMD_START).
  { apply (nmt_set_wf _ CO_NMT_OPERATIONAL) in Hw as [[Hl Ht] ? ?]. split; cbn; [|done..].
    split; [by rewrite length_map|]. apply Forall_map. eapply Forall_impl; [exact Ht|].
    by intros p []; split. }
  destruct (cmd =? NMT_CMD_STOP).
  { apply (nmt_set_wf _ CO_NMT_STOPPED) in Hw. apply sdo_put_wf; [done|apply sdo_idle_wf, Hw]. }
  destruct (cmd =? NMT_CMD_PREOP); [by apply nmt_set_wf|].
  destruct (cmd =? NMT_CMD_RESET_NODE);
    [eapply safe_mono; [apply node_reset_safe, Hw|by intros ? []]|].
  destruct (cmd =? NMT_CMD_RESET_COMM);
    [eapply safe_mono; [apply node_reset_safe, Hw|by intros ? []]|done].
Qed.

Lemma heartbeat_tick_core w : core_of (w_node (heartbeat_tick w)) = core_of (w_node w).
Proof.
  unfold heartbeat_tick. destruct (n_bootup_pending _).
  - pose proof (tx_core w (COB_HB_BASE + node_id w) [0]) as Hc.
    destruct (tx _ _ _) as [[] w1]; cbn in Hc; [|done]. rewrite <- Hc. done.
  - destruct (_ =? 0); [done|]. destruct (_ <=? _); [|done].
    pose proof (tx_core w (COB_HB_BASE + node_id w) [nmt_code (n_nmt (w_node w))]) as Hc.
    rewrite <- Hc. done.
Qed.

Lemma co_tick_safe w now : wf w → safe (co_tick w now) wf.
Proof.
  intros Hw. unfold co_tick. set (w1 := w <| w_node := _ |>).
  assert (wf (heartbeat_tick w1)) as Hw1.
  { apply (wf_core w1); [symmetry; apply heartbeat_tick_core|by destruct Hw; split]. }
  eapply safe_mono; [apply tpdo_tick_safe|by intros ? []].
  destruct (_ && _); [|done]. by apply (sdo_abort_post (heartbeat_tick w1)).
Qed.

Lemma co_rx_safe w f now : wf w → frame_wf f → safe (co_rx w f now) wf.
Proof.
  intros Hw Hf. unfold co_rx. set (w1 := stat st_rx_frames _).
  assert (wf w1) as Hw1 by (by destruct Hw; split).
  assert (wf (master_note w1)) as Hw2 by (by destruct Hw1; split).
  destruct (f_id f =? COB_NMT).
  { destruct (2 <=? _); [|by apply nmt_rx_safe].
    eapply safe_bind; [apply frame_byte; [done|lia]|]. intros t _.
    destruct (_ || _); by apply nmt_rx_safe. }
  destruct (decide _); [done|].
  destruct (_ && _); [eapply safe_mono; [by apply sync_rx_safe|by intros ? []]|].
  destruct (decide _); [done|].
  destruct (_ =? u16 _); [eapply safe_mono; [by apply sdo_rx_safe|by intros ? []]|].
  eapply safe_bind; [by apply pdo_rx_safe|]. intros [w3 []] [Hw3 _]; [|done].
  by destruct Hw3; split.
Qed.

Lemma co_init_safe a cfg now : safe (co_init a cfg now) wf.
Proof.
  unfold co_init. eapply safe_bind; [by apply node_reset_safe|]. intros w [Hw _].
  by destruct Hw; split.
Qed.

(** The arguments a caller passes have the widths of the C parameters. *)
Definition event_ok (e : co_event) : Prop :=
  match e with
  | EvRx f _ => frame_wf f
  | EvTpdoConfigure n _ _ _ _ _ | EvRpdoConfigure n _ _ _ | EvTpdoRequest n => is_u8 n
  | _ => True
  end.

Lemma co_step_safe w e : wf w → event_ok e → safe (co_step w e) wf.
Proof.
  intros Hw He. destruct e; cbn [co_step].
  - by apply co_rx_safe.
  - by apply co_tick_safe.
  - by apply (wf_core w); [symmetry; apply co_emcy_core|].
  - eapply safe_bind; [by apply tpdo_configure_safe|]. by intros r [].
  - eapply safe_bind; [by apply rpdo_configure_safe|]. by intros r [].
  - unfold co_tpdo_request, CO_TPDO_COUNT. cbn in He. unfold is_u8 in He. case_bool; [|done].
    eapply safe_bind; [apply safe_tpdo_get; [done|lia]|]. intros p [_ Hp].
    eapply safe_mono; [apply tpdo_put_safe; [done|lia|by destruct Hp; split]|]. by intros w1 [].
  - by destruct Hw; split.
Qed.

Lemma co_run_safe w es : wf w → Forall event_ok es → safe (co_run w es) wf.
Proof.
  intros Hw Hes. revert w Hw. induction Hes as [|e es He _ IH]; intros w Hw; [done|].
  cbn [co_run]. eapply safe_bind; [by apply co_step_safe|]. done.
Qed.

End safety.
