(* ===== verification/CoSim.v ===== *)
(** * CANopen core: simulation between applications

    The core reaches its application through the five callbacks of [CoApp] only.
    Two applications whose callbacks agree up to a relation [R] are therefore
    indistinguishable to it: from states related by [R], with the same node, every
    operation of the core ends alike, with the same node and the same frames, and
    the applications stay related.  With one application this is an invariant rule;
    with two copies of it, a noninterference rule. *)

From S2P Require Import Prelude CoTypes CoOd CoPdo CoSdo CoNode.

Create HintDb sim.

(** ** Related outcomes *)

Definition rrel {X Y} (Q : X → Y → Prop) (m : res X) (n : res Y) : Prop :=
  match m, n with
  | Ok x, Ok y => Q x y
  | OutOfBounds, OutOfBounds => True
  | OutOfFuel, OutOfFuel => True
  | _, _ => False
  end.

Lemma rrel_bind {X Y X' Y'} (P : X → Y → Prop) (Q : X' → Y' → Prop) m n f g :
  rrel P m n → (∀ x y, P x y → rrel Q (f x) (g y)) → rrel Q (m ≫= f) (n ≫= g).
Proof. destruct m, n; cbn; naive_solver. Qed.

Lemma rrel_mono {X Y} (P Q : X → Y → Prop) m n : rrel P m n → (∀ x y, P x y → Q x y) → rrel Q m n.
Proof. destruct m, n; cbn; auto. Qed.

(** The same computation on both sides. *)
Lemma rrel_same {X X' Y'} (Q : X' → Y' → Prop) (m : res X) f g :
  (∀ x, rrel Q (f x) (g x)) → rrel Q (m ≫= f) (m ≫= g).
Proof. intros H. destruct m; cbn; [apply H|done|done]. Qed.

Lemma ok_sim {X Y} (Q : X → Y → Prop) x y : Q x y → rrel Q (Ok x) (Ok y).
Proof. done. Qed.

(** Equal up to the first component. *)
Definition fst_rel {X Y Z'} (Q : X → Y → Prop) (x : X * Z') (y : Y * Z') : Prop := Q x.1 y.1 ∧ x.2 = y.2.

Section sim.
Context {A B : Type} `{HA : CoApp A} `{HB : CoApp B} (R : A → B → Prop).

(** ** The callbacks agree *)

Class AppSim : Prop := {
  sim_send : option_Forall2 (λ f g, ∀ a b fr, R a b → fst_rel R (f a fr) (g b fr))
    (app_send (A := A)) (app_send (A := B));
  sim_od_read : option_Forall2 (λ f g, ∀ a b i s c, R a b → fst_rel R (f a i s c) (g b i s c))
    (app_od_read (A := A)) (app_od_read (A := B));
  sim_od_write : option_Forall2 (λ f g, ∀ a b i s buf, R a b → fst_rel R (f a i s buf) (g b i s buf))
    (app_od_write (A := A)) (app_od_write (A := B));
  sim_on_reset : option_Forall2 (λ f g, ∀ a b bn, R a b → fst_rel R (f a bn) (g b bn))
    (app_on_reset (A := A)) (app_on_reset (A := B));
  sim_nmt_changed : option_Forall2 (λ f g, ∀ a b o n, R a b → R (f a o n) (g b o n))
    (app_on_nmt_changed (A := A)) (app_on_nmt_changed (A := B))
}.
Context `{!AppSim}.

Inductive wrel : world A → world B → Prop :=
  | wrel_intro n a b l : R a b → wrel (mk_world n a l) (mk_world n b l).

Lemma wrel_node w v : wrel w v → w_node w = w_node v.
Proof. by intros []. Qed.

Lemma wrel_put w v n : wrel w v → wrel (w <| w_node := n |>) (v <| w_node := n |>).
Proof. intros []. by constructor. Qed.

(** ** Frame helpers *)

Lemma stat_sim p `{!Setter p} w v : wrel w v → wrel (stat p w) (stat p v).
Proof. intros []. by constructor. Qed.

Lemma tx_sim w v id d : wrel w v → (tx w id d).1 = (tx v id d).1 ∧ wrel (tx w id d).2 (tx v id d).2.
Proof.
  intros [n a b l HR]. unfold tx. cbn. destruct sim_send as [f g Hs|]; [|split; [done|by apply stat_sim]].
  destruct (Hs a b (mk_frame (Z.land (u16 id) 0x7FF) (Z.of_nat (length (take 8 d))) false
    (take 8 d ++ replicate (8 - length (take 8 d)) 0)) HR) as [Ha Hb].
  destruct (f _ _) as [a' ok], (g _ _) as [b' ok']. cbn in *. subst ok'.
  destruct ok; (split; [done|]); apply stat_sim; by constructor.
Qed.

Lemma nmt_set_sim w v s : wrel w v → wrel (nmt_set w s) (nmt_set v s).
Proof.
  intros [n a b l HR]. unfold nmt_set. cbn. case_decide; [by constructor|].
  destruct sim_nmt_changed as [f g Hs|]; constructor; auto.
Qed.

(** ** Object dictionary *)

Lemma od_read_sim w v i s c : wrel w v → rrel (fst_rel wrel) (od_read w i s c) (od_read v i s c).
Proof.
  intros [n a b l HR]. unfold od_read. cbn. destruct (is_internal_index i).
  { apply rrel_same. intros r. split; [by constructor|done]. }
  destruct sim_od_read as [f g Hs|]; [|split; [by constructor|done]].
  destruct (Hs a b i s c HR) as [Ha Hb].
  destruct (f _ _ _ _), (g _ _ _ _). cbn in *. split; [by constructor|done].
Qed.

Lemma rpdo_put_sim w v n p : wrel w v → rrel wrel (rpdo_put w n p) (rpdo_put v n p).
Proof. intros []. unfold rpdo_put. cbn. apply rrel_same. intros. by constructor. Qed.
Lemma tpdo_put_sim w v n p : wrel w v → rrel wrel (tpdo_put w n p) (tpdo_put v n p).
Proof. intros []. unfold tpdo_put. cbn. apply rrel_same. intros. by constructor. Qed.

Lemma ret_sim {X} w v (x : X) : wrel w v → rrel (fst_rel wrel) (Ok (w, x)) (Ok (v, x)).
Proof. by split. Qed.

Hint Resolve wrel_put stat_sim nmt_set_sim od_read_sim rpdo_put_sim tpdo_put_sim ret_sim ok_sim : sim.

(** One step of a simulation: the node is the same on both sides, a computation on
    it is common, a test is decided once, an operation is looked up. *)
Ltac sim_pair :=
  match goal with
  | |- ∀ x y, fst_rel _ x y → _ => intros [? ?] [? ?] [? ?]; cbn [fst snd] in *; subst
  | |- ∀ x y, _ → _ => intros ? ? ?
  end.
Ltac sim_step :=
  match goal with
  | H : wrel ?w ?v |- context [w_node ?w] => rewrite (wrel_node w v H)
  | |- rrel _ ?l _ =>
      match l with context [w_node ?t] => erewrite (wrel_node t) by (eauto with sim) end
  | |- rrel _ (let '(_, _) := ?p in _) (let '(_, _) := ?p in _) => destruct p as [? ?]
  | |- rrel _ (?m ≫= _) (?m ≫= _) => apply rrel_same; intros ?
  | |- rrel _ (_ ≫= _) (_ ≫= _) => eapply rrel_bind; [solve [eauto with sim]|sim_pair]
  | |- rrel _ (if ?c then _ else _) (if ?c then _ else _) => destruct c
  | |- rrel _ (match ?o with Some _ => _ | None => _ end) _ => destruct o
  | |- rrel _ OutOfFuel OutOfFuel => exact I
  | |- _ => solve [eauto with sim]
  end.
Ltac sim_solve := repeat (cbn zeta; sim_step).

Lemma map_validate_loop_sim w v map tx n : ∀ i t,
  wrel w v → rrel (fst_rel wrel) (map_validate_loop w map tx n i t) (map_validate_loop v map tx n i t).
Proof.
  revert w v. induction n as [|n IH]; intros w v i t Hw; cbn [map_validate_loop]; sim_solve.
Qed.
Lemma map_validate_sim w v map c tx :
  wrel w v → rrel (fst_rel wrel) (map_validate w map c tx) (map_validate v map c tx).
Proof. apply map_validate_loop_sim. Qed.
Hint Resolve map_validate_sim : sim.

Lemma rpdo_comm_write_sim w v n i buf :
  wrel w v → rrel (fst_rel wrel) (rpdo_comm_write w n i buf) (rpdo_comm_write v n i buf).
Proof. intros Hw. unfold rpdo_comm_write. sim_solve. Qed.
Lemma rpdo_map_write_sim w v n i buf :
  wrel w v → rrel (fst_rel wrel) (rpdo_map_write w n i buf) (rpdo_map_write v n i buf).
Proof. intros Hw. unfold rpdo_map_write. sim_solve. Qed.
Lemma tpdo_comm_write_sim w v n i buf :
  wrel w v → rrel (fst_rel wrel) (tpdo_comm_write w n i buf) (tpdo_comm_write v n i buf).
Proof. intros Hw. unfold tpdo_comm_write. sim_solve. Qed.
Lemma tpdo_map_write_sim w v n i buf :
  wrel w v → rrel (fst_rel wrel) (tpdo_map_write w n i buf) (tpdo_map_write v n i buf).
Proof. intros Hw. unfold tpdo_map_write. sim_solve. Qed.
Hint Resolve rpdo_comm_write_sim rpdo_map_write_sim tpdo_comm_write_sim tpdo_map_write_sim : sim.

Lemma od_write_sim w v i s buf : wrel w v → rrel (fst_rel wrel) (od_write w i s buf) (od_write v i s buf).
Proof.
  intros Hw. unfold od_write, od_internal_write. destruct (is_internal_index i); [sim_solve|].
  destruct Hw as [n a b l HR]. cbn. destruct sim_od_write as [f g Hs|]; [|split; [by constructor|done]].
  destruct (Hs a b i s buf HR) as [Ha Hb].
  destruct (f _ _ _ _), (g _ _ _ _). cbn in *. split; [by constructor|done].
Qed.
Hint Resolve od_write_sim : sim.

(** ** Process data *)

Lemma tx_snd_sim w v id d : wrel w v → wrel (tx w id d).2 (tx v id d).2.
Proof. intros Hw. by destruct (tx_sim w v id d Hw). Qed.
Hint Resolve tx_snd_sim : sim.

(** A continuation of a transmission. *)
Lemma tx_cont_sim {X Y} (Q : X → Y → Prop) w v id d f g : wrel w v →
  (∀ ok w' v', wrel w' v' → rrel Q (f ok w') (g ok v')) →
  rrel Q (let '(ok, w') := tx w id d in f ok w') (let '(ok, v') := tx v id d in g ok v').
Proof.
  intros Hw Hf. destruct (tx_sim w v id d Hw) as [E Hr].
  destruct (tx w id d) as [ok w'], (tx v id d) as [ok' v']. cbn in *. subst. auto.
Qed.

Lemma tx_let_sim w v id d (f : bool → world A → world A) (g : bool → world B → world B) : wrel w v →
  (∀ ok w' v', wrel w' v' → wrel (f ok w') (g ok v')) →
  wrel (let '(ok, w') := tx w id d in f ok w') (let '(ok, v') := tx v id d in g ok v').
Proof.
  intros Hw Hf. destruct (tx_sim w v id d Hw) as [E Hr].
  destruct (tx w id d) as [ok w'], (tx v id d) as [ok' v']. cbn in *. subst. auto.
Qed.

Lemma co_emcy_sim w v code bits mfr : wrel w v → wrel (co_emcy w code bits mfr) (co_emcy v code bits mfr).
Proof.
  intros Hw. unfold co_emcy, node_id. rewrite !(wrel_node w v Hw).
  case_decide; [by apply wrel_put|]. apply tx_let_sim; [by apply wrel_put|].
  intros ok w' v' Hw'.
  assert (wrel (if ok then stat st_emcy_tx w' else w') (if ok then stat st_emcy_tx v' else v')) as Hs
    by (destruct ok; auto with sim).
  rewrite (wrel_node _ _ Hs). by apply wrel_put.
Qed.
Hint Resolve co_emcy_sim : sim.

Lemma tpdo_build_loop_sim w v p n : ∀ i d,
  wrel w v → rrel (fst_rel wrel) (tpdo_build_loop w p n i d) (tpdo_build_loop v p n i d).
Proof. revert w v. induction n as [|n IH]; intros w v i d Hw; cbn [tpdo_build_loop]; sim_solve. Qed.
Lemma tpdo_build_sim w v p : wrel w v → rrel (fst_rel wrel) (tpdo_build w p) (tpdo_build v p).
Proof. apply tpdo_build_loop_sim. Qed.
Hint Resolve tpdo_build_sim : sim.

Lemma tpdo_send_sim w v n : wrel w v → rrel wrel (tpdo_send w n) (tpdo_send v n).
Proof.
  intros Hw. unfold tpdo_send. sim_solve.
  apply tx_cont_sim; [done|]. intros ok w' v' Hw'. sim_solve.
Qed.
Hint Resolve tpdo_send_sim : sim.

Lemma tpdo_changed_sim w v n : wrel w v → rrel (fst_rel wrel) (tpdo_changed w n) (tpdo_changed v n).
Proof. intros Hw. unfold tpdo_changed. sim_solve. Qed.
Hint Resolve tpdo_changed_sim : sim.

Lemma tpdo_tick_one_sim w v n : wrel w v → rrel wrel (tpdo_tick_one w n) (tpdo_tick_one v n).
Proof. intros Hw. unfold tpdo_tick_one. sim_solve. Qed.

Lemma for_each_sim f g n : (∀ w v i, wrel w v → rrel wrel (f w i) (g v i)) →
  ∀ i w v, wrel w v → rrel wrel (for_each f n i w) (for_each g n i v).
Proof. intros Hf. induction n as [|n IH]; intros i w v Hw; cbn [for_each]; sim_solve. Qed.

Lemma tpdo_tick_sim w v : wrel w v → rrel wrel (tpdo_tick w) (tpdo_tick v).
Proof.
  intros Hw. unfold tpdo_tick. rewrite (wrel_node w v Hw). case_decide; [|sim_solve].
  apply for_each_sim; [apply tpdo_tick_one_sim|done].
Qed.

Lemma rpdo_write_loop_sim n d fuel : ∀ w v i pos,
  wrel w v → rrel wrel (rpdo_write_loop w n d fuel i pos) (rpdo_write_loop v n d fuel i pos).
Proof. induction fuel as [|fuel IH]; intros w v i pos Hw; cbn [rpdo_write_loop]; sim_solve. Qed.
Hint Resolve rpdo_write_loop_sim : sim.

Lemma rpdo_apply_sim w v n d len : wrel w v → rrel wrel (rpdo_apply w n d len) (rpdo_apply v n d len).
Proof. intros Hw. unfold rpdo_apply. sim_solve. Qed.
Hint Resolve rpdo_apply_sim : sim.

Lemma sync_tpdo_one_sim w v n : wrel w v → rrel wrel (sync_tpdo_one w n) (sync_tpdo_one v n).
Proof. intros Hw. unfold sync_tpdo_one. sim_solve. Qed.
Lemma sync_rpdo_one_sim w v n : wrel w v → rrel wrel (sync_rpdo_one w n) (sync_rpdo_one v n).
Proof. intros Hw. unfold sync_rpdo_one. sim_solve. Qed.

Lemma sync_rx_sim w v : wrel w v → rrel wrel (sync_rx w) (sync_rx v).
Proof.
  intros Hw. unfold sync_rx. rewrite (wrel_node w v Hw). case_decide; [|sim_solve].
  eapply rrel_bind; [apply for_each_sim; [apply sync_tpdo_one_sim|done]|].
  intros w' v' Hw'. apply for_each_sim; [apply sync_rpdo_one_sim|done].
Qed.

Lemma rtr_loop_sim f n : ∀ w v i, wrel w v → rrel (fst_rel wrel) (rtr_loop w f n i) (rtr_loop v f n i).
Proof. induction n as [|n IH]; intros w v i Hw; cbn [rtr_loop]; sim_solve. Qed.
Lemma rpdo_loop_sim f n : ∀ w v i, wrel w v → rrel (fst_rel wrel) (rpdo_loop w f n i) (rpdo_loop v f n i).
Proof. induction n as [|n IH]; intros w v i Hw; cbn [rpdo_loop]; sim_solve. Qed.
Lemma pdo_rx_sim w v f : wrel w v → rrel (fst_rel wrel) (pdo_rx w f) (pdo_rx v f).
Proof. intros Hw. unfold pdo_rx. destruct (f_rtr f); [by apply rtr_loop_sim|by apply rpdo_loop_sim]. Qed.
Hint Resolve sync_rx_sim pdo_rx_sim tpdo_tick_sim : sim.

(** ** SDO server *)

Lemma sdo_put_sim w v s : wrel w v → wrel (sdo_put w s) (sdo_put v s).
Proof. intros Hw. unfold sdo_put. rewrite (wrel_node w v Hw). by apply wrel_put. Qed.
Lemma sdo_reply_sim w v d : wrel w v → wrel (sdo_reply w d) (sdo_reply v d).
Proof. intros Hw. unfold sdo_reply, node_id. rewrite (wrel_node w v Hw). by apply tx_snd_sim. Qed.
Hint Resolve sdo_put_sim sdo_reply_sim : sim.

Lemma sdo_abort_sim w v i s c : wrel w v → wrel (sdo_abort w i s c) (sdo_abort v i s c).
Proof.
  intros Hw. unfold sdo_abort, sdo.
  assert (∀ d, wrel (stat st_sdo_aborts (sdo_reply w d)) (stat st_sdo_aborts (sdo_reply v d))) as Hs
    by auto with sim.
  rewrite (wrel_node _ _ (Hs _)). by apply sdo_put_sim.
Qed.
Hint Resolve sdo_abort_sim : sim.

Lemma sdo_upload_initiate_sim w v i s :
  wrel w v → rrel wrel (sdo_upload_initiate w i s) (sdo_upload_initiate v i s).
Proof. intros Hw. unfold sdo_upload_initiate, sdo. sim_solve. Qed.
Lemma sdo_upload_segment_sim w v c : wrel w v → rrel wrel (sdo_upload_segment w c) (sdo_upload_segment v c).
Proof. intros Hw. unfold sdo_upload_segment, sdo. sim_solve. Qed.
Lemma sdo_download_initiate_sim w v c i s p :
  wrel w v → rrel wrel (sdo_download_initiate w c i s p) (sdo_download_initiate v c i s p).
Proof. intros Hw. unfold sdo_download_initiate, sdo. sim_solve. Qed.
Lemma sdo_download_segment_sim w v c p :
  wrel w v → rrel wrel (sdo_download_segment w c p) (sdo_download_segment v c p).
Proof. intros Hw. unfold sdo_download_segment, sdo. sim_solve. Qed.
Hint Resolve sdo_upload_initiate_sim sdo_upload_segment_sim sdo_download_initiate_sim
  sdo_download_segment_sim : sim.

Lemma sdo_rx_sim w v f : wrel w v → rrel wrel (sdo_rx w f) (sdo_rx v f).
Proof. intros Hw. unfold sdo_rx, sdo. sim_solve. Qed.
Hint Resolve sdo_rx_sim : sim.

(** ** NMT, heartbeat, public operations *)

Lemma co_tpdo_configure_sim w v n cob ty inh ev map : wrel w v →
  rrel (fst_rel wrel) (co_tpdo_configure w n cob ty inh ev map) (co_tpdo_configure v n cob ty inh ev map).
Proof. intros Hw. unfold co_tpdo_configure, node_id. sim_solve. Qed.
Lemma co_rpdo_configure_sim w v n cob ty map : wrel w v →
  rrel (fst_rel wrel) (co_rpdo_configure w n cob ty map) (co_rpdo_configure v n cob ty map).
Proof. intros Hw. unfold co_rpdo_configure, node_id. sim_solve. Qed.
Hint Resolve co_tpdo_configure_sim co_rpdo_configure_sim : sim.

Lemma error_set_sim w v bits : wrel w v → wrel (error_set w bits) (error_set v bits).
Proof. intros Hw. unfold error_set. rewrite (wrel_node w v Hw). by apply wrel_put. Qed.
Hint Resolve error_set_sim : sim.

Lemma apply_conf_sim cs : ∀ w v, wrel w v → rrel wrel (apply_conf w cs) (apply_conf v cs).
Proof. induction cs as [|[] cs IH]; intros w v Hw; cbn [apply_conf]; sim_solve. Qed.
Hint Resolve apply_conf_sim : sim.

Lemma node_reset_sim w v bn : wrel w v → rrel wrel (node_reset w bn) (node_reset v bn).
Proof.
  intros Hw. unfold node_reset. rewrite (wrel_node w v Hw). cbn zeta.
  match goal with |- rrel _ (?m ≫= _) (?n ≫= _) => assert (rrel wrel m n) as Hm end.
  - destruct Hw as [n a b l HR]. cbn. destruct sim_on_reset as [f g Hs|]; [|by constructor].
    destruct (cc_on_reset _); [|by constructor]. destruct (Hs a b bn HR) as [Ha Hb].
    destruct (f a bn), (g b bn). cbn in *. subst. apply apply_conf_sim. by constructor.
  - eapply rrel_bind; [exact Hm|]. intros w' v' Hw'. cbn zeta. rewrite (wrel_node w' v' Hw').
    auto with sim.
Qed.
Hint Resolve node_reset_sim : sim.

Lemma nmt_rx_sim w v f : wrel w v → rrel wrel (nmt_rx w f) (nmt_rx v f).
Proof. intros Hw. unfold nmt_rx, node_id, sdo. sim_solve. Qed.
Hint Resolve nmt_rx_sim : sim.

Lemma heartbeat_tick_sim w v : wrel w v → wrel (heartbeat_tick w) (heartbeat_tick v).
Proof.
  intros Hw. unfold heartbeat_tick, node_id. rewrite !(wrel_node w v Hw). cbn zeta.
  destruct (n_bootup_pending _).
  { apply tx_let_sim; [done|]. intros ok w' v' Hw'. destruct ok; [|done].
    rewrite (wrel_node w' v' Hw'). by apply wrel_put. }
  destruct (_ =? 0); [done|]. destruct (_ <=? _); [|done].
  erewrite (wrel_node (tx w _ _).2) by (by apply tx_snd_sim). by apply wrel_put, tx_snd_sim.
Qed.

Lemma master_note_sim w v : wrel w v → wrel (master_note w) (master_note v).
Proof. intros Hw. unfold master_note. rewrite (wrel_node w v Hw). by apply wrel_put. Qed.
Hint Resolve heartbeat_tick_sim master_note_sim : sim.

Lemma master_note_if_sim (c : bool) w v :
  wrel w v → wrel (if c then master_note w else w) (if c then master_note v else v).
Proof. destruct c; auto with sim. Qed.
Hint Resolve master_note_if_sim : sim.

Lemma co_rx_sim w v f now : wrel w v → rrel wrel (co_rx w f now) (co_rx v f now).
Proof. intros Hw. unfold co_rx, node_id. sim_solve. Qed.

Lemma co_tick_sim w v now : wrel w v → rrel wrel (co_tick w now) (co_tick v now).
Proof.
  intros Hw. unfold co_tick, sdo. rewrite !(wrel_node w v Hw). cbn zeta.
  match goal with |- context [heartbeat_tick (w <| w_node := ?n |>)] =>
    pose proof (heartbeat_tick_sim _ _ (wrel_put w v n Hw)) as Hh end.
  rewrite (wrel_node _ _ Hh). apply tpdo_tick_sim. destruct (_ && _); auto with sim.
Qed.

Lemma co_tpdo_request_sim w v n : wrel w v → rrel wrel (co_tpdo_request w n) (co_tpdo_request v n).
Proof. intros Hw. unfold co_tpdo_request. sim_solve. Qed.

Lemma co_heartbeat_set_sim w v ms : wrel w v → wrel (co_heartbeat_set w ms) (co_heartbeat_set v ms).
Proof. intros Hw. unfold co_heartbeat_set. rewrite (wrel_node w v Hw). by apply wrel_put. Qed.
Hint Resolve co_rx_sim co_tick_sim co_tpdo_request_sim co_heartbeat_set_sim : sim.

Lemma co_init_sim a b cfg now : R a b → rrel wrel (co_init a cfg now) (co_init b cfg now).
Proof.
  intros HR. unfold co_init. cbn zeta. eapply rrel_bind; [apply node_reset_sim; by constructor|].
  intros w v Hw. rewrite (wrel_node w v Hw). auto with sim.
Qed.

Lemma co_step_sim w v e : wrel w v → rrel wrel (co_step w e) (co_step v e).
Proof. intros Hw. destruct e; cbn [co_step]; sim_solve. Qed.

Lemma co_run_sim es : ∀ w v, wrel w v → rrel wrel (co_run w es) (co_run v es).
Proof.
  induction es as [|e es IH]; intros w v Hw; cbn [co_run]; [auto with sim|].
  eapply rrel_bind; [by apply co_step_sim|]. auto.
Qed.

End sim.

#[export] Hint Resolve wrel_put stat_sim nmt_set_sim error_set_sim apply_conf_sim co_emcy_sim co_rx_sim
  co_tick_sim co_tpdo_request_sim co_heartbeat_set_sim ok_sim : sim.
