(* ===== verification/CoTransfer.v ===== *)
(** * CANopen SDO transfers end to end

    A client's segmented upload and download against the server of [CoSdo]:
    what the client reassembles is what the application stored, and what the
    application gets written is what the client sent. *)

From S2P Require Import Prelude Bytes CoTypes CoOd CoPdo CoSdo CoNode CoInv CoSafety.

(** ** Little-endian round trips *)

Lemma get_put_u32 v : is_u32 v → co_get_u32 (co_put_u32 v) = v.
Proof. intros. by apply le_bytes_u32. Qed.

Lemma get_put_u16 v : is_u16 v → co_get_u16 (co_put_u16 v) = v.
Proof.
  intros. unfold co_get_u16, co_put_u16, byte_at. cbn. rewrite le_bytes_u16 by done.
  by apply u16_id.
Qed.

(** ** The client *)

Definition sdo_req (nid : Z) (d : list Z) : co_frame_t := mk_frame (COB_SDO_RX_BASE + nid) 8 false d.

Definition upload_req (index sub : Z) : list Z := [0x40] ++ co_put_u16 index ++ [sub; 0; 0; 0; 0].
Definition upload_seg_req (t : Z) : list Z := Z.lor 0x60 (Z.shiftl t 4) :: replicate 7 0.
Definition download_req (index sub len : Z) : list Z :=
  [0x21] ++ co_put_u16 index ++ [sub] ++ co_put_u32 len.

(** The header of a segment with [n] bytes, and its two fields. *)
Definition seg_header (t n : Z) (last : bool) : Z :=
  u8 (Z.lor (Z.lor (Z.shiftl t 4) (Z.shiftl (7 - n) 1)) (if last then 1 else 0)).
Definition download_seg_req (t : Z) (chunk : list Z) (last : bool) : list Z :=
  seg_header t (Z.of_nat (length chunk)) last :: chunk ++ replicate (7 - length chunk) 0.

(** What a client takes from a segment reply. *)
Definition seg_last (d : list Z) : bool := negb (Z.land (byte_at d 0) 1 =? 0).
Definition seg_data (d : list Z) : list Z :=
  take (Z.to_nat (7 - Z.land (Z.shiftr (byte_at d 0) 1) 7)) (tail d).

Lemma seg_header_fields t n last :
  t = 0 ∨ t = 1 → 0 <= n <= 7 →
  let h := seg_header t n last in
  Z.land (Z.shiftr h 1) 7 = 7 - n ∧ Z.land h 1 = (if last then 1 else 0)
  ∧ Z.land (Z.shiftr h 4) 1 = t ∧ Z.shiftr h 5 = 0.
Proof.
  intros Ht Hn. assert (n = 0 ∨ n = 1 ∨ n = 2 ∨ n = 3 ∨ n = 4 ∨ n = 5 ∨ n = 6 ∨ n = 7) as Hc by lia.
  destruct Ht as [->| ->], Hc as [->|[->|[->|[->|[->|[->|[->| ->]]]]]]], last; vm_compute; auto.
Qed.

Section transfer.
Context {A : Type} `{HA : CoApp A} `{!CoAppLaws A}.
Implicit Types w : world A.
Variable send : A → co_frame_t → A * bool.
Hypothesis Hsend : app_send = Some send.

(** The frames of a world's wire, and the application steps a send makes. *)
Definition sent w : list co_frame_t := map fst (w_wire w).
Definition send_step (a a' : A) : Prop := ∃ f, a' = (send a f).1.

(** The server accepts SDO requests. *)
Definition listening w : Prop :=
  n_nmt (w_node w) ≠ CO_NMT_STOPPED ∧ n_nmt (w_node w) ≠ CO_NMT_INITIALISING
  ∧ 1 <= node_id w <= 127.

(** The world as [sdo_rx] finds it. *)
Definition noted w (now : Z) : world A :=
  stat st_sdo_requests
    (master_note (stat st_rx_frames (w <| w_node := (w_node w) <| n_now_ms := now |> |>))).

Lemma co_rx_sdo w d now :
  listening w →
  co_rx w (sdo_req (node_id w) d) now
  = sdo_rx (master_note (stat st_rx_frames (w <| w_node := (w_node w) <| n_now_ms := now |> |>)))
      (sdo_req (node_id w) d).
Proof.
  intros (H1 & H2 & H3). unfold co_rx. cbn [f_id sdo_req].
  unfold COB_SDO_RX_BASE, COB_NMT, COB_SYNC. rewrite (proj2 (Z.eqb_neq _ 0)) by lia.
  rewrite decide_False by done. rewrite (proj2 (Z.eqb_neq _ 0x080)) by lia. cbn [andb].
  rewrite decide_False by done.
  change (node_id (stat st_rx_frames _)) with (node_id w).
  rewrite u16_id by (unfold is_u16; lia). by rewrite Z.eqb_refl.
Qed.

Lemma sdo_reply_spec w d :
  length d = 8%nat →
  let f := mk_frame (Z.land (u16 (COB_SDO_TX_BASE + node_id w)) 0x7FF) 8 false d in
  sent (sdo_reply w d) = sent w ++ [f] ∧ core_of (w_node (sdo_reply w d)) = core_of (w_node w)
  ∧ rtc send_step (w_app w) (w_app (sdo_reply w d)).
Proof.
  intros Hd f. split_and!; [|apply sdo_reply_core|].
  - unfold sdo_reply, tx, sent. rewrite Hsend, take_ge by lia. rewrite Hd. cbn [Nat.sub replicate].
    rewrite app_nil_r. destruct (send _ _) as [a []]; cbn; by rewrite map_app.
  - unfold sdo_reply, tx. rewrite Hsend.
    destruct (send _ _) as [a ok] eqn:E. apply rtc_once. eexists. rewrite E. by destruct ok.
Qed.

(** ** Upload *)

(** One server step of a running upload. *)
Record uploading w (bytes : list Z) (pos t : Z) : Prop := {
  up_state : sdo_state (sdo w) = SDO_UPLOAD_SEG;
  up_buf : take (length bytes) (sdo_buf (sdo w)) = bytes;
  up_len : sdo_len (sdo w) = Z.of_nat (length bytes);
  up_pos : sdo_pos (sdo w) = pos;
  up_toggle : sdo_toggle (sdo w) = t;
  up_cap : (length bytes <= length (sdo_buf (sdo w)))%nat;
  up_fits : (length bytes <= 128)%nat
}.

Lemma seg_req_fields t :
  t = 0 ∨ t = 1 →
  Z.shiftr (Z.lor 0x60 (Z.shiftl t 4)) 5 = 3 ∧ Z.land (Z.shiftr (Z.lor 0x60 (Z.shiftl t 4)) 4) 1 = t.
Proof. by intros [->| ->]. Qed.

Lemma take_in_prefix {B} (l l' : list B) i n :
  take (length l) l' = l → (i + n <= length l)%nat → take n (drop i l') = take n (drop i l).
Proof.
  intros Hl Hin. rewrite <- Hl at 1. rewrite skipn_firstn_comm, take_take.
  f_equal. lia.
Qed.

Lemma upload_step w bytes pos t now :
  listening w → uploading w bytes pos t → 0 <= pos → pos <= Z.of_nat (length bytes) →
  t = 0 ∨ t = 1 →
  let n := Z.min 7 (Z.of_nat (length bytes) - pos) in
  ∃ w' d, co_rx w (sdo_req (node_id w) (upload_seg_req t)) now = Ok w'
    ∧ map f_data (sent w') = map f_data (sent w) ++ [d]
    ∧ seg_data d = take (Z.to_nat n) (drop (Z.to_nat pos) bytes)
    ∧ seg_last d = bool_decide (pos + n = Z.of_nat (length bytes))
    ∧ listening w' ∧ node_id w' = node_id w
    ∧ (if seg_last d then sdo_state (sdo w') = SDO_IDLE else uploading w' bytes (pos + n) (1 - t)).
Proof.
  intros Hlis [Hst Hbuf Hlen Hpos Htog Hcap Hfits] Hp0 Hp1 Ht n.
  rewrite co_rx_sdo by done. unfold sdo_rx. cbn [f_dlc f_rtr f_data sdo_req orb Z.ltb].
  change (8 <? 8) with false. cbn [orb].
  change (stat st_sdo_requests (master_note _)) with (noted w now).
  destruct (seg_req_fields t Ht) as [Hccs Htg].
  cbn [upload_seg_req array_get mbind res_bind].
  change (array_get (upload_seg_req t) 0) with (Ok (Z.lor 0x60 (Z.shiftl t 4))).
  change (array_read (upload_seg_req t) 1 2) with (Ok [0; 0]).
  change (array_get (upload_seg_req t) 3) with (Ok (A := Z) 0).
  cbn [mbind res_bind]. rewrite Hccs. cbn [Z.eqb Pos.eqb].
  unfold sdo_upload_segment. change (sdo (noted w now)) with (sdo w).
  rewrite decide_False by (intros Hx; by apply Hx). rewrite Htg, Htog, Z.eqb_refl. cbn [negb].
  rewrite Hlen, Hpos, u32_id by (unfold is_u32; lia).
  replace (if 7 <? Z.of_nat (length bytes) - pos then 7 else Z.of_nat (length bytes) - pos) with n
    by (subst n; case_bool; lia).
  rewrite array_read_ok by (subst n; lia). cbn [mbind res_bind].
  rewrite (take_in_prefix bytes) by (done || subst n; lia).
  set (data := take (Z.to_nat n) (drop (Z.to_nat pos) bytes)).
  assert (length data = Z.to_nat n) as Hdl
    by (subst data n; rewrite length_take, length_drop; lia).
  set (bl := n =? Z.of_nat (length bytes) - pos).
  fold (seg_header t n bl). set (d := [seg_header t n bl] ++ data ++ _).
  set (w1 := sdo_put _ _).
  assert (length d = 8%nat) as Hd8.
  { subst d. rewrite !length_app, length_replicate, Hdl. cbn. subst n. lia. }
  destruct (sdo_reply_spec w1 d Hd8) as (Hsent & Hcore & _).
  destruct (seg_header_fields t n bl Ht ltac:(subst n; lia)) as (Hf1 & Hf2 & _).
  assert (seg_last d = bl) as Hlast.
  { unfold seg_last. change (byte_at d 0) with (seg_header t n bl). rewrite Hf2. by destruct bl. }
  exists (sdo_reply w1 d), d. split_and!; [done|..].
  - rewrite Hsent, map_app. by subst w1; destruct bl.
  - unfold seg_data. change (byte_at d 0) with (seg_header t n bl). rewrite Hf1.
    replace (7 - (7 - n)) with n by lia. subst d. cbn [app tail]. apply take_app_length'. lia.
  - rewrite Hlast. subst bl. case_bool; [rewrite bool_decide_true|rewrite bool_decide_false]; lia || done.
  - unfold core_of in Hcore. unfold listening, node_id in *. injection Hcore as -> -> _ _ _ _.
    by subst w1; destruct bl.
  - unfold core_of in Hcore. unfold node_id in *. injection Hcore as -> _ _ _ _ _.
    by subst w1; destruct bl.
  - rewrite Hlast. unfold sdo. unfold core_of in Hcore. injection Hcore as _ _ _ Hs _ _.
    destruct bl; [unfold sdo; rewrite Hs; by subst w1|].
    assert (Z.lxor t 1 = 1 - t) as Hx by (by destruct Ht as [->| ->]).
    change (n_sdo (w_node (sdo_reply w1 d))) with (sdo (sdo_reply w1 d)) in Hs.
    split; rewrite ?Hs; cbn; done || congruence.
Qed.

(** [k] segment requests with alternating toggle bit. *)
Fixpoint upload_segments (nid now : Z) (k : nat) (t : Z) (w : world A) : res (world A) :=
  match k with
  | O => Ok w
  | S k' => w ← co_rx w (sdo_req nid (upload_seg_req t)) now; upload_segments nid now k' (1 - t) w
  end.

Lemma upload_segments_spec k : ∀ w bytes pos t now,
  listening w → uploading w bytes pos t → 0 <= pos → t = 0 ∨ t = 1 →
  pos + 7 * Z.of_nat k < Z.of_nat (length bytes) <= pos + 7 * (Z.of_nat k + 1) →
  ∃ w' ds, upload_segments (node_id w) now (S k) t w = Ok w'
    ∧ map f_data (sent w') = map f_data (sent w) ++ ds
    ∧ concat (map seg_data ds) = drop (Z.to_nat pos) bytes
    ∧ map seg_last ds = replicate k false ++ [true]
    ∧ sdo_state (sdo w') = SDO_IDLE.
Proof.
  induction k as [|k IH]; intros w bytes pos t now Hl Hu Hp Ht Hk.
  all: destruct (upload_step w bytes pos t now Hl Hu Hp ltac:(lia) Ht)
    as (w1 & d & Hrx & Hs1 & Hd & Hlast & Hl1 & Hid & Hnext).
  - cbn [upload_segments]. rewrite Hrx. exists w1, [d]. rewrite Z.min_r in * by lia.
    rewrite bool_decide_true in Hlast by lia. rewrite Hlast in Hnext. split_and!; try done.
    + cbn. rewrite app_nil_r, Hd. apply take_ge. rewrite length_drop. lia.
    + cbn. by rewrite Hlast.
  - rewrite Z.min_l in * by lia. rewrite bool_decide_false in Hlast by lia. rewrite Hlast in Hnext.
    destruct (IH w1 bytes (pos + 7) (1 - t) now Hl1 Hnext ltac:(lia) ltac:(lia) ltac:(lia))
      as (w2 & ds & Hrun & Hs2 & Hcat & Hlasts & Hidle).
    exists w2, (d :: ds). split_and!; try done.
    + rewrite <- Hrun, Hid. remember (S k) as k'. cbn [upload_segments]. by rewrite Hrx.
    + by rewrite Hs2, Hs1, <- app_assoc.
    + cbn. rewrite Hcat, Hd. replace (Z.to_nat (pos + 7)) with (Z.to_nat pos + 7)%nat by lia.
      rewrite <- drop_drop. apply take_drop.
    + cbn. by rewrite Hlast, Hlasts.
Qed.

Lemma upload_initiate w index sub now rd a1 bytes :
  wf w → listening w → is_u16 index → is_internal_index index = false →
  app_od_read = Some rd → rd (w_app w) index sub CO_SDO_BUF_SIZE = (a1, (0, bytes)) →
  4 < Z.of_nat (length bytes) →
  ∃ w', co_rx w (sdo_req (node_id w) (upload_req index sub)) now = Ok w'
    ∧ map f_data (sent w') = map f_data (sent w)
        ++ [[0x41] ++ co_put_u16 index ++ [sub] ++ co_put_u32 (Z.of_nat (length bytes))]
    ∧ listening w' ∧ node_id w' = node_id w ∧ uploading w' bytes 0 0.
Proof.
  intros Hw Hlis Hix Hint Hrd Hread Hlen.
  pose proof (app_read_cap rd (w_app w) index sub CO_SDO_BUF_SIZE a1 0 bytes Hrd ltac:(done) Hread) as Hcap.
  unfold CO_SDO_BUF_SIZE in Hcap. pose proof (sw_buf _ (nw_sdo _ Hw)) as H128.
  rewrite co_rx_sdo by done. unfold sdo_rx. cbn [f_dlc f_rtr f_data sdo_req].
  change ((8 <? 8) || false) with false. cbn iota.
  change (stat st_sdo_requests (master_note _)) with (noted w now).
  change (array_get (upload_req index sub) 0) with (Ok (A := Z) 0x40).
  change (array_read (upload_req index sub) 1 2) with (Ok (co_put_u16 index)).
  change (array_get (upload_req index sub) 3) with (Ok sub).
  cbn [mbind res_bind]. rewrite get_put_u16 by done.
  change (Z.shiftr 0x40 5) with 2. cbn [Z.eqb Pos.eqb].
  unfold sdo_upload_initiate, od_read. rewrite Hint, Hrd.
  change (w_app (noted w now)) with (w_app w). rewrite Hread. cbn [mbind res_bind].
  set (w1 := (noted w now) <| w_app := a1 |>).
  change (sdo w1) with (sdo w). rewrite array_write_ok by (unfold sdo; lia). cbn [mbind res_bind].
  change (negb (0 =? 0)) with false. cbn iota. case_bool; [lia|].
  rewrite (u32_id (Z.of_nat _)) by (unfold is_u32; lia).
  set (d := [0x41] ++ _). set (w2 := sdo_put _ _).
  destruct (sdo_reply_spec w2 d eq_refl) as (Hsent & Hcore & _).
  exists (sdo_reply w2 d). split_and!; [done|..].
  - by rewrite Hsent, map_app.
  - unfold core_of in Hcore. unfold listening, node_id in *. by injection Hcore as -> -> _ _ _ _.
  - unfold core_of in Hcore. unfold node_id in *. by injection Hcore as -> _ _ _ _ _.
  - unfold core_of in Hcore. injection Hcore as _ _ _ Hs _ _.
    change (n_sdo (w_node (sdo_reply w2 d))) with (sdo (sdo_reply w2 d)) in Hs.
    split; rewrite ?Hs; cbn; rewrite ?length_inserts; try done; unfold sdo; try lia.
    apply (take_inserts _ 0). cbn. lia.
Qed.

(** The whole transfer, as the client runs it: [k + 1] segments. *)
Definition client_upload (w : world A) (index sub now : Z) (k : nat) : res (world A) :=
  w1 ← co_rx w (sdo_req (node_id w) (upload_req index sub)) now;
  upload_segments (node_id w) now (S k) 0 w1.

(** What the client gets: the announced length and the reassembled bytes. *)
Definition upload_len (ds : list (list Z)) : Z :=
  match ds with d :: _ => co_get_u32 (drop 4 d) | [] => 0 end.
Definition upload_bytes (ds : list (list Z)) : list Z := concat (map seg_data (tail ds)).

(** ** Download *)

Record downloading w (index sub : Z) (got : list Z) (total t : Z) : Prop := {
  dn_state : sdo_state (sdo w) = SDO_DOWNLOAD_SEG;
  dn_obj : sdo_index (sdo w) = index ∧ sdo_sub (sdo w) = sub;
  dn_got : take (length got) (sdo_buf (sdo w)) = got;
  dn_len : sdo_len (sdo w) = total;
  dn_pos : sdo_pos (sdo w) = Z.of_nat (length got);
  dn_toggle : sdo_toggle (sdo w) = t;
  dn_cap : length (sdo_buf (sdo w)) = 128%nat
}.

Lemma sdo_rx_download_seg w nid h rest :
  length rest = 7%nat → Z.shiftr h 5 = 0 →
  sdo_rx w (sdo_req nid (h :: rest)) = sdo_download_segment (stat st_sdo_requests w) h rest.
Proof.
  intros Hr Hh. do 7 (destruct rest as [|? rest]; [done|]). destruct rest; [|done].
  unfold sdo_rx. cbn [f_dlc f_rtr f_data sdo_req].
  change ((8 <? 8) || false) with false. cbn iota.
  change (array_get (h :: _) 0) with (Ok h). cbn [mbind res_bind]. rewrite Hh. done.
Qed.

(** The server side of one segment, up to what follows a last one. *)
Lemma download_step w index sub got total t chunk last now :
  listening w → downloading w index sub got total t → t = 0 ∨ t = 1 →
  (length chunk <= 7)%nat → (length got + length chunk <= 128)%nat →
  ∃ w1 rest, length (seg_header t (Z.of_nat (length chunk)) last :: rest) = 8%nat
    ∧ download_seg_req t chunk last = seg_header t (Z.of_nat (length chunk)) last :: rest
    ∧ listening w1 ∧ node_id w1 = node_id w ∧ w_app w1 = w_app w
    ∧ downloading w1 index sub (got ++ chunk) total (1 - t)
    ∧ co_rx w (sdo_req (node_id w) (download_seg_req t chunk last)) now
      = (let d := [u8 (Z.lor 0x20 (Z.shiftl t 4))] ++ replicate 7 0 in
         if last then
           if negb (total =? 0) && negb (Z.of_nat (length (got ++ chunk)) =? total) then
             Ok (sdo_abort w1 index sub CO_ABORT_TYPE_MISMATCH)
           else
             wa ← od_write w1 index sub (got ++ chunk);
             let '(w, abort) := wa in
             let w := sdo_put w ((sdo w) <| sdo_state := SDO_IDLE |>) in
             if negb (abort =? 0) then Ok (sdo_abort w index sub abort) else Ok (sdo_reply w d)
         else Ok (sdo_reply w1 d)).
Proof.
  intros Hlis [Hst [Hi Hsb] Hgot Hlen Hpos Htog Hcap] Ht Hc Hfit.
  destruct (seg_header_fields t (Z.of_nat (length chunk)) last Ht ltac:(lia)) as (Hf1 & Hf2 & Hf3 & Hf4).
  set (rest := chunk ++ replicate (7 - length chunk) 0).
  assert (length rest = 7%nat) as Hrest by (subst rest; rewrite length_app, length_replicate; lia).
  set (s := (sdo w) <| sdo_buf := list_inserts (length got) chunk (sdo_buf (sdo w)) |>
     <| sdo_pos := Z.of_nat (length (got ++ chunk)) |> <| sdo_last_ms := now |> <| sdo_toggle := 1 - t |>).
  assert (Z.lxor t 1 = 1 - t) as Hx by (by destruct Ht as [->| ->]).
  assert (take (length (got ++ chunk)) (list_inserts (length got) chunk (sdo_buf (sdo w))) = got ++ chunk) as Htk.
  { rewrite length_app, take_inserts by lia. by rewrite Hgot. }
  exists (sdo_put (noted w now) s), rest.
  split_and!; [cbn; lia|done|done|done|done|split; cbn; rewrite ?length_inserts; done|].
  rewrite co_rx_sdo by done. unfold download_seg_req. fold rest.
  rewrite sdo_rx_download_seg by done.
  change (stat st_sdo_requests (master_note _)) with (noted w now).
  unfold sdo_download_segment. change (sdo (noted w now)) with (sdo w).
  rewrite decide_False by (intros Hn; by apply Hn). rewrite Hf3, Htog, Z.eqb_refl. cbn [negb].
  rewrite Hf1, Hf2, Hpos. replace (7 - (7 - Z.of_nat (length chunk))) with (Z.of_nat (length chunk)) by lia.
  unfold CO_SDO_BUF_SIZE. rewrite (proj2 (Z.ltb_ge _ _)) by lia.
  rewrite array_read_ok by lia. cbn [mbind res_bind].
  replace (take (Z.to_nat (Z.of_nat (length chunk))) (drop (Z.to_nat 0) rest)) with chunk
    by (rewrite Nat2Z.id; change (drop (Z.to_nat 0) rest) with rest; subst rest;
        by rewrite take_app_length).
  rewrite array_write_ok by (rewrite ?Hcap; lia). cbn [mbind res_bind]. rewrite Nat2Z.id.
  rewrite Hx. replace (Z.of_nat (length got) + Z.of_nat (length chunk))
    with (Z.of_nat (length (got ++ chunk))) by (rewrite length_app; lia).
  change (n_now_ms (w_node (noted w now))) with now. fold s.
  destruct last; [|done]. change (negb (1 =? 0)) with true. cbn iota.
  change (sdo_len s) with (sdo_len (sdo w)). change (sdo_index s) with (sdo_index (sdo w)).
  change (sdo_sub s) with (sdo_sub (sdo w)).
  change (sdo_pos s) with (Z.of_nat (length (got ++ chunk))). rewrite Hlen, Hi, Hsb.
  destruct (negb (total =? 0) && _); [done|].
  rewrite array_read_ok by (subst s; cbn; rewrite ?length_inserts, ?length_app; lia).
  cbn [mbind res_bind]. rewrite Nat2Z.id.
  change (drop (Z.to_nat 0) (sdo_buf s)) with (list_inserts (length got) chunk (sdo_buf (sdo w))).
  by rewrite Htk.
Qed.

(** The client sends [bytes] in segments of seven bytes, the last one marked. *)
Fixpoint download_segments (nid now : Z) (k : nat) (bytes : list Z) (t : Z) (w : world A)
    : res (world A) :=
  match k with
  | O => co_rx w (sdo_req nid (download_seg_req t bytes true)) now
  | S k' =>
      w ← co_rx w (sdo_req nid (download_seg_req t (take 7 bytes) false)) now;
      download_segments nid now k' (drop 7 bytes) (1 - t) w
  end.

(** What the server answers to the last segment. *)
Definition last_reply (index sub t code : Z) : list Z :=
  if code =? 0 then [u8 (Z.lor 0x20 (Z.shiftl t 4))] ++ replicate 7 0
  else [0x80] ++ co_put_u16 index ++ [sub] ++ co_put_u32 code.

Lemma sdo_abort_spec w index sub code :
  ∃ f, f_data f = [0x80] ++ co_put_u16 index ++ [sub] ++ co_put_u32 code
    ∧ sent (sdo_abort w index sub code) = sent w ++ [f]
    ∧ rtc send_step (w_app w) (w_app (sdo_abort w index sub code))
    ∧ sdo_state (sdo (sdo_abort w index sub code)) = SDO_IDLE.
Proof.
  destruct (sdo_reply_spec w ([0x80] ++ co_put_u16 index ++ [sub] ++ co_put_u32 code) eq_refl)
    as (Hs & _ & Ha). eexists. split_and!; [|exact Hs|exact Ha|done]. done.
Qed.

Lemma download_segments_spec k : ∀ w index sub got total t bytes now wr,
  listening w → downloading w index sub got total t → t = 0 ∨ t = 1 →
  7 * Z.of_nat k < Z.of_nat (length bytes) <= 7 * (Z.of_nat k + 1) →
  (length got + length bytes <= 128)%nat → total = Z.of_nat (length (got ++ bytes)) →
  0x2000 <= index → app_od_write = Some wr →
  ∃ w' a1 t', download_segments (node_id w) now k bytes t w = Ok w'
    ∧ rtc send_step (w_app w) a1
    ∧ rtc send_step (wr a1 index sub (got ++ bytes)).1 (w_app w')
    ∧ list.last (map f_data (sent w'))
      = Some (last_reply index sub t' (wr a1 index sub (got ++ bytes)).2)
    ∧ sdo_state (sdo w') = SDO_IDLE.
Proof.
  induction k as [|k IH]; intros w index sub got total t bytes now wr Hl Hd Ht Hk Hfit Htot Hix Hwr.
  - destruct (download_step w index sub got total t bytes true now Hl Hd Ht ltac:(lia) Hfit)
      as (w1 & rest & _ & _ & _ & _ & Ha & Hd1 & Hrx).
    cbn [download_segments]. rewrite Hrx. rewrite <- Htot, Z.eqb_refl, andb_false_r.
    unfold od_write, is_internal_index. replace (index <? 0x2000) with false by lia.
    rewrite andb_false_r, Hwr, Ha. destruct (wr (w_app w) index sub (got ++ bytes)) as [a2 code] eqn:E.
    cbn [mbind res_bind]. destruct (Z.eqb_spec code 0) as [->|Hne]; cbn [negb].
    + set (w2 := sdo_put _ _).
      destruct (sdo_reply_spec w2 ([u8 (Z.lor 0x20 (Z.shiftl t 4))] ++ replicate 7 0) eq_refl)
        as (Hs & Hcore & Happ).
      eexists _, (w_app w), t. rewrite E. split_and!; [done|done|exact Happ|..].
      * rewrite Hs, map_app. cbn [map]. by rewrite last_snoc.
      * unfold sdo. by rewrite (core_sdo _ _ Hcore).
    + set (w2 := sdo_put _ _). destruct (sdo_abort_spec w2 index sub code) as (f & Hf & Hs & Happ & Hid).
      eexists _, (w_app w), t. rewrite E. split_and!; [done|done|exact Happ|..|done].
      rewrite Hs, map_app. cbn [map]. rewrite last_snoc, Hf. unfold last_reply. cbn [snd].
      by destruct (Z.eqb_spec code 0).
  - destruct (download_step w index sub got total t (take 7 bytes) false now Hl Hd Ht)
      as (w1 & rest & _ & _ & Hl1 & Hid1 & Ha & Hd1 & Hrx); [rewrite length_take; lia..|].
    destruct (sdo_reply_spec w1 ([u8 (Z.lor 0x20 (Z.shiftl t 4))] ++ replicate 7 0) eq_refl)
      as (Hs & Hcore & Happ).
    set (w2 := sdo_reply w1 _) in *.
    assert (listening w2 ∧ node_id w2 = node_id w1 ∧ sdo w2 = sdo w1) as (Hl2 & Hid2 & Hsdo).
    { unfold listening, node_id, sdo in *.
      by rewrite (core_cfg _ _ Hcore), (core_nmt _ _ Hcore), (core_sdo _ _ Hcore). }
    destruct (IH w2 index sub (got ++ take 7 bytes) total (1 - t) (drop 7 bytes) now wr)
      as (w' & a1 & t' & Hrun & Hr1 & Hr2 & Hlast & Hidle); try done; try lia.
    + by destruct Hd1; split; rewrite ?Hsdo.
    + rewrite length_drop. lia.
    + rewrite length_app, length_take, length_drop. lia.
    + by rewrite <- app_assoc, take_drop.
    + rewrite <- app_assoc, take_drop in *. exists w', a1, t'. split_and!; try done.
      * cbn [download_segments]. rewrite Hrx. cbn [mbind res_bind].
        by rewrite <- Hid1, <- Hid2.
      * rewrite <- Ha. by etrans.
Qed.

Lemma download_initiate w index sub now len :
  wf w → listening w → is_u16 index → 0 <= len <= 128 →
  ∃ w', co_rx w (sdo_req (node_id w) (download_req index sub len)) now = Ok w'
    ∧ listening w' ∧ node_id w' = node_id w ∧ rtc send_step (w_app w) (w_app w')
    ∧ downloading w' index sub [] len 0.
Proof.
  intros Hw Hlis Hix Hlen. pose proof (sw_buf _ (nw_sdo _ Hw)) as H128.
  rewrite co_rx_sdo by done. unfold sdo_rx. cbn [f_dlc f_rtr f_data sdo_req].
  change ((8 <? 8) || false) with false. cbn iota.
  change (stat st_sdo_requests (master_note _)) with (noted w now).
  change (array_get (download_req index sub len) 0) with (Ok (A := Z) 0x21).
  change (array_read (download_req index sub len) 1 2) with (Ok (co_put_u16 index)).
  change (array_get (download_req index sub len) 3) with (Ok sub).
  cbn [mbind res_bind]. rewrite get_put_u16 by done.
  change (Z.shiftr 0x21 5) with 1. cbn [Z.eqb Pos.eqb].
  change (array_read (download_req index sub len) 4 4) with (Ok (co_put_u32 len)).
  cbn [mbind res_bind]. unfold sdo_download_initiate.
  change (negb (Z.land 0x21 0x02 =? 0)) with false. change (negb (Z.land 0x21 0x01 =? 0)) with true.
  cbn iota. rewrite get_put_u32 by (unfold is_u32; lia).
  unfold CO_SDO_BUF_SIZE. case_bool; [lia|].
  set (w1 := sdo_put _ _).
  destruct (sdo_reply_spec w1 (sdo_ack_initiate index sub) eq_refl) as (_ & Hcore & Happ).
  exists (sdo_reply w1 (sdo_ack_initiate index sub)). split_and!; [done|..|done|].
  - unfold listening, node_id in *. by rewrite (core_cfg _ _ Hcore), (core_nmt _ _ Hcore).
  - unfold node_id in *. by rewrite (core_cfg _ _ Hcore).
  - split; unfold sdo; rewrite (core_sdo _ _ Hcore); done.
Qed.

Definition client_download (w : world A) (index sub now : Z) (k : nat) (bytes : list Z)
    : res (world A) :=
  w1 ← co_rx w (sdo_req (node_id w) (download_req index sub (Z.of_nat (length bytes)))) now;
  download_segments (node_id w) now k bytes 0 w1.

End transfer.

Arguments client_download {A HA} w index sub now k bytes.
Arguments send_step {A} send a a'.
Arguments client_upload {A HA} w index sub now k.
Arguments sent {A} w.
Arguments listening {A} w.
