(* ===== verification/CoProps.v ===== *)
(** * Properties of the CANopen slave

    Safety over arbitrary traces, NMT gating, RPDO processing, expedited
    transfers and the PDO timing parameter, with a small concrete application
    for the witnesses. *)

From S2P Require Import Prelude CoTypes CoOd CoPdo CoSdo CoNode CoInv CoSafety CoTransfer.

(** C8: for every application whose read callback respects its buffer, the
    node initialised with any configuration runs any sequence of received
    frames, ticks, emergencies and configuration calls without ever leaving an
    array, and in every state it reaches the SDO transfer lies inside its
    128-byte buffer, every PDO mapping has at most eight entries of 8, 16, 32
    or 64 bits and 64 bits together, and RPDOs map application objects only. *)
Theorem canopen_node_safe {A} `{HA : CoApp A} `{!CoAppLaws A} (a : A) cfg now es :
  Forall event_ok es →
  ∃ w w', co_init a cfg now = Ok w ∧ co_run w es = Ok w' ∧ node_wf (w_node w').
Proof.
  intros Hes. pose proof (co_init_safe a cfg now) as (w & Hi & Hw)%safe_ok.
  pose proof (co_run_safe w es Hw Hes) as (w' & Hr & Hw')%safe_ok. by exists w, w'.
Qed.

Section gating.
Context {A : Type} `{HA : CoApp A} `{!CoAppLaws A}.
Implicit Types w : world A.

(** Nothing but the frame counter, the clock and the master note changed. *)
Record untouched w w' : Prop := {
  un_app : w_app w' = w_app w;
  un_wire : w_wire w' = w_wire w;
  un_sdo : n_sdo (w_node w') = n_sdo (w_node w);
  un_tpdo : n_tpdo (w_node w') = n_tpdo (w_node w);
  un_rpdo : n_rpdo (w_node w') = n_rpdo (w_node w);
  un_nmt : n_nmt (w_node w') = n_nmt (w_node w)
}.

Lemma rtr_loop_idle w f n i :
  wf w → n_nmt (w_node w) ≠ CO_NMT_OPERATIONAL → 0 <= i → i + Z.of_nat n <= 4 →
  safe (rtr_loop w f n i) (λ r, r.1 = w).
Proof.
  intros Hw Hn. revert i. induction n as [|n IH]; intros i Hi Hle; [done|].
  cbn [rtr_loop]. eapply safe_bind; [apply safe_tpdo_get; [done|lia]|]. intros p _.
  destruct (_ && _); [by rewrite decide_False|apply IH; lia].
Qed.

Lemma rpdo_loop_idle w f n i :
  wf w → n_nmt (w_node w) ≠ CO_NMT_OPERATIONAL → 0 <= i → i + Z.of_nat n <= 2 →
  safe (rpdo_loop w f n i) (λ r, r.1 = w).
Proof.
  intros Hw Hn. revert i. induction n as [|n IH]; intros i Hi Hle; [done|].
  cbn [rpdo_loop]. eapply safe_bind; [apply safe_rpdo_get; [done|lia]|]. intros p _.
  destruct (_ || _); [apply IH; lia|by rewrite decide_True].
Qed.

Lemma pdo_rx_idle w f :
  wf w → n_nmt (w_node w) ≠ CO_NMT_OPERATIONAL → safe (pdo_rx w f) (λ r, r.1 = w).
Proof.
  intros. unfold pdo_rx. destruct (f_rtr f); [by apply rtr_loop_idle|by apply rpdo_loop_idle].
Qed.

Lemma co_rx_untouched w f now :
  wf w → f_id f ≠ COB_NMT → n_nmt (w_node w) ≠ CO_NMT_OPERATIONAL →
  n_nmt (w_node w) = CO_NMT_STOPPED ∨ f_id f ≠ u16 (COB_SDO_RX_BASE + node_id w) →
  safe (co_rx w f now) (untouched w).
Proof.
  intros Hw Hid Hn Hsdo. unfold co_rx. set (w1 := stat st_rx_frames _).
  assert (wf w1) as Hw1 by (by destruct Hw; split).
  rewrite (proj2 (Z.eqb_neq _ _) Hid). destruct (decide _); [by split|].
  destruct (_ && _).
  { unfold sync_rx. rewrite decide_False by done. by split. }
  destruct (decide _); [by split|]. destruct Hsdo as [Hs|Hs]; [done|].
  change (node_id w1) with (node_id w). rewrite (proj2 (Z.eqb_neq _ _) Hs).
  eapply safe_bind; [by apply pdo_rx_idle|]. intros [w2 []] E; cbn in E; subst w2; by split.
Qed.

(** The counter of sent PDOs. *)
Definition pdo_tx_count w : Z := st_pdo_tx (n_stats (w_node w)).

Lemma tx_pdo_count w id d : pdo_tx_count (tx w id d).2 = pdo_tx_count w.
Proof. unfold tx. destruct app_send as [s|]; [|done]. by destruct (s _ _) as [a []]. Qed.

Lemma heartbeat_pdo_count w : pdo_tx_count (heartbeat_tick w) = pdo_tx_count w.
Proof.
  unfold heartbeat_tick. destruct (n_bootup_pending _).
  - pose proof (tx_pdo_count w (COB_HB_BASE + node_id w) [0]). by destruct (tx _ _ _) as [[] v1].
  - destruct (_ =? 0); [done|]. destruct (_ <=? _); [|done].
    apply (tx_pdo_count w (COB_HB_BASE + node_id w) [nmt_code (n_nmt (w_node w))]).
Qed.

Lemma co_tick_idle w now :
  n_nmt (w_node w) ≠ CO_NMT_OPERATIONAL →
  safe (co_tick w now) (λ w', n_tpdo (w_node w') = n_tpdo (w_node w)
    ∧ n_rpdo (w_node w') = n_rpdo (w_node w) ∧ pdo_tx_count w' = pdo_tx_count w).
Proof.
  intros Hn. unfold co_tick, tpdo_tick. set (v := w <| w_node := _ |>).
  pose proof (heartbeat_tick_core v) as Hc. pose proof (heartbeat_pdo_count v) as Hp.
  revert Hc Hp. generalize (heartbeat_tick v). intros w1 Hc Hp.
  set (w2 := if _ && _ then _ else w1).
  assert (n_nmt (w_node w2) = n_nmt (w_node w1) ∧ n_tpdo (w_node w2) = n_tpdo (w_node w1)
    ∧ n_rpdo (w_node w2) = n_rpdo (w_node w1) ∧ pdo_tx_count w2 = pdo_tx_count w1) as (-> & E2 & E3 & E4).
  { subst w2. destruct (_ && _); [|done].
    pose proof (sdo_abort_core w1 (sdo_index (sdo w1)) (sdo_sub (sdo w1)) CO_ABORT_TIMEOUT) as Ha.
    destruct (core_pdo _ _ Ha) as [-> ->]. rewrite (core_nmt _ _ Ha). split_and!; try done.
    apply (tx_pdo_count w1). }
  rewrite (core_nmt _ _ Hc), decide_False by done. cbn [safe].
  destruct (core_pdo _ _ Hc) as [Et Er]. rewrite E2, E3, E4, Et, Er, Hp. done.
Qed.

End gating.

(** a stopped node reacts to NMT commands only: any other frame, a SYNC, an
    SDO request, an RPDO or a remote request included, reaches neither the
    application nor the wire and changes no SDO or PDO state. *)
Theorem stopped_node_ignores_frames {A} `{HA : CoApp A} `{!CoAppLaws A} (w : world A) f now :
  wf w → n_nmt (w_node w) = CO_NMT_STOPPED → f_id f ≠ COB_NMT →
  ∃ w', co_rx w f now = Ok w' ∧ untouched w w'.
Proof.
  intros Hw Hn Hid. apply safe_ok, co_rx_untouched; try done; [by rewrite Hn|by left].
Qed.

(** process data moves only in OPERATIONAL: in any other state a frame that
    is neither an NMT command nor an SDO request to this node touches neither
    the application nor the wire nor the PDOs, and a tick leaves all PDOs
    alone. *)
Theorem process_data_only_operational {A} `{HA : CoApp A} `{!CoAppLaws A} (w : world A) f now :
  wf w → n_nmt (w_node w) ≠ CO_NMT_OPERATIONAL → f_id f ≠ COB_NMT →
  f_id f ≠ u16 (COB_SDO_RX_BASE + node_id w) →
  (∃ w', co_rx w f now = Ok w' ∧ untouched w w') ∧
  (∃ w', co_tick w now = Ok w' ∧ n_tpdo (w_node w') = n_tpdo (w_node w)
     ∧ n_rpdo (w_node w') = n_rpdo (w_node w) ∧ pdo_tx_count w' = pdo_tx_count w).
Proof.
  intros Hw Hn Hid Hsdo. split; [apply safe_ok, co_rx_untouched; by auto|].
  by apply safe_ok, co_tick_idle.
Qed.

(** ** Received process data *)

(** an event-driven RPDO is applied as a whole or not at all: in
    OPERATIONAL, a frame on the first RPDO's identifier that is shorter than
    the mapping writes nothing and sends EMCY 0x8210; otherwise every mapped
    object is written, in order, with its own slice of the frame, and nothing
    is sent. *)
Theorem rpdo_all_or_nothing {A} `{HA : CoApp A} `{!CoAppLaws A} send (w : world A) f now p :
  app_send = Some send → wf w → frame_wf f → n_nmt (w_node w) = CO_NMT_OPERATIONAL →
  f_rtr f = false → f_id f ≠ COB_NMT → f_id f ≠ COB_SYNC →
  f_id f ≠ u16 (COB_SDO_RX_BASE + node_id w) →
  n_rpdo (w_node w) !! 0%nat = Some p → Z.land (r_cob_id p) COB_ID_INVALID = 0 →
  0 < r_map_count p → Z.land (r_cob_id p) 0x7FF = f_id f → 240 < r_trans_type p →
  let count := Z.to_nat (r_map_count p) in
  ∃ w', co_rx w f now = Ok w' ∧
    if f_dlc f <? need_bytes (r_map p) count then
      rtc (send_step send) (w_app w) (w_app w') ∧
      ∃ e d, sent w' = sent w ++ [e] ∧ f_data e = co_put_u16 0x8210 ++ d
    else w_app w' = rpdo_writes (r_map p) count (f_data f) (w_app w) ∧ w_wire w' = w_wire w.
Proof.
  intros Hsend Hw Hf Hn Hrtr H0 H1 H2 Hp Hval Hcnt Hid Htt count.
  unfold co_rx. rewrite (proj2 (Z.eqb_neq _ _) H0), (proj2 (Z.eqb_neq _ _) H1).
  set (w1 := stat st_rx_frames _). change (node_id w1) with (node_id w).
  change (n_nmt (w_node w1)) with (n_nmt (w_node w)). rewrite Hn, !decide_False by done. cbn [andb].
  rewrite (proj2 (Z.eqb_neq _ _) H2). unfold pdo_rx. rewrite Hrtr.
  change (Z.to_nat CO_RPDO_COUNT) with 2%nat. cbn [rpdo_loop].
  assert (wf w1) as Hw1 by (by destruct Hw; split).
  assert (rpdo_wf p) as Hpwf by (by eapply (Forall_lookup_1 _ _ _ _ (proj2 (nw_rpdo _ Hw)))).
  rewrite (array_get_ok (n_rpdo (w_node w1)) 0 p) by done. cbn [mbind res_bind].
  rewrite Hval, Hid, (Z.eqb_refl (f_id f)), (proj2 (Z.eqb_neq (r_map_count p) 0)) by lia. cbn [Z.eqb negb orb].
  rewrite decide_False by (cbn; rewrite Hn; auto). rewrite (proj2 (Z.leb_gt _ _)) by lia.
  rewrite (rpdo_apply_eq w1 0 p) by (done || apply Hf || lia). cbn [mbind res_bind]. fold count.
  destruct (f_dlc f <? need_bytes (r_map p) count).
  - eexists; split; [reflexivity|]. unfold co_emcy. change (n_nmt (w_node w1)) with (n_nmt (w_node w)).
    rewrite decide_False by (rewrite Hn; naive_solver). unfold tx. rewrite Hsend.
    destruct (send _ _) as [a ok] eqn:E. split.
    + apply rtc_once. lazymatch type of E with send _ ?e = _ => exists e end.
      apply (f_equal fst) in E. by destruct ok.
    + unfold sent. destruct ok; cbn; rewrite map_app; by do 2 eexists.
  - by eexists.
Qed.

(** ** SDO transfers *)

(** C9: a segmented SDO upload returns the object: when the application's read
    callback yields more than four bytes for an object, the client that sends
    the initiate request and then segment requests with alternating toggle bit
    gets a reply announcing that length, then segments whose data concatenate
    to exactly those bytes, the last and only the last one marked as such, and
    the server is idle again. *)
Theorem sdo_upload_roundtrip {A} `{HA : CoApp A} `{!CoAppLaws A} send rd (w : world A)
    index sub now a1 bytes :
  app_send = Some send → app_od_read = Some rd → wf w → listening w →
  is_u16 index → is_internal_index index = false →
  rd (w_app w) index sub CO_SDO_BUF_SIZE = (a1, (0, bytes)) → 4 < Z.of_nat (length bytes) →
  let k := Z.to_nat ((Z.of_nat (length bytes) - 1) / 7) in
  ∃ w' ds, client_upload w index sub now k = Ok w'
    ∧ map f_data (sent w') = map f_data (sent w) ++ ds
    ∧ upload_len ds = Z.of_nat (length bytes) ∧ upload_bytes ds = bytes
    ∧ map seg_last (tail ds) = replicate k false ++ [true]
    ∧ sdo_state (sdo w') = SDO_IDLE.
Proof.
  intros Hsend Hrd Hw Hlis Hix Hint Hread Hlen k.
  pose proof (app_read_cap rd (w_app w) index sub CO_SDO_BUF_SIZE a1 0 bytes Hrd ltac:(done) Hread) as Hcap.
  unfold CO_SDO_BUF_SIZE in Hcap.
  destruct (upload_initiate send Hsend w index sub now rd a1 bytes) as (w1 & Hrx & Hs1 & Hl1 & Hid & Hu);
    try done.
  destruct (upload_segments_spec send Hsend k w1 bytes 0 0 now) as (w2 & ds & Hrun & Hs2 & Hcat & Hlasts & Hidle);
    try done; [by left|subst k; Z.to_euclidean_division_equations; lia|].
  exists w2, (([0x41] ++ co_put_u16 index ++ [sub] ++ co_put_u32 (Z.of_nat (length bytes))) :: ds).
  split_and!; try done.
  - unfold client_upload. rewrite Hrx. cbn [mbind res_bind]. by rewrite <- Hid.
  - by rewrite Hs2, Hs1, <- app_assoc.
  - cbn [upload_len]. change (drop 4 _) with (co_put_u32 (Z.of_nat (length bytes))).
    apply get_put_u32. unfold is_u32. lia.
Qed.

(** C10: a segmented SDO download writes what the client sent: for 1 to 128
    bytes sent to an application object in segments of seven with alternating
    toggle bit, the application's write callback is called exactly once, with
    exactly those bytes; everything else the transfer does to the application
    is sending frames.  The final answer is the acknowledgement, or the abort
    with the code the callback returned, and the server is idle again. *)
Theorem sdo_download_roundtrip {A} `{HA : CoApp A} `{!CoAppLaws A} send wr (w : world A)
    index sub now bytes :
  app_send = Some send → app_od_write = Some wr → wf w → listening w →
  is_u16 index → 0x2000 <= index → 1 <= Z.of_nat (length bytes) <= 128 →
  let k := Z.to_nat ((Z.of_nat (length bytes) - 1) / 7) in
  ∃ w' a1 t, client_download w index sub now k bytes = Ok w'
    ∧ rtc (send_step send) (w_app w) a1
    ∧ rtc (send_step send) (wr a1 index sub bytes).1 (w_app w')
    ∧ last (map f_data (sent w')) = Some (last_reply index sub t (wr a1 index sub bytes).2)
    ∧ sdo_state (sdo w') = SDO_IDLE.
Proof.
  intros Hsend Hwr Hw Hlis Hix Happi Hlen k.
  destruct (download_initiate send Hsend w index sub now (Z.of_nat (length bytes)))
    as (w1 & Hrx & Hl1 & Hid & Happ & Hd); [done..|lia|].
  destruct (download_segments_spec send Hsend k w1 index sub [] (Z.of_nat (length bytes)) 0 bytes now wr)
    as (w' & a1 & t & Hrun & Hr1 & Hr2 & Hlast & Hidle); try done; try lia.
  { subst k. Z.to_euclidean_division_equations. lia. }
  { cbn. lia. }
  exists w', a1, t. split_and!; try done.
  - unfold client_download. rewrite Hrx. cbn [mbind res_bind]. by rewrite <- Hid.
  - by etrans.
Qed.


(** What a client takes from an expedited upload reply. *)
Definition expedited_data (d : list Z) : list Z :=
  take (Z.to_nat (4 - Z.land (Z.shiftr (byte_at d 0) 2) 3)) (drop 4 d).

Section expedited.
Context {A : Type} `{HA : CoApp A} `{!CoAppLaws A}.

(** The reply of the server to an upload of at most four bytes. *)
Lemma expedited_reply send (w w1 : world A) index sub now bytes :
  app_send = Some send → wf w → listening w → is_u16 index →
  od_read (noted w now) index sub CO_SDO_BUF_SIZE = Ok (w1, (0, bytes)) →
  w_wire w1 = w_wire w → w_node w1 = w_node (noted w now) → (length bytes <= 4)%nat →
  ∃ w', co_rx w (sdo_req (node_id w) (upload_req index sub)) now = Ok w'
    ∧ map f_data (sent w') = map f_data (sent w)
        ++ [[u8 (Z.lor 0x43 (Z.shiftl (4 - Z.of_nat (length bytes)) 2))] ++ co_put_u16 index ++ [sub]
            ++ bytes ++ replicate (4 - length bytes) 0]
    ∧ sdo_state (sdo w') = SDO_IDLE.
Proof.
  intros Hsend Hw Hlis Hix Hread Hwire Hnode Hlen.
  pose proof (sw_buf _ (nw_sdo _ Hw)) as H128.
  rewrite co_rx_sdo by done. unfold sdo_rx. cbn [f_dlc f_rtr f_data sdo_req].
  change ((8 <? 8) || false) with false. cbn iota.
  change (stat st_sdo_requests (master_note _)) with (noted w now).
  change (array_get (upload_req index sub) 0) with (Ok (A := Z) 0x40).
  change (array_read (upload_req index sub) 1 2) with (Ok (co_put_u16 index)).
  change (array_get (upload_req index sub) 3) with (Ok sub).
  cbn [mbind res_bind]. rewrite get_put_u16 by done.
  change (Z.shiftr 0x40 5) with 2. cbn [Z.eqb Pos.eqb].
  unfold sdo_upload_initiate. rewrite Hread. cbn [mbind res_bind].
  assert (sdo w1 = sdo w) as -> by (unfold sdo; by rewrite Hnode).
  rewrite array_write_ok by (unfold sdo; lia). cbn [mbind res_bind].
  change (negb (0 =? 0)) with false. cbn iota. case_bool; [|lia].
  rewrite array_read_ok by (rewrite ?length_inserts; unfold sdo; lia). cbn [mbind res_bind].
  rewrite Nat2Z.id. change (Z.to_nat 0) with 0%nat. rewrite drop_0.
  rewrite (take_inserts _ 0 bytes), take_0 by (unfold sdo; lia). cbn [app].
  replace (Z.to_nat (4 - Z.of_nat (length bytes))) with (4 - length bytes)%nat by lia.
  set (d := u8 _ :: _). set (w2 := sdo_put _ _).
  assert (length d = 8%nat) as Hd8
    by (subst d; cbn [co_put_u16 app length]; rewrite length_app, length_replicate; lia).
  destruct (sdo_reply_spec send Hsend w2 d Hd8) as (Hsent & Hcore & _).
  eexists. split_and!; [done|..].
  - rewrite Hsent, map_app. unfold sent. subst w2. cbn [w_wire sdo_put]. cbn. by rewrite Hwire.
  - unfold sdo. by rewrite (core_sdo _ _ Hcore).
Qed.

End expedited.

(** an expedited SDO upload returns the object: for an application object
    of one to four bytes the client's reading of the single reply (the length
    from its header, the data behind it) is exactly the bytes the application
    returned. *)
Theorem sdo_expedited_upload {A} `{HA : CoApp A} `{!CoAppLaws A} send rd (w : world A)
    index sub now a1 bytes :
  app_send = Some send → app_od_read = Some rd → wf w → listening w →
  is_u16 index → is_internal_index index = false →
  rd (w_app w) index sub CO_SDO_BUF_SIZE = (a1, (0, bytes)) → (1 <= length bytes <= 4)%nat →
  ∃ w' d, co_rx w (sdo_req (node_id w) (upload_req index sub)) now = Ok w'
    ∧ map f_data (sent w') = map f_data (sent w) ++ [d] ∧ expedited_data d = bytes
    ∧ sdo_state (sdo w') = SDO_IDLE.
Proof.
  intros Hsend Hrd Hw Hlis Hix Hint Hread Hlen.
  destruct (expedited_reply send w ((noted w now) <| w_app := a1 |>) index sub now bytes)
    as (w' & Hrx & Hs & Hidle); try done; try lia.
  { unfold od_read. rewrite Hint, Hrd. change (w_app (noted w now)) with (w_app w). by rewrite Hread. }
  do 2 eexists. split_and!; [done|exact Hs| |done].
  unfold expedited_data.
  do 4 (destruct bytes as [|? bytes]; cbn in Hlen |- *; [try lia; done|]).
  destruct bytes; [done|cbn in Hlen; lia].
Qed.

(** an empty object is not answered as empty: when the device name is the
    empty string, the reply to an upload of 0x1008 carries the header of a
    four-byte object, so the client reads four zero bytes. *)
Theorem sdo_empty_object_reads_four {A} `{HA : CoApp A} `{!CoAppLaws A} send (w : world A) now :
  app_send = Some send → wf w → listening w → cc_device_name (n_cfg (w_node w)) = [] →
  ∃ w' d, co_rx w (sdo_req (node_id w) (upload_req 0x1008 0)) now = Ok w'
    ∧ map f_data (sent w') = map f_data (sent w) ++ [d] ∧ expedited_data d = [0; 0; 0; 0].
Proof.
  intros Hsend Hw Hlis Hname.
  destruct (expedited_reply send w (noted w now) 0x1008 0 now []) as (w' & Hrx & Hs & _);
    try done; try (cbn; lia).
  { unfold od_read, od_internal_read, od_profile_read, scalar, rd_str. cbn. by rewrite Hname. }
  do 2 eexists. split_and!; [done|exact Hs|done].
Qed.

(** ** PDO timing *)

(** the inhibit time a TPDO is configured with survives the conversion to
    units of 0.1 ms exactly up to 6553 ms; from 6554 ms on the 16-bit field
    wraps and the effective inhibit time is shorter than the one configured. *)
Theorem tpdo_inhibit_conversion {A} `{HA : CoApp A} `{!CoAppLaws A} (w w' : world A)
    n cob ty inhibit_ms ev map p :
  wf w → is_u8 n → is_u16 inhibit_ms →
  co_tpdo_configure w n cob ty inhibit_ms ev map = Ok (w', true) →
  n_tpdo (w_node w') !! Z.to_nat n = Some p →
  if inhibit_ms <=? 6553 then (t_inhibit_100us p + 9) / 10 = inhibit_ms
  else (t_inhibit_100us p + 9) / 10 < inhibit_ms.
Proof.
  intros Hw Hn Hi Hc Hp. unfold co_tpdo_configure, CO_TPDO_COUNT, is_u8, is_u16 in *.
  destruct (_ || _) eqn:E; [done|]. apply orb_false_iff in E as [E1 _].
  destruct (map_validate _ _ _ _) as [[w1 abort]| |] eqn:Ev; cbn [mbind res_bind] in Hc; [|done..].
  destruct (negb _); [done|].
  destruct (array_get _ _) as [q| |]; cbn [mbind res_bind] in Hc; [|done..].
  destruct (array_write _ _ _) as [m| |]; cbn [mbind res_bind] in Hc; [|done..].
  unfold tpdo_put, array_set in Hc. case_decide as Hb; cbn [mbind res_bind] in Hc; [|done].
  simplify_eq. cbn in Hp. rewrite list_lookup_insert_eq in Hp by lia. simplify_eq. cbn [t_inhibit_100us].
  cbn. case_bool; cint.
Qed.

(** ** A concrete application *)

(** One object, 0x2000 sub 0, whose bytes are the application state; the
    driver accepts every frame; on reset the owner maps the object's first four
    bytes into the first RPDO. *)
Definition demo_send (a : list Z) (f : co_frame_t) : list Z * bool := (a, true).
Definition demo_write (a : list Z) (index sub : Z) (bytes : list Z) : list Z * Z :=
  if (index =? 0x2000) && (sub =? 0) then (bytes, 0) else (a, CO_ABORT_NO_OBJECT).

#[local] Instance demo_app : CoApp (list Z) := {|
  app_send := Some demo_send;
  app_od_read := Some (λ a index sub cap,
    if (index =? 0x2000) && (sub =? 0) then (a, (0, take (Z.to_nat cap) a))
    else (a, (CO_ABORT_NO_OBJECT, [])));
  app_od_write := Some demo_write;
  app_on_reset := Some (λ a _, (a, [ConfRpdo 0 0 255 [0x20000020]]));
  app_on_nmt_changed := None
|}.

#[local] Instance demo_laws : CoAppLaws (list Z).
Proof.
  split.
  - intros rd a index sub cap a' code bytes [= <-] Hc E. destruct (_ && _); simplify_eq; cbn; [|lia].
    rewrite length_take. lia.
  - intros cb a b a' cs [= <-] [= <- <-]. repeat constructor; cbn; lia.
Qed.

Definition co_demo_cfg : co_config_t := mk_co_config 5 1000 0 0 0 0 0 [] [] [] true.
Definition nmt_frame (cmd : Z) : co_frame_t := mk_frame 0 2 false [cmd; 5; 0; 0; 0; 0; 0; 0].

(** A concrete list holds bytes. *)
Ltac bytes := repeat (apply Forall_cons_2; [unfold is_u8; lia|]); apply Forall_nil_2.

Lemma nmt_frame_wf cmd : is_u8 cmd → frame_wf (nmt_frame cmd).
Proof. intros. split; [cbn; lia|done|]. apply Forall_cons_2; [done|]. bytes. Qed.

(** The node with object [a] after a reset and the NMT command [cmd]. *)
Definition demo_world (a : list Z) (cmd : Z) : world (list Z) :=
  match w ← co_init a co_demo_cfg 0;
        co_run w [EvRx (nmt_frame 0x81) 1; EvRx (nmt_frame cmd) 2; EvTick 3] with
  | Ok w => w
  | _ => mk_world (node_zero co_demo_cfg) a []
  end.

Lemma demo_world_wf a cmd : is_u8 cmd → wf (demo_world a cmd).
Proof.
  intros Hc. unfold demo_world.
  pose proof (co_init_safe a co_demo_cfg 0) as (w & -> & Hw)%safe_ok. cbn [mbind res_bind].
  pose proof (co_run_safe w [EvRx (nmt_frame 0x81) 1; EvRx (nmt_frame cmd) 2; EvTick 3] Hw) as Hr.
  apply safe_ok in Hr as (w' & -> & Hw'); [done|].
  repeat apply Forall_cons_2; try done; by apply nmt_frame_wf.
Qed.

Definition demo_bytes : list Z := [10; 20; 30; 40; 50; 60; 70; 80; 90; 100].

Lemma canopen_node_safe_witness :
  ∃ w w', co_init demo_bytes co_demo_cfg 0 = Ok w ∧ co_run w [EvRx (nmt_frame 1) 1] = Ok w'
          ∧ node_wf (w_node w').
Proof.
  apply (canopen_node_safe demo_bytes co_demo_cfg 0 [EvRx (nmt_frame 1) 1]).
  apply Forall_cons_2; [by apply nmt_frame_wf|done].
Defined.

Lemma stopped_node_ignores_frames_witness :
  ∃ w', co_rx (demo_world demo_bytes 2) (sdo_req 5 (upload_req 0x2000 0)) 10 = Ok w'
        ∧ untouched (demo_world demo_bytes 2) w'.
Proof.
  apply (stopped_node_ignores_frames (demo_world demo_bytes 2) (sdo_req 5 (upload_req 0x2000 0)) 10);
    [by apply demo_world_wf|by vm_compute|done].
Defined.

Lemma process_data_only_operational_witness :
  ∃ w', co_rx (demo_world demo_bytes 0x80) (mk_frame 0x205 8 false [1; 2; 3; 4; 5; 6; 7; 8]) 10 = Ok w'
        ∧ untouched (demo_world demo_bytes 0x80) w'.
Proof.
  destruct (process_data_only_operational (demo_world demo_bytes 0x80)
    (mk_frame 0x205 8 false [1; 2; 3; 4; 5; 6; 7; 8]) 10) as [Hrx _];
    [by apply demo_world_wf|by vm_compute|done|by vm_compute|exact Hrx].
Defined.

Lemma rpdo_all_or_nothing_witness :
  ∃ w', co_rx (demo_world demo_bytes 1) (mk_frame 0x205 8 false [1; 2; 3; 4; 5; 6; 7; 8]) 10 = Ok w'
        ∧ w_app w' = [1; 2; 3; 4].
Proof.
  destruct (rpdo_all_or_nothing demo_send (demo_world demo_bytes 1)
    (mk_frame 0x205 8 false [1; 2; 3; 4; 5; 6; 7; 8]) 10
    (mk_rpdo 0x205 255 1 [0x20000020; 0; 0; 0; 0; 0; 0; 0] false 0 (replicate 8 0)))
    as (w' & Hrx & Happ); [done|by apply demo_world_wf|split; [cbn; lia|done|cbn; bytes]
    |by vm_compute|done|done|done|by vm_compute|by vm_compute|done|done|done|done|].
  exists w'. split; [exact Hrx|]. destruct Happ as [-> _]. by vm_compute.
Defined.

Lemma sdo_expedited_upload_witness :
  ∃ w' d, co_rx (demo_world [7; 8; 9] 0x80) (sdo_req 5 (upload_req 0x2000 0)) 10 = Ok w'
    ∧ map f_data (sent w') = map f_data (sent (demo_world [7; 8; 9] 0x80)) ++ [d]
    ∧ expedited_data d = [7; 8; 9] ∧ sdo_state (sdo w') = SDO_IDLE.
Proof.
  eapply (sdo_expedited_upload (A := list Z) (HA := demo_app) _ _ (demo_world [7; 8; 9] 0x80) 0x2000
    0 10 [7; 8; 9] [7; 8; 9]); [reflexivity|reflexivity|by apply demo_world_wf|by vm_compute
    |by vm_compute|done|by vm_compute|cbn; lia].
Defined.

Lemma sdo_empty_object_reads_four_witness :
  ∃ w' d, co_rx (demo_world [] 0x80) (sdo_req 5 (upload_req 0x1008 0)) 10 = Ok w'
    ∧ map f_data (sent w') = map f_data (sent (demo_world [] 0x80)) ++ [d]
    ∧ expedited_data d = [0; 0; 0; 0].
Proof.
  apply (sdo_empty_object_reads_four demo_send (demo_world [] 0x80) 10);
    [done|by apply demo_world_wf|by vm_compute|by vm_compute].
Defined.

Lemma tpdo_inhibit_conversion_witness :
  ∃ w' p, co_tpdo_configure (demo_world [1; 2] 1) 0 0 255 7000 0 [0x20000010] = Ok (w', true)
    ∧ n_tpdo (w_node w') !! 0%nat = Some p ∧ (t_inhibit_100us p + 9) / 10 < 7000.
Proof.
  assert (is_u8 0 ∧ is_u8 1 ∧ is_u16 7000) as (U0 & U1 & Ui) by done.
  assert (∃ w' p, co_tpdo_configure (demo_world [1; 2] 1) 0 0 255 7000 0 [0x20000010] = Ok (w', true)
    ∧ n_tpdo (w_node w') !! 0%nat = Some p) as (w' & p & H1 & H2)
    by (do 2 eexists; split; [by vm_compute|by vm_compute]).
  pose proof (tpdo_inhibit_conversion (demo_world [1; 2] 1) w' 0 0 255 7000 0 [0x20000010] p
    (demo_world_wf [1; 2] 1 U1) U0 Ui H1 H2) as Hlt.
  change (7000 <=? 6553) with false in Hlt. exact (ex_intro _ w' (ex_intro _ p (conj H1 (conj H2 Hlt)))).
Defined.

Lemma sdo_upload_roundtrip_witness :
  ∃ w' ds, client_upload (demo_world demo_bytes 0x80) 0x2000 0 10 1 = Ok w'
    ∧ map f_data (sent w') = map f_data (sent (demo_world demo_bytes 0x80)) ++ ds
    ∧ upload_len ds = 10 ∧ upload_bytes ds = demo_bytes
    ∧ map seg_last (tail ds) = [false; true] ∧ sdo_state (sdo w') = SDO_IDLE.
Proof.
  eapply (sdo_upload_roundtrip (A := list Z) (HA := demo_app) _ _ (demo_world demo_bytes 0x80) 0x2000
    0 10 demo_bytes demo_bytes); [reflexivity|reflexivity|by apply demo_world_wf|by vm_compute
    |by vm_compute|done|by vm_compute|cbn; lia].
Defined.

Lemma sdo_download_roundtrip_witness :
  ∃ w' a1 t, client_download (demo_world [] 0x80) 0x2000 0 10 1 demo_bytes = Ok w'
    ∧ rtc (send_step demo_send) (w_app (demo_world [] 0x80)) a1
    ∧ rtc (send_step demo_send) (demo_write a1 0x2000 0 demo_bytes).1 (w_app w')
    ∧ last (map f_data (sent w'))
      = Some (last_reply 0x2000 0 t (demo_write a1 0x2000 0 demo_bytes).2)
    ∧ sdo_state (sdo w') = SDO_IDLE.
Proof.
  apply (sdo_download_roundtrip (A := list Z) (HA := demo_app) demo_send demo_write (demo_world [] 0x80) 0x2000
    0 10 demo_bytes); [reflexivity|reflexivity|by apply demo_world_wf|by vm_compute
    |by vm_compute|done|cbn; lia].
Defined.
