(* ===== verification/LogRing.v ===== *)
(** * The log ring: [log_ring.c]

    Models src/components/logging/src/log_ring.c: a byte ring of
    variable-length records with drop-oldest.  The abstract specification is a
    queue of decoded entries ([log_entry]); [ring_repr] relates the bytes of the
    ring, with their wrap gap, to that queue. *)

From S2P Require Import Prelude Bytes.

(** ** Data *)

Definition LOG_RING_HDR_SIZE : Z := 14.
Definition LOG_RING_MAX_TEXT : Z := 47.
Definition LOG_RING_MAX_ARGS : Z := 4.
Definition LOG_RING_RECORD_MIN : Z := LOG_RING_HDR_SIZE + 1.
Definition LOG_RING_RECORD_MAX : Z :=
  LOG_RING_HDR_SIZE + 4 * LOG_RING_MAX_ARGS + LOG_RING_MAX_TEXT + 1.
Definition LOG_RING_FLAG_ARGC_MASK : Z := 0x07.
Definition LOG_RING_FLAG_TRUNCATED : Z := 0x08.

Record log_ring_t := mk_log_ring {
  lr_buf : list Z;
  lr_capacity : Z;
  lr_head : Z;
  lr_tail : Z;
  lr_used : Z;
  lr_count : Z;
  lr_next_seq : Z;
  lr_first_seq : Z;
  lr_overwritten : Z
}.
#[export] Instance eta_log_ring_t : Eta log_ring_t := λ r, mk_log_ring (lr_buf r)
      (lr_capacity r) (lr_head r) (lr_tail r) (lr_used r) (lr_count r) (lr_next_seq r)
      (lr_first_seq r) (lr_overwritten r).
#[export] Instance set_lr_buf : Setter lr_buf. Proof. mk_setter. Defined.
#[export] Instance set_lr_capacity : Setter lr_capacity. Proof. mk_setter. Defined.
#[export] Instance set_lr_head : Setter lr_head. Proof. mk_setter. Defined.
#[export] Instance set_lr_tail : Setter lr_tail. Proof. mk_setter. Defined.
#[export] Instance set_lr_used : Setter lr_used. Proof. mk_setter. Defined.
#[export] Instance set_lr_count : Setter lr_count. Proof. mk_setter. Defined.
#[export] Instance set_lr_next_seq : Setter lr_next_seq. Proof. mk_setter. Defined.
#[export] Instance set_lr_first_seq : Setter lr_first_seq. Proof. mk_setter. Defined.
#[export] Instance set_lr_overwritten : Setter lr_overwritten. Proof. mk_setter. Defined.

(** The text pointer of a view is an offset into the ring buffer. *)
Record log_ring_view_t := mk_view {
  vw_level : Z;
  vw_module : Z;
  vw_flags : Z;
  vw_argc : Z;
  vw_event_id : Z;
  vw_seq : Z;
  vw_uptime_ms : Z;
  vw_args : list Z;
  vw_text : Z
}.

(** An iterator; the ring it points to is an argument of the operations. *)
Record log_ring_iter_t := mk_iter {
  it_pos : Z;
  it_remaining : Z
}.
#[export] Instance eta_log_ring_iter_t : Eta log_ring_iter_t := λ r, mk_iter
      (it_pos r) (it_remaining r).
#[export] Instance set_it_pos : Setter it_pos. Proof. mk_setter. Defined.
#[export] Instance set_it_remaining : Setter it_remaining. Proof. mk_setter. Defined.

(** ** Serialisation *)

Definition wr_u16 (v : Z) : list Z := [u8 (Z.land v 255); u8 (Z.shiftr v 8)].
Definition wr_u32 (v : Z) : list Z :=
  [u8 (Z.land v 255); u8 (Z.land (Z.shiftr v 8) 255);
   u8 (Z.land (Z.shiftr v 16) 255); u8 (Z.land (Z.shiftr v 24) 255)].

Definition rd_u16 (buf : list Z) (p : Z) : res Z :=
  p0 ← array_get buf p; p1 ← array_get buf (p + 1);
  Ok (u16 (Z.lor p0 (Z.shiftl p1 8))).

Definition rd_u32 (buf : list Z) (p : Z) : res Z :=
  p0 ← array_get buf p; p1 ← array_get buf (p + 1);
  p2 ← array_get buf (p + 2); p3 ← array_get buf (p + 3);
  Ok (Z.lor (Z.lor (Z.lor p0 (Z.shiftl p1 8)) (Z.shiftl p2 16)) (Z.shiftl p3 24)).

(** ** Operations *)

Definition at_wrap_gap (r : log_ring_t) (pos : Z) : res bool :=
  b ← array_get (lr_buf r) pos; Ok (b =? 0).

Definition discard_oldest (r : log_ring_t) : res log_ring_t :=
  if lr_count r =? 0 then Ok r else
  gap ← at_wrap_gap r (lr_tail r);
  let r := if (gap : bool)
           then r <| lr_used := u16 (lr_used r - (lr_capacity r - lr_tail r)) |>
                  <| lr_tail := 0 |>
           else r in
  size ← array_get (lr_buf r) (lr_tail r);
  let r := r <| lr_used := u16 (lr_used r - size) |>
             <| lr_tail := u16 (lr_tail r + size) |> in
  let r := if lr_tail r =? lr_capacity r then r <| lr_tail := 0 |> else r in
  let r := r <| lr_count := u16 (lr_count r - 1) |>
             <| lr_first_seq := u32 (lr_first_seq r + 1) |>
             <| lr_overwritten := u32 (lr_overwritten r + 1) |> in
  Ok (if lr_count r =? 0
      then r <| lr_head := 0 |> <| lr_tail := 0 |> <| lr_used := 0 |> else r).

Definition log_ring_init (buf : list Z) (capacity_bytes : Z) : log_ring_t :=
  mk_log_ring buf capacity_bytes 0 0 0 0 1 1 0.

Definition log_ring_clear (r : log_ring_t) : log_ring_t :=
  r <| lr_head := 0 |> <| lr_tail := 0 |> <| lr_used := 0 |> <| lr_count := 0 |>
    <| lr_first_seq := lr_next_seq r |>.

(** The [for (;;)] of [log_ring_push]: evict until [needed] bytes are free in
    one piece at [head]. *)
Fixpoint push_room (fuel : nat) (r : log_ring_t) (needed : Z) : res log_ring_t :=
  match fuel with
  | O => OutOfFuel
  | S fuel =>
      let free_bytes := u16 (lr_capacity r - lr_used r) in
      if free_bytes <? needed
      then r ← discard_oldest r; push_room fuel r needed else
      let r := if lr_count r =? 0 then r <| lr_head := 0 |> <| lr_tail := 0 |> else r in
      if (lr_count r =? 0) || (lr_tail r <=? lr_head r) then
        let end_space := u16 (lr_capacity r - lr_head r) in
        if needed <=? end_space then Ok r
        else if u16 (free_bytes - end_space) <? needed
        then r ← discard_oldest r; push_room fuel r needed
        else
          buf ← array_set (lr_buf r) (lr_head r) 0;
          Ok (r <| lr_buf := buf |> <| lr_used := u16 (lr_used r + end_space) |>
                <| lr_head := 0 |>)
      else Ok r
  end.

(** The argument loop of [log_ring_push]. *)
Fixpoint write_args (n : nat) (i : Z) (buf : list Z) (p : Z) (args : list Z)
    : res (list Z) :=
  match n with
  | O => Ok buf
  | S n =>
      a ← array_get args i;
      buf ← array_write buf (p + (LOG_RING_HDR_SIZE + 4 * i)) (wr_u32 (u32 a));
      write_args n (i + 1) buf p args
  end.

(** The stores of one record at [p]. *)
Definition write_record (buf : list Z) (p needed level module flags event_id seq uptime_ms : Z)
    (args : list Z) (argc : Z) (txt : list Z) (text_len : Z) : res (list Z) :=
  buf ← array_set buf p (u8 needed);
  buf ← array_set buf (p + 1) level;
  buf ← array_set buf (p + 2) module;
  buf ← array_set buf (p + 3) flags;
  buf ← array_write buf (p + 4) (wr_u16 event_id);
  buf ← array_write buf (p + 6) (wr_u32 seq);
  buf ← array_write buf (p + 10) (wr_u32 uptime_ms);
  buf ← write_args (Z.to_nat argc) 0 buf p args;
  buf ← (if text_len =? 0 then Ok buf else
           t ← array_read txt 0 text_len;
           array_write buf (p + (LOG_RING_HDR_SIZE + 4 * argc)) t);
  array_set buf (p + (needed - 1)) 0.

Definition log_ring_push (r : log_ring_t) (level module event_id uptime_ms : Z)
    (args : option (list Z)) (argc : Z) (text : option (list Z))
    : res (Z * log_ring_t) :=
  let argc := if LOG_RING_MAX_ARGS <? argc then LOG_RING_MAX_ARGS else argc in
  let argc := if args is Some _ then argc else 0 in
  let txt := default [] text in
  let text_len := zlen txt in
  let flags := if LOG_RING_MAX_TEXT <? text_len
               then Z.lor argc LOG_RING_FLAG_TRUNCATED else argc in
  let text_len := if LOG_RING_MAX_TEXT <? text_len then LOG_RING_MAX_TEXT else text_len in
  let needed := u16 (LOG_RING_HDR_SIZE + 4 * argc + text_len + 1) in
  r ← push_room (S (Z.to_nat (lr_count r))) r needed;
  let seq := lr_next_seq r in
  buf ← write_record (lr_buf r) (lr_head r) needed level module flags event_id seq uptime_ms
          (default [] args) argc txt text_len;
  let head := u16 (lr_head r + needed) in
  let r := r <| lr_next_seq := u32 (seq + 1) |> <| lr_buf := buf |>
             <| lr_head := if head =? lr_capacity r then 0 else head |>
             <| lr_used := u16 (lr_used r + needed) |>
             <| lr_count := u16 (lr_count r + 1) |> in
  Ok (seq, if lr_count r =? 1 then r <| lr_first_seq := seq |> else r).

Definition log_ring_count (r : log_ring_t) : Z := lr_count r.
Definition log_ring_first_seq (r : log_ring_t) : Z := lr_first_seq r.
Definition log_ring_next_seq (r : log_ring_t) : Z := lr_next_seq r.
Definition log_ring_overwritten (r : log_ring_t) : Z := lr_overwritten r.

Definition log_ring_iter_begin (r : log_ring_t) : log_ring_iter_t :=
  mk_iter (lr_tail r) (lr_count r).

(** [record_at]: the validated record position (behind a gap) and its size. *)
Definition record_at (r : log_ring_t) (pos : Z) : res (option (Z * Z)) :=
  if lr_capacity r <=? pos then Ok None else
  b ← array_get (lr_buf r) pos;
  let pos := if b =? 0 then 0 else pos in
  size ← array_get (lr_buf r) pos;
  if (size <? LOG_RING_RECORD_MIN) || (LOG_RING_RECORD_MAX <? size) then Ok None
  else if lr_capacity r <? pos + size then Ok None
  else Ok (Some (pos, size)).

Fixpoint read_args (n : nat) (i : Z) (buf : list Z) (p : Z) (args : list Z)
    : res (list Z) :=
  match n with
  | O => Ok args
  | S n =>
      v ← rd_u32 buf (p + (LOG_RING_HDR_SIZE + 4 * i));
      args ← array_set args i (i32 v);
      read_args n (i + 1) buf p args
  end.

(** [log_ring_iter_next]: the view, or nothing when it returns false. *)
Definition log_ring_iter_next (r : log_ring_t) (it : log_ring_iter_t)
    : res (option log_ring_view_t * log_ring_iter_t) :=
  if it_remaining it =? 0 then Ok (None, it) else
  ra ← record_at r (it_pos it);
  match ra with
  | None => Ok (None, it <| it_remaining := 0 |>)
  | Some (pos, size) =>
      let buf := lr_buf r in
      level ← array_get buf (pos + 1);
      module ← array_get buf (pos + 2);
      flags ← array_get buf (pos + 3);
      let argc := Z.land flags LOG_RING_FLAG_ARGC_MASK in
      let argc := if LOG_RING_MAX_ARGS <? argc then LOG_RING_MAX_ARGS else argc in
      event_id ← rd_u16 buf (pos + 4);
      seq ← rd_u32 buf (pos + 6);
      uptime_ms ← rd_u32 buf (pos + 10);
      args ← read_args (Z.to_nat argc) 0 buf pos (replicate 4 0);
      let view := mk_view level module flags argc event_id seq uptime_ms args
                    (pos + (LOG_RING_HDR_SIZE + 4 * argc)) in
      let pos := u16 (pos + size) in
      let pos := if pos =? lr_capacity r then 0 else pos in
      Ok (Some view, it <| it_pos := pos |>
                        <| it_remaining := u16 (it_remaining it - 1) |>)
  end.

(** The loop of [log_ring_iter_seek]; it runs at most [remaining] times. *)
Fixpoint seek_loop (fuel : nat) (r : log_ring_t) (it : log_ring_iter_t) (since_seq : Z)
    : res log_ring_iter_t :=
  match fuel with
  | O => OutOfFuel
  | S fuel =>
      if it_remaining it =? 0 then Ok it else
      ra ← record_at r (it_pos it);
      match ra with
      | None => Ok (it <| it_remaining := 0 |>)
      | Some (pos, size) =>
          seq ← rd_u32 (lr_buf r) (pos + 6);
          if since_seq <? seq then Ok (it <| it_pos := pos |>) else
          let pos := u16 (pos + size) in
          let pos := if pos =? lr_capacity r then 0 else pos in
          seek_loop fuel r (it <| it_pos := pos |>
                               <| it_remaining := u16 (it_remaining it - 1) |>) since_seq
      end
  end.

Definition log_ring_iter_seek (r : log_ring_t) (it : log_ring_iter_t) (since_seq : Z)
    : res log_ring_iter_t :=
  seek_loop (S (Z.to_nat (it_remaining it))) r it since_seq.

(** ** The abstract queue *)

Record log_entry := mk_entry {
  le_level : Z;
  le_module : Z;
  le_event : Z;
  le_seq : Z;
  le_uptime : Z;
  le_args : list Z;
  le_text : list Z;
  le_truncated : bool
}.

Record entry_wf (e : log_entry) : Prop := {
  ew_level : is_u8 (le_level e);
  ew_module : is_u8 (le_module e);
  ew_event : is_u16 (le_event e);
  ew_seq : is_u32 (le_seq e);
  ew_uptime : is_u32 (le_uptime e);
  ew_argc : zlen (le_args e) <= LOG_RING_MAX_ARGS;
  ew_args : Forall is_i32 (le_args e);
  ew_len : zlen (le_text e) <= LOG_RING_MAX_TEXT;
  ew_text : Forall (λ c, is_u8 c ∧ c ≠ 0) (le_text e)
}.

Definition entry_size (e : log_entry) : Z := 15 + 4 * zlen (le_args e) + zlen (le_text e).

Definition entry_flags (e : log_entry) : Z :=
  if le_truncated e then Z.lor (zlen (le_args e)) 8 else zlen (le_args e).

Definition args_bytes (args : list Z) : list Z := concat (wr_u32 ∘ u32 <$> args).

(** The bytes of one record. *)
Definition enc (e : log_entry) : list Z :=
  [u8 (entry_size e)] ++ [le_level e] ++ [le_module e] ++ [entry_flags e]
  ++ wr_u16 (le_event e) ++ wr_u32 (le_seq e) ++ wr_u32 (le_uptime e)
  ++ args_bytes (le_args e) ++ le_text e ++ [0].

Definition encs (es : list log_entry) : list Z := concat (enc <$> es).
Definition total_size (es : list log_entry) : Z := foldr (λ e n, entry_size e + n) 0 es.

#[global] Arguments enc : simpl never.
#[global] Arguments encs : simpl never.
#[global] Arguments wr_u16 : simpl never.
#[global] Arguments wr_u32 : simpl never.
#[global] Arguments u8 : simpl never.
#[global] Arguments u16 : simpl never.
#[global] Arguments u32 : simpl never.
#[global] Arguments array_get : simpl never.
#[global] Arguments array_set : simpl never.
#[global] Arguments array_write : simpl never.
#[global] Arguments array_read : simpl never.

Lemma encs_nil : encs [] = [].
Proof. done. Qed.
Lemma encs_cons e es : encs (e :: es) = enc e ++ encs es.
Proof. done. Qed.
Lemma encs_app es es' : encs (es ++ es') = encs es ++ encs es'.
Proof. unfold encs. by rewrite fmap_app, concat_app. Qed.

Lemma zlen_args_bytes args : zlen (args_bytes args) = 4 * zlen args.
Proof.
  induction args as [|a args IH]; [done|].
  change (args_bytes (a :: args)) with (wr_u32 (u32 a) ++ args_bytes args).
  rewrite zlen_app, IH, zlen_cons. change (zlen (wr_u32 (u32 a))) with 4. lia.
Qed.

Lemma zlen_enc e : zlen (enc e) = entry_size e.
Proof.
  unfold enc, entry_size. autorewrite with zlen. rewrite zlen_args_bytes.
  change (zlen (wr_u16 (le_event e))) with 2.
  change (zlen (wr_u32 (le_seq e))) with 4. change (zlen (wr_u32 (le_uptime e))) with 4. lia.
Qed.

Lemma entry_size_bounds e : entry_wf e → 15 <= entry_size e <= 78.
Proof.
  intros He. pose proof (ew_argc e He). pose proof (ew_len e He).
  unfold entry_size, LOG_RING_MAX_ARGS, LOG_RING_MAX_TEXT in *.
  pose proof (zlen_nonneg (le_args e)). pose proof (zlen_nonneg (le_text e)). lia.
Qed.

Lemma zlen_encs_total es : Forall entry_wf es → zlen (encs es) = total_size es.
Proof.
  induction 1 as [|e es He Hes IH]; [done|].
  rewrite encs_cons, zlen_app, zlen_enc, IH. pose proof (entry_size_bounds e He).
  unfold total_size. cbn. lia.
Qed.

Lemma zlen_encs_bounds es : Forall entry_wf es → 15 * zlen es <= zlen (encs es).
Proof.
  induction 1 as [|e es He Hes IH]; [done|].
  rewrite encs_cons, zlen_app, zlen_enc, zlen_cons. pose proof (entry_size_bounds e He). lia.
Qed.

(** The first byte of a record is its size, so it is not the gap marker. *)
Lemma enc_head e : entry_wf e → ∃ tl, enc e = entry_size e :: tl.
Proof.
  intros He. pose proof (entry_size_bounds e He). unfold enc. cbn.
  rewrite u8_id by (unfold is_u8; lia). by eexists.
Qed.

(** ** The representation invariant *)

(** A gap is empty or starts with the marker; it is shorter than a record can be. *)
Definition gap_ok (gap : list Z) : Prop :=
  zlen gap < LOG_RING_RECORD_MAX ∧ (gap = [] ∨ ∃ g, gap = 0 :: g).

(** Where the records lie: nowhere, in one run, or in a run that ends at the
    buffer end (before the gap) and continues at its start. *)
Inductive layout (buf : list Z) : Z → Z → Z → list log_entry → Prop :=
  | lay_empty : layout buf 0 0 0 []
  | lay_linear pre es post :
      es ≠ [] → post ≠ [] → buf = pre ++ encs es ++ post →
      layout buf (zlen pre + zlen (encs es)) (zlen pre) (zlen (encs es)) es
  | lay_wrapped r1 r2 mid gap :
      r1 ++ r2 ≠ [] → encs r1 ++ gap ≠ [] → gap_ok gap →
      buf = encs r2 ++ mid ++ encs r1 ++ gap →
      layout buf (zlen (encs r2)) (zlen (encs r2) + zlen mid)
        (zlen (encs r1) + zlen gap + zlen (encs r2)) (r1 ++ r2).

(** Consecutive sequence numbers from [s]. *)
Definition seqs_from (s : Z) (es : list log_entry) : Prop :=
  ∀ i e, es !! i = Some e → le_seq e = u32 (s + Z.of_nat i).

Record ring_meta (r : log_ring_t) (es : list log_entry) : Prop := {
  rm_cap : LOG_RING_RECORD_MAX <= lr_capacity r < 65536;
  rm_buf : zlen (lr_buf r) = lr_capacity r;
  rm_count : lr_count r = zlen es;
  rm_first : is_u32 (lr_first_seq r);
  rm_over : is_u32 (lr_overwritten r);
  rm_next : lr_next_seq r = u32 (lr_first_seq r + zlen es);
  rm_wf : Forall entry_wf es;
  rm_seqs : seqs_from (lr_first_seq r) es
}.

Record ring_repr (r : log_ring_t) (es : list log_entry) : Prop := {
  rr_meta : ring_meta r es;
  rr_layout : layout (lr_buf r) (lr_head r) (lr_tail r) (lr_used r) es
}.

Lemma seqs_from_tail s e es : seqs_from s (e :: es) → seqs_from (u32 (s + 1)) es.
Proof.
  intros H i e' He'. rewrite (H (S i) e' He'), u32_u32_add. f_equal. lia.
Qed.

Lemma nonnil_zlen {A} (l : list A) : l ≠ [] ↔ 0 < zlen l.
Proof. destruct l; [done|]. rewrite zlen_cons. pose proof (zlen_nonneg l). split; [lia|done]. Qed.

(** Everything a layout says about the numbers. *)
Lemma layout_bounds buf h t u es :
  layout buf h t u es → Forall entry_wf es → 0 < zlen buf →
  0 <= h < zlen buf ∧ 0 <= t < zlen buf ∧ zlen (encs es) <= u <= zlen buf.
Proof.
  intros Hl Hwf Hb. destruct Hl as [|pre es post Hes Hp ->|r1 r2 mid gap Hn Hg Hgap ->].
  - change (zlen (encs [])) with 0. lia.
  - apply nonnil_zlen in Hp. rewrite !zlen_app. pose proof (zlen_nonneg pre).
    pose proof (zlen_nonneg (encs es)). lia.
  - apply nonnil_zlen in Hg. rewrite encs_app. rewrite !zlen_app in *.
    pose proof (zlen_nonneg (encs r2)). pose proof (zlen_nonneg mid).
    pose proof (zlen_nonneg gap). pose proof (zlen_nonneg (encs r1)). lia.
Qed.

(** ** Eviction *)

Lemma layout_eq buf h t u es h' t' u' :
  layout buf h t u es → h' = h → t' = t → u' = u → layout buf h' t' u' es.
Proof. by intros ? -> -> ->. Qed.

(** What [discard_oldest] reads and where the remaining records then lie. *)
Lemma layout_discard buf h t u e es :
  layout buf h t u (e :: es) → Forall entry_wf (e :: es) →
  ∃ b, array_get buf t = Ok b ∧
    let t0 := if b =? 0 then 0 else t in
    let u0 := if b =? 0 then u - (zlen buf - t) else u in
    (∃ pre post, buf = pre ++ enc e ++ post ∧ zlen pre = t0) ∧ 0 <= t0 ∧ t0 + entry_size e <= zlen buf ∧
    0 <= u0 - entry_size e ∧ u0 <= zlen buf ∧
    (es ≠ [] → layout buf h (if t0 + entry_size e =? zlen buf then 0 else t0 + entry_size e)
                 (u0 - entry_size e) es).
Proof.
  intros Hl Hwf. pose proof (Forall_inv Hwf) as He. remember (e :: es) as L eqn:EL.
  destruct (enc_head e He) as [tl Htl]. pose proof (entry_size_bounds e He) as Hsz.
  pose proof (zlen_enc e) as Hlen.
  destruct Hl as [|pre es0 post Hes Hp ->|r1 r2 mid gap Hn Hg Hgap ->]; [done|subst es0|].
  - exists (entry_size e). rewrite encs_cons in *.
    assert (array_get (pre ++ (enc e ++ encs es) ++ post) (zlen pre) = Ok (entry_size e)) as Hget.
    { rewrite Htl. by apply array_get_app. }
    rewrite (proj2 (Z.eqb_neq _ 0)) by lia. cbn zeta. split; [done|].
    split; [exists pre, (encs es ++ post); by rewrite <- app_assoc|].
    apply nonnil_zlen in Hp as Hp'. autorewrite with zlen. rewrite Hlen.
    pose proof (zlen_nonneg pre). pose proof (zlen_nonneg (encs es)).
    do 4 (split; [lia|]). intros Hne.
    rewrite (proj2 (Z.eqb_neq _ _)) by lia.
    eapply layout_eq; [apply (lay_linear _ (pre ++ enc e) es post)|autorewrite with zlen; lia..];
      [done..|]. by rewrite <- !app_assoc.
  - destruct r1 as [|e1 r1]; cbn in EL.
    + (* the tail is at the gap *)
      subst r2. destruct Hgap as [Hgl [->|[g ->]]]; [done|]. rewrite encs_nil in *. cbn [app] in *.
      exists 0. rewrite encs_cons in *. cbn [Z.eqb]. cbn zeta.
      split.
      { rewrite app_assoc. apply array_get_app. autorewrite with zlen. lia. }
      split.
      { exists [], (encs es ++ mid ++ 0 :: g). split; [by rewrite <- app_assoc|done]. }
      autorewrite with zlen. rewrite Hlen. pose proof (zlen_nonneg mid).
      pose proof (zlen_nonneg (encs es)). pose proof (zlen_nonneg g).
      do 4 (split; [lia|]). intros Hne. rewrite (proj2 (Z.eqb_neq _ _)) by lia.
      eapply layout_eq; [apply (lay_linear _ (enc e) es (mid ++ 0 :: g))|lia..];
        [done|by destruct mid|]. by rewrite <- app_assoc.
    + injection EL as -> <-. exists (entry_size e). rewrite encs_cons in *.
      rewrite (proj2 (Z.eqb_neq _ 0)) by lia. cbn zeta.
      assert (array_get (encs r2 ++ mid ++ (enc e ++ encs r1) ++ gap)
                (zlen (encs r2) + zlen mid) = Ok (entry_size e)) as Hget.
      { rewrite Htl, app_assoc. apply array_get_app. autorewrite with zlen. lia. }
      split; [done|]. split.
      { exists (encs r2 ++ mid), (encs r1 ++ gap). rewrite <- !app_assoc.
        split; [done|]. autorewrite with zlen. lia. }
      autorewrite with zlen. rewrite Hlen.
      pose proof (zlen_nonneg mid). pose proof (zlen_nonneg (encs r1)).
      pose proof (zlen_nonneg (encs r2)). pose proof (zlen_nonneg gap).
      do 4 (split; [lia|]). intros Hne.
      destruct (decide (encs r1 ++ gap = [])) as [Hnil|Hnil].
      * (* the run ended exactly at the buffer end *)
        apply app_nil in Hnil as [Hr1 ->].
        assert (r1 = []) as ->.
        { destruct r1 as [|e' r1]; [done|]. apply Forall_inv_tail, Forall_inv in Hwf.
          destruct (enc_head e' Hwf) as [tl' Htl']. rewrite encs_cons, Htl' in Hr1. done. }
        rewrite encs_nil, !zlen_nil. case_bool; [|lia].
        eapply layout_eq; [apply (lay_linear _ [] r2 (mid ++ enc e))|first [done|rewrite ?zlen_nil; lia]..];
          [done| |].
        -- intros Hm. apply app_nil in Hm as [_ Hm]. by rewrite Htl in Hm.
        -- cbn. by rewrite !app_nil_r.
      * apply nonnil_zlen in Hnil as Hn'. rewrite zlen_app in Hn'.
        rewrite (proj2 (Z.eqb_neq _ _)) by lia.
        eapply layout_eq; [apply (lay_wrapped _ r1 r2 (mid ++ enc e) gap)
                          |autorewrite with zlen; lia..]; [done..|]. by rewrite <- !app_assoc.
Qed.

Lemma discard_oldest_spec r e es :
  ring_repr r (e :: es) →
  ∃ r', discard_oldest r = Ok r' ∧ ring_repr r' es ∧
    lr_capacity r' = lr_capacity r ∧ lr_next_seq r' = lr_next_seq r ∧
    lr_overwritten r' = u32 (lr_overwritten r + 1).
Proof.
  intros [[Hcap Hbuf Hcount Hfirst Hover Hnext Hwf Hseqs] Hl].
  pose proof (Forall_inv Hwf) as He. pose proof (entry_size_bounds e He) as Hsz.
  destruct (layout_bounds _ _ _ _ _ Hl Hwf) as (Hh & Ht & Hu);
    [unfold LOG_RING_RECORD_MAX, LOG_RING_HDR_SIZE, LOG_RING_MAX_ARGS, LOG_RING_MAX_TEXT in Hcap; lia|].
  destruct (layout_discard _ _ _ _ _ _ Hl Hwf) as (b & Hget & Hseg & Ht0 & Htc & Hu0 & Huc & Hl').
  pose proof (zlen_nonneg es) as Hes. pose proof (zlen_encs_bounds _ Hwf) as Hbd.
  rewrite zlen_cons in *. rewrite Hbuf in *.
  assert (array_get (lr_buf r) (if b =? 0 then 0 else lr_tail r) = Ok (entry_size e)) as Hget0.
  { destruct Hseg as (pre & post & -> & Hpre), (enc_head e He) as [tl ->].
    by apply array_get_app. }
  unfold discard_oldest, at_wrap_gap. rewrite Hcount.
  rewrite (proj2 (Z.eqb_neq _ 0)) by lia. rewrite Hget. cbn [mbind res_bind].
  set (r0 := if b =? 0 then _ else r).
  assert (lr_tail r0 = (if b =? 0 then 0 else lr_tail r) ∧
    lr_used r0 = (if b =? 0 then lr_used r - (lr_capacity r - lr_tail r) else lr_used r) ∧
    lr_buf r0 = lr_buf r ∧ lr_capacity r0 = lr_capacity r ∧ lr_count r0 = lr_count r ∧
    lr_head r0 = lr_head r ∧ lr_first_seq r0 = lr_first_seq r ∧ lr_next_seq r0 = lr_next_seq r ∧
    lr_overwritten r0 = lr_overwritten r) as (Er1 & Er2 & Er3 & Er4 & Er5 & Er6 & Er7 & Er8 & Er9).
  { subst r0. destruct (b =? 0); cbn; repeat split; try done.
    apply u16_id. unfold is_u16. lia. }
  clearbody r0. rewrite Er3, Er1, Hget0. cbn [mbind res_bind].
  set (t0 := if b =? 0 then 0 else lr_tail r) in *.
  set (u0 := if b =? 0 then _ else lr_used r) in *.
  eexists. split; [reflexivity|]. cbn. rewrite ?Er1, ?Er2, ?Er4.
  rewrite (u16_id (t0 + _)) by (unfold is_u16; lia).
  rewrite (u16_id (u0 - _)) by (unfold is_u16; lia).
  destruct (t0 + entry_size e =? lr_capacity r) eqn:Eq; cbn;
    rewrite ?Er3, ?Er4, ?Er5, ?Er6, ?Er7, ?Er8, ?Er9, Hcount;
    rewrite (u16_id (_ - 1)) by (unfold is_u16; lia);
    replace (1 + zlen es - 1) with (zlen es) by lia;
    (destruct (Z.eqb_spec (zlen es) 0) as [E0|E0]; cbn;
     [assert (es = []) as -> by (destruct es; [done|rewrite zlen_cons in E0; pose proof (zlen_nonneg es); lia])
     |assert (es ≠ []) by (intros ->; done)]);
    (split; [split; [split; cbn; rewrite ?Er3, ?Er4, ?Er5, ?Er7, ?Er8, ?Hcount|]|];
     cbn; rewrite ?Er3, ?Er4, ?Er6, ?Er9; try done;
     try (apply u32_range); try by apply Forall_inv_tail in Hwf);
    try (rewrite Hnext, u32_u32_add; f_equal; rewrite ?zlen_nil; lia);
    try (by apply seqs_from_tail in Hseqs);
    try (rewrite u16_id by (unfold is_u16; lia); lia);
    try apply lay_empty.
  - by apply Hl'.
  - by apply Hl'.
Qed.

(** ** Making room *)

(** [needed] bytes at the head that the next record may overwrite. *)
Definition room (r : log_ring_t) (es : list log_entry) (needed : Z) : Prop :=
  ∃ pre old post, lr_buf r = pre ++ old ++ post ∧ lr_head r = zlen pre ∧ zlen old = needed ∧
    0 <= lr_used r ∧ lr_used r + needed <= lr_capacity r ∧
    ∀ e, entry_wf e → entry_size e = needed →
      layout (pre ++ enc e ++ post)
        (if lr_head r + needed =? lr_capacity r then 0 else lr_head r + needed)
        (lr_tail r) (lr_used r + needed) (es ++ [e]).

(** The ring's own numbers, apart from where the records lie. *)
Definition same_meta (r r' : log_ring_t) : Prop :=
  lr_capacity r' = lr_capacity r ∧ lr_count r' = lr_count r ∧
  lr_first_seq r' = lr_first_seq r ∧ lr_next_seq r' = lr_next_seq r ∧
  lr_overwritten r' = lr_overwritten r ∧ zlen (lr_buf r') = zlen (lr_buf r).

Lemma same_meta_ok r r' es : ring_meta r es → same_meta r r' → ring_meta r' es.
Proof.
  intros [] (E1 & E2 & E3 & E4 & E5 & E6).
  split; rewrite ?E1, ?E2, ?E3, ?E4, ?E5, ?E6; done.
Qed.

Lemma split_at {A} (l : list A) n :
  0 <= n <= zlen l → ∃ l1 l2, l = l1 ++ l2 ∧ zlen l1 = n.
Proof.
  intros Hn. exists (take (Z.to_nat n) l), (drop (Z.to_nat n) l).
  rewrite take_drop. split; [done|]. unfold zlen in *. rewrite length_take. lia.
Qed.

Ltac ring_consts :=
  unfold LOG_RING_RECORD_MAX, LOG_RING_RECORD_MIN, LOG_RING_HDR_SIZE, LOG_RING_MAX_ARGS,
    LOG_RING_MAX_TEXT in *.

(** An empty ring has room at its start. *)
Lemma room_empty r needed :
  ring_repr r [] → 15 <= needed <= 78 → room r [] needed.
Proof.
  intros [[Hcap Hbuf _ _ _ _ _ _] Hl] Hn. ring_consts.
  inversion Hl as [Hh Ht Hu He| |]; [|done|].
  - destruct (split_at (lr_buf r) needed) as (old & post & Hb & Ho); [lia|].
    exists [], old, post. cbn [app]. rewrite zlen_nil, <- Hh, <- Hu, <- Ht.
    do 3 (split; [done|]). do 2 (split; [lia|]). intros e He' Hsz. rewrite !Z.add_0_l.
    rewrite Hb, zlen_app in Hbuf. pose proof (zlen_enc e) as Hle. case_bool.
    + eapply (layout_eq _ _ _ _ ([e] ++ [])); [apply (lay_wrapped _ [e] [] [] [])|..].
      * done.
      * destruct (enc_head e He') as [tl Htl]. rewrite encs_cons, Htl. done.
      * split; [by rewrite zlen_nil; ring_consts|by left].
      * rewrite encs_cons, encs_nil, !app_nil_r. cbn.
        destruct post; [by rewrite app_nil_r|]. rewrite zlen_cons in Hbuf.
        pose proof (zlen_nonneg post). lia.
      * by rewrite encs_nil.
      * by rewrite encs_nil.
      * rewrite encs_cons, encs_nil, app_nil_r, !zlen_nil. lia.
    + eapply layout_eq; [apply (lay_linear _ [] [e] post)|..].
      * done.
      * intros ->. rewrite zlen_nil in Hbuf. lia.
      * by rewrite encs_cons, encs_nil, app_nil_r.
      * rewrite encs_cons, encs_nil, app_nil_r, zlen_nil. lia.
      * done.
      * rewrite encs_cons, encs_nil, app_nil_r. lia.
  - by destruct r1, r2.
Qed.

(** Behind a single run, at the buffer end. *)
Lemma room_linear r pre es post needed :
  zlen (lr_buf r) = lr_capacity r → es ≠ [] →
  lr_buf r = pre ++ encs es ++ post → lr_head r = zlen pre + zlen (encs es) →
  lr_tail r = zlen pre → lr_used r = zlen (encs es) →
  15 <= needed <= zlen post → room r es needed.
Proof.
  intros Hbuf Hes Hb Hh Ht Hu Hn.
  destruct (split_at post needed) as (old & post' & -> & Ho); [lia|].
  pose proof (zlen_nonneg pre). pose proof (zlen_nonneg (encs es)).
  rewrite Hb in Hbuf. rewrite !zlen_app in *. pose proof (zlen_nonneg post').
  exists (pre ++ encs es), old, post'. rewrite zlen_app.
  split; [by rewrite Hb, <- app_assoc|]. split; [done|]. split; [done|].
  rewrite Hu. do 2 (split; [lia|]). intros e He' Hsz. pose proof (zlen_enc e) as Hle.
  rewrite Hh, Ht. case_bool.
  - rewrite <- (app_nil_r (es ++ [e])).
    eapply layout_eq; [apply (lay_wrapped _ (es ++ [e]) [] pre [])|..].
    + by destruct es.
    + destruct (enc_head e He') as [tl Htl]. rewrite encs_app, encs_cons, Htl.
      by destruct (encs es).
    + split; [by rewrite zlen_nil; ring_consts|by left].
    + rewrite encs_app, encs_cons, encs_nil, !app_nil_r, <- !app_assoc. cbn.
      destruct post'; [by rewrite app_nil_r|]. rewrite zlen_cons in *.
      pose proof (zlen_nonneg post'). lia.
    + by rewrite encs_nil.
    + by rewrite encs_nil.
    + rewrite encs_app, encs_cons, encs_nil, app_nil_r, zlen_app, !zlen_nil. lia.
  - eapply layout_eq; [apply (lay_linear _ pre (es ++ [e]) post')|..].
    + by destruct es.
    + intros ->. rewrite zlen_nil in *. lia.
    + by rewrite encs_app, encs_cons, encs_nil, app_nil_r, <- !app_assoc.
    + rewrite encs_app, encs_cons, encs_nil, app_nil_r, zlen_app. lia.
    + done.
    + rewrite encs_app, encs_cons, encs_nil, app_nil_r, zlen_app. lia.
Qed.

(** In front of the records, before the buffer end (the layout is or becomes
    wrapped). *)
Lemma room_wrapped r r1 r2 mid gap needed :
  zlen (lr_buf r) = lr_capacity r → encs r1 ++ gap ≠ [] → gap_ok gap → r1 ++ r2 ≠ [] →
  lr_buf r = encs r2 ++ mid ++ encs r1 ++ gap → lr_head r = zlen (encs r2) →
  lr_tail r = zlen (encs r2) + zlen mid →
  lr_used r = zlen (encs r1) + zlen gap + zlen (encs r2) →
  15 <= needed <= zlen mid → room r (r1 ++ r2) needed.
Proof.
  intros Hbuf Hne Hgap Hr12 Hb Hh Ht Hu Hn.
  destruct (split_at mid needed) as (old & mid' & -> & Ho); [lia|].
  apply nonnil_zlen in Hne as Hne'.
  pose proof (zlen_nonneg (encs r1)). pose proof (zlen_nonneg (encs r2)).
  pose proof (zlen_nonneg gap). pose proof (zlen_nonneg mid').
  rewrite Hb in Hbuf. rewrite !zlen_app in *.
  exists (encs r2), old, (mid' ++ encs r1 ++ gap).
  split; [by rewrite Hb, <- !app_assoc|]. split; [done|]. split; [done|].
  rewrite Hu, Hh, Ht. do 2 (split; [lia|]). intros e He' Hsz. pose proof (zlen_enc e) as Hle.
  case_bool; [lia|]. rewrite <- app_assoc.
  eapply layout_eq; [apply (lay_wrapped _ r1 (r2 ++ [e]) mid' gap)|..].
  - by destruct r1, r2.
  - done.
  - done.
  - by rewrite encs_app, encs_cons, encs_nil, app_nil_r, <- !app_assoc.
  - rewrite encs_app, encs_cons, encs_nil, app_nil_r, zlen_app. lia.
  - rewrite encs_app, encs_cons, encs_nil, app_nil_r, zlen_app. lia.
  - rewrite encs_app, encs_cons, encs_nil, app_nil_r, zlen_app. lia.
Qed.

Lemma total_size_app es es' : total_size (es ++ es') = total_size es + total_size es'.
Proof. induction es as [|e es IH]; [done|]. cbn. fold (total_size (es ++ es')). fold (total_size es). lia. Qed.

(** Where a ring that holds records stands: one run or a wrapped one. *)
Lemma layout_cases r es :
  ring_repr r es → es ≠ [] →
  (∃ pre post, post ≠ [] ∧ lr_buf r = pre ++ encs es ++ post ∧ lr_tail r = zlen pre ∧
     lr_head r = zlen pre + zlen (encs es) ∧ lr_used r = zlen (encs es)) ∨
  (∃ r1 r2 mid gap, es = r1 ++ r2 ∧ encs r1 ++ gap ≠ [] ∧ gap_ok gap ∧
     lr_buf r = encs r2 ++ mid ++ encs r1 ++ gap ∧ lr_head r = zlen (encs r2) ∧
     lr_tail r = zlen (encs r2) + zlen mid ∧
     lr_used r = zlen (encs r1) + zlen gap + zlen (encs r2)).
Proof.
  intros [_ Hl] Hne. inversion Hl as [Hh Ht Hu He|pre es' post Hes Hp Hb Hh Ht Hu
    |r1 r2 mid gap Hr Hg Hgap Hb Hh Ht Hu]; [done|left|right].
  - by exists pre, post.
  - by exists r1, r2, mid, gap.
Qed.

(** One round of the loop either evicts, which only happens when the records
    already fill the ring up to two record sizes, or is done. *)
Definition round_evicts (fuel : nat) (r : log_ring_t) (needed : Z) (es : list log_entry) : Prop :=
  push_room (S fuel) r needed = (r' ← discard_oldest r; push_room fuel r' needed) ∧ es ≠ [] ∧
  lr_capacity r < total_size es + 2 * LOG_RING_RECORD_MAX.

Definition round_done (fuel : nat) (r : log_ring_t) (needed : Z) (es : list log_entry) : Prop :=
  ∃ r', push_room (S fuel) r needed = Ok r' ∧ same_meta r r' ∧ room r' es needed.

Lemma push_round_empty fuel r needed :
  ring_repr r [] → 15 <= needed <= 78 → round_done fuel r needed [].
Proof.
  intros Hr Hn. pose proof Hr as [[Hcap Hbuf Hcount _ _ _ _ _] Hl]. ring_consts.
  assert (lr_head r = 0 ∧ lr_tail r = 0 ∧ lr_used r = 0) as (Hh & Ht & Hu).
  { inversion Hl as [| |[|] [|]]; done. }
  pose proof (room_empty r needed Hr Hn) as Hroom.
  exists (r <| lr_head := 0 |> <| lr_tail := 0 |>). cbn [push_room]. rewrite Hu, Hcount.
  change (zlen (@nil log_entry)) with 0. cbn [Z.eqb orb lr_head lr_capacity put_field set_lr_head set_lr_tail].
  rewrite !(u16_id (_ - 0)) by (unfold is_u16; lia).
  case_bool; [lia|]. cbn. rewrite Hcount. cbn.
  rewrite (proj2 (Z.leb_le needed (lr_capacity r - 0))) by lia.
  split; [done|]. split; [by repeat split|].
  destruct Hroom as (pre & old & post & Hro). exists pre, old, post. cbn.
  by rewrite Hh, Ht in Hro.
Qed.

Lemma push_round_linear fuel r es pre post needed :
  ring_repr r es → es ≠ [] → 15 <= needed <= 78 → post ≠ [] →
  lr_buf r = pre ++ encs es ++ post → lr_tail r = zlen pre →
  lr_head r = zlen pre + zlen (encs es) → lr_used r = zlen (encs es) →
  round_evicts fuel r needed es ∨ round_done fuel r needed es.
Proof.
  intros [[Hcap Hbuf Hcount _ _ _ Hwf _] _] Hne Hn Hp Hb Ht Hh Hu. ring_consts.
  apply nonnil_zlen in Hp as Hp'. apply nonnil_zlen in Hne as Hne'.
  pose proof (zlen_encs_total es Hwf) as Htot. pose proof (zlen_nonneg pre).
  pose proof (zlen_nonneg (encs es)).
  assert (lr_capacity r = zlen pre + zlen (encs es) + zlen post) as Ec.
  { rewrite <- Hbuf, Hb. autorewrite with zlen. lia. }
  unfold round_evicts, round_done. cbn [push_room].
  rewrite Hu, (u16_id (lr_capacity r - _)) by (unfold is_u16; lia).
  case_bool; [left; split_and!; [done..|ring_consts; lia]|].
  assert ((lr_count r =? 0) = false) as E0 by (apply Z.eqb_neq; lia).
  rewrite E0. cbn [orb]. rewrite E0. cbn [orb].
  rewrite Ht, Hh, (proj2 (Z.leb_le _ _)) by lia.
  rewrite (u16_id (lr_capacity r - _)) by (unfold is_u16; lia).
  match goal with |- context [needed <=? ?a] => destruct (Z.leb_spec needed a) end.
  { right. exists r. split; [done|]. split; [by repeat split|].
    by apply (room_linear r pre es post); try done; lia. }
  rewrite u16_id by (unfold is_u16; lia).
  case_bool; [left; split_and!; [done..|ring_consts; lia]|]. right.
  destruct post as [|x post]; [done|].
  rewrite array_set_write, Hb, app_assoc.
  rewrite (array_write_app _ [x] [0] post) by (autorewrite with zlen; lia).
  rewrite zlen_cons in *. pose proof (zlen_nonneg post).
  eexists. split; [reflexivity|]. split.
  - unfold same_meta. cbn. rewrite Hb. autorewrite with zlen. split_and!; lia || done.
  - match goal with |- room ?r' _ _ =>
      pose proof (room_wrapped r' es [] pre (0 :: post) needed) as Hw end.
    rewrite app_nil_r in Hw. apply Hw; clear Hw.
    + cbn. rewrite Ec. autorewrite with zlen. lia.
    + by destruct (encs es).
    + split; [rewrite zlen_cons; ring_consts; lia|by right; eexists].
    + done.
    + cbn. by rewrite <- app_assoc.
    + done.
    + cbn. rewrite Ht. done.
    + cbn. rewrite Hu, u16_id by (unfold is_u16; lia). autorewrite with zlen. lia.
    + lia.
Qed.

Lemma push_round_wrapped fuel r r1 r2 mid gap needed :
  ring_repr r (r1 ++ r2) → r1 ++ r2 ≠ [] → 15 <= needed <= 78 →
  encs r1 ++ gap ≠ [] → gap_ok gap →
  lr_buf r = encs r2 ++ mid ++ encs r1 ++ gap → lr_head r = zlen (encs r2) →
  lr_tail r = zlen (encs r2) + zlen mid →
  lr_used r = zlen (encs r1) + zlen gap + zlen (encs r2) →
  round_evicts fuel r needed (r1 ++ r2) ∨ round_done fuel r needed (r1 ++ r2).
Proof.
  intros [[Hcap Hbuf Hcount _ _ _ Hwf _] _] Hne Hn Hg Hgap Hb Hh Ht Hu. ring_consts.
  apply nonnil_zlen in Hg as Hg'. apply nonnil_zlen in Hne as Hne'.
  pose proof (zlen_encs_total _ Hwf) as Htot. rewrite encs_app, !zlen_app in *.
  pose proof (zlen_nonneg mid). pose proof (zlen_nonneg (encs r1)).
  pose proof (zlen_nonneg (encs r2)). pose proof (zlen_nonneg gap).
  pose proof (proj1 Hgap) as Hgl.
  assert (lr_capacity r = zlen (encs r1) + zlen (encs r2) + zlen mid + zlen gap) as Ec.
  { rewrite <- Hbuf, Hb. autorewrite with zlen. lia. }
  unfold round_evicts, round_done. cbn [push_room].
  rewrite Hu, (u16_id (lr_capacity r - _)) by (unfold is_u16; lia). ring_consts.
  case_bool; [left; split_and!; [done..|lia]|].
  assert ((lr_count r =? 0) = false) as E0 by (apply Z.eqb_neq; lia).
  rewrite E0. cbn [orb]. rewrite E0. cbn [orb].
  rewrite Ht, Hh, (proj2 (Z.leb_gt _ _)) by lia.
  right. exists r. split; [done|]. split; [by repeat split|].
  apply (room_wrapped r r1 r2 mid gap); try done; lia.
Qed.

(** ** The eviction loop *)

Lemma push_room_spec needed fuel : ∀ r es,
  ring_repr r es → 15 <= needed <= 78 → (length es < fuel)%nat →
  ∃ k r', push_room fuel r needed = Ok r' ∧ (k <= length es)%nat ∧
    ring_meta r' (drop k es) ∧ room r' (drop k es) needed ∧
    lr_capacity r' = lr_capacity r ∧ lr_next_seq r' = lr_next_seq r ∧
    lr_overwritten r' = u32 (lr_overwritten r + Z.of_nat k) ∧
    (k = 0%nat ∨ lr_capacity r < total_size (drop (k - 1) es) + 2 * LOG_RING_RECORD_MAX).
Proof.
  induction fuel as [|fuel IH]; intros r es Hr Hn Hf; [lia|].
  assert (round_evicts fuel r needed es ∨ round_done fuel r needed es) as [He|Hd].
  { destruct (decide (es = [])) as [->|Hne]; [right; by apply push_round_empty|].
    destruct (layout_cases r es Hr Hne)
      as [(pre & post & ? & ? & ? & ? & ?)|(r1 & r2 & mid & gap & -> & ? & ? & ? & ? & ? & ?)].
    - by apply (push_round_linear fuel r es pre post).
    - by apply (push_round_wrapped fuel r r1 r2 mid gap). }
  - destruct He as (Heq & Hne & Hfull). destruct es as [|e es]; [done|].
    destruct (discard_oldest_spec r e es Hr) as (r1 & Hd & Hr1 & Hc & Hx & Ho).
    cbn [length] in Hf.
    destruct (IH r1 es Hr1 Hn ltac:(lia)) as (k & r' & Hk & Hkl & Hm & Hroom & Hc' & Hx' & Ho' & Hret).
    exists (S k), r'. rewrite Heq, Hd. cbn [mbind res_bind length drop].
    split; [done|]. split; [lia|]. do 2 (split; [done|]).
    split; [congruence|]. split; [congruence|]. split.
    + rewrite Ho', Ho, u32_u32_add. f_equal. lia.
    + right. rewrite Hc in Hret. destruct k as [|k]; [done|].
      destruct Hret as [?|Hret]; [done|].
      replace (S (S k) - 1)%nat with (S (S k - 1)) by lia. done.
  - destruct Hd as (r' & Heq & Hsm & Hroom). exists 0%nat, r'. rewrite drop_0.
    split; [done|]. split; [lia|]. split; [by apply (same_meta_ok r); [apply Hr|]|].
    split; [done|]. destruct Hsm as (Hc & _ & _ & Hx & Ho & _).
    do 2 (split; [done|]). split; [|by left].
    rewrite Ho, Z.add_0_r. symmetry. apply u32_id, Hr.
Qed.

(** ** Writing a record *)

(** What the caller hands to [log_ring_push]. *)
Record log_input := mk_log_input {
  li_level : Z;
  li_module : Z;
  li_event : Z;
  li_uptime : Z;
  li_args : option (list Z);
  li_argc : Z;
  li_text : option (list Z)
}.

Definition clamped_argc (x : log_input) : Z :=
  if LOG_RING_MAX_ARGS <? li_argc x then LOG_RING_MAX_ARGS else li_argc x.

Record input_wf (x : log_input) : Prop := {
  iw_level : is_u8 (li_level x);
  iw_module : is_u8 (li_module x);
  iw_event : is_u16 (li_event x);
  iw_uptime : is_u32 (li_uptime x);
  iw_argc : is_u8 (li_argc x);
  iw_args : ∀ l, li_args x = Some l → clamped_argc x <= zlen l ∧ Forall is_i32 l;
  iw_text : ∀ t, li_text x = Some t → Forall (λ c, is_u8 c ∧ c ≠ 0) t
}.

(** The entry that a push stores: arguments and text cut to their maxima. *)
Definition stored_args (x : log_input) : list Z :=
  match li_args x with None => [] | Some l => take (Z.to_nat (clamped_argc x)) l end.

Definition entry_of (seq : Z) (x : log_input) : log_entry :=
  mk_entry (li_level x) (li_module x) (li_event x) seq (li_uptime x) (stored_args x)
    (take (Z.to_nat LOG_RING_MAX_TEXT) (default [] (li_text x)))
    (LOG_RING_MAX_TEXT <? zlen (default [] (li_text x))).

Definition push_input (r : log_ring_t) (x : log_input) : res (Z * log_ring_t) :=
  log_ring_push r (li_level x) (li_module x) (li_event x) (li_uptime x)
    (li_args x) (li_argc x) (li_text x).

Lemma clamped_argc_range x : input_wf x → 0 <= clamped_argc x <= 4.
Proof.
  intros Hx. pose proof (iw_argc x Hx) as Ha. unfold clamped_argc, is_u8 in *. ring_consts.
  case_bool; lia.
Qed.

Lemma zlen_take {A} n (l : list A) : 0 <= n → zlen (take (Z.to_nat n) l) = Z.min n (zlen l).
Proof. intros. unfold zlen. rewrite length_take. lia. Qed.

Lemma stored_args_len x :
  input_wf x → zlen (stored_args x) = if li_args x is Some _ then clamped_argc x else 0.
Proof.
  intros Hx. pose proof (clamped_argc_range x Hx). unfold stored_args.
  destruct (li_args x) as [l|] eqn:E; [|done]. destruct (iw_args x Hx l E).
  rewrite zlen_take; lia.
Qed.

Lemma entry_of_wf seq x : input_wf x → is_u32 seq → entry_wf (entry_of seq x).
Proof.
  intros Hx Hs. pose proof (clamped_argc_range x Hx). split; cbn; try done; try (by apply Hx).
  - rewrite stored_args_len by done. ring_consts. destruct (li_args x); lia.
  - unfold stored_args. destruct (li_args x) as [l|] eqn:E; [|constructor].
    apply Forall_take. by eapply iw_args.
  - rewrite zlen_take; ring_consts; lia.
  - apply Forall_take. destruct (li_text x) as [t|] eqn:E; [|constructor]. by eapply iw_text.
Qed.

Lemma wr_u16_le v : wr_u16 v = [u8 v; u8 (Z.shiftr v 8)].
Proof.
  unfold wr_u16. change 255 with (Z.ones 8). rewrite Z.land_ones by lia.
  unfold u8. by rewrite Z.mod_mod.
Qed.

Lemma wr_u32_le v :
  wr_u32 v = [u8 v; u8 (Z.shiftr v 8); u8 (Z.shiftr v 16); u8 (Z.shiftr v 24)].
Proof.
  unfold wr_u32. change 255 with (Z.ones 8). rewrite !Z.land_ones by lia.
  unfold u8. by rewrite !Z.mod_mod.
Qed.

Lemma args_bytes_cons a args : args_bytes (a :: args) = wr_u32 (u32 a) ++ args_bytes args.
Proof. done. Qed.

(** The argument loop appends the bytes of the arguments to what is written. *)
Lemma write_args_spec l p args n : ∀ i xs l1 p0,
  array_write l p0 xs = Ok l1 → p + (14 + 4 * i) = p0 + zlen xs →
  0 <= i → i + Z.of_nat n <= zlen args →
  p + 14 + 4 * (i + Z.of_nat n) <= zlen l →
  ∃ l2, write_args n i l1 p args = Ok l2 ∧
    array_write l p0 (xs ++ args_bytes (take n (drop (Z.to_nat i) args))) = Ok l2.
Proof.
  induction n as [|n IH]; intros i xs l1 p0 H Hp Hi Hn Hl.
  { exists l1. rewrite take_0. change (args_bytes []) with (@nil Z). by rewrite app_nil_r. }
  destruct (lookup_lt_is_Some_2 args (Z.to_nat i)) as [a Ha]; [unfold zlen in *; lia|].
  cbn [write_args]. rewrite (array_get_ok _ _ a) by done. cbn [mbind res_bind].
  destruct (array_write_step l p0 (p + (14 + 4 * i)) xs (wr_u32 (u32 a)) l1 H Hp)
    as (l2 & E & H2); [change (zlen (wr_u32 _)) with 4; lia|].
  ring_consts. rewrite E. cbn [mbind res_bind].
  destruct (IH (i + 1) _ _ _ H2) as (l3 & E3 & H3); try lia.
  { rewrite zlen_app. change (zlen (wr_u32 _)) with 4. lia. }
  exists l3. split; [done|]. rewrite <- H3. f_equal. rewrite <- app_assoc. f_equal.
  rewrite (drop_S args a (Z.to_nat i)) by done. cbn [take]. rewrite args_bytes_cons.
  do 4 f_equal. lia.
Qed.

(** Symbolic execution of one write behind the bytes written so far. *)
Ltac wstep W :=
  try rewrite array_set_write;
  match goal with
  | |- context [array_write ?b ?j ?ys ≫= _] =>
      let E := fresh "E" in let W' := fresh "W" in let b' := fresh "b" in
      destruct (array_write_step _ _ j _ ys b W) as (b' & E & W');
      [autorewrite with zlen; lia | autorewrite with zlen; lia |];
      rewrite E; cbn [mbind res_bind]; clear E W; rename W' into W
  end.

(** The stores of a record amount to one write of its encoding. *)
Lemma write_record_spec pre old post e args txt :
  entry_wf e → zlen old = entry_size e →
  le_args e `prefix_of` args → le_text e `prefix_of` txt →
  write_record (pre ++ old ++ post) (zlen pre) (entry_size e) (le_level e) (le_module e)
    (entry_flags e) (le_event e) (le_seq e) (le_uptime e) args (zlen (le_args e)) txt
    (zlen (le_text e)) = Ok (pre ++ enc e ++ post).
Proof.
  intros He Hold [ra Ha] [rt Ht].
  rewrite <- (array_write_app pre old (enc e) post (zlen pre)) by (rewrite ?zlen_enc; done).
  set (l := pre ++ old ++ post). set (p := zlen pre).
  assert (0 <= p ∧ p + entry_size e <= zlen l) as [Hp Hl].
  { subst l p. rewrite !zlen_app. pose proof (zlen_nonneg pre). pose proof (zlen_nonneg post). lia. }
  clearbody l p. pose proof (entry_size_bounds e He). unfold entry_size in Hl, Hold.
  pose proof (zlen_nonneg (le_args e)). pose proof (zlen_nonneg (le_text e)).
  assert (array_write l p [] = Ok l) as W by (apply array_write_nil; lia).
  assert (zlen (wr_u16 (le_event e)) = 2 ∧ zlen (wr_u32 (le_seq e)) = 4 ∧
          zlen (wr_u32 (le_uptime e)) = 4) as (L1 & L2 & L3) by done.
  unfold write_record, enc. do 7 wstep W.
  destruct (write_args_spec l p args (Z.to_nat (zlen (le_args e))) 0 _ _ p W) as (b8 & E & W8);
    [autorewrite with zlen; lia|lia|rewrite Ha, zlen_app; pose proof (zlen_nonneg ra); lia|lia|].
  rewrite E. cbn [mbind res_bind]. clear W E. rename W8 into W.
  assert (take (Z.to_nat (zlen (le_args e))) (drop (Z.to_nat 0) args) = le_args e) as Hta.
  { rewrite Ha. unfold zlen. rewrite Nat2Z.id. apply take_app_length. }
  rewrite Hta in W. pose proof (zlen_args_bytes (le_args e)) as L4.
  assert (∃ b9, (if zlen (le_text e) =? 0 then Ok b8 else
      t ← array_read txt 0 (zlen (le_text e));
      array_write b8 (p + (LOG_RING_HDR_SIZE + 4 * zlen (le_args e))) t) = Ok b9 ∧
    array_write l p ((((((((([] ++ [u8 (entry_size e)]) ++ [le_level e]) ++ [le_module e])
      ++ [entry_flags e]) ++ wr_u16 (le_event e)) ++ wr_u32 (le_seq e)) ++ wr_u32 (le_uptime e))
      ++ args_bytes (le_args e)) ++ le_text e) = Ok b9) as (b9 & E & W9).
  { destruct (Z.eqb_spec (zlen (le_text e)) 0) as [E0|E0].
    - exists b8. split; [done|]. destruct (le_text e); [by rewrite app_nil_r|].
      rewrite zlen_cons in E0. pose proof (zlen_nonneg l0). lia.
    - rewrite Ht, <- (app_nil_l (le_text e ++ rt)), array_read_app by done.
      cbn [mbind res_bind]. apply (array_write_step _ _ _ _ _ _ W); ring_consts;
        autorewrite with zlen; lia. }
  rewrite E. cbn [mbind res_bind]. clear W E. rename W9 into W.
  rewrite array_set_write.
  destruct (array_write_step _ _ (p + (entry_size e - 1)) _ [0] b9 W) as (b10 & E & W');
    [unfold entry_size; autorewrite with zlen; lia|unfold entry_size; autorewrite with zlen; lia|].
  rewrite E, <- W'. by rewrite <- !app_assoc.
Qed.

(** ** Pushing onto the queue *)

Lemma entry_of_size seq x :
  entry_size (entry_of seq x)
  = 15 + 4 * zlen (stored_args x)
    + (if LOG_RING_MAX_TEXT <? zlen (default [] (li_text x)) then LOG_RING_MAX_TEXT
       else zlen (default [] (li_text x))).
Proof.
  unfold entry_size. cbn. rewrite zlen_take by (ring_consts; lia). case_bool; ring_consts; lia.
Qed.

Lemma push_room_repr r es e r' buf :
  ring_meta r es → entry_wf e → lr_next_seq r = le_seq e → zlen buf = lr_capacity r →
  0 <= lr_head r → lr_head r + entry_size e <= lr_capacity r →
  0 <= lr_used r → lr_used r + entry_size e <= lr_capacity r →
  layout buf (if lr_head r + entry_size e =? lr_capacity r then 0 else lr_head r + entry_size e)
    (lr_tail r) (lr_used r + entry_size e) (es ++ [e]) →
  r' = (let head := u16 (lr_head r + entry_size e) in
        let r := r <| lr_next_seq := u32 (lr_next_seq r + 1) |> <| lr_buf := buf |>
             <| lr_head := if head =? lr_capacity r then 0 else head |>
             <| lr_used := u16 (lr_used r + entry_size e) |>
             <| lr_count := u16 (lr_count r + 1) |> in
        if lr_count r =? 1 then r <| lr_first_seq := le_seq e |> else r) →
  ring_repr r' (es ++ [e]) ∧ lr_overwritten r' = lr_overwritten r ∧
  lr_capacity r' = lr_capacity r ∧ lr_next_seq r' = u32 (lr_next_seq r + 1).
Proof.
  intros [Hcap Hbuf Hcount Hfirst Hover Hnext Hwf Hseqs] He Hseq Hb Hh Hhc Hu Huc Hl.
  assert (Forall entry_wf (es ++ [e])) as Hwf' by (apply Forall_app; auto).
  destruct (layout_bounds _ _ _ _ _ Hl Hwf') as (_ & _ & Hbd); [ring_consts; lia|].
  pose proof (zlen_encs_bounds _ Hwf') as Hcb. rewrite zlen_app, zlen_cons, zlen_nil in Hcb.
  ring_consts. pose proof (zlen_nonneg es). pose proof (entry_size_bounds e He).
  cbn zeta. rewrite !u16_id by (unfold is_u16; lia). intros ->.
  assert (∀ first, is_u32 first → u32 (first + zlen es) = le_seq e →
    (es ≠ [] → first = lr_first_seq r) → seqs_from first (es ++ [e])) as Hsq.
  { intros first _ Hf Hfe i e' Hi. apply lookup_app_Some in Hi as [Hi|[Hi1 Hi2]].
    - rewrite Hfe by (by destruct es). by apply Hseqs.
    - apply list_lookup_singleton_Some in Hi2 as [Hi2 <-]. rewrite <- Hf. f_equal.
      unfold zlen. lia. }
  assert (es = [] ∨ (lr_count r + 1 =? 1) = false) as Hcase.
  { destruct es as [|e0 es0]; [by left|right]. apply Z.eqb_neq.
    rewrite Hcount, zlen_cons. pose proof (zlen_nonneg es0). lia. }
  destruct Hcase as [->|Hne].
  - rewrite Hcount, zlen_nil in *. cbn. split; [|done]. pose proof (ew_seq e He) as Hes.
    split; [split; cbn; ring_consts; try done; try lia|done].
    + rewrite Hseq. done.
    + apply Hsq; [done| |done]. change (zlen (@nil log_entry)) with 0.
      rewrite Z.add_0_r. by apply u32_id.
  - cbn. rewrite Hne. cbn. split; [|done].
    split; [split; cbn; ring_consts; try done; try lia|done].
    + rewrite zlen_app, zlen_cons, zlen_nil. lia.
    + rewrite Hnext, u32_u32_add, zlen_app, zlen_cons, zlen_nil. f_equal. lia.
    + apply Hsq; [done| |done]. by rewrite <- Hseq.
Qed.

Lemma repr_next_u32 r es : ring_repr r es → is_u32 (lr_next_seq r).
Proof. intros [[] _]. rewrite rm_next0. apply u32_range. Qed.

Lemma push_spec r es x :
  ring_repr r es → input_wf x →
  let e := entry_of (lr_next_seq r) x in
  ∃ k r', push_input r x = Ok (lr_next_seq r, r') ∧ (k <= length es)%nat ∧
    ring_repr r' (drop k es ++ [e]) ∧
    lr_capacity r' = lr_capacity r ∧ lr_next_seq r' = u32 (lr_next_seq r + 1) ∧
    lr_overwritten r' = u32 (lr_overwritten r + Z.of_nat k) ∧
    (k = 0%nat ∨ lr_capacity r < total_size (drop (k - 1) es) + 2 * LOG_RING_RECORD_MAX).
Proof.
  intros Hr Hx e. pose proof (repr_next_u32 r es Hr) as Hnu.
  pose proof (entry_of_wf _ x Hx Hnu) as He. fold e in He.
  pose proof (entry_size_bounds e He) as Hsz.
  assert (length es < S (Z.to_nat (lr_count r)))%nat as Hfuel.
  { rewrite (rm_count r es) by apply Hr. unfold zlen. lia. }
  destruct (push_room_spec (entry_size e) _ r es Hr Hsz Hfuel)
    as (k & r1 & E1 & Hk & Hm & (pre & old & post & Hb & Hh & Ho & Hu & Huc & Hlay) & Hc & Hn & Hov & Hret).
  pose proof (stored_args_len x Hx) as Hargs. pose proof (clamped_argc_range x Hx) as Hcl.
  pose proof (entry_of_size (lr_next_seq r) x) as Hes. fold e in Hes. rewrite Hargs in Hes.
  unfold push_input, log_ring_push. fold (clamped_argc x).
  set (argc := if li_args x is Some _ then clamped_argc x else 0) in *.
  assert (0 <= argc <= 4) as Hargc by (subst argc; destruct (li_args x); lia).
  set (tl := if LOG_RING_MAX_TEXT <? _ then LOG_RING_MAX_TEXT else _) in *.
  assert (0 <= tl <= 47) as Htl.
  { subst tl. pose proof (zlen_nonneg (default [] (li_text x))). ring_consts. case_bool; lia. }
  replace (u16 (LOG_RING_HDR_SIZE + 4 * argc + tl + 1)) with (entry_size e)
    by (rewrite Hes; ring_consts; rewrite u16_id by (unfold is_u16; lia); lia).
  rewrite E1. cbn [mbind res_bind].
  assert (zlen (le_args e) = argc) as Ha by exact Hargs.
  assert (zlen (le_text e) = tl) as Ht.
  { subst e tl. cbn. rewrite zlen_take by (ring_consts; lia). ring_consts. case_bool; lia. }
  assert ((if LOG_RING_MAX_TEXT <? zlen (default [] (li_text x)) then Z.lor argc 8 else argc)
          = entry_flags e) as Hf by (unfold entry_flags; by rewrite Ha).
  unfold LOG_RING_FLAG_TRUNCATED. rewrite Hf, Hb, Hh.
  pose proof (write_record_spec pre old post e (default [] (li_args x)) (default [] (li_text x)) He Ho)
    as Hw. rewrite Ha, Ht in Hw. cbn in Hw. rewrite Hn, Hw; cycle 1.
  { cbn. unfold stored_args. destruct (li_args x); [apply prefix_take|done]. }
  { cbn. apply prefix_take. }
  cbn [mbind res_bind]. exists k. eexists. split; [reflexivity|]. split; [done|].
  assert (zlen (pre ++ enc e ++ post) = lr_capacity r1) as Hbl.
  { rewrite <- (rm_buf r1 (drop k es) Hm), Hb. autorewrite with zlen.
    rewrite zlen_enc. lia. }
  pose proof (zlen_nonneg pre) as Hpn. pose proof (zlen_nonneg post) as Hpp.
  assert (zlen pre + entry_size e <= lr_capacity r1) as Hpc.
  { rewrite <- Hbl. autorewrite with zlen. rewrite zlen_enc. lia. }
  match goal with |- ring_repr ?r' _ ∧ _ =>
    destruct (push_room_repr r1 (drop k es) e r' (pre ++ enc e ++ post) Hm He) as (R1 & R2 & R3 & R4);
      [done|done|lia|lia|done|done|by apply Hlay|cbn zeta; by rewrite Hh, Hn|] end.
  split; [exact R1|]. rewrite R3, R4, R2, Hc, Hn. done.
Qed.

(** ** Reading *)

(** From position [pos] the records [es] follow one another. *)
Fixpoint reads (buf : list Z) (pos : Z) (es : list log_entry) : Prop :=
  match es with
  | [] => True
  | e :: es =>
      0 <= pos < zlen buf ∧
      ∃ b, array_get buf pos = Ok b ∧
        let p := if b =? 0 then 0 else pos in
        (∃ pre post, buf = pre ++ enc e ++ post ∧ zlen pre = p) ∧
        reads buf (if p + entry_size e =? zlen buf then 0 else p + entry_size e) es
  end.

Lemma layout_reads buf h es : ∀ t u,
  layout buf h t u es → Forall entry_wf es → 0 < zlen buf → reads buf t es.
Proof.
  induction es as [|e es IH]; intros t u Hl Hwf Hb; [done|].
  destruct (layout_bounds _ _ _ _ _ Hl Hwf Hb) as (_ & Ht & _).
  destruct (layout_discard _ _ _ _ _ _ Hl Hwf) as (b & Hget & Hseg & _ & _ & _ & _ & Hl').
  split; [done|]. exists b. do 2 (split; [done|]).
  destruct es as [|e' es]; [done|].
  assert (e' :: es ≠ []) as Hne by discriminate.
  exact (IH _ _ (Hl' Hne) (Forall_inv_tail Hwf) Hb).
Qed.

Lemma ring_reads r es : ring_repr r es → reads (lr_buf r) (lr_tail r) es.
Proof.
  intros [[] Hl]. eapply layout_reads; [exact Hl|done|]. ring_consts. lia.
Qed.

Lemma rd_u16_app pre v post p :
  is_u16 v → p = zlen pre → rd_u16 (pre ++ wr_u16 v ++ post) p = Ok v.
Proof.
  intros Hv ->. unfold rd_u16. rewrite wr_u16_le.
  rewrite (array_get_seg pre _ post 0 (u8 v) (zlen pre)) by (lia || done). cbn [mbind res_bind].
  rewrite (array_get_seg pre _ post 1 (u8 (Z.shiftr v 8)) (zlen pre + 1)) by (lia || done). cbn [mbind res_bind].
  rewrite le_bytes_u16 by done. by rewrite u16_id.
Qed.

Lemma rd_u32_app pre v post p :
  is_u32 v → p = zlen pre → rd_u32 (pre ++ wr_u32 v ++ post) p = Ok v.
Proof.
  intros Hv ->. unfold rd_u32. rewrite wr_u32_le.
  rewrite (array_get_seg pre _ post 0 (u8 v) (zlen pre)) by (lia || done). cbn [mbind res_bind].
  rewrite (array_get_seg pre _ post 1 (u8 (Z.shiftr v 8)) (zlen pre + 1)) by (lia || done). cbn [mbind res_bind].
  rewrite (array_get_seg pre _ post 2 (u8 (Z.shiftr v 16)) (zlen pre + 2)) by (lia || done). cbn [mbind res_bind].
  rewrite (array_get_seg pre _ post 3 (u8 (Z.shiftr v 24)) (zlen pre + 3)) by (lia || done). cbn [mbind res_bind].
  by rewrite le_bytes_u32.
Qed.

(** The fields of a record in the buffer. *)
Record record_fields (buf : list Z) (p : Z) (e : log_entry) : Prop := {
  rf_size : array_get buf p = Ok (entry_size e);
  rf_level : array_get buf (p + 1) = Ok (le_level e);
  rf_module : array_get buf (p + 2) = Ok (le_module e);
  rf_flags : array_get buf (p + 3) = Ok (entry_flags e);
  rf_event : rd_u16 buf (p + 4) = Ok (le_event e);
  rf_seq : rd_u32 buf (p + 6) = Ok (le_seq e);
  rf_uptime : rd_u32 buf (p + 10) = Ok (le_uptime e);
  rf_args : ∀ i a, le_args e !! i = Some a →
    rd_u32 buf (p + (14 + 4 * Z.of_nat i)) = Ok (u32 a);
  rf_text : c_string (drop (Z.to_nat (p + (14 + 4 * zlen (le_args e)))) buf) = Ok (le_text e)
}.

Lemma args_bytes_app a b : args_bytes (a ++ b) = args_bytes a ++ args_bytes b.
Proof. unfold args_bytes. by rewrite fmap_app, concat_app. Qed.

Lemma record_fields_ok pre e post :
  entry_wf e → record_fields (pre ++ enc e ++ post) (zlen pre) e.
Proof.
  intros He. pose proof (entry_size_bounds e He). unfold enc.
  assert (∀ l x, l = pre ++ x → zlen l = zlen pre + zlen x) as Hz
    by (intros l x ->; apply zlen_app).
  assert (zlen (wr_u16 (le_event e)) = 2 ∧ zlen (wr_u32 (le_seq e)) = 4 ∧
          zlen (wr_u32 (le_uptime e)) = 4) as (L1 & L2 & L3) by done.
  rewrite u8_id by (unfold is_u8; lia). rewrite <- !app_assoc.
  split.
  - by apply array_get_app.
  - rewrite (app_assoc pre). apply array_get_app. autorewrite with zlen. lia.
  - rewrite 2!app_assoc. apply array_get_app. autorewrite with zlen. lia.
  - rewrite 3!app_assoc. apply array_get_app. autorewrite with zlen. lia.
  - rewrite 4!app_assoc. apply rd_u16_app; [apply He|autorewrite with zlen; lia].
  - rewrite 5!app_assoc. apply rd_u32_app; [apply He|autorewrite with zlen; lia].
  - rewrite 6!app_assoc. apply rd_u32_app; [apply He|autorewrite with zlen; lia].
  - intros i a Hi. rewrite 7!app_assoc. rewrite <- (take_drop_middle _ _ _ Hi), args_bytes_app.
    rewrite args_bytes_cons, <- !app_assoc, 8!app_assoc.
    pose proof (lookup_lt_Some _ _ _ Hi).
    apply rd_u32_app; [apply u32_range|]. autorewrite with zlen. rewrite zlen_args_bytes.
    assert (zlen (take i (le_args e)) = Z.of_nat i) as -> by (unfold zlen; rewrite length_take; lia).
    lia.
  - rewrite 8!app_assoc.
    replace (Z.to_nat (zlen pre + (14 + 4 * zlen (le_args e)))) with
      (length ((((((((pre ++ [entry_size e]) ++ [le_level e]) ++ [le_module e]) ++ [entry_flags e])
      ++ wr_u16 (le_event e)) ++ wr_u32 (le_seq e)) ++ wr_u32 (le_uptime e)) ++ args_bytes (le_args e))).
    + rewrite drop_app_length. cbn [app]. apply c_string_app.
      eapply Forall_impl; [apply (ew_text e He)|]. by intros ? [].
    + apply Nat2Z.inj. change (Z.of_nat (length ?l)) with (zlen l). autorewrite with zlen.
      rewrite zlen_args_bytes, Z2Nat.id; [lia|].
      pose proof (zlen_nonneg pre). pose proof (zlen_nonneg (le_args e)). lia.
Qed.

Definition padded_args (args : list Z) : list Z := args ++ replicate (4 - length args) 0.

Record view_shows (buf : list Z) (v : log_ring_view_t) (e : log_entry) : Prop := {
  vs_level : vw_level v = le_level e;
  vs_module : vw_module v = le_module e;
  vs_flags : vw_flags v = entry_flags e;
  vs_argc : vw_argc v = zlen (le_args e);
  vs_event : vw_event_id v = le_event e;
  vs_seq : vw_seq v = le_seq e;
  vs_uptime : vw_uptime_ms v = le_uptime e;
  vs_args : vw_args v = padded_args (le_args e);
  vs_text : c_string (drop (Z.to_nat (vw_text v)) buf) = Ok (le_text e)
}.

Lemma flags_argc e : entry_wf e → Z.land (entry_flags e) LOG_RING_FLAG_ARGC_MASK = zlen (le_args e).
Proof.
  intros He. pose proof (ew_argc e He). pose proof (zlen_nonneg (le_args e)). ring_consts.
  unfold entry_flags, LOG_RING_FLAG_ARGC_MASK.
  assert (zlen (le_args e) = 0 ∨ zlen (le_args e) = 1 ∨ zlen (le_args e) = 2
          ∨ zlen (le_args e) = 3 ∨ zlen (le_args e) = 4) as Hc by lia.
  by destruct (le_truncated e), Hc as [->|[->|[->|[->| ->]]]].
Qed.

Lemma array_set_app {A} (pre : list A) x y post i :
  i = zlen pre → array_set (pre ++ x :: post) i y = Ok (pre ++ y :: post).
Proof.
  intros ->. rewrite array_set_write. by rewrite (array_write_app pre [x] [y] post).
Qed.

Lemma read_args_spec buf p e n : ∀ i,
  record_fields buf p e → entry_wf e → (i + n)%nat = length (le_args e) →
  read_args n (Z.of_nat i) buf p (take i (le_args e) ++ replicate (4 - i) 0)
  = Ok (padded_args (le_args e)).
Proof.
  induction n as [|n IH]; intros i Hf He Hi.
  - cbn. unfold padded_args. rewrite take_ge by lia. do 4 f_equal. lia.
  - destruct (lookup_lt_is_Some_2 (le_args e) i) as [a Ha]; [lia|].
    pose proof (ew_argc e He). unfold zlen in *. ring_consts.
    cbn [read_args]. ring_consts. rewrite (rf_args _ _ _ Hf i a Ha). cbn [mbind res_bind].
    replace (4 - i)%nat with (S (4 - S i)) by lia. cbn [replicate].
    rewrite array_set_app by (unfold zlen; rewrite length_take; lia). cbn [mbind res_bind].
    pose proof (Forall_lookup_1 _ _ _ _ (ew_args e He) Ha) as Hai. rewrite i32_u32 by done.
    replace (Z.of_nat i + 1) with (Z.of_nat (S i)) by lia.
    rewrite <- (IH (S i)) by (done || lia). rewrite (take_S_r _ _ a) by done.
    by rewrite <- app_assoc.
Qed.

Lemma record_at_spec r pos e es :
  reads (lr_buf r) pos (e :: es) → entry_wf e → zlen (lr_buf r) = lr_capacity r →
  ∃ p, record_at r pos = Ok (Some (p, entry_size e)) ∧ record_fields (lr_buf r) p e ∧
    0 <= p ∧ p + entry_size e <= lr_capacity r ∧
    reads (lr_buf r) (if p + entry_size e =? lr_capacity r then 0 else p + entry_size e) es ∧
    reads (lr_buf r) p (e :: es).
Proof.
  intros (Hpos & b & Hget & (pre & post & Hb & Hp) & Hrest) He Hcap.
  pose proof (entry_size_bounds e He) as Hsz.
  pose proof (record_fields_ok pre e post He) as Hf. rewrite <- Hb, Hp in Hf.
  exists (if b =? 0 then 0 else pos). unfold record_at.
  rewrite (proj2 (Z.leb_gt (lr_capacity r) pos)) by lia. rewrite Hget. cbn [mbind res_bind].
  rewrite (rf_size _ _ _ Hf). cbn [mbind res_bind]. ring_consts.
  rewrite (proj2 (Z.ltb_ge (entry_size e) _)), (proj2 (Z.ltb_ge _ (entry_size e))) by lia.
  assert (0 <= zlen pre ∧ zlen pre + entry_size e <= lr_capacity r) as [H1 H2].
  { rewrite <- Hcap, Hb. autorewrite with zlen. rewrite zlen_enc.
    pose proof (zlen_nonneg pre). pose proof (zlen_nonneg post). lia. }
  rewrite Hp in *. cbn [orb].
  rewrite (proj2 (Z.ltb_ge (lr_capacity r) _)) by lia.
  do 4 (split; [done|]). rewrite Hcap in Hrest. split; [done|].
  split; [rewrite Hcap; lia|]. exists (entry_size e). split; [apply Hf|]. cbn zeta.
  rewrite (proj2 (Z.eqb_neq (entry_size e) 0)) by lia.
  split; [by exists pre, post|]. by rewrite Hcap.
Qed.

(** Position and rest of an iterator. *)
Definition iter_at (r : log_ring_t) (it : log_ring_iter_t) (es : list log_entry) : Prop :=
  reads (lr_buf r) (it_pos it) es ∧ it_remaining it = zlen es ∧ Forall entry_wf es ∧
  zlen (lr_buf r) = lr_capacity r ∧ lr_capacity r < 65536 ∧ zlen es < 65536.

Lemma iter_begin_at r es : ring_repr r es → iter_at r (log_ring_iter_begin r) es.
Proof.
  intros Hr. pose proof (ring_reads r es Hr) as Hrd. destruct Hr as [[] Hl].
  destruct (layout_bounds _ _ _ _ _ Hl rm_wf0) as (_ & _ & Hbd); [ring_consts; lia|].
  pose proof (zlen_encs_bounds _ rm_wf0).
  split; [done|]. split_and!; try done; lia.
Qed.

Lemma iter_next_nil r it : iter_at r it [] → log_ring_iter_next r it = Ok (None, it).
Proof. intros (_ & Hrem & _). unfold log_ring_iter_next. by rewrite Hrem. Qed.

Lemma iter_next_spec r it e es :
  iter_at r it (e :: es) →
  ∃ v it', log_ring_iter_next r it = Ok (Some v, it') ∧ view_shows (lr_buf r) v e ∧
    iter_at r it' es.
Proof.
  intros (Hrd & Hrem & Hwf & Hcap & Hc16 & Hlen).
  pose proof (Forall_inv Hwf) as He. apply Forall_inv_tail in Hwf.
  destruct (record_at_spec r _ e es Hrd He Hcap) as (p & Hat & Hf & Hp0 & Hpc & Hrest & _).
  rewrite zlen_cons in *. pose proof (zlen_nonneg es). pose proof (entry_size_bounds e He).
  unfold log_ring_iter_next. rewrite Hrem, (proj2 (Z.eqb_neq (1 + zlen es) 0)) by lia.
  rewrite Hat. cbn [mbind res_bind].
  rewrite (rf_level _ _ _ Hf), (rf_module _ _ _ Hf), (rf_flags _ _ _ Hf). cbn [mbind res_bind].
  rewrite flags_argc by done. pose proof (ew_argc e He) as Hargc.
  rewrite (proj2 (Z.ltb_ge LOG_RING_MAX_ARGS (zlen (le_args e)))) by lia.
  rewrite (rf_event _ _ _ Hf), (rf_seq _ _ _ Hf), (rf_uptime _ _ _ Hf). cbn [mbind res_bind].
  assert (read_args (length (le_args e)) 0 (lr_buf r) p (replicate 4 0)
          = Ok (padded_args (le_args e))) as Ha
    by exact (read_args_spec _ p e (length (le_args e)) 0 Hf He eq_refl).
  replace (Z.to_nat (zlen (le_args e))) with (length (le_args e)) by (unfold zlen; lia).
  rewrite Ha. cbn [mbind res_bind]. do 2 eexists. split; [reflexivity|].
  split; [split; try done; cbn; ring_consts; apply (rf_text _ _ _ Hf)|].
  unfold iter_at. cbn. rewrite (u16_id (p + _)) by (unfold is_u16; lia).
  split; [done|]. split; [|split_and!; done || lia].
  rewrite u16_id by (unfold is_u16; lia). lia.
Qed.

(** Skipping the records up to a sequence number. *)
Fixpoint skip_to (since : Z) (es : list log_entry) : list log_entry :=
  match es with
  | [] => []
  | e :: es' => if since <? le_seq e then es else skip_to since es'
  end.

Lemma seek_loop_spec r since n : ∀ it es,
  iter_at r it es → (length es < n)%nat →
  ∃ it', seek_loop n r it since = Ok it' ∧ iter_at r it' (skip_to since es).
Proof.
  induction n as [|n IH]; intros it es Hat Hn; [lia|]. cbn [seek_loop].
  destruct es as [|e es].
  { exists it. destruct Hat as (? & Hrem & ?). by rewrite Hrem. }
  destruct Hat as (Hrd & Hrem & Hwf & Hcap & Hc16 & Hlen).
  pose proof (Forall_inv Hwf) as He.
  destruct (record_at_spec r _ e es Hrd He Hcap) as (p & Hra & Hf & Hp0 & Hpc & Hrest & Hrd').
  rewrite zlen_cons in *. pose proof (zlen_nonneg es). pose proof (entry_size_bounds e He).
  rewrite Hrem, (proj2 (Z.eqb_neq (1 + zlen es) 0)) by lia. rewrite Hra.
  cbn [mbind res_bind]. rewrite (rf_seq _ _ _ Hf). cbn [mbind res_bind skip_to].
  destruct (since <? le_seq e).
  - eexists. split; [done|]. unfold iter_at. cbn [it_pos it_remaining put_field set_it_pos].
    rewrite zlen_cons. split_and!; done.
  - apply IH; [|cbn in Hn; lia]. apply Forall_inv_tail in Hwf. unfold iter_at. cbn.
    rewrite (u16_id (p + _)) by (unfold is_u16; lia).
    split; [done|]. split; [|split_and!; done || lia].
    rewrite u16_id by (unfold is_u16; lia). lia.
Qed.

Lemma iter_seek_spec r it since es :
  iter_at r it es →
  ∃ it', log_ring_iter_seek r it since = Ok it' ∧ iter_at r it' (skip_to since es).
Proof.
  intros Hat. apply seek_loop_spec; [done|]. destruct Hat as (_ & -> & _). unfold zlen. lia.
Qed.

Lemma init_repr buf cap :
  zlen buf = cap → LOG_RING_RECORD_MAX <= cap < 65536 → ring_repr (log_ring_init buf cap) [].
Proof.
  intros Hb Hc. split; [split; cbn|]; try done.
  apply lay_empty.
Qed.

Lemma clear_repr r es : ring_repr r es → ring_repr (log_ring_clear r) [].
Proof.
  intros Hr. pose proof (repr_next_u32 r es Hr). destruct Hr as [[] _].
  split; [split; cbn|]; try done; [|apply lay_empty].
  rewrite Z.add_0_r. symmetry. by apply u32_id.
Qed.

(** ** Any number of pushes *)

Fixpoint run_pushes (r : log_ring_t) (xs : list log_input) : res (list Z * log_ring_t) :=
  match xs with
  | [] => Ok ([], r)
  | x :: xs =>
      p ← push_input r x;
      q ← run_pushes p.2 xs;
      Ok (p.1 :: q.1, q.2)
  end.

(** The entries that the pushes [xs] stand for, numbered from [s]. *)
Definition entries_from (s : Z) (xs : list log_input) : list log_entry :=
  imap (λ i x, entry_of (u32 (s + Z.of_nat i)) x) xs.

Lemma length_entries_from s xs : length (entries_from s xs) = length xs.
Proof. unfold entries_from. by rewrite length_imap. Qed.

Lemma entries_from_cons s x xs :
  entries_from s (x :: xs) = entry_of (u32 s) x :: entries_from (u32 (s + 1)) xs.
Proof.
  unfold entries_from. cbn. rewrite Z.add_0_r. f_equal.
  apply imap_ext. intros i y _. rewrite u32_u32_add. cbn. do 2 f_equal. lia.
Qed.

(** Eviction is not eager: the records from the last evicted one on would not
    have fitted, up to two record sizes. *)
Definition evicts_late (cap : Z) (k : nat) (h : list log_entry) : Prop :=
  k = 0%nat ∨ cap < total_size (drop (k - 1) h) + 2 * LOG_RING_RECORD_MAX.

Lemma evicts_late_snoc cap k h e :
  (k <= length h)%nat → 0 <= entry_size e → evicts_late cap k h → evicts_late cap k (h ++ [e]).
Proof.
  intros Hk He [->|Hl]; [by left|right]. rewrite drop_app_le, total_size_app by lia.
  cbn. lia.
Qed.

Lemma push_history r h k x :
  ring_repr r (drop k h) → (k <= length h)%nat → evicts_late (lr_capacity r) k h → input_wf x →
  ∃ k' r', push_input r x = Ok (lr_next_seq r, r') ∧ (k <= k' <= length h)%nat ∧
    ring_repr r' (drop k' (h ++ [entry_of (lr_next_seq r) x])) ∧
    lr_capacity r' = lr_capacity r ∧ lr_next_seq r' = u32 (lr_next_seq r + 1) ∧
    lr_overwritten r' = u32 (lr_overwritten r + Z.of_nat (k' - k)) ∧
    evicts_late (lr_capacity r') k' (h ++ [entry_of (lr_next_seq r) x]).
Proof.
  intros Hr Hk Hl Hx.
  destruct (push_spec r _ x Hr Hx) as (j & r' & E & Hj & Hr' & Hc & Hn & Ho & Hret).
  rewrite length_drop in Hj. exists (k + j)%nat, r'. rewrite drop_drop in Hr'.
  pose proof (entry_size_bounds _ (entry_of_wf _ x Hx (repr_next_u32 r _ Hr))) as Hsz.
  split; [done|]. split; [lia|]. split; [by rewrite drop_app_le by lia|].
  do 2 (split; [done|]). split; [rewrite Ho; do 2 f_equal; lia|]. rewrite Hc.
  apply evicts_late_snoc; [lia|lia|].
  destruct Hret as [->|Hret]; [by rewrite Nat.add_0_r|].
  destruct j as [|j]; [by rewrite Nat.add_0_r|]. right. rewrite drop_drop in Hret.
  by replace (k + S j - 1)%nat with (k + (S j - 1))%nat by lia.
Qed.

Lemma run_pushes_spec xs : ∀ r h k,
  ring_repr r (drop k h) → (k <= length h)%nat → evicts_late (lr_capacity r) k h →
  Forall input_wf xs →
  ∃ k' r', run_pushes r xs = Ok (le_seq <$> entries_from (lr_next_seq r) xs, r') ∧
    (k <= k')%nat ∧ (k' = k ∨ k' < length h + length xs)%nat ∧
    ring_repr r' (drop k' (h ++ entries_from (lr_next_seq r) xs)) ∧
    lr_overwritten r' = u32 (lr_overwritten r + Z.of_nat (k' - k)) ∧
    evicts_late (lr_capacity r) k' (h ++ entries_from (lr_next_seq r) xs).
Proof.
  induction xs as [|x xs IH]; intros r h k Hr Hk Hl Hwf.
  { exists k, r. cbn. rewrite app_nil_r, Nat.sub_diag, Z.add_0_r.
    split; [done|]. split; [lia|]. split; [by left|]. split; [done|]. split; [|done].
    symmetry. apply u32_id, Hr. }
  apply Forall_cons in Hwf as [Hx Hwf].
  destruct (push_history r h k x Hr Hk Hl Hx) as (k1 & r1 & E & Hk1 & Hr1 & Hc & Hn & Ho & Hl1).
  rewrite entries_from_cons. rewrite (u32_id (lr_next_seq r)) by (by eapply repr_next_u32).
  destruct (IH r1 _ k1 Hr1 ltac:(rewrite length_app; cbn; lia) Hl1 Hwf)
    as (k2 & r2 & E2 & Hk2 & Hk2' & Hr2 & Ho2 & Hl2).
  exists k2, r2. cbn [run_pushes]. rewrite E. cbn [mbind res_bind fst snd]. rewrite E2.
  cbn [mbind res_bind fst snd]. rewrite Hn, Hc in *. rewrite <- app_assoc in Hr2, Hl2.
  split; [done|]. rewrite length_app in Hk2'. cbn [length] in *.
  split; [lia|]. split; [right; lia|]. split; [done|]. split; [|done].
  rewrite Ho2, Ho, u32_u32_add. f_equal. lia.
Qed.

(** C11: The byte ring is a drop-oldest queue.  Any number of pushes into a fresh
    ring of at least one maximal record (78 bytes) ends normally, with every
    access in bounds; the returned sequence numbers are consecutive from 1; the
    ring then holds exactly the entries of the last pushes, whose eviction count
    is [overwritten]; the newest record is always kept, and a record is evicted
    only when it and the newer ones fill the ring up to two record sizes. *)
Theorem log_ring_is_drop_oldest_queue (buf : list Z) (cap : Z) (xs : list log_input) :
  zlen buf = cap → LOG_RING_RECORD_MAX <= cap < 65536 → Forall input_wf xs →
  ∃ k r, run_pushes (log_ring_init buf cap) xs = Ok (le_seq <$> entries_from 1 xs, r) ∧
    (k <= length xs - 1)%nat ∧ ring_repr r (drop k (entries_from 1 xs)) ∧
    log_ring_overwritten r = u32 (Z.of_nat k) ∧
    (k = 0%nat ∨ cap < total_size (drop (k - 1) (entries_from 1 xs)) + 2 * LOG_RING_RECORD_MAX).
Proof.
  intros Hb Hc Hxs.
  destruct (run_pushes_spec xs (log_ring_init buf cap) [] 0) as (k & r & E & Hk & Hk' & Hr & Ho & Hl);
    [by apply init_repr|done|by left|done|].
  exists k, r. cbn [length app lr_next_seq log_ring_init lr_capacity lr_overwritten] in *.
  split; [done|]. split; [lia|]. split; [done|]. split; [|done].
  unfold log_ring_overwritten. rewrite Ho. f_equal. lia.
Qed.

Lemma log_ring_is_drop_oldest_queue_witness :
  zlen (replicate 80 0) = 80 ∧
  ∃ k r, run_pushes (log_ring_init (replicate 80 0) 80)
      (replicate 9 (mk_log_input 3 1 100 7 (Some [-5]) 1 (Some [72; 105]))) =
      Ok ([1; 2; 3; 4; 5; 6; 7; 8; 9], r) ∧
    ring_repr r (drop k (entries_from 1
      (replicate 9 (mk_log_input 3 1 100 7 (Some [-5]) 1 (Some [72; 105]))))) ∧
    log_ring_overwritten r = u32 (Z.of_nat k).
Proof.
  split; [done|].
  destruct (log_ring_is_drop_oldest_queue (replicate 80 0) 80
    (replicate 9 (mk_log_input 3 1 100 7 (Some [-5]) 1 (Some [72; 105]))))
    as (k & r & E & _ & Hr & Ho & _).
  - done.
  - ring_consts. lia.
  - apply Forall_replicate. split; cbn; unfold is_u8, is_u16, is_u32; try lia.
    + intros l [= <-]. split; [done|]. repeat constructor; done.
    + intros t [= <-]. repeat constructor; done.
  - exists k, r. split; [exact E|]. split; [exact Hr|exact Ho].
Defined.
