(* ===== verification/LogCore.v ===== *)
(** * The logging core: [logging_core.c]

    Models src/components/logging/src/logging_core.c: the store gate, the emit
    path into the log ring of [LogRing] and the bounded read since a sequence
    number.  The specification is the list of accepted records. *)

From S2P Require Import Prelude Bytes LogRing.

(** ** Data *)

Definition LOG_LEVEL_OFF : Z := 0.
Definition LOG_LEVEL_ERROR : Z := 1.
Definition LOG_LEVEL_WARN : Z := 2.
Definition LOG_LEVEL_INFO : Z := 3.
Definition LOG_LEVEL_DEBUG : Z := 4.
Definition LOG_LEVEL_TRACE : Z := 5.

Definition LOG_MAX_ARGS : Z := 4.
Definition LOG_MAX_TEXT : nat := 48.
Definition LOG_RING_BYTES : Z := 32768.

(** The copy-out record; [lg_text] is the string up to its NUL. *)
Record log_record_t := mk_log_record {
  lg_seq : Z;
  lg_boot_id : Z;
  lg_uptime_ms : Z;
  lg_event_id : Z;
  lg_module_id : Z;
  lg_level : Z;
  lg_argc : Z;
  lg_args : list Z;
  lg_text : list Z
}.

Record log_stats_t := mk_log_stats {
  ls_boot_id : Z;
  ls_first_seq_available : Z;
  ls_next_seq : Z;
  ls_dropped : Z
}.

(** The static variables of the file. *)
Record log_core_t := mk_log_core {
  lc_ring : log_ring_t;
  lc_boot_id : Z;
  lc_enabled : bool;
  lc_runtime_level : Z
}.
#[export] Instance eta_log_core_t : Eta log_core_t := λ r, mk_log_core (lc_ring r)
      (lc_boot_id r) (lc_enabled r) (lc_runtime_level r).
#[export] Instance set_lc_ring : Setter lc_ring. Proof. mk_setter. Defined.
#[export] Instance set_lc_boot_id : Setter lc_boot_id. Proof. mk_setter. Defined.
#[export] Instance set_lc_enabled : Setter lc_enabled. Proof. mk_setter. Defined.
#[export] Instance set_lc_runtime_level : Setter lc_runtime_level. Proof. mk_setter. Defined.

(** ** Operations *)

(** [rnd] is the value of [esp_random()], [buf] the ring's static array. *)
Definition logging_init_early (rnd : Z) (buf : list Z) : log_core_t :=
  mk_log_core (log_ring_init buf (u16 LOG_RING_BYTES)) (if rnd =? 0 then 1 else rnd)
    true LOG_LEVEL_INFO.

Definition logging_is_enabled_fast (c : log_core_t) (eLevel : Z) : bool :=
  lc_enabled c && negb (eLevel =? LOG_LEVEL_OFF) && (u8 eLevel <=? lc_runtime_level c).

(** [logging_emit] at timer value [now_us]: the new state and the record handed
    to the flash tier, if the gate let it through. *)
Definition logging_emit (c : log_core_t) (eLevel ucModuleId usEventId : Z)
    (pslArgs : option (list Z)) (ucArgc : Z) (pstrText : option (list Z)) (now_us : Z)
    : res (log_core_t * option log_record_t) :=
  if negb (logging_is_enabled_fast c eLevel) then Ok (c, None) else
  let ucArgc := if LOG_MAX_ARGS <? ucArgc then LOG_MAX_ARGS else ucArgc in
  let ulUptimeMs := u32 (now_us / 1000) in
  p ← log_ring_push (lc_ring c) (u8 eLevel) ucModuleId usEventId ulUptimeMs
        pslArgs ucArgc pstrText;
  args ← match pslArgs with
         | Some l => if ucArgc =? 0 then Ok (replicate 4 0)
                     else a ← array_read l 0 ucArgc; array_write (replicate 4 0) 0 a
         | None => Ok (replicate 4 0)
         end;
  let text := match pstrText with Some t => take (LOG_MAX_TEXT - 1) t | None => [] end in
  let stRec := mk_log_record p.1 (lc_boot_id c) ulUptimeMs usEventId ucModuleId (u8 eLevel)
                 ucArgc args text in
  Ok (c <| lc_ring := p.2 |>, Some stRec).

Definition stats_fill_locked (c : log_core_t) : log_stats_t :=
  mk_log_stats (lc_boot_id c) (log_ring_first_seq (lc_ring c))
    (log_ring_next_seq (lc_ring c)) (log_ring_overwritten (lc_ring c)).

(** The copy loop of [logging_read_since]: up to [max] further records. *)
Fixpoint read_since_loop (fuel : nat) (c : log_core_t) (it : log_ring_iter_t)
    (min_level : Z) (max : nat) : res (list log_record_t) :=
  match fuel with
  | O => OutOfFuel
  | S fuel =>
      match max with
      | O => Ok []
      | S max' =>
          p ← log_ring_iter_next (lc_ring c) it;
          match p.1 with
          | None => Ok []
          | Some v =>
              if u8 min_level <? vw_level v then read_since_loop fuel c p.2 min_level max else
              a ← array_read (vw_args v) 0 (vw_argc v);
              args ← array_write (replicate 4 0) 0 a;
              text ← strlcpy LOG_MAX_TEXT (drop (Z.to_nat (vw_text v)) (lr_buf (lc_ring c)));
              let r := mk_log_record (vw_seq v) (lc_boot_id c) (vw_uptime_ms v) (vw_event_id v)
                         (vw_module v) (vw_level v) (vw_argc v) args text in
              rest ← read_since_loop fuel c p.2 min_level max';
              Ok (r :: rest)
          end
      end
  end.

(** [has_out] and [has_stats]: the caller passed the pointers. *)
Definition logging_read_since (c : log_core_t) (ulSinceSeq eMinLevel : Z) (has_out : bool)
    (szMax : nat) (has_stats : bool) : res (list log_record_t * option log_stats_t) :=
  let stats := if has_stats then Some (stats_fill_locked c) else None in
  if negb has_out || (Nat.eqb szMax 0) then Ok ([], stats) else
  let eMinLevel := if eMinLevel =? LOG_LEVEL_OFF then LOG_LEVEL_TRACE else eMinLevel in
  let it := log_ring_iter_begin (lc_ring c) in
  it ← log_ring_iter_seek (lc_ring c) it ulSinceSeq;
  out ← read_since_loop (S (Z.to_nat (it_remaining it))) c it eMinLevel szMax;
  Ok (out, stats).

Definition logging_stats_get (c : log_core_t) : log_stats_t := stats_fill_locked c.

Definition logging_clear_runtime (c : log_core_t) : log_core_t :=
  c <| lc_ring := log_ring_clear (lc_ring c) |>.

Definition logging_set_enabled (c : log_core_t) (bEnabled : bool) : log_core_t :=
  c <| lc_enabled := bEnabled |>.

Definition logging_set_runtime_level (c : log_core_t) (eLevel : Z) : log_core_t :=
  let eLevel := if LOG_LEVEL_TRACE <? eLevel then LOG_LEVEL_TRACE else eLevel in
  c <| lc_runtime_level := u8 eLevel |>.

(** ** Specification *)

(** A record as a reader sees it. *)
Definition shown (boot : Z) (e : log_entry) : log_record_t :=
  mk_log_record (le_seq e) boot (le_uptime e) (le_event e) (le_module e) (le_level e)
    (zlen (le_args e)) (padded_args (le_args e)) (le_text e).

(** What the read returns from the held records [es]. *)
Definition read_spec (boot : Z) (es : list log_entry) (since min_level : Z) (max : nat)
    : list log_record_t :=
  let lim := u8 (if min_level =? LOG_LEVEL_OFF then LOG_LEVEL_TRACE else min_level) in
  take max (shown boot <$> filter (λ e, le_level e <= lim) (skip_to since es)).

Inductive log_op :=
  | OpEmit (lvl modl ev : Z) (args : option (list Z)) (argc : Z) (text : option (list Z)) (now : Z)
  | OpClear
  | OpEnable (b : bool)
  | OpLevel (lvl : Z).

Definition log_step (c : log_core_t) (op : log_op) : res log_core_t :=
  match op with
  | OpEmit lvl modl ev args argc text now =>
      p ← logging_emit c lvl modl ev args argc text now; Ok p.1
  | OpClear => Ok (logging_clear_runtime c)
  | OpEnable b => Ok (logging_set_enabled c b)
  | OpLevel lvl => Ok (logging_set_runtime_level c lvl)
  end.

Definition log_run (c : log_core_t) (ops : list log_op) : res log_core_t :=
  foldl (λ m op, c ← m; log_step c op) (Ok c) ops.

(** The abstract logger: its gate, the next number and the records accepted
    since the last clear. *)
Record log_spec := mk_log_spec {
  sp_enabled : bool;
  sp_level : Z;
  sp_next : Z;
  sp_hist : list log_entry
}.

Definition op_input (lvl modl ev : Z) args argc text now : log_input :=
  mk_log_input (u8 lvl) modl ev (u32 (now / 1000)) args
    (if LOG_MAX_ARGS <? argc then LOG_MAX_ARGS else argc) text.

Definition spec_step (s : log_spec) (op : log_op) : log_spec :=
  match op with
  | OpEmit lvl modl ev args argc text now =>
      if sp_enabled s && negb (lvl =? 0) && (u8 lvl <=? sp_level s) then
        mk_log_spec (sp_enabled s) (sp_level s) (sp_next s + 1)
          (sp_hist s ++ [entry_of (u32 (sp_next s)) (op_input lvl modl ev args argc text now)])
      else s
  | OpClear => mk_log_spec (sp_enabled s) (sp_level s) (sp_next s) []
  | OpEnable b => mk_log_spec b (sp_level s) (sp_next s) (sp_hist s)
  | OpLevel lvl => mk_log_spec (sp_enabled s) (u8 (Z.min lvl 5)) (sp_next s) (sp_hist s)
  end.

Definition spec_run (s : log_spec) (ops : list log_op) : log_spec := foldl spec_step s ops.

Definition op_wf (op : log_op) : Prop :=
  match op with
  | OpEmit lvl modl ev args argc text now =>
      is_u8 modl ∧ is_u16 ev ∧ is_u8 argc ∧
      (∀ l, args = Some l → Z.min argc 4 <= zlen l ∧ Forall is_i32 l) ∧
      (∀ t, text = Some t → Forall (λ c, is_u8 c ∧ c ≠ 0) t)
  | _ => True
  end.

(** The relation between the core and the abstract logger. *)
Record core_repr (c : log_core_t) (s : log_spec) : Prop := {
  cr_enabled : lc_enabled c = sp_enabled s;
  cr_level : lc_runtime_level c = sp_level s;
  cr_next : lr_next_seq (lc_ring c) = u32 (sp_next s);
  cr_ring : ∃ k, (k <= length (sp_hist s))%nat ∧ ring_repr (lc_ring c) (drop k (sp_hist s)) ∧
    evicts_late (lr_capacity (lc_ring c)) k (sp_hist s)
}.

(** ** The read loop *)

Lemma padded_write args :
  zlen args <= 4 → array_write (replicate 4 0) 0 args = Ok (padded_args args).
Proof.
  intros Hl. unfold padded_args.
  replace (replicate 4 0) with ([] ++ replicate (length args) 0 ++ replicate (4 - length args) 0).
  - rewrite (array_write_app [] _ args); [done|done|].
    unfold zlen. by rewrite length_replicate.
  - cbn [app]. rewrite <- replicate_add. f_equal. unfold zlen in Hl. lia.
Qed.

Lemma copy_args args :
  zlen args <= 4 → (a ← array_read (padded_args args) 0 (zlen args); array_write (replicate 4 0) 0 a)
                   = Ok (padded_args args).
Proof.
  intros Hl. unfold padded_args at 1. rewrite <- (app_nil_l (args ++ _)).
  rewrite array_read_app by done. by apply padded_write.
Qed.

Lemma read_since_loop_spec c min_level fuel : ∀ it es max,
  iter_at (lc_ring c) it es → (length es < fuel)%nat →
  read_since_loop fuel c it min_level max
  = Ok (take max (shown (lc_boot_id c) <$> filter (λ e, le_level e <= u8 min_level) es)).
Proof.
  induction fuel as [|fuel IH]; intros it es max Hat Hf; [lia|]. cbn [read_since_loop].
  destruct max as [|max]; [done|]. destruct es as [|e es].
  { by rewrite iter_next_nil. }
  destruct (iter_next_spec _ _ _ _ Hat) as (v & it' & E & Hv & Hat').
  rewrite E. cbn [mbind res_bind fst snd]. rewrite (vs_level _ _ _ Hv).
  pose proof (Forall_inv (proj1 (proj2 (proj2 Hat)))) as He. cbn [length] in Hf.
  case_bool.
  - rewrite filter_cons_False by lia. apply IH; [done|lia].
  - rewrite filter_cons_True by lia. rewrite (vs_args _ _ _ Hv), (vs_argc _ _ _ Hv).
    pose proof (ew_argc e He). pose proof (copy_args (le_args e)) as Hca. ring_consts.
    destruct (array_read (padded_args (le_args e)) 0 (zlen (le_args e))) as [a| |];
      cbn [mbind res_bind] in Hca |- *; [|by specialize (Hca ltac:(lia))..].
    rewrite Hca by lia. unfold strlcpy. rewrite (vs_text _ _ _ Hv). cbn [mbind res_bind].
    rewrite (IH it' es max) by (done || lia). cbn [mbind res_bind].
    rewrite (vs_seq _ _ _ Hv), (vs_uptime _ _ _ Hv), (vs_event _ _ _ Hv), (vs_module _ _ _ Hv).
    pose proof (ew_len e He) as Hlen. ring_consts.
    rewrite (take_ge (le_text e)) by (unfold zlen, LOG_MAX_TEXT in *; lia). done.
Qed.

Lemma read_since_repr c es since min_level max hs :
  ring_repr (lc_ring c) es →
  logging_read_since c since min_level true max hs
  = Ok (read_spec (lc_boot_id c) es since min_level max,
        if (hs : bool) then Some (stats_fill_locked c) else None).
Proof.
  intros Hr. unfold logging_read_since. cbn [negb orb]. destruct (Nat.eqb_spec max 0) as [->|Hm]; [done|].
  destruct (iter_seek_spec _ _ since _ (iter_begin_at _ _ Hr)) as (it & E & Hat).
  rewrite E. cbn [mbind res_bind].
  rewrite (read_since_loop_spec _ _ _ _ _ _ Hat); [done|].
  destruct Hat as (_ & -> & _). unfold zlen. lia.
Qed.

Lemma logging_read_since_spec c s since min_level max hs :
  core_repr c s →
  ∃ k, (k <= length (sp_hist s))%nat ∧ ring_repr (lc_ring c) (drop k (sp_hist s)) ∧
    evicts_late (lr_capacity (lc_ring c)) k (sp_hist s) ∧
    logging_read_since c since min_level true max hs
    = Ok (read_spec (lc_boot_id c) (drop k (sp_hist s)) since min_level max,
          if (hs : bool) then Some (stats_fill_locked c) else None).
Proof.
  intros [_ _ _ (k & Hk & Hr & Hl)]. exists k. do 3 (split; [done|]). by apply read_since_repr.
Qed.

(** ** The operations against the specification *)

Lemma op_input_wf lvl modl ev args argc text now :
  op_wf (OpEmit lvl modl ev args argc text now) →
  input_wf (op_input lvl modl ev args argc text now).
Proof.
  intros (Hm & He & Ha & Hargs & Ht). unfold op_input, LOG_MAX_ARGS.
  split; cbn; try done; try apply u8_range; try apply u32_range.
  - unfold is_u8 in *. case_bool; lia.
  - intros l Hl. destruct (Hargs l Hl) as [Hz Hi]. split; [|done].
    unfold clamped_argc. cbn. ring_consts.
    destruct (Z.ltb_spec 4 argc); case_bool; lia.
Qed.

(** The copy of the arguments for the flash record never leaves the array. *)
Lemma emit_args_copy args argc :
  is_u8 argc → (∀ l, args = Some l → Z.min argc 4 <= zlen l ∧ Forall is_i32 l) →
  ∃ a, match args with
       | Some l => if (if LOG_MAX_ARGS <? argc then LOG_MAX_ARGS else argc) =? 0
                   then Ok (replicate 4 0)
                   else a ← array_read l 0 (if LOG_MAX_ARGS <? argc then LOG_MAX_ARGS else argc);
                        array_write (replicate 4 0) 0 a
       | None => Ok (replicate 4 0)
       end = Ok a.
Proof.
  intros Ha Hargs. destruct args as [l|]; [|by eexists]. destruct (Hargs l eq_refl) as [Hl _].
  unfold LOG_MAX_ARGS, is_u8 in *. set (n := if 4 <? argc then 4 else argc).
  assert (n = Z.min argc 4) as Hn by (subst n; case_bool; lia). clearbody n. subst n.
  destruct (Z.min argc 4 =? 0); [by eexists|].
  destruct (split_at l (Z.min argc 4)) as (l1 & l2 & -> & Hl1); [lia|].
  rewrite <- (app_nil_l (l1 ++ l2)), array_read_app by done. cbn [mbind res_bind].
  rewrite padded_write by lia. by eexists.
Qed.

Lemma logging_emit_spec c s lvl modl ev args argc text now :
  core_repr c s → op_wf (OpEmit lvl modl ev args argc text now) →
  ∃ c' r, logging_emit c lvl modl ev args argc text now = Ok (c', r) ∧
    core_repr c' (spec_step s (OpEmit lvl modl ev args argc text now)) ∧
    lc_boot_id c' = lc_boot_id c ∧ lr_capacity (lc_ring c') = lr_capacity (lc_ring c) ∧
    (is_Some r ↔ logging_is_enabled_fast c lvl = true).
Proof.
  intros [He Hlv Hn (k & Hk & Hr & Hl)] Hop.
  pose proof (op_input_wf _ _ _ _ _ _ _ Hop) as Hx.
  unfold logging_emit. cbn [spec_step].
  assert (logging_is_enabled_fast c lvl = sp_enabled s && negb (lvl =? 0) && (u8 lvl <=? sp_level s))
    as Hgate by (unfold logging_is_enabled_fast; by rewrite He, Hlv).
  rewrite <- Hgate. destruct (logging_is_enabled_fast c lvl) eqn:Eg; cbn [negb]; cycle 1.
  { exists c, None. split; [done|]. split; [split; [done..|by exists k]|]. do 2 (split; [done|]).
    split; [intros [? ?]|]; done. }
  destruct (push_history _ _ k _ Hr Hk Hl Hx) as (k' & r' & E & Hk' & Hr' & Hc & Hn' & Ho & Hl').
  unfold push_input in E. cbn [li_level li_module li_event li_uptime li_args li_argc li_text op_input] in E.
  rewrite E. cbn [mbind res_bind].
  destruct Hop as (_ & _ & Ha & Hargs & _).
  destruct (emit_args_copy args argc Ha Hargs) as (a & Ea). rewrite Ea. cbn [mbind res_bind].
  do 2 eexists. split; [reflexivity|]. split; [|split; [done|]; split; [done|split; [done|intros _; by eexists]]].
  rewrite Hn in *. split; cbn; try done.
  - by rewrite Hn', u32_u32_add.
  - exists k'. rewrite length_app. cbn. split; [lia|].
    split; [exact Hr'|exact Hl'].
Qed.

Lemma log_step_spec c s op :
  core_repr c s → op_wf op →
  ∃ c', log_step c op = Ok c' ∧ core_repr c' (spec_step s op) ∧ lc_boot_id c' = lc_boot_id c
        ∧ lr_capacity (lc_ring c') = lr_capacity (lc_ring c).
Proof.
  intros Hc Hop. destruct op as [lvl modl ev args argc text now| |b|lvl].
  - destruct (logging_emit_spec c s lvl modl ev args argc text now Hc Hop)
      as (c' & r & E & Hc' & Hb & Hcap & _). cbn [log_step]. rewrite E. by exists c'.
  - eexists. split; [reflexivity|]. split; [|done]. destruct Hc as [He Hl Hn (k & _ & Hr & _)].
    split; cbn; try done. exists 0%nat. split; [lia|]. split; [by eapply clear_repr|by left].
  - eexists. split; [reflexivity|]. split; [|done]. by destruct Hc.
  - eexists. split; [reflexivity|]. split; [|done]. destruct Hc as [He Hl Hn Hk].
    split; cbn; try done. unfold LOG_LEVEL_TRACE. f_equal. case_bool; lia.
Qed.

Lemma log_run_spec ops : ∀ c s,
  core_repr c s → Forall op_wf ops →
  ∃ c', log_run c ops = Ok c' ∧ core_repr c' (spec_run s ops) ∧ lc_boot_id c' = lc_boot_id c
        ∧ lr_capacity (lc_ring c') = lr_capacity (lc_ring c).
Proof.
  induction ops as [|op ops IH]; intros c s Hc Hops; [by exists c|].
  apply Forall_cons in Hops as [Hop Hops].
  destruct (log_step_spec c s op Hc Hop) as (c1 & E & Hc1 & Hb & Hcap).
  destruct (IH c1 _ Hc1 Hops) as (c2 & E2 & Hc2 & Hb2 & Hcap2).
  exists c2. unfold log_run, spec_run in *. cbn [foldl mbind res_bind]. rewrite E.
  split; [done|]. split; [done|]. by rewrite Hb2, Hcap2.
Qed.

Definition spec_init : log_spec := mk_log_spec true LOG_LEVEL_INFO 1 [].

Lemma core_init rnd buf :
  zlen buf = LOG_RING_BYTES → core_repr (logging_init_early rnd buf) spec_init.
Proof.
  intros Hb. split; [done..|]. exists 0%nat. split; [done|]. split; [|by left].
  apply init_repr; [done|]. change (u16 LOG_RING_BYTES) with 32768. ring_consts. lia.
Qed.

(** The numbers of the accepted records, as long as they do not wrap. *)
Record spec_inv (s : log_spec) (bound : Z) : Prop := {
  si_next : 1 <= sp_next s <= bound;
  si_room : Z.of_nat (length (sp_hist s)) < sp_next s;
  si_seq : ∀ i e, sp_hist s !! i = Some e →
    le_seq e = sp_next s - Z.of_nat (length (sp_hist s)) + Z.of_nat i
}.

Lemma spec_inv_step s op b :
  spec_inv s b → b < 4294967296 → spec_inv (spec_step s op) (b + 1).
Proof.
  intros [Hn Hr Hs] Hb. destruct op as [lvl modl ev args argc text now| |en|lvl]; cbn [spec_step].
  - destruct (_ && _); [|split; [lia|done|done]]. split; cbn.
    + lia.
    + rewrite length_app. cbn. lia.
    + intros i e Hi. rewrite length_app. cbn.
      apply lookup_app_Some in Hi as [Hi|[Hle Hi]].
      * rewrite (Hs i e Hi). lia.
      * apply list_lookup_singleton_Some in Hi as [Hi <-]. cbn.
        rewrite u32_id by (unfold is_u32; lia). lia.
  - split; cbn; [lia|lia|done].
  - split; cbn; [lia|done|done].
  - split; cbn; [lia|done|done].
Qed.

Lemma spec_inv_run ops : ∀ s b,
  spec_inv s b → b + Z.of_nat (length ops) <= 4294967296 →
  spec_inv (spec_run s ops) (b + Z.of_nat (length ops)).
Proof.
  induction ops as [|op ops IH]; intros s b Hs Hb.
  - cbn. by rewrite Z.add_0_r.
  - cbn [length] in *. change (spec_run s (op :: ops)) with (spec_run (spec_step s op) ops).
    replace (b + Z.of_nat (S (length ops))) with ((b + 1) + Z.of_nat (length ops)) by lia.
    apply IH; [|lia]. apply spec_inv_step; [done|lia].
Qed.

Lemma filter_all {A} (P : A → Prop) `{∀ x, Decision (P x)} l : Forall P l → filter P l = l.
Proof. induction 1; [done|]. rewrite filter_cons_True by done. by f_equal. Qed.

(** On increasing numbers skipping is filtering. *)
Lemma skip_to_filter since es f :
  (∀ i e, es !! i = Some e → le_seq e = f + Z.of_nat i) →
  skip_to since es = filter (λ e, since < le_seq e) es.
Proof.
  revert f. induction es as [|e es IH]; intros f Hs; [done|]. cbn [skip_to].
  pose proof (Hs 0%nat e eq_refl) as He. cbn in He.
  assert (∀ i e', es !! i = Some e' → le_seq e' = (f + 1) + Z.of_nat i) as Hs'.
  { intros i e' Hi. rewrite (Hs (S i) e' Hi). lia. }
  destruct (Z.ltb_spec since (le_seq e)).
  - rewrite filter_cons_True by done. f_equal. symmetry. apply filter_all, Forall_lookup_2.
    intros i e' Hi. rewrite (Hs' i e' Hi). lia.
  - rewrite filter_cons_False by lia. by apply (IH (f + 1)).
Qed.

(** C12: After any sequence of emits, clears and gate changes, a read returns, in
    order and decoded field by field, exactly the accepted records that are
    newer than the cursor and at most as verbose as asked, up to the caller's
    limit.  The held records are those accepted since the last clear, except
    for the oldest ones, which are evicted only when they and the newer ones
    fill the 32 KiB ring up to two record sizes; the statistics name the first
    number held and the next one.  No access leaves the ring (fewer than 2^32
    records per boot).  A record is accepted when the log is enabled and its level
    is within Log_Runtime_Level at that moment: this is the store gate of
    logging_core.c, although README.md says that storage records every level. *)
Theorem logging_read_returns_accepted_records rnd buf ops since min_level max :
  zlen buf = LOG_RING_BYTES → Forall op_wf ops → Z.of_nat (length ops) < 4294967295 →
  let s := spec_run spec_init ops in
  ∃ c k, log_run (logging_init_early rnd buf) ops = Ok c ∧
    (k = 0%nat ∨ 32768 < total_size (drop (k - 1) (sp_hist s)) + 2 * LOG_RING_RECORD_MAX) ∧
    let held := drop k (sp_hist s) in
    let boot := if rnd =? 0 then 1 else rnd in
    let lim := u8 (if min_level =? LOG_LEVEL_OFF then LOG_LEVEL_TRACE else min_level) in
    logging_read_since c since min_level true max true
    = Ok (take max (shown boot <$> filter (λ e, le_level e <= lim)
                      (filter (λ e, since < le_seq e) held)),
          Some (mk_log_stats boot (sp_next s - Z.of_nat (length held)) (sp_next s)
                  (lr_overwritten (lc_ring c)))).
Proof.
  intros Hb Hops Hlen s.
  destruct (log_run_spec ops _ _ (core_init rnd buf Hb) Hops) as (c & E & Hc & Hboot & Hcap).
  fold s in Hc. exists c.
  destruct (logging_read_since_spec c s since min_level max true Hc) as (k & Hk & Hr & Hl & Er).
  assert (spec_inv s (1 + Z.of_nat (length ops))) as [Hn Hroom Hseq].
  { apply spec_inv_run; [|lia]. split; [cbn; lia..|done]. }
  exists k. split; [done|]. split; [rewrite Hcap in Hl; exact Hl|]. cbn zeta. rewrite Er.
  cbn [lc_boot_id logging_init_early] in Hboot. unfold read_spec. rewrite Hboot.
  rewrite (skip_to_filter since (drop k (sp_hist s))
    (sp_next s - Z.of_nat (length (sp_hist s)) + Z.of_nat k)); cycle 1.
  { intros i e Hi. rewrite lookup_drop in Hi. rewrite (Hseq _ _ Hi). lia. }
  do 3 f_equal. unfold stats_fill_locked, log_ring_first_seq, log_ring_next_seq. rewrite Hboot.
  rewrite (cr_next c s Hc), (u32_id (sp_next s)) by (unfold is_u32; lia). f_equal.
  destruct Hr as [Hm _]. pose proof (rm_next _ _ Hm) as Hx. rewrite (cr_next c s Hc) in Hx.
  pose proof (rm_first _ _ Hm) as Hf. unfold zlen in Hx. rewrite length_drop in *.
  unfold is_u32, u32 in *. Z.to_euclidean_division_equations. lia.
Qed.

Definition example_ops : list log_op :=
  [OpEmit 3 1 100 (Some [-5]) 1 (Some [72; 105]) 5000000; OpLevel 1;
   OpEmit 3 1 101 None 0 None 6000000; OpEmit 1 3 401 (Some [7]) 1 None 7000000].

Lemma example_ops_wf : Forall op_wf example_ops.
Proof.
  unfold example_ops. repeat apply Forall_cons_2; [..|apply Forall_nil_2]; cbn; try done;
    unfold is_u8, is_u16; (split; [lia|]); (split; [lia|]); (split; [lia|]);
    (split; [intros l [= <-] || done|intros t [= <-] || done]);
    try (split; [done|]); repeat constructor; done.
Qed.

(** The rejected INFO record is not numbered; a DEBUG read sees the other two. *)
Lemma logging_read_returns_accepted_records_witness :
  ∃ c k, log_run (logging_init_early 77 (replicate (Z.to_nat LOG_RING_BYTES) 0)) example_ops = Ok c ∧
    let held := drop k (sp_hist (spec_run spec_init example_ops)) in
    logging_read_since c 0 4 true 10 true
    = Ok (take 10 (shown 77 <$> filter (λ e, le_level e <= 4) (filter (λ e, 0 < le_seq e) held)),
          Some (mk_log_stats 77 (3 - Z.of_nat (length held)) 3 (lr_overwritten (lc_ring c)))).
Proof.
  assert (zlen (replicate (Z.to_nat LOG_RING_BYTES) 0) = LOG_RING_BYTES) as Hb.
  { unfold zlen. by rewrite length_replicate, Z2Nat.id by done. }
  assert (Z.of_nat (length example_ops) < 4294967295) as Hl by (cbn; lia).
  destruct (logging_read_returns_accepted_records 77 _ example_ops 0 4 10 Hb example_ops_wf Hl)
    as (c & k & E & _ & H).
  exists c, k. split; [exact E|exact H].
Defined.
