(* ===== verification/LogFlash.v ===== *)
(** * The flash tier of the log: [logging_flash.c]

    Models src/components/logging/src/logging_flash.c: two 64 KiB slots of a
    NOR-flash partition that carry the records of this and of the previous boot.
    The partition driver and the ROM's CRC are not part of the repository: they
    are parameters, with their documented behaviour as hypotheses. *)

From S2P Require Import Prelude Bytes LogRing LogCore.

(** ** Data *)

Definition LOGF_MAGIC : Z := 0x4C4F4753.
Definition LOGF_SLOT_SIZE : Z := 0x10000.
Definition LOGF_DATA_OFF : Z := 64.
Definition LOG_EVT_BOOT : Z := 100.
Definition LOG_EVT_WD_BOOT_DIAG : Z := 704.
Definition ACK_PENDING : Z := 0xFFFFFFFF.

Record logf_hdr_t := mk_hdr {
  hd_magic : Z;
  hd_boot_id : Z;
  hd_generation : Z;
  hd_acked : Z
}.
#[export] Instance eta_logf_hdr_t : Eta logf_hdr_t := λ r, mk_hdr (hd_magic r)
      (hd_boot_id r) (hd_generation r) (hd_acked r).
#[export] Instance set_hd_acked : Setter hd_acked. Proof. mk_setter. Defined.

(** The static variables; [lf_part] is the partition handle being non-null,
    [lf_queue] the queue behind its handle. *)
Record log_flash_t := mk_log_flash {
  lf_part : bool;
  lf_queue : option (list log_record_t);
  lf_write_off : Z;
  lf_own_off : Z;
  lf_prev_off : Z;
  lf_prev_boot_id : Z;
  lf_prev_available : bool;
  lf_flash_level : Z;
  lf_dropped : Z
}.
#[export] Instance eta_log_flash_t : Eta log_flash_t := λ r, mk_log_flash (lf_part r)
      (lf_queue r) (lf_write_off r) (lf_own_off r) (lf_prev_off r) (lf_prev_boot_id r)
      (lf_prev_available r) (lf_flash_level r) (lf_dropped r).
#[export] Instance set_lf_part : Setter lf_part. Proof. mk_setter. Defined.
#[export] Instance set_lf_queue : Setter lf_queue. Proof. mk_setter. Defined.
#[export] Instance set_lf_write_off : Setter lf_write_off. Proof. mk_setter. Defined.
#[export] Instance set_lf_own_off : Setter lf_own_off. Proof. mk_setter. Defined.
#[export] Instance set_lf_prev_off : Setter lf_prev_off. Proof. mk_setter. Defined.
#[export] Instance set_lf_prev_boot_id : Setter lf_prev_boot_id. Proof. mk_setter. Defined.
#[export] Instance set_lf_prev_available : Setter lf_prev_available. Proof. mk_setter. Defined.
#[export] Instance set_lf_flash_level : Setter lf_flash_level. Proof. mk_setter. Defined.
#[export] Instance set_lf_dropped : Setter lf_dropped. Proof. mk_setter. Defined.

Definition log_flash_boot : log_flash_t :=
  mk_log_flash false None 0 0 0 0 false LOG_LEVEL_WARN 0.

(** The structures as they lie in memory (little endian, three bytes of padding
    in front of the arguments). *)
Definition hdr_bytes (h : logf_hdr_t) : list Z :=
  wr_u32 (hd_magic h) ++ wr_u32 (hd_boot_id h) ++ wr_u32 (hd_generation h) ++ wr_u32 (hd_acked h).

Definition sizeof_hdr : Z := 16.
Definition sizeof_rec : Z := 84.
Definition sizeof_entry : Z := 88.

Definition rec_bytes (r : log_record_t) : list Z :=
  wr_u32 (lg_seq r) ++ wr_u32 (lg_boot_id r) ++ wr_u32 (lg_uptime_ms r)
  ++ wr_u16 (lg_event_id r) ++ [lg_module_id r] ++ [lg_level r] ++ [lg_argc r] ++ [0; 0; 0]
  ++ args_bytes (lg_args r) ++ (lg_text r ++ replicate (LOG_MAX_TEXT - length (lg_text r)) 0).

(** Reading the structures back. *)
Definition hdr_of_bytes (l : list Z) : res logf_hdr_t :=
  m ← rd_u32 l 0; b ← rd_u32 l 4; g ← rd_u32 l 8; a ← rd_u32 l 12; Ok (mk_hdr m b g a).

Definition rec_of_bytes (l : list Z) : res log_record_t :=
  seq ← rd_u32 l 0; boot ← rd_u32 l 4; up ← rd_u32 l 8; ev ← rd_u16 l 12;
  modl ← array_get l 14; lvl ← array_get l 15; argc ← array_get l 16;
  a0 ← rd_u32 l 20; a1 ← rd_u32 l 24; a2 ← rd_u32 l 28; a3 ← rd_u32 l 32;
  Ok (mk_log_record seq boot up ev modl lvl argc [i32 a0; i32 a1; i32 a2; i32 a3]
        (chars_to_nul (drop 36 l))).

(** ** Operations *)

Definition logging_set_flash_level (s : log_flash_t) (eLevel : Z) : log_flash_t :=
  let eLevel := if LOG_LEVEL_TRACE <? eLevel then LOG_LEVEL_TRACE else eLevel in
  s <| lf_flash_level := u8 eLevel |>.

Definition logging_flash_dropped_get (s : log_flash_t) : Z := lf_dropped s.

(** [logging_flash_submit]; [sent] is the result of [xQueueSend]. *)
Definition logging_flash_submit (s : log_flash_t) (r : log_record_t) (sent : bool) : log_flash_t :=
  match lf_part s, lf_queue s with
  | true, Some q =>
      let want := (lg_level r <=? lf_flash_level s) || (lg_event_id r =? LOG_EVT_BOOT)
                  || (lg_event_id r =? LOG_EVT_WD_BOOT_DIAG) in
      if negb want then s
      else if sent then s <| lf_queue := Some (q ++ [r]) |>
      else s <| lf_dropped := u32 (lf_dropped s + 1) |>
  | _, _ => s
  end.

Definition logging_previous_boot_available (s : log_flash_t) : bool * Z :=
  (lf_prev_available s, if lf_prev_available s then lf_prev_boot_id s else 0).

(** Which slot the new boot claims. *)
Definition slot_choice (v0 v1 : bool) (h0 h1 : logf_hdr_t) : Z :=
  if negb v0 then 0
  else if negb v1 then 1
  else if (hd_acked h0 =? 0) && negb (hd_acked h1 =? 0) then 0
  else if (hd_acked h1 =? 0) && negb (hd_acked h0 =? 0) then 1
  else if hd_generation h0 <=? hd_generation h1 then 0 else 1.

(** The generation of the new slot. *)
Definition next_generation (v0 v1 : bool) (h0 h1 : logf_hdr_t) : Z :=
  let g := 1 in
  let g := if v0 && (g <=? hd_generation h0) then u32 (hd_generation h0 + 1) else g in
  if v1 && (g <=? hd_generation h1) then u32 (hd_generation h1 + 1) else g.

(** ** Structure round trips *)

Record hdr_wf (h : logf_hdr_t) : Prop := {
  hw_magic : is_u32 (hd_magic h);
  hw_boot : is_u32 (hd_boot_id h);
  hw_gen : is_u32 (hd_generation h);
  hw_acked : is_u32 (hd_acked h)
}.

Record rec_wf (r : log_record_t) : Prop := {
  rw_seq : is_u32 (lg_seq r);
  rw_boot : is_u32 (lg_boot_id r);
  rw_uptime : is_u32 (lg_uptime_ms r);
  rw_event : is_u16 (lg_event_id r);
  rw_module : is_u8 (lg_module_id r);
  rw_level : is_u8 (lg_level r);
  rw_argc : is_u8 (lg_argc r);
  rw_args : Forall is_i32 (lg_args r);
  rw_arity : length (lg_args r) = 4%nat;
  rw_text : Forall (λ c, is_u8 c ∧ c ≠ 0) (lg_text r);
  rw_len : (length (lg_text r) < LOG_MAX_TEXT)%nat
}.

Lemma zlen_wr_u32 v : zlen (wr_u32 v) = 4.
Proof. done. Qed.
Lemma zlen_wr_u16 v : zlen (wr_u16 v) = 2.
Proof. done. Qed.
#[export] Hint Rewrite zlen_wr_u32 zlen_wr_u16 zlen_args_bytes : zlen.

Lemma wr_u32_bytes v : Forall is_u8 (wr_u32 v).
Proof. unfold wr_u32. repeat constructor; apply u8_range. Qed.
Lemma wr_u16_bytes v : Forall is_u8 (wr_u16 v).
Proof. unfold wr_u16. repeat constructor; apply u8_range. Qed.
Lemma args_bytes_bytes args : Forall is_u8 (args_bytes args).
Proof.
  induction args as [|a args IH]; [constructor|]. rewrite args_bytes_cons.
  apply Forall_app. split; [apply wr_u32_bytes|done].
Qed.

Lemma zlen_rec_bytes r : rec_wf r → zlen (rec_bytes r) = sizeof_rec.
Proof.
  intros Hr. unfold rec_bytes. autorewrite with zlen.
  pose proof (rw_arity r Hr). pose proof (rw_len r Hr).
  unfold zlen, sizeof_rec, LOG_MAX_TEXT in *. rewrite length_replicate. lia.
Qed.

Lemma rec_bytes_bytes r : rec_wf r → Forall is_u8 (rec_bytes r).
Proof.
  intros Hr. unfold rec_bytes. repeat apply Forall_app_2;
    try apply wr_u32_bytes; try apply wr_u16_bytes; try apply args_bytes_bytes;
    try (by apply Forall_singleton, Hr).
  - repeat constructor; done.
  - eapply Forall_impl; [apply (rw_text r Hr)|]. by intros ? [].
  - apply Forall_replicate. done.
Qed.

Lemma rec_bytes_roundtrip r : rec_wf r → rec_of_bytes (rec_bytes r) = Ok r.
Proof.
  intros Hr. unfold rec_of_bytes.
  pose proof (rw_args r Hr) as Hargs. pose proof (rw_arity r Hr) as Har.
  destruct (lg_args r) as [|x0 [|x1 [|x2 [|x3 [|]]]]] eqn:Ea; try discriminate Har.
  assert (rec_bytes r = wr_u32 (lg_seq r) ++ wr_u32 (lg_boot_id r) ++ wr_u32 (lg_uptime_ms r)
    ++ wr_u16 (lg_event_id r) ++ [lg_module_id r; lg_level r; lg_argc r; 0; 0; 0]
    ++ wr_u32 (u32 x0) ++ wr_u32 (u32 x1) ++ wr_u32 (u32 x2) ++ wr_u32 (u32 x3)
    ++ (lg_text r ++ replicate (LOG_MAX_TEXT - length (lg_text r)) 0)) as Hb.
  { unfold rec_bytes. rewrite Ea. reflexivity. }
  set (l := rec_bytes r) in *. clearbody l.
  assert (∀ n pre v post, l = pre ++ wr_u32 v ++ post → n = zlen pre → is_u32 v →
    rd_u32 l n = Ok v) as R32 by (intros n pre v post -> Hn Hv; by apply rd_u32_app).
  rewrite (R32 0 [] _ _ Hb) by (done || apply Hr). cbn [mbind res_bind].
  rewrite (R32 4 _ _ _ Hb) by (done || apply Hr). cbn [mbind res_bind].
  rewrite app_assoc in Hb. rewrite (R32 8 _ _ _ Hb) by (done || apply Hr). cbn [mbind res_bind].
  rewrite app_assoc in Hb. set (pre := (_ ++ _) ++ wr_u32 _) in Hb.
  assert (rd_u16 l 12 = Ok (lg_event_id r)) as ->.
  { rewrite Hb. apply rd_u16_app; [apply Hr|done]. }
  cbn [mbind res_bind]. rewrite app_assoc in Hb. set (pre2 := pre ++ _) in Hb.
  assert (array_get l 14 = Ok (lg_module_id r)) as -> by (rewrite Hb; by apply (array_get_seg _ _ _ 0)).
  assert (array_get l 15 = Ok (lg_level r)) as -> by (rewrite Hb; by apply (array_get_seg _ _ _ 1)).
  assert (array_get l 16 = Ok (lg_argc r)) as -> by (rewrite Hb; by apply (array_get_seg _ _ _ 2)).
  cbn [mbind res_bind]. rewrite app_assoc in Hb. set (pre3 := pre2 ++ _) in Hb.
  rewrite (R32 20 pre3 _ _ Hb) by (done || apply u32_range). cbn [mbind res_bind].
  rewrite app_assoc in Hb.
  rewrite (R32 24 _ _ _ Hb) by (done || apply u32_range). cbn [mbind res_bind].
  rewrite app_assoc in Hb.
  rewrite (R32 28 _ _ _ Hb) by (done || apply u32_range). cbn [mbind res_bind].
  rewrite app_assoc in Hb.
  rewrite (R32 32 _ _ _ Hb) by (done || apply u32_range). cbn [mbind res_bind].
  rewrite app_assoc in Hb.
  assert (drop 36 l = lg_text r ++ replicate (LOG_MAX_TEXT - length (lg_text r)) 0) as ->
    by (by rewrite Hb).
  pose proof (rw_len r Hr). destruct (LOG_MAX_TEXT - length (lg_text r))%nat eqn:El; [lia|].
  cbn [replicate]. rewrite chars_to_nul_app; cycle 1.
  { eapply Forall_impl; [apply (rw_text r Hr)|]. by intros ? []. }
  repeat apply Forall_cons in Hargs as [? Hargs]. rewrite !i32_u32 by done.
  destruct r; cbn in *. by subst.
Qed.

Lemma hdr_bytes_roundtrip h : hdr_wf h → hdr_of_bytes (hdr_bytes h) = Ok h.
Proof.
  intros Hh. unfold hdr_of_bytes. set (l := hdr_bytes h).
  assert (l = wr_u32 (hd_magic h) ++ wr_u32 (hd_boot_id h) ++ wr_u32 (hd_generation h)
              ++ wr_u32 (hd_acked h) ++ []) as Hb.
  { subst l. unfold hdr_bytes. by rewrite app_nil_r. }
  clearbody l.
  assert (∀ n pre v post, l = pre ++ wr_u32 v ++ post → n = zlen pre → is_u32 v →
    rd_u32 l n = Ok v) as R32 by (intros n pre v post -> Hn Hv; by apply rd_u32_app).
  rewrite (R32 0 [] _ _ Hb) by (done || apply Hh). cbn [mbind res_bind].
  rewrite (R32 4 _ _ _ Hb) by (done || apply Hh). cbn [mbind res_bind].
  rewrite app_assoc in Hb. rewrite (R32 8 _ _ _ Hb) by (done || apply Hh). cbn [mbind res_bind].
  rewrite app_assoc in Hb. rewrite (R32 12 _ _ _ Hb) by (done || apply Hh). cbn [mbind res_bind].
  by destruct h.
Qed.

(** Any four bytes are an integer, any sixteen a header. *)
Lemma u32_of_bytes b0 b1 b2 b3 :
  Forall is_u8 [b0; b1; b2; b3] → ∃ v, is_u32 v ∧ [b0; b1; b2; b3] = wr_u32 v.
Proof.
  intros H. repeat apply Forall_cons in H as [? H].
  exists (Z.lor (Z.lor (Z.lor b0 (Z.shiftl b1 8)) (Z.shiftl b2 16)) (Z.shiftl b3 24)).
  split; [by apply le_u32_range|]. rewrite wr_u32_le.
  destruct (le_u32_bytes b0 b1 b2 b3) as (-> & -> & -> & ->); done.
Qed.

Lemma hdr_of_any l : zlen l = sizeof_hdr → Forall is_u8 l → ∃ h, hdr_wf h ∧ l = hdr_bytes h.
Proof.
  unfold zlen, sizeof_hdr. intros Hl Hb. do 16 (destruct l as [|? l]; [discriminate Hl|]).
  destruct l; [|cbn in Hl; lia]. repeat apply Forall_cons in Hb as [? Hb].
  match goal with |- ∃ h, _ ∧ [?a0; ?a1; ?a2; ?a3; ?b0; ?b1; ?b2; ?b3;
                               ?c0; ?c1; ?c2; ?c3; ?d0; ?d1; ?d2; ?d3] = _ =>
    destruct (u32_of_bytes a0 a1 a2 a3) as (m & Hm & Em); [by rewrite !Forall_cons, Forall_nil|];
    destruct (u32_of_bytes b0 b1 b2 b3) as (b & Hbt & Eb); [by rewrite !Forall_cons, Forall_nil|];
    destruct (u32_of_bytes c0 c1 c2 c3) as (g & Hg & Eg); [by rewrite !Forall_cons, Forall_nil|];
    destruct (u32_of_bytes d0 d1 d2 d3) as (k & Hk & Ek); [by rewrite !Forall_cons, Forall_nil|] end.
  exists (mk_hdr m b g k). split; [by split|]. unfold hdr_bytes. cbn [hd_magic hd_boot_id hd_generation hd_acked].
  by rewrite <- Em, <- Eb, <- Eg, <- Ek.
Qed.

Section flash.
Context {P : Type}.
Variable esp_partition_read : P → Z → Z → option (list Z).
Variable esp_partition_write : P → Z → list Z → option P.
Variable esp_partition_erase_range : P → Z → Z → option P.
Variable esp_rom_crc32_le : list Z → Z.

Definition hdr_read (p : P) (ulSlotOff : Z) : res (option logf_hdr_t) :=
  match esp_partition_read p ulSlotOff sizeof_hdr with
  | None => Ok None
  | Some l => h ← hdr_of_bytes l; Ok (Some h)
  end.

(** One round of [logf_task]: the record [xQueueReceive] delivers is appended. *)
Definition logf_task_step (s : log_flash_t) (p : P) : log_flash_t * P :=
  match lf_queue s with
  | Some (r :: q) =>
      let s := s <| lf_queue := Some q |> in
      if LOGF_SLOT_SIZE <? lf_write_off s + sizeof_entry
      then (s <| lf_dropped := u32 (lf_dropped s + 1) |>, p)
      else
        let entry := rec_bytes r ++ wr_u32 (esp_rom_crc32_le (rec_bytes r)) in
        match esp_partition_write p (lf_own_off s + lf_write_off s) entry with
        | Some p => (s <| lf_write_off := u32 (lf_write_off s + sizeof_entry) |>, p)
        | None => (s <| lf_dropped := u32 (lf_dropped s + 1) |>, p)
        end
  | _ => (s, p)
  end.

(** [logging_flash_init]: [found] is the partition lookup, [boot_id] the current
    boot, [queue_ok] and [task_ok] the success of queue and task creation. *)
Definition logging_flash_init (s : log_flash_t) (p : P) (found : bool) (boot_id : Z)
    (queue_ok task_ok : bool) : res (log_flash_t * P) :=
  if negb found then Ok (s <| lf_part := false |>, p) else
  let s := s <| lf_part := true |> in
  m0 ← hdr_read p 0;
  m1 ← hdr_read p LOGF_SLOT_SIZE;
  let h0 := default (mk_hdr 0 0 0 0) m0 in
  let h1 := default (mk_hdr 0 0 0 0) m1 in
  let v0 := bool_decide (is_Some m0) && (hd_magic h0 =? LOGF_MAGIC) in
  let v1 := bool_decide (is_Some m1) && (hd_magic h1 =? LOGF_MAGIC) in
  let own := slot_choice v0 v1 h0 h1 in
  let vp := if own =? 0 then v1 else v0 in
  let hp := if own =? 0 then h1 else h0 in
  let s := s <| lf_own_off := own * LOGF_SLOT_SIZE |>
             <| lf_prev_off := (1 - own) * LOGF_SLOT_SIZE |>
             <| lf_prev_available :=
                  vp && negb (hd_acked hp =? 0) && negb (hd_boot_id hp =? boot_id) |>
             <| lf_prev_boot_id := if vp then hd_boot_id hp else 0 |> in
  let gen := next_generation v0 v1 h0 h1 in
  match esp_partition_erase_range p (lf_own_off s) LOGF_SLOT_SIZE with
  | None => Ok (s <| lf_part := false |>, p)
  | Some p =>
      match esp_partition_write p (lf_own_off s)
              (hdr_bytes (mk_hdr LOGF_MAGIC boot_id gen ACK_PENDING)) with
      | None => Ok (s <| lf_part := false |>, p)
      | Some p =>
          let s := s <| lf_write_off := LOGF_DATA_OFF |> in
          let s := if queue_ok then s <| lf_queue := Some [] |> else s <| lf_queue := None |> in
          if negb (queue_ok && task_ok) then Ok (s <| lf_part := false |>, p) else Ok (s, p)
      end
  end.

(** The loop of [logging_read_previous_boot] from offset [off]. *)
Fixpoint read_previous_loop (fuel : nat) (s : log_flash_t) (p : P) (min_level off : Z) (max : nat)
    : res (list log_record_t) :=
  match fuel with
  | O => OutOfFuel
  | S fuel =>
      match max with
      | O => Ok []
      | S max' =>
          if LOGF_SLOT_SIZE <? off + sizeof_entry then Ok [] else
          match esp_partition_read p (lf_prev_off s + off) sizeof_entry with
          | None => Ok []
          | Some l =>
              crc ← rd_u32 l sizeof_rec;
              if negb (crc =? esp_rom_crc32_le (take (Z.to_nat sizeof_rec) l)) then Ok [] else
              r ← rec_of_bytes (take (Z.to_nat sizeof_rec) l);
              if u8 min_level <? lg_level r
              then read_previous_loop fuel s p min_level (u32 (off + sizeof_entry)) max
              else
                rest ← read_previous_loop fuel s p min_level (u32 (off + sizeof_entry)) max';
                Ok (r :: rest)
          end
      end
  end.

(** A slot has 744 entries, so 745 rounds are enough. *)
Definition logging_read_previous_boot (s : log_flash_t) (p : P) (min_level : Z) (has_out : bool)
    (max : nat) : res (list log_record_t) :=
  if negb (lf_prev_available s) || negb (lf_part s) || negb has_out || Nat.eqb max 0
  then Ok [] else
  let min_level := if min_level =? LOG_LEVEL_OFF then LOG_LEVEL_TRACE else min_level in
  read_previous_loop 745 s p min_level LOGF_DATA_OFF max.

Definition logging_ack_previous_boot (s : log_flash_t) (p : P) (boot_id : Z)
    : res (bool * log_flash_t * P) :=
  if negb (lf_prev_available s) || negb (lf_part s) then Ok (false, s, p) else
  if negb (boot_id =? 0) && negb (boot_id =? lf_prev_boot_id s) then Ok (false, s, p) else
  m ← hdr_read p (lf_prev_off s);
  match m with
  | None => Ok (false, s, p)
  | Some h =>
      match esp_partition_write p (lf_prev_off s) (hdr_bytes (h <| hd_acked := 0 |>)) with
      | None => Ok (false, s, p)
      | Some p => Ok (true, s <| lf_prev_available := false |>, p)
      end
  end.

(** ** The driver's documented behaviour *)

(** [cells p] is the content of the partition.  Within it, a read returns the
    bytes, an erase sets them to 0xFF, and a write can only clear bits. *)
Variable cells : P → list Z.
Hypothesis read_ok : ∀ p a seg c off n,
  cells p = a ++ seg ++ c → off = zlen a → n = zlen seg → esp_partition_read p off n = Some seg.
Hypothesis write_ok : ∀ p a old c off bs,
  cells p = a ++ old ++ c → off = zlen a → zlen bs = zlen old →
  ∃ p', esp_partition_write p off bs = Some p' ∧ cells p' = a ++ zip_with Z.land old bs ++ c.
Hypothesis erase_ok : ∀ p a old c off n,
  cells p = a ++ old ++ c → off = zlen a → n = zlen old →
  ∃ p', esp_partition_erase_range p off n = Some p' ∧
        cells p' = a ++ replicate (length old) 255 ++ c.

(** The CRC is a 32-bit value, and erased flash does not look like a record. *)
Hypothesis crc_range : ∀ l, is_u32 (esp_rom_crc32_le l).
Hypothesis crc_blank : esp_rom_crc32_le (replicate 84 255) ≠ 0xFFFFFFFF.

(** ** Two slots *)

(** Slot [i] holds [own], the other one [other]. *)
Definition slots (p : P) (i : Z) (own other : list Z) : Prop :=
  (i = 0 ∨ i = 1) ∧ zlen own = LOGF_SLOT_SIZE ∧ zlen other = LOGF_SLOT_SIZE ∧
  ∃ rest, cells p = (if i =? 0 then own ++ other else other ++ own) ++ rest.

Lemma slots_swap p i own other : slots p i own other → slots p (1 - i) other own.
Proof. intros ([-> | ->] & H1 & H2 & rest & H); (split; [lia|]); do 2 (split; [done|]); by exists rest. Qed.

Lemma slots_segment p i own other :
  slots p i own other →
  ∃ a c, cells p = a ++ own ++ c ∧ zlen a = i * LOGF_SLOT_SIZE ∧
    ∀ p' own', zlen own' = LOGF_SLOT_SIZE → cells p' = a ++ own' ++ c → slots p' i own' other.
Proof.
  intros ([-> | ->] & H1 & H2 & rest & H); cbn [Z.eqb] in H.
  - exists [], (other ++ rest). rewrite <- app_assoc in H. split; [done|]. split; [done|].
    intros p' own' Hl H'. split; [by left|]. do 2 (split; [done|]). exists rest.
    cbn [Z.eqb]. by rewrite <- app_assoc.
  - exists other, rest. rewrite <- app_assoc in H. split; [done|]. split; [lia|].
    intros p' own' Hl H'. split; [by right|]. do 2 (split; [done|]). exists rest.
    cbn [Z.eqb]. by rewrite <- app_assoc.
Qed.

Lemma read_slot p i a seg c other :
  slots p i (a ++ seg ++ c) other →
  esp_partition_read p (i * LOGF_SLOT_SIZE + zlen a) (zlen seg) = Some seg.
Proof.
  intros Hs. destruct (slots_segment _ _ _ _ Hs) as (pre & post & Hc & Hpre & _).
  apply (read_ok p (pre ++ a) seg (c ++ post)).
  - by rewrite Hc, <- !app_assoc.
  - rewrite zlen_app. lia.
  - done.
Qed.

Lemma zlen_zip_land a b : zlen a = zlen b → zlen (zip_with Z.land a b) = zlen a.
Proof. unfold zlen. intros H. rewrite length_zip_with. lia. Qed.

Lemma write_slot p i a old c other bs :
  slots p i (a ++ old ++ c) other → zlen bs = zlen old →
  ∃ p', esp_partition_write p (i * LOGF_SLOT_SIZE + zlen a) bs = Some p' ∧
    slots p' i (a ++ zip_with Z.land old bs ++ c) other.
Proof.
  intros Hs Hl. destruct (slots_segment _ _ _ _ Hs) as (pre & post & Hc & Hpre & Hput).
  destruct (write_ok p (pre ++ a) old (c ++ post) (i * LOGF_SLOT_SIZE + zlen a) bs)
    as (p' & E & Hc').
  - by rewrite Hc, <- !app_assoc.
  - rewrite zlen_app. lia.
  - done.
  - exists p'. split; [done|]. apply Hput.
    + destruct Hs as (_ & Hs & _). rewrite !zlen_app in *. rewrite zlen_zip_land by done. done.
    + by rewrite Hc', <- !app_assoc.
Qed.

Lemma erase_slot p i own other :
  slots p i own other →
  ∃ p', esp_partition_erase_range p (i * LOGF_SLOT_SIZE) LOGF_SLOT_SIZE = Some p' ∧
    slots p' i (replicate (Z.to_nat LOGF_SLOT_SIZE) 255) other.
Proof.
  intros Hs. destruct (slots_segment _ _ _ _ Hs) as (pre & post & Hc & Hpre & Hput).
  pose proof (proj1 (proj2 Hs)) as Hl.
  destruct (erase_ok p pre own post (i * LOGF_SLOT_SIZE) LOGF_SLOT_SIZE) as (p' & E & Hc');
    [done|done|done|].
  exists p'. split; [done|]. apply Hput.
  - unfold zlen. by rewrite length_replicate, Z2Nat.id.
  - rewrite Hc'. do 3 f_equal. unfold zlen in Hl. lia.
Qed.

Lemma land_blank bs : Forall is_u8 bs → zip_with Z.land (replicate (length bs) 255) bs = bs.
Proof.
  induction 1 as [|b bs Hb Hbs IH]; [done|]. cbn. rewrite IH. f_equal.
  rewrite Z.land_comm. change 255 with (Z.ones 8). rewrite Z.land_ones by lia.
  by apply u8_id.
Qed.

(** Writing into erased cells stores the bytes. *)
Lemma write_blank p i a n c other bs :
  slots p i (a ++ replicate n 255 ++ c) other → n = length bs → Forall is_u8 bs →
  ∃ p', esp_partition_write p (i * LOGF_SLOT_SIZE + zlen a) bs = Some p' ∧
    slots p' i (a ++ bs ++ c) other.
Proof.
  intros Hs -> Hbs. destruct (write_slot p i a _ c other bs Hs) as (p' & E & Hs').
  - unfold zlen. by rewrite length_replicate.
  - exists p'. rewrite land_blank in Hs' by done. done.
Qed.

(** ** A boot's own slot *)

Definition entry (r : log_record_t) : list Z :=
  rec_bytes r ++ wr_u32 (esp_rom_crc32_le (rec_bytes r)).

Definition slot_entries : Z := 744.

(** The slot of a boot that has written the records [ws]. *)
Definition img (h : logf_hdr_t) (ws : list log_record_t) : list Z :=
  hdr_bytes h ++ replicate 48 255 ++ concat (entry <$> ws)
  ++ replicate (Z.to_nat (65472 - 88 * zlen ws)) 255.

Definition own_hdr (b g : Z) : logf_hdr_t := mk_hdr LOGF_MAGIC b g ACK_PENDING.

Lemma zlen_hdr_bytes h : zlen (hdr_bytes h) = 16.
Proof. done. Qed.

Lemma zlen_entry r : rec_wf r → zlen (entry r) = 88.
Proof. intros. unfold entry. rewrite zlen_app, zlen_rec_bytes by done. done. Qed.

Lemma entry_bytes r : rec_wf r → Forall is_u8 (entry r).
Proof. intros. apply Forall_app_2; [by apply rec_bytes_bytes|apply wr_u32_bytes]. Qed.

Lemma zlen_entries ws : Forall rec_wf ws → zlen (concat (entry <$> ws)) = 88 * zlen ws.
Proof.
  induction 1 as [|r ws Hr Hws IH]; [done|]. cbn. rewrite zlen_app, zlen_entry, IH, zlen_cons by done.
  lia.
Qed.

Lemma zlen_replicate {A} n (x : A) : 0 <= n → zlen (replicate (Z.to_nat n) x) = n.
Proof. intros. unfold zlen. rewrite length_replicate. lia. Qed.

Record own_log (s : log_flash_t) (p : P) (i b g : Z) (ws : list log_record_t) (other : list Z)
    : Prop := {
  ol_slots : slots p i (img (own_hdr b g) ws) other;
  ol_part : lf_part s = true;
  ol_own : lf_own_off s = i * LOGF_SLOT_SIZE;
  ol_prev : lf_prev_off s = (1 - i) * LOGF_SLOT_SIZE;
  ol_write : lf_write_off s = LOGF_DATA_OFF + sizeof_entry * zlen ws;
  ol_room : zlen ws <= slot_entries;
  ol_wf : Forall rec_wf ws;
  ol_other : ∃ h tl, other = hdr_bytes h ++ tl ∧ hdr_wf h ∧
               (hd_magic h = LOGF_MAGIC → hd_generation h < g)
}.

Ltac flash_consts :=
  unfold LOGF_SLOT_SIZE, LOGF_DATA_OFF, sizeof_entry, sizeof_rec, sizeof_hdr, slot_entries in *.

(** Appending a record behind the written ones. *)
Lemma append_entry s p i b g ws other r :
  own_log s p i b g ws other → rec_wf r → zlen ws < slot_entries →
  ∃ p', esp_partition_write p (lf_own_off s + lf_write_off s) (entry r) = Some p' ∧
    slots p' i (img (own_hdr b g) (ws ++ [r])) other.
Proof.
  intros Ho Hr Hn. pose proof (ol_slots _ _ _ _ _ _ _ Ho) as Hs.
  pose proof (zlen_entries ws (ol_wf _ _ _ _ _ _ _ Ho)) as Hz.
  pose proof (zlen_nonneg ws). flash_consts. unfold img in *.
  replace (Z.to_nat (65472 - 88 * zlen ws)) with (88 + Z.to_nat (65472 - 88 * (zlen ws + 1)))%nat in Hs by lia.
  rewrite replicate_add in Hs.
  set (pre := hdr_bytes (own_hdr b g) ++ replicate 48 255 ++ concat (entry <$> ws)).
  assert (slots p i (pre ++ replicate 88 255 ++ replicate (Z.to_nat (65472 - 88 * (zlen ws + 1))) 255) other)
    as Hs' by (subst pre; by rewrite <- !app_assoc).
  destruct (write_blank p i pre 88 _ other (entry r) Hs') as (p' & E & Hs2).
  - pose proof (zlen_entry r Hr) as He. unfold zlen in He. lia.
  - by apply entry_bytes.
  - exists p'. split.
    + rewrite <- E. f_equal. rewrite (ol_own _ _ _ _ _ _ _ Ho), (ol_write _ _ _ _ _ _ _ Ho).
      flash_consts. subst pre. rewrite !zlen_app, zlen_hdr_bytes, Hz.
      change (zlen (replicate 48 255)) with 48. lia.
    + subst pre. rewrite <- !app_assoc in Hs2. rewrite fmap_app, concat_app. cbn [fmap list_fmap concat].
      rewrite app_nil_r, <- !app_assoc, zlen_app. exact Hs2.
Qed.

Definition wanted (lvl : Z) (r : log_record_t) : bool :=
  (lg_level r <=? lvl) || (lg_event_id r =? LOG_EVT_BOOT) || (lg_event_id r =? LOG_EVT_WD_BOOT_DIAG).

(** What happens while a boot runs. *)
Inductive flash_op :=
  | FSubmit (r : log_record_t) (sent : bool)
  | FTask
  | FLevel (lvl : Z)
  | FAck (boot_id : Z).

Definition flash_step (s : log_flash_t) (p : P) (op : flash_op) : res (log_flash_t * P) :=
  match op with
  | FSubmit r sent => Ok (logging_flash_submit s r sent, p)
  | FTask => Ok (logf_task_step s p)
  | FLevel lvl => Ok (logging_set_flash_level s lvl, p)
  | FAck b => x ← logging_ack_previous_boot s p b; Ok (x.1.2, x.2)
  end.

Definition flash_run (s : log_flash_t) (p : P) (ops : list flash_op) : res (log_flash_t * P) :=
  foldl (λ m op, x ← m; flash_step x.1 x.2 op) (Ok (s, p)) ops.

(** The records the queue accepted, from the current flash level on. *)
Fixpoint accepted (lvl : Z) (ops : list flash_op) : list log_record_t :=
  match ops with
  | [] => []
  | FSubmit r sent :: ops =>
      if wanted lvl r && sent then r :: accepted lvl ops else accepted lvl ops
  | FLevel l :: ops => accepted (u8 (Z.min l LOG_LEVEL_TRACE)) ops
  | _ :: ops => accepted lvl ops
  end.

Definition flash_op_wf (op : flash_op) : Prop :=
  match op with FSubmit r _ => rec_wf r | _ => True end.

(** The state of a running boot: [taken] left the queue, its first 744 records
    are in the slot. *)
Record boot_inv (s : log_flash_t) (p : P) (i b g : Z) (taken q : list log_record_t) : Prop := {
  bi_log : ∃ other, own_log s p i b g (take 744 taken) other;
  bi_queue : lf_queue s = Some q;
  bi_wf : Forall rec_wf (taken ++ q)
}.

Lemma own_log_frame s s' p i b g ws other :
  own_log s p i b g ws other →
  lf_part s' = lf_part s → lf_own_off s' = lf_own_off s → lf_prev_off s' = lf_prev_off s →
  lf_write_off s' = lf_write_off s → own_log s' p i b g ws other.
Proof. intros [] E1 E2 E3 E4. split; rewrite ?E1, ?E2, ?E3, ?E4; done. Qed.

Lemma task_step_inv s p i b g taken q :
  boot_inv s p i b g taken q →
  ∃ taken' q', boot_inv (logf_task_step s p).1 (logf_task_step s p).2 i b g taken' q' ∧
    taken' ++ q' = taken ++ q ∧ lf_flash_level (logf_task_step s p).1 = lf_flash_level s.
Proof.
  intros [(other & Ho) Hq Hwf]. unfold logf_task_step. rewrite Hq.
  destruct q as [|r q]; [exists taken, []; split; [by split; [exists other|..]|done]|].
  exists (taken ++ [r]), q. rewrite <- app_assoc. cbn [lf_write_off lf_own_off put_field set_lf_queue].
  assert (rec_wf r) as Hr by (apply Forall_app in Hwf as [_ Hwf]; by apply Forall_inv in Hwf).
  pose proof (ol_write _ _ _ _ _ _ _ Ho) as Hw. pose proof (ol_room _ _ _ _ _ _ _ Ho) as Hroom.
  rewrite Hw. pose proof (zlen_nonneg (take 744 taken)).
  case_bool; flash_consts.
  - split; [|done]. split; [|done|by rewrite <- app_assoc]. exists other.
    assert (744 <= length taken)%nat as Hfull by (unfold zlen in *; rewrite length_take in *; lia).
    rewrite take_app_le by lia. by apply (own_log_frame s).
  - assert (zlen (take 744 taken) < 744) as Hlt by lia.
    destruct (append_entry s p i b g _ other r Ho Hr Hlt) as (p' & E & Hs').
    assert (length taken < 744)%nat as Hnf by (unfold zlen in *; rewrite length_take in *; lia).
    fold (entry r).
    rewrite Hw in E. flash_consts. rewrite E.
    split; [|done]. split; [|done|by rewrite <- app_assoc]. exists other. cbn [fst snd].
    rewrite (take_ge taken) in * by lia. rewrite (take_ge (taken ++ [r])) by (rewrite length_app; cbn; lia).
    destruct Ho as [? Hp Hown Hprev _ _ Hwfs Hoth]. split; cbn; try done.
    + rewrite zlen_app, zlen_cons, zlen_nil. flash_consts. rewrite u32_id by (unfold is_u32; lia). lia.
    + rewrite zlen_app, zlen_cons, zlen_nil. flash_consts. lia.
    + apply Forall_app_2; [done|by apply Forall_singleton].
Qed.

(** ** The other operations *)

Lemma zip_land_self l : zip_with Z.land l l = l.
Proof. induction l as [|x l IH]; [done|]. cbn. by rewrite IH, Z.land_diag. Qed.

Lemma hdr_ack_land h :
  zip_with Z.land (hdr_bytes h) (hdr_bytes (h <| hd_acked := 0 |>)) = hdr_bytes (h <| hd_acked := 0 |>).
Proof.
  unfold hdr_bytes. cbn [hd_magic hd_boot_id hd_generation hd_acked put_field set_hd_acked].
  rewrite !zip_with_app by done. rewrite !zip_land_self. do 3 f_equal.
  change (wr_u32 0) with [0; 0; 0; 0]. unfold wr_u32. cbn [zip_with]. by rewrite !Z.land_0_r.
Qed.

Lemma read_hdr p i h tl other :
  slots p i (hdr_bytes h ++ tl) other → hdr_wf h → hdr_read p (i * LOGF_SLOT_SIZE) = Ok (Some h).
Proof.
  intros Hs Hh. unfold hdr_read.
  pose proof (read_slot p i [] (hdr_bytes h) tl other Hs) as E.
  rewrite zlen_nil, Z.add_0_r in E. change (zlen (hdr_bytes h)) with sizeof_hdr in E.
  rewrite E, hdr_bytes_roundtrip by done. done.
Qed.

Lemma ack_write p i h tl other :
  slots p i (hdr_bytes h ++ tl) other →
  ∃ p', esp_partition_write p (i * LOGF_SLOT_SIZE) (hdr_bytes (h <| hd_acked := 0 |>)) = Some p' ∧
    slots p' i (hdr_bytes (h <| hd_acked := 0 |>) ++ tl) other.
Proof.
  intros Hs.
  destruct (write_slot p i [] (hdr_bytes h) tl other (hdr_bytes (h <| hd_acked := 0 |>)) Hs)
    as (p' & E & Hs'); [done|].
  rewrite zlen_nil, Z.add_0_r in E. exists p'. rewrite hdr_ack_land in Hs'. done.
Qed.

Lemma ack_wf h : hdr_wf h → hdr_wf (h <| hd_acked := 0 |>).
Proof. intros []. split; try done. Qed.

Lemma ack_step_inv s p i b g taken q id :
  boot_inv s p i b g taken q →
  ∃ ok s' p', logging_ack_previous_boot s p id = Ok (ok, s', p') ∧
    boot_inv s' p' i b g taken q ∧ lf_flash_level s' = lf_flash_level s.
Proof.
  intros Hinv. pose proof Hinv as [(other & Ho) Hq Hwf]. unfold logging_ack_previous_boot.
  destruct (_ || _); [by exists false, s, p|]. destruct (_ && _); [by exists false, s, p|].
  destruct (ol_other _ _ _ _ _ _ _ Ho) as (h & tl & -> & Hh & Hg).
  pose proof (ol_slots _ _ _ _ _ _ _ Ho) as Hs. apply slots_swap in Hs.
  rewrite (ol_prev _ _ _ _ _ _ _ Ho), (read_hdr _ _ _ _ _ Hs Hh). cbn [mbind res_bind].
  destruct (ack_write _ _ _ _ _ Hs) as (p' & E & Hs'). rewrite E.
  do 3 eexists. split; [reflexivity|]. split; [|done]. split; [|done|done].
  exists (hdr_bytes (h <| hd_acked := 0 |>) ++ tl). apply slots_swap in Hs'.
  replace (1 - (1 - i)) with i in Hs' by lia.
  destruct Ho as [_ ? ? ? ? ? ? _]. split; try done.
  exists (h <| hd_acked := 0 |>), tl. split; [done|]. split; [by apply ack_wf|done].
Qed.

Lemma submit_step_inv s p i b g taken q r sent :
  boot_inv s p i b g taken q → rec_wf r →
  boot_inv (logging_flash_submit s r sent) p i b g taken
    (q ++ (if wanted (lf_flash_level s) r && sent then [r] else [])) ∧
  lf_flash_level (logging_flash_submit s r sent) = lf_flash_level s.
Proof.
  intros [(other & Ho) Hq Hwf] Hr. unfold logging_flash_submit.
  rewrite (ol_part _ _ _ _ _ _ _ Ho), Hq. unfold wanted.
  destruct (_ || _ || _); cbn [negb andb]; [destruct sent|]; rewrite ?app_nil_r.
  - split; [|done]. split; [by exists other; apply (own_log_frame s)|done|].
    rewrite app_assoc. apply Forall_app_2; [done|by apply Forall_singleton].
  - split; [|done]. split; [by exists other; apply (own_log_frame s)|done|done].
  - split; [|done]. split; [by exists other|done|done].
Qed.

Lemma flash_run_inv ops : ∀ s p i b g taken q,
  boot_inv s p i b g taken q → Forall flash_op_wf ops →
  ∃ s' p' taken' q', flash_run s p ops = Ok (s', p') ∧ boot_inv s' p' i b g taken' q' ∧
    taken' ++ q' = taken ++ q ++ accepted (lf_flash_level s) ops.
Proof.
  induction ops as [|op ops IH]; intros s p i b g taken q Hinv Hops.
  { exists s, p, taken, q. cbn. by rewrite app_nil_r. }
  apply Forall_cons in Hops as [Hop Hops]. unfold flash_run in *. cbn [foldl mbind res_bind fst snd].
  destruct op as [r sent| |lvl|id]; cbn [flash_step accepted].
  - destruct (submit_step_inv s p i b g taken q r sent Hinv Hop) as [Hinv' Hl].
    destruct (IH _ p i b g taken _ Hinv' Hops) as (s' & p' & t' & q' & E & Hi & Heq).
    exists s', p', t', q'. split; [done|]. split; [done|]. rewrite Heq, Hl, <- app_assoc.
    by destruct (_ && sent).
  - destruct (task_step_inv s p i b g taken q Hinv) as (t1 & q1 & Hinv' & Heq1 & Hl).
    destruct (logf_task_step s p) as [s1 p1]. cbn [fst snd] in *.
    destruct (IH _ p1 i b g _ _ Hinv' Hops) as (s' & p' & t' & q' & E & Hi & Heq).
    exists s', p', t', q'. split; [done|]. split; [done|].
    rewrite Heq, Hl, app_assoc, Heq1. by rewrite <- app_assoc.
  - assert (boot_inv (logging_set_flash_level s lvl) p i b g taken q) as Hinv'.
    { destruct Hinv as [(other & Ho) ? ?]. split; [by exists other; apply (own_log_frame s)|done|done]. }
    destruct (IH _ p i b g taken _ Hinv' Hops) as (s' & p' & t' & q' & E & Hi & Heq).
    exists s', p', t', q'. split; [done|]. split; [done|]. rewrite Heq. do 3 f_equal.
    unfold logging_set_flash_level. cbn. f_equal. unfold LOG_LEVEL_TRACE. case_bool; lia.
  - destruct (ack_step_inv s p i b g taken q id Hinv) as (ok & s1 & p1 & E1 & Hinv' & Hl).
    rewrite E1. cbn [mbind res_bind fst snd].
    destruct (IH _ p1 i b g taken _ Hinv' Hops) as (s' & p' & t' & q' & E & Hi & Heq).
    exists s', p', t', q'. split; [done|]. split; [done|]. by rewrite Heq, Hl.
Qed.

(** ** Starting a boot *)

Definition valid_hdr (h : logf_hdr_t) : bool := hd_magic h =? LOGF_MAGIC.

(** [logging_flash_init] on a partition whose slots carry the headers [h0] and
    [h1]; [i] is the claimed slot, [hp] the other one's header. *)
Lemma init_spec p h0 t0 h1 t1 boot :
  slots p 0 (hdr_bytes h0 ++ t0) (hdr_bytes h1 ++ t1) → hdr_wf h0 → hdr_wf h1 → is_u32 boot →
  let i := slot_choice (valid_hdr h0) (valid_hdr h1) h0 h1 in
  let g := next_generation (valid_hdr h0) (valid_hdr h1) h0 h1 in
  let hp := if i =? 0 then h1 else h0 in
  ∃ s p', logging_flash_init log_flash_boot p true boot true true = Ok (s, p') ∧
    slots p' i (img (own_hdr boot g) [])
      (if i =? 0 then hdr_bytes h1 ++ t1 else hdr_bytes h0 ++ t0) ∧
    lf_part s = true ∧ lf_queue s = Some [] ∧ lf_write_off s = LOGF_DATA_OFF ∧
    lf_flash_level s = LOG_LEVEL_WARN ∧
    lf_own_off s = i * LOGF_SLOT_SIZE ∧ lf_prev_off s = (1 - i) * LOGF_SLOT_SIZE ∧
    lf_prev_available s = valid_hdr hp && negb (hd_acked hp =? 0) && negb (hd_boot_id hp =? boot) ∧
    lf_prev_boot_id s = (if valid_hdr hp then hd_boot_id hp else 0).
Proof.
  intros Hs Hh0 Hh1 Hboot i g hp.
  assert (i = 0 ∨ i = 1) as Hi.
  { subst i. unfold slot_choice. repeat (case_match; auto). }
  assert (slots p i (if i =? 0 then hdr_bytes h0 ++ t0 else hdr_bytes h1 ++ t1)
    (if i =? 0 then hdr_bytes h1 ++ t1 else hdr_bytes h0 ++ t0)) as Hsi.
  { destruct Hi as [-> | ->]; [done|]. by apply slots_swap in Hs. }
  unfold logging_flash_init. cbn [negb].
  rewrite (read_hdr p 0 h0 t0 _ Hs Hh0 : hdr_read p 0 = _). cbn [mbind res_bind].
  rewrite (read_hdr p 1 h1 t1 _ (slots_swap _ _ _ _ Hs) Hh1 : hdr_read p LOGF_SLOT_SIZE = _).
  cbn [mbind res_bind default]. rewrite !bool_decide_true by eauto. cbn [andb].
  change (id h0) with h0. change (id h1) with h1.
  fold (valid_hdr h0) (valid_hdr h1). fold i g.
  match goal with |- context [esp_partition_erase_range p ?o _] =>
    change o with (i * LOGF_SLOT_SIZE) end.
  destruct (erase_slot _ _ _ _ Hsi) as (p1 & E1 & Hs1). rewrite E1.
  destruct (write_blank p1 i [] 16 (replicate (Z.to_nat 65520) 255)
    (if i =? 0 then hdr_bytes h1 ++ t1 else hdr_bytes h0 ++ t0) (hdr_bytes (own_hdr boot g)))
    as (p2 & E2 & Hs2).
  - cbn [app]. rewrite <- replicate_add.
    by replace (16 + Z.to_nat 65520)%nat with (Z.to_nat LOGF_SLOT_SIZE) by (flash_consts; lia).
  - done.
  - unfold hdr_bytes. repeat apply Forall_app_2; apply wr_u32_bytes.
  - rewrite zlen_nil, Z.add_0_r in E2. unfold own_hdr in E2.
    match goal with |- context [esp_partition_write p1 ?o _] =>
      change o with (i * LOGF_SLOT_SIZE) end.
    rewrite E2.
    do 2 eexists. split; [reflexivity|].
    split.
    { unfold img. change (concat (entry <$> [])) with (@nil Z). cbn [app] in *.
      change (zlen (@nil log_record_t)) with 0. rewrite <- replicate_add.
      by replace (48 + Z.to_nat (65472 - 88 * 0))%nat with (Z.to_nat 65520) by lia. }
    cbn. fold hp. split_and!; try done.
    all: subst hp; by destruct (i =? 0).
Qed.

(** ** Reading the previous boot's slot *)

Lemma read_entry p i h ws other j r :
  slots p i (img h ws) other → Forall rec_wf ws → zlen ws <= slot_entries → ws !! j = Some r →
  esp_partition_read p (i * LOGF_SLOT_SIZE + (64 + 88 * Z.of_nat j)) 88 = Some (entry r).
Proof.
  intros Hs Hwf Hn Hj. pose proof (lookup_lt_Some _ _ _ Hj).
  set (pre := hdr_bytes h ++ replicate 48 255 ++ concat (entry <$> take j ws)).
  set (post := concat (entry <$> drop (S j) ws) ++ replicate (Z.to_nat (65472 - 88 * zlen ws)) 255).
  assert (img h ws = pre ++ entry r ++ post) as Hi.
  { unfold img. subst pre post. rewrite <- (take_drop_middle _ _ _ Hj) at 1.
    rewrite fmap_app, concat_app. cbn. by rewrite <- !app_assoc. }
  rewrite Hi in Hs. pose proof (read_slot p i pre (entry r) post other Hs) as E.
  rewrite zlen_entry in E by (by eapply Forall_lookup_1). rewrite <- E. f_equal.
  subst pre. rewrite !zlen_app, zlen_hdr_bytes, zlen_entries by (by apply Forall_take).
  change (zlen (replicate 48 255)) with 48. unfold zlen. rewrite length_take. lia.
Qed.

Lemma read_blank p i h ws other :
  slots p i (img h ws) other → Forall rec_wf ws → 88 * (zlen ws + 1) <= 65472 →
  esp_partition_read p (i * LOGF_SLOT_SIZE + (64 + 88 * zlen ws)) 88 = Some (replicate 88 255).
Proof.
  intros Hs Hwf Hn. pose proof (zlen_nonneg ws).
  set (pre := hdr_bytes h ++ replicate 48 255 ++ concat (entry <$> ws)).
  assert (img h ws = pre ++ replicate 88 255 ++ replicate (Z.to_nat (65472 - 88 * (zlen ws + 1))) 255) as Hi.
  { unfold img. subst pre. rewrite <- !app_assoc, <- replicate_add. do 4 f_equal. lia. }
  rewrite Hi in Hs. pose proof (read_slot p i pre _ _ other Hs) as E.
  change (zlen (replicate 88 255)) with 88 in E. rewrite <- E. f_equal.
  subst pre. rewrite !zlen_app, zlen_hdr_bytes, zlen_entries by done.
  change (zlen (replicate 48 255)) with 48. lia.
Qed.

Lemma entry_crc r : rec_wf r → rd_u32 (entry r) sizeof_rec = Ok (esp_rom_crc32_le (rec_bytes r)).
Proof.
  intros Hr. unfold entry. rewrite <- (app_nil_r (wr_u32 _)).
  apply rd_u32_app; [apply crc_range|by rewrite zlen_rec_bytes].
Qed.

Lemma entry_rec r : rec_wf r → take (Z.to_nat sizeof_rec) (entry r) = rec_bytes r.
Proof.
  intros Hr. pose proof (zlen_rec_bytes r Hr) as Hl. unfold entry, zlen, sizeof_rec in *.
  rewrite take_app_le by lia. apply take_ge. lia.
Qed.

Lemma read_loop_spec s p i h ws other min_level :
  slots p i (img h ws) other → Forall rec_wf ws → zlen ws <= slot_entries →
  lf_prev_off s = i * LOGF_SLOT_SIZE →
  ∀ fuel j max, (j <= length ws)%nat → (length ws < fuel + j)%nat →
  read_previous_loop fuel s p min_level (64 + 88 * Z.of_nat j) max
  = Ok (take max (filter (λ r, lg_level r <= u8 min_level) (drop j ws))).
Proof.
  intros Hs Hwf Hn Hprev fuel. induction fuel as [|fuel IH]; intros j max Hj Hf; [lia|].
  cbn [read_previous_loop]. destruct max as [|max]; [done|].
  unfold slot_entries, LOGF_SLOT_SIZE, sizeof_entry in *. unfold zlen in Hn. rewrite Hprev.
  destruct (decide (j = length ws)) as [->|Hne].
  - rewrite drop_all. cbn. case_bool; [done|].
    pose proof (read_blank p i h ws other Hs Hwf) as E. unfold zlen, LOGF_SLOT_SIZE in E.
    rewrite E by lia. change (rd_u32 (replicate 88 255) sizeof_rec) with (Ok 4294967295).
    cbn [mbind res_bind]. change (take (Z.to_nat sizeof_rec) (replicate 88 255)) with (replicate 84 255).
    by rewrite (proj2 (Z.eqb_neq _ _)) by (intros Hx; by apply crc_blank).
  - destruct (lookup_lt_is_Some_2 ws j ltac:(lia)) as [r Hr].
    pose proof (Forall_lookup_1 _ _ _ _ Hwf Hr) as Hrw.
    rewrite (proj2 (Z.ltb_ge _ _)) by lia.
    pose proof (read_entry p i h ws other j r Hs Hwf) as E. unfold LOGF_SLOT_SIZE in E.
    rewrite E by (unfold slot_entries, zlen; lia || done).
    rewrite entry_crc by done. cbn [mbind res_bind]. rewrite entry_rec, Z.eqb_refl by done.
    cbn [negb]. rewrite rec_bytes_roundtrip by done. cbn [mbind res_bind].
    rewrite (u32_id (64 + _ + _)) by (unfold is_u32; lia).
    replace (64 + 88 * Z.of_nat j + 88) with (64 + 88 * Z.of_nat (S j)) by lia.
    rewrite (drop_S ws r j Hr). rewrite !IH by lia.
    case_bool.
    + by rewrite filter_cons_False by lia.
    + by rewrite filter_cons_True by lia.
Qed.

(** ** Generations *)

Lemma next_generation_spec v0 v1 h0 h1 :
  hdr_wf h0 → hdr_wf h1 →
  (v0 = true → hd_generation h0 < 4294967295) → (v1 = true → hd_generation h1 < 4294967295) →
  let g := next_generation v0 v1 h0 h1 in
  is_u32 g ∧ (v0 = true → hd_generation h0 < g) ∧ (v1 = true → hd_generation h1 < g).
Proof.
  intros [_ _ G0 _] [_ _ G1 _] H0 H1. unfold next_generation, is_u32 in *.
  destruct v0, v1; cbn [andb] in *;
    try specialize (H0 eq_refl); try specialize (H1 eq_refl);
    rewrite ?u32_id by (unfold is_u32; lia);
    destruct (Z.leb_spec 1 (hd_generation h0)), (Z.leb_spec 1 (hd_generation h1));
    repeat case_bool; split_and!; try done; intros; try done; lia.
Qed.

(** The next boot claims the slot that is not the last boot's. *)
Lemma slot_choice_other v h b g :
  (v = true → hd_generation h < g) →
  slot_choice true v (own_hdr b g) h = 1 ∧ slot_choice v true h (own_hdr b g) = 0.
Proof.
  intros Hg. unfold slot_choice, own_hdr. cbn [hd_acked hd_generation negb].
  change (ACK_PENDING =? 0) with false.
  destruct v; cbn [negb]; [specialize (Hg eq_refl)|done].
  destruct (hd_acked h =? 0); cbn [negb andb]; [done|].
  split; case_bool; done || lia.
Qed.

(** ** From one boot to the next *)

(** Both slots of a partition start with some header. *)
Lemma split_slots p :
  Forall is_u8 (cells p) → 2 * LOGF_SLOT_SIZE <= zlen (cells p) →
  ∃ h0 t0 h1 t1, slots p 0 (hdr_bytes h0 ++ t0) (hdr_bytes h1 ++ t1) ∧ hdr_wf h0 ∧ hdr_wf h1.
Proof.
  intros Hb Hl. flash_consts.
  destruct (split_at (cells p) 65536) as (s0 & r0 & E0 & L0); [lia|].
  rewrite E0, zlen_app in Hl. rewrite E0 in Hb. apply Forall_app in Hb as [Hb0 Hb].
  destruct (split_at r0 65536) as (s1 & r1 & E1 & L1); [lia|].
  rewrite E1 in Hb. apply Forall_app in Hb as [Hb1 _].
  destruct (split_at s0 16) as (a0 & t0 & -> & La0); [lia|].
  destruct (split_at s1 16) as (a1 & t1 & -> & La1); [lia|].
  apply Forall_app in Hb0 as [Ha0 _]. apply Forall_app in Hb1 as [Ha1 _].
  destruct (hdr_of_any a0 La0 Ha0) as (h0 & Hh0 & ->).
  destruct (hdr_of_any a1 La1 Ha1) as (h1 & Hh1 & ->).
  exists h0, t0, h1, t1. split; [|done]. split; [by left|]. split; [done|]. split; [done|].
  exists r1. cbn [Z.eqb]. by rewrite E0, E1, <- !app_assoc.
Qed.

(** No stored generation is the largest one. *)
Definition generations_fit (p : P) : Prop :=
  ∀ a h c, cells p = a ++ hdr_bytes h ++ c → zlen a = 0 ∨ zlen a = LOGF_SLOT_SIZE →
    hd_magic h = LOGF_MAGIC → hd_generation h < 4294967295.

Lemma first_boot p b :
  Forall is_u8 (cells p) → 2 * LOGF_SLOT_SIZE <= zlen (cells p) → generations_fit p → is_u32 b →
  ∃ s p' i g, logging_flash_init log_flash_boot p true b true true = Ok (s, p') ∧
    boot_inv s p' i b g [] [] ∧ is_u32 g ∧ lf_flash_level s = LOG_LEVEL_WARN.
Proof.
  intros Hb Hl Hg Hbu. destruct (split_slots p Hb Hl) as (h0 & t0 & h1 & t1 & Hs & Hh0 & Hh1).
  assert (valid_hdr h0 = true → hd_generation h0 < 4294967295) as G0.
  { intros Hv%Z.eqb_eq. destruct Hs as (_ & _ & _ & rest & E). cbn [Z.eqb] in E.
    apply (Hg [] h0 ((t0 ++ hdr_bytes h1 ++ t1) ++ rest)); [|by left|done].
    by rewrite E, <- !app_assoc. }
  assert (valid_hdr h1 = true → hd_generation h1 < 4294967295) as G1.
  { intros Hv%Z.eqb_eq. destruct Hs as (_ & L0 & _ & rest & E). cbn [Z.eqb] in E.
    apply (Hg (hdr_bytes h0 ++ t0) h1 (t1 ++ rest)); [|by right|done].
    by rewrite E, <- !app_assoc. }
  destruct (next_generation_spec _ _ h0 h1 Hh0 Hh1 G0 G1) as (Hgu & Hg0 & Hg1).
  destruct (init_spec p h0 t0 h1 t1 b Hs Hh0 Hh1 Hbu)
    as (s & p' & E & Hs' & Hp & Hq & Hw & Hlv & Ho & Hpo & _).
  exists s, p'. do 2 eexists. split; [exact E|]. split; [|by split].
  split; [|done|done]. eexists. split; [exact Hs'|done|done|done|..].
  - by rewrite Hw, take_nil.
  - done.
  - by rewrite take_nil.
  - destruct (_ =? 0); [exists h1, t1|exists h0, t0]; (split; [done|]); (split; [done|]);
      intros Hm%Z.eqb_eq; [by apply Hg1|by apply Hg0].
Qed.

Lemma img_hdr h ws : ∃ tl, img h ws = hdr_bytes h ++ tl.
Proof. by eexists. Qed.

Lemma next_boot s p i b g taken q b' :
  boot_inv s p i b g taken q → is_u32 b → is_u32 g → is_u32 b' → b ≠ b' →
  ∃ s' p' own', logging_flash_init log_flash_boot p true b' true true = Ok (s', p') ∧
    slots p' i (img (own_hdr b g) (take 744 taken)) own' ∧ lf_part s' = true ∧
    lf_prev_off s' = i * LOGF_SLOT_SIZE ∧ lf_prev_available s' = true ∧ lf_prev_boot_id s' = b.
Proof.
  intros [(other & Ho) _ _] Hb Hg Hb' Hne.
  pose proof (ol_slots _ _ _ _ _ _ _ Ho) as Hs.
  destruct (ol_other _ _ _ _ _ _ _ Ho) as (h & tl & -> & Hh & Hgen).
  destruct (img_hdr (own_hdr b g) (take 744 taken)) as (tl' & Htl).
  assert (hdr_wf (own_hdr b g)) as Hoh by (split; done).
  destruct (slot_choice_other (valid_hdr h) h b g) as [C1 C0].
  { intros Hv%Z.eqb_eq. auto. }
  assert (negb (b =? b') = true) as Hnb by (by apply negb_true_iff, Z.eqb_neq).
  destruct (proj1 Hs) as [-> | ->].
  - rewrite Htl in Hs. destruct (init_spec p _ tl' h tl b' Hs Hoh Hh Hb')
      as (s' & p' & E & Hs' & Hp & _ & _ & _ & _ & Hpo & Hpa & Hpb).
    change (valid_hdr (own_hdr b g)) with true in *. rewrite C1 in *. cbn [Z.eqb] in *.
    apply slots_swap in Hs'. rewrite <- Htl in Hs'. do 3 eexists.
    split; [exact E|]. split; [exact Hs'|]. split; [done|]. split; [done|].
    rewrite Hpa, Hpb. split; [exact Hnb|done].
  - rewrite Htl in Hs. apply slots_swap in Hs.
    destruct (init_spec p h tl _ tl' b' Hs Hh Hoh Hb')
      as (s' & p' & E & Hs' & Hp & _ & _ & _ & _ & Hpo & Hpa & Hpb).
    change (valid_hdr (own_hdr b g)) with true in *. rewrite C0 in *. cbn [Z.eqb] in *.
    apply slots_swap in Hs'. rewrite <- Htl in Hs'. do 3 eexists.
    split; [exact E|]. split; [exact Hs'|]. split; [done|]. split; [done|].
    rewrite Hpa, Hpb. split; [exact Hnb|done].
Qed.

(** C13: Records survive a reboot.  Whatever the partition held, the boot [b]
    claims a slot and appends the records its queue accepted; the next boot
    claims the other slot, reports [b] as available, and a read returns exactly
    the first 744 records the append task had taken from the queue, in order and
    unchanged, filtered by level and cut to the caller's limit.  After the
    acknowledgement of [b] nothing is available any more.  The partition driver
    and the CRC are parameters with their documented behaviour. *)
Theorem previous_boot_records_survive (p : P) ops b b' min_level max :
  Forall is_u8 (cells p) → 2 * LOGF_SLOT_SIZE <= zlen (cells p) → generations_fit p →
  is_u32 b → is_u32 b' → b ≠ b' → Forall flash_op_wf ops →
  ∃ s1 p1 s2 p2 taken q s3 p3 s4 p4,
    logging_flash_init log_flash_boot p true b true true = Ok (s1, p1) ∧
    flash_run s1 p1 ops = Ok (s2, p2) ∧
    lf_queue s2 = Some q ∧ taken ++ q = accepted LOG_LEVEL_WARN ops ∧
    logging_flash_init log_flash_boot p2 true b' true true = Ok (s3, p3) ∧
    logging_previous_boot_available s3 = (true, b) ∧
    (let lim := u8 (if min_level =? LOG_LEVEL_OFF then LOG_LEVEL_TRACE else min_level) in
     logging_read_previous_boot s3 p3 min_level true max
     = Ok (take max (filter (λ r, lg_level r <= lim) (take 744 taken)))) ∧
    logging_ack_previous_boot s3 p3 b = Ok (true, s4, p4) ∧
    logging_previous_boot_available s4 = (false, 0) ∧
    logging_read_previous_boot s4 p4 min_level true max = Ok [].
Proof.
  intros Hbytes Hlen Hgen Hb Hb' Hne Hops.
  destruct (first_boot p b Hbytes Hlen Hgen Hb) as (s1 & p1 & i & g & E1 & Hinv & Hg & Hlv).
  destruct (flash_run_inv ops s1 p1 i b g [] [] Hinv Hops) as (s2 & p2 & taken & q & E2 & Hinv2 & Hacc).
  rewrite Hlv in Hacc.
  destruct (next_boot s2 p2 i b g taken q b' Hinv2 Hb Hg Hb' Hne)
    as (s3 & p3 & own' & E3 & Hs3 & Hp3 & Hpo & Hpa & Hpb).
  pose proof Hinv2 as [(other & Ho) Hq _].
  destruct (img_hdr (own_hdr b g) (take 744 taken)) as (tl' & Htl).
  assert (hdr_wf (own_hdr b g)) as Hoh by (split; done).
  pose proof Hs3 as Hs3'. rewrite Htl in Hs3'.
  destruct (ack_write p3 i (own_hdr b g) tl' own' Hs3') as (p4 & E4 & _).
  exists s1, p1, s2, p2, taken, q, s3, p3, (s3 <| lf_prev_available := false |>), p4.
  do 5 (split; [done|]).
  split; [unfold logging_previous_boot_available; by rewrite Hpa, Hpb|].
  split.
  { cbn zeta. unfold logging_read_previous_boot. rewrite Hpa, Hp3. cbn [negb orb].
    destruct (Nat.eqb_spec max 0) as [->|Hm]; [done|].
    pose proof (ol_room _ _ _ _ _ _ _ Ho) as Hroom. unfold slot_entries, zlen in Hroom.
    apply (read_loop_spec s3 p3 i (own_hdr b g) (take 744 taken) own' _ Hs3
      (ol_wf _ _ _ _ _ _ _ Ho) (ol_room _ _ _ _ _ _ _ Ho) Hpo 745 0 max); lia. }
  split.
  { unfold logging_ack_previous_boot. rewrite Hpa, Hp3, Hpb, Z.eqb_refl. cbn [negb orb].
    rewrite andb_false_r, Hpo, (read_hdr p3 i _ tl' own' Hs3' Hoh). cbn [mbind res_bind].
    by rewrite E4. }
  by split.
Qed.
End flash.

(** ** A concrete partition *)

Module RamFlash.

Definition read (p : list Z) (off n : Z) : option (list Z) :=
  match array_read p off n with Ok l => Some l | _ => None end.
Definition write (p : list Z) (off : Z) (bs : list Z) : option (list Z) :=
  match array_read p off (zlen bs) with
  | Ok old => match array_write p off (zip_with Z.land old bs) with Ok p' => Some p' | _ => None end
  | _ => None
  end.
Definition erase (p : list Z) (off n : Z) : option (list Z) :=
  match array_write p off (replicate (Z.to_nat n) 255) with Ok p' => Some p' | _ => None end.
Definition checksum (l : list Z) : Z := u32 (foldl (λ a x, u32 (31 * a + x)) 7 l).

Lemma read_law p a seg c off n :
  id p = a ++ seg ++ c → off = zlen a → n = zlen seg → read p off n = Some seg.
Proof. unfold id. intros -> -> ->. unfold read. by rewrite array_read_app. Qed.

Lemma write_law p a old c off bs :
  id p = a ++ old ++ c → off = zlen a → zlen bs = zlen old →
  ∃ p', write p off bs = Some p' ∧ id p' = a ++ zip_with Z.land old bs ++ c.
Proof.
  unfold id. intros -> -> Hl. unfold write. rewrite array_read_app by done.
  rewrite array_write_app; [by eexists|done|]. unfold zlen in *. rewrite length_zip_with. lia.
Qed.

Lemma erase_law p a old c off n :
  id p = a ++ old ++ c → off = zlen a → n = zlen old →
  ∃ p', erase p off n = Some p' ∧ id p' = a ++ replicate (length old) 255 ++ c.
Proof.
  unfold id. intros -> -> ->. unfold erase.
  replace (Z.to_nat (zlen old)) with (length old) by (unfold zlen; lia).
  rewrite array_write_app; [by eexists|done|]. unfold zlen. by rewrite length_replicate.
Qed.

Lemma checksum_range l : is_u32 (checksum l).
Proof. apply u32_range. Qed.

Lemma checksum_blank : checksum (replicate 84 255) ≠ 0xFFFFFFFF.
Proof. vm_compute. discriminate. Qed.

(** A factory-fresh partition. *)
Definition blank : list Z := replicate (Z.to_nat 131072) 255.

Lemma blank_bytes : Forall is_u8 (id blank).
Proof. by apply Forall_replicate. Qed.

Lemma blank_size : 2 * LOGF_SLOT_SIZE <= zlen (id blank).
Proof. unfold zlen, blank, id. rewrite length_replicate, Z2Nat.id by lia. done. Qed.

Lemma blank_generations : generations_fit id blank.
Proof.
  intros a h c E _ Hm. exfalso.
  assert (Forall (λ x, x = 255) (id blank)) as HF by (by apply Forall_replicate).
  rewrite E in HF. apply Forall_app in HF as [_ HF]. apply Forall_app in HF as [HF _].
  unfold hdr_bytes in HF. apply Forall_app in HF as [HF _]. rewrite Hm in HF.
  apply Forall_inv in HF. vm_compute in HF. discriminate.
Qed.

End RamFlash.

Definition example_record : log_record_t :=
  mk_log_record 1 17 250 100 1 3 1 [9; 0; 0; 0] [98; 111; 111; 116].

Lemma example_record_wf : rec_wf example_record.
Proof.
  split; cbn; unfold is_u32, is_u16, is_u8, is_i32, LOG_MAX_TEXT; try done; try lia.
  - by rewrite !Forall_cons, Forall_nil.
  - by rewrite !Forall_cons, Forall_nil.
Qed.

(** A boot record (INFO, so kept only because it is a boot record) is read back
    after the reboot; an INFO text record is not persisted. *)
Lemma previous_boot_records_survive_witness :
  let ops := [FSubmit example_record true; FTask] in
  17 ≠ 18 ∧ accepted LOG_LEVEL_WARN ops = [example_record] ∧
  ∃ s2 p2 taken q s3 p3,
    lf_queue s2 = Some q ∧ taken ++ q = [example_record] ∧
    logging_flash_init RamFlash.read RamFlash.write RamFlash.erase log_flash_boot p2 true 18 true true
    = Ok (s3, p3) ∧
    logging_previous_boot_available s3 = (true, 17) ∧
    logging_read_previous_boot RamFlash.read RamFlash.checksum s3 p3 0 true 10
    = Ok (take 10 (filter (λ r, lg_level r <= 5) (take 744 taken))).
Proof.
  cbn zeta. split; [lia|]. split; [done|].
  assert (Forall flash_op_wf [FSubmit example_record true; FTask]) as Hops.
  { rewrite !Forall_cons, Forall_nil. split; [exact example_record_wf|done]. }
  assert (is_u32 17 ∧ is_u32 18 ∧ 17 ≠ 18) as (Hb & Hb' & Hne) by (unfold is_u32; lia).
  destruct (previous_boot_records_survive RamFlash.read RamFlash.write RamFlash.erase
    RamFlash.checksum id RamFlash.read_law RamFlash.write_law RamFlash.erase_law
    RamFlash.checksum_range RamFlash.checksum_blank RamFlash.blank
    [FSubmit example_record true; FTask] 17 18 0 10 RamFlash.blank_bytes RamFlash.blank_size
    RamFlash.blank_generations Hb Hb' Hne Hops)
    as (s1 & p1 & s2 & p2 & taken & q & s3 & p3 & s4 & p4 & E1 & E2 & Hq & Ha & E3 & Hav & Hr & _).
  exists s2, p2, taken, q, s3, p3.
  split; [exact Hq|]. split; [exact Ha|]. split; [exact E3|]. split; [exact Hav|exact Hr].
Defined.
