(* ===== verification/Watchdog.v ===== *)
(** * The application watchdog: [app_watchdog.c]

    Models src/components/watchdog/src/app_watchdog.c: per-channel deadlines,
    soft recoveries, the escalation to a reboot, the reboot brake and the boot
    diagnosis in RTC memory.  The injected callbacks are not called: each step
    lists the actions it performs, and the answers of the probe and of the reboot
    hook are inputs of the step. *)

From S2P Require Import Prelude.

(** ** Data *)

Definition WD_RTC_MAGIC : Z := 0x57444F47.
Definition WD_MAX_CHANNELS : Z := 8.
Definition WD_REBOOT_BRAKE_MAX : Z := 3.

Record wd_rtc_t := mk_rtc {
  rtc_magic : Z;
  rtc_pending : Z;
  rtc_channel : Z;
  rtc_checkpoint : Z;
  rtc_soft : Z;
  rtc_reboots : Z;
  rtc_uptime_s : Z
}.
#[export] Instance eta_wd_rtc_t : Eta wd_rtc_t := λ r, mk_rtc (rtc_magic r)
      (rtc_pending r) (rtc_channel r) (rtc_checkpoint r) (rtc_soft r) (rtc_reboots r)
      (rtc_uptime_s r).
#[export] Instance set_rtc_magic : Setter rtc_magic. Proof. mk_setter. Defined.
#[export] Instance set_rtc_pending : Setter rtc_pending. Proof. mk_setter. Defined.
#[export] Instance set_rtc_channel : Setter rtc_channel. Proof. mk_setter. Defined.
#[export] Instance set_rtc_checkpoint : Setter rtc_checkpoint. Proof. mk_setter. Defined.
#[export] Instance set_rtc_soft : Setter rtc_soft. Proof. mk_setter. Defined.
#[export] Instance set_rtc_reboots : Setter rtc_reboots. Proof. mk_setter. Defined.
#[export] Instance set_rtc_uptime_s : Setter rtc_uptime_s. Proof. mk_setter. Defined.

(** The function pointers are represented by their being set. *)
Record wd_channel_def_t := mk_channel_def {
  cd_name : option string;
  cd_deadline_ms : Z;
  cd_max_soft : Z;
  cd_recover : bool;
  cd_reboot_allowed : bool;
  cd_escalate_reboot : bool
}.

Record wd_channel_t := mk_channel {
  ch_used : bool;
  ch_def : wd_channel_def_t;
  ch_last_beat_us : Z;
  ch_checkpoint : Z;
  ch_soft : Z;
  ch_in_timeout : bool;
  ch_brake_logged : bool
}.
#[export] Instance eta_wd_channel_t : Eta wd_channel_t := λ r, mk_channel (ch_used r)
      (ch_def r) (ch_last_beat_us r) (ch_checkpoint r) (ch_soft r) (ch_in_timeout r)
      (ch_brake_logged r).
#[export] Instance set_ch_used : Setter ch_used. Proof. mk_setter. Defined.
#[export] Instance set_ch_def : Setter ch_def. Proof. mk_setter. Defined.
#[export] Instance set_ch_last_beat_us : Setter ch_last_beat_us. Proof. mk_setter. Defined.
#[export] Instance set_ch_checkpoint : Setter ch_checkpoint. Proof. mk_setter. Defined.
#[export] Instance set_ch_soft : Setter ch_soft. Proof. mk_setter. Defined.
#[export] Instance set_ch_in_timeout : Setter ch_in_timeout. Proof. mk_setter. Defined.
#[export] Instance set_ch_brake_logged : Setter ch_brake_logged. Proof. mk_setter. Defined.

Record wd_boot_diag_t := mk_diag {
  dg_valid : bool;
  dg_channel : Z;
  dg_checkpoint : Z;
  dg_soft : Z;
  dg_uptime_s : Z;
  dg_reboots : Z
}.

(** The static variables of the file. *)
Record wd_state := mk_wd {
  wd_ch : list wd_channel_t;
  wd_diag : wd_boot_diag_t;
  wd_rtc : wd_rtc_t;
  wd_hook : bool;
  wd_task_started : bool
}.
#[export] Instance eta_wd_state : Eta wd_state := λ r, mk_wd (wd_ch r) (wd_diag r)
      (wd_rtc r) (wd_hook r) (wd_task_started r).
#[export] Instance set_wd_ch : Setter wd_ch. Proof. mk_setter. Defined.
#[export] Instance set_wd_diag : Setter wd_diag. Proof. mk_setter. Defined.
#[export] Instance set_wd_rtc : Setter wd_rtc. Proof. mk_setter. Defined.
#[export] Instance set_wd_hook : Setter wd_hook. Proof. mk_setter. Defined.
#[export] Instance set_wd_task_started : Setter wd_task_started. Proof. mk_setter. Defined.

Inductive wd_event :=
  | EVT_WD_TIMEOUT | EVT_WD_RECOVERY_STARTED | EVT_WD_RECOVERY_SUCCESS
  | EVT_WD_RECOVERY_FAILED | EVT_WD_REBOOT_REQUESTED.

(** What a step does besides changing the state. *)
Inductive wd_action :=
  | Publish (e : wd_event) (id info : Z)
  | Recover (id : Z)
  | Reboot (delay_ms : Z).

(** Zero-initialised memory. *)
Definition def_zero : wd_channel_def_t := mk_channel_def None 0 0 false false false.
Definition channel_zero : wd_channel_t := mk_channel false def_zero 0 0 0 false false.
Definition diag_zero : wd_boot_diag_t := mk_diag false 0 0 0 0 0.
Definition rtc_zero : wd_rtc_t := mk_rtc 0 0 0 0 0 0 0.

(** ** Operations *)

Definition publish_wd_event (e : wd_event) (id info : Z) : wd_action := Publish e (u8 id) info.

Definition wd_init (s : wd_state) : wd_state :=
  let s := s <| wd_ch := replicate (Z.to_nat WD_MAX_CHANNELS) channel_zero |>
             <| wd_diag := diag_zero |> in
  let rtc := wd_rtc s in
  if negb (rtc_magic rtc =? WD_RTC_MAGIC)
  then s <| wd_rtc := rtc_zero <| rtc_magic := WD_RTC_MAGIC |> |>
  else if negb (rtc_pending rtc =? 0) then
    s <| wd_diag := mk_diag true (rtc_channel rtc) (rtc_checkpoint rtc) (rtc_soft rtc)
                      (rtc_uptime_s rtc) (rtc_reboots rtc) |>
      <| wd_rtc := rtc <| rtc_pending := 0 |> |>
  else s.

Definition wd_reboot_hook_set (s : wd_state) (hook : bool) : wd_state := s <| wd_hook := hook |>.

(** The channel [id], if the identifier is in range. *)
Definition channel (s : wd_state) (id : Z) : option wd_channel_t :=
  if WD_MAX_CHANNELS <=? id then None else wd_ch s !! Z.to_nat id.

Definition put_channel (s : wd_state) (id : Z) (c : wd_channel_t) : wd_state :=
  s <| wd_ch := <[Z.to_nat id := c]> (wd_ch s) |>.

Definition wd_register (s : wd_state) (id : Z) (def : option wd_channel_def_t) (now_us : Z)
    : esp_err * wd_state :=
  match channel s id, def with
  | Some c, Some d =>
      if (bool_decide (cd_name d = None)) || (cd_deadline_ms d =? 0)
      then (ESP_ERR_INVALID_ARG, s)
      else if ch_used c then (ESP_ERR_INVALID_STATE, s)
      else (ESP_OK, put_channel s id (c <| ch_used := true |> <| ch_def := d |>
                                        <| ch_last_beat_us := now_us |>))
  | _, _ => (ESP_ERR_INVALID_ARG, s)
  end.

Definition wd_heartbeat (s : wd_state) (id now_us : Z) : wd_state * list wd_action :=
  match channel s id with
  | Some c =>
      if ch_used c then
        (put_channel s id (c <| ch_last_beat_us := now_us |> <| ch_soft := 0 |>
                             <| ch_in_timeout := false |> <| ch_brake_logged := false |>),
         if ch_in_timeout c then [publish_wd_event EVT_WD_RECOVERY_SUCCESS id (ch_soft c)] else [])
      else (s, [])
  | None => (s, [])
  end.

Definition wd_checkpoint (s : wd_state) (id usCheckpoint : Z) : wd_state :=
  match channel s id with
  | Some c => if ch_used c then put_channel s id (c <| ch_checkpoint := usCheckpoint |>) else s
  | None => s
  end.

Definition wd_session_success_note (s : wd_state) : wd_state :=
  s <| wd_rtc := (wd_rtc s) <| rtc_reboots := 0 |> |>.

Definition wd_boot_diag_get (s : wd_state) : bool * wd_boot_diag_t :=
  (dg_valid (wd_diag s), wd_diag s).

(** [escalate]: [allowed] is the answer of the channel's probe, [accepted] the
    answer of the reboot hook. *)
Definition escalate (s : wd_state) (id : Z) (c : wd_channel_t) (now_us : Z)
    (allowed accepted : bool) : wd_state * list wd_action :=
  if cd_reboot_allowed (ch_def c) && negb allowed then (s, [])
  else if WD_REBOOT_BRAKE_MAX <=? rtc_reboots (wd_rtc s) then
    if negb (ch_brake_logged c) then
      (put_channel s id (c <| ch_brake_logged := true |>),
       [publish_wd_event EVT_WD_RECOVERY_FAILED id (rtc_reboots (wd_rtc s))])
    else (s, [])
  else if negb (wd_hook s) then (s, [])
  else
    let rtc := wd_rtc s in
    let rtc := rtc <| rtc_pending := 1 |> <| rtc_channel := u8 id |>
                   <| rtc_checkpoint := ch_checkpoint c |> <| rtc_soft := ch_soft c |>
                   <| rtc_uptime_s := u32 (now_us / 1000000) |>
                   <| rtc_reboots := u8 (rtc_reboots rtc + 1) |> in
    let rtc := if accepted then rtc else rtc <| rtc_pending := 0 |> in
    (s <| wd_rtc := rtc |>,
     [publish_wd_event EVT_WD_REBOOT_REQUESTED id (ch_checkpoint c); Reboot 2000]).

(** [(uint32_t)((llNowUs - llLastBeatUs) / 1000)]: C division truncates. *)
Definition elapsed_ms (now_us last_us : Z) : Z := u32 (Z.quot (now_us - last_us) 1000).

(** [check_channel] with the time [now_us] the task read before its round over
    the channels; [esc_us] is the clock when an escalation stores the uptime. *)
Definition check_channel (s : wd_state) (id : Z) (now_us esc_us : Z) (allowed accepted : bool)
    : wd_state * list wd_action :=
  match channel s id with
  | None => (s, [])
  | Some c =>
      let elapsed := elapsed_ms now_us (ch_last_beat_us c) in
      let d := ch_def c in
      if elapsed <? cd_deadline_ms d then (s, []) else
      let soft_stage := ch_soft c <? cd_max_soft d in
      let bEscalate := negb soft_stage && cd_escalate_reboot d in
      let c := c <| ch_in_timeout := true |> in
      let c := if soft_stage then c <| ch_soft := u8 (ch_soft c + 1) |> else c in
      let c := c <| ch_last_beat_us := now_us |> in
      let s := put_channel s id c in
      if soft_stage then
        (s, publish_wd_event EVT_WD_TIMEOUT id (i32 elapsed)
            :: (if cd_recover d
                then [publish_wd_event EVT_WD_RECOVERY_STARTED id (ch_soft c); Recover id]
                else []))
      else if bEscalate then
        let '(s, acts) := escalate s id c esc_us allowed accepted in
        (s, acts ++ (if cd_recover d then [Recover id] else []))
      else (s, [])
  end.

(** One channel of the round of [wd_task]. *)
Definition wd_task_channel (s : wd_state) (id : Z) (now_us esc_us : Z) (allowed accepted : bool)
    : wd_state * list wd_action :=
  match channel s id with
  | Some c => if ch_used c then check_channel s id now_us esc_us allowed accepted else (s, [])
  | None => (s, [])
  end.

Definition wd_start (s : wd_state) (created : bool) : esp_err * wd_state :=
  if wd_task_started s then (ESP_OK, s)
  else if negb created then (ESP_ERR_NO_MEM, s)
  else (ESP_OK, s <| wd_task_started := true |>).

(** ** The project's channels: watchdog_table.c *)

Definition WD_CH_SESSION : Z := 0.
Definition WD_CH_MEASURE : Z := 1.
Definition WD_CH_MONITOR : Z := 2.
Definition WD_CH_EVENT : Z := 3.
Definition WD_CH_PUMP : Z := 4.
Definition WD_CH_CANOPEN : Z := 5.

Definition s_astChannels : list (Z * wd_channel_def_t) :=
  [(WD_CH_SESSION, mk_channel_def (Some "session"%string) 180000 5 true true true);
   (WD_CH_MEASURE, mk_channel_def (Some "measure"%string) 15000 1 false false true);
   (WD_CH_MONITOR, mk_channel_def (Some "monitor"%string) 15000 1 false false true);
   (WD_CH_EVENT, mk_channel_def (Some "event"%string) 30000 1 false false true);
   (WD_CH_PUMP, mk_channel_def (Some "pump"%string) 2000 1 false false true);
   (WD_CH_CANOPEN, mk_channel_def (Some "canopen"%string) 5000 255 true false false)].

(** The registration loop stops at the first error; [clock] is the timer value
    read for each channel. *)
Fixpoint register_channels (s : wd_state) (rows : list (Z * wd_channel_def_t)) (clock : Z → Z)
    : esp_err * wd_state :=
  match rows with
  | [] => (ESP_OK, s)
  | (id, d) :: rows =>
      match wd_register s id (Some d) (clock id) with
      | (ESP_OK, s) => register_channels s rows clock
      | (err, s) => (err, s)
      end
  end.

Definition watchdog_table_register_all (s : wd_state) (clock : Z → Z) : esp_err * wd_state :=
  register_channels (wd_reboot_hook_set s true) s_astChannels clock.

(** ** Traces *)

Inductive wd_op :=
  | WRegister (id : Z) (def : option wd_channel_def_t) (now_us : Z)
  | WHeartbeat (id now_us : Z)
  | WCheckpoint (id ckpt : Z)
  | WSuccess
  | WHook (set : bool)
  | WCheck (id now_us esc_us : Z) (allowed accepted : bool)
  | WReset
  | WPowerOn (garbage : wd_rtc_t).

(** A start of the firmware: the RAM is cleared, the RTC memory is what it is. *)
Definition wd_boot (rtc : wd_rtc_t) : wd_state :=
  wd_init (mk_wd (replicate (Z.to_nat WD_MAX_CHANNELS) channel_zero) diag_zero rtc false false).

Definition wd_step (s : wd_state) (op : wd_op) : wd_state * list wd_action :=
  match op with
  | WRegister id def now => ((wd_register s id def now).2, [])
  | WHeartbeat id now => wd_heartbeat s id now
  | WCheckpoint id c => (wd_checkpoint s id c, [])
  | WSuccess => (wd_session_success_note s, [])
  | WHook b => (wd_reboot_hook_set s b, [])
  | WCheck id now esc allowed accepted => wd_task_channel s id now esc allowed accepted
  | WReset => (wd_boot (wd_rtc s), [])
  | WPowerOn g => (wd_boot g, [])
  end.

Definition def_wf (d : wd_channel_def_t) : Prop := is_u8 (cd_max_soft d).

Definition wd_op_wf (op : wd_op) : Prop :=
  match op with
  | WRegister id def _ => 0 <= id ∧ ∀ d, def = Some d → def_wf d
  | WHeartbeat id _ | WCheckpoint id _ | WCheck id _ _ _ _ => 0 <= id
  | WPowerOn g => is_u8 (rtc_reboots g)
  | _ => True
  end.

(** The log of a trace, newest step first. *)
Definition wd_log : Type := list (wd_op * list wd_action).

Inductive wd_reach : wd_log → wd_state → Prop :=
  | wd_reach_start g : is_u8 (rtc_reboots g) → wd_reach [(WPowerOn g, [])] (wd_boot g)
  | wd_reach_step log s op :
      wd_reach log s → wd_op_wf op →
      wd_reach ((op, (wd_step s op).2) :: log) (wd_step s op).1.

(** Calls of the reboot hook since the last session success or power-on. *)
Definition is_reboot (a : wd_action) : bool := match a with Reboot _ => true | _ => false end.

Definition reboots_in (acts : list wd_action) : Z := Z.of_nat (length (List.filter is_reboot acts)).

Fixpoint reboots_since (log : wd_log) : Z :=
  match log with
  | [] => 0
  | (WSuccess, _) :: _ | (WPowerOn _, _) :: _ => 0
  | (_, acts) :: log => reboots_in acts + reboots_since log
  end.

(** Timeouts reported for channel [id] since its last heartbeat or the start. *)
Definition is_timeout (id : Z) (a : wd_action) : bool :=
  match a with Publish EVT_WD_TIMEOUT i _ => i =? id | _ => false end.

Definition timeouts_in (id : Z) (acts : list wd_action) : Z :=
  Z.of_nat (length (List.filter (is_timeout id) acts)).

Fixpoint silent_periods (id : Z) (log : wd_log) : Z :=
  match log with
  | [] => 0
  | (WHeartbeat i _, _) :: log' => if i =? id then 0 else silent_periods id log'
  | (WReset, _) :: _ | (WPowerOn _, _) :: _ => 0
  | (_, acts) :: log' => timeouts_in id acts + silent_periods id log'
  end.

(** ** Invariants *)

Record channel_ok (c : wd_channel_t) : Prop := {
  ck_soft : 0 <= ch_soft c <= cd_max_soft (ch_def c);
  ck_def : def_wf (ch_def c);
  ck_unused : ch_used c = false → c = channel_zero
}.

Record wd_inv (log : wd_log) (s : wd_state) : Prop := {
  wi_len : length (wd_ch s) = 8%nat;
  wi_ch : Forall channel_ok (wd_ch s);
  wi_magic : rtc_magic (wd_rtc s) = WD_RTC_MAGIC;
  wi_u8 : is_u8 (rtc_reboots (wd_rtc s));
  wi_brake : reboots_since log = 0 ∨
    (0 <= reboots_since log <= rtc_reboots (wd_rtc s) ∧ rtc_reboots (wd_rtc s) <= 3);
  wi_silent : ∀ id c, 0 <= id → channel s id = Some c → ch_soft c = silent_periods id log
}.

Lemma channel_zero_ok : channel_ok channel_zero.
Proof. split; [cbn; lia|by split; cbn|done]. Qed.

Lemma channel_Some s id c :
  0 <= id → channel s id = Some c → 0 <= id < 8 ∧ wd_ch s !! Z.to_nat id = Some c.
Proof.
  unfold channel, WD_MAX_CHANNELS. intros Hi H. destruct (Z.leb_spec 8 id); [done|].
  split; [lia|done].
Qed.

Lemma channel_put s i c j :
  0 <= i < 8 → 0 <= j → length (wd_ch s) = 8%nat →
  channel (put_channel s i c) j = if i =? j then Some c else channel s j.
Proof.
  intros Hi Hj Hl. unfold channel, put_channel, WD_MAX_CHANNELS. cbn.
  destruct (Z.eqb_spec i j) as [->|Hne].
  - rewrite (proj2 (Z.leb_gt _ _)) by lia. apply list_lookup_insert_eq. lia.
  - destruct (8 <=? j); [done|]. apply list_lookup_insert_ne. lia.
Qed.

(** Updates of one channel keep the invariant when its count matches the log. *)
Lemma put_inv log log' s id c :
  wd_inv log s → 0 <= id < 8 → channel_ok c →
  reboots_since log' = reboots_since log →
  ch_soft c = silent_periods id log' →
  (∀ j, 0 <= j → j ≠ id → silent_periods j log' = silent_periods j log) →
  wd_inv log' (put_channel s id c).
Proof.
  intros [Hl Hc Hm Hu Hb Hs] Hid Hok Hr Hsoft Hj. split; try done.
  - cbn. by rewrite length_insert.
  - by apply Forall_insert.
  - cbn. by rewrite Hr.
  - intros j c' Hj0 Hch. rewrite channel_put in Hch by done.
    destruct (Z.eqb_spec id j) as [<-|Hne]; [by injection Hch as <-|].
    rewrite Hj by (done || lia). by apply Hs.
Qed.

Lemma same_inv log log' s :
  wd_inv log s → reboots_since log' = reboots_since log →
  (∀ j c, 0 <= j → channel s j = Some c → silent_periods j log' = silent_periods j log) →
  wd_inv log' s.
Proof.
  intros [Hl Hc Hm Hu Hb Hs] Hr Hj. split; try done; [by rewrite Hr|].
  intros j c Hj0 Hch. rewrite (Hj j c) by done. by apply Hs.
Qed.

Lemma boot_inv log g op acts :
  (op = WReset ∧ rtc_magic g = WD_RTC_MAGIC ∧ acts = [] ∧
   (reboots_since log = 0 ∨ (0 <= reboots_since log <= rtc_reboots g ∧ rtc_reboots g <= 3))) ∨ op = WPowerOn g →
  is_u8 (rtc_reboots g) → wd_inv ((op, acts) :: log) (wd_boot g).
Proof.
  intros Hop Hu.
  assert (wd_ch (wd_boot g) = replicate 8 channel_zero) as Hch.
  { unfold wd_boot, wd_init. cbn. by repeat case_match. }
  assert (rtc_magic (wd_rtc (wd_boot g)) = WD_RTC_MAGIC ∧
    (rtc_reboots (wd_rtc (wd_boot g)) = rtc_reboots g ∨
     rtc_reboots (wd_rtc (wd_boot g)) = 0 ∧ rtc_magic g ≠ WD_RTC_MAGIC)) as [Hm Hrb].
  { unfold wd_boot, wd_init. cbn. destruct (Z.eqb_spec (rtc_magic g) WD_RTC_MAGIC); cbn.
    - destruct (rtc_pending g =? 0); cbn; auto.
    - auto. }
  split.
  - by rewrite Hch.
  - rewrite Hch. apply Forall_replicate, channel_zero_ok.
  - done.
  - destruct Hrb as [-> | [-> _]]; done.
  - destruct Hop as [(-> & Hg & -> & Hb) | ->]; [|by left].
    destruct Hrb as [-> | [_ Hne]]; [|done]. exact Hb.
  - intros id c Hid Hc. apply channel_Some in Hc as [_ Hc]; [|done]. rewrite Hch in Hc.
    apply lookup_replicate in Hc as [-> _]. by destruct Hop as [(-> & _) | ->].
Qed.

Lemma channel_lookup_ok s id c :
  Forall channel_ok (wd_ch s) → 0 <= id → channel s id = Some c → channel_ok c ∧ 0 <= id < 8.
Proof.
  intros Hf Hi Hc. apply channel_Some in Hc as [Hid Hl]; [|done].
  split; [by eapply Forall_lookup_1|done].
Qed.

Lemma unused_silent log s id c :
  wd_inv log s → 0 <= id → channel s id = Some c → ch_used c = false → silent_periods id log = 0.
Proof.
  intros Hs Hi Hc Hu. destruct (channel_lookup_ok s id c (wi_ch _ _ Hs) Hi Hc) as [Hok _].
  rewrite <- (wi_silent _ _ Hs id c Hi Hc). by rewrite (ck_unused c Hok Hu).
Qed.

Lemma heartbeat_inv log s id now :
  wd_inv log s → 0 <= id →
  wd_inv ((WHeartbeat id now, (wd_heartbeat s id now).2) :: log) (wd_heartbeat s id now).1.
Proof.
  intros Hs Hi. unfold wd_heartbeat. destruct (channel s id) as [c|] eqn:Hc.
  - destruct (channel_lookup_ok s id c (wi_ch _ _ Hs) Hi Hc) as [Hok Hid].
    destruct (ch_used c) eqn:Hu.
    + apply (put_inv log); [done|done| |by destruct (ch_in_timeout c)| |].
      * destruct Hok as [Hsoft Hd Hun]. split; cbn; [lia|done|by rewrite Hu].
      * cbn. by rewrite Z.eqb_refl.
      * intros j _ Hj. cbn. by rewrite (proj2 (Z.eqb_neq id j)) by done.
    + apply (same_inv log); [done|done|]. intros j c' Hj Hc'. cbn in *.
      destruct (Z.eqb_spec id j) as [<-|]; [|done].
      symmetry. by apply (unused_silent log s id c).
  - apply (same_inv log); [done|done|]. intros j c' Hj Hc'. cbn in *.
    destruct (Z.eqb_spec id j) as [<-|]; [congruence|done].
Qed.

Lemma register_inv log s id def now :
  wd_inv log s → wd_op_wf (WRegister id def now) →
  wd_inv ((WRegister id def now, []) :: log) (wd_register s id def now).2.
Proof.
  intros Hs [Hi Hd]. unfold wd_register.
  assert (wd_inv ((WRegister id def now, []) :: log) s) as Hsame by (by apply (same_inv log)).
  destruct (channel s id) as [c|] eqn:Hc; [|done]. destruct def as [d|]; [|done].
  destruct (_ || _); [done|]. destruct (ch_used c) eqn:Hu; [done|].
  destruct (channel_lookup_ok s id c (wi_ch _ _ Hs) Hi Hc) as [Hok Hid].
  pose proof (wi_silent _ _ Hs id c Hi Hc) as Hsil.
  rewrite (ck_unused c Hok Hu) in *. specialize (Hd d eq_refl).
  apply (put_inv log); [done|done| |done|done|done].
  split; cbn; [unfold def_wf, is_u8 in Hd; lia|done|done].
Qed.

Lemma checkpoint_inv log s id k :
  wd_inv log s → 0 <= id →
  wd_inv ((WCheckpoint id k, []) :: log) (wd_checkpoint s id k).
Proof.
  intros Hs Hi. unfold wd_checkpoint.
  assert (wd_inv ((WCheckpoint id k, []) :: log) s) as Hsame by (by apply (same_inv log)).
  destruct (channel s id) as [c|] eqn:Hc; [|done]. destruct (ch_used c) eqn:Hu; [|done].
  destruct (channel_lookup_ok s id c (wi_ch _ _ Hs) Hi Hc) as [[] Hid].
  apply (put_inv log); [done|done| |done| |done].
  - split; cbn; [lia|done|by rewrite Hu].
  - cbn. by apply (wi_silent _ _ Hs id c).
Qed.

(** Steps that only change the RTC counter of reboots. *)
Lemma rtc_inv log log' s rtc :
  wd_inv log s → rtc_magic rtc = WD_RTC_MAGIC → is_u8 (rtc_reboots rtc) →
  (reboots_since log' = 0 ∨
   (0 <= reboots_since log' <= rtc_reboots rtc ∧ rtc_reboots rtc <= 3)) →
  (∀ j, silent_periods j log' = silent_periods j log) →
  wd_inv log' (s <| wd_rtc := rtc |>).
Proof.
  intros [Hl Hc Hm Hu Hb Hs] Hm' Hu' Hr Hj. split; try done.
  intros j c Hj0 Hch. rewrite Hj. by apply Hs.
Qed.

(** Whether a list of actions calls the reboot hook. *)
Definition reboots (acts : list wd_action) : bool := existsb is_reboot acts.

Lemma reboots_in_app a b : reboots_in (a ++ b) = reboots_in a + reboots_in b.
Proof. unfold reboots_in. rewrite List.filter_app, length_app. lia. Qed.
Lemma timeouts_in_app id a b : timeouts_in id (a ++ b) = timeouts_in id a + timeouts_in id b.
Proof. unfold timeouts_in. rewrite List.filter_app, length_app. lia. Qed.

(** The conditions under which [escalate] calls the hook. *)
Definition may_reboot (s : wd_state) (c : wd_channel_t) (allowed : bool) : bool :=
  negb (cd_reboot_allowed (ch_def c) && negb allowed)
  && negb (WD_REBOOT_BRAKE_MAX <=? rtc_reboots (wd_rtc s)) && wd_hook s.

(** What [escalate] leaves in the RTC memory when it calls the hook. *)
Definition rtc_after (rtc : wd_rtc_t) (id : Z) (c : wd_channel_t) (now_us : Z) (accepted : bool)
    : wd_rtc_t :=
  mk_rtc (rtc_magic rtc) (if accepted then 1 else 0) (u8 id) (ch_checkpoint c) (ch_soft c)
    (u8 (rtc_reboots rtc + 1)) (u32 (now_us / 1000000)).

Lemma escalate_reboots s id c now allowed accepted :
  may_reboot s c allowed = true →
  escalate s id c now allowed accepted
  = (s <| wd_rtc := rtc_after (wd_rtc s) id c now accepted |>,
     [publish_wd_event EVT_WD_REBOOT_REQUESTED id (ch_checkpoint c); Reboot 2000]).
Proof.
  unfold may_reboot, escalate. intros [[H1 H2]%andb_prop H3]%andb_prop.
  apply negb_true_iff in H1 as ->. apply negb_true_iff in H2 as ->. rewrite H3. cbn [negb].
  by destruct accepted.
Qed.

Lemma escalate_stays s id c now allowed accepted :
  may_reboot s c allowed = false →
  (escalate s id c now allowed accepted).1 = s ∨
  (escalate s id c now allowed accepted).1 = put_channel s id (c <| ch_brake_logged := true |>).
Proof.
  unfold may_reboot, escalate.
  destruct (cd_reboot_allowed (ch_def c) && negb allowed); [by left|]. cbn [negb andb].
  destruct (WD_REBOOT_BRAKE_MAX <=? _); cbn [negb andb].
  - intros _. destruct (ch_brake_logged c); [by left|by right].
  - intros ->. by left.
Qed.

Lemma escalate_quiet s id c now allowed accepted :
  may_reboot s c allowed = false →
  reboots_in (escalate s id c now allowed accepted).2 = 0 ∧
  ∀ j, timeouts_in j (escalate s id c now allowed accepted).2 = 0.
Proof.
  unfold may_reboot, escalate.
  destruct (cd_reboot_allowed (ch_def c) && negb allowed); [done|]. cbn [negb andb].
  destruct (WD_REBOOT_BRAKE_MAX <=? _); cbn [negb andb]; [|by intros ->].
  intros _. by destruct (ch_brake_logged c).
Qed.

(** The channel after an expired deadline. *)
Definition expired (c : wd_channel_t) (now_us : Z) : wd_channel_t :=
  let soft := if ch_soft c <? cd_max_soft (ch_def c) then u8 (ch_soft c + 1) else ch_soft c in
  mk_channel (ch_used c) (ch_def c) now_us (ch_checkpoint c) soft true (ch_brake_logged c).

(** [check_channel] by cases: in time, soft stage, escalation, warn-only. *)
Lemma check_channel_cases s id c now esc allowed accepted :
  channel s id = Some c →
  let d := ch_def c in
  let s1 := put_channel s id (expired c now) in
  let rec := if cd_recover d then [Recover id] else [] in
  check_channel s id now esc allowed accepted =
  if elapsed_ms now (ch_last_beat_us c) <? cd_deadline_ms d then (s, [])
  else if ch_soft c <? cd_max_soft d then
    (s1, publish_wd_event EVT_WD_TIMEOUT id (i32 (elapsed_ms now (ch_last_beat_us c)))
         :: (if cd_recover d
             then [publish_wd_event EVT_WD_RECOVERY_STARTED id (u8 (ch_soft c + 1)); Recover id]
             else []))
  else if cd_escalate_reboot d then
    ((escalate s1 id (expired c now) esc allowed accepted).1,
     (escalate s1 id (expired c now) esc allowed accepted).2 ++ rec)
  else (s1, []).
Proof.
  intros Hc. unfold check_channel, expired. rewrite Hc. cbn zeta.
  destruct (_ <? cd_deadline_ms _); [done|].
  destruct (ch_soft c <? cd_max_soft (ch_def c)); cbn; [done|].
  destruct (cd_escalate_reboot (ch_def c)); [|done].
  by destruct (escalate _ _ _ _ _ _).
Qed.

Lemma u8_channel id : 0 <= id < 8 → u8 id = id.
Proof. intros. apply u8_id. unfold is_u8. lia. Qed.

Lemma timeouts_in_timeout id j i acts :
  0 <= id < 8 →
  timeouts_in j (publish_wd_event EVT_WD_TIMEOUT id i :: acts)
  = (if id =? j then 1 else 0) + timeouts_in j acts.
Proof.
  intros Hid. unfold timeouts_in, publish_wd_event. cbn. rewrite u8_channel by done.
  destruct (id =? j); cbn [length]; lia.
Qed.

Definition recover_acts (c : wd_channel_t) (id soft : Z) : list wd_action :=
  if cd_recover (ch_def c)
  then [publish_wd_event EVT_WD_RECOVERY_STARTED id soft; Recover id] else [].

Lemma recover_acts_quiet c id soft j :
  timeouts_in j (recover_acts c id soft) = 0 ∧ reboots_in (recover_acts c id soft) = 0.
Proof. unfold recover_acts. by destruct (cd_recover _). Qed.

(** The escalation stage keeps the invariant. *)
Lemma escalate_inv log s id c op acts esc allowed accepted rec :
  wd_inv log s → 0 <= id < 8 → channel_ok c → ch_used c = true → ch_soft c = silent_periods id log →
  channel s id = Some c →
  (∀ j, timeouts_in j rec = 0) → reboots_in rec = 0 →
  acts = (escalate s id c esc allowed accepted).2 ++ rec →
  (∀ l, reboots_since ((op, acts) :: l) = reboots_in acts + reboots_since l) →
  (∀ j l, silent_periods j ((op, acts) :: l) = timeouts_in j acts + silent_periods j l) →
  wd_inv ((op, acts) :: log) (escalate s id c esc allowed accepted).1.
Proof.
  intros Hs Hid Hok Hused Hsoft Hc Hrt Hrr -> Hr Ht.
  destruct (may_reboot s c allowed) eqn:Em.
  - rewrite escalate_reboots in * by done. cbn [fst snd] in *.
    pose proof (wi_u8 _ _ Hs) as Hu. unfold may_reboot in Em.
    apply andb_prop in Em as [[_ Em]%andb_prop _]. apply negb_true_iff, Z.leb_gt in Em.
    unfold WD_REBOOT_BRAKE_MAX, is_u8 in *.
    assert (u8 (rtc_reboots (wd_rtc s) + 1) = rtc_reboots (wd_rtc s) + 1) as Eu
      by (apply u8_id; unfold is_u8; lia).
    apply (rtc_inv log); [done|apply Hs| | |].
    + cbn. rewrite Eu. unfold is_u8. lia.
    + right. rewrite Hr, reboots_in_app, Hrr. cbn. rewrite Eu.
      pose proof (wi_brake _ _ Hs) as Hb. change (reboots_in [_; _]) with 1. lia.
    + intros j. rewrite Ht, timeouts_in_app, Hrt. done.
  - destruct (escalate_quiet s id c esc allowed accepted Em) as [Q1 Q2].
    assert (reboots_since ((op, (escalate s id c esc allowed accepted).2 ++ rec) :: log)
            = reboots_since log) as Er by (rewrite Hr, reboots_in_app, Q1, Hrr; lia).
    assert (∀ j, silent_periods j ((op, (escalate s id c esc allowed accepted).2 ++ rec) :: log)
            = silent_periods j log) as Et
      by (intros j; rewrite Ht, timeouts_in_app, Q2, Hrt; lia).
    destruct (escalate_stays s id c esc allowed accepted Em) as [-> | ->].
    + apply (same_inv log); [done|done|]. intros. apply Et.
    + apply (put_inv log); [done|done| |done| |].
      * destruct Hok as [H1 H2 H3]. split; [done|done|]. cbn. by rewrite Hused.
      * rewrite Et. exact Hsoft.
      * intros j _ _. apply Et.
Qed.

Lemma check_inv log s id now esc allowed accepted :
  wd_inv log s → 0 <= id →
  wd_inv ((WCheck id now esc allowed accepted, (wd_task_channel s id now esc allowed accepted).2) :: log)
    (wd_task_channel s id now esc allowed accepted).1.
Proof.
  intros Hs Hi. unfold wd_task_channel. set (op := WCheck id now esc allowed accepted).
  assert (wd_inv ((op, []) :: log) s) as Hsame by (by apply (same_inv log)).
  destruct (channel s id) as [c|] eqn:Hc; [|done]. destruct (ch_used c) eqn:Hu; [|done].
  destruct (channel_lookup_ok s id c (wi_ch _ _ Hs) Hi Hc) as [Hok Hid].
  pose proof (wi_silent _ _ Hs id c Hi Hc) as Hsil. destruct Hok as [Hsoft Hdef Hun].
  rewrite (check_channel_cases s id c) by done. cbn zeta.
  destruct (_ <? cd_deadline_ms _); [done|].
  assert (∀ j l acts, silent_periods j ((op, acts) :: l) = timeouts_in j acts + silent_periods j l)
    as Ht by done.
  assert (∀ l acts, reboots_since ((op, acts) :: l) = reboots_in acts + reboots_since l)
    as Hr by done.
  assert (channel_ok (expired c now)) as Hexp.
  { unfold expired. unfold def_wf, is_u8 in Hdef.
    split; cbn; [|done|by rewrite Hu]. destruct (Z.ltb_spec (ch_soft c) (cd_max_soft (ch_def c)));
      rewrite ?u8_id by (unfold is_u8; lia); lia. }
  destruct (Z.ltb_spec (ch_soft c) (cd_max_soft (ch_def c))) as [Hlt|Hge].
  - fold (recover_acts c id (u8 (ch_soft c + 1))).
    destruct (recover_acts_quiet c id (u8 (ch_soft c + 1)) id) as [Q1 Q2].
    apply (put_inv log); [done|done|done| | |].
    + cbn [snd]. rewrite Hr. change (reboots_in (?a :: ?l)) with (reboots_in l).
      rewrite Q2. lia.
    + cbn [snd]. rewrite Ht, timeouts_in_timeout, Q1, Z.eqb_refl by done.
      unfold expired. cbn [ch_soft]. rewrite (proj2 (Z.ltb_lt _ _)) by done.
      unfold def_wf, is_u8 in Hdef. rewrite u8_id by (unfold is_u8; lia). lia.
    + intros j _ Hj. cbn [snd]. rewrite Ht, timeouts_in_timeout by done.
      rewrite (proj2 (Z.eqb_neq id j)) by done.
      destruct (recover_acts_quiet c id (u8 (ch_soft c + 1)) j) as [-> _]. lia.
  - assert (ch_soft (expired c now) = ch_soft c) as Es.
    { unfold expired. cbn [ch_soft]. by rewrite (proj2 (Z.ltb_ge _ _)). }
    assert (∀ log', (∀ j, silent_periods j log' = silent_periods j log) →
      reboots_since log' = reboots_since log → wd_inv log' (put_channel s id (expired c now))) as Hput.
    { intros log' Hj Hrb. apply (put_inv log); [done|done|done|done|by rewrite Es, Hj|].
      intros j _ _. apply Hj. }
    destruct (cd_escalate_reboot (ch_def c)); [|by apply Hput].
    cbn [fst snd]. apply (escalate_inv log _ _ (expired c now)) with
      (rec := if cd_recover (ch_def c) then [Recover id] else []); try done.
    + by apply Hput.
    + by rewrite Es.
    + rewrite channel_put by (try done; apply Hs). by rewrite Z.eqb_refl.
    + intros j. by destruct (cd_recover _).
    + by destruct (cd_recover _).
Qed.

Lemma wd_reach_inv log s : wd_reach log s → wd_inv log s.
Proof.
  induction 1 as [g Hg|log s op Hr IH Hop]; [apply boot_inv; auto|].
  destruct op as [id def now|id now|id k| |b|id now esc al ac| |g]; cbn [wd_step fst snd].
  - by apply register_inv.
  - by apply heartbeat_inv.
  - by apply checkpoint_inv.
  - apply (rtc_inv log); [done|apply IH|done|by left|done].
  - destruct IH. by split.
  - by apply check_inv.
  - apply boot_inv; [|apply IH]. left. split; [done|]. split; [apply IH|].
    split; [done|apply IH].
  - by apply boot_inv; [right|].
Qed.

(** ** Properties *)

(** C14: The reboot brake: whatever happens, across warm resets and with any
    answers of the probes and of the hook, the watchdog asks for at most three
    reboots between two session successes or power-ons. *)
Theorem wd_reboot_brake log s :
  wd_reach log s → 0 <= reboots_since log <= WD_REBOOT_BRAKE_MAX.
Proof.
  intros Hr. pose proof (wi_brake _ _ (wd_reach_inv log s Hr)). unfold WD_REBOOT_BRAKE_MAX. lia.
Qed.

Definition example_def : wd_channel_def_t := mk_channel_def (Some "net"%string) 180000 2 true false true.

(** A power-on, a registration, three silent periods. *)
Definition example_ops : list wd_op :=
  [WHook true; WRegister 1 (Some example_def) 0; WCheckpoint 1 77;
   WCheck 1 180000000 180000000 true true; WCheck 1 360000000 360000000 true true;
   WCheck 1 540000000 540000000 true true].

Definition wd_run (s : wd_state) (ops : list wd_op) : wd_state * wd_log :=
  foldl (λ x op, let '(s', acts) := wd_step x.1 op in (s', (op, acts) :: x.2))
    (s, [(WPowerOn rtc_zero, [])]) ops.

Lemma wd_run_reach ops : ∀ s log,
  wd_reach log s → Forall wd_op_wf ops →
  let x := foldl (λ x op, let '(s', acts) := wd_step x.1 op in (s', (op, acts) :: x.2)) (s, log) ops in
  wd_reach x.2 x.1.
Proof.
  induction ops as [|op ops IH]; intros s log Hr Hw; [done|].
  apply Forall_cons in Hw as [Hop Hw]. cbn [foldl fst snd].
  pose proof (wd_reach_step log s op Hr Hop) as Hr'.
  destruct (wd_step s op) as [s' acts]. by apply IH.
Qed.

Lemma example_reach :
  wd_reach (wd_run (wd_boot rtc_zero) example_ops).2 (wd_run (wd_boot rtc_zero) example_ops).1.
Proof.
  apply wd_run_reach.
  - by apply (wd_reach_start rtc_zero).
  - unfold example_ops. rewrite !Forall_cons, Forall_nil. cbn. split_and!; try done; try lia.
    intros d [= <-]. done.
Qed.

Lemma wd_reboot_brake_witness :
  reboots_since (wd_run (wd_boot rtc_zero) example_ops).2 = 1 ∧
  0 <= reboots_since (wd_run (wd_boot rtc_zero) example_ops).2 <= WD_REBOOT_BRAKE_MAX.
Proof. split; [vm_compute; reflexivity|]. exact (wd_reboot_brake _ _ example_reach). Defined.

Lemma existsb_app_reboot a b : reboots (a ++ b) = reboots a || reboots b.
Proof. unfold reboots. apply existsb_app. Qed.

Lemma escalate_reboots_iff s id c now allowed accepted :
  reboots (escalate s id c now allowed accepted).2 = may_reboot s c allowed.
Proof.
  destruct (may_reboot s c allowed) eqn:Em; [by rewrite escalate_reboots|].
  destruct (escalate_quiet s id c now allowed accepted Em) as [Hq _].
  unfold reboots_in in Hq. apply not_true_is_false. intros [a [Hin Ha]]%existsb_exists.
  assert (List.In a (List.filter is_reboot (escalate s id c now allowed accepted).2)) as Hf
    by (by apply List.filter_In).
  destruct (List.filter _ _); [done|cbn in Hq; lia].
Qed.

(** Escalation order: a check asks for a reboot exactly when the channel is
    in use and allowed to escalate, its deadline has passed without a heartbeat
    and exactly [max_soft] timeouts were already reported since its last
    heartbeat, its probe (if any) agrees, the hook is set and the brake is not
    reached. *)
Theorem wd_reboot_after_soft_recoveries log s id now esc allowed accepted :
  wd_reach log s → 0 <= id →
  reboots (wd_step s (WCheck id now esc allowed accepted)).2 = true ↔
  ∃ c, channel s id = Some c ∧ ch_used c = true ∧ cd_escalate_reboot (ch_def c) = true ∧
    cd_deadline_ms (ch_def c) <= elapsed_ms now (ch_last_beat_us c) ∧
    silent_periods id log = cd_max_soft (ch_def c) ∧
    (cd_reboot_allowed (ch_def c) = true → allowed = true) ∧
    wd_hook s = true ∧ rtc_reboots (wd_rtc s) < WD_REBOOT_BRAKE_MAX.
Proof.
  intros Hr Hi. pose proof (wd_reach_inv log s Hr) as Hs. cbn [wd_step]. unfold wd_task_channel.
  destruct (channel s id) as [c|] eqn:Hc; [|split; [done|intros (c & ? & _); done]].
  destruct (channel_lookup_ok s id c (wi_ch _ _ Hs) Hi Hc) as [[Hsoft _ _] Hid].
  pose proof (wi_silent _ _ Hs id c Hi Hc) as Hsil.
  destruct (ch_used c) eqn:Hu; cycle 1.
  { split; [done|]. intros (c' & [= <-] & ? & _). congruence. }
  rewrite (check_channel_cases s id c) by done. cbn zeta.
  assert (∀ b, (b = true ↔ cd_escalate_reboot (ch_def c) = true ∧
      cd_deadline_ms (ch_def c) <= elapsed_ms now (ch_last_beat_us c) ∧
      ch_soft c = cd_max_soft (ch_def c) ∧ (cd_reboot_allowed (ch_def c) = true → allowed = true) ∧
      wd_hook s = true ∧ rtc_reboots (wd_rtc s) < WD_REBOOT_BRAKE_MAX) →
    b = true ↔ ∃ c0, Some c = Some c0 ∧ ch_used c0 = true ∧ cd_escalate_reboot (ch_def c0) = true ∧
      cd_deadline_ms (ch_def c0) <= elapsed_ms now (ch_last_beat_us c0) ∧
      silent_periods id log = cd_max_soft (ch_def c0) ∧
      (cd_reboot_allowed (ch_def c0) = true → allowed = true) ∧
      wd_hook s = true ∧ rtc_reboots (wd_rtc s) < WD_REBOOT_BRAKE_MAX) as Hred.
  { intros b ->. rewrite Hsil. split; [intros; by exists c|]. by intros (c0 & [= <-] & _ & ?). }
  apply Hred. clear Hred.
  destruct (Z.ltb_spec (elapsed_ms now (ch_last_beat_us c)) (cd_deadline_ms (ch_def c))).
  { split; [done|]. intros (_ & ? & _). lia. }
  destruct (Z.ltb_spec (ch_soft c) (cd_max_soft (ch_def c))).
  { split; [|intros (_ & _ & ? & _); lia]. cbn [snd]. by destruct (cd_recover _). }
  destruct (cd_escalate_reboot (ch_def c)); [|split; [done|by intros [? _]]].
  cbn [snd]. rewrite existsb_app_reboot, escalate_reboots_iff.
  replace (reboots (if cd_recover (ch_def c) then [Recover id] else [])) with false
    by (by destruct (cd_recover _)).
  rewrite orb_false_r. unfold may_reboot, expired. cbn.
  rewrite !andb_true_iff, !negb_true_iff, Z.leb_gt.
  destruct (cd_reboot_allowed (ch_def c)), allowed; cbn; split; intros; destruct_and?; try done.
  all: split_and?; try done; try lia. all: exfalso; firstorder congruence.
Qed.

Lemma wd_reboot_after_soft_recoveries_witness :
  let x := wd_run (wd_boot rtc_zero) (take 5 example_ops) in
  silent_periods 1 x.2 = 2 ∧
  reboots (wd_step x.1 (WCheck 1 540000000 540000000 true true)).2 = true ∧
  (reboots (wd_step x.1 (WCheck 1 540000000 540000000 true true)).2 = true ↔
   ∃ c, channel x.1 1 = Some c ∧ ch_used c = true ∧ cd_escalate_reboot (ch_def c) = true ∧
     cd_deadline_ms (ch_def c) <= elapsed_ms 540000000 (ch_last_beat_us c) ∧
     silent_periods 1 x.2 = cd_max_soft (ch_def c) ∧
     (cd_reboot_allowed (ch_def c) = true → true = true) ∧
     wd_hook x.1 = true ∧ rtc_reboots (wd_rtc x.1) < WD_REBOOT_BRAKE_MAX).
Proof.
  assert (Forall wd_op_wf (take 5 example_ops)) as Hw.
  { cbn. rewrite !Forall_cons, Forall_nil. cbn. split_and!; try done; try lia. intros d [= <-]. done. }
  assert (is_u8 (rtc_reboots rtc_zero)) as H0 by (unfold is_u8; cbn; lia).
  pose proof (wd_run_reach _ _ _ (wd_reach_start rtc_zero H0) Hw) as Hr.
  split; [vm_compute; reflexivity|]. split; [vm_compute; reflexivity|].
  exact (wd_reboot_after_soft_recoveries _ _ 1 540000000 540000000 true true Hr ltac:(lia)).
Defined.

(** The boot diagnosis.  When a check calls the reboot hook and the hook
    accepts, the next start reports the channel, its last checkpoint, the soft
    recoveries used, the uptime and the incremented brake counter, and the start
    after that reports nothing.  When the hook refuses, the next start reports
    nothing, but the refused request has used up one step of the reboot brake. *)
Theorem wd_boot_diagnosis_roundtrip log s id now esc allowed accepted c :
  wd_reach log s → 0 <= id → channel s id = Some c →
  reboots (wd_step s (WCheck id now esc allowed accepted)).2 = true →
  let s1 := (wd_step s (WCheck id now esc allowed accepted)).1 in
  let s2 := wd_boot (wd_rtc s1) in
  (accepted = true →
   wd_boot_diag_get s2
   = (true, mk_diag true id (ch_checkpoint c) (cd_max_soft (ch_def c)) (u32 (esc / 1000000))
              (rtc_reboots (wd_rtc s) + 1)) ∧
   (wd_boot_diag_get (wd_boot (wd_rtc s2))).1 = false) ∧
  (accepted = false →
   (wd_boot_diag_get s2).1 = false ∧ rtc_reboots (wd_rtc s1) = rtc_reboots (wd_rtc s) + 1).
Proof.
  intros Hr Hi Hc Hrb. pose proof (wd_reach_inv log s Hr) as Hs.
  destruct (channel_lookup_ok s id c (wi_ch _ _ Hs) Hi Hc) as [[Hsoft _ _] Hid].
  pose proof (wi_u8 _ _ Hs) as Hu8. pose proof (wi_magic _ _ Hs) as Hmagic.
  cbn [wd_step] in *. unfold wd_task_channel in *. rewrite Hc in *.
  destruct (ch_used c); [|done]. rewrite (check_channel_cases s id c) in * by done. cbn zeta in *.
  destruct (_ <? cd_deadline_ms _); [done|].
  destruct (Z.ltb_spec (ch_soft c) (cd_max_soft (ch_def c))).
  { exfalso. cbn [snd] in Hrb. by destruct (cd_recover _). }
  destruct (cd_escalate_reboot (ch_def c)); [|done]. cbn [fst snd] in *.
  rewrite existsb_app_reboot, escalate_reboots_iff in Hrb.
  replace (reboots (if cd_recover (ch_def c) then [Recover id] else [])) with false in Hrb
    by (by destruct (cd_recover _)).
  rewrite orb_false_r in Hrb. rewrite escalate_reboots by done. cbn [fst].
  assert (rtc_reboots (wd_rtc s) < 3) as Hlt.
  { unfold may_reboot in Hrb. apply andb_prop in Hrb as [[_ Hb]%andb_prop _].
    apply negb_true_iff, Z.leb_gt in Hb. exact Hb. }
  unfold is_u8 in Hu8.
  assert (rtc_after (wd_rtc (put_channel s id (expired c now))) id (expired c now) esc accepted
    = mk_rtc WD_RTC_MAGIC (if accepted then 1 else 0) id (ch_checkpoint c)
        (cd_max_soft (ch_def c)) (rtc_reboots (wd_rtc s) + 1) (u32 (esc / 1000000))) as Ertc.
  { unfold rtc_after, expired. cbn. rewrite Hmagic, u8_channel by done.
    rewrite (proj2 (Z.ltb_ge _ _)) by done. rewrite (u8_id (_ + 1)) by (unfold is_u8; lia).
    f_equal. lia. }
  cbn [wd_rtc put_field set_wd_rtc]. rewrite Ertc.
  split; intros ->; split; reflexivity.
Qed.

Lemma wd_boot_diagnosis_roundtrip_witness :
  let s := (wd_run (wd_boot rtc_zero) (take 5 example_ops)).1 in
  let s2 := wd_boot (wd_rtc (wd_step s (WCheck 1 540000000 540000000 true true)).1) in
  wd_boot_diag_get s2 = (true, mk_diag true 1 77 2 540 1) ∧
  (wd_boot_diag_get (wd_boot (wd_rtc s2))).1 = false.
Proof.
  assert (Forall wd_op_wf (take 5 example_ops)) as Hw.
  { cbn. rewrite !Forall_cons, Forall_nil. cbn. split_and!; try done; try lia. intros d [= <-]. done. }
  assert (is_u8 (rtc_reboots rtc_zero)) as H0 by (unfold is_u8; cbn; lia).
  pose proof (wd_run_reach _ _ _ (wd_reach_start rtc_zero H0) Hw) as Hr.
  destruct (wd_boot_diagnosis_roundtrip _ _ 1 540000000 540000000 true true
    (mk_channel true example_def 360000000 77 2 true false) Hr ltac:(lia) eq_refl eq_refl) as [H _].
  exact (H eq_refl).
Defined.

(** The task reads the clock once per round.  A check with a time at or after
    the channel's last heartbeat reports nothing before the deadline; but a check
    whose time was read at least a millisecond before that heartbeat (a recovery
    of an earlier channel blocked the round, say) takes the negative age for an
    age of about 49 days and reports a timeout of a channel that is alive. *)
Theorem wd_stale_clock_false_timeout s id beat now esc allowed accepted c :
  0 <= id → length (wd_ch s) = 8%nat → channel s id = Some c → ch_used c = true →
  0 < cd_deadline_ms (ch_def c) < 4294967296 →
  let s1 := (wd_step s (WHeartbeat id beat)).1 in
  (beat <= now < beat + 1000 * cd_deadline_ms (ch_def c) →
   wd_step s1 (WCheck id now esc allowed accepted) = (s1, [])) ∧
  (0 < cd_max_soft (ch_def c) → now + 1000 <= beat →
   (beat - now) / 1000 + cd_deadline_ms (ch_def c) <= 4294967296 →
   ∃ info acts, (wd_step s1 (WCheck id now esc allowed accepted)).2
                = publish_wd_event EVT_WD_TIMEOUT id info :: acts).
Proof.
  intros Hi Hl Hc Hu Hd s1. destruct (channel_Some s id c Hi Hc) as [Hid _].
  set (c1 := c <| ch_last_beat_us := beat |> <| ch_soft := 0 |>
               <| ch_in_timeout := false |> <| ch_brake_logged := false |>).
  assert (s1 = put_channel s id c1) as Hs1.
  { subst s1. cbn [wd_step]. unfold wd_heartbeat. by rewrite Hc, Hu. }
  assert (channel s1 id = Some c1) as Hc1 by (by rewrite Hs1, channel_put, Z.eqb_refl by done).
  clearbody s1. cbn [wd_step]. unfold wd_task_channel. rewrite Hc1.
  change (ch_used c1) with (ch_used c). rewrite Hu, (check_channel_cases s1 id c1) by done.
  change (ch_last_beat_us c1) with beat. change (ch_def c1) with (ch_def c).
  change (ch_soft c1) with 0. cbn zeta. split.
  - intros Hn. unfold elapsed_ms. rewrite Z.quot_div_nonneg by lia.
    assert (0 <= (now - beat) / 1000 < cd_deadline_ms (ch_def c)) as Hq.
    { split; [apply Z.div_pos; lia|]. apply Z.div_lt_upper_bound; lia. }
    rewrite u32_id by (unfold is_u32; lia). by rewrite (proj2 (Z.ltb_lt _ _)) by lia.
  - intros Hm Hn Hq.
    assert (elapsed_ms now beat = 4294967296 - (beat - now) / 1000) as He.
    { unfold elapsed_ms. replace (now - beat) with (- (beat - now)) by lia.
      rewrite Z.quot_opp_l, Z.quot_div_nonneg by lia.
      assert (1 <= (beat - now) / 1000) by (apply Z.div_le_lower_bound; lia).
      unfold u32. rewrite <- (Z.mod_add _ 1) by lia. rewrite Z.mod_small by lia. lia. }
    rewrite He, (proj2 (Z.ltb_ge _ _)) by lia. rewrite (proj2 (Z.ltb_lt 0 _)) by lia.
    by do 2 eexists.
Qed.

Lemma wd_stale_clock_false_timeout_witness :
  let s := (wd_run (wd_boot rtc_zero) (take 3 example_ops)).1 in
  let s1 := (wd_step s (WHeartbeat 1 60002000000)).1 in
  ∃ info acts, (wd_step s1 (WCheck 1 60000000000 60003000000 true true)).2
               = publish_wd_event EVT_WD_TIMEOUT 1 info :: acts.
Proof.
  destruct (wd_stale_clock_false_timeout (wd_run (wd_boot rtc_zero) (take 3 example_ops)).1
    1 60002000000 60000000000 60003000000 true true (mk_channel true example_def 0 77 0 false false)
    ltac:(lia) eq_refl eq_refl eq_refl ltac:(cbn; lia)) as [_ H].
  apply H; [cbn; lia|lia|by vm_compute].
Defined.

(** On a fresh start the whole table registers. *)
Lemma watchdog_table_registers rtc clock :
  (watchdog_table_register_all (wd_boot rtc) clock).1 = ESP_OK.
Proof.
  unfold watchdog_table_register_all.
  assert (∃ d r, wd_reboot_hook_set (wd_boot rtc) true
                 = mk_wd (replicate 8 channel_zero) d r true false) as (d & r & ->).
  { unfold wd_reboot_hook_set, wd_boot, wd_init. cbn. repeat case_match; by do 2 eexists. }
  reflexivity.
Qed.
