(* ===== verification/TaskManager.v ===== *)
(** * The task manager: [task_manager.c]

    Models src/components/task_manager/src/task_manager.c as a transition
    system.  Each section under the lock is one step; a running task is a
    [wrapper] with a program counter, a caller blocked in [tm_stop] is a
    [stopper].  The binary semaphore [hFinished] is its token. *)

From S2P Require Import Prelude.

(** ** Data *)

Definition TASK_MANAGER_MAX_TASKS : nat := 8.
Definition TM_STACK_LOW_WATERMARK_WORDS : Z := 128.
Inductive tm_task_state_t :=
  | TM_STATE_UNUSED | TM_STATE_REGISTERED | TM_STATE_RUNNING | TM_STATE_STOPPING | TM_STATE_STOPPED.

(** The callbacks are represented by their being set. *)
Record tm_periodic_task_def_t := mk_task_def {
  td_name : option string;
  td_on_start : bool;
  td_on_cycle : bool;
  td_on_stop : bool;
  td_period_ms : Z;
  td_max_runtime_ms : Z;
  td_stack_size : Z;
  td_priority : Z;
  td_core_id : Z;
  td_twdt : bool
}.

(** [sl_task] is the task handle, [sl_finished] the semaphore with its token. *)
Record tm_slot_t := mk_slot {
  sl_used : bool;
  sl_name : string;
  sl_on_start : bool;
  sl_on_cycle : bool;
  sl_on_stop : bool;
  sl_period_ms : Z;
  sl_period_ticks : Z;
  sl_max_runtime_ms : Z;
  sl_stack_size : Z;
  sl_priority : Z;
  sl_core_id : Z;
  sl_twdt : bool;
  sl_task : option nat;
  sl_finished : option bool;
  sl_stop_requested : bool;
  sl_state : tm_task_state_t;
  sl_last_cycle_ms : Z;
  sl_stack_warned : bool
}.
#[export] Instance eta_tm_slot_t : Eta tm_slot_t := λ r, mk_slot (sl_used r)
      (sl_name r) (sl_on_start r) (sl_on_cycle r) (sl_on_stop r) (sl_period_ms r)
      (sl_period_ticks r) (sl_max_runtime_ms r) (sl_stack_size r) (sl_priority r)
      (sl_core_id r) (sl_twdt r) (sl_task r) (sl_finished r) (sl_stop_requested r)
      (sl_state r) (sl_last_cycle_ms r) (sl_stack_warned r).
#[export] Instance set_sl_task : Setter sl_task. Proof. mk_setter. Defined.
#[export] Instance set_sl_finished : Setter sl_finished. Proof. mk_setter. Defined.
#[export] Instance set_sl_stop_requested : Setter sl_stop_requested. Proof. mk_setter. Defined.
#[export] Instance set_sl_state : Setter sl_state. Proof. mk_setter. Defined.
#[export] Instance set_sl_last_cycle_ms : Setter sl_last_cycle_ms. Proof. mk_setter. Defined.
#[export] Instance set_sl_stack_warned : Setter sl_stack_warned. Proof. mk_setter. Defined.

(** Where a task stands in [tm_task_wrapper]: before it marks itself running,
    in its loop, behind the loop, and between releasing the lock and giving
    [hFinished]. *)
Inductive wrapper_pc := WBegin | WLoop | WFinish | WGive.

#[export] Instance wrapper_pc_eq_dec : EqDecision wrapper_pc.
Proof. solve_decision. Defined.

Record wrapper := mk_wrapper {
  w_handle : nat;
  w_slot : nat;
  w_pc : wrapper_pc
}.

(** A caller of [tm_stop] past the locked section: before [xTaskNotify] on the
    handle it captured, and waiting for the token. *)
Inductive stopper :=
  | SNotify (slot handle : nat)
  | SWait (slot : nat).

Record tm_state := mk_tm {
  tm_slots : list tm_slot_t;
  tm_lock : bool;
  tm_tasks : list wrapper;
  tm_stoppers : list stopper;
  tm_next : nat
}.
#[export] Instance eta_tm_state : Eta tm_state := λ r, mk_tm (tm_slots r) (tm_lock r)
      (tm_tasks r) (tm_stoppers r) (tm_next r).
#[export] Instance set_tm_slots : Setter tm_slots. Proof. mk_setter. Defined.
#[export] Instance set_tm_lock : Setter tm_lock. Proof. mk_setter. Defined.
#[export] Instance set_tm_tasks : Setter tm_tasks. Proof. mk_setter. Defined.
#[export] Instance set_tm_stoppers : Setter tm_stoppers. Proof. mk_setter. Defined.
#[export] Instance set_tm_next : Setter tm_next. Proof. mk_setter. Defined.

Inductive tm_event := EVT_TASK_STARTED | EVT_TASK_STOPPED | EVT_TASK_CYCLE_OVERRUN | EVT_TASK_STACK_LOW.

Inductive tm_action :=
  | PublishTask (e : tm_event) (id : nat) (reason : Z)
  | CallStart (id : nat) | CallCycle (id : nat) | CallStop (id : nat)
  | TwdtAdd | TwdtReset | TwdtDelete
  | NotifyTask (handle : nat).

Definition slot_zero : tm_slot_t :=
  mk_slot false "" false false false 0 0 0 0 0 0 false None None false TM_STATE_UNUSED 0 false.

Definition tm_zero : tm_state := mk_tm (replicate TASK_MANAGER_MAX_TASKS slot_zero) false [] [] 0.

(** ** The API *)

Definition id_valid (id : nat) : bool := (id <? TASK_MANAGER_MAX_TASKS)%nat.

Definition put_slot (s : tm_state) (id : nat) (sl : tm_slot_t) : tm_state :=
  s <| tm_slots := <[id := sl]> (tm_slots s) |>.

(** The slot of an identifier ([s_astSlots] is a static array of eight). *)
Definition slot (s : tm_state) (id : nat) : tm_slot_t := default slot_zero (tm_slots s !! id).

Definition tm_init (s : tm_state) (created : bool) : esp_err * tm_state :=
  if tm_lock s then (ESP_ERR_INVALID_STATE, s)
  else (if created then ESP_OK else ESP_ERR_NO_MEM,
        s <| tm_slots := replicate TASK_MANAGER_MAX_TASKS slot_zero |> <| tm_lock := created |>).

Section ticks.
(** The tick conversion and the name length of the FreeRTOS configuration. *)
Variable pdMS_TO_TICKS : Z → Z.
Variable configMAX_TASK_NAME_LEN : nat.

Definition tm_register_periodic (s : tm_state) (id : nat) (def : option tm_periodic_task_def_t)
    (sem_ok : bool) : esp_err * tm_state :=
  if negb (id_valid id) then (ESP_ERR_INVALID_ARG, s) else
  match def with
  | None => (ESP_ERR_INVALID_ARG, s)
  | Some d =>
      match td_name d with
      | None => (ESP_ERR_INVALID_ARG, s)
      | Some name =>
          if negb (td_on_cycle d) then (ESP_ERR_INVALID_ARG, s)
          else if (td_period_ms d =? 0) || (td_stack_size d =? 0) then (ESP_ERR_INVALID_ARG, s)
          else if negb (tm_lock s) then (ESP_ERR_INVALID_STATE, s)
          else if sl_used (slot s id) then (ESP_ERR_INVALID_STATE, s)
          else if negb sem_ok then (ESP_ERR_NO_MEM, put_slot s id slot_zero)
          else
            let ticks := pdMS_TO_TICKS (td_period_ms d) in
            (ESP_OK, put_slot s id
               (mk_slot true (String.substring 0 (configMAX_TASK_NAME_LEN - 1) name)
                  (td_on_start d) (td_on_cycle d) (td_on_stop d) (td_period_ms d)
                  (if ticks =? 0 then 1 else ticks) (td_max_runtime_ms d) (td_stack_size d)
                  (td_priority d) (td_core_id d) (td_twdt d) None (Some false) false
                  TM_STATE_REGISTERED 0 false))
      end
  end.
End ticks.

(** [created]: the task creation succeeds; the new task then waits for the lock. *)
Definition tm_start (s : tm_state) (id : nat) (created : bool) : esp_err * tm_state :=
  if negb (id_valid id) then (ESP_ERR_INVALID_ARG, s)
  else if negb (tm_lock s) then (ESP_ERR_INVALID_STATE, s)
  else
    let sl := slot s id in
    if negb (sl_used sl) || bool_decide (is_Some (sl_task sl)) then (ESP_ERR_INVALID_STATE, s)
    else
      let sl := sl <| sl_stop_requested := false |> <| sl_finished := Some false |> in
      if negb created
      then (ESP_ERR_NO_MEM,
            put_slot s id (sl <| sl_task := None |> <| sl_state := TM_STATE_STOPPED |>))
      else
        let h := tm_next s in
        (ESP_OK, (put_slot s id (sl <| sl_task := Some h |>))
                   <| tm_tasks := tm_tasks s ++ [mk_wrapper h id WBegin] |> <| tm_next := S h |>).

(** The locked part of [tm_stop]: it answers, or the caller goes on to notify and
    wait. *)
Definition tm_stop_request (s : tm_state) (id : nat) : option esp_err * tm_state :=
  if negb (id_valid id) then (Some ESP_ERR_INVALID_ARG, s)
  else if negb (tm_lock s) then (Some ESP_ERR_INVALID_STATE, s)
  else
    let sl := slot s id in
    if negb (sl_used sl) then (Some ESP_ERR_INVALID_STATE, s)
    else match sl_task sl with
         | None => (Some ESP_OK, s)
         | Some h =>
             (None, (put_slot s id (sl <| sl_state := TM_STATE_STOPPING |>
                                       <| sl_stop_requested := true |>))
                      <| tm_stoppers := tm_stoppers s ++ [SNotify id h] |>)
         end.

(** [xTaskNotify] of the captured handle. *)
Definition tm_stop_notify (s : tm_state) (k : nat) : tm_state * list tm_action :=
  match tm_stoppers s !! k with
  | Some (SNotify id h) =>
      (s <| tm_stoppers := <[k := SWait id]> (tm_stoppers s) |>, [NotifyTask h])
  | _ => (s, [])
  end.

(** The end of the wait: with the token, or by timeout. *)
Definition tm_stop_wait (s : tm_state) (k : nat) (timeout : bool) : option esp_err * tm_state :=
  match tm_stoppers s !! k with
  | Some (SWait id) =>
      let s' := s <| tm_stoppers := delete k (tm_stoppers s) |> in
      if timeout then (Some ESP_ERR_TIMEOUT, s')
      else if bool_decide (sl_finished (slot s id) = Some true)
      then (Some ESP_OK, put_slot s' id ((slot s id) <| sl_finished := Some false |>))
      else (None, s)
  | _ => (None, s)
  end.

(** ** The task *)

(** One step of the wrapper [k]; [dt_us] is the measured cycle time and
    [free_words] the stack watermark, when the step runs a cycle. *)
Definition wrapper_step (s : tm_state) (k : nat) (dt_us free_words : Z)
    : tm_state * list tm_action :=
  match tm_tasks s !! k with
  | None => (s, [])
  | Some w =>
      let id := w_slot w in
      let sl := slot s id in
      let goto pc := s <| tm_tasks := <[k := mk_wrapper (w_handle w) id pc]> (tm_tasks s) |> in
      match w_pc w with
      | WBegin =>
          (put_slot (goto WLoop) id (sl <| sl_state := TM_STATE_RUNNING |>),
           (if sl_twdt sl then [TwdtAdd] else []) ++ (if sl_on_start sl then [CallStart id] else [])
           ++ [PublishTask EVT_TASK_STARTED id 0])
      | WLoop =>
          if sl_stop_requested sl then
            (goto WFinish,
             (if sl_on_stop sl then [CallStop id] else []) ++ (if sl_twdt sl then [TwdtDelete] else [])
             ++ [PublishTask EVT_TASK_STOPPED id 0])
          else
            let dt := u32 (Z.quot dt_us 1000) in
            let overrun := negb (sl_max_runtime_ms sl =? 0) && (sl_max_runtime_ms sl <? dt) in
            let low := (free_words <? TM_STACK_LOW_WATERMARK_WORDS) && negb (sl_stack_warned sl) in
            let sl := sl <| sl_last_cycle_ms := dt |> in
            let sl := if low then sl <| sl_stack_warned := true |> else sl in
            (put_slot s id sl,
             (if sl_on_cycle sl then [CallCycle id] else [])
             ++ (if overrun then [PublishTask EVT_TASK_CYCLE_OVERRUN id (i32 dt)] else [])
             ++ (if low then [PublishTask EVT_TASK_STACK_LOW id (i32 free_words)] else [])
             ++ (if sl_twdt sl then [TwdtReset] else []))
      | WFinish =>
          (put_slot (goto WGive) id (sl <| sl_task := None |> <| sl_stop_requested := false |>
                                        <| sl_state := TM_STATE_STOPPED |>), [])
      | WGive =>
          (put_slot (s <| tm_tasks := delete k (tm_tasks s) |>) id (sl <| sl_finished := Some true |>), [])
      end
  end.

(** ** The remaining API *)

(** [tm_start_all] stops at the first error. *)
Fixpoint start_from (s : tm_state) (ids : list nat) (created : nat → bool) : esp_err * tm_state :=
  match ids with
  | [] => (ESP_OK, s)
  | id :: ids =>
      if negb (sl_used (slot s id)) then start_from s ids created else
      match tm_start s id (created id) with
      | (ESP_OK, s) => start_from s ids created
      | (err, s) => (err, s)
      end
  end.

Definition tm_start_all (s : tm_state) (created : nat → bool) : esp_err * tm_state :=
  start_from s (seq 0 TASK_MANAGER_MAX_TASKS) created.

(** The loop of [tm_stop_all]; [tm_stop]: the blocking call, with whatever the other
    tasks do before it answers. *)
Fixpoint stop_from (tm_stop : tm_state → nat → esp_err * tm_state) (s : tm_state) (ids : list nat) : esp_err * tm_state :=
  match ids with
  | [] => (ESP_OK, s)
  | id :: ids =>
      if negb (sl_used (slot s id)) then stop_from tm_stop s ids else
      match tm_stop s id with
      | (ESP_OK, s) => stop_from tm_stop s ids
      | (err, s) => (err, s)
      end
  end.

Definition tm_stop_all (tm_stop : tm_state → nat → esp_err * tm_state) (s : tm_state) : esp_err * tm_state :=
  stop_from tm_stop s (seq 0 TASK_MANAGER_MAX_TASKS).

(** The context is the task's identifier, or null. *)
Definition tm_should_stop (s : tm_state) (ctx : option nat) : bool :=
  match ctx with
  | Some id => if id_valid id then sl_stop_requested (slot s id) else true
  | None => true
  end.

Definition tm_get_id (ctx : option nat) : nat := default TASK_MANAGER_MAX_TASKS ctx.

Definition tm_get_handle (s : tm_state) (id : nat) : option nat :=
  if id_valid id then sl_task (slot s id) else None.

Definition tm_get_state (s : tm_state) (id : nat) : tm_task_state_t :=
  if id_valid id then sl_state (slot s id) else TM_STATE_UNUSED.

Definition tm_get_last_cycle_ms (s : tm_state) (id : nat) : Z :=
  if id_valid id then sl_last_cycle_ms (slot s id) else 0.

(** [uxTaskGetStackHighWaterMark] of the slot's task. *)
Definition tm_get_stack_watermark (s : tm_state) (id : nat) (mark : nat → Z) : Z :=
  if negb (id_valid id) then 0
  else match sl_task (slot s id) with Some h => mark h | None => 0 end.

(** ** Executions *)

Inductive tm_op :=
  | TInit (created : bool)
  | TRegister (id : nat) (def : option tm_periodic_task_def_t) (sem_ok : bool)
  | TStart (id : nat) (created : bool)
  | TStop (id : nat)
  | TNotify (k : nat)
  | TWait (k : nat) (timeout : bool)
  | TWrap (k : nat) (dt_us free_words : Z).

Section executions.
Variable pdMS_TO_TICKS : Z → Z.
Variable configMAX_TASK_NAME_LEN : nat.

Definition tm_step (s : tm_state) (op : tm_op) : tm_state :=
  match op with
  | TInit c => (tm_init s c).2
  | TRegister id d ok => (tm_register_periodic pdMS_TO_TICKS configMAX_TASK_NAME_LEN s id d ok).2
  | TStart id c => (tm_start s id c).2
  | TStop id => (tm_stop_request s id).2
  | TNotify k => (tm_stop_notify s k).1
  | TWait k t => (tm_stop_wait s k t).2
  | TWrap k dt fw => (wrapper_step s k dt fw).1
  end.

(** Any interleaving of callers and tasks. *)
Definition tm_run (ops : list tm_op) : tm_state := foldl tm_step tm_zero ops.

(** The handles of the tasks of slot [id] that have not retired. *)
Definition live_of (id : nat) (w : wrapper) : option nat :=
  if bool_decide (w_slot w = id) && negb (bool_decide (w_pc w = WGive))
  then Some (w_handle w) else None.

Definition live_handles (s : tm_state) (id : nat) : list nat := omap (live_of id) (tm_tasks s).

Record tm_inv (s : tm_state) : Prop := {
  ti_len : length (tm_slots s) = TASK_MANAGER_MAX_TASKS;
  ti_slots : Forall (λ w, (w_slot w < TASK_MANAGER_MAX_TASKS)%nat) (tm_tasks s);
  ti_lock : tm_lock s = false → tm_tasks s = [];
  ti_unused : ∀ id, sl_used (slot s id) = false → sl_task (slot s id) = None;
  ti_live : ∀ id, live_handles s id = option_list (sl_task (slot s id))
}.

Lemma slot_put s i j x :
  length (tm_slots s) = TASK_MANAGER_MAX_TASKS → (i < TASK_MANAGER_MAX_TASKS)%nat →
  slot (put_slot s i x) j = if decide (i = j) then x else slot s j.
Proof.
  intros Hl Hi. unfold slot, put_slot. cbn. case_decide as E.
  - subst. rewrite list_lookup_insert_eq by lia. done.
  - by rewrite list_lookup_insert_ne.
Qed.

Lemma omap_cons_eq {A B} (f : A → option B) x (l : list A) :
  omap f (x :: l) = match f x with Some y => y :: omap f l | None => omap f l end.
Proof. done. Qed.

Lemma omap_insert_same {A B} (f : A → option B) (l : list A) : ∀ k x y,
  l !! k = Some x → f y = f x → omap f (<[k := y]> l) = omap f l.
Proof.
  induction l as [|a l IH]; intros [|k] x y Hk Hf; try done.
  - injection Hk as ->. change (<[0%nat:=y]> (x :: l)) with (y :: l). by rewrite !omap_cons_eq, Hf.
  - change (<[S k:=y]> (a :: l)) with (a :: <[k:=y]> l). by rewrite !omap_cons_eq, (IH k x y).
Qed.

Lemma omap_delete_none {A B} (f : A → option B) (l : list A) : ∀ k x,
  l !! k = Some x → f x = None → omap f (delete k l) = omap f l.
Proof.
  induction l as [|a l IH]; intros [|k] x Hk Hf; try done.
  - injection Hk as ->. change (delete 0%nat (x :: l)) with l. by rewrite omap_cons_eq, Hf.
  - change (delete (S k) (a :: l)) with (a :: delete k l). by rewrite !omap_cons_eq, (IH k x).
Qed.

Lemma omap_lookup_nonnil {A B} (f : A → option B) (l : list A) : ∀ k x,
  l !! k = Some x → is_Some (f x) → omap f l ≠ [].
Proof.
  induction l as [|a l IH]; intros [|k] x Hk [b Hb]; try done; rewrite omap_cons_eq.
  - injection Hk as ->. by rewrite Hb.
  - destruct (f a); [done|]. by apply (IH k x).
Qed.

(** Taking the only selected element out of the selection. *)
Lemma omap_single_insert {A B} (f : A → option B) (l : list A) b : ∀ k x y,
  omap f l = [b] → l !! k = Some x → is_Some (f x) → f y = None → omap f (<[k := y]> l) = [].
Proof.
  induction l as [|a l IH]; intros [|k] x y Hl Hk Hx Hf; try done; rewrite omap_cons_eq in Hl.
  - injection Hk as ->. destruct Hx as [c Hc]. rewrite Hc in Hl.
    change (<[0%nat:=y]> (x :: l)) with (y :: l). rewrite omap_cons_eq, Hf. by injection Hl.
  - change (<[S k:=y]> (a :: l)) with (a :: <[k:=y]> l). rewrite omap_cons_eq.
    destruct (f a); [|by apply (IH k x)]. injection Hl as _ Hl.
    by apply (omap_lookup_nonnil f l k x) in Hl.
Qed.

Lemma id_valid_lt id : id_valid id = true ↔ (id < TASK_MANAGER_MAX_TASKS)%nat.
Proof. unfold id_valid. apply Nat.ltb_lt. Qed.

(** Updates that keep the handle of the slot. *)
Lemma put_frame s id sl :
  tm_inv s → (id < TASK_MANAGER_MAX_TASKS)%nat → sl_task sl = sl_task (slot s id) →
  (sl_used sl = false → sl_used (slot s id) = false) → tm_inv (put_slot s id sl).
Proof.
  intros [Hl Hs Hlk Hu Hlv] Hid Ht Hus. split; try done.
  - cbn. by rewrite length_insert.
  - intros j. rewrite slot_put by done. case_decide as E; [|apply Hu].
    intros Hx. rewrite Ht. apply Hu. auto.
  - intros j. rewrite slot_put by done. case_decide as E; [|apply Hlv].
    subst j. rewrite Ht. apply Hlv.
Qed.

Lemma tasks_frame s ws :
  tm_inv s → Forall (λ w, (w_slot w < TASK_MANAGER_MAX_TASKS)%nat) ws →
  (tm_lock s = false → ws = []) →
  (∀ id, omap (live_of id) ws = omap (live_of id) (tm_tasks s)) → tm_inv (s <| tm_tasks := ws |>).
Proof.
  intros [Hl Hs Hlk Hu Hlv] Hws Hlk' He. split; try done.
  intros j. unfold live_handles in *. cbn. rewrite He. apply Hlv.
Qed.

Lemma task_slot_lt s k w :
  tm_inv s → tm_tasks s !! k = Some w → (w_slot w < TASK_MANAGER_MAX_TASKS)%nat.
Proof. intros Hs Hw. exact (Forall_lookup_1 _ _ _ _ (ti_slots s Hs) Hw). Qed.

(** A task moves on inside its life. *)
Lemma goto_inv s k w pc :
  tm_inv s → tm_tasks s !! k = Some w → w_pc w ≠ WGive → pc ≠ WGive →
  tm_inv (s <| tm_tasks := <[k := mk_wrapper (w_handle w) (w_slot w) pc]> (tm_tasks s) |>).
Proof.
  intros Hs Hw H1 H2. apply tasks_frame; [done| | |].
  - apply Forall_insert; [apply ti_slots, Hs|exact (task_slot_lt s k w Hs Hw)].
  - intros Hlk. rewrite (ti_lock s Hs Hlk) in Hw. done.
  - intros id. apply (omap_insert_same _ _ _ w); [done|]. unfold live_of. cbn.
    by rewrite !(bool_decide_false (_ = WGive)) by done.
Qed.

Lemma wrapper_step_inv s k dt fw : tm_inv s → tm_inv (wrapper_step s k dt fw).1.
Proof.
  intros Hs. unfold wrapper_step. destruct (tm_tasks s !! k) as [w|] eqn:Hw; [|done].
  pose proof (task_slot_lt s k w Hs Hw) as Hid.
  destruct (w_pc w) eqn:Epc; cbn [fst].
  - apply put_frame; [apply goto_inv; [done..|by rewrite Epc|done]|done|done|done].
  - destruct (sl_stop_requested _); cbn [fst].
    + apply goto_inv; [done..|by rewrite Epc|done].
    + destruct (_ && _); apply put_frame; done.
  - (* the handle is cleared *)
    pose proof Hs as [Hl Hsl Hlk Hu Hlv].
    assert (is_Some (live_of (w_slot w) w)) as Hlive.
    { unfold live_of. rewrite bool_decide_true, bool_decide_false by (done || by rewrite Epc).
      by eexists. }
    assert (∀ j, live_of j (mk_wrapper (w_handle w) (w_slot w) WGive) = None) as Hdead.
    { intros j. unfold live_of. cbn. rewrite (bool_decide_true (WGive = WGive)) by done.
      by rewrite andb_false_r. }
    split.
    + cbn. by rewrite length_insert.
    + cbn. by apply Forall_insert.
    + intros Hx. cbn in *. rewrite (Hlk Hx) in Hw. done.
    + intros j. rewrite slot_put by done. case_decide; [done|apply Hu].
    + intros j. rewrite slot_put by done. unfold live_handles in *. cbn [tm_tasks put_slot put_field set_tm_slots].
      case_decide as E.
      * subst j. cbn [sl_task put_field set_sl_state set_sl_stop_requested set_sl_task option_list].
        specialize (Hlv (w_slot w)).
        destruct (sl_task (slot s (w_slot w))) as [h|]; cbn in Hlv.
        -- by apply (omap_single_insert _ _ h k w).
        -- by apply (omap_lookup_nonnil _ _ k w) in Hlv.
      * etransitivity; [|apply Hlv]. apply (omap_insert_same _ _ _ w); [done|].
        rewrite Hdead. unfold live_of. by rewrite bool_decide_false by (intros Hx; by apply E).
  - apply put_frame; [|done|done|done].
    apply tasks_frame; [done| | |].
    + apply Forall_delete, Hs.
    + intros Hx. by rewrite (ti_lock s Hs Hx) in Hw.
    + intros id. apply (omap_delete_none _ _ _ w); [done|]. unfold live_of.
      rewrite Epc, (bool_decide_true (WGive = WGive)) by done. by rewrite andb_false_r.
Qed.

Lemma start_inv s id c : tm_inv s → tm_inv (tm_start s id c).2.
Proof.
  intros Hs. unfold tm_start. destruct (id_valid id) eqn:Hv; [|done]. cbn [negb].
  apply id_valid_lt in Hv. destruct (tm_lock s) eqn:Hlk; [|done]. cbn [negb].
  destruct (sl_used (slot s id)) eqn:Hused; [|done]. cbn [negb orb].
  destruct (sl_task (slot s id)) as [h|] eqn:Ht; [done|]. cbn [is_Some].
  rewrite bool_decide_false by (intros [? ?]; done).
  destruct c; cbn [negb snd].
  - pose proof Hs as [Hl Hsl Hlk' Hu Hlv]. split; try done.
    + cbn. by rewrite length_insert.
    + cbn. apply Forall_app_2; [done|by apply Forall_singleton].
    + cbn. by rewrite Hlk.
    + intros j. change (slot _ j) with (slot (put_slot s id ((slot s id) <| sl_stop_requested := false |>
        <| sl_finished := Some false |> <| sl_task := Some (tm_next s) |>)) j).
      rewrite slot_put by done. case_decide; [cbn; intros Hx; congruence|apply Hu].
    + intros j. change (slot _ j) with (slot (put_slot s id ((slot s id) <| sl_stop_requested := false |>
        <| sl_finished := Some false |> <| sl_task := Some (tm_next s) |>)) j).
      rewrite slot_put by done. unfold live_handles in *. cbn [tm_tasks put_field set_tm_tasks set_tm_next].
      rewrite omap_app. specialize (Hlv j). case_decide as E.
      * subst j. rewrite Ht in Hlv. cbn [tm_tasks put_slot put_field set_tm_slots]. rewrite Hlv.
        cbn. unfold live_of. cbn. by rewrite bool_decide_true.
      * cbn [tm_tasks put_slot put_field set_tm_slots]. rewrite Hlv. cbn. unfold live_of. cbn.
        rewrite bool_decide_false by (intros Hx; by apply E). by rewrite app_nil_r.
  - apply put_frame; [done|done|by rewrite Ht|done].
Qed.

Lemma fresh_slot n id : default slot_zero (replicate n slot_zero !! id) = slot_zero.
Proof.
  destruct (replicate n slot_zero !! id) as [x|] eqn:E; [|done].
  cbn. by apply lookup_replicate in E as [-> _].
Qed.

(** Nothing is used before the initialisation. *)
Lemma fresh_inv s :
  tm_slots s = replicate TASK_MANAGER_MAX_TASKS slot_zero → tm_tasks s = [] → tm_inv s.
Proof.
  intros Es Et. assert (∀ id, slot s id = slot_zero) as Hz
    by (intros id; unfold slot; rewrite Es; apply fresh_slot).
  split.
  - by rewrite Es, length_replicate.
  - by rewrite Et.
  - done.
  - intros id. by rewrite Hz.
  - intros id. unfold live_handles. by rewrite Hz, Et.
Qed.

Lemma tm_step_inv s op : tm_inv s → tm_inv (tm_step s op).
Proof.
  intros Hs. destruct op as [c|id d ok|id c|id|k|k t|k dt fw]; cbn [tm_step].
  - unfold tm_init. destruct (tm_lock s) eqn:Hlk; [done|]. cbn [snd].
    by apply fresh_inv, (ti_lock s Hs Hlk).
  - unfold tm_register_periodic. destruct (id_valid id) eqn:Hv; [|done]. cbn [negb].
    apply id_valid_lt in Hv. destruct d as [d|]; [|done]. destruct (td_name d) as [name|]; [|done].
    destruct (negb (td_on_cycle d)); [done|]. destruct (_ || _); [done|].
    destruct (tm_lock s); [|done]. cbn [negb].
    destruct (sl_used (slot s id)) eqn:Hu; [done|]. pose proof (ti_unused s Hs id Hu) as Ht.
    destruct ok; apply put_frame; done.
  - by apply start_inv.
  - unfold tm_stop_request. destruct (id_valid id) eqn:Hv; [|done]. cbn [negb].
    apply id_valid_lt in Hv. destruct (tm_lock s); [|done]. cbn [negb].
    destruct (sl_used (slot s id)) eqn:Hu; [|done]. cbn [negb].
    destruct (sl_task (slot s id)) as [h|] eqn:Ht; [|done]. cbn [snd].
    assert (tm_inv (put_slot s id ((slot s id) <| sl_state := TM_STATE_STOPPING |>
              <| sl_stop_requested := true |>))) as H by (apply put_frame; done).
    by destruct H.
  - unfold tm_stop_notify. destruct (tm_stoppers s !! k) as [[]|]; [|done..]. by destruct Hs.
  - unfold tm_stop_wait. destruct (tm_stoppers s !! k) as [[|id]|]; [done| |done].
    destruct t; [by destruct Hs|]. case_bool_decide as Hf; [|done]. cbn [snd].
    assert (id < TASK_MANAGER_MAX_TASKS)%nat as Hid.
    { unfold slot in Hf. destruct (tm_slots s !! id) eqn:E; [|done].
      apply lookup_lt_Some in E. by rewrite (ti_len s Hs) in E. }
    apply put_frame; [by destruct Hs|done|done|done].
  - by apply wrapper_step_inv.
Qed.

Lemma tm_run_inv ops : tm_inv (tm_run ops).
Proof.
  unfold tm_run. assert (tm_inv tm_zero) as H0 by (by apply fresh_inv).
  revert H0. generalize tm_zero. induction ops as [|op ops IH]; intros s Hs; [done|].
  cbn [foldl]. by apply IH, tm_step_inv.
Qed.

(** ** Properties *)

(** One task per slot: in any interleaving of callers and tasks, the tasks of
    a slot that have not retired are exactly the one whose handle the slot
    holds, so two tasks never run the callbacks of the same slot. *)
Theorem tm_one_task_per_slot ops id :
  live_handles (tm_run ops) id = option_list (tm_get_handle (tm_run ops) id) ∧
  (length (live_handles (tm_run ops) id) <= 1)%nat.
Proof.
  pose proof (tm_run_inv ops) as Hs.
  assert (live_handles (tm_run ops) id = option_list (tm_get_handle (tm_run ops) id)) as ->.
  { rewrite (ti_live _ Hs). unfold tm_get_handle. destruct (id_valid id) eqn:Hv; [done|].
    unfold id_valid in Hv. apply Nat.ltb_ge in Hv. unfold slot.
    by rewrite lookup_ge_None_2 by (rewrite (ti_len _ Hs); lia). }
  split; [done|]. destruct (tm_get_handle _ _); cbn; lia.
Qed.

(** No task of slot [id] stands between releasing the lock and giving the
    semaphore. *)
Definition none_giving (s : tm_state) (id : nat) : Prop :=
  Forall (λ w, w_slot w = id → w_pc w ≠ WGive) (tm_tasks s).

(** Every start waits until the previous task of the slot has given its
    semaphore. *)
Fixpoint quiet_starts (s : tm_state) (ops : list tm_op) : Prop :=
  match ops with
  | [] => True
  | op :: ops =>
      match op with TStart id _ => none_giving s id | _ => True end ∧
      quiet_starts (tm_step s op) ops
  end.

Record tm_quiet (s : tm_state) : Prop := {
  tq_inv : tm_inv s;
  tq_token : ∀ id, is_Some (sl_task (slot s id)) →
    sl_finished (slot s id) ≠ Some true ∧ none_giving s id
}.

(** Updates of a slot that keep the handle and do not give the token. *)
Lemma put_quiet s id sl :
  tm_quiet s → (id < TASK_MANAGER_MAX_TASKS)%nat → sl_task sl = sl_task (slot s id) →
  (sl_used sl = false → sl_used (slot s id) = false) →
  (is_Some (sl_task sl) → sl_finished sl ≠ Some true) → tm_quiet (put_slot s id sl).
Proof.
  intros [Hi Ht] Hid Hh Hu Hf. split; [by apply put_frame|].
  intros j. rewrite slot_put by (done || apply Hi). case_decide as E; [|apply Ht].
  subst j. intros Hx. split; [by apply Hf|]. rewrite Hh in Hx. by apply Ht in Hx as [_ Hx].
Qed.

Lemma goto_quiet s k w pc :
  tm_quiet s → tm_tasks s !! k = Some w → w_pc w ≠ WGive → pc ≠ WGive →
  tm_quiet (s <| tm_tasks := <[k := mk_wrapper (w_handle w) (w_slot w) pc]> (tm_tasks s) |>).
Proof.
  intros [Hi Ht] Hw H1 H2. split; [by apply goto_inv|].
  intros j Hj. destruct (Ht j Hj) as [Hf Hg]. split; [done|]. unfold none_giving in *. cbn.
  by apply Forall_insert.
Qed.

Lemma wrapper_step_quiet s k dt fw : tm_quiet s → tm_quiet (wrapper_step s k dt fw).1.
Proof.
  intros Hq. pose proof (tq_inv s Hq) as Hs. pose proof (wrapper_step_inv s k dt fw Hs) as Hs'.
  unfold wrapper_step in *. destruct (tm_tasks s !! k) as [w|] eqn:Hw; [|done].
  pose proof (task_slot_lt s k w Hs Hw) as Hid.
  assert (is_Some (sl_task (slot s (w_slot w))) → sl_finished (slot s (w_slot w)) ≠ Some true) as Hnt
    by (intros Hx; by apply (tq_token s Hq) in Hx as [? _]).
  destruct (w_pc w) eqn:Epc; cbn [fst] in *.
  - apply put_quiet; [apply goto_quiet; [done..|by rewrite Epc|done]|done|done|done|exact Hnt].
  - destruct (sl_stop_requested _); cbn [fst] in *.
    + apply goto_quiet; [done..|by rewrite Epc|done].
    + destruct (_ && _); apply put_quiet; done.
  - split; [exact Hs'|]. intros j. rewrite slot_put by (done || apply Hs).
    case_decide as E; [by intros [? ?]|]. intros Hj.
    destruct (tq_token s Hq j Hj) as [Hf Hg]. split; [done|]. unfold none_giving in *. cbn.
    apply Forall_insert; [done|]. cbn. intros; by exfalso.
  - split; [exact Hs'|]. intros j. rewrite slot_put by (done || apply Hs).
    case_decide as E.
    + cbn. intros Hj. exfalso. apply (tq_token s Hq) in Hj as [_ Hg].
      exact (Forall_lookup_1 _ _ _ _ Hg Hw eq_refl Epc).
    + intros Hj. destruct (tq_token s Hq j Hj) as [Hf Hg]. split; [done|].
      unfold none_giving in *. cbn. by apply Forall_delete.
Qed.

Lemma tm_step_quiet s op :
  tm_quiet s → (match op with TStart id _ => none_giving s id | _ => True end) →
  tm_quiet (tm_step s op).
Proof.
  intros Hq Hop. pose proof (tq_inv s Hq) as Hs. pose proof (tm_step_inv s op Hs) as Hs'.
  destruct op as [c|id d ok|id c|id|k|k t|k dt fw]; cbn [tm_step] in *.
  - unfold tm_init in *. destruct (tm_lock s) eqn:Hlk; [done|]. cbn [snd] in *.
    split; [done|]. intros j. unfold slot. cbn [tm_slots put_field set_tm_slots set_tm_lock].
    rewrite fresh_slot. by intros [? ?].
  - unfold tm_register_periodic in *. destruct (id_valid id) eqn:Hv; [|done]. cbn [negb] in *.
    apply id_valid_lt in Hv. destruct d as [d|]; [|done]. destruct (td_name d) as [name|]; [|done].
    destruct (negb (td_on_cycle d)); [done|]. destruct (_ || _); [done|].
    destruct (tm_lock s); [|done]. cbn [negb] in *.
    destruct (sl_used (slot s id)) eqn:Hu; [done|]. pose proof (ti_unused s Hs id Hu) as Ht.
    destruct ok; apply put_quiet; done.
  - unfold tm_start in *. destruct (id_valid id) eqn:Hv; [|done]. cbn [negb] in *.
    apply id_valid_lt in Hv. destruct (tm_lock s); [|done]. cbn [negb] in *.
    destruct (negb (sl_used _) || _) eqn:Hb; [done|]. apply orb_false_iff in Hb as [Hu Hb].
    apply bool_decide_eq_false in Hb. apply negb_false_iff in Hu.
    destruct c; cbn [negb snd] in *.
    + split; [done|]. intros j.
      change (slot _ j) with (slot (put_slot s id ((slot s id) <| sl_stop_requested := false |>
        <| sl_finished := Some false |> <| sl_task := Some (tm_next s) |>)) j).
      rewrite slot_put by (done || apply Hs). unfold none_giving in *. cbn [tm_tasks put_slot put_field set_tm_slots set_tm_tasks set_tm_next].
      case_decide as E.
      * subst j. intros _. split; [done|]. apply Forall_app_2; [done|]. by apply Forall_singleton.
      * intros Hj. destruct (tq_token s Hq j Hj) as [Hf Hg]. split; [done|].
        apply Forall_app_2; [done|]. by apply Forall_singleton.
    + split; [exact Hs'|]. intros j. rewrite slot_put by (done || apply Hs).
      case_decide as E; [by intros [? ?]|]. apply (tq_token s Hq).
  - unfold tm_stop_request in *. destruct (id_valid id) eqn:Hv; [|done]. cbn [negb] in *.
    apply id_valid_lt in Hv. destruct (tm_lock s); [|done]. cbn [negb] in *.
    destruct (sl_used (slot s id)) eqn:Hu; [|done]. cbn [negb] in *.
    destruct (sl_task (slot s id)) as [h|] eqn:Ht; [|done]. cbn [snd] in *.
    assert (tm_quiet (put_slot s id ((slot s id) <| sl_state := TM_STATE_STOPPING |>
              <| sl_stop_requested := true |>))) as [_ H].
    { apply put_quiet; try done. intros Hx. by apply (tq_token s Hq) in Hx as [? _]. }
    split; [done|exact H].
  - unfold tm_stop_notify in *. destruct (tm_stoppers s !! k) as [[]|]; [|done..].
    split; [done|exact (tq_token s Hq)].
  - unfold tm_stop_wait in *. destruct (tm_stoppers s !! k) as [[|id]|]; [done| |done].
    destruct t; [split; [done|exact (tq_token s Hq)]|].
    case_bool_decide as Hf; [|done]. cbn [snd] in *.
    assert (id < TASK_MANAGER_MAX_TASKS)%nat as Hid.
    { unfold slot in Hf. destruct (tm_slots s !! id) eqn:E; [|done].
      apply lookup_lt_Some in E. by rewrite (ti_len s Hs) in E. }
    apply put_quiet; try done. split; [by destruct Hs|exact (tq_token s Hq)].
  - by apply wrapper_step_quiet.
Qed.

Lemma quiet_run ops : ∀ s, tm_quiet s → quiet_starts s ops → tm_quiet (foldl tm_step s ops).
Proof.
  induction ops as [|op ops IH]; intros s Hs Hq; [done|]. destruct Hq as [H1 H2].
  cbn [foldl]. apply IH; [by apply tm_step_quiet|done].
Qed.

(** A successful stop means stopped, provided that no start happens while the
    previous task of the slot has still to give its semaphore: when the wait of
    [tm_stop] returns ESP_OK, the slot has no task any more, so none of its
    callbacks runs or will run. *)
Theorem tm_stop_ok_means_stopped ops k id :
  quiet_starts tm_zero ops → tm_stoppers (tm_run ops) !! k = Some (SWait id) →
  (tm_stop_wait (tm_run ops) k false).1 = Some ESP_OK →
  tm_get_handle (tm_run ops) id = None ∧ live_handles (tm_run ops) id = [].
Proof.
  intros Hq Hk Hok.
  assert (tm_quiet tm_zero) as H0.
  { split; [by apply fresh_inv|]. intros j. unfold slot, tm_zero. cbn [tm_slots].
    rewrite fresh_slot. by intros [? ?]. }
  pose proof (quiet_run ops tm_zero H0 Hq) as [Hi Ht]. fold (tm_run ops) in Hi, Ht.
  unfold tm_stop_wait in Hok. rewrite Hk in Hok. case_bool_decide as Hf; [|done].
  assert (sl_task (slot (tm_run ops) id) = None) as Hn.
  { destruct (sl_task (slot (tm_run ops) id)) eqn:E; [|done].
    exfalso. destruct (Ht id) as [Hc _]; [by rewrite E|]. by apply Hc. }
  split.
  - unfold tm_get_handle. rewrite Hn. by destruct (id_valid id).
  - by rewrite (ti_live _ Hi), Hn.
Qed.
End executions.

(** A registered task that is started, told to stop and finishes. *)
Definition example_def : tm_periodic_task_def_t :=
  mk_task_def (Some "pump"%string) false true false 200 0 4096 5 0 true.

Definition example_ops : list tm_op :=
  [TInit true; TRegister 0 (Some example_def) true; TStart 0 true; TWrap 0 0 500; TWrap 0 1500 500;
   TStop 0; TNotify 0; TWrap 0 0 500; TWrap 0 0 500; TWrap 0 0 500].

Lemma tm_stop_ok_means_stopped_witness :
  let s := tm_run (λ ms, ms) 16 example_ops in
  (tm_stop_wait s 0 false).1 = Some ESP_OK ∧
  tm_get_handle s 0 = None ∧ live_handles s 0 = [].
Proof.
  split; [vm_compute; reflexivity|].
  apply (tm_stop_ok_means_stopped (λ ms, ms) 16 example_ops 0 0).
  - cbn -[tm_step]. repeat split. unfold none_giving. cbn. by constructor.
  - vm_compute. reflexivity.
  - vm_compute. reflexivity.
Defined.

(** Two races of [tm_stop].  A start that slips between a retiring task's
    release of the lock and its giving of the semaphore leaves a stale token: the
    next [tm_stop] returns ESP_OK while the new task is in its loop.  And a task
    that ends between the locked part of [tm_stop] and its [xTaskNotify] makes
    the notification go to a handle that no task has any more. *)
Theorem tm_stop_races :
  (∃ ops h, let s := tm_run (λ ms, ms) 16 ops in
     (tm_stop_wait s 0 false).1 = Some ESP_OK ∧ tm_tasks s = [mk_wrapper h 0 WLoop] ∧
     tm_get_state s 0 = TM_STATE_STOPPING) ∧
  (∃ ops h, let s := tm_run (λ ms, ms) 16 ops in
     (tm_stop_notify s 0).2 = [NotifyTask h] ∧ h ∉ (w_handle <$> tm_tasks s)).
Proof.
  split.
  - exists [TInit true; TRegister 0 (Some example_def) true; TStart 0 true; TWrap 0 0 500;
            TStop 0; TNotify 0; TWait 0 true; TWrap 0 0 500; TWrap 0 0 500;
            TStart 0 true; TWrap 0 0 500; TWrap 0 0 500; TStop 0; TNotify 0], 1%nat.
    vm_compute. done.
  - exists [TInit true; TRegister 0 (Some example_def) true; TStart 0 true; TWrap 0 0 500;
            TStop 0; TWrap 0 0 500; TWrap 0 0 500; TWrap 0 0 500], 0%nat.
    split; [vm_compute; reflexivity|]. vm_compute. intros H. inversion H.
Qed.
