(* ===== verification/Float64.v ===== *)
(** * IEEE-754 binary64, conversions and byte formats

    JSON numbers are C [double]s; datapoints hold [float]s and integers.  This
    file instantiates the Standard Library's [SpecFloat] with the parameters of
    binary64 (53, 1024), defines the C conversions between [double], [float] and
    the integers, the binary32 bit pattern, and little-endian byte strings, and
    shows that truncation is monotone. *)

From Stdlib Require Import SpecFloat.
From S2P Require Import Prelude Bytes Float32.

Definition f64 : Type := spec_float.

(** Normalisation in another format: exact from [float] to [double], rounded to
    nearest even from [double] to [float]. *)
Definition sf_convert (prec emax : Z) (a : spec_float) : spec_float :=
  match a with
  | S754_finite s m e => binary_normalize prec emax (cond_Zopp s (Zpos m)) e s
  | _ => a
  end.

Definition f64_of_f32 (a : f32) : f64 := sf_convert 53 1024 a.
Definition f32_of_f64 (a : f64) : f32 := sf_convert 24 128 a.
Definition f64_of_Z (z : Z) : f64 := binary_normalize 53 1024 z 0 false.

Definition f64_lt (a b : f64) : bool := SFltb a b.
Definition f64_valid (a : f64) : bool := valid_binary 53 1024 a.
Definition is_nan (a : spec_float) : bool := bool_decide (a = S754_nan).

(** The conversion to an integer type truncates. *)
Definition f64_trunc (a : f64) : option Z := f32_trunc a.

(** The bit pattern of a [float]. *)
Definition f32_bits (a : f32) : Z :=
  let sign (s : bool) := if s then 2147483648 else 0 in
  match a with
  | S754_zero s => sign s
  | S754_infinity s => sign s + 2139095040
  | S754_nan => 2143289344
  | S754_finite s m e =>
      sign s + (if Zpos m <? 8388608 then Zpos m else (e + 150) * 8388608 + (Zpos m - 8388608))
  end.

Definition f32_of_bits (w : Z) : f32 :=
  let s := 2147483648 <=? w in
  let ex := (w / 8388608) mod 256 in
  let fr := w mod 8388608 in
  if ex =? 255 then (if fr =? 0 then S754_infinity s else S754_nan)
  else if ex =? 0 then match fr with Zpos m => S754_finite s m (-149) | _ => S754_zero s end
  else match fr + 8388608 with Zpos m => S754_finite s m (ex - 150) | _ => S754_nan end.

Arguments f64_of_f32 : simpl never.
Arguments f32_of_f64 : simpl never.
Arguments f64_of_Z : simpl never.
Arguments f64_lt : simpl never.
Arguments f64_trunc : simpl never.
Arguments f32_bits : simpl never.
Arguments f32_of_bits : simpl never.

(** ** Little-endian integers *)

Fixpoint le_put (n : nat) (z : Z) : list Z :=
  match n with
  | O => []
  | S n => z mod 256 :: le_put n (z / 256)
  end.

Fixpoint le_get (l : list Z) : Z :=
  match l with
  | [] => 0
  | b :: l => b + 256 * le_get l
  end.

Lemma length_le_put n : ∀ z, length (le_put n z) = n.
Proof. induction n as [|n IH]; intros z; cbn; [done|by rewrite IH]. Qed.

Lemma le_put_bytes n : ∀ z, Forall is_u8 (le_put n z).
Proof.
  induction n as [|n IH]; intros z; [constructor|]. apply Forall_cons_2; [|apply IH].
  apply Z.mod_pos_bound. lia.
Qed.

Lemma le_get_put n : ∀ z, le_get (le_put n z) = z mod 256 ^ Z.of_nat n.
Proof.
  induction n as [|n IH]; intros z; [symmetry; apply Z.mod_1_r|]. cbn [le_put le_get].
  rewrite IH, Nat2Z.inj_succ, Z.pow_succ_r by lia.
  by rewrite Z.rem_mul_r by (try apply Z.pow_nonzero; lia).
Qed.

Lemma le_get_range l : Forall is_u8 l → 0 <= le_get l < 256 ^ Z.of_nat (length l).
Proof.
  induction 1 as [|b l Hb _ IH]; [cbn; lia|]. cbn [le_get length].
  rewrite Nat2Z.inj_succ, Z.pow_succ_r by lia. unfold is_u8 in Hb. lia.
Qed.

Lemma le_put_get l : Forall is_u8 l → le_put (length l) (le_get l) = l.
Proof.
  induction 1 as [|b l Hb _ IH]; [done|]. cbn [le_get length le_put]. unfold is_u8 in Hb.
  rewrite (Z.mul_comm 256), Z_mod_plus_full, Z.mod_small, Z.div_add, Z.div_small by lia.
  by rewrite Z.add_0_l, IH.
Qed.

(** ** Truncation is monotone *)

(** The value of a finite number in units of the least subnormal. *)
Definition f64_units (a : f64) : option Z :=
  match a with
  | S754_zero _ => Some 0
  | S754_finite s m e => Some (cond_Zopp s (Zpos m * 2 ^ (e + 1074)))
  | _ => None
  end.

Lemma digits2_bounds p :
  2 ^ (Zpos (digits2_pos p) - 1) <= Zpos p < 2 ^ Zpos (digits2_pos p).
Proof.
  induction p as [p IH|p IH|]; cbn [digits2_pos]; [..|cbn; lia].
  all: rewrite Pos2Z.inj_succ; replace (Z.succ (Zpos (digits2_pos p)) - 1)
         with (Z.succ (Zpos (digits2_pos p) - 1)) by lia;
       rewrite !Z.pow_succ_r by lia; lia.
Qed.

Lemma f64_valid_finite s m e :
  f64_valid (S754_finite s m e) = true →
  -1074 <= e ∧ Zpos m < 2 ^ 53 ∧ (-1074 < e → 2 ^ 52 <= Zpos m).
Proof.
  unfold f64_valid, valid_binary, bounded, canonical_mantissa, fexp, emin.
  rewrite andb_true_iff, Z.eqb_eq. intros [He _]. pose proof (digits2_bounds m) as Hm.
  set (d := Zpos (digits2_pos m)) in *. assert (d <= 53) as Hd by lia.
  pose proof (Z.pow_le_mono_r 2 d 53 ltac:(lia) Hd). split_and!; [lia|lia|].
  intros Hlt. assert (d = 53) as Ed by lia. rewrite Ed in Hm. exact (proj1 Hm).
Qed.

Lemma finite_units_lt m1 e1 m2 e2 s1 s2 :
  f64_valid (S754_finite s1 m1 e1) = true → f64_valid (S754_finite s2 m2 e2) = true →
  e1 < e2 → Zpos m1 * 2 ^ (e1 + 1074) <= Zpos m2 * 2 ^ (e2 + 1074).
Proof.
  intros (H1 & H2 & _)%f64_valid_finite (_ & _ & H3)%f64_valid_finite Hlt.
  replace (e2 + 1074) with ((e2 - e1 - 1) + (1 + (e1 + 1074))) by lia.
  rewrite (Z.pow_add_r 2 (e2 - e1 - 1)), (Z.pow_add_r 2 1) by lia.
  pose proof (Z.pow_pos_nonneg 2 (e1 + 1074) ltac:(lia) ltac:(lia)).
  pose proof (Z.pow_pos_nonneg 2 (e2 - e1 - 1) ltac:(lia) ltac:(lia)).
  specialize (H3 ltac:(lia)). generalize dependent (2 ^ (e1 + 1074)). intros p Hp.
  generalize dependent (2 ^ (e2 - e1 - 1)). intros k Hk.
  assert (Zpos m1 <= Zpos m2 * 2) by lia. change (2 ^ 1) with 2.
  transitivity (Zpos m2 * 2 * p); nia.
Qed.

Lemma f64_units_le a b x y :
  f64_valid a = true → f64_valid b = true → SFleb a b = true →
  f64_units a = Some x → f64_units b = Some y → x <= y.
Proof.
  intros Ha Hb Hle Hx Hy.
  destruct a as [| | |s1 m1 e1]; try done; destruct b as [| | |s2 m2 e2]; try done;
    injection Hx as <-; injection Hy as <-; try lia.
  - apply f64_valid_finite in Hb as (? & _). pose proof (Z.pow_pos_nonneg 2 (e2 + 1074)).
    destruct s2; [done|]. cbn. nia.
  - apply f64_valid_finite in Ha as (? & _). pose proof (Z.pow_pos_nonneg 2 (e1 + 1074)).
    destruct s1; [|done]. cbn. nia.
  - pose proof (f64_valid_finite _ _ _ Ha) as (H1 & _). pose proof (f64_valid_finite _ _ _ Hb) as (H2 & _).
    pose proof (Z.pow_pos_nonneg 2 (e1 + 1074) ltac:(lia) ltac:(lia)) as P1.
    pose proof (Z.pow_pos_nonneg 2 (e2 + 1074) ltac:(lia) ltac:(lia)) as P2.
    unfold SFleb in Hle. cbn in Hle. cbn [cond_Zopp].
    destruct s1, s2; cbn [cond_Zopp]; try done; [|nia|].
    + destruct (Z.compare_spec e1 e2) as [E|E|E]; [|done|].
      * subst e2. assert (Zpos m2 <= Zpos m1); [|nia]. change (Pos.compare_cont Eq m1 m2)
          with (Pos.compare m1 m2) in Hle. destruct (Pos.compare_spec m1 m2); [lia|done|lia].
      * pose proof (finite_units_lt m2 e2 m1 e1 _ _ Hb Ha E). lia.
    + destruct (Z.compare_spec e1 e2) as [E|E|E]; [| |done].
      * subst e2. assert (Zpos m1 <= Zpos m2); [|nia]. change (Pos.compare_cont Eq m1 m2)
          with (Pos.compare m1 m2) in Hle. destruct (Pos.compare_spec m1 m2); [lia|lia|done].
      * pose proof (finite_units_lt m1 e1 m2 e2 _ _ Ha Hb E). lia.
Qed.

Lemma f64_trunc_units a x :
  f64_valid a = true → f64_units a = Some x → f64_trunc a = Some (Z.quot x (2 ^ 1074)).
Proof.
  intros Ha Hx. destruct a as [| | |s m e]; try done; injection Hx as <-; [done|].
  apply f64_valid_finite in Ha as (He & _). unfold f64_trunc, f32_trunc. f_equal.
  assert (Z.quot (Zpos m * 2 ^ (e + 1074)) (2 ^ 1074) =
          if 0 <=? e then Zpos m * 2 ^ e else Zpos m / 2 ^ (- e)) as Hq.
  { rewrite Z.quot_div_nonneg by (try apply Z.mul_nonneg_nonneg; try apply Z.pow_nonneg; lia).
    destruct (Z.leb_spec 0 e).
    - rewrite Z.pow_add_r, Z.mul_assoc by lia. apply Z.div_mul. lia.
    - replace (2 ^ 1074) with (2 ^ (- e) * 2 ^ (e + 1074))
        by (rewrite <- Z.pow_add_r by lia; f_equal; lia).
      apply Z.div_mul_cancel_r; apply Z.pow_nonzero; lia. }
  rewrite <- Hq. destruct s; [|done]. cbn [cond_Zopp]. by rewrite Z.quot_opp_l by lia.
Qed.

(** A bound is respected by truncation. *)
Lemma f64_trunc_le a b x y :
  f64_valid a = true → f64_valid b = true → SFleb a b = true →
  f64_trunc a = Some x → f64_trunc b = Some y → x <= y.
Proof.
  intros Ha Hb Hle Hx Hy.
  destruct (f64_units a) as [u|] eqn:Hu; [|by destruct a].
  destruct (f64_units b) as [v|] eqn:Hv; [|by destruct b].
  pose proof (f64_units_le a b u v Ha Hb Hle Hu Hv).
  rewrite (f64_trunc_units a u) in Hx by done. rewrite (f64_trunc_units b v) in Hy by done.
  injection Hx as <-. injection Hy as <-. apply Z.quot_le_mono; lia.
Qed.

(** A comparison that does not hold is the converse one, NaN aside. *)
Lemma f64_not_lt a b :
  is_nan a = false → is_nan b = false → f64_lt a b = false → SFleb b a = true.
Proof.
  unfold is_nan. rewrite !bool_decide_eq_false. unfold f64_lt, SFltb, SFleb. intros Ha Hb.
  rewrite (SFcompare_antisym a b). destruct (SFcompare a b) as [[]|] eqn:E; try done.
  by destruct a, b.
Qed.

(** The bounds of a check enclose the truncated number. *)
Lemma f64_trunc_between a lo hi l h :
  f64_valid a = true → f64_valid lo = true → f64_valid hi = true → is_nan a = false →
  f64_lt a lo = false → f64_lt hi a = false → f64_trunc lo = Some l → f64_trunc hi = Some h →
  ∃ z, f64_trunc a = Some z ∧ l <= z <= h.
Proof.
  intros Ha Hlo Hhi Hn H1 H2 El Eh.
  assert (is_nan lo = false) as N1 by (by destruct lo).
  assert (is_nan hi = false) as N2 by (by destruct hi).
  pose proof (f64_not_lt _ _ Hn N1 H1) as L1. pose proof (f64_not_lt _ _ N2 Hn H2) as L2.
  destruct (f64_trunc a) as [z|] eqn:E.
  - exists z. split; [done|]. split; [by apply (f64_trunc_le lo a)|by apply (f64_trunc_le a hi)].
  - exfalso. destruct a as [|s| |]; try done.
    destruct s; [by destruct lo|by destruct hi].
Qed.

(** ** Small integers convert exactly *)

Lemma digits2_shift m d :
  Zpos (digits2_pos (Pos.iter xO m d)) = Zpos (digits2_pos m) + Zpos d.
Proof.
  induction d as [|d IH] using Pos.peano_ind; [cbn; lia|].
  rewrite Pos.iter_succ. cbn [digits2_pos]. rewrite Pos2Z.inj_succ, IH. lia.
Qed.

Lemma iter_xO m d : Zpos (Pos.iter xO m d) = Zpos m * 2 ^ Zpos d.
Proof.
  induction d as [|d IH] using Pos.peano_ind; [cbn; lia|].
  rewrite Pos.iter_succ, Pos2Z.inj_xO, IH, Pos2Z.inj_succ, Z.pow_succ_r by lia. lia.
Qed.

Lemma binary_round_small s m e :
  Zpos (digits2_pos m) < 53 → -1000 <= e <= 900 →
  ∃ d, Zpos d = 53 - Zpos (digits2_pos m) ∧
       binary_round 53 1024 s m e = S754_finite s (Pos.iter xO m d) (e - Zpos d).
Proof.
  intros Hm He. exists (Z.to_pos (53 - Zpos (digits2_pos m))). split; [lia|].
  set (d := Z.to_pos (53 - Zpos (digits2_pos m))).
  assert (Zpos (digits2_pos m) = 53 - Zpos d) as Ed by (unfold d; lia).
  assert (fexp 53 1024 (Zpos (digits2_pos m) + e) = e - Zpos d) as Ef by (unfold fexp, emin; lia).
  assert (∀ l, shr_fexp 53 1024 (Zpos (Pos.iter xO m d)) (e - Zpos d) l =
               (shr_record_of_loc (Zpos (Pos.iter xO m d)) l, e - Zpos d)) as Hshr.
  { intros l. unfold shr_fexp. cbn [Zdigits2]. rewrite digits2_shift.
    replace (fexp 53 1024 _ - _) with 0 by (unfold fexp, emin; lia). done. }
  unfold binary_round. rewrite Ef. unfold shl_align. replace (e - Zpos d - e) with (Zneg d) by lia. cbv beta iota.
  unfold binary_round_aux. rewrite Hshr. cbn [shr_record_of_loc shr_m loc_of_shr_record round_nearest_even].
  rewrite Hshr. cbn [shr_record_of_loc shr_m].
  by rewrite (proj2 (Z.leb_le (e - Zpos d) (1024 - 53))) by lia.
Qed.

Lemma digits2_small m k : Zpos m < 2 ^ k → 0 <= k → Zpos (digits2_pos m) <= k.
Proof.
  intros Hm Hk. pose proof (digits2_bounds m) as [Hd _].
  destruct (Z.le_gt_cases (Zpos (digits2_pos m)) k); [done|].
  pose proof (Z.pow_le_mono_r 2 k (Zpos (digits2_pos m) - 1)). lia.
Qed.

(** Truncation inverts the conversion of an integer. *)
Lemma f64_of_Z_exact z :
  Z.abs z < 2 ^ 52 →
  f64_valid (f64_of_Z z) = true ∧ is_nan (f64_of_Z z) = false ∧ f64_trunc (f64_of_Z z) = Some z.
Proof.
  intros Hz. assert (∀ s m, Zpos m < 2 ^ 52 →
    let x := binary_round 53 1024 s m 0 in
    f64_valid x = true ∧ is_nan x = false ∧ f64_trunc x = Some (cond_Zopp s (Zpos m))) as H.
  { intros s m Hm. pose proof (digits2_small m 52 Hm ltac:(lia)).
    destruct (binary_round_small s m 0) as (d & Ed & ->); [lia..|]. cbv zeta. rewrite Z.sub_0_l.
    unfold f64_valid, valid_binary, bounded, canonical_mantissa, f64_trunc, f32_trunc.
    rewrite digits2_shift, iter_xO.
    rewrite (proj2 (Z.eqb_eq _ _)) by (unfold fexp, emin; lia).
    rewrite (proj2 (Z.leb_le (- Zpos d) (1024 - 53))) by lia.
    rewrite (proj2 (Z.leb_gt 0 (- Zpos d))) by lia. rewrite Z.opp_involutive, Z.div_mul by lia.
    by destruct s. }
  unfold f64_of_Z, binary_normalize. destruct z as [|m|m]; [done|apply (H false m); lia|apply (H true m); lia].
Qed.

(** ** A [float] survives the way through [double] *)

Lemma iter_pos_iter {A} (f : A → A) p x : SpecFloat.iter_pos f p x = Pos.iter f x p.
Proof.
  revert x. induction p as [p IH|p IH|]; intros x; cbn [SpecFloat.iter_pos Pos.iter]; [|by rewrite !IH|done].
  rewrite !IH, !Pos.iter_swap. done.
Qed.

Lemma shr_iter_xO m d :
  SpecFloat.iter_pos shr_1 d (shr_record_of_loc (Zpos (Pos.iter xO m d)) loc_Exact) =
  shr_record_of_loc (Zpos m) loc_Exact.
Proof.
  rewrite iter_pos_iter. induction d as [|d IH] using Pos.peano_ind; [done|].
  rewrite !Pos.iter_succ, <- Pos.iter_swap. exact IH.
Qed.

(** The mantissa of a canonical [float] comes back without rounding. *)
Lemma binary_round_widened s m e d :
  canonical_mantissa 24 128 m e = true → e <= 104 →
  binary_round 24 128 s (Pos.iter xO m d) (e - Zpos d) = S754_finite s m e.
Proof.
  unfold canonical_mantissa. rewrite Z.eqb_eq. intros Hc He.
  assert (fexp 24 128 (Zpos (digits2_pos (Pos.iter xO m d)) + (e - Zpos d)) = e) as Hf.
  { rewrite digits2_shift. rewrite <- Hc at 2. f_equal. lia. }
  assert (shr_fexp 24 128 (Zpos (Pos.iter xO m d)) (e - Zpos d) loc_Exact = (shr_record_of_loc (Zpos m) loc_Exact, e)) as H1.
  { unfold shr_fexp. cbn [Zdigits2]. rewrite Hf. replace (e - (e - Zpos d)) with (Zpos d) by lia.
    cbn [shr]. rewrite shr_iter_xO. f_equal. lia. }
  assert (shr_fexp 24 128 (Zpos m) e loc_Exact = (shr_record_of_loc (Zpos m) loc_Exact, e)) as H2.
  { unfold shr_fexp. cbn [Zdigits2]. by rewrite Hc, Z.sub_diag. }
  unfold binary_round. rewrite Hf. unfold shl_align. replace (e - (e - Zpos d)) with (Zpos d) by lia. cbv beta iota.
  unfold binary_round_aux. rewrite H1. cbn [shr_record_of_loc shr_m loc_of_shr_record round_nearest_even].
  rewrite H2. cbn [shr_record_of_loc shr_m]. by rewrite (proj2 (Z.leb_le e (128 - 24))) by lia.
Qed.

Lemma f32_of_f64_of_f32 v : valid_binary 24 128 v = true → f32_of_f64 (f64_of_f32 v) = v.
Proof.
  destruct v as [|s| |s m e]; try done. cbn [valid_binary]. unfold bounded. rewrite andb_true_iff, Z.leb_le.
  intros [Hc He]. pose proof Hc as Hc'. unfold canonical_mantissa in Hc'. rewrite Z.eqb_eq in Hc'.
  unfold fexp, emin in Hc'.
  assert (f64_of_f32 (S754_finite s m e) = binary_round 53 1024 s m e) as -> by (by destruct s).
  destruct (binary_round_small s m e) as (d & Ed & ->); [lia..|].
  transitivity (binary_round 24 128 s (Pos.iter xO m d) (e - Zpos d)); [by destruct s|].
  by apply binary_round_widened.
Qed.
