(* ===== verification/DpCatalog.v ===== *)
(** * The datapoint catalogue: [dp_list.def], [datapoints.h]

    Models the X-macro list src/components/datapoints/dp_list.def and what
    datapoints.h and datapoints.c generate from it: the image struct with the
    offsets of its fields, and the descriptor table [g_dp].  The facts about the
    catalogue on which the store relies are checked by computation. *)

From Stdlib Require Import SpecFloat.
From S2P Require Import Prelude Bytes Float32 Float64.
Local Open Scope string_scope.
Local Open Scope Z_scope.

(** ** Types *)

Definition DP_STR_MAX : Z := 64.

Inductive dp_type_t :=
  | DP_BOOL | DP_U8 | DP_U16 | DP_U32 | DP_U64
  | DP_I8 | DP_I16 | DP_I32 | DP_F32 | DP_ENUM | DP_STR.

Inductive dp_access_t := DP_RO | DP_RW | DP_WO.
Inductive dp_persist_t := DP_VOLATILE | DP_NVS | DP_STATIC.

#[export] Instance dp_type_eq_dec : EqDecision dp_type_t.
Proof. solve_decision. Defined.
#[export] Instance dp_access_eq_dec : EqDecision dp_access_t.
Proof. solve_decision. Defined.
#[export] Instance dp_persist_eq_dec : EqDecision dp_persist_t.
Proof. solve_decision. Defined.

Definition dp_type_size (t : dp_type_t) : Z :=
  match t with
  | DP_BOOL => 1 | DP_U8 => 1 | DP_U16 => 2 | DP_U32 => 4 | DP_U64 => 8
  | DP_I8 => 1 | DP_I16 => 2 | DP_I32 => 4 | DP_F32 => 4 | DP_ENUM => 1
  | DP_STR => DP_STR_MAX
  end.

(** The alignment of the field that DP_FIELD declares; a char array has none. *)
Definition dp_type_align (t : dp_type_t) : Z :=
  match t with DP_STR => 1 | _ => dp_type_size t end.

Record dp_desc_t := mk_desc {
  dd_name : string;
  dd_type : dp_type_t;
  dd_access : dp_access_t;
  dd_persist : dp_persist_t;
  dd_off : Z;
  dd_nvs_id : Z;
  dd_min : f32;
  dd_max : f32;
  dd_deadband : f32
}.

#[export] Instance dp_desc_eq_dec : EqDecision dp_desc_t.
Proof. solve_decision. Defined.

(** ** The list *)

(** A default is an integer or a floating constant. *)
Inductive dp_const := CInt (z : Z) | CFlt (a : f32).

Record dp_row := DP {
  dr_name : string;
  dr_type : dp_type_t;
  dr_access : dp_access_t;
  dr_persist : dp_persist_t;
  dr_id : Z;
  dr_default : dp_const;
  dr_min : f32;
  dr_max : f32;
  dr_deadband : f32
}.

Definition NAN : f32 := S754_nan.
Definition flt (z : Z) : f32 := f32_of_Z z.
Definition lit (n d : Z) : f32 := f32_lit n d.

Definition dp_list_device : list dp_row := [
   DP "Device_Serial_Number" DP_U64 DP_RO DP_STATIC 0 (CInt 0) NAN NAN (flt 0);
   DP "Device_HW_Version" DP_STR DP_RO DP_STATIC 0 (CInt 0) NAN NAN (flt 0);
   DP "Device_SW_Version" DP_STR DP_RO DP_STATIC 0 (CInt 0) NAN NAN (flt 0);
   DP "Device_Build_Version" DP_U64 DP_RO DP_STATIC 0 (CInt 0) NAN NAN (flt 0);
   DP "System_Temperature" DP_F32 DP_RO DP_VOLATILE 0 (CInt 0) NAN NAN (flt 1);
   DP "System_Utilization" DP_U8 DP_RO DP_VOLATILE 0 (CInt 0) NAN NAN (flt 0);
   DP "System_Memory_Free" DP_U32 DP_RO DP_VOLATILE 0 (CInt 0) NAN NAN (flt 0);
   DP "System_Min_Memory_Free" DP_U32 DP_RO DP_VOLATILE 0 (CInt 0) NAN NAN (flt 0);
   DP "System_Largest_Free_Block" DP_U32 DP_RO DP_VOLATILE 0 (CInt 0) NAN NAN (flt 0);
   DP "System_Flash_Free" DP_U32 DP_RO DP_VOLATILE 0 (CInt 0) NAN NAN (flt 0);
   DP "System_RSSI" DP_I8 DP_RO DP_VOLATILE 0 (CInt 0) NAN NAN (flt 0);
   DP "System_Uptime" DP_U32 DP_RO DP_VOLATILE 0 (CInt 0) NAN NAN (flt 0);
   DP "System_Min_Stack_Free" DP_U32 DP_RO DP_VOLATILE 0 (CInt 0) NAN NAN (flt 0);
   DP "System_Reconnect_Count" DP_U32 DP_RO DP_VOLATILE 0 (CInt 0) NAN NAN (flt 0);
   DP "System_Reset_Reason" DP_ENUM DP_RO DP_VOLATILE 0 (CInt 0) NAN NAN (flt 0);
   DP "System_Power_Mode" DP_U8 DP_RO DP_VOLATILE 0 (CInt 0) NAN NAN (flt 0);
   DP "System_Event_Drops" DP_U32 DP_RO DP_VOLATILE 0 (CInt 0) NAN NAN (flt 0);
   DP "Net_Link_Score" DP_U8 DP_RO DP_VOLATILE 0 (CInt 100) NAN NAN (flt 0);
   DP "Net_Link_State" DP_U8 DP_RO DP_VOLATILE 0 (CInt 0) NAN NAN (flt 0);
   DP "Net_Session_Drops" DP_U32 DP_RO DP_VOLATILE 0 (CInt 0) NAN NAN (flt 0);
   DP "Net_Send_Fail_Count" DP_U32 DP_RO DP_VOLATILE 0 (CInt 0) NAN NAN (flt 0);
   DP "Net_Offline_Seconds" DP_U32 DP_RO DP_VOLATILE 0 (CInt 0) NAN NAN (flt 0);
   DP "Net_Last_Offline_S" DP_U32 DP_RO DP_VOLATILE 0 (CInt 0) NAN NAN (flt 0);
   DP "Ambient_Temperature" DP_F32 DP_RO DP_VOLATILE 0 (CInt 0) NAN NAN (lit 2 10);
   DP "Ambient_Humidity" DP_F32 DP_RO DP_VOLATILE 0 (CInt 0) NAN NAN (flt 1)].

Definition dp_list_pump : list dp_row := [
   DP "Fon_Current_Pressure" DP_F32 DP_RO DP_VOLATILE 0 (CInt 0) NAN NAN (lit 5 100);
   DP "Fon_Sensor_Voltage_mV" DP_U32 DP_RO DP_VOLATILE 0 (CInt 0) NAN NAN (flt 0);
   DP "Fon_Current_State" DP_ENUM DP_RO DP_VOLATILE 0 (CInt 0) NAN NAN (flt 0);
   DP "Fon_Relay_Output" DP_BOOL DP_RO DP_VOLATILE 0 (CInt 0) NAN NAN (flt 0);
   DP "Fon_Run_Time" DP_U32 DP_RO DP_VOLATILE 0 (CInt 0) NAN NAN (flt 0);
   DP "Fon_Cycles_Total" DP_U32 DP_RO DP_VOLATILE 0 (CInt 0) NAN NAN (flt 0);
   DP "Fon_Remaining_Time" DP_U32 DP_RO DP_VOLATILE 0 (CInt 0) NAN NAN (flt 0);
   DP "Fon_Pressure_Filtered" DP_F32 DP_RO DP_VOLATILE 0 (CInt 0) NAN NAN (lit 5 100);
   DP "Fon_Pressure_Slope" DP_F32 DP_RO DP_VOLATILE 0 (CInt 0) NAN NAN (lit 1 100);
   DP "Fon_Demand_State" DP_ENUM DP_RO DP_VOLATILE 0 (CInt 0) NAN NAN (flt 0);
   DP "Fon_Anomaly_Score" DP_U16 DP_RO DP_VOLATILE 0 (CInt 0) NAN NAN (flt 0);
   DP "Fon_Event_Duration" DP_U32 DP_RO DP_VOLATILE 0 (CInt 0) NAN NAN (flt 0);
   DP "Fon_Est_Flow_L_Min" DP_F32 DP_RO DP_VOLATILE 0 (CInt 0) NAN NAN (lit 1 10);
   DP "Fon_Est_Volume_Total" DP_F32 DP_RO DP_VOLATILE 0 (CInt 0) NAN NAN (lit 5 10);
   DP "Fon_Fault_Code" DP_U8 DP_RO DP_VOLATILE 0 (CInt 0) NAN NAN (flt 0);
   DP "Fon_Starts_Per_Hour" DP_U8 DP_RO DP_VOLATILE 0 (CInt 0) NAN NAN (flt 0);
   DP "Fon_Sensor_Err_Count" DP_U32 DP_RO DP_VOLATILE 0 (CInt 0) NAN NAN (flt 0);
   DP "Fon_Sensor_Noise_mV" DP_U16 DP_RO DP_VOLATILE 0 (CInt 0) NAN NAN (flt 0);
   DP "Fon_Fault_Ack" DP_U8 DP_RW DP_VOLATILE 0 (CInt 0) (flt 0) (flt 1) (flt 0);
   DP "Fon_Pump_Command" DP_U8 DP_RW DP_VOLATILE 0 (CInt 0) (flt 0) (flt 5) (flt 0);
   DP "Fon_Event_Label" DP_U8 DP_RW DP_VOLATILE 0 (CInt 0) (flt 0) (flt 7) (flt 0);
   DP "Fon_Pressure_Manual" DP_BOOL DP_RW DP_VOLATILE 0 (CInt 0) NAN NAN (flt 0);
   DP "Fon_Pressure_Value" DP_F32 DP_RW DP_VOLATILE 0 (CInt 0) (flt 0) (flt 100) (lit 5 100)].

Definition dp_list_fountain_config : list dp_row := [
   DP "Fon_Min_Pressure" DP_F32 DP_RW DP_NVS 101 (CFlt (flt 2)) (flt 0) (flt 10) (flt 0);
   DP "Fon_Max_Pressure" DP_F32 DP_RW DP_NVS 102 (CFlt (lit 35 10)) (flt 0) (flt 10) (flt 0);
   DP "Fon_Alert_High_Pressure" DP_F32 DP_RW DP_NVS 103 (CFlt (lit 45 10)) (flt 0) (flt 12) (flt 0);
   DP "Fon_Alert_Low_Pressure" DP_F32 DP_RW DP_NVS 104 (CFlt (lit 3 10)) (flt 0) (flt 10) (flt 0);
   DP "Fon_Min_On_Time" DP_U16 DP_RW DP_NVS 105 (CInt 30) (flt 0) (flt 3600) (flt 0);
   DP "Fon_Max_On_Time" DP_U16 DP_RW DP_NVS 106 (CInt 300) (flt 10) (flt 65535) (flt 0);
   DP "Fon_Dry_Run_Detect_Time" DP_U16 DP_RW DP_NVS 107 (CInt 30) (flt 1) (flt 3600) (flt 0);
   DP "Fon_Dry_Run_Min_Rise" DP_U16 DP_RW DP_NVS 108 (CInt 100) (flt 0) (flt 10000) (flt 0);
   DP "Fon_Check_Valve_Timeout" DP_U16 DP_RW DP_NVS 109 (CInt 10) (flt 1) (flt 3600) (flt 0);
   DP "Fon_Pressure_Drop_Rate" DP_U16 DP_RW DP_NVS 110 (CInt 500) (flt 0) (flt 65535) (flt 0);
   DP "Fon_Report_Interval" DP_U16 DP_RW DP_NVS 111 (CInt 10) (flt 1) (flt 3600) (flt 0);
   DP "Fon_Sensor_Offset" DP_I16 DP_RW DP_NVS 112 (CInt 0) (flt (-5000)) (flt 5000) (flt 0);
   DP "Fon_Sensor_Scale" DP_F32 DP_RW DP_NVS 113 (CFlt (flt 1)) NAN NAN (flt 0);
   DP "Fon_Sensor_Range_Bar" DP_F32 DP_RW DP_NVS 114 (CFlt (lit 3447 100)) (lit 1 10) (flt 100) (flt 0);
   DP "Fon_Min_Off_Time" DP_U16 DP_RW DP_NVS 115 (CInt 30) (flt 0) (flt 3600) (flt 0);
   DP "Fon_Filter_Alpha" DP_F32 DP_RW DP_NVS 116 (CFlt (lit 1 10)) (lit 1 100) (flt 1) (flt 0);
   DP "Fon_Stable_Slope" DP_F32 DP_RW DP_NVS 117 (CFlt (lit 2 100)) (lit 1 1000) (flt 1) (flt 0);
   DP "Fon_Max_Starts_Per_Hour" DP_U8 DP_RW DP_NVS 118 (CInt 10) (flt 1) (flt 16) (flt 0);
   DP "Fon_Hand_Min_Pressure" DP_F32 DP_RW DP_NVS 119 (CFlt (lit 17 10)) (flt 0) (flt 100) (flt 0);
   DP "Fon_Hand_Max_Pressure" DP_F32 DP_RW DP_NVS 120 (CFlt (flt 2)) (flt 0) (flt 100) (flt 0);
   DP "Fon_Tank_Min_Pressure" DP_F32 DP_RW DP_NVS 121 (CFlt (lit 12 10)) (flt 0) (flt 100) (flt 0);
   DP "Fon_Tank_Max_Pressure" DP_F32 DP_RW DP_NVS 122 (CFlt (lit 16 10)) (flt 0) (flt 100) (flt 0);
   DP "Fon_Hand_Max_Duration" DP_U16 DP_RW DP_NVS 123 (CInt 20) (flt 1) (flt 1440) (flt 0);
   DP "Fon_Tank_Max_Duration" DP_U16 DP_RW DP_NVS 124 (CInt 12) (flt 1) (flt 1440) (flt 0);
   DP "Fon_Unknown_Max_Duration" DP_U16 DP_RW DP_NVS 125 (CInt 10) (flt 1) (flt 1440) (flt 0);
   DP "Fon_Flow_K_Hand" DP_F32 DP_RW DP_NVS 126 (CInt 0) (flt 0) (flt 1000) (flt 0);
   DP "Fon_Flow_K_Tank" DP_F32 DP_RW DP_NVS 127 (CInt 0) (flt 0) (flt 1000) (flt 0)].

Definition dp_list_network : list dp_row := [
   DP "Network_SSID" DP_STR DP_RW DP_NVS 201 (CInt 0) NAN NAN (flt 0);
   DP "Network_Password" DP_STR DP_RW DP_NVS 202 (CInt 0) NAN NAN (flt 0);
   DP "Network_Server" DP_STR DP_RW DP_NVS 203 (CInt 0) NAN NAN (flt 0);
   DP "Network_Server_Port" DP_U16 DP_RW DP_NVS 204 (CInt 8443) (flt 1) (flt 65535) (flt 0);
   DP "Network_DHCP" DP_BOOL DP_RW DP_NVS 205 (CInt 1) NAN NAN (flt 0);
   DP "Network_IP_Address" DP_STR DP_RW DP_NVS 206 (CInt 0) NAN NAN (flt 0);
   DP "Network_Subnetmask" DP_STR DP_RW DP_NVS 207 (CInt 0) NAN NAN (flt 0);
   DP "Network_Gateway" DP_STR DP_RW DP_NVS 208 (CInt 0) NAN NAN (flt 0);
   DP "Net_PS_Override" DP_U8 DP_RW DP_NVS 210 (CInt 0) (flt 0) (flt 2) (flt 0);
   DP "Backup_DHCP" DP_BOOL DP_RO DP_NVS 301 (CInt 1) NAN NAN (flt 0);
   DP "Backup_IP_Address" DP_STR DP_RO DP_NVS 302 (CInt 0) NAN NAN (flt 0);
   DP "Backup_Subnetmask" DP_STR DP_RO DP_NVS 303 (CInt 0) NAN NAN (flt 0);
   DP "Backup_Gateway" DP_STR DP_RO DP_NVS 304 (CInt 0) NAN NAN (flt 0);
   DP "Backup_Server" DP_STR DP_RO DP_NVS 305 (CInt 0) NAN NAN (flt 0);
   DP "Backup_Server_Port" DP_U16 DP_RO DP_NVS 306 (CInt 8443) NAN NAN (flt 0);
   DP "Backup_SSID" DP_STR DP_RO DP_NVS 307 (CInt 0) NAN NAN (flt 0);
   DP "Backup_Password" DP_STR DP_RO DP_NVS 308 (CInt 0) NAN NAN (flt 0)].

Definition dp_list_services : list dp_row := [
   DP "Log_Enabled" DP_BOOL DP_RW DP_NVS 401 (CInt 1) NAN NAN (flt 0);
   DP "Log_Runtime_Level" DP_U8 DP_RW DP_NVS 402 (CInt 3) (flt 0) (flt 5) (flt 0);
   DP "Log_Flash_Level" DP_U8 DP_RW DP_NVS 403 (CInt 2) (flt 0) (flt 5) (flt 0);
   DP "Network_Save" DP_U8 DP_RW DP_VOLATILE 0 (CInt 0) (flt 0) (flt 4) (flt 0);
   DP "Network_Trial_State" DP_U8 DP_RO DP_VOLATILE 0 (CInt 0) NAN NAN (flt 0);
   DP "Log_Next_Seq" DP_U32 DP_RO DP_VOLATILE 0 (CInt 0) NAN NAN (flt 0);
   DP "Log_Dropped" DP_U32 DP_RO DP_VOLATILE 0 (CInt 0) NAN NAN (flt 0);
   DP "Log_Dropped_Flash" DP_U32 DP_RO DP_VOLATILE 0 (CInt 0) NAN NAN (flt 0);
   DP "Log_Prev_Boot_Available" DP_BOOL DP_RO DP_VOLATILE 0 (CInt 0) NAN NAN (flt 0);
   DP "Log_Command" DP_U8 DP_RW DP_VOLATILE 0 (CInt 0) (flt 0) (flt 3) (flt 0);
   DP "Pressure_Hist_Next_Seq" DP_U32 DP_RO DP_VOLATILE 0 (CInt 0) NAN NAN (flt 0);
   DP "Pressure_Hist_Overwritten" DP_U32 DP_RO DP_VOLATILE 0 (CInt 0) NAN NAN (flt 0);
   DP "Pressure_Hist_Highwater" DP_U32 DP_RO DP_VOLATILE 0 (CInt 0) NAN NAN (flt 0);
   DP "Can_Enabled" DP_BOOL DP_RW DP_NVS 601 (CInt 1) NAN NAN (flt 0);
   DP "Can_Node_Id" DP_U8 DP_RW DP_NVS 602 (CInt 3) (flt 1) (flt 127) (flt 0);
   DP "Can_Bitrate" DP_U16 DP_RW DP_NVS 603 (CInt 250) (flt 10) (flt 1000) (flt 0);
   DP "Can_Heartbeat_Ms" DP_U16 DP_RW DP_NVS 604 (CInt 1000) (flt 0) (flt 65535) (flt 0);
   DP "Can_Loopback" DP_BOOL DP_RW DP_VOLATILE 0 (CInt 0) NAN NAN (flt 0);
   DP "Can_Master_Timeout_Ms" DP_U16 DP_RW DP_NVS 605 (CInt 5000) (flt 100) (flt 65535) (flt 0);
   DP "Can_Master_Active" DP_BOOL DP_RO DP_VOLATILE 0 (CInt 0) NAN NAN (flt 0);
   DP "Can_Master_Age_S" DP_U32 DP_RO DP_VOLATILE 0 (CInt 0) NAN NAN (flt 0);
   DP "Can_Nmt_State" DP_U8 DP_RO DP_VOLATILE 0 (CInt 0) NAN NAN (flt 0);
   DP "Can_Sdo_Count" DP_U32 DP_RO DP_VOLATILE 0 (CInt 0) NAN NAN (flt 0);
   DP "Can_Pdo_Tx_Count" DP_U32 DP_RO DP_VOLATILE 0 (CInt 0) NAN NAN (flt 0);
   DP "Can_Pdo_Rx_Count" DP_U32 DP_RO DP_VOLATILE 0 (CInt 0) NAN NAN (flt 0);
   DP "Can_Emcy_Count" DP_U16 DP_RO DP_VOLATILE 0 (CInt 0) NAN NAN (flt 0);
   DP "Can_State" DP_ENUM DP_RO DP_VOLATILE 0 (CInt 0) NAN NAN (flt 0);
   DP "Can_Rx_Frames" DP_U32 DP_RO DP_VOLATILE 0 (CInt 0) NAN NAN (flt 0);
   DP "Can_Tx_Frames" DP_U32 DP_RO DP_VOLATILE 0 (CInt 0) NAN NAN (flt 0);
   DP "Can_Bus_Errors" DP_U32 DP_RO DP_VOLATILE 0 (CInt 0) NAN NAN (flt 0);
   DP "Can_Bus_Off_Count" DP_U16 DP_RO DP_VOLATILE 0 (CInt 0) NAN NAN (flt 0);
   DP "System_WD_Last_Channel" DP_U8 DP_RO DP_VOLATILE 0 (CInt 0) NAN NAN (flt 0);
   DP "System_WD_Last_Checkpoint" DP_U16 DP_RO DP_VOLATILE 0 (CInt 0) NAN NAN (flt 0);
   DP "System_WD_Reboot_Count" DP_U8 DP_RO DP_VOLATILE 0 (CInt 0) NAN NAN (flt 0)].

Definition dp_list : list dp_row :=
  dp_list_device ++ dp_list_pump ++ dp_list_fountain_config ++ dp_list_network ++ dp_list_services.

(** ** The generated image and table *)

Definition align_up (off a : Z) : Z := (off + a - 1) / a * a.

(** [offsetof]: every field at the next offset aligned for its type. *)
Fixpoint descriptors (off : Z) (rows : list dp_row) : list dp_desc_t :=
  match rows with
  | [] => []
  | r :: rows =>
      let o := align_up off (dp_type_align (dr_type r)) in
      mk_desc (dr_name r) (dr_type r) (dr_access r) (dr_persist r) o (dr_id r)
              (dr_min r) (dr_max r) (dr_deadband r)
      :: descriptors (o + dp_type_size (dr_type r)) rows
  end.

Definition g_dp : list dp_desc_t := descriptors 0 dp_list.

Definition DP_COUNT : nat := length dp_list.

(** [sizeof(dp_image_t)]: the end of the last field, rounded up to the struct's
    alignment of eight. *)
Definition dp_image_size : Z :=
  align_up (foldl (λ o r, align_up o (dp_type_align (dr_type r)) + dp_type_size (dr_type r)) 0 dp_list) 8.

(** [strcmp] against every name. *)
Definition dp_find (name : string) : option dp_desc_t :=
  List.find (λ d, String.eqb (dd_name d) name) g_dp.

(** ** Facts about the catalogue *)

(** The range of an integer type. *)
Definition dp_int_range (t : dp_type_t) : option (Z * Z) :=
  match t with
  | DP_U8 | DP_ENUM => Some (0, 255)
  | DP_I8 => Some (-128, 127)
  | DP_U16 => Some (0, 65535)
  | DP_I16 => Some (-32768, 32767)
  | DP_U32 => Some (0, 4294967295)
  | DP_I32 => Some (-2147483648, 2147483647)
  | _ => None
  end.

(** A writable integer point has bounds, and they lie within its type. *)
Definition bounds_ok (d : dp_desc_t) : bool :=
  match dd_access d, dp_int_range (dd_type d) with
  | DP_RW, Some (a, b) =>
      f64_valid (f64_of_f32 (dd_min d)) && f64_valid (f64_of_f32 (dd_max d)) &&
      negb (is_nan (dd_min d)) && negb (is_nan (dd_max d)) &&
      match f64_trunc (f64_of_f32 (dd_min d)), f64_trunc (f64_of_f32 (dd_max d)) with
      | Some l, Some h => (a <=? l) && (h <=? b)
      | _, _ => false
      end
  | _, _ => true
  end.

(** Two different points do not share a byte. *)
Definition slots_disjoint (d d' : dp_desc_t) : bool :=
  (dd_off d + dp_type_size (dd_type d) <=? dd_off d') ||
  (dd_off d' + dp_type_size (dd_type d') <=? dd_off d).

Definition desc_ok (d : dp_desc_t) : bool :=
  (0 <=? dd_off d) && (dd_off d + dp_type_size (dd_type d) <=? dp_image_size) &&
  (dd_off d mod dp_type_align (dd_type d) =? 0) && bounds_ok d &&
  forallb (λ d', String.eqb (dd_name d) (dd_name d') || slots_disjoint d d') g_dp.

(** A persistent point has an identifier of its own, the others have none. *)
Definition nvs_id_ok (d : dp_desc_t) : bool :=
  match dd_persist d with
  | DP_NVS => negb (dd_nvs_id d =? 0) &&
      forallb (λ d', String.eqb (dd_name d) (dd_name d') || negb (dd_nvs_id d =? dd_nvs_id d')) g_dp
  | _ => dd_nvs_id d =? 0
  end.

Lemma catalogue_names : NoDup (dd_name <$> g_dp).
Proof. apply (bool_decide_unpack _). vm_compute. exact I. Qed.

Lemma catalogue_ok : forallb desc_ok g_dp = true.
Proof. vm_compute. reflexivity. Qed.

Lemma catalogue_ids : forallb nvs_id_ok g_dp = true.
Proof. vm_compute. reflexivity. Qed.

(** The image offset of a field fits the descriptor's uint16_t. *)
Lemma dp_image_size_u16 : 0 < dp_image_size < 65536.
Proof. vm_compute. done. Qed.

Lemma desc_ok_in d : d ∈ g_dp → desc_ok d = true.
Proof.
  intros Hd. pose proof catalogue_ok as H. rewrite forallb_forall in H. apply H.
  by apply list_elem_of_In.
Qed.

Lemma desc_name_inj d d' : d ∈ g_dp → d' ∈ g_dp → dd_name d = dd_name d' → d = d'.
Proof.
  intros [i Hi]%list_elem_of_lookup [j Hj]%list_elem_of_lookup Hn.
  assert (i = j) as ->; [|congruence].
  eapply NoDup_lookup; [exact catalogue_names|by rewrite list_lookup_fmap, Hi|].
  by rewrite list_lookup_fmap, Hj, Hn.
Qed.

Lemma desc_slot d :
  d ∈ g_dp → 0 <= dd_off d ∧ dd_off d + dp_type_size (dd_type d) <= dp_image_size.
Proof.
  intros Hd%desc_ok_in. unfold desc_ok in Hd. rewrite !andb_true_iff, !Z.leb_le in Hd. tauto.
Qed.

Lemma desc_bounds d : d ∈ g_dp → bounds_ok d = true.
Proof. intros Hd%desc_ok_in. unfold desc_ok in Hd. rewrite !andb_true_iff in Hd. tauto. Qed.

Lemma desc_disjoint d d' :
  d ∈ g_dp → d' ∈ g_dp → d ≠ d' →
  dd_off d + dp_type_size (dd_type d) <= dd_off d' ∨ dd_off d' + dp_type_size (dd_type d') <= dd_off d.
Proof.
  intros Hd Hd' Hne. pose proof (desc_ok_in d Hd) as H. unfold desc_ok in H.
  apply andb_true_iff in H as [_ H]. rewrite forallb_forall in H.
  specialize (H d' (proj1 (list_elem_of_In _ _) Hd')). unfold slots_disjoint in H.
  rewrite !orb_true_iff, !Z.leb_le in H. destruct H as [H|H]; [|done].
  apply String.eqb_eq in H. by apply desc_name_inj in H.
Qed.

Lemma desc_id d : d ∈ g_dp → nvs_id_ok d = true.
Proof.
  intros Hd. pose proof catalogue_ids as H. rewrite forallb_forall in H. apply H.
  by apply list_elem_of_In.
Qed.

Lemma dp_find_some name d : dp_find name = Some d ↔ d ∈ g_dp ∧ dd_name d = name.
Proof.
  split.
  - intros H. apply List.find_some in H as [H1 H2]. apply String.eqb_eq in H2.
    by rewrite list_elem_of_In.
  - intros [Hd <-]. unfold dp_find. destruct (List.find _ g_dp) as [d'|] eqn:E.
    + apply List.find_some in E as [H1 H2]. apply String.eqb_eq in H2.
      apply list_elem_of_In in H1. f_equal. by apply desc_name_inj.
    + apply list_elem_of_In in Hd. apply (List.find_none _ _ E) in Hd.
      by rewrite String.eqb_refl in Hd.
Qed.
