(* ===== verification/Datapoints.v ===== *)
(** * The datapoint store: [datapoints.c]

    Models src/components/datapoints/datapoints.c over the catalogue of
    DpCatalog: the process image with checked accesses, the JSON codec, reads,
    the atomic batch write, reports, and the persistence in NVS.  A cJSON tree is
    the JSON value it denotes.  NVS is an interface with laws.  An access outside
    the image and a conversion from [double] that C leaves undefined both make
    the result [OutOfBounds]. *)

From Stdlib Require Import SpecFloat.
From stdpp Require Import pretty gmap.
From S2P Require Import Prelude Bytes Float32 Float64 DpCatalog.
Local Open Scope string_scope.
Local Open Scope Z_scope.

(** ** JSON values *)

Inductive json :=
  | JBool (b : bool)
  | JNumber (v : f64)
  | JString (s : list Z)
  | JOther.

(** What the parser produces: numbers are never NaN, strings hold no NUL. *)
Definition json_ok (v : json) : Prop :=
  match v with
  | JNumber x => f64_valid x = true ∧ is_nan x = false
  | JString s => Forall (λ c, 0 < c < 256) s
  | _ => True
  end.

(** ** The image *)

Definition dp_size (d : dp_desc_t) : Z := dp_type_size (dd_type d).

(** The bytes of a field, at [base + off]. *)
Definition dp_raw_get (img : list Z) (d : dp_desc_t) : res (list Z) :=
  array_read img (dd_off d) (dp_size d).
Definition dp_raw_set (img : list Z) (d : dp_desc_t) (bytes : list Z) : res (list Z) :=
  array_write img (dd_off d) bytes.

(** The field of a point named in the code. *)
Definition dp_ref (img : list Z) (name : string) : res (list Z) :=
  d ← of_option (dp_find name); dp_raw_get img d.
Definition ref_f32 (img : list Z) (name : string) : res f32 :=
  b ← dp_ref img name; Ok (f32_of_bits (le_get b)).
Definition ref_uint (img : list Z) (name : string) : res Z :=
  b ← dp_ref img name; Ok (le_get b).
Definition dp_ref_set (img : list Z) (name : string) (bytes : list Z) : res (list Z) :=
  d ← of_option (dp_find name); dp_raw_set img d bytes.

Record dp_state := mk_dp {
  g_dp_store : list Z;
  s_last : list Z;
  s_cfg_off : Z;
  s_cfg_size : Z
}.
#[export] Instance eta_dp_state : Eta dp_state := λ r, mk_dp (g_dp_store r) (s_last r)
      (s_cfg_off r) (s_cfg_size r).
#[export] Instance set_g_dp_store : Setter g_dp_store. Proof. mk_setter. Defined.
#[export] Instance set_s_last : Setter s_last. Proof. mk_setter. Defined.

(** ** The JSON codec *)

Definition hex_digit (v : Z) : Z := if v <? 10 then 48 + v else 55 + v.

(** [snprintf] with "%016llX". *)
Definition hex16 (v : Z) : list Z :=
  map (λ i, hex_digit ((v / 16 ^ Z.of_nat i) mod 16)) (rev (seq 0 16)).

Definition dp_value_to_json (d : dp_desc_t) (img : list Z) : res json :=
  p ← dp_raw_get img d;
  match dd_type d with
  | DP_BOOL => Ok (JBool (negb (le_get p =? 0)))
  | DP_U8 | DP_ENUM | DP_U16 | DP_U32 => Ok (JNumber (f64_of_Z (le_get p)))
  | DP_I8 => Ok (JNumber (f64_of_Z (i8 (le_get p))))
  | DP_I16 => Ok (JNumber (f64_of_Z (i16 (le_get p))))
  | DP_I32 => Ok (JNumber (f64_of_Z (i32 (le_get p))))
  | DP_F32 => Ok (JNumber (f64_of_f32 (f32_of_bits (le_get p))))
  | DP_U64 => Ok (JString (hex16 (le_get p)))
  | DP_STR => s ← c_string (drop (Z.to_nat (dd_off d)) img); Ok (JString s)
  end.

(** The conversion of a [double] to an integer type: undefined out of range. *)
Definition cast_int (t : dp_type_t) (num : f64) : res (list Z) :=
  match f64_trunc num, dp_int_range t with
  | Some z, Some (a, b) =>
      if (a <=? z) && (z <=? b) then Ok (le_put (Z.to_nat (dp_type_size t)) z) else OutOfBounds
  | _, _ => OutOfBounds
  end.

(** [strtoull] with base 0: spaces, a sign, a prefix, digits; the value saturates.
    The result is the value and the rest, [None] when there is no digit. *)
Definition digit_of (c : Z) : Z :=
  if (48 <=? c) && (c <=? 57) then c - 48
  else if (97 <=? c) && (c <=? 122) then c - 87
  else if (65 <=? c) && (c <=? 90) then c - 55 else 99.

Fixpoint digits (base acc : Z) (s : list Z) : Z * list Z :=
  match s with
  | c :: r => if digit_of c <? base then digits base (acc * base + digit_of c) r else (acc, s)
  | [] => (acc, s)
  end.

Fixpoint skip_space (s : list Z) : list Z :=
  match s with
  | c :: r => if (c =? 32) || ((9 <=? c) && (c <=? 13)) then skip_space r else s
  | [] => s
  end.

Definition strtoull (s : list Z) : option (Z * list Z) :=
  let s := skip_space s in
  let '(neg, s) := match s with
                   | 45 :: r => (true, r) | 43 :: r => (false, r) | _ => (false, s) end in
  let '(base, s) := match s with
                    | 48 :: x :: h :: r =>
                        if ((x =? 120) || (x =? 88)) && (digit_of h <? 16) then (16, h :: r) else (8, s)
                    | 48 :: _ => (8, s)
                    | _ => (10, s)
                    end in
  match s with
  | c :: _ =>
      if digit_of c <? base then
        let '(v, rest) := digits base 0 s in
        Some (if v <? 2 ^ 64 then (if neg : bool then u64 (- v) else v) else 2 ^ 64 - 1, rest)
      else None
  | [] => None
  end.



(** The error code, or the bytes of the slot. *)
Definition dp_value_from_json (d : dp_desc_t) (v : json) : res (string + list Z) :=
  match dd_type d with
  | DP_BOOL =>
      match v with JBool b => Ok (inr [if b then 1 else 0]) | _ => Ok (inl "type_mismatch") end
  | DP_U64 =>
      match v with
      | JString s =>
          match strtoull s with
          | Some (x, []) => Ok (inr (le_put 8 x))
          | _ => Ok (inl "type_mismatch")
          end
      | _ => Ok (inl "type_mismatch")
      end
  | DP_STR =>
      match v with
      | JString s =>
          if DP_STR_MAX <=? zlen s then Ok (inl "too_long")
          else Ok (inr (s ++ replicate (Z.to_nat (DP_STR_MAX - zlen s)) 0)%list)
      | _ => Ok (inl "type_mismatch")
      end
  | ty =>
      match v with
      | JNumber num =>
          if negb (is_nan (dd_min d)) && f64_lt num (f64_of_f32 (dd_min d)) then Ok (inl "out_of_range")
          else if negb (is_nan (dd_max d)) && f64_lt (f64_of_f32 (dd_max d)) num
          then Ok (inl "out_of_range")
          else match ty with
               | DP_F32 => Ok (inr (le_put 4 (f32_bits (f32_of_f64 num))))
               | _ => b ← cast_int ty num; Ok (inr b)
               end
      | _ => Ok (inl "type_mismatch")
      end
  end.

(** ** Reading *)

Fixpoint read_all (img : list Z) (ds : list dp_desc_t) : res (list (string * json)) :=
  match ds with
  | [] => Ok []
  | d :: ds => v ← dp_value_to_json d img; r ← read_all img ds; Ok ((dd_name d, v) :: r)
  end.

(** The requested names that are strings, as written; the values found and the
    unknown names. *)
Fixpoint read_names (img : list Z) (names : list string) : res (list (string * json) * list string) :=
  match names with
  | [] => Ok ([], [])
  | n :: names =>
      match dp_find n with
      | Some d =>
          v ← dp_value_to_json d img; r ← read_names img names; Ok ((dd_name d, v) :: r.1, r.2)
      | None => r ← read_names img names; Ok (r.1, n :: r.2)
      end
  end.

(** The elements of the array are strings or something else; an empty array (and
    a null pointer) asks for everything. *)
Definition dp_read_into (s : dp_state) (names : list (option string))
    : res (list (string * json) * list string) :=
  match names with
  | [] => r ← read_all (g_dp_store s) g_dp; Ok (r, [])
  | _ => read_names (g_dp_store s) (omap id names)
  end.

(** ** The batch write *)

(** [Some bad]: the rule of point [bad] is violated. *)
Definition dp_constraints_ok (img : list Z) : res (option string) :=
  min_p ← ref_f32 img "Fon_Min_Pressure";
  max_p ← ref_f32 img "Fon_Max_Pressure";
  if negb (f32_lt min_p max_p) then Ok (Some "Fon_Max_Pressure") else
  high ← ref_f32 img "Fon_Alert_High_Pressure";
  if negb (f32_lt max_p high) then Ok (Some "Fon_Alert_High_Pressure") else
  low ← ref_f32 img "Fon_Alert_Low_Pressure";
  if negb (f32_lt low min_p) then Ok (Some "Fon_Alert_Low_Pressure") else
  max_on ← ref_uint img "Fon_Max_On_Time";
  if max_on <? 10 then Ok (Some "Fon_Max_On_Time") else
  min_on ← ref_uint img "Fon_Min_On_Time";
  if negb (min_on <? max_on) then Ok (Some "Fon_Min_On_Time") else
  dry ← ref_uint img "Fon_Dry_Run_Detect_Time";
  if negb (dry <? max_on) then Ok (Some "Fon_Dry_Run_Detect_Time") else
  rep ← ref_uint img "Fon_Report_Interval";
  if (rep <? 1) || (3600 <? rep) then Ok (Some "Fon_Report_Interval") else
  rate ← ref_uint img "Can_Bitrate";
  if bool_decide (rate ∈ [10; 20; 50; 100; 125; 250; 500; 800; 1000]) then Ok None
  else Ok (Some "Can_Bitrate").

(** A member of the object: its key (null for an array element) and its value. *)
Definition dp_item : Type := option string * json.

Definition item_key (it : dp_item) : string := default "?" it.1.

(** Validation of the items into the private copy, and the errors. *)
Fixpoint validate_items (items : list dp_item) (tmp : list Z) : res (list Z * list (string * string)) :=
  match items with
  | [] => Ok (tmp, [])
  | it :: items =>
      match dp_find (item_key it) with
      | None =>
          r ← validate_items items tmp; Ok (r.1, (item_key it, "unknown_name") :: r.2)
      | Some d =>
          if negb (bool_decide (dd_access d = DP_RW)) then
            r ← validate_items items tmp; Ok (r.1, (item_key it, "read_only") :: r.2)
          else
            v ← dp_value_from_json d it.2;
            match v with
            | inl err => r ← validate_items items tmp; Ok (r.1, (item_key it, err) :: r.2)
            | inr bytes => tmp ← dp_raw_set tmp d bytes; validate_items items tmp
            end
      end
  end.

(** The written fields are copied from the private copy. *)
Fixpoint commit_items (items : list dp_item) (tmp live : list Z) : res (list Z) :=
  match items with
  | [] => Ok live
  | it :: items =>
      match dp_find (item_key it) with
      | Some d =>
          if bool_decide (dd_access d = DP_RW) then
            b ← dp_raw_get tmp d; live ← dp_raw_set live d b; commit_items items tmp live
          else commit_items items tmp live
      | None => commit_items items tmp live
      end
  end.

(** The locked transaction.  [snap] is the image at its begin, [live] the image at
    the commit: measurement points are written without the lock. *)
Definition dp_write_locked (snap live : list Z) (items : list dp_item)
    : res (bool * list (string * string) * list Z) :=
  r ← validate_items items snap;
  let '(tmp, errs) := r in
  match errs with
  | [] =>
      bad ← dp_constraints_ok tmp;
      match bad with
      | Some b => Ok (false, [(b, "constraint_violation")], live)
      | None => live ← commit_items items tmp live; Ok (true, [], live)
      end
  | _ => Ok (false, errs, live)
  end.

(** ** Reports *)

Definition is_volatile (d : dp_desc_t) : bool := bool_decide (dd_persist d = DP_VOLATILE).

Definition dp_report_full_noreset (s : dp_state) : res (list (string * json)) :=
  read_all (g_dp_store s) (filter is_volatile g_dp).

Definition dp_report_full (s : dp_state) : res (list (string * json) * dp_state) :=
  r ← read_all (g_dp_store s) (filter is_volatile g_dp); Ok (r, s <| s_last := g_dp_store s |>).

Definition has_deadband (d : dp_desc_t) : bool := f32_gt (dd_deadband d) f32_zero.

Definition on_change_eligible (d : dp_desc_t) : bool :=
  bool_decide (dd_type d = DP_BOOL) || bool_decide (dd_type d = DP_ENUM) || has_deadband d.

Definition point_changed (d : dp_desc_t) (cur last : list Z) : bool :=
  if has_deadband d && bool_decide (dd_type d = DP_F32)
  then f32_ge (f32_abs (f32_sub (f32_of_bits (le_get cur)) (f32_of_bits (le_get last)))) (dd_deadband d)
  else negb (bool_decide (cur = last)).

Fixpoint changes_from (snap last : list Z) (ds : list dp_desc_t) : res (list (string * json) * list Z) :=
  match ds with
  | [] => Ok ([], last)
  | d :: ds =>
      if negb (is_volatile d) then changes_from snap last ds
      else if negb (on_change_eligible d) then changes_from snap last ds
      else
        cur ← dp_raw_get snap d;
        old ← dp_raw_get last d;
        if point_changed d cur old then
          v ← dp_value_to_json d snap;
          last ← dp_raw_set last d cur;
          r ← changes_from snap last ds; Ok ((dd_name d, v) :: r.1, r.2)
        else changes_from snap last ds
  end.

Definition dp_report_changes (s : dp_state) : res (list (string * json) * dp_state) :=
  r ← changes_from (g_dp_store s) (s_last s) g_dp; Ok (r.1, s <| s_last := r.2 |>).

(** ** Persistence *)

(** The NVS namespace, by the calls the store makes: blobs and integers under
    keys, with the answer of a write. *)
Class NvsApi (nvs : Type) := {
  nvs_get_blob : nvs → string → option (list Z);
  nvs_get_u16 : nvs → string → option Z;
  nvs_set_blob : nvs → string → list Z → esp_err * nvs;
  nvs_erase_key : nvs → string → nvs
}.

(** A write that succeeds is read back, and no write touches another key. *)
Class NvsLaws (nvs : Type) `{!NvsApi nvs} : Prop := {
  nvs_set_get : ∀ n k v n', nvs_set_blob n k v = (ESP_OK, n') → nvs_get_blob n' k = Some v;
  nvs_set_other : ∀ n k v k', k' ≠ k → nvs_get_blob (nvs_set_blob n k v).2 k' = nvs_get_blob n k'
}.

Section persistence.
Context {nvs : Type} `{!NvsApi nvs}.

Definition dp_nvs_key (d : dp_desc_t) : string := "d" +:+ pretty (dd_nvs_id d).

Definition is_persisted (d : dp_desc_t) : bool :=
  bool_decide (dd_persist d = DP_NVS) && negb (dd_nvs_id d =? 0).

(** The loop stops at the first error; what was set before it stays. *)
Fixpoint save_points (n : nvs) (snap : list Z) (ds : list dp_desc_t) : res (esp_err * nvs) :=
  match ds with
  | [] => Ok (ESP_OK, n)
  | d :: ds =>
      if negb (is_persisted d) then save_points n snap ds else
      b ← dp_raw_get snap d;
      match nvs_set_blob n (dp_nvs_key d) b with
      | (ESP_OK, n) => save_points n snap ds
      | (e, n) => Ok (e, n)
      end
  end.

(** [opened] and [committed] are the answers of [nvs_open] and [nvs_commit]. *)
Definition dp_config_save (s : dp_state) (n : nvs) (opened committed : esp_err) : res (esp_err * nvs) :=
  match opened with
  | ESP_OK =>
      r ← save_points n (g_dp_store s) g_dp;
      Ok (match r.1 with ESP_OK => committed | e => e end, r.2)
  | e => Ok (e, n)
  end.

(** Result, errors, persisted flag: the whole [dp_write_batch]. *)
Definition dp_write_batch (s : dp_state) (n : nvs) (live : list Z) (items : list dp_item)
    (opened committed : esp_err) : res (bool * list (string * string) * bool * dp_state * nvs) :=
  r ← dp_write_locked (g_dp_store s) live items;
  let '(ok, errs, live) := r in
  let s := s <| g_dp_store := live |> in
  if negb ok then Ok (false, errs, true, s, n) else
  e ← dp_config_save s n opened committed;
  Ok (true, errs, match e.1 with ESP_OK => true | _ => false end, s, e.2).

Definition dp_slot_as_double (d : dp_desc_t) (p : list Z) : option f64 :=
  match dd_type d with
  | DP_BOOL | DP_U8 | DP_ENUM | DP_U16 | DP_U32 => Some (f64_of_Z (le_get p))
  | DP_I8 => Some (f64_of_Z (i8 (le_get p)))
  | DP_I16 => Some (f64_of_Z (i16 (le_get p)))
  | DP_I32 => Some (f64_of_Z (i32 (le_get p)))
  | DP_F32 => Some (f64_of_f32 (f32_of_bits (le_get p)))
  | DP_U64 | DP_STR => None
  end.

(** The range check of the load. *)
Definition slot_out_of_range (d : dp_desc_t) (p : list Z) : bool :=
  match dp_slot_as_double d p with
  | Some num =>
      (negb (is_nan (dd_min d)) && f64_lt num (f64_of_f32 (dd_min d))) ||
      (negb (is_nan (dd_max d)) && f64_lt (f64_of_f32 (dd_max d)) num)
  | None => false
  end.

(** A string is terminated at its last byte. *)
Definition terminate (d : dp_desc_t) (p : list Z) : list Z :=
  if bool_decide (dd_type d = DP_STR) then <[Z.to_nat (DP_STR_MAX - 1) := 0]> p else p.

(** A blob larger than the buffer of DP_STR_MAX bytes is refused by NVS. *)
Definition load_point (n : nvs) (d : dp_desc_t) : option (list Z) :=
  b ← nvs_get_blob n (dp_nvs_key d);
  if DP_STR_MAX <? zlen b then None
  else if negb (zlen b =? dp_size d) then None
  else if slot_out_of_range d b then None
  else Some (terminate d b).

Fixpoint load_points (n : nvs) (img : list Z) (ds : list dp_desc_t) : res (list Z) :=
  match ds with
  | [] => Ok img
  | d :: ds =>
      if negb (is_persisted d) then load_points n img ds else
      match load_point n d with
      | Some b => img ← dp_raw_set img d b; load_points n img ds
      | None => load_points n img ds
      end
  end.

Definition dp_config_load (s : dp_state) (n : nvs) (opened : bool) : res dp_state :=
  if negb opened then Ok s
  else img ← load_points n (g_dp_store s) g_dp; Ok (s <| g_dp_store := img |>).

Definition DP_CFG_VERSION : Z := 7.

(** The one-time adoption of the legacy blob.  [opened] answers the two
    [nvs_open] calls, [saved] the open and commit of the save in between. *)
Definition dp_config_migrate_blob (s : dp_state) (n : nvs) (opened : bool * bool)
    (saved : esp_err * esp_err) : res (dp_state * nvs) :=
  if negb opened.1 then Ok (s, n) else
  match nvs_get_u16 n "ver", nvs_get_blob n "cfg" with
  | Some ver, Some blob =>
      if (ver =? DP_CFG_VERSION) && (zlen blob =? s_cfg_size s) then
        img ← array_write (g_dp_store s) (s_cfg_off s) blob;
        let s := s <| g_dp_store := img |> in
        e ← dp_config_save s n saved.1 saved.2;
        Ok (s, if opened.2 then nvs_erase_key (nvs_erase_key e.2 "cfg") "ver" else e.2)
      else Ok (s, nvs_erase_key (nvs_erase_key n "cfg") "ver")
  | _, _ => Ok (s, n)
  end.

(** ** Initialisation *)

Definition cfg_bounds : Z * Z :=
  foldl (λ '(lo, hi) d,
           if negb (bool_decide (dd_persist d = DP_NVS)) then (lo, hi)
           else (Z.min lo (dd_off d), Z.max hi (dd_off d + dp_size d)))
        (4294967295, 0) g_dp.

Definition dp_compute_cfg_region (s : dp_state) : dp_state :=
  let '(lo, hi) := cfg_bounds in
  if lo =? 4294967295 then mk_dp (g_dp_store s) (s_last s) 0 0
  else mk_dp (g_dp_store s) (s_last s) (u16 lo) (u16 (hi - lo)).

(** [DP_ASSIGN_*]: the constant converted to the field's type. *)
Definition const_bytes (t : dp_type_t) (c : dp_const) : list Z :=
  match t, c with
  | DP_F32, CFlt a => le_put 4 (f32_bits a)
  | DP_F32, CInt z => le_put 4 (f32_bits (f32_of_Z z))
  | _, CInt z => le_put (Z.to_nat (dp_type_size t)) z
  | _, CFlt a => le_put (Z.to_nat (dp_type_size t)) (default 0 (f32_trunc a))
  end.

Fixpoint set_defaults (rows : list dp_row) (img : list Z) : res (list Z) :=
  match rows with
  | [] => Ok img
  | r :: rows =>
      if negb (bool_decide (dr_persist r = DP_NVS)) || bool_decide (dr_type r = DP_STR)
      then set_defaults rows img
      else img ← dp_ref_set img (dr_name r) (const_bytes (dr_type r) (dr_default r)); set_defaults rows img
  end.

Definition dp_set_defaults (img : list Z) : res (list Z) := set_defaults dp_list img.

Record dp_identity_t := mk_identity {
  di_serial : Z;
  di_hw_version : option (list Z);
  di_sw_version : option (list Z);
  di_build_ms : Z
}.

(** [strncpy] of at most 63 characters, padded, and the terminator. *)
Definition copy_string (s : list Z) : list Z :=
  let t := take (Z.to_nat (DP_STR_MAX - 1)) s in
  (t ++ replicate (Z.to_nat DP_STR_MAX - length t) 0)%list.

Definition set_identity (img : list Z) (i : dp_identity_t) : res (list Z) :=
  img ← dp_ref_set img "Device_Serial_Number" (le_put 8 (di_serial i));
  img ← match di_hw_version i with
        | Some v => dp_ref_set img "Device_HW_Version" (copy_string v) | None => Ok img end;
  img ← match di_sw_version i with
        | Some v => dp_ref_set img "Device_SW_Version" (copy_string v) | None => Ok img end;
  dp_ref_set img "Device_Build_Version" (le_put 8 (di_build_ms i)).

(** [n] is the namespace after [nvs_flash_init]. *)
Definition dp_init (n : nvs) (i : option dp_identity_t) (opened : bool * bool) (load_opened : bool)
    (saved : esp_err * esp_err) : res (dp_state * nvs) :=
  let s := mk_dp (replicate (Z.to_nat dp_image_size) 0) [] 0 0 in
  let s := dp_compute_cfg_region s in
  img ← dp_set_defaults (g_dp_store s);
  r ← dp_config_migrate_blob (s <| g_dp_store := img |>) n opened saved;
  s ← dp_config_load r.1 r.2 load_opened;
  img ← match i with Some i => set_identity (g_dp_store s) i | None => Ok (g_dp_store s) end;
  Ok (s <| g_dp_store := img |> <| s_last := img |>, r.2).

(** The three heap figures. *)
Definition dp_refresh (s : dp_state) (free min_free largest : Z) : res dp_state :=
  img ← dp_ref_set (g_dp_store s) "System_Memory_Free" (le_put 4 free);
  img ← dp_ref_set img "System_Min_Memory_Free" (le_put 4 min_free);
  img ← dp_ref_set img "System_Largest_Free_Block" (le_put 4 largest);
  Ok (s <| g_dp_store := img |>).

End persistence.
