(* ===== verification/DpProps.v ===== *)
(** * Properties of the datapoint store

    The slots of the image, the meaning of a batch and its atomicity, the type
    invariant of every reachable store, and the persistence round trip, over the
    definitions of Datapoints; then an NVS with limited room for executions. *)

From Stdlib Require Import SpecFloat.
From stdpp Require Import pretty gmap.
From S2P Require Import Prelude Bytes Float32 Float64 DpCatalog Datapoints.
Local Open Scope string_scope.
Local Open Scope Z_scope.

(** Proofs treat the catalogue as a symbol. *)
#[global] Opaque g_dp dp_image_size.

(** ** Slots

    A well-formed image has the size of the struct and holds bytes. *)

Definition img_ok (img : list Z) : Prop := zlen img = dp_image_size ∧ Forall is_u8 img.

(** The bytes of a point, and the image with other bytes there. *)
Definition slot_bytes (img : list Z) (d : dp_desc_t) : list Z :=
  take (Z.to_nat (dp_size d)) (drop (Z.to_nat (dd_off d)) img).
Definition slot_put (img : list Z) (d : dp_desc_t) (b : list Z) : list Z :=
  list_inserts (Z.to_nat (dd_off d)) b img.

Lemma dp_size_pos d : 0 < dp_size d.
Proof. unfold dp_size. by destruct (dd_type d). Qed.

Lemma raw_get_sized img d : zlen img = dp_image_size → d ∈ g_dp → dp_raw_get img d = Ok (slot_bytes img d).
Proof.
  intros Hl [H1 H2]%desc_slot. pose proof (dp_size_pos d). unfold dp_size, zlen in *.
  unfold dp_raw_get, dp_size. by rewrite array_read_ok by lia.
Qed.

Lemma raw_set_sized img d b :
  zlen img = dp_image_size → d ∈ g_dp → zlen b = dp_size d → dp_raw_set img d b = Ok (slot_put img d b).
Proof.
  intros Hl [H1 H2]%desc_slot Hb. unfold dp_size, zlen in *.
  unfold dp_raw_set. by rewrite array_write_ok by lia.
Qed.

Lemma slot_bytes_sized img d : zlen img = dp_image_size → d ∈ g_dp → zlen (slot_bytes img d) = dp_size d.
Proof.
  intros Hl [H1 H2]%desc_slot. pose proof (dp_size_pos d). unfold slot_bytes, zlen, dp_size in *.
  rewrite length_take, length_drop. lia.
Qed.

Lemma slot_put_same_sized img d b :
  zlen img = dp_image_size → d ∈ g_dp → zlen b = dp_size d → slot_bytes (slot_put img d b) d = b.
Proof.
  intros Hl [H1 H2]%desc_slot Hb. pose proof (dp_size_pos d). unfold dp_size, zlen in *.
  apply list_eq. intros i. unfold slot_bytes, slot_put, dp_size.
  destruct (decide (i < length b)%nat).
  - rewrite lookup_take_lt, lookup_drop by lia. rewrite list_lookup_inserts by lia. f_equal. lia.
  - rewrite lookup_take_ge by lia. symmetry. apply lookup_ge_None_2. lia.
Qed.

Lemma slot_put_other_sized img d b d' :
  zlen img = dp_image_size → d ∈ g_dp → d' ∈ g_dp → d' ≠ d → zlen b = dp_size d →
  slot_bytes (slot_put img d b) d' = slot_bytes img d'.
Proof.
  intros Hl Hd Hd' Hne Hb. pose proof (desc_disjoint d' d Hd' Hd Hne) as Hdj.
  pose proof (desc_slot d Hd). pose proof (desc_slot d' Hd').
  pose proof (dp_size_pos d). pose proof (dp_size_pos d'). unfold dp_size, zlen in *.
  apply list_eq. intros i. unfold slot_bytes, slot_put, dp_size.
  destruct (decide (i < Z.to_nat (dp_type_size (dd_type d')))%nat); [|by rewrite !lookup_take_ge by lia].
  rewrite !lookup_take_lt, !lookup_drop by lia.
  destruct Hdj; [apply list_lookup_inserts_lt|apply list_lookup_inserts_ge]; lia.
Qed.

Lemma raw_get_ok img d : img_ok img → d ∈ g_dp → dp_raw_get img d = Ok (slot_bytes img d).
Proof. intros [Hl _]. by apply raw_get_sized. Qed.

Lemma raw_set_ok img d b :
  img_ok img → d ∈ g_dp → zlen b = dp_size d → dp_raw_set img d b = Ok (slot_put img d b).
Proof. intros [Hl _]. by apply raw_set_sized. Qed.

Lemma slot_put_ok img d b : img_ok img → Forall is_u8 b → img_ok (slot_put img d b).
Proof.
  intros [Hl Hb] H. split; unfold slot_put.
  - unfold zlen in *. by rewrite length_inserts.
  - apply Forall_forall. intros x [i Hi]%list_elem_of_lookup.
    apply list_lookup_inserts_Some in Hi as [[_ Hi]|(_ & _ & Hi)].
    + exact (Forall_lookup_1 _ _ _ _ Hb Hi).
    + exact (Forall_lookup_1 _ _ _ _ H Hi).
Qed.

Lemma slot_bytes_len img d : img_ok img → d ∈ g_dp → zlen (slot_bytes img d) = dp_size d.
Proof. intros [Hl _]. by apply slot_bytes_sized. Qed.

Lemma slot_bytes_u8 img d : img_ok img → Forall is_u8 (slot_bytes img d).
Proof. intros [_ H]. by apply Forall_take, Forall_drop. Qed.

Lemma slot_put_same img d b :
  img_ok img → d ∈ g_dp → zlen b = dp_size d → slot_bytes (slot_put img d b) d = b.
Proof. intros [Hl _]. by apply slot_put_same_sized. Qed.

Lemma slot_put_other img d b d' :
  img_ok img → d ∈ g_dp → d' ∈ g_dp → d' ≠ d → zlen b = dp_size d →
  slot_bytes (slot_put img d b) d' = slot_bytes img d'.
Proof. intros [Hl _]. by apply slot_put_other_sized. Qed.

(** Images that agree on every slot of a point give the same field. *)
Lemma dp_ref_slot img name d :
  img_ok img → dp_find name = Some d → dp_ref img name = Ok (slot_bytes img d).
Proof.
  intros Hi Hd. unfold dp_ref. rewrite Hd. cbn. apply raw_get_ok; [done|].
  by apply dp_find_some in Hd as [? _].
Qed.

(** ** The codec is total *)

Lemma cast_int_ok d num :
  d ∈ g_dp → dd_access d = DP_RW → is_Some (dp_int_range (dd_type d)) →
  f64_valid num = true → is_nan num = false →
  negb (is_nan (dd_min d)) && f64_lt num (f64_of_f32 (dd_min d)) = false →
  negb (is_nan (dd_max d)) && f64_lt (f64_of_f32 (dd_max d)) num = false →
  ∃ z l h, f64_trunc num = Some z ∧ f64_trunc (f64_of_f32 (dd_min d)) = Some l ∧
    f64_trunc (f64_of_f32 (dd_max d)) = Some h ∧ l <= z <= h ∧
    cast_int (dd_type d) num = Ok (le_put (Z.to_nat (dp_size d)) z).
Proof.
  intros Hd Hrw [[a b] Hr] Hv Hn H1 H2. pose proof (desc_bounds d Hd) as Hb.
  unfold bounds_ok in Hb. rewrite Hrw, Hr, !andb_true_iff in Hb.
  destruct Hb as [[[[Hv1 Hv2] Hn1] Hn2] Hb]. rewrite Hn1 in H1. rewrite Hn2 in H2.
  cbn [andb] in H1, H2.
  destruct (f64_trunc (f64_of_f32 (dd_min d))) as [l|] eqn:El; [|done].
  destruct (f64_trunc (f64_of_f32 (dd_max d))) as [h|] eqn:Eh; [|done].
  apply andb_true_iff in Hb as [Hl%Z.leb_le Hh%Z.leb_le].
  destruct (f64_trunc_between num _ _ l h Hv Hv1 Hv2 Hn H1 H2 El Eh) as (z & Hz & Hlh).
  exists z, l, h. split_and!; try done; try lia. unfold cast_int. rewrite Hz, Hr.
  by rewrite (proj2 (Z.leb_le a z)), (proj2 (Z.leb_le z b)) by lia.
Qed.

(** A value for a writable point is refused or converted to the bytes of its
    slot; no conversion is undefined. *)
Lemma value_from_json_ok d v :
  d ∈ g_dp → dd_access d = DP_RW → json_ok v →
  ∃ r, dp_value_from_json d v = Ok r ∧
    match r with inl _ => True | inr b => zlen b = dp_size d ∧ Forall is_u8 b end.
Proof.
  intros Hd Hrw Hv. unfold dp_value_from_json, dp_size.
  assert (∀ n z, zlen (le_put n z) = Z.of_nat n) as Hle by (intros; unfold zlen; by rewrite length_le_put).
  destruct (dd_type d) eqn:Et, v as [bb|num|s|]; try (by eexists; split; [reflexivity|done]).
  2-4, 6-10: (destruct Hv as [Hv Hn]; destruct (negb (is_nan (dd_min d)) && _) eqn:E1; [by eexists|];
    destruct (negb (is_nan (dd_max d)) && _) eqn:E2; [by eexists|]).
  2-7, 9: destruct (cast_int_ok d num Hd Hrw) as (z & l & h & _ & _ & _ & _ & Hc);
    [rewrite Et; eexists; reflexivity|done..|rewrite Et in Hc; rewrite Hc; eexists; split; [reflexivity|]; cbv beta iota;
     rewrite Hle; split; [by unfold dp_size; rewrite Et|apply le_put_bytes]].
  - exists (inr [if bb then 1 else 0]). split; [done|]. split; [done|].
    apply Forall_singleton. destruct bb; done.
  - eexists; split; [reflexivity|]. cbv beta iota. split; [by rewrite Hle|apply le_put_bytes].
  - destruct (strtoull s) as [[x [|]]|]; [|by eexists..]. eexists; split; [reflexivity|]. cbv beta iota.
    split; [by rewrite Hle|apply le_put_bytes].
  - destruct (Z.leb_spec DP_STR_MAX (zlen s)) as [|Hlt]; [by eexists|]. eexists; split; [reflexivity|]. cbv beta iota.
    unfold dp_type_size, zlen in *. rewrite length_app, length_replicate. split; [unfold DP_STR_MAX in *; lia|].
    apply Forall_app_2; [|by apply Forall_replicate].
    eapply Forall_impl; [exact Hv|]. unfold is_u8. lia.
Qed.

(** ** What a batch means

    The verdict on one item, the errors of a batch, the bytes it writes to a point
    (the last item wins), and the image with them. *)

Definition item_ok (it : dp_item) : Prop := json_ok it.2.

Definition item_verdict (it : dp_item) : res (string + dp_desc_t * list Z) :=
  match dp_find (item_key it) with
  | None => Ok (inl "unknown_name")
  | Some d =>
      if negb (bool_decide (dd_access d = DP_RW)) then Ok (inl "read_only")
      else v ← dp_value_from_json d it.2; Ok (match v with inl e => inl e | inr b => inr (d, b) end)
  end.

Definition verdict (it : dp_item) : string + dp_desc_t * list Z :=
  match item_verdict it with Ok v => v | _ => inl "" end.

Definition errors_of (items : list dp_item) : list (string * string) :=
  omap (λ it, match verdict it with inl e => Some (item_key it, e) | inr _ => None end) items.

Fixpoint written (items : list dp_item) (d : dp_desc_t) : option (list Z) :=
  match items with
  | [] => None
  | it :: items =>
      match written items d, verdict it with
      | Some b, _ => Some b
      | None, inr (d', b) => if decide (d' = d) then Some b else None
      | None, inl _ => None
      end
  end.

Fixpoint overlay (img : list Z) (items : list dp_item) : list Z :=
  match items with
  | [] => img
  | it :: items => overlay (match verdict it with inr (d, b) => slot_put img d b | inl _ => img end) items
  end.

Lemma errors_of_cons it items :
  errors_of (it :: items) =
  match verdict it with inl e => (item_key it, e) :: errors_of items | inr _ => errors_of items end.
Proof. unfold errors_of. cbn. by destruct (verdict it). Qed.

Lemma verdict_ok it :
  item_ok it → item_verdict it = Ok (verdict it) ∧
  match verdict it with
  | inl _ => True
  | inr (d, b) => dp_find (item_key it) = Some d ∧ dd_access d = DP_RW ∧
                  dp_value_from_json d it.2 = Ok (inr b) ∧ zlen b = dp_size d ∧ Forall is_u8 b
  end.
Proof.
  intros Hj. unfold verdict, item_verdict. destruct (dp_find (item_key it)) as [d|] eqn:Hf; [|done].
  pose proof (proj1 (dp_find_some _ _) Hf) as [Hd _].
  case_bool_decide as Hrw; [|done]. cbn [negb].
  destruct (value_from_json_ok d it.2 Hd Hrw Hj) as (v & Ev & Hv). rewrite Ev. cbn.
  split; [done|]. destruct v; [done|]. by destruct Hv.
Qed.

Lemma verdict_in it d b :
  item_ok it → verdict it = inr (d, b) → d ∈ g_dp ∧ zlen b = dp_size d ∧ Forall is_u8 b.
Proof.
  intros [_ H]%verdict_ok Hv. rewrite Hv in H. destruct H as (Hf & _ & _ & Hb).
  by apply dp_find_some in Hf as [? _].
Qed.

Lemma overlay_ok items : ∀ img, img_ok img → Forall item_ok items → img_ok (overlay img items).
Proof.
  induction items as [|it items IH]; intros img Hi Hit; [done|].
  apply Forall_cons in Hit as [Hj Hit]. cbn [overlay]. apply IH; [|done].
  destruct (verdict it) as [|[d b]] eqn:E; [done|].
  apply (verdict_in it d b Hj) in E as (_ & _ & Hb). by apply slot_put_ok.
Qed.

Lemma overlay_slot items : ∀ img d,
  img_ok img → Forall item_ok items → d ∈ g_dp →
  slot_bytes (overlay img items) d = default (slot_bytes img d) (written items d).
Proof.
  induction items as [|it items IH]; intros img d Hi Hit Hd; [done|].
  apply Forall_cons in Hit as [Hj Hit]. cbn [overlay written].
  destruct (verdict it) as [|[d' b]] eqn:E.
  - rewrite IH by done. by destruct (written items d).
  - apply (verdict_in it d' b Hj) in E as (Hd' & Hl & Hb).
    rewrite IH by (try apply slot_put_ok; done). destruct (written items d); [done|].
    cbn. case_decide as Ed; [subst; by rewrite slot_put_same|].
    by rewrite slot_put_other by (done || congruence).
Qed.

Lemma validate_items_ok items : ∀ img,
  img_ok img → Forall item_ok items →
  validate_items items img = Ok (overlay img items, errors_of items).
Proof.
  induction items as [|it items IH]; intros img Hi Hit; [done|].
  apply Forall_cons in Hit as [Hj Hit].
  pose proof (verdict_ok it Hj) as [Hv Hd]. cbn [validate_items overlay]. rewrite errors_of_cons.
  revert Hv. unfold item_verdict. destruct (dp_find (item_key it)) as [d|] eqn:Hf.
  - destruct (negb (bool_decide (dd_access d = DP_RW))).
    + intros [= <-]. by rewrite IH.
    + destruct (dp_value_from_json d it.2) as [v| |]; [|done..]. cbn. intros [= Hv]. rewrite <- Hv in Hd |- *.
      destruct v as [e|b]; [by rewrite IH|]. destruct Hd as (_ & _ & _ & Hl & Hb).
      apply dp_find_some in Hf as [Hin _]. rewrite raw_set_ok by done. cbn.
      rewrite IH; [done|by apply slot_put_ok|done].
  - intros [= <-]. by rewrite IH.
Qed.

(** Whether the commit copies the point. *)
Definition commits (items : list dp_item) (d : dp_desc_t) : bool :=
  existsb (λ it, bool_decide (dp_find (item_key it) = Some d)) items &&
  bool_decide (dd_access d = DP_RW).

Lemma commit_items_ok items : ∀ tmp live,
  img_ok tmp → img_ok live →
  ∃ live', commit_items items tmp live = Ok live' ∧ img_ok live' ∧
    ∀ d, d ∈ g_dp →
      slot_bytes live' d = if commits items d then slot_bytes tmp d else slot_bytes live d.
Proof.
  induction items as [|it items IH]; intros tmp live Ht Hl; [by exists live|].
  cbn [commit_items]. unfold commits. cbn [existsb].
  destruct (dp_find (item_key it)) as [d|] eqn:Hf.
  - apply dp_find_some in Hf as [Hd _]. case_bool_decide as Hrw.
    + pose proof (slot_bytes_u8 tmp d Ht). pose proof (slot_bytes_len tmp d Ht Hd).
      rewrite raw_get_ok by done. cbn [mbind res_bind]. rewrite raw_set_ok by done. cbn [mbind res_bind].
      destruct (IH tmp (slot_put live d (slot_bytes tmp d)) Ht) as (live' & -> & Hok & Hs);
        [by apply slot_put_ok|]. exists live'. split_and!; [done|done|]. intros d' Hd'.
      rewrite Hs by done. unfold commits. destruct (decide (d' = d)) as [->|E].
      * rewrite (bool_decide_true (Some d = Some d)) by done. rewrite (bool_decide_true (dd_access d = DP_RW)) by done.
        rewrite !andb_true_r. cbn [orb]. rewrite slot_put_same by done. by destruct (existsb _ _).
      * rewrite (bool_decide_false (Some d = Some d')) by congruence. cbn [orb].
        by rewrite slot_put_other by (done || congruence).
    + destruct (IH tmp live Ht Hl) as (live' & -> & Hok & Hs). exists live'. split_and!; [done|done|].
      intros d' Hd'. rewrite Hs by done. unfold commits. destruct (decide (d' = d)) as [->|E];
        [|by rewrite (bool_decide_false (Some d = Some d')) by congruence].
      by rewrite (bool_decide_false (dd_access d = DP_RW)), !andb_false_r by done.
  - destruct (IH tmp live Ht Hl) as (live' & -> & Hok & Hs). exists live'. split_and!; [done|done|].
    intros d' Hd'. rewrite Hs by done. unfold commits.
    by rewrite (bool_decide_false (None = Some d')) by done.
Qed.

(** Without errors the committed points are those the items write. *)
Lemma commits_written items d :
  Forall item_ok items → errors_of items = [] → commits items d = bool_decide (is_Some (written items d)).
Proof.
  assert (bool_decide (is_Some (@None (list Z))) = false) as Hn by (by apply bool_decide_false; intros [? ?]).
  intros Hit. induction Hit as [|it items Hj _ IH]; intros He; [done|].
  revert He. rewrite errors_of_cons.
  pose proof (verdict_ok it Hj) as [_ Hv]. destruct (verdict it) as [|[d' b]] eqn:E; [done|].
  intros He. specialize (IH He). destruct Hv as (Hf & Hrw & _). unfold commits in *. cbn [existsb written].
  rewrite E, Hf. destruct (written items d) eqn:Ew.
  - apply andb_true_iff in IH as [-> ->]. by rewrite orb_true_r.
  - rewrite Hn in IH. destruct (decide (d' = d)) as [Ed|Ed].
    + subst d'. by rewrite (bool_decide_true (Some d = Some d)), (bool_decide_true (dd_access d = DP_RW)) by done.
    + rewrite (bool_decide_false (Some d' = Some d)) by congruence. by rewrite orb_false_l, IH.
Qed.

(** ** Constraints *)

(** The points the rules look at: all of them persistent. *)
Definition constraint_points : list string :=
  ["Fon_Min_Pressure"; "Fon_Max_Pressure"; "Fon_Alert_High_Pressure"; "Fon_Alert_Low_Pressure";
   "Fon_Max_On_Time"; "Fon_Min_On_Time"; "Fon_Dry_Run_Detect_Time"; "Fon_Report_Interval"; "Can_Bitrate"].

Definition persistent_name (name : string) : bool :=
  match dp_find name with Some d => bool_decide (dd_persist d = DP_NVS) | None => false end.

Lemma constraint_points_persistent : forallb persistent_name constraint_points = true.
Proof. vm_compute. reflexivity. Qed.

(** The rules only depend on the persistent points, and reading them succeeds. *)
Lemma constraint_ref a b name :
  img_ok a → img_ok b → (∀ d, d ∈ g_dp → dd_persist d = DP_NVS → slot_bytes a d = slot_bytes b d) →
  name ∈ constraint_points → ∃ v, dp_ref a name = Ok v ∧ dp_ref b name = Ok v.
Proof.
  intros Ha Hb Hab Hn. pose proof constraint_points_persistent as Hp. rewrite forallb_forall in Hp.
  specialize (Hp name (proj1 (list_elem_of_In _ _) Hn)). unfold persistent_name in Hp.
  destruct (dp_find name) as [d|] eqn:Hf; [|done]. apply bool_decide_eq_true in Hp.
  exists (slot_bytes a d). rewrite !(dp_ref_slot _ _ d) by done.
  apply dp_find_some in Hf as [Hd _]. by rewrite (Hab d Hd Hp).
Qed.

Lemma constraints_ext a b :
  img_ok a → img_ok b → (∀ d, d ∈ g_dp → dd_persist d = DP_NVS → slot_bytes a d = slot_bytes b d) →
  ∃ r, dp_constraints_ok a = Ok r ∧ dp_constraints_ok b = Ok r.
Proof.
  intros Ha Hb Hab.
  assert (∀ name, name ∈ constraint_points → ∃ v, dp_ref a name = Ok v ∧ dp_ref b name = Ok v) as Href
    by (intros; by apply constraint_ref).

  assert (∀ name, name ∈ constraint_points → ∃ v, ref_f32 a name = Ok v ∧ ref_f32 b name = Ok v) as Hf.
  { intros n Hn. destruct (Href n Hn) as (v & H1 & H2). unfold ref_f32. rewrite H1, H2. by eexists. }
  assert (∀ name, name ∈ constraint_points → ∃ v, ref_uint a name = Ok v ∧ ref_uint b name = Ok v) as Hu.
  { intros n Hn. destruct (Href n Hn) as (v & H1 & H2). unfold ref_uint. rewrite H1, H2. by eexists. }
  unfold dp_constraints_ok.
  repeat match goal with
  | |- context [ref_f32 a ?n] =>
      destruct (Hf n ltac:(apply (bool_decide_unpack _); vm_compute; exact I)) as (? & -> & ->); cbn [mbind res_bind]
  | |- context [ref_uint a ?n] =>
      destruct (Hu n ltac:(apply (bool_decide_unpack _); vm_compute; exact I)) as (? & -> & ->); cbn [mbind res_bind]
  | |- context [if ?c then Ok _ else _] => destruct c; [by eexists|]
  end.
  by eexists.
Qed.

(** C15: The batch write is atomic and refines the batch of point updates.  For any
    image at the snapshot and at the commit, and any items, the transaction ends
    normally.  It is accepted exactly when no item has an error and the resulting
    configuration satisfies the cross-field rules; then every point holds the
    bytes of the last item that names it, every other point what it held at the
    commit, and the rules hold in the store.  Otherwise the store is untouched
    and the reported errors are exactly those of the items, in order, or the
    violated rule. *)
Theorem dp_write_batch_atomic snap live items :
  img_ok snap → img_ok live → Forall item_ok items →
  ∃ ok errs live', dp_write_locked snap live items = Ok (ok, errs, live') ∧ img_ok live' ∧
    if ok : bool then
      errs = [] ∧ errors_of items = [] ∧ dp_constraints_ok (overlay snap items) = Ok None ∧
      (∀ d, d ∈ g_dp → slot_bytes live' d = default (slot_bytes live d) (written items d)) ∧
      ((∀ d, d ∈ g_dp → dd_persist d = DP_NVS → slot_bytes live d = slot_bytes snap d) →
       dp_constraints_ok live' = Ok None)
    else
      live' = live ∧
      ((errs = errors_of items ∧ errs ≠ []) ∨
       (errors_of items = [] ∧
        ∃ bad, dp_constraints_ok (overlay snap items) = Ok (Some bad) ∧
               errs = [(bad, "constraint_violation")])).
Proof.
  intros Hs Hl Hit. unfold dp_write_locked. rewrite validate_items_ok by done. cbn [mbind res_bind].
  destruct (errors_of items) as [|e es] eqn:He;
    [|exists false, (e :: es), live; split_and!; try done; left; done].
  pose proof (overlay_ok items snap Hs Hit) as Ho.
  destruct (constraints_ext (overlay snap items) (overlay snap items)) as ([bad|] & Hc & _); try done.
  - rewrite Hc. cbn [mbind res_bind]. exists false, [(bad, "constraint_violation")], live.
    split_and!; try done. right. split; [done|]. by exists bad.
  - rewrite Hc. cbn [mbind res_bind].
    destruct (commit_items_ok items (overlay snap items) live Ho Hl) as (live' & Hlive & Hok & Hslot).
    rewrite Hlive. cbn [mbind res_bind]. exists true, [], live'.
    assert (∀ d, d ∈ g_dp → slot_bytes live' d = default (slot_bytes live d) (written items d)) as Hw.
    { intros d Hd. rewrite Hslot by done. rewrite commits_written, overlay_slot by done.
      by destruct (written items d). }
    do 5 (split; [done|]). split; [exact Hw|]. intros Hsame.
    destruct (constraints_ext live' (overlay snap items)) as (r & -> & Hr); try done; [|congruence].
    intros d Hd Hp. rewrite Hw, overlay_slot by done. destruct (written items d); [done|].
    exact (Hsame d Hd Hp).
Qed.

(** ** Well-typed images *)

(** The value of an integer point. *)
Definition int_value (t : dp_type_t) (b : list Z) : Z :=
  match t with
  | DP_I8 => i8 (le_get b) | DP_I16 => i16 (le_get b) | DP_I32 => i32 (le_get b) | _ => le_get b
  end.

(** A string is terminated within its slot; a writable integer is within its
    bounds. *)
Definition typed_slot (d : dp_desc_t) (b : list Z) : bool :=
  match dd_type d with
  | DP_STR => bool_decide (0 ∈ b)
  | t =>
      match dd_access d, dp_int_range t, f64_trunc (f64_of_f32 (dd_min d)), f64_trunc (f64_of_f32 (dd_max d)) with
      | DP_RW, Some _, Some l, Some h => (l <=? int_value t b) && (int_value t b <=? h)
      | _, _, _, _ => true
      end
  end.

Definition img_typed (img : list Z) : Prop :=
  img_ok img ∧ ∀ d, d ∈ g_dp → typed_slot d (slot_bytes img d) = true.

Lemma int_value_put t a b z :
  dp_int_range t = Some (a, b) → a <= z <= b →
  int_value t (le_put (Z.to_nat (dp_type_size t)) z) = z.
Proof.
  intros Hr Hz. destruct t; try done; injection Hr as <- <-; unfold int_value; rewrite le_get_put;
    match goal with |- context [256 ^ ?e] =>
      let v := eval vm_compute in (256 ^ e) in change (256 ^ e) with v end;
    unfold i8, i16, i32, signed_of; rewrite ?Z.mod_mod by lia;
    try match goal with |- context [?x <? ?y] => destruct (Z.ltb_spec x y) end;
    Z.to_euclidean_division_equations; lia.
Qed.

Lemma put_typed img d b :
  img_typed img → d ∈ g_dp → zlen b = dp_size d → Forall is_u8 b → typed_slot d b = true →
  img_typed (slot_put img d b).
Proof.
  intros [Hi Ht] Hd Hl Hb Hty. split; [by apply slot_put_ok|]. intros d' Hd'.
  destruct (decide (d' = d)) as [->|Hne]; [by rewrite slot_put_same|].
  rewrite slot_put_other by done. by apply Ht.
Qed.

Lemma str_typed d b : dd_type d = DP_STR → 0 ∈ b → typed_slot d b = true.
Proof. intros E H. unfold typed_slot. rewrite E. by apply bool_decide_eq_true_2. Qed.

(** Points without a constraint. *)
Lemma free_typed d b :
  dd_type d ≠ DP_STR → (dd_access d = DP_RW → dp_int_range (dd_type d) = None) → typed_slot d b = true.
Proof.
  intros Hs Hr. unfold typed_slot. destruct (dd_access d); [by destruct (dd_type d)| |by destruct (dd_type d)].
  specialize (Hr eq_refl). by destruct (dd_type d).
Qed.

Lemma int_typed d b l h :
  dd_type d ≠ DP_STR → f64_trunc (f64_of_f32 (dd_min d)) = Some l → f64_trunc (f64_of_f32 (dd_max d)) = Some h →
  l <= int_value (dd_type d) b <= h → typed_slot d b = true.
Proof.
  intros Hs Hl Hh Hv. unfold typed_slot. rewrite Hl, Hh.
  assert ((l <=? int_value (dd_type d) b) && (int_value (dd_type d) b <=? h) = true) as E
    by (apply andb_true_iff; rewrite !Z.leb_le; lia).
  destruct (dd_type d); try done; destruct (dd_access d); try done; by destruct (dp_int_range _).
Qed.

(** A value written through JSON is well typed. *)
Lemma json_typed d v b :
  d ∈ g_dp → dd_access d = DP_RW → json_ok v → dp_value_from_json d v = Ok (inr b) → typed_slot d b = true.
Proof.
  intros Hd Hrw Hv Hj.
  destruct (decide (dd_type d = DP_STR)) as [Es|Es].
  { unfold dp_value_from_json in Hj. rewrite Es in Hj. destruct v as [| |s|]; try done.
    destruct (Z.leb_spec DP_STR_MAX (zlen s)); [done|]. injection Hj as <-. apply str_typed; [done|].
    apply list_elem_of_In, in_or_app. right. destruct (Z.to_nat (DP_STR_MAX - zlen s)) eqn:E; [lia|by left]. }
  destruct (dp_int_range (dd_type d)) as [[a c]|] eqn:Er; [|by apply free_typed].
  unfold dp_value_from_json in Hj. destruct v as [bb|num|s|]; try (destruct (dd_type d); done).
  destruct Hv as [Hv Hn].
  destruct (negb (is_nan (dd_min d)) && f64_lt num (f64_of_f32 (dd_min d))) eqn:E1; [by destruct (dd_type d)|].
  destruct (negb (is_nan (dd_max d)) && f64_lt (f64_of_f32 (dd_max d)) num) eqn:E2; [by destruct (dd_type d)|].
  destruct (cast_int_ok d num Hd Hrw) as (z & l & h & Hz & Hl & Hh & Hlh & Hc);
    [rewrite Er; eexists; reflexivity|done..|].
  assert (a <= z <= c) as Hac.
  { unfold cast_int in Hc. rewrite Hz, Er in Hc.
    destruct (Z.leb_spec a z), (Z.leb_spec z c); done. }
  assert (b = le_put (Z.to_nat (dp_type_size (dd_type d))) z) as ->.
  { unfold dp_size in Hc. destruct (dd_type d); try done;
      rewrite Hc in Hj; cbn [mbind res_bind] in Hj; congruence. }
  apply (int_typed d _ l h); try done. by rewrite (int_value_put (dd_type d) a c).
Qed.

Lemma written_typed items d b :
  Forall item_ok items → written items d = Some b → typed_slot d b = true.
Proof.
  induction 1 as [|it items Hj _ IH]; [done|]. cbn [written].
  destruct (written items d) as [b'|]; [intros [= <-]; by apply IH|].
  pose proof (verdict_ok it Hj) as [_ H]. destruct (verdict it) as [|[d' b']]; [done|].
  destruct (decide (d' = d)) as [->|]; [|done]. intros [= <-]. destruct H as (Hf & Hrw & Hv & _).
  apply dp_find_some in Hf as [Hd _]. by apply (json_typed d it.2).
Qed.

Lemma c_string_total l : 0 ∈ l → ∃ s, c_string l = Ok s.
Proof.
  induction l as [|x l IH]; intros H; [by apply not_elem_of_nil in H|]. cbn [c_string].
  destruct (Z.eqb_spec x 0); [by eexists|].
  apply elem_of_cons in H as [?|H]; [congruence|]. destruct (IH H) as (s & ->). by eexists.
Qed.

(** Reading a well-typed image succeeds. *)
Lemma value_to_json_ok d img : img_typed img → d ∈ g_dp → ∃ v, dp_value_to_json d img = Ok v.
Proof.
  intros [Hi Ht] Hd. unfold dp_value_to_json. rewrite raw_get_ok by done. cbn [mbind res_bind].
  specialize (Ht d Hd). unfold typed_slot in Ht. destruct (dd_type d); try (eexists; reflexivity).
  apply bool_decide_eq_true in Ht. destruct (c_string_total (drop (Z.to_nat (dd_off d)) img)) as (s & Hs);
    [|rewrite Hs; eexists; reflexivity].
  unfold slot_bytes in Ht. by apply elem_of_take in Ht as (i & Hl%list_elem_of_lookup_2 & _).
Qed.

(** ** Load and save *)

(** The writable integer points are at most sixteen bits wide. *)
Definition small_range (d : dp_desc_t) : bool :=
  match dd_access d, dp_int_range (dd_type d) with
  | DP_RW, Some (a, b) => (-32768 <=? a) && (b <=? 65535)
  | _, _ => true
  end.

Lemma small_ranges : forallb small_range g_dp = true.
Proof. vm_compute. reflexivity. Qed.

Lemma int_value_range t a c b :
  dp_int_range t = Some (a, c) → zlen b = dp_type_size t → Forall is_u8 b → a <= int_value t b <= c.
Proof.
  intros Hr Hl Hb. apply le_get_range in Hb. unfold zlen in Hl. rewrite Hl in Hb.
  destruct t; try done; injection Hr as <- <-; unfold int_value;
    match goal with H : context [256 ^ ?e] |- _ =>
      let v := eval vm_compute in (256 ^ e) in change (256 ^ e) with v in H end;
    unfold i8, i16, i32, signed_of;
    try match goal with |- context [?x <? ?y] => destruct (Z.ltb_spec x y) end;
    Z.to_euclidean_division_equations; lia.
Qed.

Section laws.
Context {nvs : Type} `{!NvsApi nvs}.

(** Blobs are bytes. *)
Definition blobs_ok (n : nvs) : Prop := ∀ k b, nvs_get_blob n k = Some b → Forall is_u8 b.

Lemma load_point_ok n d b :
  blobs_ok n → load_point n d = Some b → zlen b = dp_size d ∧ Forall is_u8 b.
Proof.
  intros Hn H. unfold load_point in H. destruct (nvs_get_blob n _) as [v|] eqn:E; [|done].
  cbn [mbind option_bind] in H. apply Hn in E. destruct (DP_STR_MAX <? zlen v); [done|].
  destruct (Z.eqb_spec (zlen v) (dp_size d)) as [Hl|]; [|done]. cbn [negb] in H.
  destruct (slot_out_of_range d v); [done|]. injection H as <-. unfold terminate.
  case_bool_decide; [|done]. unfold zlen in *. rewrite length_insert. split; [done|].
  by apply Forall_insert.
Qed.

Lemma load_point_typed n d b :
  d ∈ g_dp → blobs_ok n → load_point n d = Some b → typed_slot d b = true.
Proof.
  intros Hd Hn Hlp. pose proof Hlp as H. unfold load_point in H.
  destruct (nvs_get_blob n _) as [v|] eqn:E; [|done].
  cbn [mbind option_bind] in H. apply Hn in E. destruct (DP_STR_MAX <? zlen v); [done|].
  destruct (Z.eqb_spec (zlen v) (dp_size d)) as [Hl|]; [|done]. cbn [negb] in H.
  destruct (slot_out_of_range d v) eqn:Er; [done|]. injection H as <-. unfold terminate.
  case_bool_decide as Es.
  { apply str_typed; [done|]. apply (list_elem_of_lookup_2 _ (Z.to_nat (DP_STR_MAX - 1))).
    apply list_lookup_insert_eq. unfold dp_size, zlen in Hl. rewrite Es in Hl. unfold dp_type_size, DP_STR_MAX in *. lia. }
  destruct (dd_access d) eqn:Ea; try (apply free_typed; [done|by rewrite Ea]).
  destruct (dp_int_range (dd_type d)) as [[a c]|] eqn:Ei; [|by apply free_typed].
  pose proof (int_value_range (dd_type d) a c v Ei Hl E) as Hv.
  pose proof small_ranges as Hsm. rewrite forallb_forall in Hsm.
  specialize (Hsm d (proj1 (list_elem_of_In _ _) Hd)). unfold small_range in Hsm. rewrite Ea, Ei in Hsm.
  apply andb_true_iff in Hsm as [Hsa%Z.leb_le Hsc%Z.leb_le].
  destruct (f64_of_Z_exact (int_value (dd_type d) v)) as (Hx & Hy & Hz); [lia|].
  assert (dp_slot_as_double d v = Some (f64_of_Z (int_value (dd_type d) v))) as Hs
    by (unfold dp_slot_as_double, int_value; by destruct (dd_type d)).
  pose proof (desc_bounds d Hd) as Hb. unfold bounds_ok in Hb. rewrite Ea, Ei, !andb_true_iff in Hb.
  destruct Hb as [[[[Hv1 Hv2] Hn1] Hn2] Hb].
  unfold slot_out_of_range in Er. rewrite Hs, Hn1, Hn2 in Er. apply orb_false_iff in Er as [Er1 Er2].
  cbn [andb] in Er1, Er2.
  destruct (f64_trunc (f64_of_f32 (dd_min d))) as [l|] eqn:El; [|done].
  destruct (f64_trunc (f64_of_f32 (dd_max d))) as [h|] eqn:Eh; [|done].
  destruct (f64_trunc_between (f64_of_Z (int_value (dd_type d) v)) _ _ l h Hx Hv1 Hv2 Hy Er1 Er2 El Eh)
    as (z & Hz' & Hlh). rewrite Hz in Hz'. injection Hz' as <-. by apply (int_typed d v l h).
Qed.

(** The load replaces exactly the persistent points with an acceptable value. *)
Lemma load_points_ok n ds : ∀ img,
  blobs_ok n → img_ok img → NoDup ds → (∀ d, d ∈ ds → d ∈ g_dp) →
  ∃ img', load_points n img ds = Ok img' ∧ img_ok img' ∧
    ∀ d, d ∈ g_dp → slot_bytes img' d =
      if bool_decide (d ∈ ds) && is_persisted d then default (slot_bytes img d) (load_point n d)
      else slot_bytes img d.
Proof.
  induction ds as [|d ds IH]; intros img Hn Hi Hnd Hin; [by exists img|].
  apply NoDup_cons in Hnd as [Hd Hnd]. cbn [load_points].
  assert (∀ d', d' ∈ ds → d' ∈ g_dp) as Hin' by (intros; apply Hin; by right).
  assert (∀ d', bool_decide (d' ∈ d :: ds) = bool_decide (d' = d) || bool_decide (d' ∈ ds)) as Hm.
  { intros d'. destruct (decide (d' = d)) as [->|].
    - rewrite (bool_decide_true (d ∈ d :: ds)) by left. by rewrite (bool_decide_true (d = d)).
    - rewrite (bool_decide_false (d' = d)) by done. cbn [orb]. apply bool_decide_ext.
      rewrite elem_of_cons. naive_solver. }
  destruct (is_persisted d) eqn:Ep; cbn [negb].
  - destruct (load_point n d) as [b|] eqn:El.
    + destruct (load_point_ok n d b Hn El) as [Hl Hb]. rewrite raw_set_ok by (done || apply Hin; left).
      cbn [mbind res_bind]. destruct (IH (slot_put img d b)) as (img' & -> & Hok & Hs);
        [done|by apply slot_put_ok|done|done|]. exists img'. split_and!; [done|done|]. intros d' Hd'.
      rewrite Hs, Hm by done. destruct (decide (d' = d)) as [->|Hne].
      * rewrite (bool_decide_false (d ∈ ds)), (bool_decide_true (d = d)) by done. cbn [andb orb].
        rewrite Ep, El. by rewrite slot_put_same.
      * rewrite (bool_decide_false (d' = d)) by done. cbn [orb].
        by rewrite slot_put_other by (done || apply Hin; left).
    + destruct (IH img) as (img' & -> & Hok & Hs); [done..|]. exists img'. split_and!; [done|done|].
      intros d' Hd'. rewrite Hs, Hm by done. destruct (decide (d' = d)) as [->|Hne].
      * rewrite (bool_decide_false (d ∈ ds)), (bool_decide_true (d = d)) by done. cbn [andb orb].
        by rewrite Ep, El.
      * by rewrite (bool_decide_false (d' = d)).
  - destruct (IH img) as (img' & -> & Hok & Hs); [done..|]. exists img'. split_and!; [done|done|].
    intros d' Hd'. rewrite Hs, Hm by done. destruct (decide (d' = d)) as [->|Hne].
    + by rewrite Ep, !andb_false_r.
    + by rewrite (bool_decide_false (d' = d)).
Qed.

Lemma catalogue_nodup : NoDup g_dp.
Proof. apply (NoDup_fmap_1 dd_name), catalogue_names. Qed.

Lemma load_all_ok n img :
  blobs_ok n → img_ok img →
  ∃ img', load_points n img g_dp = Ok img' ∧ img_ok img' ∧
    ∀ d, d ∈ g_dp → slot_bytes img' d =
      if is_persisted d then default (slot_bytes img d) (load_point n d) else slot_bytes img d.
Proof.
  intros Hn Hi. destruct (load_points_ok n g_dp img Hn Hi catalogue_nodup) as (img' & -> & Hok & Hs); [done|].
  exists img'. split_and!; [done|done|]. intros d Hd. rewrite Hs by done. by rewrite bool_decide_true by done.
Qed.

Lemma load_all_typed n img :
  blobs_ok n → img_typed img → ∃ img', load_points n img g_dp = Ok img' ∧ img_typed img'.
Proof.
  intros Hn [Hi Ht]. destruct (load_all_ok n img Hn Hi) as (img' & -> & Hok & Hs).
  exists img'. split; [done|]. split; [done|]. intros d Hd. rewrite Hs by done.
  destruct (is_persisted d); [|by apply Ht]. destruct (load_point n d) as [b|] eqn:E; [|by apply Ht].
  by apply (load_point_typed n).
Qed.
End laws.

Lemma key_inj d d' :
  d ∈ g_dp → d' ∈ g_dp → is_persisted d = true → dp_nvs_key d = dp_nvs_key d' → d = d'.
Proof.
  intros Hd Hd' Hp Hk. unfold dp_nvs_key in Hk. injection Hk as Hk.
  unfold is_persisted in Hp. apply andb_true_iff in Hp as [Hp%bool_decide_eq_true _].
  pose proof (desc_id d Hd) as H. unfold nvs_id_ok in H. rewrite Hp in H.
  apply andb_true_iff in H as [_ H]. rewrite forallb_forall in H.
  specialize (H d' (proj1 (list_elem_of_In _ _) Hd')). apply orb_true_iff in H as [H|H].
  - apply String.eqb_eq in H. by apply desc_name_inj.
  - apply negb_true_iff, Z.eqb_neq in H. destruct H. by apply (inj pretty).
Qed.

Section roundtrip.
Context {nvs : Type} `{!NvsApi nvs, !NvsLaws nvs}.

Lemma save_points_ok snap ds : ∀ n n',
  img_ok snap → NoDup ds → (∀ d, d ∈ ds → d ∈ g_dp) →
  save_points n snap ds = Ok (ESP_OK, n') →
  (∀ d, d ∈ ds → is_persisted d = true → nvs_get_blob n' (dp_nvs_key d) = Some (slot_bytes snap d)) ∧
  (∀ k, (∀ d, d ∈ ds → is_persisted d = true → dp_nvs_key d ≠ k) → nvs_get_blob n' k = nvs_get_blob n k).
Proof.
  induction ds as [|d ds IH]; intros n n' Hi Hnd Hin H.
  { injection H as <-. split; [by intros ? ?%elem_of_nil|done]. }
  apply NoDup_cons in Hnd as [Hd Hnd]. cbn [save_points] in H.
  assert (d ∈ g_dp) as Hdg by (apply Hin; left).
  assert (∀ d', d' ∈ ds → d' ∈ g_dp) as Hin' by (intros; apply Hin; by right).
  destruct (is_persisted d) eqn:Ep; cbn [negb] in H.
  - rewrite raw_get_ok in H by done. cbn [mbind res_bind] in H.
    destruct (nvs_set_blob n (dp_nvs_key d) (slot_bytes snap d)) as [e n1] eqn:Eset.
    destruct e; try done. destruct (IH n1 n' Hi Hnd Hin' H) as [H1 H2]. split.
    + intros d' [->|Hd']%elem_of_cons Hp; [|by apply H1].
      rewrite H2; [by apply nvs_set_get in Eset|]. intros d' Hd' Hp' Hk.
      by rewrite (key_inj d' d (Hin' d' Hd') Hdg Hp' Hk) in Hd'.
    + intros k Hk. rewrite H2 by (intros; apply Hk; [by right|done]).
      rewrite <- (nvs_set_other n (dp_nvs_key d) (slot_bytes snap d) k), Eset; [done|].
      intros ->. apply (Hk d); [left|done|done].
  - destruct (IH n n' Hi Hnd Hin' H) as [H1 H2]. split.
    + intros d' [->|Hd']%elem_of_cons Hp; [congruence|by apply H1].
    + intros k Hk. apply H2. intros; apply Hk; [by right|done].
Qed.

(** C17: The configuration survives a restart.  After a successful save, a load
    into any image gives every persistent point the bytes it had at the save,
    provided they lie in the point's range (strings get their terminator); a value
    out of range and every volatile point keep what the image held. *)
Theorem config_survives_restart s s0 n n' :
  img_ok (g_dp_store s) → img_ok (g_dp_store s0) → blobs_ok n →
  dp_config_save s n ESP_OK ESP_OK = Ok (ESP_OK, n') →
  ∃ s1, dp_config_load s0 n' true = Ok s1 ∧ s_last s1 = s_last s0 ∧
    ∀ d, d ∈ g_dp → slot_bytes (g_dp_store s1) d =
      let saved := slot_bytes (g_dp_store s) d in
      if is_persisted d && negb (slot_out_of_range d saved) then terminate d saved
      else slot_bytes (g_dp_store s0) d.
Proof.
  intros Hi Hi0 Hn Hsave. unfold dp_config_save in Hsave.
  destruct (save_points n (g_dp_store s) g_dp) as [[e m]| |] eqn:Es; [|done..].
  destruct e; cbn in Hsave; try done. injection Hsave as ->.
  destruct (save_points_ok (g_dp_store s) g_dp n n' Hi catalogue_nodup (λ _ H, H) Es) as [H1 H2].
  assert (blobs_ok n') as Hn'.
  { intros k b Hb. destruct (decide (Exists (λ d, is_persisted d = true ∧ dp_nvs_key d = k) g_dp)) as [Hx|Hx].
    - apply Exists_exists in Hx as (d & Hd & Hp & <-). rewrite H1 in Hb by done.
      injection Hb as <-. by apply slot_bytes_u8.
    - apply (Hn k). rewrite <- H2; [done|]. intros d Hd Hp Hk. apply Hx, Exists_exists. by exists d. }
  destruct (load_all_ok n' (g_dp_store s0) Hn' Hi0) as (img' & Hl & Hok & Hs).
  unfold dp_config_load. cbn [negb]. rewrite Hl. cbn [mbind res_bind].
  eexists. split; [reflexivity|]. split; [done|]. intros d Hd. cbv zeta.
  change (g_dp_store (s0 <| g_dp_store := img' |>)) with img'. rewrite Hs by done.
  destruct (is_persisted d) eqn:Ep; [|done]. cbn [andb]. unfold load_point. rewrite H1 by done.
  cbn [mbind option_bind]. rewrite slot_bytes_len by done.
  assert (dp_size d <= DP_STR_MAX) as Hle by (unfold dp_size; by destruct (dd_type d)).
  rewrite (proj2 (Z.ltb_ge DP_STR_MAX (dp_size d))) by done. rewrite Z.eqb_refl. cbn [negb].
  by destruct (slot_out_of_range d _).
Qed.
End roundtrip.

(** ** Assigning a field by name *)

(** A field of the catalogue is assigned with well-typed bytes: the image stays
    well typed, the field reads back, every other field is kept. *)
Lemma ref_set_spec img name d b :
  img_typed img → dp_find name = Some d → zlen b = dp_size d → Forall is_u8 b → typed_slot d b = true →
  ∃ img', dp_ref_set img name b = Ok img' ∧ img_typed img' ∧ dp_ref img' name = Ok b ∧
    ∀ n, n ≠ name → dp_ref img' n = dp_ref img n.
Proof.
  intros Ht Hf Hl Hb Hty. pose proof (proj1 (dp_find_some _ _) Hf) as [Hd Hname].
  pose proof Ht as [Hi _]. exists (slot_put img d b). split_and!.
  - unfold dp_ref_set. rewrite Hf. cbn [of_option mbind res_bind]. by apply raw_set_ok.
  - by apply put_typed.
  - rewrite (dp_ref_slot _ _ d); [|by apply slot_put_ok|done]. by rewrite slot_put_same.
  - intros n Hne. destruct (dp_find n) as [d'|] eqn:Hf'; [|unfold dp_ref; by rewrite Hf'].
    rewrite !(dp_ref_slot _ _ d') by (done || by apply slot_put_ok).
    pose proof (proj1 (dp_find_some _ _) Hf') as [Hd' Hname'].
    rewrite slot_put_other; try done. congruence.
Qed.

(** ** Every reachable store is well typed *)

(** The image stays well typed and only the named fields change. *)
Definition sets_only (names : list string) (img img' : list Z) : Prop :=
  img_typed img' ∧ ∀ n, n ∉ names → dp_ref img' n = dp_ref img n.

Lemma sets_only_trans l k i1 i2 i3 :
  sets_only l i1 i2 → sets_only k i2 i3 → sets_only (l ++ k)%list i1 i3.
Proof.
  intros [_ H1] [Ht H2]. split; [done|]. intros n [Hl Hk]%not_elem_of_app. by rewrite H2, H1.
Qed.

(** A field named in the code is written with well-typed bytes. *)
Lemma ref_set_typed img name d b :
  img_typed img → dp_find name = Some d → zlen b = dp_size d → Forall is_u8 b → typed_slot d b = true →
  ∃ img', dp_ref_set img name b = Ok img' ∧ sets_only [name] img img'.
Proof.
  intros Ht Hf Hl Hb Hty. destruct (ref_set_spec img name d b Ht Hf Hl Hb Hty) as (img' & ? & ? & _ & Hk).
  exists img'. split; [done|]. split; [done|]. intros n [Hn _]%not_elem_of_cons. by apply Hk.
Qed.

(** The type of a point named in the code, and that it is not writable. *)
Definition ro_name (name : string) (t : dp_type_t) : bool :=
  match dp_find name with
  | Some d => bool_decide (dd_type d = t) && bool_decide (dd_access d = DP_RO)
  | None => false
  end.

Lemma ro_set_typed img name t z :
  img_typed img → ro_name name t = true → t ≠ DP_STR →
  ∃ img', dp_ref_set img name (le_put (Z.to_nat (dp_type_size t)) z) = Ok img' ∧ sets_only [name] img img'.
Proof.
  intros Ht Hn Hs. unfold ro_name in Hn. destruct (dp_find name) as [d|] eqn:Hf; [|done].
  apply andb_true_iff in Hn as [<-%bool_decide_eq_true Ha%bool_decide_eq_true].
  apply (ref_set_typed img name d); try done.
  - unfold zlen. rewrite length_le_put. unfold dp_size. by destruct (dd_type d).
  - apply le_put_bytes.
  - apply free_typed; [done|by rewrite Ha].
Qed.

Lemma ro_set_string img name s :
  img_typed img → ro_name name DP_STR = true → Forall is_u8 s →
  ∃ img', dp_ref_set img name (copy_string s) = Ok img' ∧ sets_only [name] img img'.
Proof.
  intros Ht Hn Hb. unfold ro_name in Hn. destruct (dp_find name) as [d|] eqn:Hf; [|done].
  apply andb_true_iff in Hn as [Hs%bool_decide_eq_true _].
  assert (length (take (Z.to_nat (DP_STR_MAX - 1)) s) <= 63)%nat as Hl
    by (rewrite length_take; unfold DP_STR_MAX; lia).
  apply (ref_set_typed img name d); try done.
  - unfold copy_string, zlen, dp_size. rewrite Hs, length_app, length_replicate.
    unfold dp_type_size, DP_STR_MAX in *. lia.
  - unfold copy_string. apply Forall_app_2; [by apply Forall_take|by apply Forall_replicate].
  - apply str_typed; [done|]. unfold copy_string. apply list_elem_of_In, in_or_app. right.
    unfold DP_STR_MAX in *. destruct (Z.to_nat 64 - _)%nat eqn:E; [lia|by left].
Qed.

Definition identity_ok (i : dp_identity_t) : Prop :=
  (∀ v, di_hw_version i = Some v → Forall is_u8 v) ∧ (∀ v, di_sw_version i = Some v → Forall is_u8 v).

Definition identity_names : list string :=
  ["Device_Serial_Number"; "Device_HW_Version"; "Device_SW_Version"; "Device_Build_Version"].

Lemma set_identity_spec img i :
  img_typed img → identity_ok i → ∃ img', set_identity img i = Ok img' ∧ sets_only identity_names img img' ∧
    dp_ref img' "Device_Serial_Number" = Ok (le_put 8 (di_serial i)).
Proof.
  intros Ht [Hh Hs]. unfold set_identity.
  assert (∀ img name v, img_typed img → ro_name name DP_STR = true → (∀ w, v = Some w → Forall is_u8 w) →
    ∃ img', match v with Some w => dp_ref_set img name (copy_string w) | None => Ok img end = Ok img' ∧
            sets_only [name] img img') as Hopt.
  { intros i0 name [w|] Hi0 Hn Hw; [apply ro_set_string; try done; by apply Hw|]. by exists i0. }
  destruct (dp_find "Device_Serial_Number") as [d|] eqn:Hd; [|vm_compute in Hd; done].
  destruct (ref_set_spec img "Device_Serial_Number" d (le_put 8 (di_serial i)) Ht Hd) as (i1 & E1 & T1 & R1 & K1);
    [vm_compute in Hd; injection Hd as <-; reflexivity|apply le_put_bytes|by vm_compute in Hd; injection Hd as <-|].
  rewrite E1. cbn [mbind res_bind].
  destruct (Hopt i1 "Device_HW_Version" (di_hw_version i)) as (i2 & -> & T2);
    [apply T1|vm_compute; reflexivity|done|]. cbn [mbind res_bind].
  destruct (Hopt i2 "Device_SW_Version" (di_sw_version i)) as (i3 & -> & T3);
    [apply T2|vm_compute; reflexivity|done|]. cbn [mbind res_bind].
  destruct (ro_set_typed i3 "Device_Build_Version" DP_U64 (di_build_ms i)) as (i4 & E4 & T4);
    [apply T3|vm_compute; reflexivity|done|]. exists i4. split; [exact E4|].
  pose proof (sets_only_trans [_] [_] _ _ _ T3 T4) as T34.
  pose proof (sets_only_trans [_] [_; _] _ _ _ T2 T34) as T24. split.
  - apply (sets_only_trans [_] [_; _; _] _ i1); [|done]. split; [done|].
    intros n [Hn _]%not_elem_of_cons. by apply K1.
  - destruct T24 as [_ ->]; [done|]. set_solver.
Qed.

Lemma set_identity_typed img i :
  img_typed img → identity_ok i → ∃ img', set_identity img i = Ok img' ∧ sets_only identity_names img img'.
Proof. intros Ht Hi. destruct (set_identity_spec img i Ht Hi) as (img' & ? & ? & _). by exists img'. Qed.

Definition blank_image : list Z := replicate (Z.to_nat dp_image_size) 0.

Definition default_image : list Z :=
  match dp_set_defaults blank_image with Ok i => i | _ => [] end.

Definition img_typedb (img : list Z) : bool :=
  (zlen img =? dp_image_size) && forallb (λ b, (0 <=? b) && (b <? 256)) img &&
  forallb (λ d, typed_slot d (slot_bytes img d)) g_dp.

Lemma img_typedb_spec img : img_typedb img = true → img_typed img.
Proof.
  unfold img_typedb. rewrite !andb_true_iff, Z.eqb_eq, !forallb_forall. intros [[Hl Hb] Ht].
  split; [split; [done|]|].
  - apply Forall_forall. intros x Hx%list_elem_of_In. apply Hb in Hx.
    unfold is_u8. rewrite andb_true_iff, Z.leb_le, Z.ltb_lt in Hx. done.
  - intros d Hd%list_elem_of_In. by apply Ht.
Qed.

Lemma defaults_typed : dp_set_defaults blank_image = Ok default_image ∧ img_typed default_image.
Proof. split; [vm_compute; reflexivity|]. apply img_typedb_spec. vm_compute. reflexivity. Qed.

(** What NVS stores is bytes. *)
Class NvsBytes (nvs : Type) `{!NvsApi nvs} : Prop := {
  nvs_set_bytes : ∀ n k v, Forall is_u8 v → blobs_ok n → blobs_ok (nvs_set_blob n k v).2;
  nvs_erase_bytes : ∀ n k, blobs_ok n → blobs_ok (nvs_erase_key n k)
}.

Section reach.
Context {nvs : Type} `{!NvsApi nvs, !NvsBytes nvs}.

Lemma save_points_total snap ds : ∀ n : nvs,
  img_ok snap → (∀ d, d ∈ ds → d ∈ g_dp) → ∃ r, save_points n snap ds = Ok r.
Proof.
  induction ds as [|d ds IH]; intros n Hi Hin; [by eexists|]. cbn [save_points].
  destruct (negb _); [apply IH; [done|intros; apply Hin; by right]|].
  rewrite raw_get_ok by (done || apply Hin; left). cbn [mbind res_bind].
  destruct (nvs_set_blob n _ _) as [[] n']; try (eexists; reflexivity).
  apply IH; [done|intros; apply Hin; by right].
Qed.

Lemma config_save_total s (n : nvs) o c : img_ok (g_dp_store s) → ∃ r, dp_config_save s n o c = Ok r.
Proof.
  intros Hi. unfold dp_config_save. destruct o; try (eexists; reflexivity).
  destruct (save_points_total (g_dp_store s) g_dp n Hi (λ _ H, H)) as (r & ->). eexists. reflexivity.
Qed.

Lemma write_locked_typed snap live items :
  img_ok snap → img_typed live → Forall item_ok items →
  ∃ ok errs live', dp_write_locked snap live items = Ok (ok, errs, live') ∧ img_typed live'.
Proof.
  intros Hs [Hl Ht] Hit. unfold dp_write_locked. rewrite validate_items_ok by done. cbn [mbind res_bind].
  destruct (errors_of items) as [|e es] eqn:He; [|by eexists false, _, live].
  pose proof (overlay_ok items snap Hs Hit) as Ho.
  destruct (constraints_ext (overlay snap items) (overlay snap items)) as ([bad|] & Hc & _); try done;
    rewrite Hc; cbn [mbind res_bind]; [by eexists false, _, live|].
  destruct (commit_items_ok items (overlay snap items) live Ho Hl) as (live' & -> & Hok & Hslot).
  cbn [mbind res_bind]. eexists true, [], live'. split; [done|]. split; [done|]. intros d Hd.
  rewrite Hslot, commits_written, overlay_slot by done.
  destruct (written items d) as [b|] eqn:E; [by apply (written_typed items)|].
  by rewrite bool_decide_false by (intros [? ?]; done); apply Ht.
Qed.

Lemma write_batch_typed s (n : nvs) live items o c :
  img_ok (g_dp_store s) → img_typed live → Forall item_ok items →
  ∃ ok errs p s' n', dp_write_batch s n live items o c = Ok (ok, errs, p, s', n') ∧ img_typed (g_dp_store s').
Proof.
  intros Hs Hl Hit. unfold dp_write_batch.
  destruct (write_locked_typed (g_dp_store s) live items Hs Hl Hit) as (ok & errs & live' & -> & Ht).
  cbn [mbind res_bind]. destruct ok; cbn [negb]; [|by repeat eexists; try apply Ht].
  destruct (config_save_total (s <| g_dp_store := live' |>) n o c) as ([e n'] & ->); [apply Ht|].
  cbn [mbind res_bind]. by repeat eexists; try apply Ht.
Qed.

(** The image after the legacy blob is adopted. *)
Definition legacy_image (blob : list Z) : list Z := list_inserts (Z.to_nat cfg_bounds.1) blob default_image.

(** A legacy blob that the migration adopts was written by a firmware that kept the
    bounds.  A blob of another version or length is discarded, whatever it holds. *)
Definition legacy_ok (n : nvs) : Prop :=
  ∀ blob, nvs_get_u16 n "ver" = Some DP_CFG_VERSION → nvs_get_blob n "cfg" = Some blob →
    zlen blob = cfg_bounds.2 - cfg_bounds.1 → img_typed (legacy_image blob).

(** The states from an initialisation, with or without a legacy blob, through
    batches, refreshes, reports and well-typed writes of single fields by the
    application, which also happen while a batch is being validated. *)
Inductive dp_reach : dp_state → Prop :=
  | reach_init n i opened l saved s n' :
      blobs_ok n → legacy_ok n → (∀ j, i = Some j → identity_ok j) →
      dp_init n i opened l saved = Ok (s, n') → dp_reach s
  | reach_write s n live items o c ok errs p s' n' :
      dp_reach s → img_typed live → Forall item_ok items →
      dp_write_batch s n live items o c = Ok (ok, errs, p, s', n') → dp_reach s'
  | reach_field s d b :
      dp_reach s → d ∈ g_dp → zlen b = dp_size d → Forall is_u8 b → typed_slot d b = true →
      dp_reach (s <| g_dp_store := slot_put (g_dp_store s) d b |>)
  | reach_refresh s f m l s' :
      dp_reach s → dp_refresh s f m l = Ok s' → dp_reach s'
  | reach_report s out s' :
      dp_reach s → dp_report_full s = Ok (out, s') → dp_reach s'.

Lemma cfg_region img : dp_compute_cfg_region (mk_dp img [] 0 0) = mk_dp img [] cfg_bounds.1 (cfg_bounds.2 - cfg_bounds.1).
Proof. reflexivity. Qed.

Lemma save_points_bytes snap ds : ∀ (n : nvs) r,
  img_ok snap → (∀ d, d ∈ ds → d ∈ g_dp) → blobs_ok n → save_points n snap ds = Ok r → blobs_ok r.2.
Proof.
  induction ds as [|d ds IH]; intros n r Hi Hin Hn; cbn [save_points]; [by intros [= <-]|].
  assert (∀ d', d' ∈ ds → d' ∈ g_dp) as Hin' by (intros; apply Hin; by right).
  destruct (negb _); [by apply IH|]. rewrite raw_get_ok by (done || apply Hin; left). cbn [mbind res_bind].
  pose proof (nvs_set_bytes n (dp_nvs_key d) (slot_bytes snap d) (slot_bytes_u8 snap d Hi) Hn) as Hset.
  destruct (nvs_set_blob n _ _) as [[] n']; [by apply IH|by intros [= <-]..].
Qed.

Lemma config_save_bytes s (n : nvs) o c r :
  img_ok (g_dp_store s) → blobs_ok n → dp_config_save s n o c = Ok r → blobs_ok r.2.
Proof.
  intros Hi Hn. unfold dp_config_save. destruct o; try (by intros [= <-]).
  destruct (save_points n (g_dp_store s) g_dp) as [q| |] eqn:E; cbn [mbind res_bind]; [|done..].
  intros [= <-]. by apply (save_points_bytes _ _ _ _ Hi (λ _ H, H) Hn E).
Qed.

(** The migration adopts a well-typed blob, discards an incompatible one, and
    leaves everything alone where there is none. *)
Lemma migrate_typed (n : nvs) opened saved :
  blobs_ok n → legacy_ok n →
  ∃ s n', dp_config_migrate_blob (mk_dp default_image [] cfg_bounds.1 (cfg_bounds.2 - cfg_bounds.1)) n opened saved
            = Ok (s, n') ∧ img_typed (g_dp_store s) ∧ blobs_ok n' ∧ (nvs_get_blob n "cfg" = None → n' = n).
Proof.
  intros Hn Hl. destruct defaults_typed as [_ Ht]. unfold dp_config_migrate_blob.
  destruct (negb opened.1); [by eexists _, n|].
  destruct (nvs_get_u16 n "ver") as [ver|] eqn:Ev; [|by eexists _, n].
  destruct (nvs_get_blob n "cfg") as [blob|] eqn:Eb; [|by eexists _, n].
  cbn [s_cfg_size s_cfg_off g_dp_store]. destruct (Z.eqb_spec ver DP_CFG_VERSION) as [->|]; cbn [andb].
  2:{ eexists _, _. split; [reflexivity|]. split; [exact Ht|]. split; [by do 2 apply nvs_erase_bytes|done]. }
  destruct (Z.eqb_spec (zlen blob) (cfg_bounds.2 - cfg_bounds.1)) as [Hlen|].
  2:{ eexists _, _. split; [reflexivity|]. split; [exact Ht|]. split; [by do 2 apply nvs_erase_bytes|done]. }
  specialize (Hl blob Ev Eb Hlen).
  assert (array_write default_image cfg_bounds.1 blob = Ok (legacy_image blob)) as ->.
  { apply array_write_ok; [by vm_compute|]. unfold zlen in Hlen. rewrite Hlen. by vm_compute. }
  cbn [mbind res_bind].
  destruct (config_save_total ((mk_dp default_image [] cfg_bounds.1 (cfg_bounds.2 - cfg_bounds.1)) <| g_dp_store := legacy_image blob |>)
    n saved.1 saved.2) as (e & He); [apply Hl|].
  rewrite He. cbn [mbind res_bind]. apply config_save_bytes in He; [|apply Hl|done].
  eexists _, _. split; [reflexivity|]. split; [exact Hl|]. split; [|done].
  destruct opened.2; [by do 2 apply nvs_erase_bytes|done].
Qed.

Lemma dp_init_spec (n : nvs) i opened l saved :
  blobs_ok n → legacy_ok n → (∀ j, i = Some j → identity_ok j) →
  ∃ s n', dp_init n i opened l saved = Ok (s, n') ∧ img_typed (g_dp_store s) ∧
    (nvs_get_blob n "cfg" = None → n' = n) ∧
    (∀ j, i = Some j → dp_ref (g_dp_store s) "Device_Serial_Number" = Ok (le_put 8 (di_serial j))).
Proof.
  intros Hn Hcfg Hi. destruct defaults_typed as [Hd Ht]. unfold dp_init. cbv zeta.
  fold blank_image. rewrite cfg_region. cbn [g_dp_store]. rewrite Hd. cbn [mbind res_bind].
  change ((mk_dp blank_image [] ?o ?z) <| g_dp_store := default_image |>) with (mk_dp default_image [] o z).
  destruct (migrate_typed n opened saved Hn Hcfg) as (s0 & n' & -> & Hs0 & Hn' & Hsame). cbn [mbind res_bind fst snd].
  assert (∃ s, dp_config_load s0 n' l = Ok s ∧ img_typed (g_dp_store s)) as (s & -> & Hs).
  { unfold dp_config_load. destruct (negb l); [eexists; split; [reflexivity|exact Hs0]|].
    destruct (load_all_typed n' (g_dp_store s0) Hn' Hs0) as (img & Hl & Hty).
    rewrite Hl. cbn [mbind res_bind]. eexists. split; [reflexivity|exact Hty]. }
  cbn [mbind res_bind].
  destruct i as [i|]; [|eexists _, _; split; [reflexivity|]; split; [exact Hs|]; split; [exact Hsame|intros j Hj; discriminate Hj]].
  destruct (set_identity_spec (g_dp_store s) i Hs) as (img & -> & [Hty _] & Hser); [by apply Hi|].
  cbn [mbind res_bind]. eexists _, _. split; [reflexivity|]. split; [exact Hty|]. split; [exact Hsame|].
  intros j Hj. injection Hj as <-. exact Hser.
Qed.

Lemma reach_typed s : dp_reach s → img_typed (g_dp_store s).
Proof.
  induction 1 as [n i op l sv s n' Hn Hc Hi H|s n live items o c ok errs p s' n' _ [IH _] Hl Hit H
                 |s d b _ IH Hd Hlen Hb Hty|s f m l s' _ IH H|s out s' _ IH H].
  - destruct (dp_init_spec n i op l sv Hn Hc Hi) as (s1 & n1 & H1 & Ht & _). rewrite H1 in H. by injection H as <- <-.
  - destruct (write_batch_typed s n live items o c IH Hl Hit) as (ok1 & e1 & p1 & s1 & n1 & H1 & Ht).
    rewrite H1 in H. by injection H as <- <- <- <- <-.
  - by apply put_typed.
  - unfold dp_refresh in H.
    destruct (ro_set_typed (g_dp_store s) "System_Memory_Free" DP_U32 f IH) as (i1 & E1 & [T1 _]);
      [vm_compute; reflexivity|done|]. change (Z.to_nat (dp_type_size DP_U32)) with 4%nat in E1.
    rewrite E1 in H. cbn [mbind res_bind] in H.
    destruct (ro_set_typed i1 "System_Min_Memory_Free" DP_U32 m T1) as (i2 & E2 & [T2 _]);
      [vm_compute; reflexivity|done|]. change (Z.to_nat (dp_type_size DP_U32)) with 4%nat in E2.
    rewrite E2 in H. cbn [mbind res_bind] in H.
    destruct (ro_set_typed i2 "System_Largest_Free_Block" DP_U32 l T2) as (i3 & E3 & [T3 _]);
      [vm_compute; reflexivity|done|]. change (Z.to_nat (dp_type_size DP_U32)) with 4%nat in E3.
    rewrite E3 in H. cbn [mbind res_bind] in H. by injection H as <-.
  - unfold dp_report_full in H. destruct (read_all _ _); try done. cbn [mbind res_bind] in H.
    by injection H as _ <-.
Qed.

(** C16: The store is type safe.  In every state reachable from an initialisation
    (without a legacy blob, with an incompatible one, or with one that keeps the
    bounds; the migration itself checks none, see [legacy_blob_keeps_bad_values])
    each string point is terminated within its slot and each writable integer lies
    within its declared bounds; therefore every point can be read out as JSON, every
    batch of parsed values runs to its end without an access outside the image and
    without a conversion that C leaves undefined, and so does every load. *)
Theorem dp_store_type_safe s :
  dp_reach s →
  img_typed (g_dp_store s) ∧
  (∀ d, d ∈ g_dp → ∃ v, dp_value_to_json d (g_dp_store s) = Ok v) ∧
  (∀ n items o c, Forall item_ok items →
     ∃ r, dp_write_batch s n (g_dp_store s) items o c = Ok r) ∧
  (∀ n opened, blobs_ok n → ∃ s', dp_config_load s n opened = Ok s' ∧ img_typed (g_dp_store s')).
Proof.
  intros Hr. pose proof (reach_typed s Hr) as Ht. split_and!; [done| | |].
  - intros. by apply value_to_json_ok.
  - intros n items o c Hit. destruct (write_batch_typed s n (g_dp_store s) items o c) as (ok & e & p & s' & n' & H & _);
      [apply Ht|done|done|]. by eexists.
  - intros n opened Hn. unfold dp_config_load. destruct (negb opened); [by eexists|].
    destruct (load_all_typed n (g_dp_store s) Hn Ht) as (img & -> & Hty). cbn [mbind res_bind]. by eexists.
Qed.
End reach.

(** ** An NVS with limited room, and executions *)

Record room_nvs := mk_room {
  rn_blobs : gmap string (list Z);
  rn_u16 : gmap string Z;
  rn_room : nat
}.

#[export] Instance room_nvs_api : NvsApi room_nvs := {|
  nvs_get_blob n k := rn_blobs n !! k;
  nvs_get_u16 n k := rn_u16 n !! k;
  nvs_set_blob n k v :=
    match rn_room n with
    | O => (ESP_FAIL, n)
    | S r => (ESP_OK, mk_room (<[k := v]> (rn_blobs n)) (rn_u16 n) r)
    end;
  nvs_erase_key n k := mk_room (delete k (rn_blobs n)) (delete k (rn_u16 n)) (rn_room n)
|}.

#[export] Instance room_nvs_laws : NvsLaws room_nvs.
Proof.
  split.
  - intros [m u [|r]] k v n' H; [done|]. injection H as <-. cbn. by rewrite lookup_insert_eq.
  - intros [m u [|r]] k v k' Hne; [done|]. cbn. by rewrite lookup_insert_ne.
Qed.

#[export] Instance room_nvs_bytes : NvsBytes room_nvs.
Proof.
  split.
  - intros [m u [|r]] k v Hv Hn k' b; cbn; [apply Hn|]. destruct (decide (k = k')) as [->|Hne].
    + rewrite lookup_insert_eq. by intros [= <-].
    + rewrite lookup_insert_ne by done. apply Hn.
  - intros [m u r] k Hn k' b. cbn. intros [_ H]%lookup_delete_Some. by apply (Hn k').
Qed.

(** The state after the first boot. *)
Definition first_boot : dp_state :=
  match dp_init (mk_room ∅ ∅ 0) (Some (mk_identity 42 (Some [65]) None 7)) (true, true) true (ESP_OK, ESP_OK) with
  | Ok (s, _) => s
  | _ => mk_dp [] [] 0 0
  end.

Definition num (key : string) (z : Z) : dp_item := (Some key, JNumber (f64_of_Z z)).

(** A valid batch: pressures, a name and a duplicate key. *)
Definition example_batch : list dp_item :=
  [num "Fon_Min_Pressure" 5; num "Fon_Max_Pressure" 6; num "Fon_Alert_High_Pressure" 8;
   (Some "Network_SSID", JString [104; 105]); num "Can_Node_Id" 9; num "Can_Node_Id" 12].

Lemma example_batch_ok : Forall item_ok example_batch.
Proof.
  repeat apply Forall_cons_2; try apply Forall_nil_2; unfold item_ok, json_ok; cbn [fst snd num];
    try (split; vm_compute; reflexivity); by repeat constructor.
Qed.

Lemma first_boot_typed : img_typed (g_dp_store first_boot).
Proof. apply img_typedb_spec. vm_compute. reflexivity. Qed.

Lemma dp_write_batch_atomic_witness :
  ∃ live', dp_write_locked (g_dp_store first_boot) (g_dp_store first_boot) example_batch
           = Ok (true, [], live') ∧ ref_uint live' "Can_Node_Id" = Ok 12 ∧ img_ok live'.
Proof.
  destruct (dp_write_batch_atomic (g_dp_store first_boot) (g_dp_store first_boot) example_batch)
    as (ok & errs & live' & H & Hok & _); [apply first_boot_typed|apply first_boot_typed|exact example_batch_ok|].
  exists live'. vm_compute in H. injection H as <- <- <-.
  split; [vm_compute; reflexivity|]. split; [vm_compute; reflexivity|exact Hok].
Defined.

Lemma dp_store_type_safe_witness :
  dp_reach first_boot ∧
  ∃ r, dp_write_batch first_boot (mk_room ∅ ∅ 3) (g_dp_store first_boot) example_batch ESP_OK ESP_OK = Ok r.
Proof.
  assert (dp_reach first_boot) as Hr.
  { apply (reach_init (mk_room ∅ ∅ 0) (Some (mk_identity 42 (Some [65]) None 7)) (true, true) true
             (ESP_OK, ESP_OK) first_boot (mk_room ∅ ∅ 0)).
    - intros k b H. done.
    - intros blob H. discriminate H.
    - intros j [= <-]. split; [intros v Hv; injection Hv as <-; by apply Forall_singleton|done].
    - vm_compute. reflexivity. }
  split; [exact Hr|].
  pose proof (dp_store_type_safe first_boot Hr) as (_ & _ & Hw & _).
  apply Hw. exact example_batch_ok.
Defined.

(** The store of a second boot. *)
Definition second_boot (n : room_nvs) : dp_state :=
  match dp_init n None (true, true) true (ESP_OK, ESP_OK) with
  | Ok (s, _) => s
  | _ => mk_dp [] [] 0 0
  end.

Definition after_batch (room : nat) : dp_state * room_nvs * bool * bool :=
  match dp_write_batch first_boot (mk_room ∅ ∅ room) (g_dp_store first_boot) example_batch ESP_OK ESP_OK with
  | Ok (ok, _, saved, s, n) => (s, n, ok, saved)
  | _ => (first_boot, mk_room ∅ ∅ 0, false, false)
  end.

Definition written_state : dp_state := (after_batch 0).1.1.1.

Definition saved_nvs : room_nvs :=
  match dp_config_save written_state (mk_room ∅ ∅ 100) ESP_OK ESP_OK with
  | Ok (_, n) => n
  | _ => mk_room ∅ ∅ 0
  end.

Lemma config_survives_restart_witness :
  dp_config_save written_state (mk_room ∅ ∅ 100) ESP_OK ESP_OK = Ok (ESP_OK, saved_nvs) ∧
  ∃ s1, dp_config_load first_boot saved_nvs true = Ok s1 ∧ s_last s1 = s_last first_boot ∧
    ref_uint (g_dp_store s1) "Can_Node_Id" = Ok 12.
Proof.
  assert (dp_config_save written_state (mk_room ∅ ∅ 100) ESP_OK ESP_OK = Ok (ESP_OK, saved_nvs)) as Hs
    by (vm_compute; reflexivity).
  assert (img_ok (g_dp_store written_state)) as Hw by (apply img_typedb_spec; vm_compute; reflexivity).
  assert (blobs_ok (mk_room ∅ ∅ 100)) as Hb by (intros k b H; done).
  destruct (config_survives_restart written_state first_boot (mk_room ∅ ∅ 100) saved_nvs Hw
              (proj1 first_boot_typed) Hb Hs) as (s1 & H1 & H2 & _).
  split; [exact Hs|]. exists s1. split; [exact H1|]. split; [exact H2|].
  vm_compute in H1. injection H1 as <-. vm_compute. reflexivity.
Defined.

(** The load does not check the cross-field rules.  When NVS fills up in the
    middle of a save, an accepted batch is stored in part; the next boot mixes the
    stored values with defaults and starts with a configuration that violates the
    rules, after which every batch is refused, however unrelated. *)
Theorem torn_save_breaks_rules :
  let '(s, n, ok, saved) := after_batch 1 in
  ok = true ∧ saved = false ∧ dp_constraints_ok (g_dp_store s) = Ok None ∧
  dp_constraints_ok (g_dp_store (second_boot n)) = Ok (Some "Fon_Max_Pressure") ∧
  ∃ live, dp_write_locked (g_dp_store (second_boot n)) (g_dp_store (second_boot n)) [num "Log_Flash_Level" 1]
          = Ok (false, [("Fon_Max_Pressure", "constraint_violation")], live).
Proof.
  vm_compute. split_and!; try reflexivity. eexists. reflexivity.
Qed.

(** A legacy blob is adopted unchecked: a node id of 255, which no write and no load
    accepts, comes in with it and stays. *)
Definition bad_blob : list Z :=
  match dp_find "Can_Node_Id" with
  | Some d =>
      <[Z.to_nat (dd_off d - cfg_bounds.1) := 255]>
        (take (Z.to_nat (cfg_bounds.2 - cfg_bounds.1)) (drop (Z.to_nat cfg_bounds.1) default_image))
  | None => []
  end.

Example legacy_blob_keeps_bad_values :
  let n := mk_room {["cfg" := bad_blob]} {["ver" := DP_CFG_VERSION]} 100 in
  match dp_init n None (true, true) true (ESP_OK, ESP_OK) with
  | Ok (s, _) => ref_uint (g_dp_store s) "Can_Node_Id" = Ok 255 ∧ img_typedb (g_dp_store s) = false
  | _ => False
  end.
Proof. vm_compute. split; reflexivity. Qed.
