(* ===== verification/FpAuth.v ===== *)
(** * Message authentication: [fp_auth.c]

    Models src/components/clientside_protocol/src/fp_auth.c: the growing string
    buffer, the canonical serialisation of a JSON tree, the MAC input, signing,
    verification and the replay check.  SHA-256, HMAC and base64 (mbedTLS) and the
    heap are parameters.  [size_t] and [long] have 32 bits.

    The heap is the one the string buffer grows in ([alloc]).  The other allocations
    of this file are taken to succeed: the array of an object's members (calloc in
    canon_write, whose result the code does not check), the copy of the message
    (cJSON_Duplicate) and the copies of the header fields (strdup), where the code
    would go on with a null pointer, the hash of "null" or an empty field. *)

From Stdlib Require Import SpecFloat.
From stdpp Require Import pretty.
From S2P Require Import Prelude Bytes Float32 Float64.
Local Open Scope string_scope.
Local Open Scope list_scope.
Local Open Scope Z_scope.

(** ** JSON trees *)

(** A cJSON tree; strings and keys are their bytes. *)
Inductive cjson :=
  | CNull
  | CBool (b : bool)
  | CNumber (v : f64)
  | CString (s : list Z)
  | CArray (l : list cjson)
  | CObject (l : list (list Z * cjson)).

Definition cstr (s : string) : list Z := map (λ a, Z.of_N (Ascii.N_of_ascii a)) (String.list_ascii_of_string s).

Definition members (m : cjson) : list (list Z * cjson) :=
  match m with CObject l => l | _ => [] end.

(** [cJSON_GetObjectItemCaseSensitive]: the first member with the key. *)
Definition get_item (m : cjson) (key : string) : option cjson :=
  snd <$> List.find (λ '(k, _), bool_decide (k = cstr key)) (members m).

Definition lower (c : Z) : Z := if (65 <=? c) && (c <=? 90) then c + 32 else c.

Definition same_key_ci (k : list Z) (key : string) : bool :=
  bool_decide (map lower k = map lower (cstr key)).

(** [cJSON_DeleteItemFromObject] ignores case and deletes the first match. *)
Fixpoint delete_first (l : list (list Z * cjson)) (key : string) : list (list Z * cjson) :=
  match l with
  | [] => []
  | (k, v) :: l => if same_key_ci k key then l else (k, v) :: delete_first l key
  end.

Definition delete_item (m : cjson) (key : string) : cjson :=
  match m with CObject l => CObject (delete_first l key) | _ => m end.

Definition add_item (m : cjson) (key : string) (v : cjson) : cjson :=
  match m with CObject l => CObject (l ++ [(cstr key, v)]) | _ => m end.

(** ** The string buffer *)

Record sb_t := mk_sb { sb_p : list Z; sb_len : Z; sb_cap : Z }.

(** The doubling loop; [size_t] arithmetic wraps. *)
Fixpoint sb_grow (fuel : nat) (nc need : Z) : res Z :=
  match fuel with
  | O => OutOfFuel
  | S fuel => if nc <? need then sb_grow fuel (u32 (nc * 2)) need else Ok nc
  end.

Section heap.
(** The block an allocation of a size returns, if it succeeds. *)
Variable alloc : Z → option (list Z).

Definition sb_init : res (option sb_t) :=
  match alloc 128 with
  | None => Ok None
  | Some p => p ← array_set p 0 0; Ok (Some (mk_sb p 0 128))
  end.

(** The loop runs at most 33 times or for ever: 2^31 is reached or the size has
    wrapped to zero. *)
Definition sb_putn (s : sb_t) (d : list Z) : res (bool * sb_t) :=
  let n := zlen d in
  let need := u32 (u32 (sb_len s + n) + 1) in
  r ← (if sb_cap s <? need then
         nc ← sb_grow 34 (u32 (sb_cap s * 2)) need;
         match alloc nc with
         | None => Ok None
         | Some np => Ok (Some (take (Z.to_nat (sb_cap s)) (sb_p s) ++ drop (Z.to_nat (sb_cap s)) np, nc)%list)
         end
       else Ok (Some (sb_p s, sb_cap s)));
  match r with
  | None => Ok (false, s)
  | Some (p, cap) =>
      p ← array_write p (sb_len s) d;
      p ← array_set p (u32 (sb_len s + n)) 0;
      Ok (true, mk_sb p (u32 (sb_len s + n)) cap)
  end.

(** The callers of [sb_putc] and [sb_puts] ignore the result. *)
Definition put (d : list Z) (s : sb_t) : res sb_t := r ← sb_putn s d; Ok r.2.

(** ** Numbers *)

(** [%lld]. *)
Definition fmt_int (z : Z) : list Z := cstr (pretty z).

(** The value of a positive double as a fraction. *)
Definition fraction (m : positive) (e : Z) : Z * Z :=
  if 0 <=? e then (Zpos m * 2 ^ e, 1) else (Zpos m, 2 ^ (- e)).

(** [num/den >= 10^x]. *)
Definition ge_pow10 (num den x : Z) : bool :=
  if 0 <=? x then den * 10 ^ x <=? num else den <=? num * 10 ^ (- x).

(** The decimal exponent, searched upwards from below. *)
Fixpoint dec_exponent (fuel : nat) (num den x : Z) : Z :=
  match fuel with
  | O => x
  | S fuel => if ge_pow10 num den (x + 1) then dec_exponent fuel num den (x + 1) else x
  end.

(** The first [prec] digits, rounded to nearest even, and their exponent. *)
Definition round_digits (prec : Z) (m : positive) (e : Z) : Z * Z :=
  let '(num, den) := fraction m e in
  let x := dec_exponent 4 num den ((Z.log2 (Zpos m) + e) * 30103 / 100000 - 1) in
  let k := prec - 1 - x in
  let '(a, b) := if 0 <=? k then (num * 10 ^ k, den) else (num, den * 10 ^ (- k)) in
  let q := a / b in
  let r := a mod b in
  let q := if (b <? 2 * r) || ((2 * r =? b) && Z.odd q) then q + 1 else q in
  if q =? 10 ^ prec then (q / 10, x + 1) else (q, x).

(** The decimal digits of [q], [n] of them. *)
Fixpoint dec_digits (n : nat) (q : Z) : list Z :=
  match n with
  | O => []
  | S n => dec_digits n (q / 10) ++ [48 + q mod 10]
  end%list.

Fixpoint strip_zeros (l : list Z) : list Z :=
  match l with
  | [] => []
  | c :: l => match strip_zeros l with [] => if c =? 48 then [] else [c] | r => c :: r end
  end.

Definition with_point (int frac : list Z) : list Z :=
  (int ++ match strip_zeros frac with [] => [] | f => 46 :: f end)%list.

(** [%.*g] of a finite, non-zero number. *)
Definition fmt_g (prec : Z) (s : bool) (m : positive) (e : Z) : list Z :=
  let '(q, x) := round_digits prec m e in
  let ds := dec_digits (Z.to_nat prec) q in
  ((if s then [45] else []) ++
   if (x <? -4) || (prec <=? x) then
     with_point (take 1 ds) (drop 1 ds) ++ [101; if x <? 0 then 45 else 43] ++
     (if Z.abs x <? 100 then dec_digits 2 (Z.abs x) else dec_digits 3 (Z.abs x))
   else if x <? 0 then with_point [48] (replicate (Z.to_nat (- x - 1)) 48 ++ ds)
   else with_point (take (Z.to_nat (x + 1)) ds) (drop (Z.to_nat (x + 1)) ds))%list.

(** [strtod] of the decimal [q * 10^k]: correctly rounded. *)
Definition dec_to_f64 (s : bool) (q k : Z) : f64 :=
  match q with
  | Zpos p =>
      if 0 <=? k then binary_normalize 53 1024 (cond_Zopp s (Zpos p * 10 ^ k)) 0 s
      else let '(d, e, l) := SFdiv_core_binary 53 1024 (Zpos p) 0 (10 ^ (- k)) 0 in
           binary_round_aux 53 1024 s d e l
  | _ => S754_zero s
  end.

Definition round_trips (prec : Z) (s : bool) (m : positive) (e : Z) : bool :=
  let '(q, x) := round_digits prec m e in
  SFeqb (dec_to_f64 s q (x - prec + 1)) (S754_finite s m e).

(** The short integer form or the first of 15, 16, 17 digits that reads back. *)
Definition number_text (d : f64) : list Z :=
  let int := match f64_trunc d with
             | Some z => if (Z.abs z <=? 9000000000000000) && SFeqb d (f64_of_Z z) then Some z else None
             | None => None
             end in
  match int, d with
  | Some z, _ => fmt_int z
  | None, S754_finite s m e =>
      fmt_g (if round_trips 15 s m e then 15 else if round_trips 16 s m e then 16 else 17) s m e
  | None, S754_infinity s => cstr (if s then "-inf" else "inf")
  | None, _ => cstr "nan"
  end.

(** ** The canonical form *)

Definition hex_lower (v : Z) : Z := if v <? 10 then 48 + v else 87 + v.

Definition emit_char (c : Z) : list Z :=
  if c =? 34 then [92; 34]
  else if c =? 92 then [92; 92]
  else if c =? 8 then cstr "\b"
  else if c =? 12 then cstr "\f"
  else if c =? 10 then cstr "\n"
  else if c =? 13 then cstr "\r"
  else if c =? 9 then cstr "\t"
  else if c <? 32 then (cstr "\u00" ++ [hex_lower (c / 16); hex_lower (c mod 16)])%list
  else [c].

Fixpoint emit_chars (z : list Z) (s : sb_t) : res sb_t :=
  match z with
  | [] => Ok s
  | c :: z => s ← put (emit_char c) s; emit_chars z s
  end.

Definition emit_string (z : list Z) (s : sb_t) : res sb_t :=
  s ← put [34] s; s ← emit_chars z s; put [34] s.

Definition emit_number (d : f64) (s : sb_t) : res sb_t := put (number_text d) s.

(** [strcmp] on unsigned characters. *)
Fixpoint key_le (a b : list Z) : bool :=
  match a, b with
  | [], _ => true
  | _ :: _, [] => false
  | x :: a, y :: b => (x <? y) || ((x =? y) && key_le a b)
  end.

Fixpoint insert_kid {A} (kid : list Z * A) (l : list (list Z * A)) : list (list Z * A) :=
  match l with
  | [] => [kid]
  | x :: r => if key_le kid.1 x.1 then kid :: l else x :: insert_kid kid r
  end.

(** [qsort] by name; the order of equal names is not specified. *)
Fixpoint sort_kids {A} (l : list (list Z * A)) : list (list Z * A) :=
  match l with
  | [] => []
  | x :: l => insert_kid x (sort_kids l)
  end.

(** Members and elements separated by commas. *)
Fixpoint write_members (first : bool) (kids : list (list Z * (sb_t → res sb_t))) (s : sb_t) : res sb_t :=
  match kids with
  | [] => Ok s
  | (k, w) :: kids =>
      s ← (if first then Ok s else put [44] s);
      s ← emit_string k s; s ← put [58] s; s ← w s; write_members false kids s
  end.

Fixpoint write_elements (first : bool) (kids : list (sb_t → res sb_t)) (s : sb_t) : res sb_t :=
  match kids with
  | [] => Ok s
  | w :: kids => s ← (if first then Ok s else put [44] s); s ← w s; write_elements false kids s
  end.

Fixpoint canon_write (n : cjson) : sb_t → res sb_t :=
  match n with
  | CObject l => λ s,
      s ← put [123] s;
      s ← write_members true (sort_kids (map (λ '(k, v), (k, canon_write v)) l)) s;
      put [125] s
  | CArray l => λ s, s ← put [91] s; s ← write_elements true (map canon_write l) s; put [93] s
  | CString z => emit_string z
  | CNumber d => emit_number d
  | CBool b => put (cstr (if b then "true" else "false"))
  | CNull => put (cstr "null")
  end.

(** The text in the buffer, or nothing without memory. *)
Definition fp_auth_canon_build (n : cjson) : res (option (list Z)) :=
  s ← sb_init;
  match s with
  | None => Ok None
  | Some s => s ← canon_write n s; t ← c_string (sb_p s); Ok (Some t)
  end.
End heap.

(** ** Hash, MAC, signature *)

(** [sscanf] with "%2x" at the start of the text: spaces are skipped, then a sign
    and a 0x prefix count as characters of the field of two. *)
Definition is_space (c : Z) : bool := (c =? 32) || ((9 <=? c) && (c <=? 13)).

Fixpoint skip_spaces (s : list Z) : list Z :=
  match s with c :: r => if is_space c then skip_spaces r else s | [] => s end.

Definition hex_val (c : Z) : option Z :=
  if (48 <=? c) && (c <=? 57) then Some (c - 48)
  else if (97 <=? c) && (c <=? 102) then Some (c - 87)
  else if (65 <=? c) && (c <=? 70) then Some (c - 55) else None.

Definition scan_2x (s : list Z) : option Z :=
  match skip_spaces s with
  | a :: r =>
      if (a =? 45) || (a =? 43) then
        match r with
        | b :: _ => v ← hex_val b; Some (if a =? 45 then u32 (- v) else v)
        | [] => None
        end
      else
        v ← hex_val a;
        match r with
        | b :: _ =>
            if (v =? 0) && ((b =? 120) || (b =? 88)) then None
            else Some (match hex_val b with Some w => v * 16 + w | None => v end)
        | [] => Some v
        end
  | [] => None
  end.

(** [None]: the result -1. *)
Fixpoint hex_pairs (n : nat) (hex : list Z) : option (list Z) :=
  match n with
  | O => Some []
  | S n => v ← scan_2x hex; r ← hex_pairs n (drop 2 hex); Some (u8 v :: r)
  end.

Definition fp_auth_hex_decode (hex : list Z) (outcap : Z) : option (list Z) :=
  if negb (zlen hex mod 2 =? 0) || (outcap <? zlen hex / 2) then None
  else hex_pairs (length hex / 2) hex.

Definition hex_text (bytes : list Z) : list Z :=
  flat_map (λ b, [hex_lower (b / 16); hex_lower (b mod 16)]) bytes.

Definition ENVELOPE : list string := ["v"; "type"; "serial"; "ts"; "msg_id"; "in_reply_to"; "auth"].

(** The message without its envelope fields. *)
Definition body_of (msg : cjson) : cjson := foldl delete_item msg ENVELOPE.

(** The text of a field: a string, a number cast to [long long] (undefined in C
    beyond 64 bits), or nothing. *)
Definition field_str (msg : cjson) (key : string) : list Z :=
  match get_item msg key with
  | Some (CString s) => s
  | Some (CNumber v) => fmt_int (default 0 (f64_trunc v))
  | _ => []
  end.

Record auth_ctx := mk_auth_ctx {
  ac_key : list Z;
  ac_direction : list Z;
  ac_device_id : list Z;
  ac_server_nonce : list Z;
  ac_client_nonce : list Z
}.

Section mac.
Variable alloc : Z → option (list Z).
Variable sha256 : list Z → list Z.
Variable hmac : list Z → list Z → list Z.
(** [mbedtls_base64_encode] of a number of bytes, if it succeeds. *)
Variable base64 : list Z → option (list Z).

Definition fp_auth_sha256_hex (data : list Z) : list Z := hex_text (sha256 data).

(** Without memory for the canonical text the code passes a null pointer to
    [strlen]: undefined. *)
Definition fp_auth_body_hash_build (msg : cjson) : res (list Z) :=
  t ← fp_auth_canon_build alloc (body_of msg);
  match t with
  | Some t => Ok (fp_auth_sha256_hex t)
  | None => OutOfBounds
  end.

(** The thirteen fields, in order. *)
Definition mac_fields (c : auth_ctx) (msg : cjson) (kid seq body_hash : list Z) : list (list Z) :=
  [field_str msg "v"; field_str msg "type"; ac_direction c; ac_device_id c; field_str msg "serial";
   field_str msg "ts"; field_str msg "msg_id"; field_str msg "in_reply_to"; kid; seq;
   ac_server_nonce c; ac_client_nonce c; body_hash].

Fixpoint put_fields (first : bool) (fields : list (list Z)) (s : sb_t) : res sb_t :=
  match fields with
  | [] => Ok s
  | f :: fs => s ← (if first then Ok s else put alloc [31] s); s ← put alloc f s; put_fields false fs s
  end.

Definition compute_mac (c : auth_ctx) (msg : cjson) (kid seq body_hash : list Z) : res (option (list Z)) :=
  s ← sb_init alloc;
  match s with
  | None => Ok None
  | Some s =>
      s ← put_fields true (mac_fields c msg kid seq body_hash) s;
      t ← array_read (sb_p s) 0 (sb_len s);
      Ok (base64 (take 16 (hmac (ac_key c) t)))
  end.

(** The signed message, if a MAC could be computed. *)
Definition fp_auth_message_sign (c : auth_ctx) (msg : cjson) (kid : list Z) (seq : Z) : res (option cjson) :=
  h ← fp_auth_body_hash_build msg;
  mac ← compute_mac c msg kid (fmt_int seq) h;
  Ok (match mac with
      | None => None
      | Some mac =>
          let a := CObject [(cstr "kid", CString kid); (cstr "seq", CNumber (f64_of_Z seq));
                            (cstr "mac", CString mac)] in
          Some (add_item (delete_item msg "auth") "auth" a)
      end).

(** The reason of a refusal. *)
Definition fp_auth_message_verify (c : auth_ctx) (msg : cjson) (expected_kid : list Z) : res (option string) :=
  match get_item msg "auth" with
  | Some (CObject a) =>
      match get_item (CObject a) "kid" with
      | Some (CString kid) =>
          if negb (bool_decide (kid = expected_kid)) then Ok (Some "kid_mismatch") else
          match get_item (CObject a) "seq", get_item (CObject a) "mac" with
          | Some (CNumber seq), Some (CString mac) =>
              h ← fp_auth_body_hash_build msg;
              want ← compute_mac c msg kid (fmt_int (default 0 (f64_trunc seq))) h;
              Ok (match want with
                  | Some w => if bool_decide (w = mac) then None else Some "mac_mismatch"
                  | None => Some "mac_mismatch"
                  end)
          | Some (CNumber _), _ => Ok (Some "bad_mac")
          | _, _ => Ok (Some "bad_seq")
          end
      | _ => Ok (Some "kid_mismatch")
      end
  | _ => Ok (Some "missing_auth")
  end.
End mac.

(** Strictly increasing sequence numbers; the state is the last one. *)
Definition fp_replay_reset : Z := 0.

Definition fp_replay_check (last seq : Z) : bool * Z :=
  if seq <=? last then (false, last) else (true, seq).

(** ** The buffer is a growing string *)

(** The buffer holds the text and its terminator, in a power of two of bytes. *)
Record sb_ok (j : Z) (s : sb_t) (t : list Z) : Prop := {
  so_len : sb_len s = zlen t;
  so_mem : ∃ rest, sb_p s = t ++ 0 :: rest;
  so_size : zlen (sb_p s) = sb_cap s;
  so_cap : ∃ k, 7 <= k <= j ∧ sb_cap s = 2 ^ k
}.

Lemma sb_grow_ok fuel : ∀ k j need,
  0 <= k → k <= j → need <= 2 ^ j → j <= 31 → j - k < Z.of_nat fuel →
  ∃ k', k <= k' <= j ∧ sb_grow fuel (2 ^ k) need = Ok (2 ^ k') ∧ need <= 2 ^ k' ∧ (k' = k ∨ 2 ^ (k' - 1) < need).
Proof.
  induction fuel as [|fuel IH]; intros k j need Hk Hkj Hn Hj Hf; [lia|]. cbn [sb_grow].
  destruct (Z.ltb_spec (2 ^ k) need) as [Hlt|Hge].
  - assert (k < j) by (destruct (Z.eq_dec k j); [subst; lia|lia]).
    assert (u32 (2 ^ k * 2) = 2 ^ (k + 1)) as ->.
    { rewrite Z.pow_add_r by lia. apply u32_id. unfold is_u32.
      pose proof (Z.pow_le_mono_r 2 k 30). lia. }
    destruct (IH (k + 1) j need) as (k' & Hk' & -> & Hle & Hor); [lia..|].
    exists k'. split_and!; [lia|lia|done|done|]. right. destruct Hor as [->|]; [|done].
    by replace (k + 1 - 1) with k by lia.
  - exists k. split_and!; [lia|lia|done|done|by left].
Qed.

(** Beyond 2^31 the size wraps to zero and the loop never ends. *)
Lemma sb_grow_zero fuel need : 0 < need → sb_grow fuel 0 need = OutOfFuel.
Proof.
  induction fuel as [|fuel IH]; intros Hn; [done|]. cbn [sb_grow].
  rewrite (proj2 (Z.ltb_lt 0 need)) by done. by apply IH.
Qed.

Lemma sb_grow_diverges fuel : ∀ k need,
  0 <= k <= 31 → 2 ^ 31 < need → sb_grow fuel (2 ^ k) need = OutOfFuel.
Proof.
  induction fuel as [|fuel IH]; intros k need Hk Hn; [done|]. cbn [sb_grow].
  pose proof (Z.pow_le_mono_r 2 k 31 ltac:(lia) ltac:(lia)).
  rewrite (proj2 (Z.ltb_lt (2 ^ k) need)) by lia.
  destruct (Z.eq_dec k 31) as [->|].
  - apply sb_grow_zero. lia.
  - assert (u32 (2 ^ k * 2) = 2 ^ (k + 1)) as ->.
    { rewrite Z.pow_add_r by lia. apply u32_id. unfold is_u32. pose proof (Z.pow_le_mono_r 2 k 30). lia. }
    apply IH; lia.
Qed.

Section writers.
Variable alloc : Z → option (list Z).
Hypothesis alloc_size : ∀ n b, alloc n = Some b → zlen b = n.

(** An append ends; it extends the text, or leaves the buffer alone when the heap
    refuses.  The new capacity is less than twice what is needed. *)
Lemma sb_putn_ok j s t d :
  7 <= j <= 31 → sb_ok j s t → zlen t + zlen d + 1 <= 2 ^ j →
  ∃ b s', sb_putn alloc s d = Ok (b, s') ∧
    (if b : bool then sb_ok j s' (t ++ d) ∧ (sb_cap s' = sb_cap s ∨ sb_cap s' < 2 * (zlen t + zlen d + 1))
     else s' = s ∧ ∃ n, alloc n = None ∧ 128 <= n <= 2 ^ j).
Proof.
  intros Hj Hok Hneed. pose proof Hok as [Hl [rest Hm] Hs (k & Hk & Hc)].
  pose proof (Z.pow_le_mono_r 2 j 31 ltac:(lia) ltac:(lia)) as Hj31.
  pose proof (zlen_nonneg t) as Ht0. pose proof (zlen_nonneg d) as Hd0.
  unfold sb_putn. rewrite Hl.
  assert (u32 (zlen t + zlen d) = zlen t + zlen d) as E1 by (apply u32_id; unfold is_u32; lia).
  assert (u32 (zlen t + zlen d + 1) = zlen t + zlen d + 1) as E2 by (apply u32_id; unfold is_u32; lia).
  rewrite E1, E2.
  (* what remains to be written into a block that starts with the text *)
  assert (∀ p cap, (∃ r, p = t ++ r) → zlen p = cap → zlen t + zlen d + 1 <= cap → (∃ k, 7 <= k <= j ∧ cap = 2 ^ k) →
    ∃ p1 p2, array_write p (zlen t) d = Ok p1 ∧ array_set p1 (zlen t + zlen d) 0 = Ok p2 ∧
             sb_ok j (mk_sb p2 (zlen t + zlen d) cap) (t ++ d)) as Hwrite.
  { intros p cap [r ->] Hp Hfit Hpow. rewrite zlen_app in Hp.
    set (n := length d). assert (n < length r)%nat as Hn by (unfold zlen in *; lia).
    destruct (drop n r) as [|x r'] eqn:Edrop.
    { apply (f_equal length) in Edrop. rewrite length_drop in Edrop. cbn in Edrop. lia. }
    assert (t ++ r = t ++ take n r ++ x :: r') as Er by (by rewrite <- Edrop, take_drop).
    exists (t ++ d ++ x :: r'), ((t ++ d) ++ 0 :: r'). split_and!.
    - rewrite Er. apply array_write_app; [done|].
      unfold zlen. rewrite length_take. lia.
    - rewrite array_set_write, app_assoc, <- zlen_app.
      apply (array_write_app (t ++ d) [x] [0] r'); [done|done].
    - split; cbn.
      + by rewrite zlen_app.
      + by exists r'.
      + apply (f_equal length) in Er. unfold zlen in *. rewrite !length_app in *. cbn in *.
        rewrite length_take in Er. lia.
      + done. }
  destruct (Z.ltb_spec (sb_cap s) (zlen t + zlen d + 1)) as [Hgrow|Hfit].
  - assert (k < j) as Hkj.
    { destruct (Z.eq_dec k j); [subst; lia|lia]. }
    assert (u32 (sb_cap s * 2) = 2 ^ (k + 1)) as ->.
    { rewrite Hc, Z.pow_add_r by lia. apply u32_id. unfold is_u32. pose proof (Z.pow_le_mono_r 2 k 30). lia. }
    destruct (sb_grow_ok 34 (k + 1) j (zlen t + zlen d + 1)) as (k' & Hk' & -> & Hle & Hor); [lia..|].
    cbn [mbind res_bind]. destruct (alloc (2 ^ k')) as [np|] eqn:Ea; cbn [mbind res_bind].
    + apply alloc_size in Ea.
      assert (take (Z.to_nat (sb_cap s)) (sb_p s) = sb_p s) as Etake
        by (apply take_ge; unfold zlen in Hs; lia).
      rewrite Etake.
      destruct (Hwrite (sb_p s ++ drop (Z.to_nat (sb_cap s)) np)%list (2 ^ k')) as (p1 & p2 & H1 & H2 & H3).
      * rewrite Hm. exists (0 :: rest ++ drop (Z.to_nat (sb_cap s)) np). by rewrite <- app_assoc.
      * rewrite zlen_app, Hs. unfold zlen in *. rewrite length_drop.
        pose proof (Z.pow_le_mono_r 2 k k' ltac:(lia) ltac:(lia)). lia.
      * done.
      * exists k'. split; [lia|done].
      * rewrite H1. cbn [mbind res_bind]. rewrite H2. cbn [mbind res_bind]. eexists _, _. split; [reflexivity|].
        split; [exact H3|]. right. cbn [sb_cap]. destruct Hor as [->|Hor].
        -- rewrite Hc in Hgrow. rewrite Z.pow_add_r by lia. lia.
        -- replace k' with (k' - 1 + 1) by lia. rewrite Z.pow_add_r by lia. lia.
    + eexists _, _. split; [reflexivity|]. split; [done|]. exists (2 ^ k'). split; [done|].
      pose proof (Z.pow_le_mono_r 2 7 k' ltac:(lia) ltac:(lia)).
      pose proof (Z.pow_le_mono_r 2 k' j ltac:(lia) ltac:(lia)). lia.
  - destruct (Hwrite (sb_p s) (sb_cap s)) as (p1 & p2 & H1 & H2 & H3); [by rewrite Hm; eexists|done|done|by exists k|].
    cbn [mbind res_bind]. rewrite H1. cbn [mbind res_bind]. rewrite H2. cbn [mbind res_bind].
    eexists _, _. split; [reflexivity|]. split; [exact H3|by left].
Qed.

(** ** Writers and their texts *)

Variable j : Z.
Hypothesis j_range : 7 <= j <= 31.
Hypothesis alloc_enough : ∀ n, 128 <= n <= 2 ^ j → is_Some (alloc n).

(** The writer appends the text wherever it fits. *)
Definition writes (w : sb_t → res sb_t) (t : list Z) : Prop :=
  ∀ s pre, sb_ok j s pre → zlen pre + zlen t + 1 <= 2 ^ j → ∃ s', w s = Ok s' ∧ sb_ok j s' (pre ++ t).

Lemma writes_put t : writes (put alloc t) t.
Proof.
  intros s pre Hs Hfit. destruct (sb_putn_ok j s pre t j_range Hs Hfit) as (b & s' & E & H).
  unfold put. rewrite E. cbn [mbind res_bind snd]. exists s'. split; [done|].
  destruct b; [by destruct H|]. destruct H as [_ (n & Hn & Hle)].
  destruct (alloc_enough n Hle) as [? ?]. congruence.
Qed.

Lemma writes_ret : writes Ok [].
Proof. intros s pre Hs _. exists s. by rewrite app_nil_r. Qed.

Lemma writes_bind w1 w2 t1 t2 :
  writes w1 t1 → writes w2 t2 → writes (λ s, s ← w1 s; w2 s) (t1 ++ t2).
Proof.
  intros H1 H2 s pre Hs Hfit. rewrite zlen_app in Hfit.
  pose proof (zlen_nonneg t1). pose proof (zlen_nonneg t2).
  destruct (H1 s pre Hs) as (s1 & -> & Hs1); [lia|]. cbn [mbind res_bind].
  destruct (H2 s1 (pre ++ t1) Hs1) as (s2 & -> & Hs2); [rewrite zlen_app; lia|].
  exists s2. by rewrite app_assoc.
Qed.

(** [writes_bind] for a text given in another shape. *)
Lemma writes_seq w1 w2 t1 t2 t :
  writes w1 t1 → writes w2 t2 → t = t1 ++ t2 → writes (λ s, s ← w1 s; w2 s) t.
Proof. intros H1 H2 ->. by apply writes_bind. Qed.

Definition quoted (z : list Z) : list Z := 34 :: flat_map emit_char z ++ [34].

Lemma writes_chars z : writes (emit_chars alloc z) (flat_map emit_char z).
Proof.
  induction z as [|c z IH]; [apply writes_ret|]. cbn [emit_chars flat_map].
  apply (writes_bind (put alloc (emit_char c)) (emit_chars alloc z)); [apply writes_put|exact IH].
Qed.

Lemma writes_string z : writes (emit_string alloc z) (quoted z).
Proof.
  unfold emit_string, quoted.
  apply (writes_seq (put alloc [34]) (λ s, s ← emit_chars alloc z s; put alloc [34] s) [34]
           (flat_map emit_char z ++ [34])); [apply writes_put| |done].
  apply (writes_bind (emit_chars alloc z) (put alloc [34])); [apply writes_chars|apply writes_put].
Qed.

(** Texts separated by a character. *)
Fixpoint join (sep : Z) (fields : list (list Z)) : list Z :=
  match fields with
  | [] => []
  | f :: fs => f ++ match fs with [] => [] | _ => sep :: join sep fs end
  end.

(** The same, with a separator in front unless it is the first. *)
Definition joined (first : bool) (sep : Z) (fields : list (list Z)) : list Z :=
  if first then join sep fields else match fields with [] => [] | _ => sep :: join sep fields end.

Lemma joined_cons first sep f fs :
  joined first sep (f :: fs) = (if first then [] else [sep]) ++ f ++ joined false sep fs.
Proof. by destruct first. Qed.

Definition member_text (kt : list Z * list Z) : list Z := quoted kt.1 ++ 58 :: kt.2.

Lemma writes_sep (first : bool) c :
  writes (λ s, if first then Ok s else put alloc [c] s) (if first then [] else [c]).
Proof. destruct first; [apply writes_ret|apply writes_put]. Qed.

Lemma writes_members kids texts : ∀ first,
  Forall2 (λ kw kt, kw.1 = kt.1 ∧ writes kw.2 kt.2) kids texts →
  writes (write_members alloc first kids) (joined first 44 (member_text <$> texts)).
Proof.
  intros first H. revert first. induction H as [|[k w] [k' t] kids texts [Hk Hw] _ IH]; intros first.
  { destruct first; apply writes_ret. }
  cbn [fst snd] in Hk, Hw. subst k'. rewrite fmap_cons, joined_cons. unfold member_text at 1. cbn [fst snd].
  cbn [write_members].
  apply (writes_seq (λ s, if first then Ok s else put alloc [44] s)
    (λ s, s ← emit_string alloc k s; s ← put alloc [58] s; s ← w s; write_members alloc false kids s)
    (if first then [] else [44]) (quoted k ++ ([58] ++ (t ++ joined false 44 (member_text <$> texts)))));
    [apply writes_sep| |by rewrite <- !app_assoc].
  apply (writes_bind (emit_string alloc k) (λ s, s ← put alloc [58] s; s ← w s; write_members alloc false kids s));
    [apply writes_string|].
  apply (writes_bind (put alloc [58]) (λ s, s ← w s; write_members alloc false kids s)); [apply writes_put|].
  apply (writes_bind w (write_members alloc false kids)); [done|apply IH].
Qed.

Lemma writes_elements kids texts : ∀ first,
  Forall2 writes kids texts → writes (write_elements alloc first kids) (joined first 44 texts).
Proof.
  intros first H. revert first. induction H as [|w t kids texts Hw _ IH]; intros first.
  { destruct first; apply writes_ret. }
  rewrite joined_cons. cbn [write_elements].
  apply (writes_seq (λ s, if first then Ok s else put alloc [44] s) (λ s, s ← w s; write_elements alloc false kids s)
           (if first then [] else [44]) (t ++ joined false 44 texts)); [apply writes_sep| |done].
  apply (writes_bind w (write_elements alloc false kids)); [done|apply IH].
Qed.

(** ** The reference serialiser *)

Fixpoint canon (n : cjson) : list Z :=
  match n with
  | CObject l =>
      123 :: join 44 (member_text <$> sort_kids (map (λ '(k, v), (k, canon v)) l)) ++ [125]
  | CArray l => 91 :: join 44 (map canon l) ++ [93]
  | CString z => quoted z
  | CNumber d => number_text d
  | CBool b => cstr (if b then "true" else "false")
  | CNull => cstr "null"
  end.

(** Sorting looks at the keys only. *)
Lemma insert_kid_rel {A B} (R : A → B → Prop) (x : list Z * A) (y : list Z * B) l k :
  x.1 = y.1 → R x.2 y.2 → Forall2 (λ a b, a.1 = b.1 ∧ R a.2 b.2) l k →
  Forall2 (λ a b, a.1 = b.1 ∧ R a.2 b.2) (insert_kid x l) (insert_kid y k).
Proof.
  intros Hk HR H. induction H as [|a b l k [Hab HRab] H IH]; cbn [insert_kid].
  - by repeat constructor.
  - rewrite Hk, Hab. destruct (key_le _ _); [by repeat constructor|by constructor].
Qed.

Lemma sort_kids_rel {A B} (R : A → B → Prop) (l : list (list Z * A)) (k : list (list Z * B)) :
  Forall2 (λ a b, a.1 = b.1 ∧ R a.2 b.2) l k →
  Forall2 (λ a b, a.1 = b.1 ∧ R a.2 b.2) (sort_kids l) (sort_kids k).
Proof.
  induction 1 as [|a b l k [Hab HR] _ IH]; cbn [sort_kids]; [constructor|].
  by apply insert_kid_rel.
Qed.

(** Induction over a tree, through its lists. *)
Definition cjson_nested_ind (P : cjson → Prop) (Hnull : P CNull) (Hbool : ∀ b, P (CBool b))
    (Hnum : ∀ v, P (CNumber v)) (Hstr : ∀ s, P (CString s))
    (Harr : ∀ l, Forall P l → P (CArray l))
    (Hobj : ∀ l, Forall (λ kv, P kv.2) l → P (CObject l)) : ∀ n, P n :=
  fix go n := match n with
  | CNull => Hnull | CBool b => Hbool b | CNumber v => Hnum v | CString s => Hstr s
  | CArray l => Harr l ((fix all l : Forall P l := match l with
      | [] => Forall_nil_2 _ | x :: l => Forall_cons_2 _ x l (go x) (all l) end) l)
  | CObject l => Hobj l ((fix all l : Forall (λ kv, P kv.2) l := match l with
      | [] => Forall_nil_2 _ | x :: l => Forall_cons_2 _ x l (go x.2) (all l) end) l)
  end.

Lemma canon_write_writes n : writes (canon_write alloc n) (canon n).
Proof.
  induction n as [|b|v|z|l IH|l IH] using cjson_nested_ind; cbn [canon_write canon];
    try apply writes_put; try apply writes_string.
  - apply (writes_seq (put alloc [91]) (λ s, s ← write_elements alloc true (map (canon_write alloc) l) s; put alloc [93] s)
      [91] (join 44 (map canon l) ++ [93])); [apply writes_put| |done].
    apply (writes_bind (write_elements alloc true (map (canon_write alloc) l)) (put alloc [93])); [|apply writes_put].
    apply (writes_elements _ _ true). induction IH; constructor; done.
  - set (ws := map (λ '(k, v), (k, canon_write alloc v)) l). set (ts := map (λ '(k, v), (k, canon v)) l).
    apply (writes_seq (put alloc [123]) (λ s, s ← write_members alloc true (sort_kids ws) s; put alloc [125] s)
      [123] (join 44 (member_text <$> sort_kids ts) ++ [125])); [apply writes_put| |done].
    apply (writes_bind (write_members alloc true (sort_kids ws)) (put alloc [125])); [|apply writes_put].
    apply (writes_members _ _ true), sort_kids_rel. subst ws ts.
    induction IH as [|[k v] l Hv _ IHl]; constructor; [by split|done].
Qed.

(** No character of a canonical text is NUL. *)
Definition no_nul (t : list Z) : Prop := Forall (λ c, c ≠ 0) t.

Lemma cstr_literal_no_nul s : forallb (λ c, negb (c =? 0)) (cstr s) = true → no_nul (cstr s).
Proof.
  rewrite forallb_forall. intros H. apply Forall_forall. intros c Hc%list_elem_of_In.
  apply H in Hc. by apply negb_true_iff, Z.eqb_neq in Hc.
Qed.

Lemma fresh_buffer :
  ∃ s, sb_init alloc = Ok (Some s) ∧ sb_ok j s [].
Proof.
  unfold sb_init. pose proof (Z.pow_le_mono_r 2 7 j ltac:(lia) ltac:(lia)) as H7.
  destruct (alloc_enough 128) as [p Ep]; [lia|]. rewrite Ep. apply alloc_size in Ep.
  destruct p as [|x p]; [done|].
  pose proof (array_set_write (x :: p) 0 0) as Hw.
  rewrite (array_write_app [] [x] [0] p) in Hw by done. cbn [app] in Hw. rewrite Hw. cbn [mbind res_bind].
  eexists. split; [reflexivity|]. split; cbn.
  - done.
  - by exists p.
  - exact Ep.
  - exists 7. split; [lia|done].
Qed.

(** The buffer's text is the reference serialisation. *)
Lemma canon_build_ok n :
  no_nul (canon n) → zlen (canon n) + 1 <= 2 ^ j → fp_auth_canon_build alloc n = Ok (Some (canon n)).
Proof.
  intros Hn Hfit. unfold fp_auth_canon_build. destruct fresh_buffer as (s & -> & Hs). cbn [mbind res_bind].
  destruct (canon_write_writes n s [] Hs) as (s' & -> & [Hl [rest Hm] _ _]); [done|]. cbn [mbind res_bind].
  rewrite Hm. cbn [app]. by rewrite c_string_app.
Qed.

Lemma writes_fields fs : ∀ first, writes (put_fields alloc first fs) (joined first 31 fs).
Proof.
  induction fs as [|f fs IH]; intros first; [destruct first; apply writes_ret|].
  rewrite joined_cons. cbn [put_fields].
  apply (writes_seq (λ s, if first then Ok s else put alloc [31] s) (λ s, s ← put alloc f s; put_fields alloc false fs s)
           (if first then [] else [31]) (f ++ joined false 31 fs)); [apply writes_sep| |done].
  apply (writes_bind (put alloc f) (put_fields alloc false fs)); [apply writes_put|apply IH].
Qed.

(** The MAC is the HMAC of the fields joined by the separator. *)
Lemma compute_mac_ok hmac base64 c msg kid seq h :
  zlen (join 31 (mac_fields c msg kid seq h)) + 1 <= 2 ^ j →
  compute_mac alloc hmac base64 c msg kid seq h =
  Ok (base64 (take 16 (hmac (ac_key c) (join 31 (mac_fields c msg kid seq h))))).
Proof.
  intros Hfit. unfold compute_mac. destruct fresh_buffer as (s & -> & Hs). cbn [mbind res_bind].
  destruct (writes_fields (mac_fields c msg kid seq h) true s [] Hs) as (s' & -> & [Hl [rest Hm] _ _]); [done|].
  cbn [mbind res_bind joined app] in *. rewrite Hm, Hl.
  pose proof (array_read_app [] (join 31 (mac_fields c msg kid seq h)) (0 :: rest) 0) as Hr.
  cbn [app] in Hr. rewrite Hr by done. done.
Qed.
End writers.

(** ** The order of the members does not matter *)

Lemma key_le_total a : ∀ b, key_le a b = true ∨ key_le b a = true.
Proof.
  induction a as [|x a IH]; intros [|y b]; cbn [key_le]; try (by left); try (by right).
  rewrite !orb_true_iff, !andb_true_iff, !Z.ltb_lt, !Z.eqb_eq. destruct (IH b), (Z.lt_trichotomy x y) as [|[]]; tauto || (subst; tauto).
Qed.

Lemma key_le_antisym a : ∀ b, key_le a b = true → key_le b a = true → a = b.
Proof.
  induction a as [|x a IH]; intros [|y b]; cbn [key_le]; try done.
  rewrite !orb_true_iff, !andb_true_iff, !Z.ltb_lt, !Z.eqb_eq. intros [?|[-> H1]] [?|[? H2]]; try lia.
  f_equal. by apply IH.
Qed.

Lemma key_le_trans a : ∀ b c, key_le a b = true → key_le b c = true → key_le a c = true.
Proof.
  induction a as [|x a IH]; intros [|y b] [|z c]; cbn [key_le]; try done.
  rewrite !orb_true_iff, !andb_true_iff, !Z.ltb_lt, !Z.eqb_eq.
  intros [?|[-> H1]] [?|[? H2]]; try (left; lia). right. split; [done|]. by apply (IH b).
Qed.

Lemma insert_kid_comm {A} (x y : list Z * A) l :
  x.1 ≠ y.1 → insert_kid x (insert_kid y l) = insert_kid y (insert_kid x l).
Proof.
  intros Hne. assert (key_le x.1 y.1 = true → key_le y.1 x.1 = true → False) as Hanti
    by (intros; apply Hne; by apply key_le_antisym).
  induction l as [|z l IH]; cbn [insert_kid].
  - destruct (key_le x.1 y.1) eqn:E1, (key_le y.1 x.1) eqn:E2; try done.
    + by exfalso; apply Hanti.
    + destruct (key_le_total x.1 y.1); congruence.
  - destruct (key_le x.1 z.1) eqn:Exz, (key_le y.1 z.1) eqn:Eyz; cbn [insert_kid];
      rewrite ?Exz, ?Eyz; try by rewrite IH.
    + destruct (key_le x.1 y.1) eqn:E1, (key_le y.1 x.1) eqn:E2; try done.
      * by exfalso; apply Hanti.
      * destruct (key_le_total x.1 y.1); congruence.
    + destruct (key_le y.1 x.1) eqn:E; [|done]. by rewrite (key_le_trans y.1 x.1 z.1) in Eyz.
    + destruct (key_le x.1 y.1) eqn:E; [|done]. by rewrite (key_le_trans x.1 y.1 z.1) in Exz.
Qed.

Lemma sort_kids_perm {A} (l k : list (list Z * A)) :
  l ≡ₚ k → NoDup l.*1 → sort_kids l = sort_kids k.
Proof.
  induction 1 as [|x l k _ IH|x y l|l k m H1 IH1 _ IH2]; intros Hnd.
  - done.
  - rewrite fmap_cons in Hnd. apply NoDup_cons in Hnd as [_ Hnd]. cbn [sort_kids]. by rewrite IH.
  - cbn [sort_kids]. rewrite !fmap_cons in Hnd. apply NoDup_cons in Hnd as [Hin _].
    apply insert_kid_comm. intros E. apply Hin. rewrite E. left.
  - rewrite IH1 by done. apply IH2. by rewrite <- H1.
Qed.

(** The same tree up to the order of members, under distinct keys. *)
Inductive json_eq : cjson → cjson → Prop :=
  | je_refl n : json_eq n n
  | je_array l k : Forall2 json_eq l k → json_eq (CArray l) (CArray k)
  | je_object l m k :
      NoDup l.*1 → l ≡ₚ m → Forall2 (λ a b, a.1 = b.1 ∧ json_eq a.2 b.2) m k →
      json_eq (CObject l) (CObject k).

Lemma canon_json_eq a : ∀ b, json_eq a b → canon a = canon b.
Proof.
  induction a as [|x|v|z|l IH|l IH] using cjson_nested_ind; intros b H; inversion H as [|l1 k Hl|l1 m k Hnd Hp Hk];
    subst; try done.
  - cbn [canon]. do 3 f_equal. clear H. induction Hl as [|x y l k Hxy _ IHl]; [done|].
    apply Forall_cons in IH as [Hx IH]. cbn [map]. by rewrite (Hx y Hxy), IHl.
  - cbn [canon]. do 3 f_equal. f_equal.
    rewrite (sort_kids_perm _ (map (λ '(k, v), (k, canon v)) m)).
    + f_equal. rewrite Hp in IH. clear H Hp Hnd.
      induction Hk as [|[x v] [y w] m k [Hxy Hvw] _ IHk]; [done|].
      apply Forall_cons in IH as [Hv IH]. cbn [map fst snd] in *. subst y. by rewrite (Hv w Hvw), IHk.
    + by apply Permutation_map.
    + rewrite <- list_fmap_compose. erewrite (list_fmap_ext _ fst); [exact Hnd|]. by intros ? [? ?].
Qed.

(** ** Signing *)

Definition auth_free (l : list (list Z * cjson)) : Prop := Forall (λ kv, same_key_ci kv.1 "auth" = false) l.

(** The keys differ whatever the case. *)
Definition keys_differ (a b : string) : bool := negb (bool_decide (map lower (cstr a) = map lower (cstr b))).

Lemma same_key_differ k a b : keys_differ a b = true → same_key_ci k a = true → same_key_ci k b = false.
Proof.
  unfold keys_differ, same_key_ci. rewrite negb_true_iff, !bool_decide_eq_false, bool_decide_eq_true. congruence.
Qed.

Lemma delete_first_comm l a b :
  keys_differ a b = true → delete_first (delete_first l a) b = delete_first (delete_first l b) a.
Proof.
  intros Hab. induction l as [|[k v] l IH]; [done|]. cbn [delete_first].
  destruct (same_key_ci k a) eqn:Ea; cbn [delete_first].
  - rewrite (same_key_differ k a b Hab Ea). cbn [delete_first]. by rewrite Ea.
  - destruct (same_key_ci k b); cbn [delete_first]; [done|]. by rewrite Ea, IH.
Qed.

Lemma delete_first_snoc l k v key :
  same_key_ci k key = false → delete_first (l ++ [(k, v)]) key = delete_first l key ++ [(k, v)].
Proof.
  intros Hk. induction l as [|[k' v'] l IH]; cbn [app delete_first]; [by rewrite Hk|].
  destruct (same_key_ci k' key); [done|by rewrite IH].
Qed.

Lemma delete_first_end l v : auth_free l → delete_first (l ++ [(cstr "auth", v)]) "auth" = l.
Proof.
  induction 1 as [|[k w] l Hk _ IH]; [done|]. cbn [app delete_first fst] in *. by rewrite Hk, IH.
Qed.

Lemma delete_first_free l key : auth_free l → auth_free (delete_first l key).
Proof.
  induction 1 as [|[k w] l Hk Hl IH]; [constructor|]. cbn [delete_first].
  destruct (same_key_ci k key); [done|by constructor].
Qed.

Definition other_fields : list string := ["v"; "type"; "serial"; "ts"; "msg_id"; "in_reply_to"].

Lemma other_fields_differ k : k ∈ other_fields → keys_differ "auth" k = true.
Proof.
  assert (forallb (keys_differ "auth") other_fields = true) as H by reflexivity.
  rewrite forallb_forall in H. intros Hk%list_elem_of_In. by apply H.
Qed.

Lemma body_of_object l : body_of (CObject l) = CObject (delete_first (foldl delete_first l other_fields) "auth").
Proof. done. Qed.

Lemma strip_auth_comm l fs :
  (∀ k, k ∈ fs → keys_differ "auth" k = true) →
  foldl delete_first (delete_first l "auth") fs = delete_first (foldl delete_first l fs) "auth".
Proof.
  revert l. induction fs as [|f fs IH]; intros l H; [done|]. cbn [foldl].
  rewrite delete_first_comm by (apply H; left). apply IH. intros k Hk. apply H. by right.
Qed.

Lemma strip_snoc l fs v :
  (∀ k, k ∈ fs → keys_differ "auth" k = true) →
  foldl delete_first (l ++ [(cstr "auth", v)]) fs = foldl delete_first l fs ++ [(cstr "auth", v)].
Proof.
  revert l. induction fs as [|f fs IH]; intros l H; [done|]. cbn [foldl].
  rewrite delete_first_snoc; [apply IH; intros k Hk; apply H; by right|].
  apply (same_key_differ _ "auth"); [apply H; left|]. unfold same_key_ci. by apply bool_decide_eq_true_2.
Qed.

Lemma strip_free l fs : auth_free l → auth_free (foldl delete_first l fs).
Proof. revert l. induction fs as [|f fs IH]; intros l H; [done|]. by apply IH, delete_first_free. Qed.

(** Signing changes no other field and not the body. *)
Lemma signed_body l v :
  auth_free (delete_first l "auth") →
  body_of (CObject (delete_first l "auth" ++ [(cstr "auth", v)])) = body_of (CObject l).
Proof.
  intros Hfree. rewrite !body_of_object.
  rewrite strip_snoc by apply other_fields_differ. rewrite delete_first_end by by apply strip_free.
  by rewrite strip_auth_comm by apply other_fields_differ.
Qed.

Lemma find_delete l key k :
  keys_differ "auth" k = true → key = "auth" →
  List.find (λ '(k', _), bool_decide (k' = cstr k)) (delete_first l key)
  = List.find (λ '(k', _), bool_decide (k' = cstr k)) l.
Proof.
  intros Hd ->. induction l as [|[k' v] l IH]; [done|]. cbn [delete_first List.find].
  destruct (same_key_ci k' "auth") eqn:E.
  - rewrite bool_decide_false; [done|]. intros ->.
    pose proof (same_key_differ _ _ _ Hd E) as H. unfold same_key_ci in H. by rewrite bool_decide_true in H.
  - cbn [List.find]. destruct (bool_decide _); [done|exact IH].
Qed.

Lemma find_snoc {A} (f : A → bool) l x : List.find f (l ++ [x]) = match List.find f l with Some y => Some y | None => if f x then Some x else None end.
Proof. induction l as [|y l IH]; cbn; [done|]. by destruct (f y). Qed.

Lemma signed_field l v k :
  keys_differ "auth" k = true →
  field_str (CObject (delete_first l "auth" ++ [(cstr "auth", v)])) k = field_str (CObject l) k.
Proof.
  intros Hd. unfold field_str, get_item. cbn [members]. rewrite find_snoc, find_delete by done.
  assert (bool_decide (cstr "auth" = cstr k) = false) as ->.
  { apply bool_decide_eq_false_2. intros E. unfold keys_differ in Hd. by rewrite E, bool_decide_true in Hd. }
  by destruct (List.find _ l).
Qed.

Lemma signed_auth l v :
  auth_free (delete_first l "auth") → get_item (CObject (delete_first l "auth" ++ [(cstr "auth", v)])) "auth" = Some v.
Proof.
  intros Hf. unfold get_item. cbn [members]. rewrite find_snoc.
  assert (List.find (λ '(k, _), bool_decide (k = cstr "auth")) (delete_first l "auth") = None) as ->.
  { induction Hf as [|[k w] m Hk _ IH]; [done|]. cbn [List.find fst] in *. rewrite bool_decide_false; [exact IH|].
    intros ->. unfold same_key_ci in Hk. by rewrite bool_decide_true in Hk. }
  by rewrite bool_decide_true.
Qed.

Section signing.
Variable alloc : Z → option (list Z).
Variable sha256 : list Z → list Z.
Variable hmac : list Z → list Z → list Z.
Variable base64 : list Z → option (list Z).

(** C19: A signed message verifies.  Whatever the hash functions and the heap do,
    a message that was signed under a context, key id and sequence number is
    accepted by the verification under the same context and key id, and its
    sequence number reads back, provided the message held at most one member
    called "auth" in any case. *)
Theorem sign_then_verify c l kid seq signed :
  auth_free (delete_first l "auth") → Z.abs seq < 2 ^ 52 →
  fp_auth_message_sign alloc sha256 hmac base64 c (CObject l) kid seq = Ok (Some signed) →
  fp_auth_message_verify alloc sha256 hmac base64 c signed kid = Ok None ∧
  (∃ a v, get_item signed "auth" = Some a ∧ get_item a "seq" = Some (CNumber v) ∧ f64_trunc v = Some seq) ∧
  body_of signed = body_of (CObject l).
Proof.
  intros Hf Hseq Hsign. unfold fp_auth_message_sign in Hsign.
  destruct (fp_auth_body_hash_build alloc sha256 (CObject l)) as [h| |] eqn:Eh; [|done..].
  cbn [mbind res_bind] in Hsign.
  destruct (compute_mac alloc hmac base64 c (CObject l) kid (fmt_int seq) h) as [[mac|]| |] eqn:Em; try done.
  cbn [mbind res_bind delete_item add_item] in Hsign. injection Hsign as <-.
  destruct (f64_of_Z_exact seq Hseq) as (_ & _ & Htr).
  set (a := CObject [(cstr "kid", CString kid); (cstr "seq", CNumber (f64_of_Z seq)); (cstr "mac", CString mac)]).
  pose proof (signed_auth l a Hf) as Hauth. pose proof (signed_body l a Hf) as Hbody.
  split; [|split; [by exists a, (f64_of_Z seq)|done]].
  unfold fp_auth_message_verify. rewrite Hauth. unfold a at 1. cbv beta iota. fold a.
  change (get_item a "kid") with (Some (CString kid)). change (get_item a "seq") with (Some (CNumber (f64_of_Z seq))).
  change (get_item a "mac") with (Some (CString mac)). cbv beta iota.
  rewrite bool_decide_true by done. cbn [negb].
  unfold fp_auth_body_hash_build in Eh |- *. rewrite Hbody, Eh. cbn [mbind res_bind].
  rewrite Htr. cbn [default].
  assert (mac_fields c (CObject (delete_first l "auth" ++ [(cstr "auth", a)])) kid (fmt_int seq) h =
          mac_fields c (CObject l) kid (fmt_int seq) h) as Efields.
  { unfold mac_fields. by rewrite !signed_field by reflexivity. }
  unfold compute_mac in Em |- *. change (id seq) with seq. rewrite Efields, Em. cbn [mbind res_bind].
  by rewrite bool_decide_true.
Qed.
End signing.

(** ** Properties *)

(** Every append to the string buffer ends as long as the text fits into
    2^31 bytes: the doubling loop finds a power of two below twice the need, the
    text is extended, or left alone when the heap refuses, and the buffer stays
    well formed.  Beyond 2^31 the 32-bit size wraps and the loop never ends,
    however long it runs. *)
Theorem sb_putn_terminates alloc s t d :
  (∀ n b, alloc n = Some b → zlen b = n) → sb_ok 31 s t →
  (zlen t + zlen d + 1 <= 2 ^ 31 →
   ∃ b s', sb_putn alloc s d = Ok (b, s') ∧
     (if b : bool then sb_ok 31 s' (t ++ d) ∧ (sb_cap s' = sb_cap s ∨ sb_cap s' < 2 * (zlen t + zlen d + 1))
      else s' = s)) ∧
  (∀ fuel need, 2 ^ 31 < need < 2 ^ 32 → sb_grow fuel (u32 (sb_cap s * 2)) need = OutOfFuel).
Proof.
  intros Hsize Hok. split.
  - intros Hfit. destruct (sb_putn_ok alloc Hsize 31 s t d) as (b & s' & H & Hb); [lia|done|done|].
    exists b, s'. split; [done|]. destruct b; [done|by destruct Hb].
  - intros fuel need Hneed. destruct Hok as [_ _ _ (k & Hk & ->)].
    destruct (Z.eq_dec k 31) as [->|Hne]; [apply sb_grow_zero; lia|].
    replace (u32 (2 ^ k * 2)) with (2 ^ (k + 1)); [apply sb_grow_diverges; lia|].
    symmetry. rewrite Z.pow_add_r by lia. apply u32_id. unfold is_u32. pose proof (Z.pow_le_mono_r 2 k 30). lia.
Qed.

(** C18: The serialiser on the growing buffer is equivalent to the reference
    serialiser, and the text does not depend on the order of the members: two
    trees that agree up to the order of object members with distinct names get
    the same canonical text, for any heap that serves blocks up to the size of
    the text. *)
Theorem canon_build_is_reference alloc j a b :
  (∀ n x, alloc n = Some x → zlen x = n) → 7 <= j <= 31 → (∀ n, 128 <= n <= 2 ^ j → is_Some (alloc n)) →
  no_nul (canon a) → zlen (canon a) + 1 <= 2 ^ j → json_eq a b →
  fp_auth_canon_build alloc a = Ok (Some (canon a)) ∧ fp_auth_canon_build alloc b = Ok (Some (canon a)).
Proof.
  intros Hsize Hj Hal Hn Hfit Heq. split.
  - by apply (canon_build_ok alloc Hsize j).
  - rewrite (canon_json_eq a b Heq) in Hn, Hfit |- *. by apply (canon_build_ok alloc Hsize j).
Qed.

(** ** Executions *)

Definition zero_heap (n : Z) : option (list Z) :=
  if 0 <=? n then Some (replicate (Z.to_nat n) 0) else None.

Lemma zero_heap_size n b : zero_heap n = Some b → zlen b = n.
Proof.
  unfold zero_heap. destruct (Z.leb_spec 0 n); [|done]. intros [= <-].
  unfold zlen. rewrite length_replicate. lia.
Qed.

Definition empty_buffer : sb_t := mk_sb (replicate 128 0) 0 128.

Lemma empty_buffer_ok : sb_ok 31 empty_buffer [].
Proof. split; [done|by exists (replicate 127 0)|done|]. exists 7. done. Qed.

Lemma sb_putn_terminates_witness :
  (∃ b s', sb_putn zero_heap empty_buffer (replicate 200 65) = Ok (b, s')) ∧
  sb_grow 1000 (u32 (sb_cap empty_buffer * 2)) (2 ^ 31 + 1) = OutOfFuel.
Proof.
  destruct (sb_putn_terminates zero_heap empty_buffer [] (replicate 200 65) zero_heap_size empty_buffer_ok) as [H1 H2].
  split.
  - destruct H1 as (b & s' & H & _); [vm_compute; discriminate|]. exists b, s'. exact H.
  - apply H2. lia.
Defined.

Definition num (z : Z) : cjson := CNumber (f64_of_Z z).
Definition str (s : string) : cjson := CString (cstr s).

(** A signed write request. *)
Definition example_msg : list (list Z * cjson) :=
  [(cstr "v", num 2); (cstr "type", str "dp_write"); (cstr "ts", num 1700000000000);
   (cstr "msg_id", str "m-1");
   (cstr "dp", CObject [(cstr "Fon_Max_Pressure", CNumber (dec_to_f64 false 3447 (-2))); (cstr "Fon_Fault_Ack", num 1)])].

Definition example_reordered : list (list Z * cjson) :=
  [(cstr "dp", CObject [(cstr "Fon_Fault_Ack", num 1); (cstr "Fon_Max_Pressure", CNumber (dec_to_f64 false 3447 (-2)))]);
   (cstr "type", str "dp_write"); (cstr "v", num 2); (cstr "ts", num 1700000000000);
   (cstr "msg_id", str "m-1")].

Lemma example_json_eq : json_eq (CObject example_msg) (CObject example_reordered).
Proof.
  apply (je_object _ [(cstr "dp", CObject [(cstr "Fon_Max_Pressure", CNumber (dec_to_f64 false 3447 (-2))); (cstr "Fon_Fault_Ack", num 1)]);
     (cstr "type", str "dp_write"); (cstr "v", num 2); (cstr "ts", num 1700000000000); (cstr "msg_id", str "m-1")]).
  - apply (bool_decide_unpack _). vm_compute. exact I.
  - unfold example_msg. 
    apply (Permutation_trans (l' := (cstr "dp", CObject [(cstr "Fon_Max_Pressure", CNumber (dec_to_f64 false 3447 (-2))); (cstr "Fon_Fault_Ack", num 1)])
      :: [(cstr "v", num 2); (cstr "type", str "dp_write"); (cstr "ts", num 1700000000000); (cstr "msg_id", str "m-1")])).
    + symmetry. apply (Permutation_cons_append [(cstr "v", num 2); (cstr "type", str "dp_write"); (cstr "ts", num 1700000000000); (cstr "msg_id", str "m-1")]).
    + apply perm_skip, perm_swap.
  - repeat (apply Forall2_cons; split); try apply Forall2_nil; try (split; [done|apply je_refl]); try done.
    split; [done|]. apply (je_object _ [(cstr "Fon_Fault_Ack", num 1); (cstr "Fon_Max_Pressure", CNumber (dec_to_f64 false 3447 (-2)))]).
    + apply (bool_decide_unpack _). vm_compute. exact I.
    + apply perm_swap.
    + repeat (apply Forall2_cons; split); try apply Forall2_nil; split; try done; apply je_refl.
Qed.

Lemma canon_build_is_reference_witness :
  fp_auth_canon_build zero_heap (CObject example_reordered) = Ok (Some (canon (CObject example_msg))) ∧
  take 39 (canon (CObject example_msg)) = cstr "{" ++ [34] ++ cstr "dp" ++ [34] ++ cstr ":{" ++ [34] ++ cstr "Fon_Fault_Ack" ++ [34] ++ cstr ":1," ++ [34] ++ cstr "Fon_Max_Press".
Proof.
  split; [|vm_compute; reflexivity].
  assert (∀ n, 128 <= n <= 2 ^ 10 → is_Some (zero_heap n)) as Hal.
  { intros n Hn. unfold zero_heap. rewrite (proj2 (Z.leb_le 0 n)) by lia. eexists. reflexivity. }
  assert (no_nul (canon (CObject example_msg))) as Hn.
  { apply (bool_decide_unpack _). vm_compute. exact I. }
  apply (canon_build_is_reference zero_heap 10 (CObject example_msg) (CObject example_reordered)
           zero_heap_size ltac:(lia) Hal Hn); [vm_compute; discriminate|exact example_json_eq].
Defined.

Definition toy_hash (l : list Z) : list Z := [zlen l mod 256; foldr Z.add 0 l mod 256].
Definition toy_hmac (k l : list Z) : list Z := toy_hash (k ++ l).
Definition toy_base64 (l : list Z) : option (list Z) := Some (map (λ b, 65 + b mod 26) l).
Definition example_ctx : auth_ctx := mk_auth_ctx [1; 2; 3] (cstr "s2c") (cstr "esp32-1") (cstr "sn") (cstr "cn").

Definition example_signed : cjson :=
  match fp_auth_message_sign zero_heap toy_hash toy_hmac toy_base64 example_ctx (CObject example_msg) (cstr "1") 5 with
  | Ok (Some m) => m
  | _ => CNull
  end.

Lemma sign_then_verify_witness :
  fp_auth_message_verify zero_heap toy_hash toy_hmac toy_base64 example_ctx example_signed (cstr "1") = Ok None ∧
  get_item example_signed "type" = Some (str "dp_write").
Proof.
  split; [|vm_compute; reflexivity].
  apply (sign_then_verify zero_heap toy_hash toy_hmac toy_base64 example_ctx example_msg (cstr "1") 5 example_signed).
  - apply (bool_decide_unpack _). vm_compute. exact I.
  - lia.
  - vm_compute. reflexivity.
Defined.

(** Probing from fifteen digits is not the shortest text of a subnormal. *)
Lemma subnormal_not_shortest :
  number_text (S754_finite false 1 (-1074)) = cstr "4.94065645841247e-324" ∧
  dec_to_f64 false 5 (-324) = S754_finite false 1 (-1074).
Proof. vm_compute. done. Qed.

(** Texts that are not hexadecimal are decoded. *)
Lemma hex_decode_accepts_non_hex :
  fp_auth_hex_decode (cstr "1g-1 f") 32 = Some [1; 255; 15].
Proof. vm_compute. reflexivity. Qed.
