(* ===== verification/FpSession.v ===== *)
(** * The protocol session: [fp_session.c], [fp_envelope.c]

    Models src/components/clientside_protocol/src/fp_session.c with the envelope
    (fp_envelope.c) and the parts of the generated fountain_msgs.c it uses: the
    message table and the builders.  A step of the session yields the actions it
    performs: frames sent and calls of the application.  What an application
    callback writes into a reply is a function in the configuration. *)

From Stdlib Require Import SpecFloat Sorted.
From S2P Require Import Prelude Bytes Float32 Float64 FpAuth.
Local Open Scope string_scope.
Local Open Scope list_scope.
Local Open Scope Z_scope.

(** ** Messages *)

Inductive fp_msg_type_t :=
  | FP_MSG_HELLO | FP_MSG_HELLO_ACK | FP_MSG_PROTOCOL_MISMATCH | FP_MSG_OTA_CHECK
  | FP_MSG_OTA_AVAILABLE | FP_MSG_OTA_NONE | FP_MSG_OTA_CANCEL | FP_MSG_OTA_STATUS
  | FP_MSG_HEARTBEAT | FP_MSG_DP_REPORT | FP_MSG_DP_READ | FP_MSG_DP_WRITE
  | FP_MSG_DP_WRITE_RESULT | FP_MSG_COMMAND | FP_MSG_COMMAND_RESULT | FP_MSG_ERROR_REPORT
  | FP_MSG_DEVICE_ALERT | FP_MSG_LOG_READ | FP_MSG_LOG_BATCH | FP_MSG_LOG_READ_PREV
  | FP_MSG_LOG_ACK_PREV | FP_MSG_LOG_ACK_RESULT | FP_MSG_HISTORY_READ | FP_MSG_HISTORY_BATCH.

#[export] Instance fp_msg_type_eq_dec : EqDecision fp_msg_type_t.
Proof. solve_decision. Defined.

Inductive fp_dir_t := FP_DIR_C2S | FP_DIR_S2C.
Inductive fp_auth_t := FP_AUTH_NONE | FP_AUTH_SESSION | FP_AUTH_CONTROL.

Record fp_msg_meta_t := mk_meta {
  mm_type : fp_msg_type_t;
  mm_name : string;
  mm_dir : fp_dir_t;
  mm_auth : fp_auth_t;
  mm_wire : Z;
  mm_is_request : bool;
  mm_response : option fp_msg_type_t
}.

Definition s_meta : list fp_msg_meta_t := [
   mk_meta FP_MSG_HELLO "hello" FP_DIR_C2S FP_AUTH_NONE 1 true (Some FP_MSG_HELLO_ACK);
   mk_meta FP_MSG_HELLO_ACK "hello_ack" FP_DIR_S2C FP_AUTH_NONE 1 false None;
   mk_meta FP_MSG_PROTOCOL_MISMATCH "protocol_mismatch" FP_DIR_C2S FP_AUTH_NONE 1 false None;
   mk_meta FP_MSG_OTA_CHECK "ota_check" FP_DIR_C2S FP_AUTH_SESSION 2 true (Some FP_MSG_OTA_AVAILABLE);
   mk_meta FP_MSG_OTA_AVAILABLE "ota_available" FP_DIR_S2C FP_AUTH_CONTROL 2 false (Some FP_MSG_OTA_STATUS);
   mk_meta FP_MSG_OTA_NONE "ota_none" FP_DIR_S2C FP_AUTH_NONE 2 false None;
   mk_meta FP_MSG_OTA_CANCEL "ota_cancel" FP_DIR_S2C FP_AUTH_CONTROL 2 false (Some FP_MSG_OTA_STATUS);
   mk_meta FP_MSG_OTA_STATUS "ota_status" FP_DIR_C2S FP_AUTH_NONE 2 false None;
   mk_meta FP_MSG_HEARTBEAT "heartbeat" FP_DIR_C2S FP_AUTH_NONE 2 false None;
   mk_meta FP_MSG_DP_REPORT "dp_report" FP_DIR_C2S FP_AUTH_NONE 2 false None;
   mk_meta FP_MSG_DP_READ "dp_read" FP_DIR_S2C FP_AUTH_NONE 2 true (Some FP_MSG_DP_REPORT);
   mk_meta FP_MSG_DP_WRITE "dp_write" FP_DIR_S2C FP_AUTH_CONTROL 2 true (Some FP_MSG_DP_WRITE_RESULT);
   mk_meta FP_MSG_DP_WRITE_RESULT "dp_write_result" FP_DIR_C2S FP_AUTH_NONE 2 false None;
   mk_meta FP_MSG_COMMAND "command" FP_DIR_S2C FP_AUTH_CONTROL 2 true (Some FP_MSG_COMMAND_RESULT);
   mk_meta FP_MSG_COMMAND_RESULT "command_result" FP_DIR_C2S FP_AUTH_NONE 2 false None;
   mk_meta FP_MSG_ERROR_REPORT "error_report" FP_DIR_C2S FP_AUTH_NONE 2 false None;
   mk_meta FP_MSG_DEVICE_ALERT "device_alert" FP_DIR_C2S FP_AUTH_NONE 2 false None;
   mk_meta FP_MSG_LOG_READ "log_read" FP_DIR_S2C FP_AUTH_CONTROL 2 true (Some FP_MSG_LOG_BATCH);
   mk_meta FP_MSG_LOG_BATCH "log_batch" FP_DIR_C2S FP_AUTH_NONE 2 false None;
   mk_meta FP_MSG_LOG_READ_PREV "log_read_prev" FP_DIR_S2C FP_AUTH_CONTROL 2 true (Some FP_MSG_LOG_BATCH);
   mk_meta FP_MSG_LOG_ACK_PREV "log_ack_prev" FP_DIR_S2C FP_AUTH_CONTROL 2 true (Some FP_MSG_LOG_ACK_RESULT);
   mk_meta FP_MSG_LOG_ACK_RESULT "log_ack_result" FP_DIR_C2S FP_AUTH_NONE 2 false None;
   mk_meta FP_MSG_HISTORY_READ "history_read" FP_DIR_S2C FP_AUTH_CONTROL 2 true (Some FP_MSG_HISTORY_BATCH);
   mk_meta FP_MSG_HISTORY_BATCH "history_batch" FP_DIR_C2S FP_AUTH_NONE 2 false None].

(** The row of a type: the table lists the types in order. *)
Definition fp_msg_meta (t : fp_msg_type_t) : option fp_msg_meta_t :=
  List.find (λ m, bool_decide (mm_type m = t)) s_meta.

(** [None]: FP_MSG_COUNT. *)
Definition fp_msg_type_from_name (name : list Z) : option fp_msg_type_t :=
  mm_type <$> List.find (λ m, bool_decide (cstr (mm_name m) = name)) s_meta.

(** ** Builders *)

Definition member (k : string) (v : cjson) : list (list Z * cjson) := [(cstr k, v)].
Definition opt_member (k : string) (v : option cjson) : list (list Z * cjson) :=
  match v with Some v => member k v | None => [] end.
Definition add_string (k : string) (s : list Z) := member k (CString s).
Definition add_number (k : string) (z : Z) := member k (CNumber (f64_of_Z z)).

Definition fp_hello_build (device_id fw_version : list Z) (version : Z) (hw_rev boot_reason : option (list Z))
    (auth_schemes auth_kids : option cjson) (client_nonce : option (list Z)) : list (list Z * cjson) :=
  add_string "device_id" device_id ++ add_number "protocol_version" version ++
  add_string "fw_version" fw_version ++ opt_member "hw_rev" (CString <$> hw_rev) ++
  opt_member "boot_reason" (CString <$> boot_reason) ++ opt_member "auth_schemes" auth_schemes ++
  opt_member "auth_kids" auth_kids ++ opt_member "client_nonce" (CString <$> client_nonce).

Definition fp_ota_check_build (current_version : list Z) (hw_rev : option (list Z)) : list (list Z * cjson) :=
  add_string "current_version" current_version ++ opt_member "hw_rev" (CString <$> hw_rev).

Definition fp_heartbeat_build (uptime_s : Z) (fw_version : list Z) (fault_active : option bool)
    : list (list Z * cjson) :=
  add_number "uptime_s" uptime_s ++ add_string "fw_version" fw_version ++
  opt_member "fault_active" (CBool <$> fault_active).

Definition fp_dp_report_build (seq : Z) (dp unknown : option cjson) : list (list Z * cjson) :=
  add_number "seq" seq ++ opt_member "dp" dp ++ opt_member "unknown" unknown.

(** The envelope in front of the fields of the body. *)
Definition fp_envelope_build (t : fp_msg_type_t) (body : list (list Z * cjson)) (serial : list Z)
    (msg_id in_reply_to : option (list Z)) (ts : Z) : option cjson :=
  meta ← fp_msg_meta t;
  Some (CObject (add_number "v" (mm_wire meta) ++ add_string "type" (cstr (mm_name meta)) ++
                 add_number "ts" ts ++ add_string "serial" serial ++
                 opt_member "msg_id" (CString <$> msg_id) ++
                 opt_member "in_reply_to" (CString <$> in_reply_to) ++ body)).

Definition fp_envelope_type (msg : cjson) : option fp_msg_type_t :=
  match get_item msg "type" with
  | Some (CString s) => fp_msg_type_from_name s
  | _ => None
  end.

(** ** State *)

Record fp_config_t := mk_config {
  fc_device_id : list Z;
  fc_serial : list Z;
  fc_auth_kid : list Z;
  fc_auth_key : list Z;
  fc_fw_version : list Z;
  fc_hw_rev : option (list Z);
  fc_fill_snapshot : option (option cjson → list (list Z * cjson));
  fc_fill_changes : bool;
  fc_on_command : option (cjson → list (list Z * cjson));
  fc_on_dp_write : option (option cjson → list (list Z * cjson));
  fc_fill_log_batch : option (Z → Z → Z → bool → list (list Z * cjson));
  fc_on_log_ack_prev : option (Z → bool);
  fc_fill_history_batch : option (Z → Z → list (list Z * cjson));
  fc_on_ready : bool;
  fc_on_ota : bool
}.

Record fp_session_t := mk_session {
  ss_server_nonce : list Z;
  ss_client_nonce : list Z;
  ss_kid : list Z;
  ss_replay_s2c : Z;
  ss_c2s_seq : Z;
  ss_report_seq : Z;
  ss_negotiated : bool;
  ss_running : bool
}.
#[export] Instance eta_fp_session_t : Eta fp_session_t := λ r, mk_session
      (ss_server_nonce r) (ss_client_nonce r) (ss_kid r) (ss_replay_s2c r)
      (ss_c2s_seq r) (ss_report_seq r) (ss_negotiated r) (ss_running r).
#[export] Instance set_ss_server_nonce : Setter ss_server_nonce. Proof. mk_setter. Defined.
#[export] Instance set_ss_client_nonce : Setter ss_client_nonce. Proof. mk_setter. Defined.
#[export] Instance set_ss_kid : Setter ss_kid. Proof. mk_setter. Defined.
#[export] Instance set_ss_replay_s2c : Setter ss_replay_s2c. Proof. mk_setter. Defined.
#[export] Instance set_ss_c2s_seq : Setter ss_c2s_seq. Proof. mk_setter. Defined.
#[export] Instance set_ss_report_seq : Setter ss_report_seq. Proof. mk_setter. Defined.
#[export] Instance set_ss_negotiated : Setter ss_negotiated. Proof. mk_setter. Defined.
#[export] Instance set_ss_running : Setter ss_running. Proof. mk_setter. Defined.

(** What a step does: a frame handed to the transport, and the calls of the
    application, with the message they were made for. *)
Inductive fp_action :=
  | ASend (msg : cjson)
  | ACommand (m : cjson)
  | ADpWrite (m : cjson)
  | AFillLog (m : cjson) (since min_level max_records : Z) (prev_boot : bool)
  | AFillHistory (m : cjson) (since max_samples : Z)
  | ALogAck (m : cjson) (boot_id : Z)
  | AOta (m : cjson)
  | AReady
  | AFillSnapshot (names : option cjson)
  | AFillChanges.

Definition FP_WIRE_VERSION : Z := 2.
Definition FP_AUTH_SCHEME : list Z := cstr "hmac-sha256".

Definition str_of (m : cjson) (k : string) : option (list Z) :=
  match get_item m k with Some (CString s) => Some s | _ => None end.

(** ** Lifecycle *)

Definition session_zero : fp_session_t := mk_session [] [] [] 0 0 0 false false.

Definition fp_session_init : fp_session_t := session_zero.

Definition fp_session_reset (s : fp_session_t) : fp_session_t :=
  s <| ss_server_nonce := [] |> <| ss_client_nonce := [] |> <| ss_kid := [] |>
    <| ss_replay_s2c := fp_replay_reset |> <| ss_c2s_seq := 0 |> <| ss_report_seq := 0 |>
    <| ss_negotiated := false |> <| ss_running := false |>.

Definition fp_session_close (s : fp_session_t) : fp_session_t :=
  mk_session [] [] [] fp_replay_reset 0 0 false false.

Definition fp_session_ota_failed_note (s : fp_session_t) : bool * fp_session_t :=
  if negb (ss_negotiated s) || ss_running s then (false, s) else (true, s <| ss_running := true |>).

(** [snprintf] into a field of [n] bytes. *)
Definition field_copy (n : nat) (s : list Z) : list Z := take (n - 1) s.

(** Conversions from [double], undefined out of range. *)
Definition cast_long (v : f64) : res Z :=
  match f64_trunc v with
  | Some z => if (-2147483648 <=? z) && (z <? 2147483648) then Ok z else OutOfBounds
  | None => OutOfBounds
  end.
Definition cast_uint (bits : Z) (v : f64) : res Z :=
  match f64_trunc v with
  | Some z => if (0 <=? z) && (z <? 2 ^ bits) then Ok z else OutOfBounds
  | None => OutOfBounds
  end.

(** An optional number of the message. *)
Definition number_of (m : cjson) (k : string) (bits dflt : Z) : res Z :=
  match get_item m k with Some (CNumber v) => cast_uint bits v | _ => Ok dflt end.

Section session.
Variable alloc : Z → option (list Z).
Variable sha256 : list Z → list Z.
Variable hmac : list Z → list Z → list Z.
Variable base64 : list Z → option (list Z).
Variable cfg : fp_config_t.

(** A message without a row in the table is not sent. *)
Definition send_msg (msg : option cjson) : list fp_action :=
  match msg with Some m => [ASend m] | None => [] end.

Definition s2c_ctx (s : fp_session_t) : auth_ctx :=
  mk_auth_ctx (fc_auth_key cfg) (cstr "s2c") (fc_device_id cfg) (ss_server_nonce s) (ss_client_nonce s).
Definition c2s_ctx (s : fp_session_t) : auth_ctx :=
  mk_auth_ctx (fc_auth_key cfg) (cstr "c2s") (fc_device_id cfg) (ss_server_nonce s) (ss_client_nonce s).

Definition sign_c2s (s : fp_session_t) (msg : cjson) : res (option cjson * fp_session_t) :=
  let seq := ss_c2s_seq s + 1 in
  m ← fp_auth_message_sign alloc sha256 hmac base64 (c2s_ctx s) msg (ss_kid s) seq;
  Ok (m, s <| ss_c2s_seq := seq |>).

(** The sequence number of a verified message is a number. *)
Definition auth_seq (msg : cjson) : option f64 :=
  a ← get_item msg "auth"; match get_item a "seq" with Some (CNumber v) => Some v | _ => None end.

Definition verify_s2c (s : fp_session_t) (msg : cjson) : res (bool * fp_session_t) :=
  reason ← fp_auth_message_verify alloc sha256 hmac base64 (s2c_ctx s) msg (ss_kid s);
  match reason with
  | Some _ => Ok (false, s)
  | None =>
      seq ← match auth_seq msg with Some v => cast_long v | None => OutOfBounds end;
      let '(fresh, last) := fp_replay_check (ss_replay_s2c s) seq in
      Ok (fresh, s <| ss_replay_s2c := last |>)
  end.

(** ** Sending *)

(** [nonce]: sixteen random bytes; [now]: the time in milliseconds. *)
Definition fp_session_hello_send (s : fp_session_t) (nonce : list Z) (now : Z) : fp_session_t * list fp_action :=
  match base64 nonce with
  | None => (s, [])
  | Some b64 =>
      let s := s <| ss_client_nonce := field_copy 32 b64 |> in
      let body := fp_hello_build (fc_device_id cfg) (fc_fw_version cfg) FP_WIRE_VERSION (fc_hw_rev cfg)
                    (Some (cstr "power_on")) (Some (CArray [CString FP_AUTH_SCHEME]))
                    (Some (CArray [CString (fc_auth_kid cfg)])) (Some (ss_client_nonce s)) in
      (s, send_msg (fp_envelope_build FP_MSG_HELLO body (fc_serial cfg) (Some (cstr "hello-1")) None now))
  end.

Definition ota_check_send (s : fp_session_t) (now : Z) : res (fp_session_t * list fp_action) :=
  match fp_envelope_build FP_MSG_OTA_CHECK (fp_ota_check_build (fc_fw_version cfg) (fc_hw_rev cfg))
          (fc_serial cfg) (Some (cstr "chk-1")) None now with
  | None => Ok (s, [])
  | Some msg => r ← sign_c2s s msg; Ok (r.2, send_msg r.1)
  end.

Definition fp_session_heartbeat_send (s : fp_session_t) (uptime_s now : Z) : list fp_action :=
  if negb (ss_running s) then []
  else send_msg (fp_envelope_build FP_MSG_HEARTBEAT
                   (fp_heartbeat_build uptime_s (fc_fw_version cfg) (Some false)) (fc_serial cfg) None None now).

Definition dp_report_send_names (s : fp_session_t) (in_reply_to : option (list Z)) (names : option cjson) (now : Z)
    : fp_session_t * list fp_action :=
  let dp := match fc_fill_snapshot cfg with Some f => f names | None => [] end in
  let body := fp_dp_report_build (ss_report_seq s) (Some (CObject dp)) None in
  (s <| ss_report_seq := u32 (ss_report_seq s + 1) |>,
   (if fc_fill_snapshot cfg is Some _ then [AFillSnapshot names] else []) ++
   send_msg (fp_envelope_build FP_MSG_DP_REPORT body (fc_serial cfg) None in_reply_to now)).

Definition fp_session_dp_report_send (s : fp_session_t) (in_reply_to : option (list Z)) (now : Z) :=
  dp_report_send_names s in_reply_to None now.

(** [changes]: what the callback fills in; nothing when no point changed. *)
Definition fp_session_dp_changes_send (s : fp_session_t) (changes : list (list Z * cjson)) (now : Z)
    : fp_session_t * list fp_action :=
  if negb (fc_fill_changes cfg) then (s, []) else
  match changes with
  | [] => (s, [AFillChanges])
  | _ =>
      let body := fp_dp_report_build (ss_report_seq s) (Some (CObject changes)) None in
      (s <| ss_report_seq := u32 (ss_report_seq s + 1) |>,
       AFillChanges :: send_msg (fp_envelope_build FP_MSG_DP_REPORT body (fc_serial cfg) None None now))
  end.

(** ** Incoming messages *)

Definition handle_hello_ack (s : fp_session_t) (m : cjson) (now : Z) : res (fp_session_t * list fp_action) :=
  match get_item m "accepted" with
  | Some (CBool true) =>
      match str_of m "server_nonce", str_of m "auth_kid" with
      | Some sn, Some kid =>
          ota_check_send (s <| ss_server_nonce := field_copy 64 sn |> <| ss_kid := field_copy 16 kid |>
                            <| ss_negotiated := true |>) now
      | _, _ => Ok (s, [])
      end
  | _ => Ok (s, [])
  end.

Definition handle_dp_read (s : fp_session_t) (m : cjson) (now : Z) : fp_session_t * list fp_action :=
  let names := match get_item m "names" with
               | Some (CArray (x :: l)) => Some (CArray (x :: l))
               | _ => None
               end in
  dp_report_send_names s (str_of m "msg_id") names now.

Definition reply (t : fp_msg_type_t) (m : cjson) (body : list (list Z * cjson)) (now : Z) : list fp_action :=
  send_msg (fp_envelope_build t body (fc_serial cfg) None (str_of m "msg_id") now).

Definition handle_log_read (s : fp_session_t) (m : cjson) (prev_boot : bool) (now : Z)
    : res (fp_session_t * list fp_action) :=
  r ← verify_s2c s m;
  let '(ok, s) := r in
  if negb ok then Ok (s, []) else
  since ← number_of m "since_seq" 32 0;
  min_level ← number_of m "min_level" 8 0;
  max_records ← number_of m "max_records" 16 64;
  let max_records := if 128 <? max_records then 128 else max_records in
  let body := match fc_fill_log_batch cfg with
              | Some f => f since min_level max_records prev_boot
              | None => add_number "boot_id" 0 ++ member "records" (CArray [])
              end in
  Ok (s, (if fc_fill_log_batch cfg is Some _ then [AFillLog m since min_level max_records prev_boot] else []) ++
         reply FP_MSG_LOG_BATCH m body now).

Definition handle_history_read (s : fp_session_t) (m : cjson) (now : Z) : res (fp_session_t * list fp_action) :=
  r ← verify_s2c s m;
  let '(ok, s) := r in
  if negb ok then Ok (s, []) else
  since ← number_of m "since_seq" 32 0;
  max_samples ← number_of m "max_samples" 32 100;
  let max_samples := if 120 <? max_samples then 120 else max_samples in
  let body := match fc_fill_history_batch cfg with
              | Some f => f since max_samples
              | None => member "samples" (CArray []) ++ add_number "next_seq" 1
              end in
  Ok (s, (if fc_fill_history_batch cfg is Some _ then [AFillHistory m since max_samples] else []) ++
         reply FP_MSG_HISTORY_BATCH m body now).

Definition handle_log_ack_prev (s : fp_session_t) (m : cjson) (now : Z) : res (fp_session_t * list fp_action) :=
  r ← verify_s2c s m;
  let '(ok, s) := r in
  if negb ok then Ok (s, []) else
  boot_id ← number_of m "boot_id" 32 0;
  let acked := match fc_on_log_ack_prev cfg with Some f => f boot_id | None => false end in
  Ok (s, (if fc_on_log_ack_prev cfg is Some _ then [ALogAck m boot_id] else []) ++
         reply FP_MSG_LOG_ACK_RESULT m (member "ok" (CBool acked)) now).

Definition rejected (error : string) : list (list Z * cjson) :=
  add_string "status" (cstr "rejected") ++ add_string "error" (cstr error).

Definition handle_command (s : fp_session_t) (m : cjson) (now : Z) : res (fp_session_t * list fp_action) :=
  r ← verify_s2c s m;
  let '(ok, s) := r in
  let result := if ok : bool then match fc_on_command cfg with Some f => f m | None => rejected "unknown_command" end
                else rejected "auth_failed" in
  let result := if existsb (λ kv, same_key_ci kv.1 "command") result then result
                else result ++ add_string "command" (default [] (str_of m "command")) in
  Ok (s, (if ok && (if fc_on_command cfg is Some _ then true else false) then [ACommand m] else []) ++
         reply FP_MSG_COMMAND_RESULT m result now).

Definition handle_dp_write (s : fp_session_t) (m : cjson) (now : Z) : res (fp_session_t * list fp_action) :=
  r ← verify_s2c s m;
  let '(ok, s) := r in
  let result := if ok : bool
                then match fc_on_dp_write cfg with
                     | Some f => f (get_item m "dp")
                     | None => add_string "status" (cstr "rejected")
                     end
                else add_string "status" (cstr "rejected") ++
                     member "errors" (CObject (add_string "_" (cstr "auth_failed"))) in
  Ok (s, (if ok && (if fc_on_dp_write cfg is Some _ then true else false) then [ADpWrite m] else []) ++
         reply FP_MSG_DP_WRITE_RESULT m result now).

(** [m]: the parsed text; [None] when it is not JSON. *)
Definition fp_session_message_handle (s : fp_session_t) (m : option cjson) (now : Z)
    : res (fp_session_t * list fp_action) :=
  match m with
  | None => Ok (s, [])
  | Some m =>
      let if_running (k : res (fp_session_t * list fp_action)) := if ss_running s then k else Ok (s, []) in
      match fp_envelope_type m with
      | Some FP_MSG_HELLO_ACK => handle_hello_ack s m now
      | Some FP_MSG_OTA_NONE => Ok (s <| ss_running := true |>, if fc_on_ready cfg then [AReady] else [])
      | Some FP_MSG_DP_READ => Ok (handle_dp_read s m now)
      | Some FP_MSG_COMMAND => if_running (handle_command s m now)
      | Some FP_MSG_DP_WRITE => if_running (handle_dp_write s m now)
      | Some FP_MSG_LOG_READ => if_running (handle_log_read s m false now)
      | Some FP_MSG_LOG_READ_PREV => if_running (handle_log_read s m true now)
      | Some FP_MSG_LOG_ACK_PREV => if_running (handle_log_ack_prev s m now)
      | Some FP_MSG_HISTORY_READ => if_running (handle_history_read s m now)
      | Some FP_MSG_OTA_AVAILABLE =>
          r ← verify_s2c s m;
          Ok (r.2, if r.1 && fc_on_ota cfg then [AOta m] else [])
      | Some FP_MSG_OTA_CANCEL => r ← verify_s2c s m; Ok (r.2, [])
      | _ => Ok (s, [])
      end
  end.

(** ** Executions *)

(** What happens to a session between two connections. *)
Inductive fp_event :=
  | EHello (nonce : list Z) (now : Z)
  | EMessage (m : option cjson) (now : Z)
  | EHeartbeat (uptime_s now : Z)
  | EReport (now : Z)
  | EChanges (changes : list (list Z * cjson)) (now : Z)
  | EOtaFailed.

Definition fp_step (s : fp_session_t) (e : fp_event) : res (fp_session_t * list fp_action) :=
  match e with
  | EHello nonce now => Ok (fp_session_hello_send s nonce now)
  | EMessage m now => fp_session_message_handle s m now
  | EHeartbeat up now => Ok (s, fp_session_heartbeat_send s up now)
  | EReport now => Ok (fp_session_dp_report_send s None now)
  | EChanges changes now => Ok (fp_session_dp_changes_send s changes now)
  | EOtaFailed =>
      let '(fire, s) := fp_session_ota_failed_note s in Ok (s, if fire && fc_on_ready cfg then [AReady] else [])
  end.

(** The log pairs every step's actions with the state they started from; it ends
    where the code's behaviour is undefined (a number of a message that does not
    fit its C type, or no memory for the canonical text). *)
Fixpoint fp_log (s : fp_session_t) (es : list fp_event) : list (fp_session_t * list fp_action) :=
  match es with
  | [] => []
  | e :: es => match fp_step s e with Ok (s', acts) => (s, acts) :: fp_log s' es | _ => [] end
  end.

(** The calls that change something, or disclose logs or history, with their
    message; all but the update need the running state.  Datapoints are disclosed
    without authentication: [AFillSnapshot] answers an unsigned dp_read in any
    state, see [unsigned_read_is_answered]. *)
Definition control_call (a : fp_action) : option (cjson * bool) :=
  match a with
  | ACommand m | ADpWrite m | AFillLog m _ _ _ _ | AFillHistory m _ _ | ALogAck m _ => Some (m, true)
  | AOta m => Some (m, false)
  | _ => None
  end.

Definition control_calls (acts : list fp_action) : list (cjson * bool) := omap control_call acts.

(** The message carries a valid MAC under the nonces, the key id and the key of
    the session, and a sequence number. *)
Definition authentic (s : fp_session_t) (m : cjson) (seq : Z) : Prop :=
  fp_auth_message_verify alloc sha256 hmac base64 (s2c_ctx s) m (ss_kid s) = Ok None ∧
  ∃ v, auth_seq m = Some v ∧ cast_long v = Ok seq.

(** The sequence number of a control message. *)
Definition seq_of (m : cjson) : Z :=
  match auth_seq m with Some v => match cast_long v with Ok z => z | _ => 0 end | None => 0 end.

(** What the two sides have told each other on a connection: the nonce of the
    device's own hello, nonce and key id of the last accepted hello_ack, and whether
    operation was started. *)
Record fp_conn := mk_conn {
  cn_client : list Z;
  cn_server : list Z;
  cn_kid : list Z;
  cn_negotiated : bool;
  cn_running : bool
}.

Definition conn_new : fp_conn := mk_conn [] [] [] false false.

Definition accepted_ack (m : cjson) : option (list Z * list Z) :=
  match fp_envelope_type m, get_item m "accepted", str_of m "server_nonce", str_of m "auth_kid" with
  | Some FP_MSG_HELLO_ACK, Some (CBool true), Some sn, Some kid => Some (field_copy 64 sn, field_copy 16 kid)
  | _, _, _, _ => None
  end.

Definition conn_step (k : fp_conn) (e : fp_event) : fp_conn :=
  match e with
  | EHello nonce _ =>
      match base64 nonce with
      | Some b64 => mk_conn (field_copy 32 b64) (cn_server k) (cn_kid k) (cn_negotiated k) (cn_running k)
      | None => k
      end
  | EMessage (Some m) _ =>
      match accepted_ack m with
      | Some (sn, kid) => mk_conn (cn_client k) sn kid true (cn_running k)
      | None =>
          if bool_decide (fp_envelope_type m = Some FP_MSG_OTA_NONE)
          then mk_conn (cn_client k) (cn_server k) (cn_kid k) (cn_negotiated k) true else k
      end
  | EOtaFailed =>
      if cn_negotiated k then mk_conn (cn_client k) (cn_server k) (cn_kid k) true true else k
  | _ => k
  end.

(** The message verifies under the device's key and what the connection agreed on. *)
Definition authentic_on (k : fp_conn) (m : cjson) (seq : Z) : Prop :=
  fp_auth_message_verify alloc sha256 hmac base64
    (mk_auth_ctx (fc_auth_key cfg) (cstr "s2c") (fc_device_id cfg) (cn_server k) (cn_client k)) m (cn_kid k) = Ok None ∧
  ∃ v, auth_seq m = Some v ∧ cast_long v = Ok seq.

(** The connection as the session holds it. *)
Definition conn_of (s : fp_session_t) : fp_conn :=
  mk_conn (ss_client_nonce s) (ss_server_nonce s) (ss_kid s) (ss_negotiated s) (ss_running s).

(** A hello carries the nonce that the connection goes by. *)
Definition sent_frame (a : fp_action) : option cjson := match a with ASend m => Some m | _ => None end.
Definition hello_carries (k : fp_conn) (e : fp_event) (frames : list cjson) : Prop :=
  match e with
  | EHello _ _ => Forall (λ m, str_of m "client_nonce" = Some (cn_client (conn_step k e))) frames
  | _ => True
  end.

(** Each step makes at most one control call, for a message that is authentic on the
    connection so far, in operation where that is needed, with a sequence number
    above those of the earlier ones. *)
Fixpoint control_steps (k : fp_conn) (last : Z) (steps : list (fp_event * list fp_action)) : Prop :=
  match steps with
  | [] => True
  | (e, acts) :: steps =>
      hello_carries k e (omap sent_frame acts) ∧
      match control_calls acts with
      | [] => control_steps (conn_step k e) last steps
      | [(m, needs)] =>
          authentic_on k m (seq_of m) ∧ (needs = true → cn_running k = true) ∧ last < seq_of m ∧
          control_steps (conn_step k e) (seq_of m) steps
      | _ => False
      end
  end.

Definition log_calls (log : list (fp_session_t * list fp_action)) : list cjson :=
  flat_map (λ e, fst <$> control_calls e.2) log.

Lemma verify_s2c_spec s m ok s' :
  verify_s2c s m = Ok (ok, s') →
  ss_running s' = ss_running s ∧
  if ok then authentic s m (seq_of m) ∧ ss_replay_s2c s < seq_of m ∧ ss_replay_s2c s' = seq_of m
  else ss_replay_s2c s' = ss_replay_s2c s.
Proof.
  unfold verify_s2c, authentic, seq_of. intros H.
  destruct (fp_auth_message_verify _ _ _ _ _ _ _) as [[r|]| |] eqn:Ev; cbn [mbind res_bind] in H; try done.
  { by injection H as <- <-. }
  destruct (auth_seq m) as [v|]; [|done]. destruct (cast_long v) as [z| |] eqn:Ec; try done.
  cbn [mbind res_bind] in H. unfold fp_replay_check in H.
  destruct (Z.leb_spec z (ss_replay_s2c s)); injection H as <- <-; split; try done.
  split; [|split; [done|done]]. split; [done|]. by exists v.
Qed.

(** What a step may do: its control calls are for one authentic, fresh message. *)
Definition step_ok (s : fp_session_t) (acts : list fp_action) (s' : fp_session_t) : Prop :=
  (control_calls acts = [] ∧ ss_replay_s2c s <= ss_replay_s2c s') ∨
  (∃ m needs, control_calls acts = [(m, needs)] ∧ authentic s m (seq_of m) ∧
     (needs = true → ss_running s = true) ∧
     ss_replay_s2c s < seq_of m ∧ ss_replay_s2c s' = seq_of m).

Lemma control_calls_app a b : control_calls (a ++ b) = control_calls a ++ control_calls b.
Proof. apply omap_app. Qed.

Lemma control_steps_weaken steps : ∀ k x y, x <= y → control_steps k y steps → control_steps k x steps.
Proof.
  induction steps as [|[e acts] steps IH]; intros k x y Hxy; [done|]. cbn [control_steps]. intros [Hh H]. split; [done|].
  destruct (control_calls acts) as [|[m needs] [|]]; [by eapply IH| |done].
  destruct H as (? & ? & ? & ?). split_and!; [done..|lia|done].
Qed.

Lemma control_calls_send m : control_calls (send_msg m) = [].
Proof. by destruct m. Qed.

Lemma step_ok_quiet s acts s' :
  control_calls acts = [] → ss_replay_s2c s' = ss_replay_s2c s → step_ok s acts s'.
Proof. intros H1 H2. left. split; [done|lia]. Qed.

(** The common shape of the handlers: nothing without a verified message. *)
Lemma step_ok_verified s m ok s1 acts needs :
  verify_s2c s m = Ok (ok, s1) → (needs = true → ss_running s = true) →
  (control_calls acts = [] ∨ (ok = true ∧ control_calls acts = [(m, needs)])) →
  step_ok s acts s1.
Proof.
  intros Hv Hr Hc. apply verify_s2c_spec in Hv as [_ Hv]. destruct ok.
  - destruct Hv as (Ha & Hlt & He). destruct Hc as [Hc|[_ Hc]]; [left; split; [done|lia]|].
    right. exists m, needs. done.
  - destruct Hc as [Hc|[? _]]; [|done]. left. split; [done|lia].
Qed.

Lemma report_ok s irt names now :
  step_ok s (dp_report_send_names s irt names now).2 (dp_report_send_names s irt names now).1.
Proof.
  unfold dp_report_send_names. apply step_ok_quiet; [|done]. cbn [snd].
  rewrite control_calls_app, control_calls_send. by destruct (fc_fill_snapshot cfg).
Qed.

Lemma hello_ack_ok s m now s' acts : handle_hello_ack s m now = Ok (s', acts) → step_ok s acts s'.
Proof.
  unfold handle_hello_ack, ota_check_send, sign_c2s. intros H.
  destruct (get_item m "accepted") as [[|[]| | | |]|]; try (injection H as <- <-; by apply step_ok_quiet).
  destruct (str_of m "server_nonce"), (str_of m "auth_kid"); try (injection H as <- <-; by apply step_ok_quiet).
  destruct (fp_envelope_build _ _ _ _ _ _) as [msg|]; [|injection H as <- <-; by apply step_ok_quiet].
  destruct (fp_auth_message_sign _ _ _ _ _ _ _ _) as [r| |]; cbn [mbind res_bind] in H; try done.
  injection H as <- <-. apply step_ok_quiet; [apply control_calls_send|done].
Qed.

Ltac handler_tail Hv Hrun :=
  eapply (step_ok_verified _ _ _ _ _ true); [exact Hv|done|];
  rewrite ?control_calls_app; unfold reply; rewrite ?control_calls_send, ?app_nil_r.

Lemma log_read_ok s m prev now s' acts :
  ss_running s = true → handle_log_read s m prev now = Ok (s', acts) → step_ok s acts s'.
Proof.
  intros Hrun H. unfold handle_log_read in H. destruct (verify_s2c s m) as [[ok s1]| |] eqn:Hv; cbn [mbind res_bind] in H; try done.
  destruct ok; cbn [negb] in H; [|injection H as <- <-; apply (step_ok_verified s m false s1 _ true); [done..|by left]].
  do 3 (destruct (number_of _ _ _ _); cbn [mbind res_bind] in H; try done).
  injection H as <- <-. handler_tail Hv Hrun. destruct (fc_fill_log_batch cfg); [by right|by left].
Qed.

Lemma history_read_ok s m now s' acts :
  ss_running s = true → handle_history_read s m now = Ok (s', acts) → step_ok s acts s'.
Proof.
  intros Hrun H. unfold handle_history_read in H. destruct (verify_s2c s m) as [[ok s1]| |] eqn:Hv; cbn [mbind res_bind] in H; try done.
  destruct ok; cbn [negb] in H; [|injection H as <- <-; apply (step_ok_verified s m false s1 _ true); [done..|by left]].
  do 2 (destruct (number_of _ _ _ _); cbn [mbind res_bind] in H; try done).
  injection H as <- <-. handler_tail Hv Hrun. destruct (fc_fill_history_batch cfg); [by right|by left].
Qed.

Lemma log_ack_ok s m now s' acts :
  ss_running s = true → handle_log_ack_prev s m now = Ok (s', acts) → step_ok s acts s'.
Proof.
  intros Hrun H. unfold handle_log_ack_prev in H. destruct (verify_s2c s m) as [[ok s1]| |] eqn:Hv; cbn [mbind res_bind] in H; try done.
  destruct ok; cbn [negb] in H; [|injection H as <- <-; apply (step_ok_verified s m false s1 _ true); [done..|by left]].
  destruct (number_of _ _ _ _); cbn [mbind res_bind] in H; try done.
  injection H as <- <-. handler_tail Hv Hrun. destruct (fc_on_log_ack_prev cfg); [by right|by left].
Qed.

Lemma command_ok s m now s' acts :
  ss_running s = true → handle_command s m now = Ok (s', acts) → step_ok s acts s'.
Proof.
  intros Hrun H. unfold handle_command in H. destruct (verify_s2c s m) as [[ok s1]| |] eqn:Hv; cbn [mbind res_bind] in H; try done.
  injection H as <- <-. handler_tail Hv Hrun. destruct ok, (fc_on_command cfg); [by right|by left..].
Qed.

Lemma dp_write_ok s m now s' acts :
  ss_running s = true → handle_dp_write s m now = Ok (s', acts) → step_ok s acts s'.
Proof.
  intros Hrun H. unfold handle_dp_write in H. destruct (verify_s2c s m) as [[ok s1]| |] eqn:Hv; cbn [mbind res_bind] in H; try done.
  injection H as <- <-. handler_tail Hv Hrun. destruct ok, (fc_on_dp_write cfg); [by right|by left..].
Qed.

Lemma message_ok s m now s' acts : fp_session_message_handle s m now = Ok (s', acts) → step_ok s acts s'.
Proof.
  intros H. unfold fp_session_message_handle in H. destruct m as [m|]; [|injection H as <- <-; by apply step_ok_quiet].
  destruct (ss_running s) eqn:Hrun;
    destruct (fp_envelope_type m) as [[]|]; try (injection H as <- <-; by apply step_ok_quiet);
    try (by apply hello_ack_ok in H); try (by apply command_ok in H); try (by apply dp_write_ok in H);
    try (by apply log_read_ok in H); try (by apply log_ack_ok in H); try (by apply history_read_ok in H);
    try (injection H as <- <-; apply step_ok_quiet; [by destruct (fc_on_ready cfg)|done]);
    try (injection H as <- <-; apply report_ok);
    destruct (verify_s2c s m) as [[ok s1]| |] eqn:Hv; cbn [mbind res_bind] in H; try done;
    injection H as <- <-; (apply (step_ok_verified s m ok s1 _ false); [done|done|]);
    cbn [fst snd]; try by left.
  all: destruct ok, (fc_on_ota cfg); [by right|by left..].
Qed.

Lemma fp_step_ok s e s' acts : fp_step s e = Ok (s', acts) → step_ok s acts s'.
Proof.
  destruct e as [nonce now|m now|up now|now|changes now|]; cbn [fp_step]; intros H.
  - unfold fp_session_hello_send in H. destruct (base64 nonce); injection H as <- <-;
      by apply step_ok_quiet.
  - by apply message_ok in H.
  - injection H as <- <-. apply step_ok_quiet; [|done]. unfold fp_session_heartbeat_send.
    destruct (negb _); [done|apply control_calls_send].
  - assert (fp_session_dp_report_send s None now = (s', acts)) as E by congruence.
    pose proof (report_ok s None None now) as Hr. unfold fp_session_dp_report_send in E.
    by rewrite E in Hr.
  - unfold fp_session_dp_changes_send in H. destruct (negb _); [injection H as <- <-; by apply step_ok_quiet|].
    destruct changes; injection H as <- <-; by apply step_ok_quiet.
  - destruct (fp_session_ota_failed_note s) as [fire s1] eqn:E. injection H as <- <-.
    unfold fp_session_ota_failed_note in E. destruct (_ || _); injection E as <- <-;
      (apply step_ok_quiet; [by destruct (fc_on_ready cfg)|done]).
Qed.

(** The control calls of a step, and the sequence numbers of a run, step by step. *)
Lemma step_ok_authentic s acts s' m needs :
  step_ok s acts s' → (m, needs) ∈ control_calls acts →
  authentic s m (seq_of m) ∧ (needs = true → ss_running s = true).
Proof.
  intros [[Hc _]|(m' & needs' & Hc & Ha & Hn & _)]; rewrite Hc; [by intros ?%elem_of_nil|].
  by intros [= -> ->]%list_elem_of_singleton.
Qed.

Lemma step_ok_sorted s acts s' rest :
  step_ok s acts s' → StronglySorted Z.lt (ss_replay_s2c s' :: rest) →
  StronglySorted Z.lt (ss_replay_s2c s :: (seq_of <$> (fst <$> control_calls acts)) ++ rest).
Proof.
  intros Hok Hsort. apply StronglySorted_inv in Hsort as [Hsort Hge].
  destruct Hok as [[Hc Hle]|(m & needs & Hc & _ & _ & Hlt & He)]; rewrite Hc; cbn [fmap list_fmap app fst].
  - constructor; [done|]. eapply Forall_impl; [exact Hge|]. cbn. lia.
  - rewrite He in Hge. constructor; [by constructor|]. constructor; [lia|].
    eapply Forall_impl; [exact Hge|]. cbn. lia.
Qed.

(** ** The connection behind the session *)

Lemma verify_conn s m ok s' : verify_s2c s m = Ok (ok, s') → conn_of s' = conn_of s.
Proof.
  unfold verify_s2c. destruct (fp_auth_message_verify _ _ _ _ _ _ _) as [[r|]| |]; cbn [mbind res_bind]; try done.
  { by intros [= _ <-]. }
  destruct (auth_seq m) as [v|]; [|done]. destruct (cast_long v) as [z| |]; try done.
  cbn [mbind res_bind]. destruct (fp_replay_check _ _) as [f l]. by intros [= _ <-].
Qed.

(** A handler that verifies first leaves the connection as it is. *)
Ltac verified_conn :=
  match goal with |- (_ ← verify_s2c ?s ?m; _) = Ok _ → _ =>
    let Hv := fresh "Hv" in
    destruct (verify_s2c s m) as [[[] ?]| |] eqn:Hv; cbn [mbind res_bind fst snd negb]; [| |done..]; apply verify_conn in Hv;
    repeat match goal with |- context [number_of ?a ?b ?c ?d] => destruct (number_of a b c d); cbn [mbind res_bind]; [|done..] end;
    intros [= <- _]; exact Hv
  end.

Lemma ack_conn s m now s' acts :
  fp_envelope_type m = Some FP_MSG_HELLO_ACK → handle_hello_ack s m now = Ok (s', acts) →
  conn_of s' = conn_step (conn_of s) (EMessage (Some m) now).
Proof.
  unfold handle_hello_ack, conn_step, accepted_ack. intros Ht. rewrite Ht. rewrite bool_decide_eq_false_2 by done.
  destruct (get_item m "accepted") as [[|[]| | | |]|]; try (by intros [= <- _]).
  destruct (str_of m "server_nonce") as [sn|], (str_of m "auth_kid") as [kid|]; try (by intros [= <- _]).
  unfold ota_check_send, sign_c2s. destruct (fp_envelope_build _ _ _ _ _ _) as [msg|]; [|by intros [= <- _]].
  destruct (fp_auth_message_sign _ _ _ _ _ _ _ _) as [r| |]; cbn [mbind res_bind]; [|done..]. by intros [= <- _].
Qed.

Lemma accepted_ack_type m sn : accepted_ack m = Some sn → fp_envelope_type m = Some FP_MSG_HELLO_ACK.
Proof. unfold accepted_ack. by destruct (fp_envelope_type m) as [[]|]. Qed.

Lemma message_conn s m now s' acts :
  fp_session_message_handle s m now = Ok (s', acts) → conn_of s' = conn_step (conn_of s) (EMessage m now).
Proof.
  unfold fp_session_message_handle. destruct m as [m|]; [|by intros [= <- _]].
  destruct (fp_envelope_type m) as [t|] eqn:Ht.
  2:{ intros [= <- _]. unfold conn_step. destruct (accepted_ack m) eqn:Ha; [apply accepted_ack_type in Ha; congruence|].
      by rewrite bool_decide_eq_false_2 by congruence. }
  destruct (decide (t = FP_MSG_HELLO_ACK)) as [->|Hack]; [by apply ack_conn|].
  assert (accepted_ack m = None) as Hn.
  { destruct (accepted_ack m) eqn:Ha; [apply accepted_ack_type in Ha; congruence|done]. }
  unfold conn_step. rewrite Hn. destruct (decide (t = FP_MSG_OTA_NONE)) as [->|Hnone].
  { rewrite bool_decide_eq_true_2 by done. by intros [= <- _]. }
  rewrite bool_decide_eq_false_2 by congruence.
  destruct t; try done; try (by intros [= <- _]); try (destruct (ss_running s); [|by intros [= <- _]]);
    unfold handle_command, handle_dp_write, handle_log_read, handle_history_read, handle_log_ack_prev; try verified_conn.
Qed.

Lemma fp_step_conn s e s' acts : fp_step s e = Ok (s', acts) → conn_of s' = conn_step (conn_of s) e.
Proof.
  destruct e as [nonce now|m now|up now|now|changes now|]; cbn [fp_step].
  - unfold fp_session_hello_send, conn_step. destruct (base64 nonce); by intros [= <- _].
  - apply message_conn.
  - by intros [= <- _].
  - by intros [= <- _].
  - unfold fp_session_dp_changes_send. destruct (negb _); [by intros [= <- _]|]. destruct changes; by intros [= <- _].
  - unfold fp_session_ota_failed_note, conn_step, conn_of. destruct (ss_negotiated s) eqn:En, (ss_running s) eqn:Er; cbn;
      intros [= <- _]; cbn; by rewrite ?En, ?Er.
Qed.

Lemma hello_step_carries s e s' acts :
  fp_step s e = Ok (s', acts) → hello_carries (conn_of s) e (omap sent_frame acts).
Proof.
  destruct e as [nonce now| | | | |]; [|done..]. cbn [fp_step hello_carries conn_step].
  unfold fp_session_hello_send. destruct (base64 nonce) as [b|]; intros [= _ <-]; [|constructor].
  cbn. apply Forall_singleton. unfold str_of, fp_hello_build. destruct (fc_hw_rev cfg); reflexivity.
Qed.

(** What one step contributes. *)
Lemma control_step_ok s e s' acts rest :
  fp_step s e = Ok (s', acts) → control_steps (conn_of s') (ss_replay_s2c s') rest →
  control_steps (conn_of s) (ss_replay_s2c s) ((e, acts) :: rest).
Proof.
  intros H Hr. rewrite (fp_step_conn _ _ _ _ H) in Hr. cbn [control_steps].
  split; [by eapply hello_step_carries|]. destruct (fp_step_ok _ _ _ _ H) as [[Hc Hle]|(m & needs & Hc & Ha & Hn & Hlt & He)];
    rewrite Hc.
  - by eapply control_steps_weaken.
  - rewrite He in Hr. done.
Qed.

(** The events of a run with what each made the session do. *)
Fixpoint fp_steps (s : fp_session_t) (es : list fp_event) : list (fp_event * list fp_action) :=
  match es with
  | [] => []
  | e :: es => match fp_step s e with Ok (s', acts) => (e, acts) :: fp_steps s' es | _ => [] end
  end.

(** Control needs authentication, freshness and operation.  From a reset on,
    whatever arrives: each call that changes something or discloses logs or history
    (command, datapoint write, log and history reads, log acknowledgement, update)
    was made for a message whose MAC verifies under the device's key and the nonces
    exchanged since the reset, with all but updates after the go-ahead only; the
    hello carries the nonce in question; and the sequence numbers of these messages
    strictly increase, so no message takes effect twice. *)
Theorem session_control_is_authentic s es : control_steps conn_new 0 (fp_steps (fp_session_reset s) es).
Proof.
  change conn_new with (conn_of (fp_session_reset s)). change 0 with (ss_replay_s2c (fp_session_reset s)).
  generalize (fp_session_reset s). clear s. induction es as [|e es IH]; intros s; [done|]. cbn [fp_steps].
  destruct (fp_step s e) as [[s1 acts]| |] eqn:Es; [|done..]. by eapply control_step_ok.
Qed.

(** An unsigned dp_read is answered in any state, before the hello is acknowledged. *)
Lemma unsigned_read_is_answered names :
  is_Some (fc_fill_snapshot cfg) → names ≠ [] →
  let m := CObject (add_string "type" (cstr "dp_read") ++ member "names" (CArray names)) in
  ∃ s frames, fp_session_message_handle (fp_session_reset fp_session_init) (Some m) 0
              = Ok (s, AFillSnapshot (Some (CArray names)) :: frames).
Proof.
  intros [f Hf] Hn m. destruct names as [|x l]; [done|]. eexists _, _. unfold fp_session_message_handle.
  change (fp_envelope_type m) with (Some FP_MSG_DP_READ). cbv beta iota. unfold handle_dp_read, dp_report_send_names.
  rewrite Hf. reflexivity.
Qed.

(** An unsigned ota_none starts operation before the negotiation. *)
Lemma ota_none_runs_unnegotiated :
  ∃ s acts, fp_session_message_handle fp_session_init (Some (CObject (add_string "type" (cstr "ota_none")))) 0
            = Ok (s, acts) ∧ ss_running s = true ∧ ss_negotiated s = false.
Proof. eexists _, _. split; [reflexivity|done]. Qed.
End session.

(** ** An execution *)

Definition example_cfg : fp_config_t :=
  mk_config (cstr "esp32-1") (cstr "0000000000000001") (cstr "1") [1; 2; 3] (cstr "1.0.0") None
    None false (Some (λ _, add_string "status" (cstr "applied"))) None None None None true true.

Definition example_ack : cjson :=
  CObject (add_string "type" (cstr "hello_ack") ++ member "accepted" (CBool true) ++
           add_string "server_nonce" (cstr "sn") ++ add_string "auth_kid" (cstr "1")).

Definition example_nonce : list Z := replicate 16 7.

Definition example_command (seq : Z) : option cjson :=
  match fp_auth_message_sign zero_heap toy_hash toy_hmac toy_base64
          (mk_auth_ctx [1; 2; 3] (cstr "s2c") (cstr "esp32-1") (cstr "sn")
             (field_copy 32 (default [] (toy_base64 example_nonce))))
          (CObject (add_string "type" (cstr "command") ++ add_string "command" (cstr "pump_on"))) (cstr "1") seq with
  | Ok m => m
  | _ => None
  end.

(** A command is executed once: its repetition and an older one are refused. *)
Lemma session_executes_once :
  seq_of <$> log_calls (fp_log zero_heap toy_hash toy_hmac toy_base64 example_cfg fp_session_init
    [EHello example_nonce 0; EMessage (example_command 4) 0; EMessage (Some example_ack) 0;
     EMessage (example_command 4) 0; EMessage (Some (CObject (add_string "type" (cstr "ota_none")))) 0;
     EMessage (example_command 4) 0; EMessage (example_command 4) 0; EMessage (example_command 3) 0;
     EMessage (example_command 9) 0]) = [4; 9].
Proof. vm_compute. reflexivity. Qed.
