(* ===== verification/Messages.v ===== *)
(** * The generated messages: [fountain_msgs.c]

    Models the builders and parsers of
    src/components/clientside_protocol/src/fountain_msgs.c with the message
    structs of fountain_msgs.h.  A member with its [has_] flag is an [option]; a
    required member of a scalar type has no flag to set (the builder ignores it).
    A builder yields the members it adds to an empty object, in order; a parser
    reads the members back in the order of the code and gives up ([Ok None], the
    code's [false]) at the first required member that is missing or has another
    type.  Converting a number that the target type cannot hold is undefined in C
    ([OutOfBounds]).  The message table is in [FpSession].

    The builders the session calls are stated there with their fields as
    arguments; [builders_agree] identifies the two forms. *)

From Stdlib Require Import SpecFloat.
From S2P Require Import Prelude Bytes Float32 Float64 FpAuth FpSession.
Local Open Scope string_scope.
Local Open Scope list_scope.
Local Open Scope Z_scope.

(** [t = None]: FP_MSG_COUNT. *)
Definition fp_msg_type_name (t : option fp_msg_type_t) : string :=
  match t ≫= fp_msg_meta with Some meta => mm_name meta | None => "?" end.

(** ** Reading one member

    The readers take the rest of the parser as a continuation. *)

Section readers.
Context {A : Type} (root : cjson) (key : string).

Definition req_string (k : list Z → res (option A)) : res (option A) :=
  match get_item root key with Some (CString s) => k s | _ => Ok None end.
Definition opt_string (k : option (list Z) → res (option A)) : res (option A) :=
  match get_item root key with Some (CString s) => k (Some s) | _ => k None end.
Definition req_bool (k : bool → res (option A)) : res (option A) :=
  match get_item root key with Some (CBool b) => k b | _ => Ok None end.
Definition opt_bool (k : option bool → res (option A)) : res (option A) :=
  match get_item root key with Some (CBool b) => k (Some b) | _ => k None end.
Definition req_item (k : option cjson → res (option A)) : res (option A) :=
  match get_item root key with Some v => k (Some v) | None => Ok None end.
Definition opt_item (k : option cjson → res (option A)) : res (option A) := k (get_item root key).
Definition req_number {B} (conv : f64 → res B) (k : B → res (option A)) : res (option A) :=
  match get_item root key with Some (CNumber v) => x ← conv v; k x | _ => Ok None end.
Definition opt_number {B} (conv : f64 → res B) (k : option B → res (option A)) : res (option A) :=
  match get_item root key with Some (CNumber v) => x ← conv v; k (Some x) | _ => k None end.

End readers.

Definition cast_i64 (v : f64) : res Z :=
  match f64_trunc v with
  | Some z => if (- 2 ^ 63 <=? z) && (z <? 2 ^ 63) then Ok z else OutOfBounds
  | None => OutOfBounds
  end.
Definition cast_f32 (v : f64) : res f32 := Ok (f32_of_f64 v).

Definition number (z : Z) : cjson := CNumber (f64_of_Z z).
Definition number_f32 (v : f32) : cjson := CNumber (f64_of_f32 v).

(** ** The messages *)

Record fp_hello_t := mk_hello {
  he_device_id : list Z;
  he_protocol_version : Z;
  he_fw_version : list Z;
  he_hw_rev : option (list Z);
  he_boot_reason : option (list Z);
  he_auth_schemes : option cjson;
  he_auth_kids : option cjson;
  he_client_nonce : option (list Z)
}.
Definition fp_hello_build (m : fp_hello_t) : list (list Z * cjson) :=
  add_string "device_id" (he_device_id m) ++
  member "protocol_version" (number (he_protocol_version m)) ++
  add_string "fw_version" (he_fw_version m) ++
  opt_member "hw_rev" (CString <$> he_hw_rev m) ++
  opt_member "boot_reason" (CString <$> he_boot_reason m) ++
  opt_member "auth_schemes" (he_auth_schemes m) ++
  opt_member "auth_kids" (he_auth_kids m) ++
  opt_member "client_nonce" (CString <$> he_client_nonce m).
Definition fp_hello_parse (root : cjson) : res (option fp_hello_t) :=
  req_string root "device_id" (λ device_id,
  req_number root "protocol_version" (cast_uint 8) (λ protocol_version,
  req_string root "fw_version" (λ fw_version,
  opt_string root "hw_rev" (λ hw_rev,
  opt_string root "boot_reason" (λ boot_reason,
  opt_item root "auth_schemes" (λ auth_schemes,
  opt_item root "auth_kids" (λ auth_kids,
  opt_string root "client_nonce" (λ client_nonce,
  Ok (Some (mk_hello device_id protocol_version fw_version hw_rev boot_reason auth_schemes auth_kids client_nonce)))))))))).

Record fp_hello_ack_t := mk_hello_ack {
  ha_accepted : bool;
  ha_supported_protocols : option cjson;
  ha_server_ts : Z;
  ha_reason : option (list Z);
  ha_auth_required : option bool;
  ha_auth_scheme : option (list Z);
  ha_auth_scope : option (list Z);
  ha_auth_kid : option (list Z);
  ha_server_nonce : option (list Z)
}.
Definition fp_hello_ack_build (m : fp_hello_ack_t) : list (list Z * cjson) :=
  member "accepted" (CBool (ha_accepted m)) ++
  opt_member "supported_protocols" (ha_supported_protocols m) ++
  member "server_ts" (number (ha_server_ts m)) ++
  opt_member "reason" (CString <$> ha_reason m) ++
  opt_member "auth_required" (CBool <$> ha_auth_required m) ++
  opt_member "auth_scheme" (CString <$> ha_auth_scheme m) ++
  opt_member "auth_scope" (CString <$> ha_auth_scope m) ++
  opt_member "auth_kid" (CString <$> ha_auth_kid m) ++
  opt_member "server_nonce" (CString <$> ha_server_nonce m).
Definition fp_hello_ack_parse (root : cjson) : res (option fp_hello_ack_t) :=
  req_bool root "accepted" (λ accepted,
  req_item root "supported_protocols" (λ supported_protocols,
  req_number root "server_ts" cast_i64 (λ server_ts,
  opt_string root "reason" (λ reason,
  opt_bool root "auth_required" (λ auth_required,
  opt_string root "auth_scheme" (λ auth_scheme,
  opt_string root "auth_scope" (λ auth_scope,
  opt_string root "auth_kid" (λ auth_kid,
  opt_string root "server_nonce" (λ server_nonce,
  Ok (Some (mk_hello_ack accepted supported_protocols server_ts reason auth_required auth_scheme auth_scope auth_kid server_nonce))))))))))).

Record fp_protocol_mismatch_t := mk_protocol_mismatch {
  pm_device_protocols : option cjson;
  pm_server_protocols : option cjson;
  pm_reason : list Z
}.
Definition fp_protocol_mismatch_build (m : fp_protocol_mismatch_t) : list (list Z * cjson) :=
  opt_member "device_protocols" (pm_device_protocols m) ++
  opt_member "server_protocols" (pm_server_protocols m) ++
  add_string "reason" (pm_reason m).
Definition fp_protocol_mismatch_parse (root : cjson) : res (option fp_protocol_mismatch_t) :=
  req_item root "device_protocols" (λ device_protocols,
  req_item root "server_protocols" (λ server_protocols,
  req_string root "reason" (λ reason,
  Ok (Some (mk_protocol_mismatch device_protocols server_protocols reason))))).

Record fp_ota_check_t := mk_ota_check {
  oc_current_version : list Z;
  oc_hw_rev : option (list Z)
}.
Definition fp_ota_check_build (m : fp_ota_check_t) : list (list Z * cjson) :=
  add_string "current_version" (oc_current_version m) ++
  opt_member "hw_rev" (CString <$> oc_hw_rev m).
Definition fp_ota_check_parse (root : cjson) : res (option fp_ota_check_t) :=
  req_string root "current_version" (λ current_version,
  opt_string root "hw_rev" (λ hw_rev,
  Ok (Some (mk_ota_check current_version hw_rev)))).

Record fp_ota_available_t := mk_ota_available {
  oa_target_version : list Z;
  oa_url : list Z;
  oa_size : Z;
  oa_crc32 : Z;
  oa_sha256 : list Z;
  oa_mandatory : bool;
  oa_max_attempts : option Z
}.
Definition fp_ota_available_build (m : fp_ota_available_t) : list (list Z * cjson) :=
  add_string "target_version" (oa_target_version m) ++
  add_string "url" (oa_url m) ++
  member "size" (number (oa_size m)) ++
  member "crc32" (number (oa_crc32 m)) ++
  add_string "sha256" (oa_sha256 m) ++
  member "mandatory" (CBool (oa_mandatory m)) ++
  opt_member "max_attempts" (number <$> oa_max_attempts m).
Definition fp_ota_available_parse (root : cjson) : res (option fp_ota_available_t) :=
  req_string root "target_version" (λ target_version,
  req_string root "url" (λ url,
  req_number root "size" (cast_uint 32) (λ size,
  req_number root "crc32" (cast_uint 32) (λ crc32,
  req_string root "sha256" (λ sha256,
  req_bool root "mandatory" (λ mandatory,
  opt_number root "max_attempts" (cast_uint 8) (λ max_attempts,
  Ok (Some (mk_ota_available target_version url size crc32 sha256 mandatory max_attempts))))))))).

Record fp_ota_none_t := mk_ota_none {}.
Definition fp_ota_none_build (m : fp_ota_none_t) : list (list Z * cjson) := [].
Definition fp_ota_none_parse (root : cjson) : res (option fp_ota_none_t) := Ok (Some mk_ota_none).

Record fp_ota_cancel_t := mk_ota_cancel {
  ocl_reason : option (list Z)
}.
Definition fp_ota_cancel_build (m : fp_ota_cancel_t) : list (list Z * cjson) :=
  opt_member "reason" (CString <$> ocl_reason m).
Definition fp_ota_cancel_parse (root : cjson) : res (option fp_ota_cancel_t) :=
  opt_string root "reason" (λ reason,
  Ok (Some (mk_ota_cancel reason))).

Record fp_ota_status_t := mk_ota_status {
  os_target_version : list Z;
  os_state : list Z;
  os_attempt : option Z;
  os_progress_pct : option Z;
  os_error : option (list Z);
  os_error_detail : option (list Z)
}.
Definition fp_ota_status_build (m : fp_ota_status_t) : list (list Z * cjson) :=
  add_string "target_version" (os_target_version m) ++
  add_string "state" (os_state m) ++
  opt_member "attempt" (number <$> os_attempt m) ++
  opt_member "progress_pct" (number <$> os_progress_pct m) ++
  opt_member "error" (CString <$> os_error m) ++
  opt_member "error_detail" (CString <$> os_error_detail m).
Definition fp_ota_status_parse (root : cjson) : res (option fp_ota_status_t) :=
  req_string root "target_version" (λ target_version,
  req_string root "state" (λ state,
  opt_number root "attempt" (cast_uint 8) (λ attempt,
  opt_number root "progress_pct" (cast_uint 8) (λ progress_pct,
  opt_string root "error" (λ error,
  opt_string root "error_detail" (λ error_detail,
  Ok (Some (mk_ota_status target_version state attempt progress_pct error error_detail)))))))).

Record fp_heartbeat_t := mk_heartbeat {
  hb_uptime_s : Z;
  hb_fw_version : list Z;
  hb_fault_active : option bool
}.
Definition fp_heartbeat_build (m : fp_heartbeat_t) : list (list Z * cjson) :=
  member "uptime_s" (number (hb_uptime_s m)) ++
  add_string "fw_version" (hb_fw_version m) ++
  opt_member "fault_active" (CBool <$> hb_fault_active m).
Definition fp_heartbeat_parse (root : cjson) : res (option fp_heartbeat_t) :=
  req_number root "uptime_s" (cast_uint 32) (λ uptime_s,
  req_string root "fw_version" (λ fw_version,
  opt_bool root "fault_active" (λ fault_active,
  Ok (Some (mk_heartbeat uptime_s fw_version fault_active))))).

Record fp_dp_report_t := mk_dp_report {
  dr_seq : Z;
  dr_dp : option cjson;
  dr_unknown : option cjson
}.
Definition fp_dp_report_build (m : fp_dp_report_t) : list (list Z * cjson) :=
  member "seq" (number (dr_seq m)) ++
  opt_member "dp" (dr_dp m) ++
  opt_member "unknown" (dr_unknown m).
Definition fp_dp_report_parse (root : cjson) : res (option fp_dp_report_t) :=
  req_number root "seq" (cast_uint 32) (λ seq,
  req_item root "dp" (λ dp,
  opt_item root "unknown" (λ unknown,
  Ok (Some (mk_dp_report seq dp unknown))))).

Record fp_dp_read_t := mk_dp_read {
  dd_names : option cjson
}.
Definition fp_dp_read_build (m : fp_dp_read_t) : list (list Z * cjson) :=
  opt_member "names" (dd_names m).
Definition fp_dp_read_parse (root : cjson) : res (option fp_dp_read_t) :=
  req_item root "names" (λ names,
  Ok (Some (mk_dp_read names))).

Record fp_dp_write_t := mk_dp_write {
  dw_dp : option cjson
}.
Definition fp_dp_write_build (m : fp_dp_write_t) : list (list Z * cjson) :=
  opt_member "dp" (dw_dp m).
Definition fp_dp_write_parse (root : cjson) : res (option fp_dp_write_t) :=
  req_item root "dp" (λ dp,
  Ok (Some (mk_dp_write dp))).

Record fp_dp_write_result_t := mk_dp_write_result {
  dwr_status : list Z;
  dwr_errors : option cjson;
  dwr_readback : option cjson
}.
Definition fp_dp_write_result_build (m : fp_dp_write_result_t) : list (list Z * cjson) :=
  add_string "status" (dwr_status m) ++
  opt_member "errors" (dwr_errors m) ++
  opt_member "readback" (dwr_readback m).
Definition fp_dp_write_result_parse (root : cjson) : res (option fp_dp_write_result_t) :=
  req_string root "status" (λ status,
  opt_item root "errors" (λ errors,
  opt_item root "readback" (λ readback,
  Ok (Some (mk_dp_write_result status errors readback))))).

Record fp_command_t := mk_command {
  cm_command : list Z;
  cm_target_state : option (list Z);
  cm_duration_steps : option Z
}.
Definition fp_command_build (m : fp_command_t) : list (list Z * cjson) :=
  add_string "command" (cm_command m) ++
  opt_member "target_state" (CString <$> cm_target_state m) ++
  opt_member "duration_steps" (number <$> cm_duration_steps m).
Definition fp_command_parse (root : cjson) : res (option fp_command_t) :=
  req_string root "command" (λ command,
  opt_string root "target_state" (λ target_state,
  opt_number root "duration_steps" (cast_uint 16) (λ duration_steps,
  Ok (Some (mk_command command target_state duration_steps))))).

Record fp_command_result_t := mk_command_result {
  cr_command : list Z;
  cr_status : list Z;
  cr_error : option (list Z);
  cr_error_detail : option (list Z);
  cr_retry_after_s : option Z;
  cr_readback : option cjson
}.
Definition fp_command_result_build (m : fp_command_result_t) : list (list Z * cjson) :=
  add_string "command" (cr_command m) ++
  add_string "status" (cr_status m) ++
  opt_member "error" (CString <$> cr_error m) ++
  opt_member "error_detail" (CString <$> cr_error_detail m) ++
  opt_member "retry_after_s" (number <$> cr_retry_after_s m) ++
  opt_member "readback" (cr_readback m).
Definition fp_command_result_parse (root : cjson) : res (option fp_command_result_t) :=
  req_string root "command" (λ command,
  req_string root "status" (λ status,
  opt_string root "error" (λ error,
  opt_string root "error_detail" (λ error_detail,
  opt_number root "retry_after_s" (cast_uint 16) (λ retry_after_s,
  opt_item root "readback" (λ readback,
  Ok (Some (mk_command_result command status error error_detail retry_after_s readback)))))))).

Record fp_error_report_t := mk_error_report {
  er_status : list Z;
  er_active_faults : option cjson;
  er_log : option cjson
}.
Definition fp_error_report_build (m : fp_error_report_t) : list (list Z * cjson) :=
  add_string "status" (er_status m) ++
  opt_member "active_faults" (er_active_faults m) ++
  opt_member "log" (er_log m).
Definition fp_error_report_parse (root : cjson) : res (option fp_error_report_t) :=
  req_string root "status" (λ status,
  opt_item root "active_faults" (λ active_faults,
  opt_item root "log" (λ log,
  Ok (Some (mk_error_report status active_faults log))))).

Record fp_device_alert_t := mk_device_alert {
  da_code : list Z;
  da_severity : list Z;
  da_datapoint : option (list Z);
  da_value : option f32;
  da_threshold : option f32;
  da_detail : option (list Z)
}.
Definition fp_device_alert_build (m : fp_device_alert_t) : list (list Z * cjson) :=
  add_string "code" (da_code m) ++
  add_string "severity" (da_severity m) ++
  opt_member "datapoint" (CString <$> da_datapoint m) ++
  opt_member "value" (number_f32 <$> da_value m) ++
  opt_member "threshold" (number_f32 <$> da_threshold m) ++
  opt_member "detail" (CString <$> da_detail m).
Definition fp_device_alert_parse (root : cjson) : res (option fp_device_alert_t) :=
  req_string root "code" (λ code,
  req_string root "severity" (λ severity,
  opt_string root "datapoint" (λ datapoint,
  opt_number root "value" cast_f32 (λ value,
  opt_number root "threshold" cast_f32 (λ threshold,
  opt_string root "detail" (λ detail,
  Ok (Some (mk_device_alert code severity datapoint value threshold detail)))))))).

(** ** All messages with a struct *)

Inductive message :=
  | MHello (m : fp_hello_t)
  | MHelloAck (m : fp_hello_ack_t)
  | MProtocolMismatch (m : fp_protocol_mismatch_t)
  | MOtaCheck (m : fp_ota_check_t)
  | MOtaAvailable (m : fp_ota_available_t)
  | MOtaNone (m : fp_ota_none_t)
  | MOtaCancel (m : fp_ota_cancel_t)
  | MOtaStatus (m : fp_ota_status_t)
  | MHeartbeat (m : fp_heartbeat_t)
  | MDpReport (m : fp_dp_report_t)
  | MDpRead (m : fp_dp_read_t)
  | MDpWrite (m : fp_dp_write_t)
  | MDpWriteResult (m : fp_dp_write_result_t)
  | MCommand (m : fp_command_t)
  | MCommandResult (m : fp_command_result_t)
  | MErrorReport (m : fp_error_report_t)
  | MDeviceAlert (m : fp_device_alert_t).

Definition message_type (x : message) : fp_msg_type_t :=
  match x with
  | MHello _ => FP_MSG_HELLO
  | MHelloAck _ => FP_MSG_HELLO_ACK
  | MProtocolMismatch _ => FP_MSG_PROTOCOL_MISMATCH
  | MOtaCheck _ => FP_MSG_OTA_CHECK
  | MOtaAvailable _ => FP_MSG_OTA_AVAILABLE
  | MOtaNone _ => FP_MSG_OTA_NONE
  | MOtaCancel _ => FP_MSG_OTA_CANCEL
  | MOtaStatus _ => FP_MSG_OTA_STATUS
  | MHeartbeat _ => FP_MSG_HEARTBEAT
  | MDpReport _ => FP_MSG_DP_REPORT
  | MDpRead _ => FP_MSG_DP_READ
  | MDpWrite _ => FP_MSG_DP_WRITE
  | MDpWriteResult _ => FP_MSG_DP_WRITE_RESULT
  | MCommand _ => FP_MSG_COMMAND
  | MCommandResult _ => FP_MSG_COMMAND_RESULT
  | MErrorReport _ => FP_MSG_ERROR_REPORT
  | MDeviceAlert _ => FP_MSG_DEVICE_ALERT
  end.

Definition message_build (x : message) : list (list Z * cjson) :=
  match x with
  | MHello m => fp_hello_build m
  | MHelloAck m => fp_hello_ack_build m
  | MProtocolMismatch m => fp_protocol_mismatch_build m
  | MOtaCheck m => fp_ota_check_build m
  | MOtaAvailable m => fp_ota_available_build m
  | MOtaNone m => fp_ota_none_build m
  | MOtaCancel m => fp_ota_cancel_build m
  | MOtaStatus m => fp_ota_status_build m
  | MHeartbeat m => fp_heartbeat_build m
  | MDpReport m => fp_dp_report_build m
  | MDpRead m => fp_dp_read_build m
  | MDpWrite m => fp_dp_write_build m
  | MDpWriteResult m => fp_dp_write_result_build m
  | MCommand m => fp_command_build m
  | MCommandResult m => fp_command_result_build m
  | MErrorReport m => fp_error_report_build m
  | MDeviceAlert m => fp_device_alert_build m
  end.

Definition as_message {M} (c : M → message) (r : res (option M)) : res (option message) :=
  x ← r; Ok (option_map c x).

Definition message_parse (t : fp_msg_type_t) (root : cjson) : res (option message) :=
  match t with
  | FP_MSG_HELLO => as_message MHello (fp_hello_parse root)
  | FP_MSG_HELLO_ACK => as_message MHelloAck (fp_hello_ack_parse root)
  | FP_MSG_PROTOCOL_MISMATCH => as_message MProtocolMismatch (fp_protocol_mismatch_parse root)
  | FP_MSG_OTA_CHECK => as_message MOtaCheck (fp_ota_check_parse root)
  | FP_MSG_OTA_AVAILABLE => as_message MOtaAvailable (fp_ota_available_parse root)
  | FP_MSG_OTA_NONE => as_message MOtaNone (fp_ota_none_parse root)
  | FP_MSG_OTA_CANCEL => as_message MOtaCancel (fp_ota_cancel_parse root)
  | FP_MSG_OTA_STATUS => as_message MOtaStatus (fp_ota_status_parse root)
  | FP_MSG_HEARTBEAT => as_message MHeartbeat (fp_heartbeat_parse root)
  | FP_MSG_DP_REPORT => as_message MDpReport (fp_dp_report_parse root)
  | FP_MSG_DP_READ => as_message MDpRead (fp_dp_read_parse root)
  | FP_MSG_DP_WRITE => as_message MDpWrite (fp_dp_write_parse root)
  | FP_MSG_DP_WRITE_RESULT => as_message MDpWriteResult (fp_dp_write_result_parse root)
  | FP_MSG_COMMAND => as_message MCommand (fp_command_parse root)
  | FP_MSG_COMMAND_RESULT => as_message MCommandResult (fp_command_result_parse root)
  | FP_MSG_ERROR_REPORT => as_message MErrorReport (fp_error_report_parse root)
  | FP_MSG_DEVICE_ALERT => as_message MDeviceAlert (fp_device_alert_parse root)
  | _ => Ok None
  end.

(** What a message must satisfy to survive the way through JSON: numbers in the
    range of their type (a time below 2^52), floats in canonical form, and the
    required trees present. *)
Definition of_opt {A} (P : A → Prop) (o : option A) : Prop := match o with Some x => P x | None => True end.
Definition canonical_f32 (v : f32) : Prop := valid_binary 24 128 v = true.

Definition message_ok (x : message) : Prop :=
  match x with
  | MHello m => 0 <= he_protocol_version m < 2 ^ 8
  | MHelloAck m => is_Some (ha_supported_protocols m) ∧ Z.abs (ha_server_ts m) < 2 ^ 52
  | MProtocolMismatch m => is_Some (pm_device_protocols m) ∧ is_Some (pm_server_protocols m)
  | MOtaCheck _ => True
  | MOtaAvailable m => 0 <= oa_size m < 2 ^ 32 ∧ 0 <= oa_crc32 m < 2 ^ 32 ∧ of_opt (λ z, 0 <= z < 2 ^ 8) (oa_max_attempts m)
  | MOtaNone _ => True
  | MOtaCancel _ => True
  | MOtaStatus m => of_opt (λ z, 0 <= z < 2 ^ 8) (os_attempt m) ∧ of_opt (λ z, 0 <= z < 2 ^ 8) (os_progress_pct m)
  | MHeartbeat m => 0 <= hb_uptime_s m < 2 ^ 32
  | MDpReport m => 0 <= dr_seq m < 2 ^ 32 ∧ is_Some (dr_dp m)
  | MDpRead m => is_Some (dd_names m)
  | MDpWrite m => is_Some (dw_dp m)
  | MDpWriteResult _ => True
  | MCommand m => of_opt (λ z, 0 <= z < 2 ^ 16) (cm_duration_steps m)
  | MCommandResult m => of_opt (λ z, 0 <= z < 2 ^ 16) (cr_retry_after_s m)
  | MErrorReport _ => True
  | MDeviceAlert m => of_opt canonical_f32 (da_value m) ∧ of_opt canonical_f32 (da_threshold m)
  end.

(** ** The session's builders are the generated ones *)

Lemma builders_agree :
  (∀ d f v h b s k n, FpSession.fp_hello_build d f v h b s k n = fp_hello_build (mk_hello d v f h b s k n)) ∧
  (∀ c h, FpSession.fp_ota_check_build c h = fp_ota_check_build (mk_ota_check c h)) ∧
  (∀ u f a, FpSession.fp_heartbeat_build u f a = fp_heartbeat_build (mk_heartbeat u f a)) ∧
  (∀ s d u, FpSession.fp_dp_report_build s d u = fp_dp_report_build (mk_dp_report s d u)).
Proof. by split_and!. Qed.

(** ** Names *)

Lemma type_name_read t : fp_msg_type_from_name (cstr (fp_msg_type_name (Some t))) = Some t.
Proof. by destruct t; vm_compute. Qed.

(** ** Looking up a member *)

Lemma some_union {A} (v : A) o : Some v ∪ o = Some v.
Proof. by destruct o. Qed.

Lemma get_item_app l1 l2 key :
  get_item (CObject (l1 ++ l2)) key = get_item (CObject l1) key ∪ get_item (CObject l2) key.
Proof.
  unfold get_item. cbn [members]. induction l1 as [|[k v] l1 IH]; [symmetry; apply (left_id_L None (∪))|].
  cbn [List.find app]. destruct (bool_decide (k = cstr key)); [symmetry; apply some_union|exact IH].
Qed.

Lemma get_item_member k v key :
  get_item (CObject (member k v)) key = if bool_decide (cstr k = cstr key) then Some v else None.
Proof. unfold get_item, member. cbn [members List.find]. by case_bool_decide. Qed.

Lemma get_item_opt_member k o key :
  get_item (CObject (opt_member k o)) key = if bool_decide (cstr k = cstr key) then o else None.
Proof. destruct o; [apply get_item_member|]. by case_bool_decide. Qed.

Lemma get_item_nil key : get_item (CObject []) key = None.
Proof. done. Qed.

Lemma get_item_add_string k v key :
  get_item (CObject (add_string k v)) key = if bool_decide (cstr k = cstr key) then Some (CString v) else None.
Proof. apply get_item_member. Qed.

(** Comparisons of literal keys are evaluated, absent members disappear. *)
Ltac look :=
  rewrite ?get_item_app, ?get_item_add_string, ?get_item_member, ?get_item_opt_member, ?get_item_nil;
  repeat match goal with
  | |- context [bool_decide (cstr ?a = cstr ?b)] =>
      let v := eval vm_compute in (bool_decide (cstr a = cstr b)) in change (bool_decide (cstr a = cstr b)) with v
  end;
  cbv iota; rewrite ?some_union, ?(left_id_L None (∪)), ?(right_id_L None (∪)).

Definition envelope_key (key : string) : bool :=
  existsb (λ k, bool_decide (cstr k = cstr key)) ["v"; "type"; "ts"; "serial"; "msg_id"; "in_reply_to"].

(** The fields of the body are read through the envelope. *)
Lemma body_item t body serial msg_id in_reply_to ts msg key :
  fp_envelope_build t body serial msg_id in_reply_to ts = Some msg → envelope_key key = false →
  get_item msg key = get_item (CObject body) key.
Proof.
  unfold fp_envelope_build. intros Hb Hk. destruct (fp_msg_meta t) as [meta|]; [|done]. apply (inj Some) in Hb. subst msg.
  unfold envelope_key in Hk. cbn [existsb] in Hk. rewrite !orb_false_iff in Hk. destruct Hk as (H1 & H2 & H3 & H4 & H5 & H6 & _).
  rewrite !get_item_app. unfold add_number. rewrite !get_item_member, !get_item_add_string, !get_item_opt_member.
  rewrite H1, H2, H3, H4, H5, H6. by rewrite !(left_id_L None (∪)).
Qed.

Lemma envelope_type_read t body serial msg_id in_reply_to ts :
  ∃ msg, fp_envelope_build t body serial msg_id in_reply_to ts = Some msg ∧ fp_envelope_type msg = Some t.
Proof.
  unfold fp_envelope_build. pose proof (type_name_read t) as Hn. unfold fp_msg_type_name in Hn. cbn [mbind option_bind] in Hn.
  destruct (fp_msg_meta t) as [meta|] eqn:E; [|destruct t; discriminate E]. eexists. split; [reflexivity|].
  unfold fp_envelope_type. rewrite get_item_app. unfold add_number. rewrite get_item_member. look. exact Hn.
Qed.

(** ** The readers on a member that is there *)

Section read.
Context {A : Type} (root : cjson) (key : string).
Implicit Types k : option A.

Lemma req_string_read s (k : list Z → res (option A)) :
  get_item root key = Some (CString s) → req_string root key k = k s.
Proof. unfold req_string. by intros ->. Qed.
Lemma opt_string_read o (k : option (list Z) → res (option A)) :
  get_item root key = CString <$> o → opt_string root key k = k o.
Proof. unfold opt_string. intros ->. by destruct o. Qed.
Lemma req_bool_read b (k : bool → res (option A)) :
  get_item root key = Some (CBool b) → req_bool root key k = k b.
Proof. unfold req_bool. by intros ->. Qed.
Lemma opt_bool_read o (k : option bool → res (option A)) :
  get_item root key = CBool <$> o → opt_bool root key k = k o.
Proof. unfold opt_bool. intros ->. by destruct o. Qed.
Lemma req_item_read o (k : option cjson → res (option A)) :
  get_item root key = o → is_Some o → req_item root key k = k o.
Proof. unfold req_item. intros -> [v ->]. done. Qed.
Lemma opt_item_read o (k : option cjson → res (option A)) :
  get_item root key = o → opt_item root key k = k o.
Proof. unfold opt_item. by intros ->. Qed.
Lemma req_number_read conv v x (k : Z → res (option A)) :
  get_item root key = Some (CNumber v) → conv v = Ok x → req_number root key conv k = k x.
Proof. unfold req_number. by intros -> ->. Qed.
Lemma opt_number_read {B} (enc : B → f64) (conv : f64 → res B) o (k : option B → res (option A)) :
  get_item root key = CNumber ∘ enc <$> o → of_opt (λ x, conv (enc x) = Ok x) o → opt_number root key conv k = k o.
Proof. unfold opt_number. intros ->. destruct o as [x|]; [|done]. cbn. by intros ->. Qed.

End read.

Lemma cast_uint_number bits z : 0 <= bits <= 52 → 0 <= z < 2 ^ bits → cast_uint bits (f64_of_Z z) = Ok z.
Proof.
  intros Hb Hz. pose proof (Z.pow_le_mono_r 2 bits 52). destruct (f64_of_Z_exact z) as (_ & _ & Ht); [lia|].
  unfold cast_uint. rewrite Ht. by rewrite (proj2 (Z.leb_le 0 z)), (proj2 (Z.ltb_lt z (2 ^ bits))) by lia.
Qed.

Lemma cast_i64_number z : Z.abs z < 2 ^ 52 → cast_i64 (f64_of_Z z) = Ok z.
Proof.
  intros Hz. destruct (f64_of_Z_exact z) as (_ & _ & Ht); [done|].
  unfold cast_i64. rewrite Ht. by rewrite (proj2 (Z.leb_le (- 2 ^ 63) z)), (proj2 (Z.ltb_lt z (2 ^ 63))) by lia.
Qed.

Lemma opt_cast_uint bits o :
  0 <= bits <= 52 → of_opt (λ z, 0 <= z < 2 ^ bits) o → of_opt (λ z, cast_uint bits (f64_of_Z z) = Ok z) o.
Proof. destruct o as [z|]; [|done]. apply cast_uint_number. Qed.

Lemma opt_cast_f32 o : of_opt canonical_f32 o → of_opt (λ v, cast_f32 (f64_of_f32 v) = Ok v) o.
Proof. destruct o as [v|]; [|done]. cbn. intros H. unfold cast_f32. by rewrite f32_of_f64_of_f32. Qed.

Create HintDb messages.
#[local] Hint Unfold fp_hello_build fp_hello_ack_build fp_protocol_mismatch_build fp_ota_check_build
  fp_ota_available_build fp_ota_none_build fp_ota_cancel_build fp_ota_status_build fp_heartbeat_build
  fp_dp_report_build fp_dp_read_build fp_dp_write_build fp_dp_write_result_build fp_command_build
  fp_command_result_build fp_error_report_build fp_device_alert_build fp_hello_parse fp_hello_ack_parse
  fp_protocol_mismatch_parse fp_ota_check_parse fp_ota_available_parse fp_ota_none_parse fp_ota_cancel_parse
  fp_ota_status_parse fp_heartbeat_parse fp_dp_report_parse fp_dp_read_parse fp_dp_write_parse
  fp_dp_write_result_parse fp_command_parse fp_command_result_parse fp_error_report_parse
  fp_device_alert_parse as_message : messages.

(** One step of a parser on the message its builder made, under the envelope. *)
Ltac read_member env :=
  let item := (rewrite (body_item _ _ _ _ _ _ _ _ env) by reflexivity; look; reflexivity) in
  first
    [ erewrite req_string_read by item | erewrite opt_string_read by item
    | erewrite req_bool_read by item | erewrite opt_bool_read by item
    | erewrite req_item_read by (item || done) | erewrite opt_item_read by item
    | (erewrite req_number_read; [|item|first [apply cast_uint_number; lia | by apply cast_i64_number]])
    | (erewrite (opt_number_read _ _ f64_of_Z); [|item|by apply opt_cast_uint])
    | (erewrite (opt_number_read _ _ f64_of_f32); [|item|by apply opt_cast_f32]) ].

(** C40: A message goes through the wire form unchanged: the tree that a builder
    makes, put into the envelope, is recognised as its type, and the parser of
    that type reads back every member, set or not, for each of the 17 structs. *)
Theorem messages_roundtrip x serial msg_id in_reply_to ts :
  message_ok x →
  ∃ msg, fp_envelope_build (message_type x) (message_build x) serial msg_id in_reply_to ts = Some msg ∧
         fp_envelope_type msg = Some (message_type x) ∧ message_parse (message_type x) msg = Ok (Some x).
Proof.
  intros Hok. destruct (envelope_type_read (message_type x) (message_build x) serial msg_id in_reply_to ts)
    as (msg & Hb & Ht). exists msg. split; [exact Hb|]. split; [exact Ht|].
  destruct x as [[]|[]|[]|[]|[]|[]|[]|[]|[]|[]|[]|[]|[]|[]|[]|[]|[]];
    cbn [message_type message_build message_parse message_ok] in *; destruct_and?;
    autounfold with messages in *; repeat read_member Hb; reflexivity.
Qed.

Definition example_alert : fp_device_alert_t :=
  mk_device_alert (cstr "pump_pressure_low") (cstr "warning") (Some (cstr "pressure_bar"))
    (Some (f32_of_bits 1056964608)) None (Some (cstr "below threshold")).

Lemma messages_roundtrip_witness :
  message_ok (MDeviceAlert example_alert) ∧
  ∃ msg, fp_envelope_build FP_MSG_DEVICE_ALERT (fp_device_alert_build example_alert) (cstr "FN-1") None None 1700000000
           = Some msg ∧
         fp_envelope_type msg = Some FP_MSG_DEVICE_ALERT ∧ fp_device_alert_parse msg = Ok (Some example_alert).
Proof.
  assert (message_ok (MDeviceAlert example_alert)) as Hok by (split; [vm_compute; reflexivity|exact I]).
  split; [exact Hok|].
  destruct (messages_roundtrip (MDeviceAlert example_alert) (cstr "FN-1") None None 1700000000 Hok)
    as (msg & Hb & Ht & Hp).
  exists msg. split; [exact Hb|]. split; [exact Ht|]. cbn [message_parse message_type] in Hp. unfold as_message in Hp.
  destruct (fp_device_alert_parse msg) as [[a|]| |]; try discriminate Hp. by injection Hp as ->.
Defined.
