(* ===== verification/Hal.v ===== *)
(** * The hardware layer: src/device/hal.{h,c}

    The pin maps, the ADS1115 burst read with its outlier trimming, the sensor
    curve and the relay output.  The I2C bus, the LEDC unit and the GPIO driver
    are ESP-IDF: the bus is a function from the number of a transfer to its
    answer, the LEDC calls and the set-up calls are given by their results, GPIO
    writes are a trace.  The WS2812 bit timing ([rgb_led_blank]) is not modelled
    beyond the pins it drives low. *)

From S2P Require Import Prelude Float32.
Local Open Scope string_scope.
Local Open Scope list_scope.
Local Open Scope Z_scope.

(** What the target's float-to-integer conversions and [lroundf] yield for the
    operands on which C does not define the result; nothing is assumed of it. *)
Class FloatCvt := {
  cvt_u32_undef : f32 → Z;
  cvt_i32_undef : f32 → Z;
  lroundf_undef : f32 → Z
}.

Definition to_u32 `{FloatCvt} (a : f32) : Z :=
  match f32_trunc a with
  | Some z => if decide (is_u32 z) then z else u32 (cvt_u32_undef a)
  | None => u32 (cvt_u32_undef a)
  end.

Definition to_i32 `{FloatCvt} (a : f32) : Z :=
  match f32_trunc a with
  | Some z => if decide (- 2147483648 <= z < 2147483648) then z else i32 (cvt_i32_undef a)
  | None => i32 (cvt_i32_undef a)
  end.

(** ** Pins *)

Definition GPIO_NUM_NC : Z := -1.

Record hal_pins_t := mk_pins {
  eDht : Z; eI2cSda : Z; eI2cScl : Z; eSsr : Z; eLedRed : Z; eLedGreen : Z;
  flSensorVdiv : f32;
  eCanTx : Z; eCanRx : Z; eCanStby : Z
}.

Definition s_stPinsHw1 : hal_pins_t :=
  mk_pins 4 8 7 5 GPIO_NUM_NC GPIO_NUM_NC (f32_of_Z 1) GPIO_NUM_NC GPIO_NUM_NC GPIO_NUM_NC.
Definition s_stPinsHw2 : hal_pins_t :=
  mk_pins 6 17 18 7 15 16 (f32_div (f32_of_Z 15) (f32_of_Z 25)) 5 4 21.

(** [factory_config_get()->hw_rev] is an argument. *)
Definition hal_board_is_hw2 (hw_rev : string) : bool :=
  bool_decide (String.substring 0 3 hw_rev = "HW2").
Definition hal_pins (hw_rev : string) : hal_pins_t :=
  if hal_board_is_hw2 hw_rev then s_stPinsHw2 else s_stPinsHw1.

Definition hal_can_available (p : hal_pins_t) : bool :=
  negb (eCanTx p =? GPIO_NUM_NC) && negb (eCanRx p =? GPIO_NUM_NC).

(** A GPIO made an output and driven to a level. *)
Definition gpio_write : Type := Z * Z.

Definition hal_can_standby_set (p : hal_pins_t) (bStandby : bool) : list gpio_write :=
  if eCanStby p =? GPIO_NUM_NC then []
  else [(eCanStby p, if bStandby then 1 else 0)].

Definition aeUnusedHw1 : list Z :=
  [1; 2; 6; 9; 10; 11; 12; 13; 14; 15; 16; 17; 18; 39; 40; 41; 42; 47].
Definition aeUnusedHw2 : list Z := [1; 2; 8; 9; 10; 11; 12; 13; 14; 19; 20; 38; 47; 48].

Definition unused_pins_park_high (hw_rev : string) : list gpio_write :=
  map (λ p, (p, 1)) (if hal_board_is_hw2 hw_rev then aeUnusedHw2 else aeUnusedHw1).

(** The GPIO writes of [hal_setup] and its result, given what the I2C and the
    LEDC set-up return. *)
Definition hal_setup (hw_rev : string) (i2c_init ssr_init : esp_err) : list gpio_write * bool :=
  let first := if negb (hal_board_is_hw2 hw_rev) then map (λ p, (p, 0)) [48; 38; 21]
               else hal_can_standby_set (hal_pins hw_rev) true in
  (first ++ unused_pins_park_high hw_rev,
   bool_decide (i2c_init = ESP_OK) && bool_decide (ssr_init = ESP_OK)).

(** ** State *)

Record hal_t := mk_hal {
  s_relay_on : bool;
  s_flPressRangeBar : f32;
  s_flPressScale : f32;
  s_flPressOffsetBar : f32;
  s_ulBurstNoiseMv : Z
}.
#[export] Instance eta_hal_t : Eta hal_t := λ r, mk_hal (s_relay_on r) (s_flPressRangeBar r)
      (s_flPressScale r) (s_flPressOffsetBar r) (s_ulBurstNoiseMv r).
#[export] Instance set_s_relay_on : Setter s_relay_on. Proof. mk_setter. Defined.
#[export] Instance set_s_flPressRangeBar : Setter s_flPressRangeBar. Proof. mk_setter. Defined.
#[export] Instance set_s_flPressScale : Setter s_flPressScale. Proof. mk_setter. Defined.
#[export] Instance set_s_flPressOffsetBar : Setter s_flPressOffsetBar. Proof. mk_setter. Defined.
#[export] Instance set_s_ulBurstNoiseMv : Setter s_ulBurstNoiseMv. Proof. mk_setter. Defined.

Definition PRESSURE_V_MIN : f32 := f32_lit 5 10.
Definition PRESSURE_V_MAX : f32 := f32_lit 45 10.
Definition PRESSURE_MAX_PSI : f32 := f32_of_Z 500.
Definition PSI_TO_BAR : f32 := f32_lit 689476 10000000.

Definition hal_boot : hal_t :=
  mk_hal false (f32_mul PRESSURE_MAX_PSI PSI_TO_BAR) (f32_of_Z 1) f32_zero 0.

(** ** The ADS1115 *)

Definition ADS1115_BURST_N : nat := 4.
Definition ADS1115_POLL_MAX : nat := 14.
Definition ADS1115_FSR_V : f32 := f32_lit 4096 1000.
Definition ADS1115_RES : f32 := f32_of_Z 32768.

(** The answer of one I2C transfer: the error code and the two bytes read. *)
Record i2c_answer := mk_answer { ia_err : esp_err; ia_b0 : Z; ia_b1 : Z }.

Section ads1115.
Context `{FloatCvt} (bus : nat → i2c_answer).

(** The wait for the conversion-ready bit; [n] is the next transfer. *)
Fixpoint poll_ready (k n : nat) : esp_err * nat :=
  match k with
  | O => (ESP_ERR_TIMEOUT, n)
  | S k =>
      if decide (ia_err (bus n) ≠ ESP_OK) then (ia_err (bus n), S n)
      else if negb (Z.land (ia_b0 (bus n)) 128 =? 0) then (ESP_OK, S n)
      else poll_ready k (S n)
  end.

Definition ads1115_convert_once (n : nat) : esp_err * Z * nat :=
  if decide (ia_err (bus n) ≠ ESP_OK) then (ia_err (bus n), 0, S n)
  else
    let '(e, n) := poll_ready ADS1115_POLL_MAX (S n) in
    if decide (e ≠ ESP_OK) then (e, 0, n)
    else if decide (ia_err (bus n) ≠ ESP_OK) then (ia_err (bus n), 0, S n)
    else (ESP_OK, i16 (Z.lor (Z.shiftl (ia_b0 (bus n)) 8) (ia_b1 (bus n))), S n).

(** The good samples of [k] conversions, in order. *)
Fixpoint burst (k n : nat) : list Z * nat :=
  match k with
  | O => ([], n)
  | S k =>
      let '(e, v, n) := ads1115_convert_once n in
      let '(vs, n) := burst k n in
      (if decide (e = ESP_OK) then v :: vs else vs, n)
  end.

(** Minimum, maximum and sum of the samples, by the loop of the code. *)
Definition burst_stats (s0 : Z) (samples : list Z) : Z * Z * Z :=
  foldl (λ '(mn, mx, sum) v, (if v <? mn then v else mn, if mx <? v then v else mx, sum + v))
        (s0, s0, 0) samples.

Definition burst_value (samples : list Z) : option (Z * Z) :=
  match samples with
  | s0 :: _ :: _ =>
      let '(mn, mx, sum) := burst_stats s0 samples in
      let n := Z.of_nat (length samples) in
      Some (if n =? Z.of_nat ADS1115_BURST_N then i16 (Z.quot (sum - mn - mx) (n - 2))
            else i16 (Z.quot sum n), mx - mn)
  | _ => None
  end.

Definition ads1115_read_raw (p : hal_pins_t) (h : hal_t) (n : nat) : option Z * hal_t * nat :=
  let '(samples, n) := burst ADS1115_BURST_N n in
  match burst_value samples with
  | None => (None, h, n)
  | Some (raw, spread) =>
      let mv := f32_add (f32_mul (f32_div (f32_mul (f32_of_Z spread)
                  (f32_div ADS1115_FSR_V ADS1115_RES)) (flSensorVdiv p)) (f32_of_Z 1000))
                  (f32_lit 5 10) in
      (Some raw, h <| s_ulBurstNoiseMv := to_u32 mv |>, n)
  end.

Definition hal_pressure_mv_read (p : hal_pins_t) (h : hal_t) (n : nat) : option Z * hal_t * nat :=
  let '(raw, h, n) := ads1115_read_raw p h n in
  match raw with
  | None => (None, h, n)
  | Some slRaw =>
      let flVAds := f32_mul (f32_of_Z slRaw) (f32_div ADS1115_FSR_V ADS1115_RES) in
      let flVSensor := f32_div flVAds (flSensorVdiv p) in
      let flVSensor := if f32_lt flVSensor f32_zero then f32_zero else flVSensor in
      (Some (to_u32 (f32_add (f32_mul flVSensor (f32_of_Z 1000)) (f32_lit 5 10))), h, n)
  end.

(** The sensor curve: the bar value of a voltage. *)
Definition pressure_curve (h : hal_t) (ulMv : Z) : f32 :=
  let flV := f32_div (f32_of_Z ulMv) (f32_of_Z 1000) in
  let flBar := f32_mul (f32_div (f32_sub flV PRESSURE_V_MIN) (f32_sub PRESSURE_V_MAX PRESSURE_V_MIN))
                       (s_flPressRangeBar h) in
  let flBar := if f32_lt flBar f32_zero then f32_zero else flBar in
  let flBar := if f32_gt flBar (s_flPressRangeBar h) then s_flPressRangeBar h else flBar in
  f32_add (f32_mul flBar (s_flPressScale h)) (s_flPressOffsetBar h).

(** Both output pointers non-null: the voltage and the pressure. *)
Definition hal_pressure_read (p : hal_pins_t) (h : hal_t) (n : nat)
    : option (Z * f32) * hal_t * nat :=
  let '(mv, h, n) := hal_pressure_mv_read p h n in
  (match mv with Some ulMv => Some (ulMv, pressure_curve h ulMv) | None => None end, h, n).

Definition hal_pressure_bar_read (p : hal_pins_t) (h : hal_t) (n : nat) : option f32 * hal_t * nat :=
  let '(r, h, n) := hal_pressure_read p h n in (snd <$> r, h, n).

End ads1115.

Definition hal_pressure_noise_mv_get (h : hal_t) : Z := s_ulBurstNoiseMv h.

Definition hal_pressure_calibration_set (h : hal_t) (flRangeBar flScale : f32) (sOffsetMbar : Z)
    : hal_t :=
  let h := if f32_gt flRangeBar f32_zero then h <| s_flPressRangeBar := flRangeBar |> else h in
  let h := if f32_gt flScale f32_zero then h <| s_flPressScale := flScale |> else h in
  h <| s_flPressOffsetBar := f32_div (f32_of_Z sOffsetMbar) (f32_of_Z 1000) |>.

(** ** The relay output *)

(** [set_duty], [update_duty]: the results of the two LEDC calls. *)
Definition hal_relay_set (h : hal_t) (bOn : bool) (set_duty update_duty : esp_err) : bool * hal_t :=
  if decide (set_duty ≠ ESP_OK) then (false, h)
  else if decide (update_duty ≠ ESP_OK) then (false, h)
  else (true, h <| s_relay_on := bOn |>).

Definition hal_relay_get (h : hal_t) : bool := s_relay_on h.

(** ** The burst read *)

Section burst_facts.
Context `{FloatCvt} (bus : nat → i2c_answer).

Lemma i16_range z : - 32768 <= i16 z < 32768.
Proof.
  unfold i16, signed_of. pose proof (Z.mod_pos_bound z 65536 ltac:(lia)).
  change (65536 / 2) with 32768. cbv zeta. case_match; lia.
Qed.

Lemma i16_id z : - 32768 <= z < 32768 → i16 z = z.
Proof.
  intros Hz. unfold i16, signed_of. change (65536 / 2) with 32768.
  destruct (decide (0 <= z)).
  - rewrite Z.mod_small by lia. case_match; lia.
  - rewrite <- (Z.mod_add z 1 65536), Z.mod_small by lia. case_match; lia.
Qed.

Lemma convert_once_range n e v n' :
  ads1115_convert_once bus n = (e, v, n') → - 32768 <= v < 32768.
Proof.
  unfold ads1115_convert_once. pose proof i16_range as Hr.
  destruct (decide _); [intros [= _ <- _]; lia|].
  destruct (poll_ready bus _ _) as [e' m]. destruct (decide _); [intros [= _ <- _]; lia|].
  destruct (decide _); intros [= _ <- _]; [lia|apply Hr].
Qed.

Lemma burst_range k : ∀ n vs n',
  burst bus k n = (vs, n') → Forall (λ v, - 32768 <= v < 32768) vs.
Proof.
  induction k as [|k IH]; cbn [burst]; intros n vs n'; [by intros [= <- _]|].
  destruct (ads1115_convert_once bus n) as [[e v] m] eqn:Hc.
  destruct (burst bus k m) as [vs' m'] eqn:Hb. intros [= <- _].
  apply IH in Hb. apply convert_once_range in Hc. case_decide; [by constructor|done].
Qed.

Lemma if_ltb_min x m : (if x <? m then x else m) = Z.min m x.
Proof. case_match; lia. Qed.
Lemma if_ltb_max x m : (if m <? x then x else m) = Z.max m x.
Proof. case_match; lia. Qed.

Lemma burst_stats_4 a b c d :
  burst_stats a [a; b; c; d]
  = (Z.min (Z.min a b) (Z.min c d), Z.max (Z.max a b) (Z.max c d), a + b + c + d).
Proof.
  unfold burst_stats. cbn [foldl]. rewrite !if_ltb_min, !if_ltb_max.
  apply f_equal2; [apply f_equal2|]; lia.
Qed.

Lemma quot2_between lo hi s : 2 * lo <= s <= 2 * hi → lo <= Z.quot s 2 <= hi.
Proof. intros. Z.to_euclidean_division_equations. lia. Qed.

(** one wild conversion in a burst of four cannot leave the range of the
    other three: if all samples but the i-th lie in [lo, hi], the burst read
    returns a raw value in [lo, hi], whatever the i-th sample is. *)
Theorem burst_rejects_single_spike p h n n' samples i lo hi :
  burst bus ADS1115_BURST_N n = (samples, n') → length samples = 4%nat →
  (∀ j v, j ≠ i → samples !! j = Some v → lo <= v <= hi) →
  ∃ raw h', ads1115_read_raw bus p h n = (Some raw, h', n') ∧ lo <= raw <= hi.
Proof.
  intros Hb Hl Hgood. unfold ads1115_read_raw. rewrite Hb. apply burst_range in Hb.
  destruct samples as [|a [|b [|c [|d [|]]]]]; try discriminate.
  unfold burst_value. rewrite burst_stats_4.
  set (s := a + b + c + d - _ - _).
  change (if _ =? _ then _ else _) with (i16 (Z.quot s 2)). cbv beta iota zeta.
  eexists _, _. split; [reflexivity|].
  repeat (apply Forall_cons in Hb as [? Hb]).
  pose proof (λ H, Hgood 0%nat a H eq_refl). pose proof (λ H, Hgood 1%nat b H eq_refl).
  pose proof (λ H, Hgood 2%nat c H eq_refl). pose proof (λ H, Hgood 3%nat d H eq_refl).
  assert (2 * lo <= s <= 2 * hi) as Hs
    by (subst s; clear Hgood Hl Hb; destruct i as [|[|[|[|i]]]]; lia).
  assert (2 * -32768 <= s <= 2 * 32767) as Hr by (subst s; lia).
  apply quot2_between in Hs, Hr. rewrite i16_id; lia.
Qed.

End burst_facts.

(** A bus on which the third conversion of four reads full scale. *)
Definition demo_cvt : FloatCvt := {|
  cvt_u32_undef := λ _, 0; cvt_i32_undef := λ _, 0; lroundf_undef := λ _, 0 |}.
Definition spike_bus (n : nat) : i2c_answer :=
  match n with
  | 2%nat => mk_answer ESP_OK 16 0 | 5%nat => mk_answer ESP_OK 16 2
  | 8%nat => mk_answer ESP_OK 127 255 | 11%nat => mk_answer ESP_OK 16 4
  | _ => mk_answer ESP_OK 128 0
  end.

Lemma burst_rejects_single_spike_witness :
  ∃ raw h', ads1115_read_raw (H := demo_cvt) spike_bus s_stPinsHw2 hal_boot 0
              = (Some raw, h', 12%nat) ∧ 4096 <= raw <= 4100.
Proof.
  apply (burst_rejects_single_spike (H := demo_cvt) spike_bus s_stPinsHw2 hal_boot 0 12
           [4096; 4098; 32767; 4100] 2 4096 4100); [by vm_compute|done|].
  intros [|[|[|[|j]]]] v Hj [= <-]; lia.
Defined.

(** No pin of a board that is parked high carries one of its functions. *)
Definition function_pins (p : hal_pins_t) : list Z :=
  [eDht p; eI2cSda p; eI2cScl p; eSsr p; eLedRed p; eLedGreen p; eCanTx p; eCanRx p; eCanStby p].

Lemma parked_pins_free hw_rev pin level :
  (pin, level) ∈ unused_pins_park_high hw_rev → pin ∉ function_pins (hal_pins hw_rev).
Proof.
  assert (∀ l p, forallb (λ x, bool_decide (x ∉ function_pins p)) l = true →
            (pin, level) ∈ map (λ x, (x, 1)) l → pin ∉ function_pins p) as Hl.
  { intros l p Hb Hin. apply list_elem_of_fmap in Hin as (q & [= -> _] & Hq).
    apply list_elem_of_In in Hq. eapply forallb_forall in Hb; [|exact Hq].
    by apply bool_decide_eq_true in Hb. }
  unfold unused_pins_park_high, hal_pins.
  destruct (hal_board_is_hw2 hw_rev); apply Hl; by vm_compute.
Qed.
