(* ===== verification/PumpTask.v ===== *)
(** * The pump task: src/device/pump_task.{h,c}

    The 200-ms cycle that binds the pure controller (PumpManager) to the sensor
    (Hal), the datapoint image (Datapoints), the pressure history (PressureRing)
    and the relay: configuration refresh, manual override, jump filter, debounce,
    1-Hz history, the update under the lock with the polled commands, the actuator
    check, mirroring, edges, alerts and the time series.  Events, alerts and log
    records that a cycle raises are collected as a list of outputs.  The mutex
    makes the locked part and every remote request atomic. *)

From Stdlib Require Import SpecFloat.
From S2P Require Import Prelude Bytes Float32 Float64.
From S2P Require Import PressureRing PumpManager DpCatalog Datapoints Hal.
Local Open Scope string_scope.
Local Open Scope list_scope.
Local Open Scope Z_scope.

Definition PUMP_TASK_PERIOD_MS : Z := 200.
Definition PUMP_SENSOR_MIN_MV : Z := 300.
Definition PUMP_SENSOR_FAIL_LIMIT : Z := 3.
Definition PUMP_MAX_JUMP_BAR : f32 := f32_of_Z 5.
Definition PUMP_JUMP_RESYNC_N : Z := 5.
Definition PUMP_JUMP_CONSIST_BAR : f32 := f32_of_Z 1.
Definition PRESSURE_HISTORY_INTERVAL_MS : Z := 1000.

Definition PRESSURE_STATUS_VALID : Z := 1.
Definition PRESSURE_STATUS_SENSOR_ERROR : Z := 2.
Definition PRESSURE_STATUS_OUT_OF_RANGE : Z := 4.
Definition PRESSURE_STATUS_STALE : Z := 16.
Definition PRESSURE_STATUS_MANUAL : Z := 32.

(** The numbers of the enumerators. *)
Definition state_val (s : pm_state_t) : Z :=
  match s with
  | PM_STATE_INIT => 0 | PM_STATE_IDLE => 1 | PM_STATE_PRESSURE_DROP => 2
  | PM_STATE_STARTING => 3 | PM_STATE_RUNNING => 4 | PM_STATE_RECOVERING => 5
  | PM_STATE_LOCKOUT => 6 | PM_STATE_FAULT => 7
  end.
Definition fault_val (f : pm_fault_t) : Z :=
  match f with
  | PM_FAULT_NONE => 0 | PM_FAULT_SENSOR => 1 | PM_FAULT_CRITICAL_LOW => 2
  | PM_FAULT_MAX_RUNTIME => 3 | PM_FAULT_DRY_RUN => 4 | PM_FAULT_TOO_MANY_STARTS => 5
  end.
Definition demand_val (d : pm_demand_t) : Z :=
  match d with
  | PM_DEMAND_NONE => 0 | PM_DEMAND_UNKNOWN => 1 | PM_DEMAND_HAND => 2 | PM_DEMAND_TANK => 3
  | PM_DEMAND_LEAK_SUSPECT => 4 | PM_DEMAND_PIPE_BREAK => 5 | PM_DEMAND_SENSOR_FAULT => 6
  end.

(** ** State *)

Record pump_snap_t := mk_snap {
  eState : pm_state_t;
  eMode : pm_mode_t;
  eFault : pm_fault_t;
  bRelay : bool;
  bIdle : bool;
  ucDpState : Z;
  stM : pm_metrics_t
}.

(** The file-scope state of pump_task.c (the mutex is implicit). *)
Record pump_task_t := mk_pump_task {
  s_stPm : pm_t;
  s_stSnap : pump_snap_t;
  s_ulCyclesPerCfg : Z;
  s_ullLastSampleMs : Z;
  s_ullLastHistMs : Z;
  s_stPrevM : pm_metrics_t;
  s_ePrevState : pm_state_t;
  s_ePrevFault : pm_fault_t;
  s_bOverPressure : bool;
  s_bRelayFailed : bool;
  s_ucPrevLabel : Z;
  s_ucSensorFails : Z;
  s_flJumpPendingBar : f32;
  s_ucJumpPending : Z;
  s_ulSensorErrTotal : Z;
  s_flLastGoodBar : f32;
  s_bHaveGood : bool;
  s_bSessionUp : bool;
  s_bLinkPoor : bool
}.
#[export] Instance eta_pump_task_t : Eta pump_task_t := λ r, mk_pump_task (s_stPm r)
      (s_stSnap r) (s_ulCyclesPerCfg r) (s_ullLastSampleMs r) (s_ullLastHistMs r)
      (s_stPrevM r) (s_ePrevState r) (s_ePrevFault r) (s_bOverPressure r)
      (s_bRelayFailed r) (s_ucPrevLabel r) (s_ucSensorFails r) (s_flJumpPendingBar r)
      (s_ucJumpPending r) (s_ulSensorErrTotal r) (s_flLastGoodBar r) (s_bHaveGood r)
      (s_bSessionUp r) (s_bLinkPoor r).
#[export] Instance set_s_stPm : Setter s_stPm. Proof. mk_setter. Defined.
#[export] Instance set_s_stSnap : Setter s_stSnap. Proof. mk_setter. Defined.
#[export] Instance set_s_ulCyclesPerCfg : Setter s_ulCyclesPerCfg. Proof. mk_setter. Defined.
#[export] Instance set_s_ullLastSampleMs : Setter s_ullLastSampleMs. Proof. mk_setter. Defined.
#[export] Instance set_s_ullLastHistMs : Setter s_ullLastHistMs. Proof. mk_setter. Defined.
#[export] Instance set_s_stPrevM : Setter s_stPrevM. Proof. mk_setter. Defined.
#[export] Instance set_s_ePrevState : Setter s_ePrevState. Proof. mk_setter. Defined.
#[export] Instance set_s_ePrevFault : Setter s_ePrevFault. Proof. mk_setter. Defined.
#[export] Instance set_s_bOverPressure : Setter s_bOverPressure. Proof. mk_setter. Defined.
#[export] Instance set_s_bRelayFailed : Setter s_bRelayFailed. Proof. mk_setter. Defined.
#[export] Instance set_s_ucPrevLabel : Setter s_ucPrevLabel. Proof. mk_setter. Defined.
#[export] Instance set_s_ucSensorFails : Setter s_ucSensorFails. Proof. mk_setter. Defined.
#[export] Instance set_s_flJumpPendingBar : Setter s_flJumpPendingBar. Proof. mk_setter. Defined.
#[export] Instance set_s_ucJumpPending : Setter s_ucJumpPending. Proof. mk_setter. Defined.
#[export] Instance set_s_ulSensorErrTotal : Setter s_ulSensorErrTotal. Proof. mk_setter. Defined.
#[export] Instance set_s_flLastGoodBar : Setter s_flLastGoodBar. Proof. mk_setter. Defined.
#[export] Instance set_s_bHaveGood : Setter s_bHaveGood. Proof. mk_setter. Defined.
#[export] Instance set_s_bSessionUp : Setter s_bSessionUp. Proof. mk_setter. Defined.
#[export] Instance set_s_bLinkPoor : Setter s_bLinkPoor. Proof. mk_setter. Defined.

(** What a cycle raises towards the other components. *)
Inductive pump_event := EVT_PUMP_STATE_CHANGED | EVT_PUMP_FAULT | EVT_PUMP_FAULT_CLEARED.
Inductive pump_log :=
  | LOG_EVT_PM_SAMPLE | LOG_EVT_PM_EVENT | LOG_EVT_PM_LABEL | LOG_EVT_PM_RELAY_FAIL.
Inductive log_level_t := LOG_LEVEL_ERROR | LOG_LEVEL_INFO | LOG_LEVEL_DEBUG.
Inductive pump_out :=
  | OutEvent (e : pump_event) (payload : list Z)
  | OutAlert (name severity point : string) (value threshold : f64)
  | OutLog (level : log_level_t) (event : pump_log) (args : list Z)
  | OutPressure (flBar : f32).

(** The task's state with what it shares: the datapoint image, the hardware
    layer, the pressure history, and the outputs raised so far. *)
Record world := mk_world {
  w_pump : pump_task_t;
  w_img : list Z;
  w_hal : hal_t;
  w_ring : pressure_ring_t;
  w_out : list pump_out
}.
#[export] Instance eta_world : Eta world := λ r, mk_world (w_pump r) (w_img r)
      (w_hal r) (w_ring r) (w_out r).
#[export] Instance set_w_pump : Setter w_pump. Proof. mk_setter. Defined.
#[export] Instance set_w_img : Setter w_img. Proof. mk_setter. Defined.
#[export] Instance set_w_hal : Setter w_hal. Proof. mk_setter. Defined.
#[export] Instance set_w_ring : Setter w_ring. Proof. mk_setter. Defined.
#[export] Instance set_w_out : Setter w_out. Proof. mk_setter. Defined.

Definition out (w : world) (o : list pump_out) : world := w <| w_out := w_out w ++ o |>.
Definition on_pump (w : world) (f : pump_task_t → pump_task_t) : world :=
  w <| w_pump := f (w_pump w) |>.

(** ** The datapoint image, [DP_REF] on the left of an assignment *)

Definition dp_ref_put (img : list Z) (name : string) (v : dp_const) : res (list Z) :=
  d ← of_option (dp_find name); dp_raw_set img d (const_bytes (dd_type d) v).

Fixpoint dp_refs_put (img : list Z) (l : list (string * dp_const)) : res (list Z) :=
  match l with
  | [] => Ok img
  | (name, v) :: l => img ← dp_ref_put img name v; dp_refs_put img l
  end.

(** ** Configuration *)

Definition ms_of (img : list Z) (name : string) (unit : Z) : res Z :=
  v ← ref_uint img name; Ok (u32 (v * unit)).

Definition config_from_dps (img : list Z) (h : hal_t) : res (pm_config_t * hal_t) :=
  on_bar ← ref_f32 img "Fon_Min_Pressure";
  off_bar ← ref_f32 img "Fon_Max_Pressure";
  critical_bar ← ref_f32 img "Fon_Alert_Low_Pressure";
  hand_min ← ref_f32 img "Fon_Hand_Min_Pressure";
  hand_max ← ref_f32 img "Fon_Hand_Max_Pressure";
  tank_min ← ref_f32 img "Fon_Tank_Min_Pressure";
  tank_max ← ref_f32 img "Fon_Tank_Max_Pressure";
  alpha ← ref_f32 img "Fon_Filter_Alpha";
  slope ← ref_f32 img "Fon_Stable_Slope";
  rise ← ref_uint img "Fon_Dry_Run_Min_Rise";
  k_hand ← ref_f32 img "Fon_Flow_K_Hand";
  k_tank ← ref_f32 img "Fon_Flow_K_Tank";
  drop_confirm ← ref_uint img "Fon_Pressure_Drop_Rate";
  min_on ← ms_of img "Fon_Min_On_Time" 1000;
  min_off ← ms_of img "Fon_Min_Off_Time" 1000;
  max_on ← ms_of img "Fon_Max_On_Time" 1000;
  dry_detect ← ms_of img "Fon_Dry_Run_Detect_Time" 1000;
  recovery ← ms_of img "Fon_Check_Valve_Timeout" 1000;
  hand_ms ← ms_of img "Fon_Hand_Max_Duration" 60000;
  tank_ms ← ms_of img "Fon_Tank_Max_Duration" 60000;
  unknown_ms ← ms_of img "Fon_Unknown_Max_Duration" 60000;
  starts ← ref_uint img "Fon_Max_Starts_Per_Hour";
  range ← ref_f32 img "Fon_Sensor_Range_Bar";
  scale ← ref_f32 img "Fon_Sensor_Scale";
  offset ← ref_uint img "Fon_Sensor_Offset";
  Ok (mk_pm_config on_bar off_bar critical_bar hand_min hand_max tank_min tank_max alpha slope
        (f32_div (f32_of_Z rise) (f32_of_Z 1000)) k_hand k_tank drop_confirm min_on min_off max_on
        dry_detect recovery hand_ms tank_ms unknown_ms starts,
      hal_pressure_calibration_set h range scale (i16 offset)).

Definition snap_zero : pump_snap_t :=
  mk_snap PM_STATE_INIT PM_MODE_MANUAL PM_FAULT_NONE false false 0 pm_metrics_zero.

(** [pump_task_init], the mutex created: the configured controller and the
    three events the task subscribes to. *)
Inductive net_event := EVT_SESSION_READY | EVT_SESSION_LOST | EVT_LINK_STATE_CHANGED.

Definition pump_task_init (img : list Z) (h : hal_t) : res (pump_task_t * hal_t * list net_event) :=
  '(cfg, h) ← config_from_dps img h;
  Ok (mk_pump_task (pm_init cfg) snap_zero 0 0 0 pm_metrics_zero PM_STATE_INIT PM_FAULT_NONE
        false false 0 0 f32_zero 0 0 f32_zero false false false, h,
      [EVT_SESSION_READY; EVT_SESSION_LOST; EVT_LINK_STATE_CHANGED]).

(** ** Network events *)

Definition fault_alert (f : pm_fault_t) : string :=
  if bool_decide (f = PM_FAULT_DRY_RUN) then "dry_run" else "pump_fault".

Definition alert_fault (f : pm_fault_t) : pump_out :=
  OutAlert (fault_alert f) "critical" "Fon_Fault_Code" (f64_of_Z (fault_val f)) (f64_of_Z 0).

Definition pump_on_net_event (w : world) (e : net_event) (payload : list Z) : world :=
  match e with
  | EVT_SESSION_READY =>
      let w := on_pump w (λ t, t <| s_bSessionUp := true |>) in
      let f := eFault (s_stSnap (w_pump w)) in
      if decide (f ≠ PM_FAULT_NONE) then out w [alert_fault f] else w
  | EVT_SESSION_LOST => on_pump w (λ t, t <| s_bSessionUp := false |>)
  | EVT_LINK_STATE_CHANGED =>
      match payload with
      | b :: _ => on_pump w (λ t, t <| s_bLinkPoor := negb (b =? 0) |>)
      | [] => w
      end
  end.

(** ** Reporting *)

Section cycle.
Context `{FloatCvt}.

Definition report_edges (t : pump_task_t) (snap : pump_snap_t) : pump_task_t * list pump_out :=
  let o1 := if decide (eState snap ≠ s_ePrevState t)
            then [OutEvent EVT_PUMP_STATE_CHANGED [state_val (s_ePrevState t); state_val (eState snap)]]
            else [] in
  let o2 := if decide (eFault snap ≠ s_ePrevFault t) then
              if decide (eFault snap ≠ PM_FAULT_NONE)
              then [OutEvent EVT_PUMP_FAULT [fault_val (eFault snap)]; alert_fault (eFault snap)]
              else [OutEvent EVT_PUMP_FAULT_CLEARED []]
            else [] in
  let pm := s_stPrevM t in
  let o3 := if negb (m_event_duration_ms pm =? 0) && (m_event_duration_ms (stM snap) =? 0)
               && (2000 <? m_event_duration_ms pm)
            then [OutLog LOG_LEVEL_INFO LOG_EVT_PM_EVENT
                    [i32 (m_event_duration_ms pm / 1000);
                     to_i32 (f32_mul (m_event_min_bar pm) (f32_of_Z 1000));
                     demand_val (m_demand pm);
                     to_i32 (f32_mul (m_est_volume_l_event pm) (f32_of_Z 10))]]
            else [] in
  (t <| s_ePrevState := eState snap |> <| s_ePrevFault := eFault snap |>, o1 ++ o2 ++ o3).

(** The assignments of [mirror_dps], in order. *)
Definition mirror_list (t : pump_task_t) (h : hal_t) (snap : pump_snap_t) (ulMv : Z) (bMeasOk : bool)
    : list (string * dp_const) :=
  let m := stM snap in
  [("Fon_Current_Pressure", CFlt (m_pressure_bar m))]
  ++ (if bMeasOk then [("Fon_Sensor_Voltage_mV", CInt ulMv)] else [])
  ++ [("Fon_Current_State", CInt (ucDpState snap));
      ("Fon_Relay_Output", CInt (if bRelay snap then 1 else 0));
      ("Fon_Run_Time", CInt (m_run_time_s m));
      ("Fon_Remaining_Time", CInt (m_remaining_s m));
      ("Fon_Cycles_Total", CInt (m_cycles_total m));
      ("Fon_Pressure_Filtered", CFlt (m_pressure_filtered_bar m));
      ("Fon_Pressure_Slope", CFlt (m_pressure_slope_bar_s m));
      ("Fon_Demand_State", CInt (demand_val (m_demand m)));
      ("Fon_Anomaly_Score", CInt (m_anomaly_score m));
      ("Fon_Event_Duration", CInt (m_event_duration_ms m / 1000));
      ("Fon_Est_Flow_L_Min", CFlt (m_est_flow_l_min m));
      ("Fon_Est_Volume_Total", CFlt (m_est_volume_l_total m));
      ("Fon_Fault_Code", CInt (fault_val (eFault snap)));
      ("Fon_Starts_Per_Hour", CInt (m_starts_last_hour m));
      ("Fon_Sensor_Err_Count", CInt (s_ulSensorErrTotal t));
      ("Fon_Sensor_Noise_mV", CInt (hal_pressure_noise_mv_get h))].

Definition mirror_dps (img : list Z) (t : pump_task_t) (h : hal_t) (snap : pump_snap_t)
    (ulMv : Z) (bMeasOk : bool) : res (list Z) :=
  dp_refs_put img (mirror_list t h snap ulMv bMeasOk).

(** ** Command points *)

Definition pump_command (pm : pm_t) (ucCmd now : Z) : pm_t :=
  if ucCmd =? 1 then (pm_request_on pm 0 now).2
  else if ucCmd =? 2 then (pm_request_off pm now).2
  else if ucCmd =? 3 then (pm_mode_set pm PM_MODE_AUTO now).2
  else if ucCmd =? 4 then (pm_mode_set pm PM_MODE_MANUAL now).2
  else if ucCmd =? 5 then (pm_request_restart pm now).2
  else pm.

(** The command first, then the acknowledgement. *)
Definition polled_pm (pm : pm_t) (ucCmd ucAck : Z) (bSensorOk : bool) (now : Z) : pm_t :=
  let pm := if negb (ucCmd =? 0) then pump_command pm ucCmd now else pm in
  if negb (ucAck =? 0) then (pm_fault_ack pm bSensorOk now).2 else pm.

Definition poll_command_dps (w : world) (now : Z) (bSensorOk : bool) : res world :=
  ucAck ← ref_uint (w_img w) "Fon_Fault_Ack";
  ucLabel ← ref_uint (w_img w) "Fon_Event_Label";
  ucCmd ← ref_uint (w_img w) "Fon_Pump_Command";
  img ← dp_refs_put (w_img w)
          ((if negb (ucAck =? 0) then [("Fon_Fault_Ack", CInt 0)] else [])
           ++ (if negb (ucCmd =? 0) then [("Fon_Pump_Command", CInt 0)] else []));
  let w := on_pump (w <| w_img := img |>)
             (λ t, t <| s_stPm := polled_pm (s_stPm t) ucCmd ucAck bSensorOk now |>) in
  Ok (if decide (ucLabel ≠ s_ucPrevLabel (w_pump w))
      then out (on_pump w (λ t, t <| s_ucPrevLabel := ucLabel |>))
               [OutLog LOG_LEVEL_INFO LOG_EVT_PM_LABEL [ucLabel; 0]]
      else w).

(** ** The sensor chain *)

(** The jump filter: the state and whether the reading is still valid. *)
Definition jump_filter (t : pump_task_t) (bManual bMeasOk : bool) (flBar : f32)
    : pump_task_t * bool :=
  if negb bManual && bMeasOk && s_bHaveGood t
     && f32_gt (f32_abs (f32_sub flBar (s_flLastGoodBar t))) PUMP_MAX_JUMP_BAR then
    let t := if negb (s_ucJumpPending t =? 0)
                && f32_le (f32_abs (f32_sub flBar (s_flJumpPendingBar t))) PUMP_JUMP_CONSIST_BAR
             then t <| s_ucJumpPending := u8 (s_ucJumpPending t + 1) |>
             else t <| s_flJumpPendingBar := flBar |> <| s_ucJumpPending := 1 |> in
    if PUMP_JUMP_RESYNC_N <=? s_ucJumpPending t then (t <| s_ucJumpPending := 0 |>, bMeasOk)
    else (t, false)
  else (t <| s_ucJumpPending := 0 |>, bMeasOk).

(** The debounce: the state, [bSensorOk] and the pressure to use. *)
Definition debounce (t : pump_task_t) (bMeasOk : bool) (flBar : f32) : pump_task_t * bool * f32 :=
  let t := if bMeasOk
           then t <| s_ucSensorFails := 0 |> <| s_flLastGoodBar := flBar |> <| s_bHaveGood := true |>
           else t <| s_ucSensorFails := if s_ucSensorFails t <? 255 then s_ucSensorFails t + 1
                                        else s_ucSensorFails t |>
                  <| s_ulSensorErrTotal := u32 (s_ulSensorErrTotal t + 1) |> in
  (t, bMeasOk || (s_ucSensorFails t <? PUMP_SENSOR_FAIL_LIMIT),
   if bMeasOk then flBar else if s_bHaveGood t then s_flLastGoodBar t else f32_zero).

(** [lroundf]: to the nearest integer, halves away from zero. *)
Definition lroundf (a : f32) : Z :=
  match a with
  | S754_zero _ => 0
  | S754_finite s m e =>
      let mag := if 0 <=? e then Zpos m * 2 ^ e else (Zpos m + 2 ^ (- e - 1)) / 2 ^ (- e) in
      let z := if s then - mag else mag in
      if decide (- 2147483648 <= z < 2147483648) then z else i32 (lroundf_undef a)
  | _ => i32 (lroundf_undef a)
  end.

(** The value and the status word of a history sample. *)
Definition history_sample (t : pump_task_t) (bManual bMeasOk : bool) (flBar : f32) : f32 * Z :=
  let '(v, st) :=
    if bManual then (flBar, Z.lor PRESSURE_STATUS_VALID PRESSURE_STATUS_MANUAL)
    else if bMeasOk then (flBar, PRESSURE_STATUS_VALID)
    else (if s_bHaveGood t then s_flLastGoodBar t else f32_zero,
          Z.lor PRESSURE_STATUS_SENSOR_ERROR (if s_bHaveGood t then PRESSURE_STATUS_STALE else 0)) in
  if f32_lt v f32_zero then (f32_zero, Z.lor st PRESSURE_STATUS_OUT_OF_RANGE)
  else if f32_gt v (f32_lit 65535 1000) then
    (f32_lit 65535 1000, Z.lor st PRESSURE_STATUS_OUT_OF_RANGE)
  else (v, st).

Definition history_step (w : world) (now us_hist : Z) (bManual bMeasOk : bool) (flBar : f32)
    : res world :=
  if PRESSURE_HISTORY_INTERVAL_MS <=? u64 (now - s_ullLastHistMs (w_pump w)) then
    let '(v, st) := history_sample (w_pump w) bManual bMeasOk flBar in
    r ← pressure_history_add (w_ring w) (u16 (lroundf (f32_mul v (f32_of_Z 1000)))) st us_hist;
    Ok (on_pump (w <| w_ring := r |>) (λ t, t <| s_ullLastHistMs := now |>))
  else Ok w.

(** ** The cycle *)

(** What the outside gives one cycle: the clock at its three readings, the I2C
    bus and the results of the LEDC calls. *)
Record cycle_in := mk_cycle_in {
  ci_us_start : Z;
  ci_us_hist : Z;
  ci_us_lock : Z;
  ci_bus : nat → i2c_answer;
  ci_set_duty : esp_err;
  ci_update_duty : esp_err
}.

Definition now_ms (us : Z) : Z := u64 (us / 1000).

Definition config_refresh (w : world) : res world :=
  let n := u32 (s_ulCyclesPerCfg (w_pump w) + 1) in
  let w := on_pump w (λ t, t <| s_ulCyclesPerCfg := n |>) in
  if 1000 / PUMP_TASK_PERIOD_MS <=? n then
    '(cfg, h) ← config_from_dps (w_img w) (w_hal w);
    Ok (on_pump (w <| w_hal := h |>)
          (λ t, t <| s_ulCyclesPerCfg := 0 |> <| s_stPm := pm_config_set (s_stPm t) cfg |>))
  else Ok w.

(** The sensor read with the manual override: [ulMv], [flBar], [bManual] and
    [bMeasOk] before the jump filter. *)
Definition read_sensor (p : hal_pins_t) (w : world) (ci : cycle_in)
    : res (world * Z * f32 * bool * bool) :=
  let '(r, h, _) := hal_pressure_read (ci_bus ci) p (w_hal w) 0 in
  let w := w <| w_hal := h |> in
  let '(ulMv, flBar) := default (0, f32_zero) r in
  let bMeasOk := bool_decide (is_Some r) && (PUMP_SENSOR_MIN_MV <=? ulMv) in
  man ← ref_uint (w_img w) "Fon_Pressure_Manual";
  if negb (man =? 0) then
    v ← ref_f32 (w_img w) "Fon_Pressure_Value"; Ok (w, ulMv, v, true, true)
  else Ok (w, ulMv, flBar, false, bMeasOk).

Definition take_snapshot (pm : pm_t) : pump_snap_t :=
  mk_snap (pm_state pm) (pm_mode pm) (pm_fault pm) (pm_relay_get pm) (pm_idle_get pm)
    (pm_dp_state_get pm) (pm_m pm).

(** The part under the lock. *)
Definition locked_update (w : world) (flUseBar : f32) (bSensorOk : bool) (now : Z) : res world :=
  let w := on_pump w (λ t, t <| s_stPrevM := stM (s_stSnap t) |>
                             <| s_stPm := pm_update (s_stPm t) flUseBar bSensorOk now |>) in
  w ← poll_command_dps w now bSensorOk;
  Ok (on_pump w (λ t, t <| s_stSnap := take_snapshot (s_stPm t) |>)).

Definition actuator_check (w : world) (ci : cycle_in) (bRelay : bool) : world :=
  let '(ok, h) := hal_relay_set (w_hal w) bRelay (ci_set_duty ci) (ci_update_duty ci) in
  let w := w <| w_hal := h |> in
  let b := if bRelay then 1 else 0 in
  if negb ok then
    if negb (s_bRelayFailed (w_pump w))
    then out (on_pump w (λ t, t <| s_bRelayFailed := true |>))
             [OutLog LOG_LEVEL_ERROR LOG_EVT_PM_RELAY_FAIL [b; 0]]
    else w
  else if s_bRelayFailed (w_pump w)
  then out (on_pump w (λ t, t <| s_bRelayFailed := false |>))
           [OutLog LOG_LEVEL_INFO LOG_EVT_PM_RELAY_FAIL [b; 1]]
  else w.

Definition over_pressure (w : world) (bSensorOk : bool) : res world :=
  flHigh ← ref_f32 (w_img w) "Fon_Alert_High_Pressure";
  let p := m_pressure_filtered_bar (stM (s_stSnap (w_pump w))) in
  Ok (if bSensorOk && f32_gt flHigh f32_zero then
        if f32_gt p flHigh && negb (s_bOverPressure (w_pump w))
        then out (on_pump w (λ t, t <| s_bOverPressure := true |>))
               [OutAlert "over_pressure" "warning" "Fon_Current_Pressure" (f64_of_f32 p)
                  (f64_of_f32 flHigh)]
        else if f32_lt p (f32_sub flHigh (f32_lit 2 10))
        then on_pump w (λ t, t <| s_bOverPressure := false |>) else w
      else w).

Definition time_series (w : world) (now : Z) : res world :=
  ulSampleS ← ref_uint (w_img w) "Fon_Report_Interval";
  let ulSampleS := if ulSampleS =? 0 then 1 else ulSampleS in
  let t := w_pump w in
  let '(lvl, ulSampleS) :=
    if negb (s_bSessionUp t) then (LOG_LEVEL_INFO, if ulSampleS <? 30 then 30 else ulSampleS)
    else (LOG_LEVEL_DEBUG, if s_bLinkPoor t then u32 (ulSampleS * 2) else ulSampleS) in
  let m := stM (s_stSnap t) in
  Ok (if ulSampleS * 1000 <=? u64 (now - s_ullLastSampleMs t) then
        out (on_pump w (λ t, t <| s_ullLastSampleMs := now |>))
          [OutLog lvl LOG_EVT_PM_SAMPLE
             [to_i32 (f32_mul (m_pressure_filtered_bar m) (f32_of_Z 1000));
              to_i32 (f32_mul (m_pressure_slope_bar_s m) (f32_of_Z 1000));
              Z.lor (Z.shiftl (state_val (eState (s_stSnap t))) 8) (demand_val (m_demand m));
              m_anomaly_score m]]
      else w).

(** From the filtered reading to the end of the cycle. *)
Definition cycle_tail (w : world) (ci : cycle_in) (now ulMv : Z) (flBar : f32)
    (bManual bMeasOk : bool) : res world :=
  let '(t, bSensorOk, flUseBar) := debounce (w_pump w) bMeasOk flBar in
  let w := on_pump w (λ _, t) in
  w ← history_step w now (ci_us_hist ci) bManual bMeasOk flBar;
  let now := now_ms (ci_us_lock ci) in
  w ← locked_update w flUseBar bSensorOk now;
  let snap := s_stSnap (w_pump w) in
  let w := actuator_check w ci (bRelay snap) in
  let w := if bMeasOk then out w [OutPressure flBar] else w in
  img ← mirror_dps (w_img w) (w_pump w) (w_hal w) snap ulMv bMeasOk;
  let '(t, o) := report_edges (w_pump w) snap in
  let w := out (on_pump (w <| w_img := img |>) (λ _, t)) o in
  w ← over_pressure w bSensorOk;
  time_series w now.

Definition pump_task_cycle (p : hal_pins_t) (w : world) (ci : cycle_in) : res world :=
  w ← config_refresh w;
  '(w, ulMv, flBar, bManual, bMeasOk) ← read_sensor p w ci;
  let '(t, bMeasOk) := jump_filter (w_pump w) bManual bMeasOk flBar in
  cycle_tail (on_pump w (λ _, t)) ci (now_ms (ci_us_start ci)) ulMv flBar bManual bMeasOk.

End cycle.

(** ** Remote requests and probes *)

Definition locked_request (w : world) (f : pm_t → bool * pm_t) : bool * world :=
  let '(ok, pm) := f (s_stPm (w_pump w)) in (ok, on_pump w (λ t, t <| s_stPm := pm |>)).

Definition pump_request_on (w : world) (ulMaxDurationS us : Z) : bool * world :=
  locked_request w (λ pm, pm_request_on pm ulMaxDurationS (now_ms us)).
Definition pump_request_off (w : world) (us : Z) : bool * world :=
  locked_request w (λ pm, pm_request_off pm (now_ms us)).
Definition pump_request_restart (w : world) (us : Z) : bool * world :=
  locked_request w (λ pm, pm_request_restart pm (now_ms us)).
Definition pump_mode_set (w : world) (eMode : pm_mode_t) (us : Z) : bool * world :=
  locked_request w (λ pm, pm_mode_set pm eMode (now_ms us)).

Definition pump_state_get (w : world) : pm_state_t := eState (s_stSnap (w_pump w)).
Definition pump_idle_get (w : world) : bool := bIdle (s_stSnap (w_pump w)).
