(* ===== verification/PumpTaskProps.v ===== *)
(** * Properties of the pump task

    Over the definitions of PumpTask: fields written by name, every part of the
    cycle as a computation that ends normally ([safe]), what a cycle establishes
    ([cycle_post]), runs of cycles interleaved with requests, network events and
    image writes ([task_run]), and the safety chain from the sensor to the relay
    output. *)

From Stdlib Require Import SpecFloat.
From S2P Require Import Prelude Bytes Float32 Float64 PressureRing PumpManager.
From S2P Require Import PumpSafety DpCatalog Datapoints DpProps Hal PumpTask.
Local Open Scope string_scope.
Local Open Scope list_scope.
Local Open Scope Z_scope.

(** ** Writing fields of the image *)

Lemma const_bytes_len t v : zlen (const_bytes t v) = dp_type_size t.
Proof. unfold const_bytes, zlen. destruct t, v; by rewrite length_le_put. Qed.

Lemma const_bytes_u8 t v : Forall is_u8 (const_bytes t v).
Proof. destruct t, v; apply le_put_bytes. Qed.

(** A name of the catalogue whose field keeps its type when [v] is stored. *)
Definition put_name (nv : string * dp_const) : bool :=
  match dp_find nv.1 with
  | Some d => bool_decide (dd_type d ≠ DP_STR) && (bool_decide (dd_access d = DP_RO)
                || typed_slot d (const_bytes (dd_type d) nv.2))
  | None => false
  end.

Lemma ref_put_ok img name v :
  img_typed img → put_name (name, v) = true →
  ∃ img' d, dp_ref_put img name v = Ok img' ∧ img_typed img' ∧ dp_find name = Some d ∧
    dp_ref img' name = Ok (const_bytes (dd_type d) v) ∧
    (∀ n, n ≠ name → dp_ref img' n = dp_ref img n).
Proof.
  intros Ht Hn. unfold put_name in Hn. cbn in Hn. destruct (dp_find name) as [d|] eqn:Hf; [|done].
  apply andb_true_iff in Hn as [Hs%bool_decide_eq_true Hty].
  destruct (ref_set_spec img name d (const_bytes (dd_type d) v) Ht Hf) as (img' & E & Ht' & Hr & Hk).
  - apply const_bytes_len.
  - apply const_bytes_u8.
  - apply orb_true_iff in Hty as [Hro|Hty]; [|done].
    apply free_typed; [done|]. apply bool_decide_eq_true in Hro. by rewrite Hro.
  - exists img', d. split_and!; try done. unfold dp_ref_put. unfold dp_ref_set in E.
    rewrite Hf in *. exact E.
Qed.

(** What an image holds after a list of assignments to distinct fields. *)
Record puts_spec (l : list (string * dp_const)) (img img' : list Z) : Prop := {
  ps_typed : img_typed img';
  ps_put : ∀ name v d, (name, v) ∈ l → dp_find name = Some d →
             dp_ref img' name = Ok (const_bytes (dd_type d) v);
  ps_keep : ∀ name, name ∉ l.*1 → dp_ref img' name = dp_ref img name
}.

Lemma refs_put_ok l : ∀ img,
  img_typed img → NoDup l.*1 → forallb put_name l = true →
  safe (dp_refs_put img l) (puts_spec l img).
Proof.
  induction l as [|[name v] l IH]; intros img Ht Hnd Hn; cbn [dp_refs_put].
  - split; [done| |done]. intros ? ? ? []%not_elem_of_nil.
  - cbn [fmap list_fmap fst] in Hnd. apply NoDup_cons in Hnd as [Hnin Hnd].
    apply andb_true_iff in Hn as [Hn Hl].
    destruct (ref_put_ok img name v Ht Hn) as (img1 & d & -> & Ht1 & Hf & Hp & Hk).
    cbn [mbind res_bind]. eapply safe_mono; [by apply IH|]. intros img' [Ht' Hput Hkeep]. split.
    + done.
    + intros n u d' [[= -> ->]|Hin]%elem_of_cons Hf'; [|by eapply Hput].
      rewrite Hkeep by done. replace d' with d by congruence. done.
    + intros n Hni. cbn [fmap list_fmap fst] in Hni. apply not_elem_of_cons in Hni as [Hne Hni].
      rewrite Hkeep by done. by apply Hk.
Qed.

(** Reading a field of the catalogue ends normally. *)
Definition known (name : string) : bool := bool_decide (is_Some (dp_find name)).

(** The fields the task reads. *)
Definition read_names : list string :=
  ["Fon_Fault_Ack"; "Fon_Event_Label"; "Fon_Pump_Command"; "Fon_Pressure_Manual";
   "Fon_Pressure_Value"; "Fon_Alert_High_Pressure"; "Fon_Report_Interval";
   "Fon_Min_Pressure"; "Fon_Max_Pressure"; "Fon_Alert_Low_Pressure";
   "Fon_Hand_Min_Pressure"; "Fon_Hand_Max_Pressure"; "Fon_Tank_Min_Pressure";
   "Fon_Tank_Max_Pressure"; "Fon_Filter_Alpha"; "Fon_Stable_Slope"; "Fon_Dry_Run_Min_Rise";
   "Fon_Flow_K_Hand"; "Fon_Flow_K_Tank"; "Fon_Pressure_Drop_Rate"; "Fon_Min_On_Time";
   "Fon_Min_Off_Time"; "Fon_Max_On_Time"; "Fon_Dry_Run_Detect_Time";
   "Fon_Check_Valve_Timeout"; "Fon_Hand_Max_Duration"; "Fon_Tank_Max_Duration";
   "Fon_Unknown_Max_Duration"; "Fon_Max_Starts_Per_Hour"; "Fon_Sensor_Range_Bar";
   "Fon_Sensor_Scale"; "Fon_Sensor_Offset"].

Lemma read_names_known : forallb known read_names = true.
Proof. vm_compute. reflexivity. Qed.

Lemma known_in name : name ∈ read_names → known name = true.
Proof.
  intros Hn%list_elem_of_In. pose proof read_names_known as H. rewrite forallb_forall in H. by apply H.
Qed.

Lemma ref_safe img name : img_typed img → known name = true → ∃ b, dp_ref img name = Ok b.
Proof.
  intros [Hi _] [d Hf]%bool_decide_eq_true. eexists. by apply dp_ref_slot.
Qed.

Lemma ref_uint_safe img name : img_typed img → known name = true → safe (ref_uint img name) (λ _, True).
Proof. intros Ht Hn. unfold ref_uint. by destruct (ref_safe img name Ht Hn) as [b ->]. Qed.

Lemma ref_f32_safe img name : img_typed img → known name = true → safe (ref_f32 img name) (λ _, True).
Proof. intros Ht Hn. unfold ref_f32. by destruct (ref_safe img name Ht Hn) as [b ->]. Qed.

Lemma ms_of_safe img name unit : img_typed img → known name = true → safe (ms_of img name unit) (λ _, True).
Proof. intros Ht Hn. unfold ms_of. eapply safe_bind; [by apply ref_uint_safe|done]. Qed.

(** Steps through the reads of a computation. *)
Ltac read_field :=
  eapply safe_bind;
  [match goal with
   | |- safe (ref_f32 _ _) _ => apply ref_f32_safe
   | |- safe (ref_uint _ _) _ => apply ref_uint_safe
   | |- safe (ms_of _ _ _) _ => apply ms_of_safe
   end; [assumption|apply known_in; apply (bool_decide_unpack _); vm_compute; exact I]
  |intros ? _].

Lemma config_from_dps_safe img h : img_typed img → safe (config_from_dps img h) (λ _, True).
Proof. intros Ht. unfold config_from_dps. do 25 read_field. done. Qed.

(** ** A cycle never leaves an array and keeps the shared state well formed *)

Record world_ok (w : world) : Prop := {
  wo_img : img_typed (w_img w);
  wo_ring : ∃ hist, ring_repr (w_ring w) hist;
  wo_pm : pm_inv (s_stPm (w_pump w))
}.

(** *** The parts of the cycle *)

Section cycle_facts.
Context `{FloatCvt}.

(** What a part that leaves the datapoint image and the pump state alone keeps. *)
Lemma mirror_ok img t h snap ulMv bMeasOk :
  img_typed img →
  safe (mirror_dps img t h snap ulMv bMeasOk) (puts_spec (mirror_list t h snap ulMv bMeasOk) img).
Proof.
  intros Ht. apply refs_put_ok; [done| |].
  - apply (bool_decide_unpack _). by destruct bMeasOk; vm_compute.
  - by destruct bMeasOk; vm_compute.
Qed.

Lemma manual_not_mirrored t h snap ulMv bMeasOk :
  "Fon_Pressure_Manual" ∉ (mirror_list t h snap ulMv bMeasOk).*1.
Proof. apply (bool_decide_unpack _). by destruct bMeasOk; vm_compute. Qed.

Lemma config_refresh_ok w :
  world_ok w →
  safe (config_refresh w) (λ w', world_ok w' ∧ w_img w' = w_img w ∧
    s_ucSensorFails (w_pump w') = s_ucSensorFails (w_pump w)).
Proof.
  intros [Hi Hr Hp]. unfold config_refresh. cbn zeta. case_match; [|done].
  eapply safe_bind; [by apply config_from_dps_safe|]. intros [cfg h] _.
  split_and!; try done. split; [done|done|]. by destruct Hp; split.
Qed.

(** The voltage of a read does not depend on the state of the hardware layer. *)
Definition read_mv (p : hal_pins_t) (ci : cycle_in) : option Z :=
  (hal_pressure_mv_read (ci_bus ci) p hal_boot 0).1.1.

Definition bad_reading (p : hal_pins_t) (ci : cycle_in) : bool :=
  match read_mv p ci with Some mv => mv <? PUMP_SENSOR_MIN_MV | None => true end.

Lemma pressure_read_mv p h ci :
  fst <$> (hal_pressure_read (ci_bus ci) p h 0).1.1 = read_mv p ci.
Proof.
  unfold read_mv, hal_pressure_read, hal_pressure_mv_read, ads1115_read_raw.
  destruct (burst _ _ _) as [samples n]. by destruct (burst_value samples) as [[raw spread]|].
Qed.

Definition manual_off (img : list Z) : Prop := ref_uint img "Fon_Pressure_Manual" = Ok 0.

Lemma read_sensor_ok p w ci :
  world_ok w →
  safe (read_sensor p w ci) (λ '(w', ulMv, flBar, bManual, bMeasOk),
    world_ok w' ∧ w_img w' = w_img w ∧ w_pump w' = w_pump w ∧
    (manual_off (w_img w) → bad_reading p ci = true → bManual = false ∧ bMeasOk = false)).
Proof.
  intros [Hi Hr Hp]. unfold read_sensor, manual_off.
  pose proof (pressure_read_mv p (w_hal w) ci) as Hmv. unfold bad_reading. rewrite <- Hmv.
  destruct (hal_pressure_read _ _ _ _) as [[r h] n]. cbn [fst] in *.
  destruct (default _ _) as [ulMv flBar] eqn:Hd.
  change (w_img (w <| w_hal := h |>)) with (w_img w).
  destruct (ref_uint (w_img w) "Fon_Pressure_Manual") as [man| |] eqn:Hman.
  2,3: exfalso; pose proof (ref_uint_safe (w_img w) "Fon_Pressure_Manual" Hi
      ltac:(apply known_in, (bool_decide_unpack _); vm_compute; exact I)) as Hs; by rewrite Hman in Hs.
  cbn [mbind res_bind]. destruct (Z.eqb_spec man 0) as [->|Hne]; cbn [negb].
  - split_and!; [done..|]. intros _ Hbad. split; [done|].
    destruct r as [[mv bar]|]; [|done]. injection Hd as <- <-. cbn in Hbad |- *.
    apply Z.leb_gt. by apply Z.ltb_lt.
  - read_field. split_and!; [done..|]. congruence.
Qed.

Lemma jump_filter_keeps t bManual bMeasOk flBar t' b' :
  jump_filter t bManual bMeasOk flBar = (t', b') →
  s_stPm t' = s_stPm t ∧ s_ucSensorFails t' = s_ucSensorFails t ∧ (bMeasOk = false → b' = false).
Proof.
  unfold jump_filter. case_match; [|by intros [= <- <-]].
  cbn zeta. case_match; case_match; intros [= <- <-]; done.
Qed.

Lemma debounce_keeps t bMeasOk flBar t' ok v :
  debounce t bMeasOk flBar = (t', ok, v) →
  s_stPm t' = s_stPm t ∧
  s_ucSensorFails t' = (if bMeasOk then 0 else if s_ucSensorFails t <? 255 then s_ucSensorFails t + 1
                        else s_ucSensorFails t) ∧
  ok = bMeasOk || (s_ucSensorFails t' <? PUMP_SENSOR_FAIL_LIMIT).
Proof. unfold debounce. destruct bMeasOk; by intros [= <- <- _]. Qed.

Lemma history_step_ok w now us bManual bMeasOk flBar :
  world_ok w →
  safe (history_step w now us bManual bMeasOk flBar) (λ w', world_ok w' ∧ w_img w' = w_img w ∧
    s_stPm (w_pump w') = s_stPm (w_pump w) ∧ s_ucSensorFails (w_pump w') = s_ucSensorFails (w_pump w)).
Proof.
  intros Hw. pose proof Hw as [Hi [hist Hr] Hp]. unfold history_step. case_match; [|done].
  destruct (history_sample _ _ _ _) as [v st].
  unfold pressure_history_add.
  destruct (pressure_ring_push_refines _ _ (u16 (lroundf (f32_mul v (f32_of_Z 1000)))) st
              (u32 (us / 1000)) Hr) as (r' & -> & Hr' & _).
  cbn [mbind res_bind safe]. split_and!; try done. by split; [|eexists|].
Qed.

(** A polled command is a list of calls of the controller, none an
    acknowledgement; the acknowledgement point is one call. *)
Lemma pump_command_run pm c now : ∃ ops, pump_command pm c now = pm_run pm ops ∧ Forall not_ack ops.
Proof.
  unfold pump_command.
  case_match; [exists [OpOn 0 now]; by split; [|repeat constructor; intros ?]|].
  case_match; [exists [OpOff now]; by split; [|repeat constructor; intros ?]|].
  case_match; [exists [OpMode PM_MODE_AUTO now]; by split; [|repeat constructor; intros ?]|].
  case_match; [exists [OpMode PM_MODE_MANUAL now]; by split; [|repeat constructor; intros ?]|].
  case_match; [exists [OpRestart now]; by split; [|repeat constructor; intros ?]|].
  by exists [].
Qed.

Lemma fault_run pm ops :
  Forall not_ack ops → pm_state pm = PM_STATE_FAULT → pm_state (pm_run pm ops) = PM_STATE_FAULT.
Proof.
  intros Hops. revert pm. induction Hops as [|op ops Hop _ IH]; intros pm Hs; [done|].
  cbn. apply IH. by apply fault_step.
Qed.

Lemma pump_command_inv pm c now : pm_inv pm → pm_inv (pump_command pm c now).
Proof. destruct (pump_command_run pm c now) as (ops & -> & _). apply pm_inv_run. Qed.

Lemma pump_command_fault pm c now :
  pm_state pm = PM_STATE_FAULT → pm_state (pump_command pm c now) = PM_STATE_FAULT.
Proof. destruct (pump_command_run pm c now) as (ops & -> & Ho). by apply fault_run. Qed.

(** The controller between the command and the acknowledgement. *)
Lemma polled_step pm c a b now (P : pm_t → Prop) :
  P pm → (P pm → P (pump_command pm c now)) → (∀ pm, P pm → P (pm_step pm (OpAck b now))) →
  P (polled_pm pm c a b now).
Proof.
  intros H0 Hc Ha. unfold polled_pm.
  destruct (negb (a =? 0)); [refine (Ha _ _)|]; destruct (negb (c =? 0)); auto.
Qed.

Lemma polled_inv pm c a b now : pm_inv pm → pm_inv (polled_pm pm c a b now).
Proof.
  intros Hp. apply polled_step; [done|apply pump_command_inv|]. intros. by apply pm_inv_step.
Qed.

Lemma polled_fault pm c a now :
  pm_state pm = PM_STATE_FAULT → pm_state (polled_pm pm c a false now) = PM_STATE_FAULT.
Proof.
  intros Hs. apply (polled_step pm c a false now (λ pm, pm_state pm = PM_STATE_FAULT));
    [done|apply pump_command_fault|].
  intros pm' Hs'. apply (fault_step pm' (OpAck false now)); [done|by intros ?].
Qed.

Lemma poll_ok w now bSensorOk :
  world_ok w →
  safe (poll_command_dps w now bSensorOk) (λ w', world_ok w' ∧
    dp_ref (w_img w') "Fon_Pressure_Manual" = dp_ref (w_img w) "Fon_Pressure_Manual" ∧
    s_ucSensorFails (w_pump w') = s_ucSensorFails (w_pump w) ∧
    (bSensorOk = false → pm_state (s_stPm (w_pump w)) = PM_STATE_FAULT →
     pm_state (s_stPm (w_pump w')) = PM_STATE_FAULT)).
Proof.
  intros [Hi Hr Hp]. unfold poll_command_dps. read_field. read_field. read_field.
  match goal with |- safe (dp_refs_put _ ((if ?b1 then _ else _) ++ (if ?b2 then _ else _)) ≫= _) _ =>
    eapply safe_bind;
    [apply refs_put_ok; [done| |]; destruct b1, b2; vm_compute; try done;
      apply (bool_decide_unpack _); vm_compute; exact I
    |assert ("Fon_Pressure_Manual" ∉ ((if b1 then [("Fon_Fault_Ack", CInt 0)] else [])
       ++ (if b2 then [("Fon_Pump_Command", CInt 0)] else [])).*1) as Hni
       by (apply (bool_decide_unpack _); destruct b1, b2; vm_compute; exact I)]
  end.
  intros img [Ht _ Hk]. specialize (Hk _ Hni). clear Hni. cbn [safe].
  match goal with |- context [decide ?P] => destruct (decide P) end.
  all: split_and!; [split; [exact Ht|exact Hr|by apply polled_inv]|exact Hk|reflexivity|].
  all: intros ->; apply polled_fault.
Qed.

Lemma update_bad pm v now :
  pm_state (pm_update pm v false now) = PM_STATE_FAULT.
Proof.
  destruct (protections_cases (sensed pm v now) false now) as [[_ [Hs|[? _]]]|(d & f & _ & _ & _ & E)].
  - rewrite (proj1 (sensed_fields pm v now)) in Hs. by destruct (update_in_fault pm v false now Hs).
  - done.
  - by destruct (update_latched _ _ _ _ _ _ E).
Qed.

Lemma locked_update_ok w v bSensorOk now :
  world_ok w →
  safe (locked_update w v bSensorOk now) (λ w', world_ok w' ∧
    dp_ref (w_img w') "Fon_Pressure_Manual" = dp_ref (w_img w) "Fon_Pressure_Manual" ∧
    s_ucSensorFails (w_pump w') = s_ucSensorFails (w_pump w) ∧
    s_stSnap (w_pump w') = take_snapshot (s_stPm (w_pump w')) ∧
    (bSensorOk = false → pm_state (s_stPm (w_pump w')) = PM_STATE_FAULT)).
Proof.
  intros [Hi Hr Hp]. unfold locked_update. eapply safe_bind.
  { apply poll_ok. split; [done|done|by apply pm_inv_update]. }
  intros w' ([Hi' Hr' Hp'] & Hm & Hf & Hflt). split_and!; [by split|done|done|done|].
  intros ->. apply Hflt; [done|]. apply update_bad.
Qed.

(** The outputs, the over-pressure alert and the time series do not touch the
    controller, the image or the counter of bad readings. *)
Definition same_core (w w' : world) : Prop :=
  w_img w' = w_img w ∧ w_ring w' = w_ring w ∧ w_hal w' = w_hal w ∧
  s_stPm (w_pump w') = s_stPm (w_pump w) ∧ s_stSnap (w_pump w') = s_stSnap (w_pump w) ∧
  s_ucSensorFails (w_pump w') = s_ucSensorFails (w_pump w).

Lemma over_pressure_ok w b : img_typed (w_img w) → safe (over_pressure w b) (same_core w).
Proof. intros Hi. unfold over_pressure. read_field. repeat case_match; done. Qed.

Lemma time_series_ok w now : img_typed (w_img w) → safe (time_series w now) (same_core w).
Proof.
  intros Hi. unfold time_series. read_field.
  destruct (if negb (s_bSessionUp (w_pump w)) then _ else _) as [lvl n]. cbn [safe].
  by destruct (_ <=? _).
Qed.

Lemma report_edges_keeps t snap :
  let t' := (report_edges t snap).1 in
  s_stPm t' = s_stPm t ∧ s_stSnap t' = s_stSnap t ∧ s_ucSensorFails t' = s_ucSensorFails t.
Proof. done. Qed.

Lemma actuator_check_ok w ci b :
  let w' := actuator_check w ci b in
  w_img w' = w_img w ∧ w_ring w' = w_ring w ∧
  s_stPm (w_pump w') = s_stPm (w_pump w) ∧ s_stSnap (w_pump w') = s_stSnap (w_pump w) ∧
  s_ucSensorFails (w_pump w') = s_ucSensorFails (w_pump w) ∧
  (ci_set_duty ci = ESP_OK → ci_update_duty ci = ESP_OK → hal_relay_get (w_hal w') = b).
Proof.
  unfold actuator_check, hal_relay_set, hal_relay_get.
  destruct (decide (ci_set_duty ci ≠ ESP_OK)); [|destruct (decide (ci_update_duty ci ≠ ESP_OK))];
    cbn zeta; repeat case_match; split_and!; done || (intros; congruence).
Qed.

(** What a cycle establishes, given whether its reading was good. *)
Record cycle_post (w w' : world) (ci : cycle_in) (bMeasOk : bool) : Prop := {
  cp_ok : world_ok w';
  cp_manual : dp_ref (w_img w') "Fon_Pressure_Manual" = dp_ref (w_img w) "Fon_Pressure_Manual";
  cp_fails : s_ucSensorFails (w_pump w') =
    if bMeasOk then 0 else if s_ucSensorFails (w_pump w) <? 255 then s_ucSensorFails (w_pump w) + 1
                           else s_ucSensorFails (w_pump w);
  cp_snap : s_stSnap (w_pump w') = take_snapshot (s_stPm (w_pump w'));
  cp_relay_dp : ref_uint (w_img w') "Fon_Relay_Output"
                = Ok (if pm_relay_get (s_stPm (w_pump w')) then 1 else 0);
  cp_fault_dp : ref_uint (w_img w') "Fon_Fault_Code" = Ok (fault_val (pm_fault (s_stPm (w_pump w'))));
  cp_state_dp : ref_uint (w_img w') "Fon_Current_State" = Ok (pm_dp_state_get (s_stPm (w_pump w')));
  cp_hal : ci_set_duty ci = ESP_OK → ci_update_duty ci = ESP_OK →
    hal_relay_get (w_hal w') = pm_relay_get (s_stPm (w_pump w'));
  cp_fault : bMeasOk = false → PUMP_SENSOR_FAIL_LIMIT <= s_ucSensorFails (w_pump w') →
    pm_state (s_stPm (w_pump w')) = PM_STATE_FAULT
}.

(** A mirrored byte reads back as the value stored. *)
Definition byte_point (name : string) : bool :=
  match dp_find name with
  | Some d => bool_decide (dp_type_size (dd_type d) = 1) && negb (bool_decide (dd_type d = DP_F32))
  | None => false
  end.

Lemma mirrored_byte t h snap ulMv b img img' name z :
  puts_spec (mirror_list t h snap ulMv b) img img' → byte_point name = true →
  (name, CInt z) ∈ mirror_list t h snap ulMv b → 0 <= z < 256 → ref_uint img' name = Ok z.
Proof.
  intros [_ Hput _] Hb Hin Hz. unfold byte_point in Hb. destruct (dp_find name) as [d|] eqn:Hf; [|done].
  apply andb_true_iff in Hb as [Hs%bool_decide_eq_true Ht%negb_true_iff%bool_decide_eq_false].
  unfold ref_uint. rewrite (Hput _ _ _ Hin Hf). cbn [mbind res_bind]. f_equal.
  assert (const_bytes (dd_type d) (CInt z) = le_put 1 z) as ->
    by (unfold const_bytes; rewrite Hs; by destruct (dd_type d)).
  rewrite le_get_put. by apply Z.mod_small.
Qed.

Lemma byte_points : forallb byte_point ["Fon_Relay_Output"; "Fon_Fault_Code"; "Fon_Current_State"] = true.
Proof. vm_compute. reflexivity. Qed.

Lemma dp_state_range pm : 0 <= pm_dp_state_get pm < 256.
Proof. unfold pm_dp_state_get, dp_mode_value. repeat case_match; done. Qed.

(** The three mirrored points of the safety chain. *)
Lemma mirrored_points t h pm ulMv b img img' :
  puts_spec (mirror_list t h (take_snapshot pm) ulMv b) img img' →
  ref_uint img' "Fon_Relay_Output" = Ok (if pm_relay_get pm then 1 else 0) ∧
  ref_uint img' "Fon_Fault_Code" = Ok (fault_val (pm_fault pm)) ∧
  ref_uint img' "Fon_Current_State" = Ok (pm_dp_state_get pm).
Proof.
  intros Hp. pose proof byte_points as Hb. cbn [forallb] in Hb. rewrite !andb_true_iff in Hb.
  destruct Hb as (H1 & H2 & H3 & _).
  split_and!; (eapply mirrored_byte; [exact Hp|done|..]).
  all: unfold mirror_list; cbn [take_snapshot bRelay eFault ucDpState].
  all: try (rewrite !elem_of_app; right; right; repeat first [by left|right]).
  - by case_match.
  - by destruct (pm_fault pm).
  - apply dp_state_range.
Qed.

Lemma cycle_tail_ok w ci now ulMv flBar bManual bMeasOk :
  world_ok w → safe (cycle_tail w ci now ulMv flBar bManual bMeasOk) (λ w', cycle_post w w' ci bMeasOk).
Proof.
  intros [Hi Hr Hp]. unfold cycle_tail.
  destruct (debounce _ _ _) as [[t ok] v] eqn:Hd. apply debounce_keeps in Hd as (Hpm & Hf & Hok).
  eapply safe_bind; [apply history_step_ok; split; [done|done|by cbn; rewrite Hpm]|].
  intros w1 (Hw1 & Ei1 & Ep1 & Ef1). cbn in Ei1, Ep1, Ef1.
  eapply safe_bind; [by apply locked_update_ok|].
  intros w2 ([Hi2 Hr2 Hp2] & Em2 & Ef2 & Es2 & Hflt).
  destruct (actuator_check_ok w2 ci (bRelay (s_stSnap (w_pump w2)))) as (Ei3 & Er3 & Ep3 & Es3 & Ef3 & Hh3).
  set (w3 := actuator_check _ _ _) in *. clearbody w3.
  set (w4 := if bMeasOk then _ else _).
  assert (same_core w3 w4) as (Ei4 & Er4 & Eh4 & Ep4 & Es4 & Ef4) by (subst w4; destruct bMeasOk; repeat split).
  clearbody w4. rewrite Es2 in *.
  eapply safe_bind; [apply mirror_ok; by rewrite Ei4, Ei3|]. intros img Hput.
  destruct (mirrored_points _ _ _ _ _ _ _ Hput) as (Hd1 & Hd2 & Hd3).
  destruct (report_edges_keeps (w_pump w4) (take_snapshot (s_stPm (w_pump w2)))) as (Ep5 & Es5 & Ef5).
  destruct (report_edges _ _) as [t5 o5]. cbn [fst] in *.
  set (w5 := out _ _).
  eapply safe_bind; [apply over_pressure_ok; apply Hput|]. intros w6 (Ei6 & Er6 & Eh6 & Ep6 & Es6 & Ef6).
  eapply safe_mono; [apply time_series_ok; rewrite Ei6; apply Hput|].
  intros w7 (Ei7 & Er7 & Eh7 & Ep7 & Es7 & Ef7).
  assert (s_stPm (w_pump w7) = s_stPm (w_pump w2)) as Epm by (rewrite Ep7, Ep6; cbn; congruence).
  assert (w_img w7 = img) as Eimg by (by rewrite Ei7, Ei6).
  assert (s_ucSensorFails (w_pump w7) = s_ucSensorFails t) as Efa by (rewrite Ef7, Ef6; cbn; congruence).
  split; rewrite ?Epm, ?Eimg, ?Efa; try assumption.
  - split; rewrite ?Epm, ?Eimg; [apply Hput|rewrite Er7, Er6; cbn; by rewrite Er4, Er3|done].
  - rewrite (ps_keep _ _ _ Hput) by apply manual_not_mirrored. by rewrite Ei4, Ei3, Em2, Ei1.
  - rewrite Es7, Es6. cbn. by rewrite Es5, Es4, Es3.
  - rewrite Eh7, Eh6. cbn. rewrite Eh4. exact Hh3.
  - intros -> Hl. apply Hflt. rewrite Hok. cbn. by apply Z.ltb_ge.
Qed.

Lemma cycle_ok p w ci :
  world_ok w →
  safe (pump_task_cycle p w ci) (λ w', ∃ b, cycle_post w w' ci b ∧
    (manual_off (w_img w) → bad_reading p ci = true → b = false)).
Proof.
  intros Hw. unfold pump_task_cycle. eapply safe_bind; [by apply config_refresh_ok|].
  intros w1 (Hw1 & Ei1 & Ef1). eapply safe_bind; [by apply read_sensor_ok|].
  intros [[[[w2 ulMv] flBar] bManual] bMeasOk] (Hw2 & Ei2 & Ep2 & Hbad).
  destruct (jump_filter _ _ _ _) as [t b] eqn:Hj. apply jump_filter_keeps in Hj as (Epm & Ef & Hb).
  eapply safe_mono; [apply cycle_tail_ok; destruct Hw2; split; [done|done|by cbn; rewrite Epm]|].
  intros w' Hpost. exists b. split.
  - destruct Hpost as [H1 H2 H3 ? ? ? ? ? ?].
    change (w_img (on_pump w2 _)) with (w_img w2) in H2. change (w_pump (on_pump w2 _)) with t in H3.
    rewrite Ei2, Ei1 in H2. rewrite Ef, Ep2, Ef1 in H3. by split.
  - rewrite Ei1 in Hbad. intros Hm Hr. by apply Hb, Hbad.
Qed.

End cycle_facts.

(** ** The task among the others

    Between two cycles other tasks call the remote requests, deliver network
    events and write the datapoint image. *)

Inductive task_op :=
  | TCycle (ci : cycle_in)
  | TOn (ulMaxDurationS us : Z)
  | TOff (us : Z)
  | TRestart (us : Z)
  | TMode (eMode : pm_mode_t) (us : Z)
  | TNet (e : net_event) (payload : list Z)
  | TImage (img : list Z).

Section runs.
Context `{FloatCvt} (p : hal_pins_t).

Definition task_step (w : world) (op : task_op) : res world :=
  match op with
  | TCycle ci => pump_task_cycle p w ci
  | TOn d us => Ok (pump_request_on w d us).2
  | TOff us => Ok (pump_request_off w us).2
  | TRestart us => Ok (pump_request_restart w us).2
  | TMode m us => Ok (pump_mode_set w m us).2
  | TNet e payload => Ok (pump_on_net_event w e payload)
  | TImage img => Ok (w <| w_img := img |>)
  end.

Fixpoint task_run (w : world) (ops : list task_op) : res world :=
  match ops with
  | [] => Ok w
  | op :: ops => w ← task_step w op; task_run w ops
  end.

(** Boot: the task initialised over an image, the pressure history empty. *)
Definition pump_boot (img : list Z) : res world :=
  '(t, h, _) ← pump_task_init img hal_boot;
  Ok (mk_world t img h pressure_history_init []).

Definition is_cycle (op : task_op) : bool := match op with TCycle _ => true | _ => false end.
Definition cycles (ops : list task_op) : nat := length (filter (λ op, is_cycle op = true) ops).

(** Other tasks keep the image well typed. *)
Definition op_ok (op : task_op) : Prop :=
  match op with TImage img => img_typed img | _ => True end.

(** Every cycle reads a broken sensor and the manual override stays off. *)
Definition broken (op : task_op) : Prop :=
  match op with
  | TCycle ci => bad_reading p ci = true
  | TImage img => img_typed img ∧ manual_off img
  | _ => True
  end.

Lemma boot_ok img :
  img_typed img →
  ∃ w, pump_boot img = Ok w ∧ world_ok w ∧ s_ucSensorFails (w_pump w) = 0 ∧ w_img w = img.
Proof.
  intros Hi. unfold pump_boot, pump_task_init.
  pose proof (config_from_dps_safe img hal_boot Hi) as Hc.
  destruct (config_from_dps img hal_boot) as [[cfg h]| |]; try done. cbn [mbind res_bind].
  eexists. split; [reflexivity|]. split; [|done]. split; [done|eexists; apply ring_repr_history_init|apply pm_inv_init].
Qed.

(** A step that is not a cycle. *)
Lemma request_step_ok w op :
  world_ok w → is_cycle op = false → op_ok op →
  safe (task_step w op) (λ w', world_ok w' ∧ s_ucSensorFails (w_pump w') = s_ucSensorFails (w_pump w) ∧
    (w_img w' = w_img w ∨ op = TImage (w_img w'))).
Proof.
  intros [Hi Hr Hp] Hc Ho. destruct op as [ci|d us|us|us|m us|e pl|img]; [done|..]; cbn [task_step safe].
  5: { assert (s_stPm (w_pump (pump_on_net_event w e pl)) = s_stPm (w_pump w) ∧
               w_img (pump_on_net_event w e pl) = w_img w ∧ w_ring (pump_on_net_event w e pl) = w_ring w ∧
               s_ucSensorFails (w_pump (pump_on_net_event w e pl)) = s_ucSensorFails (w_pump w))
         as (E1 & E2 & E3 & E4).
       { unfold pump_on_net_event. destruct e; [|done|by destruct pl].
         cbn zeta. by destruct (decide _). }
       split_and!; [split|done|by left]; by rewrite ?E1, ?E2, ?E3. }
  5: split_and!; [by split|done|by right].
  1: pose proof (pm_inv_step _ (OpOn d (now_ms us)) Hp) as Hs.
  2: pose proof (pm_inv_step _ (OpOff (now_ms us)) Hp) as Hs.
  3: pose proof (pm_inv_step _ (OpRestart (now_ms us)) Hp) as Hs.
  4: pose proof (pm_inv_step _ (OpMode m (now_ms us)) Hp) as Hs.
  all: unfold pump_request_on, pump_request_off, pump_request_restart, pump_mode_set, locked_request.
  all: cbn [pm_step] in Hs; destruct (_ (s_stPm (w_pump w)) _) as [ok pm]; cbn [snd] in *.
  all: split_and!; [by split|reflexivity|by left].
Qed.

Lemma task_step_ok w op : world_ok w → op_ok op → safe (task_step w op) world_ok.
Proof.
  intros Hw Ho. destruct (is_cycle op) eqn:Hc.
  - destruct op; try done. cbn [task_step]. eapply safe_mono; [by apply cycle_ok|].
    intros w' (b & Hp & _). apply (cp_ok _ _ _ _ Hp).
  - eapply safe_mono; [by apply request_step_ok|]. by intros w' [? _].
Qed.

Lemma task_run_ok ops : ∀ w, world_ok w → Forall op_ok ops → safe (task_run w ops) world_ok.
Proof.
  induction ops as [|op ops IH]; intros w Hw Ho; cbn [task_run]; [done|].
  apply Forall_cons in Ho as [Ho Hos]. eapply safe_bind; [by apply task_step_ok|]. auto.
Qed.

Lemma manual_off_ext a b :
  dp_ref a "Fon_Pressure_Manual" = dp_ref b "Fon_Pressure_Manual" → manual_off b → manual_off a.
Proof. unfold manual_off, ref_uint. by intros ->. Qed.

Lemma run_broken ops : ∀ w,
  world_ok w → manual_off (w_img w) → Forall broken ops →
  safe (task_run w ops) (λ w', world_ok w' ∧ manual_off (w_img w') ∧
    Z.min 255 (s_ucSensorFails (w_pump w) + Z.of_nat (cycles ops)) <= s_ucSensorFails (w_pump w')).
Proof.
  induction ops as [|op ops IH]; intros w Hw Hm Hb; cbn [task_run].
  { cbn. split_and!; [done|done|lia]. }
  apply Forall_cons in Hb as [Hb Hbs].
  assert (safe (task_step w op) (λ w', world_ok w' ∧ manual_off (w_img w') ∧
    Z.min 255 (s_ucSensorFails (w_pump w) + (if is_cycle op then 1 else 0))
    <= s_ucSensorFails (w_pump w'))) as Hstep.
  { destruct (is_cycle op) eqn:Hc.
    - destruct op as [ci| | | | | |]; try done. eapply safe_mono; [by apply cycle_ok|].
      intros w' (b & Hp & Hbad). rewrite (Hbad Hm Hb) in Hp.
      split_and!; [apply (cp_ok _ _ _ _ Hp)|by eapply manual_off_ext; [apply (cp_manual _ _ _ _ Hp)|]|].
      rewrite (cp_fails _ _ _ _ Hp). case_match; lia.
    - assert (op_ok op) as Ho by (destruct op; try exact I; apply Hb).
      eapply safe_mono; [by apply request_step_ok|]. intros w' (Hw' & Hf & Hi).
      split_and!; [done| |lia]. destruct Hi as [-> | ->]; [done|apply Hb]. }
  eapply safe_bind; [exact Hstep|]. intros w1 (Hw1 & Hm1 & Hf1).
  eapply safe_mono; [by apply IH|]. intros w2 (Hw2 & Hm2 & Hf2). split_and!; [done|done|].
  unfold cycles in *. rewrite filter_cons. case_decide as Hc; [rewrite Hc in Hf1|].
  - cbn [length]. lia.
  - apply not_true_is_false in Hc. rewrite Hc in Hf1. lia.
Qed.

(** C20: a broken pressure sensor stops the pump within three cycles, whatever
    else happens: from any well-formed state with the manual override off, after
    a run in which every cycle gets a failed conversion or less than 300 mV -
    with any remote requests, network events and datapoint writes (command and
    acknowledgement points included) in between - the third and every later
    cycle ends normally with the controller in FAULT, the relay request off,
    the fault mirrored to the datapoints, and the relay output off whenever the
    LEDC unit accepts the write. *)
Theorem broken_sensor_stops_pump w ops ci :
  world_ok w → 0 <= s_ucSensorFails (w_pump w) → manual_off (w_img w) →
  Forall broken ops → (2 <= cycles ops)%nat → bad_reading p ci = true →
  ∃ w1 w2, task_run w ops = Ok w1 ∧ pump_task_cycle p w1 ci = Ok w2 ∧
    pm_state (s_stPm (w_pump w2)) = PM_STATE_FAULT ∧ pm_relay_get (s_stPm (w_pump w2)) = false ∧
    ref_uint (w_img w2) "Fon_Relay_Output" = Ok 0 ∧
    ref_uint (w_img w2) "Fon_Current_State" = Ok PM_DP_FAULT ∧
    (ci_set_duty ci = ESP_OK → ci_update_duty ci = ESP_OK → hal_relay_get (w_hal w2) = false).
Proof.
  intros Hw Hf0 Hm Hb Hn Hbad.
  pose proof (run_broken ops w Hw Hm Hb) as Hrun. apply safe_ok in Hrun as (w1 & E1 & Hw1 & Hm1 & Hf1).
  pose proof (cycle_ok p w1 ci Hw1) as Hc. apply safe_ok in Hc as (w2 & E2 & b & Hp & Hb2).
  rewrite (Hb2 Hm1 Hbad) in Hp. exists w1, w2. clear Hb2.
  assert (pm_state (s_stPm (w_pump w2)) = PM_STATE_FAULT) as Hs.
  { apply (cp_fault _ _ _ _ Hp eq_refl). rewrite (cp_fails _ _ _ _ Hp).
    unfold PUMP_SENSOR_FAIL_LIMIT. case_match; lia. }
  assert (pm_relay_get (s_stPm (w_pump w2)) = false) as Hr.
  { unfold pm_relay_get. rewrite (pi_relay _ (wo_pm _ (cp_ok _ _ _ _ Hp))), Hs. done. }
  split_and!; try assumption.
  - by rewrite (cp_relay_dp _ _ _ _ Hp), Hr.
  - rewrite (cp_state_dp _ _ _ _ Hp). unfold pm_dp_state_get. by rewrite Hs.
  - rewrite <- Hr. apply (cp_hal _ _ _ _ Hp).
Qed.

(** the outputs of the task follow the controller: from boot, over any
    interleaving of cycles with requests, network events and well-typed
    datapoint writes, no step leaves an array, and each cycle ends with the
    datapoint image well typed and holding the relay, the fault and the state
    of the controller, the relay output in the position the controller wants
    whenever the LEDC unit accepts the write, and the lock-free probes showing
    the controller after the cycle. *)
Theorem pump_outputs_follow_controller img ops ci :
  img_typed img → Forall op_ok ops →
  ∃ w0 w w', pump_boot img = Ok w0 ∧ task_run w0 ops = Ok w ∧ pump_task_cycle p w ci = Ok w' ∧
    let pm := s_stPm (w_pump w') in
    img_typed (w_img w') ∧
    ref_uint (w_img w') "Fon_Relay_Output" = Ok (if pm_relay_get pm then 1 else 0) ∧
    ref_uint (w_img w') "Fon_Fault_Code" = Ok (fault_val (pm_fault pm)) ∧
    ref_uint (w_img w') "Fon_Current_State" = Ok (pm_dp_state_get pm) ∧
    (ci_set_duty ci = ESP_OK → ci_update_duty ci = ESP_OK → hal_relay_get (w_hal w') = pm_relay_get pm) ∧
    pump_state_get w' = pm_state pm ∧ pump_idle_get w' = pm_idle_get pm.
Proof.
  intros Hi Ho. destruct (boot_ok img Hi) as (w0 & E0 & Hw0 & _).
  pose proof (task_run_ok ops w0 Hw0 Ho) as Hr. apply safe_ok in Hr as (w & E & Hw).
  pose proof (cycle_ok p w ci Hw) as Hc. apply safe_ok in Hc as (w' & E' & b & Hp & _).
  exists w0, w, w'. split_and!; try assumption; cbn zeta.
  split_and!; [apply (cp_ok _ _ _ _ Hp)|apply (cp_relay_dp _ _ _ _ Hp)|apply (cp_fault_dp _ _ _ _ Hp)
    |apply (cp_state_dp _ _ _ _ Hp)|apply (cp_hal _ _ _ _ Hp)|..];
    unfold pump_state_get, pump_idle_get; by rewrite (cp_snap _ _ _ _ Hp).
Qed.

End runs.

(** ** Executions *)

(** A bus on which every transfer fails, and one whose conversions give [raw]. *)
Definition dead_bus (_ : nat) : i2c_answer := mk_answer ESP_FAIL 0 0.
Definition live_bus (raw : Z) (n : nat) : i2c_answer :=
  if decide (n mod 3 = 2)%nat then mk_answer ESP_OK (raw / 256) (raw mod 256)
  else mk_answer ESP_OK 128 0.

Definition cycle_at (ms : Z) (bus : nat → i2c_answer) : cycle_in :=
  mk_cycle_in (1000 * ms) (1000 * ms) (1000 * ms) bus ESP_OK ESP_OK.

Definition run_boot (ops : list task_op) : res world :=
  w ← pump_boot default_image; task_run (H := demo_cvt) s_stPinsHw1 w ops.

Definition summary (r : res world) : option (pm_state_t * bool * option Z) :=
  match r with
  | Ok w => Some (pm_state (s_stPm (w_pump w)), hal_relay_get (w_hal w),
                  f32_trunc (f32_mul (f32_of_Z 1000) (m_pressure_filtered_bar (pm_m (s_stPm (w_pump w))))))
  | _ => None
  end.

(** The bar value 17.235 of the raw value 20000 (2.5 V) on the 34.47-bar sensor; the pump does not start
    above its switch-off pressure. *)
Lemma live_cycle :
  summary (run_boot [TCycle (cycle_at 200 (live_bus 20000)); TOn 0 300000])
  = Some (PM_STATE_IDLE, false, Some 17235).
Proof. vm_compute. reflexivity. Qed.

Lemma default_manual_off : manual_off default_image.
Proof. vm_compute. reflexivity. Qed.

(** A start request between the two first failures, then a third failure. *)
Definition failing_ops : list task_op :=
  [TCycle (cycle_at 200 dead_bus); TOn 0 300000; TCycle (cycle_at 400 dead_bus)].

Lemma broken_sensor_stops_pump_witness :
  ∃ w0 w1 w2, pump_boot default_image = Ok w0 ∧
    task_run (H := demo_cvt) s_stPinsHw1 w0 failing_ops = Ok w1 ∧
    pump_task_cycle (H := demo_cvt) s_stPinsHw1 w1 (cycle_at 600 dead_bus) = Ok w2 ∧
    pm_state (s_stPm (w_pump w2)) = PM_STATE_FAULT.
Proof.
  destruct (boot_ok default_image (proj2 defaults_typed)) as (w0 & E0 & Hw0 & Hf0 & Hi).
  destruct (broken_sensor_stops_pump (H := demo_cvt) s_stPinsHw1 w0 failing_ops (cycle_at 600 dead_bus))
    as (w1 & w2 & E1 & E2 & Hs & _).
  - exact Hw0.
  - rewrite Hf0. lia.
  - rewrite Hi. exact default_manual_off.
  - repeat constructor.
  - apply Nat.leb_le. vm_compute. reflexivity.
  - by vm_compute.
  - exists w0, w1, w2. split_and!; assumption.
Defined.

Lemma pump_outputs_follow_controller_witness :
  ∃ w0 w w', pump_boot default_image = Ok w0 ∧
    task_run (H := demo_cvt) s_stPinsHw1 w0 failing_ops = Ok w ∧
    pump_task_cycle (H := demo_cvt) s_stPinsHw1 w (cycle_at 600 (live_bus 20000)) = Ok w' ∧
    img_typed (w_img w').
Proof.
  destruct (pump_outputs_follow_controller (H := demo_cvt) s_stPinsHw1 default_image failing_ops
    (cycle_at 600 (live_bus 20000))) as (w0 & w & w' & E0 & E & E' & Ht & _).
  - apply defaults_typed.
  - repeat constructor.
  - exists w0, w, w'. split_and!; assumption.
Defined.

(** before the first good reading the debounce holds 0 bar as if it were
    a reading: with a sensor that has never answered, the first cycle after boot
    leaves INIT for IDLE, a start request is then accepted, and the next cycle
    switches the relay output on; only the third cycle finds the fault. *)
Theorem pump_starts_without_any_reading :
  summary (run_boot [TCycle (cycle_at 200 dead_bus)]) = Some (PM_STATE_IDLE, false, Some 0) ∧
  summary (run_boot failing_ops) = Some (PM_STATE_RUNNING, true, Some 0) ∧
  summary (run_boot (failing_ops ++ [TCycle (cycle_at 600 dead_bus)]))
  = Some (PM_STATE_FAULT, false, Some 0).
Proof. split_and!; vm_compute; reflexivity. Qed.

(** the re-synchronisation of the jump filter comes too late.  A sustained
    step of the real pressure by more than 5 bar is rejected sample by sample;
    the third rejection is the third consecutive bad reading and latches the
    sensor fault, so when the fifth consistent sample is adopted as the new
    level the plant is already in FAULT and waits for an acknowledgement. *)
Theorem level_step_faults_before_resync :
  let ops := [TCycle (cycle_at 200 (live_bus 4928)); TCycle (cycle_at 400 (live_bus 11427));
              TCycle (cycle_at 600 (live_bus 11427))] in
  summary (run_boot ops) = Some (PM_STATE_IDLE, false, Some 999) ∧
  summary (run_boot (ops ++ [TCycle (cycle_at 800 (live_bus 11427))]))
  = Some (PM_STATE_FAULT, false, Some 999) ∧
  match run_boot (ops ++ [TCycle (cycle_at 800 (live_bus 11427)); TCycle (cycle_at 1000 (live_bus 11427));
                          TCycle (cycle_at 1200 (live_bus 11427))]) with
  | Ok w => s_ucSensorFails (w_pump w) = 0 ∧ pm_state (s_stPm (w_pump w)) = PM_STATE_FAULT ∧
            pm_fault (s_stPm (w_pump w)) = PM_FAULT_SENSOR
  | _ => False
  end.
Proof. vm_compute. repeat split. Qed.
