(* ===== verification/NetworkConfig.v ===== *)
(** * The network configuration: src/network/network_config.{h,c}

    Defaults from the embedded network.json, the known-good backup, the
    Network_Save actions and the trial state machine that commits new
    credentials only when a server session confirms them.  The configuration
    lives in the datapoint image and its NVS namespace (Datapoints); the trial
    byte lives in a namespace of its own.  [session_ready] and [device_boot] are
    the callers in src/main/main.c. *)

From Stdlib Require Import SpecFloat.
From S2P Require Import Prelude Bytes Float32 Float64 DpCatalog Datapoints.
Local Open Scope string_scope.
Local Open Scope list_scope.
Local Open Scope Z_scope.

Definition NETWORK_SAVE_PERSIST : Z := 1.
Definition NETWORK_SAVE_PERSIST_REBOOT : Z := 2.
Definition NETWORK_SAVE_RESTORE_BACKUP : Z := 3.
Definition NETWORK_SAVE_TRIAL_REBOOT : Z := 4.
Definition NETWORK_TRIAL_TIMEOUT_S : Z := 120.

(** What the module tells the rest of the system. *)
Inductive net_out :=
  | EVT_NETWORK_CONFIG_SAVED (ucAction : Z)
  | EVT_NETWORK_CONFIG_RESTORED
  | RebootIn (ulDelayMs : Z).

(** The answers of the flash calls of one operation: the open and the commit of
    a datapoint save, and whether the calls on the trial namespace succeed. *)
Record flash_io := mk_io { io_open : esp_err; io_commit : esp_err; io_trial : bool }.

(** ** Fields of the image *)

(** A string point as a C string; an assignment by [DP_STR_SET]. *)
Definition dp_str (img : list Z) (name : string) : res (list Z) :=
  b ← dp_ref img name; c_string b.
Definition dp_str_set (img : list Z) (name : string) (s : list Z) : res (list Z) :=
  dp_ref_set img name (copy_string s).

(** The points of a configuration in the order of the code, without their prefix;
    [true] marks a string. *)
Definition config_points : list (bool * string) :=
  [(false, "DHCP"); (false, "Server_Port"); (true, "IP_Address"); (true, "Subnetmask");
   (true, "Gateway"); (true, "Server"); (true, "SSID"); (true, "Password")].

(** The value of a point: a C string, or the bytes of an integer. *)
Definition field (prefix : string) (img : list Z) (p : bool * string) : res (list Z) :=
  if p.1 then dp_str img (prefix +:+ p.2) else dp_ref img (prefix +:+ p.2).

Definition assign_field (prefix : string) (img : list Z) (p : bool * string) (v : list Z) : res (list Z) :=
  if p.1 then dp_str_set img (prefix +:+ p.2) v else dp_ref_set img (prefix +:+ p.2) v.

(** The assignments of [network_config_backup] and of [restore_from_backup]. *)
Fixpoint copy_fields (dst src : string) (points : list (bool * string)) (img : list Z) : res (list Z) :=
  match points with
  | [] => Ok img
  | p :: points =>
      v ← field src img p; img ← assign_field dst img p v; copy_fields dst src points img
  end.

Definition restore_from_backup (img : list Z) : res (list Z) :=
  copy_fields "Network_" "Backup_" config_points img.

(** The comparison before a backup: the conjunction stops at a difference. *)
Fixpoint fields_equal (points : list (bool * string)) (img : list Z) : res bool :=
  match points with
  | [] => Ok true
  | p :: points =>
      a ← field "Backup_" img p; b ← field "Network_" img p;
      if decide (a = b) then fields_equal points img else Ok false
  end.

Definition backup_unchanged (img : list Z) : res bool := fields_equal config_points img.

Definition str_empty (img : list Z) (name : string) : res bool :=
  s ← dp_str img name; Ok (bool_decide (s = [])).

Section network.
Context {nvs : Type} `{!NvsApi nvs}.

(** ** State *)

Record net_state := mk_net {
  ns_dp : dp_state;
  ns_nvs : nvs;
  ns_trial : Z;
  s_bTrialActive : bool;
  s_ulTrialDeadlineS : Z;
  ns_out : list net_out
}.
#[local] Instance eta_net_state : Eta net_state := λ r, mk_net (ns_dp r) (ns_nvs r) (ns_trial r)
      (s_bTrialActive r) (s_ulTrialDeadlineS r) (ns_out r).
#[local] Instance set_ns_dp : Setter ns_dp. Proof. mk_setter. Defined.
#[local] Instance set_ns_nvs : Setter ns_nvs. Proof. mk_setter. Defined.
#[local] Instance set_ns_trial : Setter ns_trial. Proof. mk_setter. Defined.
#[local] Instance set_s_bTrialActive : Setter s_bTrialActive. Proof. mk_setter. Defined.
#[local] Instance set_s_ulTrialDeadlineS : Setter s_ulTrialDeadlineS. Proof. mk_setter. Defined.
#[local] Instance set_ns_out : Setter ns_out. Proof. mk_setter. Defined.

Definition ns_img (s : net_state) : list Z := g_dp_store (ns_dp s).
Definition set_img (s : net_state) (img : list Z) : net_state :=
  s <| ns_dp := (ns_dp s) <| g_dp_store := img |> |>.
Definition emit (s : net_state) (o : list net_out) : net_state := s <| ns_out := ns_out s ++ o |>.

Definition set_trial_state (s : net_state) (v : Z) : res net_state :=
  img ← dp_ref_set (ns_img s) "Network_Trial_State" [v]; Ok (set_img s img).

Definition trial_nvs_get (io : flash_io) (s : net_state) : Z := if io_trial io then ns_trial s else 0.
Definition trial_nvs_set (io : flash_io) (s : net_state) (v : Z) : net_state :=
  if io_trial io then s <| ns_trial := v |> else s.

(** A save whose result the caller ignores. *)
Definition config_save (io : flash_io) (s : net_state) : res net_state :=
  r ← dp_config_save (ns_dp s) (ns_nvs s) (io_open io) (io_commit io); Ok (s <| ns_nvs := r.2 |>).

(** ** Defaults *)

(** network.json after parsing: [None] when it does not parse. *)
Definition json_file : Type := option (string → option json).

Fixpoint json_strings (root : string → option json) (keys : list string) (img : list Z) : res (list Z) :=
  match keys with
  | [] => Ok img
  | k :: keys =>
      img ← match root k with Some (JString v) => dp_str_set img k v | _ => Ok img end;
      json_strings root keys img
  end.

Definition json_string_keys : list string :=
  ["Network_SSID"; "Network_Password"; "Network_Server"; "Network_IP_Address";
   "Network_Subnetmask"; "Network_Gateway"].

Definition network_config_defaults_apply (io : flash_io) (file : json_file) (s : net_state)
    : res net_state :=
  empty ← str_empty (ns_img s) "Network_SSID";
  if negb empty then Ok s else
  match file with
  | None => Ok s
  | Some root =>
      img ← json_strings root json_string_keys (ns_img s);
      img ← match root "Network_DHCP" with
            | Some (JBool b) => dp_ref_set img "Network_DHCP" [if b then 1 else 0]
            | _ => Ok img
            end;
      img ← match root "Network_Server_Port" with
            | Some (JNumber v) => b ← cast_int DP_U16 v; dp_ref_set img "Network_Server_Port" b
            | _ => Ok img
            end;
      config_save io (set_img s img)
  end.

(** ** Backup and actions *)

Definition network_config_backup (io : flash_io) (s : net_state) : res net_state :=
  same ← backup_unchanged (ns_img s);
  if same : bool then Ok s
  else img ← copy_fields "Backup_" "Network_" config_points (ns_img s); config_save io (set_img s img).

(** [bTask]: the reboot task could be created. *)
Definition system_reboot_deferred (s : net_state) (ulDelayMs : Z) (bTask : bool) : bool * net_state :=
  (bTask, if bTask then emit s [RebootIn ulDelayMs] else s).

Definition network_config_save_handle (io : flash_io) (bTask : bool) (s : net_state) (ucAction : Z)
    : res (bool * net_state) :=
  if ucAction =? NETWORK_SAVE_PERSIST then
    s ← config_save io s; Ok (true, emit s [EVT_NETWORK_CONFIG_SAVED ucAction])
  else if ucAction =? NETWORK_SAVE_PERSIST_REBOOT then
    s ← config_save io s;
    Ok (system_reboot_deferred (emit s [EVT_NETWORK_CONFIG_SAVED ucAction]) 800 bTask)
  else if ucAction =? NETWORK_SAVE_RESTORE_BACKUP then
    img ← restore_from_backup (ns_img s);
    s ← config_save io (set_img s img); Ok (true, emit s [EVT_NETWORK_CONFIG_RESTORED])
  else if ucAction =? NETWORK_SAVE_TRIAL_REBOOT then
    none ← str_empty (ns_img s) "Backup_SSID";
    if none : bool then Ok (false, s) else
    s ← config_save io s;
    Ok (system_reboot_deferred (emit (trial_nvs_set io s 1) [EVT_NETWORK_CONFIG_SAVED ucAction]) 800 bTask)
  else Ok (false, s).

(** ** The trial *)

Definition trial_rollback (io : flash_io) (s : net_state) : res net_state :=
  img ← restore_from_backup (ns_img s);
  s ← config_save io (set_img s img);
  Ok (emit (trial_nvs_set io s 3) [EVT_NETWORK_CONFIG_RESTORED]).

Definition network_config_trial_boot_check (io : flash_io) (up_s : Z) (s : net_state) : res net_state :=
  let t := trial_nvs_get io s in
  if t =? 1 then
    let s := trial_nvs_set io s 2 in
    set_trial_state (s <| s_bTrialActive := true |>
                       <| s_ulTrialDeadlineS := u32 (up_s + NETWORK_TRIAL_TIMEOUT_S) |>) 1
  else if t =? 2 then
    s ← trial_rollback io s; s ← set_trial_state s 3; Ok (trial_nvs_set io s 0)
  else if t =? 3 then
    s ← set_trial_state s 3; Ok (trial_nvs_set io s 0)
  else Ok s.

Definition network_config_trial_tick (io : flash_io) (bTask : bool) (up_s : Z) (s : net_state) : res net_state :=
  if negb (s_bTrialActive s) || (up_s <? s_ulTrialDeadlineS s) then Ok s
  else s ← trial_rollback io (s <| s_bTrialActive := false |>);
       Ok (system_reboot_deferred s 1000 bTask).2.

Definition network_config_trial_confirm (io : flash_io) (s : net_state) : res net_state :=
  if negb (s_bTrialActive s) then Ok s
  else set_trial_state (trial_nvs_set io (s <| s_bTrialActive := false |>) 0) 2.

(** ** The callers *)

(** The subscriber of EVT_SESSION_READY in main.c. *)
Definition session_ready (io : flash_io) (s : net_state) : res net_state :=
  s ← network_config_trial_confirm io s; network_config_backup io s.

(** The part of the boot that concerns the configuration: the datapoints (no
    legacy blob), the defaults, the trial check; [n] and [trial] are the flash. *)
Definition boot_state (io : flash_io) (identity : option dp_identity_t) (file : json_file)
    (n : nvs) (trial : Z) : res net_state :=
  r ← dp_init n identity (false, false) true (ESP_OK, ESP_OK);
  network_config_defaults_apply io file (mk_net r.1 r.2 trial false 0 []).

Definition device_boot (io : flash_io) (identity : option dp_identity_t) (file : json_file)
    (up_s : Z) (n : nvs) (trial : Z) : res net_state :=
  s ← boot_state io identity file n trial; network_config_trial_boot_check io up_s s.

End network.
Arguments net_state : clear implicits.
#[export] Existing Instances eta_net_state set_ns_dp set_ns_nvs set_ns_trial set_s_bTrialActive
  set_s_ulTrialDeadlineS set_ns_out.
