(* ===== verification/NetworkConfigProps.v ===== *)
(** * Properties of the network configuration

    Over the definitions of NetworkConfig: copying a configuration, what a boot
    loads after a save that was cut off anywhere, the rollback of an unconfirmed
    trial across power loss, and the backup taken of values that no session has
    used. *)

From Stdlib Require Import SpecFloat.
From stdpp Require Import pretty gmap.
From S2P Require Import Prelude Bytes Float32 Float64 DpCatalog.
From S2P Require Import Datapoints DpProps NetworkConfig.
Local Open Scope string_scope.
Local Open Scope list_scope.
Local Open Scope Z_scope.

(** ** The catalogue rows of a configuration *)

(** Both points of a pair exist, with the type the copy expects. *)
Definition pair_ok (prefix : string) (p : bool * string) : bool :=
  match dp_find (prefix +:+ p.2), dp_find ("Backup_" +:+ p.2) with
  | Some d, Some d' =>
      is_persisted d && bool_decide (dd_type d = dd_type d') &&
      (if p.1 then bool_decide (dd_type d = DP_STR)
       else bool_decide (dd_type d = DP_BOOL) || bool_decide (dd_type d = DP_U16))
  | _, _ => false
  end.

Lemma pairs_ok :
  forallb (pair_ok "Network_") config_points && forallb (pair_ok "Backup_") config_points = true.
Proof. vm_compute. reflexivity. Qed.

Definition config_prefix (prefix : string) : Prop := prefix = "Network_" ∨ prefix = "Backup_".

Record point_desc (prefix : string) (p : bool * string) (d : dp_desc_t) : Prop := {
  pd_find : dp_find (prefix +:+ p.2) = Some d;
  pd_persist : is_persisted d = true;
  pd_str : p.1 = true → dd_type d = DP_STR;
  pd_int : p.1 = false → dd_type d = DP_BOOL ∨ dd_type d = DP_U16
}.

Lemma points_found p :
  p ∈ config_points → ∃ dn db, point_desc "Network_" p dn ∧ point_desc "Backup_" p db ∧ dd_type dn = dd_type db.
Proof.
  intros Hp%list_elem_of_In. pose proof pairs_ok as H.
  apply andb_true_iff in H as [Hn Hb]. rewrite forallb_forall in Hn, Hb.
  specialize (Hn p Hp). specialize (Hb p Hp). unfold pair_ok in Hn, Hb.
  destruct (dp_find ("Network_" +:+ p.2)) as [dn|] eqn:En; [|done].
  destruct (dp_find ("Backup_" +:+ p.2)) as [db|] eqn:Eb; [|done].
  exists dn, db. rewrite !andb_true_iff, !bool_decide_eq_true in Hn, Hb.
  destruct Hn as [[Hpn Ht] Hsn], Hb as [[Hpb _] Hsb].
  assert (∀ prefix d, dp_find (prefix +:+ p.2) = Some d → is_persisted d = true →
    (if p.1 then bool_decide (dd_type d = DP_STR)
     else bool_decide (dd_type d = DP_BOOL) || bool_decide (dd_type d = DP_U16)) = true →
    point_desc prefix p d) as Hd.
  { intros prefix d Hf Hpd Hs. split; try done; intros E; rewrite E in Hs.
    - by apply bool_decide_eq_true in Hs.
    - apply orb_true_iff in Hs as [Hs%bool_decide_eq_true|Hs%bool_decide_eq_true]; auto. }
  split_and!; [by apply Hd|by apply Hd|done].
Qed.

Lemma point_found prefix p :
  config_prefix prefix → p ∈ config_points → ∃ d, point_desc prefix p d.
Proof. intros [->| ->] Hp; destruct (points_found p Hp) as (dn & db & Hn & Hb & _); eauto. Qed.

Lemma prefix_inj prefix p q : config_prefix prefix → prefix +:+ p = prefix +:+ q → p = q.
Proof. intros [->| ->] H; by repeat (injection H as H). Qed.

Lemma config_nodup : NoDup config_points.*2.
Proof. apply (bool_decide_unpack _). vm_compute. exact I. Qed.

(** ** Values of points *)

Lemma c_string_spec l : 0 ∈ l →
  ∃ s, c_string l = Ok s ∧ Forall (λ c, c ≠ 0) s ∧ (length s < length l)%nat ∧ ∃ post, l = s ++ 0 :: post.
Proof.
  induction l as [|c l IH]; intros H; [by apply not_elem_of_nil in H|]. cbn [c_string].
  destruct (Z.eqb_spec c 0) as [->|Hc].
  - exists []. split_and!; [done|constructor|cbn; lia|by exists l].
  - apply elem_of_cons in H as [?|H]; [congruence|]. destruct (IH H) as (s & -> & Hs & Hl & post & ->).
    exists (c :: s). split_and!; [done|by constructor|cbn; lia|by exists post].
Qed.

(** A string put by [DP_STR_SET] reads back, if it fits. *)
Lemma copy_string_reads s :
  Forall (λ c, c ≠ 0) s → (length s <= 63)%nat → c_string (copy_string s) = Ok s.
Proof.
  intros Hs Hl. unfold copy_string, DP_STR_MAX. rewrite take_ge by lia.
  destruct (Z.to_nat 64 - length s)%nat as [|k] eqn:E; [lia|]. cbn [replicate].
  by apply c_string_app.
Qed.

Lemma copy_string_bytes s : Forall is_u8 s → Forall is_u8 (copy_string s).
Proof.
  intros Hs. unfold copy_string. apply Forall_app_2; [by apply Forall_take|by apply Forall_replicate].
Qed.

Lemma copy_string_len s : zlen (copy_string s) = 64.
Proof.
  unfold copy_string, zlen, DP_STR_MAX. rewrite length_app, length_replicate, length_take. lia.
Qed.

Lemma copy_string_nul s : 0 ∈ copy_string s.
Proof.
  unfold copy_string. apply elem_of_app. right. apply elem_of_replicate. split; [done|].
  rewrite length_take. unfold DP_STR_MAX. lia.
Qed.

(** The value of a configuration point, its type and its bytes. *)
Lemma field_value img prefix p d :
  img_typed img → config_prefix prefix → p ∈ config_points → point_desc prefix p d →
  dp_ref img (prefix +:+ p.2) = Ok (slot_bytes img d) ∧
  ∃ v, field prefix img p = Ok v ∧ Forall is_u8 v ∧
    (p.1 = true → c_string (slot_bytes img d) = Ok v ∧ Forall (λ c, c ≠ 0) v ∧ (length v <= 63)%nat) ∧
    (p.1 = false → v = slot_bytes img d ∧ zlen v = dp_size d).
Proof.
  intros [Hi Ht] Hpre Hp [Hf _ Hs Hn]. pose proof (proj1 (dp_find_some _ _) Hf) as [Hd _].
  assert (dp_ref img (prefix +:+ p.2) = Ok (slot_bytes img d)) as Hr by by apply dp_ref_slot.
  split; [done|]. unfold field, dp_str. rewrite Hr. cbn [mbind res_bind].
  pose proof (slot_bytes_len img d Hi Hd) as Hl. pose proof (slot_bytes_u8 img d Hi) as Hb.
  destruct p as [str name]. cbn [fst snd] in *. destruct str.
  - specialize (Hs eq_refl). specialize (Ht d Hd). unfold typed_slot in Ht. rewrite Hs in Ht.
    apply bool_decide_eq_true in Ht. destruct (c_string_spec _ Ht) as (s & Es & Hz & Hls & post & E).
    exists s. split_and!; [done| | |done].
    + rewrite E in Hb. by apply Forall_app in Hb as [? _].
    + intros _. split_and!; [done|done|]. unfold zlen, dp_size in Hl. rewrite Hs in Hl.
      unfold dp_type_size, DP_STR_MAX in Hl. lia.
  - exists (slot_bytes img d). split_and!; done.
Qed.

(** ** Copying a configuration *)

(** The integer values of [src] have the type of the points of [dst]. *)
Definition fits (dst src : string) (img : list Z) : Prop :=
  ∀ p d v, p ∈ config_points → p.1 = false → dp_find (dst +:+ p.2) = Some d →
    field src img p = Ok v → typed_slot d v = true.

Lemma copy_field img dst src p v :
  config_prefix dst → config_prefix src → dst ≠ src → p ∈ config_points →
  img_typed img → fits dst src img → field src img p = Ok v →
  ∃ img', assign_field dst img p v = Ok img' ∧ img_typed img' ∧ field dst img' p = Ok v ∧
    ∀ n, n ≠ dst +:+ p.2 → dp_ref img' n = dp_ref img n.
Proof.
  intros Hdst Hsrc Hne Hp Ht Hfit Hv.
  destruct (point_found src p Hsrc Hp) as [ds Hds].
  destruct (field_value img src p ds Ht Hsrc Hp Hds) as (_ & v' & E & Hb & Hstr & Hint).
  replace v' with v in * by congruence. clear v' E.
  destruct (points_found p Hp) as (dn & db & Hn & Hk & Ety).
  assert (∃ d, point_desc dst p d ∧ dd_type d = dd_type ds) as (d & [Hf _ Hs Hi] & Ed).
  { destruct Hdst as [->| ->], Hsrc as [->| ->]; try done.
    - exists dn. split; [done|]. rewrite Ety. destruct Hds, Hk; congruence.
    - exists db. split; [done|]. rewrite <- Ety. destruct Hds, Hn; congruence. }
  unfold assign_field, field, dp_str_set, dp_str. destruct p as [str name]. cbn [fst snd] in *. destruct str.
  - specialize (Hs eq_refl). destruct (Hstr eq_refl) as (_ & Hz & Hl).
    destruct (ref_set_spec img (dst +:+ name) d (copy_string v) Ht Hf) as (img' & -> & Ht' & Hr & Hkeep).
    + rewrite copy_string_len. unfold dp_size. by rewrite Hs.
    + by apply copy_string_bytes.
    + apply str_typed; [done|apply copy_string_nul].
    + exists img'. split_and!; try done. rewrite Hr. cbn. by apply copy_string_reads.
  - destruct (Hint eq_refl) as (_ & Hl).
    destruct (ref_set_spec img (dst +:+ name) d v Ht Hf) as (img' & -> & Ht' & Hr & Hkeep).
    + rewrite Hl. unfold dp_size. by rewrite Ed.
    + done.
    + by apply (Hfit (false, name) d v).
    + by exists img'.
Qed.

Lemma field_ext prefix a b p :
  dp_ref a (prefix +:+ p.2) = dp_ref b (prefix +:+ p.2) → field prefix a p = field prefix b p.
Proof. intros E. unfold field, dp_str. by rewrite E. Qed.

Lemma other_prefix dst src p q :
  config_prefix dst → config_prefix src → dst ≠ src → src +:+ q ≠ dst +:+ p.
Proof. by intros [->| ->] [->| ->] Hne. Qed.

Lemma copy_fields_ok dst src : ∀ points img,
  config_prefix dst → config_prefix src → dst ≠ src → NoDup points.*2 → (∀ p, p ∈ points → p ∈ config_points) →
  img_typed img → fits dst src img →
  ∃ img', copy_fields dst src points img = Ok img' ∧ img_typed img' ∧
    (∀ p, p ∈ points → field dst img' p = field src img p) ∧
    (∀ n, n ∉ (λ p, dst +:+ p.2) <$> points → dp_ref img' n = dp_ref img n).
Proof.
  induction points as [|p points IH]; intros img Hdst Hsrc Hne Hnd Hin Ht Hfit; cbn [copy_fields].
  { exists img. split_and!; try done. by intros ? ?%elem_of_nil. }
  cbn [fmap list_fmap] in Hnd. apply NoDup_cons in Hnd as [Hni Hnd].
  assert (p ∈ config_points) as Hp by (apply Hin; left).
  destruct (point_found src p Hsrc Hp) as [ds Hds].
  destruct (field_value img src p ds Ht Hsrc Hp Hds) as (_ & v & Ev & _). rewrite Ev. cbn [mbind res_bind].
  destruct (copy_field img dst src p v) as (img1 & -> & Ht1 & Hv1 & Hk1); try done. cbn [mbind res_bind].
  assert (∀ q, field src img1 q = field src img q) as Hsrc1
    by (intros q; apply field_ext, Hk1; by apply other_prefix).
  destruct (IH img1) as (img' & -> & Ht' & Hv & Hk); try done.
  { intros q Hq. apply Hin. by right. }
  { intros q d v' Hq Hq1 Hf Hv'. apply (Hfit q d v'); try done. by rewrite <- Hsrc1. }
  exists img'. split_and!; try done.
  - intros q [->|Hq]%elem_of_cons; [|by rewrite Hv, Hsrc1].
    rewrite Ev, <- Hv1. apply field_ext, Hk. intros (q & E & Hq)%list_elem_of_fmap.
    apply Hni, list_elem_of_fmap. exists q. split; [|done]. by apply (prefix_inj dst).
  - intros n Hn. cbn [fmap list_fmap] in Hn. apply not_elem_of_cons in Hn as [Hn1 Hn2].
    rewrite Hk by done. by apply Hk1.
Qed.

(** ** What a boot loads *)

#[local] Opaque default_image.

Section flash.
Context {nvs : Type} `{!NvsApi nvs, !NvsLaws nvs}.

Definition boot_image (n : nvs) : list Z :=
  match load_points n default_image g_dp with Ok img => img | _ => [] end.

Lemma boot_image_ok n :
  blobs_ok n → load_points n default_image g_dp = Ok (boot_image n) ∧ img_typed (boot_image n).
Proof.
  intros Hn. destruct (load_all_typed n default_image Hn (proj2 defaults_typed)) as (img & E & Ht).
  unfold boot_image. rewrite E. split; [reflexivity|exact Ht].
Qed.

Lemma boot_slot n d :
  blobs_ok n → d ∈ g_dp → is_persisted d = true →
  slot_bytes (boot_image n) d = default (slot_bytes default_image d) (load_point n d).
Proof.
  intros Hn Hd Hp. destruct (load_all_ok n default_image Hn (proj1 (proj2 defaults_typed)))
    as (img & E & _ & Hs).
  unfold boot_image. rewrite E, Hs by done. by rewrite Hp.
Qed.

(** The value of a point after a boot only depends on what the flash holds for it. *)
Lemma boot_field n n' prefix p d :
  blobs_ok n → blobs_ok n' → config_prefix prefix → p ∈ config_points → point_desc prefix p d →
  load_point n' d = load_point n d → field prefix (boot_image n') p = field prefix (boot_image n) p.
Proof.
  intros Hn Hn' Hpre Hp [Hf Hpd _ _] E. pose proof (proj1 (dp_find_some _ _) Hf) as [Hd _].
  apply field_ext. rewrite !(dp_ref_slot _ _ d) by (done || by apply boot_image_ok).
  by rewrite !boot_slot, E.
Qed.

(** *** Stored values are accepted by the load *)

Definition port_row (d : dp_desc_t) : bool :=
  bool_decide (dd_type d = DP_U16) && f64_valid (f64_of_f32 (dd_min d)) && f64_valid (f64_of_f32 (dd_max d))
  && bool_decide (f64_trunc (f64_of_f32 (dd_min d)) = Some 1)
  && bool_decide (f64_trunc (f64_of_f32 (dd_max d)) = Some 65535)
  && negb (f64_lt (f64_of_Z 1) (f64_of_f32 (dd_min d)))
  && negb (f64_lt (f64_of_f32 (dd_max d)) (f64_of_Z 65535)).

Definition free_row (d : dp_desc_t) : bool := is_nan (dd_min d) && is_nan (dd_max d).

Definition row_ok (name : string) : bool :=
  match dp_find name with
  | Some d => bool_decide (dd_type d = DP_STR) || free_row d || port_row d && bool_decide (dd_access d = DP_RW)
  | None => false
  end.

Lemma rows_ok :
  forallb (λ p, row_ok ("Network_" +:+ p.2) && row_ok ("Backup_" +:+ p.2)) config_points = true.
Proof. vm_compute. reflexivity. Qed.

Lemma row_found prefix p d :
  config_prefix prefix → p ∈ config_points → point_desc prefix p d →
  dd_type d = DP_STR ∨ free_row d = true ∨ port_row d = true ∧ dd_access d = DP_RW.
Proof.
  intros Hpre Hp%list_elem_of_In [Hf _ _ _]. pose proof rows_ok as H. rewrite forallb_forall in H.
  specialize (H p Hp). cbn beta in H. apply andb_true_iff in H as [Hn Hb].
  assert (row_ok (prefix +:+ p.2) = true) as Hr by (destruct Hpre as [->| ->]; [exact Hn|exact Hb]).
  unfold row_ok in Hr. rewrite Hf in Hr.
  apply orb_true_iff in Hr as [[Hs%bool_decide_eq_true|Hfree]%orb_true_iff|[Hport Ha%bool_decide_eq_true]%andb_true_iff]; auto.
Qed.

Lemma port_in_range d b :
  port_row d = true → 1 <= le_get b <= 65535 → slot_out_of_range d b = false.
Proof.
  unfold port_row. rewrite !andb_true_iff, !bool_decide_eq_true, !negb_true_iff.
  intros ((((((Ht & Hv1) & Hv2) & Hl) & Hh) & Hlt1) & Hlt2) Hb.
  destruct (f64_of_Z_exact (le_get b)) as (Hx & Hy & Hz); [lia|].
  unfold slot_out_of_range, dp_slot_as_double. rewrite Ht. apply orb_false_iff. split; apply andb_false_iff; right.
  - apply not_true_iff_false. intros E. pose proof E as Hle. apply f32_lt_le in Hle.
    pose proof (f64_trunc_le _ _ _ _ Hx Hv1 Hle Hz Hl). replace (le_get b) with 1 in E by lia. congruence.
  - apply not_true_iff_false. intros E. pose proof E as Hle. apply f32_lt_le in Hle.
    pose proof (f64_trunc_le _ _ _ _ Hv2 Hx Hle Hh Hz). replace (le_get b) with 65535 in E by lia. congruence.
Qed.

Lemma in_range img prefix p d :
  img_typed img → config_prefix prefix → p ∈ config_points → point_desc prefix p d →
  slot_out_of_range d (slot_bytes img d) = false.
Proof.
  intros [Hi Ht] Hpre Hp Hd. pose proof (proj1 (dp_find_some _ _) (pd_find _ _ _ Hd)) as [Hg _].
  destruct (row_found prefix p d Hpre Hp Hd) as [Hs|[Hfree|[Hport Ha]]].
  - unfold slot_out_of_range, dp_slot_as_double. by rewrite Hs.
  - apply andb_true_iff in Hfree as [H1 H2]. unfold slot_out_of_range. rewrite H1, H2. by case_match.
  - apply port_in_range; [done|]. specialize (Ht d Hg). unfold port_row in Hport.
    rewrite !andb_true_iff, !bool_decide_eq_true in Hport.
    destruct Hport as ((((((Hty & _) & _) & Hl) & Hh) & _) & _). unfold typed_slot in Ht.
    rewrite Hty, Ha, Hl, Hh in Ht. cbn [dp_int_range] in Ht. unfold int_value in Ht. lia.
Qed.

(** *** A save that is cut off *)

Lemma save_points_blobs n img ds n' :
  blobs_ok n → img_ok img → NoDup ds → (∀ d, d ∈ ds → d ∈ g_dp) →
  save_points n img ds = Ok (ESP_OK, n') → blobs_ok n'.
Proof.
  intros Hn Hi Hnd Hin Hs. destruct (save_points_ok img ds n n' Hi Hnd Hin Hs) as [H1 H2].
  intros k b Hb. destruct (decide (Exists (λ d, is_persisted d = true ∧ dp_nvs_key d = k) ds)) as [Hx|Hx].
  - apply Exists_exists in Hx as (d & Hd & Hp & <-). rewrite H1 in Hb by done.
    injection Hb as <-. by apply slot_bytes_u8.
  - apply (Hn k). rewrite <- H2; [done|]. intros d Hd Hp Hk. apply Hx, Exists_exists. by exists d.
Qed.

Lemma c_string_terminate d b s post :
  dd_type d = DP_STR → Forall (λ c, c ≠ 0) s → (length s <= 63)%nat → length b = 64%nat → b = s ++ 0 :: post →
  c_string (terminate d b) = Ok s.
Proof.
  intros Hd Hs Hl Hb ->. unfold terminate. rewrite bool_decide_true by done.
  change (Z.to_nat (DP_STR_MAX - 1)) with 63%nat. rewrite insert_app_r_alt by lia.
  destruct (63 - length s)%nat as [|j]; cbn [insert list_insert]; by apply c_string_app.
Qed.

(** A stored point is loaded with its value. *)
Lemma stored_field n' img prefix p d :
  blobs_ok n' → img_typed img → config_prefix prefix → p ∈ config_points → point_desc prefix p d →
  nvs_get_blob n' (dp_nvs_key d) = Some (slot_bytes img d) →
  field prefix (boot_image n') p = field prefix img p.
Proof.
  intros Hn' Hi Hpre Hp Hd Hget. pose proof (proj1 (dp_find_some _ _) (pd_find _ _ _ Hd)) as [Hg _].
  destruct (field_value img prefix p d Hi Hpre Hp Hd) as (Hr & v & Ev & _ & Hstr & Hint). rewrite Ev.
  assert (load_point n' d = Some (terminate d (slot_bytes img d))) as Hload.
  { unfold load_point. rewrite Hget. cbn [mbind option_bind].
    rewrite slot_bytes_len by (done || apply Hi).
    assert (dp_size d <= DP_STR_MAX) as Hle by (unfold dp_size; by destruct (dd_type d)).
    rewrite (proj2 (Z.ltb_ge _ _) Hle), Z.eqb_refl. cbn [negb].
    by rewrite (in_range img prefix p d). }
  unfold field, dp_str. rewrite (dp_ref_slot _ _ d); [|by apply boot_image_ok|apply Hd].
  rewrite boot_slot, Hload by (done || apply Hd). cbn [default mbind res_bind].
  pose proof (slot_bytes_len img d (proj1 Hi) Hg) as Hlen.
  destruct p as [str name]. cbn [fst snd] in *. destruct str.
  - destruct (Hstr eq_refl) as (Hc & Hz & Hl). pose proof (pd_str _ _ _ Hd eq_refl) as Hs.
    assert (0 ∈ slot_bytes img d) as Hnul.
    { destruct Hi as [_ Ht]. specialize (Ht d Hg). unfold typed_slot in Ht. rewrite Hs in Ht.
      by apply bool_decide_eq_true in Ht. }
    destruct (c_string_spec _ Hnul) as (s & Es & _ & _ & post & E). replace s with v in * by congruence.
    apply (c_string_terminate d _ v post); try done.
    unfold zlen, dp_size in Hlen. rewrite Hs in Hlen. unfold dp_type_size, DP_STR_MAX in Hlen. lia.
  - destruct (Hint eq_refl) as [-> _]. unfold terminate.
    rewrite bool_decide_false; [done|]. by destruct (pd_int _ _ _ Hd eq_refl) as [-> | ->].
Qed.

(** After the first [k] points of a save, every point of the configuration holds
    its value from the image or the one from before the save. *)
Lemma partial_save n img k n' :
  blobs_ok n → img_typed img → save_points n img (take k g_dp) = Ok (ESP_OK, n') →
  blobs_ok n' ∧ ∀ prefix p, config_prefix prefix → p ∈ config_points →
    field prefix (boot_image n') p = field prefix img p ∨
    (k < length g_dp)%nat ∧ field prefix (boot_image n') p = field prefix (boot_image n) p.
Proof.
  intros Hn Hi Hs.
  assert (NoDup (take k g_dp)) as Hnd.
  { pose proof catalogue_nodup as H. rewrite <- (take_drop k g_dp) in H. by apply NoDup_app in H as [? _]. }
  assert (∀ d, d ∈ take k g_dp → d ∈ g_dp) as Hin
    by (intros d (i & Hl%list_elem_of_lookup_2 & _)%elem_of_take; done).
  assert (blobs_ok n') as Hn' by (eapply save_points_blobs; [exact Hn|apply Hi|exact Hnd|exact Hin|exact Hs]).
  split; [done|]. intros prefix p Hpre Hp.
  destruct (point_found prefix p Hpre Hp) as [d Hd].
  pose proof (proj1 (dp_find_some _ _) (pd_find _ _ _ Hd)) as [Hg _].
  destruct (save_points_ok img (take k g_dp) n n' (proj1 Hi) Hnd Hin Hs) as [H1 H2].
  destruct (decide (d ∈ take k g_dp)) as [Hk|Hk].
  - left. apply (stored_field n' img prefix p d); try done. apply H1; [done|apply Hd].
  - right. split.
    { destruct (decide (k < length g_dp)%nat); [done|]. rewrite take_ge in Hk by lia. done. }
    apply (boot_field n n' prefix p d); try done. unfold load_point. rewrite H2; [done|].
    intros d' Hd' Hp' E. apply Hk. by rewrite <- (key_inj d' d (Hin _ Hd') Hg Hp' E).
Qed.

(** ** The boot *)

Lemma migrate_nothing s n :
  dp_config_migrate_blob s n (false, false) (ESP_OK, ESP_OK) = Ok (s, n).
Proof. reflexivity. Qed.

Lemma load_defaults s n img :
  load_points n (g_dp_store s) g_dp = Ok img →
  ∃ s', dp_config_load s n true = Ok s' ∧ g_dp_store s' = img.
Proof. intros H. unfold dp_config_load. cbn [negb]. rewrite H. by eexists. Qed.

Lemma with_store (s : dp_state) img : ∃ s', s <| g_dp_store := img |> = s' ∧ g_dp_store s' = img.
Proof. by eexists. Qed.

Lemma with_last (s : dp_state) img :
  ∃ s', s <| g_dp_store := img |> <| s_last := img |> = s' ∧ g_dp_store s' = img.
Proof. by eexists. Qed.

Lemma bind_ok {A B} (a : A) (f : A → res B) : (x ← Ok a; f x) = f a.
Proof. reflexivity. Qed.

Lemma init_tail s n i img :
  load_points n (g_dp_store s) g_dp = Ok img → img_typed img → (∀ j, i = Some j → identity_ok j) →
  ∃ s',
    (r ← dp_config_migrate_blob s n (false, false) (ESP_OK, ESP_OK);
     s ← dp_config_load r.1 r.2 true;
     img ← match i with Some i => set_identity (g_dp_store s) i | None => Ok (g_dp_store s) end;
     Ok (s <| g_dp_store := img |> <| s_last := img |>, r.2)) = Ok (s', n) ∧
    sets_only identity_names img (g_dp_store s').
Proof.
  intros Hload Ht Hi. rewrite migrate_nothing, bind_ok.
  destruct (load_defaults s n img Hload) as (s1 & E & E1). change (s, n).1 with s. change (s, n).2 with n.
  rewrite E, bind_ok, E1. clear E E1 Hload. destruct i as [i|].
  - destruct (set_identity_typed img i Ht) as (img' & -> & Hs); [apply Hi; reflexivity|].
    rewrite bind_ok. destruct (with_last s1 img') as (s2 & -> & E2).
    exists s2. rewrite E2. split; [reflexivity|exact Hs].
  - rewrite bind_ok. destruct (with_last s1 img) as (s2 & -> & E2).
    exists s2. rewrite E2. split; [reflexivity|]. split; [exact Ht|reflexivity].
Qed.

Lemma compute_region_store img l : ∃ s, dp_compute_cfg_region (mk_dp img l 0 0) = s ∧ g_dp_store s = img.
Proof. eexists. split; [reflexivity|]. unfold dp_compute_cfg_region. destruct cfg_bounds. by case_match. Qed.

Lemma init_image n i :
  blobs_ok n → (∀ j, i = Some j → identity_ok j) →
  ∃ s, dp_init n i (false, false) true (ESP_OK, ESP_OK) = Ok (s, n) ∧
    sets_only identity_names (boot_image n) (g_dp_store s).
Proof.
  intros Hn Hi. destruct (boot_image_ok n Hn) as [Hload Ht]. destruct defaults_typed as [Hdef _].
  unfold dp_init. cbv zeta. fold blank_image.
  destruct (compute_region_store blank_image []) as (s0 & -> & E0). rewrite E0, Hdef, bind_ok.
  destruct (with_store s0 default_image) as (s1 & -> & E1).
  apply init_tail; [rewrite E1; exact Hload|exact Ht|exact Hi].
Qed.

Lemma identity_not_config prefix p :
  config_prefix prefix → prefix +:+ p ∉ identity_names.
Proof.
  intros [->| ->]; unfold identity_names; rewrite !not_elem_of_cons; split_and!; done || apply not_elem_of_nil.
Qed.

(** A boot whose flash holds an SSID: the configuration points are those of the
    flash, and the trial check runs on them. *)
Lemma boot_config io i file n trial ssid :
  blobs_ok n → (∀ j, i = Some j → identity_ok j) →
  field "Network_" (boot_image n) (true, "SSID") = Ok ssid → ssid ≠ [] →
  ∃ s, boot_state io i file n trial = Ok s ∧ s_bTrialActive s = false ∧
    ns_nvs s = n ∧ ns_trial s = trial ∧ img_typed (ns_img s) ∧
    ∀ prefix p, config_prefix prefix → field prefix (ns_img s) p = field prefix (boot_image n) p.
Proof.
  intros Hn Hi Hssid Hne. destruct (init_image n i Hn Hi) as (s & E & Ht & Hk).
  assert (∀ prefix p, config_prefix prefix → field prefix (g_dp_store s) p = field prefix (boot_image n) p) as Hf
    by (intros prefix p Hp; by apply field_ext, Hk, identity_not_config).
  exists (mk_net s n trial false 0 []). split_and!; [|reflexivity|reflexivity|reflexivity|exact Ht|exact Hf].
  unfold boot_state. rewrite E. cbn [mbind res_bind fst snd].
  unfold network_config_defaults_apply, str_empty.
  change (dp_str (ns_img (mk_net s n trial false 0 [])) "Network_SSID")
    with (field "Network_" (g_dp_store s) (true, "SSID")).
  rewrite Hf, Hssid by by left. cbn [mbind res_bind]. by rewrite bool_decide_false.
Qed.

(** *** Restoring the backup *)

Definition backup_port_ok (img : list Z) : Prop :=
  ∃ b, dp_ref img "Backup_Server_Port" = Ok b ∧ 1 <= le_get b.

Lemma port_found :
  match dp_find "Network_Server_Port", dp_find "Network_DHCP" with
  | Some d, Some d' => port_row d && free_row d' && bool_decide (dd_access d = DP_RW)
                       && bool_decide (dd_type d' = DP_BOOL)
  | _, _ => false
  end = true.
Proof. vm_compute. reflexivity. Qed.

Lemma int_points p :
  p ∈ config_points → p.1 = false → p = (false, "DHCP") ∨ p = (false, "Server_Port").
Proof.
  intros Hp%list_elem_of_In Hf. cbn [config_points In] in Hp.
  destruct Hp as [<-|[<-|Hp]]; [by left|by right|].
  repeat destruct Hp as [<-|Hp]; try discriminate Hf. destruct Hp.
Qed.

Lemma restore_fits img : img_typed img → backup_port_ok img → fits "Network_" "Backup_" img.
Proof.
  intros Ht (b & Hb & Hport) p d v Hp Hint Hf Hv.
  destruct (point_found "Backup_" p (or_intror eq_refl) Hp) as [ds Hds].
  destruct (field_value img "Backup_" p ds Ht (or_intror eq_refl) Hp Hds) as (_ & v' & E & Hu & _ & Hi).
  replace v' with v in * by congruence. destruct (Hi Hint) as [_ Hl]. clear v' E.
  pose proof port_found as H.
  destruct (dp_find "Network_Server_Port") as [dp|] eqn:Ep; [|done].
  destruct (dp_find "Network_DHCP") as [dd|] eqn:Ed; [|done].
  rewrite !andb_true_iff, !bool_decide_eq_true in H. destruct H as [[[Hrow _] Hrw] Hty].
  destruct (int_points p Hp Hint) as [-> | ->].
  - change (dp_find "Network_DHCP" = Some d) in Hf. assert (d = dd) as -> by congruence. unfold typed_slot. rewrite Hty. cbn [dp_int_range].
    by case_match.
  - change (dp_find "Network_Server_Port" = Some d) in Hf. assert (d = dp) as -> by congruence.
    change (dp_ref img "Backup_Server_Port" = Ok v) in Hv. assert (v = b) as -> by congruence.
    unfold port_row in Hrow. rewrite !andb_true_iff, !bool_decide_eq_true in Hrow.
    destruct Hrow as ((((((Htp & _) & _) & Hlo) & Hhi) & _) & _). unfold typed_slot.
    rewrite Htp, Hrw, Hlo, Hhi. cbn [dp_int_range]. unfold int_value.
    apply le_get_range in Hu. destruct (points_found (false, "Server_Port") Hp) as (dn & db & Hn & Hb' & Ety).
    assert (dd_type ds = DP_U16) as Hs.
    { replace ds with db by (destruct Hds, Hb'; congruence). rewrite <- Ety.
      pose proof (pd_find _ _ _ Hn) as Hdn. change (dp_find "Network_Server_Port" = Some dn) in Hdn.
      congruence. }
    unfold zlen, dp_size in Hl. rewrite Hs in Hl. cbn [dp_type_size] in Hl. rewrite Hl in Hu.
    change (256 ^ 2) with 65536 in Hu. lia.
Qed.

Lemma restore_ok img :
  img_typed img → backup_port_ok img →
  ∃ img', restore_from_backup img = Ok img' ∧ img_typed img' ∧
    (∀ p, p ∈ config_points → field "Network_" img' p = field "Backup_" img p) ∧
    (∀ p, field "Backup_" img' p = field "Backup_" img p) ∧
    (∀ n, n ∉ (λ p, "Network_" +:+ p.2) <$> config_points → dp_ref img' n = dp_ref img n).
Proof.
  intros Ht Hport.
  destruct (copy_fields_ok "Network_" "Backup_" config_points img) as (img' & E & Ht' & Hv & Hk);
    [by left|by right|done|apply config_nodup|done|done|by apply restore_fits|].
  exists img'. split_and!; try done. intros p. apply field_ext, Hk.
  intros (q & Eq & _)%list_elem_of_fmap. done.
Qed.
(** ** The rollback of a trial *)

(** What a rollback of the image [img] that begins with the flash [n] and the
    trial byte 2 leaves when the power goes: a part of the save, or all of it and
    the marker. *)
Inductive cut_rollback (img : list Z) (n : nvs) : nvs → Z → Prop :=
  | cut_save img' k n' :
      restore_from_backup img = Ok img' →
      save_points n img' (take k g_dp) = Ok (ESP_OK, n') → cut_rollback img n n' 2
  | cut_done img' n' :
      restore_from_backup img = Ok img' →
      save_points n img' g_dp = Ok (ESP_OK, n') → cut_rollback img n n' 3.

(** The flash after the first rollback and any number of boots that are cut off
    while they roll back again. *)
Inductive trial_flash (io : flash_io) (i : option dp_identity_t) (file : json_file)
    (img : list Z) (n : nvs) : nvs → Z → Prop :=
  | tf_first m t : cut_rollback img n m t → trial_flash io i file img n m t
  | tf_again m s m' t :
      trial_flash io i file img n m 2 → boot_state io i file m 2 = Ok s →
      cut_rollback (ns_img s) m m' t → trial_flash io i file img n m' t.

(** A rollback whose writes all succeed ends in such a state. *)
Lemma rollback_is_cut s s' :
  trial_rollback (mk_io ESP_OK ESP_OK true) s = Ok s' →
  (∀ d n b, (nvs_set_blob (nvs := nvs) n d b).1 = ESP_OK) →
  cut_rollback (ns_img s) (ns_nvs s) (ns_nvs s') 3 ∧ ns_trial s' = 3.
Proof.
  intros H Hok. unfold trial_rollback in H. destruct (restore_from_backup _) as [img'| | ] eqn:Er; [|done|done].
  rewrite bind_ok in H. unfold config_save, dp_config_save in H. cbn [io_open io_commit] in H.
  change (g_dp_store (ns_dp (set_img s img'))) with img' in H.
  change (ns_nvs (set_img s img')) with (ns_nvs s) in H.
  destruct (save_points (ns_nvs s) img' g_dp) as [[e n']| | ] eqn:Es; [|done|done].
  assert (e = ESP_OK) as ->.
  { clear H. revert Es. generalize (ns_nvs s). induction g_dp as [|d ds IH]; intros m Es; [by injection Es as <- _|].
    cbn [save_points] in Es. destruct (negb _); [by apply (IH m)|].
    destruct (dp_raw_get img' d) as [b| | ]; [|done|done]. rewrite bind_ok in Es.
    specialize (Hok (dp_nvs_key d) m b). destruct (nvs_set_blob m _ b) as [e' m']. cbn [fst] in Hok. subst e'.
    by apply (IH m'). }
  rewrite !bind_ok in H. injection H as <-. split; [by apply (cut_done _ _ img')|reflexivity].
Qed.

Definition ssid_set (prefix : string) (img : list Z) : Prop :=
  ∃ s, field prefix img (true, "SSID") = Ok s ∧ s ≠ [].

(** The flash keeps the backup of [img], and after the marker also its copy. *)
Record rollback_inv (img : list Z) (m : nvs) (t : Z) : Prop := {
  ri_blobs : blobs_ok m;
  ri_backup p : p ∈ config_points → field "Backup_" (boot_image m) p = field "Backup_" img p;
  ri_ssid : ssid_set "Network_" (boot_image m);
  ri_trial : t = 2 ∨
    t = 3 ∧ ∀ p, p ∈ config_points → field "Network_" (boot_image m) p = field "Backup_" img p
}.

Lemma cut_rollback_inv img r n m t :
  blobs_ok n → img_typed r → backup_port_ok r → ssid_set "Backup_" r →
  (∀ p, p ∈ config_points → field "Backup_" r p = field "Backup_" img p) →
  (∀ p, p ∈ config_points → field "Backup_" (boot_image n) p = field "Backup_" img p) →
  ssid_set "Network_" (boot_image n) →
  cut_rollback r n m t → rollback_inv img m t.
Proof.
  intros Hn Ht Hport Hssid Hr Hb Hnet Hcut.
  assert ((true, "SSID") ∈ config_points) as Hin by (do 6 right; left).
  assert (∃ img' k, restore_from_backup r = Ok img' ∧ save_points n img' (take k g_dp) = Ok (ESP_OK, m) ∧
            (t = 2 ∨ t = 3 ∧ (length g_dp <= k)%nat)) as (img' & k & Er & Hs & Hk).
  { destruct Hcut as [img' k m Er Hs|img' m Er Hs]; [exists img', k; split_and!; auto|].
    exists img', (length g_dp). rewrite take_ge by lia. split_and!; [exact Er|exact Hs|right; split; [reflexivity|lia]]. }
  destruct (restore_ok r Ht Hport) as (i' & Ei & Ht' & Hv & Hk' & _).
  rewrite Er in Ei. injection Ei as <-.
  destruct (partial_save n img' k m Hn Ht' Hs) as [Hm Hf]. split; [exact Hm| | |].
  - intros p Hp. destruct (Hf "Backup_" p (or_intror eq_refl) Hp) as [E|[_ E]]; rewrite E.
    + rewrite Hk'. by apply Hr.
    + by apply Hb.
  - destruct (Hf "Network_" _ (or_introl eq_refl) Hin) as [E|[_ E]]; unfold ssid_set; rewrite E.
    + rewrite (Hv _ Hin). exact Hssid.
    + exact Hnet.
  - destruct Hk as [-> |[-> Hk]]; [by left|right]. split; [reflexivity|]. intros p Hp.
    destruct (Hf "Network_" p (or_introl eq_refl) Hp) as [E|[Hlt _]]; [|lia]. rewrite E, (Hv _ Hp). by apply Hr.
Qed.

(** What the boot loads from a flash with the invariant. *)
Lemma boot_of_inv io i file img m t :
  (∀ j, i = Some j → identity_ok j) → backup_port_ok img → ssid_set "Backup_" img → rollback_inv img m t →
  ∃ s, boot_state io i file m t = Ok s ∧ s_bTrialActive s = false ∧ ns_nvs s = m ∧ ns_trial s = t ∧
    img_typed (ns_img s) ∧ backup_port_ok (ns_img s) ∧ ssid_set "Backup_" (ns_img s) ∧
    (∀ p, p ∈ config_points → field "Backup_" (ns_img s) p = field "Backup_" img p) ∧
    ∀ p, field "Network_" (ns_img s) p = field "Network_" (boot_image m) p.
Proof.
  intros Hi (b & Hb & Hb1) Hssid [Hm Hback (ssid & Es & Hne) _].
  assert ((true, "SSID") ∈ config_points) as Hin by (do 6 right; left).
  assert ((false, "Server_Port") ∈ config_points) as Hin' by (do 1 right; left).
  destruct (boot_config io i file m t ssid Hm Hi Es Hne) as (s & E & Ha & En & Etr & Ht & Hf).
  assert (∀ p, p ∈ config_points → field "Backup_" (ns_img s) p = field "Backup_" img p) as Hbk.
  { intros p Hp. rewrite Hf by (by right). by apply Hback. }
  exists s. split_and!; [exact E|exact Ha|exact En|exact Etr|exact Ht| | |exact Hbk|intros p; apply Hf; by left].
  - exists b. split; [|exact Hb1]. transitivity (field "Backup_" img (false, "Server_Port")); [|exact Hb].
    exact (Hbk _ Hin').
  - destruct Hssid as (s' & Es' & Hs'). exists s'. split; [|exact Hs']. rewrite (Hbk _ Hin). exact Es'.
Qed.
(** *** The boot after a rollback *)

Definition trial_row : bool :=
  match dp_find "Network_Trial_State" with
  | Some d => (dp_size d =? 1) && forallb (λ v, typed_slot d [v]) [1; 2; 3]
  | None => false
  end.

Lemma trial_row_ok : trial_row = true.
Proof. vm_compute. reflexivity. Qed.

Lemma set_trial_state_ok (s : net_state nvs) v :
  img_typed (ns_img s) → v ∈ [1; 2; 3] →
  ∃ img, set_trial_state s v = Ok (set_img s img) ∧ img_typed img ∧ dp_ref img "Network_Trial_State" = Ok [v] ∧
    ∀ prefix p, config_prefix prefix → p ∈ config_points → field prefix img p = field prefix (ns_img s) p.
Proof.
  intros Ht Hv. pose proof trial_row_ok as H. unfold trial_row in H.
  destruct (dp_find "Network_Trial_State") as [d|] eqn:Ed; [|discriminate H].
  apply andb_true_iff in H as [Hsize%Z.eqb_eq Hty]. rewrite forallb_forall in Hty.
  destruct (ref_set_spec (ns_img s) "Network_Trial_State" d [v] Ht Ed) as (img & E & Ht' & Hr & Hk).
  - rewrite Hsize. reflexivity.
  - apply Forall_singleton. rewrite !elem_of_cons in Hv. unfold is_u8.
    destruct Hv as [-> |[-> |[-> |Hv]]]; [lia..|by apply not_elem_of_nil in Hv].
  - by apply Hty, list_elem_of_In.
  - exists img. split_and!; [|exact Ht'|exact Hr|].
    + unfold set_trial_state. by rewrite E, bind_ok.
    + intros prefix p Hpre Hp. apply field_ext, Hk. intros E'.
      assert (∀ q, q ∈ config_points → prefix +:+ q.2 ≠ "Network_Trial_State") as Hne; [|by apply (Hne p)].
      clear -Hpre. intros q Hq%list_elem_of_In E. destruct Hpre as [-> | ->]; [|discriminate E].
      cbn [config_points In] in Hq. repeat destruct Hq as [<-|Hq]; try discriminate E. destruct Hq.
Qed.

Lemma rollback_ok io (s : net_state nvs) :
  io_trial io = true → img_typed (ns_img s) → backup_port_ok (ns_img s) →
  ∃ s', trial_rollback io s = Ok s' ∧ img_typed (ns_img s') ∧ ns_trial s' = 3 ∧
    s_bTrialActive s' = s_bTrialActive s ∧
    ∀ p, p ∈ config_points → field "Network_" (ns_img s') p = field "Backup_" (ns_img s) p.
Proof.
  intros Hio Ht Hp. destruct (restore_ok (ns_img s) Ht Hp) as (img' & E & Ht' & Hv & _).
  unfold trial_rollback. rewrite E, bind_ok. unfold config_save.
  destruct (config_save_total (ns_dp (set_img s img')) (ns_nvs (set_img s img')) (io_open io) (io_commit io))
    as [r Er]; [exact (proj1 Ht')|].
  rewrite Er, !bind_ok. unfold trial_nvs_set. rewrite Hio. eexists. split; [reflexivity|].
  split_and!; [exact Ht'|reflexivity|reflexivity|exact Hv].
Qed.

(** C21: A rolled back trial survives power loss.  From a flash whose saved backup
    is that of the image and has an SSID, however often the power goes while the
    rollback writes its points one by one, while boots repeat it, or before the
    final reboot: the next boot runs on exactly the backup configuration, reports
    state 3, opens no trial window and clears the trial byte. *)
Theorem trial_rollback_crash_safe io i file up img n m t :
  io_trial io = true → (∀ j, i = Some j → identity_ok j) →
  blobs_ok n → img_typed img → backup_port_ok img → ssid_set "Backup_" img →
  (∀ p, p ∈ config_points → field "Backup_" (boot_image n) p = field "Backup_" img p) →
  ssid_set "Network_" (boot_image n) →
  trial_flash io i file img n m t →
  ∃ s, device_boot io i file up m t = Ok s ∧
    ns_trial s = 0 ∧ s_bTrialActive s = false ∧ dp_ref (ns_img s) "Network_Trial_State" = Ok [3] ∧
    ∀ p, p ∈ config_points → field "Network_" (ns_img s) p = field "Backup_" img p.
Proof.
  intros Hio Hi Hn Ht Hport Hssid Hback Hnet Hf.
  assert (rollback_inv img m t) as Hinv.
  { induction Hf as [m t Hc|m s m' t Hf IH Hb Hc].
    - by apply (cut_rollback_inv img img n m t).
    - destruct (boot_of_inv io i file img m 2 Hi Hport Hssid IH) as (s' & E & _ & En & _ & Ht' & Hp' & Hs' & Hb' & _).
      rewrite Hb in E. injection E as <-.
      destruct IH as [Hm Hmb Hms _]. by apply (cut_rollback_inv img (ns_img s) m m' t). }
  destruct (boot_of_inv io i file img m t Hi Hport Hssid Hinv) as (s & E & Ha & _ & Etr & Ht' & Hp' & _ & Hb' & Hn').
  assert (3 ∈ [1; 2; 3]) as H3 by (do 2 right; left).
  assert (∀ p, p ∈ config_points → config_prefix "Network_") as Hpre by (intros; by left).
  unfold device_boot. rewrite E, bind_ok. unfold network_config_trial_boot_check, trial_nvs_get. rewrite Hio, Etr.
  destruct (ri_trial _ _ _ Hinv) as [-> |[-> Hv]]; cbn [Z.eqb Pos.eqb].
  - destruct (rollback_ok io s Hio Ht' Hp') as (s1 & E1 & Ht1 & _ & Ha1 & Hv1). rewrite E1, bind_ok.
    destruct (set_trial_state_ok s1 3 Ht1 H3) as (img1 & E2 & _ & Hr & Hk). rewrite E2, bind_ok.
    unfold trial_nvs_set. rewrite Hio. eexists. split; [reflexivity|].
    split_and!; [reflexivity|exact (eq_trans Ha1 Ha)|exact Hr|].
    intros p Hp. transitivity (field "Network_" (ns_img s1) p); [exact (Hk _ p (Hpre p Hp) Hp)|].
    rewrite (Hv1 p Hp). by apply Hb'.
  - destruct (set_trial_state_ok s 3 Ht' H3) as (img1 & E2 & _ & Hr & Hk). rewrite E2, bind_ok.
    unfold trial_nvs_set. rewrite Hio. eexists. split; [reflexivity|].
    split_and!; [reflexivity|exact Ha|exact Hr|].
    intros p Hp. transitivity (field "Network_" (ns_img s) p); [exact (Hk _ p (Hpre p Hp) Hp)|].
    rewrite Hn'. by apply Hv.
Qed.
End flash.

(** ** Executions *)

Definition str (s : string) : list Z := (λ a, Z.of_N (Ascii.N_of_ascii a)) <$> String.list_ascii_of_string s.

Definition res_or {A} (r : res A) (a : A) : A := match r with Ok x => x | _ => a end.

Definition put_str (name : string) (s : string) (img : list Z) : list Z :=
  res_or (dp_str_set img name (str s)) img.
Definition put_port (name : string) (v : Z) (img : list Z) : list Z :=
  res_or (dp_ref_set img name (le_put 2 v)) img.

Definition all_ok : flash_io := mk_io ESP_OK ESP_OK true.

(** A device that runs on the network "old" with a backup of it; the user has
    written the network "new" and has saved it. *)
Definition on_old : list Z :=
  put_port "Backup_Server_Port" 8443 (put_port "Network_Server_Port" 8443
    (put_str "Backup_SSID" "old" (put_str "Network_SSID" "old" default_image))).
Definition written_new : list Z := put_str "Network_SSID" "new" on_old.

Definition flash_of (img : list Z) : room_nvs :=
  match save_points (mk_room ∅ ∅ 300) img g_dp with Ok (_, n) => n | _ => mk_room ∅ ∅ 0 end.

Definition running (img : list Z) (trial : Z) : net_state room_nvs :=
  mk_net (mk_dp img img 0 0) (flash_of img) trial false 0 [].

(** The flash when the power goes after [k] points of the rollback. *)
Definition cut_flash (k : nat) : room_nvs :=
  match restore_from_backup written_new with
  | Ok img => match save_points (flash_of written_new) img (take k g_dp) with
              | Ok (_, n) => n | _ => mk_room ∅ ∅ 0 end
  | _ => mk_room ∅ ∅ 0
  end.

Lemma written_new_ok :
  img_typedb written_new = true ∧
  save_points (mk_room ∅ ∅ 300) written_new g_dp = Ok (ESP_OK, flash_of written_new).
Proof. split; vm_compute; reflexivity. Qed.

Lemma flash_of_new_ok : blobs_ok (flash_of written_new).
Proof.
  destruct written_new_ok as [Ht Hs].
  eapply (save_points_blobs (mk_room ∅ ∅ 300) written_new g_dp); [intros k b H; done| |
    exact catalogue_nodup|exact (λ _ H, H)|exact Hs].
  exact (proj1 (img_typedb_spec _ Ht)).
Qed.

Lemma trial_rollback_crash_safe_witness :
  ∃ s, device_boot all_ok None None 3 (cut_flash 60) 2 = Ok s ∧ ns_trial s = 0 ∧
    field "Network_" (ns_img s) (true, "SSID") = Ok (str "old").
Proof.
  destruct written_new_ok as [Ht Hs].
  destruct (trial_rollback_crash_safe all_ok None None 3 written_new (flash_of written_new) (cut_flash 60) 2)
    as (s & E & H0 & _ & _ & Hf).
  - reflexivity.
  - intros j Hj. discriminate Hj.
  - exact flash_of_new_ok.
  - exact (img_typedb_spec _ Ht).
  - exists (le_put 2 8443). split; [vm_compute; reflexivity|apply Z.leb_le; vm_compute; reflexivity].
  - exists (str "old"). split; [vm_compute; reflexivity|discriminate].
  - intros p Hp%list_elem_of_In. cbn [config_points In] in Hp.
    repeat destruct Hp as [<-|Hp]; try (vm_compute; reflexivity).
  - exists (str "new"). split; [vm_compute; reflexivity|discriminate].
  - apply tf_first. eapply (cut_save _ _ _ 60); vm_compute; reflexivity.
  - exists s. split; [exact E|]. split; [exact H0|]. rewrite (Hf (true, "SSID")); [vm_compute; reflexivity|].
    do 6 right; left.
Defined.

(** What a trial of "new" ends in: [before] are the events between the write and
    the command Network_Save=4; then the reboot, the deadline and the next boot. *)
Definition trial_run (before : net_state room_nvs → res (net_state room_nvs)) : res (net_state room_nvs) :=
  s ← before (running written_new 0);
  r ← network_config_save_handle all_ok true s NETWORK_SAVE_TRIAL_REBOOT;
  s ← device_boot all_ok None None 0 (ns_nvs r.2) (ns_trial r.2);
  s ← network_config_trial_tick all_ok true 120 s;
  device_boot all_ok None None 0 (ns_nvs s) (ns_trial s).

(** The backup is taken at every session from the values in RAM, also from
    values that no connection has used.  A write of new credentials followed by a
    reconnect of the running session makes them the backup: the trial that then
    fails is rolled back to the failing credentials; without the reconnect it
    returns to the old ones. *)
Theorem untested_config_becomes_backup :
  (∃ s, trial_run Ok = Ok s ∧ ns_trial s = 0 ∧ dp_str (ns_img s) "Network_SSID" = Ok (str "old")) ∧
  (∃ s, trial_run (session_ready all_ok) = Ok s ∧ ns_trial s = 0 ∧
        dp_ref (ns_img s) "Network_Trial_State" = Ok [3] ∧
        dp_str (ns_img s) "Network_SSID" = Ok (str "new") ∧ dp_str (ns_img s) "Backup_SSID" = Ok (str "new")).
Proof. split; eexists; (split; [vm_compute; reflexivity|]); vm_compute; auto. Qed.
