(* ===== verification/Command.v ===== *)
(** * Commands: src/device/command.{h,c} and the command path of src/network/task_com.c

    The mapping of a protocol command, its execution on the pump task, and
    [task_com_apply_command], which both the cloud and the local session call.
    The relay output only moves in a cycle of the pump task, so a command is a
    request; the durations are multiplied in 32 bits. *)

From Stdlib Require Import SpecFloat.
From S2P Require Import Prelude Bytes Float32 Float64 PumpManager Hal DpCatalog Datapoints PumpTask.
From S2P Require Import FpAuth FpSession PumpTaskProps.
Local Open Scope string_scope.
Local Open Scope list_scope.
Local Open Scope Z_scope.

(** ** Data *)

Inductive command_id_t :=
  | CMD_RELAY_ON | CMD_RELAY_OFF | CMD_RELAY_ON_DURATION | CMD_AUTO | CMD_MANUAL
  | CMD_RESTART | CMD_REBOOT | CMD_WD_FAULT.

Record command_t := mk_command { eId : command_id_t; ulArg : Z }.

Record command_result_t := mk_command_result { bRelayOn : bool; bIsAuto : bool; bOk : bool }.

Definition DURATION_STEP_S : Z := 30.

(** The pump task with the other state a command reaches: the test block of the
    measure task, the forced POOR state of link_quality, the reboots requested. *)
Record cmd_world := mk_cmd {
  cm_pump : world;
  s_ulTestBlockS : Z;
  s_ulTestPoorUntilS : Z;
  cm_reboots : list Z
}.
#[export] Instance eta_cmd_world : Eta cmd_world := λ r, mk_cmd (cm_pump r) (s_ulTestBlockS r)
      (s_ulTestPoorUntilS r) (cm_reboots r).
#[export] Instance set_cm_pump : Setter cm_pump. Proof. mk_setter. Defined.
#[export] Instance set_s_ulTestBlockS : Setter s_ulTestBlockS. Proof. mk_setter. Defined.
#[export] Instance set_s_ulTestPoorUntilS : Setter s_ulTestPoorUntilS. Proof. mk_setter. Defined.
#[export] Instance set_cm_reboots : Setter cm_reboots. Proof. mk_setter. Defined.

(** ** The mapping; a missing string is a null pointer *)

Definition is_str (s : option (list Z)) (k : string) : bool := bool_decide (s = Some (cstr k)).

Definition command_protocol_map (pstrCmd pstrTarget : option (list Z)) (ulSteps : Z) : option command_t :=
  if is_str pstrCmd "set_state" then
    if is_str pstrTarget "On" then Some (mk_command CMD_RELAY_ON 0)
    else if is_str pstrTarget "Off" then Some (mk_command CMD_RELAY_OFF 0)
    else if is_str pstrTarget "Auto" then Some (mk_command CMD_AUTO 0)
    else if is_str pstrTarget "Manual" then Some (mk_command CMD_MANUAL 0)
    else None
  else if is_str pstrCmd "turn_on_duration" then Some (mk_command CMD_RELAY_ON_DURATION ulSteps)
  else if is_str pstrCmd "restart" then Some (mk_command CMD_RESTART 0)
  else if is_str pstrCmd "reboot" then Some (mk_command CMD_REBOOT 0)
  else if is_str pstrCmd "wd_fault" then Some (mk_command CMD_WD_FAULT ulSteps)
  else None.

(** ** Execution *)

Definition on_pump_task (w : cmd_world) (r : bool * world) : bool * cmd_world :=
  (r.1, w <| cm_pump := r.2 |>).

(** [us] is the clock, [bTask] whether the reboot task can be created. *)
Definition command_switch (w : cmd_world) (c : command_t) (us : Z) (bTask : bool) : bool * cmd_world :=
  let p := cm_pump w in
  match eId c with
  | CMD_RELAY_ON => on_pump_task w (pump_request_on p 0 us)
  | CMD_RELAY_OFF => on_pump_task w (pump_request_off p us)
  | CMD_RELAY_ON_DURATION => on_pump_task w (pump_request_on p (u32 (ulArg c * DURATION_STEP_S)) us)
  | CMD_AUTO => on_pump_task w (pump_mode_set p PM_MODE_AUTO us)
  | CMD_MANUAL => on_pump_task w (pump_mode_set p PM_MODE_MANUAL us)
  | CMD_RESTART => on_pump_task w (pump_request_restart p us)
  | CMD_REBOOT =>
      let w := (on_pump_task w (pump_request_off p us)).2 in
      (bTask, if bTask then w <| cm_reboots := cm_reboots w ++ [800] |> else w)
  | CMD_WD_FAULT => (true, w <| s_ulTestBlockS := ulArg c |>)
  end.

Definition command_execute (w : cmd_world) (c : command_t) (us : Z) (bTask : bool)
    : bool * command_result_t * cmd_world :=
  let '(ok, w) := command_switch w c us bTask in
  (ok, mk_command_result (hal_relay_get (w_hal (cm_pump w)))
         (match eId c with CMD_AUTO => true | _ => false end) ok, w).

(** ** The protocol side *)

Definition link_quality_test_poor_set (w : cmd_world) (ulSeconds up_s : Z) : cmd_world :=
  w <| s_ulTestPoorUntilS := u32 (up_s + ulSeconds) |>.

Definition applied : list (list Z * cjson) := add_string "status" (cstr "applied").

Definition task_com_apply_command (w : cmd_world) (m : cjson) (us : Z) (bTask : bool)
    : res (list (list Z * cjson) * cmd_world) :=
  let pstrCmd := str_of m "command" in
  ulSteps ← number_of m "duration_steps" 32 0;
  if is_str pstrCmd "link_fault" then
    Ok (applied, link_quality_test_poor_set w (if ulSteps =? 0 then 60 else ulSteps) (u32 (us / 1000000)))
  else
    match command_protocol_map pstrCmd (str_of m "target_state") ulSteps with
    | None => Ok (rejected "unknown_command", w)
    | Some c =>
        let '(ok, r, w) := command_execute w c us bTask in
        if negb ok || negb (bOk r) then Ok (rejected "not_permitted", w) else Ok (applied, w)
    end.

(** ** Properties *)

Definition same_output (p p' : world) : Prop :=
  w_hal p' = w_hal p ∧ w_img p' = w_img p ∧ w_ring p' = w_ring p ∧ w_out p' = w_out p.

Lemma request_output w f : same_output w (locked_request w f).2.
Proof. unfold locked_request. by destruct (f _). Qed.

Lemma switch_output w c us bTask :
  same_output (cm_pump w) (cm_pump (command_switch w c us bTask).2).
Proof.
  destruct c as [[] arg]; unfold command_switch; cbn [eId]; try apply request_output; [|done].
  destruct bTask; apply request_output.
Qed.

(** A command of the protocol never moves the relay output itself: whatever
    the message, the hardware layer, the image, the history and the outputs of the
    pump task are as before, and only its controller may have changed.  In
    particular the reboot command leaves the relay as it is. *)
Theorem commands_leave_output w m us bTask r w' :
  task_com_apply_command w m us bTask = Ok (r, w') → same_output (cm_pump w) (cm_pump w').
Proof.
  intros H. unfold task_com_apply_command in H. destruct (number_of m _ _ _) as [steps| | ]; [|done|done].
  cbn [mbind res_bind] in H. destruct (is_str _ "link_fault"); [by injection H as <- <-|].
  destruct (command_protocol_map _ _ _) as [c|]; [|by injection H as <- <-].
  pose proof (switch_output w c us bTask) as Hs. unfold command_execute in H.
  destruct (command_switch w c us bTask) as [ok w1]. by destruct (_ || _); injection H as <- <-.
Qed.

(** ** The duration *)

Lemma enter_state_deadline pm st now :
  pm_mode (enter_state pm st now) = pm_mode pm ∧
  pm_manual_until_ms (enter_state pm st now) = pm_manual_until_ms pm ∧
  pm_relay_on (enter_state pm st now) = pm_relay_on pm.
Proof. unfold enter_state. by destruct (decide _). Qed.

Lemma request_on_deadline pm d now pm' :
  pm_request_on pm d now = (true, pm') →
  pm_mode pm' = PM_MODE_MANUAL ∧ pm_relay_on pm' = true ∧
  pm_manual_until_ms pm' = if d =? 0 then 0 else u64 (now + Z.min d PM_MANUAL_MAX_ON_S * 1000).
Proof.
  unfold pm_request_on. destruct (request_on_refused pm now); [done|]. intros H. injection H as <-.
  match goal with |- context [enter_state ?x ?st now] =>
    destruct (enter_state_deadline x st now) as (-> & -> & ->); set (p := x) end.
  assert (pm_relay_on p = true) as Hr.
  { subst p. match goal with |- context [if pm_relay_on ?y then _ else _] => by destruct (pm_relay_on y) eqn:E end. }
  split_and!; [|exact Hr|]; subst p.
  - match goal with |- context [if pm_relay_on ?y then _ else _] => destruct (pm_relay_on y) end;
      cbn [pm_event_start_ms pump_on]; by destruct (pm_event_start_ms pm =? 0).
  - replace (if PM_MANUAL_MAX_ON_S <? d then PM_MANUAL_MAX_ON_S else d) with (Z.min d PM_MANUAL_MAX_ON_S)
      by (destruct (Z.ltb_spec PM_MANUAL_MAX_ON_S d); lia).
    replace (Z.min d PM_MANUAL_MAX_ON_S =? 0) with (d =? 0)
      by (unfold PM_MANUAL_MAX_ON_S; destruct (Z.eqb_spec d 0), (Z.eqb_spec (Z.min d 900) 0); lia).
    match goal with |- context [if pm_relay_on ?y then _ else _] => destruct (pm_relay_on y) end;
      by destruct (pm_event_start_ms pm =? 0).
Qed.

(** The length of a timed start is the number of steps times 30 s reduced
    modulo 2^32 s and capped at 900 s, and zero means no limit: an accepted
    turn_on_duration runs without a deadline exactly when the number of steps is
    a multiple of 2^31, as the missing number is. *)
Theorem turn_on_duration_deadline w steps us bTask w' :
  is_u32 steps →
  command_switch w (mk_command CMD_RELAY_ON_DURATION steps) us bTask = (true, w') →
  let pm := s_stPm (w_pump (cm_pump w')) in
  let s := Z.min (u32 (steps * 30)) 900 in
  pm_relay_on pm = true ∧ pm_mode pm = PM_MODE_MANUAL ∧
  pm_manual_until_ms pm = (if s =? 0 then 0 else u64 (now_ms us + s * 1000)) ∧
  (s = 0 ↔ steps = 0 ∨ steps = 2147483648).
Proof.
  intros Hs H pm s. unfold command_switch in H. cbn [eId ulArg] in H.
  unfold on_pump_task, pump_request_on, locked_request in H.
  destruct (pm_request_on _ _ _) as [ok p'] eqn:E. cbn [fst snd] in H. injection H as -> <-.
  apply request_on_deadline in E as (Hm & Hr & Hd). split_and!; [exact Hr|exact Hm| |].
  - subst pm s. cbn [cm_pump]. transitivity (pm_manual_until_ms p'); [reflexivity|]. rewrite Hd.
    unfold DURATION_STEP_S, PM_MANUAL_MAX_ON_S.
    assert (is_u32 (u32 (steps * 30))) as Hu by apply u32_range. revert Hu. generalize (u32 (steps * 30)).
    intros d Hu. replace (Z.min d 900 =? 0) with (d =? 0); [done|].
    destruct (Z.eqb_spec d 0), (Z.eqb_spec (Z.min d 900) 0); unfold is_u32 in *; lia.
  - subst s. unfold u32, is_u32 in *. split; intros ?; Z.to_euclidean_division_equations; lia.
Qed.

(** ** Executions *)

Definition device (ops : list task_op) : res cmd_world := w ← run_boot ops; Ok (mk_cmd w 0 0 []).

Definition command_msg (name : string) (steps : option Z) : cjson :=
  CObject (add_string "command" (cstr name) ++ opt_member "duration_steps" ((λ z, CNumber (f64_of_Z z)) <$> steps)).

(** The controller, the relay output and the reboots after [ops], the message at
    [ms] and the cycles [later]. *)
Definition after_command (ops : list task_op) (m : cjson) (ms : Z) (later : list task_op) :=
  w ← device ops; r ← task_com_apply_command w m (1000 * ms) true;
  p ← task_run (H := demo_cvt) s_stPinsHw1 (cm_pump r.2) later;
  Ok (summary (Ok p), cm_reboots r.2).

Definition one_bar (ms : Z) : task_op := TCycle (cycle_at ms (live_bus 4928)).
Definition pump_on_ops : list task_op := [one_bar 200; TOn 0 300000; one_bar 400; one_bar 600].

(** The reboot command answers "applied" and schedules the restart in 800 ms, but
    it only asks the controller to stop after its minimum run time (30 s by
    default): the relay is on in every cycle until the restart. *)
Theorem reboot_keeps_pump_running :
  after_command pump_on_ops (command_msg "reboot" None) 700 []
  = Ok (Some (PM_STATE_RUNNING, true, Some 999), [800]) ∧
  after_command pump_on_ops (command_msg "reboot" None) 700 (map one_bar [800; 1000; 1200; 1400])
  = Ok (Some (PM_STATE_RUNNING, true, Some 999), [800]).
Proof. split; vm_compute; reflexivity. Qed.

Lemma commands_leave_output_witness :
  ∃ w r w', device pump_on_ops = Ok w ∧
    task_com_apply_command w (command_msg "reboot" None) 700000 true = Ok (r, w') ∧
    hal_relay_get (w_hal (cm_pump w)) = true ∧ hal_relay_get (w_hal (cm_pump w')) = true.
Proof.
  assert (∃ w r w', device pump_on_ops = Ok w ∧
    task_com_apply_command w (command_msg "reboot" None) 700000 true = Ok (r, w') ∧
    hal_relay_get (w_hal (cm_pump w)) = true) as (w & r & w' & E & H & Hr)
    by (do 3 eexists; split; [vm_compute; reflexivity|]; split; [vm_compute; reflexivity|reflexivity]).
  exists w, r, w'. split; [exact E|]. split; [exact H|]. split; [exact Hr|].
  destruct (commands_leave_output w (command_msg "reboot" None) 700000 true r w' H) as [-> _]. exact Hr.
Defined.

Lemma turn_on_duration_deadline_witness :
  ∃ w w', device [one_bar 200] = Ok w ∧
    command_switch w (mk_command CMD_RELAY_ON_DURATION 143165577) 300000 true = (true, w') ∧
    pm_manual_until_ms (s_stPm (w_pump (cm_pump w'))) = 14300.
Proof.
  assert (∃ w w', device [one_bar 200] = Ok w ∧
    command_switch w (mk_command CMD_RELAY_ON_DURATION 143165577) 300000 true = (true, w'))
    as (w & w' & E & H) by (do 2 eexists; split; [vm_compute; reflexivity|vm_compute; reflexivity]).
  exists w, w'. split; [exact E|]. split; [exact H|].
  destruct (turn_on_duration_deadline w 143165577 300000 true w') as (_ & _ & Hd & _); [by split|exact H|].
  rewrite Hd. vm_compute. reflexivity.
Defined.
