(* ===== verification/TaskCom.v ===== *)
(** * The application side of the protocol: src/network/task_com.c

    What the session (FpSession) calls for an authenticated message:
    [task_com_apply_dp_write] with the interception of the command points
    Network_Save and Log_Command, and the bodies of log_batch and history_batch.
    [task_com_apply_command] is in Command.  The callbacks run over the datapoints
    with the network configuration, the two log tiers and the pressure history. *)

From Stdlib Require Import SpecFloat.
From S2P Require Import Prelude Bytes Float32 Float64 DpCatalog Datapoints NetworkConfig.
From S2P Require Import FpAuth FpSession LogRing LogCore LogFlash PressureRing Command.
Local Open Scope string_scope.
Local Open Scope list_scope.
Local Open Scope Z_scope.

(** ** JSON objects as batches *)

(** A key as a name of the catalogue, and back. *)
Definition name_of (s : list Z) : string :=
  String.string_of_list_ascii (map (λ c, Ascii.ascii_of_N (Z.to_N c)) s).

Definition json_of (v : cjson) : json :=
  match v with
  | CBool b => JBool b
  | CNumber x => JNumber x
  | CString s => JString s
  | _ => JOther
  end.
Definition cjson_of (v : json) : cjson :=
  match v with
  | JBool b => CBool b
  | JNumber x => CNumber x
  | JString s => CString s
  | JOther => CNull
  end.

(** The children of a cJSON object or array; array elements have a null key. *)
Definition children (v : cjson) : list (option (list Z) * cjson) :=
  match v with
  | CObject l => (λ kv, (Some kv.1, kv.2)) <$> l
  | CArray l => (λ v, (None, v)) <$> l
  | _ => []
  end.

Definition dp_items (v : cjson) : list dp_item := 
  (λ kv : option (list Z) * cjson, (name_of <$> kv.1, json_of kv.2)) <$> children v.

(** [cJSON_DeleteItemFromObjectCaseSensitive]. *)
Fixpoint delete_key (l : list (list Z * cjson)) (key : string) : list (list Z * cjson) :=
  match l with
  | [] => []
  | (k, v) :: l => if bool_decide (k = cstr key) then l else (k, v) :: delete_key l key
  end.
Definition delete_item (m : cjson) (key : string) : cjson :=
  match m with CObject l => CObject (delete_key l key) | _ => m end.

Definition errors_json (errs : list (string * string)) : list (list Z * cjson) :=
  (λ e, (cstr e.1, CString (cstr e.2))) <$> errs.
Definition values_json (vs : list (string * json)) : list (list Z * cjson) :=
  (λ v, (cstr v.1, cjson_of v.2)) <$> vs.

(** ** State *)

Inductive com_out :=
  | EVT_DP_WRITTEN (ucCount : Z)
  | LOG_EVT_NVS_SAVE_FAIL.

Section task_com.
Context {nvs : Type} `{!NvsApi nvs} {P : Type}.
Variable esp_partition_read : P → Z → Z → option (list Z).
Variable esp_partition_write : P → Z → list Z → option P.
Variable esp_rom_crc32_le : list Z → Z.

Record com_state := mk_com {
  tc_net : net_state nvs;
  tc_log : log_core_t;
  tc_flash : log_flash_t;
  tc_part : P;
  tc_out : list com_out
}.
#[local] Instance eta_com_state : Eta com_state := λ r, mk_com (tc_net r) (tc_log r) (tc_flash r)
      (tc_part r) (tc_out r).
#[local] Instance set_tc_net : Setter tc_net. Proof. mk_setter. Defined.
#[local] Instance set_tc_log : Setter tc_log. Proof. mk_setter. Defined.
#[local] Instance set_tc_flash : Setter tc_flash. Proof. mk_setter. Defined.
#[local] Instance set_tc_part : Setter tc_part. Proof. mk_setter. Defined.
#[local] Instance set_tc_out : Setter tc_out. Proof. mk_setter. Defined.

(** The answers of the environment to one call: the flash calls of the batch and
    of the network action, and whether the reboot task can be created. *)
Record com_io := mk_com_io {
  ci_open : esp_err;
  ci_commit : esp_err;
  ci_net : flash_io;
  ci_task : bool
}.

(** ** dp_write *)

Definition log_command_handle (w : com_state) (ucCmd : Z) : res com_state :=
  if ucCmd =? 1 then Ok (w <| tc_log := logging_clear_runtime (tc_log w) |>)
  else if ucCmd =? 2 then
    r ← logging_ack_previous_boot esp_partition_read esp_partition_write (tc_flash w) (tc_part w) 0;
    Ok (w <| tc_flash := r.1.2 |> <| tc_part := r.2 |>)
  else Ok w.

(** A command point of the batch: its number, and the batch without it.  The
    conversion to [uint8_t] is undefined out of range. *)
Definition intercept (batch : cjson) (key : string) : res (option Z * cjson) :=
  match get_item batch key with
  | None => Ok (None, batch)
  | Some (CNumber v) => z ← cast_uint 8 v; Ok (Some z, delete_item batch key)
  | Some _ => Ok (None, delete_item batch key)
  end.

(** The names of the readback, and the dereference [dp->child]: a missing object
    is a null pointer. *)
Definition readback_names (dp : option cjson) : res (list (option string)) :=
  match dp with
  | None => OutOfBounds
  | Some v => Ok (omap (λ kv : option (list Z) * cjson, (λ k, Some (name_of k)) <$> kv.1) (children v))
  end.

Definition rejected_errors (errs : list (string * string)) : list (list Z * cjson) :=
  add_string "status" (cstr "rejected") ++ member "errors" (CObject (errors_json errs)).

(** The result of a batch that was accepted. *)
Definition applied_result (w : com_state) (dp : option cjson) (pre : list (list Z * cjson))
    : res (list (list Z * cjson) * com_state) :=
  let ucCount := u8 (zlen (default [] (children <$> dp))) in
  let w := w <| tc_out := tc_out w ++ [EVT_DP_WRITTEN ucCount] |> in
  names ← readback_names dp;
  r ← dp_read_into (ns_dp (tc_net w)) names;
  Ok (pre ++ applied ++ member "readback" (CObject (values_json r.1)), w).

Definition batch_result (w : com_state) (dp : option cjson) (errs : list (string * string))
    (pre : list (list Z * cjson)) : res (list (list Z * cjson) * com_state) :=
  match errs with
  | [] => applied_result w dp pre
  | _ => Ok (pre ++ rejected_errors errs, w)
  end.

Definition task_com_apply_dp_write (io : com_io) (w : com_state) (live : list Z) (dp : option cjson)
    : res (list (list Z * cjson) * com_state) :=
  s ← intercept (default CNull dp) "Network_Save";
  let '(save, batch) := s in
  let ucSave := default 0 save in
  c ← intercept batch "Log_Command";
  let '(cmd, batch) := c in
  w ← match cmd with Some z => log_command_handle w z | None => Ok w end;
  let net := tc_net w in
  r ← dp_write_batch (ns_dp net) (ns_nvs net) live (dp_items batch) (ci_open io) (ci_commit io);
  let '(bOk, errs, bPersisted, dps, n) := r in
  let w := w <| tc_net := net <| ns_dp := dps |> <| ns_nvs := n |> |> in
  if negb bOk then Ok (rejected_errors errs, w) else
  let w := if bPersisted : bool then w else w <| tc_out := tc_out w ++ [LOG_EVT_NVS_SAVE_FAIL] |> in
  let warning := if bPersisted : bool then [] else add_string "warning" (cstr "nvs_save_failed") in
  if ucSave =? 0 then batch_result w dp errs warning
  else
    a ← network_config_save_handle (ci_net io) (ci_task io) (tc_net w) ucSave;
    let w := w <| tc_net := a.2 |> in
    if negb a.1 then Ok (warning ++ rejected "invalid_network_save", w)
    else batch_result w dp errs (warning ++ add_number "network_save" ucSave).

(** ** log_read and log_read_prev *)

Definition LOG_BATCH_MAX : Z := 128.
Definition LOG_BATCH_BYTE_BUDGET : Z := 24000.
Definition LOG_BATCH_BYTE_BUDGET_POOR : Z := 4000.

Definition record_cost (r : log_record_t) : Z := 64 + zlen (lg_text r) + lg_argc r * 12.

(** The records that fit: the loop stops at the first one over the budget. *)
Fixpoint within_budget (budget bytes : Z) (rs : list log_record_t) : list log_record_t :=
  match rs with
  | [] => []
  | r :: rs =>
      let bytes := bytes + record_cost r in
      if budget <? bytes then [] else r :: within_budget budget bytes rs
  end.

Definition record_json (r : log_record_t) : res cjson :=
  args ← array_read (lg_args r) 0 (lg_argc r);
  Ok (CObject (add_number "s" (lg_seq r) ++ add_number "u" (lg_uptime_ms r) ++
    add_number "ev" (lg_event_id r) ++ add_number "mod" (lg_module_id r) ++ add_number "lvl" (lg_level r) ++
    (if lg_argc r =? 0 then [] else member "a" (CArray ((λ a, CNumber (f64_of_Z (i32 a))) <$> args))) ++
    (match lg_text r with [] => [] | t => add_string "t" t end))).

Fixpoint records_json (rs : list log_record_t) : res (list cjson) :=
  match rs with
  | [] => Ok []
  | r :: rs => j ← record_json r; l ← records_json rs; Ok (j :: l)
  end.

(** The head of the body and the records read.  [mem]: the buffer could be allocated. *)
Definition log_batch_read (w : com_state) (since_seq min_level max_records : Z) (prev_boot mem : bool)
    : res (list (list Z * cjson) * list log_record_t) :=
  let max_records := if LOG_BATCH_MAX <? max_records then LOG_BATCH_MAX else max_records in
  if prev_boot then
    let '(bAvail, ulPrevBoot) := logging_previous_boot_available (tc_flash w) in
    rs ← (if bAvail && mem
          then logging_read_previous_boot esp_partition_read esp_rom_crc32_le (tc_flash w) (tc_part w)
                 min_level true (Z.to_nat max_records)
          else Ok []);
    Ok (add_number "boot_id" ulPrevBoot ++ member "available" (CBool bAvail), rs)
  else
    r ← (if mem then logging_read_since (tc_log w) since_seq min_level true (Z.to_nat max_records) true
         else Ok ([], Some (logging_stats_get (tc_log w))));
    let st := default (mk_log_stats 0 0 0 0) r.2 in
    let bOverflow := u32 (since_seq + 1) <? ls_first_seq_available st in
    Ok (add_number "boot_id" (ls_boot_id st) ++ add_number "first_seq_available" (ls_first_seq_available st) ++
        add_number "next_seq" (ls_next_seq st) ++ add_number "dropped_count" (ls_dropped st) ++
        member "overflow" (CBool bOverflow), r.1).

Definition log_batch_budget (poor : bool) : Z := if poor then LOG_BATCH_BYTE_BUDGET_POOR else LOG_BATCH_BYTE_BUDGET.

Definition task_com_fill_log_batch (w : com_state) (since_seq min_level max_records : Z)
    (prev_boot mem poor : bool) : res (list (list Z * cjson)) :=
  r ← log_batch_read w since_seq min_level max_records prev_boot mem;
  js ← records_json (within_budget (log_batch_budget poor) 0 r.2);
  Ok (r.1 ++ member "records" (CArray js)).

Definition task_com_log_ack_prev (w : com_state) (boot_id : Z) : res (bool * com_state) :=
  r ← logging_ack_previous_boot esp_partition_read esp_partition_write (tc_flash w) (tc_part w) boot_id;
  Ok (r.1.1, w <| tc_flash := r.1.2 |> <| tc_part := r.2 |>).

(** ** history_read *)

Definition sample_json (s : pressure_sample_t) : cjson :=
  CArray ((λ z, CNumber (f64_of_Z z)) <$> [ps_sequence s; ps_timestamp_ms s; ps_pressure_mbar s; ps_status s]).

Definition task_com_fill_history_batch (ring : pressure_ring_t) (w : com_state) (since_seq max_samples us : Z)
    (mem : bool) : res (list (list Z * cjson)) :=
  let max_samples := if 120 <? max_samples then 120 else max_samples in
  r ← (if mem then pressure_history_read_since ring since_seq true max_samples
       else Ok ([], PressureRing.stats_fill_locked ring));
  let st := r.2 in
  Ok (add_number "boot_id" (ls_boot_id (logging_stats_get (tc_log w))) ++
      add_number "now_ms" (u32 (us / 1000)) ++ add_number "sample_interval_ms" 1000 ++
      add_number "next_seq" (st_next_seq st) ++ add_number "first_seq_available" (st_first_seq_available st) ++
      add_number "overwritten" (st_overwritten st) ++ add_number "high_watermark" (st_high_watermark st) ++
      member "samples" (CArray (sample_json <$> r.1))).

End task_com.
Arguments com_state : clear implicits.
#[export] Existing Instances eta_com_state set_tc_net set_tc_log set_tc_flash set_tc_part set_tc_out.
