(* ===== verification/TaskComProps.v ===== *)
(** * Properties of the application side of the protocol

    Over the definitions of TaskCom: polling the log with a byte budget reads
    every held record once, a rejected batch changes nothing, and what happens to
    a dp_write without an object and to an invalid Network_Save. *)

From Stdlib Require Import SpecFloat.
From stdpp Require Import pretty gmap sorting.
From S2P Require Import Prelude Bytes Float32 Float64 DpCatalog Datapoints DpProps NetworkConfig NetworkConfigProps.
From S2P Require Import FpAuth FpSession LogRing LogCore LogFlash PressureRing Command TaskCom.
Local Open Scope string_scope.
Local Open Scope list_scope.
Local Open Scope Z_scope.

(** ** Log polling *)

Lemma within_budget_take budget rs : ∀ bytes,
  Forall (λ r, bytes + record_cost r <= budget) (take 1 rs) →
  ∃ j, within_budget budget bytes rs = take j rs ∧ (rs ≠ [] → (1 <= j)%nat).
Proof.
  assert (∀ rs bytes, ∃ j, within_budget budget bytes rs = take j rs) as Hp.
  { clear rs. induction rs as [|r rs IH]; intros bytes; [by exists 0%nat|]. cbn [within_budget].
    destruct (budget <? _); [by exists 0%nat|]. destruct (IH (bytes + record_cost r)) as [j ->]. by exists (S j). }
  intros bytes Hf. destruct rs as [|r rs]; [by exists 0%nat|]. cbn [within_budget].
  cbn [take] in Hf. apply Forall_cons in Hf as [Hr _].
  destruct (Z.ltb_spec budget (bytes + record_cost r)); [lia|].
  destruct (Hp rs (bytes + record_cost r)) as [j ->]. exists (S j). split; [done|intros _; lia].
Qed.

Lemma shown_cost boot e : entry_wf e → record_cost (shown boot e) <= 175.
Proof.
  intros [_ _ _ _ _ Ha _ Hl _]. unfold record_cost, shown. cbn [lg_text lg_argc].
  unfold LOG_RING_MAX_ARGS, LOG_RING_MAX_TEXT in *. lia.
Qed.

(** The entries a reader at [since] wants. *)
Definition wants (lim since : Z) (es : list log_entry) : list log_entry :=
  filter (λ e, le_level e <= lim) (filter (λ e, since < le_seq e) es).

Definition increasing (es : list log_entry) : Prop := StronglySorted (λ e e', le_seq e < le_seq e') es.

Lemma Forall_filter {A} (Q R : A → Prop) `{∀ x, Decision (R x)} l : Forall Q l → Forall Q (filter R l).
Proof. rewrite !Forall_forall. intros Hl x [_ Hx]%list_elem_of_filter. by apply Hl. Qed.

Lemma filter_sorted {A} (R : relation A) (Q : A → Prop) `{∀ x, Decision (Q x)} l :
  StronglySorted R l → StronglySorted R (filter Q l).
Proof.
  induction 1 as [|x l Hs IH Hf]; [constructor|]. destruct (decide (Q x)).
  - rewrite filter_cons_True by done. constructor; [done|]. by apply Forall_filter.
  - by rewrite filter_cons_False.
Qed.

Lemma increasing_from es f : (∀ i e, es !! i = Some e → le_seq e = f + Z.of_nat i) → increasing es.
Proof.
  revert f. induction es as [|e es IH]; intros f Hs; [constructor|].
  pose proof (Hs 0%nat e eq_refl) as He. cbn in He. constructor.
  - apply (IH (f + 1)). intros i x Hi. rewrite (Hs (S i) x Hi). lia.
  - apply Forall_lookup_2. intros i x Hi. rewrite (Hs (S i) x Hi). lia.
Qed.

(** After the [j]-th wanted entry the reader wants the rest. *)
Lemma wants_rest lim since es j e :
  increasing es → wants lim since es !! j = Some e → wants lim (le_seq e) es = drop (S j) (wants lim since es).
Proof.
  intros Hinc Hj.
  assert (increasing (wants lim since es)) as Hw by (by apply filter_sorted, filter_sorted).
  assert (since < le_seq e) as Hlt.
  { apply list_elem_of_lookup_2 in Hj. unfold wants in Hj. rewrite !list_elem_of_filter in Hj. tauto. }
  assert (wants lim (le_seq e) es = filter (λ x, le_seq e < le_seq x) (wants lim since es)) as ->.
  { unfold wants. rewrite !list_filter_filter. apply list_filter_iff. intros x. lia. }
  clear Hlt. revert j e Hj Hw. generalize (wants lim since es).
  induction l as [|x l IH]; intros j e Hj Hw; [done|].
  apply StronglySorted_inv in Hw as [Hw Hf]. destruct j as [|j].
  - injection Hj as ->. rewrite filter_cons_False by lia. cbn [drop].
    apply filter_all. exact Hf.
  - cbn in Hj. rewrite Forall_forall in Hf. pose proof (Hf e (list_elem_of_lookup_2 _ _ _ Hj)).
    rewrite filter_cons_False by lia. cbn [drop]. by apply IH.
Qed.

Lemma take_min_length {A} n (l : list A) : take n l = take (Nat.min n (length l)) l.
Proof.
  destruct (Nat.le_ge_cases n (length l)); [by rewrite Nat.min_l by done|].
  by rewrite Nat.min_r, !take_ge by lia.
Qed.

Section polling.
Context {nvs : Type} `{!NvsApi nvs} {P : Type}.
Variable esp_partition_read : P → Z → Z → option (list Z).
Variable esp_rom_crc32_le : list Z → Z.

(** The records of one reply, and a server that polls from the last number it
    has seen until a reply is empty; [poor n] is the link at the [n]-th poll from
    the end. *)
Definition log_poll (w : com_state nvs P) (since min_level max : Z) (poor : bool) : res (list log_record_t) :=
  r ← log_batch_read esp_partition_read esp_rom_crc32_le w since min_level max false true;
  Ok (within_budget (log_batch_budget poor) 0 r.2).

Fixpoint log_polls (n : nat) (w : com_state nvs P) (since min_level max : Z) (poor : nat → bool)
    : res (list log_record_t) :=
  match n with
  | O => OutOfFuel
  | S n =>
      rs ← log_poll w since min_level max (poor n);
      match last rs with
      | None => Ok []
      | Some r => rest ← log_polls n w (lg_seq r) min_level max poor; Ok (rs ++ rest)
      end
  end.

Lemma polls_collect w boot lim es min_level max poor :
  increasing es → Forall entry_wf es → 1 <= max →
  (∀ since, ∃ hd, log_batch_read esp_partition_read esp_rom_crc32_le w since min_level max false true
     = Ok (hd, take (Z.to_nat (Z.min max 128)) (shown boot <$> wants lim since es))) →
  ∀ n since, (length (wants lim since es) < n)%nat →
  log_polls n w since min_level max poor = Ok (shown boot <$> wants lim since es).
Proof.
  intros Hinc Hwf Hmax Hread n. induction n as [|n IH]; intros since Hn; [lia|]. cbn [log_polls].
  destruct (Hread since) as [hd E].
  unfold log_poll. rewrite E. cbn [mbind res_bind snd].
  assert (Forall entry_wf (wants lim since es)) as Hw
    by (unfold wants; by apply Forall_filter, Forall_filter).
  destruct (Z.to_nat (Z.min max 128)) as [|m] eqn:Em; [lia|].
  destruct (wants lim since es) as [|e0 l] eqn:El; [done|]. cbn [fmap list_fmap] in *.
  destruct (within_budget_take (log_batch_budget (poor n)) (take (S m) (shown boot e0 :: (shown boot <$> l))) 0)
    as (j & -> & Hj).
  { cbn [take]. apply Forall_singleton. apply Forall_cons in Hw as [He _]. pose proof (shown_cost boot e0 He).
    unfold log_batch_budget, LOG_BATCH_BYTE_BUDGET, LOG_BATCH_BYTE_BUDGET_POOR. destruct (poor n); lia. }
  specialize (Hj ltac:(done)). rewrite take_take.
  change (shown boot e0 :: (shown boot <$> l)) with (shown boot <$> (e0 :: l)).
  set (i := (Nat.min j (S m) `min` length (e0 :: l))%nat).
  assert (1 <= i <= length (e0 :: l))%nat as Hi by (subst i; cbn [length]; lia).
  assert (take (Nat.min j (S m)) (shown boot <$> e0 :: l) = shown boot <$> take i (e0 :: l)) as ->.
  { rewrite <- fmap_take. f_equal. apply take_min_length. }
  destruct (lookup_lt_is_Some_2 (e0 :: l) (i - 1)) as [e He]; [lia|].
  assert (last (shown boot <$> take i (e0 :: l)) = Some (shown boot e)) as ->.
  { rewrite fmap_last, last_lookup, length_take, Nat.min_l by lia.
    rewrite lookup_take_lt by lia. replace (Init.Nat.pred i) with (i - 1)%nat by lia. by rewrite He. }
  rewrite <- El in He. pose proof (wants_rest lim since es (i - 1) e Hinc He) as Hrest.
  replace (S (i - 1)) with i in Hrest by lia. rewrite El in Hrest. cbn [lg_seq shown].
  rewrite IH, Hrest; cycle 1.
  { rewrite Hrest, length_drop. rewrite El in *. lia. }
  cbn [mbind res_bind]. by rewrite <- fmap_app, take_drop.
Qed.

(** C22: A server that polls log_read with the number of the last record it got,
    with any batch size of at least one and whatever the link makes of the byte
    budget from poll to poll, reads in finitely many polls exactly the held
    records newer than its first cursor and verbose enough, each once and in
    order: every poll that has something to send sends at least one record. *)
Theorem log_polling_reads_every_record rnd buf ops min_level max poor :
  zlen buf = LOG_RING_BYTES → Forall op_wf ops → Z.of_nat (length ops) < 4294967295 → 1 <= max →
  let s := spec_run spec_init ops in
  ∃ c k, log_run (logging_init_early rnd buf) ops = Ok c ∧
    (k = 0%nat ∨ 32768 < total_size (drop (k - 1) (sp_hist s)) + 2 * LOG_RING_RECORD_MAX) ∧
    let held := drop k (sp_hist s) in
    let boot := if rnd =? 0 then 1 else rnd in
    let lim := u8 (if min_level =? LOG_LEVEL_OFF then LOG_LEVEL_TRACE else min_level) in
    ∀ w since n, tc_log w = c → (length held < n)%nat →
      log_polls n w since min_level max poor
      = Ok (shown boot <$> filter (λ e, le_level e <= lim) (filter (λ e, since < le_seq e) held)).
Proof.
  intros Hb Hops Hlen Hmax s.
  destruct (log_run_spec ops _ _ (core_init rnd buf Hb) Hops) as (c & E & Hc & Hboot & Hcap).
  fold s in Hc. exists c. pose proof Hc as [_ _ _ (k & Hk & Hr & Hl)]. exists k.
  split; [exact E|]. split; [rewrite Hcap in Hl; exact Hl|]. cbv zeta. intros w since n Hw Hn.
  assert (spec_inv s (1 + Z.of_nat (length ops))) as [Hnx Hroom Hseq].
  { apply spec_inv_run; [|lia]. split; [cbn; lia..|done]. }
  assert (∀ i e, drop k (sp_hist s) !! i = Some e →
    le_seq e = sp_next s - Z.of_nat (length (sp_hist s)) + Z.of_nat k + Z.of_nat i) as Hs.
  { intros i e Hi. rewrite lookup_drop in Hi. rewrite (Hseq _ _ Hi). lia. }
  apply (polls_collect w _ _ (drop k (sp_hist s))); try done.
  - by eapply increasing_from.
  - apply Hr.
  - intros since'. unfold log_batch_read. rewrite Hw, (read_since_repr c _ since' _ _ _ Hr).
    cbn [mbind res_bind snd fst]. eexists. do 2 f_equal. unfold read_spec, LOG_BATCH_MAX.
    rewrite Hboot. replace (if 128 <? max then 128 else max) with (Z.min max 128)
      by (destruct (Z.ltb_spec 128 max); lia).
    by rewrite (skip_to_filter since' _ _ Hs).
  - eapply Nat.le_lt_trans; [|exact Hn]. unfold wants. etransitivity; apply length_filter.
Qed.
End polling.

Lemma log_polling_reads_every_record_witness :
  ∃ c (w : com_state room_nvs (list Z)), log_run (logging_init_early 77 (replicate (Z.to_nat LOG_RING_BYTES) 0)) example_ops = Ok c ∧
    ∃ k, let held := drop k (sp_hist (spec_run spec_init example_ops)) in
    log_polls RamFlash.read RamFlash.checksum 3 w 0 4 1 (λ _, true)
    = Ok (shown 77 <$> filter (λ e, le_level e <= 4) (filter (λ e, 0 < le_seq e) held)).
Proof.
  assert (zlen (replicate (Z.to_nat LOG_RING_BYTES) 0) = LOG_RING_BYTES) as Hb.
  { unfold zlen. by rewrite length_replicate, Z2Nat.id by done. }
  assert (Z.of_nat (length example_ops) < 4294967295) as Hl by (cbn; lia).
  destruct (log_polling_reads_every_record (nvs := room_nvs) RamFlash.read RamFlash.checksum 77 _ example_ops 4 1
    (λ _, true) Hb example_ops_wf Hl) as (c & k & E & _ & H); [lia|].
  exists c, (mk_com (mk_net (mk_dp [] [] 0 0) (mk_room ∅ ∅ 0) 0 false 0 []) c log_flash_boot [] []).
  split; [exact E|]. exists k. apply H; [reflexivity|].
  rewrite length_drop. apply Nat.le_lt_trans with 2%nat; [|lia].
  change (length (sp_hist (spec_run spec_init example_ops))) with 2%nat. lia.
Defined.

(** ** dp_write *)

Lemma write_batch_ok {nvs} `{!NvsApi nvs} s (n : nvs) live items o c ok errs p s' n' :
  dp_write_batch s n live items o c = Ok (ok, errs, p, s', n') →
  if ok : bool then errs = []
  else p = true ∧ s' = s <| g_dp_store := live |> ∧ n' = n ∧ errs ≠ [].
Proof.
  unfold dp_write_batch, dp_write_locked. destruct (validate_items _ _) as [[tmp es]| | ]; [|done|done].
  cbn [mbind res_bind]. destruct es as [|e es]; cbn [mbind res_bind].
  - destruct (dp_constraints_ok tmp) as [[bad|]| | ]; cbn [mbind res_bind]; [|..|done|done].
    + intros H. by injection H as <- <- <- <- <-.
    + destruct (commit_items items tmp live) as [l| | ]; cbn [mbind res_bind negb]; [|done|done].
      destruct (dp_config_save _ n o c) as [[e m]| | ]; cbn [mbind res_bind]; [|done|done].
      intros H. by injection H as <- <- _ _ _.
  - intros H. by injection H as <- <- <- <- <-.
Qed.

Lemma same_store (s : dp_state) : s <| g_dp_store := g_dp_store s |> = s.
Proof. by destruct s. Qed.

Lemma same_net {nvs} `{!NvsApi nvs} (s : net_state nvs) : s <| ns_dp := ns_dp s |> <| ns_nvs := ns_nvs s |> = s.
Proof. by destruct s. Qed.

Section dp_write.
Context {nvs : Type} `{!NvsApi nvs} {P : Type}.
Variable esp_partition_read : P → Z → Z → option (list Z).
Variable esp_partition_write : P → Z → list Z → option P.

Definition status_of (r : list (list Z * cjson)) : option cjson := get_item (CObject r) "status".
Definition errors_of (r : list (list Z * cjson)) : option cjson := get_item (CObject r) "errors".

Lemma log_command_net w z w' :
  log_command_handle esp_partition_read esp_partition_write w z = Ok w' →
  tc_net w' = tc_net w ∧ tc_out (nvs := nvs) w' = tc_out w.
Proof.
  unfold log_command_handle. destruct (z =? 1); [intros H; by injection H as <-|].
  destruct (z =? 2); [|intros H; by injection H as <-].
  destruct (logging_ack_previous_boot _ _ _ _ _) as [r| | ]; [|done|done].
  cbn [mbind res_bind]. intros H. by injection H as <-.
Qed.

Lemma applied_no_errors w dp pre r w' :
  applied_result (nvs := nvs) (P := P) w dp pre = Ok (r, w') → errors_of pre = None →
  errors_of r = None ∧ tc_net w' = tc_net w.
Proof.
  unfold applied_result. destruct (readback_names dp) as [names| | ]; [|done|done]. cbn [mbind res_bind].
  destruct (dp_read_into _ _) as [v| | ]; [|done|done]. cbn [mbind res_bind]. intros H Hp. injection H as <- <-.
  split; [|done]. unfold errors_of, get_item in *. cbn [members] in *. revert Hp.
  induction pre as [|[k x] pre IH]; [reflexivity|]. cbn [List.find app].
  destruct (bool_decide (k = cstr "errors")); [done|exact IH].
Qed.

(** A dp_write that is answered with a list of errors has changed nothing: the
    image, the stored configuration, the network actions and the events are as
    before, and a Network_Save in the same message was not executed.  (The
    Log_Command of the message was: it is executed before the batch is checked.) *)
Theorem rejected_dp_write_changes_nothing io w dp r w' e :
  task_com_apply_dp_write esp_partition_read esp_partition_write io w (ns_img (tc_net w)) dp = Ok (r, w') → errors_of r = Some e →
  status_of r = Some (CString (cstr "rejected")) ∧ tc_net w' = tc_net w ∧ tc_out w' = tc_out w.
Proof.
  unfold task_com_apply_dp_write. destruct (intercept _ "Network_Save") as [[save batch]| | ]; [|done|done].
  cbn [mbind res_bind]. destruct (intercept _ "Log_Command") as [[cmd batch']| | ]; [|done|done].
  cbn [mbind res_bind].
  destruct (match cmd with Some z => _ | None => Ok w end) as [w1| | ] eqn:Ew; [|done|done].
  assert (tc_net w1 = tc_net w ∧ tc_out w1 = tc_out w) as [En Eo].
  { destruct cmd as [z|]; [by apply (log_command_net w z)|by injection Ew as <-]. }
  cbn [mbind res_bind]. destruct (dp_write_batch _ _ _ _ _ _) as [[[[[ok errs] p] s'] n']| | ] eqn:Eb; [|done|done].
  apply write_batch_ok in Eb. cbn [mbind res_bind]. destruct ok; cbn [negb].
  - subst errs. intros H He. exfalso.
    assert (errors_of (if p then [] else add_string "warning" (cstr "nvs_save_failed")) = None) as Hp
      by by destruct p.
    destruct (_ =? 0).
    + apply applied_no_errors in H as [H _]; [congruence|done].
    + destruct (network_config_save_handle _ _ _ _) as [[b net]| | ]; [|done|done].
      cbn [mbind res_bind fst snd] in H. destruct b; cbn [negb] in H.
      * apply applied_no_errors in H as [H _]; [congruence|]. by destruct p.
      * injection H as <- <-. by destruct p.
  - destruct Eb as (-> & -> & -> & Hne). intros H He. injection H as <- <-.
    split; [reflexivity|]. split; [|exact Eo].
    transitivity ((tc_net w) <| ns_dp := (ns_dp (tc_net w)) <| g_dp_store := g_dp_store (ns_dp (tc_net w)) |> |>
                           <| ns_nvs := ns_nvs (tc_net w) |>); [by rewrite <- En|].
    rewrite same_store. apply same_net.
Qed.

(** A dp_write without the member "dp" restarts the device: the session passes
    the null pointer on, the empty batch is accepted whenever the current values
    satisfy the rules, and the readback dereferences it. *)
Theorem dp_write_without_object_crashes io w live m :
  get_item m "dp" = None → img_ok live → dp_constraints_ok (ns_img (tc_net w)) = Ok None →
  task_com_apply_dp_write (nvs := nvs) esp_partition_read esp_partition_write io w live
    (get_item m "dp") = OutOfBounds.
Proof.
  intros Hm Hl Hc. rewrite Hm. unfold task_com_apply_dp_write. cbn [default intercept mbind res_bind].
  change (intercept CNull "Network_Save") with (@Ok (option Z * cjson) (None, CNull)). cbn [mbind res_bind].
  change (intercept CNull "Log_Command") with (@Ok (option Z * cjson) (None, CNull)). cbn [mbind res_bind]. unfold dp_write_batch, dp_write_locked.
  change (dp_items CNull) with (@nil dp_item). cbn [validate_items mbind res_bind].
  fold (ns_img (tc_net w)). rewrite Hc. cbn [mbind res_bind commit_items negb].
  destruct (config_save_total ((ns_dp (tc_net w)) <| g_dp_store := live |>) (ns_nvs (tc_net w))
    (ci_open io) (ci_commit io)) as [r Er]; [exact Hl|]. rewrite Er. cbn [mbind res_bind negb].
  reflexivity.
Qed.
End dp_write.

(** ** Executions *)

Definition no_flash : log_flash_t := log_flash_boot.

Definition com_demo : com_state room_nvs (list Z) :=
  mk_com (running on_old 0) (logging_init_early 7 (replicate 256 0)) no_flash [] [].

Definition all_ok_io : com_io := mk_com_io ESP_OK ESP_OK all_ok true.

Definition demo_write (l : list (list Z * cjson)) : res (list (list Z * cjson) * com_state room_nvs (list Z)) :=
  task_com_apply_dp_write RamFlash.read RamFlash.write all_ok_io com_demo on_old (Some (CObject l)).

Definition num_member (k : string) (z : Z) : list (list Z * cjson) := member k (CNumber (f64_of_Z z)).

Lemma rejected_dp_write_changes_nothing_witness :
  ∃ r w', demo_write (num_member "Network_SSID" 5 ++ num_member "Network_Save" 2) = Ok (r, w') ∧
    status_of r = Some (CString (cstr "rejected")) ∧ tc_net w' = tc_net com_demo.
Proof.
  assert (∃ r w', demo_write (num_member "Network_SSID" 5 ++ num_member "Network_Save" 2) = Ok (r, w') ∧
    errors_of r = Some (CObject (add_string "Network_SSID" (cstr "type_mismatch")))) as (r & w' & E & He)
    by (do 2 eexists; split; vm_compute; reflexivity).
  exists r, w'. split; [exact E|].
  destruct (rejected_dp_write_changes_nothing RamFlash.read RamFlash.write all_ok_io com_demo
    (Some (CObject (num_member "Network_SSID" 5 ++ num_member "Network_Save" 2))) r w' _ E He) as (Hs & Hn & _).
  split; [exact Hs|exact Hn].
Defined.

Lemma on_old_ok : img_typedb on_old = true ∧ dp_constraints_ok on_old = Ok None.
Proof. split; vm_compute; reflexivity. Qed.

Lemma dp_write_without_object_crashes_witness :
  task_com_apply_dp_write RamFlash.read RamFlash.write all_ok_io com_demo on_old
    (get_item (CObject (add_string "type" (cstr "dp_write"))) "dp") = OutOfBounds.
Proof.
  apply (dp_write_without_object_crashes RamFlash.read RamFlash.write all_ok_io com_demo on_old).
  - vm_compute. reflexivity.
  - exact (proj1 (img_typedb_spec _ (proj1 on_old_ok))).
  - exact (proj2 on_old_ok).
Defined.

(** A dp_write with an unknown Network_Save action is answered "rejected", but
    its other points have been applied and stored. *)
Theorem invalid_save_rejected_but_applied :
  ∃ r w', demo_write (add_string "Network_SSID" (cstr "new") ++ num_member "Network_Save" 9) = Ok (r, w') ∧
    status_of r = Some (CString (cstr "rejected")) ∧
    get_item (CObject r) "error" = Some (CString (cstr "invalid_network_save")) ∧
    dp_str (ns_img (tc_net w')) "Network_SSID" = Ok (cstr "new").
Proof. do 2 eexists. split; [vm_compute; reflexivity|]. vm_compute. auto. Qed.

(** An empty object reads everything back, and a Network_Save above 255 is a
    conversion C leaves undefined. *)
Theorem dp_write_edges :
  (∃ r w', demo_write [] = Ok (r, w') ∧
     match get_item (CObject r) "readback" with
     | Some (CObject l) => length l = length g_dp
     | _ => False
     end) ∧
  demo_write (num_member "Network_Save" 257) = OutOfBounds.
Proof.
  split; [|vm_compute; reflexivity].
  do 2 eexists. split; [vm_compute; reflexivity|]. vm_compute. reflexivity.
Qed.
