(* ===== verification/CanOpenTask.v ===== *)
(** * The CANopen task: src/device/canopen_task.{h,c}

    The owner of the CANopen core: the object dictionary over the datapoints
    (reads, and writes through the validated dp_write of TaskCom), the TWAI driver
    as answers of the environment, the default process data, and the cycle with
    bus-off handling, emergencies and the once-a-second housekeeping.  The core's
    callbacks are the instance of [CoApp] at the end of the object dictionary. *)

From Stdlib Require Import SpecFloat.
From S2P Require Import Prelude Bytes Float32 Float64 DpCatalog Datapoints NetworkConfig.
From S2P Require Import FpAuth FpSession LogCore LogFlash Hal PumpTask TaskCom.
From S2P Require Import CoTypes CoOd CoPdo CoSdo CoNode.
Local Open Scope string_scope.
Local Open Scope list_scope.
Local Open Scope Z_scope.

(** ** Constants *)

Definition CAN_ST_OFF : Z := 0.
Definition CAN_ST_INIT : Z := 1.
Definition CAN_ST_PREOP : Z := 2.
Definition CAN_ST_OPERATIONAL : Z := 3.
Definition CAN_ST_STOPPED : Z := 4.
Definition CAN_ST_BUS_OFF : Z := 5.

Definition CO_IDX_DP_BASE : Z := 0x2000.
Definition CO_IDX_DP_COUNT : Z := 0x2FFF.
Definition CO_IDX_DESC_BASE : Z := 0x3000.
Definition CO_PRODUCT_CODE : Z := 0x464E5400.
Definition CO_BUS_OFF_STALL_MS : Z := 3000.
Definition CO_ABSENT_BUS_OFFS : Z := 5.
Definition CO_ABSENT_HOLD_MS : Z := 30000.
Definition CO_RX_BURST_MAX : nat := 32.
Definition CANOPEN_TASK_PERIOD_MS : Z := 10.

Definition CO_ABORT_WRITE_ONLY : Z := 0x06010001.
Definition CO_ABORT_TYPE_TOO_HIGH : Z := 0x06070012.
Definition CO_ABORT_TYPE_TOO_LOW : Z := 0x06070013.
Definition CO_ABORT_GENERAL : Z := 0x08000000.
Definition CO_EMCY_DEVICE_SPECIFIC : Z := 0xFF00.
Definition CO_ERR_DEVICE_SPECIFIC : Z := 0x80.

(** The numbers of the two enums in a descriptor. *)
Definition dp_type_code (t : dp_type_t) : Z :=
  match t with
  | DP_BOOL => 0 | DP_U8 => 1 | DP_U16 => 2 | DP_U32 => 3 | DP_U64 => 4
  | DP_I8 => 5 | DP_I16 => 6 | DP_I32 => 7 | DP_F32 => 8 | DP_ENUM => 9 | DP_STR => 10
  end.
Definition dp_access_code (a : dp_access_t) : Z := match a with DP_RO => 0 | DP_RW => 1 | DP_WO => 2 end.

(** ** Object dictionary: reads *)

Definition dp_is_secret (d : dp_desc_t) : bool :=
  String.eqb (dd_name d) "Network_Password" || String.eqb (dd_name d) "Backup_Password".

Definition strnlen (s : list Z) : nat :=
  (fix go (l : list Z) : nat := match l with [] => O | c :: l => if c =? 0 then O else S (go l) end) s.

(** The abort code and the bytes: every reader returns both, none on an abort. *)
Definition od_read_dp (img : list Z) (d : dp_desc_t) (cap : Z) : res (Z * list Z) :=
  if bool_decide (dd_access d = DP_WO) || dp_is_secret d then Ok (CO_ABORT_WRITE_ONLY, []) else
  raw ← dp_raw_get img d;
  let n := if bool_decide (dd_type d = DP_STR) then strnlen raw else length raw in
  if cap <? Z.of_nat n then Ok (CO_ABORT_OUT_OF_MEMORY, []) else Ok (0, take n raw).

Definition od_bytes (cap : Z) (b : list Z) : Z * list Z :=
  if cap <? zlen b then (CO_ABORT_OUT_OF_MEMORY, []) else (0, b).

Definition od_read_desc (d : dp_desc_t) (sub cap : Z) : Z * list Z :=
  if sub =? 0 then od_bytes cap [3]
  else if sub =? 1 then od_bytes cap (cstr (dd_name d))
  else if sub =? 2 then od_bytes cap [dp_type_code (dd_type d)]
  else if sub =? 3 then od_bytes cap [if dp_is_secret d then dp_access_code DP_WO else dp_access_code (dd_access d)]
  else (CO_ABORT_NO_SUBINDEX, []).

Definition dp_count : Z := zlen g_dp.

Definition od_read_cb (img : list Z) (index sub cap : Z) : res (Z * list Z) :=
  if index =? CO_IDX_DP_COUNT then
    Ok (if negb (sub =? 0) then (CO_ABORT_NO_SUBINDEX, []) else od_bytes cap (co_put_u16 dp_count))
  else if (CO_IDX_DP_BASE <=? index) && (index <? CO_IDX_DP_BASE + dp_count) then
    if negb (sub =? 0) then Ok (CO_ABORT_NO_SUBINDEX, [])
    else d ← array_get g_dp (index - CO_IDX_DP_BASE); od_read_dp img d cap
  else if (CO_IDX_DESC_BASE <=? index) && (index <? CO_IDX_DESC_BASE + dp_count) then
    d ← array_get g_dp (index - CO_IDX_DESC_BASE); Ok (od_read_desc d sub cap)
  else Ok (CO_ABORT_NO_OBJECT, []).

(** ** Object dictionary: writes *)

Definition abort_from_dp_error (code : option (list Z)) : Z :=
  let code_is (s : string) := bool_decide (code = Some (cstr s)) in
  if code_is "out_of_range" then CO_ABORT_VALUE_RANGE
  else if code_is "type_mismatch" then CO_ABORT_TYPE_MISMATCH
  else if code_is "read_only" then CO_ABORT_READ_ONLY
  else if code_is "unknown_name" then CO_ABORT_NO_OBJECT
  else if code_is "constraint_violation" then CO_ABORT_PARAM_INCOMPAT
  else if code_is "invalid_network_save" then CO_ABORT_VALUE_RANGE
  else CO_ABORT_GENERAL.

(** The JSON value of the CANopen bytes, or the abort code. *)
Definition json_from_raw (d : dp_desc_t) (buf : list Z) : Z + cjson :=
  let len := zlen buf in
  match dd_type d with
  | DP_STR => if DP_STR_MAX <=? len then inl CO_ABORT_TYPE_TOO_HIGH else inr (CString (take (strnlen buf) buf))
  | ty =>
      let need := dp_type_size ty in
      if negb (len =? need) then inl (if need <? len then CO_ABORT_TYPE_TOO_HIGH else CO_ABORT_TYPE_TOO_LOW)
      else
        let v := le_get buf in
        inr match ty with
            | DP_BOOL => CBool (negb (v =? 0))
            | DP_I8 => CNumber (f64_of_Z (i8 v))
            | DP_I16 => CNumber (f64_of_Z (i16 v))
            | DP_I32 => CNumber (f64_of_Z (i32 v))
            | DP_F32 => CNumber (f64_of_f32 (f32_of_bits v))
            | DP_U64 => CString (cstr "0x" ++ hex16 v)
            | DP_U16 => CNumber (f64_of_Z (u16 v))
            | DP_U32 => CNumber (f64_of_Z (u32 v))
            | _ => CNumber (f64_of_Z (u8 v))
            end
  end.

(** The abort code of the answer of dp_write: the error of the point, else the
    first of the list, else the error of the action. *)
Definition abort_of_result (name : string) (r : list (list Z * cjson)) : Z :=
  let res := CObject r in
  if bool_decide (str_of res "status" = Some (cstr "applied")) then 0
  else
    let errs := get_item res "errors" in
    let own := match errs with Some e => str_of e name | None => None end in
    let first := match errs with
                 | Some (CObject ((_, CString s) :: _)) => Some s
                 | _ => None
                 end in
    abort_from_dp_error
      match own, first with
      | Some s, _ => Some s
      | None, Some s => Some s
      | None, None => str_of res "error"
      end.

(** ** State *)

Record can_t := mk_can {
  s_bHw : bool;
  s_bRunning : bool;
  s_bEnabled : bool;
  s_bLoopback : bool;
  s_ucNodeId : Z;
  s_usKbps : Z;
  s_usHeartbeatMs : Z;
  s_ulLastHousekeepingMs : Z;
  s_bBusOff : bool;
  s_ulBusOffSinceMs : Z;
  s_usBusOffCount : Z;
  s_ulBusErrorsAccum : Z;
  s_ulRxAccum : Z;
  s_ulTxAccum : Z;
  s_ulSdoAccum : Z;
  s_ulPdoTxAccum : Z;
  s_ulPdoRxAccum : Z;
  s_ulEmcyAccum : Z;
  s_bMasterActive : bool;
  s_ucBusOffStreak : Z;
  s_ulRxSeen : Z;
  s_bAbsent : bool;
  s_ulAbsentSinceMs : Z;
  s_ucFaultPending : Z;
  s_ucFaultCode : Z
}.

#[export] Instance eta_can_t : Eta can_t := λ r, mk_can (s_bHw r) (s_bRunning r) (s_bEnabled r) (s_bLoopback r) (s_ucNodeId r) (s_usKbps r)
      (s_usHeartbeatMs r) (s_ulLastHousekeepingMs r) (s_bBusOff r) (s_ulBusOffSinceMs r)
      (s_usBusOffCount r) (s_ulBusErrorsAccum r) (s_ulRxAccum r) (s_ulTxAccum r)
      (s_ulSdoAccum r) (s_ulPdoTxAccum r) (s_ulPdoRxAccum r) (s_ulEmcyAccum r)
      (s_bMasterActive r) (s_ucBusOffStreak r) (s_ulRxSeen r) (s_bAbsent r)
      (s_ulAbsentSinceMs r) (s_ucFaultPending r) (s_ucFaultCode r).
#[export] Instance set_s_bHw : Setter s_bHw. Proof. mk_setter. Defined.
#[export] Instance set_s_bRunning : Setter s_bRunning. Proof. mk_setter. Defined.
#[export] Instance set_s_bEnabled : Setter s_bEnabled. Proof. mk_setter. Defined.
#[export] Instance set_s_bLoopback : Setter s_bLoopback. Proof. mk_setter. Defined.
#[export] Instance set_s_ucNodeId : Setter s_ucNodeId. Proof. mk_setter. Defined.
#[export] Instance set_s_usKbps : Setter s_usKbps. Proof. mk_setter. Defined.
#[export] Instance set_s_usHeartbeatMs : Setter s_usHeartbeatMs. Proof. mk_setter. Defined.
#[export] Instance set_s_ulLastHousekeepingMs : Setter s_ulLastHousekeepingMs. Proof. mk_setter. Defined.
#[export] Instance set_s_bBusOff : Setter s_bBusOff. Proof. mk_setter. Defined.
#[export] Instance set_s_ulBusOffSinceMs : Setter s_ulBusOffSinceMs. Proof. mk_setter. Defined.
#[export] Instance set_s_usBusOffCount : Setter s_usBusOffCount. Proof. mk_setter. Defined.
#[export] Instance set_s_ulBusErrorsAccum : Setter s_ulBusErrorsAccum. Proof. mk_setter. Defined.
#[export] Instance set_s_ulRxAccum : Setter s_ulRxAccum. Proof. mk_setter. Defined.
#[export] Instance set_s_ulTxAccum : Setter s_ulTxAccum. Proof. mk_setter. Defined.
#[export] Instance set_s_ulSdoAccum : Setter s_ulSdoAccum. Proof. mk_setter. Defined.
#[export] Instance set_s_ulPdoTxAccum : Setter s_ulPdoTxAccum. Proof. mk_setter. Defined.
#[export] Instance set_s_ulPdoRxAccum : Setter s_ulPdoRxAccum. Proof. mk_setter. Defined.
#[export] Instance set_s_ulEmcyAccum : Setter s_ulEmcyAccum. Proof. mk_setter. Defined.
#[export] Instance set_s_bMasterActive : Setter s_bMasterActive. Proof. mk_setter. Defined.
#[export] Instance set_s_ucBusOffStreak : Setter s_ucBusOffStreak. Proof. mk_setter. Defined.
#[export] Instance set_s_ulRxSeen : Setter s_ulRxSeen. Proof. mk_setter. Defined.
#[export] Instance set_s_bAbsent : Setter s_bAbsent. Proof. mk_setter. Defined.
#[export] Instance set_s_ulAbsentSinceMs : Setter s_ulAbsentSinceMs. Proof. mk_setter. Defined.
#[export] Instance set_s_ucFaultPending : Setter s_ucFaultPending. Proof. mk_setter. Defined.
#[export] Instance set_s_ucFaultCode : Setter s_ucFaultCode. Proof. mk_setter. Defined.

(** Structured log records of the module, its pin writes and recovery requests. *)
Inductive can_log :=
  | LOG_EVT_CAN_SDO_WRITE (index sub abort len : Z)
  | LOG_EVT_CAN_DRIVER_ERROR (a b : Z)
  | LOG_EVT_CAN_NMT (eOld eNew : co_nmt_state_t)
  | LOG_EVT_CAN_STARTED (node kbps : Z)
  | LOG_EVT_CAN_STOPPED (reason : Z)
  | LOG_EVT_CAN_MASTER (active : bool)
  | LOG_EVT_CAN_BUS_OFF (count paused : Z)
  | LOG_EVT_CAN_RECOVERED
  | LOG_EVT_CAN_EMCY (code reg : Z)
  | CAN_GPIO (writes : list gpio_write)
  | TWAI_INITIATE_RECOVERY.

(** A message of the driver: identifier, extended, remote, length code and data. *)
Record twai_message := mk_twai {
  tm_identifier : Z;
  tm_extd : bool;
  tm_rtr : bool;
  tm_dlc : Z;
  tm_data : list Z
}.

(** The alerts of [twai_read_alerts] the module acts on. *)
Record twai_alerts := mk_alerts { BUS_OFF : bool; BUS_RECOVERED : bool }.

(** The partition functions of the log flash, which Log_Command reaches. *)
Class Partition (P : Type) := {
  part_read : P → Z → Z → option (list Z);
  part_write : P → Z → list Z → option P
}.

Section canopen.
Context {nvs : Type} `{!NvsApi nvs} {P : Type} `{!Partition P}.

(** What the core's callbacks reach: the module's state, the device behind
    dp_write, the answers of the flash calls and of the coming transmissions (they
    fail after its end), the received messages the driver holds, and the log.
    [ca_stuck]: a callback has left an array or run into
    undefined behaviour; it then answers with a general error
    (CanOpenProps.canopen_device_total: it never happens). *)
Record can_app := mk_can_app {
  ca_can : can_t;
  ca_com : com_state nvs P;
  ca_io : com_io;
  ca_tx : list bool;
  ca_rx : list twai_message;
  ca_log : list can_log;
  ca_stuck : bool
}.
#[local] Instance eta_can_app : Eta can_app := λ r, mk_can_app (ca_can r) (ca_com r) (ca_io r)
      (ca_tx r) (ca_rx r) (ca_log r) (ca_stuck r).
#[local] Instance set_ca_can : Setter ca_can. Proof. mk_setter. Defined.
#[local] Instance set_ca_com : Setter ca_com. Proof. mk_setter. Defined.
#[local] Instance set_ca_io : Setter ca_io. Proof. mk_setter. Defined.
#[local] Instance set_ca_tx : Setter ca_tx. Proof. mk_setter. Defined.
#[local] Instance set_ca_rx : Setter ca_rx. Proof. mk_setter. Defined.
#[local] Instance set_ca_log : Setter ca_log. Proof. mk_setter. Defined.
#[local] Instance set_ca_stuck : Setter ca_stuck. Proof. mk_setter. Defined.

Definition ca_img (a : can_app) : list Z := ns_img (tc_net (ca_com a)).
Definition ca_emit (a : can_app) (l : list can_log) : can_app := a <| ca_log := ca_log a ++ l |>.
Definition stuck (a : can_app) : can_app := a <| ca_stuck := true |>.

(** ** The callbacks *)

(** The member the write sends through dp_write. *)
Definition write_dp (a : can_app) (d : dp_desc_t) (v : cjson) : can_app * Z :=
  match task_com_apply_dp_write part_read part_write (ca_io a) (ca_com a) (ca_img a)
          (Some (CObject (member (dd_name d) v))) with
  | Ok (r, com) => (a <| ca_com := com |>, abort_of_result (dd_name d) r)
  | _ => (stuck a, CO_ABORT_GENERAL)
  end.

Definition od_write_cb (a : can_app) (index sub : Z) (buf : list Z) : can_app * Z :=
  if (index =? CO_IDX_DP_COUNT)
     || ((CO_IDX_DESC_BASE <=? index) && (index <? CO_IDX_DESC_BASE + dp_count)) then (a, CO_ABORT_READ_ONLY)
  else if (index <? CO_IDX_DP_BASE) || (CO_IDX_DP_BASE + dp_count <=? index) then (a, CO_ABORT_NO_OBJECT)
  else if negb (sub =? 0) then (a, CO_ABORT_NO_SUBINDEX)
  else
    match array_get g_dp (index - CO_IDX_DP_BASE) with
    | Ok d =>
        if bool_decide (dd_access d = DP_RO) then (a, CO_ABORT_READ_ONLY) else
        match json_from_raw d buf with
        | inl abort => (a, abort)
        | inr v =>
            let '(a, abort) := write_dp a d v in
            (ca_emit a [LOG_EVT_CAN_SDO_WRITE index sub abort (zlen buf)], abort)
        end
    | _ => (stuck a, CO_ABORT_GENERAL)
    end.

Definition od_read_app (a : can_app) (index sub cap : Z) : can_app * (Z * list Z) :=
  match od_read_cb (ca_img a) index sub cap with
  | Ok r => (a, r)
  | _ => (stuck a, (CO_ABORT_GENERAL, []))
  end.

Definition can_send_cb (a : can_app) (f : co_frame_t) : can_app * bool :=
  if negb (s_bRunning (ca_can a)) || s_bBusOff (ca_can a) then (a, false)
  else match ca_tx a with
       | ok :: rest => (a <| ca_tx := rest |>, ok)
       | [] => (a, false)
       end.

Definition dp_id (name : string) : Z :=
  (fix go (l : list dp_desc_t) (i : Z) : Z :=
     match l with [] => i | d :: l => if String.eqb (dd_name d) name then i else go l (i + 1) end) g_dp 0.
Definition MAP_DP (name : string) (bits : Z) : Z :=
  Z.lor (Z.shiftl (CO_IDX_DP_BASE + dp_id name) 16) bits.

Definition t1 : list Z := [MAP_DP "Fon_Current_Pressure" 32; MAP_DP "Fon_Current_State" 8;
                           MAP_DP "Fon_Relay_Output" 8; MAP_DP "Fon_Fault_Code" 8].
Definition t2 : list Z := [MAP_DP "Fon_Pressure_Filtered" 32; MAP_DP "Fon_Pressure_Slope" 32].
Definition t3 : list Z := [MAP_DP "System_Uptime" 32; MAP_DP "Fon_Run_Time" 32].
Definition t4 : list Z := [MAP_DP "System_Temperature" 32; MAP_DP "Net_Link_Score" 8;
                           MAP_DP "Fon_Demand_State" 8; MAP_DP "Fon_Starts_Per_Hour" 8;
                           MAP_DP "System_Power_Mode" 8].
Definition r1 : list Z := [MAP_DP "Fon_Fault_Ack" 8; MAP_DP "Fon_Event_Label" 8].

Definition pdo_defaults : list co_conf :=
  [ConfTpdo 0 0 255 200 1000 t1; ConfTpdo 1 0 255 500 2000 t2; ConfTpdo 2 0 255 1000 5000 t3;
   ConfTpdo 3 0 255 1000 5000 t4; ConfRpdo 0 0 255 r1].

(** The error register from the live pump state. *)
Definition fault_bits (img : list Z) : res (list co_conf) :=
  f ← ref_uint img "Fon_Fault_Code";
  Ok (if f =? 0 then [] else [ConfError (Z.lor CO_ERR_GENERIC CO_ERR_DEVICE_SPECIFIC)]).

Definition cb_reset (a : can_app) (bResetNode : bool) : can_app * list co_conf :=
  match fault_bits (ca_img a) with
  | Ok l => (a, pdo_defaults ++ l)
  | _ => (stuck a, pdo_defaults)
  end.

Definition cb_nmt_changed (a : can_app) (eOld eNew : co_nmt_state_t) : can_app :=
  ca_emit a [LOG_EVT_CAN_NMT eOld eNew].

#[local] Instance canopen_app : CoApp can_app := {|
  app_send := Some can_send_cb;
  app_od_read := Some od_read_app;
  app_od_write := Some od_write_cb;
  app_on_reset := Some cb_reset;
  app_on_nmt_changed := Some cb_nmt_changed
|}.

(** ** The driver and the core *)

Definition can_world : Type := CoTypes.world can_app.

Variable p : hal_pins_t.
Variable hw_rev : list Z.

Definition now_ms (us : Z) : Z := u32 (us / 1000).

Definition can (w : can_world) : can_t := ca_can (w_app w).
Definition set_can (w : can_world) (c : can_t) : can_world := w <| w_app := (w_app w) <| ca_can := c |> |>.
Definition can_emit (w : can_world) (l : list can_log) : can_world := w <| w_app := ca_emit (w_app w) l |>.
Definition set_queue (w : can_world) (q : list twai_message) : can_world :=
  w <| w_app := (w_app w) <| ca_rx := q |> |>.
Definition can_img (w : can_world) : list Z := ca_img (w_app w).
Definition set_can_img (w : can_world) (img : list Z) : can_world :=
  let a := w_app w in
  let com := ca_com a in
  w <| w_app := a <| ca_com := com <| tc_net := set_img (tc_net com) img |> |> |>.
Definition can_put (w : can_world) (l : list (string * dp_const)) : res can_world :=
  img ← dp_refs_put (can_img w) l; Ok (set_can_img w img).

(** The answers of the driver to one start (error codes, 0 is ESP_OK), the clock
    at the start of the core, and [twai_get_status_info] (bus errors and failed
    transmissions) when the driver stops and in the housekeeping. *)
Record drv_io := mk_drv {
  di_install : Z;
  di_start : Z;
  di_core_us : Z;
  di_stop_status : option (Z * Z);
  di_status : option (Z * Z)
}.

(** The bit rates with a timing preset. *)
Definition timing_for (usKbps : Z) : bool :=
  bool_decide (usKbps ∈ [10; 20; 50; 100; 125; 250; 500; 800; 1000]).

Definition driver_start (io : drv_io) (w : can_world) : bool * can_world :=
  let c := can w in
  if negb (timing_for (s_usKbps c)) then (false, can_emit w [LOG_EVT_CAN_DRIVER_ERROR (s_usKbps c) 0])
  else if negb (di_install io =? 0) then (false, can_emit w [LOG_EVT_CAN_DRIVER_ERROR (di_install io) 1])
  else if negb (di_start io =? 0) then (false, can_emit w [LOG_EVT_CAN_DRIVER_ERROR (di_start io) 2])
  else
    let w := can_emit w [CAN_GPIO (hal_can_standby_set p false)] in
    (true, set_can w (c <| s_bBusOff := false |> <| s_bRunning := true |>)).

Definition stats_zero : co_stats_t := mk_co_stats 0 0 0 0 0 0 0 0.

Definition status_errors (st : option (Z * Z)) : Z :=
  match st with Some (bus, txf) => u32 (bus + txf) | None => 0 end.

Definition driver_stop (io : drv_io) (w : can_world) : can_world :=
  let c := can w in
  if negb (s_bRunning c) then w else
  let w := can_emit w [CAN_GPIO (hal_can_standby_set p true)] in
  let st := n_stats (w_node w) in
  let c := c <| s_ulBusErrorsAccum :=
                  u32 (s_ulBusErrorsAccum c + status_errors (di_stop_status io) + st_tx_failed st) |>
             <| s_ulRxAccum := u32 (s_ulRxAccum c + st_rx_frames st) |>
             <| s_ulTxAccum := u32 (s_ulTxAccum c + st_tx_frames st) |>
             <| s_ulSdoAccum := u32 (s_ulSdoAccum c + st_sdo_requests st) |>
             <| s_ulPdoTxAccum := u32 (s_ulPdoTxAccum c + st_pdo_tx st) |>
             <| s_ulPdoRxAccum := u32 (s_ulPdoRxAccum c + st_pdo_rx st) |>
             <| s_ulEmcyAccum := u32 (s_ulEmcyAccum c + st_emcy_tx st) |>
             <| s_bRunning := false |> <| s_bBusOff := false |> in
  set_queue (set_can (w <| w_node := (w_node w) <| n_stats := stats_zero |> |>) c) [].

(** One [%u] of sscanf: white space, a sign, decimal digits; [None] stops the
    scan.  A number beyond 32 bits is reported as the largest one, as strtoul does. *)
Definition scan_u (s : list Z) : option (Z * list Z) :=
  let s := skip_space s in
  let '(neg, s) := match s with
                   | 45 :: r => (true, r) | 43 :: r => (false, r) | _ => (false, s) end in
  match s with
  | c :: _ =>
      if digit_of c <? 10 then
        let '(v, rest) := digits 10 0 s in
        Some (if v <? 2 ^ 32 then (if neg : bool then u32 (- v) else v) else 2 ^ 32 - 1, rest)
      else None
  | [] => None
  end.

(** [sscanf(s, "%u.%u.%u", ...)] with the variables 0 before it: the numbers read. *)
Fixpoint scan_dotted (n : nat) (s : list Z) : list Z :=
  match n with
  | O => []
  | S n =>
      match scan_u s with
      | None => []
      | Some (v, 46 :: rest) => v :: scan_dotted n rest
      | Some (v, _) => [v]
      end
  end.

Definition sw_revision_u32 (pstrVer : list Z) : Z :=
  let ns := scan_dotted 3 pstrVer in
  Z.lor (Z.lor (Z.shiftl (Z.land (byte_at ns 0) 0xFF) 16) (Z.shiftl (Z.land (byte_at ns 1) 0xFF) 8))
        (Z.land (byte_at ns 2) 0xFF).

(** The version string is a pointer into the image; no point operation changes it
    after the boot (read-only, not persisted), so its text is taken here. *)
Definition core_start (us : Z) (w : can_world) : res can_world :=
  let c := can w in
  ver ← dp_str (can_img w) "Device_SW_Version";
  serial ← ref_uint (can_img w) "Device_Serial_Number";
  let cfg := mk_co_config (s_ucNodeId c) (s_usHeartbeatMs c) 0 0 CO_PRODUCT_CODE (sw_revision_u32 ver)
               (u32 serial) (cstr "Fountainer") hw_rev ver true in
  w' ← co_init (w_app w) cfg (now_ms us);
  w' ← apply_conf (w' <| w_wire := w_wire w ++ w_wire w' |>) pdo_defaults;
  l ← fault_bits (can_img w');
  apply_conf w' l.

(** The subscriber of EVT_PUMP_FAULT ([Some] payload) and EVT_PUMP_FAULT_CLEARED. *)
Definition evt_pump_fault (c : can_t) (fault : option (list Z)) : can_t :=
  match fault with
  | Some pl => c <| s_ucFaultCode := default 0 (head pl) |> <| s_ucFaultPending := 1 |>
  | None => c <| s_ucFaultPending := 2 |>
  end.

Definition start_all (io : drv_io) (w : can_world) : res (bool * can_world) :=
  let '(ok, w) := driver_start io w in
  if negb ok then Ok (false, w) else
  w ← core_start (di_core_us io) w;
  Ok (true, can_emit w [LOG_EVT_CAN_STARTED (s_ucNodeId (can w)) (s_usKbps (can w))]).

Definition stop_all (io : drv_io) (slReason : Z) (w : can_world) : can_world :=
  if negb (s_bRunning (can w)) then w
  else can_emit (driver_stop io w) [LOG_EVT_CAN_STOPPED slReason].

(** The five configuration points as they are now. *)
Definition config_points_read (img : list Z) : res (bool * bool * Z * Z * Z) :=
  en ← ref_uint img "Can_Enabled";
  lb ← ref_uint img "Can_Loopback";
  id ← ref_uint img "Can_Node_Id";
  kb ← ref_uint img "Can_Bitrate";
  hb ← ref_uint img "Can_Heartbeat_Ms";
  Ok (negb (en =? 0), negb (lb =? 0), id, kb, hb).

Definition config_snapshot (w : can_world) : res can_world :=
  cfg ← config_points_read (can_img w);
  let '(en, lb, id, kb, hb) := cfg in
  Ok (set_can w ((can w) <| s_bEnabled := en |> <| s_bLoopback := lb |> <| s_ucNodeId := id |>
                         <| s_usKbps := kb |> <| s_usHeartbeatMs := hb |>)).

Definition state_code (w : can_world) : Z :=
  let c := can w in
  if negb (s_bHw c) then CAN_ST_OFF
  else if s_bAbsent c then CAN_ST_BUS_OFF
  else if negb (s_bRunning c) then CAN_ST_OFF
  else if s_bBusOff c then CAN_ST_BUS_OFF
  else match co_nmt_state (w_node w) with
       | CO_NMT_INITIALISING => CAN_ST_INIT
       | CO_NMT_PREOPERATIONAL => CAN_ST_PREOP
       | CO_NMT_OPERATIONAL => CAN_ST_OPERATIONAL
       | CO_NMT_STOPPED => CAN_ST_STOPPED
       end.

(** ** Housekeeping *)

Definition master_presence_update (ulNow : Z) (w : can_world) : res can_world :=
  timeout ← ref_uint (can_img w) "Can_Master_Timeout_Ms";
  let c := can w in
  let bActive := s_bRunning c && co_master_active (w_node w) ulNow timeout in
  let w := if bool_decide (bActive = s_bMasterActive c) then w
           else can_emit (set_can w (c <| s_bMasterActive := bActive |>)) [LOG_EVT_CAN_MASTER bActive] in
  can_put w [("Can_Master_Active", CInt (if bActive then 1 else 0));
             ("Can_Master_Age_S",
              CInt (if s_bRunning c && n_master_seen (w_node w)
                    then u32 (ulNow - n_last_master_ms (w_node w)) / 1000 else 0xFFFFFFFF))].

(** The mirrors, in the order of the assignments. *)
Definition mirrors (io : drv_io) (w : can_world) : list (string * dp_const) :=
  let c := can w in
  let st := n_stats (w_node w) in
  let ulErr := u32 (s_ulBusErrorsAccum c + st_tx_failed st) in
  let ulErr := if s_bRunning c then u32 (ulErr + status_errors (di_status io)) else ulErr in
  [("Can_State", CInt (state_code w));
   ("Can_Rx_Frames", CInt (u32 (s_ulRxAccum c + st_rx_frames st)));
   ("Can_Tx_Frames", CInt (u32 (s_ulTxAccum c + st_tx_frames st)));
   ("Can_Bus_Errors", CInt ulErr);
   ("Can_Bus_Off_Count", CInt (s_usBusOffCount c));
   ("Can_Sdo_Count", CInt (u32 (s_ulSdoAccum c + st_sdo_requests st)));
   ("Can_Pdo_Tx_Count", CInt (u32 (s_ulPdoTxAccum c + st_pdo_tx st)));
   ("Can_Pdo_Rx_Count", CInt (u32 (s_ulPdoRxAccum c + st_pdo_rx st)));
   ("Can_Emcy_Count", CInt (u16 (u32 (s_ulEmcyAccum c + st_emcy_tx st))));
   ("Can_Nmt_State", CInt (if s_bRunning c then nmt_code (co_nmt_state (w_node w)) else 0))].

(** The re-apply of the configuration. *)
Definition reapply_config (io : drv_io) (ulNow : Z) (w : can_world) : res can_world :=
  cfg ← config_points_read (can_img w);
  let '(bEn, bLb, ucId, usKb, usHb) := cfg in
  let c := can w in
  if negb (s_bRunning c) then
    if s_bAbsent c && (u32 (ulNow - s_ulAbsentSinceMs c) <? CO_ABSENT_HOLD_MS) then Ok w
    else if bEn : bool then
      w ← config_snapshot w;
      r ← start_all io w;
      let '(ok, w) := r in
      if ok : bool then Ok (set_can w ((can w) <| s_bAbsent := false |>)) else Ok w
    else Ok w
  else if negb bEn then
    let w := stop_all io 0 w in Ok (set_can w ((can w) <| s_bEnabled := false |>))
  else if negb (ucId =? s_ucNodeId c) || negb (usKb =? s_usKbps c)
          || negb (bool_decide (bLb = s_bLoopback c)) then
    w ← config_snapshot (stop_all io 1 w);
    r ← start_all io w; Ok r.2
  else if negb (usHb =? s_usHeartbeatMs c) then
    Ok (co_heartbeat_set (set_can w (c <| s_usHeartbeatMs := usHb |>)) usHb)
  else Ok w.

(** [heap]: free, minimum free and largest block. *)
Definition housekeeping (io : drv_io) (heap : Z * Z * Z) (ulNow : Z) (w : can_world) : res can_world :=
  let w := set_can w ((can w) <| s_ulLastHousekeepingMs := ulNow |>) in
  let '(free, min_free, largest) := heap in
  dp ← dp_refresh (ns_dp (tc_net (ca_com (w_app w)))) free min_free largest;
  w ← can_put (set_can_img w (g_dp_store dp)) (mirrors io w);
  w ← master_presence_update ulNow w;
  reapply_config io ulNow w.

(** ** Entry points *)

Definition can_zero : can_t :=
  mk_can false false false false 0 0 0 0 false 0 0 0 0 0 0 0 0 0 false 0 0 false 0 0 0.

(** [memset] of the state, the node included; the subscriptions follow the check
    of the transceiver. *)
Definition canopen_init (io : drv_io) (com : com_state nvs P) (cio : com_io) (tx : list bool)
    : res can_world :=
  let a := mk_can_app (can_zero <| s_bHw := hal_can_available p |>) com cio tx [] [] false in
  let w := mk_world (node_zero (mk_co_config 0 0 0 0 0 0 0 [] [] [] false)) a [] in
  if negb (hal_can_available p) then can_put w [("Can_State", CInt CAN_ST_OFF)]
  else
    w ← config_snapshot w;
    if negb (s_bEnabled (can w)) then Ok w
    else
      r ← start_all io w;
      can_put r.2 [("Can_State", CInt (state_code r.2))].

Definition frame_of (m : twai_message) : co_frame_t :=
  mk_frame (Z.land (tm_identifier m) 0x7FF) (if 8 <? tm_dlc m then 8 else tm_dlc m) (tm_rtr m) (tm_data m).

Definition rx_message (w : can_world) (m : twai_message) (ulNow : Z) : res can_world :=
  if tm_extd m then Ok w else co_rx w (frame_of m) ulNow.

(** The burst: [i] more iterations may run; a message that is received when none
    is left is not looked at.  [queue] is what [twai_receive] returns until it
    finds nothing; the second result is what the driver still holds. *)
Fixpoint rx_burst (i : nat) (w : can_world) (queue : list twai_message) (ulNow : Z)
    : res (can_world * list twai_message) :=
  match queue with
  | [] => Ok (w, [])
  | m :: queue =>
      match i with
      | O => Ok (w, queue)
      | S i => w ← rx_message w m ulNow; rx_burst i w queue ulNow
      end
  end.

Definition emcy_pending (w : can_world) : res can_world :=
  let c := can w in
  if s_ucFaultPending c =? 0 then Ok w else
  state ← ref_uint (can_img w) "Fon_Current_State";
  let w := set_can w (c <| s_ucFaultPending := 0 |>) in
  let usCode := if s_ucFaultPending c =? 1
                then u16 (Z.lor CO_EMCY_DEVICE_SPECIFIC (s_ucFaultCode c)) else CO_EMCY_NO_ERROR in
  let w := co_emcy w usCode (Z.lor CO_ERR_GENERIC CO_ERR_DEVICE_SPECIFIC)
             (Some [s_ucFaultCode c; state; 0; 0; 0]) in
  let w := can_emit w [LOG_EVT_CAN_EMCY usCode (n_error_register (w_node w))] in
  co_tpdo_request w 0.

(** One turn of the receive loop: the messages that arrive until the queue is
    found empty or the burst ends, and the clock. *)
Record rx_round := mk_round { rr_arrived : list twai_message; rr_us : Z }.

Definition rx_turn (w : can_world) (r : rx_round) : res can_world :=
  let ulNow := now_ms (rr_us r) in
  b ← rx_burst CO_RX_BURST_MAX w (ca_rx (w_app w) ++ rr_arrived r) ulNow;
  w ← emcy_pending (set_queue b.1 b.2);
  co_tick w ulNow.

(** The do-while loop over the turns the environment offers; it leaves the loop at
    the first clock reading a task period after [ulStart]. *)
Fixpoint rx_loop (ulStart : Z) (rounds : list rx_round) (w : can_world) : res can_world :=
  match rounds with
  | [] => OutOfFuel
  | r :: rounds =>
      w ← rx_turn w r;
      if u32 (now_ms (rr_us r) - ulStart) <? CANOPEN_TASK_PERIOD_MS then rx_loop ulStart rounds w else Ok w
  end.

(** The bus-off alert: [true] when the driver was paused. *)
Definition on_bus_off (io : drv_io) (ulNow : Z) (w : can_world) : res (bool * can_world) :=
  let c := can w in
  let rx := st_rx_frames (n_stats (w_node w)) in
  let c := c <| s_bBusOff := true |> <| s_ulBusOffSinceMs := ulNow |>
             <| s_usBusOffCount := u16 (s_usBusOffCount c + 1) |>
             <| s_ucBusOffStreak := if rx =? s_ulRxSeen c then u8 (s_ucBusOffStreak c + 1) else 1 |>
             <| s_ulRxSeen := rx |> in
  let w := set_can w c in
  if CO_ABSENT_BUS_OFFS <=? s_ucBusOffStreak c then
    let w := stop_all io 3 (can_emit w [LOG_EVT_CAN_BUS_OFF (s_usBusOffCount c) 1]) in
    let w := set_can w ((can w) <| s_bAbsent := true |> <| s_ulAbsentSinceMs := ulNow |>
                                <| s_ucBusOffStreak := 0 |>) in
    w ← can_put w [("Can_State", CInt CAN_ST_BUS_OFF)]; Ok (true, w)
  else Ok (false, can_emit w [LOG_EVT_CAN_BUS_OFF (s_usBusOffCount c) 0; TWAI_INITIATE_RECOVERY]).

Fixpoint tpdo_request_all (w : can_world) (l : list Z) : res can_world :=
  match l with [] => Ok w | n :: l => w ← co_tpdo_request w n; tpdo_request_all w l end.

Definition on_recovered (restart : Z) (w : can_world) : res can_world :=
  if negb (restart =? 0) then Ok w else
  tpdo_request_all (can_emit (set_can w ((can w) <| s_bBusOff := false |>)) [LOG_EVT_CAN_RECOVERED])
    [0; 1; 2; 3].

Record can_in := mk_can_in {
  cn_us : Z;
  cn_drv : drv_io;
  cn_heap : Z * Z * Z;
  cn_alerts : option twai_alerts;
  cn_restart : Z;
  cn_rounds : list rx_round
}.

(** The whole cycle. *)
Definition canopen_task_cycle (ci : can_in) (w : can_world) : res (esp_err * can_world) :=
  if negb (s_bHw (can w)) then Ok (ESP_OK, w) else
  let ulNow := now_ms (cn_us ci) in
  w ← (if 1000 <=? u32 (ulNow - s_ulLastHousekeepingMs (can w))
       then housekeeping (cn_drv ci) (cn_heap ci) ulNow w else Ok w);
  if negb (s_bRunning (can w)) then Ok (ESP_OK, w) else
  let alerts := default (mk_alerts false false) (cn_alerts ci) in
  b ← (if BUS_OFF alerts then on_bus_off (cn_drv ci) ulNow w else Ok (false, w));
  let '(paused, w) := b in
  if paused : bool then Ok (ESP_OK, w) else
  w ← (if BUS_RECOVERED alerts then on_recovered (cn_restart ci) w else Ok w);
  if s_bBusOff (can w) then
    Ok (if CO_BUS_OFF_STALL_MS <? u32 (ulNow - s_ulBusOffSinceMs (can w)) then ESP_FAIL else ESP_OK, w)
  else w ← rx_loop ulNow (cn_rounds ci) w; Ok (ESP_OK, w).

Definition canopen_recover (io : drv_io) (w : can_world) : res (bool * can_world) :=
  if negb (s_bHw (can w)) then Ok (true, w) else
  let w := stop_all io 2 w in
  let w := set_can w ((can w) <| s_bAbsent := false |>) in
  en ← ref_uint (can_img w) "Can_Enabled";
  if en =? 0 then Ok (true, w)
  else w ← config_snapshot w; start_all io w.

(** ** Histories of the task

    The task from its start: the cycles, pump faults between them, and restarts by
    the watchdog. *)
Inductive can_op :=
  | CycleOp (ci : can_in)
  | FaultOp (fault : option (list Z))
  | RecoverOp (io : drv_io).

Definition can_op_step (w : can_world) (o : can_op) : res (can_world) :=
  match o with
  | CycleOp ci => r ← canopen_task_cycle ci w; Ok r.2
  | FaultOp fault => Ok (set_can w (evt_pump_fault (can w) fault))
  | RecoverOp io => r ← canopen_recover io w; Ok r.2
  end.

Fixpoint can_ops_run (w : can_world) (os : list can_op) : res (can_world) :=
  match os with [] => Ok w | o :: os => w ← can_op_step w o; can_ops_run w os end.

Definition can_device (io : drv_io) (com : com_state nvs P) (cio : com_io) (tx : list bool)
    (os : list can_op) : res (can_world) :=
  w ← canopen_init io com cio tx; can_ops_run w os.

End canopen.
Arguments can_app : clear implicits.
Arguments can_world : clear implicits.
#[export] Existing Instances eta_can_app set_ca_can set_ca_com set_ca_io set_ca_tx set_ca_rx set_ca_log set_ca_stuck
  canopen_app.
