(* ===== verification/CanOpenSecrecy.v ===== *)
(** * The stored passwords stay off the CAN bus

    canopen_task.c: "secrets never leave the device over the (unauthenticated) CAN
    bus".  Two devices that differ in the bytes of Network_Password and
    Backup_Password, and in anything the flash holds, are indistinguishable on the
    bus: [low] relates their images, every operation the core's callbacks reach
    keeps it and answers alike, and the simulation of CoSim carries it through the
    core and the task. *)

From Stdlib Require Import SpecFloat.
From S2P Require Import Prelude Bytes Float32 Float64 DpCatalog Datapoints DpProps NetworkConfig.
From S2P Require Import NetworkConfigProps TaskComProps FpAuth FpSession LogCore LogFlash Hal PumpTask Command TaskCom.
From S2P Require Import CoTypes CoOd CoPdo CoSdo CoNode CoSim CanOpenTask.
Local Open Scope string_scope.
Local Open Scope list_scope.
Local Open Scope Z_scope.

(** ** Images that agree on the public points *)

Definition public (d : dp_desc_t) : Prop := dp_is_secret d = false.

(** A sized image whose strings end inside their slots. *)
Definition shaped (x : list Z) : Prop :=
  zlen x = dp_image_size ∧ ∀ d, d ∈ g_dp → dd_type d = DP_STR → 0 ∈ slot_bytes x d.

Record low (x y : list Z) : Prop := {
  low_l : shaped x;
  low_r : shaped y;
  low_eq : ∀ d, d ∈ g_dp → public d → slot_bytes x d = slot_bytes y d
}.

Lemma shaped_put x d b : shaped x → d ∈ g_dp → zlen b = dp_size d → (dd_type d = DP_STR → 0 ∈ b) →
  shaped (slot_put x d b).
Proof.
  intros [Hl Hs] Hd Hb H0. split; [unfold slot_put, zlen in *; by rewrite length_inserts|].
  intros d' Hd' Ht. destruct (decide (d' = d)) as [->|Hne].
  - rewrite slot_put_same_sized by done. auto.
  - rewrite slot_put_other_sized by done. auto.
Qed.

(** A write keeps the relation if it writes alike to a public point. *)
Lemma low_set x y d b c : low x y → d ∈ g_dp → zlen b = dp_size d → zlen c = dp_size d →
  (dd_type d = DP_STR → 0 ∈ b ∧ 0 ∈ c) → (public d → b = c) →
  rrel low (dp_raw_set x d b) (dp_raw_set y d c).
Proof.
  intros [Hx Hy He] Hd Hb Hc H0 Hp.
  rewrite (raw_set_sized x d b), (raw_set_sized y d c) by (try done; apply Hx || apply Hy).
  split.
  - apply shaped_put; [done..|]. intros Ht. by apply H0.
  - apply shaped_put; [done..|]. intros Ht. by apply H0.
  - intros d' Hd' Hpub. destruct (decide (d' = d)) as [->|Hne].
    + rewrite !slot_put_same_sized by (try done; apply Hx || apply Hy). auto.
    + rewrite !slot_put_other_sized by (try done; apply Hx || apply Hy). auto.
Qed.

Lemma low_get x y d : low x y → d ∈ g_dp → public d → dp_raw_get x d = dp_raw_get y d.
Proof.
  intros [Hx Hy He] Hd Hp. rewrite !raw_get_sized by (try done; apply Hx || apply Hy).
  f_equal. by apply He.
Qed.

Definition public_name (name : string) : bool :=
  match dp_find name with Some d => negb (dp_is_secret d) | None => true end.

Lemma low_ref x y name : low x y → public_name name = true → dp_ref x name = dp_ref y name.
Proof.
  intros H Hn. unfold dp_ref, public_name in *. destruct (dp_find name) as [d|] eqn:E; [|done].
  cbn. apply dp_find_some in E as [Hd _]. apply low_get; [done..|]. unfold public. by destruct (dp_is_secret d).
Qed.
Lemma low_uint x y name : low x y → public_name name = true → ref_uint x name = ref_uint y name.
Proof. intros. unfold ref_uint. by rewrite (low_ref x y). Qed.
Lemma low_f32 x y name : low x y → public_name name = true → ref_f32 x name = ref_f32 y name.
Proof. intros. unfold ref_f32. by rewrite (low_ref x y). Qed.
Lemma low_str x y name : low x y → public_name name = true → dp_str x name = dp_str y name.
Proof. intros. unfold dp_str. by rewrite (low_ref x y). Qed.

Lemma low_constraints x y : low x y → dp_constraints_ok x = dp_constraints_ok y.
Proof.
  intros H. unfold dp_constraints_ok.
  repeat match goal with
  | |- context [ref_f32 x ?n] => rewrite (low_f32 x y n H) by (vm_compute; reflexivity)
  | |- context [ref_uint x ?n] => rewrite (low_uint x y n H) by (vm_compute; reflexivity)
  end.
  reflexivity.
Qed.

(** ** The batch write *)

Lemma le_put_len n z : zlen (le_put n z) = Z.of_nat n.
Proof. unfold zlen. f_equal. revert z. induction n; intros; cbn; [done|by rewrite IHn]. Qed.

(** What a value is stored as fills the slot, and ends a string. *)
Lemma value_bytes d v b : dp_value_from_json d v = Ok (inr b) →
  zlen b = dp_size d ∧ (dd_type d = DP_STR → 0 ∈ b).
Proof.
  unfold dp_value_from_json, dp_size.
  assert (∀ t x, cast_int t x = Ok b → zlen b = dp_type_size t) as Hc.
  { intros t x. unfold cast_int. destruct (f64_trunc x), (dp_int_range t) as [[l h]|]; try done.
    destruct (_ && _); [|done]. intros Hx. injection Hx as <-. rewrite le_put_len.
    by destruct t. }
  destruct (dd_type d) eqn:Et; destruct v; try done;
    repeat match goal with
    | |- (if ?c then _ else _) = _ → _ => destruct c eqn:?; try done
    | |- (match ?o with _ => _ end) = _ → _ => destruct o eqn:?; try done
    end.
  all: try (intros H; injection H as <-; split; [|done]; first [done|by rewrite le_put_len]).
  all: try (destruct (cast_int _ _) as [c| | ] eqn:Ec; cbn [mbind res_bind]; intros H; try done;
    injection H as <-; split; [by apply (Hc _ _ Ec)|done]).
  intros H. injection H as <-. apply Z.leb_gt in Heqb0. unfold DP_STR_MAX, zlen in *. split.
  - change (dp_type_size DP_STR) with 64. rewrite length_app, length_replicate. lia.
  - intros _. apply elem_of_app. right. apply elem_of_replicate. split; [done|lia].
Qed.

Lemma low_put x y d b : low x y → d ∈ g_dp → zlen b = dp_size d → (dd_type d = DP_STR → 0 ∈ b) →
  rrel low (dp_raw_set x d b) (dp_raw_set y d b).
Proof. intros H Hd Hb H0. apply low_set; auto. Qed.

Lemma validate_low items : ∀ x y,
  low x y → rrel (fst_rel low) (validate_items items x) (validate_items items y).
Proof.
  induction items as [|it items IH]; intros x y H; cbn [validate_items]; [by split|].
  assert (∀ e : string * string, rrel (fst_rel low)
    (r ← validate_items items x; Ok (r.1, e :: r.2)) (r ← validate_items items y; Ok (r.1, e :: r.2))) as He.
  { intros e. eapply rrel_bind; [by apply IH|]. intros [? ?] [? ?] [? ?]. cbn in *. by subst. }
  destruct (dp_find _) as [d|] eqn:Ed; [|apply He]. apply dp_find_some in Ed as [Hd _].
  destruct (negb _); [apply He|].
  destruct (dp_value_from_json d it.2) as [[e|b]| | ] eqn:Ev; cbn [mbind res_bind]; [apply He| |done|done].
  apply value_bytes in Ev as [Hb H0].
  eapply rrel_bind; [by apply low_put|]. auto.
Qed.

Lemma commit_low items : ∀ t t' x y,
  low t t' → low x y → rrel low (commit_items items t x) (commit_items items t' y).
Proof.
  induction items as [|it items IH]; intros t t' x y Ht H; cbn [commit_items]; [done|].
  destruct (dp_find _) as [d|] eqn:Ed; [|auto]. apply dp_find_some in Ed as [Hd _].
  destruct (bool_decide _); [|auto].
  rewrite !raw_get_sized by (try done; apply Ht). cbn [mbind res_bind].
  eapply rrel_bind; [|intros x' y' H'; exact (IH t t' x' y' Ht H')].
  destruct Ht as [[Hl Hs] [Hl' Hs'] He]. apply low_set; auto using slot_bytes_sized.
Qed.

Definition snd_rel {X Y Z'} (Q : Y → Z' → Prop) (x : X * Y) (y : X * Z') : Prop := x.1 = y.1 ∧ Q x.2 y.2.

Lemma write_locked_low t t' x y items :
  low t t' → low x y →
  rrel (λ r r', r.1 = r'.1 ∧ (r.1.1 = true → r.1.2 = []) ∧ low r.2 r'.2)
    (dp_write_locked t x items) (dp_write_locked t' y items).
Proof.
  intros Ht H. unfold dp_write_locked. eapply rrel_bind; [by apply validate_low|].
  intros [u errs] [u' errs'] [Hu He]. cbn in *. subst errs'. destruct errs; [|by split].
  rewrite (low_constraints u u' Hu). apply rrel_same. intros [b|]; [by split|].
  eapply rrel_bind; [by apply commit_low|]. by split.
Qed.

(** ** Persistence *)

Section device.
Context {nvs : Type} `{!NvsApi nvs}.

Lemma save_total_shaped snap ds : zlen snap = dp_image_size → (∀ d, d ∈ ds → d ∈ g_dp) →
  ∀ n : nvs, ∃ r, save_points n snap ds = Ok r.
Proof.
  intros Hs. induction ds as [|d ds IH]; intros Hds n; cbn [save_points]; [by eexists|].
  assert (∀ d', d' ∈ ds → d' ∈ g_dp) as Hds' by (intros; apply Hds; by constructor).
  destruct (negb _); [auto|]. rewrite raw_get_sized by (try done; apply Hds; by constructor).
  cbn [mbind res_bind]. destruct (nvs_set_blob _ _ _) as [[] n']; [auto|by eexists..].
Qed.

Lemma config_save_shaped s (n : nvs) o c : shaped (g_dp_store s) → ∃ r, dp_config_save s n o c = Ok r.
Proof.
  intros [Hs _]. unfold dp_config_save. destruct o; [|by eexists..].
  destruct (save_total_shaped _ g_dp Hs (λ _ H, H) n) as [r ->]. by eexists.
Qed.

(** The image of the network state; the flash may differ. *)
Definition low_net (s s' : net_state nvs) : Prop := low (ns_img s) (ns_img s').

Lemma config_save_low io s s' : low_net s s' → rrel low_net (config_save io s) (config_save io s').
Proof.
  intros H. unfold config_save.
  destruct (config_save_shaped (ns_dp s) (ns_nvs s) (io_open io) (io_commit io) (low_l _ _ H)) as [r ->].
  destruct (config_save_shaped (ns_dp s') (ns_nvs s') (io_open io) (io_commit io) (low_r _ _ H)) as [r' ->].
  exact H.
Qed.

(** ** The network actions *)

(** A point of the configuration and its backup: the same type, both secret or
    both public, and only strings are secret. *)
Definition pair_low (p : bool * string) : bool :=
  match dp_find ("Network_" +:+ p.2), dp_find ("Backup_" +:+ p.2) with
  | Some d, Some e =>
      bool_decide (dd_type d = dd_type e) && Bool.eqb (bool_decide (dd_type d = DP_STR)) p.1
      && Bool.eqb (dp_is_secret d) (dp_is_secret e) && (p.1 || negb (dp_is_secret d))
  | _, _ => false
  end.

Lemma pairs_low : forallb pair_low config_points = true.
Proof. vm_compute. reflexivity. Qed.

Lemma copy_low points : ∀ x y, forallb pair_low points = true → low x y →
  rrel low (copy_fields "Network_" "Backup_" points x) (copy_fields "Network_" "Backup_" points y).
Proof.
  induction points as [|p points IH]; intros x y Hp H; cbn [copy_fields]; [done|].
  cbn [forallb] in Hp. apply andb_prop in Hp as [Hp Hps]. unfold pair_low in Hp.
  destruct (dp_find ("Network_" +:+ p.2)) as [d|] eqn:Ed; [|done].
  destruct (dp_find ("Backup_" +:+ p.2)) as [e|] eqn:Ee; [|done].
  apply andb_prop in Hp as [[[Ht%bool_decide_eq_true HS%eqb_prop]%andb_prop Hse%eqb_prop]%andb_prop Hsec].
  pose proof Ed as [Hd _]%dp_find_some. pose proof Ee as [He _]%dp_find_some.
  assert (∀ b c, zlen b = dp_size d → zlen c = dp_size d → (dd_type d = DP_STR → 0 ∈ b ∧ 0 ∈ c) →
    (public d → b = c) →
    rrel low (x ← dp_ref_set x ("Network_" +:+ p.2) b; copy_fields "Network_" "Backup_" points x)
             (y ← dp_ref_set y ("Network_" +:+ p.2) c; copy_fields "Network_" "Backup_" points y)) as Hset.
  { intros b c Hb Hc H0 Hpub. eapply rrel_bind; [|intros x' y' H'; exact (IH x' y' Hps H')].
    unfold dp_ref_set. rewrite Ed. cbn [of_option mbind res_bind]. by apply low_set. }
  pose proof (slot_bytes_sized x e (proj1 (low_l _ _ H)) He) as Hlx.
  pose proof (slot_bytes_sized y e (proj1 (low_r _ _ H)) He) as Hly.
  assert (dp_size e = dp_size d) as Hsz by (unfold dp_size; by rewrite Ht).
  unfold field, assign_field, dp_str, dp_ref. rewrite Ee. cbn [of_option mbind res_bind].
  rewrite !raw_get_sized by (try done; apply H).
  destruct p.1; cbn [mbind res_bind].
  - apply bool_decide_eq_true in HS.
    destruct (c_string_total _ (proj2 (low_l _ _ H) e He ltac:(congruence))) as [s Es].
    destruct (c_string_total _ (proj2 (low_r _ _ H) e He ltac:(congruence))) as [s' Es'].
    rewrite Es, Es'. cbn [mbind res_bind]. unfold dp_str_set.
    assert (dp_size d = 64) as H64 by (unfold dp_size; by rewrite HS).
    apply Hset; [by rewrite copy_string_len..| |].
    + intros _. split; apply copy_string_nul.
    + intros Hpub. assert (slot_bytes x e = slot_bytes y e) as Exy.
      { apply H; [done|]. unfold public in *. congruence. }
      rewrite Exy in Es. congruence.
  - apply Hset; [congruence..| |].
    + intros HS'. rewrite bool_decide_true in HS by done. done.
    + intros Hpub. apply H; [done|]. unfold public in *. congruence.
Qed.

Lemma save_handle_low io bTask s s' act : low_net s s' →
  rrel (snd_rel low_net) (network_config_save_handle io bTask s act)
    (network_config_save_handle io bTask s' act).
Proof.
  intros H. unfold network_config_save_handle, system_reboot_deferred, trial_nvs_set, emit.
  destruct (act =? _).
  { eapply rrel_bind; [by apply config_save_low|]. by split. }
  destruct (act =? _).
  { eapply rrel_bind; [by apply config_save_low|]. intros u v Huv. split; [done|]. by destruct bTask. }
  destruct (act =? _).
  { unfold restore_from_backup.
    eapply rrel_bind; [exact (copy_low _ _ _ pairs_low H)|]. intros x y Hxy.
    eapply rrel_bind; [apply config_save_low; exact Hxy|]. by split. }
  destruct (act =? _); [|by split].
  unfold str_empty. rewrite (low_str _ _ "Backup_SSID" H) by (vm_compute; reflexivity).
  apply rrel_same. intros none. destruct none; [by split|].
  eapply rrel_bind; [by apply config_save_low|]. intros u v Huv. split; [done|].
  destruct bTask, (io_trial io); done.
Qed.

(** ** dp_write *)

Context {P : Type} `{!Partition P}.

Record low_com (w w' : com_state nvs P) : Prop := {
  lc_net : low_net (tc_net w) (tc_net w');
  lc_flash : tc_flash w = tc_flash w';
  lc_part : tc_part w = tc_part w'
}.

Lemma log_command_low w w' z : low_com w w' →
  rrel low_com (log_command_handle part_read part_write w z) (log_command_handle part_read part_write w' z).
Proof.
  intros [Hn Hf Hp]. unfold log_command_handle. destruct (z =? 1); [done|]. destruct (z =? 2); [|done].
  rewrite Hf, Hp. apply rrel_same. intros r. done.
Qed.

(** The values that are read back: both sides have one for each name. *)
Lemma value_low d x y : low x y → d ∈ g_dp →
  rrel (λ v v' : json, True) (dp_value_to_json d x) (dp_value_to_json d y).
Proof.
  intros H Hd. unfold dp_value_to_json.
  rewrite !raw_get_sized by (try done; apply H). cbn [mbind res_bind].
  destruct (dd_type d) eqn:Et; try done.
  assert (∀ z, shaped z → ∃ s, c_string (drop (Z.to_nat (dd_off d)) z) = Ok s) as Hs.
  { intros z [_ Hz]. specialize (Hz d Hd Et). unfold slot_bytes in Hz.
    apply c_string_total. by apply subseteq_take in Hz. }
  destruct (Hs x (low_l _ _ H)) as [s ->], (Hs y (low_r _ _ H)) as [s' ->]. done.
Qed.

Lemma read_names_low names : ∀ x y, low x y →
  rrel (λ _ _, True) (read_names x names) (read_names y names).
Proof.
  induction names as [|n names IH]; intros x y H; cbn [read_names]; [done|].
  destruct (dp_find n) as [d|] eqn:Ed.
  - apply dp_find_some in Ed as [Hd _].
    eapply rrel_bind; [by apply value_low|]. intros v v' _.
    eapply rrel_bind; [by apply IH|]. done.
  - eapply rrel_bind; [by apply IH|]. done.
Qed.

Lemma read_into_low s s' names : names ≠ [] → low (g_dp_store s) (g_dp_store s') →
  rrel (λ _ _, True) (dp_read_into s names) (dp_read_into s' names).
Proof. intros Hn H. unfold dp_read_into. destruct names; [done|]. by apply read_names_low. Qed.

(** Two answers that the bus cannot tell apart. *)
Definition same_verdict (r r' : list (list Z * cjson)) : Prop :=
  ∀ name, abort_of_result name r = abort_of_result name r'.

(** An accepted batch is success, whatever was read back. *)
Lemma applied_verdict pre x name : get_item (CObject pre) "status" = None →
  abort_of_result name (pre ++ applied ++ x) = 0.
Proof.
  intros Hp. unfold abort_of_result, str_of.
  assert (get_item (CObject (pre ++ applied ++ x)) "status" = Some (CString (cstr "applied"))) as ->; [|done].
  unfold get_item in *. cbn [members] in *. induction pre as [|[k v] pre IH]; [reflexivity|].
  cbn [List.find app] in *. destruct (bool_decide (k = cstr "status")); [done|auto].
Qed.

Definition no_status (pre : list (list Z * cjson)) : Prop := get_item (CObject pre) "status" = None.

Lemma applied_low w w' name v pre pre' : no_status pre → no_status pre' → low_com w w' →
  rrel (λ r r', same_verdict r.1 r'.1 ∧ low_com r.2 r'.2)
    (applied_result w (Some (CObject (member name v))) pre)
    (applied_result w' (Some (CObject (member name v))) pre').
Proof.
  intros Hp Hp' H. unfold applied_result, readback_names. cbn [mbind res_bind].
  eapply rrel_bind; [apply read_into_low; [done|exact (lc_net _ _ H)]|]. intros r r' _. split.
  - intros n. cbn [fst]. by rewrite !applied_verdict.
  - by destruct H.
Qed.

Lemma write_batch_low s s' (n n' : nvs) x y items o c :
  low (g_dp_store s) (g_dp_store s') → low x y →
  rrel (λ r r', r.1.1.1.1 = r'.1.1.1.1 ∧ r.1.1.1.2 = r'.1.1.1.2 ∧ (r.1.1.1.1 = true → r.1.1.1.2 = [])
      ∧ low (g_dp_store r.1.2) (g_dp_store r'.1.2))
    (dp_write_batch s n x items o c) (dp_write_batch s' n' y items o c).
Proof.
  intros Hs H. unfold dp_write_batch. eapply rrel_bind; [by apply write_locked_low|].
  intros [[ok errs] z] [[ok' errs'] z'] (Hr & Hn & Hz). cbn in Hr, Hn, Hz. injection Hr as <- <-.
  destruct ok; cbn [negb]; [|by split_and!].
  destruct (config_save_shaped (s <| g_dp_store := z |>) n o c) as [r ->]; [exact (low_l _ _ Hz)|].
  destruct (config_save_shaped (s' <| g_dp_store := z' |>) n' o c) as [r' ->]; [exact (low_r _ _ Hz)|].
  by split_and!.
Qed.

Lemma apply_write_low io w w' name v : low_com w w' →
  rrel (λ r r', same_verdict r.1 r'.1 ∧ low_com r.2 r'.2)
    (task_com_apply_dp_write part_read part_write io w (ns_img (tc_net w)) (Some (CObject (member name v))))
    (task_com_apply_dp_write part_read part_write io w' (ns_img (tc_net w')) (Some (CObject (member name v)))).
Proof.
  intros H. unfold task_com_apply_dp_write. apply rrel_same. intros [save batch].
  apply rrel_same. intros [cmd batch'].
  eapply (rrel_bind low_com); [destruct cmd; [by apply log_command_low|done]|]. intros u u' Hu.
  eapply rrel_bind; [apply write_batch_low; [exact (lc_net _ _ Hu)|exact (lc_net _ _ H)]|].
  intros [[[[ok errs] p] s] n] [[[[ok' errs'] p'] s'] n'] (H1 & H2 & Hn & Hl). cbn [fst snd] in *. subst ok' errs'.
  cbn zeta. set (com := u <| tc_net := _ |>). set (com' := u' <| tc_net := _ |>).
  assert (low_com com com') as Hc by (destruct Hu; by split).
  destruct ok; cbn [negb]; [|by split].
  rewrite (Hn eq_refl). unfold batch_result.
  set (c := if p then com else _). set (c' := if p' then com' else _).
  assert (low_com c c') as Hcc by (destruct p, p'; destruct Hc; by split).
  set (warn := if p then [] else _). set (warn' := if p' then [] else _).
  assert (∀ l, no_status l → no_status (warn ++ l) ∧ no_status (warn' ++ l)) as Hw
    by (intros l Hl'; by destruct p, p').
  destruct (default 0 save =? 0).
  { destruct (Hw [] eq_refl) as [H1 H2]. rewrite app_nil_r in H1, H2. by apply applied_low. }
  eapply rrel_bind; [by apply save_handle_low; destruct Hcc|].
  intros [b net] [b' net'] [Hb Hnet]. cbn [fst snd] in *. subst b'.
  assert (low_com (c <| tc_net := net |>) (c' <| tc_net := net' |>)) as Hcn by (destruct Hcc; by split).
  destruct b; cbn [negb].
  - destruct (Hw (add_number "network_save" (default 0 save)) eq_refl) as [H1 H2]. by apply applied_low.
  - split; [|exact Hcn]. intros k. by destruct p, p'.
Qed.

(** ** The callbacks of the core *)

Record low_app (a b : can_app nvs P) : Prop := {
  la_can : ca_can a = ca_can b;
  la_com : low_com (ca_com a) (ca_com b);
  la_io : ca_io a = ca_io b;
  la_tx : ca_tx a = ca_tx b;
  la_rx : ca_rx a = ca_rx b;
  la_log : ca_log a = ca_log b;
  la_stuck : ca_stuck a = ca_stuck b
}.

Lemma array_in {A} (l : list A) i x : array_get l i = Ok x → x ∈ l.
Proof.
  unfold array_get. case_decide; [|done]. destruct (l !! _) eqn:E; [|done]. intros Hx. injection Hx as <-.
  by eapply list_elem_of_lookup_2.
Qed.

(** A secret point is refused, another one is the same on both sides. *)
Lemma od_read_low x y i sub cap : low x y → od_read_cb x i sub cap = od_read_cb y i sub cap.
Proof.
  intros H. unfold od_read_cb. destruct (_ =? _); [done|]. destruct (_ && _); [|done].
  destruct (negb _); [done|]. destruct (array_get g_dp _) as [d| | ] eqn:Ed; [|done|done].
  cbn [mbind res_bind]. apply array_in in Ed. unfold od_read_dp.
  destruct (dp_is_secret d) eqn:Es; [by rewrite orb_true_r|]. by rewrite (low_get x y d).
Qed.

Lemma od_read_app_low a b i sub cap : low_app a b →
  fst_rel low_app (od_read_app a i sub cap) (od_read_app b i sub cap).
Proof.
  intros H. unfold od_read_app, ca_img. rewrite (od_read_low _ _ i sub cap (lc_net _ _ (la_com _ _ H))).
  destruct (od_read_cb _ _ _ _); split; try done; by destruct H.
Qed.

Lemma write_dp_low a b d v : low_app a b → fst_rel low_app (write_dp a d v) (write_dp b d v).
Proof.
  intros H. unfold write_dp. rewrite <- (la_io _ _ H).
  pose proof (apply_write_low (ca_io a) _ _ (dd_name d) v (la_com _ _ H)) as Hw. unfold ca_img.
  destruct (task_com_apply_dp_write _ _ _ (ca_com a) _ _) as [[r com]| | ],
    (task_com_apply_dp_write _ _ _ (ca_com b) _ _) as [[r' com']| | ]; try done.
  - destruct Hw as [Hv Hc]. split; [by destruct H|apply Hv].
  - by destruct H.
  - by destruct H.
Qed.

Lemma ca_emit_low a b l : low_app a b → low_app (ca_emit a l) (ca_emit b l).
Proof. intros []. split; cbn; congruence || done. Qed.

Lemma od_write_cb_low a b i sub buf : low_app a b →
  fst_rel low_app (od_write_cb a i sub buf) (od_write_cb b i sub buf).
Proof.
  intros H. unfold od_write_cb. destruct (_ || _); [done|]. destruct (_ || _); [done|].
  destruct (negb _); [done|]. destruct (array_get _ _) as [d| | ]; [|split; [by destruct H|done]..].
  destruct (bool_decide _); [done|]. destruct (json_from_raw d buf) as [e|v]; [done|].
  destruct (write_dp_low a b d v H) as [Hw He].
  destruct (write_dp a d v), (write_dp b d v). cbn in *. subst. split; [by apply ca_emit_low|done].
Qed.

Lemma can_send_low a b f : low_app a b → fst_rel low_app (can_send_cb a f) (can_send_cb b f).
Proof.
  intros H. unfold can_send_cb. rewrite (la_can _ _ H), (la_tx _ _ H). destruct (_ || _); [done|].
  destruct (ca_tx b); [done|]. split; [by destruct H|done].
Qed.

Lemma fault_bits_low x y : low x y → fault_bits x = fault_bits y.
Proof. intros H. unfold fault_bits. by rewrite (low_uint x y "Fon_Fault_Code" H) by (vm_compute; reflexivity). Qed.

#[export] Instance canopen_app_low : AppSim low_app.
Proof.
  split; cbn; constructor.
  - intros. by apply can_send_low.
  - intros. by apply od_read_app_low.
  - intros. by apply od_write_cb_low.
  - intros a b bn H. unfold cb_reset, ca_img. rewrite (fault_bits_low _ _ (lc_net _ _ (la_com _ _ H))).
    destruct (fault_bits _); split; try done; by destruct H.
  - intros. by apply ca_emit_low.
Qed.

(** ** The task *)

Variable p : hal_pins_t.
Variable hw_rev : list Z.

Local Definition sim (w v : can_world nvs P) : Prop := wrel low_app w v.

Lemma sim_can w v : sim w v → can w = can v.
Proof. intros []. by apply la_can. Qed.
Lemma sim_img w v : sim w v → low (can_img w) (can_img v).
Proof. intros []. by apply la_com. Qed.

Lemma sim_app w v : sim w v → low_app (w_app w) (w_app v).
Proof. by intros []. Qed.

Lemma set_can_sim w v c : sim w v → sim (set_can w c) (set_can v c).
Proof. intros [n a b l []]. constructor. by split. Qed.
Lemma can_emit_sim w v l : sim w v → sim (can_emit w l) (can_emit v l).
Proof. intros []. constructor. by apply ca_emit_low. Qed.
Lemma set_queue_sim w v q : sim w v → sim (set_queue w q) (set_queue v q).
Proof. intros [n a b l []]. constructor. by split. Qed.
Lemma set_can_img_sim w v x y : sim w v → low x y → sim (set_can_img w x) (set_can_img v y).
Proof.
  intros [n a b l [? [? ? ?] ? ? ? ? ?]] H. constructor. split; [done| |done..]. by split.
Qed.

Lemma const_bytes_size t c : t ≠ DP_STR → zlen (const_bytes t c) = dp_type_size t.
Proof. intros Ht. destruct t, c; try done; unfold const_bytes; by rewrite le_put_len. Qed.

(** A point the module writes: not a string. *)
Definition plain_name (name : string) : bool :=
  match dp_find name with Some d => negb (bool_decide (dd_type d = DP_STR)) | None => true end.

Lemma refs_put_low l : ∀ x y, forallb (λ e, plain_name e.1) l = true → low x y →
  rrel low (dp_refs_put x l) (dp_refs_put y l).
Proof.
  induction l as [|[name v] l IH]; intros x y Hp H; cbn [dp_refs_put]; [done|].
  cbn [forallb fst] in Hp. apply andb_prop in Hp as [Hn Hp].
  eapply rrel_bind; [|intros x' y' H'; exact (IH x' y' Hp H')].
  unfold dp_ref_put, plain_name in *. destruct (dp_find name) as [d|] eqn:Ed; [|done].
  cbn [of_option mbind res_bind]. apply dp_find_some in Ed as [Hd _].
  apply negb_true_iff, bool_decide_eq_false in Hn.
  apply low_put; [done..|by apply const_bytes_size|done].
Qed.

Lemma can_put_sim w v l : forallb (λ e, plain_name e.1) l = true → sim w v →
  rrel sim (can_put w l) (can_put v l).
Proof.
  intros Hl H. unfold can_put. eapply rrel_bind; [apply refs_put_low; [done|by apply sim_img]|].
  intros x y Hxy. by apply set_can_img_sim.
Qed.

Lemma driver_start_sim io w v : sim w v →
  (driver_start p io w).1 = (driver_start p io v).1 ∧ sim (driver_start p io w).2 (driver_start p io v).2.
Proof.
  intros H. unfold driver_start. rewrite (sim_can w v H).
  destruct (negb _); [split; [done|by apply can_emit_sim]|].
  destruct (negb _); [split; [done|by apply can_emit_sim]|].
  destruct (negb _); [split; [done|by apply can_emit_sim]|].
  split; [done|]. by apply set_can_sim, can_emit_sim.
Qed.

Lemma driver_stop_sim io w v : sim w v → sim (driver_stop p io w) (driver_stop p io v).
Proof.
  intros H. unfold driver_stop. rewrite (sim_can w v H). destruct (negb _); [done|]. cbn zeta.
  pose proof (can_emit_sim w v [CAN_GPIO (hal_can_standby_set p true)] H) as He.
  rewrite (wrel_node _ _ _ He). apply set_queue_sim, set_can_sim. by apply wrel_put.
Qed.

Lemma add_wire_sim (w v w0 v0 : can_world nvs P) : sim w v → w_wire w0 = w_wire v0 →
  sim (w <| w_wire := w_wire w0 ++ w_wire w |>) (v <| w_wire := w_wire v0 ++ w_wire v |>).
Proof. intros [] E. rewrite E. by constructor. Qed.

Lemma wire_sim w v : sim w v → w_wire w = w_wire v.
Proof. by intros []. Qed.

Lemma core_start_sim us w v : sim w v → rrel sim (core_start hw_rev us w) (core_start hw_rev us v).
Proof.
  intros H. unfold core_start. rewrite (sim_can w v H).
  rewrite (low_str _ _ "Device_SW_Version" (sim_img w v H)) by (vm_compute; reflexivity).
  rewrite (low_uint _ _ "Device_Serial_Number" (sim_img w v H)) by (vm_compute; reflexivity).
  apply rrel_same. intros ver. apply rrel_same. intros serial. cbn zeta.
  eapply rrel_bind; [apply (co_init_sim low_app), sim_app, H|]. intros w1 v1 H1.
  eapply rrel_bind; [apply (apply_conf_sim low_app), add_wire_sim; [exact H1|by apply wire_sim]|].
  intros w2 v2 H2. rewrite (fault_bits_low _ _ (sim_img w2 v2 H2)). apply rrel_same.
  intros l. by apply (apply_conf_sim low_app).
Qed.

Lemma start_all_sim io w v : sim w v →
  rrel (λ r r', r.1 = r'.1 ∧ sim r.2 r'.2) (start_all p hw_rev io w) (start_all p hw_rev io v).
Proof.
  intros H. unfold start_all. destruct (driver_start_sim io w v H) as [E Hd].
  destruct (driver_start p io w) as [ok w1], (driver_start p io v) as [ok' v1]. cbn in E, Hd. subst ok'.
  destruct ok; cbn [negb]; [|by split].
  eapply rrel_bind; [by apply core_start_sim|]. intros w2 v2 H2. split; [done|].
  cbn [snd]. rewrite (sim_can w2 v2 H2). by apply can_emit_sim.
Qed.

Lemma stop_all_sim io r w v : sim w v → sim (stop_all p io r w) (stop_all p io r v).
Proof.
  intros H. unfold stop_all. rewrite (sim_can w v H). destruct (negb _); [done|].
  by apply can_emit_sim, driver_stop_sim.
Qed.

(** Two results that agree on the bus side. *)
Definition pair_sim {X} (r r' : X * can_world nvs P) : Prop := r.1 = r'.1 ∧ sim r.2 r'.2.

Lemma config_read_low x y : low x y → config_points_read x = config_points_read y.
Proof.
  intros H. unfold config_points_read.
  repeat match goal with
  | |- context [ref_uint x ?n] => rewrite (low_uint x y n H) by (vm_compute; reflexivity)
  end.
  reflexivity.
Qed.

Lemma config_snapshot_sim w v : sim w v → rrel sim (config_snapshot w) (config_snapshot v).
Proof.
  intros H. unfold config_snapshot. rewrite (config_read_low _ _ (sim_img w v H)), (sim_can w v H).
  apply rrel_same. intros [[[[en lb] id] kb] hb]. by apply set_can_sim.
Qed.

Lemma state_code_sim w v : sim w v → state_code w = state_code v.
Proof. intros H. unfold state_code. by rewrite (sim_can w v H), (wrel_node _ _ _ H). Qed.

Lemma mirrors_sim io w v : sim w v → mirrors io w = mirrors io v.
Proof.
  intros H. unfold mirrors. by rewrite (sim_can w v H), (wrel_node _ _ _ H), (state_code_sim w v H).
Qed.

Lemma mirrors_plain io (w : can_world nvs P) : forallb (λ e, plain_name e.1) (mirrors io w) = true.
Proof. vm_compute. reflexivity. Qed.

Lemma master_presence_sim now w v : sim w v →
  rrel sim (master_presence_update now w) (master_presence_update now v).
Proof.
  intros H. unfold master_presence_update.
  rewrite (low_uint _ _ "Can_Master_Timeout_Ms" (sim_img w v H)) by (vm_compute; reflexivity).
  rewrite (sim_can w v H), (wrel_node _ _ _ H). apply rrel_same. intros t. cbn zeta.
  match goal with |- rrel sim (can_put ?a _) (can_put ?b _) => assert (sim a b) as Hs end.
  { destruct (bool_decide _); [done|]. by apply can_emit_sim, set_can_sim. }
  rewrite (wrel_node _ _ _ Hs). by apply can_put_sim.
Qed.

Lemma reapply_sim io now w v : sim w v →
  rrel sim (reapply_config p hw_rev io now w) (reapply_config p hw_rev io now v).
Proof.
  intros H. unfold reapply_config. rewrite (config_read_low _ _ (sim_img w v H)), (sim_can w v H).
  apply rrel_same. intros [[[[en lb] id] kb] hb]. destruct (negb (s_bRunning _)).
  - destruct (_ && _); [done|]. destruct en; [|done].
    eapply rrel_bind; [by apply config_snapshot_sim|]. intros w1 v1 H1.
    eapply rrel_bind; [by apply start_all_sim|]. intros [ok w2] [ok' v2] [E H2]. cbn in E, H2. subst ok'.
    destruct ok; [|done]. rewrite (sim_can w2 v2 H2). by apply set_can_sim.
  - pose proof (stop_all_sim io 0 w v H) as H0. pose proof (stop_all_sim io 1 w v H) as H1.
    destruct (negb en). { cbn zeta. rewrite (sim_can _ _ H0). by apply set_can_sim. }
    destruct (_ || _).
    { eapply rrel_bind; [by apply config_snapshot_sim|]. intros w1 v1 Hs.
      eapply rrel_bind; [by apply start_all_sim|]. intros r r' [E H2]. exact H2. }
    destruct (negb _); [|done]. by apply co_heartbeat_set_sim, set_can_sim.
Qed.

Lemma dp_refresh_low s s' f m l : low (g_dp_store s) (g_dp_store s') →
  rrel (λ d d', low (g_dp_store d) (g_dp_store d')) (dp_refresh s f m l) (dp_refresh s' f m l).
Proof.
  intros H. unfold dp_refresh.
  assert (∀ name z x y, match dp_find name with Some d => bool_decide (dd_type d = DP_U32) | None => true end = true →
    low x y → rrel low (dp_ref_set x name (le_put 4 z)) (dp_ref_set y name (le_put 4 z))) as Hs.
  { intros name z x y Hn Hxy. unfold dp_ref_set. destruct (dp_find name) as [d|] eqn:Ed; [|done].
    apply dp_find_some in Ed as [Hd _]. apply bool_decide_eq_true in Hn. cbn [of_option mbind res_bind].
    apply low_put; [done..|unfold dp_size; by rewrite le_put_len, Hn|by rewrite Hn]. }
  eapply rrel_bind; [by apply Hs|]. intros x1 y1 H1.
  eapply rrel_bind; [by apply Hs|]. intros x2 y2 H2.
  eapply rrel_bind; [by apply Hs|]. done.
Qed.

Lemma housekeeping_sim io heap now w v : sim w v →
  rrel sim (housekeeping p hw_rev io heap now w) (housekeeping p hw_rev io heap now v).
Proof.
  intros H. unfold housekeeping. rewrite (sim_can w v H). destruct heap as [[f m] l]. cbn zeta.
  set (w0 := set_can w _). set (v0 := set_can v _).
  assert (sim w0 v0) as H0 by by apply set_can_sim.
  rewrite (mirrors_sim io w0 v0 H0).
  eapply rrel_bind; [apply dp_refresh_low; exact (sim_img w0 v0 H0)|]. intros d d' Hd.
  eapply rrel_bind; [apply can_put_sim; [apply mirrors_plain|by apply set_can_img_sim]|]. intros w1 v1 H1.
  eapply rrel_bind; [by apply master_presence_sim|]. intros w2 v2 H2. by apply reapply_sim.
Qed.

(** ** The cycle *)

Lemma rx_burst_sim now i : ∀ q w v, sim w v →
  rrel (fst_rel sim) (rx_burst i w q now) (rx_burst i v q now).
Proof.
  induction i as [|i IH]; intros [|m q] w v H; cbn [rx_burst]; try done.
  unfold rx_message. destruct (tm_extd m); [exact (IH q w v H)|].
  eapply rrel_bind; [by apply (co_rx_sim low_app)|]. intros w' v' H'. exact (IH q w' v' H').
Qed.

Lemma emcy_pending_sim w v : sim w v → rrel sim (emcy_pending w) (emcy_pending v).
Proof.
  intros H. unfold emcy_pending. rewrite (sim_can w v H). destruct (_ =? 0); [done|].
  rewrite (low_uint _ _ "Fon_Current_State" (sim_img w v H)) by (vm_compute; reflexivity).
  apply rrel_same. intros st. cbn zeta.
  match goal with |- context [co_emcy (set_can w ?c) ?k ?b ?m] =>
    pose proof (co_emcy_sim low_app _ _ k b m (set_can_sim w v c H)) as He end.
  rewrite (wrel_node _ _ _ He). by apply (co_tpdo_request_sim low_app), can_emit_sim.
Qed.

Lemma rx_turn_sim w v r : sim w v → rrel sim (rx_turn w r) (rx_turn v r).
Proof.
  intros H. unfold rx_turn. cbn zeta. rewrite (la_rx _ _ (sim_app w v H)).
  eapply rrel_bind; [by apply rx_burst_sim|]. intros [w1 q] [v1 q'] [H1 Eq]. cbn [fst snd] in *. subst q'.
  eapply rrel_bind; [by apply emcy_pending_sim, set_queue_sim|]. intros w2 v2 H2.
  by apply (co_tick_sim low_app).
Qed.

Lemma rx_loop_sim start rs : ∀ w v, sim w v → rrel sim (rx_loop start rs w) (rx_loop start rs v).
Proof.
  induction rs as [|r rs IH]; intros w v H; cbn [rx_loop]; [done|].
  eapply rrel_bind; [by apply rx_turn_sim|]. intros w1 v1 H1. destruct (_ <? _); auto.
Qed.

Lemma on_bus_off_sim io now w v : sim w v → rrel pair_sim (on_bus_off p io now w) (on_bus_off p io now v).
Proof.
  intros H. unfold on_bus_off. rewrite (sim_can w v H), (wrel_node _ _ _ H). cbn zeta.
  destruct (_ <=? _).
  - match goal with |- context [stop_all p io 3 (can_emit (set_can w ?c) ?l)] =>
      pose proof (stop_all_sim io 3 _ _ (can_emit_sim _ _ l (set_can_sim w v c H))) as Hs end.
    rewrite (sim_can _ _ Hs). eapply rrel_bind; [apply can_put_sim; [done|by apply set_can_sim]|]. by split.
  - split; [done|]. by apply can_emit_sim, set_can_sim.
Qed.

Lemma request_all_sim l : ∀ w v, sim w v → rrel sim (tpdo_request_all w l) (tpdo_request_all v l).
Proof.
  induction l as [|n l IH]; intros w v H; cbn [tpdo_request_all]; [done|].
  eapply rrel_bind; [by apply (co_tpdo_request_sim low_app)|]. auto.
Qed.

Lemma on_recovered_sim r w v : sim w v → rrel sim (on_recovered r w) (on_recovered r v).
Proof.
  intros H. unfold on_recovered. rewrite (sim_can w v H). destruct (negb _); [done|].
  by apply request_all_sim, can_emit_sim, set_can_sim.
Qed.

Lemma cycle_sim ci w v : sim w v →
  rrel pair_sim (canopen_task_cycle p hw_rev ci w) (canopen_task_cycle p hw_rev ci v).
Proof.
  intros H. unfold canopen_task_cycle. rewrite (sim_can w v H). destruct (negb _); [by split|]. cbn zeta.
  eapply (rrel_bind sim); [destruct (1000 <=? _); [by apply housekeeping_sim|done]|]. intros w1 v1 H1.
  rewrite (sim_can w1 v1 H1). destruct (negb _); [by split|].
  eapply (rrel_bind pair_sim); [destruct (BUS_OFF _); [by apply on_bus_off_sim|by split]|].
  intros [paused w2] [paused' v2] [E H2]. cbn in E, H2. subst paused'. destruct paused; [by split|].
  eapply (rrel_bind sim); [destruct (BUS_RECOVERED _); [by apply on_recovered_sim|done]|]. intros w3 v3 H3.
  rewrite (sim_can w3 v3 H3). destruct (s_bBusOff _); [by split|].
  eapply rrel_bind; [by apply rx_loop_sim|]. by split.
Qed.

Lemma recover_sim io w v : sim w v →
  rrel pair_sim (canopen_recover p hw_rev io w) (canopen_recover p hw_rev io v).
Proof.
  intros H. unfold canopen_recover. rewrite (sim_can w v H). destruct (negb _); [by split|]. cbn zeta.
  pose proof (stop_all_sim io 2 w v H) as Hs. rewrite (sim_can _ _ Hs).
  match goal with |- context [can_img (set_can (stop_all p io 2 w) ?c)] =>
    pose proof (set_can_sim _ _ c Hs) as Hc end.
  rewrite (low_uint _ _ "Can_Enabled" (sim_img _ _ Hc)) by (vm_compute; reflexivity).
  apply rrel_same. intros en. destruct (_ =? 0); [by split|].
  eapply rrel_bind; [by apply config_snapshot_sim|]. intros w1 v1 H1. by apply start_all_sim.
Qed.

Lemma ops_run_sim os : ∀ w v, sim w v → rrel sim (can_ops_run p hw_rev w os) (can_ops_run p hw_rev v os).
Proof.
  induction os as [|o os IH]; intros w v H; cbn [can_ops_run]; [done|].
  eapply (rrel_bind sim); [|intros w' v' H'; exact (IH w' v' H')]. destruct o; cbn [can_op_step].
  - eapply rrel_bind; [by apply cycle_sim|]. by intros r r' [_ ?].
  - rewrite (sim_can w v H). by apply set_can_sim.
  - eapply rrel_bind; [by apply recover_sim|]. by intros r r' [_ ?].
Qed.

Lemma init_sim io com com' cio tx : low_com com com' →
  rrel sim (canopen_init p hw_rev io com cio tx) (canopen_init p hw_rev io com' cio tx).
Proof.
  intros H. unfold canopen_init. cbn zeta.
  set (w := mk_world _ _ _). set (v := mk_world _ (mk_can_app _ com' _ _ _ _ _) _).
  assert (sim w v) as Hs by (constructor; by split).
  destruct (negb _); [by apply can_put_sim|].
  eapply rrel_bind; [by apply config_snapshot_sim|]. intros w1 v1 H1. rewrite (sim_can w1 v1 H1).
  destruct (negb _); [done|].
  eapply rrel_bind; [by apply start_all_sim|]. intros r r' [_ Hr]. rewrite (state_code_sim _ _ Hr).
  by apply can_put_sim.
Qed.

End device.

(** ** The property *)

(** A stored string may change in any way. *)
Lemma low_secret x d b : shaped x → d ∈ g_dp → dp_is_secret d = true → zlen b = dp_size d → 0 ∈ b →
  low x (slot_put x d b).
Proof.
  intros Hx Hd Hs Hb H0. split; [done|by apply shaped_put|]. intros d' Hd' Hp.
  rewrite slot_put_other_sized; [done|apply Hx|done|done| |done]. intros ->. unfold public in Hp. congruence.
Qed.

Lemma typed_shaped x : img_typed x → shaped x.
Proof.
  intros [[Hl _] Ht]. split; [done|]. intros d Hd Hs. specialize (Ht d Hd). unfold typed_slot in Ht.
  rewrite Hs in Ht. by apply bool_decide_eq_true in Ht.
Qed.

(** C23: The passwords stay off the bus.  Take two devices in the same state except for the
    bytes of Network_Password and Backup_Password in the image, the flash, and
    what is not part of the bus side; give their CANopen tasks the same received
    frames, clock, driver and flash answers, pump faults and restarts.  If one of
    them runs through, so does the other, and it has sent exactly the same frames
    in the same order (SDO answers, abort codes, process data, emergencies and
    heartbeats), with the same log records and pin writes: also after any SDO
    write or PDO, any remapping of the process data and any Network_Save action. *)
Theorem passwords_stay_off_the_bus {nvs} `{!NvsApi nvs} {P} `{!Partition P} p hw_rev io
    (com com' : com_state nvs P) cio tx os w :
  low_com com com' → can_device p hw_rev io com cio tx os = Ok w →
  ∃ v, can_device p hw_rev io com' cio tx os = Ok v ∧ w_wire v = w_wire w ∧
    ca_log (w_app v) = ca_log (w_app w) ∧ n_sdo (w_node v) = n_sdo (w_node w).
Proof.
  intros H Hw.
  assert (rrel (wrel low_app) (can_device p hw_rev io com cio tx os)
    (can_device p hw_rev io com' cio tx os)) as Hr.
  { eapply rrel_bind; [by apply init_sim|]. intros w1 v1 H1. by apply ops_run_sim. }
  rewrite Hw in Hr. destruct (can_device _ _ _ com' _ _ _) as [v| | ]; [|done|done].
  exists v. destruct Hr as [n a b l Hab]. split_and!; try done. symmetry. apply Hab.
Qed.

(** ** Executions *)

#[export] Instance ram_partition : Partition (list Z) := {|
  part_read := RamFlash.read;
  part_write := RamFlash.write
|}.

Definition drv_ok : drv_io := mk_drv 0 0 0 None None.

Definition sdo_frame (data : list Z) : twai_message := mk_twai 0x603 false false 8 data.
Definition sdo_read_of (name : string) : twai_message :=
  sdo_frame (0x40 :: co_put_u16 (CO_IDX_DP_BASE + dp_id name) ++ [0; 0; 0; 0; 0]).
Definition nmt_start : twai_message := mk_twai 0 false false 2 [1; 0; 0; 0; 0; 0; 0; 0].

(** One cycle at [ms] in which the messages arrive. *)
Definition can_cycle (ms : Z) (rx : list twai_message) : can_op :=
  CycleOp (mk_can_in (ms * 1000) drv_ok (0, 0, 0) None 0 [mk_round rx ((ms + 10) * 1000)]).

Definition can_demo (com : com_state room_nvs (list Z)) (os : list can_op) : res (can_world room_nvs (list Z)) :=
  can_device s_stPinsHw2 [] drv_ok com all_ok_io (replicate 100 true) os.

(** The same device with the password "sesame". *)
Definition with_password : list Z := put_str "Network_Password" "sesame" on_old.
Definition secret_com : com_state room_nvs (list Z) :=
  mk_com (running with_password 0) (logging_init_early 7 (replicate 256 0)) no_flash [] [].

(** An SDO read of the password, a restore of the backup and a read of the name. *)
Definition spy_ops : list can_op :=
  [can_cycle 2000 [nmt_start; sdo_read_of "Network_Password";
     sdo_frame (0x2F :: co_put_u16 (CO_IDX_DP_BASE + dp_id "Network_Save") ++ [0; 3; 0; 0; 0]);
     sdo_read_of "Network_SSID"]].

Lemma low_running x y log flash (part : list Z) out : low x y →
  low_com (mk_com (running x 0) log flash part out) (mk_com (running y 0) log flash part out).
Proof. intros H. split; [exact H|done|done]. Qed.

Lemma secret_low : low_com com_demo secret_com.
Proof.
  apply low_running.
  assert (∃ d, dp_find "Network_Password" = Some d ∧ dd_type d = DP_STR ∧ dp_is_secret d = true) as (d & Hf & Ht & Hd)
    by (eexists; vm_compute; repeat split).
  pose proof Hf as [Hin _]%dp_find_some.
  assert (shaped on_old) as Hs by (apply typed_shaped, img_typedb_spec, on_old_ok).
  unfold with_password, put_str, dp_str_set, dp_ref_set. rewrite Hf. cbn [of_option mbind res_bind].
  assert (zlen (copy_string (NetworkConfigProps.str "sesame")) = dp_size d) as Hz by (unfold dp_size; rewrite Ht; apply copy_string_len).
  rewrite raw_set_sized; [|apply Hs|done|done]. cbn [res_or].
  apply low_secret; [done..|apply copy_string_nul].
Qed.

Lemma passwords_stay_off_the_bus_witness :
  ∃ w v, can_demo com_demo spy_ops = Ok w ∧ can_demo secret_com spy_ops = Ok v ∧ w_wire v = w_wire w ∧
    length (w_wire w) = 8%nat.
Proof.
  assert (∃ w, can_demo com_demo spy_ops = Ok w ∧ length (w_wire w) = 8%nat) as (w & Hw & Hl)
    by (eexists; split; [vm_compute; reflexivity|reflexivity]).
  unfold can_demo in *. destruct (passwords_stay_off_the_bus s_stPinsHw2 [] drv_ok com_demo secret_com all_ok_io (replicate 100 true)
    spy_ops w secret_low Hw) as (v & Hv & Hwire & _).
  exists w, v. split; [exact Hw|]. split; [exact Hv|]. split; [exact Hwire|exact Hl].
Defined.
