(* ===== verification/CanOpenWrite.v ===== *)
(** * Datapoint accesses from the bus are defined

    What the CANopen dictionary does with a datapoint ends normally on every image
    with the size of the struct and terminated strings: a read, and a write through
    the whole of dp_write, with the intercepted command points, the validation, the
    save to NVS, the network actions and the readback. *)

From Stdlib Require Import SpecFloat.
From S2P Require Import Prelude Bytes Float32 Float64 DpCatalog Datapoints DpProps NetworkConfig FpAuth FpSession.
From S2P Require Import NetworkConfigProps LogRing LogCore LogFlash TaskCom TaskComProps.
From S2P Require Import CoTypes CoOd CoPdo CoSdo CoNode CoSim CanOpenTask CanOpenSecrecy.
Local Open Scope string_scope.
Local Open Scope list_scope.
Local Open Scope Z_scope.

(** A read of the flash partition fills the buffer. *)
Class PartitionReads (P : Type) `{!Partition P} : Prop :=
  part_read_length (p : P) off n l : 0 <= n → part_read p off n = Some l → zlen l = n.

(** ** Reading a shaped image *)

Definition known (name : string) : bool := match dp_find name with Some _ => true | None => false end.

Lemma bytes_known x name : shaped x → known name = true → ∃ b, dp_ref x name = Ok b.
Proof.
  intros [Hl _] Hn. unfold dp_ref, known in *. destruct (dp_find name) as [d|] eqn:E; [|done].
  apply dp_find_some in E as [Hd _]. cbn [of_option mbind res_bind]. rewrite raw_get_sized by done. by eexists.
Qed.

Lemma ref_known x name : shaped x → known name = true → ∃ v, ref_uint x name = Ok v.
Proof. intros Hs Hn. unfold ref_uint. destruct (bytes_known x name Hs Hn) as [b ->]. by eexists. Qed.

Lemma f32_known x name : shaped x → known name = true → ∃ v, ref_f32 x name = Ok v.
Proof. intros Hs Hn. unfold ref_f32. destruct (bytes_known x name Hs Hn) as [b ->]. by eexists. Qed.

Lemma str_known x name : shaped x → dd_type <$> dp_find name = Some DP_STR → ∃ s, dp_str x name = Ok s.
Proof.
  intros Hs Ht. unfold dp_str, dp_ref. destruct (dp_find name) as [d|] eqn:E; [|done]. injection Ht as Ht.
  apply dp_find_some in E as [Hd _]. cbn [of_option mbind res_bind].
  rewrite raw_get_sized by (done || apply Hs). cbn [mbind res_bind]. apply c_string_total. by apply Hs.
Qed.

Ltac read_known H :=
  repeat match goal with
  | |- context [ref_uint ?x ?n] => destruct (ref_known x n H) as [? ->]; [vm_compute; reflexivity|]; cbn [mbind res_bind]
  | |- context [ref_f32 ?x ?n] => destruct (f32_known x n H) as [? ->]; [vm_compute; reflexivity|]; cbn [mbind res_bind]
  | |- context [if ?c then Ok _ else _] => destruct c; [by eexists|]
  end.

Lemma constraints_total x : shaped x → ∃ r, dp_constraints_ok x = Ok r.
Proof. intros H. unfold dp_constraints_ok. read_known H. by eexists. Qed.

Lemma value_total x d : shaped x → d ∈ g_dp → ∃ v, dp_value_to_json d x = Ok v.
Proof.
  intros [Hl Hs] Hd. unfold dp_value_to_json. rewrite raw_get_sized by done. cbn [mbind res_bind].
  destruct (dd_type d) eqn:Et; try (by eexists). specialize (Hs d Hd Et). unfold slot_bytes in Hs.
  destruct (c_string_total (drop (Z.to_nat (dd_off d)) x)) as [s ->]; [by apply subseteq_take in Hs|by eexists].
Qed.

Lemma read_names_total x names : shaped x → ∃ r, read_names x names = Ok r.
Proof.
  intros H. induction names as [|n names [r IH]]; cbn [read_names]; [by eexists|].
  destruct (dp_find n) as [d|] eqn:E; rewrite IH; cbn [mbind res_bind]; [|by eexists].
  apply dp_find_some in E as [Hd _]. destruct (value_total x d H Hd) as [v ->]. by eexists.
Qed.

(** ** The value that was sent *)

Lemma signed_of_abs m z : 0 < m → Z.abs (signed_of m z) <= m.
Proof. intros Hm. unfold signed_of. pose proof (Z.mod_pos_bound z m Hm). cbv zeta. case_match; lia. Qed.

(** A value the bus can send for a point is converted or refused, never undefined. *)
Lemma raw_value_total d buf v : d ∈ g_dp → dd_access d = DP_RW → json_from_raw d buf = inr v →
  ∃ r, dp_value_from_json d (json_of v) = Ok r.
Proof.
  intros Hd Hrw. unfold json_from_raw.
  assert (∀ z, Z.abs z < 2 ^ 52 → ∃ r, dp_value_from_json d (JNumber (f64_of_Z z)) = Ok r) as Hint.
  { intros z Hz. destruct (f64_of_Z_exact z Hz) as (Hv & Hn & _).
    destruct (value_from_json_ok d (JNumber (f64_of_Z z)) Hd Hrw (conj Hv Hn)) as (r & Hr & _). by exists r. }
  set (x := le_get buf).
  pose proof (u8_range x) as H8. pose proof (u16_range x) as H16. pose proof (u32_range x) as H32.
  unfold is_u8, is_u16, is_u32 in *.
  destruct (dd_type d) eqn:Et; try (destruct (DP_STR_MAX <=? zlen buf); [done|]); try (destruct (negb _); [done|]);
    intros H; injection H as <-; cbn [json_of];
    try (apply Hint; first [lia | eapply Z.le_lt_trans; [by apply signed_of_abs|lia]]); unfold dp_value_from_json; rewrite Et; try (by eexists).
  - destruct (strtoull _) as [[? []]|]; by eexists.
  - do 2 (destruct (_ && _); [by eexists|]). by eexists.
  - destruct (DP_STR_MAX <=? _); by eexists.
Qed.

(** An item whose value the bus can send. *)
Definition raw_item (it : dp_item) : Prop :=
  ∀ d, dp_find (item_key it) = Some d → dd_access d = DP_RW → ∃ r, dp_value_from_json d it.2 = Ok r.

(** The catalogue's names survive the way through the JSON key. *)
Definition alike (d : dp_desc_t) : bool := bool_decide (dp_find (name_of (cstr (dd_name d))) = Some d).

Lemma catalogue_alike : forallb alike g_dp = true.
Proof. vm_compute. reflexivity. Qed.

Lemma sent_item d buf v : d ∈ g_dp → json_from_raw d buf = inr v →
  Forall raw_item (dp_items (CObject (member (dd_name d) v))).
Proof.
  intros Hd Hv. apply Forall_singleton. intros d' Hf Hrw.
  change (dp_find (name_of (cstr (dd_name d))) = Some d') in Hf.
  pose proof catalogue_alike as Ha. rewrite forallb_forall in Ha.
  specialize (Ha d (proj1 (list_elem_of_In _ _) Hd)). apply bool_decide_eq_true in Ha. rewrite Ha in Hf.
  injection Hf as <-. by eapply raw_value_total.
Qed.

(** ** The batch *)

Lemma validate_total items : ∀ x, shaped x → Forall raw_item items →
  ∃ x' errs, validate_items items x = Ok (x', errs) ∧ shaped x'.
Proof.
  induction items as [|it items IH]; intros x Hs Hi; cbn [validate_items]; [by exists x, []|].
  apply Forall_cons in Hi as [Hit Hi].
  assert (∀ e : string * string, ∃ x' errs, (r ← validate_items items x; Ok (r.1, e :: r.2)) = Ok (x', errs) ∧ shaped x')
    as He by (intros e; destruct (IH x Hs Hi) as (x' & errs & -> & Hs'); by eexists _, _).
  destruct (dp_find _) as [d|] eqn:Ed; [|apply He]. destruct (bool_decide _) eqn:Erw; cbn [negb]; [|apply He].
  apply bool_decide_eq_true in Erw. destruct (Hit d Ed Erw) as [[err|b] Hv]; rewrite Hv; cbn [mbind res_bind]; [apply He|].
  apply dp_find_some in Ed as [Hd _]. apply value_bytes in Hv as [Hb H0].
  rewrite raw_set_sized; [|apply Hs|done|done]. cbn [mbind res_bind]. apply IH; [by apply shaped_put|done].
Qed.

Lemma commit_total items : ∀ x live, shaped x → shaped live →
  ∃ live', commit_items items x live = Ok live' ∧ shaped live'.
Proof.
  induction items as [|it items IH]; intros x live Hx Hl; cbn [commit_items]; [by exists live|].
  destruct (dp_find _) as [d|] eqn:Ed; [|by apply IH]. apply dp_find_some in Ed as [Hd _].
  destruct (bool_decide _); [|by apply IH].
  rewrite raw_get_sized by (try done; apply Hx). cbn [mbind res_bind].
  pose proof (slot_bytes_sized x d (proj1 Hx) Hd) as Hb.
  rewrite raw_set_sized by (try done; apply Hl). cbn [mbind res_bind]. apply IH; [done|].
  apply shaped_put; [done..|]. intros Ht. by apply Hx.
Qed.

Section device.
Context {nvs : Type} `{!NvsApi nvs}.

Lemma batch_total s (n : nvs) live items o c : shaped (g_dp_store s) → shaped live → Forall raw_item items →
  ∃ ok errs p s' n', dp_write_batch s n live items o c = Ok (ok, errs, p, s', n') ∧ shaped (g_dp_store s').
Proof.
  intros Hs Hl Hi. unfold dp_write_batch, dp_write_locked.
  destruct (validate_total items _ Hs Hi) as (x & errs & -> & Hx). cbn [mbind res_bind].
  destruct errs as [|e es]; cbn [mbind res_bind negb]; [|by eexists _, _, _, _, _].
  destruct (constraints_total x Hx) as [[bad|] ->]; cbn [mbind res_bind negb]; [by eexists _, _, _, _, _|].
  destruct (commit_total items x live Hx Hl) as (l & -> & Hl'). cbn [mbind res_bind negb].
  destruct (config_save_shaped (s <| g_dp_store := l |>) n o c) as [r ->]; [exact Hl'|]. cbn [mbind res_bind].
  by eexists _, _, _, _, _.
Qed.

(** ** The network actions *)

Lemma save_total io (s : net_state nvs) : shaped (ns_img s) →
  ∃ s', config_save io s = Ok s' ∧ ns_dp s' = ns_dp s.
Proof.
  intros H. unfold config_save. destruct (config_save_shaped (ns_dp s) (ns_nvs s) (io_open io) (io_commit io) H) as [r ->].
  by eexists.
Qed.

Lemma copy_total points : ∀ x, forallb pair_low points = true → shaped x →
  ∃ x', copy_fields "Network_" "Backup_" points x = Ok x' ∧ shaped x'.
Proof.
  induction points as [|p points IH]; intros x Hp H; cbn [copy_fields]; [by exists x|].
  cbn [forallb] in Hp. apply andb_prop in Hp as [Hp Hps]. unfold pair_low in Hp.
  destruct (dp_find ("Network_" +:+ p.2)) as [d|] eqn:Ed; [|done].
  destruct (dp_find ("Backup_" +:+ p.2)) as [e|] eqn:Ee; [|done].
  apply andb_prop in Hp as [[[Ht%bool_decide_eq_true HS%eqb_prop]%andb_prop _]%andb_prop _].
  pose proof Ed as [Hd _]%dp_find_some. pose proof Ee as [He _]%dp_find_some.
  assert (∀ b, zlen b = dp_size d → (dd_type d = DP_STR → 0 ∈ b) →
    ∃ x', (x ← dp_ref_set x ("Network_" +:+ p.2) b; copy_fields "Network_" "Backup_" points x) = Ok x' ∧ shaped x') as Hset.
  { intros b Hb H0. unfold dp_ref_set. rewrite Ed. cbn [of_option mbind res_bind].
    rewrite raw_set_sized by (done || apply H). cbn [mbind res_bind]. apply IH; [done|]. by apply shaped_put. }
  assert (dp_size e = dp_size d) as Hsz by (unfold dp_size; by rewrite Ht).
  pose proof (slot_bytes_sized x e (proj1 H) He) as Hlx.
  unfold field, assign_field, dp_str, dp_ref. rewrite Ee. cbn [of_option mbind res_bind].
  rewrite raw_get_sized by (done || apply H). destruct p.1; cbn [mbind res_bind].
  - apply bool_decide_eq_true in HS. destruct (c_string_total _ (proj2 H e He ltac:(congruence))) as [s ->].
    cbn [mbind res_bind]. unfold dp_str_set. assert (dp_size d = 64) as H64 by (unfold dp_size; by rewrite HS).
    apply Hset; [by rewrite copy_string_len|]. intros _. apply copy_string_nul.
  - apply Hset; [congruence|]. intros HS'. rewrite bool_decide_true in HS by done. done.
Qed.

Lemma save_handle_total io bTask (s : net_state nvs) act : shaped (ns_img s) →
  ∃ ok s', network_config_save_handle io bTask s act = Ok (ok, s') ∧ shaped (ns_img s').
Proof.
  intros H. unfold network_config_save_handle, system_reboot_deferred, trial_nvs_set, emit.
  assert (∀ s : net_state nvs, shaped (ns_img s) → ∃ s', config_save io s = Ok s' ∧ shaped (ns_img s')) as Hsave.
  { intros t Ht. destruct (save_total io t Ht) as (t' & Ht' & E). exists t'. split; [done|]. unfold ns_img in *. by rewrite E. }
  destruct (act =? _). { destruct (Hsave s H) as (s' & -> & Hs'). by eexists _, _. }
  destruct (act =? _). { destruct (Hsave s H) as (s' & -> & Hs'). eexists _, _. split; [reflexivity|]. by destruct bTask. }
  destruct (act =? _).
  { unfold restore_from_backup. destruct (copy_total _ _ pairs_low H) as (x & -> & Hx). cbn [mbind res_bind].
    destruct (Hsave (set_img s x) Hx) as (s' & -> & Hs'). by eexists _, _. }
  destruct (act =? _); [|by eexists _, _]. unfold str_empty.
  destruct (str_known (ns_img s) "Backup_SSID" H) as [t ->]; [vm_compute; reflexivity|]. cbn [mbind res_bind].
  destruct (bool_decide _); [by eexists _, _|]. destruct (Hsave s H) as (s' & -> & Hs'). cbn [mbind res_bind].
  eexists _, _. split; [reflexivity|]. by destruct bTask, (io_trial io).
Qed.

(** ** dp_write *)

Context {P : Type} `{!Partition P, !PartitionReads P}.

Lemma hdr_total l : zlen l = sizeof_hdr → ∃ h, hdr_of_bytes l = Ok h.
Proof.
  unfold zlen, sizeof_hdr. intros Hl. do 16 (destruct l as [|? l]; [discriminate Hl|]).
  destruct l; [|cbn in Hl; lia]. by eexists.
Qed.

Lemma log_command_total (w : com_state nvs P) z : ∃ w', log_command_handle part_read part_write w z = Ok w'.
Proof.
  unfold log_command_handle, logging_ack_previous_boot, hdr_read.
  destruct (z =? 1); [by eexists|]. destruct (z =? 2); [|by eexists].
  destruct (_ || _); cbn [mbind res_bind]; [by eexists|]. destruct (_ && _); cbn [mbind res_bind]; [by eexists|].
  destruct (part_read _ _ _) as [l|] eqn:El; cbn [mbind res_bind]; [|by eexists].
  destruct (hdr_total l) as [h ->]; [by eapply part_read_length|]. cbn [mbind res_bind].
  destruct (part_write _ _ _); cbn [mbind res_bind]; by eexists.
Qed.

(** The two intercepted points are bytes. *)
Definition command_point (d : dp_desc_t) : bool :=
  negb (bool_decide (cstr (dd_name d) = cstr "Network_Save") || bool_decide (cstr (dd_name d) = cstr "Log_Command"))
  || bool_decide (dd_type d = DP_U8).

Lemma command_points : forallb command_point g_dp = true.
Proof. vm_compute. reflexivity. Qed.

(** The batch after the interception: the member, or nothing. *)
Lemma intercept_total d buf v key : d ∈ g_dp → json_from_raw d buf = inr v → key = "Network_Save" ∨ key = "Log_Command" →
  ∃ z, intercept (CObject (member (dd_name d) v)) key = Ok (z, CObject (member (dd_name d) v)) ∨
       intercept (CObject (member (dd_name d) v)) key = Ok (z, CObject []).
Proof.
  intros Hd Hv Hk. unfold intercept, get_item, delete_item, member. cbn [members List.find fst delete_key].
  destruct (bool_decide (cstr (dd_name d) = cstr key)) eqn:E; cbn [option_map fmap option_fmap]; [|by exists None; left].
  pose proof command_points as Hc. rewrite forallb_forall in Hc.
  specialize (Hc d (proj1 (list_elem_of_In _ _) Hd)). unfold command_point in Hc.
  assert (bool_decide (dd_type d = DP_U8) = true) as Ht%bool_decide_eq_true.
  { destruct Hk as [->| ->]; rewrite E in Hc; [exact Hc|]. by rewrite orb_true_r in Hc. }
  unfold json_from_raw in Hv. rewrite Ht in Hv. destruct (negb _); [done|]. injection Hv as <-.
  pose proof (u8_range (le_get buf)) as H8. unfold is_u8 in H8.
  cbn [snd]. unfold cast_uint. destruct (f64_of_Z_exact (u8 (le_get buf)) ltac:(lia)) as (_ & _ & ->).
  rewrite (proj2 (Z.leb_le 0 _)), (proj2 (Z.ltb_lt _ (2 ^ 8))) by lia. cbn [andb mbind res_bind].
  eexists. by right.
Qed.

Lemma applied_total (w : com_state nvs P) name v pre : shaped (ns_img (tc_net w)) →
  ∃ r w', applied_result w (Some (CObject (member name v))) pre = Ok (r, w') ∧ tc_net w' = tc_net w.
Proof.
  intros H. unfold applied_result, readback_names. cbn [mbind res_bind]. cbn zeta.
  match goal with |- context [dp_read_into _ ?l] => set (names := l); assert (names ≠ []) as Hn by done end.
  clearbody names. unfold dp_read_into. destruct names as [|n names]; [done|].
  match goal with |- context [read_names ?x ?l] => destruct (read_names_total x l H) as [r ->] end.
  by eexists _, _.
Qed.

(** Whatever arrives for a point, dp_write ends normally and keeps the image's shape. *)
Lemma apply_write_total io (w : com_state nvs P) d buf v :
  shaped (ns_img (tc_net w)) → d ∈ g_dp → json_from_raw d buf = inr v →
  ∃ r w', task_com_apply_dp_write part_read part_write io w (ns_img (tc_net w)) (Some (CObject (member (dd_name d) v)))
            = Ok (r, w') ∧ shaped (ns_img (tc_net w')).
Proof.
  intros Hs Hd Hv. unfold task_com_apply_dp_write. cbn [from_option Datatypes.id].
  set (dp := CObject (member (dd_name d) v)).
  assert (∀ k batch, batch = dp ∨ batch = CObject [] → k = "Network_Save" ∨ k = "Log_Command" →
    ∃ z batch', intercept batch k = Ok (z, batch') ∧ (batch' = dp ∨ batch' = CObject [])) as Hint.
  { intros k batch [->| ->] Hk; [|by exists None, (CObject []); split; [|right]].
    destruct (intercept_total d buf v k Hd Hv Hk) as [z [H|H]]; eexists z, _; (split; [exact H|]); [by left|by right]. }
  destruct (Hint "Network_Save" dp (or_introl eq_refl) (or_introl eq_refl)) as (save & b1 & -> & H1). cbn [mbind res_bind].
  destruct (Hint "Log_Command" b1 H1 (or_intror eq_refl)) as (cmd & b2 & -> & H2). cbn [mbind res_bind]. clear Hint b1 H1.
  assert (∃ u, match cmd with Some z => log_command_handle part_read part_write w z | None => Ok w end = Ok u ∧
    tc_net u = tc_net w) as (u & -> & Hu).
  { destruct cmd as [z|]; [|by exists w]. destruct (log_command_total w z) as [u Hz].
    exists u. split; [done|]. by apply log_command_net in Hz as [? _]. }
  cbn [mbind res_bind]. cbn zeta. rewrite Hu.
  assert (Forall raw_item (dp_items b2)) as Hi by (destruct H2 as [->| ->]; [by eapply sent_item|by apply Forall_nil_2]).
  destruct (batch_total (ns_dp (tc_net w)) (ns_nvs (tc_net w)) (ns_img (tc_net w)) (dp_items b2) (ci_open io) (ci_commit io)
    Hs Hs Hi) as (ok & errs & p & s' & n' & -> & Hs'). cbn [mbind res_bind]. clear Hi.
  destruct ok; cbn [negb]; [|by eexists _, _].
  set (x := if p then _ else _).
  assert (shaped (ns_img (tc_net x))) as Hx by (subst x; by destruct p). clearbody x. unfold batch_result.
  destruct (default 0 save =? 0).
  { destruct errs; [|by eexists _, _].
    destruct (applied_total x (dd_name d) v (if p then [] else add_string "warning" (cstr "nvs_save_failed")) Hx)
      as (r & w' & Hr & Hn). eexists r, w'. split; [exact Hr|]. unfold ns_img in *. by rewrite Hn. }
  destruct (save_handle_total (ci_net io) (ci_task io) (tc_net x) (default 0 save) Hx) as (done_ & net & -> & Hnet).
  cbn [mbind res_bind fst snd]. destruct done_; cbn [negb]; [|by eexists _, _]. destruct errs; [|by eexists _, _].
  match goal with |- context [applied_result ?y _ ?pre] =>
    destruct (applied_total y (dd_name d) v pre Hnet) as (r & w' & Hr & Hn) end.
  eexists r, w'. split; [exact Hr|]. unfold ns_img in *. by rewrite Hn.
Qed.

(** ** The dictionary *)

Lemma dp_at i : 0 <= i < dp_count → ∃ d, array_get g_dp i = Ok d ∧ d ∈ g_dp.
Proof.
  intros [H0 H1]. unfold array_get. rewrite decide_True by done.
  destruct (lookup_lt_is_Some_2 g_dp (Z.to_nat i)) as [d Hd]; [unfold dp_count, zlen in H1; lia|].
  rewrite Hd. exists d. split; [done|]. by eapply list_elem_of_lookup_2.
Qed.

Lemma od_read_total x i sub cap : shaped x → ∃ r, od_read_cb x i sub cap = Ok r.
Proof.
  intros Hs. unfold od_read_cb. destruct (_ =? _); [by eexists|].
  destruct ((CO_IDX_DP_BASE <=? i) && _) eqn:E.
  { apply andb_prop in E as [H0%Z.leb_le H1%Z.ltb_lt]. destruct (negb _); [by eexists|].
    destruct (dp_at (i - CO_IDX_DP_BASE) ltac:(lia)) as (d & -> & Hd). cbn [mbind res_bind]. unfold od_read_dp.
    destruct (_ || _); [by eexists|]. rewrite raw_get_sized by (done || apply Hs). cbn [mbind res_bind].
    destruct (cap <? _); by eexists. }
  destruct ((CO_IDX_DESC_BASE <=? i) && _) eqn:E'; [|by eexists].
  apply andb_prop in E' as [H0%Z.leb_le H1%Z.ltb_lt].
  destruct (dp_at (i - CO_IDX_DESC_BASE) ltac:(lia)) as (d & -> & Hd). by eexists.
Qed.

Lemma write_dp_total (a : can_app nvs P) d buf v : shaped (ca_img a) → d ∈ g_dp → json_from_raw d buf = inr v →
  shaped (ca_img (write_dp a d v).1) ∧ ca_stuck (write_dp a d v).1 = ca_stuck a ∧ ca_rx (write_dp a d v).1 = ca_rx a.
Proof.
  intros Hs Hd Hv. unfold write_dp, ca_img in *.
  destruct (apply_write_total (ca_io a) (ca_com a) d buf v Hs Hd Hv) as (r & w' & -> & Hw). done.
Qed.
End device.

(** The partition in memory fills the buffer. *)
#[export] Instance ram_partition_reads : PartitionReads (list Z).
Proof.
  intros p off n l Hn. cbn. unfold RamFlash.read, array_read. case_decide as Hr; [|done].
  intros [= <-]. unfold zlen. rewrite length_take, length_drop. lia.
Qed.
