(* ===== verification/CanOpenProps.v ===== *)
(** * Properties of the CANopen task

    [canopen_device_total]: the device of CanOpenTask ends every cycle and stays
    inside the arrays of core and task.  Executions: the receive burst, the default
    process data, and what a value written over SDO does to the pump. *)

From Stdlib Require Import SpecFloat.
From S2P Require Import Prelude Bytes Float32 Float64 DpCatalog Datapoints DpProps PumpManager PumpSafety.
From S2P Require Import Hal PumpTask PumpTaskProps NetworkConfig NetworkConfigProps FpAuth FpSession.
From S2P Require Import LogCore LogFlash Command TaskCom TaskComProps.
From S2P Require Import CoTypes CoOd CoPdo CoSdo CoNode CoInv CoSafety CoSim CanOpenTask CanOpenSecrecy CanOpenWrite.
Local Open Scope string_scope.
Local Open Scope list_scope.
Local Open Scope Z_scope.

(** ** A filter that holds NaN *)

Definition nan : f32 := S754_nan.

(** The state after measurements at times [u.2], the sensor being sound. *)
Definition pm_updates (pm : pm_t) (us : list (f32 * Z)) : pm_t :=
  foldl (λ pm u, pm_update pm u.1 true u.2) pm us.

(** Pumping in automatic mode with a filter that holds NaN. *)
Record nan_running (pm : pm_t) : Prop := {
  nr_filt : m_pressure_filtered_bar (pm_m pm) = nan;
  nr_state : pm_state pm = PM_STATE_RUNNING;
  nr_mode : pm_mode pm = PM_MODE_AUTO;
  nr_relay : pm_relay_on pm = true;
  nr_last : pm_last_update_ms pm ≠ 0
}.

Lemma f32_add_nan a : f32_add a nan = nan.
Proof. by destruct a as [[]|[]| |]. Qed.
Lemma f32_mul_nan a : f32_mul a nan = nan.
Proof. by destruct a as [[]|[]| |]. Qed.

Lemma filters_nan pm a now : m_pressure_filtered_bar (pm_m pm) = nan → pm_last_update_ms pm ≠ 0 →
  m_pressure_filtered_bar (pm_m (filters_update pm a now)) = nan.
Proof.
  intros Hf Hl. unfold filters_update. apply Z.eqb_neq in Hl. cbn. rewrite Hl. cbn. rewrite Hf.
  by rewrite f32_mul_nan, f32_add_nan.
Qed.

Lemma event_filtered pm now :
  m_pressure_filtered_bar (pm_m (event_update pm now)) = m_pressure_filtered_bar (pm_m pm).
Proof.
  unfold event_update. destruct (_ =? 0); [done|]. cbn zeta.
  destruct (f32_lt _ _), (f32_gt (m_pressure_filtered_bar (pm_m pm)) _), (_ && _ && _); done.
Qed.

Lemma f32_ge_nan b : f32_ge nan b = false.
Proof. by destruct b as [[]|[]| |]. Qed.

Lemma f32_lt_nan b : f32_lt nan b = false.
Proof. by destruct b as [[]|[]| |]. Qed.

Lemma demand_again pm c a b : ∃ d, (if (c : bool) then demand_set (demand_set pm a) b else demand_set pm a) = demand_set pm d.
Proof. destruct c; [by exists b|by exists a]. Qed.

Lemma nan_step pm a now : nan_running pm → now ≠ 0 → run_ms pm now < c_max_on_ms (pm_cfg pm) →
  nan_running (pm_update pm a true now) ∧ pm_cfg (pm_update pm a true now) = pm_cfg pm ∧
  pm_pump_start_ms (pm_update pm a true now) = pm_pump_start_ms pm.
Proof.
  intros [Hf Hs Hm Hr Hl] Hnow Hrun. unfold pm_update.
  assert (m_pressure_filtered_bar (pm_m (sensed pm a now)) = nan) as Hfe
    by (unfold sensed; by rewrite event_filtered, filters_nan).
  destruct (sensed_ctl pm a now) as (m & x & E). rewrite E in *. cbn in Hfe. clear E.
  set (s := pm <| pm_m := m |> <| pm_last_filtered_bar := x |>).
  assert (protections s true now = s) as ->.
  { unfold protections, crit_low, dry_run, max_run_ms. cbn. rewrite Hs, Hr, Hm, Hfe. cbn.
    change (run_ms s now) with (run_ms pm now). rewrite bool_decide_false by done. cbn [andb].
    rewrite !f32_lt_nan, andb_false_r. apply Z.leb_gt in Hrun. by rewrite Hrun. }
  unfold state_switch. change (pm_state s) with (pm_state pm). rewrite Hs. unfold case_running. cbn zeta.
  rewrite decide_True by exact Hm.
  destruct (demand_again (s <| pm_relay_on := true |>)
    (demand_limit_ms (demand_set (s <| pm_relay_on := true |>) (classify_demand (s <| pm_relay_on := true |>)))
      <? m_event_duration_ms (pm_m (demand_set (s <| pm_relay_on := true |>) (classify_demand (s <| pm_relay_on := true |>)))))
    (classify_demand (s <| pm_relay_on := true |>)) PM_DEMAND_LEAK_SUSPECT) as [d ->].
  change (m_pressure_filtered_bar (pm_m (demand_set (s <| pm_relay_on := true |>) d))) with (m_pressure_filtered_bar m).
  rewrite Hfe, f32_ge_nan. cbn [andb]. split_and!; [|done..]. split; done.
Qed.

(** A filtered pressure that is NaN switches the pump's pressure control off.
    While it pumps in automatic mode with a sound sensor, no measurement, however
    high or low, stops it: it keeps running, neither the switch-off pressure nor
    the dry-run and the critical-low protection acts, and the filter stays NaN,
    until the maximum run time is reached. *)
Theorem nan_filter_disables_pressure_control pm us :
  nan_running pm → Forall (λ u, u.2 ≠ 0 ∧ run_ms pm u.2 < c_max_on_ms (pm_cfg pm)) us →
  nan_running (pm_updates pm us).
Proof.
  intros H Hus. revert pm H Hus. induction us as [|u us IH]; intros pm H Hus; [done|].
  apply Forall_cons in Hus as [[H0 Hrun] Hus]. cbn [pm_updates foldl].
  destruct (nan_step pm u.1 u.2 H H0 Hrun) as (Hn & Hc & Hp). apply (IH _ Hn).
  eapply Forall_impl; [exact Hus|]. intros v [Hv0 Hv]. split; [done|]. unfold run_ms in *. by rewrite Hc, Hp.
Qed.

(** ** The task stays inside its arrays *)

Section total.
Context {nvs : Type} `{!NvsApi nvs} {P : Type} `{!Partition P, !PartitionReads P}.
Implicit Types w : can_world nvs P.

Lemma od_bytes_cap cap b : 0 <= cap → Z.of_nat (length (od_bytes cap b).2) <= cap.
Proof. intros Hc. unfold od_bytes, zlen. destruct (Z.ltb_spec cap (Z.of_nat (length b))); cbn; lia. Qed.

Lemma od_read_cap x i sub cap r :
  0 <= cap → od_read_cb x i sub cap = Ok r → Z.of_nat (length r.2) <= cap.
Proof.
  intros Hc. unfold od_read_cb. destruct (i =? _).
  { intros Hr. injection Hr as <-. destruct (negb _); [cbn; lia|by apply od_bytes_cap]. }
  destruct (_ && _).
  { destruct (negb _); [intros Hr; injection Hr as <-; cbn; lia|].
    destruct (array_get _ _) as [d| | ]; [|done|done]. cbn [mbind res_bind]. unfold od_read_dp.
    destruct (_ || _); [intros Hr; injection Hr as <-; cbn; lia|].
    destruct (dp_raw_get x d) as [raw| | ]; [|done|done]. cbn [mbind res_bind].
    destruct (Z.ltb_spec cap (Z.of_nat (if bool_decide (dd_type d = DP_STR) then strnlen raw else length raw)));
      intros Hr; injection Hr as <-; cbn [snd length]; [lia|]. rewrite length_take. lia. }
  destruct (_ && _); [|intros Hr; injection Hr as <-; cbn; lia].
  destruct (array_get _ _) as [d| | ]; [|done|done]. cbn [mbind res_bind]. intros Hr. injection Hr as <-.
  unfold od_read_desc. repeat (destruct (_ =? _); [by apply od_bytes_cap|]). cbn. lia.
Qed.

Lemma pdo_defaults_ok : Forall conf_ok pdo_defaults.
Proof. unfold pdo_defaults. repeat (apply Forall_cons_2; [split; lia|]). done. Qed.

(** The dictionary of the task meets the contract of the core. *)
#[export] Instance canopen_app_laws : CoAppLaws (can_app nvs P).
Proof.
  split.
  - intros rd a i sub cap a' code bytes [= <-] Hc. unfold od_read_app.
    destruct (od_read_cb _ _ _ _) as [r| | ] eqn:Er; intros E; injection E as <- E; [|subst bytes; cbn; lia..].
    by apply od_read_cap in Er; subst r.
  - intros cb a b a' cs [= <-] E. unfold cb_reset, fault_bits in E.
    pose proof pdo_defaults_ok as Hp. destruct (ref_uint _ _) as [f| | ]; cbn [mbind res_bind] in E;
      apply pair_equal_spec in E as [<- <-]; try exact Hp.
    apply Forall_app_2; [exact Hp|]. destruct (f =? 0); [done|]. by apply Forall_singleton.
Qed.

(** ** Soundness of the state *)

(** A received message with eight bytes. *)
Definition msg_ok (m : twai_message) : Prop :=
  0 <= tm_dlc m ∧ length (tm_data m) = 8%nat ∧ Forall is_u8 (tm_data m).

Lemma frame_of_wf m : msg_ok m → frame_wf (frame_of m).
Proof.
  intros (Hd & Hl & Hb). split; [|exact Hl|exact Hb]. cbn. destruct (Z.ltb_spec 8 (tm_dlc m)); lia.
Qed.

(** The image has its shape, the driver holds messages, and no callback was undefined. *)
Definition good (a : can_app nvs P) : Prop :=
  shaped (ca_img a) ∧ Forall msg_ok (ca_rx a) ∧ ca_stuck a = false.
Definition good_eq (a b : can_app nvs P) : Prop := a = b ∧ good a.

Lemma fault_bits_ok x : shaped x → ∃ l, fault_bits x = Ok l.
Proof.
  intros H. unfold fault_bits. destruct (ref_known x "Fon_Fault_Code" H) as [v ->]; [vm_compute; reflexivity|]. by eexists.
Qed.

Lemma od_write_good a i s buf : good a → good (od_write_cb a i s buf).1.
Proof.
  intros (Hs & Hq & Hk). unfold od_write_cb. destruct (_ || _); [done|].
  destruct ((i <? CO_IDX_DP_BASE) || _) eqn:E; [done|]. apply orb_false_elim in E as [E1%Z.ltb_ge E2%Z.leb_gt].
  destruct (negb _); [done|]. destruct (dp_at (i - CO_IDX_DP_BASE) ltac:(lia)) as (d & -> & Hd).
  destruct (bool_decide _); [done|]. destruct (json_from_raw d buf) as [e|v] eqn:Ev; [done|].
  destruct (write_dp_total a d buf v Hs Hd Ev) as (H1 & H2 & H3). destruct (write_dp a d v) as [a' ab]. cbn [fst] in *.
  split; [exact H1|]. cbn. by rewrite H2, H3.
Qed.

(** No callback breaks this. *)
#[export] Instance good_sim : AppSim good_eq.
Proof.
  split; cbn; constructor.
  - intros a ? fr [<- Hg]. split; [|done]. split; [done|]. unfold can_send_cb.
    destruct (_ || _); [done|]. by destruct (ca_tx a).
  - intros a ? i s cap [<- Hg]. unfold od_read_app. destruct (od_read_total (ca_img a) i s cap (proj1 Hg)) as [r ->]. done.
  - intros a ? i s buf [<- Hg]. split; [|done]. split; [done|]. by apply od_write_good.
  - intros a ? bn [<- Hg]. unfold cb_reset. destruct (fault_bits_ok (ca_img a) (proj1 Hg)) as [l ->]. done.
  - by intros a ? o n [<- Hg].
Qed.

Definition sound w : Prop := wf w ∧ good (w_app w).

Lemma good_refl w : sound w → wrel good_eq w w.
Proof. intros [_ H]. destruct w as [n a l]. by constructor. Qed.

(** An operation that keeps the node well formed and the callbacks' invariant. *)
Lemma sound_of (m : res (can_world nvs P)) : safe m wf → rrel (wrel good_eq) m m → safe m sound.
Proof.
  destruct m as [w| | ]; try done. intros Hw H. split; [done|]. inversion H as [n a b l Hab]. subst. apply Hab.
Qed.

Lemma put_known w l : forallb (λ e, known e.1 && plain_name e.1) l = true → shaped (can_img w) →
  safe (can_put w l) (λ w', w_node w' = w_node w ∧ can w' = can w ∧ w_wire w' = w_wire w ∧
    ca_rx (w_app w') = ca_rx (w_app w) ∧ ca_stuck (w_app w') = ca_stuck (w_app w) ∧ shaped (can_img w')).
Proof.
  intros Hl Hs. unfold can_put.
  assert (∃ x, dp_refs_put (can_img w) l = Ok x ∧ shaped x) as (x & -> & Hx).
  { revert Hs. generalize (can_img w). induction l as [|[name v] l IH]; intros y Hy; cbn [dp_refs_put]; [by exists y|].
    cbn [forallb fst] in Hl. apply andb_prop in Hl as [[Hk Hp]%andb_prop Hl].
    unfold dp_ref_put, known, plain_name in *. destruct (dp_find name) as [d|] eqn:E; [|done].
    apply dp_find_some in E as [Hd _]. apply negb_true_iff, bool_decide_eq_false in Hp.
    pose proof (const_bytes_size (dd_type d) v Hp) as Hb.
    cbn [of_option mbind res_bind]. rewrite raw_set_sized; [|apply Hy|done|done]. cbn [mbind res_bind].
    apply (IH Hl). by apply shaped_put. }
  cbn. done.
Qed.

Lemma sound_keep w w' : w_node w' = w_node w → can_img w' = can_img w →
  ca_rx (w_app w') = ca_rx (w_app w) → ca_stuck (w_app w') = ca_stuck (w_app w) → sound w → sound w'.
Proof. unfold sound, wf, good, can_img. by intros -> -> -> ->. Qed.

Lemma put_sound w l : forallb (λ e, known e.1 && plain_name e.1) l = true → sound w →
  safe (can_put w l) sound.
Proof.
  intros Hl [Hw [Hs Hq]]. eapply safe_mono; [by apply put_known|]. intros w' (Hn & _ & _ & Hr & Hk & Hs').
  split; [unfold wf in *; by rewrite Hn|]. split; [done|]. by rewrite Hr, Hk.
Qed.

Lemma step_sound w e : sound w → event_ok e → safe (co_step w e) sound.
Proof.
  intros H He. apply sound_of; [apply co_step_safe; [apply H|done]|]. by apply (co_step_sim good_eq), good_refl.
Qed.

Lemma fault_bits_total x : shaped x → safe (fault_bits x) (Forall conf_ok).
Proof.
  intros H. unfold fault_bits. destruct (ref_known x "Fon_Fault_Code" H) as [v ->]; [vm_compute; reflexivity|].
  cbn [mbind res_bind safe]. destruct (v =? 0); [done|]. by apply Forall_singleton.
Qed.

Lemma conf_sound w cs : sound w → Forall conf_ok cs → safe (apply_conf w cs) sound.
Proof.
  intros H Hc. apply sound_of; [|by apply (apply_conf_sim good_eq), good_refl].
  eapply safe_mono; [apply apply_conf_safe; [apply H|done]|]. by intros ? [].
Qed.

Variable p : hal_pins_t.
Variable hw_rev : list Z.

Lemma core_start_sound us w : sound w → safe (core_start hw_rev us w) sound.
Proof.
  intros H. destruct H as [Hw [Hs Hq]]. unfold core_start.
  destruct (str_known (can_img w) "Device_SW_Version" Hs) as [ver ->]; [vm_compute; reflexivity|].
  cbn [mbind res_bind].
  destruct (ref_known (can_img w) "Device_Serial_Number" Hs) as [n ->]; [vm_compute; reflexivity|].
  rewrite !bind_ok. cbn zeta.
  match goal with |- context [co_init _ ?c ?t] => set (cfg := c); set (now := t) end.
  assert (safe (co_init (w_app w) cfg now) sound) as Hi.
  { apply sound_of; [apply co_init_safe|]. by apply (co_init_sim good_eq). }
  eapply safe_bind; [exact Hi|]. intros w1 H1.
  eapply safe_bind; [apply conf_sound; [exact (sound_keep w1 _ eq_refl eq_refl eq_refl eq_refl H1)|apply pdo_defaults_ok]|].
  intros w2 H2. eapply safe_bind; [apply fault_bits_total, H2|]. intros l Hl. by apply conf_sound.
Qed.

Lemma start_all_sound io w : sound w → safe (start_all p hw_rev io w) (λ r, sound r.2).
Proof.
  intros H. unfold start_all, driver_start. repeat (destruct (negb _); [exact (sound_keep w _ eq_refl eq_refl eq_refl eq_refl H)|]).
  eapply safe_bind; [apply core_start_sound; exact (sound_keep w _ eq_refl eq_refl eq_refl eq_refl H)|].
  intros w1 H1. exact (sound_keep w1 _ eq_refl eq_refl eq_refl eq_refl H1).
Qed.

Lemma stop_all_sound io r w : sound w → sound (stop_all p io r w).
Proof.
  intros H. unfold stop_all, driver_stop. destruct (negb _) eqn:E; [done|].
  destruct H as [Hw (Hs & _ & Hk)]. split; [by destruct Hw; split|]. by split_and!.
Qed.

Lemma config_read_total x : shaped x → ∃ c, config_points_read x = Ok c.
Proof.
  intros H. unfold config_points_read.
  repeat match goal with
  | |- context [ref_uint x ?n] => destruct (ref_known x n H) as [? ->]; [vm_compute; reflexivity|]; rewrite bind_ok
  end.
  by eexists.
Qed.

Lemma snapshot_sound w : sound w → safe (config_snapshot w) sound.
Proof.
  intros H. unfold config_snapshot. destruct (config_read_total (can_img w) (proj1 (proj2 H))) as [[[[[en lb] id] kb] hb] ->].
  exact (sound_keep w _ eq_refl eq_refl eq_refl eq_refl H).
Qed.

Lemma reapply_sound io now w : sound w → safe (reapply_config p hw_rev io now w) sound.
Proof.
  intros H. unfold reapply_config. destruct (config_read_total (can_img w) (proj1 (proj2 H))) as [[[[[en lb] id] kb] hb] ->].
  rewrite bind_ok. destruct (negb (s_bRunning _)).
  - destruct (_ && _); [done|]. destruct en; [|done].
    eapply safe_bind; [by apply snapshot_sound|]. intros w1 H1.
    eapply safe_bind; [by apply start_all_sound|]. intros [ok w2] H2. cbn [snd] in H2.
    destruct ok; [exact (sound_keep w2 _ eq_refl eq_refl eq_refl eq_refl H2)|done].
  - destruct (negb en). { exact (sound_keep _ _ eq_refl eq_refl eq_refl eq_refl (stop_all_sound io 0 w H)). }
    destruct (_ || _).
    { eapply safe_bind; [by apply snapshot_sound, stop_all_sound|]. intros w1 H1.
      eapply safe_bind; [by apply start_all_sound|]. intros r Hr. exact Hr. }
    destruct (negb _); [|done].
    exact (step_sound _ (EvHeartbeatSet hb) (sound_keep w _ eq_refl eq_refl eq_refl eq_refl H) I).
Qed.

Lemma set_u32_total x name z : shaped x → dd_type <$> dp_find name = Some DP_U32 →
  safe (dp_ref_set x name (le_put 4 z)) shaped.
Proof.
  intros H Ht. unfold dp_ref_set. destruct (dp_find name) as [d|] eqn:E; [|done]. injection Ht as Ht.
  apply dp_find_some in E as [Hd _]. cbn [of_option mbind res_bind].
  assert (zlen (le_put 4 z) = dp_size d) as Hz by (unfold dp_size; by rewrite Ht, le_put_len).
  rewrite raw_set_sized; [|apply H|done|done]. apply shaped_put; [done..|]. by rewrite Ht.
Qed.

Lemma refresh_total s f m l : shaped (g_dp_store s) → safe (dp_refresh s f m l) (λ s', shaped (g_dp_store s')).
Proof.
  intros H. unfold dp_refresh.
  eapply safe_bind; [apply set_u32_total; [done|vm_compute; reflexivity]|]. intros x1 H1.
  eapply safe_bind; [apply set_u32_total; [done|vm_compute; reflexivity]|]. intros x2 H2.
  eapply safe_bind; [apply set_u32_total; [done|vm_compute; reflexivity]|]. done.
Qed.

(** The housekeeping before the configuration is looked at. *)
Lemma mirrors_known io w : forallb (λ e, known e.1 && plain_name e.1) (mirrors io w) = true.
Proof. vm_compute. reflexivity. Qed.

Lemma presence_sound now w : sound w → safe (master_presence_update now w) sound.
Proof.
  intros H. unfold master_presence_update.
  destruct (ref_known (can_img w) "Can_Master_Timeout_Ms" (proj1 (proj2 H))) as [t ->]; [vm_compute; reflexivity|].
  rewrite bind_ok. cbn zeta. apply put_sound; [vm_compute; reflexivity|].
  destruct (bool_decide _); [done|exact (sound_keep w _ eq_refl eq_refl eq_refl eq_refl H)].
Qed.

Lemma housekeeping_sound io heap now w : sound w → safe (housekeeping p hw_rev io heap now w) sound.
Proof.
  intros H. unfold housekeeping. destruct heap as [[f m] l]. cbn zeta.
  eapply safe_bind; [apply refresh_total; exact (proj1 (proj2 H))|]. intros d Hd.
  eapply safe_bind; [apply put_sound; [apply mirrors_known|split; [exact (proj1 H)|split; [exact Hd|exact (proj2 (proj2 H))]]]|]. intros w1 H1.
  eapply safe_bind; [by apply presence_sound|]. intros w2 H2. by apply reapply_sound.
Qed.

Lemma burst_sound i now : ∀ q w, sound w → Forall msg_ok q →
  safe (rx_burst i w q now) (λ r, sound r.1 ∧ Forall msg_ok r.2).
Proof.
  induction i as [|i IH]; intros [|m q] w H Hq; cbn [rx_burst]; try (by split).
  { split; [done|]. by apply Forall_cons in Hq as [_ ?]. }
  apply Forall_cons in Hq as [Hm Hq]. unfold rx_message.
  destruct (tm_extd m); [by apply IH|].
  eapply safe_bind; [exact (step_sound w (EvRx (frame_of m) now) H (frame_of_wf m Hm))|]. intros w1 H1. by apply IH.
Qed.

Lemma queue_sound w q : sound w → Forall msg_ok q → sound (set_queue w q).
Proof. intros [Hw (Hs & _ & Hk)] Hq. split; [exact Hw|]. by split_and!. Qed.

Lemma emcy_sound w : sound w → safe (emcy_pending w) sound.
Proof.
  intros H. unfold emcy_pending. destruct (_ =? 0); [done|].
  destruct (ref_known (can_img w) "Fon_Current_State" (proj1 (proj2 H))) as [st ->]; [vm_compute; reflexivity|].
  rewrite bind_ok. cbn zeta.
  match goal with |- context [co_emcy (set_can w ?c) ?k ?b ?m] =>
    pose proof (step_sound _ (EvEmcy k b m) (sound_keep w (set_can w c) eq_refl eq_refl eq_refl eq_refl H) I) as He end.
  cbn [co_step safe] in He. apply (step_sound _ (EvTpdoRequest 0)); [|split; lia].
  exact (sound_keep _ _ eq_refl eq_refl eq_refl eq_refl He).
Qed.

Lemma turn_sound w r : sound w → Forall msg_ok (rr_arrived r) → safe (rx_turn w r) sound.
Proof.
  intros H Hr. unfold rx_turn. cbn zeta.
  eapply safe_bind; [apply burst_sound; [done|apply Forall_app_2; [apply H|done]]|]. intros [w1 q] [H1 Hq].
  eapply safe_bind; [by apply emcy_sound, queue_sound|]. intros w2 H2.
  by apply (step_sound w2 (EvTick (now_ms (rr_us r)))).
Qed.

(** A clock reading a task period after the start. *)
Definition elapsed (start : Z) (r : rx_round) : Prop :=
  CANOPEN_TASK_PERIOD_MS <= u32 (now_ms (rr_us r) - start).

Lemma loop_sound start rs : ∀ w, sound w → Forall (λ r, Forall msg_ok (rr_arrived r)) rs →
  Exists (elapsed start) rs → safe (rx_loop start rs w) sound.
Proof.
  induction rs as [|r rs IH]; intros w H Hr He; [by apply Exists_nil in He|]. cbn [rx_loop].
  apply Forall_cons in Hr as [Hm Hr].
  eapply safe_bind; [by apply turn_sound|]. intros w1 H1.
  destruct (Z.ltb_spec (u32 (now_ms (rr_us r) - start)) CANOPEN_TASK_PERIOD_MS) as [Hlt|Hge]; [|done].
  apply IH; [done..|]. apply Exists_cons in He as [He|He]; [unfold elapsed in He; lia|done].
Qed.
Lemma bus_off_sound io now w : sound w → safe (on_bus_off p io now w) (λ r, sound r.2).
Proof.
  intros H. unfold on_bus_off. cbn zeta. destruct (_ <=? _); [|exact (sound_keep w _ eq_refl eq_refl eq_refl eq_refl H)].
  match goal with |- context [stop_all p io 3 ?w1] =>
    pose proof (stop_all_sound io 3 w1 (sound_keep w w1 eq_refl eq_refl eq_refl eq_refl H)) as H1;
    revert H1; generalize (stop_all p io 3 w1) end.
  intros w2 H2. eapply safe_bind; [|intros w3 H3; exact H3].
  apply put_sound; [vm_compute; reflexivity|]. exact (sound_keep w2 _ eq_refl eq_refl eq_refl eq_refl H2).
Qed.

Lemma request_all_sound l : ∀ w, sound w → Forall is_u8 l → safe (tpdo_request_all w l) sound.
Proof.
  induction l as [|n l IH]; intros w H Hl; cbn [tpdo_request_all]; [done|]. apply Forall_cons in Hl as [Hn Hl].
  eapply safe_bind; [exact (step_sound w (EvTpdoRequest n) H Hn)|]. intros w1 H1. by apply IH.
Qed.

Lemma recovered_sound r w : sound w → safe (on_recovered r w) sound.
Proof.
  intros H. unfold on_recovered. destruct (negb _); [done|].
  apply request_all_sound; [exact (sound_keep w _ eq_refl eq_refl eq_refl eq_refl H)|].
  repeat (apply Forall_cons_2; [split; lia|]). done.
Qed.

(** The messages are well formed and the clock passes the task period. *)
Definition cycle_ok (ci : can_in) : Prop :=
  Forall (λ r, Forall msg_ok (rr_arrived r)) (cn_rounds ci) ∧
  Exists (elapsed (now_ms (cn_us ci))) (cn_rounds ci).

Lemma cycle_sound ci w : sound w → cycle_ok ci →
  safe (canopen_task_cycle p hw_rev ci w) (λ r, sound r.2).
Proof.
  intros H [Hr He]. unfold canopen_task_cycle. destruct (negb _); [done|]. cbn zeta.
  eapply (safe_bind _ _ sound); [destruct (1000 <=? _); [by apply housekeeping_sound|done]|]. intros w1 H1.
  destruct (negb _); [done|].
  eapply (safe_bind _ _ (λ r, sound r.2)); [destruct (BUS_OFF _); [by apply bus_off_sound|done]|].
  intros [paused w2] H2. cbn [snd] in H2. destruct paused; [done|].
  eapply (safe_bind _ _ sound); [destruct (BUS_RECOVERED _); [by apply recovered_sound|done]|]. intros w3 H3.
  destruct (s_bBusOff _); [done|].
  eapply safe_bind; [by apply loop_sound|]. done.
Qed.

Lemma recover_sound io w : sound w → safe (canopen_recover p hw_rev io w) (λ r, sound r.2).
Proof.
  intros H. unfold canopen_recover. destruct (negb _); [done|]. cbn zeta.
  pose proof (stop_all_sound io 2 w H) as H1. revert H1. generalize (stop_all p io 2 w). intros w1 H1.
  match goal with |- context [config_snapshot ?w2] =>
    pose proof (sound_keep w1 w2 eq_refl eq_refl eq_refl eq_refl H1) as H2; revert H2; generalize w2 end.
  intros w2 H2. destruct (ref_known (can_img w2) "Can_Enabled" (proj1 (proj2 H2))) as [en ->]; [vm_compute; reflexivity|].
  rewrite bind_ok. destruct (_ =? 0); [done|].
  eapply safe_bind; [by apply snapshot_sound|]. intros w3 H3. by apply start_all_sound.
Qed.

Definition op_ok (o : can_op) : Prop := match o with CycleOp ci => cycle_ok ci | _ => True end.

Lemma ops_sound os : ∀ w, sound w → Forall op_ok os → safe (can_ops_run p hw_rev w os) sound.
Proof.
  induction os as [|o os IH]; intros w H Ho; cbn [can_ops_run]; [done|]. apply Forall_cons in Ho as [Ho Hos].
  eapply (safe_bind _ _ sound); [|intros w1 H1; by apply IH]. destruct o as [ci|f|io]; cbn [can_op_step].
  - eapply safe_bind; [by apply cycle_sound|]. by intros r Hr.
  - exact (sound_keep w _ eq_refl eq_refl eq_refl eq_refl H).
  - eapply safe_bind; [by apply recover_sound|]. by intros r Hr.
Qed.

Lemma node_zero_wf cfg : node_wf (node_zero cfg).
Proof.
  assert (map_ok (replicate 8 0) 0) as Hm by by apply map_ok_zero.
  split; [split; [done|]|split; [done|]|].
  - apply Forall_replicate. by split.
  - apply Forall_replicate. split; [done|cbn; lia|done|cbn; lia].
  - split; [done|done|done].
Qed.

Lemma init_sound io com cio tx : shaped (ns_img (tc_net com)) → safe (canopen_init p hw_rev io com cio tx) sound.
Proof.
  intros Hs. unfold canopen_init. cbn zeta. set (w0 := mk_world _ _ _).
  assert (sound w0) as H0 by (split; [apply node_zero_wf|by split_and!]). revert H0. generalize w0. intros w H.
  destruct (negb (hal_can_available p)); [by apply put_sound; [vm_compute; reflexivity|]|].
  eapply safe_bind; [by apply snapshot_sound|]. intros w1 H1. destruct (negb _); [done|].
  eapply safe_bind; [by apply start_all_sound|]. intros r Hr. by apply put_sound; [vm_compute; reflexivity|].
Qed.

Lemma device_sound io com cio tx os : shaped (ns_img (tc_net com)) → Forall op_ok os →
  safe (can_device p hw_rev io com cio tx os) sound.
Proof. intros Hs Ho. eapply safe_bind; [by apply init_sound|]. intros w H. by apply ops_sound. Qed.

(** C24: The task's cycles always end, and nothing in them is undefined.  Over an
    image with the size of the struct and terminated strings, the start of the task
    and any sequence of cycles, pump faults and watchdog recoveries run through, for
    any messages of the driver, alerts, driver errors and flash answers, provided the
    clock passes the task period during the receive loop of each cycle: through
    housekeeping with restarts of the driver and the core, bus-off handling,
    emergencies and the SDO and PDO traffic.  The core, the task and the task's
    callbacks stay inside their arrays throughout ([ca_stuck] would record a
    callback that does not), also the reads and writes of datapoints with all of
    dp_write: command points, validation, conversions, save, network action and
    readback.  The core's invariant and the shape of the image hold at the end. *)
Theorem canopen_device_total io com cio tx os :
  shaped (ns_img (tc_net com)) → Forall op_ok os →
  ∃ w, can_device p hw_rev io com cio tx os = Ok w ∧ node_wf (w_node w) ∧ shaped (can_img w) ∧
    ca_stuck (w_app w) = false.
Proof.
  intros Hs Ho. pose proof (device_sound io com cio tx os Hs Ho) as (w & Hw & Hn & Hg & _ & Hk)%safe_ok.
  by exists w.
Qed.

(** ** The pause on an absent bus *)

(** The driver is paused. *)
Record paused w : Prop := {
  pa_sound : sound w;
  pa_hw : s_bHw (can w) = true;
  pa_running : s_bRunning (can w) = false;
  pa_absent : s_bAbsent (can w) = true
}.

Lemma absent_house io heap now w : paused w → u32 (now - s_ulAbsentSinceMs (can w)) < CO_ABSENT_HOLD_MS →
  safe (housekeeping p hw_rev io heap now w) (λ w', paused w' ∧ w_wire w' = w_wire w ∧
    s_ulAbsentSinceMs (can w') = s_ulAbsentSinceMs (can w)).
Proof.
  intros [H Hh Hr Ha] Hn. unfold housekeeping. destruct heap as [[f m] l]. cbn zeta.
  eapply safe_bind; [apply refresh_total; exact (proj1 (proj2 H))|]. intros d Hd.
  set (w0 := set_can_img _ _).
  assert (sound w0) as H0 by (split; [exact (proj1 H)|split; [exact Hd|exact (proj2 (proj2 H))]]).
  eapply safe_bind; [apply (put_known w0); [apply mirrors_known|apply H0]|]. intros w1 (Hn1 & Hc1 & Hw1 & Hq1 & Hk1 & Hs1).
  assert (sound w1) as H1.
  { split; [unfold wf; rewrite Hn1; apply H0|]. split; [done|]. rewrite Hq1, Hk1. apply H0. }
  unfold master_presence_update.
  destruct (ref_known (can_img w1) "Can_Master_Timeout_Ms" Hs1) as [t ->]; [vm_compute; reflexivity|].
  rewrite bind_ok. cbn zeta.
  set (w2 := if bool_decide _ then w1 else _).
  assert (sound w2 ∧ w_wire w2 = w_wire w1 ∧ s_bHw (can w2) = true ∧ s_bRunning (can w2) = false ∧
    s_bAbsent (can w2) = true ∧ s_ulAbsentSinceMs (can w2) = s_ulAbsentSinceMs (can w)) as (H2 & Hw2 & Hc2).
  { assert (s_bHw (can w1) = true ∧ s_bRunning (can w1) = false ∧ s_bAbsent (can w1) = true ∧
      s_ulAbsentSinceMs (can w1) = s_ulAbsentSinceMs (can w)) as Hcw by (rewrite Hc1; done).
    unfold w2. destruct (bool_decide _); [done|]. split; [exact (sound_keep w1 _ eq_refl eq_refl eq_refl eq_refl H1)|]. done. }
  eapply safe_bind; [apply (put_known w2); [vm_compute; reflexivity|apply H2]|]. intros w3 (Hn3 & Hc3 & Hw3 & Hq3 & Hk3 & Hs3).
  assert (sound w3) as H3.
  { split; [unfold wf; rewrite Hn3; apply H2|]. split; [done|]. rewrite Hq3, Hk3. apply H2. }
  unfold reapply_config. destruct (config_read_total (can_img w3) Hs3) as [[[[[en lb] id] kb] hb] ->].
  rewrite bind_ok, Hc3. destruct Hc2 as (E1 & E2 & E3 & E4). rewrite E2, E3, E4. cbn [negb andb].
  apply Z.ltb_lt in Hn. rewrite Hn. split_and!; [|by rewrite Hw3, Hw2, Hw1|by rewrite Hc3].
  split; [done|by rewrite Hc3..].
Qed.

(** A bus without a partner is left alone for 30 seconds.  While the driver is
    paused, every cycle within the hold time returns ESP_OK, sends nothing, does
    not start the driver and stays paused, whatever the configuration points,
    the alerts and the messages say. *)
Theorem absent_hold_is_silent ci w :
  paused w → u32 (now_ms (cn_us ci) - s_ulAbsentSinceMs (can w)) < CO_ABSENT_HOLD_MS →
  ∃ w', canopen_task_cycle p hw_rev ci w = Ok (ESP_OK, w') ∧ w_wire w' = w_wire w ∧ paused w' ∧
    s_ulAbsentSinceMs (can w') = s_ulAbsentSinceMs (can w).
Proof.
  intros H Hn. assert (safe (canopen_task_cycle p hw_rev ci w) (λ r, r.1 = ESP_OK ∧ paused r.2 ∧ w_wire r.2 = w_wire w ∧
    s_ulAbsentSinceMs (can r.2) = s_ulAbsentSinceMs (can w))) as Hc.
  { unfold canopen_task_cycle. rewrite (pa_hw _ H). cbn [negb]. cbn zeta.
    eapply (safe_bind _ _ (λ w', paused w' ∧ w_wire w' = w_wire w ∧ s_ulAbsentSinceMs (can w') = s_ulAbsentSinceMs (can w)));
      [destruct (1000 <=? _); [by apply absent_house|done]|].
    intros w1 (H1 & Hw1 & Ha1). rewrite (pa_running _ H1). done. }
  apply safe_ok in Hc as ([e w'] & Hc & He & Hp & Hw & Ha). cbn in *. subst e. by exists w'.
Qed.
End total.

(** ** The receive burst *)

Section burst.
Context {nvs : Type} `{!NvsApi nvs} {P : Type} `{!Partition P}.

(** The messages one after the other. *)
Fixpoint rx_messages (w : can_world nvs P) (q : list twai_message) (now : Z) : res (can_world nvs P) :=
  match q with
  | [] => Ok w
  | m :: q => w ← rx_message w m now; rx_messages w q now
  end.

(** A burst loses a message.  The receive loop handles the first 32 messages of
    the queue; the one after them is taken from the driver by the loop's own step
    and dropped, and the rest stays queued: of 33 waiting messages the last is
    never seen by the core. *)
Theorem burst_drops_a_message w q now :
  rx_burst CO_RX_BURST_MAX w q now = (w ← rx_messages w (take 32 q) now; Ok (w, drop 33 q)).
Proof.
  unfold CO_RX_BURST_MAX. change 33%nat with (S 32). generalize 32%nat as i. intros i. revert q w.
  induction i as [|i IH]; intros [|m q] w; cbn [rx_burst take drop rx_messages]; try done.
  destruct (rx_message w m now) as [w'| | ]; cbn [mbind res_bind]; [apply IH|done|done].
Qed.
End burst.

(** ** Executions *)

(** The answers of the SDO server on the wire. *)
Definition sdo_answers (wire : list (co_frame_t * bool)) : nat :=
  length (filter (λ f, f_id f.1 = 0x583) wire).

(** Forty reads that arrive in one burst get 39 answers: 32, then 7 in the second turn. *)
Example forty_reads_get_39_answers :
  match can_demo com_demo [CycleOp (mk_can_in 2000000 drv_ok (0, 0, 0) None 0
          [mk_round (replicate 40 (sdo_read_of "Network_SSID")) 2001000; mk_round [] 2012000])] with
  | Ok w => sdo_answers (w_wire w) = 39%nat
  | _ => False
  end.
Proof. vm_compute. reflexivity. Qed.

(** The catalogue accepts the whole default process data. *)
Example default_pdos_accepted :
  match can_demo com_demo [] with
  | Ok w => map t_map_count (n_tpdo (w_node w)) = [4; 2; 2; 5] ∧ map r_map_count (n_rpdo (w_node w)) = [2; 0] ∧
            map tpdo_enabled (n_tpdo (w_node w)) = [true; true; true; true]
  | _ => False
  end.
Proof. vm_compute. repeat split. Qed.

(** ** Not a number over SDO *)

(** [n] cycles of the pump task, [step] milliseconds apart, with a raw reading. *)
Definition cycles_of (raw from step : Z) (n : nat) : list task_op :=
  (λ i, TCycle (cycle_at (from + step * Z.of_nat i) (live_bus raw))) <$> seq 0 n.

(** Automatic mode at 1 bar: the pump starts. *)
Definition auto_at_one_bar : list task_op :=
  cycles_of 4928 1000 1000 1 ++ [TMode PM_MODE_AUTO 1500000] ++ cycles_of 4928 2000 1000 4.
(** 5 bar, above the switch-off pressure of 3.5 and the alarm at 4.5. *)
Definition five_bar (n : nat) : list task_op := cycles_of 8642 10000 4000 n.

(** The SDO download of the bit pattern 0x7FC00000 into Fon_Filter_Alpha. *)
Definition nan_alpha : twai_message :=
  sdo_frame (0x23 :: co_put_u16 (CO_IDX_DP_BASE + dp_id "Fon_Filter_Alpha") ++ [0] ++ co_put_u32 0x7FC00000).

Definition com_of (img : list Z) : com_state room_nvs (list Z) :=
  mk_com (running img 0) (logging_init_early 7 (replicate 256 0)) no_flash [] [].

(** The pump task runs, the CANopen task receives [rx], the pump task goes on with
    the image it left: the pump and the SDO answers. *)
Definition deadhead (rx : list twai_message) (after : list task_op) : res (PumpTask.world * list (list Z)) :=
  w ← run_boot auto_at_one_bar;
  c ← can_demo (com_of (w_img w)) [can_cycle 9000 rx];
  w ← task_run (H := demo_cvt) s_stPinsHw1 w (TImage (can_img c) :: after);
  Ok (w, map (λ f, f_data f.1) (filter (λ f, f_id f.1 = 0x583) (w_wire c))).

Definition pump_of (r : res (PumpTask.world * list (list Z))) : option (pm_state_t * bool * list (list Z)) :=
  match r with
  | Ok (w, f) => Some (pm_state (s_stPm (w_pump w)), hal_relay_get (w_hal w), f)
  | _ => None
  end.

(** A NaN written over SDO runs the pump against the closed line.  The range of
    Fon_Filter_Alpha is 0.01 to 1, but the bit pattern of NaN passes the check (both
    comparisons are false), is stored and acknowledged.  Without that write the
    pump switches off at 5 bar once its minimum on-time is over; after it the pump
    is still running at 5 bar a minute later.  (What ends it is the maximum run time
    of 300 seconds: see the claim on the filter.) *)
Theorem nan_over_sdo_deadheads_pump :
  pump_of (deadhead [] (five_bar 15)) = Some (PM_STATE_LOCKOUT, false, []) ∧
  pump_of (deadhead [nan_alpha] (five_bar 15)) = Some (PM_STATE_RUNNING, true, [[96; 63; 32; 0; 0; 0; 0; 0]]).
Proof. vm_compute. repeat split. Qed.

(** The pump after the write, once it has taken over the configuration. *)
Definition nan_pump : pm_t :=
  match deadhead [nan_alpha] (five_bar 6) with Ok (w, _) => s_stPm (w_pump w) | _ => pm_init (mk_pm_config f32_zero f32_zero f32_zero f32_zero f32_zero f32_zero f32_zero f32_zero f32_zero f32_zero f32_zero f32_zero 0 0 0 0 0 0 0 0 0 0) end.

Lemma nan_filter_disables_pressure_control_witness :
  pm_state (pm_updates nan_pump [(f32_of_Z 9, 50000); (f32_of_Z 12, 60000)]) = PM_STATE_RUNNING.
Proof.
  apply (nr_state _ (nan_filter_disables_pressure_control nan_pump [(f32_of_Z 9, 50000); (f32_of_Z 12, 60000)]
    ltac:(split; vm_compute; congruence)
    ltac:(repeat (apply Forall_cons_2; [split; [vm_compute; discriminate|vm_compute; reflexivity]|]); apply Forall_nil_2))).
Defined.

Lemma on_old_shaped : shaped on_old.
Proof. apply typed_shaped, img_typedb_spec, on_old_ok. Qed.

Lemma ops_ok (ms : Z) (rx : list twai_message) : 0 <= ms <= 1000000 → Forall msg_ok rx → op_ok (can_cycle ms rx).
Proof.
  intros Hm Hr. split; [by apply Forall_singleton|]. apply Exists_cons_hd. unfold elapsed, now_ms.
  cbn [rr_us cn_us]. rewrite !Z.div_mul by lia. rewrite !(u32_id ms), !(u32_id (ms + 10)) by (unfold is_u32; lia).
  unfold CANOPEN_TASK_PERIOD_MS. rewrite u32_id; unfold is_u32; lia.
Qed.

Lemma sdo_read_ok name : msg_ok (sdo_read_of name).
Proof.
  split; [cbn; lia|]. split; [done|]. repeat (apply Forall_cons_2; [first [apply u8_range|split; cbn; lia]|]). done.
Qed.

Lemma canopen_device_total_witness :
  ∃ w, can_demo com_demo [can_cycle 2000 [sdo_read_of "Network_SSID"]; RecoverOp drv_ok] = Ok w ∧ node_wf (w_node w) ∧
    ca_stuck (w_app w) = false.
Proof.
  unfold can_demo. destruct (canopen_device_total s_stPinsHw2 [] drv_ok com_demo all_ok_io (replicate 100 true)
    [can_cycle 2000 [sdo_read_of "Network_SSID"]; RecoverOp drv_ok] on_old_shaped) as (w & Hw & Hn & _ & Hk).
  - apply Forall_cons_2; [|by apply Forall_singleton]. apply ops_ok; [lia|]. apply Forall_singleton, sdo_read_ok.
  - exists w. split; [exact Hw|split; [exact Hn|exact Hk]].
Defined.

(** A cycle at [ms] with a bus-off from which the controller recovers. *)
Definition bus_off_cycle (ms : Z) : can_op :=
  CycleOp (mk_can_in (ms * 1000) drv_ok (0, 0, 0) (Some (mk_alerts true true)) 0 [mk_round [] ((ms + 10) * 1000)]).

(** Five bus-offs without a received frame. *)
Definition lonely : list can_op := map bus_off_cycle [100; 200; 300; 400; 500].

Lemma lonely_ok : Forall op_ok lonely.
Proof.
  assert (∀ ms, 0 <= ms <= 1000000 → op_ok (bus_off_cycle ms)) as H.
  { intros ms Hm. split; [by apply Forall_singleton|]. exact (proj2 (ops_ok ms [] Hm (Forall_nil_2 _))). }
  unfold lonely. cbn [map]. repeat (apply Forall_cons_2; [apply H; lia|]). done.
Qed.

Lemma absent_hold_is_silent_witness :
  ∃ w w', can_demo com_demo lonely = Ok w ∧
    canopen_task_cycle s_stPinsHw2 [] (mk_can_in 30000000 drv_ok (0, 0, 0) None 0 []) w = Ok (ESP_OK, w') ∧
    w_wire w' = w_wire w.
Proof.
  pose proof (device_sound s_stPinsHw2 [] drv_ok com_demo all_ok_io (replicate 100 true) lonely
    on_old_shaped lonely_ok) as H.
  assert (match can_demo com_demo lonely with
          | Ok w => s_bHw (can w) = true ∧ s_bRunning (can w) = false ∧ s_bAbsent (can w) = true ∧
                    s_ulAbsentSinceMs (can w) = 500
          | _ => False end) as Hc by (vm_compute; repeat split).
  fold (can_demo com_demo lonely) in H. destruct (can_demo com_demo lonely) as [w| | ]; [|done|done].
  destruct Hc as (H1 & H2 & H3 & H4).
  destruct (absent_hold_is_silent s_stPinsHw2 [] (mk_can_in 30000000 drv_ok (0, 0, 0) None 0 []) w
    ltac:(by split) ltac:(rewrite H4; vm_compute; reflexivity)) as (w' & Hw & Hwire & _).
  by exists w, w'.
Defined.

(** Disabling CAN while the bus is absent: the state point keeps saying "bus off". *)
Example disabled_while_absent_reports_bus_off :
  match can_demo com_demo lonely with
  | Ok w =>
      match can_put w [("Can_Enabled", CInt 0)] with
      | Ok w =>
          match canopen_task_cycle s_stPinsHw2 [] (mk_can_in 60000000 drv_ok (0, 0, 0) None 0 []) w with
          | Ok (_, w) => ref_uint (can_img w) "Can_State" = Ok CAN_ST_BUS_OFF ∧ s_bRunning (can w) = false
          | _ => False
          end
      | _ => False
      end
  | _ => False
  end.
Proof. vm_compute. repeat split. Qed.
