(* ===== verification/LocalServer.v ===== *)
(** * The local server: [network/local_server/]

    Models src/src/network/local_server: the frame pool (local_buffer_pool.c),
    the rate limiter (local_rate_limit.c), the session table with its counting
    semaphore, the descriptor queue and the worker (local_server.c), and the
    protocol hooks (local_protocol.c).

    Two tasks share the state: the HTTP server's task runs the handlers of this
    file, the worker takes the descriptors.  A run is a sequence of their steps;
    the worker's step is split where it can be interrupted, between taking a
    descriptor and being done with it.  What the HTTP server does with its sockets
    (which descriptors it hands out, when a socket ends) is the environment: the
    events of a run.  The number of clients is the build-time constant
    [LOCAL_SERVER_MAX_CLIENTS].  The protocol is used through the class
    [LocalProto]; [Section protocol] gives its instance, the session of FpSession. *)

From Stdlib Require Import SpecFloat.
From S2P Require Import Prelude Bytes Float32 Float64 FpAuth FpSession.
Local Open Scope string_scope.
Local Open Scope list_scope.
Local Open Scope Z_scope.

(** ** The frame pool *)

Definition LOCAL_MAX_FRAME_SIZE : Z := 4096.
Definition LOCAL_FRAME_POOL_COUNT : nat := 4.

(** A buffer: whether it is in use, and the text it holds. *)
Record local_frame_t := mk_frame { lf_used : bool; lf_data : list Z }.

Definition local_buffer_pool_init : list local_frame_t := replicate LOCAL_FRAME_POOL_COUNT (mk_frame false []).

Definition local_buffer_acquire (pool : list local_frame_t) : option (nat * list local_frame_t) :=
  match list_find (λ f, lf_used f = false) pool with
  | Some (i, f) => Some (i, <[i := mk_frame true (lf_data f)]> pool)
  | None => None
  end.

Definition local_buffer_release (pool : list local_frame_t) (frame : option nat) : list local_frame_t :=
  match frame with
  | Some i => alter (λ f, mk_frame false (lf_data f)) i pool
  | None => pool
  end.

Definition local_buffer_in_use (pool : list local_frame_t) : Z := zlen (filter (λ f, lf_used f = true) pool).

(** ** The rate limiter *)

Definition LOCAL_RATE_CAPACITY : f32 := f32_of_Z 20.
Definition LOCAL_RATE_REFILL_PER_S : f32 := f32_of_Z 5.
Definition LOCAL_RATE_STRIKE_WINDOW_US : Z := 10 * 1000 * 1000.
Definition LOCAL_RATE_STRIKES_MAX : Z := 3.

Record local_rate_limit_t := mk_rate {
  rl_tokens : f32;
  rl_last_refill_us : Z;
  rl_violations : Z;
  rl_window_start_us : Z
}.

Definition local_rate_limit_reset (now : Z) : local_rate_limit_t := mk_rate LOCAL_RATE_CAPACITY now 0 0.

Definition local_rate_allow (rl : local_rate_limit_t) (cost : f32) (now : Z) : bool * local_rate_limit_t :=
  let delta := f32_div (f32_of_Z (now - rl_last_refill_us rl)) (f32_of_Z 1000000) in
  let tokens := f32_add (rl_tokens rl) (f32_mul delta LOCAL_RATE_REFILL_PER_S) in
  let tokens := if f32_gt tokens LOCAL_RATE_CAPACITY then LOCAL_RATE_CAPACITY else tokens in
  if f32_lt tokens cost
  then (false, mk_rate tokens now (rl_violations rl) (rl_window_start_us rl))
  else (true, mk_rate (f32_sub tokens cost) now (rl_violations rl) (rl_window_start_us rl)).

Definition local_rate_violation_note (rl : local_rate_limit_t) (now : Z) : bool * local_rate_limit_t :=
  let rl := if (rl_window_start_us rl =? 0) ||
               (LOCAL_RATE_STRIKE_WINDOW_US <? now - rl_window_start_us rl)
            then mk_rate (rl_tokens rl) (rl_last_refill_us rl) 0 now else rl in
  let v := u32 (rl_violations rl + 1) in
  (LOCAL_RATE_STRIKES_MAX <=? v, mk_rate (rl_tokens rl) (rl_last_refill_us rl) v (rl_window_start_us rl)).

(** ** What the server asks of the protocol

    [P]: the protocol state of a session; [E]: what a step of the protocol reads
    from outside (random bytes, clock); [A]: the actions it performs, some of which
    are texts for the transport.  [lp_zero] is the state of storage that was never
    opened. *)

Class LocalProto (P E A : Type) := {
  lp_zero : P;
  lp_open : E → P → P * option (list Z);
  lp_frame : E → list Z → P → res (bool * P * list A);
  lp_running : P → bool;
  lp_close : P → P;
  lp_text : A → option (list Z)
}.

(** ** Sessions *)

Inductive local_session_state_t :=
  | LOCAL_SESSION_FREE | LOCAL_SESSION_CONNECTED | LOCAL_SESSION_RUNNING | LOCAL_SESSION_CLOSING.

#[export] Instance local_session_state_eq_dec : EqDecision local_session_state_t.
Proof. solve_decision. Defined.

Definition closing (st : local_session_state_t) : bool :=
  match st with LOCAL_SESSION_CLOSING => true | _ => false end.

Record local_session_t {P : Type} := mk_local {
  lc_active : bool;
  lc_connection_id : Z;
  lc_sockfd : Z;
  lc_state : local_session_state_t;
  lc_connected_us : Z;
  lc_last_activity_us : Z;
  lc_protocol : P;
  lc_rate : local_rate_limit_t;
  lc_json_strikes : Z
}.
Arguments local_session_t P : clear implicits.
#[export] Instance eta_local_session_t {P} : Eta (local_session_t P) := λ r, mk_local P
      (lc_active r) (lc_connection_id r) (lc_sockfd r) (lc_state r) (lc_connected_us r)
      (lc_last_activity_us r) (lc_protocol r) (lc_rate r) (lc_json_strikes r).
#[export] Instance set_lc_active {P} : Setter (@lc_active P). Proof. mk_setter. Defined.
#[export] Instance set_lc_sockfd {P} : Setter (@lc_sockfd P). Proof. mk_setter. Defined.
#[export] Instance set_lc_state {P} : Setter (@lc_state P). Proof. mk_setter. Defined.
#[export] Instance set_lc_last_activity_us {P} : Setter (@lc_last_activity_us P). Proof. mk_setter. Defined.
#[export] Instance set_lc_protocol {P} : Setter (@lc_protocol P). Proof. mk_setter. Defined.
#[export] Instance set_lc_rate {P} : Setter (@lc_rate P). Proof. mk_setter. Defined.
#[export] Instance set_lc_json_strikes {P} : Setter (@lc_json_strikes P). Proof. mk_setter. Defined.

Record local_server_stats_t := mk_stats {
  lt_connections_total : Z;
  lt_rate_drops : Z;
  lt_auth_failures : Z;
  lt_queue_overflows : Z;
  lt_forced_disconnects : Z;
  lt_frames_rx : Z
}.
#[export] Instance eta_local_server_stats_t : Eta local_server_stats_t := λ r, mk_stats
      (lt_connections_total r) (lt_rate_drops r) (lt_auth_failures r) (lt_queue_overflows r)
      (lt_forced_disconnects r) (lt_frames_rx r).
#[export] Instance set_lt_connections_total : Setter lt_connections_total. Proof. mk_setter. Defined.
#[export] Instance set_lt_rate_drops : Setter lt_rate_drops. Proof. mk_setter. Defined.
#[export] Instance set_lt_queue_overflows : Setter lt_queue_overflows. Proof. mk_setter. Defined.
#[export] Instance set_lt_forced_disconnects : Setter lt_forced_disconnects. Proof. mk_setter. Defined.
#[export] Instance set_lt_frames_rx : Setter lt_frames_rx. Proof. mk_setter. Defined.

(** ** The state of the server *)

Inductive desc_kind_t := DESC_OPEN | DESC_FRAME | DESC_CLOSE.

#[export] Instance desc_kind_eq_dec : EqDecision desc_kind_t.
Proof. solve_decision. Defined.

Record local_desc_t := mk_desc {
  ld_kind : desc_kind_t;
  ld_slot : nat;
  ld_conn_id : Z;
  ld_frame : option nat
}.

Definition LOCAL_RX_QUEUE_DEPTH : nat := 8.
Definition LOCAL_IDLE_TIMEOUT_US : Z := 300 * 1000 * 1000.

Record tx_job_t := mk_tx { tx_sockfd : Z; tx_data : list Z }.

(** [lv_hd]: the server handle is set; [lv_httpd]: the HTTP server's task runs;
    [lv_sockets]: its open sockets with their [sess_ctx]; [lv_worker]: the
    descriptor the worker holds, with its [bStale]. *)
Record local_server {P : Type} := mk_server {
  lv_hd : bool;
  lv_httpd : bool;
  lv_sessions : list (local_session_t P);
  lv_slots : Z;
  lv_rxq : list local_desc_t;
  lv_worker : option (local_desc_t * bool);
  lv_pool : list local_frame_t;
  lv_stats : local_server_stats_t;
  lv_conn_ctr : Z;
  lv_sockets : list (Z * nat);
  lv_tx : list tx_job_t
}.
Arguments local_server P : clear implicits.
#[export] Instance eta_local_server {P} : Eta (local_server P) := λ r, mk_server P
      (lv_hd r) (lv_httpd r) (lv_sessions r) (lv_slots r) (lv_rxq r) (lv_worker r) (lv_pool r)
      (lv_stats r) (lv_conn_ctr r) (lv_sockets r) (lv_tx r).
#[export] Instance set_lv_hd {P} : Setter (@lv_hd P). Proof. mk_setter. Defined.
#[export] Instance set_lv_httpd {P} : Setter (@lv_httpd P). Proof. mk_setter. Defined.
#[export] Instance set_lv_sessions {P} : Setter (@lv_sessions P). Proof. mk_setter. Defined.
#[export] Instance set_lv_slots {P} : Setter (@lv_slots P). Proof. mk_setter. Defined.
#[export] Instance set_lv_rxq {P} : Setter (@lv_rxq P). Proof. mk_setter. Defined.
#[export] Instance set_lv_worker {P} : Setter (@lv_worker P). Proof. mk_setter. Defined.
#[export] Instance set_lv_pool {P} : Setter (@lv_pool P). Proof. mk_setter. Defined.
#[export] Instance set_lv_stats {P} : Setter (@lv_stats P). Proof. mk_setter. Defined.
#[export] Instance set_lv_conn_ctr {P} : Setter (@lv_conn_ctr P). Proof. mk_setter. Defined.
#[export] Instance set_lv_sockets {P} : Setter (@lv_sockets P). Proof. mk_setter. Defined.
#[export] Instance set_lv_tx {P} : Setter (@lv_tx P). Proof. mk_setter. Defined.

(** What a run shows: the protocol hooks run for a connection, the texts taken
    over from a connection, the frames sent, the closes asked for, the handshakes
    accepted and refused. *)
Inductive local_mail := MOpen | MFrame (text : list Z) | MClose.

Inductive local_out {A : Type} :=
  | OOpened (conn fd : Z)
  | ORejected (fd : Z)
  | OAccepted (conn : Z) (text : list Z)
  | OCall (conn : Z) (c : local_mail)
  | OAct (conn : Z) (a : A)
  | OCloseRequest (fd : Z)
  | OSent (fd : Z) (text : list Z)
  | OLost (d : desc_kind_t) (conn : Z).
Arguments local_out A : clear implicits.

(** [lookup fd] in the table of open sockets. *)
Definition socket_ctx (sockets : list (Z * nat)) (fd : Z) : option nat :=
  snd <$> (snd <$> list_find (λ x, x.1 = fd) sockets).
Definition socket_remove (sockets : list (Z * nat)) (fd : Z) : list (Z * nat) :=
  filter (λ x, x.1 ≠ fd) sockets.

(** The C string in a buffer of text. *)
Definition c_text (data : list Z) : list Z :=
  match list_find (λ b, b = 0) data with Some (i, _) => take i data | None => data end.

Section server.
Context {P E A : Type} `{!LocalProto P E A}.
Variable LOCAL_SERVER_MAX_CLIENTS : nat.

#[local] Abbreviation state := (local_server P).
#[local] Abbreviation outs := (list (local_out A)).

Definition local_server_zero : state :=
  mk_server P false false
    (replicate LOCAL_SERVER_MAX_CLIENTS
       (mk_local P false 0 0 LOCAL_SESSION_FREE 0 0 lp_zero (mk_rate f32_zero 0 0 0) 0))
    (Z.of_nat LOCAL_SERVER_MAX_CLIENTS) [] None local_buffer_pool_init (mk_stats 0 0 0 0 0 0) 0 [] [].

Definition session_at (st : state) (slot : nat) : res (local_session_t P) := of_option (lv_sessions st !! slot).

Definition session_update (f : local_session_t P → local_session_t P) (slot : nat) (st : state) : state :=
  st <| lv_sessions := alter f slot (lv_sessions st) |>.

Definition stats_update (f : local_server_stats_t → local_server_stats_t) (st : state) : state :=
  st <| lv_stats := f (lv_stats st) |>.

Definition overflow_count (t : local_server_stats_t) : local_server_stats_t :=
  t <| lt_queue_overflows := u32 (lt_queue_overflows t + 1) |>.
Definition disconnect_count (t : local_server_stats_t) : local_server_stats_t :=
  t <| lt_forced_disconnects := u32 (lt_forced_disconnects t + 1) |>.

(** ** Sending *)

(** [sent]: [malloc] and [httpd_queue_work] succeed. *)
Definition local_server_send (st : state) (slot : nat) (conn_id : Z) (json : list Z) (sent : bool)
    : bool * state :=
  if negb (lv_hd st) then (false, st) else
  match lv_sessions st !! slot with
  | None => (false, st)
  | Some s =>
      if negb (lc_active s) || negb (lc_connection_id s =? conn_id) then (false, st) else
      if negb sent then (false, st) else
      (true, st <| lv_tx := lv_tx st ++ [mk_tx (lc_sockfd s) json] |>)
  end.

Definition local_server_session_send (st : state) (slot : nat) (json : list Z) (sent : bool) : bool * state :=
  match lv_sessions st !! slot with
  | None => (false, st)
  | Some s => local_server_send st slot (lc_connection_id s) json sent
  end.

(** The HTTP server runs a queued job. *)
Definition tx_work (st : state) (job : tx_job_t) : outs :=
  if lv_hd st then [OSent (tx_sockfd job) (tx_data job)] else [].

(** ** Session management *)

Definition session_cleanup (st : state) (slot : nat) : res (state * outs) :=
  s ← session_at st slot;
  if negb (lc_active s) then Ok (st, []) else
  Ok ((session_update (λ s, s <| lc_protocol := lp_close (lc_protocol s) |> <| lc_active := false |>
                              <| lc_state := LOCAL_SESSION_FREE |> <| lc_sockfd := -1 |>) slot st)
        <| lv_slots := Z.min (Z.of_nat LOCAL_SERVER_MAX_CLIENTS) (lv_slots st + 1) |>,
      [OCall (lc_connection_id s) MClose]).

Definition desc_enqueue (st : state) (d : local_desc_t) : bool * state :=
  if bool_decide (length (lv_rxq st) < LOCAL_RX_QUEUE_DEPTH)%nat
  then (true, st <| lv_rxq := lv_rxq st ++ [d] |>)
  else (false, stats_update overflow_count (st <| lv_pool := local_buffer_release (lv_pool st) (ld_frame d) |>)).

(** The socket of a session ended. *)
Definition on_sess_free (st : state) (slot : nat) : res (state * outs) :=
  s ← session_at st slot;
  if negb (lc_active s) then Ok (st, []) else
  let st := session_update (λ s, s <| lc_state := LOCAL_SESSION_CLOSING |>) slot st in
  match desc_enqueue st (mk_desc DESC_CLOSE slot (lc_connection_id s) None) with
  | (true, st) => Ok (st, [])
  | (false, st) =>
      r ← session_cleanup st slot;
      Ok (r.1, OLost DESC_CLOSE (lc_connection_id s) :: r.2)
  end.

Definition socket_close (st : state) (fd : Z) : res (state * outs) :=
  match socket_ctx (lv_sockets st) fd with
  | None => Ok (st, [])
  | Some slot => on_sess_free (st <| lv_sockets := socket_remove (lv_sockets st) fd |>) slot
  end.

(** ** The handler of the HTTP server's task *)

(** After the handshake. *)
Definition ws_connected (st : state) (fd now : Z) : res (state * outs) :=
  if lv_slots st <=? 0 then
    Ok (stats_update disconnect_count st, [ORejected fd])
  else
    match list_find (λ s, lc_active s = false) (lv_sessions st) with
    | None => Ok (st, [ORejected fd])
    | Some (slot, _) =>
        let conn := u32 (lv_conn_ctr st + 1) in
        let st := session_update (λ s, mk_local P true conn fd LOCAL_SESSION_CONNECTED now now (lc_protocol s)
                                         (local_rate_limit_reset now) (lc_json_strikes s)) slot st in
        let st := st <| lv_slots := lv_slots st - 1 |> <| lv_conn_ctr := conn |>
                     <| lv_sockets := lv_sockets st ++ [(fd, slot)] |> in
        let st := stats_update (λ t, t <| lt_connections_total := u32 (lt_connections_total t + 1) |>) st in
        match desc_enqueue st (mk_desc DESC_OPEN slot conn None) with
        | (true, st) => Ok (st, [OOpened conn fd])
        | (false, st) => Ok (st, [OOpened conn fd; OLost DESC_OPEN conn])
        end
    end.

(** A data frame.  [pkt]: its length and whether it is text, [None] when the header
    cannot be received; [payload]: what receiving the payload yields.  The result's
    flag is [false] for [ESP_FAIL]. *)
Definition ws_frame (st : state) (slot : nat) (pkt : option (Z * bool)) (payload : option (list Z)) (now : Z)
    : res (bool * state * outs) :=
  s ← session_at st slot;
  if negb (lc_active s) || closing (lc_state s) then Ok (false, st, []) else
  match pkt with
  | None => Ok (false, st, [])
  | Some (len, text) =>
      if LOCAL_MAX_FRAME_SIZE <=? len then Ok (false, stats_update disconnect_count st, []) else
      if negb text then Ok (true, st, []) else
      let '(allowed, rate) := local_rate_allow (lc_rate s) (f32_of_Z 1) now in
      let st := session_update (λ s, s <| lc_rate := rate |>) slot st in
      if negb allowed then
        let st := stats_update (λ t, t <| lt_rate_drops := u32 (lt_rate_drops t + 1) |>) st in
        let '(close, rate) := local_rate_violation_note rate now in
        let st := session_update (λ s, s <| lc_rate := rate |>) slot st in
        if close then Ok (false, stats_update disconnect_count st, []) else Ok (true, st, [])
      else
        match local_buffer_acquire (lv_pool st) with
        | None => Ok (true, stats_update overflow_count st, [])
        | Some (frame, pool) =>
            match payload with
            | None => Ok (false, st <| lv_pool := local_buffer_release pool (Some frame) |>, [])
            | Some data =>
                let data := take (Z.to_nat len) data in
                let st := st <| lv_pool := alter (λ f, mk_frame (lf_used f) data) frame pool |> in
                let st := session_update (λ s, s <| lc_last_activity_us := now |>) slot st in
                let st := stats_update (λ t, t <| lt_frames_rx := u32 (lt_frames_rx t + 1) |>) st in
                match desc_enqueue st (mk_desc DESC_FRAME slot (lc_connection_id s) (Some frame)) with
                | (true, st) => Ok (true, st, [OAccepted (lc_connection_id s) (c_text data)])
                | (false, st) => Ok (true, st, [OLost DESC_FRAME (lc_connection_id s)])
                end
            end
        end
  end.

(** The handler, and the close of the socket that follows its failure. *)
Definition ws_handler_frame (st : state) (fd : Z) (pkt : option (Z * bool)) (payload : option (list Z)) (now : Z)
    : res (state * outs) :=
  match socket_ctx (lv_sockets st) fd with
  | None => Ok (st, [])
  | Some slot =>
      r ← ws_frame st slot pkt payload now;
      let '(ok, st, out) := r in
      if ok : bool then Ok (st, out) else
      r ← socket_close st fd; Ok (r.1, out ++ r.2)
  end.

(** ** The protocol hooks *)

Definition local_server_session_close (st : state) (slot : nat) : state * outs :=
  match lv_sessions st !! slot with
  | None => (st, [])
  | Some s =>
      if negb (lv_hd st) || negb (lc_active s) || closing (lc_state s) then (st, [])
      else (stats_update disconnect_count st, [OCloseRequest (lc_sockfd s)])
  end.

Definition next_send (sends : list bool) : bool := default true (head sends).

Definition local_protocol_on_open (st : state) (slot : nat) (e : E) (sends : list bool) : res (state * outs) :=
  s ← session_at st slot;
  let '(p, hello) := lp_open (A:=A) e (lc_protocol s) in
  let st := session_update (λ s, s <| lc_protocol := p |> <| lc_json_strikes := 0 |>) slot st in
  let '(ok, st) := match hello with
                   | Some t => local_server_session_send st slot t (next_send sends)
                   | None => (false, st)
                   end in
  if ok : bool then Ok (st, []) else Ok (local_server_session_close st slot).

(** The texts of the actions, in order. *)
Fixpoint send_texts (st : state) (slot : nat) (texts : list (list Z)) (sends : list bool) : state :=
  match texts with
  | [] => st
  | t :: texts => send_texts (local_server_session_send st slot t (next_send sends)).2 slot texts (tail sends)
  end.

Definition LOCAL_JSON_STRIKES_MAX : Z := 3.

Definition local_protocol_on_frame (st : state) (slot : nat) (json : list Z) (e : E) (sends : list bool)
    : res (state * outs) :=
  s ← session_at st slot;
  r ← lp_frame (A:=A) e json (lc_protocol s);
  let '(valid, p, acts) := r in
  let out := OAct (lc_connection_id s) <$> acts in
  let st := session_update (λ s, s <| lc_protocol := p |>) slot st in
  let st := send_texts st slot (omap lp_text acts) sends in
  let strikes := u8 (lc_json_strikes s + 1) in
  let st := if valid : bool then st else session_update (λ s, s <| lc_json_strikes := strikes |>) slot st in
  if negb valid && (LOCAL_JSON_STRIKES_MAX <=? strikes) then
    let '(st, o) := local_server_session_close st slot in Ok (st, out ++ o)
  else if lp_running p && bool_decide (lc_state s = LOCAL_SESSION_CONNECTED) then
    Ok (session_update (λ s, s <| lc_state := LOCAL_SESSION_RUNNING |>) slot st, out)
  else Ok (st, out).

(** ** The worker *)

Definition scan_one (hd : bool) (now : Z) (r : local_server_stats_t * outs) (s : local_session_t P)
    : local_server_stats_t * outs :=
  if lc_active s && negb (closing (lc_state s)) && hd && (LOCAL_IDLE_TIMEOUT_US <? now - lc_last_activity_us s)
  then (disconnect_count r.1, r.2 ++ [OCloseRequest (lc_sockfd s)]) else r.

Definition timeout_scan (st : state) (now : Z) : state * outs :=
  let r := foldl (scan_one (lv_hd st) now) (lv_stats st, []) (lv_sessions st) in
  (st <| lv_stats := r.1 |>, r.2).

(** [xQueueReceive], and [bStale]. *)
Definition worker_take (st : state) : res (state * outs) :=
  match lv_worker st, lv_rxq st with
  | None, d :: q =>
      s ← session_at st (ld_slot d);
      let stale := negb (lc_active s) || negb (lc_connection_id s =? ld_conn_id d) in
      Ok (st <| lv_rxq := q |> <| lv_worker := Some (d, stale) |>, [])
  | _, _ => Ok (st, [])
  end.

(** The rest of the loop's body. *)
Definition worker_process (st : state) (d : local_desc_t) (stale : bool) (e : E) (sends : list bool)
    : res (state * outs) :=
  let slot := ld_slot d in
  s ← session_at st slot;
  match ld_kind d with
  | DESC_OPEN =>
      if stale then Ok (st, []) else
      r ← local_protocol_on_open st slot e sends;
      Ok (r.1, OCall (lc_connection_id s) MOpen :: r.2)
  | DESC_FRAME =>
      r ← (if negb stale && negb (closing (lc_state s)) then
             frame ← of_option (ld_frame d);
             f ← of_option (lv_pool st !! frame);
             let json := c_text (lf_data f) in
             r ← local_protocol_on_frame st slot json e sends;
             Ok (r.1, OCall (lc_connection_id s) (MFrame json) :: r.2)
           else Ok (st, []));
      Ok (r.1 <| lv_pool := local_buffer_release (lv_pool r.1) (ld_frame d) |>, r.2)
  | DESC_CLOSE => if stale then Ok (st, []) else session_cleanup st slot
  end.

Definition worker_done (st : state) (e : E) (sends : list bool) : res (state * outs) :=
  match lv_worker st with
  | None => Ok (st, [])
  | Some (d, stale) =>
      r ← worker_process st d stale e sends;
      Ok (r.1 <| lv_worker := None |>, r.2)
  end.

(** ** Start and stop on the Wi-Fi lifecycle *)

(** [tls]: certificate, key and CA are there; [started]: [httpd_ssl_start] succeeds. *)
Definition server_start (st : state) (tls started : bool) : state :=
  if lv_hd st || lv_httpd st || negb tls || negb started then st
  else st <| lv_hd := true |> <| lv_httpd := true |>.

(** [httpd_ssl_stop]: every socket ends. *)
Fixpoint close_all (st : state) (sockets : list (Z * nat)) : res (state * outs) :=
  match sockets with
  | [] => Ok (st, [])
  | (fd, _) :: sockets =>
      r ← socket_close st fd;
      r' ← close_all r.1 sockets;
      Ok (r'.1, r.2 ++ r'.2)
  end.

(** The first half of [server_stop] clears the handle, the second waits for the
    HTTP server to end. *)
Definition server_stop_begin (st : state) : state := st <| lv_hd := false |>.

Definition server_stop_end (st : state) : res (state * outs) :=
  if lv_hd st || negb (lv_httpd st) then Ok (st, []) else
  r ← close_all st (lv_sockets st);
  Ok (r.1 <| lv_httpd := false |>, r.2).

(** ** Runs *)

Inductive local_event :=
  | LConnect (fd now : Z)
  | LFrame (fd : Z) (pkt : option (Z * bool)) (payload : option (list Z)) (now : Z)
  | LSocketEnd (fd : Z)
  | LTxWork (run : bool)
  | LTake
  | LDone (e : E) (sends : list bool)
  | LTimeout (now : Z)
  | LWlanConnected (tls started : bool)
  | LWlanDisconnected
  | LStopped.

Definition local_step (st : state) (ev : local_event) : res (state * outs) :=
  match ev with
  | LConnect fd now =>
      if negb (lv_httpd st) || bool_decide (socket_ctx (lv_sockets st) fd ≠ None) then Ok (st, [])
      else ws_connected st fd now
  | LFrame fd pkt payload now =>
      if negb (lv_httpd st) then Ok (st, []) else ws_handler_frame st fd pkt payload now
  | LSocketEnd fd => if negb (lv_httpd st) then Ok (st, []) else socket_close st fd
  | LTxWork run =>
      match lv_tx st with
      | job :: tx => Ok (st <| lv_tx := tx |>, if run && lv_httpd st then tx_work st job else [])
      | [] => Ok (st, [])
      end
  | LTake => worker_take st
  | LDone e sends => worker_done st e sends
  | LTimeout now =>
      if bool_decide (lv_worker st = None ∧ lv_rxq st = []) then Ok (timeout_scan st now) else Ok (st, [])
  | LWlanConnected tls started => Ok (server_start st tls started, [])
  | LWlanDisconnected => Ok (server_stop_begin st, [])
  | LStopped => server_stop_end st
  end.

Fixpoint local_run (st : state) (evs : list local_event) : res (state * outs) :=
  match evs with
  | [] => Ok (st, [])
  | ev :: evs =>
      r ← local_step st ev;
      r' ← local_run r.1 evs;
      Ok (r'.1, r.2 ++ r'.2)
  end.

Definition local_server_running (st : state) : bool := lv_hd st.
Definition local_server_stats_get (st : state) : local_server_stats_t := lv_stats st.
Definition local_server_client_count (st : state) : Z := zlen (filter (λ s, lc_active s = true) (lv_sessions st)).
End server.
