(* ===== verification/LocalProtocol.v ===== *)
(** * The protocol of the local server: [local_protocol.c]

    The instance of [LocalProto] that the firmware builds: the session of FpSession
    under the local configuration, with the callbacks of the cloud application.
    [isolated]: a local session never touches what belongs to the cloud session. *)

From Stdlib Require Import SpecFloat.
From S2P Require Import Prelude Bytes Float32 Float64 FpAuth FpSession DpCatalog Datapoints TaskCom LocalServer.
Local Open Scope string_scope.
Local Open Scope list_scope.
Local Open Scope Z_scope.

(** ** The callbacks and the configuration *)

(** The data points asked for, or the full report without its reset. *)
Definition cb_local_fill_snapshot (s : dp_state) (free min_free largest : Z) (names : option cjson)
    : res (list (list Z * cjson) * dp_state) :=
  s ← dp_refresh s free min_free largest;
  match children <$> names with
  | Some (x :: l) =>
      r ← dp_read_into s ((λ kv : option (list Z) * cjson,
                             match kv.2 with CString t => Some (name_of t) | _ => None end) <$> (x :: l));
      Ok (values_json r.1, s)
  | _ => r ← dp_report_full_noreset s; Ok (values_json r, s)
  end.

(** The callbacks the configuration points to. *)
Record local_callbacks := mk_local_callbacks {
  lb_snapshot : option cjson → list (list Z * cjson);
  lb_dp_write : option cjson → list (list Z * cjson);
  lb_command : cjson → list (list Z * cjson);
  lb_log : Z → Z → Z → bool → list (list Z * cjson);
  lb_log_ack : Z → bool;
  lb_history : Z → Z → list (list Z * cjson)
}.

(** The unit's identity, [factory_config_t]. *)
Record local_identity := mk_local_identity {
  li_device_id : list Z;
  li_serial : Z;
  li_hmac_kid : list Z;
  li_hmac_key : list Z;
  li_hw_rev : option (list Z);
  li_version : list Z
}.

Definition local_cfg_get (id : local_identity) (cb : local_callbacks) : fp_config_t :=
  mk_config (li_device_id id) (hex16 (li_serial id)) (li_hmac_kid id) (take 32 (li_hmac_key id)) (li_version id)
    (li_hw_rev id) (Some (lb_snapshot cb)) false (Some (lb_command cb)) (Some (lb_dp_write cb))
    (Some (lb_log cb)) (Some (lb_log_ack cb)) (Some (lb_history cb)) false false.

(** ** The instance *)

(** [lf_cfg]: the session's pointer to the configuration is set. *)
Record local_fp := mk_local_fp { lf_cfg : bool; lf_session : fp_session_t }.

Record local_env := mk_local_env { le_nonce : list Z; le_now : Z }.

Section protocol.
Variable alloc : Z → option (list Z).
Variable sha256 : list Z → list Z.
Variable hmac : list Z → list Z → list Z.
Variable base64 : list Z → option (list Z).
Variable parse : list Z → option cjson.
Variable print : cjson → list Z.
Variable cfg : fp_config_t.

Definition action_text (a : fp_action) : option (list Z) :=
  match a with ASend m => Some (print m) | _ => None end.

(** [fp_session_init] and [fp_session_reset], then the hello. *)
Definition local_open (e : local_env) (p : local_fp) : local_fp * option (list Z) :=
  let s := fp_session_reset fp_session_init in
  let r := fp_session_hello_send base64 cfg s (le_nonce e) (le_now e) in
  (mk_local_fp true r.1, head (omap action_text r.2)).

(** [fp_session_message_handle] while the session's pointer is null: the types
    whose handling reads the configuration. *)
Definition reads_cfg (s : fp_session_t) (m : cjson) : bool :=
  match fp_envelope_type m with
  | Some FP_MSG_HELLO_ACK =>
      match get_item m "accepted", str_of m "server_nonce", str_of m "auth_kid" with
      | Some (CBool true), Some _, Some _ => true
      | _, _, _ => false
      end
  | Some FP_MSG_OTA_NONE | Some FP_MSG_DP_READ | Some FP_MSG_OTA_AVAILABLE | Some FP_MSG_OTA_CANCEL => true
  | Some FP_MSG_COMMAND | Some FP_MSG_DP_WRITE | Some FP_MSG_LOG_READ | Some FP_MSG_LOG_READ_PREV
  | Some FP_MSG_LOG_ACK_PREV | Some FP_MSG_HISTORY_READ => ss_running s
  | _ => false
  end.

Definition local_message (e : local_env) (json : list Z) (p : local_fp) : res (bool * local_fp * list fp_action) :=
  let m := parse json in
  if negb (lf_cfg p) && match m with Some m => reads_cfg (lf_session p) m | None => false end then OutOfBounds else
  r ← fp_session_message_handle alloc sha256 hmac base64 cfg (lf_session p) m (le_now e);
  Ok (match m with Some _ => true | None => false end, mk_local_fp (lf_cfg p) r.1, r.2).

#[export] Instance local_proto : LocalProto local_fp local_env fp_action := {|
  lp_zero := mk_local_fp false session_zero;
  lp_open := local_open;
  lp_frame := local_message;
  lp_running p := ss_running (lf_session p);
  lp_close p := mk_local_fp (lf_cfg p) (fp_session_close (lf_session p));
  lp_text := action_text
|}.
End protocol.
