(* ===== verification/LocalMailbox.v ===== *)
(** * The mailboxes of the local server

    The abstract machine behind LocalServer: sessions, descriptors on their way to
    the worker, the buffers they refer to, the semaphore and the sockets.  Its six
    steps are what the handlers and the worker do when the descriptor queue has
    room; LocalServerProps shows that the code refines it for one and two clients.
    [mbox_inv] is its invariant: nothing leaks, and the worker delivers each
    connection's mail in order. *)

From S2P Require Import Prelude Bytes LocalServer.
Local Open Scope list_scope.
Local Open Scope Z_scope.

(** ** The machine *)

Record core := mk_core { k_active : bool; k_conn : Z; k_fd : Z; k_closing : bool }.

Record mbox := mk_mbox {
  b_sess : list core;
  b_slots : Z;
  b_pend : list local_desc_t;
  b_pool : list local_frame_t;
  b_ctr : Z;
  b_sockets : list (Z * nat)
}.

Inductive mlabel := VAccept (conn : Z) (text : list Z) | VCall (conn : Z) (m : local_mail).

Definition mail_of (pool : list local_frame_t) (d : local_desc_t) : local_mail :=
  match ld_kind d with
  | DESC_OPEN => MOpen
  | DESC_CLOSE => MClose
  | DESC_FRAME => MFrame (c_text (default [] (b ← ld_frame d; lf_data <$> pool !! b)))
  end.

Definition set_closing (k : core) : core := mk_core (k_active k) (k_conn k) (k_fd k) true.

(** [n]: the capacity of the semaphore.  The connection counter has not wrapped. *)
Inductive mstep (n : nat) (v : mbox) : list mlabel → mbox → Prop :=
  | ms_connect i k fd :
      b_sess v !! i = Some k → k_active k = false → 0 < b_slots v → socket_ctx (b_sockets v) fd = None →
      b_ctr v + 1 < 4294967296 →
      mstep n v []
        (mk_mbox (<[i := mk_core true (b_ctr v + 1) fd false]> (b_sess v)) (b_slots v - 1)
           (b_pend v ++ [mk_desc DESC_OPEN i (b_ctr v + 1) None]) (b_pool v) (b_ctr v + 1)
           (b_sockets v ++ [(fd, i)]))
  | ms_accept i k b f data :
      b_sess v !! i = Some k → k_active k = true → k_closing k = false →
      b_pool v !! b = Some f → lf_used f = false →
      mstep n v [VAccept (k_conn k) (c_text data)]
        (mk_mbox (b_sess v) (b_slots v) (b_pend v ++ [mk_desc DESC_FRAME i (k_conn k) (Some b)])
           (<[b := mk_frame true data]> (b_pool v)) (b_ctr v) (b_sockets v))
  | ms_end i k fd :
      socket_ctx (b_sockets v) fd = Some i → b_sess v !! i = Some k → k_active k = true →
      mstep n v []
        (mk_mbox (<[i := set_closing k]> (b_sess v)) (b_slots v)
           (b_pend v ++ [mk_desc DESC_CLOSE i (k_conn k) None]) (b_pool v) (b_ctr v)
           (socket_remove (b_sockets v) fd))
  | ms_open d q :
      b_pend v = d :: q → ld_kind d = DESC_OPEN →
      mstep n v [VCall (ld_conn_id d) MOpen]
        (mk_mbox (b_sess v) (b_slots v) q (b_pool v) (b_ctr v) (b_sockets v))
  | ms_frame d q k :
      b_pend v = d :: q → ld_kind d = DESC_FRAME → b_sess v !! ld_slot d = Some k →
      mstep n v (if k_closing k then [] else [VCall (ld_conn_id d) (mail_of (b_pool v) d)])
        (mk_mbox (b_sess v) (b_slots v) q (local_buffer_release (b_pool v) (ld_frame d)) (b_ctr v) (b_sockets v))
  | ms_close d q k :
      b_pend v = d :: q → ld_kind d = DESC_CLOSE → b_sess v !! ld_slot d = Some k →
      mstep n v [VCall (ld_conn_id d) MClose]
        (mk_mbox (<[ld_slot d := mk_core false (k_conn k) (-1) false]> (b_sess v))
           (Z.min (Z.of_nat n) (b_slots v + 1)) q (b_pool v) (b_ctr v) (b_sockets v)).

Inductive msteps (n : nat) : mbox → list mlabel → mbox → Prop :=
  | msteps_nil v : msteps n v [] v
  | msteps_cons v l v' l' v'' : mstep n v l v' → msteps n v' l' v'' → msteps n v (l ++ l') v''.

(** ** What the worker has done for a connection *)

Definition label_call (c : Z) (l : mlabel) : option local_mail :=
  match l with VCall c' m => if c' =? c then Some m else None | _ => None end.
Definition label_accept (c : Z) (l : mlabel) : option (list Z) :=
  match l with VAccept c' t => if c' =? c then Some t else None | _ => None end.

Definition calls (h : list mlabel) (c : Z) : list local_mail := omap (label_call c) h.
Definition accepted (h : list mlabel) (c : Z) : list (list Z) := omap (label_accept c) h.

(** The mail on its way. *)
Definition mail (v : mbox) (c : Z) : list local_mail :=
  mail_of (b_pool v) <$> filter (λ d, ld_conn_id d = c) (b_pend v).

Definition close_mail (closed : bool) : list local_mail := if closed then [MClose] else [].

(** The hooks run so far, [K], and the mail on its way, [Q], of a connection that
    sent the texts [A]: the open first, then the texts in order, then the close.
    Texts are skipped only once the socket has ended. *)
Definition delivery (K Q : list local_mail) (A : list (list Z)) (closed : bool) : Prop :=
  ∃ A0 A1 A2, A = A1 ++ A2 ∧ A0 `prefix_of` A1 ∧ (closed = false → A0 = A1) ∧
    ((K = [] ∧ A1 = [] ∧ Q = MOpen :: (MFrame <$> A2) ++ close_mail closed) ∨
     (K = MOpen :: (MFrame <$> A0) ∧ Q = (MFrame <$> A2) ++ close_mail closed)).

(** A connection that is over. *)
Definition delivered (K : list local_mail) (A : list (list Z)) : Prop :=
  ∃ A0, A0 `prefix_of` A ∧ K = MOpen :: (MFrame <$> A0) ++ [MClose].

Definition conn_ok (v : mbox) (h : list mlabel) (c : Z) : Prop :=
  (∃ i k, b_sess v !! i = Some k ∧ k_active k = true ∧ k_conn k = c ∧
     delivery (calls h c) (mail v c) (accepted h c) (k_closing k)) ∨
  ((∀ i k, b_sess v !! i = Some k → k_active k = true → k_conn k ≠ c) ∧ mail v c = [] ∧
   (calls h c = [] ∧ accepted h c = [] ∨ c <= b_ctr v ∧ delivered (calls h c) (accepted h c))).

(** ** The invariant *)

Definition is_kind (q : desc_kind_t) (d : local_desc_t) : Prop := ld_kind d = q.
#[export] Instance is_kind_dec q d : Decision (is_kind q d).
Proof. unfold is_kind. apply _. Defined.

Definition slots_of (q : desc_kind_t) (l : list local_desc_t) : list nat := ld_slot <$> filter (is_kind q) l.
Definition frames_of (l : list local_desc_t) : list nat := omap ld_frame l.

Definition inactive (s : list core) : Z := zlen (filter (λ k, k_active k = false) s).

Record mbox_inv (n : nat) (v : mbox) (h : list mlabel) : Prop := {
  mi_sess : length (b_sess v) = n;
  mi_pool : length (b_pool v) = LOCAL_FRAME_POOL_COUNT;
  mi_slots : b_slots v = inactive (b_sess v);
  mi_ctr : 0 <= b_ctr v;
  mi_conn i k : b_sess v !! i = Some k → k_active k = true → 1 <= k_conn k <= b_ctr v;
  mi_inj i j k k' : b_sess v !! i = Some k → b_sess v !! j = Some k' → k_active k = true →
    k_active k' = true → k_conn k = k_conn k' → i = j;
  mi_desc d : d ∈ b_pend v →
    ∃ k, b_sess v !! ld_slot d = Some k ∧ k_active k = true ∧ k_conn k = ld_conn_id d ∧
      (ld_kind d = DESC_CLOSE → k_closing k = true);
  mi_kind d : d ∈ b_pend v → (ld_kind d = DESC_FRAME ↔ is_Some (ld_frame d));
  mi_frames : NoDup (frames_of (b_pend v));
  mi_used b : b ∈ frames_of (b_pend v) ↔ ∃ f, b_pool v !! b = Some f ∧ lf_used f = true;
  mi_opens : NoDup (slots_of DESC_OPEN (b_pend v));
  mi_closes : NoDup (slots_of DESC_CLOSE (b_pend v));
  mi_fds : NoDup (b_sockets v).*1;
  mi_ctxs : NoDup (b_sockets v).*2;
  mi_sock fd i : (fd, i) ∈ b_sockets v →
    ∃ k, b_sess v !! i = Some k ∧ k_active k = true ∧ k_closing k = false ∧ k_fd k = fd;
  mi_live i k : b_sess v !! i = Some k → k_active k = true →
    if k_closing k then i ∈ slots_of DESC_CLOSE (b_pend v) else (k_fd k, i) ∈ b_sockets v;
  mi_mail c : conn_ok v h c
}.

(** ** Lists of descriptors, sockets and sessions *)

Lemma frames_of_app l k : frames_of (l ++ k) = frames_of l ++ frames_of k.
Proof. apply omap_app. Qed.
Lemma slots_of_app q l k : slots_of q (l ++ k) = slots_of q l ++ slots_of q k.
Proof. unfold slots_of. by rewrite filter_app, fmap_app. Qed.
Lemma calls_app h l c : calls (h ++ l) c = calls h c ++ calls l c.
Proof. apply omap_app. Qed.
Lemma accepted_app h l c : accepted (h ++ l) c = accepted h c ++ accepted l c.
Proof. apply omap_app. Qed.

Lemma elem_of_slots q l i : i ∈ slots_of q l ↔ ∃ d, d ∈ l ∧ ld_kind d = q ∧ ld_slot d = i.
Proof.
  unfold slots_of. rewrite list_elem_of_fmap. setoid_rewrite list_elem_of_filter. unfold is_kind. naive_solver.
Qed.
Lemma elem_of_frames l b : b ∈ frames_of l ↔ ∃ d, d ∈ l ∧ ld_frame d = Some b.
Proof. unfold frames_of. by rewrite list_elem_of_omap. Qed.

Lemma socket_ctx_Some s fd i : socket_ctx s fd = Some i → (fd, i) ∈ s.
Proof.
  unfold socket_ctx. destruct (list_find _ s) as [[j [fd' i']]|] eqn:E; [|done]. cbn.
  apply list_find_Some in E as (E & Hfd & _). cbn in Hfd. intros [= ->]. subst.
  by eapply list_elem_of_lookup_2.
Qed.
Lemma socket_ctx_None s fd : socket_ctx s fd = None → fd ∉ s.*1.
Proof.
  unfold socket_ctx. destruct (list_find _ s) as [[j [fd' i']]|] eqn:E; [done|]. intros _ Hin.
  apply list_find_None in E. rewrite Forall_forall in E.
  apply list_elem_of_fmap in Hin as (x & -> & Hx). by apply (E x).
Qed.
Lemma socket_ctx_elem s fd i : NoDup s.*1 → (fd, i) ∈ s → socket_ctx s fd = Some i.
Proof.
  intros Hnd Hin. unfold socket_ctx. destruct (list_find _ s) as [[j [fd' i']]|] eqn:E; cbn.
  - apply list_find_Some in E as (E & Hfd & _). cbn in Hfd. subst.
    apply list_elem_of_lookup in Hin as [j' Hj']. f_equal.
    enough (j = j') as -> by congruence.
    apply (NoDup_lookup s.*1 j j' fd Hnd); by rewrite list_lookup_fmap, ?E, ?Hj'.
  - apply list_find_None in E. rewrite Forall_forall in E. by destruct (E _ Hin).
Qed.
Lemma elem_of_remove s fd x : x ∈ socket_remove s fd ↔ x ∈ s ∧ x.1 ≠ fd.
Proof. unfold socket_remove. rewrite list_elem_of_filter. naive_solver. Qed.
Lemma remove_NoDup {B} (g : Z * nat → B) s fd : NoDup (g <$> s) → NoDup (g <$> socket_remove s fd).
Proof. intros H. eapply sublist_NoDup; [exact H|]. unfold socket_remove. by rewrite sublist_filter. Qed.

Lemma inactive_cons k s : inactive (k :: s) = (if k_active k then 0 else 1) + inactive s.
Proof.
  unfold inactive, zlen. rewrite filter_cons.
  destruct (k_active k); [rewrite decide_False by done|rewrite decide_True by done]; cbn [length]; lia.
Qed.

Lemma inactive_insert s i k k' : s !! i = Some k →
  inactive (<[i := k']> s) =
  inactive s - (if k_active k then 0 else 1) + (if k_active k' then 0 else 1).
Proof.
  revert i. induction s as [|x s IH]; intros i Hi; [done|].
  destruct i as [|i]; cbn in Hi.
  - injection Hi as ->. change (<[0%nat := k']> (k :: s)) with (k' :: s). rewrite !inactive_cons. lia.
  - change (<[S i := k']> (x :: s)) with (x :: <[i := k']> s). rewrite !inactive_cons, (IH i Hi). lia.
Qed.
Lemma inactive_zero s i k : s !! i = Some k → k_active k = false → 0 < inactive s.
Proof.
  intros Hi Hk. pose proof (inactive_insert s i k (set_closing k) Hi) as H1.
  pose proof (inactive_insert s i k (mk_core true 0 0 false) Hi) as H2. rewrite Hk in H2. cbn in H2.
  unfold inactive, zlen in *. lia.
Qed.
Lemma inactive_max s : inactive s <= zlen s.
Proof. unfold inactive, zlen. pose proof (length_filter (λ k, k_active k = false) s). lia. Qed.
Lemma inactive_find s : list_find (λ k, k_active k = false) s = None → inactive s = 0.
Proof.
  intros H%list_find_None. induction H as [|k s Hk Hs IH]; [done|].
  rewrite inactive_cons, IH. by destruct (k_active k).
Qed.

(** ** Delivery, step by step *)

Lemma delivery_new : delivery [] [MOpen] [] false.
Proof. exists [], [], []. repeat split; try done. by left. Qed.

Lemma delivery_accept K Q A t : delivery K Q A false → delivery K (Q ++ [MFrame t]) (A ++ [t]) false.
Proof.
  intros (A0 & A1 & A2 & -> & Hp & Hc & H). exists A0, A1, (A2 ++ [t]).
  rewrite app_assoc. repeat split; try done. rewrite fmap_app. cbn in H |- *. rewrite !app_nil_r in *.
  destruct H as [(-> & -> & ->)|(-> & ->)]; [left|right]; auto.
Qed.

Lemma delivery_end K Q A : delivery K Q A false → delivery K (Q ++ [MClose]) A true.
Proof.
  intros (A0 & A1 & A2 & -> & Hp & Hc & H). exists A0, A1, A2.
  repeat split; try done. cbn in H |- *. rewrite !app_nil_r in *.
  destruct H as [(-> & -> & ->)|(-> & ->)]; [left|right]; auto.
Qed.

Lemma delivery_open K Q A cl : delivery K (MOpen :: Q) A cl → delivery (K ++ [MOpen]) Q A cl.
Proof.
  intros (A0 & A1 & A2 & -> & Hp & Hc & [(-> & -> & [= ->])|(-> & H)]).
  - apply prefix_nil_inv in Hp as ->. exists [], [], A2. repeat split; try done. by right.
  - destruct A2, cl; discriminate.
Qed.

Lemma delivery_frame K Q A t cl :
  delivery K (MFrame t :: Q) A cl → delivery (K ++ if cl : bool then [] else [MFrame t]) Q A cl.
Proof.
  intros (A0 & A1 & A2 & -> & Hp & Hc & [(_ & _ & ?)|(-> & H)]); [done|].
  destruct A2 as [|t' A2]; [destruct cl; discriminate|]. injection H as <- ->. destruct cl.
  - exists A0, (A1 ++ [t]), A2. rewrite <- app_assoc, app_nil_r. repeat split; try done; [|by right].
    by apply prefix_app_r.
  - rewrite (Hc eq_refl) in *. exists (A1 ++ [t]), (A1 ++ [t]), A2. rewrite <- app_assoc.
    repeat split; try done. right. by rewrite fmap_app.
Qed.

Lemma delivery_close K Q A : delivery K (MClose :: Q) A true → Q = [] ∧ delivered (K ++ [MClose]) A.
Proof.
  intros (A0 & A1 & A2 & -> & Hp & Hc & [(_ & _ & ?)|(-> & H)]); [done|].
  destruct A2 as [|t' A2]; [|discriminate]. injection H as ->. split; [done|].
  exists A0. by rewrite app_nil_r.
Qed.

(** A step that does not concern the connection. *)
Lemma conn_ok_other v v' h l c :
  conn_ok v h c → calls l c = [] → accepted l c = [] → mail v' c = mail v c → b_ctr v <= b_ctr v' →
  (∀ i k, k_conn k = c → k_active k = true → b_sess v !! i = Some k ↔ b_sess v' !! i = Some k) →
  conn_ok v' (h ++ l) c.
Proof.
  unfold conn_ok. intros H Hk Ha Hm Hctr Hs. rewrite calls_app, accepted_app, Hk, Ha, Hm, !app_nil_r.
  destruct H as [(i & k & Hi & Hact & Hc & Hd)|(Hno & Hmail & Hend)]; [left|right].
  - exists i, k. split_and!; try done. by apply Hs.
  - split_and!; try done; [|destruct Hend as [?|[??]]; [by left|right; split; [lia|done]]].
    intros i k Hi Hact Hc. apply Hs in Hi; [|done..]. by apply (Hno i k).
Qed.

Lemma conn_ok_quiet v v' h c :
  conn_ok v h c → mail v' c = mail v c → b_ctr v <= b_ctr v' →
  (∀ i k, k_conn k = c → k_active k = true → b_sess v !! i = Some k ↔ b_sess v' !! i = Some k) →
  conn_ok v' h c.
Proof. intros. rewrite <- (app_nil_r h). by apply (conn_ok_other v). Qed.

(** The connection of an active session is in the first case of [conn_ok]. *)
Lemma conn_ok_active n v h i k :
  mbox_inv n v h → b_sess v !! i = Some k → k_active k = true →
  delivery (calls h (k_conn k)) (mail v (k_conn k)) (accepted h (k_conn k)) (k_closing k).
Proof.
  intros I Hi Hk. destruct (mi_mail _ _ _ I (k_conn k)) as [(j & k' & Hj & Hk' & Hc & Hd)|(Hno & _)].
  - assert (j = i) as -> by (eapply (mi_inj _ _ _ I); eauto). congruence.
  - by destruct (Hno i k Hi Hk).
Qed.

(** ** The mail of a machine after a step *)

Definition same_mail (pool pool' : list local_frame_t) (l : list local_desc_t) : Prop :=
  ∀ d, d ∈ l → mail_of pool' d = mail_of pool d.

Lemma same_mail_refl pool l : same_mail pool pool l.
Proof. done. Qed.
#[local] Hint Resolve same_mail_refl : core.

Lemma mail_same s sl l pool pool' ctr sk s' sl' ctr' sk' c :
  same_mail pool pool' l → mail (mk_mbox s' sl' l pool' ctr' sk') c = mail (mk_mbox s sl l pool ctr sk) c.
Proof.
  intros H. unfold mail. cbn. apply list_fmap_ext. intros i d Hd%list_elem_of_lookup_2.
  apply list_elem_of_filter in Hd as [_ Hd]. by apply H.
Qed.

Lemma mail_push v d s' sl' pool' ctr' sk' c :
  same_mail (b_pool v) pool' (b_pend v) →
  mail (mk_mbox s' sl' (b_pend v ++ [d]) pool' ctr' sk') c =
  mail v c ++ (if decide (ld_conn_id d = c) then [mail_of pool' d] else []).
Proof.
  intros H. unfold mail at 1. cbn. rewrite filter_app, fmap_app. f_equal.
  - destruct v. by apply (mail_same b_sess0 b_slots0 b_pend0 b_pool0 pool' b_ctr0 b_sockets0 s' sl' ctr' sk').
  - rewrite filter_cons. by case_decide.
Qed.

Lemma mail_pop v d q s' sl' pool' ctr' sk' c :
  b_pend v = d :: q → same_mail (b_pool v) pool' q →
  mail v c = (if decide (ld_conn_id d = c) then [mail_of (b_pool v) d] else []) ++
             mail (mk_mbox s' sl' q pool' ctr' sk') c.
Proof.
  destruct v as [s sl l pool ctr sk]. cbn [b_pend b_pool]. intros -> H.
  rewrite (mail_same s sl q pool pool' ctr sk) by done. unfold mail. cbn [b_pend b_pool].
  rewrite filter_cons. by case_decide.
Qed.

Lemma slots_of_single q d : slots_of q [d] = if decide (ld_kind d = q) then [ld_slot d] else [].
Proof. unfold slots_of, is_kind. rewrite filter_cons. by case_decide. Qed.
Lemma slots_of_cons q d l : slots_of q (d :: l) = slots_of q [d] ++ slots_of q l.
Proof. apply (slots_of_app q [d] l). Qed.
Lemma frames_of_cons d l : frames_of (d :: l) = option_list (ld_frame d) ++ frames_of l.
Proof. unfold frames_of. cbn. by destruct (ld_frame d). Qed.

Lemma NoDup_snoc {B} (l : list B) x : NoDup l → x ∉ l → NoDup (l ++ [x]).
Proof.
  intros Hl Hx. apply NoDup_app. split_and!; [done| |apply NoDup_singleton].
  intros y Hy ->%list_elem_of_singleton. done.
Qed.

Lemma same_mail_insert pool b f l :
  (∀ d, d ∈ l → ld_frame d ≠ Some b) → same_mail pool (<[b := f]> pool) l.
Proof.
  intros H d Hd. unfold mail_of. destruct (ld_frame d) as [b'|] eqn:E; [|done]. cbn.
  rewrite list_lookup_insert_ne; [done|]. intros ->. by apply (H d).
Qed.

Lemma same_mail_release pool fr l : same_mail pool (local_buffer_release pool fr) l.
Proof.
  intros d _. destruct fr as [b|]; [|done]. unfold mail_of. destruct (ld_frame d) as [b'|]; [|done]. cbn.
  destruct (decide (b = b')) as [<-|]; [|by rewrite list_lookup_alter_ne].
  rewrite list_lookup_alter_eq. by destruct (pool !! b).
Qed.
#[local] Hint Resolve same_mail_release : core.

(** ** Every step keeps the invariant *)

#[local] Ltac proj :=
  cbn [b_sess b_slots b_pend b_pool b_ctr b_sockets k_active k_conn k_fd k_closing
       ld_kind ld_slot ld_conn_id ld_frame set_closing] in *.

Section steps.
Context (n : nat) (v : mbox) (h : list mlabel) (I : mbox_inv n v h).

Lemma pend_active i k d :
  b_sess v !! i = Some k → k_active k = false → d ∈ b_pend v → ld_slot d ≠ i.
Proof.
  intros Hi Hk Hd <-. destruct (mi_desc _ _ _ I d Hd) as (k' & ? & ? & _). congruence.
Qed.

Lemma pend_kind_push d :
  (ld_kind d = DESC_FRAME ↔ is_Some (ld_frame d)) →
  ∀ x, x ∈ b_pend v ++ [d] → (ld_kind x = DESC_FRAME ↔ is_Some (ld_frame x)).
Proof.
  intros Hd x [Hx| ->%list_elem_of_singleton]%elem_of_app; [by apply (mi_kind _ _ _ I)|done].
Qed.

Lemma fresh_conn c : b_ctr v < c → calls h c = [] ∧ accepted h c = [] ∧ mail v c = [].
Proof.
  intros Hc. destruct (mi_mail _ _ _ I c) as [(i & k & Hi & Hk & <- & _)|(_ & Hm & [[? ?]|[? _]])]; [|done|lia].
  pose proof (mi_conn _ _ _ I i k Hi Hk). lia.
Qed.

(** A session replaced by one that is not active, or has another connection. *)
Lemma insert_other i k k' c j x :
  b_sess v !! i = Some k → (k_active k = true → k_conn k ≠ c) → (k_active k' = true → k_conn k' ≠ c) →
  k_conn x = c → k_active x = true → b_sess v !! j = Some x ↔ <[i := k']> (b_sess v) !! j = Some x.
Proof.
  intros Hi Hk Hk' Hx Ha. rewrite list_lookup_insert_Some. destruct (decide (i = j)) as [<-|Hij].
  - split; [intros Hj; exfalso; apply Hk; congruence|].
    intros [(_ & <- & _)|[? _]]; [by destruct Hk'|done].
  - naive_solver.
Qed.

Lemma inv_connect i k fd :
  b_sess v !! i = Some k → k_active k = false → socket_ctx (b_sockets v) fd = None →
  b_ctr v + 1 < 4294967296 →
  mbox_inv n
    (mk_mbox (<[i := mk_core true (b_ctr v + 1) fd false]> (b_sess v)) (b_slots v - 1)
       (b_pend v ++ [mk_desc DESC_OPEN i (b_ctr v + 1) None]) (b_pool v) (b_ctr v + 1)
       (b_sockets v ++ [(fd, i)])) h.
Proof.
  intros Hi Hk Hfd%socket_ctx_None Hctr. pose proof (mi_ctr _ _ _ I) as Hc0.
  pose proof (lookup_lt_Some _ _ _ Hi) as Hlt.
  assert (Hi' : i ∉ (b_sockets v).*2).
  { intros ([fd' j] & -> & Hj)%list_elem_of_fmap. destruct (mi_sock _ _ _ I _ _ Hj) as (k' & ? & ? & _).
    cbn in *. congruence. }
  constructor; proj; rewrite ?frames_of_app, ?slots_of_app, ?slots_of_single, ?fmap_app, ?app_nil_r; proj;
    simpl decide; simpl frames_of; rewrite ?app_nil_r; try apply I.
  - rewrite length_insert. apply I.
  - rewrite (inactive_insert _ _ k) by done. rewrite Hk, (mi_slots _ _ _ I). cbn. lia.
  - lia.
  - intros j kj [(<- & <- & _)|(_ & Hj)]%list_lookup_insert_Some Hact; cbn; [lia|].
    pose proof (mi_conn _ _ _ I j kj Hj Hact). lia.
  - intros j j' kj kj' [(<- & <- & _)|(? & Hj)]%list_lookup_insert_Some
      [(<- & <- & _)|(? & Hj')]%list_lookup_insert_Some H1 H2 Hcc; cbn in *; [done| | |].
    + pose proof (mi_conn _ _ _ I j' kj' Hj' H2). lia.
    + pose proof (mi_conn _ _ _ I j kj Hj H1). lia.
    + by eapply (mi_inj _ _ _ I).
  - intros d [Hd| ->%list_elem_of_singleton]%elem_of_app.
    + rewrite list_lookup_insert_ne by (intros ->; by eapply pend_active). by apply (mi_desc _ _ _ I).
    + cbn. rewrite list_lookup_insert_eq by done. eexists. split_and!; done.
  - apply pend_kind_push. cbn. split; [done|intros [? ?]; done].
  - apply NoDup_snoc; [apply I|]. intros (d & Hd & _ & Hs)%elem_of_slots. by eapply pend_active.
  - by apply NoDup_snoc; [apply I|].
  - by apply NoDup_snoc; [apply I|].
  - intros fd' j [Hin| [= -> ->]%list_elem_of_singleton]%elem_of_app.
    + destruct (mi_sock _ _ _ I _ _ Hin) as (k' & Hj & Hact & ?). exists k'.
      rewrite list_lookup_insert_ne by congruence. done.
    + rewrite list_lookup_insert_eq by done. eexists. split_and!; done.
  - intros j kj [(<- & <- & _)|(_ & Hj)]%list_lookup_insert_Some Hact; cbn; [set_solver|].
    pose proof (mi_live _ _ _ I j kj Hj Hact). destruct (k_closing kj); set_solver.
  - intros c. destruct (decide (c = b_ctr v + 1)) as [->|Hc].
    + destruct (fresh_conn (b_ctr v + 1)) as (Hca & Hac & Hm); [lia|]. left. eexists i, _. proj.
      split_and!; [by rewrite list_lookup_insert_eq|done|done|].
      rewrite mail_push by done. rewrite Hca, Hac, Hm. proj. rewrite decide_True by done.
      apply delivery_new.
    + apply (conn_ok_quiet v); [apply I| |proj; lia|].
      * rewrite mail_push by done. proj. rewrite decide_False by done. apply app_nil_r.
      * proj. intros j x Hx Ha. apply (insert_other i k _ c); try done; congruence.
Qed.

Lemma inv_accept i k b f data :
  b_sess v !! i = Some k → k_active k = true → k_closing k = false →
  b_pool v !! b = Some f → lf_used f = false →
  mbox_inv n
    (mk_mbox (b_sess v) (b_slots v) (b_pend v ++ [mk_desc DESC_FRAME i (k_conn k) (Some b)])
       (<[b := mk_frame true data]> (b_pool v)) (b_ctr v) (b_sockets v)) (h ++ [VAccept (k_conn k) (c_text data)]).
Proof.
  intros Hi Hk Hcl Hb Hf.
  assert (Hnb : b ∉ frames_of (b_pend v)). { intros (g & ? & ?)%(mi_used _ _ _ I). congruence. }
  assert (Hsame : same_mail (b_pool v) (<[b := mk_frame true data]> (b_pool v)) (b_pend v)).
  { apply same_mail_insert. intros d Hd Hfr. apply Hnb, elem_of_frames. eauto. }
  pose proof (lookup_lt_Some _ _ _ Hb) as Hlt.
  constructor; proj; rewrite ?frames_of_app, ?slots_of_app, ?slots_of_single, ?app_nil_r; proj;
    simpl decide; simpl frames_of; rewrite ?app_nil_r; try apply I.
  - rewrite length_insert. apply I.
  - intros d [Hd| ->%list_elem_of_singleton]%elem_of_app; [by apply (mi_desc _ _ _ I)|].
    exists k. proj. split_and!; done.
  - apply pend_kind_push. by cbn.
  - by apply NoDup_snoc; [apply I|].
  - intros b'. rewrite elem_of_app, list_elem_of_singleton, (mi_used _ _ _ I).
    setoid_rewrite list_lookup_insert_Some. split.
    + intros [(g & Hg & Hu)| ->]; [|eauto 7]. exists g. split; [|done]. right. split; [congruence|done].
    + intros (g & [(-> & _)|[_ Hg]] & Hu); eauto.
  - intros c. unfold conn_ok. proj. rewrite calls_app, accepted_app, mail_push by done. proj.
    destruct (decide (c = k_conn k)) as [->|Hc].
    + left. exists i, k. split_and!; try done. cbn [calls accepted omap list_omap label_call label_accept].
      rewrite Z.eqb_refl, decide_True, app_nil_r by done. cbn [mail_of ld_kind ld_frame].
      change (mbind _ (Some b)) with (lf_data <$> <[b := mk_frame true data]> (b_pool v) !! b).
      rewrite list_lookup_insert_eq by done. cbn [fmap option_fmap option_map default lf_data].
      rewrite Hcl. apply delivery_accept. rewrite <- Hcl. by eapply conn_ok_active.
    + rewrite decide_False by done. cbn [calls accepted omap list_omap label_call label_accept].
      destruct (Z.eqb_spec (k_conn k) c); [done|]. rewrite !app_nil_r. apply I.
Qed.

Lemma inv_end i k fd :
  socket_ctx (b_sockets v) fd = Some i → b_sess v !! i = Some k →
  mbox_inv n
    (mk_mbox (<[i := set_closing k]> (b_sess v)) (b_slots v)
       (b_pend v ++ [mk_desc DESC_CLOSE i (k_conn k) None]) (b_pool v) (b_ctr v)
       (socket_remove (b_sockets v) fd)) h.
Proof.
  intros Hfd%socket_ctx_Some Hi.
  destruct (mi_sock _ _ _ I fd i Hfd) as (k0 & Hi0 & Hk & Hcl & Hkfd).
  assert (k0 = k) as -> by congruence. clear Hi0.
  pose proof (lookup_lt_Some _ _ _ Hi) as Hlt.
  constructor; proj; rewrite ?frames_of_app, ?slots_of_app, ?slots_of_single, ?app_nil_r; proj;
    simpl decide; simpl frames_of; rewrite ?app_nil_r; try apply I.
  - rewrite length_insert. apply I.
  - rewrite (inactive_insert _ _ k) by done. cbn. rewrite Hk, (mi_slots _ _ _ I). lia.
  - intros j kj [(<- & <- & _)|(_ & Hj)]%list_lookup_insert_Some Hact;
      [by apply (mi_conn _ _ _ I i k)|by apply (mi_conn _ _ _ I j kj)].
  - intros j j' kj kj' [(<- & <- & _)|(? & Hj)]%list_lookup_insert_Some
      [(<- & <- & _)|(? & Hj')]%list_lookup_insert_Some H1 H2 Hcc; cbn in *;
      [done|apply (mi_inj _ _ _ I _ _ k kj')|apply (mi_inj _ _ _ I _ _ kj k)|apply (mi_inj _ _ _ I _ _ kj kj')]; done.
  - intros d [Hd| ->%list_elem_of_singleton]%elem_of_app.
    + destruct (mi_desc _ _ _ I d Hd) as (kd & Hs & ? & ? & ?).
      destruct (decide (i = ld_slot d)) as [->|]; [|rewrite list_lookup_insert_ne by done; eauto 6].
      rewrite list_lookup_insert_eq by done. assert (kd = k) as -> by congruence. exists (set_closing k). done.
    + proj. rewrite list_lookup_insert_eq by done. exists (set_closing k). split_and!; done.
  - apply pend_kind_push. cbn. split; [done|intros [? ?]; done].
  - apply NoDup_snoc; [apply I|]. intros (d & Hd & Hkd & Hs)%elem_of_slots.
    destruct (mi_desc _ _ _ I d Hd) as (kd & Hs' & _ & _ & Hcd). specialize (Hcd Hkd). congruence.
  - apply remove_NoDup, I.
  - apply remove_NoDup, I.
  - intros fd' j [Hin Hne]%elem_of_remove. cbn in Hne.
    destruct (mi_sock _ _ _ I _ _ Hin) as (k' & Hj & ?). exists k'. rewrite list_lookup_insert_ne; [done|].
    intros ->. apply Hne. apply list_elem_of_lookup in Hfd as [a Ha]. apply list_elem_of_lookup in Hin as [a' Ha'].
    enough (a = a') by congruence.
    apply (NoDup_lookup (b_sockets v).*2 a a' j (mi_ctxs _ _ _ I)); by rewrite list_lookup_fmap, ?Ha, ?Ha'.
  - intros j kj [(<- & <- & _)|(Hij & Hj)]%list_lookup_insert_Some Hact; cbn; [set_solver|].
    pose proof (mi_live _ _ _ I j kj Hj Hact). destruct (k_closing kj); [set_solver|].
    apply elem_of_remove. split; [done|]. cbn. intros Heq.
    assert (socket_ctx (b_sockets v) fd = Some j) by (apply socket_ctx_elem; [apply I|by rewrite <- Heq]).
    assert (socket_ctx (b_sockets v) fd = Some i) by (by apply socket_ctx_elem; [apply I|]). congruence.
  - intros c. destruct (decide (c = k_conn k)) as [->|Hc].
    + left. exists i, (set_closing k). proj. split_and!; [by rewrite list_lookup_insert_eq|done|done|].
      rewrite mail_push by done. proj. rewrite decide_True by done. apply delivery_end.
      rewrite <- Hcl. by eapply conn_ok_active.
    + apply (conn_ok_quiet v); [apply I| |done|].
      * rewrite mail_push by done. proj. rewrite decide_False by done. apply app_nil_r.
      * proj. intros j x Hx Ha. by apply (insert_other i k _ c).
Qed.

Section pop.
Context (d : local_desc_t) (q : list local_desc_t) (Hq : b_pend v = d :: q).

Lemma in_pend x : x ∈ q → x ∈ b_pend v.
Proof. rewrite Hq. set_solver. Qed.
Lemma head_in_pend : d ∈ b_pend v.
Proof. rewrite Hq. set_solver. Qed.

Lemma pop_slots kd : NoDup (slots_of kd (b_pend v)) → NoDup (slots_of kd q).
Proof. rewrite Hq, slots_of_cons. by intros (_ & _ & ?)%NoDup_app. Qed.
Lemma pop_frames : NoDup (frames_of q).
Proof. pose proof (mi_frames _ _ _ I) as H. rewrite Hq, frames_of_cons in H. by apply NoDup_app in H as (_ & _ & ?). Qed.

Lemma frames_kept : ld_kind d ≠ DESC_FRAME → frames_of (b_pend v) = frames_of q.
Proof.
  intros Hd. rewrite Hq, frames_of_cons. destruct (ld_frame d) as [b|] eqn:E; [|done].
  destruct Hd. apply (mi_kind _ _ _ I d head_in_pend). by rewrite E.
Qed.

Lemma closes_kept i : ld_kind d ≠ DESC_CLOSE → i ∈ slots_of DESC_CLOSE (b_pend v) → i ∈ slots_of DESC_CLOSE q.
Proof. intros Hd. rewrite Hq, slots_of_cons, slots_of_single. by rewrite decide_False. Qed.

(** What the head's connection looks like. *)
Lemma head_delivery : ∃ k, b_sess v !! ld_slot d = Some k ∧ k_active k = true ∧ k_conn k = ld_conn_id d ∧
  (ld_kind d = DESC_CLOSE → k_closing k = true) ∧
  ∀ s' sl' pool' ctr' sk', same_mail (b_pool v) pool' q →
    delivery (calls h (ld_conn_id d))
      (mail_of (b_pool v) d :: mail (mk_mbox s' sl' q pool' ctr' sk') (ld_conn_id d))
      (accepted h (ld_conn_id d)) (k_closing k).
Proof.
  destruct (mi_desc _ _ _ I d head_in_pend) as (k & Hs & Hk & Hc & Hcl). exists k. split_and!; try done.
  intros s' sl' pool' ctr' sk' Hm. pose proof (conn_ok_active n v h _ k I Hs Hk) as Hd.
  rewrite Hc, (mail_pop v d q s' sl' pool' ctr' sk') in Hd by done. by rewrite decide_True in Hd.
Qed.

(** What does not depend on the kind of the head. *)
Lemma mail_pop_other s' sl' pool' ctr' sk' c :
  same_mail (b_pool v) pool' q → c ≠ ld_conn_id d → mail (mk_mbox s' sl' q pool' ctr' sk') c = mail v c.
Proof. intros Hm Hc. rewrite (mail_pop v d q s' sl' pool' ctr' sk') by done. by rewrite decide_False. Qed.

Lemma inv_open : ld_kind d = DESC_OPEN →
  mbox_inv n (mk_mbox (b_sess v) (b_slots v) q (b_pool v) (b_ctr v) (b_sockets v))
    (h ++ [VCall (ld_conn_id d) MOpen]).
Proof.
  intros Hd. destruct head_delivery as (k & Hs & Hk & Hc & _ & Hdel).
  constructor; proj; try apply I.
  - intros x Hx. apply (mi_desc _ _ _ I), in_pend, Hx.
  - intros x Hx. apply (mi_kind _ _ _ I), in_pend, Hx.
  - apply pop_frames.
  - intros b. rewrite <- frames_kept by congruence. apply I.
  - apply pop_slots, I.
  - apply pop_slots, I.
  - intros i ki Hi Hact. pose proof (mi_live _ _ _ I i ki Hi Hact). destruct (k_closing ki); [|done].
    apply closes_kept; [congruence|done].
  - intros c. destruct (decide (c = ld_conn_id d)) as [->|Hne].
    + left. exists (ld_slot d), k. split_and!; try done.
      rewrite calls_app, accepted_app. cbn [calls accepted omap list_omap label_call label_accept].
      rewrite Z.eqb_refl, app_nil_r. apply delivery_open.
      change (delivery (calls h (ld_conn_id d)) (MOpen :: mail (mk_mbox (b_sess v) (b_slots v) q (b_pool v) (b_ctr v) (b_sockets v)) (ld_conn_id d)) (accepted h (ld_conn_id d)) (k_closing k)).
      specialize (Hdel (b_sess v) (b_slots v) (b_pool v) (b_ctr v) (b_sockets v) (same_mail_refl _ _)).
      unfold mail_of at 1 in Hdel. by rewrite Hd in Hdel.
    + apply (conn_ok_other v); [apply I| |done|by apply mail_pop_other|done|done].
      cbn. by destruct (Z.eqb_spec (ld_conn_id d) c).
Qed.

Lemma inv_frame k : ld_kind d = DESC_FRAME → b_sess v !! ld_slot d = Some k →
  mbox_inv n
    (mk_mbox (b_sess v) (b_slots v) q (local_buffer_release (b_pool v) (ld_frame d)) (b_ctr v) (b_sockets v))
    (h ++ if k_closing k then [] else [VCall (ld_conn_id d) (mail_of (b_pool v) d)]).
Proof.
  intros Hd Hs. destruct head_delivery as (k' & Hs' & Hk & Hc & _ & Hdel).
  assert (k' = k) as -> by congruence.
  destruct (proj1 (mi_kind _ _ _ I d head_in_pend) Hd) as [b Hb].
  pose proof (mi_frames _ _ _ I) as Hnd. rewrite Hq, frames_of_cons, Hb in Hnd. cbn in Hnd.
  apply NoDup_cons in Hnd as [Hbq Hnd].
  constructor; proj; try apply I.
  - rewrite Hb. cbn. rewrite length_alter. apply I.
  - intros x Hx. apply (mi_desc _ _ _ I), in_pend, Hx.
  - intros x Hx. apply (mi_kind _ _ _ I), in_pend, Hx.
  - done.
  - intros b'. pose proof (mi_used _ _ _ I b') as Hu. rewrite Hq, frames_of_cons, Hb in Hu. cbn in Hu |- *.
    rewrite elem_of_cons in Hu. rewrite Hb. cbn. destruct (decide (b = b')) as [<-|Hbb].
    + rewrite list_lookup_alter_eq. split; [done|]. intros (f & Hf & Hfu).
      destruct (b_pool v !! b); [|done]. injection Hf as <-. done.
    + rewrite list_lookup_alter_ne by done. rewrite <- Hu. split; [by right|]. by intros [->|?].
  - apply pop_slots, I.
  - apply pop_slots, I.
  - intros i ki Hi Hact. pose proof (mi_live _ _ _ I i ki Hi Hact). destruct (k_closing ki); [|done].
    apply closes_kept; [congruence|done].
  - intros c. destruct (decide (c = ld_conn_id d)) as [->|Hne].
    + left. exists (ld_slot d), k. split_and!; try done. rewrite calls_app, accepted_app.
      specialize (Hdel (b_sess v) (b_slots v) (local_buffer_release (b_pool v) (ld_frame d)) (b_ctr v)
        (b_sockets v) (same_mail_release _ _ _)).
      unfold mail_of at 1 in Hdel. rewrite Hd in Hdel. apply delivery_frame in Hdel.
      replace (accepted _ _ ++ accepted _ _) with (accepted h (ld_conn_id d))
        by (destruct (k_closing k); cbn; by rewrite app_nil_r).
      replace (calls (if k_closing k then _ else _) _) with
        (if k_closing k then [] else [mail_of (b_pool v) d])
        by (destruct (k_closing k); cbn; by rewrite ?Z.eqb_refl).
      unfold mail_of at 1. by rewrite Hd.
    + apply (conn_ok_other v); [apply I| | |by apply mail_pop_other|done|done];
        destruct (k_closing k); cbn; try done. by destruct (Z.eqb_spec (ld_conn_id d) c).
Qed.

(** After the close nothing of the connection is left. *)
Lemma close_is_last k : ld_kind d = DESC_CLOSE → b_sess v !! ld_slot d = Some k →
  (∀ s' sl' ctr' sk', mail (mk_mbox s' sl' q (b_pool v) ctr' sk') (ld_conn_id d) = []) ∧
  delivered (calls h (ld_conn_id d) ++ [MClose]) (accepted h (ld_conn_id d)) ∧
  ∀ x, x ∈ q → ld_slot x ≠ ld_slot d.
Proof.
  intros Hd Hs. destruct head_delivery as (k' & Hs' & Hk & Hc & Hcl & Hdel).
  specialize (Hcl Hd). rewrite Hcl in Hdel. unfold mail_of at 1 in Hdel. rewrite Hd in Hdel.
  assert (Hm : ∀ s' sl' ctr' sk', mail (mk_mbox s' sl' q (b_pool v) ctr' sk') (ld_conn_id d) = []).
  { intros. by apply (delivery_close _ _ _ (Hdel s' sl' _ ctr' sk' (same_mail_refl _ _))). }
  split_and!; [done| |].
  - apply (delivery_close _ _ _ (Hdel [] 0 _ 0 [] (same_mail_refl _ _))).
  - intros x Hx Heq. destruct (mi_desc _ _ _ I x (in_pend x Hx)) as (kx & Hsx & _ & Hcx & _).
    rewrite Heq, Hs' in Hsx. injection Hsx as <-. specialize (Hm [] 0 0 []).
    unfold mail in Hm. cbn [b_pend b_pool] in Hm. apply fmap_nil_inv in Hm.
    apply (not_elem_of_nil (A := local_desc_t) x). rewrite <- Hm. apply list_elem_of_filter.
    split; [congruence|done].
Qed.

Lemma inv_close k : ld_kind d = DESC_CLOSE → b_sess v !! ld_slot d = Some k →
  mbox_inv n
    (mk_mbox (<[ld_slot d := mk_core false (k_conn k) (-1) false]> (b_sess v))
       (Z.min (Z.of_nat n) (b_slots v + 1)) q (b_pool v) (b_ctr v) (b_sockets v))
    (h ++ [VCall (ld_conn_id d) MClose]).
Proof.
  intros Hd Hs. destruct head_delivery as (k' & Hs' & Hk & Hc & Hcl & _).
  assert (k' = k) as -> by congruence. specialize (Hcl Hd).
  destruct (close_is_last k Hd Hs) as (Hmail & Hdone & Hlast).
  pose proof (lookup_lt_Some _ _ _ Hs) as Hlt.
  assert (Hin : inactive (<[ld_slot d := mk_core false (k_conn k) (-1) false]> (b_sess v)) = b_slots v + 1).
  { rewrite (inactive_insert _ _ k), Hk, (mi_slots _ _ _ I) by done. cbn. lia. }
  constructor; proj; try apply I.
  - rewrite length_insert. apply I.
  - rewrite Hin. pose proof (inactive_max (<[ld_slot d := mk_core false (k_conn k) (-1) false]> (b_sess v))) as Hx.
    unfold zlen in Hx. rewrite length_insert, (mi_sess _ _ _ I), Hin in Hx. lia.
  - intros j kj [(<- & <- & _)|(_ & Hj)]%list_lookup_insert_Some Hact; [done|by apply (mi_conn _ _ _ I j)].
  - intros j j' kj kj' [(<- & <- & _)|(? & Hj)]%list_lookup_insert_Some
      [(<- & <- & _)|(? & Hj')]%list_lookup_insert_Some H1 H2 Hcc; try done.
    by apply (mi_inj _ _ _ I j j' kj kj').
  - intros x Hx. rewrite list_lookup_insert_ne by (intros ?; by apply (Hlast x)).
    apply (mi_desc _ _ _ I), in_pend, Hx.
  - intros x Hx. apply (mi_kind _ _ _ I), in_pend, Hx.
  - apply pop_frames.
  - intros b. rewrite <- frames_kept by congruence. apply I.
  - apply pop_slots, I.
  - apply pop_slots, I.
  - intros fd i Hi. destruct (mi_sock _ _ _ I fd i Hi) as (k' & Hk' & ? & ? & ?). exists k'.
    rewrite list_lookup_insert_ne by congruence. done.
  - intros i ki [(<- & <- & _)|(Hi & Hj)]%list_lookup_insert_Some Hact; [done|].
    pose proof (mi_live _ _ _ I i ki Hj Hact) as Hl. destruct (k_closing ki); [|done].
    rewrite Hq, slots_of_cons, slots_of_single, decide_True in Hl by done. set_solver.
  - intros c. destruct (decide (c = ld_conn_id d)) as [->|Hne].
    + right. proj. split_and!; [|apply Hmail|].
      * intros j kj [(<- & <- & _)|(Hj & Hkj)]%list_lookup_insert_Some Hact; [done|].
        intros Heq. apply Hj. apply (mi_inj _ _ _ I _ _ k kj); congruence.
      * right. rewrite calls_app, accepted_app. cbn [calls accepted omap list_omap label_call label_accept].
        rewrite Z.eqb_refl, app_nil_r. split; [|done]. rewrite <- Hc.
        by apply (mi_conn _ _ _ I (ld_slot d) k).
    + apply (conn_ok_other v); [apply I| |done|by apply mail_pop_other|done|].
      * cbn. by destruct (Z.eqb_spec (ld_conn_id d) c).
      * proj. intros j x Hx Ha. apply (insert_other (ld_slot d) k _ c); try done. congruence.
Qed.
End pop.
End steps.

Lemma mstep_inv n v h l v' :
  mbox_inv n v h → mstep n v l v' → mbox_inv n v' (h ++ l).
Proof.
  intros I Hstep. destruct Hstep.
  - rewrite app_nil_r. by eapply inv_connect.
  - by eapply inv_accept.
  - rewrite app_nil_r. by eapply inv_end.
  - by apply inv_open.
  - by apply inv_frame.
  - by apply inv_close.
Qed.

Lemma mbox_zero_inv n :
  mbox_inv n (mk_mbox (replicate n (mk_core false 0 0 false)) (Z.of_nat n) [] local_buffer_pool_init 0 []) [].
Proof.
  assert (Hrep : ∀ i k, replicate n (mk_core false 0 0 false) !! i = Some k → k_active k = false).
  { by intros i k [-> _]%lookup_replicate. }
  constructor; proj; try apply NoDup_nil_2; try (intros * ?%Hrep; congruence); try (by intros ? ?%not_elem_of_nil).
  - by rewrite length_replicate.
  - done.
  - clear Hrep. induction n as [|m IH]; [done|]. cbn [replicate]. rewrite inactive_cons, <- IH. proj. lia.
  - done.
  - intros b. split; [by intros ?%not_elem_of_nil|]. intros (f & Hf & Hu).
    apply lookup_replicate in Hf as [-> _]. done.
  - by intros ? ? ?%not_elem_of_nil.
  - intros c. right. split_and!; [intros i k ?%Hrep; congruence|done|by left].
Qed.

Lemma msteps_inv n v h l v' : mbox_inv n v h → msteps n v l v' → mbox_inv n v' (h ++ l).
Proof.
  intros I Hs. revert h I. induction Hs as [v|v l v' l' v'' Hstep Hs IH]; intros h I.
  - by rewrite app_nil_r.
  - rewrite app_assoc. apply IH. by eapply mstep_inv.
Qed.

Lemma msteps_one n v l v' : mstep n v l v' → msteps n v l v'.
Proof. intros H. rewrite <- (app_nil_r l). eapply msteps_cons; [done|constructor]. Qed.

Lemma msteps_app n v l v' l' v'' : msteps n v l v' → msteps n v' l' v'' → msteps n v (l ++ l') v''.
Proof.
  intros H H'. induction H as [v|v l v1 l1 v2 Hstep Hs IH]; [done|].
  rewrite <- app_assoc. eapply msteps_cons; [done|]. by apply IH.
Qed.

(** ** Room in the descriptor queue *)

(** Lists without repetition of numbers below a bound. *)
Lemma NoDup_bound (l : list nat) m : NoDup l → (∀ x, x ∈ l → (x < m)%nat) → (length l <= m)%nat.
Proof.
  intros Hnd Hb. rewrite <- (length_seq m 0). apply submseteq_length, NoDup_submseteq; [done|].
  intros x Hx. apply elem_of_seq. specialize (Hb x Hx). lia.
Qed.

Section room.
Context (n : nat) (v : mbox) (h : list mlabel) (I : mbox_inv n v h).

Lemma pend_length : length (b_pend v) =
  (length (slots_of DESC_OPEN (b_pend v)) + length (frames_of (b_pend v)) + length (slots_of DESC_CLOSE (b_pend v)))%nat.
Proof.
  pose proof (mi_kind _ _ _ I) as Hk. induction (b_pend v) as [|d l IH]; [done|].
  rewrite !(slots_of_cons _ d l), frames_of_cons, !length_app, !slots_of_single. cbn [length].
  rewrite IH by (intros x Hx; apply Hk; by right).
  specialize (Hk d (list_elem_of_here _ _)). destruct d as [kd sl c [b|]]; cbn in Hk;
    [assert (kd = DESC_FRAME) as -> by (by apply Hk)|destruct kd; [|by destruct (proj1 Hk eq_refl)|]];
    proj; repeat case_decide; try done; simpl length; lia.
Qed.

Lemma slots_bound kd i : i ∈ slots_of kd (b_pend v) → (i < n)%nat.
Proof.
  intros (d & Hd & _ & <-)%elem_of_slots. destruct (mi_desc _ _ _ I d Hd) as (k & Hk & _).
  rewrite <- (mi_sess _ _ _ I). by eapply lookup_lt_Some.
Qed.
Lemma frames_bound b : b ∈ frames_of (b_pend v) → (b < LOCAL_FRAME_POOL_COUNT)%nat.
Proof.
  intros (f & Hf & _)%(mi_used _ _ _ I). rewrite <- (mi_pool _ _ _ I). by eapply lookup_lt_Some.
Qed.

Lemma opens_length : (length (slots_of DESC_OPEN (b_pend v)) <= n)%nat.
Proof. apply NoDup_bound; [apply I|apply slots_bound]. Qed.
Lemma closes_length : (length (slots_of DESC_CLOSE (b_pend v)) <= n)%nat.
Proof. apply NoDup_bound; [apply I|apply slots_bound]. Qed.
Lemma frames_length : (length (frames_of (b_pend v)) <= LOCAL_FRAME_POOL_COUNT)%nat.
Proof. apply NoDup_bound; [apply I|apply frames_bound]. Qed.

(** A descriptor that is about to be queued is not there yet. *)
Lemma room_open i k : b_sess v !! i = Some k → k_active k = false →
  (length (b_pend v) < LOCAL_FRAME_POOL_COUNT + 2 * n)%nat.
Proof.
  intros Hi Hk. assert (length (i :: slots_of DESC_OPEN (b_pend v)) <= n)%nat.
  { apply NoDup_bound.
    - apply NoDup_cons. split; [|apply I]. intros (d & Hd & _ & Hs)%elem_of_slots.
      by apply (pend_active n v h I i k d).
    - intros x [->|Hx]%elem_of_cons; [|by eapply slots_bound].
      rewrite <- (mi_sess _ _ _ I). by eapply lookup_lt_Some. }
  rewrite pend_length. pose proof closes_length. pose proof frames_length. cbn [length] in *. lia.
Qed.

Lemma room_frame b f : b_pool v !! b = Some f → lf_used f = false →
  (length (b_pend v) < LOCAL_FRAME_POOL_COUNT + 2 * n)%nat.
Proof.
  intros Hb Hf. assert (length (b :: frames_of (b_pend v)) <= LOCAL_FRAME_POOL_COUNT)%nat.
  { apply NoDup_bound.
    - apply NoDup_cons. split; [|apply I]. intros (g & ? & ?)%(mi_used _ _ _ I). congruence.
    - intros x [->|Hx]%elem_of_cons; [|by apply frames_bound].
      rewrite <- (mi_pool _ _ _ I). by eapply lookup_lt_Some. }
  rewrite pend_length. pose proof closes_length. pose proof opens_length. cbn [length] in *. lia.
Qed.

Lemma room_close i k : b_sess v !! i = Some k → k_closing k = false →
  (length (b_pend v) < LOCAL_FRAME_POOL_COUNT + 2 * n)%nat.
Proof.
  intros Hi Hk. assert (length (i :: slots_of DESC_CLOSE (b_pend v)) <= n)%nat.
  { apply NoDup_bound.
    - apply NoDup_cons. split; [|apply I]. intros (d & Hd & Hkd & Hs)%elem_of_slots.
      destruct (mi_desc _ _ _ I d Hd) as (k' & Hk' & _ & _ & Hc). specialize (Hc Hkd). congruence.
    - intros x [->|Hx]%elem_of_cons; [|by eapply slots_bound].
      rewrite <- (mi_sess _ _ _ I). by eapply lookup_lt_Some. }
  rewrite pend_length. pose proof opens_length. pose proof frames_length. cbn [length] in *. lia.
Qed.
End room.
