(* ===== verification/LocalServerProps.v ===== *)
(** * What the local server guarantees

    [local_step_refines]: with one or two clients every step of LocalServer is a
    sequence of steps of LocalMailbox; the proof shows on the way that the
    descriptor queue has room whenever the code puts something in.  The theorems
    about runs follow from the machine's invariant.  With three clients the queue
    is too short: [third_client_crashes]. *)

From S2P Require Import Prelude Bytes Float32 Float64 FpAuth FpSession LocalServer LocalMailbox.
Local Open Scope list_scope.
Local Open Scope Z_scope.

(** ** The machine behind a state *)

Section refinement.
Context {P E A : Type} {L : LocalProto P E A} (n : nat).

Definition core_of (s : local_session_t P) : core :=
  mk_core (lc_active s) (lc_connection_id s) (lc_sockfd s) (closing (lc_state s)).

Definition pending (st : local_server P) : list local_desc_t :=
  option_list (fst <$> lv_worker st) ++ lv_rxq st.

Definition view (st : local_server P) : mbox :=
  mk_mbox (core_of <$> lv_sessions st) (lv_slots st) (pending st) (lv_pool st) (lv_conn_ctr st) (lv_sockets st).

Definition label_of (o : local_out A) : option mlabel :=
  match o with OAccepted c t => Some (VAccept c t) | OCall c m => Some (VCall c m) | _ => None end.
Definition labels (h : list (local_out A)) : list mlabel := omap label_of h.

(** The worker's descriptor is not stale. *)
Definition fresh (st : local_server P) : Prop := ∀ d b, lv_worker st = Some (d, b) → b = false.

Definition lost (o : local_out A) : Prop := match o with OLost _ _ => True | _ => False end.

(** [not_lost] closes goals about the outputs of a step. *)
#[local] Ltac not_lost :=
  cbn [fst snd]; repeat match goal with
  | |- Forall _ (_ :: _) => apply Forall_cons; split; [by intros []|]
  | |- Forall _ [] => apply Forall_nil_2
  end.

(** The protocol's step is undefined for some input. *)
Definition proto_undefined : Prop := ∃ (e : E) t (p : P), ¬ is_Some (match lp_frame (A := A) e t p with Ok r => Some r | _ => None end).

Definition refines (st : local_server P) (dc : Z) (r : res (local_server P * list (local_out A))) : Prop :=
  match r with
  | Ok (st', o) => msteps n (view st) (labels o) (view st') ∧ fresh st' ∧ Forall (λ x, ¬ lost x) o ∧
                   lv_conn_ctr st' <= lv_conn_ctr st + dc
  | _ => proto_undefined
  end.

(** ** Steps that the machine does not see *)

Record same (st st' : local_server P) : Prop := {
  sm_sess : core_of <$> lv_sessions st' = core_of <$> lv_sessions st;
  sm_slots : lv_slots st' = lv_slots st;
  sm_rxq : lv_rxq st' = lv_rxq st;
  sm_worker : lv_worker st' = lv_worker st;
  sm_pool : lv_pool st' = lv_pool st;
  sm_ctr : lv_conn_ctr st' = lv_conn_ctr st;
  sm_sockets : lv_sockets st' = lv_sockets st
}.

#[local] Instance same_preorder : PreOrder same.
Proof. split; [by intros st|]. intros a b c [] []. constructor; by etrans. Qed.

Lemma same_view st st' : same st st' → view st' = view st.
Proof. intros [H1 H2 H3 H4 H5 H6 H7]. unfold view, pending. by rewrite H1, H2, H3, H4, H5, H6, H7. Qed.

Lemma same_stats f st : same st (stats_update f st).
Proof. by constructor. Qed.

Lemma core_alter f s slot (l : list (local_session_t P)) :
  l !! slot = Some s → core_of <$> alter f slot l = <[slot := core_of (f s)]> (core_of <$> l).
Proof.
  intros Hs. apply list_eq. intros j. rewrite list_lookup_fmap. destruct (decide (slot = j)) as [<-|Hj].
  - rewrite list_lookup_alter_eq, Hs. cbn. rewrite list_lookup_insert_eq; [done|].
    rewrite length_fmap. by eapply lookup_lt_Some.
  - by rewrite list_lookup_alter_ne, list_lookup_insert_ne, list_lookup_fmap.
Qed.

Lemma same_session f s slot st :
  lv_sessions st !! slot = Some s → core_of (f s) = core_of s → same st (session_update f slot st).
Proof.
  intros Hs Hf. constructor; try done. cbn. rewrite (core_alter f s) by done. rewrite Hf.
  apply list_insert_id. by rewrite list_lookup_fmap, Hs.
Qed.

Lemma session_update_at (f : local_session_t P → local_session_t P) s slot st :
  lv_sessions st !! slot = Some s → lv_sessions (session_update f slot st) !! slot = Some (f s).
Proof. intros Hs. cbn. by rewrite list_lookup_alter_eq, Hs. Qed.

Lemma refines_same st st' o dc :
  same st st' → fresh st → labels o = [] → Forall (λ x, ¬ lost x) o → 0 <= dc → refines st dc (Ok (st', o)).
Proof.
  intros Hs Hf Hl Ho Hdc. cbn. rewrite (same_view st st' Hs), Hl. split_and!; [constructor| |done|].
  - intros d b. rewrite (sm_worker _ _ Hs). apply Hf.
  - rewrite (sm_ctr _ _ Hs). lia.
Qed.

Lemma same_tx st tx : same st (st <| lv_tx := tx |>).
Proof. by constructor. Qed.

Lemma send_keeps st slot t b : same st (local_server_session_send st slot t b).2 ∧
  lv_sessions (local_server_session_send st slot t b).2 = lv_sessions st.
Proof.
  unfold local_server_session_send, local_server_send. destruct (lv_sessions st !! slot) as [s|]; [|by split].
  repeat case_match; split; try done.
Qed.

Lemma close_keeps st slot : same st (local_server_session_close (A := A) st slot).1 ∧
  labels (local_server_session_close (A := A) st slot).2 = [] ∧
  Forall (λ x, ¬ lost x) (local_server_session_close (A := A) st slot).2.
Proof.
  unfold local_server_session_close. repeat case_match; (split_and!; [done || apply same_stats|done|]);
    not_lost.
Qed.

Lemma texts_keep st slot texts sends : same st (send_texts st slot texts sends) ∧
  lv_sessions (send_texts st slot texts sends) = lv_sessions st.
Proof.
  revert st sends. induction texts as [|t texts IH]; intros st sends; cbn; [done|].
  destruct (send_keeps st slot t (next_send sends)) as [H1 H2].
  destruct (IH (local_server_session_send st slot t (next_send sends)).2 (tail sends)) as [H3 H4].
  split; [by etrans|by rewrite H4].
Qed.

Lemma on_open_keeps st slot e sends :
  is_Some (lv_sessions st !! slot) →
  ∃ st' o, local_protocol_on_open (A := A) st slot e sends = Ok (st', o) ∧ same st st' ∧ labels o = [] ∧
    Forall (λ x, ¬ lost x) o.
Proof.
  intros [s Hs]. unfold local_protocol_on_open, session_at. rewrite Hs. cbn [of_option mbind res_bind].
  destruct (lp_open e (lc_protocol s)) as [p hello].
  set (st1 := session_update _ slot st).
  assert (H1 : same st st1) by (by apply (same_session _ s)).
  destruct hello as [t|].
  - destruct (local_server_session_send st1 slot t (next_send sends)) as [ok st2] eqn:Hsend.
    destruct (send_keeps st1 slot t (next_send sends)) as [H2 _]. rewrite Hsend in H2. cbn in H2.
    assert (H3 : same st st2) by (by etrans).
    destruct ok; [eexists _, _; split_and!; done|].
    destruct (close_keeps st2 slot) as (H4 & H5 & H6).
    destruct (local_server_session_close st2 slot) as [st3 o]. eexists _, _. split_and!; try done. by etrans.
  - destruct (close_keeps st1 slot) as (H4 & H5 & H6).
    destruct (local_server_session_close st1 slot) as [st3 o]. eexists _, _. split_and!; try done. by etrans.
Qed.

Lemma acts_quiet c acts : labels (OAct c <$> acts : list (local_out A)) = [] ∧
  Forall (λ x, ¬ lost x) (OAct c <$> acts : list (local_out A)).
Proof. induction acts as [|a acts [IH1 IH2]]; cbn; [by split|]. split; [done|]. constructor; [by intros []|done]. Qed.

Lemma on_frame_keeps st slot t e sends :
  is_Some (lv_sessions st !! slot) →
  (∃ st' o, local_protocol_on_frame st slot t e sends = Ok (st', o) ∧ same st st' ∧ labels o = [] ∧
    Forall (λ x, ¬ lost x) o) ∨
  (proto_undefined ∧ ∀ r, local_protocol_on_frame (A := A) st slot t e sends ≠ Ok r).
Proof.
  intros [s Hs]. unfold local_protocol_on_frame, session_at. rewrite Hs. cbn [of_option mbind res_bind].
  destruct (lp_frame e t (lc_protocol s)) as [[[valid p] acts]| | ] eqn:Ef; cbn [mbind res_bind];
    [left|right; split; [exists e, t, (lc_protocol s); rewrite Ef; by intros []|done]..].
  destruct (acts_quiet (lc_connection_id s) acts) as [Ha Ha'].
  set (st1 := session_update _ slot st).
  assert (H1 : same st st1) by (by apply (same_session _ s)).
  destruct (texts_keep st1 slot (omap lp_text acts) sends) as [H2 Hs2].
  set (st2 := send_texts st1 slot (omap lp_text acts) sends) in *.
  assert (Hat : lv_sessions st2 !! slot = Some (s <| lc_protocol := p |>)).
  { rewrite Hs2. by apply (session_update_at _ s). }
  set (strikes := u8 (lc_json_strikes s + 1)).
  set (st3 := if valid then st2 else session_update _ slot st2).
  assert (H3 : same st st3 ∧ ∃ s3, lv_sessions st3 !! slot = Some s3 ∧ lc_state s3 = lc_state s).
  { unfold st3. destruct valid.
    - split; [by etrans|]. by exists (s <| lc_protocol := p |>).
    - split; [etrans; [by etrans|]; by apply (same_session _ (s <| lc_protocol := p |>))|].
      eexists. split; [by apply (session_update_at _ (s <| lc_protocol := p |>))|done]. }
  destruct H3 as (H3 & s3 & Hs3 & Hst3). destruct (_ && (_ <=? _)).
  - destruct (close_keeps st3 slot) as (H4 & H5 & H6).
    destruct (local_server_session_close st3 slot) as [st4 o]. cbn [fst snd] in *. eexists _, _. split_and!; [done|by etrans| |].
    + unfold labels in *. rewrite omap_app. by rewrite Ha, H5.
    + by apply Forall_app.
  - case_match eqn:Hrun; eexists _, _; split_and!; try done.
    apply andb_true_iff in Hrun as [_ Hrun%bool_decide_eq_true]. etrans; [done|].
    apply (same_session _ s3); [done|]. unfold core_of. cbn. by rewrite Hst3, Hrun.
Qed.

(** ** Steps of the machine *)

Lemma enqueue_room (st : local_server P) d :
  (length (lv_rxq st) < LOCAL_RX_QUEUE_DEPTH)%nat →
  desc_enqueue st d = (true, st <| lv_rxq := lv_rxq st ++ [d] |>).
Proof. intros H. unfold desc_enqueue. by rewrite bool_decide_true. Qed.

Lemma rxq_room (st : local_server P) m : (length (pending st) < m)%nat → (m <= LOCAL_RX_QUEUE_DEPTH)%nat →
  (length (lv_rxq st) < LOCAL_RX_QUEUE_DEPTH)%nat.
Proof. unfold pending. rewrite length_app. lia. Qed.

Lemma session_find_inactive (l : list (local_session_t P)) :
  list_find (λ s, lc_active s = false) l = None → list_find (λ k, k_active k = false) (core_of <$> l) = None.
Proof. rewrite !list_find_None, Forall_fmap. done. Qed.

Section step.
Context (st : local_server P) (h : list mlabel) (I : mbox_inv n (view st) h) (Hf : fresh st) (Hn : (n <= 2)%nat).

Lemma room_enough : (LOCAL_FRAME_POOL_COUNT + 2 * n <= LOCAL_RX_QUEUE_DEPTH)%nat.
Proof. unfold LOCAL_FRAME_POOL_COUNT, LOCAL_RX_QUEUE_DEPTH. lia. Qed.

Lemma view_session i s : lv_sessions st !! i = Some s → b_sess (view st) !! i = Some (core_of s).
Proof. intros Hs. cbn. by rewrite list_lookup_fmap, Hs. Qed.

Lemma connect_refines fd now :
  socket_ctx (lv_sockets st) fd = None → lv_conn_ctr st + 1 < 4294967296 →
  refines st 1 (ws_connected st fd now).
Proof.
  intros Hfd Hctr. unfold ws_connected. destruct (Z.leb_spec (lv_slots st) 0) as [|Hslots].
  { apply refines_same; [apply same_stats|done|done|by not_lost|lia]. }
  destruct (list_find _ (lv_sessions st)) as [[slot s]|] eqn:Hfind.
  2: { apply refines_same; [done|done|done|by not_lost|lia]. }
  apply list_find_Some in Hfind as (Hs & Hact & _).
  pose proof (mi_ctr _ _ _ I) as Hc0. cbn in Hc0.
  pose proof (room_open n _ _ I slot (core_of s) (view_session _ _ Hs) Hact) as Hroom.
  rewrite u32_id by (unfold is_u32; lia).
  rewrite enqueue_room by (cbn; eapply rxq_room; [exact Hroom|apply room_enough]).
  unfold refines. split_and!; [|done|by not_lost|cbn; lia].
  apply msteps_one. unfold view at 2, pending. cbn.
  rewrite (core_alter _ s) by done. rewrite app_assoc.
  by apply (ms_connect n (view st) slot (core_of s) fd); [apply view_session| | | |].
Qed.

Lemma free_refines fd slot :
  socket_ctx (lv_sockets st) fd = Some slot →
  refines st 0 (on_sess_free (A := A) n (st <| lv_sockets := socket_remove (lv_sockets st) fd |>) slot).
Proof.
  intros Hfd. pose proof (socket_ctx_Some _ _ _ Hfd) as Hin.
  destruct (mi_sock _ _ _ I fd slot Hin) as (k & Hk & Hact & Hcl & _).
  cbn in Hk. rewrite list_lookup_fmap in Hk. destruct (lv_sessions st !! slot) as [s|] eqn:Hs; [|done].
  injection Hk as <-. cbn in Hact, Hcl. unfold on_sess_free, session_at.
  change (lv_sessions (st <| lv_sockets := _ |>)) with (lv_sessions st).
  rewrite Hs. cbn [of_option mbind res_bind]. rewrite Hact. cbn [negb].
  pose proof (room_close n _ _ I slot (core_of s) (view_session _ _ Hs) Hcl) as Hroom.
  rewrite enqueue_room by (cbn; eapply rxq_room; [exact Hroom|apply room_enough]).
  unfold refines. split_and!; [|done|by not_lost|cbn; lia].
  apply msteps_one. unfold view at 2, pending. cbn.
  rewrite (core_alter _ s) by done. rewrite app_assoc.
  by apply (ms_end n (view st) slot (core_of s) fd); [|apply view_session|].
Qed.

Lemma socket_close_refines fd : refines st 0 (socket_close (A := A) n st fd).
Proof.
  unfold socket_close. destruct (socket_ctx (lv_sockets st) fd) as [slot|] eqn:Hc; [by apply free_refines|].
  by apply refines_same.
Qed.

Lemma acquire_spec (pool pool' : list local_frame_t) b :
  local_buffer_acquire pool = Some (b, pool') →
  ∃ f, pool !! b = Some f ∧ lf_used f = false ∧ pool' = <[b := mk_frame true (lf_data f)]> pool.
Proof.
  unfold local_buffer_acquire. destruct (list_find _ pool) as [[i f]|] eqn:Hb; [|done].
  apply list_find_Some in Hb as (? & ? & _). intros [= -> <-]. eauto.
Qed.

Lemma frame_fill (pool : list local_frame_t) b f data :
  pool !! b = Some f →
  alter (λ g, mk_frame (lf_used g) data) b (<[b := mk_frame true (lf_data f)]> pool) = <[b := mk_frame true data]> pool.
Proof.
  intros Hb. pose proof (lookup_lt_Some _ _ _ Hb). apply list_eq. intros j. destruct (decide (b = j)) as [<-|Hj].
  - rewrite list_lookup_alter_eq, !list_lookup_insert_eq by done. done.
  - rewrite list_lookup_alter_ne, !list_lookup_insert_ne by done. done.
Qed.

Lemma frame_release (pool : list local_frame_t) b f :
  pool !! b = Some f → lf_used f = false →
  local_buffer_release (<[b := mk_frame true (lf_data f)]> pool) (Some b) = pool.
Proof.
  intros Hb Hu. pose proof (lookup_lt_Some _ _ _ Hb). apply list_eq. intros j. cbn.
  destruct (decide (b = j)) as [<-|Hj].
  - rewrite list_lookup_alter_eq, list_lookup_insert_eq, Hb by done. cbn. by destruct f; cbn in *; subst.
  - by rewrite list_lookup_alter_ne, list_lookup_insert_ne.
Qed.

(** The handler either takes the frame, or drops it, or asks for the close. *)
Lemma ws_frame_refines fd slot pkt payload now :
  socket_ctx (lv_sockets st) fd = Some slot →
  match ws_frame (A := A) st slot pkt payload now with
  | Ok (true, st', o) => refines st 0 (Ok (st', o))
  | Ok (false, st', o) => same st st' ∧ o = []
  | _ => False
  end.
Proof.
  intros Hfd. pose proof (socket_ctx_Some _ _ _ Hfd) as Hin.
  destruct (mi_sock _ _ _ I fd slot Hin) as (k & Hk & Hact & Hcl & _).
  cbn in Hk. rewrite list_lookup_fmap in Hk. destruct (lv_sessions st !! slot) as [s|] eqn:Hs; [|done].
  injection Hk as <-. cbn in Hact, Hcl. unfold ws_frame, session_at. rewrite Hs. cbn [of_option mbind res_bind].
  rewrite Hact, Hcl. cbn [negb orb]. destruct pkt as [[len text]|]; [|done].
  destruct (LOCAL_MAX_FRAME_SIZE <=? len); [by split; [apply same_stats|]|].
  destruct text; cbn [negb]; [|by apply refines_same].
  destruct (local_rate_allow (lc_rate s) _ now) as [allowed rate].
  set (st1 := session_update _ slot st).
  assert (H1 : same st st1) by (by apply (same_session _ s)).
  assert (Hs1 : lv_sessions st1 !! slot = Some (s <| lc_rate := rate |>)) by (by apply (session_update_at _ s)).
  destruct allowed; cbn [negb].
  - destruct (local_buffer_acquire (lv_pool st1)) as [[b pool]|] eqn:Hb.
    2: { apply refines_same; [by etrans; [|apply same_stats]|done..]. }
    apply acquire_spec in Hb as (f & Hb & Hu & ->). rewrite (sm_pool _ _ H1) in Hb |- *.
    destruct payload as [data|]; [|by rewrite frame_release].
    pose proof (room_frame n _ _ I b f Hb Hu) as Hroom.
    rewrite frame_fill by done.
    rewrite enqueue_room by (eapply rxq_room; [exact Hroom|apply room_enough]).
    unfold refines. split_and!; [|done|by not_lost|cbn; lia].
    apply msteps_one. unfold view at 2, pending. cbn [lv_sessions lv_slots lv_rxq lv_worker lv_pool lv_conn_ctr lv_sockets].
    cbn. rewrite (core_alter _ (s <| lc_rate := rate |>)), (core_alter _ s) by done. rewrite app_assoc.
    change (core_of (s <| lc_rate := rate |> <| lc_last_activity_us := now |>)) with (core_of s).
    change (core_of (s <| lc_rate := rate |>)) with (core_of s).
    rewrite !(list_insert_id (core_of <$> lv_sessions st)) by (by rewrite list_lookup_fmap, Hs).
    apply (ms_accept n (view st) slot (core_of s) b f); try done. by apply view_session.
  - set (st2 := stats_update _ st1). destruct (local_rate_violation_note rate now) as [close rate'].
    assert (H2 : same st (session_update (λ s, s <| lc_rate := rate' |>) slot st2)).
    { etrans; [exact H1|]. etrans; [apply same_stats|]. by apply (same_session _ (s <| lc_rate := rate |>)). }
    destruct close; [split; [by etrans; [|apply same_stats]|done]|by apply refines_same].
Qed.
End step.

Lemma same_view_inv st st' h : same st st' → mbox_inv n (view st) h → fresh st → mbox_inv n (view st') h ∧ fresh st'.
Proof.
  intros Hs I Hf. split; [by rewrite (same_view st st')|]. intros d b. rewrite (sm_worker _ _ Hs). apply Hf.
Qed.

Lemma refines_same_l st st' dc r : same st st' → refines st' dc r → refines st dc r.
Proof.
  intros Hs. destruct r as [[st'' o]| |]; [|done..]. cbn. rewrite (same_view st st' Hs), (sm_ctr _ _ Hs). done.
Qed.

Lemma handler_refines st h fd pkt payload now :
  mbox_inv n (view st) h → fresh st → (n <= 2)%nat → refines st 0 (ws_handler_frame (A := A) n st fd pkt payload now).
Proof.
  intros I Hf Hn. unfold ws_handler_frame. destruct (socket_ctx (lv_sockets st) fd) as [slot|] eqn:Hfd.
  2: { by apply refines_same. }
  pose proof (ws_frame_refines st h I Hf Hn fd slot pkt payload now Hfd) as Hw.
  destruct (ws_frame _ _ _ _ _) as [[[[|] st'] o]| |]; [exact Hw| |done..].
  destruct Hw as [Hs ->]. cbn [mbind res_bind]. destruct (same_view_inv st st' h Hs I Hf) as [I' Hf'].
  pose proof (socket_close_refines st' h I' Hf' Hn fd) as Hc.
  destruct (socket_close n st' fd) as [[st'' o]| |]; cbn [mbind res_bind]; by apply (refines_same_l st st').
Qed.

(** Two steps, one after the other. *)
Lemma refines_bind st h dc dc' r k :
  mbox_inv n (view st) h → refines st dc r →
  (∀ st' o, mbox_inv n (view st') (h ++ labels o) → fresh st' → refines st' dc' (k (st', o))) →
  refines st (dc + dc')
    (x ← r; y ← k x; Ok (y.1, x.2 ++ y.2)).
Proof.
  intros I Hr Hk. destruct r as [[st1 o1]| |]; cbn [mbind res_bind]; [|done..].
  destruct Hr as (Hs & Hf & Ho & Hc). specialize (Hk st1 o1 ltac:(by eapply msteps_inv) Hf).
  destruct (k (st1, o1)) as [[st2 o2]| |]; cbn [mbind res_bind fst snd]; [|done..].
  destruct Hk as (Hs2 & Hf2 & Ho2 & Hc2). unfold refines, labels in *. rewrite omap_app. split_and!; [|done| |lia].
  - by eapply msteps_app.
  - by apply Forall_app.
Qed.

Lemma close_all_refines st h sockets :
  mbox_inv n (view st) h → fresh st → (n <= 2)%nat → refines st 0 (close_all (A := A) n st sockets).
Proof.
  revert st h. induction sockets as [|[fd i] sockets IH]; intros st h I Hf Hn; cbn [close_all].
  - by apply refines_same.
  - apply (refines_bind st h 0 0 _ (λ x, close_all n x.1 sockets)); [done|by eapply socket_close_refines|].
    intros st' o I' Hf'. by eapply IH.
Qed.

(** ** The worker *)

Lemma view_done st st' pool : same st st' →
  view (st' <| lv_pool := pool |> <| lv_worker := None |>) =
  mk_mbox (b_sess (view st)) (lv_slots st) (lv_rxq st) pool (lv_conn_ctr st) (lv_sockets st).
Proof. intros [H1 H2 H3 H4 H5 H6 H7]. unfold view, pending. cbn. by rewrite H1, H2, H3, H6, H7. Qed.

Lemma view_idle st st' : same st st' →
  view (st' <| lv_worker := None |>) =
  mk_mbox (b_sess (view st)) (lv_slots st) (lv_rxq st) (lv_pool st) (lv_conn_ctr st) (lv_sockets st).
Proof. intros [H1 H2 H3 H4 H5 H6 H7]. unfold view, pending. cbn. by rewrite H1, H2, H3, H5, H6, H7. Qed.

Section worker.
Context (st : local_server P) (h : list mlabel) (I : mbox_inv n (view st) h).
Context (d : local_desc_t) (Hw : lv_worker st = Some (d, false)).

Lemma worker_pend : b_pend (view st) = d :: lv_rxq st.
Proof. cbn. unfold pending. by rewrite Hw. Qed.

Lemma worker_session : ∃ s, lv_sessions st !! ld_slot d = Some s ∧ lc_active s = true ∧
  lc_connection_id s = ld_conn_id d.
Proof.
  destruct (mi_desc _ _ _ I d) as (k & Hk & Hact & Hc & _); [rewrite worker_pend; set_solver|].
  cbn in Hk. rewrite list_lookup_fmap in Hk. destruct (lv_sessions st !! ld_slot d) as [s|]; [|done].
  injection Hk as <-. by exists s.
Qed.

Lemma open_refines e sends : ld_kind d = DESC_OPEN → refines st 0 (worker_done (A := A) n st e sends).
Proof.
  intros Hd. destruct worker_session as (s & Hs & Hact & Hc).
  unfold worker_done, worker_process, session_at. rewrite Hw, Hs, Hd. cbn [of_option mbind res_bind].
  destruct (on_open_keeps st (ld_slot d) e sends) as (st' & o & -> & Hsame & Hl & Ho); [by rewrite Hs|].
  cbn [mbind res_bind fst snd refines]. split_and!.
  - cbn [labels omap list_omap label_of]. change (omap label_of o) with (labels o). rewrite Hl, Hc.
    apply msteps_one. rewrite (view_idle st) by done. apply (ms_open n (view st)); [apply worker_pend|done].
  - done.
  - apply Forall_cons. split; [by intros []|done].
  - cbn. rewrite (sm_ctr _ _ Hsame). lia.
Qed.

Lemma frame_refines e sends : ld_kind d = DESC_FRAME → refines st 0 (worker_done (A := A) n st e sends).
Proof.
  intros Hd. destruct worker_session as (s & Hs & Hact & Hc).
  assert (Hin : d ∈ b_pend (view st)) by (rewrite worker_pend; set_solver).
  destruct (proj1 (mi_kind _ _ _ I d Hin) Hd) as [b Hb].
  destruct (proj1 (mi_used _ _ _ I b)) as (f & Hf & _); [apply elem_of_frames; eauto|]. cbn in Hf.
  pose proof (ms_frame n (view st) d (lv_rxq st) (core_of s) worker_pend Hd (view_session st _ _ Hs)) as Hstep.
  unfold mail_of in Hstep. rewrite Hd, Hb in Hstep. cbn [mbind option_bind] in Hstep.
  change (b_pool (view st)) with (lv_pool st) in Hstep.
  rewrite Hf, <- Hc in Hstep. cbn [fmap option_fmap option_map default core_of k_closing] in Hstep.
  unfold worker_done, worker_process, session_at. rewrite Hw, Hs, Hd, Hb. cbn [of_option mbind res_bind negb andb].
  destruct (closing (lc_state s)) eqn:Hcl; cbn [negb mbind res_bind fst snd].
  - cbn [refines]. split_and!; [|done|by not_lost|cbn; lia]. apply msteps_one. by rewrite (view_done st).
  - rewrite Hf. cbn [of_option mbind res_bind].
    destruct (on_frame_keeps st (ld_slot d) (c_text (lf_data f)) e sends) as [(st' & o & -> & Hsame & Hl & Ho)|[Hu Hno]];
      [by rewrite Hs| |].
    + cbn [mbind res_bind fst snd refines]. split_and!.
      * cbn [labels omap list_omap label_of]. change (omap label_of o) with (labels o). rewrite Hl.
        apply msteps_one. rewrite (view_done st) by done. by rewrite (sm_pool _ _ Hsame).
      * done.
      * apply Forall_cons. split; [by intros []|done].
      * cbn. rewrite (sm_ctr _ _ Hsame). lia.
    + destruct (local_protocol_on_frame _ _ _ _ _) as [r| |]; [by destruct (Hno r)|done..].
Qed.

Lemma close_refines e sends : ld_kind d = DESC_CLOSE → refines st 0 (worker_done (A := A) n st e sends).
Proof.
  intros Hd. destruct worker_session as (s & Hs & Hact & Hc).
  unfold worker_done, worker_process, session_cleanup, session_at. rewrite Hw, Hs, Hd.
  cbn [of_option mbind res_bind]. rewrite Hact.
  cbn [negb mbind res_bind fst snd refines]. split_and!; [|done|by not_lost|cbn; lia].
  apply msteps_one. unfold view at 2, pending. cbn. rewrite (core_alter _ s) by done. rewrite Hc.
  apply (ms_close n (view st) d (lv_rxq st) (core_of s)); [apply worker_pend|done|by apply view_session].
Qed.

Lemma done_refines e sends : refines st 0 (worker_done (A := A) n st e sends).
Proof. destruct (ld_kind d) eqn:Hd; [by apply open_refines|by apply frame_refines|by apply close_refines]. Qed.
End worker.

Lemma take_refines st h : mbox_inv n (view st) h → fresh st → refines st 0 (worker_take (A := A) st).
Proof.
  intros I Hf. unfold worker_take. destruct (lv_worker st) as [w|] eqn:Hw; [by apply refines_same|].
  destruct (lv_rxq st) as [|d q] eqn:Hq; [by apply refines_same|].
  assert (Hp : b_pend (view st) = d :: q) by (cbn; unfold pending; by rewrite Hw, Hq).
  destruct (mi_desc _ _ _ I d) as (k & Hk & Hact & Hc & _); [rewrite Hp; set_solver|].
  cbn in Hk. rewrite list_lookup_fmap in Hk. unfold session_at.
  destruct (lv_sessions st !! ld_slot d) as [s|] eqn:Hs; [|done]. injection Hk as <-. cbn in Hact, Hc.
  cbn [of_option mbind res_bind refines]. rewrite Hact, Hc, Z.eqb_refl. split_and!; [|by intros ? ? [= _ <-]|done|cbn; lia].
  match goal with |- msteps _ _ _ ?v => replace v with (view st); [constructor|] end.
  unfold view, pending. cbn. by rewrite Hw, Hq.
Qed.

(** ** The refinement *)

Lemma scan_quiet hd now (l : list (local_session_t P)) r :
  labels r.2 = [] → Forall (λ x, ¬ lost x) r.2 →
  labels (foldl (scan_one (A := A) hd now) r l).2 = [] ∧ Forall (λ x, ¬ lost x) (foldl (scan_one hd now) r l).2.
Proof.
  revert r. induction l as [|s l IH]; intros r Hl Ho; [done|]. cbn [foldl]. apply IH; unfold scan_one; case_match; try done; cbn [snd].
  - unfold labels in *. rewrite omap_app. by rewrite Hl.
  - apply Forall_app. split; [done|by not_lost].
Qed.

Lemma local_step_refines st h ev :
  (n <= 2)%nat → mbox_inv n (view st) h → fresh st → lv_conn_ctr st + 1 < 4294967296 →
  refines st 1 (local_step (A := A) n st ev).
Proof.
  intros Hn I Hf Hctr.
  assert (Hw : ∀ r, refines st 0 r → refines st 1 r) by (intros [[st' o]| |] Hr; [naive_solver lia|done..]).
  destruct ev as [fd now|fd pkt payload now|fd|run| |e sends|now|tls started| |]; cbn [local_step].
  - case_match eqn:Hg; [by apply refines_same|].
    apply orb_false_iff in Hg as [_ Hg%bool_decide_eq_false]. apply dec_stable in Hg. by eapply connect_refines.
  - case_match; [by apply refines_same|]. apply Hw. by eapply handler_refines.
  - case_match; [by apply refines_same|]. apply Hw. by eapply socket_close_refines.
  - case_match; [by apply refines_same|].
    apply refines_same; try done; destruct (run && lv_httpd st); try done;
      unfold tx_work; case_match; try done; by not_lost.
  - apply Hw. by eapply take_refines.
  - unfold worker_done at 1. destruct (lv_worker st) as [[d b]|] eqn:Hwk; [|by apply refines_same].
    pose proof (Hf d b Hwk) as ->. apply Hw.
    pose proof (done_refines st h I d Hwk e sends) as Hd. unfold worker_done in Hd. by rewrite Hwk in Hd.
  - case_match; [|by apply refines_same]. unfold timeout_scan.
    destruct (scan_quiet (lv_hd st) now (lv_sessions st) (lv_stats st, [])) as [Hl Ho]; [done..|].
    by apply refines_same.
  - apply refines_same; try done. unfold server_start. case_match; [done|by constructor].
  - apply refines_same; try done; by constructor.
  - unfold server_stop_end. case_match; [by apply refines_same|]. apply Hw.
    pose proof (close_all_refines st h (lv_sockets st) I Hf Hn) as Hr.
    destruct (close_all n st (lv_sockets st)) as [[st' o]| |]; cbn [mbind res_bind]; done.
Qed.

Lemma local_run_inv st h evs :
  (n <= 2)%nat → mbox_inv n (view st) h → fresh st → lv_conn_ctr st + zlen evs < 4294967296 →
  match local_run (A := A) n st evs with
  | Ok (st', o) => mbox_inv n (view st') (h ++ labels o) ∧ fresh st' ∧ Forall (λ x, ¬ lost x) o
  | _ => proto_undefined
  end.
Proof.
  intros Hn. revert st h. induction evs as [|ev evs IH]; intros st h I Hf Hctr; cbn [local_run].
  - by rewrite app_nil_r.
  - rewrite zlen_cons in Hctr. pose proof (zlen_nonneg evs).
    pose proof (local_step_refines st h ev Hn I Hf ltac:(lia)) as Hr.
    destruct (local_step n st ev) as [[st1 o1]| |]; cbn [mbind res_bind fst snd]; [|done..].
    destruct Hr as (Hs & Hf1 & Ho1 & Hc1).
    specialize (IH st1 _ (msteps_inv _ _ _ _ _ I Hs) Hf1 ltac:(lia)).
    destruct (local_run n st1 evs) as [[st2 o2]| |]; cbn [mbind res_bind fst snd]; [|done..].
    destruct IH as (I2 & Hf2 & Ho2). unfold labels in *. rewrite omap_app, app_assoc.
    split_and!; [done|done|by apply Forall_app].
Qed.

Lemma zero_inv : mbox_inv n (view (local_server_zero (E := E) (A := A) n)) [] ∧ fresh (local_server_zero (E := E) (A := A) n).
Proof.
  split; [|by intros ? ?]. unfold view, pending. cbn. rewrite fmap_replicate. apply mbox_zero_inv.
Qed.

Lemma count_split (l : list (local_session_t P)) :
  inactive (core_of <$> l) + zlen (filter (λ s, lc_active s = true) l) = Z.of_nat (length (core_of <$> l)).
Proof.
  induction l as [|s l IH]; [done|]. rewrite fmap_cons, inactive_cons, filter_cons. cbn [length].
  change (k_active (core_of s)) with (lc_active s).
  destruct (lc_active s); [rewrite decide_True by done|rewrite decide_False by done]; rewrite ?zlen_cons; lia.
Qed.

(** ** Stopping the server *)

(** What the closing of sockets does to the table of sockets and to the worker. *)
Lemma socket_close_effect st h fd st' o :
  mbox_inv n (view st) h → fresh st → (n <= 2)%nat → socket_close (A := A) n st fd = Ok (st', o) →
  lv_sockets st' = socket_remove (lv_sockets st) fd ∧ lv_worker st' = lv_worker st.
Proof.
  intros I Hf Hn Hr. unfold socket_close in Hr. destruct (socket_ctx (lv_sockets st) fd) as [slot|] eqn:Hfd.
  - unfold on_sess_free, session_at in Hr. change (lv_sessions (st <| lv_sockets := _ |>)) with (lv_sessions st) in Hr.
    destruct (mi_sock _ _ _ I fd slot (socket_ctx_Some _ _ _ Hfd)) as (k & Hk & Hact & Hcl & _).
    cbn in Hk. rewrite list_lookup_fmap in Hk. destruct (lv_sessions st !! slot) as [s|] eqn:Hs; [|done].
    injection Hk as <-. cbn [of_option mbind res_bind] in Hr. cbn in Hact. rewrite Hact in Hr. cbn [negb] in Hr.
    pose proof (room_close n _ _ I slot (core_of s) (view_session st _ _ Hs) Hcl) as Hroom.
    rewrite enqueue_room in Hr by (cbn; eapply rxq_room; [exact Hroom|by apply room_enough]).
    by injection Hr as <- <-.
  - injection Hr as <- <-. split; [|done]. symmetry. unfold socket_remove.
    apply socket_ctx_None in Hfd. induction (lv_sockets st) as [|[fd' i] l IH]; [done|].
    cbn in Hfd. apply not_elem_of_cons in Hfd as [? ?]. rewrite filter_cons, decide_True by (cbn; congruence).
    f_equal. by apply IH.
Qed.

Lemma close_all_effect st h l st' o :
  mbox_inv n (view st) h → fresh st → (n <= 2)%nat → close_all (A := A) n st l = Ok (st', o) →
  (∀ x, x ∈ lv_sockets st' → x ∈ lv_sockets st ∧ x.1 ∉ l.*1).
Proof.
  revert st h o. induction l as [|[fd i] l IH]; intros st h o I Hf Hn Hr; cbn [close_all] in Hr.
  - injection Hr as <- _. intros x Hx. split; [done|apply not_elem_of_nil].
  - pose proof (socket_close_refines st h I Hf Hn fd) as Hs.
    destruct (socket_close n st fd) as [[st1 o1]| |] eqn:Hc; cbn [mbind res_bind fst snd] in Hr; [|done..].
    destruct (close_all n st1 l) as [[st2 o2]| |] eqn:Hc2; cbn [mbind res_bind fst snd] in Hr; [|done..].
    injection Hr as <- <-. destruct Hs as (Hs & Hf1 & _ & _).
    destruct (socket_close_effect st h fd st1 o1 I Hf Hn Hc) as [Hk _].
    intros x Hx. destruct (IH st1 _ o2 (msteps_inv _ _ _ _ _ I Hs) Hf1 Hn Hc2 x Hx) as [H1 H2].
    rewrite Hk in H1. apply elem_of_remove in H1 as [H1 H3]. split; [done|]. cbn.
    by apply not_elem_of_cons.
Qed.

(** The worker takes one descriptor and is done with it. *)
Lemma worker_round st h e st1 o1 st2 o2 :
  mbox_inv n (view st) h → fresh st → worker_take (A := A) st = Ok (st1, o1) →
  worker_done (A := A) n st1 e [] = Ok (st2, o2) →
  pending st2 = tail (pending st) ∧ lv_sockets st2 = lv_sockets st.
Proof.
  intros I Hf Ht Hd.
  assert (H1 : pending st1 = pending st ∧ lv_sockets st1 = lv_sockets st ∧
            (lv_worker st1 = None → pending st1 = [])).
  { unfold worker_take in Ht. destruct (lv_worker st) as [w|] eqn:Hw.
    - injection Ht as <- _. split_and!; [done|done|]. rewrite Hw. done.
    - destruct (lv_rxq st) as [|d q] eqn:Hq.
      + injection Ht as <- _. split_and!; [done|done|]. intros _. unfold pending. by rewrite Hw, Hq.
      + destruct (session_at st (ld_slot d)) as [s| |]; cbn [mbind res_bind] in Ht; [|done..].
        injection Ht as <- _. split_and!; [|done|done]. unfold pending. cbn. by rewrite Hw, Hq. }
  pose proof (take_refines st h I Hf) as Htr. rewrite Ht in Htr. destruct Htr as (Hs1 & Hf1 & _ & _).
  pose proof (msteps_inv _ _ _ _ _ I Hs1) as I1. destruct H1 as (Hp & Hk & Hidle).
  rewrite <- Hp, <- Hk. clear Hp Hk Ht I Hf. unfold worker_done in Hd.
  destruct (lv_worker st1) as [[d b]|] eqn:Hw; [|injection Hd as <- _; by rewrite (Hidle eq_refl)].
  pose proof (Hf1 d b Hw) as ->. destruct (worker_session st1 _ I1 d Hw) as (s & Hs & Hact & _).
  assert (Hq : tail (pending st1) = lv_rxq st1) by (unfold pending; by rewrite Hw). rewrite Hq.
  assert (Hgoal : ∀ st3 pool, same st1 st3 →
    pending (st3 <| lv_pool := pool |> <| lv_worker := None |>) = lv_rxq st1 ∧
    lv_sockets (st3 <| lv_pool := pool |> <| lv_worker := None |>) = lv_sockets st1).
  { intros st3 pool [H1 H2 H3 H4 H5 H6 H7]. unfold pending. cbn. by rewrite H3, H7. }
  unfold worker_process, session_at in Hd. rewrite Hs in Hd. cbn [of_option mbind res_bind] in Hd.
  destruct (ld_kind d).
  - destruct (on_open_keeps st1 (ld_slot d) e []) as (st3 & o & Ho & Hsame & _); [by rewrite Hs|].
    rewrite Ho in Hd. cbn [mbind res_bind fst snd] in Hd. injection Hd as <- _. by apply (Hgoal st3 (lv_pool st3)).
  - destruct (negb false && _).
    + destruct (ld_frame d) as [fr|]; cbn [of_option mbind res_bind] in Hd; [|done].
      destruct (lv_pool st1 !! fr) as [f|]; cbn [of_option mbind res_bind] in Hd; [|done].
      destruct (on_frame_keeps st1 (ld_slot d) (c_text (lf_data f)) e []) as [(st3 & o & Ho & Hsame & _)|[_ Hno]];
        [by rewrite Hs| |].
      * rewrite Ho in Hd. cbn [mbind res_bind fst snd] in Hd. injection Hd as <- _. by apply Hgoal.
      * destruct (local_protocol_on_frame _ _ _ _ _) as [r| |] eqn:Hfr; [by destruct (Hno r)|done..].
    + cbn [mbind res_bind fst snd] in Hd. injection Hd as <- _. by apply Hgoal.
  - unfold session_cleanup, session_at in Hd. rewrite Hs in Hd. cbn [of_option mbind res_bind] in Hd.
    rewrite Hact in Hd. cbn [negb mbind res_bind fst snd] in Hd. by injection Hd as <- _.
Qed.

(** The worker empties the queue. *)
Fixpoint drain (e : E) (k : nat) : list (@local_event E) :=
  match k with O => [] | S k => LTake :: LDone e [] :: drain e k end.

Lemma empty_is_free st h :
  mbox_inv n (view st) h → lv_sockets st = [] → pending st = [] →
  Forall (λ s, lc_active s = false) (lv_sessions st) ∧ lv_slots st = Z.of_nat n ∧
  Forall (λ f, lf_used f = false) (lv_pool st).
Proof.
  intros I Hk Hp.
  assert (Hs : Forall (λ s, lc_active s = false) (lv_sessions st)).
  { apply Forall_lookup. intros i s Hs. destruct (lc_active s) eqn:Ha; [|done].
    pose proof (mi_live _ _ _ I i (core_of s) (view_session st _ _ Hs) Ha) as Hl. cbn in Hl.
    rewrite Hk, Hp in Hl. destruct (closing _); by apply not_elem_of_nil in Hl. }
  split_and!; [done| |].
  - pose proof (mi_slots _ _ _ I) as Hsl. cbn in Hsl. rewrite Hsl. rewrite <- (mi_sess _ _ _ I). cbn.
    clear - Hs. induction Hs as [|s l Ha Hl IH]; [done|].
    rewrite fmap_cons, inactive_cons, IH. cbn. rewrite Ha. lia.
  - apply Forall_lookup. intros b f Hf. destruct (lf_used f) eqn:Hu; [|done].
    assert (Hb : b ∈ frames_of (b_pend (view st))) by (apply (mi_used _ _ _ I); eauto).
    cbn in Hb. rewrite Hp in Hb. by apply not_elem_of_nil in Hb.
Qed.

(** ** What a run guarantees *)

#[local] Abbreviation boot := (local_server_zero (E := E) (A := A) n).

(** C25: With one or two clients nothing leaks.  Whatever the clients send, whenever
    sockets end or the Wi-Fi goes, and however the worker is delayed: no descriptor
    is ever refused by the queue, the semaphore counts exactly the free sessions, a
    buffer is in use exactly while one descriptor on its way refers to it, and a
    taken session has either an open socket or its close on the way to the worker.
    The server itself has no undefined step: a run ends early only where the
    protocol does. *)
Theorem local_server_leaks_nothing evs :
  (n <= 2)%nat → zlen evs < 4294967296 →
  match local_run (A := A) n boot evs with
  | Ok (st, o) =>
      Forall (λ x, ¬ lost x) o ∧
      lv_slots st + local_server_client_count st = Z.of_nat n ∧
      NoDup (frames_of (pending st)) ∧
      (∀ b, b ∈ frames_of (pending st) ↔ ∃ f, lv_pool st !! b = Some f ∧ lf_used f = true) ∧
      ∀ i s, lv_sessions st !! i = Some s → lc_active s = true →
        if closing (lc_state s) then i ∈ slots_of DESC_CLOSE (pending st) else (lc_sockfd s, i) ∈ lv_sockets st
  | _ => proto_undefined
  end.
Proof.
  intros Hn Hlen. destruct zero_inv as [I Hf]. pose proof (local_run_inv boot [] evs Hn I Hf Hlen) as Hr.
  destruct (local_run n boot evs) as [[st o]| |]; [|done..]. destruct Hr as (I' & _ & Ho).
  split_and!; [done| |apply I'|apply I'|].
  - pose proof (mi_slots _ _ _ I') as Hs. cbn in Hs. rewrite Hs, <- (mi_sess _ _ _ I'). cbn. apply count_split.
  - intros i s Hs Ha. apply (mi_live _ _ _ I' i (core_of s) (view_session st _ _ Hs) Ha).
Qed.

(** C26: Each connection's frames reach the protocol in order, once, and nobody
    else's.  With one or two clients, the hooks run for a connection are the open,
    then its accepted texts in the order they were accepted, then the close; texts
    are missing only at the end, when the socket ended before they were handled.
    Nothing is handled for a connection before its open or after its close. *)
Theorem local_frames_in_order evs c :
  (n <= 2)%nat → zlen evs < 4294967296 →
  match local_run (A := A) n boot evs with
  | Ok (_, o) =>
      let K := calls (labels o) c in
      K = [] ∨ ∃ texts, texts `prefix_of` accepted (labels o) c ∧
        (K = MOpen :: (MFrame <$> texts) ∨ K = MOpen :: (MFrame <$> texts) ++ [MClose])
  | _ => proto_undefined
  end.
Proof.
  intros Hn Hlen. destruct zero_inv as [I Hf]. pose proof (local_run_inv boot [] evs Hn I Hf Hlen) as Hr.
  destruct (local_run n boot evs) as [[st o]| |]; [|done..]. destruct Hr as (I' & _ & _).
  destruct (mi_mail _ _ _ I' c) as [(i & k & _ & _ & _ & Hd)|(_ & _ & [[? _]|[_ Hd]])]; cbn [app] in *.
  - destruct Hd as (A0 & A1 & A2 & -> & Hp & _ & [(-> & _)|(-> & _)]); [by left|right].
    exists A0. split; [by apply prefix_app_r|by left].
  - by left.
  - destruct Hd as (A0 & Hp & ->). right. exists A0. split; [done|by right].
Qed.

End refinement.

(** ** After a stop *)

Section stopping.
Context {P E A : Type} {L : LocalProto P E A} (n : nat).

(** The same hooks with a protocol that ignores every text. *)
Definition ignores_texts : LocalProto P E A := {|
  lp_zero := lp_zero (E := E) (A := A);
  lp_open := lp_open (A := A);
  lp_frame _ _ p := Ok (true, p, []);
  lp_running := lp_running (E := E) (A := A);
  lp_close := lp_close (E := E) (A := A);
  lp_text := lp_text (P := P) (E := E)
|}.

Lemma ignores_defined : ¬ @proto_undefined P E A ignores_texts.
Proof. intros (e & t & p & Hn). apply Hn. by eexists. Qed.

(** Without sockets every session is closing, and the worker hands no text over. *)
Lemma done_ignores st h e :
  mbox_inv n (view st) h → lv_sockets st = [] → worker_done n st e [] = @worker_done P E A ignores_texts n st e [].
Proof.
  intros I Hk. unfold worker_done. destruct (lv_worker st) as [[d b]|] eqn:Hw; [|reflexivity].
  assert (Hd : d ∈ b_pend (view st)) by (cbn; unfold pending; rewrite Hw; cbn; set_solver).
  destruct (mi_desc _ _ _ I d Hd) as (k & Hs & Ha & _ & _). pose proof (mi_live _ _ _ I _ k Hs Ha) as Hlive.
  cbn in Hs, Hlive. rewrite list_lookup_fmap in Hs. unfold worker_process, session_at.
  destruct (lv_sessions st !! ld_slot d) as [s|]; [|done]. injection Hs as <-. cbn in Hlive.
  rewrite Hk in Hlive. destruct (closing (lc_state s)) eqn:Hc; [|by apply not_elem_of_nil in Hlive].
  cbn [of_option mbind res_bind]. destruct (ld_kind d); [reflexivity| |reflexivity]. by rewrite Hc, !andb_false_r.
Qed.

Lemma drain_spec e k st h :
  mbox_inv n (view st) h → fresh st → (n <= 2)%nat → lv_sockets st = [] →
  ∃ st' o h', local_run (A := A) n st (drain e k) = Ok (st', o) ∧ pending st' = drop k (pending st) ∧
    lv_sockets st' = [] ∧ mbox_inv n (view st') h'.
Proof.
  revert st h. induction k as [|k IH]; intros st h I Hf Hn Hsock; [by exists st, [], h|].
  cbn [drain local_run local_step].
  pose proof (take_refines (L := ignores_texts) n st h I Hf) as H1.
  destruct (worker_take st) as [[st1 o1]| |] eqn:E1; [|by destruct ignores_defined..].
  cbn [mbind res_bind fst snd]. destruct H1 as (Hs1 & Hf1 & _ & _).
  pose proof (msteps_inv _ _ _ _ _ I Hs1) as I1.
  assert (Hk1 : lv_sockets st1 = []).
  { unfold worker_take in E1. repeat case_match; try (by injection E1 as <- _).
    destruct (session_at st _); cbn [mbind res_bind] in E1; [by injection E1 as <- _|done..]. }
  assert (H2 : refines (L := ignores_texts) n st1 0 (worker_done n st1 e [])).
  { rewrite (done_ignores st1 _ e I1 Hk1). destruct (lv_worker st1) as [[d b]|] eqn:Hw.
    - pose proof (Hf1 d b Hw) as ->. by eapply done_refines.
    - unfold worker_done. rewrite Hw. by apply refines_same. }
  destruct (worker_done n st1 e []) as [[st2 o2]| |] eqn:E2; [|by destruct ignores_defined..].
  cbn [mbind res_bind fst snd]. destruct H2 as (Hs2 & Hf2 & _ & _).
  destruct (worker_round n st h e st1 o1 st2 o2 I Hf E1 E2) as [Hp Hk].
  destruct (IH st2 _ (msteps_inv _ _ _ _ _ I1 Hs2) Hf2 Hn) as (st3 & o3 & h3 & -> & Hp3 & Hk3 & I3); [by rewrite Hk|].
  cbn [mbind res_bind fst snd]. eexists _, _, h3. split_and!; [done| |done|done].
  rewrite Hp3, Hp. destruct (pending st); [apply drop_nil|done].
Qed.

(** C27: A stopped server lets go of everything.  With one or two clients, from any
    state a run can reach: when the Wi-Fi goes and the HTTP server has stopped,
    finitely many rounds of the worker end every session, whatever texts are still
    queued; all sockets are closed, every session is free, the semaphore is full and
    no buffer is in use. *)
Theorem stopped_server_frees_everything evs st o e :
  (n <= 2)%nat → zlen evs < 4294967296 →
  local_run (A := A) n (local_server_zero n) evs = Ok (st, o) → lv_httpd st = true →
  ∃ k st' o', local_run (A := A) n st (LWlanDisconnected :: LStopped :: drain e k) = Ok (st', o') ∧
    lv_sockets st' = [] ∧ lv_rxq st' = [] ∧ Forall (λ s, lc_active s = false) (lv_sessions st') ∧
    lv_slots st' = Z.of_nat n ∧ Forall (λ f, lf_used f = false) (lv_pool st').
Proof.
  intros Hn Hlen Hrun Hhttpd. destruct (zero_inv n) as [I0 Hf0].
  pose proof (local_run_inv n _ [] evs Hn I0 Hf0 Hlen) as Hr. rewrite Hrun in Hr. destruct Hr as (I & Hf & _).
  set (st1 := server_stop_begin st). assert (Hs1 : same st st1) by (by constructor).
  destruct (same_view_inv n st st1 _ Hs1 I Hf) as [I1 Hf1].
  pose proof (close_all_refines (L := ignores_texts) n st1 _ (lv_sockets st1) I1 Hf1 Hn) as Hc.
  change (@close_all P E A ignores_texts n) with (close_all (A := A) n) in Hc.
  destruct (close_all n st1 (lv_sockets st1)) as [[st2 o2]| |] eqn:Ec; [|by destruct ignores_defined..].
  destruct Hc as (Hs2 & Hf2 & _ & _). pose proof (msteps_inv _ _ _ _ _ I1 Hs2) as I2.
  assert (Hk2 : lv_sockets st2 = []).
  { apply list_nil_subseteq. intros x Hx. exfalso.
    destruct (close_all_effect n st1 _ (lv_sockets st1) st2 o2 I1 Hf1 Hn Ec x Hx) as [H1 H2].
    apply H2, list_elem_of_fmap. eauto. }
  set (st3 := st2 <| lv_httpd := false |>). assert (Hs3 : same st2 st3) by (by constructor).
  destruct (same_view_inv n st2 st3 _ Hs3 I2 Hf2) as [I3 Hf3].
  destruct (drain_spec e (length (pending st3)) st3 _ I3 Hf3 Hn Hk2) as (st4 & o4 & h4 & Hd & Hp & Hk & I4).
  rewrite drop_all in Hp. destruct (empty_is_free n st4 _ I4 Hk Hp) as (Hfree & Hsl & Hpool).
  exists (length (pending st3)), st4, (o2 ++ o4). split_and!; try done.
  - assert (Hend : server_stop_end n st1 = Ok (st3, o2)).
    { unfold server_stop_end. replace (lv_hd st1 || negb (lv_httpd st1)) with false; [by rewrite Ec|].
      cbn. by rewrite Hhttpd. }
    cbn [local_run local_step mbind res_bind fst snd]. fold st1. rewrite Hend.
    cbn [mbind res_bind fst snd]. rewrite Hd. done.
  - unfold pending in Hp. by apply app_eq_nil in Hp as [_ ->].
Qed.
End stopping.

(** ** Concrete runs *)

(** A protocol that sends every text back. *)
#[local] Instance echo : LocalProto unit unit (list Z) := {|
  lp_zero := tt;
  lp_open _ _ := (tt, Some []);
  lp_frame _ t _ := Ok (true, tt, [t]);
  lp_running _ := false;
  lp_close _ := tt;
  lp_text := Some
|}.

Definition echo_frame (t : Z) : @local_event unit := LFrame 10 (Some (1, true)) (Some [t]) 0.

(** Two frames, one of them handled, then the socket ends. *)
Definition echo_run : list (@local_event unit) :=
  [LWlanConnected true true; LConnect 10 0; echo_frame 7; echo_frame 8; LTake; LDone tt []; LTake; LDone tt [];
   LTxWork true; LTxWork true; LSocketEnd 10].

(** The same up to the end of the socket. *)
Definition echo_open : list (@local_event unit) := take 8 echo_run.

Example echo_delivers :
  (λ r, match r with Ok (_, o) => Some (calls (labels o) 1, accepted (labels o) 1) | _ => None end)
    (local_run 1 (local_server_zero 1) (echo_run ++ [LTake; LDone tt []; LTake; LDone tt []])) =
  Some ([MOpen; MFrame [7]; MClose], [[7]; [8]]).
Proof. vm_compute. reflexivity. Qed.

(** Twenty-two frames at once: two are dropped; the third drop within ten seconds
    closes the connection. *)
Fixpoint rate_run (rl : local_rate_limit_t) (times : list Z) : list bool :=
  match times with
  | [] => []
  | t :: times =>
      let '(ok, rl) := local_rate_allow rl (f32_of_Z 1) t in
      if ok then true :: rate_run rl times
      else let '(close, rl) := local_rate_violation_note rl t in false :: (if close : bool then [] else rate_run rl times)
  end.

Example rate_limits_a_burst :
  rate_run (local_rate_limit_reset 1000000) (replicate 30 1000000) = replicate 20 true ++ [false; false; false] ∧
  rate_run (local_rate_limit_reset 1000000) (replicate 21 1000000 ++ [1200000; 1400000]) =
    replicate 20 true ++ [false; true; true].
Proof. split; vm_compute; reflexivity. Qed.

Lemma local_server_leaks_nothing_witness :
  (1 <= 2)%nat ∧ zlen echo_run < 4294967296 ∧
  match local_run 1 (local_server_zero 1) echo_run with
  | Ok (st, o) =>
      Forall (λ x, ¬ lost x) o ∧
      lv_slots st + local_server_client_count st = 1 ∧
      NoDup (frames_of (pending st)) ∧
      (∀ b, b ∈ frames_of (pending st) ↔ ∃ f, lv_pool st !! b = Some f ∧ lf_used f = true) ∧
      ∀ i s, lv_sessions st !! i = Some s → lc_active s = true →
        if closing (lc_state s) then i ∈ slots_of DESC_CLOSE (pending st) else (lc_sockfd s, i) ∈ lv_sockets st
  | _ => proto_undefined
  end.
Proof.
  split; [lia|]. split; [vm_compute; reflexivity|].
  apply (local_server_leaks_nothing 1 echo_run); [lia|vm_compute; reflexivity].
Defined.

Lemma local_frames_in_order_witness :
  (1 <= 2)%nat ∧ zlen echo_run < 4294967296 ∧
  match local_run 1 (local_server_zero 1) echo_run with
  | Ok (_, o) =>
      let K := calls (labels o) 1 in
      K = [] ∨ ∃ texts, texts `prefix_of` accepted (labels o) 1 ∧
        (K = MOpen :: (MFrame <$> texts) ∨ K = MOpen :: (MFrame <$> texts) ++ [MClose])
  | _ => proto_undefined
  end.
Proof.
  split; [lia|]. split; [vm_compute; reflexivity|].
  apply (local_frames_in_order 1 echo_run 1); [lia|vm_compute; reflexivity].
Defined.

Lemma stopped_server_frees_everything_witness :
  match local_run 1 (local_server_zero 1) echo_open with
  | Ok (st, o) =>
      lv_httpd st = true ∧
      ∃ k st' o', local_run 1 st (LWlanDisconnected :: LStopped :: drain tt k) = Ok (st', o') ∧
        lv_sockets st' = [] ∧ lv_rxq st' = [] ∧ Forall (λ s, lc_active s = false) (lv_sessions st') ∧
        lv_slots st' = 1 ∧ Forall (λ f, lf_used f = false) (lv_pool st')
  | _ => False
  end.
Proof.
  destruct (local_run 1 (local_server_zero 1) echo_open) as [[st o]| |] eqn:Hrun.
  - assert (Hd : lv_httpd st = true) by (vm_compute in Hrun; by injection Hrun as <- _).
    split; [exact Hd|].
    apply (stopped_server_frees_everything 1 echo_open st o tt); [lia|vm_compute; reflexivity|exact Hrun|exact Hd].
  - vm_compute in Hrun. discriminate.
  - vm_compute in Hrun. discriminate.
Defined.
