(* ===== verification/LocalReplay.v ===== *)
(** * One connection, one run of the protocol

    With one or two clients, what the local server does for a connection is a run
    of the protocol on that connection's texts alone: [connection_replays].  The
    sessions share slots, queue, buffers and worker; none of it shows. *)

From S2P Require Import Prelude Bytes LocalServer LocalMailbox LocalServerProps.
Local Open Scope list_scope.
Local Open Scope Z_scope.

Section replay.
Context {P E A : Type} `{!LocalProto P E A} (n : nat).
(** What is known of every answer the worker gets from the environment. *)
Variable env_ok : E → Prop.
#[local] Abbreviation state := (local_server P).
#[local] Abbreviation outs := (list (local_out A)).

(** The protocol on a list of texts. *)
Fixpoint replay (p : P) (fs : list (E * list Z)) : res (P * list A) :=
  match fs with
  | [] => Ok (p, [])
  | (e, t) :: fs =>
      r ← lp_frame e t p;
      r' ← replay r.1.2 fs;
      Ok (r'.1, r.2 ++ r'.2)
  end.

Lemma replay_snoc p fs e t q acts v q' acts' :
  replay p fs = Ok (q, acts) → lp_frame e t q = Ok (v, q', acts') →
  replay p (fs ++ [(e, t)]) = Ok (q', acts ++ acts').
Proof.
  revert p acts. induction fs as [|[e0 t0] fs IH]; intros p acts Hr Hf.
  - injection Hr as -> <-. cbn. rewrite Hf. cbn. by rewrite app_nil_r.
  - cbn [replay app] in *. destruct (lp_frame e0 t0 p) as [[[v0 p0] acts0]| |]; cbn [mbind res_bind fst snd] in *; try done.
    destruct (replay p0 fs) as [[q1 acts1]| |] eqn:Hr1; cbn [mbind res_bind fst snd] in *; try done.
    injection Hr as -> <-. rewrite (IH p0 acts1 Hr1 Hf). cbn. by rewrite app_assoc.
Qed.

(** The actions for a connection, and the texts handled for it. *)
Definition acts_of (o : outs) (c : Z) : list A :=
  omap (λ x, match x with OAct c' a => if c' =? c then Some a else None | _ => None end) o.
Definition text_of (m : local_mail) : option (list Z) := match m with MFrame t => Some t | _ => None end.
Definition texts_of (o : outs) (c : Z) : list (list Z) := omap text_of (calls (labels o) c).

(** Nothing happened for the connection yet, or the protocol was opened for it and
    ran on its texts; a session that holds the connection holds the outcome. *)
Definition replays (st : state) (o : outs) (c : Z) : Prop :=
  (calls (labels o) c = [] ∧ acts_of o c = []) ∨
  (calls (labels o) c ≠ [] ∧ ∃ e p0 fs p,
     env_ok e ∧ fs.*2 = texts_of o c ∧ replay (lp_open (A := A) e p0).1 fs = Ok (p, acts_of o c) ∧
     ∀ i s, lv_sessions st !! i = Some s → lc_active s = true → lc_connection_id s = c → lc_protocol s = p).

(** ** Steps that leave the protocol alone *)

Definition pkeep (st st' : state) : Prop :=
  ∀ i s', lv_sessions st' !! i = Some s' → lc_active s' = true →
    ∃ s, lv_sessions st !! i = Some s ∧ lc_active s = true ∧ lc_connection_id s = lc_connection_id s' ∧
         lc_protocol s = lc_protocol s'.

Definition silent (x : local_out A) : Prop := match x with OCall _ _ | OAct _ _ => False | _ => True end.

#[local] Instance pkeep_preorder : PreOrder pkeep.
Proof.
  split; [by intros st i s Hs Ha; exists s|]. intros a b c H1 H2 i s' Hs Ha.
  destruct (H2 i s' Hs Ha) as (s1 & Hs1 & Ha1 & Hc1 & Hp1).
  destruct (H1 i s1 Hs1 Ha1) as (s2 & ? & ? & ? & ?). exists s2. split_and!; congruence.
Qed.

Lemma pkeep_refl st : pkeep st st.
Proof. reflexivity. Qed.
Lemma pkeep_stats f st : pkeep st (stats_update f st).
Proof. by intros i s' Hs Ha; exists s'. Qed.
Lemma silent_nil : Forall silent [].
Proof. constructor. Qed.
#[local] Hint Resolve pkeep_refl pkeep_stats silent_nil : core.

Lemma silent_calls o c : Forall silent o → calls (labels o) c = [] ∧ acts_of o c = [].
Proof. induction 1 as [|x o Hx Ho [IH1 IH2]]; [by split|]. destruct x; by cbn in *. Qed.

Lemma calls_labels_app (o o' : outs) c : calls (labels (o ++ o')) c = calls (labels o) c ++ calls (labels o') c.
Proof. unfold labels. by rewrite omap_app, calls_app. Qed.
Lemma acts_of_app o o' c : acts_of (o ++ o') c = acts_of o c ++ acts_of o' c.
Proof. apply omap_app. Qed.
Lemma texts_of_app o o' c : texts_of (o ++ o') c = texts_of o c ++ texts_of o' c.
Proof. unfold texts_of. by rewrite calls_labels_app, omap_app. Qed.

Lemma replays_other st st' o o' c :
  replays st o c → calls (labels o') c = [] → acts_of o' c = [] →
  (∀ i s', lv_sessions st' !! i = Some s' → lc_active s' = true → lc_connection_id s' = c →
     ∃ s, lv_sessions st !! i = Some s ∧ lc_active s = true ∧ lc_connection_id s = c ∧ lc_protocol s = lc_protocol s') →
  replays st' (o ++ o') c.
Proof.
  intros H H1 H2 Hk. unfold replays. rewrite acts_of_app, texts_of_app, calls_labels_app, H1, H2, !app_nil_r.
  replace (texts_of o' c) with (@nil (list Z)) by (unfold texts_of; by rewrite H1). rewrite app_nil_r.
  destruct H as [H|(Hne & e & p0 & fs & p & He & Hfs & Hr & Hs)]; [by left|right].
  split; [done|]. exists e, p0, fs, p. split_and!; try done. intros i s' Hs' Ha Hc.
  destruct (Hk i s' Hs' Ha Hc) as (s & ? & ? & ? & <-). by apply (Hs i s).
Qed.

Lemma replays_silent st st' o o' c :
  replays st o c → pkeep st st' → Forall silent o' → replays st' (o ++ o') c.
Proof.
  intros H Hk Ho. destruct (silent_calls o' c Ho) as [H1 H2]. apply (replays_other st); try done.
  intros i s' Hs' Ha Hc. destruct (Hk i s' Hs' Ha) as (s & ? & ? & ? & ?). exists s. split_and!; congruence.
Qed.

Lemma pkeep_update (f : local_session_t P → local_session_t P) slot st :
  (∀ s, lc_active (f s) = true → lc_active s = true ∧ lc_connection_id (f s) = lc_connection_id s ∧
        lc_protocol (f s) = lc_protocol s) →
  pkeep st (session_update f slot st).
Proof.
  intros Hf i s' Hs Ha. cbn in Hs. destruct (decide (slot = i)) as [<-|Hi].
  - rewrite list_lookup_alter_eq in Hs. destruct (lv_sessions st !! slot) as [s|]; [|done].
    injection Hs as <-. destruct (Hf s Ha) as (? & ? & ?). by exists s.
  - rewrite list_lookup_alter_ne in Hs by done. by exists s'.
Qed.

Lemma pkeep_sessions st st' : lv_sessions st' = lv_sessions st → pkeep st st'.
Proof. intros H i s'. rewrite H. intros ? ?. by exists s'. Qed.

Lemma enqueue_sessions (st : state) d : lv_sessions (desc_enqueue st d).2 = lv_sessions st.
Proof. unfold desc_enqueue. by case_match. Qed.

Lemma pkeep_enqueue st st1 d b st2 : pkeep st st1 → desc_enqueue st1 d = (b, st2) → pkeep st st2.
Proof.
  intros Hk He. etrans; [exact Hk|]. apply pkeep_sessions. pose proof (enqueue_sessions st1 d) as H. by rewrite He in H.
Qed.

(** A step that leaves the protocol alone, or loses a descriptor. *)
Definition keeps (st : state) (r : res (state * outs)) : Prop :=
  match r with
  | Ok (st', o) => pkeep st st' ∧ Forall silent o ∨ ¬ Forall (λ x, ¬ lost x) o
  | _ => True
  end.

#[local] Ltac silent_tac :=
  cbn [fst snd]; repeat match goal with
  | |- Forall _ (_ :: _) => apply Forall_cons; split; [exact I|]
  | |- Forall _ [] => apply Forall_nil_2
  end.

Lemma keeps_bind st r (k : state * outs → res (state * outs)) :
  keeps st r → (∀ st' o, keeps st' (k (st', o))) →
  keeps st (x ← r; y ← k x; Ok (y.1, x.2 ++ y.2)).
Proof.
  intros Hr Hk. destruct r as [[st1 o1]| |]; cbn [mbind res_bind]; [|done..].
  specialize (Hk st1 o1). destruct (k (st1, o1)) as [[st2 o2]| |]; cbn [mbind res_bind fst snd]; [|done..].
  cbn [keeps] in *. rewrite !Forall_app.
  destruct Hr as [[Hp1 Ho1]|Hl]; [|right; by intros [? ?]].
  destruct Hk as [[Hp2 Ho2]|Hl]; [|right; by intros [? ?]].
  left. split; [by etrans|done].
Qed.

Lemma cleanup_pkeep st slot st' o : session_cleanup (A := A) n st slot = Ok (st', o) → pkeep st st'.
Proof.
  unfold session_cleanup. destruct (session_at st slot) as [s| |]; cbn [mbind res_bind]; [|done..].
  case_match; intros [= <- _]; [done|].
  etrans; [|by apply pkeep_sessions]. apply pkeep_update. by intros.
Qed.

Lemma free_keeps st slot : keeps st (on_sess_free (A := A) n st slot).
Proof.
  unfold on_sess_free. destruct (session_at st slot) as [s| |]; cbn [mbind res_bind]; [|done..].
  case_match; [by left; split|].
  destruct (desc_enqueue _ _) as [ok st1] eqn:He.
  assert (Hk : pkeep st st1).
  { eapply pkeep_enqueue; [|exact He]. apply pkeep_update. by intros. }
  destruct ok; [by left; split|]. destruct (session_cleanup n st1 slot) as [[st2 o2]| |]; cbn [mbind res_bind]; [|done..].
  right. intros [Hl _]%Forall_cons. by apply Hl.
Qed.

Lemma close_keeps_proto st fd : keeps st (socket_close (A := A) n st fd).
Proof.
  unfold socket_close. destruct (socket_ctx _ _) as [slot|]; [|by left; split].
  pose proof (free_keeps (st <| lv_sockets := socket_remove (lv_sockets st) fd |>) slot) as H.
  destruct (on_sess_free _ _ _) as [[st' o]| |]; [|done..]. destruct H as [[Hk Ho]|Hl]; [left|by right].
  split; [|done]. etrans; [|exact Hk]. by apply pkeep_sessions.
Qed.

Lemma close_all_keeps st l : keeps st (close_all (A := A) n st l).
Proof.
  revert st. induction l as [|[fd i] l IH]; intros st; cbn [close_all]; [by left; split|].
  apply (keeps_bind st _ (λ x, close_all n x.1 l)); [apply close_keeps_proto|]. intros st' o. apply IH.
Qed.

Lemma ws_frame_pkeep st slot pkt payload now ok st' o :
  ws_frame (A := A) st slot pkt payload now = Ok (ok, st', o) → pkeep st st' ∧ Forall silent o.
Proof.
  unfold ws_frame. destruct (session_at st slot) as [s| |]; cbn [mbind res_bind]; [|done..].
  destruct (negb (lc_active s) || _); [by intros [= _ <- <-]; split|]. destruct pkt as [[len text]|]; [|by intros [= _ <- <-]; split].
  destruct (LOCAL_MAX_FRAME_SIZE <=? len); [by intros [= _ <- <-]; split|].
  destruct text; cbn [negb]; [|by intros [= _ <- <-]; split].
  destruct (local_rate_allow _ _ _) as [allowed rate].
  set (st1 := session_update _ slot st). assert (H1 : pkeep st st1) by (apply pkeep_update; by intros).
  destruct allowed; cbn [negb]; cycle 1.
  - destruct (local_rate_violation_note _ _) as [close rate'].
    assert (H2 : ∀ f, pkeep st1 (session_update (λ s, s <| lc_rate := rate' |>) slot (stats_update f st1))).
    { intros f. etrans; [by apply (pkeep_sessions st1 (stats_update f st1))|]. apply pkeep_update. by intros. }
    case_match; intros [= _ <- <-]; (split; [|done]); (etrans; [exact H1|]); [|apply H2].
    etrans; [|apply pkeep_stats]. apply H2.
  - destruct (local_buffer_acquire _) as [[b pool]|]; [|intros [= _ <- <-]; split; [by etrans|done]].
    destruct payload as [data|];
      [|intros [= _ <- <-]; split; [etrans; [exact H1|by apply pkeep_sessions]|done]].
    destruct (desc_enqueue _ _) as [ok' st2] eqn:He.
    assert (H2 : pkeep st st2).
    { eapply pkeep_enqueue; [|exact He]. etrans; [exact H1|]. etrans; [|apply pkeep_stats].
      etrans; [apply (pkeep_sessions st1 (st1 <| lv_pool := alter (λ f, mk_frame (lf_used f) (take (Z.to_nat len) data)) b pool |>)); done|].
      apply pkeep_update. by intros. }
    destruct ok'; intros [= _ <- <-]; (split; [done|]); silent_tac.
Qed.

Lemma handler_keeps st fd pkt payload now : keeps st (ws_handler_frame (A := A) n st fd pkt payload now).
Proof.
  unfold ws_handler_frame. destruct (socket_ctx _ _) as [slot|]; [|by left; split].
  destruct (ws_frame st slot pkt payload now) as [[[ok st1] o1]| |] eqn:Hw; cbn [mbind res_bind]; [|done..].
  apply ws_frame_pkeep in Hw as [Hk Ho]. destruct ok; [by left; split|].
  pose proof (close_keeps_proto st1 fd) as Hc.
  destruct (socket_close n st1 fd) as [[st2 o2]| |]; cbn [mbind res_bind fst snd]; [|done..].
  cbn [keeps]. rewrite !Forall_app. destruct Hc as [[Hk2 Ho2]|Hl]; [left; split; [by etrans|done]|right; by intros [? ?]].
Qed.

(** ** The protocol hooks *)

Lemma send_sessions (st : state) slot t b : lv_sessions (local_server_session_send st slot t b).2 = lv_sessions st.
Proof.
  unfold local_server_session_send, local_server_send. destruct (lv_sessions st !! slot); [|done]. by repeat case_match.
Qed.
Lemma texts_sessions (st : state) slot texts sends : lv_sessions (send_texts st slot texts sends) = lv_sessions st.
Proof. revert st sends. induction texts as [|t texts IH]; intros; [done|]. cbn. by rewrite IH, send_sessions. Qed.

Lemma session_close_silent (st : state) slot st' o :
  local_server_session_close (A := A) st slot = (st', o) → lv_sessions st' = lv_sessions st ∧ Forall silent o.
Proof.
  unfold local_server_session_close. destruct (lv_sessions st !! slot); [case_match|]; intros [= <- <-]; try by split.
  split; [done|silent_tac].
Qed.

Lemma on_open_proto st slot e sends st' o :
  local_protocol_on_open (A := A) st slot e sends = Ok (st', o) →
  pkeep (session_update (λ s, s <| lc_protocol := (lp_open (A := A) e (lc_protocol s)).1 |>) slot st) st' ∧
  Forall silent o.
Proof.
  unfold local_protocol_on_open, session_at. destruct (lv_sessions st !! slot) as [s|] eqn:Hs; cbn [of_option mbind res_bind]; [|done].
  destruct (lp_open e (lc_protocol s)) as [p hello] eqn:Hp.
  set (st1 := session_update _ slot st).
  assert (H1 : pkeep (session_update (λ s, s <| lc_protocol := (lp_open (A := A) e (lc_protocol s)).1 |>) slot st) st1).
  { intros i s' Hs' Ha. cbn in Hs' |- *. destruct (decide (slot = i)) as [<-|Hi].
    - rewrite list_lookup_alter_eq, Hs in Hs' |- *. injection Hs' as <-. eexists. split; [done|]. cbn in *. by rewrite Hp.
    - rewrite list_lookup_alter_ne in Hs' |- * by done. by exists s'. }
  destruct hello as [t|]; [destruct (local_server_session_send st1 slot t _) as [ok st2] eqn:Hsend|].
  - pose proof (send_sessions st1 slot t (next_send sends)) as H2. rewrite Hsend in H2. cbn [snd] in H2.
    destruct ok; [intros [= <- <-]; split; [etrans; [exact H1|by apply pkeep_sessions]|done]|].
    intros [= Hc]. apply session_close_silent in Hc as [H3 Ho]. split; [|done].
    etrans; [exact H1|]. apply pkeep_sessions. congruence.
  - intros [= Hc]. apply session_close_silent in Hc as [H3 Ho]. split; [|done].
    etrans; [exact H1|]. by apply pkeep_sessions.
Qed.

Lemma on_frame_proto st slot t e sends s st' o :
  lv_sessions st !! slot = Some s →
  local_protocol_on_frame (A := A) st slot t e sends = Ok (st', o) →
  ∃ v p acts o', lp_frame e t (lc_protocol s) = Ok (v, p, acts) ∧
    pkeep (session_update (λ s, s <| lc_protocol := p |>) slot st) st' ∧
    o = (OAct (lc_connection_id s) <$> acts) ++ o' ∧ Forall silent o'.
Proof.
  intros Hs. unfold local_protocol_on_frame, session_at. rewrite Hs. cbn [of_option mbind res_bind].
  destruct (lp_frame e t (lc_protocol s)) as [[[v p] acts]| |] eqn:Hf; cbn [mbind res_bind]; [|done..].
  set (st1 := session_update _ slot st). set (st2 := send_texts st1 slot _ sends).
  set (strikes := u8 _). set (st3 := if v then st2 else session_update _ slot st2).
  assert (H3 : pkeep st1 st3).
  { assert (H2 : pkeep st1 st2) by (apply pkeep_sessions, texts_sessions).
    unfold st3. destruct v; [done|]. etrans; [exact H2|]. apply pkeep_update. by intros. }
  intros H. exists v, p, acts. destruct (_ && (_ <=? _)).
  - destruct (local_server_session_close st3 slot) as [st4 o'] eqn:Hc. injection H as <- <-.
    apply session_close_silent in Hc as [H4 Ho]. exists o'. split_and!; try done.
    etrans; [exact H3|]. by apply pkeep_sessions.
  - exists []. rewrite app_nil_r. case_match; injection H as <- <-; split_and!; try done.
    etrans; [exact H3|]. apply pkeep_update. by intros.
Qed.

Lemma scan_silent hd now (l : list (local_session_t P)) r :
  Forall silent r.2 → Forall silent (foldl (scan_one (A := A) hd now) r l).2.
Proof.
  revert r. induction l as [|s l IH]; intros r Ho; [done|]. cbn [foldl]. apply IH. unfold scan_one.
  case_match; [|done]. cbn [snd]. apply Forall_app. split; [done|silent_tac].
Qed.

(** ** Every step *)

Section step.
Context (st : state) (o : outs) (I : mbox_inv n (view st) (labels o)) (Hf : fresh st).
Context (HR : ∀ c, replays st o c).

Lemma replays_new c : b_ctr (view st) < c → acts_of o c = [].
Proof.
  intros Hc. destruct (fresh_conn n _ _ I c Hc) as (Hk & _). destruct (HR c) as [[_ ?]|[? _]]; done.
Qed.

(** The head of a connection's mail says whether the protocol was opened. *)
Lemma head_opened d q : pending st = d :: q →
  (ld_kind d = DESC_OPEN → calls (labels o) (ld_conn_id d) = []) ∧
  (ld_kind d ≠ DESC_OPEN → calls (labels o) (ld_conn_id d) ≠ []).
Proof.
  intros Hq. destruct (head_delivery n _ _ I d q Hq) as (k & _ & _ & _ & _ & Hd).
  specialize (Hd [] 0 (lv_pool st) 0 [] (same_mail_refl _ _)). unfold mail_of at 1 in Hd.
  destruct Hd as (A0 & A1 & A2 & _ & _ & _ & [(-> & _ & Hm)|(-> & Hm)]).
  - split; [done|]. intros Hk. destruct (ld_kind d); [done|discriminate..].
  - split; [|done]. intros Hk. rewrite Hk in Hm. destruct A2, (k_closing k); discriminate.
Qed.

Lemma keeps_replays r : keeps st r →
  match r with Ok (st', o') => Forall (λ x, ¬ lost x) o' → ∀ c, replays st' (o ++ o') c | _ => True end.
Proof.
  destruct r as [[st' o']| |]; [|done..]. intros [[Hk Ho]|Hl] Hnl c; [|done]. by apply (replays_silent st).
Qed.

Lemma connect_replays fd now :
  match ws_connected (A := A) st fd now with
  | Ok (st', o') => Forall (λ x, ¬ lost x) o' → lv_conn_ctr st + 1 < 4294967296 → ∀ c, replays st' (o ++ o') c
  | _ => True
  end.
Proof.
  unfold ws_connected. destruct (lv_slots st <=? 0).
  { intros _ _ c. apply (replays_silent st); [done|apply pkeep_stats|silent_tac]. }
  destruct (list_find _ _) as [[slot s]|] eqn:Hfind.
  2: { intros _ _ c. apply (replays_silent st); [done|done|silent_tac]. }
  apply list_find_Some in Hfind as (Hs & _ & _).
  destruct (desc_enqueue _ _) as [[] st1] eqn:He.
  2: { intros [_ [Hl _]%Forall_cons]%Forall_cons. by destruct Hl. }
  intros _ Hctr c. pose proof (mi_ctr _ _ _ I) as Hc0. cbn in Hc0. rewrite u32_id in He by (unfold is_u32; lia).
  assert (Hse : lv_sessions st1 = alter (λ s, mk_local P true (lv_conn_ctr st + 1) fd LOCAL_SESSION_CONNECTED now now (lc_protocol s)
    (local_rate_limit_reset now) (lc_json_strikes s)) slot (lv_sessions st)).
  { pose proof (f_equal (λ x, lv_sessions x.2) He) as Hx. cbn [snd] in Hx. rewrite enqueue_sessions in Hx. by rewrite <- Hx. }
  destruct (decide (c = lv_conn_ctr st + 1)) as [->|Hc].
  - left. destruct (fresh_conn n _ _ I (lv_conn_ctr st + 1)) as (Hk & _); [cbn; lia|].
    rewrite calls_labels_app, acts_of_app, Hk, replays_new by (cbn; lia). done.
  - apply (replays_other st); try done. intros i s' Hs' Ha Hcc. rewrite Hse in Hs'.
    destruct (decide (slot = i)) as [<-|Hi].
    + rewrite list_lookup_alter_eq, Hs in Hs'. injection Hs' as <-. cbn in Hcc. lia.
    + rewrite list_lookup_alter_ne in Hs' by done. by exists s'.
Qed.

(** The session of the descriptor the worker holds changes its protocol to [p]. *)
Lemma others_kept d s (g : local_session_t P → P) st' c :
  lv_sessions st !! ld_slot d = Some s → lc_connection_id s = ld_conn_id d → lc_active s = true →
  c ≠ ld_conn_id d → pkeep (session_update (λ s, s <| lc_protocol := g s |>) (ld_slot d) st) st' →
  ∀ i s', lv_sessions st' !! i = Some s' → lc_active s' = true → lc_connection_id s' = c →
     ∃ s, lv_sessions st !! i = Some s ∧ lc_active s = true ∧ lc_connection_id s = c ∧ lc_protocol s = lc_protocol s'.
Proof.
  intros Hs Hc Ha Hne Hk i s' Hs' Ha' Hcc. destruct (Hk i s' Hs' Ha') as (s1 & Hs1 & Ha1 & Hc1 & Hp1). cbn in Hs1.
  destruct (decide (ld_slot d = i)) as [<-|Hi].
  - rewrite list_lookup_alter_eq, Hs in Hs1. injection Hs1 as <-. cbn in Hc1. congruence.
  - rewrite list_lookup_alter_ne in Hs1 by done. exists s1. split_and!; congruence.
Qed.

Lemma holder_protocol d s p st' :
  lv_sessions st !! ld_slot d = Some s → lc_connection_id s = ld_conn_id d → lc_active s = true →
  pkeep (session_update (λ s, s <| lc_protocol := p s |>) (ld_slot d) st) st' →
  ∀ i s', lv_sessions st' !! i = Some s' → lc_active s' = true → lc_connection_id s' = ld_conn_id d → lc_protocol s' = p s.
Proof.
  intros Hs Hc Ha Hk i s' Hs' Ha' Hcc. destruct (Hk i s' Hs' Ha') as (s1 & Hs1 & Ha1 & Hc1 & Hp1). cbn in Hs1.
  destruct (decide (ld_slot d = i)) as [<-|Hi].
  - rewrite list_lookup_alter_eq, Hs in Hs1. injection Hs1 as <-. by cbn in Hp1.
  - rewrite list_lookup_alter_ne in Hs1 by done. destruct Hi.
    apply (mi_inj _ _ _ I (ld_slot d) i (core_of s) (core_of s1)); [by apply view_session..|done|done|].
    cbn. congruence.
Qed.

Lemma acts_for c c' acts : acts_of (OAct c' <$> acts) c = if c' =? c then acts else [].
Proof.
  unfold acts_of. induction acts as [|a acts IH]; cbn; [by destruct (c' =? c)|].
  rewrite IH. by destruct (c' =? c).
Qed.
Lemma calls_acts c c' acts : calls (labels (OAct c' <$> acts : outs)) c = [].
Proof. by destruct (acts_quiet c' acts) as [-> _]. Qed.

Lemma done_open_replays d e sends st1 o1 :
  env_ok e → lv_worker st = Some (d, false) → ld_kind d = DESC_OPEN →
  local_protocol_on_open (A := A) st (ld_slot d) e sends = Ok (st1, o1) →
  ∀ c, replays st1 (o ++ OCall (ld_conn_id d) MOpen :: o1) c.
Proof.
  intros He Hw Hkind Hopen c. apply on_open_proto in Hopen as [Hk Ho].
  destruct (worker_session n st _ I d Hw) as (s & Hs & Ha & Hc).
  destruct (silent_calls o1 c Ho) as [H1 H2]. destruct (decide (c = ld_conn_id d)) as [->|Hne].
  - right. destruct (head_opened d (lv_rxq st) (worker_pend st d Hw)) as [Hno _]. specialize (Hno Hkind).
    assert (Hacts : acts_of o (ld_conn_id d) = []) by (destruct (HR (ld_conn_id d)) as [[_ ?]|[? _]]; done).
    split.
    { rewrite calls_labels_app, Hno. cbn. by rewrite Z.eqb_refl. }
    exists e, (lc_protocol s), [], (lp_open (A := A) e (lc_protocol s)).1.
    rewrite texts_of_app, acts_of_app, Hacts. split_and!; [exact He|..].
    + unfold texts_of. rewrite Hno. cbn. rewrite Z.eqb_refl. cbn.
      change (omap (label_call (ld_conn_id d)) (omap label_of o1)) with (calls (labels o1) (ld_conn_id d)).
      by rewrite H1.
    + cbn. change (omap _ o1) with (acts_of o1 (ld_conn_id d)). by rewrite H2.
    + by apply (holder_protocol d s (λ s, (lp_open (A := A) e (lc_protocol s)).1)).
  - apply (replays_other st); [done| | |by apply (others_kept d s _ st1 c Hs Hc Ha Hne Hk)].
    + cbn. destruct (Z.eqb_spec (ld_conn_id d) c); [done|].
      by change (omap (label_call c) (omap label_of o1)) with (calls (labels o1) c).
    + done.
Qed.

Lemma done_frame_replays d e sends st1 o1 t :
  lv_worker st = Some (d, false) → ld_kind d = DESC_FRAME →
  local_protocol_on_frame (A := A) st (ld_slot d) t e sends = Ok (st1, o1) →
  ∀ c, replays st1 (o ++ OCall (ld_conn_id d) (MFrame t) :: o1) c.
Proof.
  intros Hw Hkind Hframe c. destruct (worker_session n st _ I d Hw) as (s & Hs & Ha & Hc).
  destruct (on_frame_proto _ _ _ _ _ s _ _ Hs Hframe) as (v & p & acts & o2 & Hf1 & Hk & -> & Ho).
  destruct (silent_calls o2 c Ho) as [H1 H2]. rewrite Hc.
  assert (Hcalls : calls (labels ((OAct (ld_conn_id d) <$> acts) ++ o2)) c = []).
  { by rewrite calls_labels_app, calls_acts, H1. }
  assert (Hacts : acts_of ((OAct (ld_conn_id d) <$> acts) ++ o2) c = if ld_conn_id d =? c then acts else []).
  { by rewrite acts_of_app, acts_for, H2, app_nil_r. }
  destruct (decide (c = ld_conn_id d)) as [->|Hne].
  - right. rewrite Z.eqb_refl in Hacts.
    destruct (head_opened d (lv_rxq st) (worker_pend st d Hw)) as [_ Hyes].
    specialize (Hyes ltac:(congruence)).
    destruct (HR (ld_conn_id d)) as [[? _]|(_ & e0 & p0 & fs & q & He0 & Hfs & Hr & Hq)]; [done|].
    rewrite (Hq (ld_slot d) s Hs Ha Hc) in Hf1. split.
    { rewrite calls_labels_app. intros [? _]%app_eq_nil. done. }
    exists e0, p0, (fs ++ [(e, t)]), p. split_and!; [exact He0|..].
    + rewrite fmap_app, Hfs, texts_of_app. f_equal. unfold texts_of. cbn. rewrite Z.eqb_refl. cbn. f_equal.
      change (omap (label_call (ld_conn_id d)) (omap label_of (?a))) with (calls (labels a) (ld_conn_id d)).
      cbn in Hcalls. by rewrite Hcalls.
    + rewrite acts_of_app. change (acts_of (OCall _ _ :: ?x) _) with (acts_of x (ld_conn_id d)).
      rewrite Hacts. by eapply replay_snoc.
    + by apply (holder_protocol d s (λ _, p)).
  - apply (replays_other st); [done| | |by apply (others_kept d s (λ _, p) st1 c Hs Hc Ha Hne Hk)].
    + cbn. destruct (Z.eqb_spec (ld_conn_id d) c); [done|]. exact Hcalls.
    + change (acts_of (OCall _ _ :: ?x) _) with (acts_of x c). rewrite Hacts.
      by destruct (Z.eqb_spec (ld_conn_id d) c).
Qed.

Lemma replays_sessions st1 st2 o1 c : lv_sessions st2 = lv_sessions st1 → replays st1 o1 c → replays st2 o1 c.
Proof.
  intros Hs. unfold replays. intros [H|(Hne & e & p0 & fs & p & He & Hfs & Hr & Hq)]; [by left|right].
  split; [done|]. exists e, p0, fs, p. split_and!; try done. intros i s. rewrite Hs. apply Hq.
Qed.

Lemma done_replays e sends :
  env_ok e →
  match worker_done (A := A) n st e sends with Ok (st', o') => ∀ c, replays st' (o ++ o') c | _ => True end.
Proof.
  intros He. unfold worker_done. destruct (lv_worker st) as [[d b]|] eqn:Hw.
  2: { intros c. by apply (replays_silent st). }
  pose proof (Hf d b Hw) as ->. destruct (worker_session n st _ I d Hw) as (s & Hs & Ha & Hc).
  unfold worker_process, session_at. rewrite Hs. cbn [of_option mbind res_bind].
  destruct (ld_kind d) eqn:Hkind.
  - destruct (local_protocol_on_open st (ld_slot d) e sends) as [[st1 o1]| |] eqn:Hopen; cbn [mbind res_bind fst snd]; [|done..].
    intros c. rewrite Hc. eapply replays_sessions; [|by eapply done_open_replays]. done.
  - destruct (negb false && _).
    + destruct (ld_frame d) as [fr|]; cbn [of_option mbind res_bind]; [|done].
      destruct (lv_pool st !! fr) as [f|]; cbn [of_option mbind res_bind]; [|done].
      destruct (local_protocol_on_frame st (ld_slot d) _ e sends) as [[st1 o1]| |] eqn:Hfr; cbn [mbind res_bind fst snd]; [|done..].
      intros c. rewrite Hc. eapply replays_sessions; [|by eapply done_frame_replays]. done.
    + cbn [mbind res_bind fst snd]. intros c. apply (replays_silent st); [done| |done]. by apply pkeep_sessions.
  - destruct (session_cleanup n st (ld_slot d)) as [[st1 o1]| |] eqn:Hcl; cbn [mbind res_bind fst snd]; [|done..].
    pose proof (cleanup_pkeep _ _ _ _ Hcl) as Hk.
    unfold session_cleanup, session_at in Hcl. rewrite Hs in Hcl. cbn [of_option mbind res_bind] in Hcl.
    rewrite Ha in Hcl. injection Hcl as <- <-. intros c. rewrite Hc.
    eapply replays_sessions; [reflexivity|].
    destruct (decide (c = ld_conn_id d)) as [->|Hne].
    + destruct (head_opened d (lv_rxq st) (worker_pend st d Hw)) as [_ Hyes]. specialize (Hyes ltac:(congruence)).
      destruct (HR (ld_conn_id d)) as [[? _]|(_ & e0 & p0 & fs & q & He0 & Hfs & Hr & Hq)]; [done|right].
      split; [rewrite calls_labels_app; by intros [? _]%app_eq_nil|].
      exists e0, p0, fs, q. rewrite texts_of_app, acts_of_app. split_and!; [exact He0|..].
      * rewrite Hfs. unfold texts_of at 3. cbn. rewrite Z.eqb_refl. cbn. by rewrite app_nil_r.
      * cbn. by rewrite app_nil_r.
      * intros i s' Hs' Ha' Hcc. destruct (Hk i s' Hs' Ha') as (s1 & Hs1 & Ha1 & Hc1 & Hp1).
        rewrite <- Hp1. apply (Hq i s1 Hs1 Ha1). congruence.
    + apply (replays_other st); [done| |done|].
      * cbn. by destruct (Z.eqb_spec (ld_conn_id d) c).
      * intros i s' Hs' Ha' Hcc. destruct (Hk i s' Hs' Ha') as (s1 & Hs1 & Ha1 & Hc1 & Hp1).
        exists s1. split_and!; congruence.
Qed.

(** The answer of the environment that an event carries. *)
Definition event_env (ev : @local_event E) : option E := match ev with LDone e _ => Some e | _ => None end.

Lemma step_replays ev : (n <= 2)%nat → (∀ e, event_env ev = Some e → env_ok e) → lv_conn_ctr st + 1 < 4294967296 →
  match local_step (A := A) n st ev with Ok (st', o') => ∀ c, replays st' (o ++ o') c | _ => True end.
Proof.
  intros Hn Hev Hctr. pose proof (local_step_refines n st _ ev Hn I Hf Hctr) as Hr.
  assert (Hkeep : ∀ r, keeps st r → refines n st 1 r →
    match r with Ok (st', o') => ∀ c, replays st' (o ++ o') c | _ => True end).
  { intros r Hk Hr'. pose proof (keeps_replays r Hk) as H. destruct r as [[st' o']| |]; [|done..].
    destruct Hr' as (_ & _ & Hnl & _). by apply H. }
  destruct ev as [fd now|fd pkt payload now|fd|run| |e sends|now|tls started| |]; cbn [local_step] in *.
  - destruct (_ || _); [refine (Hkeep _ _ Hr); by left|]. pose proof (connect_replays fd now) as H'.
    destruct (ws_connected st fd now) as [[st' o']| |]; [|done..]. destruct Hr as (_ & _ & Hnl & _). by apply H'.
  - refine (Hkeep _ _ Hr). case_match; [by left|apply handler_keeps].
  - refine (Hkeep _ _ Hr). case_match; [by left|apply close_keeps_proto].
  - refine (Hkeep _ _ Hr). case_match; [by left|]. left. split; [by apply pkeep_sessions|].
    destruct (run && lv_httpd st); [|done]. unfold tx_work. case_match; [silent_tac|done].
  - refine (Hkeep _ _ Hr). unfold worker_take. destruct (lv_worker st); [by left|].
    destruct (lv_rxq st) as [|d q]; [by left|]. destruct (session_at st (ld_slot d)); cbn [mbind res_bind]; [|done..].
    left. split; [by apply pkeep_sessions|done].
  - by apply done_replays, Hev.
  - refine (Hkeep _ _ Hr). case_match; [|by left]. left. split; [by apply pkeep_sessions|].
    by apply scan_silent.
  - refine (Hkeep _ _ Hr). left. split; [|done]. apply pkeep_sessions. unfold server_start. by case_match.
  - refine (Hkeep _ _ Hr). left. split; [|done]. by apply pkeep_sessions.
  - refine (Hkeep _ _ Hr). unfold server_stop_end. case_match; [by left|].
    pose proof (close_all_keeps st (lv_sockets st)) as Hc. destruct (close_all n st (lv_sockets st)) as [[st' o']| |]; cbn [mbind res_bind]; [|done..].
    destruct Hc as [[Hk Ho]|Hl]; [left|by right]. split; [|done]. etrans; [exact Hk|]. by apply pkeep_sessions.
Qed.
End step.

Lemma run_replays st o evs :
  (n <= 2)%nat → Forall env_ok (omap event_env evs) →
  mbox_inv n (view st) (labels o) → fresh st → lv_conn_ctr st + zlen evs < 4294967296 →
  (∀ c, replays st o c) →
  match local_run (A := A) n st evs with Ok (st', o') => ∀ c, replays st' (o ++ o') c | _ => True end.
Proof.
  intros Hn. revert st o. induction evs as [|ev evs IH]; intros st o Hev I Hf Hctr HR; cbn [local_run].
  - by rewrite app_nil_r.
  - rewrite zlen_cons in Hctr. pose proof (zlen_nonneg evs).
    assert (Hev1 : ∀ e, event_env ev = Some e → env_ok e).
    { intros e He. rewrite Forall_forall in Hev. apply Hev. apply list_elem_of_omap. exists ev. by split; [left|]. }
    assert (Hev2 : Forall env_ok (omap event_env evs)).
    { cbn in Hev. destruct (event_env ev); [by apply Forall_cons in Hev as [_ ?]|done]. }
    pose proof (step_replays st o I Hf HR ev Hn Hev1 ltac:(lia)) as HS.
    pose proof (local_step_refines n st _ ev Hn I Hf ltac:(lia)) as Hr.
    destruct (local_step n st ev) as [[st1 o1]| |]; cbn [mbind res_bind fst snd]; [|done..].
    destruct Hr as (Hs & Hf1 & _ & Hc1).
    assert (I1 : mbox_inv n (view st1) (labels (o ++ o1))).
    { unfold labels. rewrite omap_app. by eapply msteps_inv. }
    specialize (IH st1 (o ++ o1) Hev2 I1 Hf1 ltac:(lia) HS).
    destruct (local_run n st1 evs) as [[st2 o2]| |]; cbn [mbind res_bind fst snd]; [|done..].
    by rewrite app_assoc.
Qed.

End replay.

(** What a run of the server does for one connection is a run of the protocol: it is
    opened, with an answer of the environment that the run carries, and then handles
    the connection's texts. *)
Lemma connection_replays {P E A : Type} `{!LocalProto P E A} n evs st o c :
  (n <= 2)%nat → zlen evs < 4294967296 →
  local_run (A := A) n (local_server_zero (E := E) (A := A) n) evs = Ok (st, o) →
  acts_of o c = [] ∨
  ∃ e p0 fs p, e ∈ omap event_env evs ∧ fs.*2 = texts_of o c ∧
    replay (lp_open (A := A) e p0).1 fs = Ok (p, acts_of o c).
Proof.
  intros Hn Hlen Hrun. destruct (zero_inv (E := E) (A := A) n) as [I Hf].
  pose proof (run_replays n (λ e, e ∈ omap event_env evs) (local_server_zero (E := E) (A := A) n) [] evs Hn
    ltac:(by apply Forall_forall) I Hf Hlen) as H.
  rewrite Hrun in H. destruct (H ltac:(by left) c) as [[_ ?]|(_ & e & p0 & fs & p & ? & ? & ? & _)]; [by left|right].
  by exists e, p0, fs, p.
Qed.
