(* ===== verification/LocalProtocolProps.v ===== *)
(** * The local server with its protocol

    The theorems of LocalServerProps and LocalReplay for the protocol the firmware
    runs: [local_control_is_authentic] composes them with the session's own
    guarantee; [unsigned_read_discloses] is what that does not cover.
    [third_client_crashes] shows what the build option of more than two clients
    leads to, [reply_crosses_connections] what the queue of frames to send does not
    check. *)

From Stdlib Require Import SpecFloat Sorted.
From S2P Require Import Prelude Bytes Float32 Float64 FpAuth FpSession DpCatalog Datapoints DpProps TaskCom.
From S2P Require Import LocalServer LocalProtocol LocalMailbox LocalServerProps LocalReplay.
Local Open Scope string_scope.
Local Open Scope list_scope.
Local Open Scope Z_scope.

(** ** One message of a local session *)

(** What belongs to the cloud session: its ready event, its updates, its change
    reports. *)
Definition isolated (a : fp_action) : Prop :=
  match a with AReady | AOta _ | AFillChanges => False | _ => True end.

Section message.
Variable alloc : Z → option (list Z).
Variable sha256 : list Z → list Z.
Variable hmac : list Z → list Z → list Z.
Variable base64 : list Z → option (list Z).
Variable cfg : fp_config_t.
Context (Hready : fc_on_ready cfg = false) (Hota : fc_on_ota cfg = false).

Lemma isolated_send m : Forall isolated (send_msg m).
Proof. destruct m; repeat constructor. Qed.

Lemma report_local s irt names now : Forall isolated (dp_report_send_names cfg s irt names now).2.
Proof.
  unfold dp_report_send_names. cbn [snd]. apply Forall_app. split; [|apply isolated_send].
  destruct (fc_fill_snapshot cfg); by repeat constructor.
Qed.

Lemma hello_ack_local s m now r :
  handle_hello_ack alloc sha256 hmac base64 cfg s m now = Ok r → Forall isolated r.2.
Proof.
  unfold handle_hello_ack, ota_check_send, sign_c2s. intros H.
  assert (Hid : Ok (s, []) = Ok r → Forall isolated r.2) by (by intros [= <-]).
  destruct (get_item m "accepted") as [[|[]| | | |]|]; try (by apply Hid).
  destruct (str_of m "server_nonce"), (str_of m "auth_kid"); try (by apply Hid).
  destruct (fp_envelope_build _ _ _ _ _ _) as [msg|]; [|by injection H as <-].
  destruct (fp_auth_message_sign _ _ _ _ _ _ _ _) as [q| |]; cbn [mbind res_bind] in H; try done.
  injection H as <-. apply isolated_send.
Qed.

(** The handlers that verify first. *)
Ltac verified_local :=
  match goal with |- (_ ← verify_s2c _ _ _ _ _ ?s ?m; _) = Ok _ → _ =>
    destruct (verify_s2c _ _ _ _ _ s m) as [[[] ?]| |]; cbn [mbind res_bind fst snd negb]; [| |done..];
    repeat match goal with |- context [number_of ?a ?b ?c ?d] => destruct (number_of a b c d); cbn [mbind res_bind]; [|done..] end;
    intros [= <-]; cbn [snd andb]
  end.
Ltac isolate :=
  unfold reply; repeat first [apply isolated_send | apply Forall_app_2 | case_match | apply Forall_nil_2
                             | apply Forall_cons_2; [exact I|]].

Lemma message_local s m now r :
  fp_session_message_handle alloc sha256 hmac base64 cfg s m now = Ok r → Forall isolated r.2.
Proof.
  unfold fp_session_message_handle. destruct m as [m|]; [|by intros [= <-]].
  destruct (fp_envelope_type m) as [[]|]; try (by intros [= <-]); try apply hello_ack_local;
    try (intros [= <-]; apply report_local); try (destruct (ss_running s); [|by intros [= <-]]);
    unfold handle_command, handle_dp_write, handle_log_read, handle_history_read, handle_log_ack_prev;
    rewrite ?Hready, ?Hota, ?andb_false_r; try (by intros [= <-]); try verified_local;
    isolate.
Qed.
End message.

(** ** A connection *)

Section connection.
Variable alloc : Z → option (list Z).
Variable sha256 : list Z → list Z.
Variable hmac : list Z → list Z → list Z.
Variable base64 : list Z → option (list Z).
Variable parse : list Z → option cjson.
Variable print : cjson → list Z.
Variable id : local_identity.
Variable cb : local_callbacks.

#[local] Abbreviation cfg := (local_cfg_get id cb).
#[local] Instance proto : LocalProto local_fp local_env fp_action :=
  local_proto alloc sha256 hmac base64 parse print cfg.

(** The hello of a connection, and what the session was made to do since. *)
Definition local_hello (e : local_env) : list fp_action :=
  (fp_session_hello_send base64 cfg (fp_session_reset fp_session_init) (le_nonce e) (le_now e)).2.
Definition local_steps (e : local_env) (fs : list (local_env * list Z)) (actss : list (list fp_action))
    : list (fp_event * list fp_action) :=
  (EHello (le_nonce e) (le_now e), local_hello e) ::
  zip_with (λ f acts, (EMessage (parse f.2) (le_now f.1), acts)) fs actss.

(** The protocol on a list of texts, text by text. *)
Lemma replay_local p fs q acts :
  replay p fs = Ok (q, acts) →
  Forall isolated acts ∧
  ∃ actss, length actss = length fs ∧ acts = mjoin actss ∧
    control_steps alloc sha256 hmac base64 cfg (conn_of (lf_session p)) (ss_replay_s2c (lf_session p))
      (zip_with (λ f acts, (EMessage (parse f.2) (le_now f.1), acts)) fs actss).
Proof.
  revert p acts. induction fs as [|[e t] fs IH]; intros p acts Hr; cbn [replay] in Hr.
  { injection Hr as _ <-. split; [constructor|]. by exists []. }
  destruct (lp_frame e t p) as [[[v p1] a1]| |] eqn:Hf; cbn [mbind res_bind fst snd] in Hr; [|done..].
  destruct (replay p1 fs) as [[q1 a2]| |] eqn:Hr1; cbn [mbind res_bind fst snd] in Hr; [|done..].
  injection Hr as -> <-. destruct (IH p1 a2 Hr1) as (Hi & actss & Hlen & -> & Hs). clear IH Hr1.
  cbn in Hf. unfold local_message in Hf. destruct (_ && _); [done|].
  destruct (fp_session_message_handle _ _ _ _ _ _ _ _) as [[s1 acts1]| |] eqn:Hm; cbn [mbind res_bind] in Hf; [|done..].
  injection Hf as _ <- <-. cbn [fst snd lf_session] in *. split.
  - apply Forall_app. split; [|done]. exact (message_local _ _ _ _ cfg eq_refl eq_refl _ _ _ _ Hm).
  - exists (acts1 :: actss). split_and!; [cbn; by rewrite Hlen|done|]. cbn [zip_with fst snd].
    exact (control_step_ok _ _ _ _ _ _ (EMessage (parse t) (le_now e)) _ _ _ Hm Hs).
Qed.

(** C28: What a local client makes the device do, it was allowed to.  With one or two
    local clients, whatever all of them send and however their connections overlap:
    what the device does for a connection is its hello, with the random bytes of one
    open, and the handling of the connection's texts in order; each text leads to at
    most one call that changes something or discloses logs or history, and then the
    text's message verifies under the device's key, the nonce of that very hello and
    the nonce and key id of the last accepted hello_ack of the connection, operation
    has been started, and its sequence number is above those of the earlier ones; and
    no connection ever triggers what belongs to the cloud session (its ready event, an
    update, the change reports).  Datapoint reads need no authentication
    ([unsigned_read_discloses]). *)
Theorem local_control_is_authentic n evs st o c :
  (n <= 2)%nat → zlen evs < 4294967296 →
  local_run n (local_server_zero n) evs = Ok (st, o) →
  Forall isolated (acts_of o c) ∧
  (acts_of o c = [] ∨
   ∃ e fs actss,
     e ∈ omap event_env evs ∧ fs.*2 = texts_of o c ∧ length actss = length fs ∧ acts_of o c = mjoin actss ∧
     control_steps alloc sha256 hmac base64 cfg conn_new fp_replay_reset (local_steps e fs actss)).
Proof.
  intros Hn Hlen Hrun. destruct (connection_replays n evs st o c Hn Hlen Hrun) as [->|(e & p0 & fs & p & He & Hfs & Hr)].
  { split; [constructor|by left]. }
  destruct (replay_local _ _ _ _ Hr) as (Hi & actss & Hl & Ha & Hs). split; [done|right].
  exists e, fs, actss. split_and!; [done..|].
  eapply (control_step_ok _ _ _ _ _ (fp_session_reset fp_session_init)); [|exact Hs].
  cbn [fp_step]. f_equal. apply surjective_pairing.
Qed.
End connection.

(** ** Concrete runs *)

Definition toy_parse (t : list Z) : option cjson :=
  match t with
  | [1] => Some example_ack
  | [2] => Some (CObject (add_string "type" (cstr "ota_none")))
  | [3] => example_command 4
  | [4] => example_command 9
  | _ => None
  end.

(** What tells two hellos apart. *)
Definition toy_print (m : cjson) : list Z := default [] (str_of m "client_nonce").

Definition toy_identity : local_identity :=
  mk_local_identity (cstr "esp32-1") 1 (cstr "1") [1; 2; 3] None (cstr "1.0.0").
Definition toy_callbacks : local_callbacks :=
  mk_local_callbacks (λ _, []) (λ _, []) (λ _, add_string "status" (cstr "applied")) (λ _ _ _ _, []) (λ _, true)
    (λ _ _, []).

#[local] Instance toy_proto : LocalProto local_fp local_env fp_action :=
  local_proto zero_heap toy_hash toy_hmac toy_base64 toy_parse toy_print (local_cfg_get toy_identity toy_callbacks).

Definition toy_env : local_env := mk_local_env example_nonce 0.
Definition worker : list (@local_event local_env) := [LTake; LDone toy_env []].
Definition sends (fd t : Z) : list (@local_event local_env) := [LFrame fd (Some (1, true)) (Some [t]) 0].

(** A client that says hello, starts, sends one command twice and another once. *)
Definition one_client : list (@local_event local_env) :=
  [LWlanConnected true true; LConnect 10 0] ++ worker ++ sends 10 1 ++ worker ++ sends 10 2 ++ worker ++
  sends 10 3 ++ sends 10 3 ++ sends 10 4 ++ worker ++ worker ++ worker.

Definition outputs (n : nat) (evs : list local_event) : option (list (local_out fp_action)) :=
  match local_run n (local_server_zero n) evs with Ok (_, o) => Some o | _ => None end.

Example one_client_commands :
  (λ o, seq_of <$> (fst <$> control_calls (acts_of o 1))) <$> outputs 1 one_client = Some [4; 9].
Proof. vm_compute. reflexivity. Qed.

(** A client that has only connected asks for the Wi-Fi password, unsigned and before
    its hello is acknowledged, and gets it. *)
Definition ask_password : cjson :=
  CObject (add_string "type" (cstr "dp_read") ++ member "names" (CArray [CString (cstr "Network_Password")])).

Definition provisioned_callbacks : local_callbacks :=
  mk_local_callbacks
    (λ names,
       match dp_ref_set default_image "Network_Password" (cstr "sesame" ++ replicate 58 0) with
       | Ok img => match cb_local_fill_snapshot (mk_dp img [] 0 0) 0 0 0 names with Ok (r, _) => r | _ => [] end
       | _ => []
       end)
    (λ _, []) (λ _, []) (λ _ _ _ _, []) (λ _, true) (λ _ _, []).

Example unsigned_read_discloses :
  match fp_session_message_handle zero_heap toy_hash toy_hmac toy_base64 (local_cfg_get toy_identity provisioned_callbacks)
          (fp_session_reset fp_session_init) (Some ask_password) 0 with
  | Ok (s, [AFillSnapshot _; ASend reply]) =>
      ss_negotiated s = false ∧
      (dp ← get_item reply "dp"; get_item dp "Network_Password") = Some (CString (cstr "sesame"))
  | _ => False
  end.
Proof. vm_compute. split; reflexivity. Qed.

(** With three clients: two of them fill the descriptor queue while the worker is
    busy, the third connects and then says that there is no update. *)
Definition three_clients : list (@local_event local_env) :=
  [LWlanConnected true true; LConnect 10 0; LConnect 11 0] ++
  sends 10 3 ++ sends 10 3 ++ sends 10 3 ++ sends 10 3 ++ [LSocketEnd 10; LSocketEnd 11; LConnect 12 0] ++
  mjoin (replicate 8 worker) ++ sends 12 2 ++ worker.

(** A build with three clients can be crashed by them.  The queue of eight
    descriptors holds two opens, four frames and two closes; the open of the third
    connection is lost, so its session is never initialised, and its first message
    that needs the configuration goes through a null pointer.  With two clients
    the third is refused and the same sequence is harmless. *)
Theorem third_client_crashes :
  local_run 3 (local_server_zero 3) three_clients = OutOfBounds ∧
  (∃ o, outputs 3 (take 10 three_clients) = Some o ∧ OLost DESC_OPEN 3 ∈ o) ∧
  (∃ o, outputs 2 three_clients = Some o ∧ ORejected 12 ∈ o).
Proof.
  split; [vm_compute; reflexivity|]. split; eexists; (split; [vm_compute; reflexivity|]);
    apply list_elem_of_In; vm_compute; tauto.
Qed.

(** A reply waits in the HTTP server's queue while its connection ends and another
    one gets the same socket number. *)
Definition socket_reused : list (@local_event local_env) :=
  [LWlanConnected true true; LConnect 10 0] ++ worker ++ [LSocketEnd 10] ++ worker ++ [LConnect 10 0; LTxWork true].

Example reply_crosses_connections :
  outputs 1 socket_reused =
  Some [OOpened 1 10; OCall 1 MOpen; OCall 1 MClose; OOpened 2 10;
        OSent 10 (field_copy 32 (default [] (toy_base64 example_nonce)))].
Proof. vm_compute. reflexivity. Qed.

Lemma local_control_is_authentic_witness :
  zlen one_client < 4294967296 ∧
  match local_run 1 (local_server_zero 1) one_client with
  | Ok (st, o) =>
      Forall isolated (acts_of o 1) ∧
      (acts_of o 1 = [] ∨
       ∃ e fs actss,
         e ∈ omap event_env one_client ∧ fs.*2 = texts_of o 1 ∧ length actss = length fs ∧ acts_of o 1 = mjoin actss ∧
         control_steps zero_heap toy_hash toy_hmac toy_base64 (local_cfg_get toy_identity toy_callbacks) conn_new
           fp_replay_reset (local_steps toy_base64 toy_parse toy_identity toy_callbacks e fs actss))
  | _ => False
  end.
Proof.
  split; [vm_compute; reflexivity|].
  destruct (local_run 1 (local_server_zero 1) one_client) as [[st o]| |] eqn:Hrun.
  - apply (local_control_is_authentic zero_heap toy_hash toy_hmac toy_base64 toy_parse toy_print toy_identity
             toy_callbacks 1 one_client st o 1); [lia|vm_compute; reflexivity|exact Hrun].
  - vm_compute in Hrun. discriminate.
  - vm_compute in Hrun. discriminate.
Defined.
