(* ===== verification/EventManager.v ===== *)
(** * The event manager: [components/event_manager/]

    Models src/src/components/event_manager: publishing (validation, copy into the
    queue), the subscriber lists, and the dispatch task.  The publishers, the
    subscribers and the dispatch task interleave: a run is a sequence of their
    operations, with the dispatch split into taking an event (which copies the
    subscriber list) and each call.  What a callback does to the manager is one of
    the operations between its call and the next.

    [delivered_exactly_once] is the contract the rest of the firmware relies on. *)

From S2P Require Import Prelude Bytes.
Local Open Scope list_scope.
Local Open Scope Z_scope.

Definition EVENT_MANAGER_QUEUE_LENGTH : nat := 16.
Definition EVENT_MANAGER_MAX_SUBSCRIBERS : nat := 8.
Definition EVENT_MANAGER_MAX_PAYLOAD_SIZE : Z := 64.

(** [system_event_t]: the events are numbered from [EVENT_NONE] to [EVENT_MAX]. *)
Definition EVENT_NONE : Z := 0.
Definition EVT_SYSTEM_BOOT : Z := 1.
Definition EVT_WLAN_CONNECTED : Z := 3.
Definition EVT_WLAN_DISCONNECTED : Z := 4.
Definition EVT_MONITOR_TICK : Z := 31.
Definition EVENT_MAX : Z := 33.

Definition event_valid (e : Z) : bool := (EVENT_NONE <? e) && (e <? EVENT_MAX).

Inductive em_err := EM_OK | EM_NO_MEM | EM_INVALID_STATE | EM_INVALID_ARG | EM_INVALID_SIZE | EM_TIMEOUT | EM_NOT_FOUND.

#[export] Instance em_err_eq_dec : EqDecision em_err.
Proof. solve_decision. Defined.

Record event_message_t := mk_event { ev_type : Z; ev_data : list Z; ev_timestamp_ms : Z }.

(** [C]: the callbacks, that is, function pointers; a null pointer is [None]. *)
Record subscriber_list_t {C : Type} := mk_subs { su_cb : list (option C); su_count : nat }.
Arguments subscriber_list_t C : clear implicits.

(** [em_calls]: the calls the dispatch task still has to make for the event it took. *)
Record event_manager {C : Type} := mk_em {
  em_inited : bool;
  em_started : bool;
  em_queue : list event_message_t;
  em_subs : list (subscriber_list_t C);
  em_drops : Z;
  em_calls : list (C * event_message_t)
}.
Arguments event_manager C : clear implicits.
#[export] Instance eta_event_manager {C} : Eta (event_manager C) := λ r, mk_em C
      (em_inited r) (em_started r) (em_queue r) (em_subs r) (em_drops r) (em_calls r).
#[export] Instance set_em_inited {C} : Setter (@em_inited C). Proof. mk_setter. Defined.
#[export] Instance set_em_started {C} : Setter (@em_started C). Proof. mk_setter. Defined.
#[export] Instance set_em_queue {C} : Setter (@em_queue C). Proof. mk_setter. Defined.
#[export] Instance set_em_subs {C} : Setter (@em_subs C). Proof. mk_setter. Defined.
#[export] Instance set_em_drops {C} : Setter (@em_drops C). Proof. mk_setter. Defined.
#[export] Instance set_em_calls {C} : Setter (@em_calls C). Proof. mk_setter. Defined.

Section event_manager.
Context {C : Type} `{EqDecision C}.
#[local] Abbreviation state := (event_manager C).

Definition subs_zero : subscriber_list_t C := mk_subs C (replicate EVENT_MANAGER_MAX_SUBSCRIBERS None) 0.
Definition em_zero : state :=
  mk_em C false false [] (replicate (Z.to_nat EVENT_MAX) subs_zero) 0 [].

(** ** Start-up *)

(** [queue], [mutex]: their creation succeeds. *)
Definition event_manager_init (s : state) (queue mutex : bool) : em_err * state :=
  if em_inited s then (EM_OK, s) else
  let s := s <| em_subs := replicate (Z.to_nat EVENT_MAX) subs_zero |> in
  if negb queue then (EM_NO_MEM, s) else
  if negb mutex then (EM_NO_MEM, s) else
  (EM_OK, s <| em_inited := true |> <| em_queue := [] |>).

Definition event_manager_start (s : state) (created : bool) : em_err * state :=
  if negb (em_inited s) then (EM_INVALID_STATE, s) else
  if em_started s then (EM_OK, s) else
  if negb created then (EM_NO_MEM, s) else (EM_OK, s <| em_started := true |>).

(** ** Publishing *)

(** [data]: what the pointer points to, [None] for a null pointer. *)
Definition message_prepare (s : state) (e : Z) (data : option (list Z)) (size now : Z)
    : res (em_err + event_message_t) :=
  if negb (em_inited s) then Ok (inl EM_INVALID_STATE) else
  if negb (event_valid e) then Ok (inl EM_INVALID_ARG) else
  if EVENT_MANAGER_MAX_PAYLOAD_SIZE <? size then Ok (inl EM_INVALID_SIZE) else
  match data with
  | None => if 0 <? size then Ok (inl EM_INVALID_ARG) else Ok (inr (mk_event e [] now))
  | Some bytes => payload ← array_read bytes 0 size; Ok (inr (mk_event e payload now))
  end.

(** The queue is full when the wait for room ends. *)
Definition event_manager_publish (s : state) (e : Z) (data : option (list Z)) (size now : Z) : res (em_err * state) :=
  r ← message_prepare s e data size now;
  match r with
  | inl err => Ok (err, s)
  | inr msg =>
      if bool_decide (length (em_queue s) < EVENT_MANAGER_QUEUE_LENGTH)%nat
      then Ok (EM_OK, s <| em_queue := em_queue s ++ [msg] |>)
      else Ok (EM_TIMEOUT, s <| em_drops := u32 (em_drops s + 1) |>)
  end.

(** Without the wait. *)
Definition event_manager_publish_from_isr (s : state) (e : Z) (data : option (list Z)) (size now : Z)
    : res (em_err * state) := event_manager_publish s e data size now.

(** ** Subscriptions *)

Definition subs_of (s : state) (e : Z) : subscriber_list_t C := default subs_zero (em_subs s !! Z.to_nat e).
Definition subs_put (s : state) (e : Z) (l : subscriber_list_t C) : state :=
  s <| em_subs := <[Z.to_nat e := l]> (em_subs s) |>.

(** The first index below [ucCount] that holds the callback. *)
Definition subs_find (l : subscriber_list_t C) (f : C) : option nat :=
  fst <$> list_find (λ x, x = Some f) (take (su_count l) (su_cb l)).

Definition event_manager_subscribe (s : state) (e : Z) (cb : option C) : res (em_err * state) :=
  if negb (em_inited s) then Ok (EM_INVALID_STATE, s) else
  match cb with
  | None => Ok (EM_INVALID_ARG, s)
  | Some f =>
      if negb (event_valid e) then Ok (EM_INVALID_ARG, s) else
      let l := subs_of s e in
      match subs_find l f with
      | Some _ => Ok (EM_OK, s)
      | None =>
          if bool_decide (EVENT_MANAGER_MAX_SUBSCRIBERS <= su_count l)%nat then Ok (EM_NO_MEM, s) else
          a ← array_set (su_cb l) (Z.of_nat (su_count l)) (Some f);
          Ok (EM_OK, subs_put s e (mk_subs C a (S (su_count l))))
      end
  end.

(** [for (j = i; j + 1 < ucCount; ++j) cb[j] = cb[j + 1]]; [k] counts the rounds. *)
Fixpoint shift_down (a : list (option C)) (j k : nat) : res (list (option C)) :=
  match k with
  | O => Ok a
  | S k =>
      x ← array_get a (Z.of_nat j + 1);
      a ← array_set a (Z.of_nat j) x;
      shift_down a (S j) k
  end.

Definition event_manager_unsubscribe (s : state) (e : Z) (cb : option C) : res (em_err * state) :=
  if negb (em_inited s) then Ok (EM_INVALID_STATE, s) else
  match cb with
  | None => Ok (EM_INVALID_ARG, s)
  | Some f =>
      if negb (event_valid e) then Ok (EM_INVALID_ARG, s) else
      let l := subs_of s e in
      match subs_find l f with
      | None => Ok (EM_NOT_FOUND, s)
      | Some i =>
          a ← shift_down (su_cb l) i (su_count l - 1 - i);
          a ← array_set a (Z.of_nat (su_count l) - 1) None;
          Ok (EM_OK, subs_put s e (mk_subs C a (su_count l - 1)))
      end
  end.

Definition event_manager_drops_get (s : state) : Z := em_drops s.

(** ** The dispatch task *)

(** The copy of the subscriber list, without its null pointers. *)
Definition dispatch_copy (s : state) (msg : event_message_t) : list C :=
  if event_valid (ev_type msg) then
    let l := subs_of s (ev_type msg) in omap id (take (su_count l) (su_cb l))
  else [].

(** [xQueueReceive] and the copy, once the calls of the last event are made. *)
Definition dispatch_take (s : state) : state :=
  match em_calls s, em_queue s with
  | [], msg :: q =>
      if em_started s
      then s <| em_queue := q |> <| em_calls := (λ f, (f, msg)) <$> dispatch_copy s msg |>
      else s
  | _, _ => s
  end.

(** The next call: the callback, the event, its payload. *)
Definition dispatch_call (s : state) : state * option (C * Z * list Z) :=
  match em_calls s with
  | [] => (s, None)
  | (f, msg) :: calls => (s <| em_calls := calls |>, Some (f, ev_type msg, ev_data msg))
  end.

(** ** Runs *)

Inductive em_op :=
  | OpInit (queue mutex : bool)
  | OpStart (created : bool)
  | OpPublish (e : Z) (data : option (list Z)) (size now : Z)
  | OpSubscribe (e : Z) (cb : option C)
  | OpUnsubscribe (e : Z) (cb : option C)
  | OpTake
  | OpCall.

(** What can be seen: the results of the operations and the calls. *)
Inductive em_out := ORet (err : em_err) | OCalled (f : C) (e : Z) (data : list Z).

Definition returned (r : em_err * state) : state * list em_out := (r.2, [ORet r.1]).

Definition em_step (s : state) (op : em_op) : res (state * list em_out) :=
  match op with
  | OpInit q m => Ok (returned (event_manager_init s q m))
  | OpStart c => Ok (returned (event_manager_start s c))
  | OpPublish e data size now => r ← event_manager_publish s e data size now; Ok (returned r)
  | OpSubscribe e cb => r ← event_manager_subscribe s e cb; Ok (returned r)
  | OpUnsubscribe e cb => r ← event_manager_unsubscribe s e cb; Ok (returned r)
  | OpTake => Ok (dispatch_take s, [])
  | OpCall =>
      let '(s, c) := dispatch_call s in
      Ok (s, match c with Some (f, e, d) => [OCalled f e d] | None => [] end)
  end.

(** A run yields each operation with what it showed. *)
Fixpoint em_run (s : state) (ops : list em_op) : res (state * list (em_op * list em_out)) :=
  match ops with
  | [] => Ok (s, [])
  | op :: ops =>
      r ← em_step s op;
      r' ← em_run r.1 ops;
      Ok (r'.1, (op, r.2) :: r'.2)
  end.
End event_manager.
