(* ===== verification/EventManagerProps.v ===== *)
(** * What the event manager promises

    The array of callbacks with its shifting loops refines a list without
    duplicates ([subscribe_refines], [unsubscribe_refines]); on top of it
    [delivered_exactly_once]: a callback that stays subscribed to an event is called
    for every accepted publication of it, once and in order, whatever the other
    publishers, subscribers and callbacks do meanwhile. *)

From S2P Require Import Prelude Bytes EventManager.
Local Open Scope list_scope.
Local Open Scope Z_scope.

(** ** Lists *)

Lemma filter_all_true {B} (Q : B → Prop) `{∀ x, Decision (Q x)} (l : list B) : (∀ x, x ∈ l → Q x) → filter Q l = l.
Proof.
  induction l as [|x l IH]; intros Hl; [done|]. rewrite filter_cons, decide_True by (apply Hl; by left).
  f_equal. apply IH. intros y Hy. apply Hl. by right.
Qed.

Lemma delete_NoDup_filter {B} `{EqDecision B} (l : list B) i x :
  NoDup l → l !! i = Some x → delete i l = filter (λ y, y ≠ x) l.
Proof.
  intros Hnd. revert i. induction Hnd as [|y l Hy Hnd IH]; intros i Hi; [done|]. destruct i as [|i]; cbn in Hi.
  - injection Hi as ->. rewrite filter_cons, decide_False by naive_solver. symmetry. apply filter_all_true.
    intros z Hz ->. done.
  - rewrite filter_cons, decide_True; [cbn; f_equal; by apply IH|].
    intros ->. apply Hy. by eapply list_elem_of_lookup_2.
Qed.

Section props.
Context {C : Type} `{EqDecision C}.
#[local] Abbreviation state := (event_manager C).

(** ** Subscriber lists *)

Definition subs_wf (l : subscriber_list_t C) (fs : list C) : Prop :=
  NoDup fs ∧ (length fs <= EVENT_MANAGER_MAX_SUBSCRIBERS)%nat ∧ su_count l = length fs ∧
  su_cb l = (Some <$> fs) ++ replicate (EVENT_MANAGER_MAX_SUBSCRIBERS - length fs) None.

Definition subs_list (l : subscriber_list_t C) : list C := omap id (take (su_count l) (su_cb l)).

Lemma subs_zero_wf : subs_wf subs_zero [].
Proof. split_and!; [constructor|cbn; lia|done..]. Qed.

Lemma subs_take l fs : subs_wf l fs → take (su_count l) (su_cb l) = Some <$> fs.
Proof.
  intros (_ & _ & -> & ->). rewrite take_app_le by (by rewrite length_fmap).
  apply take_ge. by rewrite length_fmap.
Qed.

Lemma subs_list_wf l fs : subs_wf l fs → subs_list l = fs.
Proof.
  intros Hw. unfold subs_list. rewrite (subs_take l fs Hw). induction fs as [|f fs IH] in |-*; [done|].
  cbn. by f_equal.
Qed.

Lemma subs_find_Some l fs f i : subs_wf l fs → subs_find l f = Some i → fs !! i = Some f.
Proof.
  intros Hw. unfold subs_find. rewrite (subs_take l fs Hw).
  destruct (list_find _ _) as [[j x]|] eqn:Hf; [|done]. intros [= ->].
  apply list_find_Some in Hf as (Hj & -> & _). rewrite list_lookup_fmap in Hj.
  destruct (fs !! i); [by injection Hj as ->|done].
Qed.

Lemma subs_find_None l fs f : subs_wf l fs → subs_find l f = None → f ∉ fs.
Proof.
  intros Hw. unfold subs_find. rewrite (subs_take l fs Hw).
  destruct (list_find _ _) as [[j x]|] eqn:Hf; [done|]. intros _ Hin.
  apply list_find_None in Hf. rewrite Forall_forall in Hf. apply (Hf (Some f)); [|done].
  apply list_elem_of_fmap. eauto.
Qed.

Lemma subs_push l fs f :
  subs_wf l fs → f ∉ fs → (length fs < EVENT_MANAGER_MAX_SUBSCRIBERS)%nat →
  ∃ a, array_set (su_cb l) (Z.of_nat (su_count l)) (Some f) = Ok a ∧ subs_wf (mk_subs C a (S (su_count l))) (fs ++ [f]).
Proof.
  intros (Hnd & Hle & Hc & Hcb) Hf Hlt. rewrite Hc, Hcb.
  rewrite array_set_ok by (rewrite length_app, length_fmap, length_replicate; lia).
  eexists. split; [done|]. unfold subs_wf. cbn [su_count su_cb]. rewrite length_app. cbn [length].
  split_and!; [|lia|lia|].
  - apply NoDup_app. split_and!; [done| |apply NoDup_singleton]. intros x Hx ->%list_elem_of_singleton. done.
  - rewrite Nat2Z.id. rewrite <- (length_fmap Some fs) at 1.
    rewrite <- (Nat.add_0_r (length (Some <$> fs))), insert_app_r, fmap_app, <- app_assoc.
    replace (EVENT_MANAGER_MAX_SUBSCRIBERS - length fs)%nat
      with (S (EVENT_MANAGER_MAX_SUBSCRIBERS - (length fs + 1))) by lia. done.
Qed.

(** The loop moves the entries after [j] down by one. *)
Lemma shift_down_ok (a : list (option C)) j k :
  (j + k < length a)%nat →
  shift_down a j k = Ok (take j a ++ take k (drop (S j) a) ++ drop (j + k) a).
Proof.
  revert a j. induction k as [|k IH]; intros a j Hlt; cbn [shift_down].
  - rewrite Nat.add_0_r, take_0. by rewrite (app_nil_l (drop j a)), take_drop.
  - destruct (lookup_lt_is_Some_2 a (S j)) as [x Hx]; [lia|].
    rewrite (array_get_ok a (Z.of_nat j + 1) x) by (lia || (by replace (Z.to_nat (Z.of_nat j + 1)) with (S j) by lia)).
    cbn [mbind res_bind]. rewrite array_set_ok by lia. cbn [mbind res_bind]. rewrite Nat2Z.id.
    rewrite IH by (rewrite length_insert; lia). f_equal.
    rewrite (take_S_r (<[j := x]> a) j x) by (apply list_lookup_insert_eq; lia).
    rewrite take_insert_ge, !drop_insert_lt by lia.
    rewrite (drop_S a x (S j) Hx). cbn [take]. rewrite <- app_assoc. cbn [app].
    by replace (S j + k)%nat with (j + S k)%nat by lia.
Qed.

Lemma subs_pop l fs f i :
  subs_wf l fs → fs !! i = Some f →
  ∃ a a', shift_down (su_cb l) i (su_count l - 1 - i) = Ok a ∧
    array_set a (Z.of_nat (su_count l) - 1) None = Ok a' ∧
    subs_wf (mk_subs C a' (su_count l - 1)) (delete i fs).
Proof.
  intros (Hnd & Hle & Hc & Hcb) Hi. pose proof (lookup_lt_Some _ _ _ Hi) as Hlt.
  assert (Hlen : length (su_cb l) = EVENT_MANAGER_MAX_SUBSCRIBERS).
  { rewrite Hcb, length_app, length_fmap, length_replicate. lia. }
  rewrite Hc, shift_down_ok by lia.
  eexists _, _. split; [done|]. rewrite array_set_ok.
  2: { rewrite !length_app, !length_take, !length_drop. lia. }
  split; [done|]. unfold subs_wf. cbn [su_count su_cb]. rewrite length_delete by (by eexists).
  split_and!; [by eapply sublist_NoDup; [|apply sublist_delete]|lia|lia|].
  replace (Z.to_nat (Z.of_nat (length fs) - 1)) with (length fs - 1)%nat by lia.
  replace (i + (length fs - 1 - i))%nat with (length fs - 1)%nat by lia.
  rewrite Hcb. set (rest := replicate _ None).
  destruct (lookup_lt_is_Some_2 fs (length fs - 1)) as [y Hy]; [lia|].
  rewrite !drop_app_le, !take_app_le by (rewrite ?length_drop, length_fmap; lia).
  rewrite (take_ge (drop (S i) _)) by (rewrite length_drop, length_fmap; lia).
  rewrite (drop_S (Some <$> fs) (Some y) (length fs - 1)) by (by rewrite list_lookup_fmap, Hy).
  rewrite (drop_ge _ (S (length fs - 1))) by (rewrite length_fmap; lia). cbn [app].
  rewrite app_assoc, <- fmap_take, <- fmap_drop, <- fmap_app, <- delete_take_drop.
  replace (length fs - 1)%nat with (length (Some <$> delete i fs) + 0)%nat
    by (rewrite length_fmap, length_delete by (by eexists); lia).
  rewrite insert_app_r. cbn [insert list_insert]. f_equal. unfold rest.
  rewrite length_fmap, length_delete by (by eexists).
  by replace (EVENT_MANAGER_MAX_SUBSCRIBERS - (length fs - 1 + 0))%nat
    with (S (EVENT_MANAGER_MAX_SUBSCRIBERS - length fs)) by lia.
Qed.

(** ** The manager *)

Definition em_wf (s : state) : Prop :=
  length (em_subs s) = Z.to_nat EVENT_MAX ∧ (∀ l, l ∈ em_subs s → ∃ fs, subs_wf l fs) ∧
  (length (em_queue s) <= EVENT_MANAGER_QUEUE_LENGTH)%nat.

Lemma zero_wf : em_wf em_zero.
Proof.
  unfold em_wf, em_zero. cbn [em_subs em_queue]. split_and!; [by rewrite length_replicate| |cbn; lia].
  intros l [-> _]%elem_of_replicate. exists []. apply subs_zero_wf.
Qed.

Lemma subs_of_wf s e : em_wf s → ∃ fs, subs_wf (subs_of s e) fs.
Proof.
  intros (_ & Hw & _). unfold subs_of. destruct (em_subs s !! Z.to_nat e) as [l|] eqn:Hl; cbn.
  - apply Hw. by eapply list_elem_of_lookup_2.
  - exists []. apply subs_zero_wf.
Qed.

Lemma valid_index e : event_valid e = true → 0 < e < EVENT_MAX.
Proof. unfold event_valid, EVENT_NONE. intros [?%Z.ltb_lt ?%Z.ltb_lt]%andb_true_iff. lia. Qed.

(** The subscribers of an event, in the order of their subscription. *)
Definition subscribers (s : state) (e : Z) : list C := subs_list (subs_of s e).

Lemma subscribers_put s e l e' :
  em_wf s → event_valid e = true → event_valid e' = true →
  subscribers (subs_put s e l) e' = if decide (e = e') then subs_list l else subscribers s e'.
Proof.
  intros (Hlen & _) He%valid_index He'%valid_index. unfold subscribers, subs_of, subs_put. cbn.
  destruct (decide (e = e')) as [<-|Hne].
  - rewrite list_lookup_insert_eq by lia. done.
  - rewrite list_lookup_insert_ne by lia. done.
Qed.

Lemma put_wf s e l fs : em_wf s → subs_wf l fs → em_wf (subs_put s e l).
Proof.
  intros (Hlen & Hw & Hq) Hl. unfold em_wf.
  change (em_subs (subs_put s e l)) with (<[Z.to_nat e := l]> (em_subs s)).
  split_and!; [by rewrite length_insert| |done].
  intros x [j Hj]%list_elem_of_lookup. apply list_lookup_insert_Some in Hj as [(_ & <- & _)|[_ Hj]]; [by exists fs|].
  apply Hw. by eapply list_elem_of_lookup_2.
Qed.

(** Subscribing appends to the list unless the callback is there or the list is
    full; other events are not affected. *)
Lemma subscribe_refines s e f :
  em_wf s → em_inited s = true → event_valid e = true →
  ∃ s', event_manager_subscribe s e (Some f) =
          Ok (if decide (f ∈ subscribers s e) then EM_OK
              else if bool_decide (EVENT_MANAGER_MAX_SUBSCRIBERS <= length (subscribers s e))%nat then EM_NO_MEM else EM_OK, s') ∧
    em_wf s' ∧
    ∀ e', event_valid e' = true → subscribers s' e' =
      if decide (e = e' ∧ (f ∉ subscribers s e) ∧ (length (subscribers s e) < EVENT_MANAGER_MAX_SUBSCRIBERS)%nat)
      then subscribers s e ++ [f] else subscribers s e'.
Proof.
  intros Hw Hi He. destruct (subs_of_wf s e Hw) as [fs Hfs].
  assert (Hsub : subscribers s e = fs) by (by apply subs_list_wf). rewrite !Hsub.
  unfold event_manager_subscribe. rewrite Hi, He. cbn [negb].
  destruct (subs_find (subs_of s e) f) as [i|] eqn:Hf.
  - apply (subs_find_Some _ fs) in Hf; [|done]. apply list_elem_of_lookup_2 in Hf.
    exists s. rewrite decide_True by done. split_and!; [done..|]. intros e' He'. by rewrite decide_False by naive_solver.
  - apply (subs_find_None _ fs) in Hf; [|done]. rewrite decide_False by done.
    assert (Hc : su_count (subs_of s e) = length fs) by apply Hfs.
    replace (bool_decide (EVENT_MANAGER_MAX_SUBSCRIBERS <= su_count (subs_of s e))%nat)
      with (bool_decide (EVENT_MANAGER_MAX_SUBSCRIBERS <= length fs)%nat) by (by rewrite Hc).
    case_bool_decide as Hfull.
    + exists s. split_and!; [done..|]. intros e' He'. rewrite decide_False by lia. done.
    + destruct (subs_push _ fs f Hfs Hf ltac:(lia)) as (a & Ha & Hw'). rewrite Ha. cbn [mbind res_bind].
      eexists. split; [done|]. split; [by eapply put_wf|]. intros e' He'.
      rewrite subscribers_put by done. rewrite (subs_list_wf _ _ Hw').
      destruct (decide (e = e')) as [<-|]; [rewrite decide_True by (split_and!; [done..|lia]); done|].
      by rewrite decide_False by naive_solver.
Qed.

(** Unsubscribing removes exactly the callback; the others keep their order. *)
Lemma unsubscribe_refines s e f :
  em_wf s → em_inited s = true → event_valid e = true →
  ∃ s', event_manager_unsubscribe s e (Some f) = Ok (if decide (f ∈ subscribers s e) then EM_OK else EM_NOT_FOUND, s') ∧
    em_wf s' ∧
    ∀ e', event_valid e' = true →
      subscribers s' e' = if decide (e = e') then filter (λ g, g ≠ f) (subscribers s e') else subscribers s e'.
Proof.
  intros Hw Hi He. destruct (subs_of_wf s e Hw) as [fs Hfs].
  assert (Hsub : subscribers s e = fs) by (by apply subs_list_wf). rewrite Hsub.
  unfold event_manager_unsubscribe. rewrite Hi, He. cbn [negb].
  destruct (subs_find (subs_of s e) f) as [i|] eqn:Hf.
  - apply (subs_find_Some _ fs) in Hf; [|done]. rewrite decide_True by (by eapply list_elem_of_lookup_2).
    destruct (subs_pop _ fs f i Hfs Hf) as (a & a' & Ha & Ha' & Hw'). rewrite Ha. cbn [mbind res_bind].
    rewrite Ha'. cbn [mbind res_bind]. eexists. split; [done|]. split; [by eapply put_wf|]. intros e' He'.
    rewrite subscribers_put by done. rewrite (subs_list_wf _ _ Hw').
    destruct (decide (e = e')) as [<-|]; [|done]. rewrite Hsub.
    destruct Hfs as [Hnd _]. by apply delete_NoDup_filter.
  - apply (subs_find_None _ fs) in Hf; [|done]. rewrite decide_False by done. exists s. split_and!; [done..|].
    intros e' He'. destruct (decide (e = e')) as [<-|]; [|done]. rewrite Hsub. symmetry.
    apply filter_all_true. intros g Hg ->. done.
Qed.

(** ** Delivery *)

(** The pointer of a publication points to as many bytes as it says. *)
Definition op_ok (op : @em_op C) : Prop :=
  match op with
  | OpPublish _ data size _ => 0 <= size ∧ match data with Some d => size <= zlen d | None => True end
  | _ => True
  end.

Definition accepted_by (e : Z) (x : @em_op C * list (@em_out C)) : option (list Z) :=
  match x with
  | (OpPublish e' data size _, [ORet EM_OK]) =>
      if decide (e' = e) then Some (take (Z.to_nat size) (default [] data)) else None
  | _ => None
  end.
Definition call_of (f : C) (e : Z) (o : @em_out C) : option (list Z) :=
  match o with OCalled f' e' d => if decide (f' = f ∧ e' = e) then Some d else None | _ => None end.

(** The payloads of the accepted publications of [e], and of the calls of [f] for it. *)
Definition publications (e : Z) (tr : list (@em_op C * list (@em_out C))) : list (list Z) := omap (accepted_by e) tr.
Definition calls_for (f : C) (e : Z) (tr : list (@em_op C * list (@em_out C))) : list (list Z) :=
  flat_map (λ x, omap (call_of f e) x.2) tr.

(** What the manager still holds for [f]: calls to be made, events in the queue. *)
Definition on_way (f : C) (e : Z) (s : state) : list (list Z) :=
  omap (λ c, if decide (c.1 = f ∧ ev_type c.2 = e) then Some (ev_data c.2) else None) (em_calls s) ++
  omap (λ m, if decide (ev_type m = e) then Some (ev_data m) else None) (em_queue s).

Lemma publish_spec s e data size now :
  em_wf s → op_ok (OpPublish e data size now) →
  ∃ r s', event_manager_publish s e data size now = Ok (r, s') ∧ em_wf s' ∧ em_inited s' = em_inited s ∧
    em_subs s' = em_subs s ∧ em_calls s' = em_calls s ∧
    em_queue s' = em_queue s ++
      (if decide (r = EM_OK) then [mk_event e (take (Z.to_nat size) (default [] data)) now] else []).
Proof.
  intros Hw [Hsize Hdata]. unfold event_manager_publish, message_prepare.
  assert (Herr : ∀ err, err ≠ EM_OK → ∃ r s', Ok (err, s) = Ok (r, s') ∧ em_wf s' ∧ em_inited s' = em_inited s ∧
    em_subs s' = em_subs s ∧ em_calls s' = em_calls s ∧ em_queue s' = em_queue s ++
      (if decide (r = EM_OK) then [mk_event e (take (Z.to_nat size) (default [] data)) now] else [])).
  { intros err Hne. exists err, s. rewrite decide_False, app_nil_r by done. done. }
  destruct (em_inited s) eqn:Hi; cbn [negb mbind res_bind]; [|by apply Herr].
  destruct (event_valid e); cbn [negb mbind res_bind]; [|by apply Herr].
  destruct (Z.ltb_spec EVENT_MANAGER_MAX_PAYLOAD_SIZE size); cbn [mbind res_bind]; [by apply Herr|].
  set (msg := mk_event e (take (Z.to_nat size) (default [] data)) now).
  assert (Hprep : (match data with
    | None => if 0 <? size then Ok (inl EM_INVALID_ARG) else Ok (inr (mk_event e [] now))
    | Some bytes => payload ← array_read bytes 0 size; Ok (inr (mk_event e payload now))
    end = Ok (inr msg)) ∨ (data = None ∧ 0 < size)).
  { destruct data as [d|]; [left|destruct (Z.ltb_spec 0 size); [by right|left]].
    - unfold zlen in Hdata. rewrite array_read_ok by lia. done.
    - unfold msg. by replace (Z.to_nat size) with 0%nat by lia. }
  destruct Hprep as [->|[-> Hpos]]; cbn [mbind res_bind].
  2: { rewrite (proj2 (Z.ltb_lt 0 size) Hpos). cbn [mbind res_bind]. by apply Herr. }
  destruct Hw as (H1 & H2 & H3). case_bool_decide as Hfull.
  - eexists _, _. split; [done|]. rewrite decide_True by done. split_and!; try done.
    split_and!; [exact H1|exact H2|]. change (em_queue (s <| em_queue := _ |>)) with (em_queue s ++ [msg]).
    rewrite length_app. cbn [length]. lia.
  - eexists _, _. split; [done|]. rewrite decide_False, app_nil_r by done. by split_and!.
Qed.

Lemma subscribe_keeps s e cb :
  em_wf s → ∃ r s', event_manager_subscribe s e cb = Ok (r, s') ∧ em_wf s' ∧ em_inited s' = em_inited s ∧
    em_queue s' = em_queue s ∧ em_calls s' = em_calls s ∧
    ∀ e', event_valid e' = true → subscribers s e' ⊆ subscribers s' e'.
Proof.
  intros Hw. unfold event_manager_subscribe.
  destruct (em_inited s) eqn:Hi; [|by exists EM_INVALID_STATE, s].
  destruct cb as [f|]; [|by exists EM_INVALID_ARG, s].
  destruct (event_valid e) eqn:He; [|by exists EM_INVALID_ARG, s].
  destruct (subscribe_refines s e f Hw Hi He) as (s' & Hs & Hw' & Hsub). pose proof Hs as Hs2.
  unfold event_manager_subscribe in Hs2. rewrite Hi, He in Hs2. cbn [negb] in Hs2 |- *. rewrite Hs2.
  eexists _, s'. split; [done|].
  assert (Hkeep : em_inited s' = em_inited s ∧ em_queue s' = em_queue s ∧ em_calls s' = em_calls s).
  { destruct (subs_find _ _); [by injection Hs2 as _ <-|].
    case_bool_decide; [by injection Hs2 as _ <-|].
    destruct (array_set _ _ _); cbn [mbind res_bind] in Hs2; [|done..]. by injection Hs2 as _ <-. }
  destruct Hkeep as (Hi' & ? & ?). split_and!; try done; [congruence|].
  intros e' He'. rewrite Hsub by done. destruct (decide (e = e' ∧ _)) as [(<- & _)|]; [set_solver|reflexivity].
Qed.

Lemma unsubscribe_keeps s e cb :
  em_wf s → ∃ r s', event_manager_unsubscribe s e cb = Ok (r, s') ∧ em_wf s' ∧ em_inited s' = em_inited s ∧
    em_queue s' = em_queue s ∧ em_calls s' = em_calls s ∧
    ∀ e' f, event_valid e' = true → f ∈ subscribers s e' → e = e' ∧ cb = Some f ∨ f ∈ subscribers s' e'.
Proof.
  intros Hw. unfold event_manager_unsubscribe.
  assert (Herr : ∀ err : em_err, ∃ r s', Ok (err, s) = Ok (r, s') ∧ em_wf s' ∧ em_inited s' = em_inited s ∧
    em_queue s' = em_queue s ∧ em_calls s' = em_calls s ∧
    ∀ e' f, event_valid e' = true → f ∈ subscribers s e' → e = e' ∧ cb = Some f ∨ f ∈ subscribers s' e').
  { intros err. exists err, s. split_and!; try done. intros. by right. }
  destruct (em_inited s) eqn:Hi; [|by apply Herr]. destruct cb as [g|]; [|by apply Herr].
  destruct (event_valid e) eqn:He; [|by apply Herr].
  destruct (unsubscribe_refines s e g Hw Hi He) as (s' & Hs & Hw' & Hsub). pose proof Hs as Hs2.
  unfold event_manager_unsubscribe in Hs2. rewrite Hi, He in Hs2. cbn [negb] in Hs2 |- *. rewrite Hs2.
  eexists _, s'. split; [done|].
  assert (Hkeep : em_inited s' = em_inited s ∧ em_queue s' = em_queue s ∧ em_calls s' = em_calls s).
  { destruct (subs_find _ _) as [i|]; [|by injection Hs2 as _ <-].
    destruct (shift_down _ _ _); cbn [mbind res_bind] in Hs2; [|done..].
    destruct (array_set _ _ _); cbn [mbind res_bind] in Hs2; [|done..]. by injection Hs2 as _ <-. }
  destruct Hkeep as (Hi' & ? & ?). split_and!; try done; [congruence|].
  intros e' f He' Hin. destruct (decide (e = e')) as [<-|Hne].
  - destruct (decide (g = f)) as [<-|Hgf]; [by left|right]. rewrite Hsub, decide_True by done.
    apply list_elem_of_filter. done.
  - right. by rewrite Hsub, decide_False.
Qed.

Lemma call_once (l : list C) f (d : list Z) :
  NoDup l → f ∈ l → omap (λ g, if decide (g = f) then Some d else None) l = [d].
Proof.
  induction 1 as [|g l Hg Hnd IH]; [by intros ?%elem_of_nil|]. intros [->|Hin]%elem_of_cons; cbn.
  - rewrite decide_True by done. f_equal. clear IH Hnd. induction l as [|x l IH]; [done|].
    apply not_elem_of_cons in Hg as [? ?]. cbn. rewrite decide_False by congruence. by apply IH.
  - rewrite decide_False by (intros ->; done). by apply IH.
Qed.

Lemma omap_fmap_pair (l : list C) (msg : event_message_t) f e :
  omap (λ c : C * event_message_t, if decide (c.1 = f ∧ ev_type c.2 = e) then Some (ev_data c.2) else None)
    ((λ g, (g, msg)) <$> l) =
  if decide (ev_type msg = e) then omap (λ g, if decide (g = f) then Some (ev_data msg) else None) l else [].
Proof.
  induction l as [|g l IH]; cbn; [by case_decide|]. rewrite IH.
  destruct (decide (ev_type msg = e)) as [He|He].
  - destruct (decide (g = f)); [rewrite decide_True by done|rewrite decide_False by naive_solver]; done.
  - by rewrite decide_False by naive_solver.
Qed.

(** A step conserves what is on its way to a subscribed callback. *)
Lemma step_delivers s op e f :
  em_wf s → em_inited s = true → event_valid e = true → f ∈ subscribers s e →
  op ≠ OpUnsubscribe e (Some f) → op_ok op →
  ∃ s' o, em_step s op = Ok (s', o) ∧ em_wf s' ∧ em_inited s' = true ∧ f ∈ subscribers s' e ∧
    omap (call_of f e) o ++ on_way f e s' = on_way f e s ++ option_list (accepted_by e (op, o)).
Proof.
  intros Hw Hi He Hf Hop Hok. destruct op as [q m|c|e' data size now|e' cb|e' cb| |]; cbn [em_step].
  - unfold event_manager_init. rewrite Hi. eexists _, _. split_and!; try done. by rewrite app_nil_r.
  - unfold event_manager_start. rewrite Hi. cbn [negb].
    destruct (em_started s), c; cbn [negb]; eexists _, _; (split_and!; [done|done|done|done|]); by rewrite app_nil_r.
  - destruct (publish_spec s e' data size now Hw Hok) as (r & s' & -> & Hw' & Hi' & Hs' & Hc' & Hq').
    unfold returned. cbn [mbind res_bind fst snd]. eexists _, _. split; [done|]. cbn [fst snd]. split_and!; [done|congruence| |].
    { unfold subscribers, subs_of in *. by rewrite Hs'. }
    cbn [omap list_omap call_of app]. unfold on_way. rewrite Hc', Hq', omap_app, <- app_assoc. do 2 f_equal.
    destruct (decide (r = EM_OK)) as [->|Hr]; cbn.
    + by destruct (decide (e' = e)).
    + by destruct r.
  - destruct (subscribe_keeps s e' cb Hw) as (r & s' & -> & Hw' & Hi' & Hq' & Hc' & Hsub).
    unfold returned. cbn [mbind res_bind fst snd]. eexists _, _. split; [done|]. cbn [fst snd]. split_and!; [done|congruence|by apply Hsub|].
    cbn [omap list_omap call_of app accepted_by option_list]. unfold on_way. rewrite Hq', Hc'. cbn. by rewrite app_nil_r.
  - destruct (unsubscribe_keeps s e' cb Hw) as (r & s' & -> & Hw' & Hi' & Hq' & Hc' & Hsub).
    unfold returned. cbn [mbind res_bind fst snd]. eexists _, _. split; [done|]. cbn [fst snd]. split_and!; [done|congruence| |].
    { destruct (Hsub e f He Hf) as [[-> ->]|?]; done. }
    cbn [omap list_omap call_of app accepted_by option_list]. unfold on_way. rewrite Hq', Hc'. cbn. by rewrite app_nil_r.
  - eexists _, _. split; [done|]. cbn [omap list_omap app accepted_by]. unfold dispatch_take.
    destruct (em_calls s) as [|x calls] eqn:Hc; [|split_and!; try done; by rewrite app_nil_r].
    destruct (em_queue s) as [|msg q] eqn:Hq; [split_and!; try done; by rewrite app_nil_r|].
    destruct (em_started s); [|split_and!; try done; by rewrite app_nil_r].
    destruct Hw as (H1 & H2 & H3). split_and!; [ |done|done|].
    { split_and!; [exact H1|exact H2|]. rewrite Hq in H3. cbn in H3 |- *. lia. }
    unfold on_way. rewrite Hc, Hq. cbn [em_calls em_queue omap list_omap app option_list].
    change (em_calls (s <| em_queue := q |> <| em_calls := ?x |>)) with x.
    change (em_queue (s <| em_queue := q |> <| em_calls := _ |>)) with q.
    rewrite omap_fmap_pair, app_nil_r. destruct (decide (ev_type msg = e)) as [<-|]; [|done].
    unfold dispatch_copy. rewrite He. fold (subs_list (subs_of s (ev_type msg))).
    destruct (subs_of_wf s (ev_type msg)) as [fs Hfs]; [done|].
    unfold subscribers in Hf. rewrite (subs_list_wf _ _ Hfs) in Hf |- *.
    rewrite call_once; [done|apply Hfs|done].
  - unfold dispatch_call. destruct (em_calls s) as [|[g msg] calls] eqn:Hc; eexists _, _; (split; [done|]).
    + split_and!; try done. cbn. by rewrite app_nil_r.
    + split_and!; try done. unfold on_way. rewrite Hc. cbn.
      destruct (decide (g = f ∧ ev_type msg = e)); cbn; by rewrite app_nil_r.
Qed.

(** Runs deliver: by induction from [step_delivers]. *)
Lemma delivered_run s ops e f :
  em_wf s → em_inited s = true → event_valid e = true → f ∈ subscribers s e →
  OpUnsubscribe e (Some f) ∉ ops → Forall op_ok ops →
  ∃ s' tr, em_run s ops = Ok (s', tr) ∧ em_wf s' ∧ tr.*1 = ops ∧
    calls_for f e tr ++ on_way f e s' = on_way f e s ++ publications e tr.
Proof.
  intros Hw Hi He Hf Hno Hok. revert s Hw Hi Hf. induction Hok as [|op ops Hop Hok IH]; intros s Hw Hi Hf; cbn [em_run].
  - eexists s, []. split_and!; try done. by rewrite app_nil_r.
  - apply not_elem_of_cons in Hno as [Hne Hno].
    destruct (step_delivers s op e f Hw Hi He Hf (λ H, Hne (eq_sym H)) Hop) as (s1 & o & -> & Hw1 & Hi1 & Hf1 & Heq).
    cbn [mbind res_bind fst snd].
    destruct (IH Hno s1 Hw1 Hi1 Hf1) as (s2 & tr & -> & Hw2 & Htr & Heq2).
    cbn [mbind res_bind fst snd]. eexists s2, _. split; [done|]. split_and!; [done|cbn; by f_equal|].
    unfold calls_for, publications in *. cbn [flat_map snd]. rewrite <- app_assoc, Heq2, app_assoc, Heq, <- app_assoc.
    f_equal. cbn [omap list_omap]. by destruct (accepted_by e (op, o)).
Qed.

(** C29: A subscribed callback misses nothing.  Let a callback be subscribed to an
    event and not unsubscribe from it.  Then, whatever anyone publishes, subscribes
    and unsubscribes meanwhile, whichever callbacks do so while they run, and
    however the dispatch task is scheduled: the callback has been called with exactly
    the payloads of the accepted publications of the event, each once and in the
    order they were accepted, up to those still on their way (in the queue, or in
    the list of calls the dispatch task is working through).  Only a publication
    that was answered with an error is not delivered. *)
Theorem delivered_exactly_once s ops e f :
  em_wf s → em_inited s = true → event_valid e = true → f ∈ subscribers s e →
  OpUnsubscribe e (Some f) ∉ ops → Forall op_ok ops →
  ∃ s' tr, em_run s ops = Ok (s', tr) ∧ em_wf s' ∧ tr.*1 = ops ∧
    calls_for f e tr ++ on_way f e s' = on_way f e s ++ publications e tr.
Proof. exact (delivered_run s ops e f). Qed.
End props.

(** ** A run *)

(** Callback 1 subscribes while callback 2 is being called, and misses that event
    only; callback 2 unsubscribes itself in its call. *)
Definition em_demo : list (@em_op Z) :=
  [OpInit true true; OpStart true; OpSubscribe EVT_MONITOR_TICK (Some 2); OpPublish EVT_MONITOR_TICK (Some [7]) 1 0;
   OpPublish EVT_MONITOR_TICK None 0 5; OpTake; OpCall; OpSubscribe EVT_MONITOR_TICK (Some 1);
   OpUnsubscribe EVT_MONITOR_TICK (Some 2); OpTake; OpCall].

Example em_demo_calls :
  (λ r, match r with Ok (_, tr) => flat_map snd tr | _ => [] end) (em_run em_zero em_demo) =
  replicate 5 (ORet EM_OK) ++ [OCalled 2 EVT_MONITOR_TICK [7]; ORet EM_OK; ORet EM_OK; OCalled 1 EVT_MONITOR_TICK []].
Proof. vm_compute. reflexivity. Qed.

(** The dispatch task takes an event only after the calls of the last one: while a
    callback runs, sixteen events fit into the queue and the next one is refused. *)
Example em_queue_full :
  (λ r, match r with Ok (s, tr) => (em_drops s, last (flat_map snd tr)) | _ => (0, None) end)
    (em_run (C := Z) em_zero ([OpInit true true; OpStart true] ++ replicate 17 (OpPublish EVT_SYSTEM_BOOT (Some [1]) 1 0))) =
  (1, Some (ORet EM_TIMEOUT)).
Proof. vm_compute. reflexivity. Qed.

Definition em_ready : event_manager Z :=
  match em_run em_zero (take 3 em_demo) with Ok (s, _) => s | _ => em_zero end.

Lemma delivered_exactly_once_witness :
  2 ∈ subscribers em_ready EVT_MONITOR_TICK ∧
  ∃ s' tr, em_run em_ready (take 5 (drop 3 em_demo)) = Ok (s', tr) ∧ em_wf s' ∧ tr.*1 = take 5 (drop 3 em_demo) ∧
    calls_for 2 EVT_MONITOR_TICK tr ++ on_way 2 EVT_MONITOR_TICK s' =
    on_way 2 EVT_MONITOR_TICK em_ready ++ publications EVT_MONITOR_TICK tr.
Proof.
  assert (H2 : 2 ∈ subscribers em_ready EVT_MONITOR_TICK) by (apply list_elem_of_In; vm_compute; tauto).
  split; [exact H2|]. apply (delivered_exactly_once em_ready (take 5 (drop 3 em_demo)) EVT_MONITOR_TICK 2).
  - split; [reflexivity|]. split; [|vm_compute; lia].
    intros l Hl. assert (Hor : l = subs_zero ∨ l = mk_subs Z (Some 2 :: replicate 7 None) 1).
    { apply list_elem_of_In in Hl. vm_compute in Hl. vm_compute. repeat destruct Hl as [<-|Hl]; try tauto. }
    destruct Hor as [->| ->]; [exists []; apply subs_zero_wf|exists [2]].
    split_and!; [apply NoDup_singleton|vm_compute; lia|reflexivity|reflexivity].
  - reflexivity.
  - reflexivity.
  - exact H2.
  - intros Hin%list_elem_of_In. vm_compute in Hin. repeat destruct Hin as [Hin|Hin]; done.
  - repeat constructor; vm_compute; done.
Defined.
