(* ===== verification/Am2302.v ===== *)
(** * The climate sensor: [onewire_am2302.c]

    Models src/src/device/onewire_am2302.c: the bit-banged reading of the AM2302,
    its failure diagnosis, and the conversion.  The line is a function of the time
    in microseconds since the host released it; a delay of [n] microseconds advances
    the time by [n], and reading the pin takes none.

    [am2302_reads_the_sensor]: any waveform within the tolerances of the loops is
    decoded to the bytes it carries. *)

From Stdlib Require Import SpecFloat.
From S2P Require Import Prelude Bytes Float32.
Local Open Scope list_scope.
Local Open Scope Z_scope.

(** The diagnosis: phase of the failure, level before the start pulse, extra time
    the line stayed low. *)
Record dht_diag := mk_diag {
  s_ucLastFailPhase : Z;
  s_ucLastIdleLevel : bool;
  s_ulLastLowExtraUs : Z
}.

Section read.
Variable line : Z → bool.

(** [while (level == lvl) { if (++n > limit) fail; delay(1); }]: the time at which
    the level has changed. *)
Fixpoint wait_while (lvl : bool) (limit : nat) (t : Z) : option Z :=
  if eqb (line t) lvl then
    match limit with O => None | S limit => wait_while lvl limit (t + 1) end
  else Some t.

(** The time at which [wait_while] gives up. *)
Definition timeout_at (limit : nat) (t : Z) : Z := t + Z.of_nat limit.

Fixpoint extra_low (rounds : nat) (t extra : Z) : Z :=
  match rounds with
  | O => extra
  | S rounds =>
      if negb (line t) && (extra <? 20000) then extra_low rounds (t + 10) (extra + 10) else extra
  end.

(** Bit [i] of the forty; [k] counts the bits left. *)
Fixpoint read_bits (data : list Z) (i k : nat) (t : Z) : res (option (list Z)) :=
  match k with
  | O => Ok (Some data)
  | S k =>
      match wait_while false 200 t with
      | None => Ok None
      | Some t =>
          let t := t + 40 in
          if line t then
            let n := Z.of_nat (i / 8) in
            b ← array_get data n;
            data ← array_set data n (Z.lor b (u8 (Z.shiftl 1 (7 - Z.of_nat (i mod 8)))));
            match wait_while true 200 t with
            | None => Ok None
            | Some t => read_bits data (S i) k t
            end
          else read_bits data (S i) k t
      end
  end.

(** [idle]: the level before the start pulse; [None] for a timeout. *)
Definition dht_read_raw (d : dht_diag) (idle : bool) : res (option (list Z) * dht_diag) :=
  let d := mk_diag (s_ucLastFailPhase d) idle (s_ulLastLowExtraUs d) in
  let fail phase := mk_diag phase idle (s_ulLastLowExtraUs d) in
  match wait_while true 200 0 with
  | None => Ok (None, fail 1)
  | Some t =>
      match wait_while false 300 t with
      | None => Ok (None, mk_diag 2 idle (extra_low 2000 (timeout_at 300 t) 0))
      | Some t =>
          match wait_while true 300 t with
          | None => Ok (None, fail 3)
          | Some t =>
              r ← read_bits (replicate 5 0) 0 40 t;
              Ok (r, fail (match r with Some _ => 0 | None => 4 end))
          end
      end
  end.

Definition am2302_checksum (data : list Z) : Z :=
  u8 (nth 0 data 0 + nth 1 data 0 + nth 2 data 0 + nth 3 data 0).

Definition am2302_humidity (data : list Z) : f32 :=
  f32_mul (f32_of_Z (Z.lor (Z.shiftl (nth 0 data 0) 8) (nth 1 data 0))) (f32_lit 1 10).

Definition am2302_temperature (data : list Z) : f32 :=
  let raw := i16 (Z.lor (Z.shiftl (Z.land (nth 2 data 0) 127) 8) (nth 3 data 0)) in
  let v := f32_mul (f32_of_Z raw) (f32_lit 1 10) in
  if negb (Z.land (nth 2 data 0) 128 =? 0) then SFopp v else v.

(** Temperature and humidity, or nothing. *)
Definition am2302_climate_read (d : dht_diag) (idle : bool) : res (option (f32 * f32) * dht_diag) :=
  r ← dht_read_raw d idle;
  match r.1 with
  | None => Ok (None, r.2)
  | Some data =>
      if negb (nth 4 data 0 =? am2302_checksum data) then Ok (None, r.2)
      else Ok (Some (am2302_temperature data, am2302_humidity data), r.2)
  end.
End read.

Definition am2302_last_fail_phase_get (d : dht_diag) : Z := s_ucLastFailPhase d.
Definition am2302_last_idle_level_get (d : dht_diag) : bool := s_ucLastIdleLevel d.
Definition am2302_last_low_extra_us_get (d : dht_diag) : Z := s_ulLastLowExtraUs d.

(** ** What the sensor sends *)

(** From [t] on the line shows these levels for these times. *)
Fixpoint shows (line : Z → bool) (t : Z) (segs : list (bool * Z)) : Prop :=
  match segs with
  | [] => True
  | (lvl, d) :: segs => (∀ x, t <= x < t + d → line x = lvl) ∧ shows line (t + d) segs
  end.

(** A bit is a low and a high phase. *)
Definition bit_segs (bits : list (Z * Z)) : list (bool * Z) := flat_map (λ b, [(false, b.1); (true, b.2)]) bits.

(** The response of the sensor, the bits, and the low phase at the end. *)
Definition sensor_segs (a b c : Z) (bits : list (Z * Z)) (e : Z) : list (bool * Z) :=
  (true, a) :: (false, b) :: (true, c) :: bit_segs bits ++ [(false, e)].

Definition next_low (bits : list (Z * Z)) (e : Z) : Z := match bits with b :: _ => b.1 | [] => e end.

(** The tolerances: a low phase of at most 200 us; a high phase of more than 40 us
    is a one and may last 240 us; one of at most 40 us is a zero, and the low phase
    after it must still last when the line is sampled. *)
Fixpoint timing_ok (bits : list (Z * Z)) (e : Z) : Prop :=
  match bits with
  | [] => True
  | (l, h) :: bits =>
      0 < l <= 200 ∧ 0 < h <= 240 ∧ (h <= 40 → 40 < h + next_low bits e) ∧ timing_ok bits e
  end.

(** The bit of the transmission with number [i], most significant first. *)
Definition sent_bit (bytes : list Z) (i : nat) : bool :=
  Z.testbit (nth (i / 8) bytes 0) (7 - Z.of_nat (i mod 8)).

(** ** Waiting *)

Section waiting.
Context (line : Z → bool).

Lemma wait_done lvl limit t d :
  0 <= d <= Z.of_nat limit → (∀ x, t <= x < t + d → line x = lvl) → line (t + d) = negb lvl →
  wait_while line lvl limit t = Some (t + d).
Proof.
  revert t d. induction limit as [|limit IH]; intros t d Hd Hl He; cbn [wait_while].
  - replace d with 0 in * by lia. rewrite Z.add_0_r in *. rewrite He. by destruct lvl.
  - destruct (decide (d = 0)) as [->|Hd0].
    + rewrite Z.add_0_r in *. rewrite He. by destruct lvl.
    + rewrite (Hl t) by lia. rewrite eqb_reflx. rewrite (IH (t + 1) (d - 1)); [f_equal; lia|lia| |].
      * intros x Hx. apply Hl. lia.
      * by replace (t + 1 + (d - 1)) with (t + d) by lia.
Qed.

Lemma shows_first t lvl d segs : shows line t ((lvl, d) :: segs) → 0 < d → line t = lvl.
Proof. intros [H _] Hd. apply H. lia. Qed.
End waiting.

(** ** The bits *)

(** The first [i] bits have been put into [data]. *)
Definition partial (bytes data : list Z) (i : nat) : Prop :=
  length data = 5%nat ∧
  ∀ k j, (k < 5)%nat → 0 <= j →
    Z.testbit (nth k data 0) j =
    bool_decide (j < 8 ∧ 8 * Z.of_nat k + 7 - j < Z.of_nat i) && Z.testbit (nth k bytes 0) j.

Lemma u8_testbit b j : is_u8 b → 8 <= j → Z.testbit b j = false.
Proof.
  intros Hb Hj. destruct (Z.eq_dec b 0) as [->|Hb0]; [apply Z.testbit_0_l|].
  apply Z.bits_above_log2; [unfold is_u8 in Hb; lia|].
  assert (Z.log2 b < 8) by (apply Z.log2_lt_pow2; unfold is_u8 in Hb; lia). lia.
Qed.

Lemma partial_zero bytes : partial bytes (replicate 5 0) 0.
Proof.
  split; [done|]. intros k j Hk Hj. rewrite bool_decide_false by lia. cbn [andb].
  replace (nth k (replicate 5 0) 0) with 0; [apply Z.testbit_0_l|].
  do 5 (destruct k as [|k]; [done|]). lia.
Qed.

Lemma partial_done bytes data :
  length bytes = 5%nat → Forall is_u8 bytes → partial bytes data 40 → data = bytes.
Proof.
  intros Hlen Hb [Hd Hp]. apply (nth_ext _ _ 0 0); [congruence|]. intros k Hk. apply Z.bits_inj'. intros j Hj.
  rewrite Hp by lia. destruct (decide (j < 8)); [rewrite bool_decide_true by lia; done|].
  rewrite bool_decide_false by lia. cbn [andb]. symmetry. apply u8_testbit; [|lia].
  rewrite Forall_forall in Hb. apply Hb. destruct (nth_lookup_or_length bytes k 0) as [H|]; [|lia].
  by eapply list_elem_of_lookup_2.
Qed.

(** A one is put in, a zero leaves the byte as it is. *)
Lemma partial_one bytes data i :
  partial bytes data i → (i < 40)%nat → sent_bit bytes i = true →
  ∃ data', (b ← array_get data (Z.of_nat (i / 8));
            array_set data (Z.of_nat (i / 8)) (Z.lor b (u8 (Z.shiftl 1 (7 - Z.of_nat (i mod 8)))))) = Ok data' ∧
    partial bytes data' (S i).
Proof.
  intros [Hd Hp] Hi Hbit. pose proof (Nat.div_mod_eq i 8) as Hdm. pose proof (Nat.mod_upper_bound i 8 ltac:(lia)) as Hm.
  set (q := (i / 8)%nat) in *. set (m := (i mod 8)%nat) in *. assert (Hq : (q < 5)%nat) by lia.
  destruct (lookup_lt_is_Some_2 data q) as [b Hb]; [lia|].
  rewrite (array_get_ok data (Z.of_nat q) b) by (lia || by rewrite Nat2Z.id). cbn [mbind res_bind].
  rewrite array_set_ok by lia. eexists. split; [done|]. rewrite Nat2Z.id. split; [by rewrite length_insert|].
  assert (Hu : u8 (Z.shiftl 1 (7 - Z.of_nat m)) = Z.shiftl 1 (7 - Z.of_nat m)).
  { apply u8_id. unfold is_u8. rewrite Z.shiftl_1_l. split; [apply Z.pow_nonneg; lia|].
    apply (Z.le_lt_trans _ (2 ^ 7)); [apply Z.pow_le_mono_r; lia|done]. }
  intros k j Hk Hj. rewrite Hu. destruct (decide (k = q)) as [->|Hne].
  - rewrite (nth_lookup_Some (<[q := _]> data) q 0 _ ltac:(apply list_lookup_insert_eq; lia)).
    pose proof (Hp q j Hq Hj) as Hpq. rewrite (nth_lookup_Some _ _ _ _ Hb) in Hpq.
    rewrite Z.lor_spec, Hpq, Z.shiftl_1_l, Z.pow2_bits_eqb by lia.
    unfold sent_bit in Hbit. fold q m in Hbit. destruct (Z.eqb_spec (7 - Z.of_nat m) j) as [<-|Hj'].
    + rewrite Hbit, orb_true_r. rewrite bool_decide_true by lia. done.
    + rewrite orb_false_r. f_equal. apply bool_decide_ext. lia.
  - rewrite (nth_lookup (<[q := _]> data)), list_lookup_insert_ne by done. rewrite <- nth_lookup, Hp by done. f_equal.
    apply bool_decide_ext. lia.
Qed.

Lemma partial_none bytes data i :
  partial bytes data i → sent_bit bytes i = false → partial bytes data (S i).
Proof.
  intros [Hd Hp] Hbit. split; [done|]. intros k j Hk Hj. rewrite Hp by done.
  pose proof (Nat.div_mod_eq i 8) as Hdm. pose proof (Nat.mod_upper_bound i 8 ltac:(lia)) as Hm.
  destruct (decide (8 * Z.of_nat k + 7 - j = Z.of_nat i ∧ j < 8)) as [[Heq Hj8]|Hne].
  - replace (Z.testbit (nth k bytes 0) j) with false; [by rewrite !andb_false_r|].
    unfold sent_bit in Hbit. symmetry. rewrite <- Hbit. f_equal; [f_equal|]; lia.
  - f_equal. apply bool_decide_ext. lia.
Qed.

(** The rest of the transmission, seen from inside a low phase with [r] left. *)
Definition rest_segs (r : Z) (bits : list (Z * Z)) (e : Z) : list (bool * Z) :=
  match bits with
  | [] => [(false, r)]
  | (_, h) :: bits => (false, r) :: (true, h) :: bit_segs bits ++ [(false, e)]
  end.

Lemma rest_segs_next bits e : bit_segs bits ++ [(false, e)] = rest_segs (next_low bits e) bits e.
Proof. by destruct bits as [|[l h] bits]. Qed.

Lemma next_low_pos bits e : timing_ok bits e → 0 < e <= 200 → 0 < next_low bits e <= 200.
Proof. destruct bits as [|[l h] bits]; [done|]. by intros (? & _). Qed.

(** Inside a low phase the remaining levels are those of the phase cut short. *)
Lemma shows_inside line t d bits e x :
  shows line t (rest_segs d bits e) → 0 <= x < d → shows line (t + x) (rest_segs (d - x) bits e).
Proof.
  intros Hs Hx. assert (Hd : t + x + (d - x) = t + d) by lia.
  destruct bits as [|[l h] bits]; cbn [rest_segs shows] in *; rewrite Hd; destruct Hs as [Hl Hs]; (split; [|done]);
    intros y Hy; apply Hl; lia.
Qed.

Lemma rest_first line t r bits e : shows line t (rest_segs r bits e) → ∀ x, t <= x < t + r → line x = false.
Proof. destruct bits as [|[l h] bits]; by intros [? _]. Qed.

Lemma read_bits_ok line bytes bits e data i t r :
  shows line t (rest_segs r bits e) → 0 < r <= 200 → timing_ok bits e → 0 < e <= 200 →
  (i + length bits = 40)%nat → partial bytes data i →
  (∀ j b, bits !! j = Some b → sent_bit bytes (i + j) = bool_decide (40 < b.2)) →
  ∃ data', read_bits line data i (length bits) t = Ok (Some data') ∧ partial bytes data' 40.
Proof.
  revert data i t r. induction bits as [|[l h] bits IH]; intros data i t r Hs Hr Ht He Hi Hp Hb; cbn [length read_bits].
  { exists data. split; [done|]. cbn in Hi. by replace 40%nat with i by lia. }
  destruct Ht as (Hl & Hh & Hz & Ht). cbn [rest_segs shows] in Hs. destruct Hs as (Hlow & Hhigh & Hs).
  rewrite rest_segs_next in Hs. pose proof (next_low_pos bits e Ht He) as Hnl.
  pose proof (rest_first _ _ _ _ _ Hs) as Hnext.
  rewrite (wait_done line false 200 t r) by (lia || (by apply Hlow) || (apply Hhigh; lia)).
  pose proof (Hb 0%nat (l, h) eq_refl) as Hbit. rewrite Nat.add_0_r in Hbit. cbn [snd] in Hbit.
  assert (Hb' : ∀ j b, bits !! j = Some b → sent_bit bytes (S i + j) = bool_decide (40 < b.2)).
  { intros j b Hj. rewrite <- (Hb (S j) b Hj). f_equal. lia. }
  destruct (decide (40 < h)) as [H1|H0].
  - rewrite (Hhigh (t + r + 40)) by lia.
    destruct (partial_one bytes data i Hp ltac:(cbn in Hi; lia)) as (data' & Hset & Hp'); [by rewrite Hbit, bool_decide_true|].
    destruct (array_get data (Z.of_nat (i / 8))) as [b| |]; cbn [mbind res_bind] in *; [|done..]. rewrite Hset. cbn [mbind res_bind].
    rewrite (wait_done line true 200 (t + r + 40) (h - 40)).
    + replace (t + r + 40 + (h - 40)) with (t + r + h) by lia.
      by apply (IH data' (S i) (t + r + h) (next_low bits e)); try done; cbn in Hi; lia.
    + lia.
    + intros x Hx. apply Hhigh. lia.
    + apply Hnext. lia.
  - specialize (Hz ltac:(lia)). rewrite (Hnext (t + r + 40)) by lia.
    replace (t + r + 40) with (t + r + h + (40 - h)) by lia.
    apply (IH data (S i) _ (next_low bits e - (40 - h))); try done; try (cbn in Hi; lia).
    + apply shows_inside; [done|lia].
    + apply partial_none; [done|]. by rewrite Hbit, bool_decide_false.
Qed.

(** C30: The sensor's transmission is decoded to the bytes it carries.  Whatever
    levels the line has that lie within the tolerances of the loops (the response of
    at most 200, 300 and 300 us, bits as [timing_ok] says), and whatever the earlier
    diagnosis was: the reading yields exactly the five bytes that were sent and
    reports no failure; with a right checksum the climate values are those of the
    bytes. *)
Theorem am2302_reads_the_sensor line a b c bits e bytes d idle :
  shows line 0 (sensor_segs a b c bits e) →
  0 <= a <= 200 → 0 < b <= 300 → 0 < c <= 300 → 0 < e <= 200 →
  length bits = 40%nat → timing_ok bits e → length bytes = 5%nat → Forall is_u8 bytes →
  (∀ i x, bits !! i = Some x → sent_bit bytes i = bool_decide (40 < x.2)) →
  dht_read_raw line d idle = Ok (Some bytes, mk_diag 0 idle (s_ulLastLowExtraUs d)) ∧
  am2302_climate_read line d idle =
    Ok (if nth 4 bytes 0 =? am2302_checksum bytes then Some (am2302_temperature bytes, am2302_humidity bytes) else None,
        mk_diag 0 idle (s_ulLastLowExtraUs d)).
Proof.
  intros Hs Ha Hb Hc He Hlen Ht Hl5 Hu Hbits.
  cbn [sensor_segs shows] in Hs. destruct Hs as (H1 & H2 & H3 & Hs). rewrite rest_segs_next in Hs.
  pose proof (next_low_pos bits e Ht He) as Hnl. pose proof (rest_first _ _ _ _ _ Hs) as Hnext.
  assert (Hraw : dht_read_raw line d idle = Ok (Some bytes, mk_diag 0 idle (s_ulLastLowExtraUs d))).
  { unfold dht_read_raw.
    rewrite (wait_done line true 200 0 a) by (lia || (by apply H1) || (apply H2; lia)).
    rewrite (wait_done line false 300 (0 + a) b) by (lia || (by apply H2) || (apply H3; lia)).
    rewrite (wait_done line true 300 (0 + a + b) c) by (lia || (by apply H3) || (apply Hnext; lia)).
    destruct (read_bits_ok line bytes bits e (replicate 5 0) 0 (0 + a + b + c) (next_low bits e))
      as (data & Hr & Hp); try done; try lia; try apply partial_zero.
    rewrite Hlen in Hr. rewrite Hr. cbn [mbind res_bind]. by rewrite (partial_done bytes data). }
  split; [done|]. unfold am2302_climate_read. rewrite Hraw. cbn [mbind res_bind fst snd].
  by destruct (nth 4 bytes 0 =? am2302_checksum bytes).
Qed.

(** ** A transmission *)

(** Level at time [t] of a waveform; low after its end. *)
Fixpoint level_of (segs : list (bool * Z)) (t : Z) : bool :=
  match segs with
  | [] => false
  | (lvl, d) :: segs => if t <? d then lvl else level_of segs (t - d)
  end.

(** 65.2 % and -10.1 degrees. *)
Definition am2302_bytes : list Z := [2; 140; 128; 101; 115].
Definition am2302_bits : list (Z * Z) :=
  (λ i, (50, if sent_bit am2302_bytes i then 70 else 28)) <$> seq 0 40.

Example am2302_example :
  am2302_climate_read (level_of (sensor_segs 30 80 80 am2302_bits 50)) (mk_diag 2 true 70) true =
  Ok (Some (f32_lit (-101) 10, f32_mul (f32_of_Z 652) (f32_lit 1 10)), mk_diag 0 true 70).
Proof. vm_compute. reflexivity. Qed.

Lemma level_of_shows line segs t :
  Forall (λ s, 0 <= s.2) segs → (∀ x, t <= x → line x = level_of segs (x - t)) → shows line t segs.
Proof.
  revert t. induction segs as [|[lvl d] segs IH]; intros t Hs Hl; [done|]. apply Forall_cons in Hs as [Hd Hs].
  cbn [snd] in Hd. split.
  - intros x Hx. rewrite Hl by lia. cbn [level_of]. by rewrite (proj2 (Z.ltb_lt (x - t) d)) by lia.
  - apply IH; [done|]. intros x Hx. rewrite Hl by lia. cbn [level_of].
    rewrite (proj2 (Z.ltb_ge (x - t) d)) by lia. f_equal. lia.
Qed.

(** [timing_ok] is decided on concrete phases. *)
Fixpoint timing_okb (bits : list (Z * Z)) (e : Z) : bool :=
  match bits with
  | [] => true
  | (l, h) :: bits =>
      (0 <? l) && (l <=? 200) && (0 <? h) && (h <=? 240) && ((40 <? h) || (40 <? h + next_low bits e)) &&
      timing_okb bits e
  end.

Lemma timing_okb_ok bits e : timing_okb bits e = true → timing_ok bits e.
Proof.
  induction bits as [|[l h] bits IH]; cbn [timing_ok timing_okb]; [done|].
  rewrite !andb_true_iff, orb_true_iff, !Z.ltb_lt, !Z.leb_le. intros [[[[[? ?] ?] ?] Hz] Ht].
  repeat split; try done; try lia. by apply IH.
Qed.

Lemma am2302_reads_the_sensor_witness :
  am2302_climate_read (level_of (sensor_segs 30 80 80 am2302_bits 50)) (mk_diag 2 true 70) true =
  Ok (if nth 4 am2302_bytes 0 =? am2302_checksum am2302_bytes
      then Some (am2302_temperature am2302_bytes, am2302_humidity am2302_bytes) else None, mk_diag 0 true 70).
Proof.
  refine (proj2 (am2302_reads_the_sensor (level_of (sensor_segs 30 80 80 am2302_bits 50)) 30 80 80 am2302_bits 50
    am2302_bytes (mk_diag 2 true 70) true _ _ _ _ _ _ _ _ _ _)); [|lia..|done| |done| |].
  - apply level_of_shows; [|intros x _; by rewrite Z.sub_0_r].
    apply (bool_decide_unpack _). vm_compute. exact I.
  - apply timing_okb_ok. vm_compute. reflexivity.
  - apply (bool_decide_unpack _). vm_compute. exact I.
  - intros i x Hi. pose proof (lookup_lt_Some _ _ _ Hi) as Hlt.
    unfold am2302_bits in Hi. rewrite list_lookup_fmap in Hi. change (length am2302_bits) with 40%nat in Hlt.
    rewrite (lookup_seq_lt 0 40 i) in Hi by done. injection Hi as <-. cbn [snd Nat.add].
    by destruct (sent_bit am2302_bytes i).
Defined.

(** A line that stays low: the extra time is counted up to 20 ms. *)
Example am2302_stuck_low :
  am2302_climate_read (λ _, false) (mk_diag 0 true 0) false = Ok (None, mk_diag 2 false 20000).
Proof. vm_compute. reflexivity. Qed.
