(* ===== verification/FloatBounds.v ===== *)
(** * Bounds of binary32 operations

    Rounding to nearest never exceeds a representable upper bound of the exact
    result.  [f32_ub x N] says that [x] is a finite number between 0 and
    [N / 2^300]; the scale makes the value of every binary32 number and of every
    product of two of them an integer.  The lemmas bound sums, products and the
    truncation to an integer; [LinkQuality] uses them for the smoothed score. *)

From Stdlib Require Import SpecFloat.
From S2P Require Import Prelude Bytes Float32 Float64.
Local Open Scope Z_scope.

Definition f32_ub (x : f32) (N : Z) : Prop :=
  match x with
  | S754_zero _ => 0 <= N
  | S754_finite false m e => -149 <= e <= 104 ∧ Zpos m * 2 ^ (e + 300) <= N
  | _ => False
  end.

Lemma f32_ub_mono x N N' : f32_ub x N → N <= N' → f32_ub x N'.
Proof. destruct x as [| | |[] m e]; cbn; [lia|done..|]. intros [? ?] ?. split; lia. Qed.

Lemma f32_ub_nonneg x N : f32_ub x N → 0 <= N.
Proof.
  destruct x as [| | |[] m e]; cbn; [done..|]. intros [? H]. pose proof (Z.pow_pos_nonneg 2 (e + 300)). nia.
Qed.

(** ** Shifting with sticky bits *)

(** The least integer not below what the record stands for. *)
Definition shr_up (r : shr_record) : Z := shr_m r + Z.b2z (shr_r r || shr_s r).

Lemma shr_1_spec r :
  0 <= shr_m r → 0 <= shr_m (shr_1 r) ∧ 2 * shr_m (shr_1 r) <= shr_m r ∧ shr_up (shr_1 r) = (shr_up r + 1) / 2.
Proof.
  destruct r as [m r s]. cbn [shr_m]. intros Hm. unfold shr_up.
  destruct m as [|[p|p|]|p]; [..|lia]; cbn [shr_1 shr_m shr_r shr_s];
    (split; [lia|]; split; [lia|]); destruct r, s; cbn [orb Z.b2z];
    try reflexivity;
    first [ apply (Z.div_unique_pos _ 2 _ 0); lia | apply (Z.div_unique_pos _ 2 _ 1); lia ].
Qed.

Lemma shr_iter p r B :
  0 <= shr_m r → shr_up r <= B * 2 ^ Zpos p →
  let r' := SpecFloat.iter_pos shr_1 p r in 0 <= shr_m r' ∧ shr_m r' * 2 ^ Zpos p <= shr_m r ∧ shr_up r' <= B.
Proof.
  rewrite iter_pos_iter. intros Hm. revert B. induction p as [|p IH] using Pos.peano_ind; intros B HB.
  - destruct (shr_1_spec r Hm) as (? & ? & Hu). cbn [Pos.iter] in *. change (2 ^ 1) with 2 in *. rewrite Hu.
    split; [done|]. split; [lia|]. apply Z.lt_succ_r, Z.div_lt_upper_bound; lia.
  - rewrite Pos.iter_succ. rewrite Pos2Z.inj_succ, Z.pow_succ_r in * by lia.
    destruct (IH (2 * B)) as (H1 & H2 & H3); [lia|]. destruct (shr_1_spec _ H1) as (? & ? & Hu). cbn zeta. rewrite Hu.
    split; [done|]. split; [|apply Z.lt_succ_r, Z.div_lt_upper_bound; lia].
    pose proof (Z.pow_pos_nonneg 2 (Zpos p)). nia.
Qed.

Lemma shr_spec m l e n B :
  0 <= m → (n <= 0 → shr_up (shr_record_of_loc m l) <= B) →
  (0 < n → shr_up (shr_record_of_loc m l) <= B * 2 ^ n) →
  let r := shr (shr_record_of_loc m l) e n in
  r.2 = e + Z.max 0 n ∧ 0 <= shr_m r.1 ∧ shr_m r.1 * 2 ^ Z.max 0 n <= m ∧ shr_up r.1 <= B.
Proof.
  intros Hm H0 H1. assert (Hr : shr_m (shr_record_of_loc m l) = m) by by destruct l as [|[]].
  destruct n as [|p|p]; cbn [shr fst snd].
  - rewrite Hr. change (2 ^ Z.max 0 0) with 1. repeat split; try lia; by apply H0.
  - destruct (shr_iter p (shr_record_of_loc m l) B) as (? & ? & ?); [lia|by apply H1|]. rewrite Hr in *.
    replace (Z.max 0 (Zpos p)) with (Zpos p) by lia. done.
  - rewrite Hr. replace (Z.max 0 (Zneg p)) with 0 by lia. change (2 ^ 0) with 1. repeat split; try lia; by apply H0.
Qed.

Lemma round_le_up r :
  0 <= shr_m r →
  let z := round_nearest_even (shr_m r) (loc_of_shr_record r) in shr_m r <= z <= shr_up r.
Proof.
  destruct r as [m r s]. unfold shr_up. cbn [shr_m shr_r shr_s]. intros Hm.
  destruct r, s; cbn [loc_of_shr_record round_nearest_even orb Z.b2z]; try lia. destruct (Z.even m); lia.
Qed.

(** ** Digits *)

(** A number below [2^(24 + EB)] has its last place at [EB] or below. *)
Lemma fexp_le m e MB EB :
  0 < m → -300 <= e → 0 <= MB < 2 ^ 24 → -149 <= EB → m * 2 ^ (e + 300) <= MB * 2 ^ (EB + 300) →
  -149 <= fexp 24 128 (Zdigits2 m + e) <= EB.
Proof.
  intros Hm He HMB HEB Hle. unfold fexp, emin. split; [lia|]. apply Z.max_lub; [|lia].
  destruct m as [|p|p]; [lia| |lia]. cbn [Zdigits2]. pose proof (digits2_bounds p) as [Hd _].
  set (d := Zpos (digits2_pos p)) in *. assert (1 <= d) by (subst d; lia).
  assert (d - 1 + (e + 300) < 24 + (EB + 300)); [|lia].
  apply (Z.pow_lt_mono_r_iff 2); [lia|lia|].
  rewrite (Z.pow_add_r 2 (d - 1) (e + 300)), (Z.pow_add_r 2 24 (EB + 300)) by lia.
  apply (Z.le_lt_trans _ (Zpos p * 2 ^ (e + 300))); [apply Z.mul_le_mono_nonneg_r; [apply Z.pow_nonneg; lia|done]|].
  apply (Z.le_lt_trans _ _ _ Hle). apply Z.mul_lt_mono_pos_r; [apply Z.pow_pos_nonneg; lia|lia].
Qed.

(** ** Rounding *)

Lemma f32_round_ub m e MB EB :
  0 < m → -300 <= e <= 104 → 0 <= MB < 2 ^ 24 → -149 <= EB <= 104 → m * 2 ^ (e + 300) <= MB * 2 ^ (EB + 300) →
  f32_ub (binary_round_aux 24 128 false m e loc_Exact) (MB * 2 ^ (EB + 300)).
Proof.
  intros Hm He HMB HEB Hle. unfold binary_round_aux, shr_fexp.
  pose proof (fexp_le m e MB EB Hm ltac:(lia) HMB ltac:(lia) Hle) as Hf.
  set (n := fexp 24 128 (Zdigits2 m + e) - e) in *.
  (* the bound in units of the first exponent *)
  set (B := if decide (n <= 0) then m else MB * 2 ^ (EB - (e + n))).
  destruct (shr_spec m loc_Exact e n B) as (He1 & Hm1 & _ & Hu1); [lia| | |].
  { intros Hn. subst B. rewrite decide_True by done. unfold shr_up. cbn. lia. }
  { intros Hn. subst B. rewrite decide_False by lia. unfold shr_up. cbn [shr_record_of_loc shr_m shr_r shr_s orb Z.b2z].
    rewrite Z.add_0_r, <- Z.mul_assoc, <- Z.pow_add_r by lia.
    apply (Z.mul_le_mono_pos_r _ _ (2 ^ (e + 300))); [apply Z.pow_pos_nonneg; lia|].
    rewrite <- Z.mul_assoc, <- Z.pow_add_r by lia. by replace (EB - (e + n) + n + (e + 300)) with (EB + 300) by lia. }
  destruct (shr (shr_record_of_loc m loc_Exact) e n) as [r1 e1]. cbn [fst snd] in *.
  pose proof (round_le_up r1 Hm1) as Hr. cbn zeta in Hr. set (m1 := round_nearest_even _ _) in *.
  assert (Hle1 : m1 * 2 ^ (e1 + 300) <= MB * 2 ^ (EB + 300)).
  { subst e1. apply (Z.le_trans _ (B * 2 ^ (e + Z.max 0 n + 300))).
    { apply Z.mul_le_mono_nonneg_r; [apply Z.pow_nonneg; lia|lia]. }
    subst B. destruct (decide (n <= 0)).
    - by replace (e + Z.max 0 n + 300) with (e + 300) by lia.
    - rewrite <- Z.mul_assoc, <- Z.pow_add_r by lia.
      by replace (EB - (e + n) + (e + Z.max 0 n + 300)) with (EB + 300) by lia. }
  assert (He1' : -149 <= e1 <= 104) by lia.
  set (n2 := fexp 24 128 (Zdigits2 m1 + e1) - e1).
  destruct (shr_spec m1 loc_Exact e1 n2 m1) as (He2 & Hm2 & Hle2 & _); [lia| | |].
  { intros _. unfold shr_up. cbn. lia. }
  { intros Hn. unfold shr_up. cbn. pose proof (Z.pow_pos_nonneg 2 n2). nia. }
  destruct (shr (shr_record_of_loc m1 loc_Exact) e1 n2) as [r2 e2]. cbn [fst snd] in *.
  destruct (shr_m r2) as [|p|p]; [cbn; apply Z.mul_nonneg_nonneg; [lia|apply Z.pow_nonneg; lia]| |lia].
  assert (0 < m1) by (pose proof (Z.pow_pos_nonneg 2 (Z.max 0 n2)); nia).
  pose proof (fexp_le m1 e1 MB EB ltac:(lia) ltac:(lia) HMB ltac:(lia) Hle1) as Hf2.
  rewrite (proj2 (Z.leb_le e2 (128 - 24))) by lia. cbn [f32_ub]. split; [lia|].
  apply (Z.le_trans _ (m1 * 2 ^ (e1 + 300))); [|done]. rewrite He2.
  replace (e1 + Z.max 0 n2 + 300) with (Z.max 0 n2 + (e1 + 300)) by lia.
  rewrite Z.pow_add_r, Z.mul_assoc by lia. apply Z.mul_le_mono_nonneg_r; [apply Z.pow_nonneg; lia|done].
Qed.

(** ** The operations *)

(** Aligning to a lower exponent keeps the value. *)
Lemma shl_align_spec m e e' :
  let r := shl_align m e e' in r.2 = Z.min e e' ∧ Zpos r.1 = Zpos m * 2 ^ (e - Z.min e e').
Proof.
  unfold shl_align. destruct (e' - e) as [|d|d] eqn:Hd; cbn [fst snd];
    [replace (Z.min e e') with e by lia; rewrite Z.sub_diag; lia..|].
  replace (Z.min e e') with e' by lia. rewrite iter_xO. split; [done|]. do 2 f_equal. lia.
Qed.

Lemma f32_normalize_ub m e MB EB s :
  0 <= m → -149 <= e <= 104 → 0 <= MB < 2 ^ 24 → -149 <= EB <= 104 → m * 2 ^ (e + 300) <= MB * 2 ^ (EB + 300) →
  f32_ub (binary_normalize 24 128 m e s) (MB * 2 ^ (EB + 300)).
Proof.
  intros Hm He HMB HEB Hle. destruct m as [|p|p]; [cbn; apply Z.mul_nonneg_nonneg; [lia|apply Z.pow_nonneg; lia]| |lia].
  cbn [binary_normalize]. unfold binary_round.
  pose proof (fexp_le (Zpos p) e MB EB ltac:(lia) ltac:(lia) HMB ltac:(lia) Hle) as Hf. cbn [Zdigits2] in Hf.
  pose proof (shl_align_spec p e (fexp 24 128 (Zpos (digits2_pos p) + e))) as Ha. cbn zeta in Ha.
  destruct (shl_align p e _) as [mz ez]. cbn [fst snd] in Ha. destruct Ha as [-> Hv].
  apply f32_round_ub; try lia. rewrite Hv, <- Z.mul_assoc, <- Z.pow_add_r by lia.
  by replace (e - Z.min e (fexp 24 128 (Zpos (digits2_pos p) + e)) +
              (Z.min e (fexp 24 128 (Zpos (digits2_pos p) + e)) + 300)) with (e + 300) by lia.
Qed.

Lemma f32_of_Z_ub z : 0 <= z < 2 ^ 24 → f32_ub (f32_of_Z z) (z * 2 ^ 300).
Proof. intros Hz. change 300 with (0 + 300). by apply f32_normalize_ub; lia. Qed.

Lemma f32_add_ub x y X Y MB EB :
  f32_ub x X → f32_ub y Y → 0 <= MB < 2 ^ 24 → -149 <= EB <= 104 → X + Y <= MB * 2 ^ (EB + 300) →
  f32_ub (f32_add x y) (MB * 2 ^ (EB + 300)).
Proof.
  intros Hx Hy HMB HEB Hle. pose proof (f32_ub_nonneg _ _ Hx). pose proof (f32_ub_nonneg _ _ Hy). unfold f32_add.
  destruct x as [sx| | |[] mx ex], y as [sy| | |[] my ey]; cbn [SFadd f32_ub] in *; try done.
  - destruct sx, sy; cbn [f32_ub]; lia.
  - split; lia.
  - split; lia.
  - destruct Hx as [Hex Hx], Hy as [Hey Hy]. cbn [cond_Zopp].
    destruct (shl_align_spec mx ex (Z.min ex ey)) as [_ Hvx], (shl_align_spec my ey (Z.min ex ey)) as [_ Hvy].
    apply f32_normalize_ub; try lia. rewrite Hvx, Hvy, Z.mul_add_distr_r, <- !Z.mul_assoc, <- !Z.pow_add_r by lia.
    replace (ex - Z.min ex (Z.min ex ey) + (Z.min ex ey + 300)) with (ex + 300) by lia.
    replace (ey - Z.min ey (Z.min ex ey) + (Z.min ex ey + 300)) with (ey + 300) by lia. lia.
Qed.

Lemma f32_mul_ub x y X Y MB EB :
  f32_ub x X → f32_ub y Y → X <= 2 ^ 352 → Y <= 2 ^ 352 → 0 <= MB < 2 ^ 24 → -149 <= EB <= 104 →
  X * Y <= MB * 2 ^ (EB + 300) * 2 ^ 300 →
  f32_ub (f32_mul x y) (MB * 2 ^ (EB + 300)).
Proof.
  intros Hx Hy HX HY HMB HEB Hle.
  assert (HB : 0 <= MB * 2 ^ (EB + 300)) by (apply Z.mul_nonneg_nonneg; [lia|apply Z.pow_nonneg; lia]).
  unfold f32_mul. destruct x as [sx| | |[] mx ex], y as [sy| | |[] my ey]; cbn [SFmul xorb f32_ub] in *; try done.
  destruct Hx as [Hex Hx], Hy as [Hey Hy].
  assert (Hsmall : ∀ m e N, Zpos m * 2 ^ (e + 300) <= N → N <= 2 ^ 352 → -149 <= e → e <= 52).
  { intros m e N H1 H2 He. assert (e + 300 <= 352); [|lia]. apply (Z.pow_le_mono_r_iff 2); [lia|lia|].
    apply (Z.le_trans _ (Zpos m * 2 ^ (e + 300))); [|lia]. pose proof (Z.pow_pos_nonneg 2 (e + 300)). nia. }
  pose proof (Hsmall _ _ _ Hx HX ltac:(lia)). pose proof (Hsmall _ _ _ Hy HY ltac:(lia)).
  apply f32_round_ub; try lia. apply (Z.mul_le_mono_pos_r _ _ (2 ^ 300)); [done|].
  apply (Z.le_trans _ (X * Y)); [|done].
  replace (Zpos (mx * my) * 2 ^ (ex + ey + 300) * 2 ^ 300) with ((Zpos mx * 2 ^ (ex + 300)) * (Zpos my * 2 ^ (ey + 300))).
  - apply Z.mul_le_mono_nonneg; [|done| |done]; apply Z.mul_nonneg_nonneg; try lia; apply Z.pow_nonneg; lia.
  - rewrite Pos2Z.inj_mul. rewrite <- (Z.mul_assoc _ (2 ^ (ex + ey + 300))), <- Z.pow_add_r by lia.
    replace (ex + ey + 300 + 300) with ((ex + 300) + (ey + 300)) by lia. rewrite (Z.pow_add_r 2 (ex + 300)) by lia. ring.
Qed.

(** The cast to an integer is defined and does not exceed the bound. *)
Lemma f32_trunc_ub x N : f32_ub x N → ∃ z, f32_trunc x = Some z ∧ 0 <= z ∧ z * 2 ^ 300 <= N.
Proof.
  destruct x as [| | |[] m e]; cbn [f32_ub f32_trunc]; try done; [by exists 0|]. intros [He Hle].
  destruct (Z.leb_spec 0 e).
  - exists (Zpos m * 2 ^ e). split; [done|]. split; [apply Z.mul_nonneg_nonneg; [lia|apply Z.pow_nonneg; lia]|].
    by rewrite <- Z.mul_assoc, <- Z.pow_add_r by lia.
  - exists (Zpos m / 2 ^ (- e)). split; [done|]. split; [apply Z.div_pos; [lia|apply Z.pow_pos_nonneg; lia]|].
    apply (Z.le_trans _ (Zpos m * 2 ^ (e + 300))); [|done].
    replace 300 with (- e + (e + 300)) at 1 by lia. rewrite Z.pow_add_r, Z.mul_assoc by lia.
    apply Z.mul_le_mono_nonneg_r; [apply Z.pow_nonneg; lia|]. rewrite Z.mul_comm. apply Z.mul_div_le. apply Z.pow_pos_nonneg; lia.
Qed.
