(* ===== verification/LinkQuality.v ===== *)
(** * Link supervision: [link_score.c] and [link_quality.c]

    Models src/src/network/link_score.{h,c}, the pure score with its smoothing and
    hysteresis, and src/src/network/link_quality.c, which collects the events of
    three sliding windows in rings of sixteen time stamps, steps the score every
    five seconds, mirrors the Net_* datapoints and reports the edges and the
    samples.  Events, alerts and records raised by a step are collected as a list.
    Time is the uptime in seconds.  LinkQualityProps holds the theorems. *)

From Stdlib Require Import SpecFloat.
From S2P Require Import Prelude Bytes Float32 DpCatalog Datapoints PumpTask.
Local Open Scope string_scope.
Local Open Scope list_scope.
Local Open Scope Z_scope.

(** ** The score *)

Definition LINK_SCORE_POOR_BELOW : Z := 40.
Definition LINK_SCORE_GOOD_ABOVE : Z := 55.
Definition LINK_SCORE_EMA_ALPHA : f32 := f32_lit 3 10.

Record link_inputs_t := mk_inputs {
  rssi_dbm : Z;
  wlan_disconnects_1h : Z;
  session_drops_1h : Z;
  tx_fails_5m : Z
}.

Record link_state_t := mk_link_state { score_ema : f32; poor : bool }.

Definition link_state_init : link_state_t := mk_link_state (f32_of_Z 100) false.

Definition rssi_base (rssi : Z) : Z :=
  if rssi =? 0 then 0
  else if -60 <=? rssi then 100
  else if rssi <=? -90 then 0
  else Z.quot ((rssi + 90) * 100) 30.

Definition cap (v lo : Z) : Z := if v <? lo then lo else v.

Definition link_raw_score (i : link_inputs_t) : Z :=
  let score := rssi_base (rssi_dbm i) in
  let score := score + cap (-15 * wlan_disconnects_1h i) (-30) in
  let score := score + cap (-10 * session_drops_1h i) (-30) in
  let score := score + cap (-2 * tx_fails_5m i) (-20) in
  let score := if score <? 0 then 0 else score in
  if 100 <? score then 100 else score.

(** Smoothing and hysteresis. *)
Definition link_smooth (st : link_state_t) (score : Z) : link_state_t :=
  let ema := f32_add (f32_mul LINK_SCORE_EMA_ALPHA (f32_of_Z score))
               (f32_mul (f32_sub (f32_of_Z 1) LINK_SCORE_EMA_ALPHA) (score_ema st)) in
  mk_link_state ema
    (if poor st then if f32_gt ema (f32_of_Z LINK_SCORE_GOOD_ABOVE) then false else true
     else if f32_lt ema (f32_of_Z LINK_SCORE_POOR_BELOW) then true else false).

(** The raw score and the new state. *)
Definition link_score_step (st : link_state_t) (i : link_inputs_t) : Z * link_state_t :=
  (u8 (link_raw_score i), link_smooth st (link_raw_score i)).

(** ** The rings *)

Definition LQ_EVENT_RING : Z := 16.
Definition LQ_WIN_HOUR_S : Z := 3600.
Definition LQ_WIN_5MIN_S : Z := 300.
Definition LQ_SAMPLE_GOOD_S : Z := 60.
Definition LQ_SAMPLE_POOR_S : Z := 120.

Record lq_ring_t := mk_lq_ring { aulTs : list Z; ucIdx : Z }.

Definition lq_ring_zero : lq_ring_t := mk_lq_ring (replicate (Z.to_nat LQ_EVENT_RING) 0) 0.

Definition ring_push (r : lq_ring_t) (ulNow : Z) : res lq_ring_t :=
  ts ← array_set (aulTs r) (ucIdx r) (if ulNow =? 0 then 1 else ulNow);
  Ok (mk_lq_ring ts ((ucIdx r + 1) mod LQ_EVENT_RING)).

Definition in_window (ulNow ulWinS t : Z) : bool := negb (t =? 0) && (u32 (ulNow - t) <=? ulWinS).

Definition ring_count (r : lq_ring_t) (ulNow ulWinS : Z) : Z :=
  u8 (zlen (filter (λ t, in_window ulNow ulWinS t = true) (aulTs r))).

(** [for (; prev < cur; prev++) ring_push(r, now)]; the new ring and counter. *)
Fixpoint ring_fold (fuel : nat) (r : lq_ring_t) (prev cur ulNow : Z) : res (lq_ring_t * Z) :=
  if prev <? cur then
    match fuel with
    | O => OutOfFuel
    | S fuel => r ← ring_push r ulNow; ring_fold fuel r (prev + 1) cur ulNow
    end
  else Ok (r, prev).

(** ** State *)

Record link_quality := mk_link_quality {
  lq_score : link_state_t;
  s_stWlanDrops : lq_ring_t;
  s_stSessDrops : lq_ring_t;
  s_stTxFails : lq_ring_t;
  s_ulPrevWlanDrops : Z;
  s_ulPrevTxFail : Z;
  s_ulSessionDrops : Z;
  lq_session_up : bool;
  s_ulOfflineStartS : Z;
  s_ulOfflineTotalS : Z;
  s_ulLastOfflineS : Z;
  s_ulLastSampleS : Z;
  s_bPoorReported : bool;
  s_ulTestPoorUntilS : Z
}.
#[export] Instance eta_link_quality : Eta link_quality := λ r, mk_link_quality
      (lq_score r) (s_stWlanDrops r) (s_stSessDrops r) (s_stTxFails r)
      (s_ulPrevWlanDrops r) (s_ulPrevTxFail r) (s_ulSessionDrops r) (lq_session_up r)
      (s_ulOfflineStartS r) (s_ulOfflineTotalS r) (s_ulLastOfflineS r)
      (s_ulLastSampleS r) (s_bPoorReported r) (s_ulTestPoorUntilS r).
#[export] Instance set_lq_score : Setter lq_score. Proof. mk_setter. Defined.
#[export] Instance set_s_stWlanDrops : Setter s_stWlanDrops. Proof. mk_setter. Defined.
#[export] Instance set_s_stSessDrops : Setter s_stSessDrops. Proof. mk_setter. Defined.
#[export] Instance set_s_stTxFails : Setter s_stTxFails. Proof. mk_setter. Defined.
#[export] Instance set_s_ulPrevWlanDrops : Setter s_ulPrevWlanDrops. Proof. mk_setter. Defined.
#[export] Instance set_s_ulPrevTxFail : Setter s_ulPrevTxFail. Proof. mk_setter. Defined.
#[export] Instance set_s_ulSessionDrops : Setter s_ulSessionDrops. Proof. mk_setter. Defined.
#[export] Instance set_lq_session_up : Setter lq_session_up. Proof. mk_setter. Defined.
#[export] Instance set_s_ulOfflineStartS : Setter s_ulOfflineStartS. Proof. mk_setter. Defined.
#[export] Instance set_s_ulOfflineTotalS : Setter s_ulOfflineTotalS. Proof. mk_setter. Defined.
#[export] Instance set_s_ulLastOfflineS : Setter s_ulLastOfflineS. Proof. mk_setter. Defined.
#[export] Instance set_s_ulLastSampleS : Setter s_ulLastSampleS. Proof. mk_setter. Defined.
#[export] Instance set_s_bPoorReported : Setter s_bPoorReported. Proof. mk_setter. Defined.
#[export] Instance set_s_ulTestPoorUntilS : Setter s_ulTestPoorUntilS. Proof. mk_setter. Defined.

Inductive lq_out :=
  | LqEvent (payload : list Z)
  | LqLinkPoor (score rssi : Z)
  | LqLinkRecovered (score rssi : Z)
  | LqAlert (score : Z)
  | LqSample (rssi score txfail drops : Z).

(** Static storage, then [link_quality_init]. *)
Definition link_quality_init : link_quality :=
  mk_link_quality link_state_init lq_ring_zero lq_ring_zero lq_ring_zero 0 0 0 false 0 0 0 0 false 0.

(** [up_s]. *)
Definition up_s (timer_us : Z) : Z := u32 (timer_us / 1000000).

Definition on_session_edge (s : link_quality) (ready : bool) (ulNow : Z) : res link_quality :=
  if ready then
    let s := if negb (lq_session_up s) && negb (s_ulOfflineStartS s =? 0)
             then s <| s_ulLastOfflineS := u32 (ulNow - s_ulOfflineStartS s) |> else s in
    Ok (s <| lq_session_up := true |>)
  else
    r ← ring_push (s_stSessDrops s) ulNow;
    Ok (s <| lq_session_up := false |> <| s_ulOfflineStartS := ulNow |>
          <| s_ulSessionDrops := u32 (s_ulSessionDrops s + 1) |> <| s_stSessDrops := r |>).

Definition link_quality_poor_get (s : link_quality) : bool := poor (lq_score s).

Definition link_quality_test_poor_set (s : link_quality) (ulSeconds ulNow : Z) : link_quality :=
  s <| s_ulTestPoorUntilS := u32 (ulNow + ulSeconds) |>.

(** The cast of the smoothed score, undefined outside the range of the type. *)
Definition f32_to_u8 (a : f32) : res Z :=
  z ← of_option (f32_trunc a); if decide (0 <= z < 256) then Ok z else OutOfBounds.

(** The counters are folded into the windows; offline time accumulates. *)
Definition tick_collect (s : link_quality) (ulNow ulWlan ulTxFail : Z) : res link_quality :=
  w ← ring_fold (Z.to_nat (ulWlan - s_ulPrevWlanDrops s)) (s_stWlanDrops s) (s_ulPrevWlanDrops s) ulWlan ulNow;
  t ← ring_fold (Z.to_nat (ulTxFail - s_ulPrevTxFail s)) (s_stTxFails s) (s_ulPrevTxFail s) ulTxFail ulNow;
  let s := s <| s_stWlanDrops := w.1 |> <| s_ulPrevWlanDrops := w.2 |>
             <| s_stTxFails := t.1 |> <| s_ulPrevTxFail := t.2 |> in
  Ok (if negb (lq_session_up s) then s <| s_ulOfflineTotalS := u32 (s_ulOfflineTotalS s + 5) |> else s).

(** [ap]: the signal strength of the access point, if associated. *)
Definition tick_inputs (s : link_quality) (ulNow : Z) (ap : option Z) : link_inputs_t :=
  mk_inputs (default 0 ap) (ring_count (s_stWlanDrops s) ulNow LQ_WIN_HOUR_S)
    (ring_count (s_stSessDrops s) ulNow LQ_WIN_HOUR_S) (ring_count (s_stTxFails s) ulNow LQ_WIN_5MIN_S).

(** The step of the score and the injected degradation. *)
Definition tick_score (s : link_quality) (i : link_inputs_t) (ulNow : Z) : link_quality :=
  let s := s <| lq_score := (link_score_step (lq_score s) i).2 |> in
  if negb (s_ulTestPoorUntilS s =? 0) then
    if ulNow <? s_ulTestPoorUntilS s then s <| lq_score := mk_link_state (f32_of_Z 10) true |>
    else s <| s_ulTestPoorUntilS := 0 |>
  else s.

(** The datapoints a tick assigns. *)
Definition tick_mirror (s : link_quality) (ucScore ulTxFail : Z) : list (string * dp_const) :=
  [("Net_Link_Score", CInt ucScore);
   ("Net_Link_State", CInt (if poor (lq_score s) then 1 else 0));
   ("Net_Session_Drops", CInt (s_ulSessionDrops s));
   ("Net_Send_Fail_Count", CInt ulTxFail);
   ("Net_Offline_Seconds", CInt (s_ulOfflineTotalS s));
   ("Net_Last_Offline_S", CInt (s_ulLastOfflineS s))].

(** The edge of the state. *)
Definition tick_edge (s : link_quality) (bWasPoor : bool) (ucScore rssi : Z) : link_quality * list lq_out :=
  if eqb (poor (lq_score s)) bWasPoor then (s, [])
  else if poor (lq_score s) then
    let alert := lq_session_up s && negb (s_bPoorReported s) in
    (if alert then s <| s_bPoorReported := true |> else s,
     [LqEvent [1]; LqLinkPoor ucScore rssi] ++ (if alert then [LqAlert ucScore] else []))
  else (s <| s_bPoorReported := false |>, [LqEvent [0]; LqLinkRecovered ucScore rssi]).

(** The record of the time series. *)
Definition tick_sample (s : link_quality) (ulNow ucScore rssi ulTxFail : Z) : link_quality * list lq_out :=
  let ulRate := if poor (lq_score s) then LQ_SAMPLE_POOR_S else LQ_SAMPLE_GOOD_S in
  if ulRate <=? u32 (ulNow - s_ulLastSampleS s) then
    (s <| s_ulLastSampleS := ulNow |>, [LqSample rssi ucScore ulTxFail (s_ulSessionDrops s)])
  else (s, []).

Definition link_quality_tick (s : link_quality) (img : list Z) (ulNow ulWlan ulTxFail : Z) (ap : option Z)
    : res (link_quality * list Z * list lq_out) :=
  s ← tick_collect s ulNow ulWlan ulTxFail;
  let i := tick_inputs s ulNow ap in
  let bWasPoor := poor (lq_score s) in
  let s := tick_score s i ulNow in
  ucScore ← f32_to_u8 (score_ema (lq_score s));
  img ← dp_refs_put img (tick_mirror s ucScore ulTxFail);
  let e := tick_edge s bWasPoor ucScore (rssi_dbm i) in
  let p := tick_sample e.1 ulNow ucScore (rssi_dbm i) ulTxFail in
  Ok (p.1, img, e.2 ++ p.2).

(** ** Runs *)

(** A session edge, a tick with the cumulative counters of the other components, or
    the injected degradation. *)
Inductive lq_op :=
  | OpEdge (ready : bool) (now : Z)
  | OpTick (now wlan txfail : Z) (ap : option Z)
  | OpTestPoor (seconds now : Z).

Definition lq_step (si : link_quality * list Z) (o : lq_op) : res (link_quality * list Z * list lq_out) :=
  let '(s, img) := si in
  match o with
  | OpEdge ready now => s ← on_session_edge s ready now; Ok (s, img, [])
  | OpTick now wlan txfail ap => link_quality_tick s img now wlan txfail ap
  | OpTestPoor secs now => Ok (link_quality_test_poor_set s secs now, img, [])
  end.

Fixpoint lq_run (si : link_quality * list Z) (ops : list lq_op) : res (link_quality * list Z * list lq_out) :=
  match ops with
  | [] => Ok (si, [])
  | o :: ops => r ← lq_step si o; r' ← lq_run r.1 ops; Ok (r'.1, r.2 ++ r'.2)
  end.
