(* ===== verification/LinkQualityProps.v ===== *)
(** * Properties of the link supervision

    Over LinkQuality: a ring holds the last sixteen time stamps in order
    ([ring_repr]), so a count is the true number of events in the window, up to
    sixteen, and the caps of the score make that limit unobservable
    ([score_counts_every_event]); the smoothed score stays between 0 and 100.5 in
    binary32 arithmetic, so its cast to a byte is defined. *)

From Stdlib Require Import SpecFloat Sorting.Sorted.
From S2P Require Import Prelude Bytes Float32 Float64 FloatBounds DpCatalog Datapoints DpProps PumpTask PumpTaskProps LinkQuality.
Local Open Scope string_scope.
Local Open Scope list_scope.
Local Open Scope Z_scope.

(** ** What was observed *)

(** The stamp of an event: zero marks a free place. *)
Definition stamp (now : Z) : Z := if now =? 0 then 1 else now.

(** Every event that a run was told of, oldest first, and the last values of the
    two cumulative counters. *)
Record lq_hist := mk_hist { h_wlan : list Z; h_sess : list Z; h_tx : list Z; h_pw : Z; h_pt : Z }.

Definition observe (h : lq_hist) (o : lq_op) : lq_hist :=
  match o with
  | OpEdge true _ | OpTestPoor _ _ => h
  | OpEdge false now => mk_hist (h_wlan h) (h_sess h ++ [stamp now]) (h_tx h) (h_pw h) (h_pt h)
  | OpTick now wlan txfail _ =>
      mk_hist (h_wlan h ++ replicate (Z.to_nat (wlan - h_pw h)) (stamp now)) (h_sess h)
        (h_tx h ++ replicate (Z.to_nat (txfail - h_pt h)) (stamp now)) (Z.max (h_pw h) wlan) (Z.max (h_pt h) txfail)
  end.

Definition observed (ops : list lq_op) : lq_hist := foldl observe (mk_hist [] [] [] 0 0) ops.

(** The events of the last [win] seconds. *)
Definition in_last (win now : Z) (l : list Z) : Z :=
  zlen (filter (λ t, t <= now ∧ now - t <= win) l).

(** The base as the header states it: none without an access point (a signal of 0),
    else the share of the way from -90 dBm to -60 dBm in whole per cent. *)
Definition documented_base (rssi : Z) : Z :=
  if rssi =? 0 then 0 else Z.max 0 (Z.min 100 (100 * (rssi - -90) / (-60 - -90))).

(** The score as the header states it. *)
Definition documented_score (rssi wlan sess tx : Z) : Z :=
  Z.max 0 (documented_base rssi - Z.min 30 (15 * wlan) - Z.min 30 (10 * sess) - Z.min 20 (2 * tx)).

(** The clock does not go back, from [t0] on. *)
Definition op_time (o : lq_op) : Z :=
  match o with OpEdge _ now | OpTick now _ _ _ | OpTestPoor _ now => now end.
Fixpoint clock_ok (t0 : Z) (ops : list lq_op) : Prop :=
  match ops with [] => True | o :: ops => t0 <= op_time o < 2 ^ 32 ∧ clock_ok (op_time o) ops end.

(** ** Rings *)

Lemma app_cons_snoc {A} (l k : list A) x : l ++ x :: k = (l ++ [x]) ++ k.
Proof. by rewrite <- app_assoc. Qed.

(** The places in the order in which they were written. *)
Definition chron (r : lq_ring_t) : list Z := drop (Z.to_nat (ucIdx r)) (aulTs r) ++ take (Z.to_nat (ucIdx r)) (aulTs r).

Record ring_repr (r : lq_ring_t) (hist : list Z) : Prop := {
  rr_len : length (aulTs r) = 16%nat;
  rr_idx : 0 <= ucIdx r < 16;
  rr_chron : chron r = drop (length hist) (replicate 16 0 ++ hist)
}.

(** The stamps of a history: positive, sorted, not after [now]. *)
Definition hist_ok (now : Z) (hist : list Z) : Prop :=
  Forall (λ t, 1 <= t <= stamp now) hist ∧ StronglySorted Z.le hist.

Lemma ring_repr_zero : ring_repr lq_ring_zero [].
Proof. split; [done|cbn; lia|done]. Qed.

Lemma ring_push_refines r hist now :
  ring_repr r hist → ∃ r', ring_push r now = Ok r' ∧ ring_repr r' (hist ++ [stamp now]).
Proof.
  intros [Hl Hi Hc]. unfold ring_push. fold (stamp now). rewrite array_set_ok by lia. cbn [mbind res_bind].
  eexists. split; [done|]. set (x := stamp now) in *. destruct r as [ts idx]. cbn [aulTs ucIdx] in *.
  assert (Hd : drop (length (hist ++ [x])) (replicate 16 0 ++ hist ++ [x]) = tail (chron (mk_lq_ring ts idx)) ++ [x]).
  { rewrite Hc, length_app, Nat.add_comm, app_assoc. cbn [length Nat.add].
    rewrite drop_app_le by (rewrite length_app, length_replicate; lia).
    f_equal. replace (S (length hist)) with (length hist + 1)%nat by lia. rewrite <- drop_drop.
    by destruct (drop (length hist) (replicate 16 0 ++ hist)). }
  split; cbn [aulTs ucIdx]; [by rewrite length_insert|unfold LQ_EVENT_RING; apply Z.mod_pos_bound; lia|].
  rewrite Hd. unfold chron, LQ_EVENT_RING. cbn [aulTs ucIdx].
  set (i := Z.to_nat idx). assert (Hi' : (i < 16)%nat) by lia.
  destruct (lookup_lt_is_Some_2 ts i) as [y Hy]; [lia|]. rewrite (drop_S ts y i Hy). cbn [tail app].
  rewrite insert_take_drop by lia. pose proof (length_take_le ts i ltac:(lia)) as Ht.
  destruct (decide (i = 15%nat)) as [E|Hne].
  - replace ((idx + 1) mod 16) with 0 by (replace idx with 15 by lia; done). cbn [Z.to_nat].
    rewrite drop_0, take_0, app_nil_r. by rewrite (drop_ge ts (S i)) by lia.
  - rewrite Z.mod_small by lia. replace (Z.to_nat (idx + 1)) with (S i) by lia.
    rewrite (app_cons_snoc (take i ts)), drop_app_length', take_app_length' by (rewrite length_app; cbn; lia).
    by rewrite app_assoc.
Qed.

(** ** Counting *)

Section counting.
Context (P : Z → Prop) `{∀ t, Decision (P t)}.

(** In a list where everything after an element that counts counts too, the last
    [len - k] elements hold that many of the counted ones, at most. *)
Lemma count_last l k :
  StronglySorted (λ a b, P a → P b) l →
  length (filter P (drop k l)) = ((length l - k) `min` length (filter P l))%nat.
Proof.
  intros Hs. revert k. induction Hs as [|x l Hs IH Hx]; intros k; [by rewrite drop_nil|].
  assert (Hall : P x → length (filter P l) = length l).
  { intros Hp. f_equal. clear IH Hs. induction Hx as [|y l Hy Hl IHl]; [done|].
    rewrite filter_cons_True by auto. by rewrite IHl. }
  pose proof (length_filter P l) as Hle. rewrite filter_cons. destruct k as [|k].
  - cbn [drop length]. rewrite filter_cons. case_decide; cbn [length]; lia.
  - cbn [drop length]. rewrite IH. case_decide as Hp; cbn [length]; [rewrite (Hall Hp)|]; lia.
Qed.
End counting.

Lemma zlen_filter_iff (P Q : Z → Prop) `{∀ t, Decision (P t)} `{∀ t, Decision (Q t)} l :
  (∀ t, t ∈ l → P t ↔ Q t) → zlen (filter P l) = zlen (filter Q l).
Proof.
  intros Hpq. unfold zlen. do 2 f_equal. induction l as [|x l IH]; [done|]. rewrite !filter_cons.
  rewrite IH by (intros t Ht; apply Hpq; by apply list_elem_of_further). pose proof (Hpq x ltac:(apply list_elem_of_here)).
  repeat case_decide; naive_solver.
Qed.

Lemma stamp_pos now : 0 <= now → 1 <= stamp now /\ now <= stamp now.
Proof. unfold stamp. destruct (Z.eqb_spec now 0); lia. Qed.

Lemma stamp_mono a b : 0 <= a <= b → stamp a <= stamp b.
Proof. unfold stamp. destruct (Z.eqb_spec a 0), (Z.eqb_spec b 0); lia. Qed.

(** The count of a ring is the number of events in the window, up to sixteen. *)
Lemma ring_count_events r hist now win :
  ring_repr r hist → hist_ok now hist → 0 <= now < 2 ^ 32 → 0 <= win < 2 ^ 32 - 1 →
  ring_count r now win = Z.min 16 (in_last win now hist).
Proof.
  intros [Hl Hi Hc] [Hb Hs] Hnow Hwin. unfold ring_count.
  assert (Hp : aulTs r ≡ₚ chron r).
  { unfold chron. rewrite <- (take_drop (Z.to_nat (ucIdx r)) (aulTs r)) at 1. apply Permutation_app_comm. }
  set (P := λ t, in_window now win t = true).
  assert (Hcount : length (filter P (aulTs r)) = (16 `min` length (filter P hist))%nat).
  { rewrite (Permutation_length (filter_Permutation P _ _ Hp)), Hc, count_last.
    - rewrite length_app, length_replicate, filter_app, length_app.
      replace (filter P (replicate 16 0)) with (@nil Z) by done. cbn [length]. lia.
    - assert (Hh : StronglySorted (λ a b, P a → P b) hist).
      { clear Hc. induction Hs as [|x l Hs IH Hx]; [constructor|]. apply Forall_cons in Hb as [Hbx Hb].
        constructor; [by apply IH|]. rewrite Forall_forall in *. intros y Hy. pose proof (Hx y Hy). pose proof (Hb y Hy).
        unfold P, in_window, stamp in *. rewrite !andb_true_iff, !negb_true_iff, !Z.eqb_neq, !Z.leb_le. cint_unfold.
        intros [_ Hw]. split; [lia|]. destruct (Z.eqb_spec now 0) as [->|].
        - assert (x = 1) by lia. assert (y = 1) by lia. subst. done.
        - rewrite Z.mod_small in * by lia. lia. }
      change (replicate 16 0 ++ hist) with (Nat.iter 16 (cons 0) hist). clear - Hh.
      generalize 16%nat. intros n. induction n as [|n IH]; [done|]. cbn [Nat.iter nat_rect]. constructor; [done|].
      rewrite Forall_forall. done. }
  assert (He : in_last win now hist = zlen (filter P hist)).
  { apply zlen_filter_iff. intros t Ht. rewrite Forall_forall in Hb. pose proof (Hb t Ht) as Hbt.
    unfold P, in_window, stamp in *. rewrite !andb_true_iff, !negb_true_iff, !Z.eqb_neq, !Z.leb_le. cint_unfold.
    destruct (Z.eqb_spec now 0) as [->|].
    - assert (t = 1) by lia. subst. match goal with |- context [?a mod ?b] => change (a mod b) with 4294967295 end. lia.
    - rewrite Z.mod_small by lia. lia. }
  rewrite He. fold P. unfold zlen. rewrite Hcount. rewrite u8_id; [lia|unfold is_u8; lia].
Qed.

(** ** The score *)

Lemma rssi_base_range r : 0 <= rssi_base r <= 100.
Proof.
  unfold rssi_base. repeat case_match; try lia. rewrite Z.quot_div_nonneg by lia.
  split; [apply Z.div_pos; lia|]. apply Z.div_le_upper_bound; lia.
Qed.

Lemma cap_max v lo : cap v lo = Z.max lo v.
Proof. unfold cap. destruct (Z.ltb_spec v lo); lia. Qed.

Lemma raw_score_clamp i :
  link_raw_score i = Z.max 0 (Z.min 100 (rssi_base (rssi_dbm i) + Z.max (-30) (-15 * wlan_disconnects_1h i)
    + Z.max (-30) (-10 * session_drops_1h i) + Z.max (-20) (-2 * tx_fails_5m i))).
Proof.
  unfold link_raw_score. rewrite !cap_max. cbn zeta. generalize (rssi_base (rssi_dbm i) + Z.max (-30) (-15 * wlan_disconnects_1h i)
    + Z.max (-30) (-10 * session_drops_1h i) + Z.max (-20) (-2 * tx_fails_5m i)). intros z.
  destruct (Z.ltb_spec z 0); [change (0 = Z.max 0 (Z.min 100 z)); lia|]. destruct (Z.ltb_spec 100 z); lia.
Qed.

Lemma rssi_base_documented rssi : rssi_base rssi = documented_base rssi.
Proof.
  unfold rssi_base, documented_base. destruct (rssi =? 0); [done|].
  destruct (Z.leb_spec (-60) rssi); [|destruct (Z.leb_spec rssi (-90))].
  - assert (100 <= 100 * (rssi - -90) / (-60 - -90)) by (apply Z.div_le_lower_bound; lia). lia.
  - assert (100 * (rssi - -90) / (-60 - -90) <= 0) by (apply Z.div_le_upper_bound; lia). lia.
  - rewrite Z.quot_div_nonneg by lia. replace ((rssi + 90) * 100) with (100 * (rssi - -90)) by lia. change (-60 - -90) with 30.
    pose proof (Z.div_pos (100 * (rssi - -90)) 30 ltac:(lia) ltac:(lia)).
    assert (100 * (rssi - -90) / 30 < 100) by (apply Z.div_lt_upper_bound; lia). lia.
Qed.

(** The caps hide that a ring counts to sixteen only. *)
Lemma raw_score_documented rssi w s t :
  0 <= w → 0 <= s → 0 <= t →
  link_raw_score (mk_inputs rssi (Z.min 16 w) (Z.min 16 s) (Z.min 16 t)) = documented_score rssi w s t.
Proof.
  intros Hw Hs Ht. pose proof (rssi_base_range rssi) as Hb. rewrite raw_score_clamp. unfold documented_score.
  rewrite <- rssi_base_documented. cbn. lia.
Qed.

Lemma raw_score_range i : 0 <= link_raw_score i <= 100.
Proof. rewrite raw_score_clamp. lia. Qed.

(** 100.5 bounds the smoothed score: 30.125 + 70.375. *)
Definition ema_bound : Z := 201 * 2 ^ (-1 + 300).

Lemma smooth_bound st score :
  f32_ub (score_ema st) ema_bound → 0 <= score <= 100 → f32_ub (score_ema (link_smooth st score)) ema_bound.
Proof.
  intros He Hr. cbn [link_smooth score_ema].
  apply (f32_add_ub _ _ (241 * 2 ^ (-3 + 300)) (563 * 2 ^ (-3 + 300))); [| |lia..|by apply Z.leb_le].
  - apply (f32_mul_ub _ _ (10066330 * 2 ^ (-25 + 300)) (100 * 2 ^ 300)); try lia; try (by apply Z.leb_le).
    + vm_compute. repeat split; discriminate.
    + eapply f32_ub_mono; [by apply f32_of_Z_ub; lia|lia].
  - apply (f32_mul_ub _ _ (11744051 * 2 ^ (-24 + 300)) ema_bound); try lia; try (by apply Z.leb_le); [|done].
    vm_compute. repeat split; discriminate.
Qed.

(** ** Runs *)

Lemma sorted_snocs l n x : StronglySorted Z.le l → Forall (λ y, y <= x) l → StronglySorted Z.le (l ++ replicate n x).
Proof.
  intros Hs Hl. induction Hs as [|y l Hs IH Hy]; cbn [app].
  - clear Hl. induction n as [|n IH]; cbn; constructor; [done|]. by apply Forall_replicate.
  - apply Forall_cons in Hl as [Hyx Hl]. constructor; [by apply IH|]. apply Forall_app. split; [done|]. by apply Forall_replicate.
Qed.

Lemma hist_ok_snocs t0 now hist n :
  0 <= t0 <= now → hist_ok t0 hist → hist_ok now (hist ++ replicate n (stamp now)).
Proof.
  intros Ht [Hb Hs]. pose proof (stamp_mono t0 now Ht). pose proof (stamp_pos now ltac:(lia)).
  split; [apply Forall_app; split; [|apply Forall_replicate; lia]|apply sorted_snocs; [done|]];
    eapply Forall_impl; try exact Hb; cbn; lia.
Qed.

Lemma hist_ok_later t0 now hist : 0 <= t0 <= now → hist_ok t0 hist → hist_ok now hist.
Proof. intros Ht H. rewrite <- (app_nil_r hist). by apply (hist_ok_snocs t0 now hist 0). Qed.

Lemma ring_fold_refines n r hist prev cur now :
  ring_repr r hist → n = Z.to_nat (cur - prev) →
  ∃ r', ring_fold n r prev cur now = Ok (r', Z.max prev cur) ∧ ring_repr r' (hist ++ replicate n (stamp now)).
Proof.
  revert r hist prev. induction n as [|n IH]; intros r hist prev Hr Hn; cbn [ring_fold].
  - rewrite (proj2 (Z.ltb_ge prev cur)) by lia. exists r. rewrite app_nil_r. split; [|done]. do 2 f_equal. lia.
  - rewrite (proj2 (Z.ltb_lt prev cur)) by lia. destruct (ring_push_refines r hist now Hr) as (r1 & -> & Hr1).
    cbn [mbind res_bind]. destruct (IH r1 _ (prev + 1) Hr1) as (r' & -> & Hr'); [lia|]. exists r'.
    split; [do 2 f_equal; lia|]. by rewrite <- app_assoc in Hr'.
Qed.

(** The state of a run that has seen [h] up to [now]. *)
Record lq_inv (now : Z) (s : link_quality) (h : lq_hist) : Prop := {
  li_wlan : ring_repr (s_stWlanDrops s) (h_wlan h) ∧ hist_ok now (h_wlan h);
  li_sess : ring_repr (s_stSessDrops s) (h_sess h) ∧ hist_ok now (h_sess h);
  li_tx : ring_repr (s_stTxFails s) (h_tx h) ∧ hist_ok now (h_tx h);
  li_pw : s_ulPrevWlanDrops s = h_pw h;
  li_pt : s_ulPrevTxFail s = h_pt h;
  li_ema : f32_ub (score_ema (lq_score s)) ema_bound
}.

Lemma lq_inv_init : lq_inv 0 link_quality_init (observed []).
Proof.
  split; cbn; try done; try (split; [apply ring_repr_zero|by split; constructor]).
Qed.

Lemma tick_collect_inv t0 s h now wlan txfail ap :
  lq_inv t0 s h → 0 <= t0 <= now →
  ∃ s', tick_collect s now wlan txfail = Ok s' ∧ lq_inv now s' (observe h (OpTick now wlan txfail ap)) ∧
    lq_score s' = lq_score s ∧ s_ulTestPoorUntilS s' = s_ulTestPoorUntilS s.
Proof.
  intros [[Hw Hwo] [Hs Hso] [Ht Hto] Hpw Hpt He] Hnow. unfold tick_collect.
  destruct (ring_fold_refines _ _ _ (s_ulPrevWlanDrops s) wlan now Hw eq_refl) as (w & -> & Hw'). cbn [mbind res_bind].
  destruct (ring_fold_refines _ _ _ (s_ulPrevTxFail s) txfail now Ht eq_refl) as (t & -> & Ht'). cbn [mbind res_bind fst snd].
  eexists. split; [done|]. rewrite Hpw, Hpt in *.
  destruct (negb _); (split; [|done]); split; cbn; try done; try (by rewrite ?Hpw, ?Hpt); split; try done;
    try (by eapply hist_ok_snocs); by eapply hist_ok_later.
Qed.

(** What a tick computes from what was observed. *)
Lemma tick_inputs_documented now s h ap :
  lq_inv now s h → 0 <= now < 2 ^ 32 →
  link_raw_score (tick_inputs s now ap) =
  documented_score (default 0 ap) (in_last 3600 now (h_wlan h)) (in_last 3600 now (h_sess h)) (in_last 300 now (h_tx h)).
Proof.
  intros [[Hw Hwo] [Hs Hso] [Ht Hto] _ _ _] Hnow. unfold tick_inputs, LQ_WIN_HOUR_S, LQ_WIN_5MIN_S.
  rewrite (ring_count_events _ _ _ _ Hw Hwo), (ring_count_events _ _ _ _ Hs Hso), (ring_count_events _ _ _ _ Ht Hto) by lia.
  apply raw_score_documented; unfold in_last, zlen; lia.
Qed.

Lemma tick_score_inv now s h i :
  lq_inv now s h →
  let s' := tick_score s i now in
  lq_inv now s' h ∧
  lq_score s' = (if (s_ulTestPoorUntilS s =? 0) || (s_ulTestPoorUntilS s <=? now)
                 then link_smooth (lq_score s) (link_raw_score i) else mk_link_state (f32_of_Z 10) true).
Proof.
  intros [Hw Hs Ht Hpw Hpt He]. pose proof (smooth_bound (lq_score s) (link_raw_score i) He (raw_score_range i)) as Hb.
  unfold tick_score. cbn [link_score_step snd]. cbn.
  destruct (Z.eqb_spec (s_ulTestPoorUntilS s) 0) as [E|E]; cbn; [by split|].
  destruct (Z.ltb_spec now (s_ulTestPoorUntilS s)) as [Hl|Hl]; cbn.
  - rewrite (proj2 (Z.leb_gt (s_ulTestPoorUntilS s) now)) by done. by split.
  - rewrite (proj2 (Z.leb_le (s_ulTestPoorUntilS s) now)) by done. by split.
Qed.

Lemma f32_to_u8_ub x : f32_ub x ema_bound → ∃ z, f32_trunc x = Some z ∧ f32_to_u8 x = Ok z ∧ 0 <= z <= 100.
Proof.
  intros (z & Hz & Hp & Hle)%f32_trunc_ub. exists z. unfold f32_to_u8. rewrite Hz. cbn [of_option mbind res_bind].
  unfold ema_bound in Hle. change (2 ^ 300) with (2 * 2 ^ (-1 + 300)) in Hle. rewrite Z.mul_assoc in Hle.
  apply Z.mul_le_mono_pos_r in Hle; [|done]. rewrite decide_True by lia. split_and!; [done..|lia].
Qed.

Lemma mirror_names s c f : forallb put_name (tick_mirror s c f) = true.
Proof. reflexivity. Qed.

Lemma mirror_nodup s c f : NoDup (tick_mirror s c f).*1.
Proof. apply (bool_decide_unpack _). vm_compute. exact I. Qed.

Lemma lq_inv_tail now s h b c r : lq_inv now s h → lq_inv now (tick_edge s b c r).1 h ∧ lq_score (tick_edge s b c r).1 = lq_score s.
Proof.
  intros H. unfold tick_edge. repeat case_match; cbn; (split; [|done]); try done; by destruct H.
Qed.

Lemma tick_sample_inv now s h t c r f : lq_inv now s h → lq_inv now (tick_sample s t c r f).1 h ∧ lq_score (tick_sample s t c r f).1 = lq_score s.
Proof. intros H. unfold tick_sample. destruct (_ <=? u32 _); cbn; (split; [|done]); by destruct H. Qed.

(** The score a tick should compute, with everything that was observed. *)
Definition score_of_history (h : lq_hist) (now : Z) (ap : option Z) : Z :=
  documented_score (default 0 ap) (in_last 3600 now (h_wlan h)) (in_last 3600 now (h_sess h)) (in_last 300 now (h_tx h)).

Record tick_spec (s : link_quality) (h : lq_hist) (now : Z) (ap : option Z) (s' : link_quality) (img' : list Z) : Prop := {
  tk_score : lq_score s' = (if (s_ulTestPoorUntilS s =? 0) || (s_ulTestPoorUntilS s <=? now)
                            then link_smooth (lq_score s) (score_of_history h now ap) else mk_link_state (f32_of_Z 10) true);
  tk_shown : ∃ z, f32_trunc (score_ema (lq_score s')) = Some z ∧ 0 <= z <= 100 ∧ ref_uint img' "Net_Link_Score" = Ok z;
  tk_state : ref_uint img' "Net_Link_State" = Ok (if poor (lq_score s') then 1 else 0)
}.

Lemma ref_uint_u8 img img' l name z :
  puts_spec l img img' → (name, CInt z) ∈ l → dd_type <$> dp_find name = Some DP_U8 → 0 <= z < 256 →
  ref_uint img' name = Ok z.
Proof.
  intros [_ Hp _] Hin Hf Hz. destruct (dp_find name) as [d|] eqn:E; [|done]. injection Hf as Hf.
  unfold ref_uint. rewrite (Hp name (CInt z) d Hin E), Hf. cbn [mbind res_bind const_bytes]. rewrite le_get_put. f_equal. by apply Z.mod_small.
Qed.

Lemma tick_ok t0 s h img now wlan txfail ap :
  lq_inv t0 s h → 0 <= t0 <= now → now < 2 ^ 32 → img_typed img →
  let h' := observe h (OpTick now wlan txfail ap) in
  ∃ s' img' out, link_quality_tick s img now wlan txfail ap = Ok (s', img', out) ∧
    lq_inv now s' h' ∧ img_typed img' ∧ tick_spec s h' now ap s' img'.
Proof.
  intros Hi Ht Hn Himg h'. destruct (tick_collect_inv t0 s h now wlan txfail ap Hi Ht) as (s1 & E1 & Hi1 & Hsc & Htp).
  fold h' in Hi1. unfold link_quality_tick. rewrite E1. cbn [mbind res_bind].
  pose proof (tick_inputs_documented now s1 h' ap Hi1 ltac:(lia)) as Hdoc.
  destruct (tick_score_inv now s1 h' (tick_inputs s1 now ap) Hi1) as [Hi2 Hs2].
  rewrite Hdoc, Hsc, Htp in Hs2. fold (score_of_history h' now ap) in Hs2.
  set (s2 := tick_score s1 (tick_inputs s1 now ap) now) in *.
  destruct (f32_to_u8_ub _ (li_ema _ _ _ Hi2)) as (z & Hz & -> & Hzr). cbn [mbind res_bind].
  pose proof (refs_put_ok (tick_mirror s2 z txfail) img Himg (mirror_nodup _ _ _) (mirror_names _ _ _)) as Hput.
  destruct (dp_refs_put img (tick_mirror s2 z txfail)) as [img'| |]; cbn [safe] in Hput; [|done..].
  cbn [mbind res_bind]. do 3 eexists. split; [done|].
  set (e := tick_edge s2 _ z _). destruct (lq_inv_tail now s2 h' (poor (lq_score s1)) z (rssi_dbm (tick_inputs s1 now ap)) Hi2) as [Hi3 Hs3].
  fold e in Hi3, Hs3.
  destruct (tick_sample_inv now e.1 h' now z (rssi_dbm (tick_inputs s1 now ap)) txfail Hi3) as [Hi4 Hs4].
  split; [done|]. split; [apply Hput|]. split.
  - by rewrite Hs4, Hs3.
  - exists z. rewrite Hs4, Hs3. split; [done|]. split; [done|].
    apply (ref_uint_u8 _ _ _ _ z Hput); [by left|reflexivity|lia].
  - rewrite Hs4, Hs3. apply (ref_uint_u8 _ _ _ _ _ Hput); [by right; left|reflexivity|destruct (poor (lq_score s2)); lia].
Qed.

Lemma step_inv t0 s h img o :
  lq_inv t0 s h → 0 <= t0 <= op_time o → op_time o < 2 ^ 32 → img_typed img →
  ∃ s' img' out, lq_step (s, img) o = Ok (s', img', out) ∧ lq_inv (op_time o) s' (observe h o) ∧ img_typed img'.
Proof.
  intros Hi Ht Hn Himg.
  assert (Hlater : ∀ s', lq_score s' = lq_score s → s_stWlanDrops s' = s_stWlanDrops s → s_stSessDrops s' = s_stSessDrops s →
    s_stTxFails s' = s_stTxFails s → s_ulPrevWlanDrops s' = s_ulPrevWlanDrops s → s_ulPrevTxFail s' = s_ulPrevTxFail s →
    lq_inv (op_time o) s' h).
  { destruct Hi as [[] [] [] ? ? ?]. intros s' E1 E2 E3 E4 E5 E6.
    split; rewrite ?E1, ?E2, ?E3, ?E4, ?E5, ?E6; try done; (split; [done|by eapply hist_ok_later]). }
  destruct o as [ready now|now wlan txfail ap|secs now]; cbn [lq_step op_time observe] in *.
  - destruct ready; cbn [on_session_edge].
    + do 3 eexists. split; [done|]. split; [|done]. by destruct (_ && _); apply Hlater.
    + destruct (ring_push_refines _ _ now (proj1 (li_sess _ _ _ Hi))) as (r & -> & Hr). cbn [mbind res_bind].
      do 3 eexists. split; [done|]. split; [|done]. destruct Hi as [[Hw Hwo] [Hs Hso] [Htx Htxo] Hpw Hpt He].
      split; cbn; try done; split; try done; try (by eapply hist_ok_later). by apply (hist_ok_snocs t0 now _ 1).
  - destruct (tick_ok t0 s h img now wlan txfail ap Hi Ht Hn Himg) as (s' & img' & out & E & ? & ? & _).
    by exists s', img', out.
  - do 3 eexists. split; [done|]. split; [|done]. by apply Hlater.
Qed.

Lemma run_inv ops : ∀ t0 s h img,
  lq_inv t0 s h → 0 <= t0 → clock_ok t0 ops → img_typed img →
  ∃ s' img' out t, lq_run (s, img) ops = Ok (s', img', out) ∧ lq_inv t s' (foldl observe h ops) ∧ img_typed img' ∧
    0 <= t ∧ ∀ o, clock_ok t0 (ops ++ [o]) → t <= op_time o < 2 ^ 32.
Proof.
  induction ops as [|o ops IH]; intros t0 s h img Hi Ht Hc Himg.
  - exists s, img, [], t0. split; [done|]. split; [done|]. split; [done|]. split; [done|]. by intros o [? _].
  - destruct Hc as [[Hlo Hhi] Hc].
    destruct (step_inv t0 s h img o Hi ltac:(lia) Hhi Himg) as (s1 & img1 & out1 & E1 & Hi1 & Himg1).
    destruct (IH (op_time o) s1 _ img1 Hi1 ltac:(lia) Hc Himg1) as (s' & img' & out & t & E & Hi' & Himg' & Ht' & Hnext).
    exists s', img', (out1 ++ out), t. cbn [lq_run]. rewrite E1. cbn [mbind res_bind fst snd]. rewrite E.
    split; [done|]. split; [done|]. split; [done|]. split; [done|]. intros o' [_ Ho']. by apply Hnext.
Qed.

(** ** Theorems *)

(** C31: The link score counts every event of its windows.  After any sequence of
    session edges, ticks and injected degradations with a clock that does not go
    back, a tick does everything it should without undefined behaviour: it steps the
    smoothing with the documented score of the number of ALL disconnects and session
    drops of the last hour and of all lost frames of the last five minutes (although
    each ring holds sixteen time stamps only), unless a degradation is injected; and
    in binary32 arithmetic the smoothed score stays such that the cast to a byte is
    defined and the datapoint shows 0 to 100. *)
Theorem score_counts_every_event ops now wlan txfail ap img :
  img_typed img → clock_ok 0 (ops ++ [OpTick now wlan txfail ap]) →
  ∃ s img1 out s' img2 out',
    lq_run (link_quality_init, img) ops = Ok (s, img1, out) ∧
    link_quality_tick s img1 now wlan txfail ap = Ok (s', img2, out') ∧
    tick_spec s (observed (ops ++ [OpTick now wlan txfail ap])) now ap s' img2.
Proof.
  intros Himg Hc.
  assert (Hc0 : ∀ t l o, clock_ok t (l ++ [o]) → clock_ok t l).
  { intros t l o. revert t. induction l as [|x l IH]; intros t; [done|]. intros [? ?]. split; [done|by apply IH]. }
  destruct (run_inv ops 0 link_quality_init (observed []) img lq_inv_init ltac:(lia) (Hc0 _ _ _ Hc) Himg)
    as (s & img1 & out & t & E & Hi & Himg1 & Ht & Hnext).
  destruct (Hnext _ Hc) as [Hlo Hhi]. cbn [op_time] in *.
  destruct (tick_ok t s _ img1 now wlan txfail ap Hi ltac:(lia) Hhi Himg1) as (s' & img2 & out' & E2 & _ & _ & Hspec).
  exists s, img1, out, s', img2, out'. split; [done|]. split; [done|]. unfold observed. by rewrite foldl_app.
Qed.

Definition drop_ops : list lq_op :=
  [OpEdge true 10; OpTick 15 1 4 (Some (-75)); OpEdge false 18; OpTick 20 3 30 (Some (-70))].

Lemma score_counts_every_event_witness :
  ∃ s img1 out s' img2 out',
    lq_run (link_quality_init, default_image) drop_ops = Ok (s, img1, out) ∧
    link_quality_tick s img1 400 3 31 (Some (-66)) = Ok (s', img2, out') ∧
    tick_spec s (observed (drop_ops ++ [OpTick 400 3 31 (Some (-66))])) 400 (Some (-66)) s' img2.
Proof.
  apply (score_counts_every_event drop_ops 400 3 31 (Some (-66)) default_image).
  - apply defaults_typed.
  - cbn. lia.
Defined.

(** 80 - 30 - 10 - 2: the losses of the first ticks are older than five minutes. *)
Example drop_ops_score :
  score_of_history (observed (drop_ops ++ [OpTick 400 3 31 (Some (-66))])) 400 (Some (-66)) = 38.
Proof. vm_compute. reflexivity. Qed.
