(* ===== verification/PowerMgmt.v ===== *)
(** * Power management and the adaptation of the communication

    Models src/src/core/power_mgmt.c with the callbacks that src/src/main/main.c
    injects ([glue_power_low], [glue_proto_slow], [glue_link_state],
    [comm_adaptation_apply]).  [power_mgmt_activity_note] runs in any task,
    [power_mgmt_tick] in the monitor and [glue_link_state] in the dispatch task, and
    most of the state is read without the mutex, so a running call is the list of
    its remaining accesses ([act]); [pw_exec] interleaves any number of calls, one
    access at a time.  An access to a 64-bit time is taken as one.

    [power_mode_coherent]: whenever the mutex is free the clock lock, the flag of the
    adaptation, the datapoint and the published modes agree with the mode; an event
    that finds the queue full is lost ([full_queue_loses_the_mode]). *)

From S2P Require Import Prelude.
Local Open Scope list_scope.
Local Open Scope Z_scope.

Definition POWER_IDLE_TO_LOW_S : Z := 300.

(** Which providers main has injected. *)
Record power_mgmt_providers_t := mk_providers {
  pv_pump_idle : bool;
  pv_session_up : bool;
  pv_radio_ps_low : bool;
  pv_proto_slow : bool
}.

(** What the mutex protects: the count of the clock lock, main's power flag, the
    mode, its datapoint, and the modes handed to event_manager_publish (newest first),
    whether or not its queue takes them. *)
Record owned := mk_owned {
  s_hCpuMax : Z;
  s_bPowerLow : bool;
  s_bLow : bool;
  System_Power_Mode : Z;
  ev_modes : list bool
}.
#[export] Instance eta_owned : Eta owned :=
  λ r, mk_owned (s_hCpuMax r) (s_bPowerLow r) (s_bLow r) (System_Power_Mode r) (ev_modes r).
#[export] Instance set_s_hCpuMax : Setter s_hCpuMax. Proof. mk_setter. Defined.
#[export] Instance set_s_bPowerLow : Setter s_bPowerLow. Proof. mk_setter. Defined.
#[export] Instance set_s_bLow : Setter s_bLow. Proof. mk_setter. Defined.
#[export] Instance set_System_Power_Mode : Setter System_Power_Mode. Proof. mk_setter. Defined.
#[export] Instance set_ev_modes : Setter ev_modes. Proof. mk_setter. Defined.

Record power := mk_power {
  pw_own : owned;
  s_hLock : bool;
  s_llLastActivityUs : Z;
  s_bInited : bool;
  s_stProv : power_mgmt_providers_t;
  pw_link_poor : bool;
  s_slow_mode : bool;
  pw_modem_sleep : bool;
  wlan_inited : bool;
  Net_PS_Override : Z;
  pw_now_us : Z;
  pw_pump_idle : bool;
  pw_session_up : bool;
  pw_queue_full : bool;
  ev_queued : list bool
}.
#[export] Instance eta_power : Eta power := λ r, mk_power (pw_own r) (s_hLock r) (s_llLastActivityUs r)
      (s_bInited r) (s_stProv r) (pw_link_poor r) (s_slow_mode r) (pw_modem_sleep r) (wlan_inited r)
      (Net_PS_Override r) (pw_now_us r) (pw_pump_idle r) (pw_session_up r) (pw_queue_full r) (ev_queued r).
#[export] Instance set_pw_own : Setter pw_own. Proof. mk_setter. Defined.
#[export] Instance set_s_hLock : Setter s_hLock. Proof. mk_setter. Defined.
#[export] Instance set_s_llLastActivityUs : Setter s_llLastActivityUs. Proof. mk_setter. Defined.
#[export] Instance set_s_bInited : Setter s_bInited. Proof. mk_setter. Defined.
#[export] Instance set_s_stProv : Setter s_stProv. Proof. mk_setter. Defined.
#[export] Instance set_pw_link_poor : Setter pw_link_poor. Proof. mk_setter. Defined.
#[export] Instance set_s_slow_mode : Setter s_slow_mode. Proof. mk_setter. Defined.
#[export] Instance set_pw_modem_sleep : Setter pw_modem_sleep. Proof. mk_setter. Defined.
#[export] Instance set_Net_PS_Override : Setter Net_PS_Override. Proof. mk_setter. Defined.
#[export] Instance set_pw_now_us : Setter pw_now_us. Proof. mk_setter. Defined.
#[export] Instance set_pw_pump_idle : Setter pw_pump_idle. Proof. mk_setter. Defined.
#[export] Instance set_pw_session_up : Setter pw_session_up. Proof. mk_setter. Defined.
#[export] Instance set_pw_queue_full : Setter pw_queue_full. Proof. mk_setter. Defined.
#[export] Instance set_ev_queued : Setter ev_queued. Proof. mk_setter. Defined.

(** ** Accesses *)

Inductive act :=
  (* power_mgmt_activity_note *)
  | NoteInited | NoteStamp | NoteLow
  (* power_mgmt_tick; the values read so far are parameters *)
  | TickInited | TickPump | TickSession (idle : bool) | TickLow (idle session : bool)
  | TickTime (idle session : bool) | TickIdle (idle session : bool) (now : Z)
  (* the mutex, and [if (s_bLow != b) mode_apply(b)] under it *)
  | TakeLock | ApplyUnless (b : bool) | GiveLock
  (* mode_apply *)
  | PmLock (b : bool) | SetPowerLow (b : bool) | SetLow (b : bool) | SetDp (b : bool) | Publish (b : bool)
  (* comm_adaptation_apply *)
  | SlowReadPower | SlowReadLink | SlowWrite (b : bool)
  | PsReadOverride | PsReadPower (ov : Z) | PsReadLink (b : bool) | PsWrite (b : bool)
  (* glue_link_state *)
  | LinkSet (b : bool).

#[export] Instance act_eq_dec : EqDecision act.
Proof. solve_decision. Defined.

Definition power_mgmt_activity_note : list act := [NoteInited].
Definition power_mgmt_tick : list act := [TickInited].
Definition comm_adaptation_apply : list act := [SlowReadPower; PsReadOverride].
Definition glue_power_low (bLow : bool) : list act := SetPowerLow bLow :: comm_adaptation_apply.
Definition glue_proto_slow (bSlow : bool) : list act := SetPowerLow bSlow :: comm_adaptation_apply.
Definition glue_link_state (bPoor : bool) : list act := LinkSet bPoor :: comm_adaptation_apply.

Definition mode_apply (p : power_mgmt_providers_t) (bLow : bool) : list act :=
  [PmLock bLow] ++ (if pv_radio_ps_low p then glue_power_low bLow else [])
  ++ (if pv_proto_slow p then glue_proto_slow bLow else [])
  ++ [SetLow bLow; SetDp bLow; Publish bLow].

(** The clock lock counts; releasing it at zero is an error without effect. *)
Definition own_step (a : act) (o : owned) : owned :=
  match a with
  | PmLock true => if 0 <? s_hCpuMax o then o <| s_hCpuMax := s_hCpuMax o - 1 |> else o
  | PmLock false => o <| s_hCpuMax := s_hCpuMax o + 1 |>
  | SetPowerLow b => o <| s_bPowerLow := b |>
  | SetLow b => o <| s_bLow := b |>
  | SetDp b => o <| System_Power_Mode := if b then 1 else 0 |>
  | Publish b => o <| ev_modes := b :: ev_modes o |>
  | _ => o
  end.

(** One access (the result of event_manager_publish is ignored: a mode that a full
    queue refuses is not published again): the new state and what the call goes on with; [None] when it has to
    wait for the mutex. *)
Definition act_step (a : act) (s : power) : option (power * list act) :=
  let o := pw_own s in
  let p := s_stProv s in
  match a with
  | NoteInited => Some (s, if s_bInited s then [NoteStamp; NoteLow] else [])
  | NoteStamp => Some (s <| s_llLastActivityUs := pw_now_us s |>, [])
  | NoteLow => Some (s, if s_bLow o then [TakeLock; ApplyUnless false; GiveLock] else [])
  | TickInited => Some (s, if s_bInited s then [TickPump] else [])
  | TickPump => Some (s, [TickSession (if pv_pump_idle p then pw_pump_idle s else false)])
  | TickSession idle => Some (s, [TickLow idle (if pv_session_up p then pw_session_up s else false)])
  | TickLow idle session =>
      Some (s, if s_bLow o then if negb idle || negb session then power_mgmt_activity_note else []
               else [TickTime idle session])
  | TickTime idle session => Some (s, [TickIdle idle session (pw_now_us s)])
  | TickIdle idle session now =>
      Some (s, if idle && session && (POWER_IDLE_TO_LOW_S * 1000000 <=? now - s_llLastActivityUs s)
               then [TakeLock; ApplyUnless true; GiveLock] else [])
  | TakeLock => if s_hLock s then None else Some (s <| s_hLock := true |>, [])
  | ApplyUnless b => Some (s, if eqb (s_bLow o) b then [] else mode_apply p b)
  | GiveLock => Some (s <| s_hLock := false |>, [])
  | PmLock _ | SetPowerLow _ | SetLow _ | SetDp _ => Some (s <| pw_own := own_step a o |>, [])
  | Publish b =>
      Some (s <| pw_own := own_step a o |>
              <| ev_queued := if pw_queue_full s then ev_queued s else b :: ev_queued s |>, [])
  | SlowReadPower => Some (s, if s_bPowerLow o then [SlowWrite true] else [SlowReadLink])
  | SlowReadLink => Some (s, [SlowWrite (pw_link_poor s)])
  | SlowWrite b => Some (s <| s_slow_mode := b |>, [])
  | PsReadOverride => Some (s, [PsReadPower (Net_PS_Override s)])
  | PsReadPower ov =>
      Some (s, if ov =? 1 then [PsWrite false]
               else if ov =? 0 then [PsReadLink (s_bPowerLow o)] else [PsWrite (s_bPowerLow o)])
  | PsReadLink b => Some (s, [PsWrite (if pw_link_poor s then false else b)])
  | PsWrite b => Some (if wlan_inited s then s <| pw_modem_sleep := b |> else s, [])
  | LinkSet b => Some (s <| pw_link_poor := b |>, [])
  end.

(** ** Interleaving *)

(** Static storage. *)
Definition power_zero (wlan : bool) : power :=
  mk_power (mk_owned 0 false false 0 []) false 0 false (mk_providers false false false false)
    false false false wlan 0 0 false false false [].

Definition power_mgmt_providers_set (s : power) (p : option power_mgmt_providers_t) : power :=
  match p with Some p => s <| s_stProv := p |> | None => s end.

(** [power_mgmt_init], run by main before the tasks that tick; whether the clock
    driver is configured, its lock created and the mutex created. *)
Definition power_mgmt_init (s : power) (configured created mutex : bool) : power :=
  if negb configured then s
  else if negb created then s
  else if negb mutex then s
  else s <| pw_own := (pw_own s) <| s_hCpuMax := s_hCpuMax (pw_own s) + 1 |> <| System_Power_Mode := 0 |> |>
         <| s_llLastActivityUs := pw_now_us s |> <| s_bInited := true |>.

Definition power_mgmt_low_get (s : power) : bool := s_bLow (pw_own s).

Inductive pw_cmd :=
  | RunThread (i : nat)
  | CallNote | CallTick | CallLink (bPoor : bool)
  | EnvTime (us : Z) | EnvPumpIdle (b : bool) | EnvSession (b : bool) | EnvOverride (ov : Z)
  | EnvQueue (full : bool).

(** The shared state and the calls in progress. *)
Definition pw_config : Type := power * list (list act).

Definition pw_exec (c : pw_config) (x : pw_cmd) : option pw_config :=
  let '(s, th) := c in
  match x with
  | RunThread i =>
      match th !! i with
      | Some (a :: rest) =>
          r ← act_step a s; Some (r.1, <[i := r.2 ++ rest]> th)
      | _ => None
      end
  | CallNote => Some (s, th ++ [power_mgmt_activity_note])
  | CallTick => Some (s, th ++ [power_mgmt_tick])
  | CallLink b => Some (s, th ++ [glue_link_state b])
  | EnvTime us => Some (s <| pw_now_us := us |>, th)
  | EnvPumpIdle b => Some (s <| pw_pump_idle := b |>, th)
  | EnvSession b => Some (s <| pw_session_up := b |>, th)
  | EnvOverride ov => Some (s <| Net_PS_Override := ov |>, th)
  | EnvQueue full => Some (s <| pw_queue_full := full |>, th)
  end.

Fixpoint pw_run (c : pw_config) (l : list pw_cmd) : option pw_config :=
  match l with
  | [] => Some c
  | x :: l => c ← pw_exec c x; pw_run c l
  end.

(** ** The lock discipline *)

(** Where a call stands: outside, with the mutex just taken, before giving it back
    without having changed anything, or inside. *)
Inductive place := POut | PTaken | PDone | PIn.
#[export] Instance place_eq_dec : EqDecision place.
Proof. solve_decision. Defined.

(** The place after an access; [None] if the discipline is broken. *)
Definition after1 (m : place) (a : act) : option place :=
  match a with
  | TakeLock => match m with POut => Some PTaken | _ => None end
  | ApplyUnless _ => match m with PTaken => Some PDone | _ => None end
  | GiveLock => match m with PDone | PIn => Some POut | _ => None end
  | PmLock _ | SetPowerLow _ | SetLow _ | SetDp _ | Publish _ => match m with PIn => Some PIn | _ => None end
  | NoteInited | NoteLow | TickInited | TickPump | TickSession _ | TickLow _ _ | TickTime _ _ | TickIdle _ _ _ =>
      match m with POut => Some POut | _ => None end
  | _ => match m with POut => Some POut | PIn => Some PIn | _ => None end
  end.

Fixpoint after (m : place) (l : list act) : option place :=
  match l with
  | [] => Some m
  | a :: l => m ← after1 m a; after m l
  end.

(** What the owned state will be when the mutex is given back. *)
Fixpoint finish (p : power_mgmt_providers_t) (o : owned) (l : list act) : owned :=
  match l with
  | [] | GiveLock :: _ => o
  | ApplyUnless b :: l =>
      finish p (if eqb (s_bLow o) b then o else foldl (λ o a, own_step a o) o (mode_apply p b)) l
  | a :: l => finish p (own_step a o) l
  end.

(** Neighbours differ. *)
Fixpoint alternates (l : list bool) : Prop :=
  match l with
  | b :: ((c :: _) as l) => b ≠ c ∧ alternates l
  | _ => True
  end.

(** Everything the mode decides; the modes announced start from HIGH. *)
Record coherent (p : power_mgmt_providers_t) (o : owned) : Prop := {
  co_clock : s_hCpuMax o = if s_bLow o then 0 else 1;
  co_flag : pv_radio_ps_low p || pv_proto_slow p = true → s_bPowerLow o = s_bLow o;
  co_dp : System_Power_Mode o = if s_bLow o then 1 else 0;
  co_last : default false (head (ev_modes o)) = s_bLow o;
  co_alt : alternates (ev_modes o ++ [false])
}.

(** ** The invariant *)

Record pw_inv (c : pw_config) (holder : option nat) : Prop := {
  pi_lock : s_hLock c.1 = bool_decide (is_Some holder);
  pi_threads : ∀ i l, c.2 !! i = Some l →
    ∃ m, after m l = Some POut ∧ (m = POut ↔ holder ≠ Some i);
  pi_own : match holder with
           | None => coherent (s_stProv c.1) (pw_own c.1)
           | Some i => ∃ l, c.2 !! i = Some l ∧ coherent (s_stProv c.1) (finish (s_stProv c.1) (pw_own c.1) l)
           end
}.

Lemma after_app m l k : after m (l ++ k) = m' ← after m l; after m' k.
Proof.
  revert m. induction l as [|a l IH]; intros m; [done|]. cbn [app after]. destruct (after1 m a); [|done]. apply IH.
Qed.

(** A mode that is applied where it differs leaves everything coherent. *)
Lemma apply_coherent p o b :
  coherent p o → s_bLow o ≠ b → coherent p (foldl (λ o a, own_step a o) o (mode_apply p b)).
Proof.
  intros [Hc Hf Hd Hl Ha] Hb. destruct o as [c f low d ev], p as [pi se ra pr]. cbn in *.
  assert (Halt : alternates (b :: ev ++ [false])).
  { destruct ev as [|x ev]; cbn in *; split; try done; congruence. }
  assert (low = negb b) as -> by (by destruct low, b). subst c d.
  destruct b, ra, pr; cbn; by split.
Qed.

Lemma eqb_false_ne a b : eqb a b = false → a ≠ b.
Proof. by destruct a, b. Qed.

Lemma mode_apply_after p b : after PIn (mode_apply p b) = Some PIn.
Proof. by destruct p as [? ? [] []]. Qed.

Lemma mode_apply_finish p o b k : finish p o (mode_apply p b ++ k) = finish p (foldl (λ o a, own_step a o) o (mode_apply p b)) k.
Proof. by destruct p as [? ? [] []]. Qed.

(** The place of a call after its next access. *)
Definition next_place (m : place) (a : act) : place :=
  match a with TakeLock => PTaken | GiveLock => POut | ApplyUnless _ => PIn | _ => m end.

Lemma done_gives l : after PDone l = Some POut → ∃ k, l = GiveLock :: k ∧ after POut k = Some POut.
Proof. destruct l as [|[] k]; try done. intros H. by exists k. Qed.

Lemma taken_applies l : after PTaken l = Some POut → ∃ b k, l = ApplyUnless b :: GiveLock :: k.
Proof. destruct l as [|[] l]; try done. cbn. intros (k & -> & _)%done_gives. by eexists _, k. Qed.

(** An access keeps the discipline of its call. *)
Lemma act_step_after m a rest s s' new :
  act_step a s = Some (s', new) → after m (a :: rest) = Some POut →
  after (next_place m a) (new ++ rest) = Some POut ∧ s_stProv s' = s_stProv s ∧
  s_hLock s' = match a with TakeLock => true | GiveLock => false | _ => s_hLock s end.
Proof.
  intros Hs Ha. assert ((∃ b, a = ApplyUnless b) ∨ ∀ b, a ≠ ApplyUnless b) as [[b ->]|Hna].
  { destruct a; first [by left; eexists|by right]. }
  - cbn [act_step] in Hs. injection Hs as <- <-. destruct m; try done. cbn [after after1] in Ha. cbn in Ha. apply done_gives in Ha as (k & -> & Hk).
    rewrite after_app. split; [|done]. cbn [next_place]. destruct (eqb _ _); [done|].
    by rewrite mode_apply_after.
  - rewrite after_app. destruct a; cbn [act_step after after1 next_place] in *; simplify_eq; try (by edestruct Hna);
      destruct m; try done; repeat case_match; simplify_eq; done.
Qed.

(** Inside, an access does not change what the call will leave. *)
Lemma act_step_finish m a rest s s' new :
  act_step a s = Some (s', new) → after m (a :: rest) = Some POut → m ≠ POut → a ≠ GiveLock →
  finish (s_stProv s) (pw_own s') (new ++ rest) = finish (s_stProv s) (pw_own s) (a :: rest).
Proof.
  intros Hs Ha Hm Hg. destruct a; cbn [act_step] in Hs; simplify_eq; try (by destruct m);
    repeat case_match; simplify_eq; try done; cbn [finish]; try done.
  - match goal with H : eqb _ _ = _ |- _ => rewrite H end. done.
  - match goal with H : eqb _ _ = _ |- _ => rewrite H end. by rewrite mode_apply_finish.
Qed.

(** Outside, an access does not touch what the mutex protects. *)
Lemma act_step_outside a rest s s' new :
  act_step a s = Some (s', new) → after POut (a :: rest) = Some POut → pw_own s' = pw_own s.
Proof. intros Hs Ha. destruct a; cbn [act_step] in Hs; simplify_eq; try done; repeat case_match; by simplify_eq. Qed.

Lemma act_step_waits a s : act_step a s = None → a = TakeLock ∧ s_hLock s = true.
Proof. destruct a; cbn [act_step]; try done. by destruct (s_hLock s). Qed.

(** A call goes on. *)
Lemma run_thread_inv s th holder i a rest s' new :
  pw_inv (s, th) holder → th !! i = Some (a :: rest) → act_step a s = Some (s', new) →
  ∃ holder', pw_inv (s', <[i := new ++ rest]> th) holder'.
Proof.
  intros [Hlock Hth Hown] Hi Hs. cbn [fst snd] in *. destruct (Hth i _ Hi) as (m & Ha & Hm).
  destruct (act_step_after m a rest s s' new Hs Ha) as (Ha' & Hp & Hl).
  pose proof (lookup_lt_Some _ _ _ Hi) as Hlt.
  assert (Hthr : ∀ h' m', after m' (new ++ rest) = Some POut → (m' = POut ↔ h' ≠ Some i) →
    (∀ j, j ≠ i → (h' = Some j ↔ holder = Some j)) →
    ∀ j l, <[i:=new ++ rest]> th !! j = Some l → ∃ m, after m l = Some POut ∧ (m = POut ↔ h' ≠ Some j)).
  { intros h' m' H1 H2 H3 j l Hj. destruct (decide (j = i)) as [->|Hne].
    - rewrite list_lookup_insert_eq in Hj by done. injection Hj as <-. by exists m'.
    - rewrite list_lookup_insert_ne in Hj by done. destruct (Hth j l Hj) as (m2 & ? & Hm2). exists m2. split; [done|].
      by rewrite Hm2, (not_iff_compat (H3 j Hne)). }
  destruct (decide (holder = Some i)) as [->|Hni].
  - (* the holder *)
    assert (Hmn : m ≠ POut) by (intros ->; by apply Hm).
    destruct Hown as (l & Hl' & Hco). rewrite Hi in Hl'. injection Hl' as <-.
    destruct (decide (a = GiveLock)) as [->|Hg].
    + exists None. split; cbn [fst snd].
      * by rewrite Hl.
      * apply (Hthr None POut); [done|done|naive_solver].
      * rewrite Hp. cbn [act_step] in Hs. injection Hs as <- <-. exact Hco.
    + assert (a ≠ TakeLock) by (intros ->; destruct m; done).
      exists (Some i). split; cbn [fst snd].
      * rewrite Hl, <- Hlock. by destruct a.
      * apply (Hthr (Some i) (next_place m a)); [done| |done]. split; [|done]. destruct a; try done.
      * exists (new ++ rest). rewrite list_lookup_insert_eq by done. split; [done|].
        rewrite Hp, (act_step_finish m a rest s s' new) by done. done.
  - assert (m = POut) as -> by by apply Hm.
    pose proof (act_step_outside a rest s s' new Hs Ha) as Ho.
    destruct (decide (a = TakeLock)) as [->|Ht].
    + (* the mutex is taken *)
      cbn [act_step] in Hs. destruct (s_hLock s) eqn:El; [done|].
      rewrite ?El in Hlock. destruct holder as [j|]; [done|].
      injection Hs as <- <-. cbn [app next_place] in *.
      exists (Some i). split; cbn [fst snd].
      * done.
      * apply (Hthr (Some i) PTaken); [done|done|]. intros j Hj. split; [congruence|done].
      * exists rest. rewrite list_lookup_insert_eq by done. split; [done|].
        rewrite Ho, Hp. destruct (taken_applies rest Ha') as (b & k & ->). cbn [finish].
        destruct (eqb (s_bLow (pw_own s)) b) eqn:Eb; [done|]. apply apply_coherent; [done|by apply eqb_false_ne].
    + exists holder. assert (Hpl : next_place POut a = POut) by (destruct a; done). split; cbn [fst snd].
      * rewrite Hl, <- Hlock. destruct a; done.
      * rewrite Hpl in Ha'. by apply (Hthr holder POut).
      * rewrite Hp, Ho. destruct holder as [j|]; [|done]. destruct Hown as (l & Hj & Hco). exists l.
        rewrite list_lookup_insert_ne by congruence. done.
Qed.

(** A new call starts outside. *)
Lemma spawn_inv s th holder l : pw_inv (s, th) holder → after POut l = Some POut → pw_inv (s, th ++ [l]) holder.
Proof.
  intros [Hlock Hth Hown] Hl. split; cbn [fst snd] in *; [done| |].
  - intros i k [Hi|[Hge Hi]]%lookup_app_Some; [by apply Hth|].
    apply list_lookup_singleton_Some in Hi as [Hi <-]. exists POut. split; [done|]. split; [|done]. intros _ ->.
    destruct Hown as (k & Hk & _). apply lookup_lt_Some in Hk. lia.
  - destruct holder as [i|]; [|done]. destruct Hown as (k & Hk & ?). exists k. split; [|done]. by apply lookup_app_l_Some.
Qed.

(** The environment does not touch what the mutex protects. *)
Lemma env_inv s s' th holder :
  pw_inv (s, th) holder → pw_own s' = pw_own s → s_stProv s' = s_stProv s → s_hLock s' = s_hLock s →
  pw_inv (s', th) holder.
Proof. intros [Hlock Hth Hown] Ho Hp Hl. split; cbn [fst snd] in *; rewrite ?Ho, ?Hp, ?Hl; done. Qed.

Lemma pw_exec_inv c x c' holder : pw_inv c holder → pw_exec c x = Some c' → ∃ holder', pw_inv c' holder'.
Proof.
  destruct c as [s th]. intros Hi He. destruct x as [i| | | | | | | |]; cbn [pw_exec] in He;
    try (injection He as <-; exists holder; first [by apply spawn_inv|by eapply env_inv]).
  destruct (th !! i) as [[|a rest]|] eqn:Eth; try done.
  destruct (act_step a s) as [[s' new]|] eqn:Ea; [|done]. injection He as <-. by eapply run_thread_inv.
Qed.

Lemma pw_run_inv l : ∀ c c' holder, pw_inv c holder → pw_run c l = Some c' → ∃ holder', pw_inv c' holder'.
Proof.
  induction l as [|x l IH]; intros c c' holder Hi Hr; [injection Hr as <-; by exists holder|].
  cbn [pw_run] in Hr. destruct (pw_exec c x) as [c1|] eqn:E; [|done].
  destruct (pw_exec_inv _ _ _ _ Hi E) as [h1 Hi1]. by eapply IH.
Qed.

Definition owned_zero : owned := mk_owned 0 false false 0 [].

(** Nobody is stuck: some call can go on, unless all are done. *)
Definition pw_progress (c : pw_config) : Prop :=
  Forall (λ l, l = []) c.2 ∨ ∃ i c', pw_exec c (RunThread i) = Some c'.

Lemma inv_progress c holder : pw_inv c holder → pw_progress c.
Proof.
  destruct c as [s th]. intros [Hlock Hth Hown]. cbn [fst snd] in *.
  assert (Hgo : ∀ i a rest, th !! i = Some (a :: rest) → a ≠ TakeLock ∨ s_hLock s = false → pw_progress (s, th)).
  { intros i a rest Hi Ha. right. exists i. cbn [pw_exec]. rewrite Hi. destruct (act_step a s) as [r|] eqn:E.
    - by eexists.
    - apply act_step_waits in E as [-> E]. rewrite E in Ha. by destruct Ha as [[]|]. }
  destruct holder as [i|].
  - destruct Hown as (l & Hl & _). destruct (Hth i l Hl) as (m & Ha & Hm). destruct l as [|a l].
    + injection Ha as ->. exfalso. by apply Hm.
    + apply (Hgo i a l Hl). left. intros ->. destruct m; try done. by apply Hm.
  - destruct (decide (Forall (λ l, l = []) th)) as [|Hn]; [by left|].
    apply not_Forall_Exists in Hn; [|tc_solve]. apply Exists_exists in Hn as (l & Hl & Hne).
    apply list_elem_of_lookup in Hl as [i Hi]. destruct l as [|a l]; [by destruct Hne|].
    apply (Hgo i a l Hi). by right.
Qed.

(** What the event queue took is part of what was announced. *)
Definition queued_ok (s : power) : Prop := ev_queued s `sublist_of` ev_modes (pw_own s).

Lemma act_step_queued a s s' new : act_step a s = Some (s', new) → queued_ok s → queued_ok s'.
Proof.
  unfold queued_ok. intros Hs Hq. destruct a; cbn [act_step] in Hs; simplify_eq; try done; repeat case_match; simplify_eq;
    try done; cbn; try (by constructor). destruct b; [|done]. by case_match.
Qed.

Lemma pw_run_queued l : ∀ c c', queued_ok c.1 → pw_run c l = Some c' → queued_ok c'.1.
Proof.
  induction l as [|x l IH]; intros [s th] c' Hq Hr; [by injection Hr as <-|]. cbn [pw_run] in Hr.
  destruct (pw_exec (s, th) x) as [c1|] eqn:E; [|done]. apply (IH c1); [|done]. clear IH Hr.
  destruct x as [i| | | | | | | |]; cbn [pw_exec] in E; try (injection E as <-; exact Hq).
  destruct (th !! i) as [[|a rest]|]; try done. destruct (act_step a s) as [[s' new]|] eqn:Ea; [|done].
  injection E as <-. by eapply act_step_queued.
Qed.

(** ** Theorems *)

(** C32: The power mode and everything it decides agree.  After a successful start,
    under any interleaving of activity notes, ticks and link edges (any number of
    them, one memory access at a time, with the providers answering anything):
    whenever the mutex is free, the clock lock is held exactly in HIGH, main's power
    flag and the datapoint show the mode, and the modes handed to the event manager
    alternate from HIGH and end with the present one; what its queue took is part of
    them, in order (a full queue loses a mode: [full_queue_loses_the_mode]); and some
    call can always go on. *)
Theorem power_mode_coherent s0 l c :
  pw_own s0 = owned_zero → s_hLock s0 = false → ev_queued s0 = [] →
  pw_run (power_mgmt_init s0 true true true, []) l = Some c →
  pw_progress c ∧ (s_hLock c.1 = false → coherent (s_stProv c.1) (pw_own c.1)) ∧
  ev_queued c.1 `sublist_of` ev_modes (pw_own c.1).
Proof.
  intros Ho Hl He Hr.
  assert (Hi : pw_inv (power_mgmt_init s0 true true true, []) None).
  { split; cbn; [done|by intros i k Hk|]. rewrite Ho. by split. }
  destruct (pw_run_inv _ _ _ _ Hi Hr) as [holder Hc]. split; [by eapply inv_progress|]. split.
  2:{ refine (pw_run_queued _ _ _ _ Hr). unfold queued_ok. cbn. rewrite He. apply sublist_nil_l. }
  intros Hfree.
  destruct Hc as [Hlock _ Hown]. rewrite Hfree in Hlock. by destruct holder.
Qed.

(** main's wiring, with the WLAN driver up. *)
Definition wired : power := power_mgmt_providers_set (power_zero true) (Some (mk_providers true true true true)).

(** Five quiet minutes, then a tick runs alone: LOW. *)
Definition quiet_tick : list pw_cmd :=
  [EnvPumpIdle true; EnvSession true; EnvTime 300000000; CallTick] ++ replicate 27 (RunThread 0).

Definition pw_outcome (l : list pw_cmd) : option (owned * bool * bool * list (list act)) :=
  c ← pw_run (power_mgmt_init wired true true true, []) l;
  Some (pw_own c.1, s_slow_mode c.1, pw_modem_sleep c.1, c.2).

Lemma power_mode_coherent_witness :
  ∃ c, pw_run (power_mgmt_init wired true true true, []) quiet_tick = Some c ∧ s_bLow (pw_own c.1) = true ∧
    coherent (s_stProv c.1) (pw_own c.1).
Proof.
  destruct (pw_run (power_mgmt_init wired true true true, []) quiet_tick) as [c|] eqn:E; [|by vm_compute in E].
  exists c. split; [done|]. split; [by vm_compute in E; injection E as <-|].
  apply (power_mode_coherent wired quiet_tick c); [done|done|done|exact E|by vm_compute in E; injection E as <-].
Defined.

(** A command between the reading of the clock and the mutex: the device goes to LOW
    right after it, and stays there although the last activity is now. *)
Example low_right_after_a_command :
  let l := [EnvPumpIdle true; EnvSession true; EnvTime 300000000; CallTick] ++ replicate 6 (RunThread 0)
           ++ [CallNote] ++ replicate 3 (RunThread 1) ++ replicate 21 (RunThread 0) in
  ∃ c, pw_run (power_mgmt_init wired true true true, []) l = Some c ∧ c.2 = [[]; []] ∧
    s_bLow (pw_own c.1) = true ∧ s_llLastActivityUs c.1 = pw_now_us c.1.
Proof. eexists. split; [vm_compute; reflexivity|]. by vm_compute. Qed.

(** The event queue is full while the device goes to LOW: nobody is told. *)
Example full_queue_loses_the_mode :
  ∃ c, pw_run (power_mgmt_init wired true true true, []) (EnvQueue true :: quiet_tick) = Some c ∧ c.2 = [[]] ∧
    s_bLow (pw_own c.1) = true ∧ ev_modes (pw_own c.1) = [true] ∧ ev_queued c.1 = [].
Proof. eexists. split; [vm_compute; reflexivity|]. by vm_compute. Qed.

(** A link edge between the reading and the writing of the flags: with everything
    done the protocol is not slow although the link is poor. *)
Example link_edge_is_overwritten :
  let l := quiet_tick ++ [CallNote] ++ replicate 17 (RunThread 1) ++ [CallLink true] ++ replicate 8 (RunThread 2)
           ++ replicate 9 (RunThread 1) in
  ∃ c, pw_run (power_mgmt_init wired true true true, []) l = Some c ∧ Forall (λ l, l = []) c.2 ∧
    s_bLow (pw_own c.1) = false ∧ pw_link_poor c.1 = true ∧ s_slow_mode c.1 = false.
Proof. eexists. split; [vm_compute; reflexivity|]. vm_compute. repeat constructor. Qed.
