(* ===== verification/OtaTask.v ===== *)
(** * The firmware update: [ota_task.c]

    Models src/src/network/ota_task.c: the check of a verified update message, the
    download, the verification of the written slot against the attested hash, and
    every way an attempt ends.  The HTTPS client, the flash and SHA-256 are library
    code: what they answer is an argument ([ota_env]), SHA-256 a parameter.  A
    streaming hash is the hash of what was fed to it.  Log lines are left out.

    [ota_activates_attested_images]: a slot is activated only with an image whose
    hash an authentic message of the session attests.  [ota_attempt_ends]: every
    attempt ends in a restart or hands the session back, once. *)

From Stdlib Require Import SpecFloat Sorted.
From S2P Require Import Prelude Bytes Float32 Float64 FpAuth FpSession.
Local Open Scope string_scope.
Local Open Scope list_scope.
Local Open Scope Z_scope.

(** ** Data *)

Record ota_job_t := mk_job {
  strUrl : list Z;
  strVersion : list Z;
  strSha256 : list Z;
  oj_size : Z
}.

(** What the flash answers during the verification: the update partition with its
    contents, the buffer, and which reads succeed. *)
Record verify_env := mk_verify_env {
  ve_part : option (list Z);
  ve_malloc : bool;
  ve_read : Z → bool
}.

(** What the update library answers: [esp_https_ota_begin] with its handle, the
    results of [esp_https_ota_perform] ([None]: in progress), whether the image is
    complete, the flash, and [esp_https_ota_finish]. *)
Record ota_env := mk_ota_env {
  oe_begin : Z;
  oe_handle : bool;
  oe_perform : list (option Z);
  oe_complete : bool;
  oe_verify : verify_env;
  oe_finish : Z
}.

Inductive ota_out :=
  | OActivity
  | OStatus (version : list Z) (state : string) (attempt progress : Z) (error : option string) (detail : option Z)
  | OEventVersion (event : string) (payload : list Z)
  | OEventFailed (phase err : Z)
  | OAbort
  | OFinish
  | OTeardown
  | ORestart
  | OFailedNote
  | OFree.

Definition ESP_OK : Z := 0.
Definition ESP_ERR_INVALID_CRC : Z := 265.

Section ota.
Variable sha256 : list Z → list Z.

(** ** The verification *)

(** The loop over the slot in blocks of 4096 bytes; [ctx]: what the hash was fed. *)
Fixpoint sha_loop (fuel : nat) (part : list Z) (rd : Z → bool) (ulSize ulOff : Z) (ctx : list Z)
    : res (bool * list Z) :=
  if ulOff <? ulSize then
    match fuel with
    | O => OutOfFuel
    | S fuel =>
        let ulN := if 4096 <? ulSize - ulOff then 4096 else ulSize - ulOff in
        if rd ulOff then
          b ← array_read part ulOff ulN;
          sha_loop fuel part rd ulSize (ulOff + ulN) (ctx ++ b)
        else Ok (false, ctx)
    end
  else Ok (true, ctx).

(** [strcasecmp(a, b) == 0]. *)
Definition strcase_eq (a b : list Z) : bool := bool_decide (map lower a = map lower b).

Definition ota_verify_sha256 (ulSize : Z) (pstrExpHex : list Z) (ve : verify_env) : res bool :=
  if (zlen pstrExpHex <? 64) || (ulSize =? 0) then Ok false
  else match ve_part ve with
  | None => Ok false
  | Some part =>
      if zlen part <? ulSize then Ok false
      else if negb (ve_malloc ve) then Ok false
      else
        r ← sha_loop (Z.to_nat (ulSize / 4096 + 1)) part (ve_read ve) ulSize 0 [];
        if negb r.1 then Ok false else Ok (strcase_eq (hex_text (sha256 r.2)) pstrExpHex)
  end.

(** ** The job *)

(** Version payload of the events: fifteen bytes, padded with zeros. *)
Definition ota_event_version (event : string) (version : list Z) : ota_out :=
  OEventVersion event (take 15 version ++ replicate (16 - length (take 15 version)) 0).

Definition ota_event_failed (phase err : Z) : ota_out := OEventFailed phase err.

(** [do { err = esp_https_ota_perform(h); } while (err == IN_PROGRESS)]. *)
Fixpoint ota_perform (rs : list (option Z)) : res Z :=
  match rs with
  | [] => OutOfFuel
  | None :: rs => ota_perform rs
  | Some err :: _ => Ok err
  end.

(** The label [done]. *)
Definition ota_done : list ota_out := [OFailedNote; OFree].

Definition ota_failed (v : list Z) (error : string) (detail : option Z) : ota_out :=
  OStatus v "failed" 1 0 (Some error) detail.

Definition ota_run (j : ota_job_t) (env : ota_env) : res (list ota_out) :=
  let v := strVersion j in
  let start := [ota_event_version "EVT_OTA_STARTED" v; OStatus v "downloading" 1 0 None None] in
  if negb (oe_begin env =? ESP_OK) || negb (oe_handle env) then
    Ok (start ++ [ota_failed v "begin_failed" (Some (oe_begin env)); ota_event_failed 0 (oe_begin env)] ++ ota_done)
  else
    err ← ota_perform (oe_perform env);
    if negb (err =? ESP_OK) || negb (oe_complete env) then
      Ok (start ++ [OAbort; ota_failed v "download_failed" (Some err); ota_event_failed 1 err] ++ ota_done)
    else
      ok ← ota_verify_sha256 (oj_size j) (strSha256 j) (oe_verify env);
      if negb ok then
        Ok (start ++ [OAbort; ota_failed v "sha256_mismatch" None; ota_event_failed 2 ESP_ERR_INVALID_CRC] ++ ota_done)
      else if oe_finish env =? ESP_OK then
        Ok (start ++ [OFinish; ota_event_version "EVT_OTA_APPLIED" v; OStatus v "applied" 1 100 None None;
                      OTeardown; ORestart])
      else
        Ok (start ++ [OFinish; ota_failed v "finish_failed" (Some (oe_finish env));
                      ota_event_version "EVT_OTA_REJECTED_UNSIGNED" v] ++ ota_done).

(** [poor]: the link state; [calloc], [created]: whether the job and its task could
    be created.  The job, if its task runs. *)
Definition ota_start (m : cjson) (poor calloc created : bool) : res (list ota_out * option ota_job_t) :=
  if poor then
    Ok ([ota_failed (default (cstr "?") (str_of m "version")) "link_poor" None; OFailedNote], None)
  else
    match str_of m "url" with
    | None => Ok ([OActivity; OFailedNote], None)
    | Some url =>
        if negb calloc then Ok ([OActivity; OFailedNote], None)
        else
          size ← match get_item m "size" with Some (CNumber x) => cast_uint 32 x | _ => Ok 0 end;
          let job := mk_job (field_copy 256 url) (field_copy 32 (default [] (str_of m "target_version")))
                       (field_copy 72 (default [] (str_of m "sha256"))) size in
          if created then Ok ([OActivity], Some job) else Ok ([OActivity; OFree; OFailedNote], None)
    end.

(** An attempt from the message to its end. *)
Definition ota_attempt (m : cjson) (poor calloc created : bool) (env : ota_env) : res (list ota_out) :=
  r ← ota_start m poor calloc created;
  match r.2 with
  | None => Ok r.1
  | Some job => outs ← ota_run job env; Ok (r.1 ++ outs)
  end.

(** ** The hash is that of the slot *)

Lemma sha_loop_spec fuel part rd ulSize : ∀ off ctx,
  0 <= off → ulSize <= zlen part → ulSize - off <= 4096 * Z.of_nat fuel →
  ∃ ok out, sha_loop fuel part rd ulSize off ctx = Ok (ok, out) ∧
    (ok = true → out = ctx ++ take (Z.to_nat (ulSize - off)) (drop (Z.to_nat off) part)).
Proof.
  induction fuel as [|fuel IH]; intros off ctx Hoff Hsize Hfuel; cbn [sha_loop].
  - destruct (Z.ltb_spec off ulSize); [lia|]. eexists true, ctx. split; [done|]. intros _.
    replace (Z.to_nat (ulSize - off)) with 0%nat by lia. by rewrite take_0, app_nil_r.
  - destruct (Z.ltb_spec off ulSize) as [Hlt|Hge].
    2: { eexists true, ctx. split; [done|]. intros _.
         replace (Z.to_nat (ulSize - off)) with 0%nat by lia. by rewrite take_0, app_nil_r. }
    destruct (rd off); [|by eexists false, ctx].
    set (n := if 4096 <? ulSize - off then 4096 else ulSize - off).
    assert (Hn : 0 < n <= ulSize - off ∧ (n = 4096 ∨ n = ulSize - off)).
    { subst n. destruct (Z.ltb_spec 4096 (ulSize - off)); lia. }
    unfold array_read. rewrite decide_True by (unfold zlen in Hsize; lia). cbn [mbind res_bind].
    destruct (IH (off + n) (ctx ++ take (Z.to_nat n) (drop (Z.to_nat off) part))) as (ok & out & -> & Hout);
      [lia|done|lia|].
    exists ok, out. split; [done|]. intros Hok. rewrite (Hout Hok), <- app_assoc. f_equal.
    replace (Z.to_nat (off + n)) with (Z.to_nat off + Z.to_nat n)%nat by lia. rewrite <- drop_drop.
    rewrite take_take_drop. f_equal. lia.
Qed.

(** The verification always gives a verdict, and a positive one only for a slot that
    starts with [ulSize] bytes of the expected hash. *)
Lemma verify_spec ulSize hex ve :
  0 <= ulSize →
  ∃ ok, ota_verify_sha256 ulSize hex ve = Ok ok ∧
    (ok = true → ∃ part, ve_part ve = Some part ∧ 0 < ulSize <= zlen part ∧
       strcase_eq (hex_text (sha256 (take (Z.to_nat ulSize) part))) hex = true).
Proof.
  intros Hs. unfold ota_verify_sha256. destruct (_ || _) eqn:E; [by exists false|].
  apply orb_false_iff in E as [_ Hz%Z.eqb_neq]. destruct (ve_part ve) as [part|]; [|by exists false].
  destruct (Z.ltb_spec (zlen part) ulSize) as [|Hle]; [by exists false|]. destruct (ve_malloc ve); [|by exists false].
  destruct (sha_loop_spec (Z.to_nat (ulSize / 4096 + 1)) part (ve_read ve) ulSize 0 []) as (ok & out & -> & Hout);
    [lia|done| |].
  { rewrite Z2Nat.id by (pose proof (Z.div_pos ulSize 4096); lia). pose proof (Z.mod_pos_bound ulSize 4096).
    pose proof (Z.div_mod ulSize 4096). lia. }
  cbn [mbind res_bind fst snd negb]. destruct ok; [|by exists false]. cbn [negb].
  exists (strcase_eq (hex_text (sha256 out)) hex). split; [done|]. intros Hok. exists part. split; [done|]. split; [lia|].
  rewrite (Hout eq_refl) in Hok. cbn [app] in Hok. rewrite Z.sub_0_r, drop_0 in Hok. done.
Qed.

(** ** What an attempt does *)

Definition is_end (o : ota_out) : bool := match o with ORestart | OFailedNote => true | _ => false end.
Definition is_finish (o : ota_out) : bool := match o with OFinish => true | _ => false end.

(** The attempt activates the slot; how often it ends. *)
Definition activates (outs : list ota_out) : bool := existsb is_finish outs.
Definition ends (outs : list ota_out) : nat := length (List.filter is_end outs).

(** The message attests the image in the slot: its hash over the first [size]
    bytes, compared without regard to case. *)
Definition attested (m : cjson) (slot : option (list Z)) : Prop :=
  ∃ hex x size part, str_of m "sha256" = Some hex ∧ get_item m "size" = Some (CNumber x) ∧ f64_trunc x = Some size ∧
    slot = Some part ∧ 0 < size <= zlen part ∧
    strcase_eq (hex_text (sha256 (take (Z.to_nat size) part))) (field_copy 72 hex) = true.

Lemma ota_run_spec j env outs :
  0 <= oj_size j → ota_run j env = Ok outs →
  ends outs = 1%nat ∧
  (activates outs = true → ota_verify_sha256 (oj_size j) (strSha256 j) (oe_verify env) = Ok true).
Proof.
  intros Hs. unfold ota_run. destruct (negb (oe_begin env =? ESP_OK) || negb (oe_handle env)); [by intros [= <-]|].
  destruct (ota_perform (oe_perform env)) as [err| |]; cbn [mbind res_bind]; [|done..].
  destruct (negb (err =? ESP_OK) || negb (oe_complete env)); [by intros [= <-]|].
  destruct (verify_spec (oj_size j) (strSha256 j) (oe_verify env) Hs) as (ok & -> & _). cbn [mbind res_bind].
  destruct ok; cbn [negb]; [|by intros [= <-]]. by destruct (oe_finish env =? ESP_OK); intros [= <-].
Qed.

Lemma ota_run_total j env :
  0 <= oj_size j → (∃ err, ota_perform (oe_perform env) = Ok err) → ∃ outs, ota_run j env = Ok outs.
Proof.
  intros Hs [err He]. unfold ota_run. destruct (_ || _); [by eexists|]. rewrite He. cbn [mbind res_bind].
  destruct (_ || _); [by eexists|].
  destruct (verify_spec (oj_size j) (strSha256 j) (oe_verify env) Hs) as (ok & -> & _). cbn [mbind res_bind].
  destruct ok; cbn [negb]; [|by eexists]. destruct (oe_finish env =? ESP_OK); by eexists.
Qed.

Lemma cast_uint_range bits x z : cast_uint bits x = Ok z → f64_trunc x = Some z ∧ 0 <= z.
Proof.
  unfold cast_uint. destruct (f64_trunc x) as [y|]; [|done]. destruct (_ && _) eqn:E; [|done]. intros [= <-].
  split; [done|lia].
Qed.

(** The job carries what the message says. *)
Lemma ota_start_spec m poor calloc created outs job :
  ota_start m poor calloc created = Ok (outs, job) →
  activates outs = false ∧ ends outs = match job with Some _ => 0%nat | None => 1%nat end ∧
  ∀ j, job = Some j → poor = false ∧ 0 <= oj_size j ∧ strSha256 j = field_copy 72 (default [] (str_of m "sha256")) ∧
    (oj_size j = 0 ∨ ∃ x, get_item m "size" = Some (CNumber x) ∧ f64_trunc x = Some (oj_size j)).
Proof.
  unfold ota_start. destruct poor; [by intros [= <- <-]|]. destruct (str_of m "url"); [|by intros [= <- <-]].
  destruct calloc; cbn [negb]; [|by intros [= <- <-]].
  set (size := match get_item m "size" with Some (CNumber x) => cast_uint 32 x | _ => Ok 0 end).
  destruct size as [z| |] eqn:Ez; cbn [mbind res_bind]; [|done..].
  destruct created; intros [= <- <-]; [|done]. split; [done|]. split; [done|]. intros j [= <-]. cbn [oj_size strSha256].
  assert (z = 0 ∨ ∃ x, get_item m "size" = Some (CNumber x) ∧ f64_trunc x = Some z ∧ 0 <= z) as Hz.
  { subst size. destruct (get_item m "size") as [[| |x| | |]|]; try (left; congruence). right. exists x.
    by destruct (cast_uint_range _ _ _ Ez). }
  split; [done|]. split; [destruct Hz as [->|(x & _ & _ & ?)]; lia|]. split; [done|].
  destruct Hz as [|(x & ? & ? & _)]; [by left|right; by exists x].
Qed.

Lemma activates_app l k : activates (l ++ k) = activates l || activates k.
Proof. apply existsb_app. Qed.

Lemma ends_app l k : ends (l ++ k) = (ends l + ends k)%nat.
Proof. unfold ends. by rewrite List.filter_app, length_app. Qed.

Lemma attempt_attested m poor calloc created env outs :
  ota_attempt m poor calloc created env = Ok outs → activates outs = true →
  poor = false ∧ attested m (ve_part (oe_verify env)).
Proof.
  unfold ota_attempt. destruct (ota_start m poor calloc created) as [[o1 job]| |] eqn:E; cbn [mbind res_bind fst snd]; [|done..].
  destruct (ota_start_spec _ _ _ _ _ _ E) as (Ha & _ & Hj). destruct job as [j|]; [|intros [= <-]; congruence].
  destruct (Hj j eq_refl) as (-> & Hs & Hhex & Hsize).
  destruct (ota_run j env) as [o2| |] eqn:E2; cbn [mbind res_bind]; [|done..]. intros [= <-].
  rewrite activates_app, Ha. intros Hact. split; [done|].
  pose proof (proj2 (ota_run_spec j env o2 Hs E2) Hact) as Hv.
  destruct (verify_spec (oj_size j) (strSha256 j) (oe_verify env) Hs) as (ok & Hok & Hspec).
  rewrite Hv in Hok. injection Hok as <-. destruct (Hspec eq_refl) as (part & Hp & Hsz & Hh).
  destruct Hsize as [|(x & Hx & Ht)]; [lia|]. rewrite Hhex in Hh, Hv.
  destruct (str_of m "sha256") as [hex|] eqn:Ehex.
  - by exists hex, x, (oj_size j), part.
  - unfold ota_verify_sha256 in Hv. cbn in Hv. done.
Qed.

(** Every update attempt ends once.  Whatever the download, the flash and the
    library answer, and whatever the message holds (with a size that fits its type),
    the attempt terminates: either it restarts the device or it hands the session
    back with the failure note, exactly one of the two and exactly once; and it
    never activates the slot on a poor link. *)
Theorem ota_attempt_ends m poor calloc created env :
  (∀ x, get_item m "size" = Some (CNumber x) → ∃ z, cast_uint 32 x = Ok z) →
  (∃ err, ota_perform (oe_perform env) = Ok err) →
  ∃ outs, ota_attempt m poor calloc created env = Ok outs ∧ ends outs = 1%nat ∧
    (poor = true → activates outs = false).
Proof.
  intros Hsize Hperf.
  assert (∃ r, ota_start m poor calloc created = Ok r) as [[o1 job] E].
  { unfold ota_start. destruct poor; [by eexists|]. destruct (str_of m "url"); [|by eexists].
    destruct calloc; cbn [negb]; [|by eexists]. destruct (get_item m "size") as [[| |x| | |]|] eqn:Ex;
      try (destruct (Hsize x eq_refl) as [z ->]); cbn [mbind res_bind]; destruct created; by eexists. }
  pose proof (attempt_attested m poor calloc created env) as Hatt. unfold ota_attempt in *. rewrite E in *.
  cbn [mbind res_bind fst snd] in *. destruct (ota_start_spec _ _ _ _ _ _ E) as (Ha & He & Hj). destruct job as [j|].
  - destruct (Hj j eq_refl) as (-> & Hs & _). destruct (ota_run_total j env Hs Hperf) as [o2 E2].
    rewrite E2. cbn [mbind res_bind]. eexists. split; [done|]. rewrite ends_app, He. split; [|done].
    by destruct (ota_run_spec j env o2 Hs E2) as [-> _].
  - eexists. split; [done|]. by rewrite He.
Qed.

(** ** With the session *)

Section session.
Variable alloc : Z → option (list Z).
Variable hmac : list Z → list Z → list Z.
Variable base64 : list Z → option (list Z).
Variable cfg : fp_config_t.

Lemma fp_log_step s es e :
  e ∈ fp_log alloc sha256 hmac base64 cfg s es → ∃ x s', fp_step alloc sha256 hmac base64 cfg e.1 x = Ok (s', e.2).
Proof.
  revert s. induction es as [|x es IH]; intros s; cbn [fp_log]; [by intros ?%elem_of_nil|].
  destruct (fp_step alloc sha256 hmac base64 cfg s x) as [[s' acts]| |] eqn:E; [|by intros ?%elem_of_nil..].
  intros [->|He]%elem_of_cons; [by exists x, s'|by eapply IH].
Qed.

(** C33: Only an attested image is ever activated.  Whatever a session receives and
    whatever the download writes: if an attempt started by the session activates the
    slot, then the message that started it carries a valid MAC under the session's
    key and nonces, and the SHA-256 of the first [size] bytes of the slot is the
    hash that this message attests. *)
Theorem ota_activates_attested_images s es e m poor calloc created env outs :
  e ∈ fp_log alloc sha256 hmac base64 cfg s es → AOta m ∈ e.2 →
  ota_attempt m poor calloc created env = Ok outs → activates outs = true →
  authentic alloc sha256 hmac base64 cfg e.1 m (seq_of m) ∧ attested m (ve_part (oe_verify env)) ∧ poor = false.
Proof.
  intros (x & s' & Hstep)%fp_log_step Hm Hatt Hact.
  assert ((m, false) ∈ control_calls e.2) as Hc by (apply list_elem_of_omap; by exists (AOta m)).
  destruct (step_ok_authentic _ _ _ _ _ _ _ _ _ _ (fp_step_ok _ _ _ _ _ _ _ _ _ Hstep) Hc) as [Ha _].
  destruct (attempt_attested _ _ _ _ _ _ Hatt Hact) as [-> Hat]. done.
Qed.
End session.
End ota.

(** ** An update *)

Definition wide_hash (l : list Z) : list Z := replicate 30 171 ++ toy_hash l.

Definition ota_slot : list Z := replicate 40 7 ++ replicate 24 255.

Definition ota_message : cjson :=
  match fp_auth_message_sign zero_heap wide_hash toy_hmac toy_base64
          (mk_auth_ctx [1; 2; 3] (cstr "s2c") (cstr "esp32-1") (cstr "sn")
             (field_copy 32 (default [] (toy_base64 example_nonce))))
          (CObject (add_string "type" (cstr "ota_available") ++ add_string "target_version" (cstr "1.0.1") ++
                    add_string "url" (cstr "https://u/f.bin") ++ add_number "size" 40 ++
                    add_string "sha256" (hex_text (wide_hash (take 40 ota_slot))))) (cstr "1") 1 with
  | Ok (Some m) => m
  | _ => CNull
  end.

Definition ota_events : list fp_event :=
  [EHello example_nonce 0; EMessage (Some example_ack) 0; EMessage (Some ota_message) 0].

(** The download takes three steps, everything succeeds. *)
Definition ota_good : ota_env :=
  mk_ota_env 0 true [None; None; Some 0] true (mk_verify_env (Some ota_slot) true (λ _, true)) 0.

Definition ota_session_log : list (fp_session_t * list fp_action) :=
  fp_log zero_heap wide_hash toy_hmac toy_base64 example_cfg fp_session_init ota_events.

Definition outs_of (r : res (list ota_out)) : list ota_out := match r with Ok l => l | _ => [] end.

Lemma ota_activates_attested_images_witness :
  ∃ e, e ∈ ota_session_log ∧ AOta ota_message ∈ e.2 ∧
    activates (outs_of (ota_attempt wide_hash ota_message false true true ota_good)) = true ∧
    attested wide_hash ota_message (Some ota_slot).
Proof.
  destruct (ota_session_log !! 2%nat) as [e|] eqn:E; [|by vm_compute in E].
  assert (Hm : AOta ota_message ∈ e.2).
  { apply list_elem_of_In. revert E. vm_compute. intros [= <-]. by left. }
  exists e. split; [by eapply list_elem_of_lookup_2|]. split; [done|]. split; [vm_compute; reflexivity|].
  apply (ota_activates_attested_images wide_hash zero_heap toy_hmac toy_base64 example_cfg fp_session_init ota_events
           e ota_message false true true ota_good (outs_of (ota_attempt wide_hash ota_message false true true ota_good))).
  - by eapply list_elem_of_lookup_2.
  - done.
  - vm_compute. reflexivity.
  - vm_compute. reflexivity.
Defined.

(** A damaged slot is not activated; the attempt hands the session back. *)
Lemma ota_attempt_ends_witness :
  ∃ outs, ota_attempt wide_hash ota_message false true true
            (mk_ota_env 0 true [None; Some 0] true (mk_verify_env (Some (0 :: ota_slot)) true (λ _, true)) 0) = Ok outs ∧
    ends outs = 1%nat ∧ activates outs = false.
Proof.
  destruct (ota_attempt_ends wide_hash ota_message false true true
              (mk_ota_env 0 true [None; Some 0] true (mk_verify_env (Some (0 :: ota_slot)) true (λ _, true)) 0))
    as (outs & E & He & _).
  - intros x Hx. exists 40. vm_compute in Hx. injection Hx as <-. by vm_compute.
  - by exists 0.
  - exists outs. split; [done|]. split; [done|]. vm_compute in E. injection E as <-. reflexivity.
Defined.

(** The refusal on a poor link reads another member than the job: a message that
    follows the schema is reported with the version "?". *)
Example poor_link_reports_no_version :
  ota_attempt wide_hash ota_message true true true ota_good =
  Ok [ota_failed (cstr "?") "link_poor" None; OFailedNote].
Proof. vm_compute. reflexivity. Qed.

(** Only [size] bytes are hashed: what follows them in the slot does not matter. *)
Example tail_is_not_hashed :
  activates (outs_of (ota_attempt wide_hash ota_message false true true
    (mk_ota_env 0 true [Some 0] true (mk_verify_env (Some (take 40 ota_slot ++ replicate 24 0)) true (λ _, true)) 0))) = true.
Proof. vm_compute. reflexivity. Qed.
