(* ===== verification/FpWs.v ===== *)
(** * The WebSocket transport: [fp_ws.c]

    Models src/components/clientside_protocol/src/fp_ws.c: the reassembly of the
    chunks in which the client library delivers a text frame, in a buffer that grows
    by doubling, and the calls of the protocol task.  The library (connection, TLS,
    sending) answers through arguments; setting up its configuration is left out.
    [size_t] has 32 bits; a chunk has at most the configured 1024 bytes.

    [ws_frame_reassembled]: a frame cut into chunks in any way arrives whole, once,
    with a terminating NUL inside the buffer, whatever came before, if the memory
    it needs is there; [lost_chunk_goes_unnoticed]: if not. *)

From S2P Require Import Prelude Bytes FpAuth.
Local Open Scope list_scope.
Local Open Scope Z_scope.

(** The buffer: its cells ([[]]: none yet), fill, capacity. *)
Record fp_ws_t := mk_ws { w_rx : list Z; rx_len : Z; rx_cap : Z }.

(** What the callback is told; data with the text up to the fill. *)
Inductive fp_ws_event_t :=
  | FP_WS_CONNECTED
  | FP_WS_DATA (text : list Z)
  | FP_WS_DISCONNECTED.

(** An event of the client library; [mem]: what [realloc] answers to a size. *)
Inductive ws_lib_event :=
  | WEBSOCKET_EVENT_CONNECTED
  | WEBSOCKET_EVENT_DISCONNECTED
  | WEBSOCKET_EVENT_DATA (op_code payload_offset payload_len : Z) (data : list Z) (mem : Z → option (list Z))
  | WEBSOCKET_EVENT_OTHER.

Definition WS_BUFFER_SIZE : Z := 1024.

(** [calloc] of the handle. *)
Definition fp_ws_create : fp_ws_t := mk_ws [] 0 0.

Definition rx_reset (w : fp_ws_t) : res fp_ws_t :=
  match w_rx w with
  | [] => Ok (mk_ws [] 0 (rx_cap w))
  | _ => rx ← array_set (w_rx w) 0 0; Ok (mk_ws rx 0 (rx_cap w))
  end.

Definition rx_append (mem : Z → option (list Z)) (w : fp_ws_t) (d : list Z) : res (bool * fp_ws_t) :=
  let n := zlen d in
  let need := u32 (u32 (rx_len w + n) + 1) in
  r ← (if rx_cap w <? need then
         nc ← sb_grow 34 (if rx_cap w =? 0 then 512 else rx_cap w) need;
         match mem nc with
         | None => Ok None
         | Some np => Ok (Some (take (Z.to_nat (rx_cap w)) (w_rx w) ++ drop (Z.to_nat (rx_cap w)) np, nc))
         end
       else Ok (Some (w_rx w, rx_cap w)));
  match r with
  | None => Ok (false, w)
  | Some (p, cap) =>
      p ← array_write p (rx_len w) d;
      p ← array_set p (u32 (rx_len w + n)) 0;
      Ok (true, mk_ws p (u32 (rx_len w + n)) cap)
  end.

Definition ws_event (w : fp_ws_t) (e : ws_lib_event) : res (fp_ws_t * list fp_ws_event_t) :=
  match e with
  | WEBSOCKET_EVENT_CONNECTED => Ok (w, [FP_WS_CONNECTED])
  | WEBSOCKET_EVENT_DISCONNECTED => w ← rx_reset w; Ok (w, [FP_WS_DISCONNECTED])
  | WEBSOCKET_EVENT_DATA op off len data mem =>
      if op =? 8 then Ok (w, [])
      else if negb (op =? 1) && negb (op =? 0) then Ok (w, [])
      else
        w ← (if off =? 0 then rx_reset w else Ok w);
        w ← (if 0 <? zlen data then r ← rx_append mem w data; Ok r.2 else Ok w);
        if len <=? off + zlen data then
          text ← array_read (w_rx w) 0 (rx_len w);
          let outs := if 0 <? rx_len w then [FP_WS_DATA text] else [] in
          w ← rx_reset w; Ok (w, outs)
        else Ok (w, [])
  | WEBSOCKET_EVENT_OTHER => Ok (w, [])
  end.

Fixpoint ws_run (w : fp_ws_t) (es : list ws_lib_event) : res (fp_ws_t * list fp_ws_event_t) :=
  match es with
  | [] => Ok (w, [])
  | e :: es => r ← ws_event w e; r' ← ws_run r.1 es; Ok (r'.1, r.2 ++ r'.2)
  end.

(** [fp_ws_start], [fp_ws_restart] and [fp_ws_send] with a handle; [started],
    [connected], [sent]: the answers of the library. *)
Definition fp_ws_start (handle started : bool) : bool := handle && started.

Definition fp_ws_restart (w : option fp_ws_t) (started : bool) : res (bool * option fp_ws_t) :=
  match w with
  | None => Ok (false, None)
  | Some w => w ← rx_reset w; Ok (started, Some w)
  end.

Definition fp_ws_send (handle connected : bool) (sent : Z) (json : list Z) : bool :=
  if negb handle || negb connected then false else sent =? zlen json.

(** ** The buffer *)

(** The buffer holds [t] and a NUL behind it; or there is none yet. *)
Definition ws_ok (w : fp_ws_t) (t : list Z) : Prop :=
  rx_len w = zlen t ∧
  ((w_rx w = [] ∧ rx_cap w = 0 ∧ t = []) ∨
   (∃ k rest, 9 <= k <= 30 ∧ rx_cap w = 2 ^ k ∧ zlen (w_rx w) = 2 ^ k ∧ w_rx w = t ++ 0 :: rest)).

(** Memory: a block has the size asked for, and at most 2^30 bytes. *)
Definition mem_ok (mem : Z → option (list Z)) : Prop := ∀ n b, mem n = Some b → zlen b = n ∧ n <= 2 ^ 30.

Definition event_ok (e : ws_lib_event) : Prop :=
  match e with
  | WEBSOCKET_EVENT_DATA _ _ _ data mem => zlen data <= WS_BUFFER_SIZE ∧ mem_ok mem
  | _ => True
  end.

Lemma ws_ok_create : ws_ok fp_ws_create [].
Proof. split; [done|by left]. Qed.

Lemma rx_reset_ok w t : ws_ok w t → ∃ w', rx_reset w = Ok w' ∧ ws_ok w' [].
Proof.
  intros [_ [(Hrx & Hc & ->)|(k & rest & Hk & Hc & Hs & Hrx)]]; unfold rx_reset.
  - rewrite Hrx. eexists. split; [done|]. split; [done|]. by left.
  - destruct (w_rx w) as [|x l] eqn:E; [by destruct t|]. rewrite array_set_ok by (cbn; lia). cbn [mbind res_bind].
    eexists. split; [done|]. split; [done|]. right. exists k, l. cbn. split; [done|]. split; [done|]. split; [exact Hs|done].
Qed.

(** Writing [d] and the NUL behind the text, where they fit. *)
Lemma rx_write p t r d :
  p = t ++ r → zlen t + zlen d + 1 <= zlen p →
  ∃ p1 p2 rest, array_write p (zlen t) d = Ok p1 ∧ array_set p1 (zlen t + zlen d) 0 = Ok p2 ∧
    p2 = (t ++ d) ++ 0 :: rest ∧ zlen p2 = zlen p.
Proof.
  intros -> Hfit. rewrite zlen_app in Hfit. set (n := length d).
  assert (n < length r)%nat as Hn by (unfold zlen in *; lia).
  destruct (drop n r) as [|x r'] eqn:Edrop.
  { apply (f_equal length) in Edrop. rewrite length_drop in Edrop. cbn in Edrop. lia. }
  assert (t ++ r = t ++ take n r ++ x :: r') as Er by (by rewrite <- Edrop, take_drop).
  assert (Hl : length (take n r) = n) by (rewrite length_take; lia).
  exists (t ++ d ++ x :: r'), ((t ++ d) ++ 0 :: r'), r'. split_and!.
  - rewrite Er. apply array_write_app; [done|]. unfold zlen. by rewrite Hl.
  - rewrite array_set_write, app_assoc, <- zlen_app. by apply (array_write_app (t ++ d) [x] [0] r').
  - done.
  - rewrite Er. unfold zlen. rewrite !length_app, Hl. cbn. unfold n. lia.
Qed.

(** An append: the text grows, or there is no memory and nothing changes. *)
Lemma rx_append_ok mem w t d :
  ws_ok w t → zlen d <= WS_BUFFER_SIZE → mem_ok mem →
  ∃ ok w', rx_append mem w d = Ok (ok, w') ∧ ws_ok w' (if ok : bool then t ++ d else t) ∧
    (zlen t + zlen d < 2 ^ 30 → (∀ n, 0 < n <= 2 ^ 30 → is_Some (mem n)) → ok = true).
Proof.
  intros [Hl Hb] Hd Hmem. unfold WS_BUFFER_SIZE in Hd. unfold rx_append. rewrite Hl.
  assert (Ht : 0 <= zlen t < 2 ^ 30).
  { split; [unfold zlen; lia|]. destruct Hb as [(_ & _ & ->)|(k & rest & Hk & Hc & Hs & Hrx)]; [done|].
    rewrite Hrx, zlen_app in Hs. pose proof (Z.pow_le_mono_r 2 k 30 ltac:(lia) ltac:(lia)).
    rewrite zlen_cons in Hs. unfold zlen in *. lia. }
  assert (Hd0 : 0 <= zlen d) by (unfold zlen; lia).
  rewrite (u32_id (zlen t + zlen d)) by (unfold is_u32; lia). rewrite u32_id by (unfold is_u32; lia).
  assert (Hfin : ∀ p cap k r, p = t ++ r → zlen p = cap → cap = 2 ^ k → 9 <= k <= 30 → zlen t + zlen d + 1 <= cap →
    ∃ p1 p2, array_write p (zlen t) d = Ok p1 ∧ array_set p1 (zlen t + zlen d) 0 = Ok p2 ∧
      ws_ok (mk_ws p2 (zlen t + zlen d) cap) (t ++ d)).
  { intros p cap k r Hp Hpl Hcap Hk Hfit. destruct (rx_write p t r d Hp) as (p1 & p2 & rest & H1 & H2 & H3 & H4); [lia|].
    exists p1, p2. split; [done|]. split; [done|]. split; [cbn; by rewrite zlen_app|]. right. exists k, rest. cbn.
    split; [done|]. split; [done|]. split; [lia|done]. }
  destruct (Z.ltb_spec (rx_cap w) (zlen t + zlen d + 1)) as [Hgrow|Hfit].
  - assert (∃ k, 9 <= k <= 30 ∧ (if rx_cap w =? 0 then 512 else rx_cap w) = 2 ^ k ∧ rx_cap w <= 2 ^ k) as (k & Hk & -> & Hck).
    { destruct Hb as [(_ & -> & _)|(k & rest & Hk & -> & _)]; [by exists 9|]. exists k. split; [done|]. split; [|lia].
      destruct (Z.eqb_spec (2 ^ k) 0) as [E|]; [|done]. pose proof (Z.pow_pos_nonneg 2 k). lia. }
    destruct (sb_grow_ok 34 k 31 (zlen t + zlen d + 1)) as (k' & Hk' & -> & Hle & Hor); [lia..|].
    cbn [mbind res_bind]. destruct (mem (2 ^ k')) as [np|] eqn:Em; cbn [mbind res_bind].
    + apply Hmem in Em as [Hnp Hmax]. assert (k' <= 30) by (apply (Z.pow_le_mono_r_iff 2); lia).
      assert (Htake : take (Z.to_nat (rx_cap w)) (w_rx w) = w_rx w).
      { apply take_ge. destruct Hb as [(-> & _)|(? & ? & _ & Hc & Hs & _)]; [cbn; lia|]. unfold zlen in Hs. lia. }
      rewrite Htake.
      assert (Hcap : zlen (w_rx w) = rx_cap w) by (destruct Hb as [(-> & -> & _)|(? & ? & _ & -> & -> & _)]; done).
      assert (∃ r, w_rx w = t ++ r) as [r Hr] by (destruct Hb as [(-> & _ & ->)|(? & rest & _ & _ & _ & ->)]; by eexists).
      pose proof (Z.pow_le_mono_r 2 k k' ltac:(lia) ltac:(lia)).
      destruct (Hfin (w_rx w ++ drop (Z.to_nat (rx_cap w)) np) (2 ^ k') k' (r ++ drop (Z.to_nat (rx_cap w)) np))
        as (p1 & p2 & H1 & H2 & H3).
      * by rewrite Hr, app_assoc.
      * rewrite zlen_app, Hcap. unfold zlen in *. rewrite length_drop. lia.
      * done.
      * lia.
      * lia.
      * rewrite H1. cbn [mbind res_bind]. rewrite H2. cbn [mbind res_bind]. by eexists true, _.
    + eexists false, w. split; [done|]. split; [by split|]. intros Hsmall Hall. exfalso.
      destruct (Hall (2 ^ k')) as [x Hx]; [|congruence]. pose proof (Z.pow_pos_nonneg 2 k'). split; [lia|].
      destruct Hor as [->|Hor]; [apply Z.pow_le_mono_r; lia|]. apply Z.pow_le_mono_r; [lia|].
      assert (k' - 1 < 30); [|lia]. apply (Z.pow_lt_mono_r_iff 2); lia.
  - destruct Hb as [(_ & Hc & _)|(k & rest & Hk & Hc & Hs & Hrx)]; [lia|].
    destruct (Hfin (w_rx w) (rx_cap w) k (0 :: rest)) as (p1 & p2 & H1 & H2 & H3); [done|lia|done|done|lia|].
    cbn [mbind res_bind]. rewrite H1. cbn [mbind res_bind]. rewrite H2. cbn [mbind res_bind]. by eexists true, _.
Qed.

Lemma rx_text w t : ws_ok w t → array_read (w_rx w) 0 (rx_len w) = Ok t.
Proof.
  intros [Hl Hb]. rewrite Hl. unfold array_read.
  destruct Hb as [(-> & _ & ->)|(k & rest & _ & _ & _ & ->)]; [done|]. rewrite decide_True by (rewrite length_app; unfold zlen; lia).
  rewrite drop_0. unfold zlen. by rewrite Nat2Z.id, take_app_length.
Qed.

(** A chunk: what the buffer holds then and whether a text is delivered. *)
Lemma data_ok w t op off len data mem :
  ws_ok w t → event_ok (WEBSOCKET_EVENT_DATA op off len data mem) →
  ∃ w' outs t', ws_event w (WEBSOCKET_EVENT_DATA op off len data mem) = Ok (w', outs) ∧ ws_ok w' t' ∧
    (let t0 := if off =? 0 then [] else t in
     op = 1 → data ≠ [] → zlen t0 + zlen data < 2 ^ 30 → (∀ n, 0 < n <= 2 ^ 30 → is_Some (mem n)) →
     if len <=? off + zlen data then t' = [] ∧ outs = [FP_WS_DATA (t0 ++ data)] else t' = t0 ++ data ∧ outs = []).
Proof.
  intros Hw [Hd Hm]. cbn [ws_event]. destruct (Z.eqb_spec op 8) as [->|_].
  { exists w, [], t. split; [done|]. split; [done|]. done. }
  destruct (negb (op =? 1) && negb (op =? 0)) eqn:Eop.
  { exists w, [], t. split; [done|]. split; [done|]. cbn zeta. intros Hop. by rewrite Hop in Eop. }
  assert (∃ w0, (if off =? 0 then rx_reset w else Ok w) = Ok w0 ∧ ws_ok w0 (if off =? 0 then [] else t)) as (w0 & -> & Hw0).
  { destruct (off =? 0); [by eapply rx_reset_ok|by exists w]. }
  cbn [mbind res_bind]. set (t0 := if off =? 0 then [] else t) in *.
  assert (∃ w1 t1, (if 0 <? zlen data then r ← rx_append mem w0 data; Ok r.2 else Ok w0) = Ok w1 ∧ ws_ok w1 t1 ∧
            (data ≠ [] → zlen t0 + zlen data < 2 ^ 30 → (∀ n, 0 < n <= 2 ^ 30 → is_Some (mem n)) → t1 = t0 ++ data))
    as (w1 & t1 & -> & Hw1 & Ht1).
  { destruct (Z.ltb_spec 0 (zlen data)).
    - destruct (rx_append_ok mem w0 t0 data Hw0 Hd Hm) as (ok & w1 & -> & Hw1 & Hok). cbn [mbind res_bind snd].
      exists w1, (if ok then t0 ++ data else t0). split; [done|]. split; [done|]. intros _ Hs Ha. by rewrite (Hok Hs Ha).
    - exists w0, t0. split; [done|]. split; [done|]. intros Hne. destruct data; [done|]. rewrite zlen_cons in *. unfold zlen in *. lia. }
  cbn [mbind res_bind]. destruct (len <=? off + zlen data).
  - rewrite (rx_text w1 t1 Hw1). cbn [mbind res_bind]. destruct (rx_reset_ok w1 t1 Hw1) as (w2 & -> & Hw2). cbn [mbind res_bind].
    eexists w2, _, []. split; [done|]. split; [done|]. intros _ Hne Hs Ha. split; [done|].
    rewrite (proj1 Hw1), (Ht1 Hne Hs Ha). destruct data as [|x data]; [done|].
    rewrite (proj2 (Z.ltb_lt 0 _)); [done|]. rewrite zlen_app, zlen_cons. unfold zlen. lia.
  - exists w1, [], t1. split; [done|]. split; [done|]. intros _ Hne Hs Ha. by rewrite (Ht1 Hne Hs Ha).
Qed.

Lemma ws_event_ok w t e : ws_ok w t → event_ok e → ∃ w' outs t', ws_event w e = Ok (w', outs) ∧ ws_ok w' t'.
Proof.
  intros Hw He. destruct e as [| |op off len data mem|].
  - by exists w, [FP_WS_CONNECTED], t.
  - cbn [ws_event]. destruct (rx_reset_ok w t Hw) as (w' & -> & Hw'). cbn [mbind res_bind]. by eexists w', _, [].
  - destruct (data_ok w t op off len data mem Hw He) as (w' & outs & t' & ? & ? & _). by exists w', outs, t'.
  - by exists w, [], t.
Qed.

Lemma ws_run_ok es : ∀ w t, ws_ok w t → Forall event_ok es → ∃ w' outs t', ws_run w es = Ok (w', outs) ∧ ws_ok w' t'.
Proof.
  induction es as [|e es IH]; intros w t Hw He; cbn [ws_run]; [by exists w, [], t|].
  apply Forall_cons in He as [He Hes]. destruct (ws_event_ok w t e Hw He) as (w1 & o1 & t1 & -> & Hw1). cbn [mbind res_bind fst snd].
  destruct (IH w1 t1 Hw1 Hes) as (w2 & o2 & t2 & -> & Hw2). cbn [mbind res_bind fst snd]. by eexists w2, _, t2.
Qed.

(** The chunks of one frame, from an offset on. *)
Fixpoint frame_events (mem : Z → option (list Z)) (off total : Z) (chunks : list (list Z)) : list ws_lib_event :=
  match chunks with
  | [] => []
  | c :: cs => WEBSOCKET_EVENT_DATA 1 off total c mem :: frame_events mem (off + zlen c) total cs
  end.

Lemma frame_run mem chunks : ∀ w t pre total,
  mem_ok mem → (∀ n, 0 < n <= 2 ^ 30 → is_Some (mem n)) → chunks ≠ [] →
  Forall (λ c, c ≠ [] ∧ zlen c <= WS_BUFFER_SIZE) chunks → ws_ok w t → (pre ≠ [] → t = pre) →
  total = zlen pre + zlen (concat chunks) → total < 2 ^ 30 →
  ∃ w', ws_run w (frame_events mem (zlen pre) total chunks) = Ok (w', [FP_WS_DATA (pre ++ concat chunks)]).
Proof.
  induction chunks as [|c cs IH]; intros w t pre total Hm Ha Hne Hc Hw Hpre Htot Hmax; [done|].
  apply Forall_cons in Hc as [[Hcne Hcl] Hcs]. cbn [concat frame_events ws_run] in *. rewrite zlen_app in Htot.
  destruct (data_ok w t 1 (zlen pre) total c mem Hw) as (w1 & outs & t1 & -> & Hw1 & Hspec); [done|]. cbn [mbind res_bind fst snd].
  assert (Ht0 : (if zlen pre =? 0 then [] else t) = pre).
  { destruct pre as [|x pre]; [done|]. rewrite zlen_cons. destruct (Z.eqb_spec (1 + zlen pre) 0); [unfold zlen in *; lia|].
    by apply Hpre. }
  rewrite Ht0 in Hspec. specialize (Hspec eq_refl Hcne ltac:(unfold zlen in *; lia) Ha).
  destruct cs as [|c' cs].
  - cbn [concat] in *. change (zlen (@nil Z)) with 0 in Htot. rewrite (proj2 (Z.leb_le _ _)) in Hspec by lia.
    destruct Hspec as [_ ->]. exists w1. rewrite (app_nil_r c). reflexivity.
  - assert (0 < zlen (concat (c' :: cs))).
    { cbn [concat]. apply Forall_cons in Hcs as [[Hc' _] _]. destruct c'; [done|]. rewrite zlen_app, zlen_cons. unfold zlen. lia. }
    rewrite (proj2 (Z.leb_gt _ _)) in Hspec by lia. destruct Hspec as [-> ->].
    rewrite <- zlen_app. destruct (IH w1 (pre ++ c) (pre ++ c) total) as (w2 & E); try done.
    + rewrite zlen_app. lia.
    + exists w2. rewrite E. cbn [mbind res_bind]. by rewrite <- app_assoc.
Qed.

(** ** Theorems *)

(** C34: A text frame arrives whole.  Whatever the client library delivered before
    (any events, any offsets and lengths, allocations that failed at any time), the
    buffer is never overrun; and a frame that it then delivers in chunks, cut in any
    way, is handed to the session exactly once, with exactly its payload, provided the
    allocations while this frame is received succeed.  (Where one of them fails, the
    code hands over the rest of the frame: [lost_chunk_goes_unnoticed].) *)
Theorem ws_frame_reassembled es mem chunks :
  Forall event_ok es → mem_ok mem → (∀ n, 0 < n <= 2 ^ 30 → is_Some (mem n)) →
  chunks ≠ [] → Forall (λ c, c ≠ [] ∧ zlen c <= WS_BUFFER_SIZE) chunks → zlen (concat chunks) < 2 ^ 30 →
  ∃ w outs w', ws_run fp_ws_create es = Ok (w, outs) ∧
    ws_run w (frame_events mem 0 (zlen (concat chunks)) chunks) = Ok (w', [FP_WS_DATA (concat chunks)]).
Proof.
  intros He Hm Ha Hne Hc Hmax. destruct (ws_run_ok es fp_ws_create [] ws_ok_create He) as (w & outs & t & E & Hw).
  destruct (frame_run mem chunks w t [] (zlen (concat chunks)) Hm Ha Hne Hc Hw) as (w' & E'); try done.
  by exists w, outs, w'.
Qed.

Definition some_mem (n : Z) : option (list Z) :=
  if (0 <? n) && (n <=? 2 ^ 30) then Some (replicate (Z.to_nat n) 0) else None.

Lemma some_mem_ok : mem_ok some_mem.
Proof.
  intros n b. unfold some_mem. destruct (_ && _) eqn:E; [|done]. apply andb_true_iff in E as [H1%Z.ltb_lt H2%Z.leb_le].
  intros [= <-]. split; [|done]. unfold zlen. rewrite length_replicate. lia.
Qed.

(** Half a frame of a lost connection, then a new one. *)
Definition broken_events : list ws_lib_event :=
  [WEBSOCKET_EVENT_CONNECTED; WEBSOCKET_EVENT_DATA 1 0 9 [65; 66; 67] some_mem; WEBSOCKET_EVENT_DISCONNECTED;
   WEBSOCKET_EVENT_CONNECTED; WEBSOCKET_EVENT_DATA 1 0 4 [68] (λ _, None)].

Lemma ws_frame_reassembled_witness :
  ∃ w outs w', ws_run fp_ws_create broken_events = Ok (w, outs) ∧
    ws_run w (frame_events some_mem 0 5 [[1; 2]; [3]; [4; 5]]) = Ok (w', [FP_WS_DATA [1; 2; 3; 4; 5]]).
Proof.
  apply (ws_frame_reassembled broken_events some_mem [[1; 2]; [3]; [4; 5]]).
  - repeat (apply Forall_cons; split); try exact I; try apply Forall_nil; try done;
      (split; [done|]); first [apply some_mem_ok|by intros n b [=]].
  - apply some_mem_ok.
  - intros n Hn. unfold some_mem. rewrite (proj2 (Z.ltb_lt 0 n)), (proj2 (Z.leb_le n (2 ^ 30))) by lia. by eexists.
  - done.
  - repeat constructor; done.
  - done.
Defined.

(** A message fragmented by the peer: its continuation frames start at offset zero
    again, so each fragment is handed over as a message of its own. *)
Example continuation_frames_are_split :
  match ws_run fp_ws_create [WEBSOCKET_EVENT_DATA 1 0 2 [123; 34] some_mem; WEBSOCKET_EVENT_DATA 0 0 2 [34; 125] some_mem] with
  | Ok (_, outs) => outs = [FP_WS_DATA [123; 34]; FP_WS_DATA [34; 125]]
  | _ => False
  end.
Proof. vm_compute. reflexivity. Qed.

(** Memory that fails in the middle of a frame: the rest is handed over without it. *)
Example lost_chunk_goes_unnoticed :
  match ws_run fp_ws_create [WEBSOCKET_EVENT_DATA 1 0 3 [1] (λ _, None); WEBSOCKET_EVENT_DATA 1 1 3 [2; 3] some_mem] with
  | Ok (_, outs) => outs = [FP_WS_DATA [2; 3]]
  | _ => False
  end.
Proof. vm_compute. reflexivity. Qed.
