(* ===== verification/FpTask.v ===== *)
(** * The protocol task: [fp_task.c]

    Models src/components/clientside_protocol/src/fp_task.c: the start of the
    component, the task that sends heartbeats and reports once a second, the events
    of the WebSocket client (FpWs) that drive the session (FpSession), the queue of
    frames to send and the task that ships them.

    Four tasks run here: the client's task, the protocol task, the sender, and
    whoever raises an alert.  A run is a sequence of their steps.  The protocol
    task reads [fp_session_running] and the counters without the lock, so its cycle
    has two steps ([FTick], [FSend]); a call under the lock hands its frames to the
    queue one by one ([FHand]), and holds the lock until the last one is through.
    A wait for room in the queue ends when the sender makes room, or after a second
    with the frame dropped: a step that finds the queue full is such an end.

    [frames_leave_in_order], [alive_needs_progress] and
    [cloud_control_is_authentic] are the contracts; the Examples at the end show
    what the step between the check and the lock lets through. *)

From Stdlib Require Import SpecFloat Sorted.
From S2P Require Import Prelude Bytes Float32 Float64 FpAuth FpSession FpWs.
Local Open Scope string_scope.
Local Open Scope list_scope.
Local Open Scope Z_scope.

Definition FP_TXQ_DEPTH : Z := 8.
Definition FP_SLOW_INTERVAL_S : Z := 60.

(** The configuration: the session's part, the grid in seconds, and which of the
    task's callbacks are given. *)
Record fp_task_config := mk_task_config {
  tc_session : fp_config_t;
  heartbeat_s : Z;
  report_s : Z;
  tc_on_alive : bool;
  tc_on_session_lost : bool
}.

(** [s_ctx] with the file's other variables and the locals of [task_fn].  A handle
    is whether it was created.  [cx_hand]: the frames the holder of the lock has
    still to hand over; [cx_flight]: the frame the sender is at; [cx_tick]: the protocol task is between its checks and the
    lock, with the uptime and the two intervals it read. *)
Record fp_ctx_t := mk_ctx {
  cx_lock : bool;
  cx_session : fp_session_t;
  cx_ws : option fp_ws_t;
  cx_txq : option (list cjson);
  cx_tx_task : bool;
  cx_flight : option cjson;
  cx_task : bool;
  cx_hand : list cjson;
  s_slow_mode : bool;
  s_tx_ok_count : Z;
  s_tx_fail_count : Z;
  cx_tick : option (Z * Z * Z);
  last_hb : Z;
  last_rep : Z;
  last_tx_ok : Z;
  was_running : bool
}.
#[export] Instance eta_fp_ctx_t : Eta fp_ctx_t := λ r, mk_ctx
      (cx_lock r) (cx_session r) (cx_ws r) (cx_txq r) (cx_tx_task r) (cx_flight r) (cx_task r) (cx_hand r) (s_slow_mode r)
      (s_tx_ok_count r) (s_tx_fail_count r) (cx_tick r) (last_hb r) (last_rep r) (last_tx_ok r) (was_running r).
#[export] Instance set_cx_lock : Setter cx_lock. Proof. mk_setter. Defined.
#[export] Instance set_cx_session : Setter cx_session. Proof. mk_setter. Defined.
#[export] Instance set_cx_ws : Setter cx_ws. Proof. mk_setter. Defined.
#[export] Instance set_cx_txq : Setter cx_txq. Proof. mk_setter. Defined.
#[export] Instance set_cx_tx_task : Setter cx_tx_task. Proof. mk_setter. Defined.
#[export] Instance set_cx_flight : Setter cx_flight. Proof. mk_setter. Defined.
#[export] Instance set_cx_task : Setter cx_task. Proof. mk_setter. Defined.
#[export] Instance set_cx_hand : Setter cx_hand. Proof. mk_setter. Defined.
#[export] Instance set_s_slow_mode : Setter s_slow_mode. Proof. mk_setter. Defined.
#[export] Instance set_s_tx_ok_count : Setter s_tx_ok_count. Proof. mk_setter. Defined.
#[export] Instance set_s_tx_fail_count : Setter s_tx_fail_count. Proof. mk_setter. Defined.
#[export] Instance set_cx_tick : Setter cx_tick. Proof. mk_setter. Defined.
#[export] Instance set_last_hb : Setter last_hb. Proof. mk_setter. Defined.
#[export] Instance set_last_rep : Setter last_rep. Proof. mk_setter. Defined.
#[export] Instance set_last_tx_ok : Setter last_tx_ok. Proof. mk_setter. Defined.
#[export] Instance set_was_running : Setter was_running. Proof. mk_setter. Defined.

Definition fp_ctx_zero : fp_ctx_t :=
  mk_ctx false session_zero None None false None false [] false 0 0 None 0 0 0 false.

(** What happens in a run: the session is reset; it calls the application, and is
    done with an event, with the frames it made; a frame enters the queue, is dropped in front of it, leaves the device,
    or fails to; the task's own callbacks. *)
Inductive fp_out :=
  | OReset
  | OCall (a : fp_action)
  | OHandled (e : fp_event) (frames : list cjson)
  | OQueued (m : cjson)
  | ODropped (m : cjson)
  | OSent (m : cjson)
  | OFailed (m : cjson)
  | OAlive
  | OSessionLost.

Definition call_of (a : fp_action) : option fp_out :=
  match a with ASend _ => None | _ => Some (OCall a) end.

Definition fp_now_ms (t : Z) : Z := if t <? 1600000000 then 0 else t * 1000.

Definition fountain_proto_slow_mode_set (c : fp_ctx_t) (slow : bool) : fp_ctx_t := c <| s_slow_mode := slow |>.
Definition fountain_proto_running (c : fp_ctx_t) : bool := ss_running (cx_session c).
Definition fountain_proto_tx_stats (c : fp_ctx_t) : Z * Z := (s_tx_ok_count c, s_tx_fail_count c).

Definition fountain_proto_recover (c : fp_ctx_t) (started : bool) : res (bool * fp_ctx_t) :=
  match cx_ws c with
  | None => Ok (false, c)
  | Some w => r ← fp_ws_restart (Some w) started; Ok (true, c <| cx_ws := r.2 |>)
  end.

(** [mem]: there is memory for the text; otherwise the frame is not queued. *)
Definition tx_enqueue_owned (c : fp_ctx_t) (mem : bool) (m : cjson) : bool * fp_ctx_t * list fp_out :=
  match cx_txq c with
  | Some q => if mem && (zlen q <? FP_TXQ_DEPTH) then (true, c <| cx_txq := Some (q ++ [m]) |>, [OQueued m])
              else (false, c, [ODropped m])
  | None => (false, c, [ODropped m])
  end.

(** ** The messages of this file *)

Definition fp_device_alert_build (code severity : list Z) (datapoint : option (list Z * f64 * f64))
    (detail : option (list Z)) : list (list Z * cjson) :=
  add_string "code" code ++ add_string "severity" severity ++
  (if datapoint is Some (d, v, t) then add_string "datapoint" d ++ member "value" (CNumber v) ++ member "threshold" (CNumber t)
   else []) ++
  opt_member "detail" (CString <$> detail).

Definition fp_ota_status_build (target_version state : option (list Z)) (attempt progress_pct : Z)
    (error error_detail : option (list Z)) : list (list Z * cjson) :=
  opt_member "target_version" (CString <$> target_version) ++ opt_member "state" (CString <$> state) ++
  add_number "attempt" attempt ++ add_number "progress_pct" progress_pct ++
  opt_member "error" (CString <$> error) ++ opt_member "error_detail" (CString <$> error_detail).

(** A step of a run. *)
Inductive fp_task_event :=
  | FWs (e : ws_lib_event) (nonce : list Z) (t : Z)
  | FTick (up : Z)
  | FSend (changes : list (list Z * cjson)) (t : Z)
  | FHand (mem : bool)
  | FTake
  | FTx (connected : bool) (sent : Z)
  | FSlow (slow : bool)
  | FRecover (started : bool)
  | FAlert (code severity : list Z) (datapoint : option (list Z * f64 * f64)) (detail : option (list Z)) (mem : bool) (t : Z)
  | FOtaStatus (target_version state : option (list Z)) (attempt progress_pct : Z)
      (error error_detail : option (list Z)) (mem : bool) (t : Z)
  | FOtaFailed.

Section fp_task.
Variable alloc : Z → option (list Z).
Variable sha256 : list Z → list Z.
Variable hmac : list Z → list Z → list Z.
Variable base64 : list Z → option (list Z).
Variable cJSON_Parse : list Z → option cjson.
Variable cJSON_PrintUnformatted : cjson → list Z.
Variable cfg : fp_task_config.

(** A call of the session, under the lock. *)
Definition session_call (c : fp_ctx_t) (e : fp_event) (r : fp_session_t * list fp_action) : fp_ctx_t * list fp_out :=
  (c <| cx_session := r.1 |> <| cx_hand := cx_hand c ++ omap sent_frame r.2 |>,
   omap call_of r.2 ++ [OHandled e (omap sent_frame r.2)]).

Definition on_ws (c : fp_ctx_t) (ev : fp_ws_event_t) (nonce : list Z) (t : Z) : res (fp_ctx_t * list fp_out) :=
  if negb (cx_lock c) then OutOfBounds else
  match ev with
  | FP_WS_CONNECTED =>
      let c := c <| cx_session := fp_session_reset (cx_session c) |> in
      let e := EHello nonce (fp_now_ms t) in
      r ← fp_step alloc sha256 hmac base64 (tc_session cfg) (cx_session c) e;
      let '(c, outs) := session_call c e r in Ok (c, OReset :: outs)
  | FP_WS_DATA text =>
      let e := EMessage (cJSON_Parse text) (fp_now_ms t) in
      r ← fp_step alloc sha256 hmac base64 (tc_session cfg) (cx_session c) e;
      Ok (session_call c e r)
  | FP_WS_DISCONNECTED => Ok (c <| cx_session := fp_session_reset (cx_session c) |>, [OReset])
  end.

(** The client's callback, for what [ws_event] reports. *)
Fixpoint on_ws_all (c : fp_ctx_t) (evs : list fp_ws_event_t) (nonce : list Z) (t : Z) : res (fp_ctx_t * list fp_out) :=
  match evs with
  | [] => Ok (c, [])
  | ev :: evs => r ← on_ws c ev nonce t; r' ← on_ws_all r.1 evs nonce t; Ok (r'.1, r.2 ++ r'.2)
  end.

Definition ws_task_event (c : fp_ctx_t) (e : ws_lib_event) (nonce : list Z) (t : Z) : res (fp_ctx_t * list fp_out) :=
  match cx_ws c with
  | None => Ok (c, [])
  | Some w => r ← ws_event w e; on_ws_all (c <| cx_ws := Some r.1 |>) r.2 nonce t
  end.

(** [task_fn]: from the delay to the lock. *)
Definition task_fn_checks (c : fp_ctx_t) (up : Z) : fp_ctx_t * list fp_out :=
  if negb (fountain_proto_running c) then
    (c <| was_running := false |>, if was_running c && tc_on_session_lost cfg then [OSessionLost] else [])
  else
    let c := c <| was_running := true |> in
    let tx_ok := s_tx_ok_count c in
    let '(c, outs) := if negb (tx_ok =? last_tx_ok c)
                      then (c <| last_tx_ok := tx_ok |>, if tc_on_alive cfg then [OAlive] else []) else (c, []) in
    let hb_s := if s_slow_mode c then FP_SLOW_INTERVAL_S else heartbeat_s cfg in
    let rep_s := if s_slow_mode c then FP_SLOW_INTERVAL_S else report_s cfg in
    (c <| cx_tick := Some (up, hb_s, rep_s) |>, outs).

(** [task_fn]: under the lock, the heartbeat and the report. *)
Definition task_fn_heartbeat (c : fp_ctx_t) (up hb_s t : Z) : res (fp_ctx_t * list fp_out) :=
  if hb_s <=? u32 (up - last_hb c) then
    let e := EHeartbeat up (fp_now_ms t) in
    r ← fp_step alloc sha256 hmac base64 (tc_session cfg) (cx_session c) e;
    Ok (session_call (c <| last_hb := up |>) e r)
  else Ok (c, []).

Definition task_fn_report (c : fp_ctx_t) (up rep_s : Z) (changes : list (list Z * cjson)) (t : Z)
    : res (fp_ctx_t * list fp_out) :=
  if rep_s <=? u32 (up - last_rep c) then
    let e := EReport (fp_now_ms t) in
    r ← fp_step alloc sha256 hmac base64 (tc_session cfg) (cx_session c) e;
    Ok (session_call (c <| last_rep := up |>) e r)
  else
    let e := EChanges changes (fp_now_ms t) in
    r ← fp_step alloc sha256 hmac base64 (tc_session cfg) (cx_session c) e;
    Ok (session_call c e r).

Definition task_fn_sends (c : fp_ctx_t) (up hb_s rep_s : Z) (changes : list (list Z * cjson)) (t : Z)
    : res (fp_ctx_t * list fp_out) :=
  r1 ← task_fn_heartbeat c up hb_s t;
  r2 ← task_fn_report r1.1 up rep_s changes t;
  Ok (r2.1 <| cx_tick := None |>, r1.2 ++ r2.2).

(** [tx_task_fn]: taking a frame, and what the library answers to it. *)
Definition tx_task_receive (c : fp_ctx_t) : fp_ctx_t :=
  match cx_flight c, cx_txq c with
  | None, Some (m :: q) => c <| cx_txq := Some q |> <| cx_flight := Some m |>
  | _, _ => c
  end.

Definition tx_task_send (c : fp_ctx_t) (connected : bool) (sent : Z) : fp_ctx_t * list fp_out :=
  match cx_flight c with
  | Some m =>
      let c := c <| cx_flight := None |> in
      if fp_ws_send (if cx_ws c is Some _ then true else false) connected sent (cJSON_PrintUnformatted m)
      then (c <| s_tx_ok_count := u32 (s_tx_ok_count c + 1) |>, [OSent m])
      else (c <| s_tx_fail_count := u32 (s_tx_fail_count c + 1) |>, [OFailed m])
  | None => (c, [])
  end.

Definition fountain_proto_alert_send (c : fp_ctx_t) (code severity : list Z) (datapoint : option (list Z * f64 * f64))
    (detail : option (list Z)) (mem : bool) (t : Z) : bool * fp_ctx_t * list fp_out :=
  if cx_ws c is None then (false, c, []) else
  let to_float (x : f64) := f64_of_f32 (f32_of_f64 x) in
  let body := fp_device_alert_build code severity ((λ d, (d.1.1, to_float d.1.2, to_float d.2)) <$> datapoint) detail in
  match fp_envelope_build FP_MSG_DEVICE_ALERT body (fc_serial (tc_session cfg)) None None (fp_now_ms t) with
  | Some msg => tx_enqueue_owned c mem msg
  | None => (false, c, [])
  end.

Definition fountain_proto_ota_status_send (c : fp_ctx_t) (target_version state : option (list Z))
    (attempt progress_pct : Z) (error error_detail : option (list Z)) (mem : bool) (t : Z)
    : bool * fp_ctx_t * list fp_out :=
  if cx_ws c is None then (false, c, []) else
  let body := fp_ota_status_build target_version state attempt progress_pct error error_detail in
  match fp_envelope_build FP_MSG_OTA_STATUS body (fc_serial (tc_session cfg)) None None (fp_now_ms t) with
  | Some msg => tx_enqueue_owned c mem msg
  | None => (false, c, [])
  end.

Definition fountain_proto_ota_failed_note (c : fp_ctx_t) : res (fp_ctx_t * list fp_out) :=
  if negb (cx_lock c) then OutOfBounds else
  r ← fp_step alloc sha256 hmac base64 (tc_session cfg) (cx_session c) EOtaFailed; Ok (session_call c EOtaFailed r).

(** The start, with the answers of the calls it makes. *)
Definition fountain_proto_start (c : fp_ctx_t) (mutex ws txq tx_task ws_start task : bool) : bool * fp_ctx_t :=
  if zlen (fc_auth_key (tc_session cfg)) =? 0 then (false, c) else
  let c := c <| cx_lock := mutex |> in
  if negb mutex then (false, c) else
  let c := c <| cx_session := fp_session_init |> <| cx_ws := if ws then Some fp_ws_create else None |> in
  if negb ws then (false, c) else
  let c := c <| cx_txq := if txq then Some [] else None |> in
  if negb txq then (false, c) else
  if negb tx_task then (false, c) else
  let c := c <| cx_tx_task := true |> in
  if negb (fp_ws_start true ws_start) then (false, c) else
  if negb task then (false, c) else
  (true, c <| cx_task := true |>).

(** ** Runs

    While frames are handed over the lock is taken: a step that needs it waits,
    that is, it comes later in the run. *)

Definition locked (c : fp_ctx_t) : bool := if cx_hand c is [] then false else true.

Definition fp_task_step (c : fp_ctx_t) (e : fp_task_event) : res (fp_ctx_t * list fp_out) :=
  match e with
  | FWs e nonce t => if locked c then Ok (c, []) else ws_task_event c e nonce t
  | FTick up => if cx_tick c is Some _ then Ok (c, []) else if cx_task c then Ok (task_fn_checks c up) else Ok (c, [])
  | FSend changes t =>
      match cx_tick c with
      | Some (up, hb, rep) => if locked c then Ok (c, []) else task_fn_sends c up hb rep changes t
      | None => Ok (c, [])
      end
  | FHand mem =>
      match cx_hand c with
      | m :: hand => let '(_, c, outs) := tx_enqueue_owned (c <| cx_hand := hand |>) mem m in Ok (c, outs)
      | [] => Ok (c, [])
      end
  | FTake => if cx_tx_task c then Ok (tx_task_receive c, []) else Ok (c, [])
  | FTx connected sent => Ok (tx_task_send c connected sent)
  | FSlow slow => Ok (fountain_proto_slow_mode_set c slow, [])
  | FRecover started => r ← fountain_proto_recover c started; Ok (r.2, [])
  | FAlert code severity dp detail mem t =>
      let '(_, c, outs) := fountain_proto_alert_send c code severity dp detail mem t in Ok (c, outs)
  | FOtaStatus tv st at' pr er ed mem t =>
      let '(_, c, outs) := fountain_proto_ota_status_send c tv st at' pr er ed mem t in Ok (c, outs)
  | FOtaFailed => if locked c then Ok (c, []) else fountain_proto_ota_failed_note c
  end.

Fixpoint fp_task_run (c : fp_ctx_t) (es : list fp_task_event) : res (fp_ctx_t * list fp_out) :=
  match es with
  | [] => Ok (c, [])
  | e :: es => r ← fp_task_step c e; r' ← fp_task_run r.1 es; Ok (r'.1, r.2 ++ r'.2)
  end.
End fp_task.

(** ** The way of a frame *)

Definition queued_of (o : fp_out) : option cjson := match o with OQueued m => Some m | _ => None end.
Definition shipped_of (o : fp_out) : option cjson := match o with OSent m | OFailed m => Some m | _ => None end.
Definition sent_of (o : fp_out) : option cjson := match o with OSent m => Some m | _ => None end.
Definition failed_of (o : fp_out) : option cjson := match o with OFailed m => Some m | _ => None end.
Definition alive_of (o : fp_out) : option unit := match o with OAlive => Some () | _ => None end.

Definition in_queue (c : fp_ctx_t) : list cjson := match cx_txq c with Some q => q | None => [] end.
Definition in_flight (c : fp_ctx_t) : list cjson := if cx_flight c is Some m then [m] else [].

(** What the sender's side amounts to after the outputs [outs]. *)
Record tx_inv (c : fp_ctx_t) (outs : list fp_out) : Prop := {
  ti_order : omap queued_of outs = omap shipped_of outs ++ in_flight c ++ in_queue c;
  ti_room : zlen (in_queue c) <= FP_TXQ_DEPTH;
  ti_ok : s_tx_ok_count c = u32 (zlen (omap sent_of outs));
  ti_fail : s_tx_fail_count c = u32 (zlen (omap failed_of outs))
}.

(** Outputs that have nothing to do with the queue. *)
Definition off_queue (o : fp_out) : Prop :=
  match o with OReset | OCall _ | OHandled _ _ | OAlive | OSessionLost => True | _ => False end.

(** The fields of the sender's side, which the other tasks leave alone. *)
Definition tx_side (c : fp_ctx_t) := (cx_txq c, cx_flight c, s_tx_ok_count c, s_tx_fail_count c).

Lemma tx_inv_quiet c c' outs o :
  tx_inv c outs → tx_side c' = tx_side c → Forall (λ x, queued_of x = None ∧ shipped_of x = None) o → tx_inv c' (outs ++ o).
Proof.
  intros [H1 H2 H3 H4] Hs Ho. injection Hs as E1 E2 E3 E4.
  assert (omap queued_of o = [] ∧ omap shipped_of o = [] ∧ omap sent_of o = [] ∧ omap failed_of o = []) as (Q1 & Q2 & Q3 & Q4).
  { clear - Ho. induction Ho as [|[] o [? ?] _ IH]; done. }
  unfold in_queue, in_flight in *.
  split; rewrite ?omap_app, ?Q1, ?Q2, ?Q3, ?Q4, ?app_nil_r; unfold in_queue, in_flight; by rewrite ?E1, ?E2, ?E3, ?E4.
Qed.

Lemma quiet_calls e frames acts :
  Forall (λ x, queued_of x = None ∧ shipped_of x = None) (omap call_of acts ++ [OHandled e frames]).
Proof. induction acts as [|[] acts IH]; cbn; try apply Forall_cons; auto. Qed.

(** A frame in front of the queue. *)
Lemma tx_inv_enqueue c outs mem m :
  tx_inv c outs → let '(_, c', o) := tx_enqueue_owned c mem m in tx_inv c' (outs ++ o).
Proof.
  intros I. unfold tx_enqueue_owned. destruct (cx_txq c) as [q|] eqn:Eq; [|apply (tx_inv_quiet c); [done..|by repeat constructor]].
  destruct (mem && _) eqn:Em; [|apply (tx_inv_quiet c); [done..|by repeat constructor]].
  apply andb_prop in Em as [_ Hroom]. apply Z.ltb_lt in Hroom. destruct I as [H1 H2 H3 H4]. unfold in_queue in *.
  rewrite Eq in *. split; unfold in_queue; cbn [cx_txq]; rewrite ?omap_app; cbn; rewrite ?app_nil_r; try done.
  - rewrite H1. unfold in_flight. cbn. by rewrite <- !app_assoc.
  - rewrite zlen_app. change (zlen [m]) with 1. lia.
Qed.

Lemma tx_inv_receive c outs : tx_inv c outs → tx_inv (tx_task_receive c) outs.
Proof.
  intros [H1 H2 H3 H4]. unfold tx_task_receive, in_queue, in_flight in *.
  destruct (cx_flight c) eqn:Ef; [split; unfold in_queue, in_flight; by rewrite ?Ef|].
  destruct (cx_txq c) as [[|m q]|] eqn:Eq; [split; unfold in_queue, in_flight; by rewrite ?Ef, ?Eq| |
    split; unfold in_queue, in_flight; by rewrite ?Ef, ?Eq].
  split; unfold in_queue, in_flight; cbn; try done. unfold zlen in *. cbn [length] in H2. lia.
Qed.

Lemma u32_succ n : u32 (u32 n + 1) = u32 (n + 1).
Proof. unfold u32. by rewrite Z.add_mod_idemp_l by lia. Qed.

Lemma tx_inv_send print c outs connected sent :
  tx_inv c outs → let '(c', o) := tx_task_send print c connected sent in tx_inv c' (outs ++ o).
Proof.
  intros I. unfold tx_task_send. destruct (cx_flight c) as [m|] eqn:Ef; [|by rewrite app_nil_r].
  destruct I as [H1 H2 H3 H4]. unfold in_flight in H1. rewrite Ef in H1.
  destruct (fp_ws_send _ _ _ _); (split; unfold in_flight, in_queue in *; cbn in *; rewrite ?omap_app, ?zlen_app; cbn;
    rewrite ?app_nil_r, ?Z.add_0_r; [by rewrite H1, <- !app_assoc|done|..]); rewrite ?H3, ?H4; try done; apply u32_succ.
Qed.

Section runs.
Variable alloc : Z → option (list Z).
Variable sha256 : list Z → list Z.
Variable hmac : list Z → list Z → list Z.
Variable base64 : list Z → option (list Z).
Variable parse : list Z → option cjson.
Variable print : cjson → list Z.
Variable cfg : fp_task_config.

#[local] Abbreviation step := (fp_task_step alloc sha256 hmac base64 parse print cfg).
#[local] Abbreviation run := (fp_task_run alloc sha256 hmac base64 parse print cfg).
#[local] Abbreviation session_step := (fp_step alloc sha256 hmac base64 (tc_session cfg)).

(** A rule for everything that leaves the sender's side alone: what happens to the
    session, as calls, resets and the task's own callbacks. *)
Inductive session_run : fp_session_t → list fp_out → fp_session_t → Prop :=
  | run_nil s : session_run s [] s
  | run_call s e acts s' outs s'' :
      session_step s e = Ok (s', acts) → session_run s' outs s'' →
      session_run s (omap call_of acts ++ OHandled e (omap sent_frame acts) :: outs) s''
  | run_reset s outs s'' :
      session_run (fp_session_reset s) outs s'' → session_run s (OReset :: outs) s''
  | run_other s o outs s'' :
      (match o with OReset | OCall _ | OHandled _ _ => False | _ => True end) → session_run s outs s'' → session_run s (o :: outs) s''.

Lemma session_run_app s o s' o' s'' : session_run s o s' → session_run s' o' s'' → session_run s (o ++ o') s''.
Proof.
  induction 1; intros H'; [done|rewrite <- app_assoc; cbn [app]; eapply run_call; eauto|apply run_reset; auto|apply run_other; auto].
Qed.

Lemma session_run_other s o : Forall (λ x, match x with OReset | OCall _ | OHandled _ _ => False | _ => True end) o → session_run s o s.
Proof. induction 1; by constructor. Qed.

(** A step of the session task's side: the sender's side stays. *)
Definition task_ok (c : fp_ctx_t) (r : fp_ctx_t * list fp_out) : Prop :=
  session_run (cx_session c) r.2 (cx_session r.1) ∧ tx_side r.1 = tx_side c ∧
  Forall (λ x, queued_of x = None ∧ shipped_of x = None) r.2 ∧ Forall (λ x, alive_of x = None) r.2 ∧
  last_tx_ok r.1 = last_tx_ok c.

Lemma task_ok_id c : task_ok c (c, []).
Proof. repeat split; constructor. Qed.

Lemma task_ok_seq c c1 o1 c2 o2 : task_ok c (c1, o1) → task_ok c1 (c2, o2) → task_ok c (c2, o1 ++ o2).
Proof.
  intros (R1 & S1 & Q1 & A1 & L1) (R2 & S2 & Q2 & A2 & L2). cbn [fst snd] in *.
  split_and!; cbn [fst snd]; [by eapply session_run_app|congruence|by apply Forall_app|by apply Forall_app|congruence].
Qed.

Lemma alive_calls e frames acts : Forall (λ x, alive_of x = None) (omap call_of acts ++ [OHandled e frames]).
Proof. induction acts as [|[] acts IH]; cbn; try apply Forall_cons; auto. Qed.

Lemma session_call_ok c e s acts c0 :
  fp_step alloc sha256 hmac base64 (tc_session cfg) (cx_session c) e = Ok (s, acts) →
  cx_session c0 = cx_session c → tx_side c0 = tx_side c → last_tx_ok c0 = last_tx_ok c →
  task_ok c (session_call c0 e (s, acts)).
Proof.
  intros H E1 E2 E3. unfold session_call. split_and!; cbn [fst snd]; [|done|apply quiet_calls|apply alive_calls|done].
  eapply run_call; [exact H|]. apply run_nil.
Qed.

Lemma on_ws_ok c ev nonce t r : on_ws alloc sha256 hmac base64 parse cfg c ev nonce t = Ok r → task_ok c r.
Proof.
  unfold on_ws. destruct (cx_lock c); [|done]. cbn [negb]. destruct ev as [|text|]; intros H.
  - cbn [mbind res_bind fp_step] in H. destruct (fp_session_hello_send _ _ _ _ _) as [s acts] eqn:E. cbn [fst snd] in H.
    destruct (session_call _ _ (s, acts)) as [c1 o1] eqn:Ec. injection H as <-.
    destruct (session_call_ok (c <| cx_session := fp_session_reset (cx_session c) |>) (EHello nonce (fp_now_ms t)) s acts
      (c <| cx_session := fp_session_reset (cx_session c) |>)) as (R & S & Q & A & L); [cbn; by f_equal|done..|].
    rewrite Ec in *. cbn [fst snd] in *. split_and!; cbn [fst snd]; [by apply run_reset|done|by constructor..|done].
  - destruct (fp_step _ _ _ _ _ _ _) as [[s acts]| |] eqn:E; [|done..]. injection H as <-. by eapply session_call_ok.
  - injection H as <-. split_and!; cbn; [apply run_reset, run_nil|done|by repeat constructor..|done].
Qed.

Lemma on_ws_all_ok evs nonce t : ∀ c r, on_ws_all alloc sha256 hmac base64 parse cfg c evs nonce t = Ok r → task_ok c r.
Proof.
  induction evs as [|ev evs IH]; intros c r H; cbn [on_ws_all] in H; [injection H as <-; apply task_ok_id|].
  destruct (on_ws _ _ _ _ _ _ _ _ _ _) as [[c1 o1]| |] eqn:E1; [|done..]. cbn [mbind res_bind fst snd] in H.
  destruct (on_ws_all _ _ _ _ _ _ _ _ _ _) as [[c2 o2]| |] eqn:E2; [|done..]. cbn [mbind res_bind fst snd] in H. injection H as <-.
  apply (task_ok_seq _ c1); [by eapply on_ws_ok|by apply IH].
Qed.

Lemma ws_task_event_ok c e nonce t r : ws_task_event alloc sha256 hmac base64 parse cfg c e nonce t = Ok r → task_ok c r.
Proof.
  unfold ws_task_event. destruct (cx_ws c) as [w|]; [|intros [= <-]; apply task_ok_id].
  destruct (ws_event w e) as [[w1 evs]| |]; [|done..]. cbn [mbind res_bind fst snd]. intros H%on_ws_all_ok. exact H.
Qed.

Lemma task_heartbeat_ok c up hb t r : task_fn_heartbeat alloc sha256 hmac base64 cfg c up hb t = Ok r → task_ok c r.
Proof.
  unfold task_fn_heartbeat. destruct (hb <=? _); [|intros [= <-]; apply task_ok_id].
  destruct (fp_step _ _ _ _ _ _ _) as [[s acts]| |] eqn:E; [|done..]. intros [= <-]. by eapply session_call_ok.
Qed.

Lemma task_report_ok c up rep changes t r : task_fn_report alloc sha256 hmac base64 cfg c up rep changes t = Ok r → task_ok c r.
Proof.
  unfold task_fn_report. destruct (rep <=? _); (destruct (fp_step _ _ _ _ _ _ _) as [[s acts]| |] eqn:E; [|done..]);
    intros [= <-]; by eapply session_call_ok.
Qed.

Lemma sends_ok c up hb rep changes t r :
  task_fn_sends alloc sha256 hmac base64 cfg c up hb rep changes t = Ok r → task_ok c r.
Proof.
  unfold task_fn_sends. destruct (task_fn_heartbeat _ _ _ _ _ _ _ _ _) as [[c1 o1]| |] eqn:E1; [|done..].
  cbn [mbind res_bind fst snd]. destruct (task_fn_report _ _ _ _ _ _ _ _ _ _) as [[c2 o2]| |] eqn:E2; [|done..].
  intros [= <-]. apply task_heartbeat_ok in E1. apply task_report_ok in E2. exact (task_ok_seq _ _ _ _ _ E1 E2).
Qed.

(** Every step is of one of five kinds. *)
Lemma step_kinds c e r :
  step c e = Ok r →
  task_ok c r ∨ (∃ up, r = task_fn_checks cfg c up) ∨
  (∃ c0 mem m, cx_session c0 = cx_session c ∧ tx_side c0 = tx_side c ∧ last_tx_ok c0 = last_tx_ok c ∧
     r = (let '(_, c', o) := tx_enqueue_owned c0 mem m in (c', o))) ∨
  r = (tx_task_receive c, []) ∨ (∃ connected sent, r = tx_task_send print c connected sent).
Proof.
  assert (Hid : Ok (c, []) = Ok r → task_ok c r) by (intros [= <-]; apply task_ok_id).
  assert (Henv : ∀ mem m, (let '(_, c', o) := tx_enqueue_owned c mem m in Ok (c', o)) = Ok r →
    ∃ c0 mem m, cx_session c0 = cx_session c ∧ tx_side c0 = tx_side c ∧ last_tx_ok c0 = last_tx_ok c ∧
      r = (let '(_, c', o) := tx_enqueue_owned c0 mem m in (c', o))).
  { intros mem m H. exists c, mem, m. do 3 (split; [done|]). by destruct (tx_enqueue_owned c mem m) as [[? ?] ?]; injection H. }
  destruct e; cbn [fp_task_step]; intros H.
  - left. destruct (locked c); [auto|by eapply ws_task_event_ok].
  - destruct (cx_tick c); [auto|]. destruct (cx_task c); [|auto]. right; left. injection H as <-. by exists up.
  - left. destruct (cx_tick c) as [[[up hb] rep]|]; [|auto]. destruct (locked c); [auto|by eapply sends_ok].
  - destruct (cx_hand c) as [|m hand]; [auto|]. right; right; left. exists (c <| cx_hand := hand |>), mem, m.
    do 3 (split; [done|]). by destruct (tx_enqueue_owned _ mem m) as [[? ?] ?]; injection H.
  - destruct (cx_tx_task c); [|auto]. injection H as <-. auto.
  - injection H as <-. do 4 right. by exists connected, sent.
  - left. injection H as <-. repeat split; constructor.
  - left. unfold fountain_proto_recover in H. destruct (cx_ws c) as [w|]; [|auto].
    destruct (fp_ws_restart _ _) as [r'| |]; [|done..]. cbn [mbind res_bind] in H. injection H as <-. repeat split; constructor.
  - unfold fountain_proto_alert_send in H. destruct (cx_ws c); [|auto].
    destruct (fp_envelope_build _ _ _ _ _ _); [|auto]. right; right; left. by eapply Henv.
  - unfold fountain_proto_ota_status_send in H. destruct (cx_ws c); [|auto].
    destruct (fp_envelope_build _ _ _ _ _ _); [|auto]. right; right; left. by eapply Henv.
  - left. destruct (locked c); [auto|]. unfold fountain_proto_ota_failed_note in H.
    destruct (cx_lock c); [|done]. cbn [negb] in H. destruct (fp_step _ _ _ _ _ _ _) as [[s acts]| |] eqn:E; [|done..].
    injection H as <-. by eapply session_call_ok.
Qed.

Lemma checks_side c up : tx_side (task_fn_checks cfg c up).1 = tx_side c ∧ cx_session (task_fn_checks cfg c up).1 = cx_session c.
Proof.
  unfold task_fn_checks. destruct (negb (fountain_proto_running c)); [done|]. cbn. destruct (_ =? _); [done|]. done.
Qed.

Lemma checks_outs c up : Forall (λ o, o = OAlive ∨ o = OSessionLost) (task_fn_checks cfg c up).2.
Proof.
  unfold task_fn_checks. destruct (negb (fountain_proto_running c)); cbn.
  - destruct (was_running c && _); [|constructor]. by apply Forall_singleton; right.
  - destruct (_ =? _); cbn; [constructor|]. destruct (tc_on_alive cfg); [|constructor]. by apply Forall_singleton; left.
Qed.

Lemma step_tx c e r outs : tx_inv c outs → step c e = Ok r → tx_inv r.1 (outs ++ r.2).
Proof.
  intros I [(_ & Hs & Hq & _)|[(up & ->)|[(c0 & mem & m & _ & Hs & _ & ->)|[->|(connected & sent & ->)]]]]%step_kinds.
  - by eapply tx_inv_quiet.
  - eapply tx_inv_quiet; [done|apply checks_side|]. eapply Forall_impl; [apply checks_outs|]. by intros ? [->| ->].
  - assert (tx_inv c0 outs) as I0.
    { rewrite <- (app_nil_r outs). apply (tx_inv_quiet c); [done..|constructor]. }
    pose proof (tx_inv_enqueue c0 outs mem m I0) as H. by destruct (tx_enqueue_owned c0 mem m) as [[? ?] ?].
  - cbn. rewrite app_nil_r. by apply tx_inv_receive.
  - pose proof (tx_inv_send print c outs connected sent I) as H. by destruct (tx_task_send print c connected sent).
Qed.

Lemma run_tx es : ∀ c r outs, tx_inv c outs → run c es = Ok r → tx_inv r.1 (outs ++ r.2).
Proof.
  induction es as [|e es IH]; intros c r outs I H; cbn [fp_task_run] in H; [injection H as <-; by rewrite app_nil_r|].
  destruct (step c e) as [[c1 o1]| |] eqn:E1; [|done..]. cbn [mbind res_bind fst snd] in H.
  destruct (run c1 es) as [[c2 o2]| |] eqn:E2; [|done..]. cbn [mbind res_bind fst snd] in H. injection H as <-.
  cbn [fst snd]. rewrite app_assoc. eapply (IH c1 (c2, o2)); [|done]. by apply (step_tx _ _ _ _ I E1).
Qed.

Lemma start_tx c mutex ws txq tx_task ws_start task c' :
  fountain_proto_start cfg c mutex ws txq tx_task ws_start task = (true, c') →
  cx_txq c' = Some [] ∧ cx_flight c' = cx_flight c ∧ s_tx_ok_count c' = s_tx_ok_count c ∧
  s_tx_fail_count c' = s_tx_fail_count c ∧ last_tx_ok c' = last_tx_ok c ∧ cx_session c' = fp_session_init.
Proof.
  unfold fountain_proto_start. destruct (_ =? 0); [done|]. destruct mutex, ws, txq, tx_task, ws_start, task; cbn; try done.
  by intros [= <-].
Qed.

(** The way of a frame.  After a start, whatever the session, the client
    library, alerts, update reports and memory do, in any interleaving of the
    tasks: the frames that entered the queue left it in that order, one after
    another, except those still in it and the one the sender is at; the queue never
    holds more than eight; and the two counters count, modulo 2^32, the frames that
    left the device and the frames that failed to. *)
Theorem frames_leave_in_order c es r :
  fountain_proto_start cfg fp_ctx_zero true true true true true true = (true, c) → run c es = Ok r →
  omap queued_of r.2 = omap shipped_of r.2 ++ in_flight r.1 ++ in_queue r.1 ∧
  zlen (in_queue r.1) <= FP_TXQ_DEPTH ∧
  fountain_proto_tx_stats r.1 = (u32 (zlen (omap sent_of r.2)), u32 (zlen (omap failed_of r.2))).
Proof.
  intros (Eq & Ef & Eo & El & _)%start_tx H.
  destruct (run_tx es c r [] ltac:(by split; unfold in_queue, in_flight; rewrite ?Eq, ?Ef, ?Eo, ?El) H) as [H1 H2 H3 H4].
  do 2 (split; [done|]). unfold fountain_proto_tx_stats. by rewrite H3, H4.
Qed.

(** ** Progress *)

(** A frame left since the last report of progress. *)
Definition progress (c : fp_ctx_t) : Z := if s_tx_ok_count c =? last_tx_ok c then 0 else 1.

Lemma progress_range c : 0 <= progress c <= 1.
Proof. unfold progress. case_bool; lia. Qed.

Lemma none_count {B} (f : fp_out → option B) o : Forall (λ x, f x = None) o → zlen (omap f o) = 0.
Proof. induction 1 as [|x o Hx _ IH]; [done|]. cbn. by rewrite Hx. Qed.

Lemma step_alive c e r :
  step c e = Ok r → zlen (omap alive_of r.2) + progress r.1 <= progress c + zlen (omap sent_of r.2).
Proof.
  intros [(_ & Hs & _ & Ha & Hl)|[(up & ->)|[(c0 & mem & m & _ & Hs & Hl & ->)|[->|(connected & sent & ->)]]]]%step_kinds.
  - rewrite (none_count _ _ Ha). unfold progress. injection Hs as _ _ -> _. rewrite Hl. unfold zlen. lia.
  - unfold task_fn_checks. destruct (negb (fountain_proto_running c)); cbn.
    { change (progress (c <| was_running := false |>)) with (progress c). destruct (was_running c && _); unfold zlen; cbn; lia. }
    unfold progress at 2. destruct (s_tx_ok_count c =? last_tx_ok c) eqn:E; cbn.
    + unfold progress. cbn. rewrite E. done.
    + unfold progress. cbn. rewrite Z.eqb_refl. by destruct (tc_on_alive cfg).
  - unfold progress. injection Hs as _ _ Ho _. rewrite <- Ho, <- Hl. unfold tx_enqueue_owned.
    destruct (cx_txq c0); [destruct (mem && _)|]; unfold zlen; cbn; lia.
  - assert (progress (tx_task_receive c) = progress c) as Hp.
    { unfold tx_task_receive. by destruct (cx_flight c), (cx_txq c) as [[|]|]. }
    cbn [fst snd]. rewrite Hp. unfold zlen. cbn. lia.
  - unfold tx_task_send. destruct (cx_flight c) as [m|]; [|unfold zlen; cbn; lia].
    destruct (fp_ws_send _ _ _ _); cbn; [|unfold progress; unfold zlen; cbn; lia].
    pose proof (progress_range c). unfold progress at 1. cbn. case_bool; unfold zlen; unfold zlen; cbn; lia.
Qed.

(** Progress is what feeds the watchdog.  In any run, from any state, the
    session channel of the watchdog is fed at most once per frame that left the
    device, and once more if one left before the run: a connection that is half
    open, where every send fails while the session still runs, starves the channel
    whatever else happens. *)
Theorem alive_needs_progress c es r :
  run c es = Ok r → zlen (omap alive_of r.2) <= progress c + zlen (omap sent_of r.2).
Proof.
  revert c r. assert (∀ c r, run c es = Ok r → zlen (omap alive_of r.2) + progress r.1 <= progress c + zlen (omap sent_of r.2)) as H.
  { induction es as [|e es IH]; intros c r H; cbn [fp_task_run] in H; [injection H as <-; unfold zlen; cbn; lia|].
    destruct (step c e) as [[c1 o1]| |] eqn:E1; [|done..]. cbn [mbind res_bind fst snd] in H.
    destruct (run c1 es) as [[c2 o2]| |] eqn:E2; [|done..]. cbn [mbind res_bind fst snd] in H. injection H as <-. cbn [fst snd].
    apply step_alive in E1. apply IH in E2. cbn [fst snd] in *. rewrite !omap_app, !zlen_app. lia. }
  intros c r Hr%H. pose proof (progress_range r.1). lia.
Qed.

(** ** Control *)

(** On each connection: a call that changes something or discloses logs or history
    was made for a message that is authentic under what the two sides have told each
    other since the reset that started the connection, in operation where that is
    needed, with a sequence number above [last], that of the call before it. *)
Fixpoint control_ok (k : fp_conn) (last : Z) (outs : list fp_out) : Prop :=
  match outs with
  | [] => True
  | OReset :: outs => control_ok conn_new fp_replay_reset outs
  | OCall a :: outs =>
      match control_call a with
      | Some (m, needs) =>
          authentic_on alloc sha256 hmac base64 (tc_session cfg) k m (seq_of m) ∧ (needs = true → cn_running k = true) ∧
          last < seq_of m ∧ control_ok k (seq_of m) outs
      | None => control_ok k last outs
      end
  | OHandled e frames :: outs =>
      hello_carries base64 k e frames ∧ control_ok (conn_step base64 k e) last outs
  | _ :: outs => control_ok k last outs
  end.

Lemma control_ok_weaken outs : ∀ k x y, x <= y → control_ok k y outs → control_ok k x outs.
Proof.
  induction outs as [|[] outs IH]; intros k x y Hxy; cbn; eauto.
  - destruct (control_call _) as [[m needs]|]; [|eauto]. intros (? & ? & ? & ?). split_and!; [done..|lia|done].
  - intros [? ?]. eauto.
Qed.

Lemma control_ok_quiet k acts rest last :
  control_calls acts = [] → control_ok k last rest → control_ok k last (omap call_of acts ++ rest).
Proof. induction acts as [|[] acts IH]; cbn; intros Hc Hr; try done; auto. Qed.

Lemma control_ok_call s e acts s' rest :
  session_step s e = Ok (s', acts) → control_ok (conn_of s') (ss_replay_s2c s') rest →
  control_ok (conn_of s) (ss_replay_s2c s) (omap call_of acts ++ OHandled e (omap sent_frame acts) :: rest).
Proof.
  intros H Hr. pose proof (fp_step_conn _ _ _ _ _ _ _ _ _ H) as Hk. rewrite Hk in Hr.
  pose proof (hello_step_carries _ _ _ _ _ _ _ _ _ H) as Hh.
  assert (∀ last, control_ok (conn_step base64 (conn_of s) e) last rest →
    control_ok (conn_of s) last (OHandled e (omap sent_frame acts) :: rest)) as Hend by (intros last ?; split; done).
  set (tl := OHandled e _ :: rest) in *. clearbody tl.
  destruct (fp_step_ok _ _ _ _ _ _ _ _ _ H) as [[Hc Hle]|(m & needs & Hc & Ha & Hn & Hlt & He)].
  { apply control_ok_quiet; [done|]. apply Hend. by eapply control_ok_weaken. }
  rewrite He in Hr. apply Hend in Hr. clear H Hk Hh Hend. induction acts as [|a acts IH]; [done|].
  destruct (control_call a) as [[m' needs']|] eqn:Ea.
  - unfold control_calls in Hc. cbn [omap list_omap] in Hc. rewrite Ea in Hc. injection Hc as -> -> Hc.
    destruct a; try done; simplify_eq/=; (split_and!; [done..|]); by apply control_ok_quiet.
  - unfold control_calls in Hc. cbn [omap list_omap] in Hc. rewrite Ea in Hc. specialize (IH Hc).
    destruct a; try done; exact IH.
Qed.

Lemma session_run_control s outs s' : session_run s outs s' → control_ok (conn_of s) (ss_replay_s2c s) outs.
Proof.
  induction 1 as [s|s e acts s' outs s'' Hc _ IH|s outs s'' _ IH|s [] outs s'' Ho _ IH]; cbn; try done.
  by eapply control_ok_call.
Qed.

Lemma step_session c e r : step c e = Ok r → session_run (cx_session c) r.2 (cx_session r.1).
Proof.
  intros [(H & _)|[(up & ->)|[(c0 & mem & m & <- & _ & _ & ->)|[->|(connected & sent & ->)]]]]%step_kinds; [done|..].
  - rewrite (proj2 (checks_side c up)). apply session_run_other. eapply Forall_impl; [apply checks_outs|]. by intros ? [->| ->].
  - unfold tx_enqueue_owned. destruct (cx_txq c0); [destruct (mem && _)|]; apply session_run_other; by repeat constructor.
  - unfold tx_task_receive. destruct (cx_flight c), (cx_txq c) as [[|]|]; apply run_nil.
  - unfold tx_task_send. destruct (cx_flight c) as [m|]; [|apply run_nil].
    destruct (fp_ws_send _ _ _ _); apply session_run_other; by repeat constructor.
Qed.

(** C35: Control over the cloud connection.  After a start, whatever bytes the
    WebSocket delivers, in whatever chunks, with connections coming and going and
    all tasks interleaved: the application is only called to execute a command,
    write a datapoint, acknowledge a log, disclose logs or history or start an
    update for a message whose MAC verifies under the device's key, the nonce that
    the hello of this very connection carried, and the nonce and key id that the
    server's acknowledgement gave on it; after the go-ahead on this connection (an
    update excepted); and on each connection the sequence numbers of these messages
    strictly increase, so that no message takes effect twice.  Reading datapoints
    needs no authentication ([unsigned_read_is_answered]). *)
Theorem cloud_control_is_authentic c0 mutex ws txq tx_task ws_start task c es r :
  fountain_proto_start cfg c0 mutex ws txq tx_task ws_start task = (true, c) → run c es = Ok r →
  control_ok conn_new fp_replay_reset r.2.
Proof.
  intros (_ & _ & _ & _ & _ & Hs)%start_tx H.
  change conn_new with (conn_of fp_session_init). change fp_replay_reset with (ss_replay_s2c fp_session_init).
  rewrite <- Hs. clear Hs. apply (session_run_control _ _ (cx_session r.1)). revert c r H.
  induction es as [|e es IH]; intros c r H; cbn [fp_task_run] in H; [injection H as <-; apply run_nil|].
  destruct (step c e) as [[c1 o1]| |] eqn:E1; [|done..]. cbn [mbind res_bind fst snd] in H.
  destruct (run c1 es) as [[c2 o2]| |] eqn:E2; [|done..]. cbn [mbind res_bind fst snd] in H. injection H as <-.
  apply step_session in E1. apply IH in E2. cbn [fst snd] in *. by eapply session_run_app.
Qed.

(** The heartbeat keeps its grid: while the session runs, a cycle that finds the
    interval over hands a heartbeat to the queue, and none does before. *)
Lemma heartbeat_grid c up hb_s t r :
  ss_running (cx_session c) = true → task_fn_heartbeat alloc sha256 hmac base64 cfg c up hb_s t = Ok r →
  if hb_s <=? u32 (up - last_hb c)
  then last_hb r.1 = up ∧ ∃ m, cx_hand r.1 = cx_hand c ++ [m] ∧ fp_envelope_type m = Some FP_MSG_HEARTBEAT
  else last_hb r.1 = last_hb c ∧ cx_hand r.1 = cx_hand c.
Proof.
  intros Hr. unfold task_fn_heartbeat. destruct (hb_s <=? _); [|by intros [= <-]].
  unfold fp_step, fp_session_heartbeat_send. rewrite Hr. cbn [negb mbind res_bind fst snd]. intros [= <-]. split; [done|].
  eexists. split; reflexivity.
Qed.
End runs.

(** ** Executions *)

Definition demo_config : fp_task_config := mk_task_config example_cfg 30 10 true true.

(** A toy parser: one byte names one of three messages. *)
Definition demo_parse (t : list Z) : option cjson :=
  match t with
  | [1] => Some example_ack
  | [2] => Some (CObject (add_string "type" (cstr "ota_none")))
  | [3] => example_command 4
  | _ => None
  end.

Definition demo_print (m : cjson) : list Z := [42].

Definition demo_run := fp_task_run zero_heap toy_hash toy_hmac toy_base64 demo_parse demo_print demo_config.

Definition demo_started : fp_ctx_t := (fountain_proto_start demo_config fp_ctx_zero true true true true true true).2.

(** A text frame of one byte. *)
Definition demo_text (b : Z) : fp_task_event := FWs (WEBSOCKET_EVENT_DATA 1 0 1 [b] some_mem) example_nonce 0.

(** Connected, negotiated and in operation, with the two frames shipped. *)
Definition demo_up : list fp_task_event :=
  [FWs WEBSOCKET_EVENT_CONNECTED example_nonce 0; FHand true; demo_text 1; FHand true; demo_text 2;
   FTake; FTx true 1; FTake; FTx true 1].

(** A second of it, then a command. *)
Definition demo_events : list fp_task_event :=
  demo_up ++ [FTick 40; FSend [] 0; FHand true; FHand true; demo_text 3; FHand true; FTake; FTx false 0; FTake].

Definition tag_of (o : fp_out) : option string :=
  match o with
  | OReset => Some "reset" | OCall (ACommand _) => Some "command" | OCall AReady => Some "ready" | OCall _ => Some "call"
  | OHandled _ _ => None
  | OQueued _ => Some "queued" | ODropped _ => Some "dropped" | OSent _ => Some "sent" | OFailed _ => Some "failed"
  | OAlive => Some "alive" | OSessionLost => Some "lost"
  end.

Definition demo_result (es : list fp_task_event) : fp_ctx_t * list fp_out :=
  match demo_run demo_started es with Ok r => r | _ => (fp_ctx_zero, []) end.

Example demo_trace :
  omap tag_of (demo_result demo_events).2 =
    ["reset"; "queued"; "queued"; "ready"; "sent"; "sent"; "alive"; "queued"; "queued"; "command"; "queued"; "failed"].
Proof. vm_compute. reflexivity. Qed.

Lemma frames_leave_in_order_witness :
  omap queued_of (demo_result demo_events).2 =
    omap shipped_of (demo_result demo_events).2 ++ in_flight (demo_result demo_events).1 ++ in_queue (demo_result demo_events).1 ∧
  zlen (in_queue (demo_result demo_events).1) <= FP_TXQ_DEPTH ∧
  fountain_proto_tx_stats (demo_result demo_events).1 =
    (u32 (zlen (omap sent_of (demo_result demo_events).2)), u32 (zlen (omap failed_of (demo_result demo_events).2))).
Proof.
  apply (frames_leave_in_order zero_heap toy_hash toy_hmac toy_base64 demo_parse demo_print demo_config demo_started demo_events).
  - vm_compute. reflexivity.
  - vm_compute. reflexivity.
Defined.

(** Two frames left, then the client wedges: one report, although three more
    cycles find the session running. *)
Definition wedged_events : list fp_task_event :=
  demo_up ++ mjoin (replicate 3 [FTick 40; FSend [] 0; FHand true; FTake; FTx true 0]).

Lemma alive_needs_progress_witness :
  zlen (omap alive_of (demo_result wedged_events).2) <= progress demo_started + zlen (omap sent_of (demo_result wedged_events).2) ∧
  zlen (omap alive_of (demo_result wedged_events).2) = 1.
Proof.
  split.
  - apply (alive_needs_progress zero_heap toy_hash toy_hmac toy_base64 demo_parse demo_print demo_config demo_started wedged_events).
    vm_compute. reflexivity.
  - vm_compute. reflexivity.
Defined.

Lemma cloud_control_is_authentic_witness :
  control_ok zero_heap toy_hash toy_hmac toy_base64 demo_config conn_new 0 (demo_result demo_events).2 ∧
  OCall (ACommand (default CNull (example_command 4))) ∈ (demo_result demo_events).2.
Proof.
  split.
  - apply (cloud_control_is_authentic zero_heap toy_hash toy_hmac toy_base64 demo_parse demo_print demo_config
             fp_ctx_zero true true true true true true demo_started demo_events); vm_compute; reflexivity.
  - apply list_elem_of_In. vm_compute. tauto.
Defined.

(** The connection is replaced between the checks of a cycle and the lock: the
    report of the old session goes out on the new connection before its hello is
    acknowledged. *)
Example report_precedes_negotiation :
  let r := demo_result (demo_up ++ [FTick 40; FWs WEBSOCKET_EVENT_DISCONNECTED [] 0;
             FWs WEBSOCKET_EVENT_CONNECTED example_nonce 0; FHand true; FSend [] 0; FHand true]) in
  fp_envelope_type <$> in_queue r.1 = [Some FP_MSG_HELLO; Some FP_MSG_DP_REPORT] ∧
  ss_negotiated (cx_session r.1) = false.
Proof. split; vm_compute; reflexivity. Qed.

(** A session that is lost and comes back between two cycles: nobody is told. *)
Example lost_session_goes_unnoticed :
  let r := demo_result (demo_up ++ [FTick 40; FSend [] 0; FHand true; FHand true; FWs WEBSOCKET_EVENT_DISCONNECTED [] 0;
             FWs WEBSOCKET_EVENT_CONNECTED example_nonce 0; FHand true; demo_text 1; FHand true; demo_text 2; FTick 41]) in
  omap tag_of r.2 = ["reset"; "queued"; "queued"; "ready"; "sent"; "sent"; "alive"; "queued"; "queued"; "reset";
                    "reset"; "queued"; "queued"; "ready"].
Proof. vm_compute. reflexivity. Qed.

(** Nine frames without a sender: the ninth is dropped, and no counter shows it. *)
Example dropped_frame_is_not_counted :
  let r := demo_result (replicate 9 (FAlert (cstr "E1") (cstr "warning") None None true 0)) in
  omap tag_of r.2 = replicate 8 "queued" ++ ["dropped"] ∧ fountain_proto_tx_stats r.1 = (0, 0).
Proof. split; vm_compute; reflexivity. Qed.

(** A start whose last task cannot be created fails with the client running and the
    sender waiting; the next attempt makes new ones. *)
Example failed_start_leaves_the_client :
  let r := fountain_proto_start demo_config fp_ctx_zero true true true true true false in
  r.1 = false ∧ cx_tx_task r.2 = true ∧ cx_ws r.2 = Some fp_ws_create.
Proof. done. Qed.
