(* ===== verification/WlanCom.v ===== *)
(** * The WLAN connection: [wlan_com.c], [net_utils.c], and the start of the protocol

    Models src/src/network/wlan_com.c (connecting, reconnecting with a growing
    wait, addressing, the teardown before a reboot), src/src/network/net_utils.c,
    and from src/src/network/task_com.c the coupling of the protocol's start to the
    connection ([com_wlan_state_handle], [com_starter_task]).

    The WLAN driver and lwIP answer through arguments, and their events are the
    steps of a run: an event handler, a timer callback and each step of a teardown
    is one step, so a teardown interleaves with everything else.  Time is in
    milliseconds.  The datapoints are those of Datapoints.

    [wlan_reconnects_gently]: attempts are at least five seconds apart and follow
    the documented schedule.  [wlan_never_gives_up]: until a teardown, something
    always leads to the next attempt.  [static_address_follows_lease]: the mirrored
    lease comes back as static address. *)

From Stdlib Require Import SpecFloat Sorted.
From S2P Require Import Prelude Bytes Float32 Float64 DpCatalog Datapoints DpProps NetworkConfig NetworkConfigProps FpAuth.
Local Open Scope string_scope.
Local Open Scope list_scope.
Local Open Scope Z_scope.

Definition WLAN_RECONNECT_BACKOFF_MIN_MS : Z := 5000.
Definition WLAN_RECONNECT_BACKOFF_MAX_MS : Z := 120000.

Inductive wlan_state_t := WLAN_DISCONNECTED | WLAN_CONNECTING | WLAN_CONNECTED.
#[export] Instance wlan_state_eq_dec : EqDecision wlan_state_t.
Proof. solve_decision. Defined.

(** The calls of a teardown, one step each. *)
Inductive down_step := DShutdown | DClearBits | DStopTimer | DDisconnect | DWait | DSettle | DWifiStop.

(** The file's variables, and those of the protocol's start in task_com.c.
    [s_hEvents]: the disconnect bit; [s_hReconnTimer]: when the armed timer fires;
    [s_hWlanSem]: the token; [wl_down]: what a running teardown has left to do. *)
Record wlan_t := mk_wlan {
  s_eState : wlan_state_t;
  s_slRetry : Z;
  s_bInited : bool;
  s_ulBackoffMs : Z;
  s_hEvents : option bool;
  s_bShutdown : bool;
  s_ulDisconnects : Z;
  s_pNetif : bool;
  s_hReconnTimer : option Z;
  s_pfnCb : bool;
  s_bStarted : bool;
  s_hWlanSem : option bool;
  wl_down : list down_step
}.
#[export] Instance eta_wlan_t : Eta wlan_t := λ r, mk_wlan
      (s_eState r) (s_slRetry r) (s_bInited r) (s_ulBackoffMs r) (s_hEvents r) (s_bShutdown r) (s_ulDisconnects r)
      (s_pNetif r) (s_hReconnTimer r) (s_pfnCb r) (s_bStarted r) (s_hWlanSem r) (wl_down r).
#[export] Instance set_s_eState : Setter s_eState. Proof. mk_setter. Defined.
#[export] Instance set_s_slRetry : Setter s_slRetry. Proof. mk_setter. Defined.
#[export] Instance set_s_bInited : Setter s_bInited. Proof. mk_setter. Defined.
#[export] Instance set_s_ulBackoffMs : Setter s_ulBackoffMs. Proof. mk_setter. Defined.
#[export] Instance set_s_hEvents : Setter s_hEvents. Proof. mk_setter. Defined.
#[export] Instance set_s_bShutdown : Setter s_bShutdown. Proof. mk_setter. Defined.
#[export] Instance set_s_ulDisconnects : Setter s_ulDisconnects. Proof. mk_setter. Defined.
#[export] Instance set_s_pNetif : Setter s_pNetif. Proof. mk_setter. Defined.
#[export] Instance set_s_hReconnTimer : Setter s_hReconnTimer. Proof. mk_setter. Defined.
#[export] Instance set_s_pfnCb : Setter s_pfnCb. Proof. mk_setter. Defined.
#[export] Instance set_s_bStarted : Setter s_bStarted. Proof. mk_setter. Defined.
#[export] Instance set_s_hWlanSem : Setter s_hWlanSem. Proof. mk_setter. Defined.
#[export] Instance set_wl_down : Setter wl_down. Proof. mk_setter. Defined.

Definition wlan_zero : wlan_t :=
  mk_wlan WLAN_DISCONNECTED 0 false WLAN_RECONNECT_BACKOFF_MIN_MS None false 0 false None false false None [].

(** Calls of the driver, with what it answered where the code could look, and the
    events and calls the module makes. *)
Inductive wlan_out :=
  | OState (e : wlan_state_t)
  | OWifiConnect (ok : bool)
  | OReconnect (ok : bool)
  | OTimerStop
  | OTimerStart (ms : Z)
  | OWifiConfig (ssid pass : list Z)
  | OWifiStart (ok : bool)
  | OWifiDisconnect
  | OWifiStop
  | OWifiPs (min_modem : bool)
  | ODhcpStart
  | ODhcpStop
  | OSetIp (ip netmask gw : Z)
  | OSetDns (addr : Z)
  | EVT_WLAN_DISCONNECTED (ucReason : Z)
  | EVT_WLAN_CONNECTED (ulIp : Z)
  | OFresh
  | OProtoStart (ok : bool).
#[export] Instance wlan_out_eq_dec : EqDecision wlan_out.
Proof. solve_decision. Defined.

(** [IPSTR] of an address, the first octet in the lowest byte. *)
Definition octet (a i : Z) : Z := Z.land (Z.shiftr a (8 * i)) 255.
Definition ip_str (a : Z) : list Z :=
  fmt_int (octet a 0) ++ 46 :: fmt_int (octet a 1) ++ 46 :: fmt_int (octet a 2) ++ 46 :: fmt_int (octet a 3).

(** [snprintf] into a string point: the bytes behind the terminator stay. *)
Definition dp_print (img : list Z) (name : string) (s : list Z) : res (list Z) :=
  b ← dp_ref img name;
  let t := take (Z.to_nat (DP_STR_MAX - 1)) s in
  dp_ref_set img name (t ++ 0 :: drop (S (length t)) b).

(** [set_state], with the callback of task_com ([com_wlan_state_handle]). *)
Definition com_wlan_state_handle (s : wlan_t) (eSt : wlan_state_t) : wlan_t :=
  match s_hWlanSem s with
  | Some _ => if bool_decide (eSt = WLAN_CONNECTED) && negb (s_bStarted s) then s <| s_hWlanSem := Some true |> else s
  | None => s
  end.

Definition set_state (s : wlan_t) (eState : wlan_state_t) : wlan_t * list wlan_out :=
  let s := s <| s_eState := eState |> in
  (if s_pfnCb s then com_wlan_state_handle s eState else s, [OState eState]).

Definition wlan_com_connected_get (s : wlan_t) : bool := bool_decide (s_eState s = WLAN_CONNECTED).
Definition wlan_com_disconnect_count_get (s : wlan_t) : Z := s_ulDisconnects s.
Definition wlan_com_state_cb_set (s : wlan_t) (cb : bool) : wlan_t := s <| s_pfnCb := cb |>.

Definition wlan_com_ps_low_set (s : wlan_t) (bLow : bool) : list wlan_out :=
  if negb (s_bInited s) then [] else [OWifiPs bLow].

(** ** The event handler *)

Definition on_sta_start (s : wlan_t) (ok : bool) : wlan_t * list wlan_out :=
  let '(s, outs) := set_state s WLAN_CONNECTING in (s, outs ++ [OWifiConnect ok]).

Definition reconn_timer_cb (s : wlan_t) (ok : bool) : wlan_t * list wlan_out :=
  (s <| s_hReconnTimer := None |>, [OReconnect ok]).

(** [reason]: of the event's data, if it has any. *)
Definition on_sta_disconnected (s : wlan_t) (now : Z) (reason : option Z) : wlan_t * list wlan_out :=
  let s := s <| s_hEvents := (λ _, true) <$> s_hEvents s |> in
  if s_bShutdown s then (s, []) else
  let s := s <| s_ulDisconnects := u32 (s_ulDisconnects s + 1) |> in
  let '(s, outs) := set_state s WLAN_CONNECTING in
  let s := s <| s_slRetry := s_slRetry s + 1 |> in
  let ms := s_ulBackoffMs s in
  let s := s <| s_hReconnTimer := Some (now + ms) |> in
  let b := u32 (ms * 2) in
  (s <| s_ulBackoffMs := if WLAN_RECONNECT_BACKOFF_MAX_MS <? b then WLAN_RECONNECT_BACKOFF_MAX_MS else b |>,
   EVT_WLAN_DISCONNECTED (u8 (default 0 reason)) :: outs ++ [OTimerStop; OTimerStart ms]).

Definition on_got_ip (s : wlan_t) (img : list Z) (ip netmask gw : Z) : res (wlan_t * list Z * list wlan_out) :=
  img ← dp_print img "Network_IP_Address" (ip_str ip);
  img ← dp_print img "Network_Subnetmask" (ip_str netmask);
  img ← dp_print img "Network_Gateway" (ip_str gw);
  let s := s <| s_slRetry := 0 |> <| s_ulBackoffMs := WLAN_RECONNECT_BACKOFF_MIN_MS |> in
  let '(s, outs) := set_state s WLAN_CONNECTED in
  Ok (s, img, OFresh :: EVT_WLAN_CONNECTED ip :: outs).

(** ** The teardown before a reboot *)

Definition wlan_com_disconnect_blocking (s : wlan_t) : list down_step :=
  if negb (s_bInited s) then [] else [DShutdown; DClearBits; DStopTimer; DDisconnect; DWait; DSettle].

Definition wlan_com_teardown_for_reboot (s : wlan_t) : wlan_t :=
  s <| wl_down := wlan_com_disconnect_blocking s ++ [DWifiStop] |>.

(** [timeout]: the wait for the confirmation is over. *)
Definition down_run (s : wlan_t) (timeout : bool) : wlan_t * list wlan_out :=
  match wl_down s with
  | [] => (s, [])
  | d :: ds =>
      let s1 := s <| wl_down := ds |> in
      match d with
      | DShutdown => (s1 <| s_bShutdown := true |>, [])
      | DClearBits => (s1 <| s_hEvents := (λ _, false) <$> s_hEvents s1 |>, [])
      | DStopTimer => (s1 <| s_hReconnTimer := None |>, [OTimerStop])
      | DDisconnect => (s1, [OWifiDisconnect])
      | DWait => if default true (s_hEvents s) || timeout then (s1 <| s_hEvents := (λ _, false) <$> s_hEvents s1 |>, []) else (s, [])
      | DSettle => (s1, [])
      | DWifiStop => (s1, [OWifiStop])
      end
  end.

(** ** The start of the protocol: task_com.c *)

Definition task_com_start (s : wlan_t) (sem task : bool) : bool * wlan_t :=
  let s := s <| s_hWlanSem := if sem then Some false else None |> in
  if negb sem then (false, s) else
  if negb task then (false, s) else
  let s := wlan_com_state_cb_set s true in
  (true, if wlan_com_connected_get s then s <| s_hWlanSem := Some true |> else s).

(** One turn of [com_starter_task]; [started]: what the start answers. *)
Definition com_starter_task (s : wlan_t) (started : bool) : wlan_t * list wlan_out :=
  match s_hWlanSem s with
  | Some true =>
      let s := s <| s_hWlanSem := Some false |> in
      if negb (s_bStarted s) then (s <| s_bStarted := started |>, [OProtoStart started]) else (s, [])
  | _ => (s, [])
  end.

Section wlan.
Variable esp_netif_str_to_ip4 : list Z → option Z.
Variable getaddrinfo : list Z → option Z.

(** ** [net_utils.c] *)

Definition net_util_ip4_from_str (s : list Z) : option Z := match s with [] => None | _ => esp_netif_str_to_ip4 s end.

Definition net_util_resolve_ip4 (s : list Z) : option Z :=
  match s with
  | [] => None
  | _ => match net_util_ip4_from_str s with Some a => Some a | None => getaddrinfo s end
  end.

(** ** Connecting *)

Definition addressing_apply (s : wlan_t) (img : list Z) : res (list wlan_out) :=
  if negb (s_pNetif s) then Ok [] else
  dhcp ← ref_uint img "Network_DHCP";
  if negb (dhcp =? 0) then Ok [ODhcpStart] else
  ip ← dp_str img "Network_IP_Address";
  mask ← dp_str img "Network_Subnetmask";
  gw ← dp_str img "Network_Gateway";
  match net_util_resolve_ip4 ip, net_util_resolve_ip4 mask, net_util_resolve_ip4 gw with
  | Some ip, Some mask, Some gw => Ok [ODhcpStop; OSetIp ip mask gw; OSetDns gw]
  | _, _, _ => Ok [ODhcpStart]
  end.

(** The answers of the calls of [wlan_com_init], in their order. *)
Record init_answers := mk_init {
  ia_events : bool; ia_timer : bool; ia_netif : bool; ia_loop : bool; ia_sta : bool; ia_wifi : bool;
  ia_reg_wifi : bool; ia_reg_ip : bool; ia_mode : bool
}.

Definition wlan_com_init (s : wlan_t) (a : init_answers) : bool * wlan_t :=
  if s_bInited s then (true, s) else
  let s := s <| s_hEvents := if ia_events a then Some false else None |> in
  if negb (ia_events a) then (false, s) else
  if negb (ia_timer a) || negb (ia_netif a) || negb (ia_loop a) then (false, s) else
  let s := s <| s_pNetif := ia_sta a |> in
  if negb (ia_wifi a) || negb (ia_reg_wifi a) || negb (ia_reg_ip a) || negb (ia_mode a) then (false, s) else
  (true, s <| s_bInited := true |>).

(** A null pointer is [None]; [config], [start]: the answers of the driver. *)
Definition wlan_com_connect (s : wlan_t) (img : list Z) (ssid pass : option (list Z)) (config start : bool)
    : res (bool * wlan_t * list wlan_out) :=
  match ssid, pass with
  | Some ssid, Some pass =>
      if bool_decide (ssid = []) then Ok (false, s, []) else
      let cfg := OWifiConfig (take 31 ssid) (take 63 pass) in
      if negb config then Ok (false, s, [cfg]) else
      addr ← addressing_apply s img;
      let s := s <| s_slRetry := 0 |> <| s_bShutdown := false |> <| s_ulBackoffMs := WLAN_RECONNECT_BACKOFF_MIN_MS |> in
      if negb start then Ok (false, s, cfg :: addr ++ [OFresh; OWifiStart false])
      else Ok (true, s, cfg :: addr ++ [OFresh; OWifiStart true; OWifiPs false])
  | _, _ => Ok (false, s, [])
  end.

(** [saved]: the stored credentials, if the driver has any; both are arrays that a
    longest entry fills. *)
Definition wlan_com_saved_credentials_get (s : wlan_t) (saved : option (list Z * list Z)) (szSsid szPassword : Z)
    : res (option (list Z * list Z)) :=
  if (szSsid =? 0) || (szPassword =? 0) then Ok None else
  if negb (s_bInited s) then Ok None else
  match saved with
  | None => Ok None
  | Some (ssid, pass) =>
      c ← array_get ssid 0;
      if c =? 0 then Ok None else
      let strncpy n (l : list Z) := match c_string (take n l) with
        | Ok t => Ok t | _ => if decide (n <= length l)%nat then Ok (take n l) else OutOfBounds end in
      a ← strncpy (Z.to_nat (szSsid - 1)) ssid;
      b ← strncpy (Z.to_nat (szPassword - 1)) pass;
      Ok (Some (a, b))
  end.

(** ** Runs *)

Inductive wlan_event :=
  | WStaStart (ok : bool)
  | WStaDisconnected (reason : option Z)
  | WGotIp (ip netmask gw : Z)
  | WTimer (ok : bool)
  | WConnect (ssid pass : option (list Z)) (config start : bool)
  | WReboot
  | WDown (timeout : bool)
  | WPsLow (bLow : bool)
  | WComStart (sem task : bool)
  | WStarter (started : bool).

(** A step at the time [now]; the timer fires when it is due. *)
Definition wlan_step (s : wlan_t) (img : list Z) (now : Z) (e : wlan_event) : res (wlan_t * list Z * list wlan_out) :=
  match e with
  | WStaStart ok => let '(s, o) := on_sta_start s ok in Ok (s, img, o)
  | WStaDisconnected reason => let '(s, o) := on_sta_disconnected s now reason in Ok (s, img, o)
  | WGotIp ip netmask gw => on_got_ip s img ip netmask gw
  | WTimer ok =>
      match s_hReconnTimer s with
      | Some due => if due <=? now then let '(s, o) := reconn_timer_cb s ok in Ok (s, img, o) else Ok (s, img, [])
      | None => Ok (s, img, [])
      end
  | WConnect ssid pass config start => r ← wlan_com_connect s img ssid pass config start; Ok (r.1.2, img, r.2)
  | WReboot => Ok (wlan_com_teardown_for_reboot s, img, [])
  | WDown timeout => let '(s, o) := down_run s timeout in Ok (s, img, o)
  | WPsLow bLow => Ok (s, img, wlan_com_ps_low_set s bLow)
  | WComStart sem task => Ok ((task_com_start s sem task).2, img, [])
  | WStarter started => let '(s, o) := com_starter_task s started in Ok (s, img, o)
  end.

(** The trace pairs each output with its time. *)
Fixpoint wlan_run (s : wlan_t) (img : list Z) (es : list (Z * wlan_event)) : res (wlan_t * list Z * list (Z * wlan_out)) :=
  match es with
  | [] => Ok (s, img, [])
  | (now, e) :: es =>
      r ← wlan_step s img now e;
      r' ← wlan_run r.1.1 r.1.2 es;
      Ok (r'.1, ((λ o, (now, o)) <$> r.2) ++ r'.2)
  end.
End wlan.

(** ** Gentle reconnects *)

(** The wait before the attempt after [k] fruitless ones: 5, 10, 20, 40, 80, 120, 120, ... seconds. *)
Definition wait (k : nat) : Z := Z.min WLAN_RECONNECT_BACKOFF_MAX_MS (WLAN_RECONNECT_BACKOFF_MIN_MS * 2 ^ Z.of_nat k).

(** A trace with [k] losses since the last address or connect call, and the timer
    set to [due]: every loss waits by the schedule, and an attempt is made once per
    loss, not before its wait is over. *)
Fixpoint gentle (k : nat) (due : option Z) (tr : list (Z * wlan_out)) : Prop :=
  match tr with
  | [] => True
  | (t, o) :: tr =>
      match o with
      | OTimerStart ms => ms = wait k ∧ gentle (S k) (Some (t + ms)) tr
      | OTimerStop => gentle k None tr
      | OReconnect _ => (∃ d, due = Some d ∧ d <= t) ∧ gentle k None tr
      | OFresh => gentle 0 due tr
      | _ => gentle k due tr
      end
  end.

Definition attempt_of (x : Z * wlan_out) : option Z := match x.2 with OReconnect _ => Some x.1 | _ => None end.

(** Outputs the schedule does not concern. *)
Definition offside (o : wlan_out) : bool :=
  match o with OTimerStart _ | OTimerStop | OReconnect _ | OFresh => false | _ => true end.

Lemma wait_range k : 5000 <= wait k <= 120000.
Proof.
  unfold wait, WLAN_RECONNECT_BACKOFF_MAX_MS, WLAN_RECONNECT_BACKOFF_MIN_MS.
  pose proof (Z.pow_pos_nonneg 2 (Z.of_nat k) ltac:(lia) ltac:(lia)). lia.
Qed.

Lemma wait_succ k :
  (if WLAN_RECONNECT_BACKOFF_MAX_MS <? u32 (wait k * 2) then WLAN_RECONNECT_BACKOFF_MAX_MS else u32 (wait k * 2)) = wait (S k).
Proof.
  pose proof (wait_range k). rewrite u32_id by (unfold is_u32; lia).
  unfold wait, WLAN_RECONNECT_BACKOFF_MAX_MS, WLAN_RECONNECT_BACKOFF_MIN_MS in *.
  rewrite Nat2Z.inj_succ, Z.pow_succ_r by lia. pose proof (Z.pow_pos_nonneg 2 (Z.of_nat k) ltac:(lia) ltac:(lia)).
  case_bool; lia.
Qed.

Lemma gentle_offside now o k due rest :
  forallb offside o = true → gentle k due (((λ x, (now, x)) <$> o) ++ rest) ↔ gentle k due rest.
Proof.
  induction o as [|x o IH]; intros H; [done|]. cbn [forallb] in H. apply andb_prop in H as [Hx Ho]. cbn [fmap list_fmap app gentle].
  destruct x; try done; by apply IH.
Qed.

(** The state agrees with the schedule. *)
Definition on_schedule (s : wlan_t) (k : nat) : Prop := s_slRetry s = Z.of_nat k ∧ s_ulBackoffMs s = wait k.

Lemma on_schedule_start : on_schedule wlan_zero 0.
Proof. done. Qed.

(** The fields of the schedule, which [set_state] and the teardown leave alone. *)
Definition schedule_of (s : wlan_t) := (s_slRetry s, s_ulBackoffMs s, s_hReconnTimer s).

Lemma set_state_spec s e :
  schedule_of (set_state s e).1 = schedule_of s ∧ (set_state s e).2 = [OState e] ∧ s_eState (set_state s e).1 = e ∧
  s_bShutdown (set_state s e).1 = s_bShutdown s ∧ s_bInited (set_state s e).1 = s_bInited s.
Proof.
  unfold set_state, com_wlan_state_handle. cbn zeta. destruct (s_pfnCb (s <| s_eState := e |>)); [|by split_and!].
  destruct (s_hWlanSem (s <| s_eState := e |>)); [|by split_and!]. destruct (_ && _); by split_and!.
Qed.

Section schedule.
Variable str_to_ip4 : list Z → option Z.
Variable getaddrinfo : list Z → option Z.

Lemma addressing_cases s img o :
  addressing_apply str_to_ip4 getaddrinfo s img = Ok o →
  o = [] ∨ o = [ODhcpStart] ∨ ∃ ip mask gw, o = [ODhcpStop; OSetIp ip mask gw; OSetDns gw].
Proof.
  unfold addressing_apply. destruct (negb (s_pNetif s)); [intros [= <-]; auto|].
  destruct (ref_uint img "Network_DHCP") as [d| |]; [|done..]. cbn [mbind res_bind]. destruct (negb (d =? 0)); [intros [= <-]; auto|].
  destruct (dp_str img "Network_IP_Address"); [|done..]. cbn [mbind res_bind].
  destruct (dp_str img "Network_Subnetmask"); [|done..]. cbn [mbind res_bind].
  destruct (dp_str img "Network_Gateway"); [|done..]. cbn [mbind res_bind].
  repeat (match goal with |- context [net_util_resolve_ip4 ?a ?b ?c] => destruct (net_util_resolve_ip4 a b c) end);
    intros [= <-]; first [by right; left|right; right; by do 3 eexists].
Qed.

Lemma addressing_offside s img o : addressing_apply str_to_ip4 getaddrinfo s img = Ok o → forallb offside o = true.
Proof. by intros [->|[->|(ip & mask & gw & ->)]]%addressing_cases. Qed.

(** What a step does to the schedule. *)
Definition follows (now : Z) (s : wlan_t) (k : nat) (s' : wlan_t) (o : list wlan_out) : Prop :=
  ∃ k', on_schedule s' k' ∧
    ∀ rest, gentle k' (s_hReconnTimer s') rest → gentle k (s_hReconnTimer s) (((λ x, (now, x)) <$> o) ++ rest).

Lemma follows_offside now s k s' o :
  on_schedule s k → schedule_of s' = schedule_of s → forallb offside o = true → follows now s k s' o.
Proof.
  intros [H1 H2] Hs Ho. injection Hs as E1 E2 E3. exists k. split; [split; congruence|].
  intros rest Hr. apply gentle_offside; [done|]. by rewrite <- E3.
Qed.

Lemma step_follows s img now e k r :
  on_schedule s k → wlan_step str_to_ip4 getaddrinfo s img now e = Ok r → follows now s k r.1.1 r.2.
Proof.
  intros Hk H. destruct e; cbn [wlan_step] in H.
  - unfold on_sta_start in H. destruct (set_state_spec s WLAN_CONNECTING) as (Hs & Ho & _).
    destruct (set_state s WLAN_CONNECTING) as [s1 o1]. injection H as <-. cbn [fst snd] in *. subst o1. by apply follows_offside.
  - unfold on_sta_disconnected in H. cbn zeta in H. destruct (s_bShutdown _); [injection H as <-; by apply follows_offside|].
    match type of H with context [set_state ?a ?b] => destruct (set_state_spec a b) as (Hs & Ho & _); destruct (set_state a b) as [s1 o1] end.
    injection H as <-. cbn [fst snd] in *. subst o1. injection Hs as E1 E2 E3. cbn in E1, E2, E3. destruct Hk as [Hk1 Hk2].
    assert (s_ulBackoffMs s1 = wait k) as Eb by congruence.
    exists (S k). cbn. rewrite Eb. split; [split; cbn; [rewrite E1; lia|apply wait_succ]|]. intros rest Hr. done.
  - unfold on_got_ip in H. destruct (dp_print img _ _) as [i1| |]; [|done..]. cbn [mbind res_bind] in H.
    destruct (dp_print i1 _ _) as [i2| |]; [|done..]. cbn [mbind res_bind] in H.
    destruct (dp_print i2 _ _) as [i3| |]; [|done..]. cbn [mbind res_bind] in H.
    match type of H with context [set_state ?a ?b] => destruct (set_state_spec a b) as (Hs & Ho & _); destruct (set_state a b) as [s1 o1] end.
    injection H as <-. cbn [fst snd] in *. subst o1. injection Hs as E1 E2 E3. cbn in E1, E2, E3.
    exists 0%nat. split; [done|]. intros rest Hr. cbn. by rewrite <- E3.
  - destruct (s_hReconnTimer s) as [due|] eqn:Ed; [|injection H as <-; by apply follows_offside].
    destruct (Z.leb_spec due now); injection H as <-; [|by apply follows_offside].
    exists k. split; [done|]. intros rest Hr. cbn. split; [exists due; by rewrite Ed|done].
  - unfold wlan_com_connect in H. destruct ssid as [ssid|]; [|injection H as <-; by apply follows_offside].
    destruct pass as [pass|]; [|injection H as <-; by apply follows_offside].
    destruct (bool_decide _); [injection H as <-; by apply follows_offside|].
    destruct config; cbn [negb] in H; [|injection H as <-; by apply follows_offside].
    destruct (addressing_apply _ _ _ _) as [addr| |] eqn:Ea; [|done..]. cbn [mbind res_bind] in H. apply addressing_offside in Ea.
    exists 0%nat. destruct start; injection H as <-; cbn [fst snd]; (split; [done|]); intros rest Hr;
      rewrite (app_comm_cons addr _ (OWifiConfig _ _)), fmap_app, <- app_assoc; by apply gentle_offside.
  - injection H as <-. by apply follows_offside.
  - destruct (down_run s timeout) as [s1 o1] eqn:Ed. injection H as <-. unfold down_run in Ed. cbn [fst snd].
    destruct (wl_down s) as [|[] ds]; try (injection Ed as <- <-; by apply follows_offside).
    + injection Ed as <- <-. exists k. split; [done|]. intros rest Hr. done.
    + destruct (default true (s_hEvents s) || timeout); injection Ed as <- <-; by apply follows_offside.
  - injection H as <-. apply follows_offside; [done..|]. unfold wlan_com_ps_low_set. by destruct (negb _).
  - injection H as <-. unfold task_com_start. cbn [fst snd]. apply follows_offside; [done| |done].
    destruct sem, task; cbn; try done. by destruct (wlan_com_connected_get _).
  - destruct (com_starter_task s started) as [s1 o1] eqn:Ec. injection H as <-. unfold com_starter_task in Ec. cbn [fst snd].
    destruct (s_hWlanSem s) as [[]|]; try (injection Ec as <- <-; by apply follows_offside).
    cbn zeta in Ec. destruct (negb _); injection Ec as <- <-; by apply follows_offside.
Qed.

Lemma run_follows es : ∀ s img k r,
  on_schedule s k → wlan_run str_to_ip4 getaddrinfo s img es = Ok r → gentle k (s_hReconnTimer s) r.2.
Proof.
  induction es as [|[now e] es IH]; intros s img k r Hk H; cbn [wlan_run] in H; [by injection H as <-|].
  destruct (wlan_step _ _ _ _ _ _) as [[[s1 img1] o1]| |] eqn:E1; [|done..]. cbn [mbind res_bind fst snd] in H.
  destruct (wlan_run _ _ _ _ _) as [[[s2 img2] o2]| |] eqn:E2; [|done..]. injection H as <-. cbn [fst snd].
  destruct (step_follows _ _ _ _ _ _ Hk E1) as (k' & Hk' & Hg). cbn [fst snd] in *. apply Hg. by apply (IH s1 img1 k' (s2, img2, o2)).
Qed.

(** Attempts of a gentle trace whose times do not go back. *)
Lemma gentle_spaced tr : ∀ k due t0,
  gentle k due tr → (∀ d, due = Some d → t0 + 5000 <= d) → Sorted Z.le (t0 :: tr.*1) →
  Forall (λ t, t0 + 5000 <= t) (omap attempt_of tr) ∧ StronglySorted (λ a b, a + 5000 <= b) (omap attempt_of tr).
Proof.
  induction tr as [|[t o] tr IH]; intros k due t0 Hg Hd Hs; [split; constructor|]. cbn [fmap list_fmap fst] in Hs.
  apply Sorted_inv in Hs as [Hs Ht%HdRel_inv].
  assert (∀ k' due', gentle k' due' tr → (∀ d, due' = Some d → t0 + 5000 <= d) → attempt_of (t, o) = None →
    Forall (λ t, t0 + 5000 <= t) (omap attempt_of ((t, o) :: tr)) ∧
    StronglySorted (λ a b, a + 5000 <= b) (omap attempt_of ((t, o) :: tr))) as Hother.
  { intros k' due' Hg' Hd' Ha. cbn [omap list_omap]. rewrite Ha. apply (IH k' due'); [done..|].
    inversion Hs as [|? ? Hs' Hr]; subst. constructor; [done|]. destruct (tr.*1) as [|u l]; constructor. apply HdRel_inv in Hr. lia. }
  cbn [gentle] in Hg. destruct o; try by eapply Hother.
  - destruct Hg as [(d & Ed & Hle) Hg]. cbn [omap list_omap attempt_of snd fst]. specialize (Hd _ Ed).
    destruct (IH k None t Hg) as [Hf Hss]; [done|done|]. split; [constructor; [lia|]|by constructor].
    eapply Forall_impl; [exact Hf|]. cbn. lia.
  - destruct Hg as [-> Hg]. eapply Hother; [exact Hg| |done]. intros d [= <-]. pose proof (wait_range k). lia.
Qed.

(** Reconnects are gentle.  In every run from the boot on, with losses,
    addresses, connect calls, timers and teardowns in any order: a loss is followed
    by a wait of 5, 10, 20, 40, 80 and then always 120 seconds, counted from the
    last address or connect call; an attempt is made at most once per loss and not
    before its wait is over; and any two such attempts are five seconds apart. *)
Theorem wlan_reconnects_gently img es r :
  Sorted Z.le (0 :: es.*1) → wlan_run str_to_ip4 getaddrinfo wlan_zero img es = Ok r →
  gentle 0 None r.2 ∧ StronglySorted (λ a b, a + 5000 <= b) (omap attempt_of r.2).
Proof.
  intros Hs H. pose proof (run_follows es _ _ _ _ on_schedule_start H) as Hg. split; [done|].
  refine (proj2 (gentle_spaced r.2 0 None 0 Hg _ _)); [done|]. clear Hg.
  assert (∀ es s img r t0, wlan_run str_to_ip4 getaddrinfo s img es = Ok r → Sorted Z.le (t0 :: es.*1) → Sorted Z.le (t0 :: r.2.*1)) as Ht.
  { clear. induction es as [|[now e] es IH]; intros s img r t0 H Hs; cbn [wlan_run] in H; [injection H as <-; by constructor|].
    destruct (wlan_step _ _ _ _ _ _) as [[[s1 img1] o1]| |] eqn:E1; [|done..]. cbn [mbind res_bind fst snd] in H.
    destruct (wlan_run _ _ _ _ _) as [[[s2 img2] o2]| |] eqn:E2; [|done..]. injection H as <-. cbn [fst snd fmap list_fmap] in *.
    apply Sorted_inv in Hs as [Hs Hle%HdRel_inv]. apply (IH _ _ _ _ E2) in Hs. cbn [snd] in Hs. clear - Hs Hle.
    revert t0 Hle. induction o1 as [|x o1 IHo]; intros t0 Hle; cbn [fmap list_fmap app fst].
    - apply Sorted_inv in Hs as [Hs Hr]. constructor; [done|]. destruct (o2.*1) as [|u l]; constructor. apply HdRel_inv in Hr. lia.
    - constructor; [apply IHo; lia|]. by constructor. }
  by apply (Ht es wlan_zero img).
Qed.
End schedule.

(** ** The next attempt *)

(** What the driver owes: a connect call succeeded, its start event has not come,
    an attempt has no answer yet. *)
Record try_state := mk_try { t_up : bool; t_start : bool; t_att : bool }.

Definition try_zero : try_state := mk_try false false false.

Definition observe_try (g : try_state) (e : wlan_event) (o : list wlan_out) : try_state :=
  match e with
  | WConnect _ _ _ _ =>
      if bool_decide (OWifiStart true ∈ o) then mk_try true true (t_att g)
      else if bool_decide (OWifiStart false ∈ o) then mk_try false (t_start g) (t_att g) else g
  | WStaStart ok => mk_try (t_up g) false (t_att g || ok)
  | WTimer _ => mk_try (t_up g) (t_start g) (t_att g || bool_decide (OReconnect true ∈ o))
  | WStaDisconnected _ | WGotIp _ _ _ => mk_try (t_up g) (t_start g) false
  | _ => g
  end.

Section tries.
Variable str_to_ip4 : list Z → option Z.
Variable getaddrinfo : list Z → option Z.

Fixpoint wlan_tries (s : wlan_t) (img : list Z) (g : try_state) (es : list (Z * wlan_event)) : res (wlan_t * try_state) :=
  match es with
  | [] => Ok (s, g)
  | (now, e) :: es =>
      r ← wlan_step str_to_ip4 getaddrinfo s img now e;
      wlan_tries r.1.1 r.1.2 (observe_try g e r.2) es
  end.

(** The driver accepts every attempt, and nobody tears the connection down. *)
Definition accepted (e : wlan_event) : Prop :=
  match e with WStaStart ok | WTimer ok => ok = true | WReboot => False | _ => True end.

(** Something leads to the next attempt: the start event to come, an attempt
    without an answer, the timer, which fires within two minutes, or the
    connection itself, whose loss is an event. *)
Definition goes_on (now : Z) (s : wlan_t) (g : try_state) : Prop :=
  t_start g = true ∨ t_att g = true ∨ (∃ due, s_hReconnTimer s = Some due ∧ due <= now + 120000) ∨ s_eState s = WLAN_CONNECTED.

Record try_inv (now : Z) (s : wlan_t) (g : try_state) : Prop := {
  tr_down : wl_down s = [];
  tr_open : s_bShutdown s = false;
  tr_wait : s_ulBackoffMs s <= 120000;
  tr_next : t_up g = true → goes_on now s g
}.

(** The fields the invariant speaks of. *)
Definition try_view (s : wlan_t) := (wl_down s, s_bShutdown s, s_ulBackoffMs s, s_hReconnTimer s, s_eState s).

Lemma set_state_down s e : wl_down (set_state s e).1 = wl_down s.
Proof.
  unfold set_state, com_wlan_state_handle. cbn zeta. destruct (s_pfnCb _); [|done].
  destruct (s_hWlanSem _); [|done]. by destruct (_ && _).
Qed.

Lemma try_later now now' s s' g : now <= now' → try_view s' = try_view s → try_inv now s g → try_inv now' s' g.
Proof.
  intros Hle Hv [H1 H2 H3 H4]. injection Hv as E1 E2 E3 E4 E5. split; rewrite ?E1, ?E2, ?E3; try done.
  intros [?|[?|[(due & Ed & ?)|?]]]%H4; unfold goes_on; rewrite ?E4, ?E5; auto. right; right; left. exists due. split; [done|lia].
Qed.

Lemma step_tries now now' s img g e r :
  now <= now' → accepted e → try_inv now s g → wlan_step str_to_ip4 getaddrinfo s img now' e = Ok r →
  try_inv now' r.1.1 (observe_try g e r.2).
Proof.
  intros Hle Ha I H. destruct e; cbn [wlan_step accepted] in *.
  - unfold on_sta_start in H. destruct (set_state_spec s WLAN_CONNECTING) as (Hs & Ho & _ & Hd & _).
    pose proof (set_state_down s WLAN_CONNECTING) as Hw. destruct (set_state s WLAN_CONNECTING) as [s1 o1]. injection H as <-.
    cbn [fst snd] in *. injection Hs as _ E2 _. destruct I as [I1 I2 I3 I4]. subst ok.
    split; cbn [fst snd]; [congruence|congruence|lia|]. intros _. right; left. cbn. by rewrite orb_true_r.
  - unfold on_sta_disconnected in H. cbn zeta in H. destruct I as [I1 I2 I3 I4].
    change (s_bShutdown (s <| s_hEvents := (λ _, true) <$> s_hEvents s |>)) with (s_bShutdown s) in H. rewrite I2 in H.
    match type of H with context [set_state ?a ?b] =>
      destruct (set_state_spec a b) as (Hs & Ho & _ & Hd & _); pose proof (set_state_down a b) as Hw; destruct (set_state a b) as [s1 o1] end.
    injection H as <-. cbn [fst snd] in *. injection Hs as _ E2 _. cbn in E2, Hd, Hw.
    split; cbn; [congruence|congruence| |].
    + unfold WLAN_RECONNECT_BACKOFF_MAX_MS. case_bool; lia.
    + intros _. right; right; left. eexists. split; [reflexivity|]. lia.
  - unfold on_got_ip in H. destruct (dp_print img _ _) as [i1| |]; [|done..]. cbn [mbind res_bind] in H.
    destruct (dp_print i1 _ _) as [i2| |]; [|done..]. cbn [mbind res_bind] in H.
    destruct (dp_print i2 _ _) as [i3| |]; [|done..]. cbn [mbind res_bind] in H. destruct I as [I1 I2 I3 I4].
    match type of H with context [set_state ?a ?b] =>
      destruct (set_state_spec a b) as (Hs & Ho & He & Hd & _); pose proof (set_state_down a b) as Hw; destruct (set_state a b) as [s1 o1] end.
    injection H as <-. cbn [fst snd] in *. injection Hs as _ E2 _. cbn in E2, Hd, Hw.
    split; cbn [fst snd]; [congruence|congruence|unfold WLAN_RECONNECT_BACKOFF_MIN_MS in *; lia|]. intros _. by do 3 right.
  - subst ok. destruct (s_hReconnTimer s) as [due|] eqn:Et.
    + destruct (due <=? now') eqn:Ed; injection H as <-; cbn [fst snd].
      * destruct I as [I1 I2 I3 I4]. split; cbn; try done. intros _. right; left. cbn. by rewrite orb_true_r.
      * cbn. rewrite orb_false_r. destruct g. by apply (try_later now _ s).
    + injection H as <-. cbn. rewrite orb_false_r. destruct g. by apply (try_later now _ s).
  - unfold wlan_com_connect in H. assert (Hid : try_inv now' s g) by (by apply (try_later now _ s)).
    destruct ssid as [ssid|]; [|by injection H as <-]. destruct pass as [pass|]; [|by injection H as <-].
    destruct (bool_decide (ssid = [])); [by injection H as <-|]. destruct config; cbn [negb] in H; [|by injection H as <-].
    destruct (addressing_apply _ _ _ _) as [addr| |] eqn:Eaddr; [|done..]. cbn [mbind res_bind] in H.
    destruct Hid as [I1 I2 I3 I4].
    assert (Hnot : ∀ b, OWifiStart b ∉ OWifiConfig (take 31 ssid) (take 63 pass) :: addr).
    { intros b. apply addressing_cases in Eaddr as [->|[->|(ip & mask & gw & ->)]]; set_solver. }
    destruct start; cbn [negb] in H; injection H as <-; cbn [fst snd observe_try].
    + rewrite bool_decide_eq_true_2 by (apply elem_of_cons; right; apply elem_of_app; right; set_solver).
      split; cbn; [done|done|unfold WLAN_RECONNECT_BACKOFF_MIN_MS; lia|]. intros _. by left.
    + rewrite bool_decide_eq_false_2, bool_decide_eq_true_2.
      * split; cbn; [done|done|unfold WLAN_RECONNECT_BACKOFF_MIN_MS; lia|done].
      * apply elem_of_cons. right. apply elem_of_app. right. set_solver.
      * intros Hin. apply (Hnot true). rewrite app_comm_cons in Hin. apply elem_of_app in Hin as [?|Hin]; [done|]. set_solver.
  - done.
  - unfold down_run in H. rewrite (tr_down _ _ _ I) in H. injection H as <-. by apply (try_later now _ s).
  - injection H as <-. by apply (try_later now _ s).
  - injection H as <-. cbn [fst snd observe_try]. apply (try_later now _ s); [done| |done]. unfold task_com_start.
    destruct sem, task; cbn; try done. by destruct (wlan_com_connected_get _).
  - destruct (com_starter_task s started) as [s1 o1] eqn:Ec. injection H as <-. cbn [fst snd observe_try].
    apply (try_later now _ s); [done| |done]. unfold com_starter_task in Ec.
    destruct (s_hWlanSem s) as [[]|]; try (by injection Ec as <- <-). cbn zeta in Ec. destruct (negb _); by injection Ec as <- <-.
Qed.

(** C36: The device never gives up its WLAN.  After a successful connect call, with
    a driver that accepts the attempts, and whatever losses, addresses and repeated
    calls follow: until a teardown for a reboot there is always an event to come
    that leads to the next attempt, and if it is the timer, it fires within two
    minutes. *)
Theorem wlan_never_gives_up img es s g :
  Sorted Z.le (0 :: es.*1) → Forall (λ x, accepted x.2) es → wlan_tries wlan_zero img try_zero es = Ok (s, g) →
  t_up g = true → goes_on (default 0 (last (es.*1))) s g.
Proof.
  intros Hs Ha H Hup.
  assert (∀ es s img g now s' g', Sorted Z.le (now :: es.*1) → Forall (λ x, accepted x.2) es → try_inv now s g →
    wlan_tries s img g es = Ok (s', g') → try_inv (default now (last (es.*1))) s' g') as Hrun.
  { clear. induction es as [|[now' e] es IH]; intros s img g now s' g' Hs Ha I H; cbn [wlan_tries] in H; [by injection H as <- <-|].
    destruct (wlan_step _ _ _ _ _ _) as [[[s1 img1] o1]| |] eqn:E1; [|done..]. cbn [mbind res_bind fst snd] in H.
    cbn [fmap list_fmap fst] in *. apply Sorted_inv in Hs as [Hs Hle%HdRel_inv]. apply Forall_cons in Ha as [Ha Has].
    pose proof (step_tries _ _ _ _ _ _ _ Hle Ha I E1) as I1. pose proof (IH _ _ _ _ _ _ Hs Has I1 H) as I'.
    rewrite last_cons. by destruct (last es.*1). }
  apply (Hrun es wlan_zero img try_zero 0 s g); [done..| |done|done]. by split.
Qed.
End tries.

(** ** The protocol is started once *)

(** No start after a successful one. *)
Lemma protocol_starts_once s started o s' : s_bStarted s = true → com_starter_task s started = (s', o) → o = [] ∧ s_bStarted s' = true.
Proof.
  intros Hb. unfold com_starter_task. destruct (s_hWlanSem s) as [[]|]; [|by intros [= <- <-]..].
  cbn zeta. change (s_bStarted (s <| s_hWlanSem := Some false |>)) with (s_bStarted s). rewrite Hb. by intros [= <- <-].
Qed.

(** ** The lease and the static address *)

Lemma octet_range a i : 0 <= octet a i < 256.
Proof. unfold octet. change 255 with (Z.ones 8). rewrite Z.land_ones by lia. apply Z.mod_pos_bound. lia. Qed.

(** An octet prints as at most three characters. *)
Lemma octet_text a i : Forall (λ c, c ≠ 0 ∧ is_u8 c) (fmt_int (octet a i)) ∧ (length (fmt_int (octet a i)) <= 3)%nat.
Proof.
  pose proof (octet_range a i) as H. generalize dependent (octet a i). intros z Hz.
  assert (forallb (λ n, let t := fmt_int (Z.of_nat n) in
            forallb (λ c, (0 <? c) && (c <? 256)) t && (length t <=? 3)%nat) (seq 0 256) = true) as Hall by (vm_compute; reflexivity).
  rewrite forallb_forall in Hall. specialize (Hall (Z.to_nat z) ltac:(apply in_seq; lia)). rewrite Z2Nat.id in Hall by lia.
  apply andb_prop in Hall as [Hc Hl%Nat.leb_le]. split; [|done]. rewrite forallb_forall in Hc. apply Forall_forall.
  intros c Hin%list_elem_of_In%Hc. apply andb_prop in Hin as [?%Z.ltb_lt ?%Z.ltb_lt]. unfold is_u8. lia.
Qed.

Lemma ip_str_text a : Forall (λ c, c ≠ 0 ∧ is_u8 c) (ip_str a) ∧ (length (ip_str a) <= 63)%nat.
Proof.
  unfold ip_str. destruct (octet_text a 0) as [H0 L0], (octet_text a 1) as [H1 L1], (octet_text a 2) as [H2 L2], (octet_text a 3) as [H3 L3].
  split; [|rewrite !length_app; cbn [length]; rewrite !length_app; cbn [length]; rewrite !length_app; cbn [length]; lia].
  assert ((λ c, c ≠ 0 ∧ is_u8 c) 46) as Hd by by split; [|unfold is_u8; lia].
  repeat first [apply Forall_app_2|apply Forall_cons_2]; done.
Qed.

(** A write of a named point: it reads back, and the other points stay. *)
Lemma ref_put_spec img n d b :
  img_ok img → dp_find n = Some d → zlen b = dp_size d → Forall is_u8 b →
  ∃ img', dp_ref_set img n b = Ok img' ∧ img_ok img' ∧ dp_ref img' n = Ok b ∧
    ∀ n', n' ≠ n → is_Some (dp_find n') → dp_ref img' n' = dp_ref img n'.
Proof.
  intros Hi Hf Hl Hb. pose proof (proj1 (dp_find_some _ _) Hf) as [Hd Hn]. exists (slot_put img d b).
  assert (img_ok (slot_put img d b)) as Hi' by by apply slot_put_ok.
  split_and!; [unfold dp_ref_set; rewrite Hf; by apply raw_set_ok|done| |].
  - rewrite (dp_ref_slot _ _ d) by done. by rewrite slot_put_same.
  - intros n' Hne [d' Hf']. pose proof (proj1 (dp_find_some _ _) Hf') as [Hd' Hn'].
    rewrite !(dp_ref_slot _ _ d') by done. rewrite slot_put_other; [done..| |done]. intros ->. congruence.
Qed.

Lemma print_spec img n d s :
  img_ok img → dp_find n = Some d → dd_type d = DP_STR → Forall (λ c, c ≠ 0 ∧ is_u8 c) s → (length s <= 63)%nat →
  ∃ img', dp_print img n s = Ok img' ∧ img_ok img' ∧ dp_str img' n = Ok s ∧
    ∀ n', n' ≠ n → is_Some (dp_find n') → dp_ref img' n' = dp_ref img n'.
Proof.
  intros Hi Hf Ht Hs Hl. unfold dp_print. pose proof (proj1 (dp_find_some _ _) Hf) as [Hd _].
  rewrite (dp_ref_slot _ _ d) by done. cbn [mbind res_bind]. rewrite take_ge by (unfold DP_STR_MAX; lia).
  pose proof (slot_bytes_len img d Hi Hd) as Hlen. pose proof (slot_bytes_u8 img d Hi) as Hu.
  assert (dp_size d = 64) as Hsize by (unfold dp_size; by rewrite Ht). rewrite Hsize in Hlen. unfold zlen in Hlen.
  set (b := s ++ 0 :: drop (S (length s)) (slot_bytes img d)).
  destruct (ref_put_spec img n d b) as (img' & -> & Hi' & Hr & Ho); [done|done| | |].
  - unfold b, zlen. rewrite Hsize, length_app. cbn [length]. rewrite length_drop. lia.
  - unfold b. apply Forall_app_2; [by eapply Forall_impl; [exact Hs|]; intros ? []|].
    apply Forall_cons_2; [unfold is_u8; lia|by apply Forall_drop].
  - exists img'. split_and!; [done|done| |done]. unfold dp_str. rewrite Hr. cbn [mbind res_bind]. unfold b.
    apply c_string_app. eapply Forall_impl; [exact Hs|]. by intros ? [].
Qed.

Definition str_point (n : string) : bool := match dp_find n with Some d => bool_decide (dd_type d = DP_STR) | None => false end.

Lemma str_point_spec n : str_point n = true → ∃ d, dp_find n = Some d ∧ dd_type d = DP_STR.
Proof. unfold str_point. destruct (dp_find n) as [d|]; [|done]. intros H%bool_decide_eq_true. by exists d. Qed.

Lemma lease_points :
  str_point "Network_IP_Address" && str_point "Network_Subnetmask" && str_point "Network_Gateway" = true.
Proof. vm_compute. reflexivity. Qed.

Lemma dhcp_point : match dp_find "Network_DHCP" with Some d => dp_size d =? 1 | None => false end = true.
Proof. vm_compute. reflexivity. Qed.

(** What an address event leaves in the datapoints. *)
Lemma got_ip_spec s img ip netmask gw :
  img_ok img → ∃ s' img' o, on_got_ip s img ip netmask gw = Ok (s', img', o) ∧ img_ok img' ∧ s_pNetif s' = s_pNetif s ∧
    dp_str img' "Network_IP_Address" = Ok (ip_str ip) ∧ dp_str img' "Network_Subnetmask" = Ok (ip_str netmask) ∧
    dp_str img' "Network_Gateway" = Ok (ip_str gw).
Proof.
  intros Hi. pose proof lease_points as Hp. apply andb_prop in Hp as [Hp P3]. apply andb_prop in Hp as [P1 P2].
  apply str_point_spec in P1 as (d1 & F1 & T1). apply str_point_spec in P2 as (d2 & F2 & T2). apply str_point_spec in P3 as (d3 & F3 & T3).
  unfold on_got_ip. destruct (ip_str_text ip) as [Ta La], (ip_str_text netmask) as [Tb Lb], (ip_str_text gw) as [Tc Lc].
  destruct (print_spec img _ _ _ Hi F1 T1 Ta La) as (i1 & -> & Hi1 & R1 & O1). cbn [mbind res_bind].
  destruct (print_spec i1 _ _ _ Hi1 F2 T2 Tb Lb) as (i2 & -> & Hi2 & R2 & O2). cbn [mbind res_bind].
  destruct (print_spec i2 _ _ _ Hi2 F3 T3 Tc Lc) as (i3 & -> & Hi3 & R3 & O3). cbn [mbind res_bind].
  match goal with |- context [set_state ?a ?b] => destruct (set_state a b) as [s1 o1] eqn:Es end.
  exists s1, i3, (OFresh :: EVT_WLAN_CONNECTED ip :: o1). split_and!; [done|done| | | |done].
  - unfold set_state, com_wlan_state_handle in Es. cbn zeta in Es. destruct (s_pfnCb _); [|by injection Es as <- _].
    destruct (s_hWlanSem _); [|by injection Es as <- _]. destruct (_ && _); by injection Es as <- _.
  - unfold dp_str in *. by rewrite O3, O2.
  - unfold dp_str in *. by rewrite O3.
Qed.

(** The lease becomes the static address.  Whatever address a connection
    obtains, the datapoints show it; and if DHCP is then switched off, the next
    connect call configures exactly this address, netmask and gateway, with the
    gateway as name server, provided the library reads back the dotted text of
    these three addresses. *)
Theorem static_address_follows_lease str_to_ip4 getaddrinfo s img ip netmask gw :
  img_ok img → s_pNetif s = true →
  str_to_ip4 (ip_str ip) = Some ip → str_to_ip4 (ip_str netmask) = Some netmask → str_to_ip4 (ip_str gw) = Some gw →
  ∃ s' img' o, on_got_ip s img ip netmask gw = Ok (s', img', o) ∧
    ∃ img'', dp_ref_set img' "Network_DHCP" [0] = Ok img'' ∧
      addressing_apply str_to_ip4 getaddrinfo s' img'' = Ok [ODhcpStop; OSetIp ip netmask gw; OSetDns gw].
Proof.
  intros Hi Hn R1 R2 R3. destruct (got_ip_spec s img ip netmask gw Hi) as (s' & img' & o & -> & Hi' & Hn' & D1 & D2 & D3).
  exists s', img', o. split; [done|]. pose proof dhcp_point as Hp. destruct (dp_find "Network_DHCP") as [d|] eqn:Ed; [|done].
  apply Z.eqb_eq in Hp. destruct (ref_put_spec img' _ d [0] Hi' Ed) as (img'' & -> & Hi'' & Hr & Ho);
    [done|apply Forall_singleton; unfold is_u8; lia|]. exists img''. split; [done|].
  pose proof lease_points as Hq. apply andb_prop in Hq as [Hq P3]. apply andb_prop in Hq as [P1 P2].
  apply str_point_spec in P1 as (d1 & F1 & _). apply str_point_spec in P2 as (d2 & F2 & _). apply str_point_spec in P3 as (d3 & F3 & _).
  assert (∀ a t, str_to_ip4 (ip_str a) = Some t → net_util_resolve_ip4 str_to_ip4 getaddrinfo (ip_str a) = Some t) as Hres.
  { intros a t Ha. unfold net_util_resolve_ip4, net_util_ip4_from_str. destruct (ip_str a) as [|c l] eqn:Ea; [|by rewrite Ha].
    unfold ip_str in Ea. by destruct (fmt_int (octet a 0)). }
  unfold addressing_apply. rewrite Hn', Hn. cbn [negb]. unfold ref_uint. rewrite Hr. cbn [mbind res_bind].
  change (negb (le_get [0] =? 0)) with false. cbn iota. unfold dp_str in *. rewrite !Ho by (done || eauto).
  rewrite D1. cbn [mbind res_bind]. rewrite D2. cbn [mbind res_bind]. rewrite D3. cbn [mbind res_bind].
  by rewrite (Hres ip ip), (Hres netmask netmask), (Hres gw gw).
Qed.

(** ** Teardown *)

(** Once the timer is stopped under the shutdown flag, only a start event of the
    driver or a new connect call leads to another attempt. *)
Lemma teardown_is_quiet str_to_ip4 getaddrinfo s img now e s' img' o :
  s_bShutdown s = true → s_hReconnTimer s = None → wlan_step str_to_ip4 getaddrinfo s img now e = Ok (s', img', o) →
  match e with
  | WStaStart _ | WConnect _ _ _ _ => True
  | _ => s_bShutdown s' = true ∧ s_hReconnTimer s' = None ∧ s_ulDisconnects s' = s_ulDisconnects s ∧
         (∀ b, (OWifiConnect b ∉ o) ∧ (OReconnect b ∉ o))
  end.
Proof.
  intros Hd Ht H. destruct e; cbn [wlan_step] in H; try done.
  - unfold on_sta_disconnected in H. cbn zeta in H.
    change (s_bShutdown (s <| s_hEvents := (λ _, true) <$> s_hEvents s |>)) with (s_bShutdown s) in H. rewrite Hd in H.
    injection H as <- _ <-. split_and!; [done..|]. set_solver.
  - unfold on_got_ip in H. destruct (dp_print img _ _) as [i1| |]; [|done..]. cbn [mbind res_bind] in H.
    destruct (dp_print i1 _ _) as [i2| |]; [|done..]. cbn [mbind res_bind] in H.
    destruct (dp_print i2 _ _) as [i3| |]; [|done..]. cbn [mbind res_bind] in H.
    unfold set_state, com_wlan_state_handle in H. cbn zeta in H.
    destruct (s_pfnCb _); [destruct (s_hWlanSem _); [destruct (_ && _)|]|]; injection H as <- _ <-; (split_and!; [done..|]; set_solver).
  - rewrite Ht in H. injection H as <- _ <-. split_and!; [done..|]. set_solver.
  - injection H as <- _ <-. split_and!; [done..|]. set_solver.
  - unfold down_run in H. destruct (wl_down s) as [|[] ds]; [..|destruct (default true (s_hEvents s) || timeout)| |];
      injection H as <- _ <-; (split_and!; [done..|]; set_solver).
  - injection H as <- _ <-. unfold wlan_com_ps_low_set. split_and!; [done..|]. destruct (negb _); set_solver.
  - unfold task_com_start in H. destruct sem, task; cbn in H; [destruct (wlan_com_connected_get _)|..];
      injection H as <- _ <-; (split_and!; [done..|]; set_solver).
  - unfold com_starter_task in H. destruct (s_hWlanSem s) as [[]|]; [|injection H as <- _ <-; (split_and!; [done..|]; set_solver)..].
    cbn zeta in H. destruct (negb _); injection H as <- _ <-; (split_and!; [done..|]; set_solver).
Qed.

(** ** Executions *)

Definition blank_image : list Z := replicate (Z.to_nat dp_image_size) 0.

Lemma blank_image_ok : img_ok blank_image.
Proof. split; [vm_compute; reflexivity|]. apply Forall_replicate. unfold is_u8. lia. Qed.

(** A dotted quad, as lwIP reads it. *)
Fixpoint quad (n : nat) (s : list Z) : option (list Z) :=
  match n with
  | O => None
  | S n =>
      match digits 10 0 s with
      | (v, []) => if n is O then Some [v] else None
      | (v, c :: r) => if c =? 46 then cons v <$> quad n r else None
      end
  end.

Definition demo_ip4 (s : list Z) : option Z := le_get <$> quad 4 s.

Definition no_dns (s : list Z) : option Z := None.

#[local] Abbreviation demo_wlan := (wlan_run demo_ip4 no_dns wlan_zero blank_image).

(** Two losses, an address, a loss. *)
Definition bumpy_events : list (Z * wlan_event) :=
  [(0, WConnect (Some (cstr "home")) (Some (cstr "secret")) true true); (10, WStaStart true); (900, WStaDisconnected (Some 201));
   (5900, WTimer true); (6500, WStaDisconnected (Some 201)); (9000, WTimer true); (16500, WTimer true);
   (17000, WGotIp 16820416 16777215 16820416); (20000, WStaDisconnected (Some 8)); (25000, WTimer true)].

Lemma wlan_reconnects_gently_witness :
  ∃ r, demo_wlan bumpy_events = Ok r ∧ omap attempt_of r.2 = [5900; 16500; 25000] ∧
    gentle 0 None r.2 ∧ StronglySorted (λ a b, a + 5000 <= b) (omap attempt_of r.2).
Proof.
  destruct (demo_wlan bumpy_events) as [r| |] eqn:E; [|vm_compute in E; discriminate E..]. exists r.
  split; [reflexivity|]. split.
  - assert (fmap (λ r, omap attempt_of r.2) (Some r) = match demo_wlan bumpy_events with Ok r => Some (omap attempt_of r.2) | _ => None end) as H
      by (rewrite E; reflexivity).
    vm_compute in H. by injection H.
  - apply (wlan_reconnects_gently demo_ip4 no_dns blank_image bumpy_events r); [|exact E].
    repeat constructor; vm_compute; discriminate.
Defined.

Lemma wlan_never_gives_up_witness :
  ∃ s g, wlan_tries demo_ip4 no_dns wlan_zero blank_image try_zero (take 5 bumpy_events) = Ok (s, g) ∧
    t_up g = true ∧ goes_on 6500 s g.
Proof.
  destruct (wlan_tries demo_ip4 no_dns wlan_zero blank_image try_zero (take 5 bumpy_events)) as [[s g]| |] eqn:E;
    [|vm_compute in E; discriminate E..]. exists s, g. split; [reflexivity|].
  assert (t_up g = true) as Hup.
  { assert (Some (t_up g) = match wlan_tries demo_ip4 no_dns wlan_zero blank_image try_zero (take 5 bumpy_events) with
      Ok (_, g) => Some (t_up g) | _ => None end) as H by (rewrite E; reflexivity). vm_compute in H. by injection H. }
  split; [exact Hup|]. apply (wlan_never_gives_up demo_ip4 no_dns blank_image (take 5 bumpy_events) s g); [| |exact E|exact Hup].
  - repeat constructor; vm_compute; discriminate.
  - repeat constructor.
Defined.

Lemma static_address_follows_lease_witness :
  ∃ s' img' o, on_got_ip (wlan_zero <| s_pNetif := true |>) blank_image 16820416 16777215 33597632 = Ok (s', img', o) ∧
    ∃ img'', dp_ref_set img' "Network_DHCP" [0] = Ok img'' ∧
      addressing_apply demo_ip4 no_dns s' img'' = Ok [ODhcpStop; OSetIp 16820416 16777215 33597632; OSetDns 33597632].
Proof.
  apply (static_address_follows_lease demo_ip4 no_dns); [apply blank_image_ok|reflexivity|vm_compute; reflexivity..].
Defined.

(** An attempt that the driver refuses brings no event: nothing leads to another. *)
Example refused_attempt_is_the_last :
  match wlan_tries demo_ip4 no_dns wlan_zero blank_image try_zero (take 3 bumpy_events ++ [(5900, WTimer false)]) with
  | Ok (s, g) => t_up g = true ∧ t_start g = false ∧ t_att g = false ∧ s_hReconnTimer s = None ∧ s_eState s = WLAN_CONNECTING
  | _ => False
  end.
Proof. vm_compute. split_and!; reflexivity. Qed.

(** A name of 32 characters, the longest allowed, loses its last one. *)
Example long_ssid_is_cut :
  match wlan_com_connect demo_ip4 no_dns wlan_zero blank_image (Some (replicate 32 65)) (Some []) true true with
  | Ok (ok, _, o) => ok = true ∧ OWifiConfig (replicate 31 65) [] ∈ o
  | _ => False
  end.
Proof. vm_compute. split; [reflexivity|]. apply elem_of_cons. by left. Qed.

(** The stored name of 32 characters fills its array: the copy reads on. *)
Example long_saved_ssid_reads_on :
  wlan_com_saved_credentials_get (wlan_zero <| s_bInited := true |>) (Some (replicate 32 65, replicate 64 0)) 64 64 = OutOfBounds.
Proof. vm_compute. reflexivity. Qed.
