(* ===== verification/LoggingBridge.v ===== *)
(** * The logging bridges: [logging_bridge.c]

    Models src/components/logging/src/logging_bridge.c: the table of selected
    events, the callback that turns such an event into a record of the logging core
    (LogCore), and the capture of ESP-IDF's own warnings and errors.  A formatted
    line is given as text; [vsnprintf] cuts it to its buffer.

    [published_events_are_logged] composes the callback with the event manager and
    the logging core: every accepted publication of a selected event becomes exactly
    one record, in order, with the arguments decoded from its payload. *)

From Stdlib Require Import SpecFloat.
From S2P Require Import Prelude Bytes Float32 Float64 LogRing LogCore EventManager EventManagerProps FpAuth.
Local Open Scope string_scope.
Local Open Scope list_scope.
Local Open Scope Z_scope.

(** ** The table *)

Definition LOG_MOD_SYSTEM : Z := 1.
Definition LOG_MOD_WLAN : Z := 2.
Definition LOG_MOD_PUMP : Z := 3.
Definition LOG_MOD_OTA : Z := 4.
Definition LOG_MOD_TASK : Z := 6.
Definition LOG_MOD_IDF : Z := 8.
Definition LOG_EVT_IDF_LINE : Z := 800.

(** [system_event_t] and the record numbers of logging.h, as far as the table
    names them. *)
Inductive bridged :=
  | SYSTEM_BOOT | SYSTEM_READY | LOW_MEMORY | FATAL_ERROR | WLAN_CONNECTED | WLAN_DISCONNECTED | SESSION_READY
  | SESSION_LOST | OTA_STARTED | OTA_APPLIED | OTA_FAILED | OTA_REJECTED_UNSIGNED | PUMP_STATE_CHANGED | PUMP_FAULT
  | PUMP_FAULT_CLEARED | NETWORK_CONFIG_SAVED | NETWORK_CONFIG_RESTORED | POWER_MODE_CHANGED | DP_WRITTEN
  | TASK_STARTED | TASK_STOPPED | TASK_CYCLE_OVERRUN | TASK_STACK_LOW.

#[export] Instance bridged_eq_dec : EqDecision bridged.
Proof. solve_decision. Defined.

Definition event_code (b : bridged) : Z :=
  match b with
  | SYSTEM_BOOT => 1 | SYSTEM_READY => 2 | WLAN_CONNECTED => 3 | WLAN_DISCONNECTED => 4 | SESSION_READY => 5
  | SESSION_LOST => 6 | OTA_STARTED => 7 | OTA_APPLIED => 8 | OTA_FAILED => 9 | OTA_REJECTED_UNSIGNED => 10
  | PUMP_STATE_CHANGED => 11 | PUMP_FAULT => 12 | PUMP_FAULT_CLEARED => 13 | DP_WRITTEN => 14
  | NETWORK_CONFIG_SAVED => 15 | NETWORK_CONFIG_RESTORED => 16 | POWER_MODE_CHANGED => 17 | TASK_STARTED => 18
  | TASK_STOPPED => 19 | TASK_CYCLE_OVERRUN => 20 | TASK_STACK_LOW => 21 | LOW_MEMORY => 29 | FATAL_ERROR => 30
  end.

Record bridge_map_t := mk_bridge {
  bm_event : bridged;
  bm_level : Z;
  bm_module : Z;
  bm_log_event : Z;
  bm_text : option string
}.

Definition s_astMap : list bridge_map_t := [
  mk_bridge SYSTEM_BOOT LOG_LEVEL_INFO LOG_MOD_SYSTEM 100 (Some "boot");
  mk_bridge SYSTEM_READY LOG_LEVEL_INFO LOG_MOD_SYSTEM 101 (Some "system ready");
  mk_bridge LOW_MEMORY LOG_LEVEL_WARN LOG_MOD_SYSTEM 102 (Some "low memory");
  mk_bridge FATAL_ERROR LOG_LEVEL_ERROR LOG_MOD_SYSTEM 103 (Some "fatal");
  mk_bridge WLAN_CONNECTED LOG_LEVEL_INFO LOG_MOD_WLAN 200 (Some "wlan connected");
  mk_bridge WLAN_DISCONNECTED LOG_LEVEL_WARN LOG_MOD_WLAN 201 (Some "wlan disconnected");
  mk_bridge SESSION_READY LOG_LEVEL_INFO LOG_MOD_WLAN 202 (Some "session ready");
  mk_bridge SESSION_LOST LOG_LEVEL_WARN LOG_MOD_WLAN 203 (Some "session lost");
  mk_bridge OTA_STARTED LOG_LEVEL_INFO LOG_MOD_OTA 300 None;
  mk_bridge OTA_APPLIED LOG_LEVEL_INFO LOG_MOD_OTA 301 None;
  mk_bridge OTA_FAILED LOG_LEVEL_ERROR LOG_MOD_OTA 302 (Some "ota failed");
  mk_bridge OTA_REJECTED_UNSIGNED LOG_LEVEL_ERROR LOG_MOD_OTA 303 (Some "ota unsigned rejected");
  mk_bridge PUMP_STATE_CHANGED LOG_LEVEL_INFO LOG_MOD_PUMP 400 (Some "pump state");
  mk_bridge PUMP_FAULT LOG_LEVEL_ERROR LOG_MOD_PUMP 401 (Some "pump fault");
  mk_bridge PUMP_FAULT_CLEARED LOG_LEVEL_INFO LOG_MOD_PUMP 402 (Some "pump fault cleared");
  mk_bridge NETWORK_CONFIG_SAVED LOG_LEVEL_INFO LOG_MOD_SYSTEM 500 (Some "config saved");
  mk_bridge NETWORK_CONFIG_RESTORED LOG_LEVEL_WARN LOG_MOD_SYSTEM 501 (Some "config restored");
  mk_bridge POWER_MODE_CHANGED LOG_LEVEL_INFO LOG_MOD_SYSTEM 502 (Some "power mode");
  mk_bridge DP_WRITTEN LOG_LEVEL_DEBUG LOG_MOD_SYSTEM 503 (Some "dp write");
  mk_bridge TASK_STARTED LOG_LEVEL_DEBUG LOG_MOD_TASK 600 (Some "task started");
  mk_bridge TASK_STOPPED LOG_LEVEL_INFO LOG_MOD_TASK 601 (Some "task stopped");
  mk_bridge TASK_CYCLE_OVERRUN LOG_LEVEL_WARN LOG_MOD_TASK 602 (Some "cycle overrun");
  mk_bridge TASK_STACK_LOW LOG_LEVEL_WARN LOG_MOD_TASK 603 (Some "stack low")].

Definition map_find (eEvent : Z) : option bridge_map_t := List.find (λ m, event_code (bm_event m) =? eEvent) s_astMap.

(** ** The callback *)

(** The payload's decoding, one definition per case of the switch: the arguments
    and, for the updates, the text. *)
Definition payload_u8 (pvData : list Z) : res (list Z * option (list Z)) :=
  if 1 <=? zlen pvData then a ← array_get pvData 0; Ok ([u8 a], None) else Ok ([], None).

Definition payload_u32 (pvData : list Z) : res (list Z * option (list Z)) :=
  if 4 <=? zlen pvData then v ← array_read pvData 0 4; Ok ([i32 (le_get v)], None) else Ok ([], None).

Definition payload_version (pvData : list Z) : res (list Z * option (list Z)) :=
  if 0 <? zlen pvData then
    let n := if zlen pvData <? Z.of_nat LOG_MAX_TEXT - 1 then zlen pvData else Z.of_nat LOG_MAX_TEXT - 1 in
    v ← array_read pvData 0 n; t ← c_string (v ++ [0]); Ok ([], Some t)
  else Ok ([], None).

(** [evt_pump_state_t]. *)
Definition payload_pump_state (pvData : list Z) : res (list Z * option (list Z)) :=
  if 2 <=? zlen pvData then a ← array_get pvData 0; b ← array_get pvData 1; Ok ([u8 a; u8 b], None) else Ok ([], None).

(** [evt_ota_failed_t] and [evt_task_info_t]: a byte, and an [int] at offset 4. *)
Definition payload_info (pvData : list Z) : res (list Z * option (list Z)) :=
  if 8 <=? zlen pvData then a ← array_get pvData 0; v ← array_read pvData 4 4; Ok ([u8 a; i32 (le_get v)], None)
  else Ok ([], None).

Definition bridge_payload (b : bridged) : list Z → res (list Z * option (list Z)) :=
  match b with
  | SYSTEM_BOOT | WLAN_DISCONNECTED | PUMP_FAULT | NETWORK_CONFIG_SAVED | POWER_MODE_CHANGED | DP_WRITTEN => payload_u8
  | WLAN_CONNECTED | LOW_MEMORY => payload_u32
  | OTA_STARTED | OTA_APPLIED => payload_version
  | PUMP_STATE_CHANGED => payload_pump_state
  | OTA_FAILED | TASK_STARTED | TASK_STOPPED | TASK_CYCLE_OVERRUN | TASK_STACK_LOW => payload_info
  | _ => λ _, Ok ([], None)
  end.

(** [now]: the timer, for the record; the payload is empty for a null pointer. *)
Definition bridge_cb (c : log_core_t) (eEvent : Z) (pvData : list Z) (now : Z) : res (log_core_t * option log_record_t) :=
  match map_find eEvent with
  | None => Ok (c, None)
  | Some pstMap =>
      if negb (logging_is_enabled_fast c (bm_level pstMap)) then Ok (c, None) else
      r ← bridge_payload (bm_event pstMap) pvData;
      let '(args, text) := r in
      let aslArgs := args ++ replicate (4 - length args) 0 in
      let pstrText := match text with Some t => Some t | None => cstr <$> bm_text pstMap end in
      logging_emit c (bm_level pstMap) (bm_module pstMap) (bm_log_event pstMap) (Some aslArgs) (zlen args) pstrText now
  end.

(** [bridge]: the function pointer under which it subscribes. *)
Definition logging_bridge_subscribe_events {C} `{EqDecision C} (bridge : C) (s : event_manager C) : res (event_manager C) :=
  foldl (λ r m, s ← r; r' ← event_manager_subscribe s (event_code (bm_event m)) (Some bridge); Ok r'.2) (Ok s) s_astMap.

(** ** The capture of ESP-IDF's lines *)

Fixpoint strchr (c : Z) (s : list Z) : option (list Z) :=
  match s with
  | [] => None
  | x :: r => if x =? c then Some s else strchr c r
  end.

(** The text behind the lead-in, without the line ends. *)
Definition line_text (strLine : list Z) : list Z :=
  let pstrMsg := match strchr 41 strLine with Some (_ :: 32 :: r) => r | _ => strLine end in
  (fix strip (s : list Z) : list Z :=
     match s with
     | [] => []
     | x :: r => if (x =? 10) || (x =? 13) then strip r else s
     end) (rev pstrMsg).

(** [fmt]: the format; [line]: the text it yields. *)
Definition esp_log_capture (c : log_core_t) (fmt line : list Z) (now : Z) : res (log_core_t * option log_record_t) :=
  let level := match fmt with
               | 69 :: _ => Some LOG_LEVEL_ERROR
               | 87 :: _ => Some LOG_LEVEL_WARN
               | _ => None
               end in
  match level with
  | None => Ok (c, None)
  | Some eLevel =>
      if negb (logging_is_enabled_fast c eLevel) then Ok (c, None) else
      let strLine := take (LOG_MAX_TEXT - 1) line in
      match line_text strLine with
      | [] => Ok (c, None)
      | t => logging_emit c eLevel LOG_MOD_IDF LOG_EVT_IDF_LINE None 0 (Some (rev t)) now
      end
  end.

(** ** One record per call *)

Lemma u8_i32 z : is_i32 (u8 z).
Proof. pose proof (u8_range z). unfold is_i32, is_u8 in *. lia. Qed.

Lemma i32_i32 z : is_i32 (i32 z).
Proof.
  unfold is_i32, i32, signed_of. pose proof (Z.mod_pos_bound z 4294967296 ltac:(lia)).
  change (4294967296 / 2) with 2147483648. case_bool; lia.
Qed.

Lemma c_string_nul v : Forall is_u8 v → ∃ t, c_string (v ++ [0]) = Ok t ∧ Forall (λ c, is_u8 c ∧ c ≠ 0) t.
Proof.
  induction 1 as [|x v Hx _ (t & E & Ht)]; cbn [app c_string]; [by exists []|].
  destruct (Z.eqb_spec x 0); [by exists []|]. rewrite E. exists (x :: t). split; [done|by constructor].
Qed.

(** The decoding stays inside the payload, whatever its length. *)
Definition decodes (r : res (list Z * option (list Z))) : Prop :=
  ∃ args text, r = Ok (args, text) ∧ (length args <= 2)%nat ∧ Forall is_i32 args ∧
    ∀ t, text = Some t → Forall (λ c, is_u8 c ∧ c ≠ 0) t.

Lemma decodes_none : decodes (Ok ([], None)).
Proof. exists [], None. split_and!; [done|cbn; lia|constructor|done]. Qed.

Lemma decodes_args args : (length args <= 2)%nat → Forall is_i32 args → decodes (Ok (args, None)).
Proof. exists args, None. by split_and!. Qed.

Lemma get_in (d : list Z) i : 0 <= i < zlen d → ∃ x, array_get d i = Ok x.
Proof. intros Hi. pose proof (safe_array_get d i Hi) as H. destruct (array_get d i); try done. by eexists. Qed.

Lemma read_in d i n : Forall is_u8 d → 0 <= i → 0 <= n → i + n <= zlen d → ∃ v, array_read d i n = Ok v ∧ Forall is_u8 v.
Proof. intros Hd ? ? ?. rewrite array_read_ok by done. eexists. split; [done|]. by apply Forall_take, Forall_drop. Qed.

Lemma u8_decodes d : decodes (payload_u8 d).
Proof.
  unfold payload_u8. case_bool; [|apply decodes_none]. destruct (get_in d 0) as (x & ->); [lia|].
  apply decodes_args; [cbn; lia|]. apply Forall_singleton, u8_i32.
Qed.

Lemma u32_decodes d : Forall is_u8 d → decodes (payload_u32 d).
Proof.
  intros Hd. unfold payload_u32. case_bool; [|apply decodes_none]. destruct (read_in d 0 4) as (v & -> & _); [done|lia..|].
  apply decodes_args; [cbn; lia|]. apply Forall_singleton, i32_i32.
Qed.

Lemma version_decodes d : Forall is_u8 d → decodes (payload_version d).
Proof.
  intros Hd. unfold payload_version. destruct (Z.ltb_spec 0 (zlen d)); [|apply decodes_none].
  change (Z.of_nat LOG_MAX_TEXT - 1) with 47. cbn zeta.
  destruct (read_in d 0 (if zlen d <? 47 then zlen d else 47)) as (v & -> & Hv); [done|lia|case_bool; lia..|].
  cbn [mbind res_bind]. destruct (c_string_nul v Hv) as (t & -> & Ht). exists [], (Some t).
  split_and!; [done|cbn; lia|constructor|by intros ? [= <-]].
Qed.

Lemma pump_state_decodes d : decodes (payload_pump_state d).
Proof.
  unfold payload_pump_state. case_bool; [|apply decodes_none]. destruct (get_in d 0) as (x & ->); [lia|].
  destruct (get_in d 1) as (y & ->); [lia|]. apply decodes_args; [cbn; lia|].
  repeat (apply Forall_cons; split; [apply u8_i32|]). constructor.
Qed.

Lemma info_decodes d : Forall is_u8 d → decodes (payload_info d).
Proof.
  intros Hd. unfold payload_info. case_bool; [|apply decodes_none]. destruct (get_in d 0) as (x & ->); [lia|].
  destruct (read_in d 4 4) as (v & -> & _); [done|lia..|]. apply decodes_args; [cbn; lia|].
  apply Forall_cons; split; [apply u8_i32|]. apply Forall_singleton, i32_i32.
Qed.

Lemma payload_ok b d : Forall is_u8 d → decodes (bridge_payload b d).
Proof.
  intros Hd. destruct b; first [apply u8_decodes|by apply u32_decodes|by apply version_decodes|apply pump_state_decodes|
    by apply info_decodes|apply decodes_none].
Qed.

(** The operation on the core that a call of the callback amounts to. *)
Definition bridge_op (m : bridge_map_t) (d : list Z) (now : Z) : option log_op :=
  match bridge_payload (bm_event m) d with
  | Ok (args, text) =>
      Some (OpEmit (bm_level m) (bm_module m) (bm_log_event m) (Some (args ++ replicate (4 - length args) 0)) (zlen args)
              (match text with Some t => Some t | None => cstr <$> bm_text m end) now)
  | _ => None
  end.

(** The rows are well formed, found under their event, and have numbers of their own. *)
Definition row_ok (m : bridge_map_t) : bool :=
  (1 <=? bm_level m) && (bm_level m <=? 5) && (0 <=? bm_module m) && (bm_module m <? 256) && (0 <=? bm_log_event m) &&
  (bm_log_event m <? 65536) &&
  forallb (λ c, (1 <=? c) && (c <? 256)) (default [] (cstr <$> bm_text m)) &&
  (length (default [] (cstr <$> bm_text m)) <=? 47)%nat &&
  match map_find (event_code (bm_event m)) with Some m' => bm_log_event m' =? bm_log_event m | None => false end &&
  event_valid (event_code (bm_event m)).

Lemma rows_are_ok : forallb row_ok s_astMap = true.
Proof. vm_compute. reflexivity. Qed.

Lemma log_events_differ : NoDup (bm_log_event <$> s_astMap).
Proof. apply (bool_decide_unpack _). vm_compute. exact I. Qed.

Lemma map_find_in e m : map_find e = Some m → m ∈ s_astMap ∧ event_code (bm_event m) = e.
Proof. unfold map_find. intros [H1 H2%Z.eqb_eq]%List.find_some. by rewrite list_elem_of_In. Qed.

Lemma row_unique m m' : m ∈ s_astMap → m' ∈ s_astMap → bm_log_event m = bm_log_event m' → m = m'.
Proof.
  intros [i Hi]%list_elem_of_lookup [j Hj]%list_elem_of_lookup Heq.
  assert (i = j) as <-; [|congruence]. apply (NoDup_lookup _ _ _ (bm_log_event m) log_events_differ).
  - by rewrite list_lookup_fmap, Hi.
  - by rewrite list_lookup_fmap, Hj, Heq.
Qed.

Record row_facts (m : bridge_map_t) : Prop := {
  rw_level : 1 <= bm_level m <= 5;
  rw_module : is_u8 (bm_module m);
  rw_event : is_u16 (bm_log_event m);
  rw_text : Forall (λ c, is_u8 c ∧ c ≠ 0) (default [] (cstr <$> bm_text m));
  rw_len : (length (default [] (cstr <$> bm_text m)) <= 47)%nat;
  rw_find : map_find (event_code (bm_event m)) = Some m;
  rw_valid : event_valid (event_code (bm_event m)) = true
}.

Lemma row_spec m : m ∈ s_astMap → row_facts m.
Proof.
  intros Hm. pose proof rows_are_ok as H. rewrite forallb_forall in H. specialize (H m (proj1 (list_elem_of_In _ _) Hm)).
  unfold row_ok in H. repeat (apply andb_prop in H as [H ?]).
  repeat match goal with h : (_ <=? _) = true |- _ => apply Z.leb_le in h | h : (_ <? _) = true |- _ => apply Z.ltb_lt in h end.
  destruct (map_find (event_code (bm_event m))) as [m'|] eqn:Ef; [|done].
  split; unfold is_u8, is_u16; try lia; try done.
  - apply Forall_forall. intros c Hc%list_elem_of_In.
    match goal with h : forallb _ _ = true |- _ => rewrite forallb_forall in h; specialize (h c Hc); apply andb_prop in h as [?%Z.leb_le ?%Z.ltb_lt] end. lia.
  - by apply Nat.leb_le.
  - rewrite Ef. f_equal. apply map_find_in in Ef as [Hm' _]. apply row_unique; [done|done|by apply Z.eqb_eq].
Qed.

Lemma bridge_op_ok m d now :
  m ∈ s_astMap → Forall is_u8 d → ∃ op, bridge_op m d now = Some op ∧ op_wf op.
Proof.
  intros Hm Hd. destruct (row_spec m Hm) as [_ Hmod Hev Ht _ _]. unfold bridge_op.
  destruct (payload_ok (bm_event m) d Hd) as (args & text & -> & Hl & Ha & Htext). eexists. split; [reflexivity|]. cbn [op_wf].
  split_and!; [done|done|unfold is_u8, zlen; lia| |].
  - intros l [= <-]. split.
    + unfold zlen. rewrite length_app, length_replicate. lia.
    + apply Forall_app_2; [done|]. apply Forall_replicate. unfold is_i32. lia.
  - intros t. destruct text as [t'|]; [intros [= <-]; by apply Htext|]. intros Et. rewrite Et in Ht. done.
Qed.

(** A call is that operation. *)
Lemma bridge_cb_step c e d now :
  Forall is_u8 d → match map_find e with
  | Some m => ∃ op, bridge_op m d now = Some op ∧ op_wf op ∧ (p ← bridge_cb c e d now; Ok p.1) = log_step c op
  | None => bridge_cb c e d now = Ok (c, None)
  end.
Proof.
  intros Hd. unfold bridge_cb. destruct (map_find e) as [m|] eqn:Ef; [|done]. apply map_find_in in Ef as [Hm _].
  destruct (bridge_op_ok m d now Hm Hd) as (op & Eo & Hw). exists op. split; [done|]. split; [done|].
  unfold bridge_op in Eo. destruct (bridge_payload (bm_event m) d) as [[args text]| |]; [|done..]. injection Eo as <-.
  cbn [log_step mbind res_bind]. destruct (logging_is_enabled_fast c (bm_level m)) eqn:Eg; cbn [negb]; [done|].
  unfold logging_emit. by rewrite Eg.
Qed.

(** ** The records of a run of the event manager *)

(** What identifies a record, apart from its number and time. *)
Definition content (x : log_entry) : Z * Z * Z * list Z * list Z :=
  (le_level x, le_module x, le_event x, le_args x, le_text x).

(** The record of an event with a payload. *)
Definition record_of (m : bridge_map_t) (d : list Z) : Z * Z * Z * list Z * list Z :=
  let '(args, text) := match bridge_payload (bm_event m) d with Ok r => r | _ => ([], None) end in
  (bm_level m, bm_module m, bm_log_event m, args,
   take 47 (match text with Some t => t | None => default [] (cstr <$> bm_text m) end)).

(** The payloads system_events.h documents, with what a reader should see. *)
Definition documented (b : bridged) (d args : list Z) (text : option (list Z)) : Prop :=
  match b with
  | SYSTEM_BOOT | WLAN_DISCONNECTED | PUMP_FAULT | NETWORK_CONFIG_SAVED | POWER_MODE_CHANGED | DP_WRITTEN =>
      ∃ v, is_u8 v ∧ d = [v] ∧ args = [v] ∧ text = None
  | WLAN_CONNECTED | LOW_MEMORY => ∃ v, is_u32 v ∧ d = le_put 4 v ∧ args = [i32 v] ∧ text = None
  | OTA_STARTED | OTA_APPLIED =>
      ∃ t rest, d = t ++ 0 :: rest ∧ zlen d = 16 ∧ Forall (λ c, c ≠ 0) t ∧ args = [] ∧ text = Some t
  | PUMP_STATE_CHANGED => ∃ old new, is_u8 old ∧ is_u8 new ∧ d = [old; new] ∧ args = [old; new] ∧ text = None
  | OTA_FAILED | TASK_STARTED | TASK_STOPPED | TASK_CYCLE_OVERRUN | TASK_STACK_LOW =>
      ∃ a pad v, is_u8 a ∧ zlen pad = 3 ∧ is_i32 v ∧ d = a :: pad ++ le_put 4 (u32 v) ∧ args = [a; v] ∧ text = None
  | _ => d = [] ∧ args = [] ∧ text = None
  end.

Lemma le_get_put4 v : is_u32 v → le_get (le_put 4 v) = v.
Proof. intros Hv. rewrite le_get_put. change (256 ^ Z.of_nat 4) with 4294967296. by apply Z.mod_small. Qed.

Lemma u32_documented v : is_u32 v → payload_u32 (le_put 4 v) = Ok ([i32 v], None).
Proof.
  intros Hv. unfold payload_u32. change (zlen (le_put 4 v)) with 4. change (4 <=? 4) with true. cbn iota.
  rewrite (array_read_ok (le_put 4 v)) by (try done; lia).
  change (take (Z.to_nat 4) (drop (Z.to_nat 0) (le_put 4 v))) with (le_put 4 v). cbn [mbind res_bind].
  by rewrite le_get_put4.
Qed.

Lemma info_documented a p1 p2 p3 v :
  is_u8 a → is_i32 v → payload_info (a :: p1 :: p2 :: p3 :: le_put 4 (u32 v)) = Ok ([a; v], None).
Proof.
  intros Ha Hv. unfold payload_info. set (d := a :: p1 :: p2 :: p3 :: le_put 4 (u32 v)).
  change (zlen d) with 8. change (8 <=? 8) with true. cbn iota. change (array_get d 0) with (Ok a). cbn [mbind res_bind].
  rewrite (array_read_ok d) by (try done; change (Z.of_nat (length d)) with 8; lia).
  change (take (Z.to_nat 4) (drop (Z.to_nat 4) d)) with (le_put 4 (u32 v)). cbn [mbind res_bind].
  rewrite le_get_put4 by apply u32_range. by rewrite i32_u32, u8_id.
Qed.

Lemma version_documented t rest :
  zlen (t ++ 0 :: rest) = 16 → Forall (λ c, c ≠ 0) t → payload_version (t ++ 0 :: rest) = Ok ([], Some t).
Proof.
  intros Hl Ht. unfold payload_version. rewrite Hl. change (Z.of_nat LOG_MAX_TEXT - 1) with 47. cbn.
  rewrite (array_read_ok (t ++ 0 :: rest)) by (unfold zlen in Hl; lia). cbn [mbind res_bind].
  rewrite (take_ge (drop _ _)) by (unfold zlen in Hl; rewrite length_drop; lia). change (Z.to_nat 0) with 0%nat.
  rewrite drop_0, <- app_assoc. cbn [app]. by rewrite c_string_app.
Qed.

Lemma payload_documented b d args text : documented b d args text → bridge_payload b d = Ok (args, text).
Proof.
  assert (Hu8 : ∀ v, is_u8 v → payload_u8 [v] = Ok ([v], None)).
  { intros v Hv. unfold payload_u8. change (Ok ([u8 v], None) = Ok ([v], None (A := list Z))). by rewrite u8_id. }
  assert (Hps : ∀ x y, is_u8 x → is_u8 y → payload_pump_state [x; y] = Ok ([x; y], None)).
  { intros x y Hx Hy. change (Ok ([u8 x; u8 y], None) = Ok ([x; y], None (A := list Z))). by rewrite !u8_id. }
  assert (Hinfo : ∀ a pad v, is_u8 a → zlen pad = 3 → is_i32 v → payload_info (a :: pad ++ le_put 4 (u32 v)) = Ok ([a; v], None)).
  { intros a pad v Ha Hp Hv. destruct pad as [|p1 [|p2 [|p3 [|]]]]; unfold zlen in Hp; cbn [length] in Hp; try lia. by apply info_documented. }
  destruct b; cbn [documented bridge_payload]; first
    [ intros (v & Hv & -> & -> & ->); by first [apply Hu8|apply u32_documented]
    | intros (x & y & Hx & Hy & -> & -> & ->); by apply Hps
    | intros (a & pad & v & Ha & Hp & Hv & -> & -> & ->); by apply Hinfo
    | intros (t & rest & -> & Hl & Ht & -> & ->); by apply version_documented
    | by intros (-> & -> & ->) ].
Qed.

Lemma stored_prefix args : (length args <= 2)%nat →
  stored_args (op_input 0 0 0 (Some (args ++ replicate (4 - length args) 0)) (zlen args) None 0) = args.
Proof.
  intros Hl. unfold stored_args, clamped_argc, op_input, LOG_MAX_ARGS. cbn. ring_consts.
  destruct (Z.ltb_spec 4 (zlen args)) as [H|_]; [unfold zlen in H; lia|].
  destruct (Z.ltb_spec 4 (zlen args)) as [H|_]; [unfold zlen in H; lia|].
  unfold zlen. rewrite Nat2Z.id. by rewrite take_app_length.
Qed.

(** With the gate open an operation of the bridge appends its record. *)
Lemma bridge_step_spec m d now op s :
  m ∈ s_astMap → Forall is_u8 d → bridge_op m d now = Some op → sp_enabled s = true → sp_level s = LOG_LEVEL_TRACE →
  ∃ x, sp_hist (spec_step s op) = sp_hist s ++ [x] ∧ content x = record_of m d ∧ le_event x = bm_log_event m ∧
    sp_enabled (spec_step s op) = true ∧ sp_level (spec_step s op) = LOG_LEVEL_TRACE.
Proof.
  intros Hm Hd Eo Hen Hlv. destruct (row_spec m Hm) as [Hl Hmod Hev _ _ _ _]. unfold bridge_op, record_of in *.
  destruct (payload_ok (bm_event m) d Hd) as (args & text & E & Hargs & _ & _). rewrite E in *. injection Eo as <-.
  cbn [spec_step]. unfold LOG_LEVEL_TRACE in *. rewrite Hen, Hlv, (u8_id (bm_level m)) by (unfold is_u8; lia).
  destruct (Z.eqb_spec (bm_level m) 0); [lia|]. destruct (Z.leb_spec (bm_level m) 5); [|lia]. cbn [andb negb].
  eexists. split; [cbn [sp_hist]; reflexivity|]. split_and!; [|done|done|done].
  unfold content, entry_of. cbn [le_level le_module le_event le_args le_text op_input li_level li_module li_event li_text].
  rewrite u8_id by (unfold is_u8; lia). f_equal; [f_equal|].
  - exact (stored_prefix args Hargs).
  - change (Z.to_nat LOG_RING_MAX_TEXT) with 47%nat. by destruct text as [t|], (bm_text m).
Qed.

Section bridge.
Context {C : Type} `{EqDecision C}.
Variable bridge : C.

(** The calls of the bridge in a trace, and the core after them, each at its time. *)
Definition bridge_call (o : @em_out C) : option (Z * list Z) :=
  match o with OCalled f e d => if decide (f = bridge) then Some (e, d) else None | _ => None end.
Definition bridge_calls (tr : list (@em_op C * list (@em_out C))) : list (Z * list Z) :=
  flat_map (λ x, omap bridge_call x.2) tr.

Fixpoint bridge_run (c : log_core_t) (calls : list (Z * list Z * Z)) : res log_core_t :=
  match calls with
  | [] => Ok c
  | (e, d, now) :: calls => r ← bridge_cb c e d now; bridge_run r.1 calls
  end.

Fixpoint bridge_spec (s : log_spec) (calls : list (Z * list Z * Z)) : log_spec :=
  match calls with
  | [] => s
  | (e, d, now) :: calls =>
      bridge_spec (match map_find e with
                   | Some m => match bridge_op m d now with Some op => spec_step s op | None => s end
                   | None => s
                   end) calls
  end.

(** The payloads the bridge saw for one event. *)
Definition payloads (e : Z) (calls : list (Z * list Z)) : list (list Z) :=
  omap (λ x, if decide (x.1 = e) then Some x.2 else None) calls.

Lemma payloads_calls e tr : payloads e (bridge_calls tr) = calls_for bridge e tr.
Proof.
  unfold payloads, bridge_calls, calls_for. induction tr as [|[op o] tr IH]; [done|]. cbn [flat_map snd].
  rewrite omap_app, IH. f_equal. clear. induction o as [|[err|f e' d] o IH]; [done|exact IH|].
  cbn [omap list_omap bridge_call call_of]. destruct (decide (f = bridge)) as [->|Hf].
  - cbn [omap list_omap fst snd]. destruct (decide (e' = e)) as [->|Hne].
    + rewrite decide_True by done. f_equal. exact IH.
    + rewrite decide_False by naive_solver. exact IH.
  - rewrite decide_False by naive_solver. exact IH.
Qed.

(** The core follows the specification, and the new records of an event are those
    of its payloads. *)
Lemma bridge_run_spec calls : ∀ c s,
  core_repr c s → sp_enabled s = true → sp_level s = LOG_LEVEL_TRACE → Forall (λ x, Forall is_u8 x.1.2) calls →
  ∃ c' new, bridge_run c calls = Ok c' ∧ core_repr c' (bridge_spec s calls) ∧
    sp_hist (bridge_spec s calls) = sp_hist s ++ new ∧
    ∀ m, m ∈ s_astMap → content <$> filter (λ x, le_event x = bm_log_event m) new =
                        record_of m <$> payloads (event_code (bm_event m)) calls.*1.
Proof.
  induction calls as [|[[e d] now] calls IH]; intros c s Hc Hen Hlv Hd; cbn [bridge_run bridge_spec].
  { exists c, []. split_and!; [done|done|by rewrite app_nil_r|done]. }
  apply Forall_cons in Hd as [Hd Hds]. cbn [fst snd] in Hd. pose proof (bridge_cb_step c e d now Hd) as Hstep.
  destruct (map_find e) as [m0|] eqn:Ef.
  - destruct Hstep as (op & Eo & Hw & Es). rewrite Eo. apply map_find_in in Ef as [Hm0 Hcode].
    destruct (log_step_spec c s op Hc Hw) as (c1 & E1 & Hc1 & _ & _). rewrite E1 in Es.
    destruct (bridge_cb c e d now) as [[c1' r]| |]; [|done..]. injection Es as ->. cbn [mbind res_bind fst].
    destruct (bridge_step_spec m0 d now op s Hm0 Hd Eo Hen Hlv) as (x & Eh & Hx & Hev & Hen' & Hlv').
    destruct (IH c1 _ Hc1 Hen' Hlv' Hds) as (c' & new & -> & Hc' & Ehist & Hnew). exists c', (x :: new).
    split_and!; [done|done|by rewrite Ehist, Eh, <- app_assoc|]. intros m Hm. specialize (Hnew m Hm). unfold payloads in *.
    cbn [fmap list_fmap omap list_omap fst snd]. destruct (decide (e = event_code (bm_event m))) as [He|He].
    + assert (m = m0) as ->.
      { destruct (row_spec m Hm) as [_ _ _ _ _ Hf _], (row_spec m0 Hm0) as [_ _ _ _ _ Hf0 _]. rewrite Hcode, He in Hf0. congruence. }
      rewrite filter_cons_True by done. cbn [fmap list_fmap]. by rewrite Hx, Hnew.
    + rewrite filter_cons_False; [done|]. rewrite Hev. intros Heq. apply He. rewrite <- Hcode. f_equal. f_equal. by apply row_unique.
  - rewrite Hstep. cbn [mbind res_bind fst]. destruct (IH c s Hc Hen Hlv Hds) as (c' & new & -> & Hc' & Ehist & Hnew).
    exists c', new. split_and!; [done|done|done|]. intros m Hm. rewrite (Hnew m Hm). f_equal. unfold payloads.
    cbn [fmap list_fmap omap list_omap fst snd]. rewrite decide_False; [done|]. intros ->.
    destruct (row_spec m Hm) as [_ _ _ _ _ Hf _]. congruence.
Qed.

(** Payloads are bytes: what is published, queued and about to be delivered. *)
Definition op_bytes (op : @em_op C) : Prop :=
  match op with OpPublish _ (Some d) _ _ => Forall is_u8 d | _ => True end.
Definition em_bytes (s : event_manager C) : Prop :=
  Forall (λ m, Forall is_u8 (ev_data m)) (em_queue s) ∧ Forall (λ x, Forall is_u8 (ev_data x.2)) (em_calls s).

Lemma publish_bytes s e data size now r :
  em_bytes s → op_bytes (OpPublish e data size now) → event_manager_publish s e data size now = Ok r → em_bytes r.2.
Proof.
  intros [Hq Hc] Hd. unfold event_manager_publish, message_prepare.
  destruct (negb (em_inited s)); [by intros [= <-]|]. destruct (negb (event_valid e)); [by intros [= <-]|].
  destruct (_ <? size); [by intros [= <-]|].
  assert (Hput : ∀ p, Forall is_u8 p → ∀ r, (if bool_decide (length (em_queue s) < EVENT_MANAGER_QUEUE_LENGTH)%nat
      then Ok (EM_OK, s <| em_queue := em_queue s ++ [mk_event e p now] |>)
      else Ok (EM_TIMEOUT, s <| em_drops := u32 (em_drops s + 1) |>)) = Ok r → em_bytes r.2).
  { intros p Hp r'. destruct (bool_decide _); intros [= <-]; [|done]. split; [|done]. cbn.
    apply Forall_app_2; [done|]. by apply Forall_singleton. }
  destruct data as [d|].
  - unfold array_read. destruct (decide _); [|done]. cbn [mbind res_bind]. apply Hput. by apply Forall_take, Forall_drop.
  - destruct (0 <? size); [by intros [= <-]|]. cbn [mbind res_bind]. apply Hput. constructor.
Qed.

Lemma step_bytes s op r :
  em_bytes s → op_bytes op → em_step s op = Ok r → em_bytes r.1 ∧ Forall (λ x, Forall is_u8 x.2) (omap bridge_call r.2).
Proof.
  intros Hb Ho H. destruct op as [q mx|cr|e data size now|e cb|e cb| |]; cbn [em_step] in H.
  - injection H as <-. unfold event_manager_init. destruct (em_inited s); [by split|]. destruct q, mx; cbn; (split; [|done]); try done.
    split; [constructor|apply Hb].
  - injection H as <-. unfold event_manager_start. destruct (negb _); [by split|]. destruct (em_started s); [by split|].
    by destruct (negb cr); split.
  - destruct (event_manager_publish s e data size now) as [r'| |] eqn:E; [|done..]. injection H as <-.
    split; [by eapply publish_bytes|done].
  - unfold event_manager_subscribe in H. destruct (negb (em_inited s)); [injection H as <-; by split|].
    destruct cb as [f|]; [|injection H as <-; by split]. destruct (negb (event_valid e)); [injection H as <-; by split|].
    cbn zeta in H. destruct (subs_find _ _); [injection H as <-; by split|]. destruct (bool_decide _); [injection H as <-; by split|].
    destruct (array_set _ _ _); [|done..]. injection H as <-. by split.
  - unfold event_manager_unsubscribe in H. destruct (negb (em_inited s)); [injection H as <-; by split|].
    destruct cb as [f|]; [|injection H as <-; by split]. destruct (negb (event_valid e)); [injection H as <-; by split|].
    cbn zeta in H. destruct (subs_find _ _); [|injection H as <-; by split].
    destruct (shift_down _ _ _) as [a| |]; [|done..]. cbn [mbind res_bind] in H. destruct (array_set _ _ _); [|done..].
    injection H as <-. by split.
  - injection H as <-. split; [|done]. cbn [fst]. unfold dispatch_take. destruct (em_calls s) eqn:Ec; [|by destruct (em_queue s)].
    destruct (em_queue s) as [|msg q] eqn:Eq; [done|]. destruct (em_started s); [|done]. destruct Hb as [Hq _]. rewrite Eq in Hq.
    apply Forall_cons in Hq as [Hm Hq]. split; [done|]. cbn. apply Forall_fmap. by apply Forall_true.
  - unfold dispatch_call in H. destruct (em_calls s) as [|[f msg] calls] eqn:Ec; injection H as <-; [by split|].
    destruct Hb as [Hq Hc]. rewrite Ec in Hc. apply Forall_cons in Hc as [Hm Hc]. split; [by split|]. cbn.
    destruct (decide (f = bridge)); by repeat constructor.
Qed.

Lemma run_bytes ops : ∀ s r,
  em_bytes s → Forall op_bytes ops → em_run s ops = Ok r → Forall (λ x, Forall is_u8 x.2) (bridge_calls r.2).
Proof.
  induction ops as [|op ops IH]; intros s r Hb Ho H; cbn [em_run] in H; [injection H as <-; constructor|].
  destruct (em_step s op) as [[s1 o1]| |] eqn:E1; [|done..]. cbn [mbind res_bind fst snd] in H.
  destruct (em_run s1 ops) as [[s2 tr]| |] eqn:E2; [|done..]. injection H as <-. apply Forall_cons in Ho as [Ho Hos].
  destruct (step_bytes _ _ _ Hb Ho E1) as [Hb1 Hc1]. unfold bridge_calls. cbn [flat_map snd].
  apply Forall_app_2; [exact Hc1|]. exact (IH s1 (s2, tr) Hb1 Hos E2).
Qed.

(** ** Subscribing *)

Lemma subscribe_frame (s : event_manager C) e cb r :
  event_manager_subscribe s e cb = Ok r →
  em_inited r.2 = em_inited s ∧ em_queue r.2 = em_queue s ∧ em_calls r.2 = em_calls s.
Proof.
  unfold event_manager_subscribe. destruct (negb (em_inited s)); [by intros [= <-]|]. destruct cb as [f|]; [|by intros [= <-]].
  destruct (negb (event_valid e)); [by intros [= <-]|]. cbn zeta. destruct (subs_find _ _); [by intros [= <-]|].
  destruct (bool_decide _); [by intros [= <-]|]. destruct (array_set _ _ _); [|done..]. by intros [= <-].
Qed.

(** With a place left in every list, the bridge gets all of its subscriptions. *)
Lemma bridge_subscribes (s : event_manager C) :
  em_wf s → em_inited s = true →
  (∀ m, m ∈ s_astMap → (length (subscribers s (event_code (bm_event m))) < EVENT_MANAGER_MAX_SUBSCRIBERS)%nat) →
  ∃ s', logging_bridge_subscribe_events bridge s = Ok s' ∧ em_wf s' ∧ em_inited s' = true ∧
    em_queue s' = em_queue s ∧ em_calls s' = em_calls s ∧
    ∀ m, m ∈ s_astMap → bridge ∈ subscribers s' (event_code (bm_event m)).
Proof.
  intros Hw Hi Hroom.
  assert (Hvalid : ∀ m, m ∈ s_astMap → event_valid (event_code (bm_event m)) = true) by (intros m Hm; apply (row_spec m Hm)).
  assert (Hnd : NoDup ((λ m, event_code (bm_event m)) <$> s_astMap)) by (apply (bool_decide_unpack _); vm_compute; exact I).
  enough (∃ s', logging_bridge_subscribe_events bridge s = Ok s' ∧ em_wf s' ∧ em_inited s' = true ∧
    em_queue s' = em_queue s ∧ em_calls s' = em_calls s ∧
    (∀ m, m ∈ s_astMap → bridge ∈ subscribers s' (event_code (bm_event m))) ∧
    ∀ e, event_valid e = true → e ∉ (λ m, event_code (bm_event m)) <$> s_astMap → subscribers s' e = subscribers s e)
    as (s' & ? & ? & ? & ? & ? & ? & _) by (by exists s').
  unfold logging_bridge_subscribe_events. revert s Hw Hi Hroom Hvalid Hnd. generalize s_astMap as rows.
  induction rows as [|m rows IH]; intros s Hw Hi Hroom Hvalid Hnd; cbn [foldl].
  { exists s. split_and!; try done. by intros m ?%not_elem_of_nil. }
  cbn [fmap list_fmap] in Hnd. apply NoDup_cons in Hnd as [Hm Hnd]. cbn [mbind res_bind].
  set (e := event_code (bm_event m)) in *.
  assert (Hve : event_valid e = true) by (apply Hvalid; by left).
  destruct (subscribe_refines s e bridge Hw Hi Hve) as (s1 & E & Hw1 & Hs1).
  rewrite E. cbn [mbind res_bind snd]. destruct (subscribe_frame _ _ _ _ E) as (Hi1 & Hq1 & Hc1). cbn [snd] in *.
  assert (Hother : ∀ e', event_valid e' = true → e' ≠ e → subscribers s1 e' = subscribers s e').
  { intros e' He' Hne. rewrite Hs1 by done. by rewrite decide_False by naive_solver. }
  assert (Hrow : ∀ m', m' ∈ rows → event_code (bm_event m') ≠ e).
  { intros m' Hm' Heq. apply Hm. rewrite <- Heq. apply list_elem_of_fmap. by exists m'. }
  destruct (IH s1 Hw1 ltac:(congruence)) as (s2 & -> & Hw2 & Hi2 & Hq2 & Hc2 & Hs2 & Ho2).
  - intros m' Hm'. rewrite Hother by (auto || (apply Hvalid; by right)). apply Hroom. by right.
  - intros m' Hm'. apply Hvalid. by right.
  - done.
  - exists s2. split_and!; [done|done|done|congruence|congruence| |].
    + intros m' [->|Hm']%elem_of_cons; [|by apply Hs2]. fold e. rewrite Ho2 by done. rewrite Hs1 by done.
      pose proof (Hroom m ltac:(by left)) as Hlt. fold e in Hlt.
      match goal with |- context [if decide ?P then _ else _] => destruct (decide P) as [Hd|Hd] end; [apply elem_of_app; right; by apply list_elem_of_singleton|].
      destruct (decide (bridge ∈ subscribers s e)); [done|]. by destruct Hd.
    + intros e' He' Hn. cbn [fmap list_fmap] in Hn. apply not_elem_of_cons in Hn as [Hne Hn]. rewrite Ho2 by done. by apply Hother.
Qed.

(** C37: Selected events become records.  Let the bridge be subscribed to the events
    of its table and stay so, and the logging gate be open.  Then, whatever is
    published and whoever subscribes meanwhile, the bridge ends normally on every
    call (no payload leads it outside its memory), the core keeps representing the
    accepted records, and for every event of the table the new records are, one for
    one and in order, those of its accepted publications, with the level, module,
    number and text of the table and the arguments decoded from the payload (those
    of system_events.h, where it is one of the documented payloads), except for
    publications still on their way. *)
Theorem published_events_are_logged s ops c sp :
  em_wf s → em_inited s = true → em_bytes s →
  (∀ m, m ∈ s_astMap → bridge ∈ subscribers s (event_code (bm_event m))) →
  (∀ e, OpUnsubscribe e (Some bridge) ∉ ops) → Forall op_ok ops → Forall op_bytes ops →
  core_repr c sp → sp_enabled sp = true → sp_level sp = LOG_LEVEL_TRACE →
  ∃ s' tr, em_run s ops = Ok (s', tr) ∧ tr.*1 = ops ∧
    ∀ nows, length nows = length (bridge_calls tr) →
      let calls := zip (bridge_calls tr) nows in
      ∃ c' new, bridge_run c calls = Ok c' ∧ core_repr c' (bridge_spec sp calls) ∧
        sp_hist (bridge_spec sp calls) = sp_hist sp ++ new ∧
        ∀ m, m ∈ s_astMap → let e := event_code (bm_event m) in
          ∃ delivered, delivered ++ on_way bridge e s' = on_way bridge e s ++ publications e tr ∧
            content <$> filter (λ x, le_event x = bm_log_event m) new = record_of m <$> delivered ∧
            ∀ d args text, d ∈ delivered → documented (bm_event m) d args text →
              record_of m d = (bm_level m, bm_module m, bm_log_event m, args,
                               take 47 (default (default [] (cstr <$> bm_text m)) text)).
Proof.
  intros Hw Hi Hb Hsub Hno Hok Hbytes Hc Hen Hlv.
  assert (Hin0 : mk_bridge SYSTEM_BOOT LOG_LEVEL_INFO LOG_MOD_SYSTEM 100 (Some "boot") ∈ s_astMap) by (by left).
  pose proof (λ m Hm, delivered_run s ops (event_code (bm_event m)) bridge Hw Hi (rw_valid m (row_spec m Hm)) (Hsub m Hm) (Hno _) Hok) as Hdel.
  destruct (Hdel _ Hin0) as (s' & tr & E & _ & Htr & _). exists s', tr. split; [done|]. split; [done|].
  intros nows Hlen calls. pose proof (run_bytes ops s (s', tr) Hb Hbytes E) as Hcb. cbn [snd] in Hcb.
  assert (calls.*1 = bridge_calls tr) as Hfst by (apply fst_zip; lia).
  destruct (bridge_run_spec calls c sp Hc Hen Hlv) as (c' & new & Er & Hc' & Eh & Hnew).
  { rewrite <- Hfst in Hcb. clear - Hcb. induction calls as [|x calls IH]; [constructor|].
    apply Forall_cons in Hcb as [? ?]. constructor; auto. }
  exists c', new. do 3 (split; [done|]). intros m Hm e. exists (calls_for bridge e tr).
  destruct (Hdel m Hm) as (s2 & tr2 & E2 & _ & _ & Heq). rewrite E in E2. injection E2 as <- <-. split; [exact Heq|].
  split; [rewrite (Hnew m Hm), Hfst; by rewrite payloads_calls|].
  intros d args text _ Hdoc%payload_documented. unfold record_of. by rewrite Hdoc.
Qed.
End bridge.

(** ** An execution *)

(** The manager after its start and the bridge's subscriptions. *)
Definition bridge_ready : event_manager Z :=
  let s := (event_manager_start (event_manager_init em_zero true true).2 true).2 in
  match logging_bridge_subscribe_events 7 s with Ok s => s | _ => s end.

Lemma bridge_ready_spec :
  em_wf bridge_ready ∧ em_inited bridge_ready = true ∧ em_bytes bridge_ready ∧
  ∀ m, m ∈ s_astMap → 7 ∈ subscribers bridge_ready (event_code (bm_event m)).
Proof.
  set (s := (event_manager_start (event_manager_init (em_zero (C := Z)) true true).2 true).2).
  destruct (bridge_subscribes 7 s) as (s' & E & Hw & Hi & Hq & Hc & Hs).
  - split_and!; [reflexivity| |cbn; lia]. intros l [-> _]%elem_of_replicate. exists []. apply subs_zero_wf.
  - reflexivity.
  - assert (forallb (λ m, (length (subscribers s (event_code (bm_event m))) <? EVENT_MANAGER_MAX_SUBSCRIBERS)%nat) s_astMap = true) as H
      by (vm_compute; reflexivity).
    rewrite forallb_forall in H. intros m Hm%list_elem_of_In%H. by apply Nat.ltb_lt.
  - unfold bridge_ready. fold s. rewrite E. split_and!; [done|done| |done]. split; [by rewrite Hq|by rewrite Hc].
Qed.

(** A fault with its code, an event the table does not name, a task report. *)
Definition bridge_demo : list (@em_op Z) :=
  [OpPublish 12 (Some [3]) 1 0; OpPublish EVT_MONITOR_TICK None 0 0; OpTake; OpCall; OpTake; OpTake;
   OpPublish 20 (Some [2; 0; 0; 0; 44; 1; 0; 0]) 8 5; OpTake; OpCall].

Definition bridge_core : log_core_t :=
  logging_set_runtime_level (logging_init_early 1 (replicate (Z.to_nat LOG_RING_BYTES) 0)) LOG_LEVEL_TRACE.

Definition bridge_sp : log_spec := spec_step spec_init (OpLevel LOG_LEVEL_TRACE).

Lemma open_core_repr buf :
  zlen buf = LOG_RING_BYTES → core_repr (logging_set_runtime_level (logging_init_early 1 buf) LOG_LEVEL_TRACE) bridge_sp.
Proof.
  intros Hb. destruct (log_step_spec (logging_init_early 1 buf) spec_init (OpLevel LOG_LEVEL_TRACE)) as (c & E & Hc & _); [|done|].
  - by apply core_init.
  - cbn [log_step] in E. injection E as <-. exact Hc.
Qed.

Lemma bridge_core_repr : core_repr bridge_core bridge_sp.
Proof. apply open_core_repr. unfold zlen. by rewrite length_replicate, Z2Nat.id. Qed.

Lemma published_events_are_logged_witness :
  ∃ s' tr, em_run bridge_ready bridge_demo = Ok (s', tr) ∧ tr.*1 = bridge_demo ∧
    ∀ nows, length nows = length (bridge_calls 7 tr) →
      let calls := zip (bridge_calls 7 tr) nows in
      ∃ c' new, bridge_run bridge_core calls = Ok c' ∧ core_repr c' (bridge_spec bridge_sp calls) ∧
        sp_hist (bridge_spec bridge_sp calls) = sp_hist bridge_sp ++ new ∧
        ∀ m, m ∈ s_astMap → let e := event_code (bm_event m) in
          ∃ delivered, delivered ++ on_way 7 e s' = on_way 7 e bridge_ready ++ publications e tr ∧
            content <$> filter (λ x, le_event x = bm_log_event m) new = record_of m <$> delivered ∧
            ∀ d args text, d ∈ delivered → documented (bm_event m) d args text →
              record_of m d = (bm_level m, bm_module m, bm_log_event m, args,
                               take 47 (default (default [] (cstr <$> bm_text m)) text)).
Proof.
  apply (published_events_are_logged 7 bridge_ready bridge_demo bridge_core bridge_sp).
  - apply bridge_ready_spec.
  - apply bridge_ready_spec.
  - apply bridge_ready_spec.
  - apply bridge_ready_spec.
  - intros e Hin%list_elem_of_In. vm_compute in Hin. repeat destruct Hin as [Hin|Hin]; discriminate Hin || exact Hin.
  - repeat (apply Forall_cons; split); try apply Forall_nil; try exact I; cbn; unfold zlen; cbn; lia.
  - repeat (apply Forall_cons; split); try apply Forall_nil; try exact I; cbn; repeat (apply Forall_cons; split); try apply Forall_nil;
      unfold is_u8; lia.
  - apply bridge_core_repr.
  - reflexivity.
  - reflexivity.
Defined.

(** The two records of the demonstration. *)
Example bridge_demo_records :
  match em_run bridge_ready bridge_demo with
  | Ok (_, tr) => content <$> sp_hist (bridge_spec bridge_sp (zip (bridge_calls 7 tr) [100; 200]))
  | _ => []
  end = [(1, 3, 401, [3], cstr "pump fault"); (2, 6, 602, [2; 300], cstr "cycle overrun")].
Proof. vm_compute. reflexivity. Qed.

(** A warning of ESP-IDF, without its lead-in and line end. *)
Example esp_log_line :
  rev (line_text (cstr "W (123) wifi: gone" ++ [10])) = cstr "wifi: gone".
Proof. reflexivity. Qed.

(** The lead-in is found by its parenthesis: a line without one loses what stands
    before the first parenthesis of its text. *)
Example esp_log_parenthesis :
  rev (line_text (cstr "E tls: read (-76) failed")) = cstr "failed".
Proof. reflexivity. Qed.
