(* ===== verification/FactoryConfig.v ===== *)
(** * The unit's identity: [factory_config.c] and what it configures

    Models src/src/components/factory_config/factory_config.c and, from
    src/src/network/task_com.c, the configuration of the cloud session
    ([task_com_start], the TLS getters) with its callbacks.

    A [char] field is the text in it.  The factory partition is a record of its
    answers ([factory_part]); a read that fails leaves its buffer alone.

    [factory_identity_is_whole]: the five identity values come all from the
    partition or all from the compiled-in identity, and a client certificate never
    without its key.  [device_speaks_as_one]: the datapoints show its serial number,
    cloud and local session its serial number, device id, key id and key; the
    hardware revision of an unprovisioned unit differs ([legacy_unit_has_two_revisions]). *)

From S2P Require Import Prelude Bytes Float32 Float64 DpCatalog Datapoints DpProps PumpTaskProps NetworkConfig FpAuth FpSession FpTask LocalProtocol Command TaskCom WlanCom.
Local Open Scope string_scope.
Local Open Scope list_scope.
Local Open Scope Z_scope.

Definition FACTORY_STR_MAX : nat := 64.
Definition FACTORY_HOST_MAX : nat := 128.
Definition FACTORY_BEARER_MAX : nat := 96.
Definition FACTORY_KID_MAX : nat := 16.
Definition FACTORY_BATCH_MAX : nat := 32.
Definition FACTORY_DATE_MAX : nat := 16.
Definition FACTORY_PEM_MAX : nat := 3072.

Record factory_config_t := mk_factory {
  from_factory : bool;
  fa_serial : Z;
  fa_device_id : list Z;
  fa_hw_rev : list Z;
  fa_server_host : list Z;
  fa_server_port : Z;
  fa_bearer : list Z;
  fa_hmac_key : list Z;
  fa_hmac_kid : list Z;
  fa_batch : list Z;
  fa_prod_date : list Z;
  fa_client_cert : list Z;
  fa_client_key : list Z
}.
#[export] Instance eta_factory : Eta factory_config_t := λ r, mk_factory (from_factory r) (fa_serial r) (fa_device_id r)
      (fa_hw_rev r) (fa_server_host r) (fa_server_port r) (fa_bearer r) (fa_hmac_key r) (fa_hmac_kid r) (fa_batch r)
      (fa_prod_date r) (fa_client_cert r) (fa_client_key r).
#[export] Instance set_from_factory : Setter from_factory. Proof. mk_setter. Defined.
#[export] Instance set_fa_serial : Setter fa_serial. Proof. mk_setter. Defined.
#[export] Instance set_fa_device_id : Setter fa_device_id. Proof. mk_setter. Defined.
#[export] Instance set_fa_hw_rev : Setter fa_hw_rev. Proof. mk_setter. Defined.
#[export] Instance set_fa_server_host : Setter fa_server_host. Proof. mk_setter. Defined.
#[export] Instance set_fa_server_port : Setter fa_server_port. Proof. mk_setter. Defined.
#[export] Instance set_fa_bearer : Setter fa_bearer. Proof. mk_setter. Defined.
#[export] Instance set_fa_hmac_key : Setter fa_hmac_key. Proof. mk_setter. Defined.
#[export] Instance set_fa_hmac_kid : Setter fa_hmac_kid. Proof. mk_setter. Defined.
#[export] Instance set_fa_batch : Setter fa_batch. Proof. mk_setter. Defined.
#[export] Instance set_fa_prod_date : Setter fa_prod_date. Proof. mk_setter. Defined.
#[export] Instance set_fa_client_cert : Setter fa_client_cert. Proof. mk_setter. Defined.
#[export] Instance set_fa_client_key : Setter fa_client_key. Proof. mk_setter. Defined.

(** ** Reading the partition *)

(** The answers of the namespace "device": a text or a blob for a buffer of the given
    size, an integer; [None] is an error. *)
Record factory_part := mk_part {
  part_str : string → nat → option (list Z);
  part_u64 : string → option Z;
  part_u16 : string → option Z;
  part_blob : string → nat → option (list Z)
}.

Definition defaults_set : factory_config_t :=
  mk_factory false 0x000001C0C01FA82A (field_copy FACTORY_STR_MAX (cstr "esp32-a1b2c3d4e5f6"))
    (field_copy FACTORY_STR_MAX (cstr "0.10.0")) (field_copy FACTORY_HOST_MAX (cstr "SERVER_IP")) 8443
    (field_copy FACTORY_BEARER_MAX (cstr "testbed-bearer-token-rotate-me"))
    (Z.of_nat <$> seq 0 32) (field_copy FACTORY_KID_MAX (cstr "1")) [] [] [] [].

(** Success, and what the destination holds afterwards. *)
Definition get_str (h : factory_part) (key : string) (cap : nat) (dst : list Z) : bool * list Z :=
  match part_str h key cap with Some s => (true, s) | None => (false, dst) end.

(** The identity block, read in the order of the code. *)
Definition identity_block (h : factory_part) : option (Z * list Z * list Z * list Z * list Z) :=
  serial ← part_u64 h "serial";
  id ← part_str h "device_id" FACTORY_STR_MAX;
  kid ← part_str h "hmac_kid" FACTORY_KID_MAX;
  bearer ← part_str h "bearer" FACTORY_BEARER_MAX;
  key ← part_blob h "hmac_key" 32;
  if decide (length key = 32%nat) then Some (serial, id, kid, bearer, key) else None.

Definition optional_values (h : factory_part) (c : factory_config_t) : factory_config_t :=
  let c := c <| fa_hw_rev := (get_str h "hw_rev" FACTORY_STR_MAX (fa_hw_rev c)).2 |> in
  let c := c <| fa_server_host := (get_str h "server" FACTORY_HOST_MAX (fa_server_host c)).2 |> in
  let c := match part_u16 h "server_port" with
           | Some p => if negb (p =? 0) then c <| fa_server_port := p |> else c
           | None => c end in
  let c := c <| fa_batch := (get_str h "batch" FACTORY_BATCH_MAX (fa_batch c)).2 |> in
  c <| fa_prod_date := (get_str h "prod_date" FACTORY_DATE_MAX (fa_prod_date c)).2 |>.

(** The certificate and its key, read in place: the key only after the certificate. *)
Definition client_pair (h : factory_part) (c : factory_config_t) : factory_config_t :=
  let cert := get_str h "client_cert" FACTORY_PEM_MAX (fa_client_cert c) in
  let c := c <| fa_client_cert := cert.2 |> in
  let key := if cert.1 then get_str h "client_key" FACTORY_PEM_MAX (fa_client_key c) else (false, fa_client_key c) in
  let c := c <| fa_client_key := key.2 |> in
  if negb (cert.1 && key.1 && negb (bool_decide (cert.2 = [])) && negb (bool_decide (key.2 = [])))
  then c <| fa_client_cert := [] |> <| fa_client_key := [] |> else c.

(** [None]: the partition does not initialise; [Some None]: it has no namespace.
    The function answers [ESP_OK] in every case. *)
Definition factory_config_init (p : option (option factory_part)) : factory_config_t :=
  let c := defaults_set in
  match p with
  | Some (Some h) =>
      match identity_block h with
      | None => c
      | Some (serial, id, kid, bearer, key) =>
          let c := c <| fa_serial := serial |> <| fa_device_id := field_copy FACTORY_STR_MAX id |>
                     <| fa_hmac_kid := field_copy FACTORY_KID_MAX kid |>
                     <| fa_bearer := field_copy FACTORY_BEARER_MAX bearer |> <| fa_hmac_key := key |> in
          (client_pair h (optional_values h c)) <| from_factory := true |>
      end
  | _ => c
  end.

(** ** The session's configuration *)

Section config.
Variables g_tls_ca_pem g_tls_client_cert_pem g_tls_client_key_pem : list Z.

(** A null pointer is [None]. *)
Definition text_or_null (s : list Z) : option (list Z) := match s with [] => None | _ => Some s end.

Definition task_com_tls_ca_get : option (list Z) := text_or_null g_tls_ca_pem.
Definition task_com_tls_client_cert_get (fc : factory_config_t) : option (list Z) :=
  match fa_client_cert fc with [] => text_or_null g_tls_client_cert_pem | c => Some c end.
Definition task_com_tls_client_key_get (fc : factory_config_t) : option (list Z) :=
  match fa_client_key fc with [] => text_or_null g_tls_client_key_pem | c => Some c end.

(** [s_stCfg]: the part of the protocol's tasks and that of the transport. *)
Record com_config := mk_com_config {
  cc_task : fp_task_config;
  cc_server_host : list Z;
  cc_server_port : Z;
  cc_server_path : list Z;
  cc_ca_pem : option (list Z);
  cc_client_cert_pem : option (list Z);
  cc_client_key_pem : option (list Z);
  cc_bearer_token : list Z
}.

(** The first part of [task_com_start]; [cb]: the six callbacks that answer. *)
Definition task_com_config (fc : factory_config_t) (version : list Z) (img : list Z) (cb : local_callbacks)
    : res com_config :=
  pstrHost ← dp_str img "Network_Server";
  usPort ← ref_uint img "Network_Server_Port";
  let host := match pstrHost with [] => fa_server_host fc | _ => pstrHost end in
  let port := match pstrHost with
              | [] => fa_server_port fc
              | _ => if usPort =? 0 then fa_server_port fc else usPort end in
  let session := mk_config (fa_device_id fc) (hex16 (fa_serial fc)) (fa_hmac_kid fc) (take 32 (fa_hmac_key fc)) version
    (Some (if from_factory fc then fa_hw_rev fc else cstr "esp32s3"))
    (Some (lb_snapshot cb)) true (Some (lb_command cb)) (Some (lb_dp_write cb))
    (Some (lb_log cb)) (Some (lb_log_ack cb)) (Some (lb_history cb)) true true in
  Ok (mk_com_config (mk_task_config session 30 10 true true) host port (cstr "/ws")
        task_com_tls_ca_get (task_com_tls_client_cert_get fc) (task_com_tls_client_key_get fc) (fa_bearer fc)).

(** The identity that main passes to the datapoints and the local server takes. *)
Definition main_identity (fc : factory_config_t) (version : list Z) (build_ms : Z) : dp_identity_t :=
  mk_identity (fa_serial fc) (Some (fa_hw_rev fc)) (Some version) build_ms.
Definition local_id (fc : factory_config_t) (version : list Z) : local_identity :=
  mk_local_identity (fa_device_id fc) (fa_serial fc) (fa_hmac_kid fc) (fa_hmac_key fc) (Some (fa_hw_rev fc)) version.
End config.

(** ** The callbacks of task_com *)

(** What a callback does besides answering: [Note]: [power_mgmt_activity_note];
    [AliveHook]: the call of main's hook, where one is set. *)
Inductive com_act := Note | SessionReady | SessionLost | AliveHook | OtaStart (m : cjson).

Definition named (names : option cjson) : option (list cjson) :=
  match names with Some (CArray (n :: l)) => Some (n :: l) | _ => None end.

(** [heap]: the three figures that the refresh reads. *)
Definition cb_fill_snapshot (s : dp_state) (heap : Z * Z * Z) (names : option cjson)
    : res (list com_act * list (string * json) * dp_state) :=
  s ← dp_refresh s heap.1.1 heap.1.2 heap.2;
  match named names with
  | Some l =>
      r ← dp_read_into s ((λ n, match n with CString t => Some (name_of t) | _ => None end) <$> l);
      Ok ([Note], r.1, s)
  | None => r ← dp_report_full s; Ok ([], r.1, r.2)
  end.

Definition cb_fill_changes (s : dp_state) : res (list (string * json) * dp_state) := dp_report_changes s.
Definition cb_on_ready : list com_act := [SessionReady; Note].
Definition cb_on_session_lost : list com_act := [SessionLost].
Definition cb_on_alive (hook : bool) : list com_act := if hook then [AliveHook] else [].
Definition cb_on_ota (m : cjson) : list com_act := [OtaStart m].
Definition cb_link_up (w : wlan_t) : bool := wlan_com_connected_get w.

(** The two control callbacks: the shared application logic behind a note. *)
Definition cb_on_command (w : cmd_world) (m : cjson) (us : Z) (bTask : bool) :=
  r ← task_com_apply_command w m us bTask; Ok ([Note], r).
Definition cb_on_dp_write {nvs P : Type} `{!NvsApi nvs} (esp_partition_read : P → Z → Z → option (list Z))
    (esp_partition_write : P → Z → list Z → option P) (io : com_io) (w : com_state nvs P) (live : list Z) (dp : option cjson) :=
  r ← task_com_apply_dp_write esp_partition_read esp_partition_write io w live dp; Ok ([Note], r).

(** ** The identity is whole *)

(** What NVS promises: a text fits its buffer and has no terminator inside, a blob
    fits, an integer is in range. *)
Definition text (n : nat) (s : list Z) : Prop := (length s < n)%nat ∧ Forall (λ c, is_u8 c ∧ c ≠ 0) s.
Record part_ok (h : factory_part) : Prop := {
  po_str : ∀ k n s, part_str h k n = Some s → text n s;
  po_blob : ∀ k n b, part_blob h k n = Some b → (length b <= n)%nat;
  po_u64 : ∀ k z, part_u64 h k = Some z → is_u64 z;
  po_u16 : ∀ k z, part_u16 h k = Some z → is_u16 z
}.

Lemma field_copy_fits n s : (length s < n)%nat → field_copy n s = s.
Proof. intros H. unfold field_copy. apply take_ge. lia. Qed.

Lemma client_pair_spec h c :
  let c' := client_pair h c in
  (fa_client_cert c' = [] ↔ fa_client_key c' = []) ∧
  c' = c <| fa_client_cert := fa_client_cert c' |> <| fa_client_key := fa_client_key c' |>.
Proof.
  cbv zeta. unfold client_pair. destruct (get_str h "client_cert" _ _) as [b1 s1].
  destruct (if (b1, s1).1 then _ else _) as [b2 s2]. cbn [fst snd].
  destruct b1, b2, s1, s2; cbn; split; done.
Qed.

Lemma optional_values_keep h c :
  let c' := optional_values h c in
  c' = c <| fa_hw_rev := fa_hw_rev c' |> <| fa_server_host := fa_server_host c' |>
         <| fa_server_port := fa_server_port c' |> <| fa_batch := fa_batch c' |> <| fa_prod_date := fa_prod_date c' |>.
Proof. cbv zeta. unfold optional_values. destruct c. repeat case_match; reflexivity. Qed.

(** The five values of a unit's identity. *)
Definition identity_of (c : factory_config_t) : Z * list Z * list Z * list Z * list Z :=
  (fa_serial c, fa_device_id c, fa_hmac_kid c, fa_bearer c, fa_hmac_key c).

(** Every text fits its field; the numbers are in range, and there is a port. *)
Record factory_ok (c : factory_config_t) : Prop := {
  fo_serial : is_u64 (fa_serial c);
  fo_port : 0 < fa_server_port c < 65536;
  fo_key : length (fa_hmac_key c) = 32%nat;
  fo_texts : Forall (λ t, text t.1 t.2)
    [(FACTORY_STR_MAX, fa_device_id c); (FACTORY_STR_MAX, fa_hw_rev c); (FACTORY_HOST_MAX, fa_server_host c);
     (FACTORY_BEARER_MAX, fa_bearer c); (FACTORY_KID_MAX, fa_hmac_kid c); (FACTORY_BATCH_MAX, fa_batch c);
     (FACTORY_DATE_MAX, fa_prod_date c); (FACTORY_PEM_MAX, fa_client_cert c); (FACTORY_PEM_MAX, fa_client_key c)]
}.

Definition textb (n : nat) (s : list Z) : bool :=
  bool_decide (length s < n)%nat && forallb (λ c, (1 <=? c) && (c <=? 255)) s.
Lemma textb_spec n s : textb n s = true → text n s.
Proof.
  unfold textb. intros [Hl%bool_decide_eq_true Hb]%andb_true_iff. split; [done|].
  apply Forall_forall. intros x Hx%list_elem_of_In. rewrite forallb_forall in Hb. apply Hb in Hx.
  unfold is_u8. lia.
Qed.

Lemma defaults_ok : factory_ok defaults_set.
Proof.
  split; [vm_compute; done..|]. repeat (apply Forall_cons; split; [apply textb_spec; vm_compute; reflexivity|]). done.
Qed.

Lemma get_str_text h key n dst : part_ok h → text n dst → text n (get_str h key n dst).2.
Proof. intros Hp Hd. unfold get_str. destruct (part_str h key n) eqn:E; [by eapply po_str|done]. Qed.

Lemma identity_block_some h serial id kid bearer key :
  identity_block h = Some (serial, id, kid, bearer, key) →
  part_u64 h "serial" = Some serial ∧ part_str h "device_id" FACTORY_STR_MAX = Some id ∧
  part_str h "hmac_kid" FACTORY_KID_MAX = Some kid ∧ part_str h "bearer" FACTORY_BEARER_MAX = Some bearer ∧
  part_blob h "hmac_key" 32 = Some key ∧ length key = 32%nat.
Proof.
  unfold identity_block. intros H.
  repeat (match type of H with (mbind _ ?m) = _ => destruct m eqn:?; [|done]; cbn [mbind option_bind] in H end).
  case_decide; [|done]. by injection H as -> -> -> -> ->.
Qed.

Lemma optional_values_ok h c : part_ok h → factory_ok c → factory_ok (optional_values h c).
Proof.
  intros Hp [Hs Ho Hk Ht]. rewrite !Forall_cons in Ht. destruct Ht as (? & ? & ? & ? & ? & ? & ? & ? & ? & _).
  unfold optional_values. cbv zeta. destruct c as [f ser id hw host port bearer key kid batch date cert ckey].
  cbn in *. destruct (part_u16 h "server_port") as [q|] eqn:E; [pose proof (po_u16 h Hp _ _ E) as Hq; destruct (Z.eqb_spec q 0)|].
  all: split; cbn; try done; try (unfold is_u16 in Hq; lia).
  all: rewrite !Forall_cons; split_and!; cbn [fst snd]; try done; by apply get_str_text.
Qed.

Lemma client_pair_ok h c : part_ok h → factory_ok c → factory_ok (client_pair h c).
Proof.
  intros Hp [Hs Ho Hk Ht]. rewrite !Forall_cons in Ht. destruct Ht as (? & ? & ? & ? & ? & ? & ? & Hc & Hy & _).
  pose proof (get_str_text h "client_cert" _ _ Hp Hc) as Hc'. pose proof (get_str_text h "client_key" _ _ Hp Hy) as Hy'.
  assert (text FACTORY_PEM_MAX []) by (apply textb_spec; vm_compute; reflexivity). cbn [fst snd] in *.
  unfold client_pair. destruct (get_str h "client_cert" _ _) as [b1 s1].
  destruct (get_str h "client_key" _ _) as [b2 s2]. cbn [fst snd] in *.
  destruct c, b1; cbn in *; try case_match; split; cbn; try done; rewrite !Forall_cons; split_and!; done.
Qed.

Lemma init_ok p : (∀ h, p = Some (Some h) → part_ok h) → factory_ok (factory_config_init p).
Proof.
  intros Hp. unfold factory_config_init. destruct p as [[h|]|]; try apply defaults_ok. specialize (Hp h eq_refl).
  destruct (identity_block h) as [[[[[serial id] kid] bearer] key]|] eqn:E; [|apply defaults_ok].
  apply identity_block_some in E as (Es & Ei & Ek & Eb & _ & Hl).
  pose proof defaults_ok as [_ Ho _ Ht]. rewrite !Forall_cons in Ht. destruct Ht as (_ & ? & ? & _ & _ & ? & ? & ? & ? & _).
  apply (po_str h Hp) in Ei, Ek, Eb. apply (po_u64 h Hp) in Es.
  destruct (client_pair_ok h (optional_values h (defaults_set <| fa_serial := serial |> <| fa_device_id := field_copy FACTORY_STR_MAX id |>
    <| fa_hmac_kid := field_copy FACTORY_KID_MAX kid |> <| fa_bearer := field_copy FACTORY_BEARER_MAX bearer |> <| fa_hmac_key := key |>)) Hp)
    as [A B C D]; [|by split].
  apply optional_values_ok; [done|]. rewrite !field_copy_fits by (apply Ei || apply Ek || apply Eb).
  split; cbn [fa_serial fa_server_port fa_hmac_key]; try done. rewrite !Forall_cons. by split_and!.
Qed.

Lemma factory_init_cases p :
  (∀ h, p = Some (Some h) → part_ok h) →
  let c := factory_config_init p in
  (from_factory c = true ∧ (∃ h, p = Some (Some h) ∧ identity_block h = Some (identity_of c)) ∧
     (fa_client_cert c = [] ↔ fa_client_key c = [])) ∨
  (c = defaults_set ∧ ∀ h, p = Some (Some h) → identity_block h = None).
Proof.
  intros Hp. cbv zeta. unfold factory_config_init. destruct p as [[h|]|]; try (by right). specialize (Hp h eq_refl).
  destruct (identity_block h) as [[[[[serial id] kid] bearer] key]|] eqn:E; [|right; split; [done|congruence]].
  left. pose proof (identity_block_some _ _ _ _ _ _ E) as (_ & Ei & Ek & Eb & _ & _).
  apply (po_str h Hp) in Ei as [Ei _], Ek as [Ek _], Eb as [Eb _]. rewrite !field_copy_fits by done.
  set (c0 := _ <| fa_hmac_key := key |>).
  pose proof (client_pair_spec h (optional_values h c0)) as [Hpair Hcp]. pose proof (optional_values_keep h c0) as Hov.
  cbv zeta in *. split; [by destruct (client_pair _ _)|]. split.
  - exists h. split; [done|]. rewrite E. f_equal. rewrite Hcp, Hov. by subst c0.
  - by destruct (client_pair h (optional_values h c0)).
Qed.


(** A partition by its entries; a text or blob that does not fit is an error. *)
Definition demo_part (strs blobs : list (string * list Z)) (serial port : option Z) : factory_part :=
  let get (l : list (string * list Z)) k := snd <$> List.find (λ e, String.eqb e.1 k) l in
  mk_part (λ k n, s ← get strs k; if textb n s then Some s else None)
    (λ k, if String.eqb k "serial" then u64 <$> serial else None)
    (λ k, if String.eqb k "server_port" then u16 <$> port else None)
    (λ k n, b ← get blobs k; if decide (length b <= n)%nat then Some b else None).

Lemma demo_part_ok strs blobs serial port : part_ok (demo_part strs blobs serial port).
Proof.
  split; cbn.
  - intros k n s H. destruct (List.find _ _) as [e|]; [|done]. cbn in H. destruct (textb n e.2) eqn:E; [|done].
    injection H as <-. by apply textb_spec.
  - intros k n b H. destruct (List.find _ _) as [e|]; [|done]. cbn in H. case_decide; [|done]. by injection H as <-.
  - intros k z H. destruct (String.eqb k _), serial; try done. injection H as <-. apply u64_range.
  - intros k z H. destruct (String.eqb k _), port; try done. injection H as <-. apply u16_range.
Qed.

Definition unit_part : factory_part :=
  demo_part [("device_id", cstr "fountain-7"); ("hmac_kid", cstr "7"); ("bearer", cstr "token"); ("hw_rev", cstr "HW2.1");
             ("client_cert", cstr "PEM")] [("hmac_key", replicate 32 9)] (Some 7) (Some 0).


(** ** One identity *)

Section one_identity.
Context {nvs : Type} `{!NvsApi nvs, !NvsBytes nvs}.
Variables g_tls_ca_pem g_tls_client_cert_pem g_tls_client_key_pem : list Z.

Lemma serial_shown img z :
  img_typed img → is_u64 z → dp_ref img "Device_Serial_Number" = Ok (le_put 8 z) →
  ∃ d, dp_find "Device_Serial_Number" = Some d ∧ dp_value_to_json d img = Ok (JString (hex16 z)).
Proof.
  intros [Hi _] Hz Hr. unfold dp_ref in Hr. destruct (dp_find "Device_Serial_Number") as [d|] eqn:E; [|done].
  exists d. split; [done|]. cbn [of_option mbind res_bind] in Hr. unfold dp_value_to_json. rewrite Hr. cbn [mbind res_bind].
  replace (dd_type d) with DP_U64 by (vm_compute in E; by injection E as <-). rewrite le_get_put.
  change (256 ^ Z.of_nat 8) with 18446744073709551616. by rewrite Z.mod_small by apply Hz.
Qed.

Lemma dp_str_safe img name d :
  img_typed img → dp_find name = Some d → dd_type d = DP_STR → ∃ s, dp_str img name = Ok s.
Proof.
  intros [Hi Ht] Hf Hty. unfold dp_str. rewrite (dp_ref_slot _ _ d) by done. cbn [mbind res_bind].
  apply dp_find_some in Hf as [Hd _]. specialize (Ht d Hd). unfold typed_slot in Ht. rewrite Hty in Ht.
  apply bool_decide_eq_true in Ht. by apply c_string_total.
Qed.

(** with the identity that the boot has read, the datapoint store comes up with its
    serial number (where a legacy configuration that the start adopts keeps the bounds),
    the cloud session's configuration can be filled from any image, has a server port,
    and shows that serial number and the same device id, key id and key as the local
    session; certificate and key of the client come from the same source.  The hardware
    revision is not among them ([legacy_unit_has_two_revisions]). *)
Theorem device_speaks_as_one p version build (n : nvs) opened l saved img cb cb' :
  (∀ h, p = Some (Some h) → part_ok h) → Forall is_u8 version →
  blobs_ok n → legacy_ok n → img_typed img →
  let fc := factory_config_init p in
  ∃ s n' d cfg, dp_init n (Some (main_identity fc version build)) opened l saved = Ok (s, n') ∧
    dp_find "Device_Serial_Number" = Some d ∧
    task_com_config g_tls_ca_pem g_tls_client_cert_pem g_tls_client_key_pem fc version img cb = Ok cfg ∧
    let a := tc_session (cc_task cfg) in
    let b := local_cfg_get (local_id fc version) cb' in
    dp_value_to_json d (g_dp_store s) = Ok (JString (fc_serial a)) ∧
    (fc_serial a, fc_device_id a, fc_auth_kid a, fc_auth_key a) = (fc_serial b, fc_device_id b, fc_auth_kid b, fc_auth_key b) ∧
    fc_auth_key a = fa_hmac_key fc ∧ cc_server_port cfg ≠ 0 ∧
    (if bool_decide (fa_client_cert fc = []) then
       (cc_client_cert_pem cfg, cc_client_key_pem cfg) = (text_or_null g_tls_client_cert_pem, text_or_null g_tls_client_key_pem)
     else (cc_client_cert_pem cfg, cc_client_key_pem cfg) = (Some (fa_client_cert fc), Some (fa_client_key fc))).
Proof.
  intros Hp Hv Hn Hc Ht. cbv zeta. pose proof (init_ok p Hp) as [Hser Hport Hkey Htx].
  assert (fa_client_cert (factory_config_init p) = [] ↔ fa_client_key (factory_config_init p) = []) as Hpair
    by (destruct (factory_init_cases p Hp) as [(_ & _ & H)|[-> _]]; [exact H|done]).
  set (fc := factory_config_init p) in *. clearbody fc.
  rewrite !Forall_cons in Htx. destruct Htx as (_ & [_ Hrev] & _).
  destruct (dp_init_spec n (Some (main_identity fc version build)) opened l saved Hn Hc) as (s & n' & Hs & Hst & _ & Hsn).
  { intros j Hj. injection Hj as <-. split; intros v Hw; injection Hw as <-; [|done].
    eapply Forall_impl; [exact Hrev|]. by intros x [? _]. }
  specialize (Hsn _ eq_refl). destruct (serial_shown _ _ Hst Hser Hsn) as (d & Hd & Hj).
  destruct (dp_find "Network_Server") as [ds|] eqn:Es; [|by vm_compute in Es].
  destruct (dp_str_safe img "Network_Server" ds Ht Es) as (host & Hh); [by vm_compute in Es; injection Es as <-|].
  destruct (ref_safe img "Network_Server_Port" Ht) as (pb & Hpb); [vm_compute; reflexivity|].
  unfold task_com_config. rewrite Hh. unfold ref_uint. rewrite Hpb. cbn [mbind res_bind].
  exists s, n', d. eexists. split; [exact Hs|]. split; [exact Hd|]. split; [reflexivity|]. cbn. split; [exact Hj|].
  split; [done|]. split; [by apply take_ge; lia|]. split.
  - destruct host; [lia|]. destruct (Z.eqb_spec (le_get pb) 0); lia.
  - unfold task_com_tls_client_cert_get, task_com_tls_client_key_get. destruct (fa_client_cert fc) as [|c1 l1], (fa_client_key fc) as [|c2 l2].
    + reflexivity.
    + discriminate (proj1 Hpair eq_refl).
    + discriminate (proj2 Hpair eq_refl).
    + reflexivity.
Qed.
End one_identity.

Definition demo_callbacks : local_callbacks :=
  mk_local_callbacks (λ _, []) (λ _, []) (λ _, []) (λ _ _ _ _, []) (λ _, true) (λ _ _, []).

(** A provisioned unit that boots on an empty configuration. *)
Lemma device_speaks_as_one_witness :
  ∃ s n' d cfg, dp_init (mk_room ∅ ∅ 0) (Some (main_identity (factory_config_init (Some (Some unit_part))) (cstr "1.4") 5))
      (true, true) true (ESP_OK, ESP_OK) = Ok (s, n') ∧
    dp_find "Device_Serial_Number" = Some d ∧
    task_com_config [] [] [] (factory_config_init (Some (Some unit_part))) (cstr "1.4") default_image demo_callbacks = Ok cfg ∧
    dp_value_to_json d (g_dp_store s) = Ok (JString (fc_serial (tc_session (cc_task cfg)))) ∧
    cc_server_port cfg ≠ 0.
Proof.
  destruct (device_speaks_as_one [] [] [] (Some (Some unit_part)) (cstr "1.4") 5 (mk_room ∅ ∅ 0) (true, true) true (ESP_OK, ESP_OK)
              default_image demo_callbacks demo_callbacks) as (s & n' & d & cfg & H1 & H2 & H3 & H4 & _ & _ & H7 & _).
  - intros h Hh. injection Hh as <-. apply demo_part_ok.
  - repeat (apply Forall_cons; split; [vm_compute; split; discriminate || reflexivity|]). apply Forall_nil; exact I.
  - intros k b Hb. discriminate Hb.
  - intros b Hv. discriminate Hv.
  - apply defaults_typed.
  - exists s, n', d, cfg. exact (conj H1 (conj H2 (conj H3 (conj H4 H7)))).
Defined.

(** A unit without a factory partition shows the server another hardware revision than
    its datapoint and the local session. *)
Example legacy_unit_has_two_revisions :
  match task_com_config [] [] [] (factory_config_init None) (cstr "1.4") default_image demo_callbacks with
  | Ok cfg => fc_hw_rev (tc_session (cc_task cfg)) = Some (cstr "esp32s3") ∧
      fc_hw_rev (local_cfg_get (local_id (factory_config_init None) (cstr "1.4")) demo_callbacks) = Some (cstr "0.10.0") ∧
      di_hw_version (main_identity (factory_config_init None) (cstr "1.4") 5) = Some (cstr "0.10.0")
  | _ => False
  end.
Proof. vm_compute. split_and!; reflexivity. Qed.
