(* ===== verification/StatusLed.v ===== *)
(** * The status LEDs: [status_led.c]

    Models src/src/device/status_led.c with the glue that feeds it
    (src/src/main/main.c, [glue_status_led]).

    An LED is [Some] of whether it is lit, or [None] while its pin is not driven.
    Every section under the lock is one step.  A timer callback is two steps, the
    expiry and the run under the lock: between them another task can take the lock
    and stop the timer.

    [status_led_shows_state]: after a change, and as long as no callback comes late,
    the LEDs show what the header promises. *)

From S2P Require Import Prelude Float32 Hal.
Local Open Scope Z_scope.

Record led_t := mk_led {
  s_bPresent : bool;
  s_bBootPhase : bool;
  s_bCommActive : bool;
  s_bRelayOn : bool;
  s_bBlinkLevel : bool;
  s_hBootTimer : bool;
  s_hBlinkTimer : bool;
  blink_due : bool;
  led_red : option bool;
  led_green : option bool
}.
#[export] Instance eta_led : Eta led_t := λ r, mk_led (s_bPresent r) (s_bBootPhase r) (s_bCommActive r) (s_bRelayOn r)
      (s_bBlinkLevel r) (s_hBootTimer r) (s_hBlinkTimer r) (blink_due r) (led_red r) (led_green r).
#[export] Instance set_s_bPresent : Setter s_bPresent. Proof. mk_setter. Defined.
#[export] Instance set_s_bBootPhase : Setter s_bBootPhase. Proof. mk_setter. Defined.
#[export] Instance set_s_bCommActive : Setter s_bCommActive. Proof. mk_setter. Defined.
#[export] Instance set_s_bRelayOn : Setter s_bRelayOn. Proof. mk_setter. Defined.
#[export] Instance set_s_bBlinkLevel : Setter s_bBlinkLevel. Proof. mk_setter. Defined.
#[export] Instance set_s_hBootTimer : Setter s_hBootTimer. Proof. mk_setter. Defined.
#[export] Instance set_s_hBlinkTimer : Setter s_hBlinkTimer. Proof. mk_setter. Defined.
#[export] Instance set_blink_due : Setter blink_due. Proof. mk_setter. Defined.
#[export] Instance set_led_red : Setter led_red. Proof. mk_setter. Defined.
#[export] Instance set_led_green : Setter led_green. Proof. mk_setter. Defined.

(** Static storage: the handles of the timers are their being armed. *)
Definition led_zero : led_t := mk_led false false false false false false false false None None.

(** Under the lock. *)
Definition green_apply_locked (s : led_t) : led_t :=
  if s_bBootPhase s then s
  else if s_bRelayOn s then
    if negb (s_hBlinkTimer s)
    then s <| s_bBlinkLevel := true |> <| led_green := Some true |> <| s_hBlinkTimer := true |>
    else s
  else s <| s_hBlinkTimer := false |> <| led_green := Some (s_bCommActive s) |>.

Definition blink_timer_cb (s : led_t) : led_t :=
  let s := s <| s_bBlinkLevel := negb (s_bBlinkLevel s) |> in
  s <| led_green := Some (s_bBlinkLevel s) |>.

Definition boot_timer_cb (s : led_t) : led_t :=
  green_apply_locked (s <| s_bBootPhase := false |> <| led_red := Some false |> <| led_green := Some false |>).

(** [boot], [blink]: whether the timers can be created. *)
Definition status_led_init (s : led_t) (p : hal_pins_t) (boot blink : bool) : bool * led_t :=
  let s := s <| s_bPresent := negb (eLedRed p =? GPIO_NUM_NC) && negb (eLedGreen p =? GPIO_NUM_NC) |> in
  if negb (s_bPresent s) then (true, s) else
  let s := s <| led_red := Some true |> <| led_green := Some true |> <| s_bBootPhase := true |> in
  if negb boot || negb blink then (false, s) else (true, s <| s_hBootTimer := true |>).

Definition status_led_comm_active (s : led_t) (bActive : bool) : led_t :=
  if negb (s_bPresent s) then s else green_apply_locked (s <| s_bCommActive := bActive |>).

Definition status_led_relay_active (s : led_t) (bOn : bool) : led_t :=
  if negb (s_bPresent s) || eqb bOn (s_bRelayOn s) then s else green_apply_locked (s <| s_bRelayOn := bOn |>).

(** The events main subscribes the session display to. *)
Inductive led_link_event := EVT_SESSION_READY | EVT_SESSION_LOST | EVT_WLAN_DISCONNECTED.
Definition glue_status_led (s : led_t) (eEvent : led_link_event) : led_t :=
  status_led_comm_active s (match eEvent with EVT_SESSION_READY => true | _ => false end).

(** ** Runs *)

Inductive led_event :=
  | LLink (e : led_link_event)
  | LRelay (bOn : bool)
  | LBootTimer
  | LBlinkDue
  | LBlinkRun.

(** A timer that is not armed does not fire; a callback runs once per expiry. *)
Definition led_step (s : led_t) (e : led_event) : led_t :=
  match e with
  | LLink e => glue_status_led s e
  | LRelay b => status_led_relay_active s b
  | LBootTimer => if s_hBootTimer s then boot_timer_cb (s <| s_hBootTimer := false |>) else s
  | LBlinkDue => if s_hBlinkTimer s then s <| blink_due := true |> else s
  | LBlinkRun => if blink_due s then blink_timer_cb (s <| blink_due := false |>) else s
  end.

Definition led_run : led_t → list led_event → led_t := foldl led_step.

(** What the header promises; [s_bBlinkLevel] is the phase of the blinking. *)
Definition shows (s : led_t) : Prop :=
  if s_bBootPhase s then led_red s = Some true ∧ led_green s = Some true
  else led_red s = Some false ∧ led_green s = Some (if s_bRelayOn s then s_bBlinkLevel s else s_bCommActive s) ∧
    s_hBlinkTimer s = s_bRelayOn s.

(** An event that changes what is to be shown. *)
Definition changes (s : led_t) (e : led_event) : bool :=
  match e with
  | LLink _ => true
  | LRelay b => negb (eqb b (s_bRelayOn s))
  | LBootTimer => s_hBootTimer s
  | _ => false
  end.

(** No callback runs after its timer was stopped. *)
Fixpoint punctual (s : led_t) (es : list led_event) : bool :=
  match es with
  | [] => true
  | e :: es =>
      (match e with LBlinkRun => negb (blink_due s) || s_hBlinkTimer s | _ => true end) && punctual (led_step s e) es
  end.

(** Of every run: the LEDs are right, or green alone is wrong with the relay off. *)
Record led_inv (s : led_t) : Prop := {
  li_present : s_bPresent s = true;
  li_boot : s_bBootPhase s = s_hBootTimer s;
  li_phase : if s_bBootPhase s then led_red s = Some true ∧ led_green s = Some true ∧ s_hBlinkTimer s = false ∧ blink_due s = false
             else led_red s = Some false ∧ s_hBlinkTimer s = s_bRelayOn s ∧
                  (s_bRelayOn s = true → led_green s = Some (s_bBlinkLevel s))
}.

Lemma led_step_inv s e : led_inv s → led_inv (led_step s e).
Proof.
  destruct s as [p b c r l bt kt d red green]. intros [Hp Hb Hf]. cbn in Hp, Hb, Hf. subst p bt.
  destruct e as [[]|x| | |], b, r; try destruct x; try destruct d; try destruct kt; cbn in Hf; try (exfalso; intuition congruence);
    split; cbn; intuition congruence.
Qed.

Lemma led_run_inv es : ∀ s, led_inv s → led_inv (led_run s es).
Proof. induction es as [|e es IH]; intros s Hs; [done|]. apply IH. by apply led_step_inv. Qed.

Lemma change_shows s e : led_inv s → changes s e = true → shows (led_step s e).
Proof.
  destruct s as [p b c r l bt kt d red green]. intros [Hp Hb Hf]. cbn in Hp, Hb, Hf. subst p bt.
  destruct e as [[]|x| | |], b, r; try destruct x; try destruct kt; cbn in Hf |- *; intros Hc; try done;
    unfold shows; cbn; intuition congruence.
Qed.

Lemma punctual_shows es : ∀ s, led_inv s → shows s → punctual s es = true → shows (led_run s es).
Proof.
  induction es as [|e es IH]; intros s Hs Hw H; [done|]. cbn [punctual] in H. apply andb_true_iff in H as [He H].
  apply IH; [by apply led_step_inv| |done]. destruct (changes s e) eqn:Hc; [by apply change_shows|].
  destruct s as [p b c r l bt kt d red green], Hs as [Hp Hb Hf]. cbn in Hp, Hb, Hf, Hw, He, Hc. subst p bt.
  unfold shows in Hw. cbn in Hw.
  destruct e as [[]|x| | |], b, r; try destruct x; try destruct d; try destruct kt; cbn in He, Hf, Hw, Hc |- *; try done;
    unfold shows; cbn; intuition congruence.
Qed.

(** Both outcomes of an initialisation with its timers. *)
Lemma led_init_cases p s : status_led_init led_zero p true true = (true, s) →
  s = led_zero ∨ s = mk_led true true false false false true false false (Some true) (Some true).
Proof. unfold status_led_init. cbn. destruct (_ && _); cbn; intros [= <-]; [by right|by left]. Qed.

Lemma init_inv p s : status_led_init led_zero p true true = (true, s) → s_bPresent s = true → led_inv s.
Proof. intros [->| ->]%led_init_cases H; [done|by split]. Qed.

Lemma absent_idle es : ∀ s, s_bPresent s = false → s_hBootTimer s = false → s_hBlinkTimer s = false → blink_due s = false →
  led_run s es = s.
Proof.
  induction es as [|e es IH]; intros [p b c r l bt kt d red green] Hp Hb Hk Hd; [done|]. cbn in Hp, Hb, Hk, Hd. subst.
  cbn [led_run foldl]. destruct e; apply (IH (mk_led false b c r l false false false red green)); reflexivity.
Qed.

(** on a board with the two LEDs both are lit for the boot display; afterwards,
    from any change of the session, the relay or the display on and whatever happened
    before it, red is dark and green blinks with the relay on, is lit with the relay
    off and a session up, and dark otherwise, as long as no blink callback runs after
    its timer was stopped. On a board without LEDs nothing ever happens. *)
Theorem status_led_shows_state p s es e es' :
  status_led_init led_zero p true true = (true, s) →
  if s_bPresent s then
    shows s ∧ (punctual s es = true → shows (led_run s es)) ∧
    (changes (led_run s es) e = true → punctual (led_step (led_run s es) e) es' = true →
     shows (led_run s (es ++ e :: es')))
  else led_run s es = s ∧ led_red s = None ∧ led_green s = None.
Proof.
  intros Hi. destruct (s_bPresent s) eqn:Hp.
  - pose proof (init_inv p s Hi Hp) as Hs.
    assert (shows s) as Hw by (by destruct (led_init_cases p s Hi) as [->| ->]).
    split; [done|]. split; [by apply punctual_shows|]. intros Hc Hl. unfold led_run. rewrite foldl_app. cbn [foldl].
    apply punctual_shows; [by apply led_step_inv, led_run_inv|by apply change_shows; [apply led_run_inv|]|done].
  - destruct (led_init_cases p s Hi) as [->| ->]; [|done]. by split; [apply absent_idle|].
Qed.

Definition led_boot : led_t := (status_led_init led_zero s_stPinsHw2 true true).2.

(** The relay goes off at the moment the blink timer expires: the late callback lights
    green although no session is up; the session event that follows repairs it. *)
Definition late_events : list led_event := [LBootTimer; LRelay true; LBlinkDue; LBlinkRun; LBlinkDue; LRelay false; LBlinkRun].

Lemma status_led_shows_state_witness :
  shows led_boot ∧ shows (led_run led_boot (late_events ++ [LLink EVT_SESSION_READY])).
Proof.
  destruct (status_led_shows_state s_stPinsHw2 led_boot late_events (LLink EVT_SESSION_READY) [] eq_refl) as (H1 & _ & H3).
  split; [exact H1|]. apply H3; vm_compute; reflexivity.
Defined.

Example late_callback_lights_green :
  let s := led_run led_boot late_events in
  s_bRelayOn s = false ∧ s_bCommActive s = false ∧ s_hBlinkTimer s = false ∧ led_green s = Some true.
Proof. vm_compute. split_and!; reflexivity. Qed.

(** Without the timers the boot display never ends: the result of the initialisation
    is ignored by [hal_setup]. *)
Example failed_timers_keep_the_boot_display es :
  let s := (status_led_init led_zero s_stPinsHw2 false true).2 in
  led_green (led_run s es) = Some true ∧ led_red (led_run s es) = Some true.
Proof.
  cbv zeta. set (s := (status_led_init _ _ _ _).2).
  assert (∀ es s, s_bBootPhase s = true → s_hBootTimer s = false → s_hBlinkTimer s = false → blink_due s = false →
    led_green (led_run s es) = led_green s ∧ led_red (led_run s es) = led_red s) as H.
  { clear s es. induction es as [|e es IH]; intros [p b c r l bt kt d red green] Hb Hbt Hk Hd; [done|]. cbn in Hb, Hbt, Hk, Hd. subst.
    cbn [led_run foldl]. destruct p, e as [[]|x| | |]; try destruct x; try destruct r; cbn;
      match goal with |- led_green (_ ?s' es) = _ ∧ _ => apply (IH s'); reflexivity end. }
  apply (H es s); reflexivity.
Qed.
