(* ===== verification/DataStore.v ===== *)
(** * The data store and the message output: [data_store.c], [debug.c]

    Models src/src/core/data_store.c (scaled values with observers, under one mutex)
    and src/src/core/debug.c, whose [logging_output] reads its configuration from the
    store and feeds the record log of LogCore.

    A key is its number.  A message arrives formatted; a text is its characters.
    Conversions that C leaves undefined are those of Hal ([FloatCvt]).

    [climate_survives_store]: the climate readings come back as the same number.
    [observers_see_writes]: each write reaches the first eight subscribers in order.
    [messages_always_leave]: no call of the firmware configures the output. *)

From Stdlib Require Import SpecFloat.
From S2P Require Import Prelude Bytes Float32 Float64 Hal LogRing LogCore FpAuth FpSession.
Local Open Scope string_scope.
Local Open Scope list_scope.
Local Open Scope Z_scope.

Definition DATA_TEMPERATURE : Z := 0.
Definition DATA_HUMIDITY : Z := 1.
Definition DATA_PRESSURE : Z := 2.
Definition DATA_ESP_INTERNAL_TEMP : Z := 3.
Definition DATA_RELAY_STATE : Z := 4.
Definition DATA_PROTOCOL_VERSION : Z := 5.
Definition DATA_TIME_S : Z := 6.
Definition DATA_LOGGING_ALLOW_REMOTE : Z := 7.
Definition DATA_KEY_COUNT : Z := 8.
Definition DATA_KEY_ANY : Z := DATA_KEY_COUNT.
Definition MAX_OBSERVERS : nat := 8.

Definition k_aflScale : list f32 :=
  [f32_lit 1 10; f32_lit 1 10; f32_lit 1 1000; f32_lit 1 10; f32_of_Z 1; f32_of_Z 1; f32_of_Z 1; f32_of_Z 1].

Record entry_t := mk_entry { slRaw : Z; flScale : f32 }.

(** A callback is a number that stands for the function with its context. *)
Record observer_t := mk_observer { ob_key : Z; ob_cb : nat }.

Record data_store_t := mk_store {
  s_astEntries : list entry_t;
  s_astObs : list (option observer_t);
  s_hMtx : bool
}.

(** Static storage. *)
Definition store_zero : data_store_t :=
  mk_store (replicate (Z.to_nat DATA_KEY_COUNT) (mk_entry 0 f32_zero)) (replicate MAX_OBSERVERS None) false.

Definition f32_eqb (a b : f32) : bool := SFeqb a b.

Definition data_store_init (s : data_store_t) (mutex : bool) : bool * data_store_t :=
  if negb mutex then (false, mk_store (s_astEntries s) (s_astObs s) false)
  else (true, mk_store ((λ k, mk_entry 0 (if negb (f32_eqb k f32_zero) then k else f32_of_Z 1)) <$> k_aflScale) (s_astObs s) true).

(** The callbacks of a snapshot of the observers, in their order. *)
Definition heard (eKey : Z) (o : option observer_t) : option (nat * Z) :=
  match o with
  | Some o => if (ob_key o =? eKey) || (ob_key o =? DATA_KEY_ANY) then Some (ob_cb o, eKey) else None
  | None => None
  end.
Definition notify (s : data_store_t) (eKey : Z) : list (nat * Z) := omap (heard eKey) (s_astObs s).

(** The result, the store and the callbacks made. *)
Definition set_raw (s : data_store_t) (eKey raw : Z) : res (bool * data_store_t * list (nat * Z)) :=
  if DATA_KEY_COUNT <=? eKey then Ok (false, s, []) else
  e ← array_get (s_astEntries s) eKey;
  es ← array_set (s_astEntries s) eKey (mk_entry raw (flScale e));
  let s := mk_store es (s_astObs s) (s_hMtx s) in
  Ok (true, s, notify s eKey).

Section convert.
Context `{FloatCvt}.

Definition DATA_FLOAT_TO_RAW (val scale : f32) : Z :=
  to_i32 (f32_add (f32_div val scale) (if f32_ge val f32_zero then f32_lit 1 2 else f32_lit (-1) 2)).
Definition DATA_RAW_TO_FLOAT (raw : Z) (scale : f32) : f32 := f32_mul (f32_of_Z raw) scale.

Definition data_store_float_set (s : data_store_t) (eKey : Z) (v : f32) : res (bool * data_store_t * list (nat * Z)) :=
  if (DATA_KEY_COUNT <=? eKey) || negb (s_hMtx s) then Ok (false, s, []) else
  e ← array_get (s_astEntries s) eKey;
  set_raw s eKey (DATA_FLOAT_TO_RAW v (flScale e)).
End convert.

(** [None] is false. *)
Definition data_store_float_get (s : data_store_t) (eKey : Z) : res (option f32) :=
  if (DATA_KEY_COUNT <=? eKey) || negb (s_hMtx s) then Ok None else
  e ← array_get (s_astEntries s) eKey; Ok (Some (DATA_RAW_TO_FLOAT (slRaw e) (flScale e))).

Definition data_store_u32_set (s : data_store_t) (eKey v : Z) : res (bool * data_store_t * list (nat * Z)) :=
  if (DATA_KEY_COUNT <=? eKey) || negb (s_hMtx s) then Ok (false, s, []) else set_raw s eKey (i32 v).

Definition data_store_u32_get (s : data_store_t) (eKey : Z) : res (option Z) :=
  if (DATA_KEY_COUNT <=? eKey) || negb (s_hMtx s) then Ok None else
  e ← array_get (s_astEntries s) eKey; Ok (Some (u32 (slRaw e))).

(** The first free slot. *)
Fixpoint take_slot (l : list (option observer_t)) (o : observer_t) : option (list (option observer_t)) :=
  match l with
  | [] => None
  | None :: l => Some (Some o :: l)
  | Some x :: l => cons (Some x) <$> take_slot l o
  end.

(** Taking a mutex that was never created is an assertion. *)
Definition data_store_observer_subscribe (s : data_store_t) (eKey : Z) (cb : option nat) : res (bool * data_store_t) :=
  match cb with
  | None => Ok (false, s)
  | Some cb =>
      if negb (s_hMtx s) then OutOfBounds else
      match take_slot (s_astObs s) (mk_observer eKey cb) with
      | Some l => Ok (true, mk_store (s_astEntries s) l true)
      | None => Ok (false, s)
      end
  end.

(** ** [debug.c] *)

Definition DBG_LVL_VERBOSE : Z := 1.
Definition DBG_LVL_MEDIUM : Z := 2.
Definition DBG_LVL_LOW : Z := 3.
Definition LOG_MSG_MAX : nat := 256.
Definition LOG_LINE_MAX : nat := 352.
Definition LOG_MOD_APP : Z := 7.
Definition LOG_EVT_TEXT : Z := 1.

Inductive log_target_t := LOG_TARGET_AUTO | LOG_TARGET_LOCAL | LOG_TARGET_REMOTE | LOG_TARGET_BOTH.

(** [s_eLevel]; [s_pfnConsoleUp]: the probe, as what it answers. *)
Record debug_t := mk_debug { s_eLevel : Z; s_pfnConsoleUp : option bool }.

Definition debug_zero : debug_t := mk_debug DBG_LVL_VERBOSE None.
Definition debug_console_probe_set (d : debug_t) (up : option bool) : debug_t := mk_debug (s_eLevel d) up.
Definition debug_level_set (d : debug_t) (eLevel : Z) : debug_t := mk_debug eLevel (s_pfnConsoleUp d).
Definition debug_level_get (d : debug_t) : Z := s_eLevel d.

Definition LOGGING_LEVEL_FROM_CFG (cfg : Z) : Z := Z.shiftr (u8 cfg) 4.
Definition LOGGING_REMOTE_ALLOWED (cfg : Z) : bool := negb (Z.land cfg 1 =? 0).
Definition LOGGING_LOCAL_ALLOWED (cfg : Z) : bool := negb (Z.land cfg 2 =? 0).

(** [aeMap], and the level beyond it. *)
Definition record_level (eMsgLevel : Z) : Z :=
  if eMsgLevel =? DBG_LVL_VERBOSE then LOG_LEVEL_TRACE
  else if eMsgLevel =? DBG_LVL_MEDIUM then LOG_LEVEL_DEBUG
  else if eMsgLevel =? DBG_LVL_LOW then LOG_LEVEL_INFO
  else if eMsgLevel =? 0 then LOG_LEVEL_OFF else LOG_LEVEL_INFO.

(** The last component of a path. *)
Fixpoint base_name (path : list Z) : list Z :=
  match path with
  | [] => []
  | c :: l => if existsb (Z.eqb 47) l then base_name l else if c =? 47 then l else c :: l
  end.

(** "%.14s: %.31s" in a field of a record, and the line. *)
Definition record_text (tag msg : list Z) : list Z := field_copy LOG_MAX_TEXT (take 14 tag ++ cstr ": " ++ take 31 msg).
Definition message_line (eMsgLevel : Z) (tag msg : list Z) (file : option (list Z * Z)) : list Z :=
  field_copy LOG_LINE_MAX
    (cstr "[L" ++ fmt_int eMsgLevel ++ cstr "][" ++ tag ++ cstr "]" ++
     (match file with
      | Some (f, n) => cstr "[" ++ base_name f ++ cstr ":" ++ fmt_int n ++ cstr "]"
      | None => []
      end) ++ cstr " " ++ msg).

(** The log, the record for the flash tier, and the lines printed; [msg]: the formatted
    text, [now_us]: the time of the record. *)
Definition logging_output (s : data_store_t) (d : debug_t) (c : log_core_t) (eTarget : log_target_t) (eMsgLevel : Z)
    (tag : list Z) (file : option (list Z * Z)) (msg : list Z) (now_us : Z)
    : res (log_core_t * option log_record_t * list (list Z)) :=
  got ← data_store_u32_get s DATA_LOGGING_ALLOW_REMOTE;
  let ulCfg := default 0 got in
  let bHaveCfg := negb (ulCfg =? 0) in
  let ucCfg := u8 ulCfg in
  let eThreshold := LOGGING_LEVEL_FROM_CFG ucCfg in
  let eThreshold := if eThreshold =? 0 then s_eLevel d else eThreshold in
  if eMsgLevel <? eThreshold then Ok (c, None, []) else
  let strMsg := field_copy LOG_MSG_MAX msg in
  let eLvl := record_level eMsgLevel in
  r ← (if logging_is_enabled_fast c eLvl
       then logging_emit c eLvl LOG_MOD_APP LOG_EVT_TEXT None 0 (Some (record_text tag strMsg)) now_us
       else Ok (c, None));
  let strLine := message_line eMsgLevel tag strMsg file in
  if negb bHaveCfg then Ok (r, [strLine]) else
  let bWantLocal := match eTarget with LOG_TARGET_REMOTE => false | _ => LOGGING_LOCAL_ALLOWED ucCfg end in
  let bWantRemote := match eTarget with LOG_TARGET_LOCAL => false | _ => LOGGING_REMOTE_ALLOWED ucCfg end in
  Ok (r, if (bWantLocal || bWantRemote) && default true (s_pfnConsoleUp d) then [strLine] else []).

(** [debug_init] sets the level and reports it. *)
Definition debug_init (s : data_store_t) (d : debug_t) (c : log_core_t) (eInitialLevel now_us : Z)
    : res (debug_t * (log_core_t * option log_record_t * list (list Z))) :=
  let d := debug_level_set d eInitialLevel in
  r ← logging_output s d c LOG_TARGET_LOCAL DBG_LVL_LOW (cstr "debug") None (cstr "init, level=" ++ fmt_int eInitialLevel) now_us;
  Ok (d, r).

(** ** Well-formed stores *)

Record store_ok (s : data_store_t) : Prop := {
  so_mutex : s_hMtx s = true;
  so_scale : flScale <$> s_astEntries s = k_aflScale;
  so_slots : length (s_astObs s) = MAX_OBSERVERS
}.

Lemma store_init_ok s : length (s_astObs s) = MAX_OBSERVERS → ∃ s', data_store_init s true = (true, s') ∧ store_ok s'.
Proof. intros H. eexists. split; [reflexivity|]. split; [done| |done]. vm_compute. reflexivity. Qed.

Lemma store_entry s k : store_ok s → 0 <= k < DATA_KEY_COUNT →
  ∃ e, array_get (s_astEntries s) k = Ok e ∧ k_aflScale !! Z.to_nat k = Some (flScale e) ∧ s_astEntries s !! Z.to_nat k = Some e.
Proof.
  intros [_ Hs _] Hk. unfold DATA_KEY_COUNT in Hk. assert (length (s_astEntries s) = 8%nat) as Hl.
  { rewrite <- (length_fmap flScale), Hs. reflexivity. }
  destruct (lookup_lt_is_Some_2 (s_astEntries s) (Z.to_nat k)) as [e He]; [lia|].
  exists e. split; [apply array_get_ok; [lia|done]|]. split; [|done]. by rewrite <- Hs, list_lookup_fmap, He.
Qed.

(** A write in range changes the value of its key alone. *)
Lemma set_raw_ok s k v : store_ok s → 0 <= k < DATA_KEY_COUNT →
  ∃ s' e, set_raw s k v = Ok (true, s', notify s k) ∧ store_ok s' ∧ s_astObs s' = s_astObs s ∧
    array_get (s_astEntries s') k = Ok (mk_entry v (flScale e)) ∧ k_aflScale !! Z.to_nat k = Some (flScale e) ∧
    ∀ k', k' ≠ k → 0 <= k' → array_get (s_astEntries s') k' = array_get (s_astEntries s) k'.
Proof.
  intros Hs Hk. destruct (store_entry s k Hs Hk) as (e & He & Hsc & Hl). unfold set_raw.
  rewrite (proj2 (Z.leb_gt _ _)) by lia. rewrite He. cbn [mbind res_bind].
  rewrite array_set_ok by (apply lookup_lt_Some in Hl; lia). cbn [mbind res_bind].
  eexists _, e. split; [reflexivity|]. cbn [s_astEntries s_astObs s_hMtx]. split_and!; try done.
  - split; cbn; [apply Hs| |apply Hs]. rewrite list_fmap_insert. cbn. rewrite list_insert_id; [apply Hs|].
    by rewrite list_lookup_fmap, Hl.
  - apply array_get_ok; [lia|]. apply list_lookup_insert_eq. by apply lookup_lt_Some in Hl.
  - intros k' Hne Hk'. unfold array_get. rewrite list_lookup_insert_ne by lia. done.
Qed.

(** ** Values survive *)

(** The sensor's tenths, its value as a float, and back. *)
Definition tenths (n : Z) : f32 := f32_mul (f32_of_Z n) (f32_lit 1 10).

Definition tenths_kept (n : Z) : bool :=
  match f32_trunc (f32_add (f32_div (tenths n) (f32_lit 1 10)) (if f32_ge (tenths n) f32_zero then f32_lit 1 2 else f32_lit (-1) 2)) with
  | Some z => z =? n | None => false end.

Lemma tenths_all : forallb (λ i, tenths_kept (Z.of_nat i - 1000)) (seq 0 2001) = true.
Proof. vm_compute. reflexivity. Qed.

Section convert_facts.
Context `{FloatCvt}.

Lemma tenths_raw n : -1000 <= n <= 1000 → DATA_FLOAT_TO_RAW (tenths n) (f32_lit 1 10) = n.
Proof.
  intros Hn. pose proof tenths_all as Ha. rewrite forallb_forall in Ha. specialize (Ha (Z.to_nat (n + 1000))).
  rewrite in_seq in Ha. specialize (Ha ltac:(lia)). replace (Z.of_nat (Z.to_nat (n + 1000)) - 1000) with n in Ha by lia.
  unfold tenths_kept in Ha. unfold DATA_FLOAT_TO_RAW, to_i32. destruct (f32_trunc _) as [z|]; [|done].
  apply Z.eqb_eq in Ha as ->. by rewrite decide_True by lia.
Qed.

Definition climate_key (k : Z) : Prop := k = DATA_TEMPERATURE ∨ k = DATA_HUMIDITY ∨ k = DATA_ESP_INTERNAL_TEMP.

(** a temperature or humidity of up to a hundred, in the tenths the sensors
    deliver, comes back from the store as the very same number, its observers are
    called, and every other value is untouched. *)
Theorem climate_survives_store s k n :
  store_ok s → climate_key k → -1000 <= n <= 1000 →
  ∃ s', data_store_float_set s k (tenths n) = Ok (true, s', notify s k) ∧ store_ok s' ∧
    data_store_float_get s' k = Ok (Some (tenths n)) ∧
    ∀ k', k' ≠ k → 0 <= k' → data_store_float_get s' k' = data_store_float_get s k'.
Proof.
  intros Hs Hk Hn. assert (0 <= k < DATA_KEY_COUNT) as Hr by (destruct Hk as [->|[->| ->]]; done).
  destruct (store_entry s k Hs Hr) as (e & He & Hsc & _).
  assert (flScale e = f32_lit 1 10) as He' by (destruct Hk as [->|[->| ->]]; by injection Hsc).
  destruct (set_raw_ok s k n Hs Hr) as (s' & e' & Hset & Hs' & _ & Hg & Hsc' & Ho).
  assert (flScale e' = f32_lit 1 10) as Hc by congruence. exists s'.
  unfold data_store_float_set, data_store_float_get. rewrite (so_mutex s Hs), (so_mutex s' Hs'). cbn [negb]. rewrite orb_false_r.
  rewrite (proj2 (Z.leb_gt _ _)) by lia. rewrite He. cbn [mbind res_bind]. rewrite He', tenths_raw by done.
  split_and!; [done..| |].
  - rewrite Hg. cbn [mbind res_bind]. unfold DATA_RAW_TO_FLOAT. cbn [slRaw flScale]. by rewrite Hc.
  - intros k' Hne Hk'. by rewrite Ho.
Qed.
End convert_facts.

(** A start-up whose mutex is created. *)
Definition started_store : data_store_t := (data_store_init store_zero true).2.
Lemma started_ok : store_ok started_store.
Proof. by destruct (store_init_ok store_zero) as (s' & [= <-] & H). Qed.

#[local] Instance demo_cvt : FloatCvt := {| cvt_u32_undef _ := 0; cvt_i32_undef _ := 0; lroundf_undef _ := 0 |}.

Lemma climate_survives_store_witness :
  ∃ s', data_store_float_set started_store DATA_TEMPERATURE (tenths (-73)) = Ok (true, s', []) ∧
    data_store_float_get s' DATA_TEMPERATURE = Ok (Some (tenths (-73))).
Proof.
  destruct (climate_survives_store started_store DATA_TEMPERATURE (-73) started_ok) as (s' & H1 & _ & H2 & _);
    [by left|lia|]. exists s'. split; [exact H1|exact H2].
Defined.

(** ** Observers *)

Fixpoint subscribe_all (s : data_store_t) (l : list observer_t) : res (list bool * data_store_t) :=
  match l with
  | [] => Ok ([], s)
  | o :: l => r ← data_store_observer_subscribe s (ob_key o) (Some (ob_cb o)); r' ← subscribe_all r.2 l; Ok (r.1 :: r'.1, r'.2)
  end.

Definition slots (l : list observer_t) : list (option observer_t) := (Some <$> l) ++ replicate (MAX_OBSERVERS - length l) None.

Lemma take_slot_some l o : ∀ n, take_slot ((Some <$> l) ++ replicate n None) o =
  match n with O => None | S n => Some ((Some <$> (l ++ [o])) ++ replicate n None) end.
Proof.
  induction l as [|x l IH]; intros n; [by destruct n|]. cbn. rewrite IH. by destruct n.
Qed.

Lemma subscribe_slots l : ∀ s l0,
  s_hMtx s = true → s_astObs s = slots l0 → (length l0 <= MAX_OBSERVERS)%nat →
  subscribe_all s l =
    Ok ((λ i, bool_decide (length l0 + i < MAX_OBSERVERS)%nat) <$> seq 0 (length l),
        mk_store (s_astEntries s) (slots (take MAX_OBSERVERS (l0 ++ l))) true).
Proof.
  induction l as [|o l IH]; intros s l0 Hm Ho Hl; cbn [subscribe_all].
  - rewrite app_nil_r, take_ge by lia. destruct s; cbn in *. by subst.
  - unfold data_store_observer_subscribe. rewrite Hm. cbn [negb]. rewrite Ho. unfold slots at 1. rewrite take_slot_some.
    replace (mk_observer (ob_key o) (ob_cb o)) with o by (by destruct o).
    cbn [length seq fmap list_fmap]. rewrite <- (fmap_S_seq 0), <- list_fmap_compose, Nat.add_0_r.
    destruct (MAX_OBSERVERS - length l0)%nat as [|n] eqn:E; cbn [mbind res_bind fst snd].
    + rewrite (IH s l0) by done. cbn [mbind res_bind fst snd].
      rewrite bool_decide_eq_false_2 by lia. f_equal. f_equal; [f_equal|].
      * apply list_fmap_ext. intros i x _. cbn. rewrite !bool_decide_eq_false_2 by lia. done.
      * rewrite !take_app, !(take_ge l0) by lia. replace (MAX_OBSERVERS - length l0)%nat with 0%nat by lia. done.
    + rewrite (IH _ (l0 ++ [o])); cbn [s_hMtx s_astObs s_astEntries]; [|done| |rewrite length_app; cbn; lia].
      2:{ unfold slots. rewrite length_app. cbn [length]. do 2 f_equal. lia. }
      cbn [mbind res_bind fst snd]. rewrite bool_decide_eq_true_2 by lia. rewrite <- (assoc_L app). cbn [app].
      f_equal. f_equal. f_equal. apply list_fmap_ext. intros i x _. cbn. rewrite length_app. cbn.
      apply bool_decide_ext. lia.
Qed.

Lemma notify_slots l key :
  omap (heard key) (slots l) = (λ o, (ob_cb o, key)) <$> filter (λ o, ob_key o = key ∨ ob_key o = DATA_KEY_ANY) l.
Proof.
  assert (∀ n, omap (heard key) (replicate n None) = []) as Hn by (intros n; by induction n).
  unfold slots. rewrite omap_app, Hn.
  rewrite app_nil_r. induction l as [|o l IH]; [done|]. cbn [fmap list_fmap omap list_omap heard]. rewrite IH, filter_cons.
  destruct (Z.eqb_spec (ob_key o) key), (Z.eqb_spec (ob_key o) DATA_KEY_ANY); cbn [orb];
    (rewrite decide_True by (by auto)) || (rewrite decide_False by intuition); done.
Qed.

(** of any subscriptions after the start-up exactly the first eight are accepted,
    and from then on a write to a key calls those among them that asked for this key or
    for all, once each, in the order in which they subscribed. *)
Theorem observers_see_writes s l key v :
  data_store_init store_zero true = (true, s) → 0 <= key < DATA_KEY_COUNT →
  ∃ s1 s2, subscribe_all s l = Ok ((λ i, bool_decide (i < MAX_OBSERVERS)%nat) <$> seq 0 (length l), s1) ∧
    data_store_u32_set s1 key v =
      Ok (true, s2, (λ o, (ob_cb o, key)) <$> filter (λ o, ob_key o = key ∨ ob_key o = DATA_KEY_ANY) (take MAX_OBSERVERS l)) ∧
    data_store_u32_get s2 key = Ok (Some (u32 v)).
Proof.
  intros Hi Hk. destruct (store_init_ok store_zero eq_refl) as (s' & Hi' & Hs). rewrite Hi in Hi'. injection Hi' as <-.
  pose proof (subscribe_slots l s [] (so_mutex s Hs)) as Hsub. cbn [length app] in Hsub.
  rewrite Hsub by (done || (injection Hi as <-; reflexivity) || lia).
  eexists. set (s1 := mk_store _ _ true). destruct (set_raw_ok s1 key (i32 v)) as (s2 & e & Hset & Hs2 & _ & Hg & _ & _); [|done|].
  { split; [done|apply Hs|]. unfold s1, slots. cbn. rewrite length_app, length_fmap, length_replicate, length_take. unfold MAX_OBSERVERS. lia. }
  exists s2. split; [reflexivity|]. unfold data_store_u32_set, data_store_u32_get. change (s_hMtx s1) with true. cbn [negb].
  rewrite (so_mutex s2 Hs2). cbn [negb]. rewrite !orb_false_r, !(proj2 (Z.leb_gt _ _)) by lia. split.
  - fold s1. rewrite Hset. unfold notify. change (s_astObs s1) with (slots (take MAX_OBSERVERS l)). by rewrite notify_slots.
  - rewrite Hg. cbn [mbind res_bind slRaw]. do 2 f_equal. unfold i32, signed_of, u32. cbv zeta.
    destruct (_ <? _); [by rewrite Z.mod_mod|]. cint.
Qed.

(** Nine observers, the ninth without effect; the second asks for every key. *)
Definition nine_observers : list observer_t :=
  [mk_observer 0 0; mk_observer DATA_KEY_ANY 1; mk_observer 5 2; mk_observer 6 3; mk_observer 5 4; mk_observer 0 5;
   mk_observer 0 6; mk_observer 0 7; mk_observer 5 8].

Lemma observers_see_writes_witness :
  ∃ s1 s2, subscribe_all started_store nine_observers = Ok ([true; true; true; true; true; true; true; true; false], s1) ∧
    data_store_u32_set s1 DATA_PROTOCOL_VERSION 3 = Ok (true, s2, [(1%nat, 5); (2%nat, 5); (4%nat, 5)]).
Proof.
  destruct (observers_see_writes started_store nine_observers DATA_PROTOCOL_VERSION 3 eq_refl) as (s1 & s2 & H1 & H2 & _);
    [split; done|]. exists s1, s2. split; [exact H1|exact H2].
Defined.

(** ** Where messages go *)

(** The writes of the firmware: task_measure and pump_task. *)
Definition written_keys : list Z := [DATA_TEMPERATURE; DATA_HUMIDITY; DATA_PRESSURE; DATA_ESP_INTERNAL_TEMP].

Section messages.
Context `{FloatCvt}.

Fixpoint store_run (s : data_store_t) (ws : list (Z * f32)) : res data_store_t :=
  match ws with
  | [] => Ok s
  | (k, v) :: ws => r ← data_store_float_set s k v; store_run r.1.2 ws
  end.

Lemma run_unconfigured ws : ∀ s,
  store_ok s → Forall (λ w, w.1 ∈ written_keys) ws → data_store_u32_get s DATA_LOGGING_ALLOW_REMOTE = Ok (Some 0) →
  ∃ s', store_run s ws = Ok s' ∧ store_ok s' ∧ data_store_u32_get s' DATA_LOGGING_ALLOW_REMOTE = Ok (Some 0).
Proof.
  induction ws as [|[k v] ws IH]; intros s Hs Hw Hg; [by exists s|]. apply Forall_cons in Hw as [Hk Hw]. cbn [fst] in Hk.
  assert (0 <= k < DATA_KEY_COUNT ∧ k ≠ DATA_LOGGING_ALLOW_REMOTE) as [Hr Hne].
  { unfold written_keys in Hk. rewrite !elem_of_cons, elem_of_nil in Hk.
    unfold DATA_KEY_COUNT, DATA_LOGGING_ALLOW_REMOTE, DATA_TEMPERATURE, DATA_HUMIDITY, DATA_PRESSURE, DATA_ESP_INTERNAL_TEMP in *. lia. }
  destruct (store_entry s k Hs Hr) as (e & He & _).
  destruct (set_raw_ok s k (DATA_FLOAT_TO_RAW v (flScale e)) Hs Hr) as (s1 & e1 & Hset & Hs1 & _ & _ & _ & Ho).
  cbn [store_run]. unfold data_store_float_set. rewrite (so_mutex s Hs), (proj2 (Z.leb_gt _ _)) by lia. cbn [negb orb].
  rewrite He. cbn [mbind res_bind]. rewrite Hset. cbn [mbind res_bind fst snd]. apply IH; [done..|].
  unfold data_store_u32_get in *. rewrite (so_mutex s Hs) in Hg. rewrite (so_mutex s1 Hs1). by rewrite Ho by done.
Qed.

(** the configuration of the message output is never written: after any run of the
    firmware's writes a message of at least the default level is printed, to whatever
    target it is addressed and although the console probe denies a console, and its
    text record is complete in the field it goes to; a lower level is dropped. *)
Theorem messages_always_leave ws d c target level tag file msg now :
  Forall (λ w, w.1 ∈ written_keys) ws →
  ∃ s, store_run started_store ws = Ok s ∧
    logging_output s d c target level tag file msg now =
      (if level <? s_eLevel d then Ok (c, None, [])
       else r ← (if logging_is_enabled_fast c (record_level level)
                 then logging_emit c (record_level level) LOG_MOD_APP LOG_EVT_TEXT None 0
                        (Some (record_text tag (field_copy LOG_MSG_MAX msg))) now
                 else Ok (c, None));
            Ok (r, [message_line level tag (field_copy LOG_MSG_MAX msg) file])) ∧
    record_text tag (field_copy LOG_MSG_MAX msg) = take 14 tag ++ cstr ": " ++ take 31 msg.
Proof.
  intros Hw. destruct (run_unconfigured ws started_store started_ok Hw) as (s & Hrun & _ & Hg); [vm_compute; reflexivity|].
  exists s. split; [done|]. split.
  - unfold logging_output. rewrite Hg. cbn [mbind res_bind]. change (default 0 (Some 0)) with 0.
    change (LOGGING_LEVEL_FROM_CFG (u8 0) =? 0) with true. change (0 =? 0) with true. cbn [negb]. by destruct (level <? s_eLevel d).
  - unfold record_text, field_copy. rewrite take_take, (Nat.min_l 31) by (unfold LOG_MSG_MAX; lia).
    apply take_ge. rewrite !length_app, !length_take. unfold LOG_MAX_TEXT. cbn [cstr length]. change (length (cstr ": ")) with 2%nat. lia.
Qed.
End messages.

(** A pressure is stored; a message to the server is printed with the console down. *)
Lemma messages_always_leave_witness :
  ∃ s, store_run started_store [(DATA_PRESSURE, f32_of_Z 3)] = Ok s ∧
    match logging_output s (debug_console_probe_set debug_zero (Some false)) (logging_init_early 5 (replicate 256 0)) LOG_TARGET_REMOTE
            DBG_LVL_LOW (cstr "main") None (cstr "hello") 1000000 with
    | Ok (_, Some r, lines) => lg_text r = cstr "main: hello" ∧ lines = [cstr "[L3][main] hello"]
    | _ => False
    end.
Proof.
  destruct (messages_always_leave [(DATA_PRESSURE, f32_of_Z 3)] (debug_console_probe_set debug_zero (Some false))
              (logging_init_early 5 (replicate 256 0)) LOG_TARGET_REMOTE DBG_LVL_LOW (cstr "main") None (cstr "hello") 1000000)
    as (s & H1 & H2 & _).
  - apply Forall_cons. split; [|by apply Forall_nil]. cbn. unfold written_keys. set_solver.
  - exists s. split; [exact H1|]. rewrite H2. vm_compute. split; reflexivity.
Defined.
