(* ===== verification/MeasureTask.v ===== *)
(** * The climate task and the task table: [task_measure.c], [task_table.c]

    Models src/src/device/task_measure.c (chip temperature every cycle, climate every
    minute, the report of a silent sensor), the temperature and console probes of
    src/src/device/hal.c, and src/src/main/task_table.c (the project's four tasks and
    their supervised cycles).

    A reading of the climate sensor with its diagnosis (Am2302) is an argument, as is
    the tick counter; [tick_ms] is the length of a tick.

    [climate_outage_reported_once]: the third miss in a row is reported, later ones are
    not, and the next reading reports the recovery with the length of the outage.
    [measure_cycle_touches_climate_only]: a cycle ends, and what it writes.
    [project_tasks_start]: the table registers and starts completely. *)

From Stdlib Require Import SpecFloat.
From S2P Require Import Prelude Bytes Float32 Float64 DpCatalog Datapoints DpProps Hal PumpTask PumpTaskProps TaskManager Watchdog Am2302 LogRing LogCore DataStore.
Local Open Scope string_scope.
Local Open Scope list_scope.
Local Open Scope Z_scope.

(** ** [hal.c] *)

(** [tsens]: the sensor was set up; [celsius]: its answer. *)
Definition hal_internal_temp_read (tsens : bool) (celsius : option f32) : option f32 :=
  if negb tsens then None else celsius.

(** The console probe is a constant. *)
Definition hal_usb_connected_get : bool := true.

(** ** State *)

Definition MEASURE_PRESSURE_PERIOD_MS : Z := 5000.
Definition MEASURE_CLIMATE_PERIOD_MS : Z := 60000.
Definition LOG_EVT_CLIMATE_FAIL : Z := 120.
Definition LOG_EVT_DHT_SCAN : Z := 122.

Record measure_t := mk_measure {
  s_ulLastClimate : Z;
  s_bClimateDone : bool;
  s_ucClimateFails : Z;
  s_ulTestBlockS : Z
}.
#[export] Instance eta_measure : Eta measure_t := λ r, mk_measure (s_ulLastClimate r) (s_bClimateDone r) (s_ucClimateFails r) (s_ulTestBlockS r).
#[export] Instance set_s_ulLastClimate : Setter s_ulLastClimate. Proof. mk_setter. Defined.
#[export] Instance set_s_bClimateDone : Setter s_bClimateDone. Proof. mk_setter. Defined.
#[export] Instance set_s_ucClimateFails : Setter s_ucClimateFails. Proof. mk_setter. Defined.
#[export] Instance set_s_ulTestBlockS : Setter s_ulTestBlockS. Proof. mk_setter. Defined.

Definition measure_zero : measure_t := mk_measure 0 false 0 0.

(** A record with its level, event and two arguments; a delay in milliseconds. *)
Inductive measure_out := MLog (level event a b : Z) | MBlock (ms : Z).

(** ** Operations *)

Definition fail_args (ePin : Z) (d : dht_diag) : Z :=
  u32 (Z.lor (Z.lor (Z.shiftl ePin 8) (Z.shiftl (am2302_last_fail_phase_get d) 16))
             (Z.shiftl (if am2302_last_idle_level_get d then 1 else 0) 24)).

(** The misses in a row and the records; [reading]: temperature and humidity. *)
Definition climate_report (ePin fails : Z) (reading : option (f32 * f32)) (d : dht_diag) : Z * list measure_out :=
  match reading with
  | Some _ => (0, if 3 <=? fails then [MLog LOG_LEVEL_INFO LOG_EVT_CLIMATE_FAIL fails (u32 (Z.lor 1 (Z.shiftl ePin 8)))] else [])
  | None =>
      let fails := if fails <? 255 then fails + 1 else fails in
      (fails, (if fails =? 3 then [MLog LOG_LEVEL_WARN LOG_EVT_CLIMATE_FAIL fails (fail_args ePin d)] else []) ++
              (if (fails =? 3) && (am2302_last_fail_phase_get d =? 2)
               then [MLog LOG_LEVEL_WARN LOG_EVT_DHT_SCAN 254 (am2302_last_low_extra_us_get d)] else []))
  end.

Definition climate_sensor_poll (ePin fails : Z) (img : list Z) (reading : option (f32 * f32)) (d : dht_diag)
    : res (Z * list Z * list measure_out) :=
  let r := climate_report ePin fails reading d in
  img ← match reading with
        | Some (t, h) => dp_refs_put img [("Ambient_Temperature", CFlt t); ("Ambient_Humidity", CFlt h)]
        | None => Ok img
        end;
  Ok (r.1, img, r.2).

Definition task_measure_test_block_set (m : measure_t) (ulSeconds : Z) : measure_t := m <| s_ulTestBlockS := ulSeconds |>.

Definition measure_task_start (m : measure_t) : esp_err * measure_t :=
  (ESP_OK, m <| s_ulLastClimate := 0 |> <| s_bClimateDone := false |>).

Section cycle.
Context `{FloatCvt}.
Variable tick_ms : Z.

(** Due: never polled, or the unsigned difference of the ticks in milliseconds. *)
Definition climate_due (m : measure_t) (ulNow : Z) : bool :=
  negb (s_bClimateDone m) || (MEASURE_CLIMATE_PERIOD_MS <=? u32 (u32 (ulNow - s_ulLastClimate m) * tick_ms)).

(** What a cycle meets: the chip temperature, the ticks, and the climate sensor. *)
Record measure_io := mk_measure_io {
  mi_temp : option f32;
  mi_now : Z;
  mi_reading : option (f32 * f32);
  mi_diag : dht_diag
}.

Definition measure_task_cycle (ePin : Z) (m : measure_t) (ds : data_store_t) (img : list Z) (io : measure_io)
    : res (measure_t * data_store_t * list Z * list measure_out) :=
  let '(m, o) := if negb (s_ulTestBlockS m =? 0) then (m <| s_ulTestBlockS := 0 |>, [MBlock (u32 (s_ulTestBlockS m * 1000))]) else (m, []) in
  '(ds, img) ← match mi_temp io with
               | Some t => r ← data_store_float_set ds DATA_ESP_INTERNAL_TEMP t;
                           img ← dp_refs_put img [("System_Temperature", CFlt t)]; Ok (r.1.2, img)
               | None => Ok (ds, img)
               end;
  if negb (climate_due m (mi_now io)) then Ok (m, ds, img, o) else
  p ← climate_sensor_poll ePin (s_ucClimateFails m) img (mi_reading io) (mi_diag io);
  let img := p.1.2 in
  t ← ref_f32 img "Ambient_Temperature";
  r ← data_store_float_set ds DATA_TEMPERATURE t;
  h ← ref_f32 img "Ambient_Humidity";
  r ← data_store_float_set r.1.2 DATA_HUMIDITY h;
  Ok (m <| s_ucClimateFails := p.1.1 |> <| s_ulLastClimate := mi_now io |> <| s_bClimateDone := true |>, r.1.2, img, o ++ p.2).
End cycle.

(** ** The task table *)

(** A cycle reports to the watchdog only when it succeeded. *)
Definition cycle_supervised {A} (channel : Z) (cycle : esp_err * A) (wd : wd_state) (now_us : Z) : esp_err * A * wd_state * list wd_action :=
  let '(err, a) := cycle in
  if bool_decide (err = ESP_OK) then let '(wd, o) := wd_heartbeat wd channel now_us in (err, a, wd, o) else (err, a, wd, []).
Definition measure_cycle_supervised {A} (c : esp_err * A) := cycle_supervised WD_CH_MEASURE c.
Definition monitor_cycle_supervised {A} (c : esp_err * A) := cycle_supervised WD_CH_MONITOR c.
Definition pump_cycle_supervised {A} (c : esp_err * A) := cycle_supervised WD_CH_PUMP c.
Definition canopen_cycle_supervised {A} (c : esp_err * A) := cycle_supervised WD_CH_CANOPEN c.

(** The rows in the order of [tm_task_id_t]. *)
Definition s_astDefs : list tm_periodic_task_def_t :=
  [mk_task_def (Some "task_measure") true true true MEASURE_PRESSURE_PERIOD_MS 2000 4096 4 1 true;
   mk_task_def (Some "main_monitor") false true false 5000 1000 4096 3 0 true;
   mk_task_def (Some "pump_task") false true false 200 100 4096 6 1 true;
   mk_task_def (Some "canopen") false true false 10 500 6144 5 0 true].

Section table.
Variable pdMS_TO_TICKS : Z → Z.
Variable configMAX_TASK_NAME_LEN : nat.

(** The loop stops at the first error; [sems]: which semaphores can be created. *)
Fixpoint register_rows (s : tm_state) (id : nat) (rows : list tm_periodic_task_def_t) (sems : nat → bool) : esp_err * tm_state :=
  match rows with
  | [] => (ESP_OK, s)
  | d :: rows =>
      match tm_register_periodic pdMS_TO_TICKS configMAX_TASK_NAME_LEN s id (Some d) (sems id) with
      | (ESP_OK, s) => register_rows s (S id) rows sems
      | (err, s) => (err, s)
      end
  end.
Definition task_table_register_all (s : tm_state) (sems : nat → bool) : esp_err * tm_state := register_rows s 0 s_astDefs sems.
End table.

(** ** Outages *)

Definition poll : Type := option (f32 * f32) * dht_diag.

(** The counter after a run of polls. *)
Definition fails_after (ePin : Z) (ps : list poll) : Z :=
  foldl (λ fails p, (climate_report ePin fails p.1 p.2).1) 0 ps.

(** The misses at the end of a run. *)
Definition misses (ps : list poll) : nat := foldl (λ n p, match p.1 with Some _ => 0%nat | None => S n end) 0%nat ps.

Lemma fails_after_misses ePin ps : fails_after ePin ps = Z.min 255 (Z.of_nat (misses ps)).
Proof.
  unfold fails_after, misses. induction ps as [|[r d] ps IH] using rev_ind; [done|]. rewrite !foldl_app. cbn [foldl fst snd].
  rewrite IH. destruct r; [done|]. unfold climate_report. cbn [fst]. destruct (Z.ltb_spec (Z.min 255 (Z.of_nat
    (foldl (λ n p, match p.1 with Some _ => 0%nat | None => S n end) 0%nat ps))) 255); lia.
Qed.

(** however long the sensor has been read, a poll writes a record exactly in two
    cases: it is the third miss in a row, which is reported with pin, phase and idle
    level (and, for a line that stays low, how long), or it succeeds after at least
    three misses, which is reported with their number, counted up to 255. *)
Theorem climate_outage_reported_once ePin ps reading d :
  (climate_report ePin (fails_after ePin ps) reading d).2 =
    match reading with
    | Some _ => if decide (3 <= misses ps)%nat
                then [MLog LOG_LEVEL_INFO LOG_EVT_CLIMATE_FAIL (Z.min 255 (Z.of_nat (misses ps))) (u32 (Z.lor 1 (Z.shiftl ePin 8)))] else []
    | None => if decide (misses ps = 2%nat)
              then MLog LOG_LEVEL_WARN LOG_EVT_CLIMATE_FAIL 3 (fail_args ePin d) ::
                   (if am2302_last_fail_phase_get d =? 2
                    then [MLog LOG_LEVEL_WARN LOG_EVT_DHT_SCAN 254 (am2302_last_low_extra_us_get d)] else [])
              else []
    end.
Proof.
  rewrite fails_after_misses. unfold climate_report. destruct reading; cbn [snd].
  - case_decide as Hm; destruct (Z.leb_spec 3 (Z.min 255 (Z.of_nat (misses ps)))); (done || lia).
  - case_decide as Hm.
    + rewrite Hm. change (Z.min 255 (Z.of_nat 2) <? 255) with true. cbv iota. by destruct (_ =? 2).
    + assert (∀ f, f = (if Z.min 255 (Z.of_nat (misses ps)) <? 255 then Z.min 255 (Z.of_nat (misses ps)) + 1 else Z.min 255 (Z.of_nat (misses ps))) →
                   (f =? 3) = false) as Hf.
      { intros f ->. apply Z.eqb_neq. destruct (Z.ltb_spec (Z.min 255 (Z.of_nat (misses ps))) 255); lia. }
      by rewrite (Hf _ eq_refl).
Qed.

(** ** A cycle *)

Section cycle_facts.
Context `{FloatCvt}.

Lemma float_set_safe ds k v : store_ok ds → 0 <= k < DATA_KEY_COUNT →
  ∃ ds', data_store_float_set ds k v = Ok (true, ds', notify ds k) ∧ store_ok ds'.
Proof.
  intros Hs Hk. destruct (store_entry ds k Hs Hk) as (e & He & _).
  destruct (set_raw_ok ds k (DATA_FLOAT_TO_RAW v (flScale e)) Hs Hk) as (ds' & _ & Hset & Hs' & _).
  exists ds'. split; [|done]. unfold data_store_float_set. rewrite (so_mutex ds Hs), (proj2 (Z.leb_gt _ _)) by lia. cbn [negb orb].
  rewrite He. exact Hset.
Qed.

(** A float through its four bytes. *)
Definition stored (t : f32) : f32 := f32_of_bits (le_get (le_put 4 (f32_bits t))).

Definition climate_names : list string := ["System_Temperature"; "Ambient_Temperature"; "Ambient_Humidity"].

Lemma put_temperature img t : img_typed img →
  ∃ img', dp_refs_put img [("System_Temperature", CFlt t)] = Ok img' ∧ sets_only ["System_Temperature"] img img' ∧
    ref_f32 img' "System_Temperature" = Ok (stored t).
Proof.
  intros Ht. pose proof (refs_put_ok [("System_Temperature", CFlt t)] img Ht) as Hs.
  apply safe_ok in Hs as (img' & E & Hp); [|apply NoDup_singleton|vm_compute; reflexivity]. exists img'. split; [done|]. split; [split; [apply Hp|]|].
  - intros n Hn. apply Hp. exact Hn.
  - destruct (dp_find "System_Temperature") as [d|] eqn:Ed; [|by vm_compute in Ed].
    unfold ref_f32. rewrite (ps_put _ _ _ Hp _ (CFlt t) d); [|by left|done].
    vm_compute in Ed. injection Ed as <-. reflexivity.
Qed.

Lemma put_climate img t h : img_typed img →
  ∃ img', dp_refs_put img [("Ambient_Temperature", CFlt t); ("Ambient_Humidity", CFlt h)] = Ok img' ∧
    sets_only ["Ambient_Temperature"; "Ambient_Humidity"] img img' ∧
    ref_f32 img' "Ambient_Temperature" = Ok (stored t) ∧
    ref_f32 img' "Ambient_Humidity" = Ok (stored h).
Proof.
  intros Ht. pose proof (refs_put_ok [("Ambient_Temperature", CFlt t); ("Ambient_Humidity", CFlt h)] img Ht) as Hs.
  apply safe_ok in Hs as (img' & E & Hp); [|apply NoDup_cons; split; [set_solver|apply NoDup_singleton]|vm_compute; reflexivity].
  exists img'. split; [done|]. split; [split; [apply Hp|]|].
  - intros n Hn. apply Hp. exact Hn.
  - destruct (dp_find "Ambient_Temperature") as [d|] eqn:Ed; [|by vm_compute in Ed].
    destruct (dp_find "Ambient_Humidity") as [d'|] eqn:Ed'; [|by vm_compute in Ed'].
    unfold ref_f32. rewrite (ps_put _ _ _ Hp _ (CFlt t) d), (ps_put _ _ _ Hp _ (CFlt h) d'); [|by right; left|done|by left|done].
    vm_compute in Ed, Ed'. injection Ed as <-. injection Ed' as <-. split; reflexivity.
Qed.

(** The two writes of a cycle, each with or without a reading. *)
Lemma store_temp ds img temp : img_typed img → store_ok ds →
  ∃ ds1 img1, match temp with
       | Some t => r ← data_store_float_set ds DATA_ESP_INTERNAL_TEMP t;
                   img ← dp_refs_put img [("System_Temperature", CFlt t)]; Ok (r.1.2, img)
       | None => Ok (ds, img) end = Ok (ds1, img1) ∧ store_ok ds1 ∧ sets_only ["System_Temperature"] img img1 ∧
       (∀ t, temp = Some t → ref_f32 img1 "System_Temperature" = Ok (stored t)).
Proof.
  intros Ht Hs. destruct temp as [t|]; [|by exists ds, img].
  destruct (float_set_safe ds DATA_ESP_INTERNAL_TEMP t Hs) as (ds1 & -> & Hs1); [done|].
  destruct (put_temperature img t Ht) as (img1 & E & H1 & Hr). cbn [mbind res_bind fst snd]. rewrite E. cbn [mbind res_bind].
  exists ds1, img1. split; [done|]. split; [done|]. split; [done|]. by intros ? [= ->].
Qed.

Lemma store_climate img (reading : option (f32 * f32)) : img_typed img →
  ∃ img', match reading with
       | Some (t, h) => dp_refs_put img [("Ambient_Temperature", CFlt t); ("Ambient_Humidity", CFlt h)]
       | None => Ok img end = Ok img' ∧ sets_only ["Ambient_Temperature"; "Ambient_Humidity"] img img' ∧
       match reading with
       | Some (t, h) => ref_f32 img' "Ambient_Temperature" = Ok (stored t) ∧ ref_f32 img' "Ambient_Humidity" = Ok (stored h)
       | None => img' = img end.
Proof.
  intros Ht. destruct reading as [[t h]|]; [|by exists img; split_and!; [|split|]].
  destruct (put_climate img t h Ht) as (img2 & ? & ? & ?). by exists img2.
Qed.

(** The tick difference survives the wrap of the counter. *)
Lemma due_real tick_ms m t0 t :
  s_bClimateDone m = true → s_ulLastClimate m = u32 t0 → t0 <= t → 0 < tick_ms → (t - t0) * tick_ms < 4294967296 →
  climate_due tick_ms m (u32 t) = (MEASURE_CLIMATE_PERIOD_MS <=? (t - t0) * tick_ms).
Proof.
  intros Hd Hl Ht Hk Hs. unfold climate_due. rewrite Hd, Hl. cbn [negb orb].
  assert (t - t0 < 4294967296) by nia.
  replace (u32 (u32 t - u32 t0)) with (t - t0) by cint. by rewrite u32_id by (unfold is_u32; nia).
Qed.

(** on any well-typed image and started store a cycle ends; it changes no other
    datapoints than the chip temperature and the climate, which then hold what was
    read; it polls the climate exactly when due, and a poll that fails leaves the last
    reading in place. *)
Theorem measure_cycle_touches_climate_only tick_ms ePin m ds img io :
  img_typed img → store_ok ds →
  ∃ m' ds' img' o, measure_task_cycle tick_ms ePin m ds img io = Ok (m', ds', img', o) ∧ store_ok ds' ∧
    sets_only climate_names img img' ∧ s_ulTestBlockS m' = 0 ∧
    (∀ t, mi_temp io = Some t → ref_f32 img' "System_Temperature" = Ok (stored t)) ∧
    let amb i := (dp_ref i "Ambient_Temperature", dp_ref i "Ambient_Humidity") in
    if climate_due tick_ms m (mi_now io) then
      s_ulLastClimate m' = mi_now io ∧ s_bClimateDone m' = true ∧
      s_ucClimateFails m' = (climate_report ePin (s_ucClimateFails m) (mi_reading io) (mi_diag io)).1 ∧
      match mi_reading io with
      | Some (t, h) => ref_f32 img' "Ambient_Temperature" = Ok (stored t) ∧ ref_f32 img' "Ambient_Humidity" = Ok (stored h)
      | None => amb img' = amb img
      end
    else m' = m <| s_ulTestBlockS := 0 |> ∧ amb img' = amb img.
Proof.
  intros Ht Hs. unfold measure_task_cycle.
  assert (∃ o, (if negb (s_ulTestBlockS m =? 0) then (m <| s_ulTestBlockS := 0 |>, [MBlock (u32 (s_ulTestBlockS m * 1000))]) else (m, []))
               = (m <| s_ulTestBlockS := 0 |>, o)) as (o & ->).
  { destruct (Z.eqb_spec (s_ulTestBlockS m) 0) as [E|E]; cbn [negb]; eexists; [|reflexivity]. f_equal. destruct m. cbn in E. by subst. }
  destruct (store_temp ds img (mi_temp io) Ht Hs) as (ds1 & img1 & -> & Hs1 & H1 & Hsys).
  cbn [mbind res_bind]. replace (climate_due tick_ms (m <| s_ulTestBlockS := 0 |>) (mi_now io)) with (climate_due tick_ms m (mi_now io)) by done.
  destruct (climate_due tick_ms m (mi_now io)); cbn [negb].
  2:{ eexists _, _, _, _. split; [reflexivity|]. split; [done|]. split.
      { split; [apply H1|]. intros n Hn. apply H1. unfold climate_names in Hn. set_solver. }
      split; [done|]. split; [done|]. split; [done|]. f_equal; apply H1; set_solver. }
  unfold climate_sensor_poll. replace (s_ucClimateFails (m <| s_ulTestBlockS := 0 |>)) with (s_ucClimateFails m) by done.
  set (rep := climate_report _ _ _ _).
  destruct (store_climate img1 (mi_reading io) (proj1 H1)) as (img2 & -> & H2 & Hr).
  cbn [mbind res_bind fst snd].
  destruct (proj1 (safe_ok _ _) (ref_f32_safe img2 "Ambient_Temperature" (proj1 H2) ltac:(vm_compute; reflexivity))) as (t & -> & _). cbn [mbind res_bind].
  destruct (float_set_safe ds1 DATA_TEMPERATURE t Hs1) as (ds2 & -> & Hs2); [done|]. cbn [mbind res_bind fst snd].
  destruct (proj1 (safe_ok _ _) (ref_f32_safe img2 "Ambient_Humidity" (proj1 H2) ltac:(vm_compute; reflexivity))) as (h & -> & _). cbn [mbind res_bind].
  destruct (float_set_safe ds2 DATA_HUMIDITY h Hs2) as (ds3 & -> & Hs3); [done|]. cbn [mbind res_bind fst snd].
  eexists _, _, _, _. split; [reflexivity|]. split; [done|]. split; [by apply (sets_only_trans [_] [_; _] _ img1)|].
  split; [done|]. split.
  - intros u Hu. unfold ref_f32. destruct H2 as [_ ->]; [|set_solver]. by apply Hsys.
  - split; [done|]. split; [done|]. split; [done|]. destruct (mi_reading io) as [[u v]|]; [done|]. subst img2.
    f_equal; apply H1; set_solver.
Qed.
End cycle_facts.

#[local] Instance demo_cvt : FloatCvt := {| cvt_u32_undef _ := 0; cvt_i32_undef _ := 0; lroundf_undef _ := 0 |}.

Lemma measure_cycle_touches_climate_only_witness :
  ∃ m' ds' img' o, measure_task_cycle 10 6 measure_zero started_store default_image
      (mk_measure_io (Some (f32_of_Z 40)) 500 (Some (tenths 215, tenths 473)) (mk_diag 0 true 0)) = Ok (m', ds', img', o) ∧
    s_ulLastClimate m' = 500 ∧ s_bClimateDone m' = true ∧ ref_f32 img' "Ambient_Temperature" = Ok (stored (tenths 215)).
Proof.
  destruct (measure_cycle_touches_climate_only 10 6 measure_zero started_store default_image
      (mk_measure_io (Some (f32_of_Z 40)) 500 (Some (tenths 215, tenths 473)) (mk_diag 0 true 0)))
    as (m' & ds' & img' & o & H1 & _ & _ & _ & _ & H2 & H3 & _ & H4 & _); [apply defaults_typed|apply started_ok|].
  exists m', ds', img', o. exact (conj H1 (conj H2 (conj H3 H4))).
Defined.

(** ** The table starts *)

(** with the resources available, the project's table registers completely on a
    fresh task manager, and then all four tasks are started, each on its own slot. *)
Theorem project_tasks_start (pdMS_TO_TICKS : Z → Z) (configMAX_TASK_NAME_LEN : nat) :
  ∃ s1 s2, task_table_register_all pdMS_TO_TICKS configMAX_TASK_NAME_LEN (tm_init tm_zero true).2 (λ _, true) = (ESP_OK, s1) ∧
    tm_start_all s1 (λ _, true) = (ESP_OK, s2) ∧
    (λ w, (w_handle w, w_slot w)) <$> tm_tasks s2 = [(0%nat, 0%nat); (1%nat, 1%nat); (2%nat, 2%nat); (3%nat, 3%nat)] ∧
    (λ i, sl_used (slot s2 i)) <$> seq 0 TASK_MANAGER_MAX_TASKS = [true; true; true; true; false; false; false; false].
Proof.
  eexists _, _. split; [vm_compute; reflexivity|]. split; [vm_compute; reflexivity|]. split; vm_compute; reflexivity.
Qed.
