(* ===== verification/Monitor.v ===== *)
(** * The main module: [main.c], [system.c]

    Models src/src/main/main.c (the monitor cycle, the credentials, the start-up
    sequence with its failure path) and src/src/core/system.c (the reboot).  The glue
    of the power and link modes is in PowerMgmt, that of the LEDs in StatusLed.

    What FreeRTOS and the drivers answer is an argument of the cycle ([monitor_io]).
    The start-up is the list of its calls; a call that the code checks is fatal.

    [cpu_utilization_in_range]: no run divides by zero or leaves 0 to 100 per cent, and
    between two readings of counters that did not wrap it is the exact share.
    [low_memory_reported_once]: one event per dip below 40 KiB.
    [monitor_mirrors_the_system]: what a cycle shows and switches.
    [failed_start_is_safe]: a start-up that fails stops there and takes the failure path.
    The start-up is a list of calls: the relay and the restart are entries of it, and
    the tasks that are already running when a late step fails do not run in it. *)

From Stdlib Require Import SpecFloat.
From S2P Require Import Prelude Bytes Float32 Float64 DpCatalog Datapoints DpProps Hal PressureRing PumpTask PumpTaskProps NetworkConfig NetworkConfigProps LogRing LogCore LogFlash FpAuth WlanCom.
Local Open Scope string_scope.
Local Open Scope list_scope.
Local Open Scope Z_scope.

(** ** The processor load *)

Record cpu_t := mk_cpu { s_ullPrevIdle : Z; s_ullPrevTotal : Z }.

Definition cpu_zero : cpu_t := mk_cpu 0 0.

(** [strncmp(name, "IDLE", 4) == 0]. *)
Definition is_idle (name : string) : bool := bool_decide (String.substring 0 4 name = "IDLE").

Definition idle_sum (tasks : list (string * Z)) : Z :=
  foldl (λ acc t, if is_idle t.1 then u64 (acc + t.2) else acc) 0 tasks.

(** [stats]: the tasks with their runtime counters and the total, or no memory. *)
Definition cpu_utilization_pct (s : cpu_t) (stats : option (list (string * Z) * Z)) : res (Z * cpu_t) :=
  match stats with
  | None => Ok (0, s)
  | Some (tasks, ulTotalNow) =>
      let ullIdle := idle_sum tasks in
      let ullDTotal := u64 (ulTotalNow - s_ullPrevTotal s) in
      let ullDIdle := u64 (ullIdle - s_ullPrevIdle s) in
      let s := mk_cpu ullIdle ulTotalNow in
      if (s_ullPrevTotal s =? ullDTotal) || (ullDTotal =? 0) then Ok (0, s) else
      let ullCapacity := u64 (ullDTotal * 2) in
      let ullDIdle := if ullCapacity <? ullDIdle then ullCapacity else ullDIdle in
      if ullCapacity =? 0 then OutOfBounds
      else Ok (u8 (u64 (100 - u64 (ullDIdle * 100) / ullCapacity)), s)
  end.

Fixpoint cpu_run (s : cpu_t) (rs : list (option (list (string * Z) * Z))) : res (list Z * cpu_t) :=
  match rs with
  | [] => Ok ([], s)
  | r :: rs => p ← cpu_utilization_pct s r; q ← cpu_run p.2 rs; Ok (p.1 :: q.1, q.2)
  end.

(** ** Low memory *)

(** [s_bLowMemWarned] and whether the event is published. *)
Definition low_memory_watch (s_bLowMemWarned : bool) (ulFree : Z) : bool * bool :=
  if (ulFree <? 40 * 1024) && negb s_bLowMemWarned then (true, true)
  else if 48 * 1024 <? ulFree then (false, false)
  else (s_bLowMemWarned, false).

(** ** The monitor cycle *)

(** The smallest watermark of the managed tasks, zero if there is none. *)
Definition min_stack (wms : list Z) : Z :=
  let m := foldl (λ m w, if (0 <? w) && (u32 w <? m) then u32 w else m) 4294967295 wms in
  if m =? 4294967295 then 0 else m.

(** What a cycle reads: timer, heap (least and current), disconnects, tasks, event
    drops, watermarks, signal strength and the size of the next partition. *)
Record monitor_io := mk_monitor_io {
  mo_us : Z;
  mo_min_heap : Z;
  mo_free_heap : Z;
  mo_disconnects : Z;
  mo_tasks : option (list (string * Z) * Z);
  mo_drops : Z;
  mo_watermarks : list Z;
  mo_ap : option Z;
  mo_next_part : option Z
}.

Record monitor_t := mk_monitor {
  mn_cpu : cpu_t;
  mn_low_warned : bool;
  mn_img : list Z;
  mn_log : log_core_t;
  mn_flash : log_flash_t;
  mn_ring : pressure_ring_t
}.

(** The calls a cycle makes, in their order. *)
Inductive monitor_out := EvtLowMemory (ulFree : Z) | PowerTick | LinkTick | TrialTick | EvtMonitorTick.

Definition system_points (io : monitor_io) (pct : Z) : list (string * dp_const) :=
  [("System_Uptime", CInt (u32 (mo_us io / 1000000))); ("System_Min_Memory_Free", CInt (u32 (mo_min_heap io)));
   ("System_Reconnect_Count", CInt (mo_disconnects io)); ("System_Utilization", CInt pct);
   ("System_Event_Drops", CInt (mo_drops io)); ("System_Min_Stack_Free", CInt (min_stack (mo_watermarks io)))].

Definition log_points (c : log_core_t) (f : log_flash_t) : list (string * dp_const) :=
  [("Log_Next_Seq", CInt (ls_next_seq (logging_stats_get c))); ("Log_Dropped", CInt (ls_dropped (logging_stats_get c)));
   ("Log_Dropped_Flash", CInt (logging_flash_dropped_get f));
   ("Log_Prev_Boot_Available", CInt (if (logging_previous_boot_available f).1 then 1 else 0))].

Definition history_points (r : pressure_ring_t) : list (string * dp_const) :=
  let st := PressureRing.stats_fill_locked r in
  [("Pressure_Hist_Next_Seq", CInt (st_next_seq st)); ("Pressure_Hist_Overwritten", CInt (st_overwritten st));
   ("Pressure_Hist_Highwater", CInt (st_high_watermark st))].

Definition radio_points (io : monitor_io) : list (string * dp_const) :=
  (match mo_ap io with Some r => [("System_RSSI", CInt (i8 r))] | None => [] end) ++
  (match mo_next_part io with Some z => [("System_Flash_Free", CInt z)] | None => [] end).

(** The gates follow their datapoints. *)
Definition apply_log_config (img : list Z) (c : log_core_t) (f : log_flash_t) : res (log_core_t * log_flash_t) :=
  en ← ref_uint img "Log_Enabled";
  rt ← ref_uint img "Log_Runtime_Level";
  fl ← ref_uint img "Log_Flash_Level";
  Ok (logging_set_runtime_level (logging_set_enabled c (negb (en =? 0))) rt, logging_set_flash_level f fl).

Definition main_monitor_cycle (s : monitor_t) (io : monitor_io) : res (esp_err * monitor_t * list monitor_out) :=
  cpu ← cpu_utilization_pct (mn_cpu s) (mo_tasks io);
  img ← dp_refs_put (mn_img s) (system_points io cpu.1);
  let low := low_memory_watch (mn_low_warned s) (mo_free_heap io) in
  img ← dp_refs_put img (log_points (mn_log s) (mn_flash s));
  lf ← apply_log_config img (mn_log s) (mn_flash s);
  img ← dp_refs_put img (history_points (mn_ring s) ++ radio_points io);
  Ok (ESP_OK, mk_monitor cpu.2 low.1 img lf.1 lf.2 (mn_ring s),
      (if low.2 then [EvtLowMemory (mo_free_heap io)] else []) ++ [PowerTick; LinkTick; TrialTick; EvtMonitorTick]).

(** ** Credentials *)

Definition WIFI_SSID_FALLBACK : list Z := [].
Definition WIFI_PASS_FALLBACK : list Z := [].

Section credentials.
Context {nvs : Type} `{!NvsApi nvs}.

(** Name and password to connect with, and the datapoints with their flash; [saved]:
    what the driver has stored, [opened], [committed]: the answers of the save. *)
Definition wlan_credentials_resolve (w : wlan_t) (s : dp_state) (n : nvs) (saved : option (list Z * list Z)) (opened committed : esp_err)
    : res (list Z * list Z * dp_state * nvs) :=
  ssid ← dp_str (g_dp_store s) "Network_SSID";
  pass ← dp_str (g_dp_store s) "Network_Password";
  if negb (bool_decide (ssid = [])) then Ok (ssid, pass, s, n) else
  r ← wlan_com_saved_credentials_get w saved 64 64;
  match r with
  | None => Ok (WIFI_SSID_FALLBACK, WIFI_PASS_FALLBACK, s, n)
  | Some (a, b) =>
      img ← dp_str_set (g_dp_store s) "Network_SSID" a;
      img ← dp_str_set img "Network_Password" b;
      let s := s <| g_dp_store := img |> in
      e ← dp_config_save s n opened committed;
      ssid ← dp_str img "Network_SSID";
      pass ← dp_str img "Network_Password";
      Ok (ssid, pass, s, e.2)
  end.
End credentials.

(** ** The start-up *)

Inductive boot_call :=
  | TwdtAddMain | LoggingInitEarly | PressureHistoryInit | WdInit | DebugInit | DataStoreInit | FactoryConfigInit | DpInit
  | EventManagerInit | EventManagerStart | SubscribeBackup | BridgeEvents | BridgeEspLog | LogConfig | LoggingFlashInit
  | WdBootDiag | NetworkDefaults | TrialBootCheck | ResetReason | HalSetup | Am2302Init | PumpTaskInit | CommandInit
  | CanopenInit | WlanComInit | LinkQualityInit | SubscribeLink | SubscribeLeds | WireCoreHooks | WlanConnect | SntpInit
  | PowerMgmtInit | TmInit | TaskTableRegister | TaskComStart | LocalServerInit | TmStartAll | WatchdogTableRegister
  | AliveHook | SubscribeProbe | SubscribeSuccess | WdStart | PublishReady | TwdtDeleteMain.
#[export] Instance boot_call_eq_dec : EqDecision boot_call.
Proof. solve_decision. Defined.

Inductive boot_act := BCall (c : boot_call) | BTwdtReset | BRelayOff | BPublishFatal | BRebootIn (ms : Z) | BTeardown (ms : Z) | BRestart.
#[export] Instance boot_act_eq_dec : EqDecision boot_act.
Proof. solve_decision. Defined.

(** [Plain]: the result does not matter; [Checked]: false ends the sequence without
    more; [Step]: an [INIT_STEP], which feeds the watchdog of the main task after it. *)
Inductive boot_kind := Plain | Checked | Step.

Definition boot_sequence : list (boot_kind * boot_call) :=
  [(Plain, TwdtAddMain); (Plain, LoggingInitEarly); (Plain, PressureHistoryInit); (Plain, WdInit); (Checked, DebugInit);
   (Step, DataStoreInit); (Step, FactoryConfigInit); (Plain, DpInit); (Step, EventManagerInit); (Step, EventManagerStart);
   (Plain, SubscribeBackup); (Plain, BridgeEvents); (Plain, BridgeEspLog); (Plain, LogConfig); (Plain, LoggingFlashInit);
   (Plain, WdBootDiag); (Plain, NetworkDefaults); (Plain, TrialBootCheck); (Plain, ResetReason);
   (Step, HalSetup); (Step, Am2302Init); (Step, PumpTaskInit); (Step, CommandInit); (Step, CanopenInit); (Step, WlanComInit);
   (Step, LinkQualityInit); (Plain, SubscribeLink); (Plain, SubscribeLeds); (Plain, WireCoreHooks); (Plain, WlanConnect);
   (Plain, SntpInit); (Plain, PowerMgmtInit); (Step, TmInit); (Step, TaskTableRegister); (Step, TaskComStart);
   (Step, LocalServerInit); (Step, TmStartAll); (Step, WatchdogTableRegister); (Plain, AliveHook); (Plain, SubscribeProbe);
   (Plain, SubscribeSuccess); (Step, WdStart); (Plain, PublishReady); (Plain, TwdtDeleteMain)].

Section boot.
(** What each call answers. *)
Variable ok : boot_call → bool.

Fixpoint init_steps (l : list (boot_kind * boot_call)) : bool * list boot_act :=
  match l with
  | [] => (true, [])
  | (k, c) :: l =>
      match k with
      | Plain => let r := init_steps l in (r.1, BCall c :: r.2)
      | Checked => if negb (ok c) then (false, [BCall c]) else let r := init_steps l in (r.1, BCall c :: r.2)
      | Step => if negb (ok c) then (false, [BCall c]) else let r := init_steps l in (r.1, BCall c :: BTwdtReset :: r.2)
      end
  end.

Definition main_init : bool * list boot_act := init_steps boot_sequence.

(** [glue_pre_reboot], and the task of [system_reboot_deferred] with the hook that
    [wire_core_hooks] sets. *)
Definition glue_pre_reboot : list boot_act := [BRelayOff; BTeardown 1000].
Definition reboot_task (hook : bool) : list boot_act := (if hook then glue_pre_reboot else []) ++ [BRestart].

(** [task]: the reboot task can be created. *)
Definition app_main (task : bool) : list boot_act :=
  let r := main_init in
  r.2 ++ (if negb r.1
          then [BRelayOff; BPublishFatal; BRebootIn 10000] ++
               (if task then reboot_task (bool_decide (BCall WireCoreHooks ∈ r.2)) else [])
          else []).
End boot.

(** ** The load is a percentage *)

Definition stats_ok (r : option (list (string * Z) * Z)) : Prop :=
  match r with Some (tasks, total) => is_u32 total | None => True end.

Lemma cpu_step_range s r : is_u32 (s_ullPrevTotal s) → stats_ok r →
  ∃ pct s', cpu_utilization_pct s r = Ok (pct, s') ∧ 0 <= pct <= 100 ∧ is_u32 (s_ullPrevTotal s').
Proof.
  intros Hs Hr. destruct r as [[tasks total]|]; [|by exists 0, s]. cbn [stats_ok] in Hr. unfold cpu_utilization_pct. cbn [s_ullPrevTotal].
  set (dt := u64 (total - s_ullPrevTotal s)). set (di := u64 (idle_sum tasks - s_ullPrevIdle s)).
  assert (is_u64 dt) as Hdt by apply u64_range. assert (is_u64 di) as Hdi by apply u64_range.
  destruct (Z.eqb_spec total dt); cbn [orb]; [by exists 0, (mk_cpu (idle_sum tasks) total)|].
  destruct (Z.eqb_spec dt 0); [by exists 0, (mk_cpu (idle_sum tasks) total)|].
  set (cap := u64 (dt * 2)). assert (is_u64 cap) as Hcap by apply u64_range.
  assert (cap ≠ 0) as Hc0. { subst cap dt. unfold is_u32, is_u64 in *. cint. }
  rewrite (proj2 (Z.eqb_neq _ _) Hc0). set (d := if cap <? di then cap else di).
  assert (0 <= d <= cap) as Hd by (subst d; unfold is_u64 in *; destruct (Z.ltb_spec cap di); lia).
  assert (0 <= u64 (d * 100) / cap <= 100) as Hq.
  { unfold is_u64 in *. split; [apply Z.div_pos; [apply u64_range|lia]|]. apply Z.lt_succ_r.
    apply Z.div_lt_upper_bound; [lia|]. pose proof (Z.mod_le (d * 100) 18446744073709551616 ltac:(lia) ltac:(lia)). unfold u64. nia. }
  eexists _, (mk_cpu _ _). split; [reflexivity|]. split; [|done]. rewrite (u64_id (100 - _)) by (unfold is_u64; lia).
  rewrite u8_id by (unfold is_u8; lia). lia.
Qed.

Lemma cpu_run_range rs : ∀ s, is_u32 (s_ullPrevTotal s) → Forall stats_ok rs →
  ∃ pcts s', cpu_run s rs = Ok (pcts, s') ∧ Forall (λ p, 0 <= p <= 100) pcts ∧ is_u32 (s_ullPrevTotal s').
Proof.
  induction rs as [|r rs IH]; intros s Hs Hr; [by exists [], s|]. apply Forall_cons in Hr as [Hr Hrs].
  destruct (cpu_step_range s r Hs Hr) as (pct & s1 & E & Hp & Hs1). destruct (IH s1 Hs1 Hrs) as (pcts & s' & E' & Hps & Hs').
  cbn [cpu_run]. rewrite E. cbn [mbind res_bind fst snd]. rewrite E'. exists (pct :: pcts), s'. split; [done|]. split; [by apply Forall_cons|done].
Qed.

(** C39: every monitor run computes a load between 0 and 100 per cent without dividing by
    zero, also when the counters wrap or a reading fails; and when a further reading
    finds counters that did not wrap, after a first one, the load is exactly 100 less
    the rounded-down share of the idle time in the time of two cores. *)
Theorem cpu_utilization_in_range rs :
  Forall stats_ok rs →
  ∃ pcts s, cpu_run cpu_zero rs = Ok (pcts, s) ∧ Forall (λ p, 0 <= p <= 100) pcts ∧
    ∀ tasks total, 0 < s_ullPrevTotal s < total → is_u32 total →
      let didle := idle_sum tasks - s_ullPrevIdle s in
      let dtotal := total - s_ullPrevTotal s in
      0 <= didle <= 2 * dtotal →
      cpu_utilization_pct s (Some (tasks, total)) = Ok (100 - didle * 100 / (2 * dtotal), mk_cpu (idle_sum tasks) total).
Proof.
  intros Hr. destruct (cpu_run_range rs cpu_zero) as (pcts & s & E & Hp & Hs); [done|done|].
  exists pcts, s. split; [done|]. split; [done|]. intros tasks total Ht Hu didle dtotal Hd.
  unfold cpu_utilization_pct. cbn [s_ullPrevTotal]. fold didle dtotal. unfold is_u32 in Hu.
  rewrite !(u64_id dtotal), !(u64_id didle) by (unfold is_u64; lia). rewrite (u64_id (dtotal * 2)) by (unfold is_u64; lia).
  rewrite (proj2 (Z.eqb_neq total dtotal)), (proj2 (Z.eqb_neq dtotal 0)), (proj2 (Z.ltb_ge _ _)), (proj2 (Z.eqb_neq (dtotal * 2) 0)) by lia.
  cbn [orb]. rewrite (u64_id (didle * 100)) by (unfold is_u64; lia). rewrite (Z.mul_comm dtotal 2).
  assert (0 <= didle * 100 / (2 * dtotal) <= 100) as Hq.
  { split; [apply Z.div_pos; lia|]. apply Z.lt_succ_r, Z.div_lt_upper_bound; lia. }
  rewrite (u64_id (100 - _)) by (unfold is_u64; lia). rewrite u8_id by (unfold is_u8; lia). done.
Qed.

(** Two readings five seconds apart, a core and a half idle. *)
Definition cpu_readings : list (option (list (string * Z) * Z)) :=
  [Some ([("IDLE0", 1000000); ("main", 5); ("IDLE1", 2000000)], 10000000); None].

Lemma cpu_utilization_in_range_witness :
  ∃ pcts s, cpu_run cpu_zero cpu_readings = Ok (pcts, s) ∧
    cpu_utilization_pct s (Some ([("IDLE0", 5000000); ("IDLE1", 5500000)], 15000000)) = Ok (25, mk_cpu 10500000 15000000).
Proof.
  destruct (cpu_utilization_in_range cpu_readings) as (pcts & s & E & _ & H); [by repeat constructor|].
  exists pcts, s. split; [exact E|]. assert (s = mk_cpu 3000000 10000000) as -> by (vm_compute in E; congruence).
  apply (H [("IDLE0", 5000000); ("IDLE1", 5500000)] 15000000); vm_compute; split; done.
Defined.

(** The total has wrapped at 32 bits: a device that idled shows full load. *)
Example wrapped_counter_shows_full_load :
  cpu_utilization_pct (mk_cpu 4000000000 4294000000) (Some ([("IDLE0", 4294960000); ("IDLE1", 4294960000)], 4000000)) =
    Ok (100, mk_cpu 8589920000 4000000).
Proof. vm_compute. reflexivity. Qed.

(** ** Low memory *)

Fixpoint low_events (w : bool) (l : list Z) : list bool :=
  match l with
  | [] => []
  | f :: l => let r := low_memory_watch w f in r.2 :: low_events r.1 l
  end.

Lemma warned_until l : ∀ j, low_events true l !! j = Some true → ∃ k f, (k < j)%nat ∧ l !! k = Some f ∧ 48 * 1024 < f.
Proof.
  induction l as [|f l IH]; intros j H; [done|]. cbn [low_events] in H. unfold low_memory_watch in H. rewrite andb_false_r in H.
  destruct (Z.ltb_spec (48 * 1024) f).
  - destruct j as [|j]; [done|]. exists 0%nat, f. split_and!; [lia|done|done].
  - destruct j as [|j]; [done|]. cbn in H. destruct (IH j H) as (k & g & ? & ? & ?). exists (S k), g. split_and!; [lia|done|done].
Qed.

Lemma dips_reported l : ∀ w j f, l !! j = Some f → f < 40 * 1024 →
  (w = true ∧ ∀ k g, (k <= j)%nat → l !! k = Some g → g <= 48 * 1024) ∨
  ∃ i, (i <= j)%nat ∧ low_events w l !! i = Some true ∧ ∀ k g, (i <= k <= j)%nat → l !! k = Some g → g <= 48 * 1024.
Proof.
  induction l as [|x l IH]; intros w j f Hj Hf; [done|]. cbn [low_events]. unfold low_memory_watch.
  destruct j as [|j].
  - injection Hj as ->. rewrite (proj2 (Z.ltb_lt f _)) by lia. destruct w; cbn [negb andb].
    + left. split; [done|]. intros k g Hk Hg. replace k with 0%nat in Hg by lia. injection Hg as <-. lia.
    + right. exists 0%nat. split; [done|]. split; [done|]. intros k g Hk Hg. replace k with 0%nat in Hg by lia. injection Hg as <-. lia.
  - cbn in Hj. specialize (IH (if (x <? 40 * 1024) && negb w then (true, true) else if 48 * 1024 <? x then (false, false) else (w, false)).1 j f Hj Hf).
    destruct ((x <? 40 * 1024) && negb w) eqn:E; cbn [fst snd] in *.
    + apply andb_true_iff in E as [Hx%Z.ltb_lt _]. right. destruct IH as [[_ H]|(i & Hi & He & H)].
      * exists 0%nat. split; [lia|]. split; [done|]. intros [|k] g Hk Hg; [injection Hg as <-; lia|]. apply (H k); [lia|done].
      * exists (S i). split; [lia|]. split; [done|]. intros [|k] g Hk Hg; [lia|]. apply (H k); [lia|done].
    + destruct (Z.ltb_spec (48 * 1024) x); cbn [fst snd] in *.
      * destruct IH as [[? _]|(i & Hi & He & H0)]; [done|]. right. exists (S i). split; [lia|]. split; [done|].
        intros [|k] g Hk Hg; [lia|]. apply (H0 k); [lia|done].
      * destruct IH as [[-> H0]|(i & Hi & He & H0)].
        -- left. split; [done|]. intros [|k] g Hk Hg; [injection Hg as <-; lia|]. apply (H0 k); [lia|done].
        -- right. exists (S i). split; [lia|]. split; [done|]. intros [|k] g Hk Hg; [lia|]. apply (H0 k); [lia|done].
Qed.

(** of the free heap seen cycle by cycle since the boot, every value below 40 KiB
    lies behind an event since which the heap was never above 48 KiB, and between two
    events it was: one event per dip. *)
Theorem low_memory_reported_once l :
  (∀ j f, l !! j = Some f → f < 40 * 1024 →
     ∃ i, (i <= j)%nat ∧ low_events false l !! i = Some true ∧ ∀ k g, (i <= k <= j)%nat → l !! k = Some g → g <= 48 * 1024) ∧
  (∀ i j, (i < j)%nat → low_events false l !! i = Some true → low_events false l !! j = Some true →
     ∃ k f, (i < k < j)%nat ∧ l !! k = Some f ∧ 48 * 1024 < f).
Proof.
  split; [intros j f Hj Hf; by destruct (dips_reported l false j f Hj Hf) as [[? _]|?]|].
  generalize false as w. induction l as [|x l IH]; intros w i j Hij Hi Hj; [done|]. cbn [low_events] in Hi, Hj.
  destruct j as [|j]; [lia|]. cbn in Hj. destruct i as [|i].
  - cbn in Hi. injection Hi as Hi. assert ((low_memory_watch w x).1 = true) as Hw.
    { unfold low_memory_watch in *. destruct (_ && _); [done|]. destruct (_ <? _); done. }
    rewrite Hw in Hj. destruct (warned_until l j Hj) as (k & f & Hk & Hl & Hf). exists (S k), f. split_and!; [lia..|done|done].
  - cbn in Hi. destruct (IH _ i j ltac:(lia) Hi Hj) as (k & f & Hk & Hl & Hf). exists (S k), f. split_and!; [lia..|done|done].
Qed.

(** ** A cycle *)

Definition first_points (s : monitor_t) (io : monitor_io) (pct : Z) : list (string * dp_const) :=
  system_points io pct ++ log_points (mn_log s) (mn_flash s).
Definition last_points (s : monitor_t) (io : monitor_io) : list (string * dp_const) :=
  history_points (mn_ring s) ++ radio_points io.
Definition mirrored (s : monitor_t) (io : monitor_io) (pct : Z) : list (string * dp_const) :=
  first_points s io pct ++ last_points s io.

Definition gate_names : list string := ["Log_Enabled"; "Log_Runtime_Level"; "Log_Flash_Level"].

Lemma mirrored_names s io pct : forallb put_name (mirrored s io pct) = true.
Proof. unfold mirrored, last_points, radio_points. destruct (mo_ap io), (mo_next_part io); reflexivity. Qed.

Lemma mirrored_nodup s io pct : NoDup (gate_names ++ (mirrored s io pct).*1).
Proof.
  unfold mirrored, last_points, radio_points.
  destruct (mo_ap io), (mo_next_part io); apply (bool_decide_unpack _); vm_compute; exact I.
Qed.

Lemma refs_put_app l k : ∀ img, dp_refs_put img (l ++ k) = (img' ← dp_refs_put img l; dp_refs_put img' k).
Proof.
  induction l as [|[n v] l IH]; intros img; [done|]. cbn [app dp_refs_put]. destruct (dp_ref_put img n v); [|done..]. apply IH.
Qed.

(** on a well-typed image a monitor cycle always ends well: each figure of the
    system, the log, the flash log, the pressure history and the radio stands in its
    datapoint, every other datapoint is untouched, the gates of the log are what their
    datapoints say, and then the power manager, the link supervision, the trial and the
    event of the cycle follow in this order. *)
Theorem monitor_mirrors_the_system s io :
  img_typed (mn_img s) → is_u32 (s_ullPrevTotal (mn_cpu s)) → stats_ok (mo_tasks io) →
  ∃ pct s' en rt fl,
    main_monitor_cycle s io = Ok (ESP_OK, s', (if (low_memory_watch (mn_low_warned s) (mo_free_heap io)).2
        then [EvtLowMemory (mo_free_heap io)] else []) ++ [PowerTick; LinkTick; TrialTick; EvtMonitorTick]) ∧
    0 <= pct <= 100 ∧ puts_spec (mirrored s io pct) (mn_img s) (mn_img s') ∧
    ref_uint (mn_img s') "Log_Enabled" = Ok en ∧ ref_uint (mn_img s') "Log_Runtime_Level" = Ok rt ∧
    ref_uint (mn_img s') "Log_Flash_Level" = Ok fl ∧
    mn_log s' = logging_set_runtime_level (logging_set_enabled (mn_log s) (negb (en =? 0))) rt ∧
    mn_flash s' = logging_set_flash_level (mn_flash s) fl ∧ mn_ring s' = mn_ring s.
Proof.
  intros Ht Hc Hst. destruct (cpu_step_range (mn_cpu s) (mo_tasks io) Hc Hst) as (pct & cpu & Ec & Hp & _).
  pose proof (mirrored_nodup s io pct) as Hnd. apply NoDup_app in Hnd as (_ & Hgate & Hnd).
  pose proof (mirrored_names s io pct) as Hnm.
  destruct (proj1 (safe_ok _ _) (refs_put_ok (mirrored s io pct) (mn_img s) Ht Hnd Hnm)) as (img2 & E2 & Hput).
  unfold mirrored in Hnd, Hnm, E2. rewrite forallb_app in Hnm. apply andb_true_iff in Hnm as [Hnm1 _].
  rewrite fmap_app in Hnd. apply NoDup_app in Hnd as (Hnd1 & _ & _).
  destruct (proj1 (safe_ok _ _) (refs_put_ok (first_points s io pct) (mn_img s) Ht Hnd1 Hnm1)) as (img1 & E1 & Hput1).
  rewrite refs_put_app, E1 in E2. cbn [mbind res_bind] in E2. unfold first_points in E1. rewrite refs_put_app in E1.
  assert (∀ n, n ∈ gate_names → dp_ref img1 n = dp_ref img2 n) as Hg.
  { intros n Hn. specialize (Hgate n Hn). rewrite (ps_keep _ _ _ Hput n Hgate). apply (ps_keep _ _ _ Hput1).
    unfold mirrored in Hgate. rewrite fmap_app in Hgate. by apply not_elem_of_app in Hgate as [? _]. }
  destruct (ref_safe img1 "Log_Enabled" (ps_typed _ _ _ Hput1)) as (b1 & G1); [vm_compute; reflexivity|].
  destruct (ref_safe img1 "Log_Runtime_Level" (ps_typed _ _ _ Hput1)) as (b2 & G2); [vm_compute; reflexivity|].
  destruct (ref_safe img1 "Log_Flash_Level" (ps_typed _ _ _ Hput1)) as (b3 & G3); [vm_compute; reflexivity|].
  unfold main_monitor_cycle. rewrite Ec. cbn [mbind res_bind fst snd].
  destruct (dp_refs_put (mn_img s) (system_points io pct)) as [img0| |]; cbn [mbind res_bind] in E1 |- *; try discriminate E1.
  rewrite E1. cbn [mbind res_bind]. unfold apply_log_config, ref_uint. rewrite G1, G2, G3. cbn [mbind res_bind].
  unfold last_points in E2. rewrite E2. cbn [mbind res_bind fst snd].
  eexists pct, _, _, _, _. split; [reflexivity|]. split; [exact Hp|]. split; [exact Hput|]. cbn [mn_img mn_log mn_flash mn_ring].
  rewrite <- !Hg, G1, G2, G3 by (unfold gate_names; set_solver). split_and!; reflexivity.
Qed.

Definition demo_monitor : monitor_t :=
  mk_monitor cpu_zero false default_image (logging_init_early 5 (replicate 256 0))
    log_flash_boot pressure_history_init.
Definition demo_io : monitor_io := mk_monitor_io 75000000 50000 30000 3 None 0 [0; 900; 1500] (Some (-61)) None.

Lemma monitor_mirrors_the_system_witness :
  ∃ s' d, main_monitor_cycle demo_monitor demo_io = Ok (ESP_OK, s', [EvtLowMemory 30000; PowerTick; LinkTick; TrialTick; EvtMonitorTick]) ∧
    dp_find "System_Min_Stack_Free" = Some d ∧ dp_ref (mn_img s') "System_Min_Stack_Free" = Ok (const_bytes (dd_type d) (CInt 900)).
Proof.
  destruct (monitor_mirrors_the_system demo_monitor demo_io) as (pct & s' & en & rt & fl & E & _ & Hput & _);
    [apply defaults_typed|done|done|].
  destruct (dp_find "System_Min_Stack_Free") as [d|] eqn:Ed; [|vm_compute in Ed; discriminate Ed].
  exists s', d. split; [exact E|]. split; [reflexivity|].
  apply (ps_put _ _ _ Hput _ (CInt 900) d); [|exact Ed].
  change (CInt 900) with (CInt (min_stack (mo_watermarks demo_io))).
  unfold mirrored, first_points, system_points. apply elem_of_app; left. apply elem_of_app; left.
  do 5 apply list_elem_of_further. apply list_elem_of_here.
Defined.

(** ** The start-up *)

(** The calls of a sequence with their feeding of the watchdog. *)
Definition done_acts (l : list (boot_kind * boot_call)) : list boot_act :=
  flat_map (λ x, BCall x.2 :: match x.1 with Step => [BTwdtReset] | _ => [] end) l.

Definition fatal (k : boot_kind) : bool := match k with Plain => false | _ => true end.

Lemma init_steps_spec ok l :
  (init_steps ok l = (true, done_acts l) ∧ ∀ k c, (k, c) ∈ l → fatal k = true → ok c = true) ∨
  ∃ pre k c post, l = pre ++ (k, c) :: post ∧ fatal k = true ∧ ok c = false ∧
    (∀ k' c', (k', c') ∈ pre → fatal k' = true → ok c' = true) ∧ init_steps ok l = (false, done_acts pre ++ [BCall c]).
Proof.
  induction l as [|[k c] l IH]; [left; split; [done|by intros ? ? ?%not_elem_of_nil]|]. cbn [init_steps done_acts flat_map fst snd].
  destruct (fatal k && negb (ok c)) eqn:E.
  - apply andb_true_iff in E as [Hk Hc%negb_true_iff]. right. exists [], k, c, l. split; [done|]. split; [done|]. split; [done|].
    split; [by intros ? ? ?%not_elem_of_nil|]. destruct k; [done| |]; by rewrite Hc.
  - assert (fatal k = true → ok c = true) as Hok by (intros Hk; rewrite Hk in E; cbn in E; by apply negb_false_iff in E).
    assert (∀ r, (match k with Plain => (r.1, BCall c :: r.2)
        | Checked => if negb (ok c) then (false, [BCall c]) else (r.1, BCall c :: r.2)
        | Step => if negb (ok c) then (false, [BCall c]) else (r.1, BCall c :: BTwdtReset :: r.2) end : bool * list boot_act)
        = (r.1, (BCall c :: match k with Step => [BTwdtReset] | _ => [] end) ++ r.2)) as Hr.
    { intros r. destruct k; [done| |]; by rewrite Hok. }
    cbv zeta. rewrite Hr. destruct IH as [[-> Hl]|(pre & k' & c' & post & -> & Hk' & Hc' & Hpre & ->)].
    + left. split; [done|]. intros k' c' [[= -> ->]|Hin]%elem_of_cons; [done|by apply Hl].
    + right. exists ((k, c) :: pre), k', c', post. split; [done|]. split; [done|]. split; [done|]. split.
      * intros k1 c1 [[= -> ->]|Hin]%elem_of_cons; [done|by apply Hpre].
      * cbn [fst snd done_acts flat_map]. by rewrite <- (assoc_L app).
Qed.

Lemma init_failure_stops ok : main_init ok = (true, done_acts boot_sequence) ∨
  ∃ pre k c post, boot_sequence = pre ++ (k, c) :: post ∧ fatal k = true ∧ ok c = false ∧
    (∀ k' c', (k', c') ∈ pre → fatal k' = true → ok c' = true) ∧ main_init ok = (false, done_acts pre ++ [BCall c]).
Proof. destruct (init_steps_spec ok boot_sequence) as [[? _]|?]; [by left|by right]. Qed.

(** a start-up either runs through all its calls, or ends at the first checked call
    that fails: nothing of the sequence runs after it, and the failure path is taken:
    the call that switches the relay off, the fatal event, and the request of a reboot
    in ten seconds; where the task for it can be created, it restarts the unit, through
    the hook with the relay switched off once more if the hooks were already wired.
    What the calls do, and what the tasks that already run do meanwhile, is not part of
    this list: see the two examples below. *)
Theorem failed_start_is_safe ok task :
  app_main ok task = done_acts boot_sequence ∨
  ∃ pre k c post, boot_sequence = pre ++ (k, c) :: post ∧ fatal k = true ∧ ok c = false ∧
    (∀ k' c', (k', c') ∈ pre → fatal k' = true → ok c' = true) ∧
    app_main ok task = done_acts pre ++ [BCall c; BRelayOff; BPublishFatal; BRebootIn 10000] ++
      (if task then if decide (WireCoreHooks ∈ pre.*2) then [BRelayOff; BTeardown 1000; BRestart] else [BRestart] else []).
Proof.
  unfold app_main. destruct (init_failure_stops ok) as [->|(pre & k & c & post & Hs & Hk & Hc & Hpre & ->)].
  - left. cbn [fst snd negb]. by rewrite app_nil_r.
  - right. exists pre, k, c, post. split; [done|]. split; [done|]. split; [done|]. split; [done|].
    cbn [fst snd negb]. rewrite <- (assoc_L app). cbn [app]. do 5 f_equal. unfold reboot_task. destruct task; [|done].
    assert (BCall WireCoreHooks ∈ done_acts pre ++ [BCall c] ↔ WireCoreHooks ∈ pre.*2) as Hw.
    { assert (c ≠ WireCoreHooks) as Hne.
      { intros ->. assert ((k, WireCoreHooks) ∈ boot_sequence) as Hin by (rewrite Hs; apply elem_of_app; right; by left).
        assert (forallb (λ x, negb (fatal x.1 && bool_decide (x.2 = WireCoreHooks))) boot_sequence = true) as Hall by reflexivity.
        rewrite forallb_forall in Hall. specialize (Hall _ (proj1 (list_elem_of_In _ _) Hin)). cbn in Hall. by rewrite Hk in Hall. }
      rewrite elem_of_app, list_elem_of_singleton. clear - Hne. split.
      - intros [H|[= <-]]; [|done]. induction pre as [|[k' c'] pre IH]; [by apply not_elem_of_nil in H|].
        cbn [done_acts flat_map fst snd] in H. rewrite elem_of_app, elem_of_cons in H. cbn [fmap list_fmap snd]. apply elem_of_cons.
        destruct H as [[[= <-]|H]|H]; [by left| |right; by apply IH].
        destruct k'; [by apply not_elem_of_nil in H..|]. by apply list_elem_of_singleton in H.
      - intros H. left. induction pre as [|[k' c'] pre IH]; [by apply not_elem_of_nil in H|].
        cbn [fmap list_fmap snd] in H. cbn [done_acts flat_map fst snd]. rewrite elem_of_app. apply elem_of_cons in H as [<-|H];
          [left; by left|right; by apply IH]. }
    case_decide as Hd; [rewrite bool_decide_eq_true_2|rewrite bool_decide_eq_false_2]; try done; tauto.
Qed.

(** The last steps come after the tasks were started: when one of them fails, the pump
    task is running, and its next cycle sets the relay again. *)
Example late_failure_leaves_the_pump_task :
  let tr := app_main (λ c, negb (bool_decide (c = WdStart))) true in
  BCall TmStartAll ∈ tr ∧ tr = done_acts (take 41 boot_sequence) ++
    [BCall WdStart; BRelayOff; BPublishFatal; BRebootIn 10000; BRelayOff; BTeardown 1000; BRestart].
Proof. split; [apply list_elem_of_In; vm_compute; tauto|vm_compute; reflexivity]. Qed.

(** The reboot task cannot be created: the unit stays as it is. *)
Example no_task_no_reboot :
  BRestart ∉ app_main (λ c, negb (bool_decide (c = HalSetup))) false.
Proof. intros H%list_elem_of_In. vm_compute in H. intuition discriminate. Qed.

(** ** Migrated credentials *)

(** A string that fits is assigned and read back. *)
Lemma str_put img name d t :
  img_typed img → dp_find name = Some d → dd_type d = DP_STR → Forall is_u8 t → Forall (λ c, c ≠ 0) t → (length t <= 63)%nat →
  ∃ img', dp_str_set img name t = Ok img' ∧ img_typed img' ∧ dp_str img' name = Ok t ∧
    ∀ n, n ≠ name → dp_ref img' n = dp_ref img n.
Proof.
  intros Ht Hf Hty Hb Hn Hl.
  destruct (ref_set_spec img name d (copy_string t) Ht Hf) as (img' & E & Ht' & Hr & Hk).
  - rewrite copy_string_len. unfold dp_size. by rewrite Hty.
  - by apply copy_string_bytes.
  - apply str_typed; [done|]. apply list_elem_of_In. unfold copy_string, DP_STR_MAX. apply in_or_app. right.
    rewrite take_ge by lia. destruct (Z.to_nat 64 - length t)%nat eqn:Ek; [lia|by left].
  - exists img'. split; [done|]. split; [done|]. split; [|done]. unfold dp_str. rewrite Hr. cbn [mbind res_bind].
    by apply copy_string_reads.
Qed.

Lemma c_string_none t : Forall (λ c, c ≠ 0) t → c_string t = OutOfBounds.
Proof. induction 1 as [|c t Hc Ht IH]; [done|]. cbn. rewrite (proj2 (Z.eqb_neq c 0)) by done. by rewrite IH. Qed.

(** [strncpy] of 63 characters out of a terminated array. *)
Lemma strncpy_text t r : Forall (λ c, c ≠ 0) t → (length t <= 63)%nat →
  match c_string (take 63 (t ++ 0 :: r)) with
  | Ok u => Ok u
  | _ => if decide (63 <= length (t ++ 0%Z :: r))%nat then Ok (take 63 (t ++ 0 :: r)) else OutOfBounds
  end = Ok t.
Proof.
  intros Hn Hl. destruct (decide (length t = 63%nat)) as [E|E].
  - rewrite take_app_le, take_ge by lia. rewrite c_string_none by done.
    rewrite decide_True by (rewrite length_app; cbn; lia). done.
  - rewrite take_app_ge by lia. destruct (63 - length t)%nat as [|k] eqn:Ek; [lia|]. cbn [take]. by rewrite c_string_app.
Qed.

Section migration.
Context {nvs : Type} `{!NvsApi nvs}.

(** with no name in the datapoints, credentials that the driver still has are used
    and moved into the datapoints, nothing else changes, and every later resolution
    finds them there, whatever the driver has by then and whether or not the flash took
    them. *)
Theorem credentials_migrated_once w (s : dp_state) (n : nvs) t r p q opened committed :
  img_typed (g_dp_store s) → dp_str (g_dp_store s) "Network_SSID" = Ok [] → s_bInited w = true →
  t ≠ [] → Forall is_u8 t → Forall is_u8 p → Forall (λ c, c ≠ 0) t → Forall (λ c, c ≠ 0) p →
  (length t <= 63)%nat → (length p <= 63)%nat →
  ∃ s' n', wlan_credentials_resolve w s n (Some (t ++ 0 :: r, p ++ 0 :: q)) opened committed = Ok (t, p, s', n') ∧
    img_typed (g_dp_store s') ∧
    (∀ name, name ≠ "Network_SSID" → name ≠ "Network_Password" → dp_ref (g_dp_store s') name = dp_ref (g_dp_store s) name) ∧
    ∀ w' saved o c, wlan_credentials_resolve w' s' n' saved o c = Ok (t, p, s', n').
Proof.
  intros Ht He Hi Hne Hbt Hbp Hnt Hnp Hlt Hlp.
  destruct (dp_find "Network_SSID") as [ds|] eqn:Es; [|vm_compute in Es; discriminate Es].
  destruct (dp_find "Network_Password") as [dq|] eqn:Eq; [|vm_compute in Eq; discriminate Eq].
  assert (dd_type ds = DP_STR) as Hts by (vm_compute in Es; injection Es as <-; reflexivity).
  assert (dd_type dq = DP_STR) as Htq by (vm_compute in Eq; injection Eq as <-; reflexivity).
  destruct (str_put _ _ ds t Ht Es Hts Hbt Hnt Hlt) as (i1 & E1 & T1 & R1 & K1).
  destruct (str_put _ _ dq p T1 Eq Htq Hbp Hnp Hlp) as (i2 & E2 & T2 & R2 & K2).
  assert (dp_str i2 "Network_SSID" = Ok t) as R1' by (unfold dp_str; rewrite K2 by discriminate; exact R1).
  assert (∃ pw, dp_str (g_dp_store s) "Network_Password" = Ok pw) as (pw & Epw).
  { pose proof Ht as [Hio Hty]. unfold dp_str. rewrite (dp_ref_slot _ _ dq) by done. cbn [mbind res_bind].
    pose proof (proj1 (dp_find_some _ _) Eq) as [Hd _]. specialize (Hty dq Hd). unfold typed_slot in Hty. rewrite Htq in Hty.
    apply bool_decide_eq_true in Hty. by apply c_string_total. }
  destruct (config_save_total (s <| g_dp_store := i2 |>) n opened committed) as (e & Esave); [apply T2|].
  assert (wlan_com_saved_credentials_get w (Some (t ++ 0 :: r, p ++ 0 :: q)) 64 64 = Ok (Some (t, p))) as Eg.
  { unfold wlan_com_saved_credentials_get. change ((64 =? 0) || (64 =? 0)) with false. rewrite Hi. cbv iota. cbn [negb].
    change (Z.to_nat (64 - 1)) with 63%nat. rewrite !strncpy_text by done.
    destruct t as [|c0 t]; [done|]. assert (array_get ((c0 :: t) ++ 0 :: r) 0 = Ok c0) as -> by reflexivity.
    cbn [mbind res_bind]. apply Forall_cons in Hnt as [Hc0 _]. by rewrite (proj2 (Z.eqb_neq c0 0)). }
  unfold wlan_credentials_resolve. rewrite He, Epw. cbn [mbind res_bind]. rewrite (bool_decide_eq_true_2 ([] = [])) by done. cbn [negb].
  rewrite Eg. cbn [mbind res_bind]. rewrite E1. cbn [mbind res_bind]. rewrite E2. cbn [mbind res_bind]. rewrite Esave. cbn [mbind res_bind].
  rewrite R1', R2. cbn [mbind res_bind]. eexists _, _. split; [reflexivity|]. split; [exact T2|]. split.
  - intros name H1 H2. change (g_dp_store (s <| g_dp_store := i2 |>)) with i2. by rewrite K2, K1.
  - intros w' saved o c. change (g_dp_store (s <| g_dp_store := i2 |>)) with i2. rewrite R1', R2. cbn [mbind res_bind].
    by rewrite bool_decide_eq_false_2.
Qed.
End migration.

Lemma cstr_bytes t : Forall is_u8 (cstr t).
Proof.
  unfold cstr. apply Forall_fmap, Forall_forall. intros a _. pose proof (Ascii.N_ascii_bounded a). unfold is_u8. cbn. lia.
Qed.

Lemma credentials_migrated_once_witness :
  ∃ s' n', wlan_credentials_resolve (wlan_zero <| s_bInited := true |>) (mk_dp default_image [] 0 0) (mk_room ∅ ∅ 0)
      (Some (cstr "home" ++ 0 :: replicate 27 0, cstr "secret" ++ 0 :: replicate 57 0)) ESP_OK ESP_OK = Ok (cstr "home", cstr "secret", s', n').
Proof.
  destruct (credentials_migrated_once (wlan_zero <| s_bInited := true |>) (mk_dp default_image [] 0 0) (mk_room ∅ ∅ 0) (cstr "home") (replicate 27 0)
              (cstr "secret") (replicate 57 0) ESP_OK ESP_OK) as (s' & n' & E & _).
  - apply defaults_typed.
  - vm_compute. reflexivity.
  - reflexivity.
  - discriminate.
  - apply cstr_bytes.
  - apply cstr_bytes.
  - apply cstr_literal_no_nul. reflexivity.
  - apply cstr_literal_no_nul. reflexivity.
  - cbn. lia.
  - cbn. lia.
  - exists s', n'. exact E.
Defined.
